(* ===== verification/_CoqProject ===== *)
-Q . S2P
Prelude.v
CString.v
Ulib.v
Printf.v
User.v
Grep.v
Umalloc.v
Drawlib.v
DrawLine.v
DrawFill.v
DrawCircle.v
AiDraw.v
DrawSafe.v
Ai.v
Pipe.v
Locks.v
Kalloc.v
Mp.v
Vm.v
VmTree.v
VmSpace.v
VmUser.v
VmFork.v
Syscall.v
Bio.v
Log.v
Fs.v
FsPath.v
FsInode.v
FsTxn.v
FsAlloc.v
FsFile.v
FsContents.v
FsCall.v
Mkfs.v
Ide.v
IdeRefine.v
Boot.v
FsDir.v
Ls.v
MkfsImage.v
MkfsMount.v
Exec.v
ExecStack.v
Sh.v
ShParse.v
ShGrammar.v
File.v
FileRefs.v
Sysfile.v
ShRun.v
Init.v
Proc.v
Trap.v
Ioapic.v
Lapic.v
Smp.v
Segments.v
Display.v
Console.v
Tty.v
Uart.v
Kbd.v
Devices.v
Screen.v
Demos.v
