(* ===== verification/Prelude.v ===== *)
(** Verification of xv6draw.

    xv6draw is a small Unix-like kernel for 64-bit PCs with a program, [aidraw], that
    asks an agent on a serial line for a drawing and shows it.  This library models
    the kernel, the drawing program, the shell and utilities, the boot loader and the
    image builder, and proves what makes each of them correct.  This header says what
    is modelled where; the rest of this file is the shared prelude: machine integers,
    outcomes, the state monad, loops with their rules, and tactics.

    * How the program is put together

    [bootmain] loads the kernel from a disk; [main] initialises allocator, page
    tables, interrupt controllers, devices, caches and the first process, and starts
    the other processors.  A process enters the kernel by a system call (arguments
    are fetched from its memory and checked) or a trap (devices, clock, errors).
    Files go down from descriptors over open files, inodes and the log to the buffer
    cache and a disk; the image they start from is written by [mkfs].  [aidraw] joins
    its arguments to a prompt, calls [ai_query], which sends it on the serial port
    and collects the framed response, parses the response as drawing commands, paints
    a canvas of 320 by 200 bytes and copies it to the display device in graphics
    mode until a key is pressed.

    * Files and sources

    Each file opens with a comment on its state and what it takes as given.

    Library routines: [CString] (string.c, ulib.c: memory and strings), [Ulib] (the
    copying routines of ulib.c), [Printf] (printf.c), [Umalloc] (umalloc.c).

    Drawing: [Drawlib] (drawlib.c), [DrawLine], [DrawFill], [DrawCircle] (what its
    shapes are), [AiDraw] (the parser, interpreter and prompt of aidraw.c), [DrawSafe]
    (memory safety and termination on any response), [Screen] (main of aidraw.c and
    canvas_blit on display, console and keyboard), [Demos] (drawdemo.c, imshow.c).

    The agent protocol: [Ai] (ai.c), [Uart] (uart.c, under [Ai] and [Console]).

    Memory: [Kalloc] (kalloc.c), [Vm] (vm.c), [VmTree], [VmSpace], [VmUser], [VmFork]
    (page tables as trees, address spaces, fork), [Exec], [ExecStack] (exec.c, elf.h),
    [Syscall] (syscall.c, sysproc.c), [Segments] (seginit and syscallinit, mmu.h).

    Processes and interrupts: [Locks] (spinlock.c, sleeplock.c), [Proc] (proc.c),
    [Pipe] (pipe.c), [Trap] (trap.c, traps.h), [Devices] (the device handlers behind
    it), [Ioapic] (ioapic.c), [Lapic] (lapic.c), [Mp] (mp.c), [Smp] (startothers of
    main.c).

    Files: [Bio] (bio.c, memide.c), [Ide], [IdeRefine] (ide.c), [Log] (log.c), [Fs]
    (fs.c), [FsPath], [FsInode], [FsTxn], [FsAlloc], [FsFile], [FsContents], [FsDir],
    [FsCall] (its theorems, from blocks in a transaction up to whole calls), [File],
    [FileRefs] (file.c, descriptors), [Sysfile] (sysfile.c), [Mkfs], [MkfsImage],
    [MkfsMount] (mkfs.c), [Boot] (bootmain.c).

    Devices: [Display] (vga.c, display.c), [Console], [Tty] (console.c), [Kbd] (kbd.c).

    Programs: [Sh], [ShParse], [ShGrammar], [ShRun] (sh.c), [Init] (init.c), [User],
    [Grep] (echo.c, cat.c, wc.c, grep.c), [Ls] (ls.c, ln.c, mkdir.c, rm.c, kill.c).

    * How the code is modelled

    A C integer is a [Z], wrapped to its width after every operation that can leave
    it.  A function is a Rocq function on the explicit state of its component, in
    [res] or the monad [M]: [Panic] is a call of [panic] or [exit(1)], [Fault] an
    access outside its object.  Where addresses matter (page allocator, page tables,
    [exec], string routines, boot loader, MP tables) the state is memory by address.
    A lock makes the code under it one step; what runs between steps is a step
    relation ([Locks], [Pipe], [Proc], [Ai], [Ide], [FileRefs], [Umalloc]), and the
    theorems hold in all reachable states.  Crashes are prefixes of the sequence of
    disk writes ([Log]).

    Hardware is an interface: a class of operations and a class of the laws the
    manuals give (one law of the drive says more, see [Ide]), with a concrete instance
    that shows the laws can hold: the VGA adapter ([Display]), the drive ([Ide], also
    under [Boot]), the serial port ([Uart]), both interrupt controllers ([Ioapic],
    [Lapic]).  The device handlers are such an interface to [Trap]; its instance in
    [Devices] is the models of the drivers, and the theorem on traps is about them.

    Loops that are not structural take fuel.  The definitions choose it from the data
    (the length of a buffer, the pages of a range, the size of a directory) or the
    theorem bounds it ([patience], the number of status readings a drive needs).
    A theorem about a result proves [Ok], so that running out of fuel does not make
    it true.  The exception is memory safety of the drawing routines on arbitrary
    responses ([DrawSafe]): when coordinates overflow, the loops of drawlib.c may run
    on forever, so that there is no result; there the fuel is a parameter ([Fuel]) and
    the statement is for every value of it, that is, for every part of every run.

    * What the theorems show

    - Drawing: every drawing program printed as text is parsed back to its effect;
      on any response at all no store leaves the canvas, however long the loops run,
      and if its numbers are in range rendering ends; lines are
      within half a pixel of the exact line, triangles are exactly their lattice
      points; a whole session shows the picture and restores the screen.
    - Agent protocol: the response framed on the line is what the caller gets, in
      every interleaving the object stays sound, a late response is drained before
      the next query is accepted; the serial interrupt hands every byte to protocol
      or console.
    - Kernel core: mutual exclusion of spin locks, no lost wakeup and first-in
      first-out order of pipes, a sound process table under scheduling, fork, exit,
      wait, kill and every trap, with no panic unless init exits; pages are conserved; fork copies an address space,
      [sbrk] grows and shrinks it, [exec] builds the stack [main] expects and checks
      its arguments.
    - Files: the buffer cache is an array of blocks, the disk driver is the memory
      disk, recovery is all or nothing at every crash point, a write is read back,
      directories are finite maps, reference counts are exact, and the image of
      [mkfs] is a file system with the given files.
    - Devices: the console shows what is written, input follows the line discipline,
      the keys of a US keyboard reach the reader, text survives graphics mode.
    - Programs: the shell parser is safe and inverts the printer of commands, pipes
      and redirections are wired as the command says; grep on a regular file prints
      exactly the lines in the language of the pattern; ls lists a directory; malloc's blocks are
      disjoint.
    - Start: the loader brings the kernel to its place, the processors of the MP
      table are found and started on stacks of their own, interrupts of the devices
      reach their handlers, the descriptor table holds the segments the system call
      instructions load.

    * Not modelled

    The assembly (mode switches, trap entry, context switch, system call stubs); the
    order of initialisation in [main], whose calls are modelled in their components;
    the stack frames [allocproc] and [forkret] prepare for the context switch; tests
    and demonstrations without logic of their own (usertests.c, forktest.c,
    stressfs.c, zombie.c, prettyprint.c).  The file system below the log is modelled
    for one process at a time: two processes in one buffer or inode would meet at a
    sleep lock, which is modelled on its own in [Locks].  The timing of devices is a
    bound on status readings. *)
From Stdlib Require Import ZifyBool.
From stdpp Require Import base strings numbers list.
Local Open Scope Z_scope.

(** * Machine integers

    A C integer of width [w] is a [Z] kept in range by wrapping after every
    operation that can leave it: [uN] for the unsigned types, [sN] for the
    signed ones (two's complement, the behaviour of the compiler on the target
    machine). *)
Definition u8 (z : Z) : Z := z mod 2 ^ 8.
Definition u16 (z : Z) : Z := z mod 2 ^ 16.
Definition u32 (z : Z) : Z := z mod 2 ^ 32.
Definition u64 (z : Z) : Z := z mod 2 ^ 64.
Definition s8 (z : Z) : Z := (z + 2 ^ 7) mod 2 ^ 8 - 2 ^ 7.
Definition s16 (z : Z) : Z := (z + 2 ^ 15) mod 2 ^ 16 - 2 ^ 15.
Definition s32 (z : Z) : Z := (z + 2 ^ 31) mod 2 ^ 32 - 2 ^ 31.
Definition s64 (z : Z) : Z := (z + 2 ^ 63) mod 2 ^ 64 - 2 ^ 63.

Definition is_u8 (z : Z) : Prop := 0 <= z < 2 ^ 8.
Definition is_u32 (z : Z) : Prop := 0 <= z < 2 ^ 32.
Definition is_u64 (z : Z) : Prop := 0 <= z < 2 ^ 64.
Definition is_s32 (z : Z) : Prop := - 2 ^ 31 <= z < 2 ^ 31.
Definition is_s64 (z : Z) : Prop := - 2 ^ 63 <= z < 2 ^ 63.

(** * Outcomes

    [Ok a] is a normal return; [Panic m] is a call of the kernel's [panic] (or
    the shell's); [Fault] is an access outside the object a pointer refers to;
    [NoFuel] says that the number of iterations given to a loop was too small. *)
Inductive res (A : Type) : Type :=
  | Ok (a : A)
  | Panic (msg : string)
  | Fault
  | NoFuel.
Arguments Ok {A} _.
Arguments Panic {A} _.
Arguments Fault {A}.
Arguments NoFuel {A}.

#[export] Instance res_ret : MRet res := fun A a => Ok a.
#[export] Instance res_bind : MBind res := fun A B f m =>
  match m with
  | Ok a => f a
  | Panic s => Panic s
  | Fault => Fault
  | NoFuel => NoFuel
  end.

(** State-passing computations of the kernel components. *)
Definition M (S A : Type) : Type := S -> res (A * S).
#[export] Instance M_ret {S} : MRet (M S) := fun A a s => Ok (a, s).
#[export] Instance M_bind {S} : MBind (M S) := fun A B f m s =>
  match m s with
  | Ok (a, s') => f a s'
  | Panic e => Panic e
  | Fault => Fault
  | NoFuel => NoFuel
  end.
Definition get {S} : M S S := fun s => Ok (s, s).
Definition put {S} (s' : S) : M S unit := fun _ => Ok (tt, s').
Definition gets {S A} (f : S -> A) : M S A := fun s => Ok (f s, s).
Definition modify {S} (f : S -> S) : M S unit := fun s => Ok (tt, f s).
Definition panic {S A} (msg : string) : M S A := fun _ => Panic msg.
Definition fault {S A} : M S A := fun _ => Fault.
Definition lift {S A} (r : res A) : M S A := fun s =>
  match r with
  | Ok a => Ok (a, s)
  | Panic e => Panic e
  | Fault => Fault
  | NoFuel => NoFuel
  end.
Definition when {S} (b : bool) (m : M S unit) : M S unit :=
  if b then m else mret tt.

(** * Loops

    [while_ fuel cond body s] is a C loop on the loop state [s]: the condition
    is tested first, then the body runs.  [fuel] bounds the iterations. *)
Fixpoint while_ {S : Type} (fuel : nat) (cond : S -> bool) (body : S -> res S)
    (s : S) : res S :=
  if cond s then
    match fuel with
    | O => NoFuel
    | Datatypes.S fuel => body s ≫= while_ fuel cond body
    end
  else Ok s.

(** [loop_ fuel body s] is a [for(;;)] loop: the body either continues with a
    new loop state ([inl]) or leaves the loop with a value ([inr]: a [break] or
    a [return]). *)
Fixpoint loop_ {S R : Type} (fuel : nat) (body : S -> res (S + R)) (s : S)
    : res R :=
  match fuel with
  | O => NoFuel
  | Datatypes.S fuel =>
      r ← body s;
      match r with inl s' => loop_ fuel body s' | inr v => Ok v end
  end.

(** The total-correctness rule of [while_]: an invariant kept by the body and
    a measure that the body decreases and that the fuel covers. *)
Lemma while_rule {S : Type} (cond : S -> bool) (body : S -> res S)
    (I : S -> Prop) (m : S -> Z) (fuel : nat) (s : S) :
  I s -> (forall s, I s -> cond s = true -> 0 < m s) -> m s <= Z.of_nat fuel ->
  (forall s, I s -> cond s = true ->
     exists s', body s = Ok s' /\ I s' /\ m s' <= m s - 1) ->
  exists s', while_ fuel cond body s = Ok s' /\ I s' /\ cond s' = false.
Proof.
  intros HI Hpos Hm Hstep. revert s HI Hm.
  induction fuel as [|fuel IH]; intros s HI Hm; simpl.
  - destruct (cond s) eqn:Hc; [|eauto]. specialize (Hpos s HI Hc). lia.
  - destruct (cond s) eqn:Hc; [|eauto].
    destruct (Hstep s HI Hc) as (s' & -> & HI' & Hm').
    apply IH; [done|lia].
Qed.

(** The total-correctness rule of [loop_]. *)
Lemma loop_rule {S R : Type} (body : S -> res (S + R))
    (I : S -> Prop) (Q : R -> Prop) (m : S -> Z) (fuel : nat) (s : S) :
  I s -> (forall s, I s -> 0 < m s) -> m s <= Z.of_nat fuel ->
  (forall s, I s ->
     (exists s', body s = Ok (inl s') /\ I s' /\ m s' <= m s - 1) \/
     (exists v, body s = Ok (inr v) /\ Q v)) ->
  exists v, loop_ fuel body s = Ok v /\ Q v.
Proof.
  intros HI Hpos Hm Hstep. revert s HI Hm.
  induction fuel as [|fuel IH]; intros s HI Hm; simpl.
  - specialize (Hpos s HI). lia.
  - destruct (Hstep s HI) as [(s' & -> & HI' & Hm')|(v & -> & HQ)]; simpl.
    + apply IH; [done|lia].
    + eauto.
Qed.

(** More fuel does not change a loop that returned. *)
Lemma while_mono {S : Type} cond (body : S -> res S) fuel fuel' s s' :
  (fuel <= fuel')%nat -> while_ fuel cond body s = Ok s' ->
  while_ fuel' cond body s = Ok s'.
Proof.
  revert fuel' s; induction fuel as [|fuel IH]; intros fuel' s Hle; simpl.
  - destruct (cond s) eqn:E; [done|]. destruct fuel'; simpl; by rewrite E.
  - destruct fuel' as [|fuel']; [lia|]. simpl.
    destruct (cond s); [|done].
    destruct (body s); simpl; try done. apply IH. lia.
Qed.

Lemma loop_mono {S R : Type} (body : S -> res (S + R)) fuel fuel' s v :
  (fuel <= fuel')%nat -> loop_ fuel body s = Ok v -> loop_ fuel' body s = Ok v.
Proof.
  revert fuel' s; induction fuel as [|fuel IH]; intros fuel' s Hle; simpl; [done|].
  destruct fuel' as [|fuel']; [lia|]. simpl.
  destruct (body s) as [[s'|w]| | |]; simpl; try done. apply IH. lia.
Qed.

(** Loops with pointwise equal conditions and bodies are equal. *)
Lemma while_ext {S : Type} (cond cond' : S -> bool) (body body' : S -> res S)
    fuel s :
  (forall s, cond s = cond' s) -> (forall s, body s = body' s) ->
  while_ fuel cond body s = while_ fuel cond' body' s.
Proof.
  intros Hc Hb. revert s. induction fuel as [|fuel IH]; intros s; simpl.
  - by rewrite Hc.
  - rewrite Hc, Hb. destruct (cond' s); [|done]. destruct (body' s); simpl; auto.
Qed.

(** * Buffers

    A C array the code indexes is a list; an index outside it is a [Fault]. *)
Definition buf_get {A} (l : list A) (i : Z) : res A :=
  if 0 <=? i then
    match l !! Z.to_nat i with Some v => Ok v | None => Fault end
  else Fault.

Definition buf_set {A} (l : list A) (i : Z) (v : A) : res (list A) :=
  if (0 <=? i) && (i <? Z.of_nat (length l))
  then Ok (<[Z.to_nat i := v]> l) else Fault.

Lemma buf_set_ok {A} (l : list A) i v :
  0 <= i < Z.of_nat (length l) -> buf_set l i v = Ok (<[Z.to_nat i := v]> l).
Proof.
  intros H. unfold buf_set. by replace (_ && _) with true by (symmetry; lia).
Qed.

Lemma buf_get_ok {A} (l : list A) i v :
  0 <= i -> l !! Z.to_nat i = Some v -> buf_get l i = Ok v.
Proof.
  intros H Hl. unfold buf_get. replace (0 <=? i) with true by (symmetry; lia).
  by rewrite Hl.
Qed.

Lemma buf_get_inb {A} (l : list A) i :
  0 <= i < Z.of_nat (length l) ->
  exists v, l !! Z.to_nat i = Some v /\ buf_get l i = Ok v.
Proof.
  intros H. destruct (lookup_lt_is_Some_2 l (Z.to_nat i)) as [v Hv]; [lia|].
  exists v. split; [done|]. apply buf_get_ok; [lia|done].
Qed.

(** * Integer lemmas and automation *)
(** [dlia] is [lia] after replacing quotients and remainders by their
    defining equations. *)
Ltac dlia := Z.to_euclidean_division_equations; lia.

Lemma u8_range z : is_u8 (u8 z).
Proof. unfold is_u8, u8. apply Z.mod_pos_bound. lia. Qed.
Lemma u32_range z : is_u32 (u32 z).
Proof. unfold is_u32, u32. apply Z.mod_pos_bound. lia. Qed.
Lemma u64_range z : is_u64 (u64 z).
Proof. unfold is_u64, u64. apply Z.mod_pos_bound. lia. Qed.
Lemma s32_range z : is_s32 (s32 z).
Proof.
  unfold is_s32, s32.
  pose proof (Z.mod_pos_bound (z + 2 ^ 31) (2 ^ 32)). lia.
Qed.
Lemma s64_range z : is_s64 (s64 z).
Proof.
  unfold is_s64, s64.
  pose proof (Z.mod_pos_bound (z + 2 ^ 63) (2 ^ 64)). lia.
Qed.
Lemma u8_id z : 0 <= z < 2 ^ 8 -> u8 z = z.
Proof. apply Z.mod_small. Qed.
Lemma u32_id z : 0 <= z < 2 ^ 32 -> u32 z = z.
Proof. apply Z.mod_small. Qed.
Lemma u64_id z : 0 <= z < 2 ^ 64 -> u64 z = z.
Proof. apply Z.mod_small. Qed.
Lemma s32_id z : - 2 ^ 31 <= z < 2 ^ 31 -> s32 z = z.
Proof. intros H. unfold s32. rewrite Z.mod_small by lia. lia. Qed.
Lemma s64_id z : - 2 ^ 63 <= z < 2 ^ 63 -> s64 z = z.
Proof. intros H. unfold s64. rewrite Z.mod_small by lia. lia. Qed.

Lemma s32_mod z : s32 z mod 2 ^ 32 = z mod 2 ^ 32.
Proof. unfold s32. rewrite Zminus_mod_idemp_l. f_equal. lia. Qed.
Lemma s32_mod_inj a b :
  is_s32 a -> is_s32 b -> a mod 2 ^ 32 = b mod 2 ^ 32 -> a = b.
Proof. unfold is_s32. intros. dlia. Qed.

Create HintDb xv6 discriminated.
#[export] Hint Resolve u8_range u32_range u64_range s32_range s64_range : xv6.

(** [wraps] removes the wrap-around of every operation [lia] shows in range,
    innermost first. *)
Ltac wraps :=
  repeat match goal with
  | |- context [s32 ?z] => rewrite (s32_id z) by lia
  | |- context [s64 ?z] => rewrite (s64_id z) by lia
  | |- context [u32 ?z] => rewrite (u32_id z) by lia
  | |- context [u64 ?z] => rewrite (u64_id z) by lia
  | |- context [u8 ?z] => rewrite (u8_id z) by lia
  end.

(** [bcase] splits the leading boolean test of an [if] in the goal and turns
    it into a fact [lia] can use. *)
Ltac bcase :=
  match goal with
  | |- context [if ?b then _ else _] =>
      let E := fresh "E" in
      destruct b eqn:E;
      rewrite ?andb_true_iff, ?andb_false_iff, ?orb_true_iff, ?orb_false_iff,
        ?negb_true_iff, ?negb_false_iff, ?Z.leb_le, ?Z.leb_gt, ?Z.ltb_lt,
        ?Z.ltb_ge, ?Z.eqb_eq, ?Z.eqb_neq in E
  end.

(** [ok] reduces the monadic sequencing in the goal and nothing else. *)
Ltac ok := cbn [mbind res_bind M_bind mret res_ret M_ret].

(** * Prefixes of buffers *)
Lemma take_insert_S {A} (l : list A) n v :
  (n < length l)%nat -> take (S n) (<[n := v]> l) = take n l ++ [v].
Proof.
  intros H. erewrite take_S_r by (by apply list_lookup_insert_eq).
  by rewrite take_insert_ge by lia.
Qed.

(** Running the first half of a sequence. *)
Lemma bind_ok {S A B} (m : M S A) (f : A -> M S B) s a s' :
  m s = Ok (a, s') -> (m ≫= f) s = f a s'.
Proof. intros H. unfold mbind, M_bind. by rewrite H. Qed.

Lemma bind_panic {S A B} (m : M S A) (f : A -> M S B) s e :
  m s = Panic e -> (m ≫= f) s = Panic e.
Proof. intros H. unfold mbind, M_bind. by rewrite H. Qed.

(** [mrun] exposes the state passing of a computation in the goal. *)
Ltac mrun :=
  cbv beta iota zeta delta [mbind M_bind mret M_ret get gets put modify when
    panic fault lift].
