(* ===== verification/CString.v ===== *)
(** Model of src/string.c and src/ulib.c: the kernel's and the user library's
    memory and string routines.

    The routines that copy or fill work on a memory [mem], a total map from
    addresses to bytes, so that overlapping regions are what they are in C.
    The routines that only read a NUL-terminated string take the list of its
    characters up to the NUL, as values 0..255 ([cur] is [*p], 0 at the end,
    and [tail] is [p + 1]). *)
From Stdlib Require Import Ascii.
From stdpp Require Import base strings numbers list.
From S2P Require Import Prelude.
Local Open Scope Z_scope.

Definition mem : Type := Z -> Z.

Definition store (m : mem) (a v : Z) : mem :=
  fun a' => if a' =? a then u8 v else m a'.

(** * string.c: memory *)

(** [stosb]: [n] copies of the low byte of [c]. *)
Fixpoint stosb (m : mem) (dst c : Z) (n : nat) : mem :=
  match n with
  | O => m
  | S n => stosb (store m dst c) (dst + 1) c n
  end.

(** [stosl]: [n] little-endian copies of a 32-bit word. *)
Fixpoint stosl (m : mem) (dst w : Z) (n : nat) : mem :=
  match n with
  | O => m
  | S n =>
      let m := store m dst w in
      let m := store m (dst + 1) (Z.shiftr w 8) in
      let m := store m (dst + 2) (Z.shiftr w 16) in
      let m := store m (dst + 3) (Z.shiftr w 24) in
      stosl m (dst + 4) w n
  end.

(** The counts of the string instructions are 32 bits wide. *)
Definition memset (m : mem) (dst c n : Z) : mem :=
  if (dst mod 4 =? 0) && (n mod 4 =? 0) then
    let c := Z.land c 255 in
    stosl m dst
      (Z.lor (Z.lor (Z.lor (Z.shiftl c 24) (Z.shiftl c 16)) (Z.shiftl c 8)) c)
      (Z.to_nat (u32 (n / 4)))
  else stosb m dst c (Z.to_nat (u32 n)).

Fixpoint memcmp_loop (m : mem) (s1 s2 : Z) (n : nat) : Z :=
  match n with
  | O => 0
  | S n => if m s1 =? m s2 then memcmp_loop m (s1 + 1) (s2 + 1) n
           else m s1 - m s2
  end.
Definition memcmp (m : mem) (v1 v2 n : Z) : Z :=
  memcmp_loop m v1 v2 (Z.to_nat (u32 n)).

(** [while(n-- > 0) *--d = *--s]. *)
Fixpoint copy_down (m : mem) (d s : Z) (n : nat) : mem :=
  match n with
  | O => m
  | S n => copy_down (store m (d - 1) (m (s - 1))) (d - 1) (s - 1) n
  end.
(** [while(n-- > 0) *d++ = *s++]. *)
Fixpoint copy_up (m : mem) (d s : Z) (n : nat) : mem :=
  match n with
  | O => m
  | S n => copy_up (store m d (m s)) (d + 1) (s + 1) n
  end.
Definition memmove (m : mem) (dst src n : Z) : mem :=
  let n := u32 n in
  if (src <? dst) && (dst <? src + n) then
    copy_down m (dst + n) (src + n) (Z.to_nat n)
  else copy_up m dst src (Z.to_nat n).

(** * Strings *)

Definition cur (s : list Z) : Z := match s with [] => 0 | c :: _ => c end.

Fixpoint strncmp (p q : list Z) (n : nat) : Z :=
  match n with
  | O => 0
  | S n => if negb (cur p =? 0) && (cur p =? cur q)
           then strncmp (tail p) (tail q) n
           else cur p - cur q
  end.

Fixpoint strcmp (p q : list Z) : Z :=
  match p with
  | [] => 0 - cur q
  | c :: p' => if negb (c =? 0) && (c =? cur q) then strcmp p' (tail q)
               else c - cur q
  end.

Definition strlen (s : list Z) : Z := Z.of_nat (length s).

Fixpoint strchr (s : list Z) (c : Z) : option (list Z) :=
  match s with
  | [] => None
  | x :: s' => if x =? c then Some s else strchr s' c
  end.

(** [strncpy(s, t, n)] stores [n] bytes: the characters of [t] up to and
    including its NUL, then zeros. *)
Fixpoint strncpy (t : list Z) (n : nat) : list Z :=
  match n with
  | O => []
  | S n => match t with
           | [] => 0 :: replicate n 0
           | c :: t => c :: strncpy t n
           end
  end.

(** The bytes [safestrcpy(s, t, n)] stores, for [n > 0]. *)
Fixpoint safestrcpy_loop (t : list Z) (n : nat) : list Z :=
  match n with
  | O => [0]
  | S n => match t with
           | [] => [0; 0]
           | c :: t => c :: safestrcpy_loop t n
           end
  end.
Definition safestrcpy (t : list Z) (n : Z) : list Z :=
  if n <=? 0 then [] else safestrcpy_loop t (Z.to_nat (n - 1)).

Definition is_digit (c : Z) : bool := (48 <=? c) && (c <=? 57).

(** [atoi]: [int] arithmetic, wrapped after each operation. *)
Fixpoint atoi_loop (s : list Z) (n : Z) : Z :=
  match s with
  | [] => n
  | c :: s => if is_digit c then atoi_loop s (s32 (s32 (s32 (n * 10) + c) - 48))
              else n
  end.
Definition atoi (s : list Z) : Z := atoi_loop s 0.

(** The characters of a string literal. *)
Definition cstr (s : string) : list Z :=
  map (fun a => Z.of_nat (nat_of_ascii a)) (String.list_ascii_of_string s).

(** A C string: no NUL inside, every character a byte. *)
Definition is_cstr (s : list Z) : Prop := Forall (fun c => 0 < c < 256) s.

(** The C string at the start of a buffer. *)
Fixpoint c_string (buf : list Z) : list Z :=
  match buf with
  | [] => []
  | c :: buf => if c =? 0 then [] else c :: c_string buf
  end.

Lemma c_string_app l rest : Forall (fun c => 0 < c) l -> c_string (l ++ 0 :: rest) = l.
Proof.
  induction 1 as [|c l Hc _ IH]; [done|]. simpl.
  by replace (c =? 0) with false by lia; rewrite IH.
Qed.

(** * Lemmas *)
Lemma copy_up_spec n m d s a :
  ~ (s < d < s + Z.of_nat n) -> (forall a, is_u8 (m a)) ->
  copy_up m d s n a =
    if (d <=? a) && (a <? d + Z.of_nat n) then m (s + (a - d)) else m a.
Proof.
  revert m d s. induction n as [|n IH]; intros m d s Hov Hm; simpl.
  { by replace (_ && _) with false by lia. }
  rewrite IH; [|lia|].
  2: { intros a'. unfold store. destruct (a' =? d); [apply u8_range|apply Hm]. }
  unfold store. rewrite !u8_id by apply Hm.
  destruct (Z.eqb_spec a d) as [->|Hne].
  - replace (_ && _) with false by lia. replace (_ && _) with true by lia.
    f_equal. lia.
  - replace ((d + 1 <=? a) && (a <? d + 1 + Z.of_nat n)) with
      ((d <=? a) && (a <? d + Z.of_nat (S n))) by lia.
    bcase; [|done]. replace (_ =? d) with false by lia. f_equal. lia.
Qed.

Lemma copy_down_spec n m d s a :
  s < d -> (forall a, is_u8 (m a)) ->
  copy_down m d s n a =
    if (d - Z.of_nat n <=? a) && (a <? d) then m (s - (d - a)) else m a.
Proof.
  revert m d s. induction n as [|n IH]; intros m d s Hov Hm; simpl.
  { by replace (_ && _) with false by lia. }
  rewrite IH; [|lia|].
  2: { intros a'. unfold store. destruct (a' =? d - 1); [apply u8_range|apply Hm]. }
  unfold store. rewrite !u8_id by apply Hm.
  destruct (Z.eqb_spec a (d - 1)) as [->|Hne].
  - replace (_ && _) with false by lia. replace (_ && _) with true by lia.
    f_equal. lia.
  - replace ((d - 1 - Z.of_nat n <=? a) && (a <? d - 1)) with
      ((d - Z.of_nat (S n) <=? a) && (a <? d)) by lia.
    bcase; [|done]. replace (_ =? d - 1) with false by lia. f_equal. lia.
Qed.

Lemma stosb_spec n m d c a :
  stosb m d c n a =
    if (d <=? a) && (a <? d + Z.of_nat n) then u8 c else m a.
Proof.
  revert m d. induction n as [|n IH]; intros m d; simpl.
  { by replace (_ && _) with false by lia. }
  rewrite IH. unfold store. destruct (Z.eqb_spec a d) as [->|Hne].
  - replace (_ && _) with false by lia. by replace (_ && _) with true by lia.
  - by replace ((d + 1 <=? a) && (a <? d + 1 + Z.of_nat n)) with
      ((d <=? a) && (a <? d + Z.of_nat (S n))) by lia.
Qed.

Lemma stosl_spec n m d w c a :
  (forall k, 0 <= k < 4 -> u8 (Z.shiftr w (8 * k)) = u8 c) ->
  stosl m d w n a =
    if (d <=? a) && (a <? d + 4 * Z.of_nat n) then u8 c else m a.
Proof.
  intros Hw.
  pose proof (Hw 0 ltac:(lia)) as H0. rewrite Z.mul_0_r, Z.shiftr_0_r in H0.
  pose proof (Hw 1 ltac:(lia)) as H1. pose proof (Hw 2 ltac:(lia)) as H2.
  pose proof (Hw 3 ltac:(lia)) as H3.
  change (8 * 1) with 8 in H1. change (8 * 2) with 16 in H2.
  change (8 * 3) with 24 in H3. clear Hw.
  revert m d. induction n as [|n IH]; intros m d; cbn [stosl].
  { by replace (_ && _) with false by lia. }
  rewrite IH. unfold store. rewrite H0, H1, H2, H3.
  destruct ((d + 4 <=? a) && (a <? d + 4 + 4 * Z.of_nat n)) eqn:E.
  { by replace (_ && _) with true by lia. }
  destruct (Z.eqb_spec a (d + 3)); [by replace (_ && _) with true by lia|].
  destruct (Z.eqb_spec a (d + 2)); [by replace (_ && _) with true by lia|].
  destruct (Z.eqb_spec a (d + 1)); [by replace (_ && _) with true by lia|].
  destruct (Z.eqb_spec a d); [by replace (_ && _) with true by lia|].
  by replace (_ && _) with false by lia.
Qed.

Lemma fill_word_bytes c k :
  0 <= k < 4 ->
  u8 (Z.shiftr (Z.lor (Z.lor (Z.lor (Z.shiftl (Z.land c 255) 24)
        (Z.shiftl (Z.land c 255) 16)) (Z.shiftl (Z.land c 255) 8))
        (Z.land c 255)) (8 * k)) = u8 c.
Proof.
  intros Hk. change 255 with (Z.ones 8). unfold u8.
  rewrite <- !Z.land_ones by lia. apply Z.bits_inj'. intros n Hn.
  assert (k = 0 \/ k = 1 \/ k = 2 \/ k = 3) as Hk' by lia.
  rewrite !Z.land_spec, Z.shiftr_spec by lia.
  rewrite !Z.lor_spec, !Z.shiftl_spec, !Z.land_spec by lia.
  destruct (decide (n < 8)).
  - rewrite !(Z.ones_spec_low 8 n) by lia. rewrite !andb_true_r.
    destruct_or! Hk'; subst k.
    all: repeat match goal with
      | |- context [Z.testbit (Z.ones 8) ?x] =>
          first [ rewrite (Z.ones_spec_high 8 x) by lia
                | rewrite (Z.ones_spec_low 8 x) by lia
                | rewrite (Z.testbit_neg_r (Z.ones 8) x) by lia ]
      end.
    all: rewrite ?andb_false_r, ?andb_true_r, ?orb_false_l, ?orb_false_r.
    all: f_equal; lia.
  - rewrite !(Z.ones_spec_high 8 n) by lia. by rewrite !andb_false_r.
Qed.

(** Comparing at most [n] characters is comparing the prefixes of length
    [n]. *)
Lemma strncmp_eq_iff p q n :
  is_cstr p -> is_cstr q -> strncmp p q n = 0 <-> take n p = take n q.
Proof.
  unfold is_cstr. revert p q. induction n as [|n IH]; intros p q Hp Hq; simpl.
  { by rewrite !take_0. }
  destruct p as [|x p], q as [|y q]; simpl.
  - done.
  - apply Forall_cons in Hq as [Hy _]. split; [lia|done].
  - apply Forall_cons in Hp as [Hx _].
    replace (_ && _) with false by lia. split; [lia|done].
  - apply Forall_cons in Hp as [Hx Hp]. apply Forall_cons in Hq as [Hy Hq].
    bcase.
    + destruct E as [_ ->]. rewrite (IH p q Hp Hq). split; congruence.
    + split; [lia|]. intros [= -> _]. lia.
Qed.

Lemma length_strncpy t n : length (strncpy t n) = n.
Proof.
  revert t. induction n as [|n IH]; intros [|c t]; simpl; try done.
  - by rewrite length_replicate.
  - by rewrite IH.
Qed.

(** [memmove] copies as if through a temporary buffer: afterwards the
    destination range holds the bytes the source range held before the call,
    also when the ranges overlap, and no other byte changes. *)
Theorem memmove_correct m dst src n a :
  (forall a, is_u8 (m a)) -> 0 <= n < 2 ^ 32 ->
  memmove m dst src n a =
    if (dst <=? a) && (a <? dst + n) then m (src + (a - dst)) else m a.
Proof.
  intros Hm Hn. unfold memmove. rewrite u32_id by lia. bcase.
  - rewrite copy_down_spec by (done || lia). rewrite Z2Nat.id by lia.
    replace (dst + n - n) with dst by lia.
    bcase; [|done]. f_equal. lia.
  - rewrite copy_up_spec by (done || lia). by rewrite Z2Nat.id by lia.
Qed.

Lemma memset_spec m dst c n a :
  0 <= n < 2 ^ 32 ->
  memset m dst c n a =
    if (dst <=? a) && (a <? dst + n) then u8 c else m a.
Proof.
  intros Hn. unfold memset. bcase.
  - rewrite (stosl_spec _ _ _ _ c) by apply fill_word_bytes.
    rewrite u32_id by dlia. rewrite Z2Nat.id by dlia. by replace (4 * (n / 4)) with n by dlia.
  - rewrite stosb_spec. by rewrite u32_id, Z2Nat.id by lia.
Qed.

(** [memset] stores the low byte of [c] in each of the [n] bytes at [dst]
    and nowhere else, on the word-at-a-time path (aligned address and length)
    and on the byte path alike. *)
Theorem memset_correct m dst c n a :
  0 <= n < 2 ^ 32 ->
  memset m dst c n a =
    if (dst <=? a) && (a <? dst + n) then u8 c else m a.
Proof. apply memset_spec. Qed.

(** An overlapping move: four bytes shifted up by two. *)
Lemma memmove_correct_witness :
  memmove (fun a => u8 (10 * a)) 2 0 4 5 = 30.
Proof.
  rewrite (memmove_correct (fun a => u8 (10 * a)) 2 0 4 5);
    [reflexivity| |lia].
  intros a. apply u8_range.
Defined.

Lemma memset_correct_witness : memset (fun _ => 0) 8 511 4 11 = 255.
Proof. rewrite (memset_correct (fun _ => 0) 8 511 4 11); [reflexivity|lia]. Defined.
