(* ===== verification/Ulib.v ===== *)
(** Model of the memory routines of src/ulib.c, the user library: [strcpy], [memset],
    [memmove], on the byte memory of [CString.v].  The routines that only read strings
    are in [CString.v], [gets] in [ShRun.v] and [stat] in [Ls.v]. *)
From stdpp Require Import base strings numbers list.
From S2P Require Import Prelude CString.
Local Open Scope Z_scope.

(** Up to and including the NUL; the fuel bounds the length of the string. *)
Fixpoint strcpy (fuel : nat) (m : mem) (s t : Z) : res mem :=
  match fuel with
  | O => NoFuel
  | S fuel =>
      let m' := store m s (m t) in
      if u8 (m t) =? 0 then Ok m' else strcpy fuel m' (s + 1) (t + 1)
  end.

Definition umemset (m : mem) (dst c n : Z) : mem := stosb m dst c (Z.to_nat (u32 n)).

(** [n] is an [int]: nothing is copied when it is not positive. *)
Definition umemmove (m : mem) (vdst vsrc n : Z) : mem := copy_up m vdst vsrc (Z.to_nat n).

(** The string at [a]: characters up to a NUL. *)
Definition string_at (m : mem) (a : Z) (cs : list Z) : Prop :=
  Forall (fun c => 0 < c < 256) cs /\ (forall k c, cs !! k = Some c -> m (a + Z.of_nat k) = c) /\ m (a + Z.of_nat (length cs)) = 0.

Lemma string_at_cons m a c cs : string_at m a (c :: cs) -> m a = c /\ 0 < c < 256 /\ string_at m (a + 1) cs.
Proof.
  intros (Hc & Hm & H0). apply Forall_cons in Hc as [Hc Hcs]. split; [by rewrite <- (Hm 0%nat c eq_refl), Z.add_0_r|].
  split; [done|]. split; [done|]. split.
  - intros k x Hk. rewrite <- (Hm (S k) x Hk). f_equal. lia.
  - cbn [length] in H0. rewrite <- H0. f_equal. lia.
Qed.

(** [strcpy] copies a string and its NUL to a place that does not overlap it, and
    changes nothing else. *)
Theorem strcpy_copies cs : forall fuel m s t, string_at m t cs -> (length cs < fuel)%nat ->
  (s + Z.of_nat (length cs) < t \/ t + Z.of_nat (length cs) < s) ->
  exists m', strcpy fuel m s t = Ok m' /\ string_at m' s cs
  /\ forall a, ~ (s <= a <= s + Z.of_nat (length cs)) -> m' a = m a.
Proof.
  induction cs as [|c cs IH]; intros [|fuel] m s t Hs Hf Hov; cbn [length] in Hf, Hov; try lia; cbn [strcpy].
  - destruct Hs as (_ & _ & H0). cbn [length] in H0. rewrite Z.add_0_r in H0. rewrite H0. change (u8 0 =? 0) with true.
    eexists. split; [reflexivity|]. cbn [length]. rewrite Z.add_0_r. split.
    + split; [constructor|]. split; [done|]. cbn [length]. rewrite Z.add_0_r. unfold store. by rewrite Z.eqb_refl.
    + intros a Ha. unfold store. by replace (a =? s) with false by lia.
  - destruct (string_at_cons _ _ _ _ Hs) as (Et & Hc & Hs'). rewrite Et, u8_id by lia. replace (c =? 0) with false by lia.
    set (m1 := store m s c). assert (string_at m1 (t + 1) cs) as Hs1.
    { destruct Hs' as (H1 & H2 & H3). split; [done|]. unfold m1, store. split.
      - intros k x Hk. pose proof (lookup_lt_Some _ _ _ Hk). replace (t + 1 + Z.of_nat k =? s) with false by lia. by apply H2.
      - replace (t + 1 + Z.of_nat (length cs) =? s) with false by lia. done. }
    destruct (IH fuel m1 (s + 1) (t + 1) Hs1) as (m' & -> & (G1 & G2 & G3) & Hm'); [lia|lia|]. exists m'. split; [done|]. split.
    + split; [by constructor|]. split.
      * intros [|k] x Hk; cbn in Hk.
        -- injection Hk as ->. rewrite Z.add_0_r, Hm' by lia. unfold m1, store. rewrite Z.eqb_refl. apply u8_id. lia.
        -- rewrite <- (G2 k x Hk). f_equal. lia.
      * cbn [length]. rewrite <- G3. f_equal. lia.
    + intros a Ha. cbn [length] in Ha. rewrite Hm' by lia. unfold m1, store. by replace (a =? s) with false by lia.
Qed.

(** The user library's [memmove] moves bytes down, or between regions that do not
    overlap, as [memmove] should. *)
Theorem umemmove_down m dst src n a : (forall a, is_u8 (m a)) -> 0 <= n -> dst <= src \/ src + n <= dst ->
  umemmove m dst src n a = if (dst <=? a) && (a <? dst + n) then m (src + (a - dst)) else m a.
Proof. intros Hm Hn Hov. unfold umemmove. rewrite copy_up_spec by (done || lia). by rewrite Z2Nat.id by lia. Qed.

(** Moved up by less than their length, the bytes are overwritten before they are
    read: the kernel's [memmove] gives 1 2 3 where this one gives 1 1 1. *)
Theorem umemmove_overlap_differs : let m := fun a => u8 a in
  (umemmove m 2 1 3 2, umemmove m 2 1 3 3, umemmove m 2 1 3 4) = (1, 1, 1)
  /\ (memmove m 2 1 3 2, memmove m 2 1 3 3, memmove m 2 1 3 4) = (1, 2, 3).
Proof. split; vm_compute; reflexivity. Qed.
