(* ===== verification/Printf.v ===== *)
(** Model of src/printf.c: the user library's formatted output.  Output is the
    list of the characters written, in order; the file descriptor is left out,
    since every character of a call goes to the same one. *)
From stdpp Require Import base strings numbers list.
From S2P Require Import Prelude CString.
Local Open Scope Z_scope.

Definition digits : list Z := cstr "0123456789abcdef".

(** [print_x64] and [print_x32]: the top four bits select a digit, then the
    word is shifted left. *)
Definition print_x64 (x : Z) : res (list Z) :=
  '(_, _, out) ← while_ 16 (fun '(i, _, _) => i <? 8 * 2)
    (fun '(i, x, out) =>
       d ← buf_get digits (Z.shiftr x (8 * 8 - 4));
       Ok (i + 1, u64 (Z.shiftl x 4), out ++ [d]))
    (0, x, []);
  Ok out.

Definition print_x32 (x : Z) : res (list Z) :=
  '(_, _, out) ← while_ 8 (fun '(i, _, _) => i <? 4 * 2)
    (fun '(i, x, out) =>
       d ← buf_get digits (Z.shiftr x (4 * 8 - 4));
       Ok (i + 1, u32 (Z.shiftl x 4), out ++ [d]))
    (0, x, []);
  Ok out.

(** The digits are produced into [char buf[16]], least significant first;
    the loop is a [do ... while], so it runs at least once. *)
Definition print_d (v : Z) : res (list Z) :=
  let buf := replicate 16 0 in
  let x := if v <? 0 then s64 (- v) else v in
  '(i, buf) ← loop_ 20
    (fun '(i, x, buf) =>
       d ← buf_get digits (Z.rem x 10);
       buf ← buf_set buf i d;
       let x := Z.quot x 10 in
       Ok (if x =? 0 then inr (i + 1, buf) else inl (i + 1, x, buf)))
    (0, x, buf);
  '(i, buf) ← (if v <? 0 then buf ← buf_set buf i 45; Ok (i + 1, buf)
               else Ok (i, buf));
  '(_, out) ← while_ 20 (fun '(i, _) => 0 <=? i - 1)
    (fun '(i, out) => c ← buf_get buf (i - 1); Ok (i - 1, out ++ [c]))
    (i, []);
  Ok out.

(** The variable arguments, as [va_arg] reads them. *)
Inductive arg : Type :=
  | AInt (z : Z)            (* an [int], [uint] or [addr_t] *)
  | AStr (s : option (list Z)). (* a [char*]; [None] is the null pointer *)

Definition va_word (ap : list arg) : res (Z * list arg) :=
  match ap with AInt z :: ap => Ok (z, ap) | _ => Fault end.
Definition va_str (ap : list arg) : res (option (list Z) * list arg) :=
  match ap with AStr s :: ap => Ok (s, ap) | _ => Fault end.

(** One conversion: [c] is the character after the percent sign. *)
Definition print_conv (c : Z) (ap : list arg) : res (list Z * list arg) :=
  if c =? 99 (* 'c' *) then
    '(z, ap) ← va_word ap; Ok ([u8 z], ap)
  else if c =? 100 (* 'd' *) then
    '(z, ap) ← va_word ap; out ← print_d (s32 z); Ok (out, ap)
  else if c =? 120 (* 'x' *) then
    '(z, ap) ← va_word ap; out ← print_x32 (u32 z); Ok (out, ap)
  else if c =? 112 (* 'p' *) then
    '(z, ap) ← va_word ap; out ← print_x64 (u64 z); Ok (out, ap)
  else if c =? 115 (* 's' *) then
    '(s, ap) ← va_str ap;
    Ok (match s with None => cstr "(null)" | Some s => s end, ap)
  else if c =? 37 (* '%' *) then Ok ([37], ap)
  else Ok ([37; c], ap).

Fixpoint printf (fmt : list Z) (ap : list arg) : res (list Z) :=
  match fmt with
  | [] => Ok []
  | c :: fmt =>
      if negb (c =? 37) then
        out ← printf fmt ap; Ok (c :: out)
      else
        match fmt with
        | [] => Ok []
        | c :: fmt =>
            '(o, ap) ← print_conv c ap;
            out ← printf fmt ap; Ok (o ++ out)
        end
  end.

Example printf_ex :
  printf (cstr "pid %d: %s %x%%") [AInt (-42); AStr (Some (cstr "sh")); AInt 48879]
  = Ok (cstr "pid -42: sh 0000beef%").
Proof. vm_compute. reflexivity. Qed.

(** * Decimal output *)

(** The number a list of digit characters denotes, most significant first. *)
Definition dec_val (ds : list Z) : Z :=
  fold_left (fun acc d => acc * 10 + (d - 48)) ds 0.

(** The same, least significant first. *)
Definition le_val (ds : list Z) : Z :=
  fold_right (fun d acc => acc * 10 + (d - 48)) 0 ds.

Lemma dec_val_rev l : dec_val (rev l) = le_val l.
Proof. unfold dec_val, le_val. by rewrite <- fold_left_rev_right, rev_involutive. Qed.

Lemma le_val_snoc l d :
  le_val (l ++ [d]) = le_val l + (d - 48) * 10 ^ Z.of_nat (length l).
Proof.
  unfold le_val. induction l as [|e l IH]; cbn [app foldr length fold_right].
  - rewrite Z.pow_0_r. lia.
  - rewrite IH. rewrite Nat2Z.inj_succ, Z.pow_succ_r by lia. lia.
Qed.

Lemma digits_get k : 0 <= k < 10 -> buf_get digits k = Ok (48 + k).
Proof.
  intros Hk.
  assert (k = 0 \/ k = 1 \/ k = 2 \/ k = 3 \/ k = 4 \/ k = 5 \/ k = 6 \/ k = 7
          \/ k = 8 \/ k = 9) as H by lia.
  destruct_or! H; subst k; reflexivity.
Qed.

Lemma take_insert_snoc {A} (l : list A) i v :
  (i < length l)%nat -> take (S i) (<[i := v]> l) = take i l ++ [v].
Proof.
  intros Hi. rewrite (take_S_r _ _ v); [|by apply list_lookup_insert_eq].
  by rewrite take_insert_ge.
Qed.

(** The digit loop of [print_d]. *)
Lemma print_d_digits x :
  0 <= x < 10 ^ 10 ->
  exists i buf,
    loop_ 20
      (fun '(i, x, buf) =>
         d ← buf_get digits (Z.rem x 10);
         buf ← buf_set buf i d;
         let x := Z.quot x 10 in
         Ok (if x =? 0 then inr (i + 1, buf) else inl (i + 1, x, buf)))
      (0, x, replicate 16 0) = Ok (i, buf)
    /\ length buf = 16%nat /\ 1 <= i <= 10
    /\ Forall (fun c => is_digit c = true) (take (Z.to_nat i) buf)
    /\ le_val (take (Z.to_nat i) buf) = x.
Proof.
  intros Hx.
  destruct (loop_rule
    (fun '(i, x, buf) =>
       d ← buf_get digits (Z.rem x 10);
       buf ← buf_set buf i d;
       let x := Z.quot x 10 in
       Ok (if x =? 0 then inr (i + 1, buf) else inl (i + 1, x, buf)))
    (fun '(i, x', buf) => length buf = 16%nat /\ 0 <= i <= 9
       /\ 0 <= x' < 10 ^ (10 - i)
       /\ Forall (fun c => is_digit c = true) (take (Z.to_nat i) buf)
       /\ le_val (take (Z.to_nat i) buf) + x' * 10 ^ i = x)
    (fun '(i, buf) => length buf = 16%nat /\ 1 <= i <= 10
       /\ Forall (fun c => is_digit c = true) (take (Z.to_nat i) buf)
       /\ le_val (take (Z.to_nat i) buf) = x)
    (fun '(i, _, _) => 10 - i) 20 (0, x, replicate 16 0)) as ([i buf] & Hl & HQ).
  - split; [done|]. split; [lia|]. split; [done|]. split; [constructor|].
    replace (le_val _) with 0 by done. rewrite Z.pow_0_r. lia.
  - intros [[i x'] buf] H. lia.
  - lia.
  - intros [[i x'] buf] (Hlen & Hi & Hx' & Hd & Hv).
    assert (Hr : 0 <= Z.rem x' 10 < 10) by (apply Z.rem_bound_pos; lia).
    rewrite digits_get by done. simpl. rewrite buf_set_ok by lia. simpl.
    set (buf' := <[Z.to_nat i := 48 + Z.rem x' 10]> buf).
    assert (Htake : take (Z.to_nat (i + 1)) buf'
                    = take (Z.to_nat i) buf ++ [48 + Z.rem x' 10]).
    { replace (Z.to_nat (i + 1)) with (S (Z.to_nat i)) by lia.
      apply take_insert_snoc. lia. }
    assert (Hlen' : length buf' = 16%nat) by (unfold buf'; by rewrite length_insert).
    assert (Hd' : Forall (fun c => is_digit c = true) (take (Z.to_nat (i + 1)) buf')).
    { rewrite Htake. apply Forall_app; split; [done|].
      constructor; [unfold is_digit; lia|done]. }
    assert (Hv' : le_val (take (Z.to_nat (i + 1)) buf') + Z.quot x' 10 * 10 ^ (i + 1) = x).
    { rewrite Htake, le_val_snoc, length_take, Hlen.
      replace (Z.of_nat (Z.to_nat i `min` 16)) with i by lia.
      rewrite Z.pow_add_r by lia. pose proof (Z.quot_rem' x' 10). nia. }
    destruct (Z.eqb_spec (Z.quot x' 10) 0) as [Hz|Hnz].
    + right. exists (i + 1, buf'). rewrite Hz in Hv'. repeat split; try done; lia.
    + left. exists (i + 1, Z.quot x' 10, buf'). split; [done|].
      split; [|lia].
      assert (Hq : 0 <= Z.quot x' 10) by (apply Z.quot_pos; lia).
      assert (10 ^ (10 - i) = 10 * 10 ^ (10 - (i + 1))) as Hp.
      { rewrite <- Z.pow_succ_r; [f_equal; lia|].
        destruct (decide (i = 9)) as [->|]; [lia|]. lia. }
      assert (Hub : Z.quot x' 10 < 10 ^ (10 - (i + 1))).
      { apply Z.quot_lt_upper_bound; lia. }
      assert (i <> 9) by (intros ->; simpl in Hub; lia).
      repeat split; try done; lia.
  - exists i, buf. by split.
Qed.

(** The output loop of [print_d] writes the buffer backwards. *)
Lemma print_d_out i (buf : list Z) :
  0 <= i <= 15 -> length buf = 16%nat ->
  exists k, while_ 20 (fun '(i, _) => 0 <=? i - 1)
    (fun '(i, out) => c ← buf_get buf (i - 1); Ok (i - 1, out ++ [c])) (i, [])
    = Ok (k, rev (take (Z.to_nat i) buf)).
Proof.
  intros Hi Hlen.
  destruct (while_rule (fun '(i, _) => 0 <=? i - 1)
    (fun '(i, out) => c ← buf_get buf (i - 1); Ok (i - 1, out ++ [c]))
    (fun '(k, out) => 0 <= k <= i /\
       out ++ rev (take (Z.to_nat k) buf) = rev (take (Z.to_nat i) buf))
    (fun '(k, _) => k) 20 (i, [])) as ([k out] & Hw & [Hk Hout] & Hend).
  - split; [lia|done].
  - intros [k out] [Hk _]. lia.
  - lia.
  - intros [k out] [Hk Hout] Hc.
    destruct (buf_get_inb buf (k - 1)) as (c & Hc1 & ->); [lia|]. simpl.
    exists (k - 1, out ++ [c]). split; [done|]. split; [|lia]. split; [lia|].
    rewrite <- Hout. replace (Z.to_nat k) with (S (Z.to_nat (k - 1))) by lia.
    rewrite (take_S_r _ _ _ Hc1), rev_app_distr. by rewrite <- app_assoc.
  - exists k. rewrite Hw. replace (Z.to_nat k) with 0%nat in Hout by lia.
    rewrite take_0, app_nil_r in Hout. by rewrite Hout.
Qed.

(** [print_d] (the [%d] conversion) never overruns its 16-byte buffer and,
    for every 32-bit [int], writes a minus sign exactly for negative values
    followed by one to ten decimal digits that denote the absolute value. *)
Lemma print_d_spec v :
  is_s32 v ->
  exists ds, print_d v = Ok ((if v <? 0 then [45] else []) ++ ds)
    /\ Forall (fun c => is_digit c = true) ds
    /\ (1 <= length ds <= 10)%nat /\ dec_val ds = Z.abs v.
Proof.
  unfold is_s32. intros Hv. unfold print_d.
  replace (if v <? 0 then s64 (- v) else v) with (Z.abs v)
    by (bcase; wraps; lia).
  destruct (print_d_digits (Z.abs v)) as (i & buf & Hl & Hlen & Hi & Hd & Hval);
    [lia|]. cbv zeta in Hl. rewrite Hl. ok. clear Hl.
  exists (rev (take (Z.to_nat i) buf)).
  assert (Hprops : Forall (fun c => is_digit c = true) (rev (take (Z.to_nat i) buf))
    /\ (1 <= length (rev (take (Z.to_nat i) buf)) <= 10)%nat
    /\ dec_val (rev (take (Z.to_nat i) buf)) = Z.abs v).
  { split; [|split].
    - rewrite Forall_forall in Hd |- *. intros c Hc. apply Hd.
      rewrite list_elem_of_In in *. by apply in_rev.
    - rewrite length_rev, length_take. lia.
    - by rewrite dec_val_rev. }
  split; [|done].
  destruct (v <? 0).
  - rewrite buf_set_ok by lia. ok.
    destruct (print_d_out (i + 1) (<[Z.to_nat i := 45]> buf)) as [k ->];
      [lia|by rewrite length_insert|]. ok.
    replace (Z.to_nat (i + 1)) with (S (Z.to_nat i)) by lia.
    rewrite take_insert_snoc by lia. by rewrite rev_app_distr.
  - ok. destruct (print_d_out i buf) as [k ->]; [lia|done|]. done.
Qed.
