(* ===== verification/User.v ===== *)
(** Model of the text utilities src/echo.c, src/cat.c, src/wc.c and src/grep.c.

    A program reads from streams and writes to its standard output and error.  A
    [read] may deliver less than was asked for (a pipe, the console) and may fail:
    the schedule of a stream says how much each call delivers at most, a negative
    entry is a failure, and a stream without a schedule delivers all it can, as a
    file does.  [Grep.v] has the theorems about grep. *)
From stdpp Require Import base strings numbers list.
From S2P Require Import Prelude CString Printf.
Local Open Scope Z_scope.

(** * Input and output of a program *)

Record stream : Type := mkStream { sdata : list Z; sched : list Z }.

(** [read(fd, buf, n)]: the result, the bytes stored and the stream after. *)
Definition read (st : stream) (n : Z) : Z * list Z * stream :=
  match sched st with
  | [] =>
      let cs := take (Z.to_nat n) (sdata st) in
      (Z.of_nat (length cs), cs, mkStream (drop (Z.to_nat n) (sdata st)) [])
  | k :: ks =>
      if k <? 0 then (-1, [], mkStream (sdata st) ks)
      else
        let m := Z.to_nat (Z.min n k) in
        let cs := take m (sdata st) in
        (Z.of_nat (length cs), cs, mkStream (drop m (sdata st)) ks)
  end.

(** The standard output and error; [obroken] makes every write to the standard
    output fail. *)
Record uio : Type := mkIo { uout : list Z; uerr : list Z; obroken : bool }.

Definition write (fd : Z) (cs : list Z) : M uio Z := fun s =>
  if fd =? 2 then Ok (Z.of_nat (length cs), mkIo (uout s) (uerr s ++ cs) (obroken s))
  else if obroken s then Ok (-1, s)
  else Ok (Z.of_nat (length cs), mkIo (uout s ++ cs) (uerr s) (obroken s)).

Definition fprintf (fd : Z) (fmt : list Z) (ap : list arg) : M uio unit :=
  cs ← lift (printf fmt ap);
  write fd cs ;;
  mret tt.

(** What a helper of a program does: [Next a] returns, [Exit] calls [exit]. *)
Inductive ctl (A : Type) : Type := Next (a : A) | Exit.
Arguments Next {A} _.
Arguments Exit {A}.

(** The files that can be opened, by name. *)
Section Programs.
Context (files : list Z -> option stream).

(** The loop of the mains of cat, wc and grep over their file arguments. *)
Fixpoint each_file (msg : string) (body : stream -> list Z -> M uio (ctl unit)) (args : list (list Z))
    : M uio unit :=
  match args with
  | [] => mret tt
  | a :: args =>
      match files a with
      | None => fprintf 1 (cstr msg ++ cstr ": cannot open %s" ++ [10]) [AStr (Some a)]
      | Some st =>
          r ← body st a;
          match r with
          | Exit => mret tt
          | Next _ => each_file msg body args
          end
      end
  end.

(** * echo *)

(** The arguments after the program's name. *)
Fixpoint echo_loop (args : list (list Z)) : M uio unit :=
  match args with
  | [] => mret tt
  | a :: rest =>
      fprintf 1 (cstr "%s%s")
        [AStr (Some a); AStr (Some (match rest with [] => [10] | _ => cstr " " end))] ;;
      echo_loop rest
  end.

(** * cat *)

Definition io_nofuel {A} : M uio A := fun _ => NoFuel.

(** The loop of [cat]; every turn takes at least one byte of the stream. *)
Fixpoint cat (fuel : nat) (st : stream) : M uio (ctl unit) :=
  let '(n, cs, st) := read st 512 in
  if 0 <? n then
    match fuel with
    | O => io_nofuel
    | S fuel =>
        r ← write 1 cs;
        if negb (r =? n) then fprintf 1 (cstr "cat: write error" ++ [10]) [] ;; mret Exit
        else cat fuel st
    end
  else if n <? 0 then fprintf 1 (cstr "cat: read error" ++ [10]) [] ;; mret Exit
  else mret (Next tt).

Definition stream_fuel (st : stream) : nat := S (length (sdata st) + length (sched st)).

Definition cat_main (stdin : stream) (args : list (list Z)) : M uio unit :=
  match args with
  | [] => cat (stream_fuel stdin) stdin ;; mret tt
  | _ => each_file "cat" (fun st _ => cat (stream_fuel st) st) args
  end.

(** * wc *)

Definition word_seps : list Z := [32; 13; 9; 10; 11].

Record counts : Type := mkCounts { wl : Z; ww : Z; wch : Z; winword : bool }.

(** The body of the [for] loop on one character; the counters are [int]s. *)
Definition wc_char (k : counts) (ch : Z) : counts :=
  let c := s32 (wch k + 1) in
  let l := if ch =? 10 then s32 (wl k + 1) else wl k in
  match strchr word_seps ch with
  | Some _ => mkCounts l (ww k) c false
  | None => if winword k then mkCounts l (ww k) c true else mkCounts l (s32 (ww k + 1)) c true
  end.

(** The loop of [wc]; [None] is a read error. *)
Fixpoint wc_loop (fuel : nat) (st : stream) (k : counts) : res (option counts) :=
  let '(n, cs, st) := read st 512 in
  if 0 <? n then
    match fuel with
    | O => NoFuel
    | S fuel => wc_loop fuel st (fold_left wc_char cs k)
    end
  else if n <? 0 then Ok None
  else Ok (Some k).

Definition wc (st : stream) (name : list Z) : M uio (ctl unit) :=
  r ← lift (wc_loop (stream_fuel st) st (mkCounts 0 0 0 false));
  match r with
  | None => fprintf 1 (cstr "wc: read error" ++ [10]) [] ;; mret Exit
  | Some k =>
      fprintf 1 (cstr "%d %d %d %s" ++ [10]) [AInt (wl k); AInt (ww k); AInt (wch k); AStr (Some name)] ;;
      mret (Next tt)
  end.

Definition wc_main (stdin : stream) (args : list (list Z)) : M uio unit :=
  match args with
  | [] => wc stdin [] ;; mret tt
  | _ => each_file "wc" wc args
  end.

(** * grep *)

(** [matchstar]: [here] is [matchhere] on the rest of the expression. *)
Fixpoint matchstar (here : list Z -> bool) (c : Z) (text : list Z) : bool :=
  if here text then true
  else
    match text with
    | [] => false
    | t :: text => if (t =? c) || (c =? 46 (* '.' *)) then matchstar here c text else false
    end.

Fixpoint matchhere (re text : list Z) : bool :=
  match re with
  | [] => true
  | c :: re1 =>
      match re1 with
      | d :: re2 =>
          if d =? 42 (* '*' *) then matchstar (matchhere re2) c text
          else
            match text with
            | t :: text => if (c =? 46) || (c =? t) then matchhere re1 text else false
            | [] => false
            end
      | [] =>
          if c =? 36 (* '$' *) then match text with [] => true | _ => false end
          else
            match text with
            | t :: text => if (c =? 46) || (c =? t) then matchhere re1 text else false
            | [] => false
            end
      end
  end.

(** The [do ... while] of [match]. *)
Fixpoint match_any (re text : list Z) : bool :=
  if matchhere re text then true
  else match text with [] => false | _ :: text => match_any re text end.

Definition match_ (re text : list Z) : bool :=
  if cur re =? 94 (* '^' *) then matchhere (tail re) text else match_any re text.

Definition GBUF : Z := 1024.

(** [strchr(buf + p, c)], as an index; a buffer without NUL is read past its end. *)
Fixpoint strchr_at (buf : list Z) (p : Z) (c : Z) : res (option Z) :=
  match buf with
  | [] => Fault
  | x :: buf => if x =? 0 then Ok None else if x =? c then Ok (Some p) else strchr_at buf (p + 1) c
  end.

(** The body of the loop over the lines: the line from [p] to the line end at [q]. *)
Definition grep_show (pattern buf : list Z) (p q : Z) : M uio (list Z) :=
  buf ← lift (buf_set buf q 0);
  if match_ pattern (c_string (drop (Z.to_nat p) buf)) then
    buf ← lift (buf_set buf q 10);
    write 1 (take (Z.to_nat (q + 1 - p)) (drop (Z.to_nat p) buf)) ;;
    mret buf
  else mret buf.

(** The loop over the lines of the buffer: the buffer and [p] at its end. *)
Fixpoint grep_lines (fuel : nat) (pattern buf : list Z) (p : Z) : M uio (list Z * Z) :=
  q ← lift (strchr_at (drop (Z.to_nat p) buf) p 10);
  match q with
  | None => mret (buf, p)
  | Some q =>
      match fuel with
      | O => io_nofuel
      | S fuel => buf ← grep_show pattern buf p q; grep_lines fuel pattern buf (q + 1)
      end
  end.

(** The loop of [grep]; [m] bytes of an unfinished line are at the start of the
    buffer. *)
Fixpoint grep_loop (fuel : nat) (pattern : list Z) (st : stream) (buf : list Z) (m : Z) : M uio unit :=
  let '(n, cs, st) := read st (GBUF - m - 1) in
  if 0 <? n then
    match fuel with
    | O => io_nofuel
    | S fuel =>
        let buf := take (Z.to_nat m) buf ++ cs ++ drop (Z.to_nat (m + n)) buf in
        let m := m + n in
        buf ← lift (buf_set buf m 0);
        '(buf, p) ← grep_lines (Z.to_nat m) pattern buf 0;
        let m := if p =? 0 then 0 else m in
        let '(buf, m) :=
          if 0 <? m then
            let m := m - p in
            (take (Z.to_nat m) (drop (Z.to_nat p) buf) ++ drop (Z.to_nat m) buf, m)
          else (buf, m) in
        grep_loop fuel pattern st buf m
    end
  else mret tt.

(** What an earlier file left in the buffer is never read. *)
Definition grep (pattern : list Z) (st : stream) : M uio unit :=
  grep_loop (stream_fuel st) pattern st (replicate (Z.to_nat GBUF) 0) 0.

Definition grep_main (stdin : stream) (args : list (list Z)) : M uio unit :=
  match args with
  | [] => fprintf 2 (cstr "usage: grep pattern [file ...]" ++ [10]) []
  | [pattern] => grep pattern stdin
  | pattern :: names =>
      each_file "grep" (fun st _ => grep pattern st ;; mret (Next tt)) names
  end.
End Programs.

Example echo_ex : echo_loop [cstr "hello"; cstr "world"] (mkIo [] [] false)
  = Ok (tt, mkIo (cstr "hello world" ++ [10]) [] false).
Proof. reflexivity. Qed.

Example wc_ex : wc (mkStream (cstr "two words" ++ [10] ++ cstr "more") []) (cstr "f") (mkIo [] [] false)
  = Ok (Next tt, mkIo (cstr "1 3 14 f" ++ [10]) [] false).
Proof. vm_compute. reflexivity. Qed.

Example grep_ex : grep (cstr "^a.*c$") (mkStream (cstr "abc" ++ [10] ++ cstr "xabc" ++ [10] ++ cstr "ac" ++ [10]) [])
    (mkIo [] [] false)
  = Ok (tt, mkIo (cstr "abc" ++ [10] ++ cstr "ac" ++ [10]) [] false).
Proof. vm_compute. reflexivity. Qed.
