(* ===== verification/Grep.v ===== *)
(** Theorems on src/grep.c: the matcher accepts exactly the language of the
    regular expression, and grep prints exactly the matching lines of a file. *)
From stdpp Require Import base strings numbers list.
From S2P Require Import Prelude CString Printf User.
Local Open Scope Z_scope.

(** * The language of a regular expression *)

Inductive atom : Type := Any | Lit (c : Z).
Inductive item : Type := One (a : atom) | Many (a : atom).

(** An expression: anchored at the start, its items, anchored at the end. *)
Record regexp : Type := mkRe { from_start : bool; items : list item; to_end : bool }.

Definition atom_of (c : Z) : atom := if c =? 46 then Any else Lit c.

(** The items of the text of an expression, and whether it ends in a [$]. *)
Fixpoint parse_items (re : list Z) : list item * bool :=
  match re with
  | [] => ([], false)
  | c :: re1 =>
      match re1 with
      | [] => if c =? 36 then ([], true) else ([One (atom_of c)], false)
      | d :: re2 =>
          if d =? 42 then let '(l, e) := parse_items re2 in (Many (atom_of c) :: l, e)
          else let '(l, e) := parse_items re1 in (One (atom_of c) :: l, e)
      end
  end.

Definition parse_re (re : list Z) : regexp :=
  let start := cur re =? 94 in
  let '(l, e) := parse_items (if start then tail re else re) in
  mkRe start l e.

Definition sat (a : atom) (t : Z) : Prop :=
  match a with Any => True | Lit c => t = c end.

Inductive lang : list item -> list Z -> Prop :=
  | lang_nil : lang [] []
  | lang_one a t l w : sat a t -> lang l w -> lang (One a :: l) (t :: w)
  | lang_many a ts l w : Forall (sat a) ts -> lang l w -> lang (Many a :: l) (ts ++ w).

(** A text matches when some part of it is in the language, at the start or at
    the end where the expression is anchored. *)
Definition matches (r : regexp) (text : list Z) : Prop :=
  exists pre w post, text = pre ++ w ++ post /\ lang (items r) w
  /\ (from_start r = true -> pre = []) /\ (to_end r = true -> post = []).

(** A match at the beginning of the text. *)
Definition prefix_match (l : list item) (e : bool) (text : list Z) : Prop :=
  exists w post, text = w ++ post /\ lang l w /\ (e = true -> post = []).

Lemma sat_eqb c t : ((c =? 46) || (c =? t) = true) <-> sat (atom_of c) t.
Proof.
  unfold atom_of. rewrite orb_true_iff. destruct (Z.eqb_spec c 46); cbn [sat]; [naive_solver|].
  rewrite Z.eqb_eq. naive_solver.
Qed.

Lemma prefix_one c l e text :
  prefix_match (One (atom_of c) :: l) e text <->
  exists t text', text = t :: text' /\ (c =? 46) || (c =? t) = true /\ prefix_match l e text'.
Proof.
  split.
  - intros (w & post & -> & Hl & He). inversion Hl as [|a t l' w' Hs Hl'|]; subst.
    exists t, (w' ++ post). rewrite sat_eqb. split; [done|]. split; [done|]. by exists w', post.
  - intros (t & text' & -> & Hs & w & post & -> & Hl & He). rewrite sat_eqb in Hs.
    exists (t :: w), post. split; [done|]. split; [by constructor|done].
Qed.

Lemma prefix_many c l e text :
  prefix_match (Many (atom_of c) :: l) e text <->
  prefix_match l e text \/
  exists t text', text = t :: text' /\ (t =? c) || (c =? 46) = true
    /\ prefix_match (Many (atom_of c) :: l) e text'.
Proof.
  split.
  - intros (w & post & -> & Hl & He). inversion Hl as [| |a ts l' w' Hs Hl']; subst.
    destruct Hs as [|t ts Ht Hts]; [left; by exists w', post|].
    right. exists t, ((ts ++ w') ++ post). split; [done|]. split.
    + rewrite orb_comm, (Z.eqb_sym t). by apply sat_eqb.
    + exists (ts ++ w'), post. split; [done|]. split; [by constructor|done].
  - intros [(w & post & -> & Hl & He)|(t & text' & -> & Ht & w & post & -> & Hl & He)].
    + exists w, post. split; [done|]. split; [|done]. by apply (lang_many _ [] l w).
    + inversion Hl as [| |a ts l' w' Hs Hl']; subst. exists (t :: ts ++ w'), post. split; [done|].
      split; [|done]. apply (lang_many _ (t :: ts) l w'); [|done]. constructor; [|done].
      rewrite orb_comm, (Z.eqb_sym t) in Ht. by apply sat_eqb.
Qed.

Lemma matchstar_spec here c l e :
  (forall text, here text = true <-> prefix_match l e text) ->
  forall text, matchstar here c text = true <-> prefix_match (Many (atom_of c) :: l) e text.
Proof.
  intros Hh. induction text as [|t text IH]; rewrite prefix_many; cbn [matchstar];
    rewrite <- Hh; destruct (here _); [naive_solver..|naive_solver|].
  destruct ((t =? c) || (c =? 46)) eqn:E; rewrite ?IH; naive_solver.
Qed.

Lemma matchhere_spec n re text : (length re <= n)%nat ->
  matchhere re text = true <-> prefix_match (parse_items re).1 (parse_items re).2 text.
Proof.
  revert re text. induction n as [|n IH]; intros re text Hn.
  all: destruct re as [|c re1]; cbn [matchhere parse_items]; cbn [length] in Hn; [|try lia].
  1,2: split; [intros _; exists [], text; repeat constructor; done|done].
  assert (forall re2 l e, parse_items re2 = (l, e) -> (length re2 <= n)%nat ->
    forall text, matchhere re2 text = true <-> prefix_match l e text) as IH'.
  { intros re2 l e El Hr tx. rewrite IH, El by done. done. }
  destruct re1 as [|d re2].
  - destruct (c =? 36).
    + destruct text as [|t text]; cbn.
      * split; [|done]. intros _. exists [], []. repeat constructor.
      * split; [done|]. intros (w & post & E & Hl & He). rewrite He in E by done. inversion Hl; subst. done.
    + cbn. rewrite prefix_one. destruct text as [|t text]; [naive_solver|].
      destruct ((c =? 46) || (c =? t)) eqn:E; [|naive_solver].
      split; [|done]. intros _. exists t, text. split_and!; [done..|]. exists [], text. repeat constructor. done.
  - destruct (d =? 42).
    + destruct (parse_items re2) as [l e] eqn:El. cbn [fst snd].
      apply matchstar_spec. apply IH'; [done|]. cbn in Hn. lia.
    + destruct (parse_items (d :: re2)) as [l e] eqn:El. cbn [fst snd]. rewrite prefix_one.
      destruct text as [|t text]; [naive_solver|].
      destruct ((c =? 46) || (c =? t)) eqn:E; [|naive_solver].
      rewrite (IH' _ _ _ El) by (cbn in *; lia). naive_solver.
Qed.

Lemma match_any_spec re text :
  match_any re text = true <-> exists pre rest, text = pre ++ rest /\ matchhere re rest = true.
Proof.
  induction text as [|t text IH]; cbn [match_any].
  - destruct (matchhere re []) eqn:E; split; try done.
    + intros _. by exists [], [].
    + intros (pre & rest & Ht & Hm). symmetry in Ht. apply app_eq_nil in Ht as [-> ->]. congruence.
  - destruct (matchhere re (t :: text)) eqn:E.
    + split; [|done]. intros _. by exists [], (t :: text).
    + rewrite IH. split.
      * intros (pre & rest & -> & Hm). by exists (t :: pre), rest.
      * intros ([|t' pre] & rest & Ht & Hm); cbn in Ht; [subst; congruence|].
        injection Ht as -> ->. by exists pre, rest.
Qed.

(** [match] accepts exactly the texts that contain a word of the language. *)
Lemma match_spec re text : match_ re text = true <-> matches (parse_re re) text.
Proof.
  unfold match_, parse_re, matches. destruct (cur re =? 94).
  all: destruct (parse_items _) as [l e] eqn:El; cbn [from_start items to_end].
  - rewrite (matchhere_spec (length (tail re))), El by done. cbn [fst snd]. split.
    + intros (w & post & -> & Hl & He). by exists [], w, post.
    + intros (pre & w & post & -> & Hl & Hs & He). rewrite Hs by done. by exists w, post.
  - rewrite match_any_spec. split.
    + intros (pre & rest & -> & Hm). rewrite (matchhere_spec (length re)), El in Hm by done.
      destruct Hm as (w & post & -> & Hl & He). by exists pre, w, post.
    + intros (pre & w & post & -> & Hl & Hs & He). exists pre, (w ++ post). split; [done|].
      rewrite (matchhere_spec (length re)), El by done. by exists w, post.
Qed.

(** * The lines of a file *)

Definition text_of (ls : list (list Z)) : list Z := mjoin ((fun l => l ++ [10]) <$> ls).

(** A line: no line end and no NUL inside. *)
Definition gline (l : list Z) : Prop := Forall (fun c => c <> 0 /\ c <> 10) l.
Definition no_newline (l : list Z) : Prop := Forall (fun c => c <> 10) l.

Definition emit (io : uio) (cs : list Z) : uio := mkIo (uout io ++ cs) (uerr io) (obroken io).

Lemma text_of_cons l ls : text_of (l :: ls) = l ++ 10 :: text_of ls.
Proof. unfold text_of. cbn. by rewrite <- app_assoc. Qed.

Lemma emit_emit io a b : emit (emit io a) b = emit io (a ++ b).
Proof. unfold emit. cbn. by rewrite app_assoc. Qed.

Lemma emit_nil io : emit io [] = io.
Proof. destruct io. unfold emit. cbn. by rewrite app_nil_r. Qed.

Lemma strchr_at_found l rest p : gline l -> strchr_at (l ++ 10 :: rest) p 10 = Ok (Some (p + Z.of_nat (length l))).
Proof.
  intros Hl. revert p. induction Hl as [|c l [H0 H10] Hl IH]; intros p; cbn [strchr_at app length].
  - cbn. do 2 f_equal. lia.
  - rewrite (proj2 (Z.eqb_neq c 0)), (proj2 (Z.eqb_neq c 10)), IH by done. do 2 f_equal. lia.
Qed.

Lemma strchr_at_none l junk p : no_newline l -> strchr_at (l ++ 0 :: junk) p 10 = Ok None.
Proof.
  intros Hl. revert p. induction Hl as [|c l H10 Hl IH]; intros p; cbn [strchr_at app]; [done|].
  destruct (c =? 0); [done|]. rewrite (proj2 (Z.eqb_neq c 10)) by done. apply IH.
Qed.

Lemma c_string_gline l rest : gline l -> c_string (l ++ 0 :: rest) = l.
Proof.
  induction 1 as [|c l [H0 _] Hl IH]; cbn; [done|]. by rewrite (proj2 (Z.eqb_neq c 0)), IH by done.
Qed.

Lemma drop_insert_within {A} (buf : list A) p l x rest v :
  drop p buf = l ++ x :: rest -> drop p (<[(p + length l)%nat := v]> buf) = l ++ v :: rest.
Proof.
  intros H. rewrite drop_insert_ge, H by lia. replace (p + length l - p)%nat with (length l + 0)%nat by lia.
  by rewrite insert_app_r.
Qed.

Lemma drop_line {A} (buf : list A) p l x rest :
  drop p buf = l ++ x :: rest -> drop (p + length l + 1) buf = rest.
Proof.
  intros H. rewrite <- Nat.add_assoc, <- drop_drop, H, <- drop_drop, drop_app_length. done.
Qed.

Section Lines.
Context (pattern : list Z).

Definition selected (ls : list (list Z)) : list Z := text_of (List.filter (match_ pattern) ls).

Lemma selected_cons l ls :
  selected (l :: ls) = (if match_ pattern l then l ++ [10] else []) ++ selected ls.
Proof.
  unfold selected. cbn [List.filter]. destruct (match_ pattern l); [|done]. by rewrite text_of_cons, <- app_assoc.
Qed.

Lemma grep_show_spec l buf p rest io :
  drop p buf = l ++ 10 :: rest -> (p <= length buf)%nat -> gline l -> obroken io = false ->
  exists buf', grep_show pattern buf (Z.of_nat p) (Z.of_nat p + Z.of_nat (length l)) io
      = Ok (buf', emit io (if match_ pattern l then l ++ [10] else []))
    /\ length buf' = length buf /\ drop (p + length l + 1) buf' = rest.
Proof.
  intros Hd Hp Hl Hb.
  assert (length (drop p buf) = length buf - p)%nat as Hlen by apply length_drop.
  rewrite Hd, length_app in Hlen. cbn [length] in Hlen.
  assert (Z.to_nat (Z.of_nat p + Z.of_nat (length l)) = p + length l)%nat as Eq by lia.
  pose proof (drop_insert_within _ _ _ _ _ 0 Hd) as Hd0.
  unfold grep_show. rewrite buf_set_ok, Eq by lia.
  rewrite (bind_ok _ _ _ (<[(p + length l)%nat := 0]> buf) io), Nat2Z.id, Hd0, c_string_gline by done.
  destruct (match_ pattern l).
  - pose proof (drop_insert_within _ _ _ _ _ 10 Hd0) as Hd1.
    eexists. rewrite buf_set_ok, Eq by (rewrite length_insert; lia).
    split; [|split; [|apply (drop_line _ _ _ _ _ Hd1)]]; [|by rewrite !length_insert].
    erewrite bind_ok by done. rewrite Hd1. unfold write. mrun. cbn [Z.eqb]. rewrite Hb.
    rewrite (cons_middle 10 l), (app_assoc l), take_app_length'; [unfold emit; by rewrite Hb|]. rewrite length_app. cbn. lia.
  - eexists. split; [mrun; by rewrite emit_nil|]. split; [by rewrite length_insert|].
    apply (drop_line _ _ _ _ _ Hd0).
Qed.

Lemma grep_lines_spec ls fuel buf p rest junk io :
  drop p buf = text_of ls ++ rest ++ 0 :: junk -> (p <= length buf)%nat ->
  Forall gline ls -> no_newline rest -> (length ls <= fuel)%nat -> obroken io = false ->
  exists buf', let p' := (p + length (text_of ls))%nat in
    grep_lines fuel pattern buf (Z.of_nat p) io = Ok ((buf', Z.of_nat p'), emit io (selected ls))
    /\ length buf' = length buf /\ drop p' buf' = rest ++ 0 :: junk.
Proof.
  intros Hd Hp Hls Hr Hf Hb. revert fuel buf p io Hd Hp Hf Hb.
  induction Hls as [|l ls Hl Hls IH]; intros fuel buf p io Hd Hp Hf Hb.
  - exists buf. destruct fuel; cbn -[Z.of_nat]; mrun; rewrite Nat2Z.id, Hd; cbn -[Z.of_nat];
      rewrite strchr_at_none by done; rewrite emit_nil, Nat.add_0_r; done.
  - destruct fuel as [|fuel]; [cbn in Hf; lia|].
    rewrite text_of_cons, <- app_assoc in Hd. cbn [app] in Hd.
    assert (length (drop p buf) = length buf - p)%nat as Hlen by apply length_drop.
    rewrite Hd, !length_app in Hlen. cbn [length] in Hlen.
    cbn [grep_lines]. rewrite Nat2Z.id, Hd, strchr_at_found by done.
    erewrite bind_ok by done. cbn iota beta.
    destruct (grep_show_spec l buf p (text_of ls ++ rest ++ 0 :: junk) io) as (buf2 & E2 & L2 & D2); try done.
    rewrite (bind_ok _ _ _ _ _ E2).
    destruct (IH fuel buf2 (p + length l + 1)%nat (emit io (if match_ pattern l then l ++ [10] else [])))
      as (buf' & E & L' & D'); [done|rewrite L2; lia|cbn in Hf; lia|done|].
    exists buf'. replace (Z.of_nat p + Z.of_nat (length l) + 1) with (Z.of_nat (p + length l + 1)) by lia.
    rewrite E, emit_emit, <- selected_cons, text_of_cons, length_app. cbn [length].
    replace (p + (length l + S (length (text_of ls))))%nat with (p + length l + 1 + length (text_of ls))%nat by lia.
    split; [done|]. split; [congruence|done].
Qed.

(** Where the first [k] bytes of a text end: after some whole lines, in a rest
    without a line end. *)
Lemma take_lines ls tl k :
  Forall gline ls -> no_newline tl ->
  exists ls1 ls2 rest, ls = ls1 ++ ls2 /\ no_newline rest
    /\ take k (text_of ls ++ tl) = text_of ls1 ++ rest
    /\ rest ++ drop k (text_of ls ++ tl) = text_of ls2 ++ tl
    /\ (ls1 = [] -> match ls2 with [] => True | l :: _ => (k <= length l)%nat end).
Proof.
  intros Hls Htl. revert k. induction Hls as [|l ls Hl Hls IH]; intros k.
  - exists [], [], (take k tl). cbn. rewrite take_drop. split_and!; try done. by apply Forall_take.
  - rewrite text_of_cons, <- app_assoc. cbn [app]. destruct (decide (k <= length l)%nat) as [Hk|Hk].
    + exists [], (l :: ls), (take k l). rewrite text_of_cons, take_app_le, drop_app_le by done.
      split_and!; [done| |done| |done].
      * apply Forall_take. eapply Forall_impl; [exact Hl|]. naive_solver.
      * by rewrite app_assoc, take_drop, <- app_assoc.
    + destruct (IH (k - length l - 1)%nat) as (ls1 & ls2 & rest & -> & Hr & E1 & E2 & _).
      exists (l :: ls1), ls2, rest. split; [done|]. split; [done|].
      rewrite take_app_ge, drop_app_ge by lia.
      replace (k - length l)%nat with (S (k - length l - 1)) by lia. cbn [take drop].
      rewrite E1, text_of_cons, <- app_assoc. done.
Qed.

(** A read of a file into the room [r] of the buffer. *)
Lemma read_file d r : let n := Nat.min r (length d) in
  read (mkStream d []) (Z.of_nat r) = (Z.of_nat n, take n d, mkStream (drop n d) []).
Proof.
  intros n. unfold read. cbn [sched sdata]. rewrite Nat2Z.id, length_take. fold n.
  unfold n. destruct (decide (r <= length d)%nat); [by rewrite Nat.min_l by lia|].
  by rewrite Nat.min_r, !take_ge, !drop_ge by lia.
Qed.

(** The buffer after the read: the data, a NUL and what was behind. *)
Lemma fill_buffer buf part cs :
  take (length part) buf = part -> (length part + length cs < length buf)%nat ->
  let k := (length part + length cs)%nat in
  exists buf' junk, buf_set (part ++ cs ++ drop k buf) (Z.of_nat k) 0 = Ok buf'
    /\ length buf' = length buf /\ buf' = (part ++ cs) ++ 0 :: junk.
Proof.
  intros Hp Hk k. destruct (drop k buf) as [|y junk] eqn:Ej.
  { apply (f_equal length) in Ej. rewrite length_drop in Ej. cbn in Ej. lia. }
  assert (length (y :: junk) = length buf - k)%nat as Hj by by rewrite <- Ej, length_drop.
  cbn in Hj. eexists _, junk. rewrite buf_set_ok, Nat2Z.id by (rewrite !length_app; cbn; lia).
  split; [done|]. rewrite length_insert, !length_app. cbn. split; [lia|].
  rewrite app_assoc, insert_app_r_alt by (rewrite length_app; lia).
  replace (k - length (part ++ cs))%nat with 0%nat by (rewrite length_app; lia). done.
Qed.

Lemma no_lines ls tl : no_newline (text_of ls ++ tl) -> ls = [].
Proof.
  destruct ls as [|l ls]; [done|]. rewrite text_of_cons, <- app_assoc. intros [_ H]%Forall_app.
  by apply Forall_cons in H as [? _].
Qed.

Lemma selected_app l1 l2 : selected (l1 ++ l2) = selected l1 ++ selected l2.
Proof.
  induction l1 as [|l l1 IH]; [done|]. cbn [app]. by rewrite !selected_cons, IH, app_assoc.
Qed.

Lemma length_text_of_pos l ls : (0 < length (text_of (l :: ls)))%nat.
Proof. rewrite text_of_cons, length_app. cbn. lia. Qed.

Lemma length_lines ls : (length ls <= length (text_of ls))%nat.
Proof.
  induction ls as [|l ls IH]; [done|]. rewrite text_of_cons, length_app. cbn. lia.
Qed.

(** Lines the buffer holds whole. *)
Definition fits (l : list Z) : Prop := (length l <= 1022)%nat.

(** The loop on a file: [part] is the unfinished line at the start of the buffer. *)
Lemma grep_loop_spec fuel buf part d ls tl io :
  length buf = 1024%nat -> take (length part) buf = part -> (length part <= 1022)%nat -> no_newline part ->
  part ++ d = text_of ls ++ tl -> Forall gline ls -> Forall fits ls -> no_newline tl ->
  (length d < fuel)%nat -> obroken io = false ->
  grep_loop fuel pattern (mkStream d []) buf (Z.of_nat (length part)) io = Ok (tt, emit io (selected ls)).
Proof.
  revert buf part d ls tl io. induction fuel as [|fuel IH];
    intros buf part d ls tl io Hb Hp Hp22 Hnl Hd Hls Hfit Htl Hf Hbr; [lia|].
  cbn [grep_loop]. unfold GBUF.
  replace (1024 - Z.of_nat (length part) - 1) with (Z.of_nat (1023 - length part)) by lia.
  rewrite read_file. set (n := Nat.min (1023 - length part) (length d)).
  destruct (decide (length d = 0)%nat) as [Hd0|Hd0].
  { replace n with 0%nat by lia. cbn -[emit]. apply nil_length_inv in Hd0 as ->. rewrite app_nil_r in Hd.
    rewrite (no_lines ls tl), emit_nil by (by rewrite <- Hd). done. }
  assert (length (take n d) = n) as Hn by (rewrite length_take; lia).
  replace (0 <? Z.of_nat n) with true by (symmetry; lia).
  rewrite Nat2Z.id, Hp, <- Nat2Z.inj_add, Nat2Z.id.
  destruct (fill_buffer buf part (take n d)) as (buf2 & junk & Eb & Lb & Hb2); [done|lia|]. rewrite Hn in Eb.
  rewrite Eb. erewrite bind_ok by done. cbn beta.
  set (k := (length part + n)%nat) in *.
  destruct (take_lines ls tl k Hls Htl) as (ls1 & ls2 & rest & -> & Hr & E1 & E2 & E3).
  rewrite <- Hd in E1, E2. unfold k in E1, E2. rewrite take_app_add in E1. rewrite drop_app_add in E2.
  rewrite E1, <- app_assoc in Hb2.
  apply (f_equal length) in E1. rewrite !length_app, Hn in E1.
  apply Forall_app in Hls as [Hls1 Hls2]. apply Forall_app in Hfit as [_ Hfit2].
  destruct (grep_lines_spec ls1 k buf2 0 rest junk io) as (buf3 & E & L3 & D3); try done; [lia| |].
  { pose proof (length_lines ls1). lia. }
  change (Z.of_nat 0) with 0 in E. rewrite (bind_ok _ _ _ _ _ E). cbn [Nat.add] in D3 |- *.
  rewrite selected_app, <- emit_emit.
  destruct ls1 as [|l1 ls1].
  - assert (ls2 = []) as ->.
    { destruct ls2 as [|l2 ls2]; [done|]. specialize (E3 eq_refl). apply Forall_cons in Hfit2 as [H2 _].
      unfold fits in H2. apply (f_equal length) in Hd. cbn [app] in Hd. rewrite text_of_cons, !length_app in Hd.
      cbn [length] in Hd. lia. }
    change (Z.of_nat (length (text_of []))) with 0. cbn [Z.eqb Z.ltb Z.compare].
    apply (IH buf3 [] (drop n d) [] (drop n d)); try done; try (rewrite ?length_drop; cbn; lia); try (by constructor).
    change (rest ++ drop n d = tl) in E2. rewrite <- E2 in Htl. by apply Forall_app in Htl as [_ ?].
  - pose proof (length_text_of_pos l1 ls1) as Hpos.
    set (p := length (text_of (l1 :: ls1))) in *.
    replace (Z.of_nat p =? 0) with false by (symmetry; lia).
    replace (0 <? Z.of_nat k) with true by (symmetry; lia).
    replace (Z.of_nat k - Z.of_nat p) with (Z.of_nat (length rest)) by lia.
    rewrite !Nat2Z.id, D3, take_app_length.
    apply (IH _ rest (drop n d) ls2 tl); try done.
    + rewrite length_app, length_drop. lia.
    + by rewrite take_app_length.
    + lia.
    + rewrite length_drop. lia.
Qed.

(** The whole command on a file. *)
Lemma grep_spec ls tl io :
  Forall gline ls -> Forall fits ls -> no_newline tl -> obroken io = false ->
  grep pattern (mkStream (text_of ls ++ tl) []) io = Ok (tt, emit io (selected ls)).
Proof.
  intros. unfold grep. apply (grep_loop_spec _ _ [] (text_of ls ++ tl) ls tl io);
    try done; try (by constructor); try (cbn; lia).
  unfold stream_fuel. cbn [sdata sched length]. lia.
Qed.
End Lines.

(** * The claims *)

(** The language of a pattern is decided by the program's own matcher. *)
#[local] Instance matches_dec re text : Decision (matches (parse_re re) text).
Proof. refine (cast_if (decide (match_ re text = true))); by rewrite <- match_spec. Defined.

Lemma filter_language pattern ls :
  List.filter (match_ pattern) ls = filter (matches (parse_re pattern)) ls.
Proof.
  induction ls as [|l ls IH]; [done|]. rewrite filter_cons. cbn [List.filter]. rewrite IH.
  case_decide as Hd; rewrite <- match_spec in Hd; [by rewrite Hd|]. by destruct (match_ pattern l).
Qed.

(** C34: on a regular file whose lines fit the buffer, where each read returns all
    the bytes asked for or all that are left, grep ends and writes exactly the lines
    with a match, in order and complete, also those the end of the buffer cuts in
    two; text after the last line end is left out.  A line has a match when some
    part of it, at its start after [^] and at its end before a final [$], is a word
    of the regular expression, in which [.] stands for any character and a starred
    character for any number of them.  On a pipe or the console, where a read may
    return less, this does not hold ([grep_drops_short_read]). *)
Theorem grep_prints_matching_lines pattern ls tl out err :
  Forall gline ls -> Forall (fun l => (length l <= 1022)%nat) ls -> no_newline tl ->
  grep pattern (mkStream (text_of ls ++ tl) []) (mkIo out err false)
  = Ok (tt, mkIo (out ++ text_of (filter (matches (parse_re pattern)) ls)) err false).
Proof. intros. rewrite <- filter_language. by apply (grep_spec pattern ls tl (mkIo out err false)). Qed.

Lemma grep_prints_matching_lines_witness :
  grep (cstr "b$") (mkStream (text_of [cstr "ab"; cstr "ba"] ++ cstr "b") []) (mkIo [] [] false)
  = Ok (tt, mkIo ([] ++ text_of (filter (matches (parse_re (cstr "b$"))) [cstr "ab"; cstr "ba"])) [] false).
Proof.
  apply (grep_prints_matching_lines (cstr "b$") [cstr "ab"; cstr "ba"] (cstr "b") [] []).
  - repeat constructor; vm_compute; discriminate.
  - repeat constructor; vm_compute; repeat constructor.
  - repeat constructor; vm_compute; discriminate.
Defined.

(** A read that ends inside a line loses what it read: the first part of the line
    is dropped and the rest is matched as a line of its own. *)
Theorem grep_drops_short_read pattern a b out err :
  (0 < length a)%nat -> (length a <= 1023)%nat -> gline a -> gline b -> (length b <= 1022)%nat ->
  grep pattern (mkStream (a ++ b ++ [10]) [Z.of_nat (length a)]) (mkIo out err false)
  = Ok (tt, mkIo (out ++ text_of (List.filter (match_ pattern) [b])) err false).
Proof.
  intros Ha Ha' Hga Hgb Hb. unfold grep, stream_fuel. cbn [sdata sched length].
  set (fuel := (length (a ++ b ++ [10%Z]) + 1)%nat). cbn [grep_loop]. unfold GBUF, read at 1. cbn [sched sdata].
  replace (Z.of_nat (length a) <? 0) with false by (symmetry; lia).
  rewrite Z.min_r, Nat2Z.id, take_app_length, drop_app_length by lia.
  replace (0 <? Z.of_nat (length a)) with true by (symmetry; lia).
  rewrite (Z.add_0_l (Z.of_nat (length a))), Nat2Z.id.
  change (Z.to_nat 0) with 0%nat. rewrite take_0, app_nil_l.
  destruct (fill_buffer (replicate (Z.to_nat 1024) 0) [] a) as (buf2 & junk & Eb & Lb & Hb2).
  { done. }
  { rewrite length_replicate. cbn. lia. }
  cbn [length Nat.add app] in Eb, Hb2. rewrite Eb. erewrite bind_ok by done. cbn beta.
  assert (no_newline a) as Hna by (eapply Forall_impl; [exact Hga|]; naive_solver).
  destruct (grep_lines_spec pattern [] (length a) buf2 0 a junk (mkIo out err false)) as (buf3 & E & L3 & _);
    [by rewrite Hb2|lia|constructor|done|cbn; lia|done|].
  change (Z.of_nat 0) with 0 in E. rewrite (bind_ok _ _ _ _ _ E), emit_nil.
  change (Z.of_nat (0 + length (text_of []))) with 0. cbn [Z.eqb Z.ltb Z.compare].
  apply (grep_loop_spec pattern fuel buf3 [] (b ++ [10]) [b] [] (mkIo out err false)).
  - rewrite L3, Lb. apply length_replicate.
  - done.
  - cbn. lia.
  - constructor.
  - by rewrite text_of_cons, app_nil_r.
  - by constructor.
  - by constructor.
  - constructor.
  - unfold fuel. rewrite !length_app. cbn. lia.
  - done.
Qed.
