(* ===== verification/Umalloc.v ===== *)
(** Model of src/umalloc.c: the allocator of the user library.

    Memory is the map of the headers at their byte addresses; a header is 16
    bytes, and pointer arithmetic on [Header*] is in units of 16.  The static
    header [base] lies below the heap; [sbrk] moves the process's break up to a
    limit. *)
From stdpp Require Import base strings numbers list gmap relations.
From S2P Require Import Prelude.
Local Open Scope Z_scope.

Record header : Type := mkHeader { hptr : Z; hsize : Z }.

Record heap : Type := mkHeap {
  hdrs : gmap Z header;
  freep : Z;
  brk : Z }.

Definition unit_size : Z := 16.

Definition get_h (a : Z) : M heap header := fun h =>
  match hdrs h !! a with Some x => Ok (x, h) | None => Fault end.
Definition set_h (a : Z) (x : header) : M heap unit :=
  modify (fun h => mkHeap (<[a := x]> (hdrs h)) (freep h) (brk h)).
Definition set_ptr (a v : Z) : M heap unit := x ← get_h a; set_h a (mkHeader v (hsize x)).
Definition set_size (a v : Z) : M heap unit := x ← get_h a; set_h a (mkHeader (hptr x) v).
(** The size field of a header in memory that was not used as one before: the
    pointer field is what the memory held. *)
Definition new_size (a v : Z) : M heap unit :=
  h ← get; set_h a (mkHeader (match hdrs h !! a with Some x => hptr x | None => 0 end) v).
Definition set_freep (p : Z) : M heap unit := modify (fun h => mkHeap (hdrs h) p (brk h)).

Definition no_fuel {A} : M heap A := fun _ => NoFuel.

(** The search of [free]; every turn goes one header on in the circle. *)
Fixpoint free_scan (fuel : nat) (bp p : Z) : M heap Z :=
  q ← get_h p;
  if (p <? bp) && (bp <? hptr q) then mret p
  else if (hptr q <=? p) && ((p <? bp) || (bp <? hptr q)) then mret p
  else match fuel with
  | O => no_fuel
  | S fuel => free_scan fuel bp (hptr q)
  end.

Definition free (ap : Z) : M heap unit :=
  let bp := ap - unit_size in
  h ← get;
  p ← free_scan (size (hdrs h)) bp (freep h);
  b ← get_h bp;
  q ← get_h p;
  (if bp + unit_size * hsize b =? hptr q then
     n ← get_h (hptr q);
     set_size bp (u32 (hsize b + hsize n)) ;;
     q ← get_h p;
     n ← get_h (hptr q);
     set_ptr bp (hptr n)
   else set_ptr bp (hptr q)) ;;
  q ← get_h p;
  (if p + unit_size * hsize q =? bp then
     b ← get_h bp;
     set_size p (u32 (hsize q + hsize b)) ;;
     b ← get_h bp;
     set_ptr p (hptr b)
   else set_ptr p bp) ;;
  set_freep p.

Section Heap.
(** The address of [base] and the highest break. *)
Context (base_ limit : Z).

(** [None] is the return value -1. *)
Definition sbrk (n : Z) : M heap (option Z) :=
  h ← get;
  let b := brk h + n in
  if limit <? b then mret None
  else put (mkHeap (hdrs h) (freep h) b) ;; mret (Some (brk h)).

Definition morecore (nu : Z) : M heap (option Z) :=
  let nu := if nu <? 4096 then 4096 else nu in
  r ← sbrk (nu * unit_size);
  match r with
  | None => mret None
  | Some hp =>
      new_size hp nu ;;
      free (hp + unit_size) ;;
      h ← get;
      mret (Some (freep h))
  end.

(** The loop of [malloc] at [prevp] and [p]. *)
Fixpoint malloc_loop (fuel : nat) (nunits prevp p : Z) : M heap (option Z) :=
  q ← get_h p;
  if nunits <=? hsize q then
    p ← (if hsize q =? nunits then set_ptr prevp (hptr q) ;; mret p
         else
           set_size p (u32 (hsize q - nunits)) ;;
           q ← get_h p;
           let p := p + unit_size * hsize q in
           new_size p nunits ;;
           mret p);
    set_freep prevp ;;
    mret (Some (p + unit_size))
  else
    h ← get;
    r ← (if p =? freep h then morecore nunits else mret (Some p));
    match r with
    | None => mret None
    | Some p =>
        match fuel with
        | O => no_fuel
        | S fuel => q ← get_h p; malloc_loop fuel nunits p (hptr q)
        end
    end.

(** One turn for every header before and after [morecore]. *)
Definition malloc (nbytes : Z) : M heap (option Z) :=
  let nunits := u32 ((nbytes + unit_size - 1) / unit_size + 1) in
  h ← get;
  (if freep h =? 0 then
     set_h base_ (mkHeader base_ 0) ;;
     set_freep base_
   else mret tt) ;;
  h ← get;
  q ← get_h (freep h);
  malloc_loop (2 * size (hdrs h) + 4) nunits (freep h) (hptr q).
End Heap.

(** * The heap as a row of blocks *)

(** Address, size in units, whether it is free. *)
Abbreviation blocks := (list (Z * Z * bool)).

(** The blocks fill the heap from [a] to [b]. *)
Fixpoint tiled (a : Z) (bs : blocks) (b : Z) : Prop :=
  match bs with
  | [] => a = b
  | (x, n, _) :: bs => x = a /\ 0 < n /\ tiled (a + 16 * n) bs b
  end.

Fixpoint frees (bs : blocks) : list (Z * Z) :=
  match bs with
  | [] => []
  | (x, n, f) :: bs => if (f : bool) then (x, n) :: frees bs else frees bs
  end.
Fixpoint allocs (bs : blocks) : list (Z * Z) :=
  match bs with
  | [] => []
  | (x, n, f) :: bs => if (f : bool) then allocs bs else (x, n) :: allocs bs
  end.

(** Whether the last block is free, and that no two neighbours are. *)
Fixpoint lastf (prev : bool) (bs : blocks) : bool :=
  match bs with [] => prev | (_, _, f) :: bs => lastf f bs end.
Fixpoint coal (prev : bool) (bs : blocks) : Prop :=
  match bs with [] => True | (_, _, f) :: bs => prev && f = false /\ coal f bs end.

(** A piece of the list of headers: from the pointer [a] through [l] to [z]. *)
Fixpoint chain (m : gmap Z header) (l : list (Z * Z)) (a z : Z) : Prop :=
  match l with
  | [] => a = z
  | (b, s) :: l => a = b /\ exists nx, m !! b = Some (mkHeader nx s) /\ chain m l nx z
  end.

Lemma tiled_app a xs ys b : tiled a (xs ++ ys) b <-> exists c, tiled a xs c /\ tiled c ys b.
Proof.
  revert a. induction xs as [|[[x n] f] xs IH]; intros a; cbn.
  - split; [by exists a|]. by intros (c & -> & ?).
  - rewrite IH. split.
    + intros (? & ? & c & ? & ?). by exists c.
    + intros (c & (? & ? & ?) & ?). eauto.
Qed.

Lemma tiled_le a bs b : tiled a bs b -> a <= b.
Proof.
  revert a. induction bs as [|[[x n] f] bs IH]; intros a; cbn; [lia|]. intros (_ & ? & H). apply IH in H. lia.
Qed.

Lemma tiled_in a bs b x n f : tiled a bs b -> (x, n, f) ∈ bs -> a <= x /\ 0 < n /\ x + 16 * n <= b.
Proof.
  intros H (xs & ys & ->)%list_elem_of_split. apply tiled_app in H as (c & H1 & -> & Hn & H2).
  apply tiled_le in H1, H2. lia.
Qed.

Lemma frees_app xs ys : frees (xs ++ ys) = frees xs ++ frees ys.
Proof. induction xs as [|[[x n] []] xs IH]; cbn; by rewrite ?IH. Qed.
Lemma allocs_app xs ys : allocs (xs ++ ys) = allocs xs ++ allocs ys.
Proof. induction xs as [|[[x n] []] xs IH]; cbn; by rewrite ?IH. Qed.
Lemma lastf_app p xs ys : lastf p (xs ++ ys) = lastf (lastf p xs) ys.
Proof. revert p. induction xs as [|[[x n] f] xs IH]; intros p; cbn; auto. Qed.
Lemma coal_app p xs ys : coal p (xs ++ ys) <-> coal p xs /\ coal (lastf p xs) ys.
Proof. revert p. induction xs as [|[[x n] f] xs IH]; intros p; cbn; [tauto|]. rewrite IH. tauto. Qed.

Lemma elem_of_frees x n bs : (x, n) ∈ frees bs <-> (x, n, true) ∈ bs.
Proof.
  induction bs as [|[[y m] []] bs IH]; cbn.
  - split; by intros ?%elem_of_nil.
  - rewrite !elem_of_cons, IH. split; (intros [?|?]; [left; congruence|by right]).
  - rewrite elem_of_cons, IH. split; [by right|]. by intros [?|?].
Qed.
Lemma elem_of_allocs x n bs : (x, n) ∈ allocs bs <-> (x, n, false) ∈ bs.
Proof.
  induction bs as [|[[y m] []] bs IH]; cbn.
  - split; by intros ?%elem_of_nil.
  - rewrite elem_of_cons, IH. split; [by right|]. by intros [?|?].
  - rewrite !elem_of_cons, IH. split; (intros [?|?]; [left; congruence|by right]).
Qed.

Lemma frees_split bs L1 p s L2 : frees bs = L1 ++ (p, s) :: L2 ->
  exists xs ys, bs = xs ++ (p, s, true) :: ys /\ frees xs = L1 /\ frees ys = L2.
Proof.
  revert L1. induction bs as [|[[x n] f] bs IH]; intros L1 H; cbn in H; [by destruct L1|]. destruct f.
  - destruct L1 as [|y L1]; simplify_eq/=.
    + by exists [], bs.
    + destruct (IH L1) as (xs & ys & -> & <- & <-); [done|]. by exists ((x, n, true) :: xs), ys.
  - destruct (IH L1) as (xs & ys & -> & <- & <-); [done|]. by exists ((x, n, false) :: xs), ys.
Qed.

Lemma chain_app m l1 l2 a z : chain m (l1 ++ l2) a z <-> exists y, chain m l1 a y /\ chain m l2 y z.
Proof.
  revert a. induction l1 as [|[b s] l1 IH]; intros a; cbn.
  - split; [by exists a|]. by intros (y & -> & ?).
  - split.
    + intros (-> & nx & E & H). apply IH in H as (y & ? & ?). exists y. eauto.
    + intros (y & (-> & nx & E & H) & ?). split; [done|]. exists nx. split; [done|]. apply IH. eauto.
Qed.

Lemma chain_insert m l a z k x : k ∉ l.*1 -> chain m l a z -> chain (<[k := x]> m) l a z.
Proof.
  revert a. induction l as [|[b s] l IH]; intros a Hk; cbn; [done|]. cbn in Hk. apply not_elem_of_cons in Hk as [Hb Hk].
  intros (-> & nx & E & H). split; [done|]. exists nx. split; [by rewrite lookup_insert_ne|]. auto.
Qed.

Lemma chain_dom m l a z b s : chain m l a z -> (b, s) ∈ l -> exists nx, m !! b = Some (mkHeader nx s).
Proof.
  intros H (l1 & l2 & ->)%list_elem_of_split. apply chain_app in H as (y & _ & <- & nx & E & _). eauto.
Qed.

Lemma chain_size m l a z : chain m l a z -> NoDup l.*1 -> (length l <= size m)%nat.
Proof.
  intros H Hnd. rewrite <- (length_fmap fst l), <- (size_list_to_set (C := gset Z)), <- size_dom by done.
  apply subseteq_size. intros b [ [b' s] [-> Hin]]%elem_of_list_to_set%list_elem_of_fmap.
  destruct (chain_dom _ _ _ _ _ _ H Hin) as [nx E]. by apply elem_of_dom_2 in E.
Qed.

(** Addresses that grow. *)
Fixpoint asc (a : Z) (l : list (Z * Z)) : Prop :=
  match l with [] => True | (b, _) :: l => a < b /\ asc b l end.

Lemma asc_lt a l x : asc a l -> x ∈ l.*1 -> a < x.
Proof.
  revert a. induction l as [|[b s] l IH]; intros a; cbn; [by intros _ ?%elem_of_nil|].
  intros [Hb H]. rewrite elem_of_cons. intros [->|Hx]; [done|]. apply IH in H; [lia|done].
Qed.

Lemma asc_weaken a a' l : a' <= a -> asc a l -> asc a' l.
Proof. destruct l as [|[b s] l]; cbn; [done|]. intros ? [? ?]. split; [lia|done]. Qed.

Lemma asc_app a l1 l2 : asc a (l1 ++ l2) -> asc a l1 /\ asc a l2 /\ forall x y, x ∈ l1.*1 -> y ∈ l2.*1 -> x < y.
Proof.
  revert a. induction l1 as [|[b s] l1 IH]; intros a; cbn; [by intros; split; [|split; [|by intros x y ?%elem_of_nil]]|].
  intros [Hb H]. destruct (IH b H) as (H1 & H2 & H3). split; [done|].
  split; [by apply (asc_weaken b); [lia|]|]. intros x y. rewrite elem_of_cons. intros [->|Hx] Hy; [|by apply H3].
  apply (asc_lt _ _ _ H2 Hy).
Qed.

Lemma asc_nodup a l : asc a l -> NoDup l.*1.
Proof.
  revert a. induction l as [|[b s] l IH]; intros a; cbn; [intros _; apply NoDup_nil_2|].
  intros [_ H]. apply NoDup_cons. split; [|by eapply IH]. intros Hb. apply (asc_lt _ _ _ H) in Hb. lia.
Qed.

Lemma tiled_asc a bs b c : tiled a bs b -> c < a -> asc c (frees bs).
Proof.
  revert a c. induction bs as [|[[x n] f] bs IH]; intros a c; cbn; [done|]. intros (-> & Hn & H) Hc.
  destruct f; [cbn; split; [done|]|]; eapply IH; try done; lia.
Qed.

Section Invariant.
Context (base_ lo limit : Z).
Hypothesis Hbase : 0 < base_ < lo.
Hypothesis Hlimit : limit <= 2 ^ 35.

Abbreviation ring bs := ((base_, 0) :: frees bs).

Record heap_ok (h : heap) (bs : blocks) : Prop := {
  ho_tiled : tiled lo bs (brk h);
  ho_limit : brk h <= limit;
  ho_coal : coal false bs;
  ho_ring : chain (hdrs h) (ring bs) base_ base_;
  ho_allocs : forall a n, (a, n) ∈ allocs bs -> exists p, hdrs h !! a = Some (mkHeader p n);
  ho_freep : freep h ∈ (ring bs).*1 }.

Lemma ring_asc h bs : heap_ok h bs -> asc 0 (ring bs).
Proof. intros H. cbn. split; [lia|]. eapply tiled_asc; [apply H|lia]. Qed.

Lemma get_h_ok a x h : hdrs h !! a = Some x -> get_h a h = Ok (x, h).
Proof. intros E. unfold get_h. by rewrite E. Qed.

Definition upd (h : heap) (a : Z) (x : header) : heap := mkHeap (<[a := x]> (hdrs h)) (freep h) (brk h).

Lemma set_ptr_ok a v x h : hdrs h !! a = Some x -> set_ptr a v h = Ok (tt, upd h a (mkHeader v (hsize x))).
Proof. intros E. unfold set_ptr. by rewrite (bind_ok _ _ _ _ _ (get_h_ok a x h E)). Qed.
Lemma set_size_ok a v x h : hdrs h !! a = Some x -> set_size a v h = Ok (tt, upd h a (mkHeader (hptr x) v)).
Proof. intros E. unfold set_size. by rewrite (bind_ok _ _ _ _ _ (get_h_ok a x h E)). Qed.

(** ** The search of [free] *)

Lemma scan_up h A p ps y bp : forall fuel q c, chain (hdrs h) (A ++ [(p, ps)]) q y -> asc c (A ++ [(p, ps)]) ->
  p < bp -> (bp < y \/ y <= p) -> (length A <= fuel)%nat -> free_scan fuel bp q h = Ok (p, h).
Proof.
  induction A as [|[a s] A IH]; intros fuel q c H Ha Hp Hy Hf; cbn in H.
  - destruct H as (-> & nx & E & ->). destruct fuel; cbn [free_scan]; rewrite (bind_ok _ _ _ _ _ (get_h_ok _ _ _ E)); cbn [hptr].
    all: destruct Hy; [by replace ((p <? bp) && (bp <? y)) with true by lia|].
    all: destruct ((p <? bp) && (bp <? y)); [done|]; by replace ((y <=? p) && ((p <? bp) || (bp <? y))) with true by lia.
  - destruct H as (-> & nx & E & H). destruct fuel as [|fuel]; [cbn in Hf; lia|]. cbn [free_scan].
    rewrite (bind_ok _ _ _ _ _ (get_h_ok _ _ _ E)). cbn [hptr]. destruct Ha as [_ Ha].
    assert (a < nx <= p) as Hnx.
    { destruct A as [|[b s'] A]; cbn in H, Ha; destruct H as [-> _]; destruct Ha as [? Ha]; [lia|]. split; [done|].
      destruct (decide (b < p)); [lia|]. assert (b < p); [|lia]. apply (asc_lt _ _ _ Ha). rewrite fmap_app. apply elem_of_app. right. by left. }
    replace ((a <? bp) && (bp <? nx)) with false by lia. replace ((nx <=? a) && ((a <? bp) || (bp <? nx))) with false by lia.
    cbn in Hf. apply (IH fuel nx a); try done. lia.
Qed.

Lemma scan_high h B bp : forall fuel q c, chain (hdrs h) B q base_ -> asc c B -> bp <= c -> base_ < bp ->
  free_scan (length B + fuel) bp q h = if decide (B = []) then free_scan fuel bp q h else free_scan fuel bp base_ h.
Proof.
  induction B as [|[b s] B IH]; intros fuel q c H Ha Hc Hb; [done|]. cbn in H. destruct H as (-> & nx & E & H). destruct Ha as [Hcb Ha].
  rewrite decide_False by done. cbn [length plus free_scan]. rewrite (bind_ok _ _ _ _ _ (get_h_ok _ _ _ E)). cbn [hptr].
  replace ((b <? bp) && (bp <? nx)) with false by lia.
  replace ((nx <=? b) && ((b <? bp) || (bp <? nx))) with false.
  2:{ destruct B as [|[b' s'] B]; cbn in H; [subst; lia|]. destruct H as [-> _]. destruct Ha as [? _]. lia. }
  rewrite (IH fuel nx b) by (done || lia). destruct (decide (B = [])) as [->|]; [cbn in H; by subst|done].
Qed.

Lemma free_scan_spec h A p ps B bp : chain (hdrs h) (A ++ (p, ps) :: B) base_ base_ -> asc 0 (A ++ (p, ps) :: B) ->
  base_ < bp -> p < bp -> asc bp B -> freep h ∈ (A ++ (p, ps) :: B).*1 ->
  (length (A ++ (p, ps) :: B) <= size (hdrs h))%nat -> free_scan (size (hdrs h)) bp (freep h) h = Ok (p, h).
Proof.
  intros H Ha Hb Hp HB Hf Hsz. rewrite length_app in Hsz. cbn [length] in Hsz.
  assert (exists y, chain (hdrs h) (A ++ [(p, ps)]) base_ y /\ chain (hdrs h) B y base_) as (y & H1 & H2).
  { apply chain_app. by rewrite <- app_assoc. }
  assert (bp < y \/ y <= p) as Hy.
  { destruct B as [|[b s] B]; cbn in H2; [right|left; destruct H2 as [-> _]; apply HB].
    subst y. destruct A as [|[a s] A]; cbn in H1; destruct H1 as [-> _]; [done|]. destruct Ha as [_ Ha]. apply asc_app in Ha as (_ & [? _] & _). lia. }
  assert (asc 0 (A ++ [(p, ps)])) as Ha1 by (apply (asc_app 0 (A ++ [(p, ps)]) B); by rewrite <- app_assoc).
  assert (forall f, (length A <= f)%nat -> free_scan f bp base_ h = Ok (p, h)) as Hup by (intros f Hle; by apply (scan_up h A p ps y bp f base_ 0)).
  assert (freep h ∈ (A ++ [(p, ps)]).*1 \/ freep h ∈ B.*1) as [Hin|Hin].
  { rewrite <- elem_of_app, <- fmap_app, <- app_assoc. done. }
  - apply list_elem_of_fmap in Hin as ([q s] & Eq & Hin). cbn in Eq. apply list_elem_of_split in Hin as (l1 & l2 & E).
    rewrite E in H1, Ha1. apply chain_app in H1 as (z & _ & H1). apply asc_app in Ha1 as (_ & Ha2 & _).
    destruct (exists_last (l := (q, s) :: l2)) as (l3 & x & E3); [done|]. rewrite E3 in *. rewrite app_assoc in E. apply app_inj_tail in E as [-> <-].
    assert (z = freep h) as <-. { destruct l3; cbn in *; simplify_eq/=; tauto. }
    apply (scan_up h l3 p ps y bp _ _ 0); try done. rewrite length_app in Hsz. lia.
  - apply list_elem_of_fmap in Hin as ([q s] & Eq & Hin). cbn in Eq. apply list_elem_of_split in Hin as (l1 & l2 & ->).
    apply chain_app in H2 as (z & _ & H2). apply asc_app in HB as (_ & HB & _). assert (z = freep h) as <- by (cbn in *; naive_solver).
    rewrite length_app in Hsz. replace (size (hdrs h)) with (length ((q, s) :: l2) + (size (hdrs h) - length ((q, s) :: l2)))%nat by (cbn; cbn in Hsz; lia).
    rewrite (scan_high h _ bp _ z bp) by (done || lia). rewrite decide_False by done. apply Hup. cbn [length] in *. lia.
Qed.

(** ** [free] *)

Lemma tiled_uniq a bs b x n m f g : tiled a bs b -> (x, n, f) ∈ bs -> (x, m, g) ∈ bs -> n = m /\ f = g.
Proof.
  revert a. induction bs as [|[[y k] e] bs IH]; intros a; cbn; [by intros _ ?%elem_of_nil|]. intros (-> & Hk & H).
  rewrite !elem_of_cons. intros [E1|H1] [E2|H2].
  - by simplify_eq.
  - simplify_eq. pose proof (tiled_in _ _ _ _ _ _ H H2). lia.
  - simplify_eq. pose proof (tiled_in _ _ _ _ _ _ H H1). lia.
  - eauto.
Qed.

(** The block [bp] freed and merged with a free block on its right. *)
Record right_merged (h : heap) (bp n nx : Z) (ys : blocks) (n' nx' : Z) (ys' : blocks) : Prop := {
  rm_tiled : tiled (bp + 16 * n') ys' (brk h);
  rm_coal : coal true ys';
  rm_allocs : allocs ys' = allocs ys;
  rm_chain : chain (hdrs h) (frees ys') nx' base_;
  rm_size : n <= n';
  rm_len : (length (frees ys') <= length (frees ys))%nat }.

Lemma merge_right h bp n ys p ps pp nx : tiled (bp + 16 * n) ys (brk h) -> coal false ys -> base_ < bp -> 0 < n ->
  brk h <= limit ->
  chain (hdrs h) (frees ys) nx base_ -> hdrs h !! bp = Some (mkHeader pp n) -> hdrs h !! p = Some (mkHeader nx ps) ->
  bp <> p -> exists n' nx' ys', right_merged h bp n nx ys n' nx' ys'
  /\ (if bp + unit_size * n =? nx then
        m ← get_h nx; set_size bp (u32 (n + hsize m)) ;; q ← get_h p; m ← get_h (hptr q); set_ptr bp (hptr m)
      else set_ptr bp nx) h = Ok (tt, upd h bp (mkHeader nx' n')).
Proof.
  intros Ht Hc Hb Hn Hlim Hch Ebp Ep Hne. unfold unit_size.
  destruct ys as [|[[b k] [|]] ys].
  - exists n, nx, []. split; [by split|]. cbn in Hch. subst nx. replace (bp + 16 * n =? base_) with false by lia. by apply (set_ptr_ok bp base_ _ h Ebp).
  - cbn in Ht, Hch, Hc. destruct Ht as (-> & Hk & Ht), Hch as (-> & nx2 & Eb & Hch), Hc as [_ Hc]. pose proof (tiled_le _ _ _ Ht).
    exists (n + k), nx2, ys. split.
    + split; try done; [|lia|cbn; lia]. by replace (bp + 16 * (n + k)) with (bp + 16 * n + 16 * k) by lia.
    + rewrite Z.eqb_refl, (bind_ok _ _ _ _ _ (get_h_ok _ _ _ Eb)). cbn [hsize].
      replace (u32 (n + k)) with (n + k) by (unfold u32; rewrite Z.mod_small; lia).
      rewrite (bind_ok _ _ _ _ _ (set_size_ok bp (n + k) _ h Ebp)). cbn [hptr].
      assert (hdrs (upd h bp (mkHeader pp (n + k))) !! p = Some (mkHeader (bp + 16 * n) ps)) as Ep2 by (cbn; by rewrite lookup_insert_ne).
      rewrite (bind_ok _ _ _ _ _ (get_h_ok _ _ _ Ep2)). cbn [hptr].
      assert (hdrs (upd h bp (mkHeader pp (n + k))) !! (bp + 16 * n) = Some (mkHeader nx2 k)) as Eb2 by (cbn; rewrite lookup_insert_ne; [done|lia]).
      rewrite (bind_ok _ _ _ _ _ (get_h_ok _ _ _ Eb2)). cbn [hptr].
      rewrite (set_ptr_ok bp nx2 (mkHeader pp (n + k))) by (cbn; apply lookup_insert_eq). unfold upd. cbn. by rewrite insert_insert_eq.
  - cbn in Ht, Hch, Hc. destruct Ht as (-> & Hk & Ht). exists n, nx, ((bp + 16 * n, k, false) :: ys). split.
    + split; cbn; try done; tauto.
    + assert (bp + 16 * n <> nx) as Hnx.
      { destruct (frees ys) as [|[b s] l] eqn:E; cbn in Hch; [lia|]. destruct Hch as [-> _].
        assert ((b, s, true) ∈ ys) as Hin by (apply elem_of_frees; rewrite E; by left). pose proof (tiled_in _ _ _ _ _ _ Ht Hin). lia. }
      rewrite (proj2 (Z.eqb_neq _ _) Hnx). by apply (set_ptr_ok bp nx _ h Ebp).
Qed.

(** The free header below [bp]: the block just before it, or one further away. *)
Lemma left_case xs bp A p ps : tiled lo xs bp -> ring xs = A ++ [(p, ps)] ->
  (exists xs1, xs = xs1 ++ [(p, ps, true)] /\ A = ring xs1 /\ p + 16 * ps = bp)
  \/ (lastf false xs = false /\ p + 16 * ps <> bp).
Proof.
  intros Ht E. destruct xs as [|[[q k] f] xs1 _] using rev_ind.
  - right. split; [done|]. cbn in Ht, E. destruct A as [|x A]; simplify_eq/=; [lia|]. by destruct A.
  - rewrite frees_app in E. apply tiled_app in Ht as (c & Ht & -> & Hk & Hb). cbn in Hb. destruct f.
    + left. cbn [frees] in E. rewrite app_comm_cons in E. apply app_inj_tail in E as [<- E]. simplify_eq. by exists xs1.
    + right. rewrite lastf_app. split; [done|]. cbn [frees] in E. rewrite app_nil_r in E.
      assert ((p, ps) ∈ ring xs1) as Hin by (rewrite E; apply elem_of_app; right; by left).
      apply elem_of_cons in Hin as [?|Hin]; simplify_eq; [pose proof (tiled_le _ _ _ Ht); lia|].
      apply elem_of_frees in Hin. pose proof (tiled_in _ _ _ _ _ _ Ht Hin). lia.
Qed.

Lemma ring_not_alloc h bs x n : heap_ok h bs -> (x, n) ∈ allocs bs -> x ∉ (ring bs).*1.
Proof.
  intros H Hin Hx. apply elem_of_allocs in Hin. pose proof (tiled_in _ _ _ _ _ _ (ho_tiled _ _ H) Hin).
  cbn in Hx. apply elem_of_cons in Hx as [->|Hx]; [lia|]. apply list_elem_of_fmap in Hx as ([y m] & -> & Hy). apply elem_of_frees in Hy.
  by destruct (tiled_uniq _ _ _ _ _ _ _ _ (ho_tiled _ _ H) Hin Hy) as [_ ?].
Qed.

(** Linking the freed block behind [p], merged or not. *)
Lemma link_left h xs bp n p ps A nx ys : let h1 := upd h bp (mkHeader nx n) in
  tiled lo (xs ++ (bp, n, true) :: ys) (brk h) -> brk h <= limit -> coal false xs -> coal true ys ->
  ring xs = A ++ [(p, ps)] -> chain (hdrs h) A base_ p -> (exists y, hdrs h !! p = Some (mkHeader y ps)) ->
  chain (hdrs h) (frees ys) nx base_ ->
  (forall a m, (a, m) ∈ allocs xs ++ allocs ys -> exists q, hdrs h !! a = Some (mkHeader q m)) ->
  exists h' bs', (q ← get_h p;
      (if p + unit_size * hsize q =? bp then
         b ← get_h bp; set_size p (u32 (hsize q + hsize b)) ;; b ← get_h bp; set_ptr p (hptr b)
       else set_ptr p bp) ;; set_freep p) h1 = Ok (tt, h')
  /\ heap_ok h' bs' /\ brk h' = brk h /\ allocs bs' = allocs xs ++ allocs ys
  /\ (length (frees bs') <= S (length (frees xs) + length (frees ys)))%nat
  /\ exists a m, (a, m) ∈ frees bs' /\ n <= m.
Proof.
  intros h1 Ht Hlim Hcx Hcy EA HA (y & Ep) HY Hal.
  pose proof Ht as (c & Htx & -> & Hn & Hty)%tiled_app. cbn in Hty.
  assert (ring (xs ++ (c, n, true) :: ys) = A ++ (p, ps) :: (c, n) :: frees ys) as ER
    by (rewrite frees_app; cbn [frees]; by rewrite app_comm_cons, EA, <- app_assoc).
  assert (NoDup ((A ++ (p, ps) :: (c, n) :: frees ys).*1)) as Hnd.
  { rewrite <- ER. apply (asc_nodup 0). cbn. split; [lia|]. eapply tiled_asc; [exact Ht|lia]. }
  rewrite fmap_app in Hnd. apply NoDup_app in Hnd as (_ & HA1 & (Hp1 & (Hc1 & _)%NoDup_cons)%NoDup_cons). cbn [fst] in *.
  assert (c <> p /\ p ∉ (frees ys).*1) as [Hcp Hpy] by (apply not_elem_of_cons in Hp1 as [? ?]; split; [congruence|done]).
  assert (p ∉ A.*1 /\ c ∉ A.*1) as [HpA HcA].
  { split; intros Hin; apply (HA1 _ Hin); [by left|right; by left]. }
  assert (forall a m, (a, m) ∈ allocs xs ++ allocs ys -> a <> c /\ a <> p) as Hne.
  { intros a m Hin. rewrite <- allocs_app in Hin.
    assert ((a, m, false) ∈ xs ++ (c, n, true) :: ys) as Hin2.
    { rewrite allocs_app in Hin. apply elem_of_app. apply elem_of_app in Hin as [H|H]; apply elem_of_allocs in H; [by left|right; by right]. }
    split; intros ->.
    - destruct (tiled_uniq _ _ _ _ _ n _ true Ht Hin2) as [_ ?]; [|done]. apply elem_of_app. right. by left.
    - assert ((p, ps) ∈ ring xs) as Hp by (rewrite EA; apply elem_of_app; right; by left).
      apply elem_of_cons in Hp as [?|Hp]; simplify_eq; [pose proof (tiled_in _ _ _ _ _ _ Ht Hin2); lia|].
      apply elem_of_frees in Hp. destruct (tiled_uniq _ _ _ _ _ ps _ true Ht Hin2) as [_ ?]; [|done]. apply elem_of_app. by left. }
  assert (forall v, hdrs (upd h1 p v) !! c = Some (mkHeader nx n)) as Ec by (intros v; cbn; by rewrite lookup_insert_ne, lookup_insert_eq by done).
  assert (hdrs h1 !! p = Some (mkHeader y ps)) as Ep1 by (cbn; by rewrite lookup_insert_ne).
  assert (hdrs h1 !! c = Some (mkHeader nx n)) as Ec1 by (cbn; apply lookup_insert_eq).
  assert (forall v A' z, p ∉ A'.*1 -> c ∉ A'.*1 -> forall a, chain (hdrs h) A' a z -> chain (hdrs (upd h1 p v)) A' a z) as Hfr.
  { intros v A' z H1 H2 a H. cbn. by apply chain_insert, chain_insert. }
  assert (forall v a m, (a, m) ∈ allocs xs ++ allocs ys -> exists q, hdrs (upd h1 p v) !! a = Some (mkHeader q m)) as Hal'.
  { intros v a m Hin. destruct (Hne a m Hin). cbn. rewrite !lookup_insert_ne by done. by apply Hal. }
  rewrite (bind_ok _ _ _ _ _ (get_h_ok _ _ _ Ep1)). cbn [hsize]. unfold unit_size.
  destruct (left_case xs c A p ps Htx EA) as [(xs1 & -> & -> & Epc)|[Hl Hpc]].
  - apply tiled_app in Htx as (d & Htx & <- & Hps & _). pose proof (tiled_le _ _ _ Htx). pose proof (tiled_le _ _ _ Hty).
    assert ((b ← get_h c; set_size p (u32 (ps + hsize b)) ;; b ← get_h c; set_ptr p (hptr b)) h1
      = Ok (tt, upd h1 p (mkHeader nx (ps + n)))) as Ein.
    { rewrite (bind_ok _ _ _ _ _ (get_h_ok _ _ _ Ec1)). cbn [hsize].
      replace (u32 (ps + n)) with (ps + n) by (unfold u32; rewrite Z.mod_small; lia).
      rewrite (bind_ok _ _ _ _ _ (set_size_ok p (ps + n) _ h1 Ep1)). cbn [hptr].
      rewrite (bind_ok _ _ _ _ _ (get_h_ok _ _ _ (Ec _))). cbn [hptr].
      rewrite (set_ptr_ok p nx (mkHeader y (ps + n))) by (cbn; apply lookup_insert_eq). unfold upd. cbn. by rewrite insert_insert_eq. }
    rewrite (proj2 (Z.eqb_eq _ _) Epc), (bind_ok _ _ _ _ _ Ein).
    eexists _, (xs1 ++ (p, ps + n, true) :: ys). split; [reflexivity|].
    assert (allocs (xs1 ++ [(p, ps, true)]) = allocs xs1) as Eal by (rewrite allocs_app; cbn; apply app_nil_r). rewrite Eal in *.
    split; [|split; [done|split; [by rewrite allocs_app|split; [rewrite !frees_app, !length_app; cbn; lia|]]]].
    + split; cbn [hdrs brk freep].
      * apply tiled_app. exists p. split; [done|]. cbn. split; [done|]. split; [lia|]. replace (p + 16 * (ps + n)) with (c + 16 * n) by lia. done.
      * done.
      * apply coal_app in Hcx as [Hcx Hl]. apply coal_app. split; [done|]. cbn in *. split; [|done]. apply Hl.
      * rewrite frees_app, app_comm_cons. cbn [frees]. apply chain_app. exists p. split; [by apply (Hfr (mkHeader nx (ps + n)))|].
        cbn. split; [done|]. exists nx. split; [apply lookup_insert_eq|]. by apply (Hfr (mkHeader nx (ps + n))).
      * rewrite allocs_app. cbn [allocs]. apply (Hal' (mkHeader nx (ps + n))).
      * cbn. right. rewrite frees_app, fmap_app. apply elem_of_app. right. by left.
    + exists p, (ps + n). split; [|lia]. rewrite frees_app. apply elem_of_app. right. by left.
  - rewrite (proj2 (Z.eqb_neq _ _) Hpc). rewrite (bind_ok _ _ _ _ _ (set_ptr_ok p c _ h1 Ep1)). cbn [hsize].
    eexists _, (xs ++ (c, n, true) :: ys). split; [reflexivity|].
    split; [|split; [done|split; [by rewrite allocs_app|split; [rewrite !frees_app, !length_app; cbn; lia|]]]].
    + split; cbn [hdrs brk freep].
      * done.
      * done.
      * apply coal_app. split; [done|]. cbn. by rewrite Hl.
      * rewrite ER. apply chain_app. exists p. split; [by apply (Hfr (mkHeader c ps))|]. cbn. split; [done|].
        exists c. split; [apply lookup_insert_eq|]. split; [done|]. exists nx. split; [apply (Ec (mkHeader c ps))|]. by apply (Hfr (mkHeader c ps)).
      * rewrite allocs_app. cbn [allocs]. apply (Hal' (mkHeader c ps)).
      * rewrite ER, fmap_app. apply elem_of_app. right. by left.
    + exists c, n. split; [|lia]. rewrite frees_app. apply elem_of_app. right. by left.
Qed.

Lemma free_spec h xs bp n ys : heap_ok h (xs ++ (bp, n, false) :: ys) ->
  exists h' bs', free (bp + 16) h = Ok (tt, h') /\ heap_ok h' bs' /\ brk h' = brk h
  /\ allocs bs' = allocs xs ++ allocs ys
  /\ (length (frees bs') <= S (length (frees xs) + length (frees ys)))%nat
  /\ exists a m, (a, m) ∈ frees bs' /\ n <= m.
Proof.
  intros H. pose proof (ring_asc _ _ H) as Hasc. pose proof H as [Ht Hlim Hc Hr Hal Hf].
  rewrite frees_app in Hr, Hf, Hasc. cbn [frees] in Hr, Hf, Hasc.
  destruct (exists_last (l := ring xs)) as (A & [p ps] & EA); [done|]. rewrite app_comm_cons, EA, <- app_assoc in Hr, Hf, Hasc. cbn [app] in *.
  pose proof Hr as (z & HA & -> & nx & Ep & HY)%chain_app.
  apply tiled_app in Ht as (c & Htx & <- & Hn & Hty). pose proof (tiled_le _ _ _ Htx) as Hlo.
  apply coal_app in Hc as (Hcx & _ & Hcy).
  assert ((bp, n) ∈ allocs (xs ++ (bp, n, false) :: ys)) as Hin by (rewrite allocs_app; apply elem_of_app; right; by left).
  destruct (Hal bp n Hin) as [pp Ebp]. pose proof (ring_not_alloc _ _ _ _ H Hin) as Hnot.
  rewrite frees_app in Hnot. cbn [frees] in Hnot. rewrite app_comm_cons, EA, <- app_assoc in Hnot. cbn [app] in Hnot.
  assert (p < bp) as Hpb.
  { assert ((p, ps) ∈ ring xs) as Hp by (rewrite EA; apply elem_of_app; right; by left).
    apply elem_of_cons in Hp as [?|Hp]; simplify_eq; [lia|]. apply elem_of_frees in Hp. pose proof (tiled_in _ _ _ _ _ _ Htx Hp). lia. }
  destruct (merge_right h bp n ys p ps pp nx Hty Hcy ltac:(lia) Hn Hlim HY Ebp Ep ltac:(lia)) as (n' & nx' & ys' & [R1 R2 R3 R4 R5 R6] & ER).
  destruct (link_left h xs bp n' p ps A nx' ys') as (h' & bs' & EL & Hok & Hbrk & Eal & Hlen & (a & m & Ham & Hm)); try done.
  { apply tiled_app. exists bp. split; [done|]. cbn. split; [done|]. split; [lia|done]. }
  { by exists nx. }
  { rewrite R3. intros a m Ham. apply Hal. rewrite allocs_app. cbn [allocs].
    apply elem_of_app in Ham as [?|?]; apply elem_of_app; [by left|right; by right]. }
  exists h', bs'. split; [|split; [done|split; [done|split; [by rewrite Eal, R3|split; [lia|exists a, m; split; [done|lia]]]]]].
  unfold free. replace (bp + 16 - unit_size) with bp by (unfold unit_size; lia).
  rewrite (bind_ok get _ h h h eq_refl).
  assert (free_scan (size (hdrs h)) bp (freep h) h = Ok (p, h)) as Escan.
  { apply (free_scan_spec h A p ps (frees ys)); try done; [lia| |by eapply chain_size, asc_nodup].
    eapply tiled_asc; [exact Hty|lia]. }
  rewrite (bind_ok _ _ _ _ _ Escan), (bind_ok _ _ _ _ _ (get_h_ok _ _ _ Ebp)), (bind_ok _ _ _ _ _ (get_h_ok _ _ _ Ep)).
  cbn [hsize hptr]. rewrite (bind_ok _ _ _ _ _ ER). exact EL.
Qed.

(** ** [morecore] *)

Lemma heap_grow h bs nu : heap_ok h bs -> 0 < nu -> brk h + 16 * nu <= limit ->
  forall v, heap_ok (mkHeap (<[brk h := mkHeader v nu]> (hdrs h)) (freep h) (brk h + 16 * nu)) (bs ++ [(brk h, nu, false)]).
Proof.
  intros [Ht Hl Hc Hr Hal Hf] Hnu Hlim v. pose proof (tiled_le _ _ _ Ht).
  assert (brk h ∉ (ring bs).*1) as Hnot.
  { cbn. rewrite elem_of_cons. intros [?|Hin]; [lia|]. apply list_elem_of_fmap in Hin as ([x m] & Ex & Hx). cbn in Ex. subst x.
    apply elem_of_frees in Hx. pose proof (tiled_in _ _ _ _ _ _ Ht Hx). lia. }
  split; cbn [hdrs brk freep].
  - apply tiled_app. exists (brk h). split; [done|]. by cbn.
  - done.
  - apply coal_app. split; [done|]. cbn. by rewrite andb_false_r.
  - rewrite frees_app, app_nil_r. by apply chain_insert.
  - intros a n. rewrite allocs_app, elem_of_app. cbn [allocs]. rewrite list_elem_of_singleton. intros [Hin|[= -> ->]].
    + destruct (Hal a n Hin) as [q Hq]. exists q. rewrite lookup_insert_ne; [done|]. apply elem_of_allocs in Hin.
      pose proof (tiled_in _ _ _ _ _ _ Ht Hin). lia.
    + exists v. apply lookup_insert_eq.
  - rewrite frees_app, app_nil_r. done.
Qed.

Lemma morecore_spec h bs nu : heap_ok h bs -> 0 < nu ->
  let u := Z.max 4096 nu in
  if brk h + 16 * u <=? limit
  then exists h' bs', morecore limit nu h = Ok (Some (freep h'), h') /\ heap_ok h' bs'
       /\ brk h' = brk h + 16 * u /\ allocs bs' = allocs bs
       /\ (length (frees bs') <= S (length (frees bs)))%nat /\ exists a m, (a, m) ∈ frees bs' /\ nu <= m
  else morecore limit nu h = Ok (None, h).
Proof.
  intros H Hnu u. unfold morecore. replace (if nu <? 4096 then 4096 else nu) with u by (destruct (Z.ltb_spec nu 4096); lia).
  unfold sbrk, unit_size. rewrite (Z.mul_comm u). destruct (Z.leb_spec (brk h + 16 * u) limit) as [Hl|Hl].
  - destruct (free_spec _ bs (brk h) u [] (heap_grow h bs u H ltac:(lia) Hl (match hdrs h !! brk h with Some x => hptr x | None => 0 end)))
      as (h' & bs' & E & Hok & Hb & Ea & Hlen & (a & m & Ham & Hm)).
    exists h', bs'. split; [|split; [done|split; [done|split; [by rewrite Ea, app_nil_r|split; [cbn in Hlen; lia|exists a, m; split; [done|lia]]]]]].
    mrun. replace (limit <? brk h + 16 * u) with false by lia. mrun. unfold new_size, set_h. mrun. cbn [hdrs freep brk]. rewrite E. done.
  - mrun. by replace (limit <? brk h + 16 * u) with true by lia.
Qed.

(** ** [malloc] *)

(** No block starts inside another. *)
Lemma tiled_outside a xs p s f ys b x n g : tiled a (xs ++ (p, s, f) :: ys) b -> (x, n, g) ∈ xs ++ ys ->
  x < p \/ p + 16 * s <= x.
Proof.
  intros (c & H1 & -> & Hs & H2)%tiled_app [Hin|Hin]%elem_of_app.
  - pose proof (tiled_in _ _ _ _ _ _ H1 Hin). lia.
  - pose proof (tiled_in _ _ _ _ _ _ H2 Hin). lia.
Qed.

(** Cutting [n] units off the end of the free block [p], or taking all of it. *)
Lemma take_block h xs p s ys X prevp ps nx n : heap_ok h (xs ++ (p, s, true) :: ys) ->
  ring xs = X ++ [(prevp, ps)] -> 1 <= n <= s -> hdrs h !! p = Some (mkHeader nx s) ->
  exists h' xs' a ys', (p ← (if s =? n then set_ptr prevp nx ;; mret p
         else
           set_size p (u32 (s - n)) ;;
           q ← get_h p;
           let p := p + unit_size * hsize q in
           new_size p n ;;
           mret p);
    set_freep prevp ;;
    mret (Some (p + unit_size))) h = Ok (Some (a + 16), h')
  /\ heap_ok h' (xs' ++ (a, n, false) :: ys') /\ brk h' = brk h /\ allocs xs' = allocs xs /\ allocs ys' = allocs ys.
Proof.
  intros H EX Hn Ep. pose proof (ring_asc _ _ H) as Hasc. pose proof H as [Ht Hlim Hc Hr Hal Hf].
  rewrite frees_app in Hr, Hasc. cbn [frees] in Hr, Hasc. rewrite app_comm_cons, EX, <- app_assoc in Hr, Hasc. cbn [app] in *.
  pose proof Hr as (z & HX & -> & y & Ev & (-> & nx' & Ep' & HY))%chain_app. rewrite Ep in Ep'. injection Ep' as <-.
  apply asc_nodup in Hasc. rewrite fmap_app in Hasc. apply NoDup_app in Hasc as (_ & HX1 & (Hv1 & (Hp1 & _)%NoDup_cons)%NoDup_cons). cbn [fst] in *.
  apply not_elem_of_cons in Hv1 as [Hvp Hv1].
  assert (prevp ∉ X.*1 /\ p ∉ X.*1) as [HvX HpX] by (split; intros Hin; apply (HX1 _ Hin); [by left|right; by left]).
  pose proof Ht as (c & Htx & <- & Hs & Hty)%tiled_app. apply coal_app in Hc as (Hcx & Hl & Hcy).
  assert (forall a m, (a, m) ∈ allocs xs ++ allocs ys -> (a, m, false) ∈ xs ++ ys /\ a <> prevp) as Hout.
  { intros a m Hin. assert ((a, m) ∈ allocs (xs ++ (p, s, true) :: ys)) as Hin' by (by rewrite allocs_app).
    split; [rewrite <- allocs_app in Hin; by apply elem_of_allocs|]. intros ->.
    apply (ring_not_alloc _ _ _ _ H Hin'). rewrite frees_app, app_comm_cons, EX, !fmap_app, !elem_of_app. left. right. by left. }
  assert (forall a m, (a, m) ∈ allocs xs ++ allocs ys -> exists q, hdrs h !! a = Some (mkHeader q m)) as Hal1.
  { intros a m Hin. apply Hal. by rewrite allocs_app. }
  unfold unit_size. destruct (Z.eqb_spec s n) as [->|Hsn].
  - exists (mkHeap (<[prevp := mkHeader nx ps]> (hdrs h)) prevp (brk h)), xs, p, ys. split; [|split; [|done]].
    { assert ((set_ptr prevp nx ;; mret p) h = Ok (p, upd h prevp (mkHeader nx ps))) as Ein.
      { by rewrite (bind_ok _ _ _ _ _ (set_ptr_ok prevp nx _ h Ev)). }
      by rewrite (bind_ok _ _ _ _ _ Ein). }
    split; cbn [hdrs brk freep].
    + apply tiled_app. exists p. split; [done|]. by cbn.
    + done.
    + apply coal_app. split; [done|]. cbn. rewrite andb_false_r. split; [done|]. destruct ys as [|[[? ?] ?] ?]; cbn in *; tauto.
    + rewrite frees_app, app_comm_cons, EX, <- app_assoc. apply chain_app. exists prevp. split; [by apply chain_insert|].
      cbn. split; [done|]. exists nx. split; [apply lookup_insert_eq|]. by apply chain_insert.
    + intros a m. rewrite allocs_app. cbn [allocs]. rewrite elem_of_app, elem_of_cons. intros Hin.
      destruct (decide ((a, m) = (p, n))) as [[= -> ->]|Hne].
      * exists nx. by rewrite lookup_insert_ne.
      * assert ((a, m) ∈ allocs xs ++ allocs ys) as Hin' by (apply elem_of_app; tauto).
        rewrite lookup_insert_ne by (destruct (Hout _ _ Hin'); congruence). by apply Hal1.
    + rewrite frees_app, app_comm_cons, EX, !fmap_app, !elem_of_app. left. right. by left.
  - set (a := p + 16 * (s - n)). set (v := match (<[p := mkHeader nx (s - n)]> (hdrs h)) !! a with Some x => hptr x | None => 0 end).
    pose proof (tiled_le _ _ _ Htx). pose proof (tiled_le _ _ _ Hty).
    exists (mkHeap (<[a := mkHeader v n]> (<[p := mkHeader nx (s - n)]> (hdrs h))) prevp (brk h)), (xs ++ [(p, s - n, true)]), a, ys.
    assert (forall x m g, (x, m, g) ∈ xs ++ ys -> x <> a /\ x <> p) as Hxa.
    { intros x m g Hin. pose proof (tiled_outside _ _ _ _ _ _ _ _ _ _ Ht Hin). unfold a. lia. }
    assert (a <> p /\ a <> prevp /\ a ∉ X.*1 /\ a ∉ (frees ys).*1) as (Hap & Hav & HaX & HaY).
    { assert (forall l, (forall x m, (x, m) ∈ l -> (x, m) ∈ ring xs \/ (x, m) ∈ frees ys) -> a ∉ l.*1) as Hgen.
      { intros l Hl' ([x m] & Ex & Hin)%list_elem_of_fmap. cbn in Ex. destruct (Hl' _ _ Hin) as [Hin2|Hin2].
        - apply elem_of_cons in Hin2 as [[= -> ->]|Hin2]; [unfold a in Ex; lia|]. apply elem_of_frees in Hin2.
          destruct (Hxa x m true); [apply elem_of_app; by left|done].
        - apply elem_of_frees in Hin2. destruct (Hxa x m true); [apply elem_of_app; by right|done]. }
      split; [unfold a; lia|]. split; [|split].
      - intros E. apply (Hgen [(prevp, ps)]); [|rewrite E; by left]. intros x m Hin%list_elem_of_singleton. simplify_eq. left. rewrite EX. apply elem_of_app. right. by left.
      - apply Hgen. intros x m Hin. left. rewrite EX. apply elem_of_app. by left.
      - apply Hgen. by right. }
    split; [|split; [|split; [done|split; [rewrite allocs_app; cbn; by rewrite app_nil_r|done]]]].
    { assert ((set_size p (u32 (s - n)) ;; q ← get_h p; let p := p + 16 * hsize q in new_size p n ;; mret p) h
        = Ok (a, mkHeap (<[a := mkHeader v n]> (<[p := mkHeader nx (s - n)]> (hdrs h))) (freep h) (brk h))) as Ein.
      { replace (u32 (s - n)) with (s - n) by (unfold u32; rewrite Z.mod_small; lia).
        rewrite (bind_ok _ _ _ _ _ (set_size_ok p (s - n) _ h Ep)). cbn [hptr].
        assert (hdrs (upd h p (mkHeader nx (s - n))) !! p = Some (mkHeader nx (s - n))) as Ep2 by (cbn; apply lookup_insert_eq).
        rewrite (bind_ok _ _ _ _ _ (get_h_ok _ _ _ Ep2)). cbn [hsize]. done. }
      by rewrite (bind_ok _ _ _ _ _ Ein). }
    split; cbn [hdrs brk freep].
    + rewrite <- app_assoc. apply tiled_app. exists p. split; [done|]. cbn. split; [done|]. split; [lia|]. split; [done|]. split; [lia|].
      replace (p + 16 * (s - n) + 16 * n) with (p + 16 * s) by lia. done.
    + done.
    + rewrite <- app_assoc. apply coal_app. split; [done|]. cbn in *. split; [done|]. split; [done|]. destruct ys as [|[[? ?] ?] ?]; cbn in *; tauto.
    + rewrite !frees_app. cbn [frees]. rewrite <- app_assoc, app_comm_cons, EX, <- app_assoc. cbn [app]. apply chain_app. exists prevp.
      split; [by apply chain_insert, chain_insert|]. cbn. split; [done|]. exists p.
      split; [by rewrite !lookup_insert_ne|]. split; [done|]. exists nx. split; [by rewrite lookup_insert_ne, lookup_insert_eq|].
      by apply chain_insert, chain_insert.
    + intros x m. rewrite !allocs_app. cbn [allocs]. rewrite app_nil_r, elem_of_app, elem_of_cons. intros Hin.
      destruct (decide ((x, m) = (a, n))) as [[= -> ->]|Hne]; [exists v; apply lookup_insert_eq|].
      assert ((x, m) ∈ allocs xs ++ allocs ys) as Hin' by (apply elem_of_app; tauto).
      destruct (Hout _ _ Hin') as [Hin2 _]. destruct (Hxa _ _ _ Hin2). rewrite !lookup_insert_ne by done. by apply Hal1.
    + rewrite !frees_app, <- app_assoc, app_comm_cons, EX, !fmap_app, !elem_of_app. left. right. by left.
Qed.

Fixpoint lasta (d : Z) (l : list (Z * Z)) : Z :=
  match l with [] => d | (b, _) :: l => lasta b l end.

Lemma lasta_snoc X d s l : exists X' ps, X ++ (d, s) :: l = X' ++ [(lasta d l, ps)].
Proof.
  revert X d s. induction l as [|[b t] l IH]; intros X d s; [by exists X, s|]. cbn [lasta].
  destruct (IH (X ++ [(d, s)]) b t) as (X' & ps & E). rewrite <- app_assoc in E. by exists X', ps.
Qed.

Lemma lasta_app d l1 b s l2 : lasta d (l1 ++ (b, s) :: l2) = lasta b l2.
Proof. revert d. induction l1 as [|[c t] l1 IH]; intros d; cbn; auto. Qed.

(** The loop passes blocks that are too small. *)
Lemma loop_skip h n l : forall fuel prevp p y, chain (hdrs h) l p y -> Forall (fun x => snd x < n) l -> freep h ∉ l.*1 ->
  malloc_loop limit (length l + fuel) n prevp p h = malloc_loop limit fuel n (lasta prevp l) y h.
Proof.
  induction l as [|[b s] l IH]; intros fuel prevp p y H Hs Hf; cbn in H; [by subst|]. destruct H as (-> & nx & E & H).
  apply Forall_cons in Hs as [Hs1 Hs]. cbn in Hf. apply not_elem_of_cons in Hf as [Hf1 Hf].
  cbn [length plus malloc_loop lasta]. rewrite (bind_ok _ _ _ _ _ (get_h_ok _ _ _ E)). cbn [hsize hptr snd] in *.
  replace (n <=? s) with false by lia. rewrite (bind_ok get _ h h h eq_refl).
  rewrite (proj2 (Z.eqb_neq b (freep h))) by congruence. rewrite (bind_ok (mret (Some b)) _ h (Some b) h eq_refl).
  rewrite (bind_ok _ _ _ _ _ (get_h_ok _ _ _ E)). cbn [hptr]. by apply IH.
Qed.

Lemma first_big n (l : list (Z * Z)) : Forall (fun x => snd x < n) l
  \/ exists l1 p s l2, l = l1 ++ (p, s) :: l2 /\ Forall (fun x => snd x < n) l1 /\ n <= s.
Proof.
  induction l as [|[p s] l IH]; [by left; constructor|]. destruct (decide (n <= s)) as [Hs|Hs].
  - right. by exists [], p, s, l.
  - destruct IH as [H|(l1 & q & t & l2 & -> & H & Ht)].
    + left. constructor; [cbn; lia|done].
    + right. exists ((p, s) :: l1), q, t, l2. split; [done|]. split; [|done]. constructor; [cbn; lia|done].
Qed.

(** What a successful [malloc] of [n] units does. *)
Definition granted (bs : blocks) (n a : Z) (h' : heap) : Prop :=
  exists xs ys, heap_ok h' (xs ++ (a, n, false) :: ys) /\ allocs xs ++ allocs ys = allocs bs.

(** A big enough block that follows the rest [W] of the ring. *)
Lemma loop_hit h bs fuel n W p s Y d l : heap_ok h bs -> ring bs = W ++ (p, s) :: Y -> 1 <= n <= s ->
  (exists X t l', W = X ++ (d, t) :: l' /\ lasta d l' = l) ->
  exists a h', malloc_loop limit fuel n l p h = Ok (Some (a + 16), h') /\ granted bs n a h' /\ brk h' = brk h.
Proof.
  intros H ER Hn (X & t & l' & EW & El). destruct (lasta_snoc X d t l') as (X' & ps & EX). rewrite <- EW, El in EX.
  destruct W as [|w W]; [by destruct X|]. cbn in ER. injection ER as <- ER.
  destruct (frees_split _ _ _ _ _ ER) as (xs & ys & -> & <- & _).
  destruct (chain_dom _ _ _ _ p s (ho_ring _ _ H)) as [nx Ep].
  { rewrite frees_app. right. apply elem_of_app. right. by left. }
  destruct (take_block h xs p s ys X' l ps nx n H EX Hn Ep) as (h' & xs' & a & ys' & E & Hok & Hb & E1 & E2).
  exists a, h'. split; [|split; [|done]].
  - destruct fuel; cbn [malloc_loop]; rewrite (bind_ok _ _ _ _ _ (get_h_ok _ _ _ Ep)); cbn [hsize hptr];
      replace (n <=? s) with true by lia; exact E.
  - exists xs', ys'. split; [done|]. by rewrite E1, E2, allocs_app.
Qed.

Lemma loop_found h bs fuel n nx fs : heap_ok h bs -> 1 <= n -> (exists a m, (a, m) ∈ frees bs /\ n <= m) ->
  hdrs h !! freep h = Some (mkHeader nx fs) -> (length (ring bs) <= fuel)%nat ->
  exists a h', malloc_loop limit fuel n (freep h) nx h = Ok (Some (a + 16), h') /\ granted bs n a h' /\ brk h' = brk h.
Proof.
  intros H Hn (big & m & Hbig & Hm) Ef Hfuel. pose proof (ring_asc _ _ H) as Hnd%asc_nodup. pose proof (ho_ring _ _ H) as Hr.
  pose proof (ho_freep _ _ H) as ([fp fs'] & Efp & (A & B & ER)%list_elem_of_split)%list_elem_of_fmap. cbn [fst] in Efp. subst fp.
  assert (Forall (fun x => snd x < n) (ring bs) -> False) as Hno.
  { intros Hall. rewrite Forall_forall in Hall. assert (snd (big, m) < n) by (apply Hall; by right). cbn in *. lia. }
  rewrite ER in Hr, Hnd, Hfuel, Hno. apply chain_app in Hr as (z & HA & -> & nx' & Ef' & HB). rewrite Ef in Ef'. injection Ef' as <- <-.
  rewrite fmap_app in Hnd. apply NoDup_app in Hnd as (_ & HA1 & (HB1 & _)%NoDup_cons). cbn [fst] in *.
  assert (freep h ∉ A.*1) as HA2 by (intros Hin; apply (HA1 _ Hin); by left). change (freep h ∉ B.*1) in HB1.
  rewrite length_app in Hfuel. cbn [length] in Hfuel.
  destruct (first_big n B) as [SB|(l1 & p & s & l2 & -> & Hl1 & Hs)].
  - replace fuel with (length B + (fuel - length B))%nat by lia. rewrite (loop_skip h n B _ _ _ base_) by done.
    destruct (first_big n A) as [SA|(l1 & p & s & l2 & -> & Hl1 & Hs)].
    + assert (n <= fs) as Hfs.
      { destruct (decide (n <= fs)); [done|]. exfalso. apply Hno. apply Forall_app. split; [done|]. constructor; [cbn; lia|done]. }
      replace (fuel - length B)%nat with (length A + (fuel - length B - length A))%nat by lia.
      rewrite (loop_skip h n A _ _ _ (freep h)) by done.
      destruct A as [|[b t] A]; [cbn in ER; simplify_eq/=; lia|].
      apply (loop_hit h bs _ n ((b, t) :: A) (freep h) fs B b); try done. by exists [], t, A.
    + replace (fuel - length B)%nat with (length l1 + (fuel - length B - length l1))%nat by (rewrite length_app in Hfuel; lia).
      apply chain_app in HA as (y & HA & -> & _). rewrite fmap_app in HA2. apply not_elem_of_app in HA2 as [HA2 _].
      rewrite (loop_skip h n l1 _ _ _ p) by done.
      destruct l1 as [|[b t] l1]; [cbn in ER; simplify_eq/=; lia|].
      apply (loop_hit h bs _ n ((b, t) :: l1) p s (l2 ++ (freep h, fs) :: B) b); try done; [by rewrite ER, <- app_assoc|]. by exists [], t, l1.
  - replace fuel with (length l1 + (fuel - length l1))%nat by (rewrite length_app in Hfuel; lia).
    apply chain_app in HB as (y & HB & -> & _). rewrite fmap_app in HB1. apply not_elem_of_app in HB1 as [HB1 _].
    rewrite (loop_skip h n l1 _ _ _ p) by done.
    apply (loop_hit h bs _ n (A ++ (freep h, fs) :: l1) p s l2 (freep h)); try done; [by rewrite ER, <- app_assoc|]. by exists A, fs, l1.
Qed.

(** The units [malloc] takes for [nbytes] bytes: a header and the bytes. *)
Definition units (nbytes : Z) : Z := (nbytes + 15) / 16 + 1.

Lemma units_val n : 0 <= n < 2 ^ 32 -> u32 ((n + unit_size - 1) / unit_size + 1) = units n /\ 1 <= units n /\ n + 16 <= 16 * units n.
Proof.
  intros Hn. unfold units, unit_size, u32. replace (n + 16 - 1) with (n + 15) by lia.
  rewrite Z.mod_small by (Z.div_mod_to_equations; lia). split; [done|]. Z.div_mod_to_equations; lia.
Qed.

Lemma freep_header h bs : heap_ok h bs -> freep h <> 0 /\ exists nx fs, hdrs h !! freep h = Some (mkHeader nx fs).
Proof.
  intros H. pose proof (ho_freep _ _ H) as Hf. split.
  - pose proof (asc_lt _ _ _ (ring_asc _ _ H) Hf). lia.
  - apply list_elem_of_fmap in Hf as ([fp fs] & -> & Hin). destruct (chain_dom _ _ _ _ _ _ (ho_ring _ _ H) Hin) as [nx E]. eauto.
Qed.

(** [malloc] on a heap in use. *)
Lemma malloc_spec h bs nbytes : heap_ok h bs -> 0 <= nbytes < 2 ^ 32 ->
  let n := units nbytes in
  exists r h', malloc base_ limit nbytes h = Ok (r, h') /\
  match r with
  | Some p => granted bs n (p - 16) h' /\ ((exists a m, (a, m) ∈ frees bs /\ n <= m) -> brk h' = brk h)
  | None => h' = h /\ limit < brk h + 16 * Z.max 4096 n /\ Forall (fun x => snd x < n) (frees bs)
  end.
Proof.
  intros H Hnb n. destruct (units_val nbytes Hnb) as (En & Hn & _). fold n in En, Hn.
  destruct (freep_header h bs H) as (Hf0 & nx & fs & Ef).
  assert (malloc base_ limit nbytes h = malloc_loop limit (2 * size (hdrs h) + 4) n (freep h) nx h) as ->.
  { unfold malloc. rewrite En, (bind_ok get _ h h h eq_refl), (proj2 (Z.eqb_neq _ _) Hf0).
    rewrite (bind_ok (mret tt) _ h tt h eq_refl), (bind_ok get _ h h h eq_refl), (bind_ok _ _ _ _ _ (get_h_ok _ _ _ Ef)). done. }
  pose proof (chain_size _ _ _ _ (ho_ring _ _ H) (asc_nodup _ _ (ring_asc _ _ H))) as Hsz.
  destruct (first_big n (frees bs)) as [Hsm|(l1 & p & s & l2 & El & _ & Hs)].
  2:{ assert (exists a m, (a, m) ∈ frees bs /\ n <= m) as Hex by (exists p, s; split; [|done]; rewrite El; apply elem_of_app; right; by left).
      destruct (loop_found h bs (2 * size (hdrs h) + 4) n nx fs H Hn Hex Ef ltac:(lia)) as (a & h' & E & G & Hb).
      exists (Some (a + 16)), h'. split; [done|]. replace (a + 16 - 16) with a by lia. done. }
  pose proof (ho_freep _ _ H) as ([fp fs'] & Efp & (A & B & ER)%list_elem_of_split)%list_elem_of_fmap. cbn [fst] in Efp. subst fp.
  assert (Forall (fun x => snd x < n) (ring bs)) as Hall by (constructor; [cbn; lia|done]).
  pose proof (ho_ring _ _ H) as Hr. pose proof (ring_asc _ _ H) as Hnd%asc_nodup.
  rewrite ER in Hr, Hall, Hsz, Hnd. apply chain_app in Hr as (z & HA & -> & nx' & Ef' & HB). rewrite Ef in Ef'. injection Ef' as <- <-.
  apply Forall_app in Hall as [SA [Sf SB]%Forall_cons]. cbn [snd] in Sf.
  rewrite fmap_app in Hnd. apply NoDup_app in Hnd as (_ & HA1 & (HB1 & _)%NoDup_cons).
  assert (freep h ∉ (B ++ A).*1) as Hnot.
  { rewrite fmap_app. apply not_elem_of_app. split; [exact HB1|]. intros Hin. apply (HA1 _ Hin). by left. }
  assert (chain (hdrs h) (B ++ A) nx (freep h)) as HBA by (apply chain_app; eauto).
  rewrite length_app in Hsz. cbn [length] in Hsz.
  replace (2 * size (hdrs h) + 4)%nat with (length (B ++ A) + S (2 * size (hdrs h) + 3 - length (B ++ A)))%nat by (rewrite length_app; lia).
  rewrite (loop_skip h n (B ++ A) _ _ _ (freep h) HBA (proj2 (Forall_app _ _ _) (conj SB SA)) Hnot).
  cbn [malloc_loop]. rewrite (bind_ok _ _ _ _ _ (get_h_ok _ _ _ Ef)). cbn [hsize hptr]. replace (n <=? fs) with false by lia.
  rewrite (bind_ok get _ h h h eq_refl), Z.eqb_refl. pose proof (morecore_spec h bs n H ltac:(lia)) as Hm. cbv zeta in Hm.
  destruct (Z.leb_spec (brk h + 16 * Z.max 4096 n) limit) as [Hl|Hl].
  - destruct Hm as (h1 & bs1 & Em & Hok & Hb & Ea & Hlen & Hex). rewrite (bind_ok _ _ _ _ _ Em).
    destruct (freep_header h1 bs1 Hok) as (_ & nx1 & fs1 & Ef1). rewrite (bind_ok _ _ _ _ _ (get_h_ok _ _ _ Ef1)). cbn [hptr].
    assert (S (length (frees bs)) = length A + S (length B))%nat as El.
    { change (S (length (frees bs))) with (length (ring bs)). by rewrite ER, length_app. }
    destruct (loop_found h1 bs1 (2 * size (hdrs h) + 3 - length (B ++ A)) n nx1 fs1 Hok Hn Hex Ef1) as (a & h' & E & G & Hb').
    { rewrite length_app. cbn [length]. lia. }
    exists (Some (a + 16)), h'. split; [done|]. replace (a + 16 - 16) with a by lia. split.
    + destruct G as (xs & ys & G1 & G2). exists xs, ys. by rewrite G2, Ea.
    + intros (b & m & Hin & Hm). rewrite Forall_forall in Hsm. specialize (Hsm _ Hin). cbn in Hsm. lia.
  - rewrite (bind_ok _ _ _ _ _ Hm). by exists None, h.
Qed.

(** * A program that uses the allocator *)

(** Before the first [malloc], or in use. *)
Definition heap_inv (h : heap) (bs : blocks) : Prop :=
  heap_ok h bs \/ (freep h = 0 /\ bs = [] /\ brk h = lo).

(** The pointers [malloc] returned and that were not freed, with the bytes asked
    for, are the blocks in use. *)
Definition live_rep (live : list (Z * Z)) (bs : blocks) : Prop :=
  (fun '(p, n) => (p - 16, units n)) <$> live ≡ₚ allocs bs.

Inductive hreach : heap -> list (Z * Z) -> Prop :=
  | hr_init m : hreach (mkHeap m 0 lo) []
  | hr_malloc h live n p h' :
      hreach h live -> 0 <= n < 2 ^ 32 -> malloc base_ limit n h = Ok (Some p, h') -> hreach h' ((p, n) :: live)
  | hr_refused h live n h' :
      hreach h live -> 0 <= n < 2 ^ 32 -> malloc base_ limit n h = Ok (None, h') -> hreach h' live
  | hr_free h l1 p n l2 h' :
      hreach h (l1 ++ (p, n) :: l2) -> free p h = Ok (tt, h') -> hreach h' (l1 ++ l2).

Hypothesis Hlo : lo <= limit.

(** The first [malloc] makes the circle of one header. *)
Lemma malloc_inv_spec h bs nbytes : heap_inv h bs -> 0 <= nbytes < 2 ^ 32 ->
  let n := units nbytes in
  exists r h', malloc base_ limit nbytes h = Ok (r, h') /\
  match r with
  | Some p => granted bs n (p - 16) h' /\ ((exists a m, (a, m) ∈ frees bs /\ n <= m) -> brk h' = brk h)
  | None => heap_ok h' bs /\ limit < brk h + 16 * Z.max 4096 n
  end.
Proof.
  intros [H|(Hf & -> & Hb)] Hn n.
  - destruct (malloc_spec h bs nbytes H Hn) as (r & h' & E & Hr). exists r, h'. split; [done|].
    destruct r; [done|]. destruct Hr as (-> & ? & _). done.
  - set (h1 := mkHeap (<[base_ := mkHeader base_ 0]> (hdrs h)) base_ (brk h)).
    assert (heap_ok h1 []) as H1.
    { split; cbn; try done; [lia| |by intros ? ? ?%elem_of_nil|by left]. split; [done|]. exists base_. split; [|done]. apply lookup_insert_eq. }
    destruct (malloc_spec h1 [] nbytes H1 Hn) as (r & h' & E & Hr). exists r, h'. split.
    + rewrite <- E. unfold malloc. mrun. rewrite Hf. cbn. by rewrite (proj2 (Z.eqb_neq base_ 0)) by lia.
    + destruct r; [done|]. destruct Hr as (-> & ? & _). done.
Qed.

Lemma free_live h bs live l1 p n l2 : heap_inv h bs -> live_rep live bs -> live = l1 ++ (p, n) :: l2 ->
  exists h' bs', free p h = Ok (tt, h') /\ heap_ok h' bs' /\ live_rep (l1 ++ l2) bs'.
Proof.
  intros H Hl ->. unfold live_rep in *. rewrite fmap_app, fmap_cons in Hl.
  assert ((p - 16, units n) ∈ allocs bs) as Hin by (rewrite <- Hl; apply elem_of_app; right; by left).
  destruct H as [H|(_ & -> & _)]; [|by apply elem_of_nil in Hin].
  apply elem_of_allocs, list_elem_of_split in Hin as (xs & ys & ->).
  destruct (free_spec h xs (p - 16) (units n) ys H) as (h' & bs' & E & Hok & _ & Ea & _).
  exists h', bs'. replace (p - 16 + 16) with p in E by lia. split; [done|]. split; [done|].
  rewrite Ea, fmap_app. rewrite allocs_app in Hl. cbn [allocs] in Hl. rewrite <- !Permutation_middle in Hl.
  by apply Permutation_cons_inv in Hl.
Qed.

Lemma hreach_inv h live : hreach h live -> exists bs, heap_inv h bs /\ live_rep live bs.
Proof.
  induction 1 as [m|h live n p h' _ (bs & Hi & Hl) Hn E|h live n h' _ (bs & Hi & Hl) Hn E|h l1 p n l2 h' _ (bs & Hi & Hl) E].
  - exists []. split; [by right|]. unfold live_rep. done.
  - destruct (malloc_inv_spec h bs n Hi Hn) as (r & h2 & E2 & Hr). rewrite E in E2. injection E2 as <- <-.
    destruct Hr as [(xs & ys & Hok & Ea) _]. exists (xs ++ (p - 16, units n, false) :: ys). split; [by left|].
    unfold live_rep in *. rewrite fmap_cons, allocs_app. cbn [allocs]. by rewrite <- Permutation_middle, Ea, Hl.
  - destruct (malloc_inv_spec h bs n Hi Hn) as (r & h2 & E2 & Hr). rewrite E in E2. injection E2 as <- <-.
    destruct Hr as [Hok _]. exists bs. split; [by left|done].
  - destruct (free_live h bs _ l1 p n l2 Hi Hl eq_refl) as (h2 & bs2 & E2 & Hok & Hl2). rewrite E in E2. injection E2 as <-.
    exists bs2. split; [by left|done].
Qed.

Lemma tiled_disjoint a bs b x n f y m g : tiled a bs b -> (x, n, f) ∈ bs -> (y, m, g) ∈ bs -> x <> y ->
  x + 16 * n <= y \/ y + 16 * m <= x.
Proof.
  intros H (xs & ys & ->)%list_elem_of_split Hy Hne. pose proof H as (c & H1 & -> & Hn & H2)%tiled_app.
  apply elem_of_app in Hy as [Hy|[Hy|Hy]%elem_of_cons].
  - pose proof (tiled_in _ _ _ _ _ _ H1 Hy). lia.
  - by simplify_eq.
  - pose proof (tiled_in _ _ _ _ _ _ H2 Hy). lia.
Qed.

Lemma allocs_asc a bs b c : tiled a bs b -> c < a -> asc c (allocs bs).
Proof.
  revert a c. induction bs as [|[[x n] f] bs IH]; intros a c; cbn; [done|]. intros (-> & Hn & H) Hc.
  destruct f; [|cbn; split; [done|]]; eapply IH; try done; lia.
Qed.

Lemma heap_inv_tiled h bs : heap_inv h bs -> tiled lo bs (brk h).
Proof. intros [H|(_ & -> & ->)]; [apply H|done]. Qed.

(** With nothing in use the heap is one free block. *)
Lemma one_block bs b : coal false bs -> allocs bs = [] -> tiled lo bs b ->
  bs = [] \/ exists k, bs = [(lo, k, true)] /\ b = lo + 16 * k.
Proof.
  intros Hc Ha Ht. destruct bs as [|[[x k] [|]] bs]; [by left| |done]. right. cbn in *. destruct Ht as (-> & Hk & Ht).
  destruct bs as [|[[y m] [|]] bs]; cbn in *; [by exists k|naive_solver|done].
Qed.
End Invariant.

(** * The claim *)

(** C36: the allocator is safe and loses nothing.  However a program mixes [malloc]
    and [free] of what it was given: the blocks in use lie in the heap, keep the
    heap's 16-byte alignment, hold the bytes asked for and do not overlap each
    other or the headers; [malloc] of any size returns, and returns 0 only when
    [sbrk] cannot extend the heap; [free] returns; and once everything is freed
    the heap is whole again, so that a request of up to its full size is served
    without growing it. *)
Theorem malloc_system_safe base_ lo limit h live :
  0 < base_ < lo -> lo <= limit <= 2 ^ 35 -> hreach base_ lo limit h live ->
  (forall i j p n q m, live !! i = Some (p, n) -> live !! j = Some (q, m) -> i <> j -> p + n <= q - 16 \/ q + m <= p - 16)
  /\ (forall p n, (p, n) ∈ live -> lo + 16 <= p /\ p + n <= brk h /\ (p - lo) mod 16 = 0)
  /\ (forall n, 0 <= n < 2 ^ 32 -> exists r h', malloc base_ limit n h = Ok (r, h')
        /\ (r = None -> limit < brk h + 16 * Z.max 4096 (units n)))
  /\ (forall p n, (p, n) ∈ live -> exists h', free p h = Ok (tt, h'))
  /\ (live = [] -> forall n, 0 <= n < 2 ^ 32 -> 16 * units n <= brk h - lo ->
        exists p h', malloc base_ limit n h = Ok (Some p, h') /\ brk h' = brk h).
Proof.
  intros Hb Hlim Hr. destruct (hreach_inv base_ lo limit Hb (proj2 Hlim) (proj1 Hlim) h live Hr) as (bs & Hi & Hl).
  pose proof (heap_inv_tiled base_ lo limit h bs Hi) as Ht.
  assert (forall p n, (p, n) ∈ live -> (p - 16, units n, false) ∈ bs) as Hin.
  { intros p n Hp. apply elem_of_allocs. rewrite <- Hl. apply list_elem_of_fmap. by exists (p, n). }
  split; [|split; [|split; [|split]]].
  - intros i j p n q m Ei Ej Hij. apply list_elem_of_lookup_2 in Ei as Hp. apply list_elem_of_lookup_2 in Ej as Hq.
    assert (p <> q) as Hpq.
    { intros ->. apply Hij. assert (NoDup ((fun '(p, n) => (p - 16, units n)) <$> live).*1) as Hnd.
      { unfold live_rep in Hl. rewrite Hl. apply (asc_nodup 0). eapply allocs_asc; [exact Ht|lia]. }
      apply (NoDup_lookup _ _ _ (q - 16) Hnd); rewrite !list_lookup_fmap; [by rewrite Ei|by rewrite Ej]. }
    pose proof (tiled_disjoint _ _ _ _ _ _ _ _ _ Ht (Hin _ _ Hp) (Hin _ _ Hq) ltac:(lia)).
    unfold units in *. Z.div_mod_to_equations; lia.
  - intros p n Hp. pose proof (tiled_in _ _ _ _ _ _ Ht (Hin _ _ Hp)) as H. split; [lia|]. split; [unfold units in *; Z.div_mod_to_equations; lia|].
    apply Hin in Hp. replace (p - lo) with (p - 16 - lo + 1 * 16) by lia. rewrite Z.mod_add by lia. clear -Ht Hp.
    revert Ht. generalize lo as a. induction bs as [|[[x k] f] bs IH]; intros a; cbn; [by apply elem_of_nil in Hp|]. intros (-> & _ & Ht).
    apply elem_of_cons in Hp as [E|Hp]; [injection E as -> _ _; by rewrite Z.sub_diag|]. specialize (IH Hp _ Ht).
    Z.div_mod_to_equations; lia.
  - intros n Hn. destruct (malloc_inv_spec base_ lo limit Hb (proj2 Hlim) (proj1 Hlim) h bs n Hi Hn) as (r & h' & E & Hres).
    exists r, h'. split; [done|]. intros ->. apply Hres.
  - intros p n (l1 & l2 & ->)%list_elem_of_split.
    destruct (free_live base_ lo limit Hb (proj2 Hlim) h bs _ l1 p n l2 Hi Hl eq_refl) as (h' & _ & E & _). by exists h'.
  - intros -> n Hn Hsz. destruct (units_val n Hn) as (_ & Hu & _). unfold live_rep in Hl. apply Permutation_nil_l in Hl.
    destruct Hi as [Hok|(_ & _ & Hbrk)]; [|lia].
    destruct (one_block base_ lo Hb bs (brk h) (ho_coal _ _ _ _ _ Hok) (eq_sym Hl) Ht) as [->|(k & -> & Ek)]; [cbn in Ht; lia|].
    destruct (malloc_spec base_ lo limit Hb (proj2 Hlim) h _ n Hok Hn) as (r & h' & E & Hres). destruct r as [p|].
    + exists p, h'. split; [done|]. apply Hres. exists lo, k. split; [by left|lia].
    + destruct Hres as (_ & _ & Hall). apply Forall_cons in Hall as [Hk _]. cbn in Hk. lia.
Qed.

(** A heap of 1 MB from 0x3000 on: two blocks, the first freed. *)
Definition demo_heap (ops : M heap unit) : heap :=
  match ops (mkHeap ∅ 0 0x3000) with Ok (_, h) => h | _ => mkHeap ∅ 0 0 end.
Definition demo_ops (k : nat) : M heap unit :=
  when (bool_decide (1 <= k)%nat) (malloc 0x2f00 0x103000 100 ;; mret tt) ;;
  when (bool_decide (2 <= k)%nat) (malloc 0x2f00 0x103000 5000 ;; mret tt) ;;
  when (bool_decide (3 <= k)%nat) (free 77712).

Lemma demo_hreach : hreach 0x2f00 0x3000 0x103000 (demo_heap (demo_ops 3)) [(72688, 5000)].
Proof.
  apply (hr_free _ _ _ (demo_heap (demo_ops 2)) [(72688, 5000)] 77712 100 []); [|reflexivity].
  apply (hr_malloc _ _ _ (demo_heap (demo_ops 1)) [(77712, 100)] 5000 72688); [|lia|reflexivity].
  apply (hr_malloc _ _ _ (demo_heap (demo_ops 0)) [] 100 77712); [|lia|reflexivity].
  apply hr_init.
Qed.

Lemma malloc_system_safe_witness : exists h', free 72688 (demo_heap (demo_ops 3)) = Ok (tt, h').
Proof.
  destruct (malloc_system_safe 0x2f00 0x3000 0x103000 (demo_heap (demo_ops 3)) [(72688, 5000)]) as (_ & _ & _ & H & _).
  - lia.
  - lia.
  - exact demo_hreach.
  - apply (H 72688 5000). left.
Defined.
