(* ===== verification/Drawlib.v ===== *)
(** Model of src/drawlib.c and src/drawlib.h: the drawing primitives on a
    320x200 canvas of one byte per pixel.  The canvas is the list of its bytes;
    a store outside it is a [Fault].  Coordinates are C [int]s: every sum and
    difference is wrapped to 32 bits, the products the source computes in
    [int64] to 64 bits.  The file also has the vocabulary of the
    specifications: [px] reads a pixel and [paints P col c c'] says that [c']
    is [c] with exactly the pixels of [P] set to [col]. *)
From stdpp Require Import base strings numbers list.
From S2P Require Import Prelude.
Local Open Scope Z_scope.

Definition CANVAS_WIDTH : Z := 320.
Definition CANVAS_HEIGHT : Z := 200.
Definition CANVAS_SIZE : Z := CANVAS_WIDTH * CANVAS_HEIGHT.
Definition POLYGON_MAX_POINTS : Z := 16.

Definition abs_int (value : Z) : Z :=
  if value <? 0 then s32 (- value) else value.

(** [swap_int(&values[i], &values[j])]. *)
Definition swap_int (values : list Z) (i j : Z) : res (list Z) :=
  tmp ← buf_get values i;
  vj ← buf_get values j;
  values ← buf_set values i vj;
  buf_set values j tmp.

Definition draw_hline (canvas : list Z) (y x0 x1 color : Z) : res (list Z) :=
  if (y <? 0) || (CANVAS_HEIGHT <=? y) then Ok canvas else
  let left := if x1 <? x0 then x1 else x0 in
  let right := if x1 <? x0 then x0 else x1 in
  if (right <? 0) || (CANVAS_WIDTH <=? left) then Ok canvas else
  let left := if left <? 0 then 0 else left in
  let right := if CANVAS_WIDTH <=? right then CANVAS_WIDTH - 1 else right in
  '(_, canvas) ← while_ (Z.to_nat (right - left + 1))
    (fun '(x, _) => x <=? right)
    (fun '(x, canvas) =>
       canvas ← buf_set canvas (s32 (s32 (y * CANVAS_WIDTH) + x)) color;
       Ok (s32 (x + 1), canvas))
    (left, canvas);
  Ok canvas.

Definition min3 (a b c : Z) : Z :=
  let result := a in
  let result := if b <? result then b else result in
  if c <? result then c else result.

Definition max3 (a b c : Z) : Z :=
  let result := a in
  let result := if result <? b then b else result in
  if result <? c then c else result.

Definition edge_function (ax ay bx by_ px py : Z) : Z :=
  s64 (s64 (s32 (px - ax) * s32 (by_ - ay))
       - s64 (s32 (py - ay) * s32 (bx - ax))).

Definition sort_ints (values : list Z) (count : Z) : res (list Z) :=
  '(_, values) ← while_ (Z.to_nat count)
    (fun '(i, _) => i <? count)
    (fun '(i, values) =>
       '(_, values) ← while_ (Z.to_nat (count - (i + 1)))
         (fun '(j, _) => j <? count)
         (fun '(j, values) =>
            vj ← buf_get values j;
            vi ← buf_get values i;
            values ← (if vj <? vi then swap_int values i j else Ok values);
            Ok (s32 (j + 1), values))
         (s32 (i + 1), values);
       Ok (s32 (i + 1), values))
    (0, values);
  Ok values.

(** [memset(canvas, color, CANVAS_SIZE)] of the user library stores the low
    byte of [color] in every byte of the buffer. *)
Definition canvas_clear (canvas : list Z) (color : Z) : res (list Z) :=
  if Z.of_nat (length canvas) <? CANVAS_SIZE then Fault else
  Ok (replicate (Z.to_nat CANVAS_SIZE) (u8 color)
      ++ drop (Z.to_nat CANVAS_SIZE) canvas).

Definition canvas_pixel (canvas : list Z) (x y color : Z) : res (list Z) :=
  if (x <? 0) || (CANVAS_WIDTH <=? x) || (y <? 0) || (CANVAS_HEIGHT <=? y)
  then Ok canvas
  else buf_set canvas (s32 (s32 (y * CANVAS_WIDTH) + x)) color.

(** When a sum or difference overflows, a loop may go on for longer than the
    numbers say, or forever.  [spare] is how many turns such a loop is given
    beyond those: a statement for every [spare] speaks of every part of a run,
    however long it is. *)
Class Fuel : Type := spare : nat.

Section Loops.
Context {F : Fuel}.

(** The loop runs [max |x2-x1| |y2-y1| + 1] times when no difference
    overflows. *)
Definition canvas_line (canvas : list Z) (x1 y1 x2 y2 color : Z)
    : res (list Z) :=
  let dx := abs_int (s32 (x2 - x1)) in
  let sx := if x1 <? x2 then 1 else -1 in
  let dy := s32 (- abs_int (s32 (y2 - y1))) in
  let sy := if y1 <? y2 then 1 else -1 in
  let err := s32 (dx + dy) in
  loop_ (Z.to_nat (Z.max dx (- dy) + 1) + spare)
    (fun '(x1, y1, err, canvas) =>
       canvas ← canvas_pixel canvas x1 y1 color;
       if (x1 =? x2) && (y1 =? y2) then Ok (inr canvas) else
       let err2 := s32 (2 * err) in
       let '(err, x1) := if dy <=? err2 then (s32 (err + dy), s32 (x1 + sx))
                         else (err, x1) in
       let '(err, y1) := if err2 <=? dx then (s32 (err + dx), s32 (y1 + sy))
                         else (err, y1) in
       Ok (inl (x1, y1, err, canvas)))
    (x1, y1, err, canvas).

Definition canvas_rect (canvas : list Z) (x y w h color : Z) : res (list Z) :=
  if (w <=? 0) || (h <=? 0) then Ok canvas else
  let xr := s32 (s32 (x + w) - 1) in
  let yb := s32 (s32 (y + h) - 1) in
  canvas ← canvas_line canvas x y xr y color;
  canvas ← canvas_line canvas x y x yb color;
  canvas ← canvas_line canvas xr y xr yb color;
  canvas_line canvas x yb xr yb color.

Definition canvas_fillrect (canvas : list Z) (x y w h color : Z)
    : res (list Z) :=
  if (w <=? 0) || (h <=? 0) then Ok canvas else
  '(_, canvas) ← while_ (Z.to_nat h)
    (fun '(row, _) => row <? h)
    (fun '(row, canvas) =>
       canvas ← draw_hline canvas (s32 (y + row)) x (s32 (s32 (x + w) - 1)) color;
       Ok (s32 (row + 1), canvas))
    (0, canvas);
  Ok canvas.

(** The update of [(cx, cy, err)] shared by the text of [canvas_circle] and
    [canvas_fillcircle]. *)
Definition circle_step (cx cy err : Z) : Z * Z * Z :=
  let cy := s32 (cy + 1) in
  if err <? 0 then (cx, cy, s32 (err + s32 (s32 (2 * cy) + 1)))
  else
    let cx := s32 (cx - 1) in
    (cx, cy, s32 (err + s32 (s32 (2 * s32 (cy - cx)) + 1))).

Definition canvas_circle (canvas : list Z) (x y radius color : Z)
    : res (list Z) :=
  let cx := radius in
  let cy := 0 in
  let err := s32 (1 - cx) in
  if radius <? 0 then Ok canvas else
  '(_, canvas) ← while_ (Z.to_nat (radius + 1) + spare)
    (fun '((cx, cy, _), _) => cy <=? cx)
    (fun '((cx, cy, err), canvas) =>
       canvas ← canvas_pixel canvas (s32 (x + cx)) (s32 (y + cy)) color;
       canvas ← canvas_pixel canvas (s32 (x + cy)) (s32 (y + cx)) color;
       canvas ← canvas_pixel canvas (s32 (x - cy)) (s32 (y + cx)) color;
       canvas ← canvas_pixel canvas (s32 (x - cx)) (s32 (y + cy)) color;
       canvas ← canvas_pixel canvas (s32 (x - cx)) (s32 (y - cy)) color;
       canvas ← canvas_pixel canvas (s32 (x - cy)) (s32 (y - cx)) color;
       canvas ← canvas_pixel canvas (s32 (x + cy)) (s32 (y - cx)) color;
       canvas ← canvas_pixel canvas (s32 (x + cx)) (s32 (y - cy)) color;
       Ok (circle_step cx cy err, canvas))
    ((cx, cy, err), canvas);
  Ok canvas.

Definition canvas_fillcircle (canvas : list Z) (x y radius color : Z)
    : res (list Z) :=
  let cx := radius in
  let cy := 0 in
  let err := s32 (1 - cx) in
  if radius <? 0 then Ok canvas else
  '(_, canvas) ← while_ (Z.to_nat (radius + 1) + spare)
    (fun '((cx, cy, _), _) => cy <=? cx)
    (fun '((cx, cy, err), canvas) =>
       canvas ← draw_hline canvas (s32 (y + cy)) (s32 (x - cx)) (s32 (x + cx)) color;
       canvas ← draw_hline canvas (s32 (y - cy)) (s32 (x - cx)) (s32 (x + cx)) color;
       canvas ← draw_hline canvas (s32 (y + cx)) (s32 (x - cy)) (s32 (x + cy)) color;
       canvas ← draw_hline canvas (s32 (y - cx)) (s32 (x - cy)) (s32 (x + cy)) color;
       Ok (circle_step cx cy err, canvas))
    ((cx, cy, err), canvas);
  Ok canvas.

Definition canvas_triangle (canvas : list Z) (x1 y1 x2 y2 x3 y3 color : Z)
    : res (list Z) :=
  canvas ← canvas_line canvas x1 y1 x2 y2 color;
  canvas ← canvas_line canvas x2 y2 x3 y3 color;
  canvas_line canvas x3 y3 x1 y1 color.

Definition canvas_filltriangle (canvas : list Z) (x1 y1 x2 y2 x3 y3 color : Z)
    : res (list Z) :=
  let min_x := min3 x1 x2 x3 in
  let max_x := max3 x1 x2 x3 in
  let min_y := min3 y1 y2 y3 in
  let max_y := max3 y1 y2 y3 in
  let area := edge_function x1 y1 x2 y2 x3 y3 in
  if area =? 0 then canvas_triangle canvas x1 y1 x2 y2 x3 y3 color else
  let min_x := if min_x <? 0 then 0 else min_x in
  let max_x := if CANVAS_WIDTH <=? max_x then CANVAS_WIDTH - 1 else max_x in
  let min_y := if min_y <? 0 then 0 else min_y in
  let max_y := if CANVAS_HEIGHT <=? max_y then CANVAS_HEIGHT - 1 else max_y in
  '(_, canvas) ← while_ (Z.to_nat (max_y - min_y + 1))
    (fun '(y, _) => y <=? max_y)
    (fun '(y, canvas) =>
       '(_, canvas) ← while_ (Z.to_nat (max_x - min_x + 1))
         (fun '(x, _) => x <=? max_x)
         (fun '(x, canvas) =>
            let w0 := edge_function x2 y2 x3 y3 x y in
            let w1 := edge_function x3 y3 x1 y1 x y in
            let w2 := edge_function x1 y1 x2 y2 x y in
            canvas ←
              (if ((0 <? area) && (0 <=? w0) && (0 <=? w1) && (0 <=? w2))
                  || ((area <? 0) && (w0 <=? 0) && (w1 <=? 0) && (w2 <=? 0))
               then canvas_pixel canvas x y color else Ok canvas);
            Ok (s32 (x + 1), canvas))
         (min_x, canvas);
       Ok (s32 (y + 1), canvas))
    (min_y, canvas);
  Ok canvas.

Definition canvas_ellipse (canvas : list Z) (x y rx ry color : Z)
    : res (list Z) :=
  if (rx <? 0) || (ry <? 0) then Ok canvas else
  if (rx =? 0) && (ry =? 0) then canvas_pixel canvas x y color else
  canvas ← loop_ (Z.to_nat (2 * rx + 2) + spare)
    (fun '(px, canvas) =>
       if rx <? px then Ok (inr canvas) else
       let rx2 := s64 (rx * rx) in
       let ry2 := s64 (ry * ry) in
       let inside := s64 (ry2 * s64 (rx2 - s64 (px * px))) in
       let py := 0 in
       if rx =? 0 then Ok (inr canvas) else
       py ← while_ (Z.to_nat (ry + 1) + spare)
         (fun py => s64 (s64 (py * py) * rx2) <=? inside)
         (fun py => Ok (s32 (py + 1))) py;
       let py := s32 (py - 1) in
       canvas ← canvas_pixel canvas (s32 (x + px)) (s32 (y + py)) color;
       canvas ← canvas_pixel canvas (s32 (x + px)) (s32 (y - py)) color;
       Ok (inl (s32 (px + 1), canvas)))
    (s32 (- rx), canvas);
  if rx =? 0 then
    '(_, canvas) ← while_ (Z.to_nat (2 * ry + 1) + spare)
      (fun '(px, _) => px <=? ry)
      (fun '(px, canvas) =>
         canvas ← canvas_pixel canvas x (s32 (y + px)) color;
         Ok (s32 (px + 1), canvas))
      (s32 (- ry), canvas);
    Ok canvas
  else Ok canvas.

Definition canvas_fillellipse (canvas : list Z) (x y rx ry color : Z)
    : res (list Z) :=
  if (rx <? 0) || (ry <? 0) then Ok canvas else
  if (rx =? 0) && (ry =? 0) then canvas_pixel canvas x y color else
  if rx =? 0 then
    '(_, canvas) ← while_ (Z.to_nat (2 * ry + 1) + spare)
      (fun '(py, _) => py <=? ry)
      (fun '(py, canvas) =>
         canvas ← canvas_pixel canvas x (s32 (y + py)) color;
         Ok (s32 (py + 1), canvas))
      (s32 (- ry), canvas);
    Ok canvas
  else if ry =? 0 then
    draw_hline canvas y (s32 (x - rx)) (s32 (x + rx)) color
  else
  let rx2 := s64 (rx * rx) in
  let ry2 := s64 (ry * ry) in
  '(_, canvas) ← while_ (Z.to_nat (2 * ry + 1) + spare)
    (fun '(py, _) => py <=? ry)
    (fun '(py, canvas) =>
       let inside := s64 (rx2 * s64 (ry2 - s64 (py * py))) in
       px ← while_ (Z.to_nat (rx + 1) + spare)
         (fun px => s64 (s64 (px * px) * ry2) <=? inside)
         (fun px => Ok (s32 (px + 1))) 0;
       let px := s32 (px - 1) in
       canvas ← draw_hline canvas (s32 (y + py)) (s32 (x - px)) (s32 (x + px)) color;
       Ok (s32 (py + 1), canvas))
    (s32 (- ry), canvas);
  Ok canvas.

Definition canvas_polygon (canvas : list Z) (xs ys : list Z) (count color : Z)
    : res (list Z) :=
  if count <? 2 then Ok canvas else
  '(_, canvas) ← while_ (Z.to_nat count)
    (fun '(i, _) => i <? count)
    (fun '(i, canvas) =>
       let next := Z.rem (s32 (i + 1)) count in
       xi ← buf_get xs i;
       yi ← buf_get ys i;
       xn ← buf_get xs next;
       yn ← buf_get ys next;
       canvas ← canvas_line canvas xi yi xn yn color;
       Ok (s32 (i + 1), canvas))
    (0, canvas);
  Ok canvas.

(** One edge of the scan line [y]: the crossing, if the edge has one, is
    appended to the local array [intersections] of [POLYGON_MAX_POINTS] ints
    ([hits] is its length). *)
Definition scan_edge (xs ys : list Z) (count y i : Z) (intersections : list Z)
    : res (list Z) :=
  let next := Z.rem (s32 (i + 1)) count in
  y0 ← buf_get ys i;
  y1 ← buf_get ys next;
  x0 ← buf_get xs i;
  x1 ← buf_get xs next;
  if y0 =? y1 then Ok intersections else
  if ((y0 <=? y) && (y <? y1)) || ((y1 <=? y) && (y <? y0)) then
    if POLYGON_MAX_POINTS <=? Z.of_nat (length intersections) then Fault else
    Ok (intersections ++
        [s32 (x0 + s32 (Z.quot (s64 (s32 (y - y0) * s32 (x1 - x0)))
                               (s32 (y1 - y0))))])
  else Ok intersections.

Definition canvas_fillpolygon (canvas : list Z) (xs ys : list Z)
    (count color : Z) : res (list Z) :=
  if (count <? 3) || (POLYGON_MAX_POINTS <? count) then Ok canvas else
  min_y ← buf_get ys 0;
  max_y ← buf_get ys 0;
  '(_, min_y, max_y) ← while_ (Z.to_nat count)
    (fun '(i, _, _) => i <? count)
    (fun '(i, min_y, max_y) =>
       yi ← buf_get ys i;
       let min_y := if yi <? min_y then yi else min_y in
       let max_y := if max_y <? yi then yi else max_y in
       Ok (s32 (i + 1), min_y, max_y))
    (1, min_y, max_y);
  let min_y := if min_y <? 0 then 0 else min_y in
  let max_y := if CANVAS_HEIGHT <=? max_y then CANVAS_HEIGHT - 1 else max_y in
  '(_, canvas) ← while_ (Z.to_nat (max_y - min_y + 1))
    (fun '(y, _) => y <=? max_y)
    (fun '(y, canvas) =>
       '(_, intersections) ← while_ (Z.to_nat count)
         (fun '(i, _) => i <? count)
         (fun '(i, intersections) =>
            intersections ← scan_edge xs ys count y i intersections;
            Ok (s32 (i + 1), intersections))
         (0, []);
       let hits := Z.of_nat (length intersections) in
       if hits <? 2 then Ok (s32 (y + 1), canvas) else
       intersections ← sort_ints intersections hits;
       '(_, canvas) ← while_ (Z.to_nat hits)
         (fun '(i, _) => s32 (i + 1) <? hits)
         (fun '(i, canvas) =>
            a ← buf_get intersections i;
            b ← buf_get intersections (s32 (i + 1));
            canvas ← draw_hline canvas y a b color;
            Ok (s32 (i + 2), canvas))
         (0, canvas);
       Ok (s32 (y + 1), canvas))
    (min_y, canvas);
  Ok canvas.

End Loops.

(** * Specification vocabulary *)

(** The canvas [malloc(CANVAS_SIZE)] returns has [CANVAS_SIZE] bytes. *)
Definition canvas_len (c : list Z) : Prop :=
  Z.of_nat (length c) = CANVAS_SIZE.

(** The range of coordinates within which the drawing routines' [int]
    arithmetic (differences, and products kept in [long]) cannot overflow. *)
Definition coord (z : Z) : Prop := - 2 ^ 28 <= z <= 2 ^ 28.

Definition blank_canvas : list Z := replicate (Z.to_nat CANVAS_SIZE) 0.

Lemma blank_canvas_len : canvas_len blank_canvas.
Proof.
  unfold canvas_len, blank_canvas. rewrite length_replicate, Z2Nat.id.
  - reflexivity.
  - unfold CANVAS_SIZE, CANVAS_WIDTH, CANVAS_HEIGHT. lia.
Qed.
Lemma blank_canvas_u8 : Forall is_u8 blank_canvas.
Proof. apply Forall_replicate. unfold is_u8. lia. Qed.
#[global] Opaque blank_canvas.

Definition in_canvas (i j : Z) : Prop :=
  0 <= i < CANVAS_WIDTH /\ 0 <= j < CANVAS_HEIGHT.

(** The pixel of column [i] and row [j]. *)
Definition px (c : list Z) (i j : Z) : option Z :=
  c !! Z.to_nat (j * CANVAS_WIDTH + i).

(** [c'] is [c] with the pixels of [P] set to [col] and no other change. *)
Definition paints (P : Z -> Z -> bool) (col : Z) (c c' : list Z) : Prop :=
  length c' = length c /\
  forall i j, in_canvas i j -> px c' i j = if P i j then Some col else px c i j.

Definition nowhere (_ _ : Z) : bool := false.
Definition either (P Q : Z -> Z -> bool) (i j : Z) : bool := P i j || Q i j.
Definition point (x y i j : Z) : bool := (i =? x) && (j =? y).
Definition hseg (y x0 x1 i j : Z) : bool :=
  (j =? y) && (Z.min x0 x1 <=? i) && (i <=? Z.max x0 x1).

Lemma paints_refl col c : paints nowhere col c c.
Proof. by split. Qed.

Lemma paints_trans P Q col c1 c2 c3 :
  paints P col c1 c2 -> paints Q col c2 c3 -> paints (either P Q) col c1 c3.
Proof.
  intros [L1 H1] [L2 H2]. split; [congruence|]. intros i j Hij. unfold either.
  rewrite H2, H1 by done. by destruct (P i j), (Q i j).
Qed.

Lemma paints_ext P Q col c c' :
  (forall i j, in_canvas i j -> P i j = Q i j) ->
  paints P col c c' -> paints Q col c c'.
Proof. intros HPQ [L H]. split; [done|]. intros i j Hij. by rewrite H, HPQ. Qed.

Lemma paints_len P col c c' : canvas_len c -> paints P col c c' -> canvas_len c'.
Proof. unfold canvas_len. intros H [-> _]. done. Qed.

(** Painting keeps every byte of the canvas a byte. *)
Lemma paints_bytes P col c c' :
  canvas_len c -> is_u8 col -> Forall is_u8 c -> paints P col c c' ->
  Forall is_u8 c'.
Proof.
  unfold canvas_len, CANVAS_SIZE, CANVAS_WIDTH, CANVAS_HEIGHT.
  intros Hl Hcol Hc [L H]. apply Forall_lookup. intros k v Hk.
  pose proof (lookup_lt_Some _ _ _ Hk) as Hlt.
  set (i := Z.of_nat k mod 320). set (j := Z.of_nat k / 320).
  assert (Hij : in_canvas i j).
  { unfold in_canvas, i, j, CANVAS_WIDTH, CANVAS_HEIGHT. dlia. }
  assert (Hidx : Z.to_nat (j * CANVAS_WIDTH + i) = k).
  { unfold i, j, CANVAS_WIDTH. dlia. }
  specialize (H i j Hij). unfold px in H. rewrite Hidx, Hk in H.
  destruct (P i j); [by simplify_eq|].
  by apply (Forall_lookup_1 _ _ _ _ Hc (eq_sym H)).
Qed.

Lemma canvas_pixel_paints c x y col :
  canvas_len c ->
  exists c', canvas_pixel c x y col = Ok c' /\ paints (point x y) col c c'.
Proof.
  unfold canvas_len, CANVAS_SIZE, canvas_pixel, CANVAS_WIDTH, CANVAS_HEIGHT.
  intros Hl. bcase.
  - exists c. split; [done|]. split; [done|].
    unfold in_canvas, point, CANVAS_WIDTH, CANVAS_HEIGHT. intros i j Hij.
    by replace (_ && _) with false by lia.
  - wraps.
    rewrite buf_set_ok by lia. eexists. split; [done|].
    split; [by rewrite length_insert|].
    unfold in_canvas, point, px, CANVAS_WIDTH, CANVAS_HEIGHT. intros i j Hij.
    bcase.
    + destruct E0 as [-> ->]. apply list_lookup_insert_eq. lia.
    + apply list_lookup_insert_ne. lia.
Qed.

(** The rule for the counting loops of this file: an iteration [k] paints
    [P k]; [Q k] is what the iterations before [k] have painted. *)
Lemma for_paints (cond : Z * list Z -> bool) (body : Z -> list Z -> res (list Z))
    (P Q : Z -> Z -> Z -> bool) (col lo n : Z) (fuel : nat) (c : list Z) :
  lo <= n -> - 2 ^ 31 <= lo -> n < 2 ^ 31 -> n - lo <= Z.of_nat fuel ->
  canvas_len c ->
  (forall k c, lo <= k -> cond (k, c) = (k <? n)) ->
  (forall k c, lo <= k < n -> canvas_len c ->
     exists c', body k c = Ok c' /\ paints (P k) col c c') ->
  (forall i j, in_canvas i j -> Q lo i j = false) ->
  (forall k i j, lo <= k < n -> in_canvas i j ->
     Q (k + 1) i j = Q k i j || P k i j) ->
  exists c',
    while_ fuel cond
      (fun '(k, c) => c ← body k c; Ok (s32 (k + 1), c)) (lo, c) = Ok (n, c')
    /\ paints (Q n) col c c'.
Proof.
  intros Hle Hlo Hn Hf Hc Hcond Hbody HQ0 HQ.
  destruct (while_rule cond (fun '(k, c) => c ← body k c; Ok (s32 (k + 1), c))
    (fun '(k, c') => lo <= k <= n /\ paints (Q k) col c c')
    (fun '(k, _) => n - k) fuel (lo, c)) as ([k c'] & Hw & [Hk HP] & Hend).
  - split; [lia|]. apply (paints_ext nowhere); [|apply paints_refl].
    intros i j Hij. by rewrite HQ0.
  - intros [k c'] [Hk _]. rewrite Hcond by lia. lia.
  - lia.
  - intros [k c'] [Hk HP]. rewrite Hcond by lia. intros Hlt.
    destruct (Hbody k c') as (c'' & Hb & HP'); [lia|by eapply paints_len|].
    exists (k + 1, c''). rewrite Hb; simpl. wraps.
    split; [done|]. split; [|lia]. split; [lia|].
    eapply paints_ext; [|by eapply paints_trans].
    intros i j Hij. unfold either. by rewrite HQ by (done || lia).
  - rewrite Hcond in Hend by lia. assert (k = n) as -> by lia. eauto.
Qed.

Lemma draw_hline_paints c y x0 x1 col :
  canvas_len c ->
  exists c', draw_hline c y x0 x1 col = Ok c' /\ paints (hseg y x0 x1) col c c'.
Proof.
  intros Hc. unfold draw_hline.
  bcase.
  { exists c. split; [done|]. split; [done|]. intros i j Hij.
    unfold in_canvas, hseg, CANVAS_WIDTH, CANVAS_HEIGHT in *.
    by replace (_ && _) with false by lia. }
  set (left := if x1 <? x0 then x1 else x0).
  set (right := if x1 <? x0 then x0 else x1).
  assert (Hlr : left = Z.min x0 x1 /\ right = Z.max x0 x1)
    by (unfold left, right; bcase; lia).
  destruct Hlr as [-> ->].
  unfold hseg, CANVAS_WIDTH, CANVAS_HEIGHT in *.
  bcase.
  { exists c. split; [done|]. split; [done|]. intros i j Hij.
    unfold in_canvas, CANVAS_WIDTH, CANVAS_HEIGHT in *.
    by replace (_ && _) with false by lia. }
  set (lo := if Z.min x0 x1 <? 0 then 0 else Z.min x0 x1).
  set (hi := if 320 <=? Z.max x0 x1 then 320 - 1 else Z.max x0 x1).
  assert (Hb : lo = Z.max 0 (Z.min x0 x1) /\ hi = Z.min 319 (Z.max x0 x1))
    by (unfold lo, hi; split; bcase; lia).
  destruct Hb as [Hlo Hhi].
  destruct (for_paints (fun '(x, _) => x <=? hi)
    (fun x canvas => buf_set canvas (s32 (s32 (y * 320) + x)) col)
    (fun x i j => point x y i j)
    (fun k i j => (j =? y) && (lo <=? i) && (i <? k))
    col lo (hi + 1) (Z.to_nat (hi - lo + 1)) c) as (c' & Hw & HP);
    try lia; try done.
  - intros k ? Hk Hl. destruct (canvas_pixel_paints c0 k y col Hl) as (c' & He & HP).
    exists c'. split; [|done]. revert He.
    unfold canvas_pixel, CANVAS_WIDTH, CANVAS_HEIGHT.
    by replace (_ || _) with false by lia.
  - unfold point. lia.
  - rewrite Hw. simpl. exists c'. split; [done|].
    eapply paints_ext; [|exact HP]. unfold in_canvas, CANVAS_WIDTH. lia.
Qed.
