(* ===== verification/DrawLine.v ===== *)
(** Correctness of the line drawing of src/drawlib.c ([canvas_line]) and of the
    outlines built from it.  The integer error term of the loop is shown to
    track the exact cross product, so that every pixel drawn is within half a
    pixel of the ideal segment, and the loop ends at the second end point after
    exactly [max |dx| |dy| + 1] pixels. *)
From stdpp Require Import base strings numbers list.
From S2P Require Import Prelude Drawlib.
Local Open Scope Z_scope.

(** The pixels of a list of points. *)
Definition on_path (path : list (Z * Z)) (i j : Z) : bool :=
  existsb (fun '(x, y) => point x y i j) path.

(** Consecutive points are distinct neighbours (8-connected). *)
Fixpoint king_path (path : list (Z * Z)) : Prop :=
  match path with
  | (x, y) :: (((x', y') :: _) as rest) =>
      (x', y') <> (x, y) /\ Z.abs (x' - x) <= 1 /\ Z.abs (y' - y) <= 1
      /\ king_path rest
  | _ => True
  end.

(** Twice the distance of [(x,y)] from the line through the end points,
    measured along the minor axis and scaled by the length of the major one,
    is at most that length: the point is within half a pixel of the line. *)
Definition near_segment (x1 y1 x2 y2 x y : Z) : Prop :=
  2 * Z.abs ((x2 - x1) * (y - y1) - (y2 - y1) * (x - x1))
    <= Z.max (Z.abs (x2 - x1)) (Z.abs (y2 - y1))
  /\ Z.min x1 x2 <= x <= Z.max x1 x2 /\ Z.min y1 y2 <= y <= Z.max y1 y2.

Section bresenham.
Context (x1 y1 dx Dy sx sy col : Z).
Context (Hdx : 0 <= dx <= 2 ^ 29) (HDy : 0 <= Dy <= 2 ^ 29).
Context (Hsx : sx = 1 \/ sx = -1) (Hsy : sy = 1 \/ sy = -1).
Context (Hx1 : - 2 ^ 28 <= x1 <= 2 ^ 28) (Hy1 : - 2 ^ 28 <= y1 <= 2 ^ 28).

Let n : Z := Z.max dx Dy.
Let pt (a b : Z) : Z * Z := (x1 + sx * a, y1 + sy * b).

(** [a] steps in x and [b] steps in y, [k] along the major axis. *)
Definition line_inv (k a b : Z) : Prop :=
  0 <= a <= dx /\ 0 <= b <= Dy /\ - n <= 2 * (dx * b - Dy * a) <= n
  /\ k = (if Dy <=? dx then a else b).

Let err (a b : Z) : Z := dx * (b + 1) - Dy * (a + 1).

Definition line_body (st : Z * Z * Z * list Z)
    : res ((Z * Z * Z * list Z) + list Z) :=
  let '(x, y, err, canvas) := st in
  canvas ← canvas_pixel canvas x y col;
  if (x =? x1 + sx * dx) && (y =? y1 + sy * Dy) then Ok (inr canvas) else
  let err2 := s32 (2 * err) in
  let '(err, x) := if - Dy <=? err2 then (s32 (err + - Dy), s32 (x + sx))
                   else (err, x) in
  let '(err, y) := if err2 <=? dx then (s32 (err + dx), s32 (y + sy))
                   else (err, y) in
  Ok (inl (x, y, err, canvas)).

Lemma line_inv_step k a b :
  line_inv k a b -> k < n ->
  let a' := if - Dy <=? 2 * err a b then a + 1 else a in
  let b' := if 2 * err a b <=? dx then b + 1 else b in
  line_inv (k + 1) a' b' /\ (a' <> a \/ b' <> b).
Proof.
  intros (Ha & Hb & He & Hk) Hlt a' b'. unfold line_inv, n, err in *.
  destruct (Dy <=? dx) eqn:Hmaj.
  - assert (a' = a + 1) as -> by (unfold a'; bcase; lia).
    unfold b'; bcase; [|repeat split; lia].
    enough (b < Dy) by (repeat split; lia).
    destruct (decide (b = Dy)) as [->|]; [|lia]. nia.
  - assert (b' = b + 1) as -> by (unfold b'; bcase; lia).
    unfold a'; bcase; [|repeat split; lia].
    enough (a < dx) by (repeat split; lia).
    destruct (decide (a = dx)) as [->|]; [|lia]. nia.
Qed.

Lemma line_inv_end k a b :
  line_inv k a b -> (a = dx /\ b = Dy) <-> k = n.
Proof.
  unfold line_inv, n. intros (Ha & Hb & He & Hk).
  destruct (Dy <=? dx) eqn:Hmaj; split; intros; try lia; split; nia.
Qed.

(** One iteration that does not end the loop. *)
Lemma line_body_move k a b c c1 :
  line_inv k a b -> k < n ->
  canvas_pixel c (x1 + sx * a) (y1 + sy * b) col = Ok c1 ->
  let a' := if - Dy <=? 2 * err a b then a + 1 else a in
  let b' := if 2 * err a b <=? dx then b + 1 else b in
  line_body (x1 + sx * a, y1 + sy * b, err a b, c)
    = Ok (inl (x1 + sx * a', y1 + sy * b', err a' b', c1)).
Proof.
  intros Hinv Hlt Hpx a' b'. pose proof (line_inv_end _ _ _ Hinv) as Hend.
  assert (Herr : - 2 ^ 30 < err a b < 2 ^ 30)
    by (unfold err, line_inv, n in *; lia).
  assert (Hpos : 0 <= a <= 2 ^ 29 /\ 0 <= b <= 2 ^ 29)
    by (unfold line_inv in *; lia).
  cbn [line_body]. rewrite Hpx. simpl.
  replace ((_ =? _) && _) with false by
    (destruct Hsx as [-> | ->], Hsy as [-> | ->]; lia).
  rewrite (s32_id (2 * err a b)) by lia.
  unfold a', b', err in *; simpl.
  destruct Hsx as [-> | ->], Hsy as [-> | ->]; repeat bcase; simpl;
    wraps; do 5 f_equal; lia.
Qed.

Lemma line_body_end k a b c c1 :
  line_inv k a b -> k = n ->
  canvas_pixel c (x1 + sx * a) (y1 + sy * b) col = Ok c1 ->
  line_body (x1 + sx * a, y1 + sy * b, err a b, c) = Ok (inr c1).
Proof.
  intros Hinv Hk Hpx.
  apply (line_inv_end _ _ _ Hinv) in Hk as [-> ->].
  cbn [line_body]. rewrite Hpx. simpl. by rewrite !Z.eqb_refl.
Qed.

Lemma king_path_cons a b a' b' path :
  (a' = a \/ a' = a + 1) -> (b' = b \/ b' = b + 1) -> a' <> a \/ b' <> b ->
  king_path path -> path !! 0%nat = Some (pt a' b') ->
  king_path (pt a b :: path).
Proof.
  intros Ha Hb Hmove Hkp Hhd. destruct path as [|[xx yy] path]; [done|].
  simpl in Hhd. injection Hhd as -> ->. simpl. split.
  - intros [= ? ?]. destruct Hsx as [-> | ->], Hsy as [-> | ->], Hmove; lia.
  - split; [|split; [|done]]; destruct Hsx as [-> | ->], Hsy as [-> | ->]; lia.
Qed.

Lemma line_loop k a b c fuel :
  line_inv k a b -> Z.of_nat fuel = n - k + 1 -> canvas_len c ->
  exists path c',
    loop_ fuel line_body (x1 + sx * a, y1 + sy * b, err a b, c) = Ok c'
    /\ paints (on_path path) col c c'
    /\ Z.of_nat (length path) = n - k + 1
    /\ (forall m p, path !! m = Some p ->
          exists a' b', p = pt a' b' /\ line_inv (k + Z.of_nat m) a' b')
    /\ king_path path /\ path !! 0%nat = Some (pt a b).
Proof.
  revert k a b c. induction fuel as [|fuel IH]; intros k a b c Hinv Hf Hc.
  { unfold line_inv, n in *. destruct (Dy <=? dx) eqn:E; lia. }
  destruct (canvas_pixel_paints c (x1 + sx * a) (y1 + sy * b) col Hc)
    as (c1 & Hpx & HP1).
  cbn [loop_]. destruct (decide (k = n)) as [Hkn|Hkn].
  - rewrite (line_body_end k a b c c1) by done. simpl.
    exists [pt a b], c1. split; [done|]. split.
    { eapply paints_ext; [|exact HP1]. intros. unfold on_path. simpl.
      by rewrite orb_false_r. }
    split; [simpl; lia|]. split; [|done].
    intros [|m] p; [|done]. simpl. intros [= <-]. exists a, b.
    by rewrite Z.add_0_r.
  - assert (Hlt : k < n)
      by (unfold line_inv, n in *; destruct (Dy <=? dx); lia).
    rewrite (line_body_move k a b c c1) by done. simpl.
    pose proof (line_inv_step _ _ _ Hinv Hlt) as [Hinv' Hmove].
    destruct (IH (k + 1) _ _ c1 Hinv')
      as (path & c' & Hl & HP & Hlen & Hpts & Hkp & Hhd);
      [lia|by eapply paints_len|].
    exists (pt a b :: path), c'. split; [done|].
    split; [eapply paints_ext; [|by eapply paints_trans]; done|].
    split; [simpl; lia|]. split; [|split; [|done]].
    + intros [|m] p; simpl.
      * intros [= <-]. exists a, b. by rewrite Z.add_0_r.
      * intros (a'' & b'' & -> & Hi)%Hpts. exists a'', b''. split; [done|].
        by replace (k + Z.of_nat (S m)) with (k + 1 + Z.of_nat m) by lia.
    + eapply king_path_cons; [| |exact Hmove|done|done]; bcase; auto.
Qed.
End bresenham.

Lemma canvas_line_path {F : Fuel} c x1 y1 x2 y2 col :
  canvas_len c -> coord x1 -> coord y1 -> coord x2 -> coord y2 ->
  let dx := Z.abs (x2 - x1) in
  let Dy := Z.abs (y2 - y1) in
  let sx := if x1 <? x2 then 1 else -1 in
  let sy := if y1 <? y2 then 1 else -1 in
  exists path c',
    canvas_line c x1 y1 x2 y2 col = Ok c'
    /\ paints (on_path path) col c c'
    /\ Z.of_nat (length path) = Z.max dx Dy + 1
    /\ (forall m p, path !! m = Some p ->
          exists a b, p = (x1 + sx * a, y1 + sy * b)
            /\ line_inv dx Dy (Z.of_nat m) a b)
    /\ king_path path /\ path !! 0%nat = Some (x1, y1).
Proof.
  intros Hc H1 H2 H3 H4 dx Dy sx sy. unfold coord in *.
  assert (Habs : forall z, - 2 ^ 29 <= z <= 2 ^ 29 -> abs_int (s32 z) = Z.abs z).
  { intros z Hz. rewrite s32_id by lia. unfold abs_int.
    bcase; [rewrite s32_id by lia|]; lia. }
  destruct (line_loop x1 y1 dx Dy sx sy col) with
    (k := 0) (a := 0) (b := 0) (c := c) (fuel := Z.to_nat (Z.max dx Dy + 1))
    as (path & c' & Hl & HP & Hlen & Hpts & Hkp & Hhd);
    try (unfold dx, Dy, sx, sy; first [done | lia | by bcase; lia]).
  { unfold line_inv, dx, Dy. bcase; lia. }
  exists path, c'. split; [|split; [done|]]; [|split; [lia|]].
  - apply (loop_mono _ _ (Z.to_nat (Z.max dx Dy + 1) + spare)) in Hl; [|lia].
    rewrite <- Hl. unfold canvas_line. rewrite !Habs by lia. fold dx Dy sx sy.
    rewrite (s32_id (- Dy)), (s32_id (dx + - Dy)) by (unfold dx, Dy; lia).
    replace (- - Dy) with Dy by lia.
    assert (Hx2 : x1 + sx * dx = x2) by (unfold sx, dx; bcase; lia).
    assert (Hy2 : y1 + sy * Dy = y2) by (unfold sy, Dy; bcase; lia).
    unfold line_body. rewrite Hx2, Hy2. repeat f_equal; lia.
  - split; [|split; [done|]].
    + intros m p Hm. apply Hpts in Hm as (a & b & -> & Hi). by exists a, b.
    + rewrite Hhd. do 2 f_equal; lia.
Qed.

Definition vseg (x y0 y1 i j : Z) : bool :=
  (i =? x) && (Z.min y0 y1 <=? j) && (j <=? Z.max y0 y1).

(** The pixels of the outline of a [w] by [h] rectangle. *)
Definition frame (x y w h i j : Z) : bool :=
  (x <=? i) && (i <? x + w) && (y <=? j) && (j <? y + h)
  && ((i =? x) || (i =? x + w - 1) || (j =? y) || (j =? y + h - 1)).

Lemma on_path_spec path i j :
  on_path path i j = true <-> exists m, path !! m = Some (i, j).
Proof.
  unfold on_path, point. rewrite existsb_exists. split.
  - intros ([x y] & Hin & Heq). assert (x = i /\ y = j) as [-> ->] by lia.
    by apply list_elem_of_In, list_elem_of_lookup in Hin.
  - intros [m Hm]. exists (i, j). split; [|lia].
    apply list_elem_of_In, list_elem_of_lookup. eauto.
Qed.

(** A line along an axis paints exactly the segment between its end points. *)
Lemma canvas_line_horizontal {F : Fuel} c x1 x2 y col :
  canvas_len c -> coord x1 -> coord x2 -> coord y ->
  exists c', canvas_line c x1 y x2 y col = Ok c'
    /\ paints (hseg y x1 x2) col c c'.
Proof.
  intros Hc H1 H2 Hy.
  destruct (canvas_line_path c x1 y x2 y col) as
    (path & c' & Hl & HP & Hlen & Hpts & _); try done.
  exists c'. split; [done|]. eapply paints_ext; [|exact HP]. intros i j _.
  apply eq_true_iff_eq. rewrite on_path_spec. unfold hseg. split.
  - intros (m & Hm). pose proof (lookup_lt_Some _ _ _ Hm).
    apply Hpts in Hm as (a & b & [= -> ->] & (Ha & Hb & _ & Hk)).
    destruct (x1 <? x2) eqn:E, (y <? y) eqn:E'; lia.
  - intros Hin. exists (Z.to_nat (Z.abs (i - x1))).
    destruct (lookup_lt_is_Some_2 path (Z.to_nat (Z.abs (i - x1)))) as [p Hp];
      [lia|]. rewrite Hp. apply Hpts in Hp as (a & b & -> & (Ha & Hb & _ & Hk)).
    replace (Z.abs (y - y) <=? Z.abs (x2 - x1)) with true in Hk by lia.
    assert (b = 0) as -> by lia.
    do 2 f_equal; destruct (x1 <? x2) eqn:E; lia.
Qed.

Lemma canvas_line_vertical {F : Fuel} c x y1 y2 col :
  canvas_len c -> coord x -> coord y1 -> coord y2 ->
  exists c', canvas_line c x y1 x y2 col = Ok c'
    /\ paints (vseg x y1 y2) col c c'.
Proof.
  intros Hc Hx H1 H2.
  destruct (canvas_line_path c x y1 x y2 col) as
    (path & c' & Hl & HP & Hlen & Hpts & _); try done.
  exists c'. split; [done|]. eapply paints_ext; [|exact HP]. intros i j _.
  apply eq_true_iff_eq. rewrite on_path_spec. unfold vseg. split.
  - intros (m & Hm). pose proof (lookup_lt_Some _ _ _ Hm).
    apply Hpts in Hm as (a & b & [= -> ->] & (Ha & Hb & _ & Hk)).
    destruct (x <? x) eqn:E, (y1 <? y2) eqn:E'; lia.
  - intros Hin. exists (Z.to_nat (Z.abs (j - y1))).
    destruct (lookup_lt_is_Some_2 path (Z.to_nat (Z.abs (j - y1)))) as [p Hp];
      [lia|]. rewrite Hp. apply Hpts in Hp as (a & b & -> & (Ha & Hb & _ & Hk)).
    assert (a = 0) as -> by lia.
    destruct (Z.abs (y2 - y1) <=? Z.abs (x - x)) eqn:E0;
      do 2 f_equal; destruct (y1 <? y2) eqn:E; lia.
Qed.

(** C37: [canvas_line] returns on every pair of end points within 2^28 of the
    origin, and what it paints is an 8-connected path of
    [max |x2-x1| |y2-y1| + 1] pixels from the first end point to the second,
    each within half a pixel of the segment and inside its bounding box. *)
Theorem canvas_line_bresenham {F : Fuel} c x1 y1 x2 y2 col :
  canvas_len c -> coord x1 -> coord y1 -> coord x2 -> coord y2 ->
  exists path c',
    canvas_line c x1 y1 x2 y2 col = Ok c'
    /\ paints (on_path path) col c c'
    /\ Z.of_nat (length path) = Z.max (Z.abs (x2 - x1)) (Z.abs (y2 - y1)) + 1
    /\ king_path path
    /\ head path = Some (x1, y1) /\ last path = Some (x2, y2)
    /\ (forall x y, (x, y) ∈ path -> near_segment x1 y1 x2 y2 x y).
Proof.
  intros Hc H1 H2 H3 H4.
  destruct (canvas_line_path c x1 y1 x2 y2 col) as
    (path & c' & Hl & HP & Hlen & Hpts & Hkp & Hhd); try done.
  exists path, c'. do 4 (split; [done|]). split; [|split].
  - by destruct path.
  - destruct (lookup_lt_is_Some_2 path (pred (length path))) as [p Hp]; [lia|].
    rewrite last_lookup, Hp.
    apply Hpts in Hp as (a & b & -> & Hi).
    unfold coord in *. apply line_inv_end in Hi; [|lia..].
    destruct (proj2 Hi) as [-> ->]; [lia|].
    do 2 f_equal; bcase; lia.
  - intros x y (m & Hm)%list_elem_of_lookup.
    apply Hpts in Hm as (a & b & [= -> ->] & (Ha & Hb & He & _)).
    unfold near_segment. split; [|split]; [|bcase; lia|bcase; lia].
    destruct (Z.ltb_spec x1 x2), (Z.ltb_spec y1 y2);
      rewrite ?(Z.abs_eq (x2 - x1)), ?(Z.abs_neq (x2 - x1)),
        ?(Z.abs_eq (y2 - y1)), ?(Z.abs_neq (y2 - y1)) in * by lia; lia.
Qed.

(** [canvas_rect] with a positive width and height paints exactly the
    one-pixel frame of the rectangle [x, x+w) x [y, y+h), clipped to the
    canvas. *)
Theorem canvas_rect_frame {F : Fuel} c x y w h col :
  canvas_len c -> coord x -> coord y -> 0 < w -> 0 < h ->
  coord (x + w) -> coord (y + h) ->
  exists c', canvas_rect c x y w h col = Ok c' /\ paints (frame x y w h) col c c'.
Proof.
  intros Hc Hx Hy Hw Hh Hxw Hyh. unfold canvas_rect.
  replace ((w <=? 0) || (h <=? 0)) with false by lia.
  unfold coord in *. wraps.
  destruct (canvas_line_horizontal c x (x + w - 1) y col) as (c1 & -> & P1);
    [done|unfold coord; lia..|]. simpl.
  pose proof (paints_len _ _ _ _ Hc P1) as L1.
  destruct (canvas_line_vertical c1 x y (y + h - 1) col) as (c2 & -> & P2);
    [done|unfold coord; lia..|]. simpl.
  pose proof (paints_len _ _ _ _ L1 P2) as L2.
  destruct (canvas_line_vertical c2 (x + w - 1) y (y + h - 1) col)
    as (c3 & -> & P3); [done|unfold coord; lia..|]. simpl.
  pose proof (paints_len _ _ _ _ L2 P3) as L3.
  destruct (canvas_line_horizontal c3 x (x + w - 1) (y + h - 1) col)
    as (c4 & -> & P4); [done|unfold coord; lia..|].
  exists c4. split; [done|].
  eapply paints_ext; [|exact (paints_trans _ _ _ _ _ _
    (paints_trans _ _ _ _ _ _ (paints_trans _ _ _ _ _ _ P1 P2) P3) P4)].
  intros i j _. unfold either, hseg, vseg, frame. lia.
Qed.

Lemma canvas_line_bresenham_witness :
  exists path c', canvas_line (F := 0%nat) blank_canvas 0 0 5 3 7 = Ok c' /\ length path = 6%nat
    /\ paints (on_path path) 7 blank_canvas c'.
Proof.
  destruct (canvas_line_bresenham (F := 0%nat) blank_canvas 0 0 5 3 7)
    as (path & c' & Hl & HP & Hlen & _);
    [apply blank_canvas_len|unfold coord; lia..|].
  exists path, c'. split; [exact Hl|]. split; [lia|exact HP].
Defined.

Lemma canvas_rect_frame_witness :
  exists c', canvas_rect (F := 0%nat) blank_canvas (-4) 10 20 7 3 = Ok c'
    /\ paints (frame (-4) 10 20 7) 3 blank_canvas c'.
Proof.
  apply (canvas_rect_frame blank_canvas (-4) 10 20 7 3);
    [apply blank_canvas_len|unfold coord; lia..].
Defined.
