(* ===== verification/DrawFill.v ===== *)
(** Correctness of the filled shapes of src/drawlib.c: rectangle, triangle and
    ellipse paint exactly the lattice points of the closed shape. *)
From stdpp Require Import base strings numbers list.
From S2P Require Import Prelude Drawlib.
Local Open Scope Z_scope.

(** The pixels of the [w] by [h] block with corner [(x, y)]. *)
Definition block (x y w h i j : Z) : bool :=
  (x <=? i) && (i <? x + w) && (y <=? j) && (j <? y + h).

Lemma canvas_fillrect_paints c x y w h col :
  canvas_len c -> - 2 ^ 31 <= x -> - 2 ^ 31 <= y -> 0 < w -> 0 < h ->
  x + w < 2 ^ 31 -> y + h < 2 ^ 31 -> h < 2 ^ 31 ->
  exists c', canvas_fillrect c x y w h col = Ok c'
    /\ paints (block x y w h) col c c'.
Proof.
  intros Hc Hx Hy Hw Hh Hxw Hyh Hhb. unfold canvas_fillrect.
  replace ((w <=? 0) || (h <=? 0)) with false by lia.
  destruct (for_paints (fun '(row, _) => row <? h)
    (fun row canvas => draw_hline canvas (s32 (y + row)) x
                         (s32 (s32 (x + w) - 1)) col)
    (fun row => hseg (y + row) x (x + w - 1))
    (fun row => block x y w row) col 0 h (Z.to_nat h) c) as (c' & Hl & HP);
    try done; try lia.
  - intros k c0 Hk Hc0. wraps. by apply draw_hline_paints.
  - unfold block. lia.
  - unfold block, hseg. lia.
  - rewrite Hl. simpl. eauto.
Qed.

(** * Triangles *)

(** [(i, j)] is a convex combination of the three vertices. *)
Definition in_triangle (x1 y1 x2 y2 x3 y3 i j : Z) : Prop :=
  exists a b c, 0 <= a /\ 0 <= b /\ 0 <= c /\ 0 < a + b + c
    /\ a * x1 + b * x2 + c * x3 = (a + b + c) * i
    /\ a * y1 + b * y2 + c * y3 = (a + b + c) * j.

(** The cross product [edge_function] computes when nothing overflows. *)
Definition cross (ax ay bx by_ px py : Z) : Z :=
  (px - ax) * (by_ - ay) - (py - ay) * (bx - ax).

Lemma edge_function_exact ax ay bx by_ px py :
  coord ax -> coord ay -> coord bx -> coord by_ -> coord px -> coord py ->
  edge_function ax ay bx by_ px py = cross ax ay bx by_ px py.
Proof.
  unfold coord, edge_function, cross. intros.
  assert (Hm : forall u v, - 2 ^ 29 <= u <= 2 ^ 29 -> - 2 ^ 29 <= v <= 2 ^ 29 ->
             - 2 ^ 58 <= u * v <= 2 ^ 58) by nia.
  pose proof (Hm (px - ax) (by_ - ay)). pose proof (Hm (py - ay) (bx - ax)).
  rewrite !s32_id by lia. rewrite !(s64_id (_ * _)) by lia.
  apply s64_id. lia.
Qed.

Section triangle.
Context (x1 y1 x2 y2 x3 y3 : Z).
Let area : Z := cross x1 y1 x2 y2 x3 y3.

(** The test of the inner loop of [canvas_filltriangle]. *)
Definition inside_test (x y : Z) : bool :=
  let w0 := cross x2 y2 x3 y3 x y in
  let w1 := cross x3 y3 x1 y1 x y in
  let w2 := cross x1 y1 x2 y2 x y in
  ((0 <? area) && (0 <=? w0) && (0 <=? w1) && (0 <=? w2))
  || ((area <? 0) && (w0 <=? 0) && (w1 <=? 0) && (w2 <=? 0)).

Lemma inside_test_spec x y :
  area <> 0 -> inside_test x y = true <-> in_triangle x1 y1 x2 y2 x3 y3 x y.
Proof.
  intros Harea. unfold inside_test, in_triangle.
  set (w0 := cross x2 y2 x3 y3 x y). set (w1 := cross x3 y3 x1 y1 x y).
  set (w2 := cross x1 y1 x2 y2 x y).
  assert (Hsum : w0 + w1 + w2 = area) by (unfold w0, w1, w2, area, cross; ring).
  assert (Hx : w0 * x1 + w1 * x2 + w2 * x3 = area * x)
    by (unfold w0, w1, w2, area, cross; ring).
  assert (Hy : w0 * y1 + w1 * y2 + w2 * y3 = area * y)
    by (unfold w0, w1, w2, area, cross; ring).
  split.
  - intros [H|H]%orb_true_iff.
    + exists w0, w1, w2. rewrite Hsum. lia.
    + exists (- w0), (- w1), (- w2).
      replace (- w0 + - w1 + - w2) with (- area) by lia. lia.
  - intros (a & b & c & Ha & Hb & Hcc & Hs & Hsx & Hsy).
    assert (Hscale : forall ax ay bx by_,
      (a + b + c) * cross ax ay bx by_ x y
      = ((a * x1 + b * x2 + c * x3) - (a + b + c) * ax) * (by_ - ay)
        - ((a * y1 + b * y2 + c * y3) - (a + b + c) * ay) * (bx - ax))
      by (intros; rewrite Hsx, Hsy; unfold cross; ring).
    assert (E0 : (a + b + c) * w0 = a * area)
      by (unfold w0; rewrite Hscale; unfold area, cross; ring).
    assert (E1 : (a + b + c) * w1 = b * area)
      by (unfold w1; rewrite Hscale; unfold area, cross; ring).
    assert (E2 : (a + b + c) * w2 = c * area)
      by (unfold w2; rewrite Hscale; unfold area, cross; ring).
    clear Hscale.
    clearbody w0 w1 w2 area. clear Hx Hy Hsx Hsy.
    destruct (Z.lt_total 0 area) as [Hp|[Hz|Hn]]; [|lia|].
    + apply orb_true_iff. left. rewrite !andb_true_iff, !Z.leb_le.
      repeat split; nia.
    + apply orb_true_iff. right. rewrite !andb_true_iff, !Z.leb_le.
      repeat split; nia.
Qed.
End triangle.

Lemma min3_min a b c : min3 a b c = Z.min (Z.min a b) c.
Proof.
  unfold min3. destruct (Z.ltb_spec b a); bcase; lia.
Qed.

Lemma max3_max a b c : max3 a b c = Z.max (Z.max a b) c.
Proof.
  unfold max3. destruct (Z.ltb_spec a b); bcase; lia.
Qed.

Lemma in_triangle_box x1 y1 x2 y2 x3 y3 i j :
  in_triangle x1 y1 x2 y2 x3 y3 i j ->
  min3 x1 x2 x3 <= i <= max3 x1 x2 x3 /\ min3 y1 y2 y3 <= j <= max3 y1 y2 y3.
Proof.
  intros (a & b & c & Ha & Hb & Hc & Hs & Hx & Hy).
  assert (Hm : forall u v w, min3 u v w <= u /\ min3 u v w <= v /\ min3 u v w <= w
    /\ u <= max3 u v w /\ v <= max3 u v w /\ w <= max3 u v w).
  { intros u v w. rewrite min3_min, max3_max. lia. }
  pose proof (Hm x1 x2 x3) as Hmx. pose proof (Hm y1 y2 y3) as Hmy.
  set (lx := min3 x1 x2 x3) in *. set (hx := max3 x1 x2 x3) in *.
  set (ly := min3 y1 y2 y3) in *. set (hy := max3 y1 y2 y3) in *.
  clearbody lx hx ly hy. split; split; nia.
Qed.

Lemma min3_max3_small a b c :
  coord a -> coord b -> coord c -> coord (min3 a b c) /\ coord (max3 a b c).
Proof. rewrite min3_min, max3_max. unfold coord. lia. Qed.

(** The double loop of [canvas_filltriangle]: every pixel of the box that
    passes the test is painted. *)
Lemma filltriangle_loops (test : Z -> Z -> bool) c lox hix loy hiy col :
  canvas_len c -> 0 <= lox <= 2 ^ 28 -> - 2 ^ 28 <= hix < CANVAS_WIDTH ->
  0 <= loy <= 2 ^ 28 -> - 2 ^ 28 <= hiy < CANVAS_HEIGHT ->
  exists k c',
    while_ (Z.to_nat (hiy - loy + 1)) (fun '(y, _) => y <=? hiy)
      (fun '(y, canvas) =>
         '(_, canvas) ← while_ (Z.to_nat (hix - lox + 1))
           (fun '(x, _) => x <=? hix)
           (fun '(x, canvas) =>
              canvas ← (if test x y then canvas_pixel canvas x y col
                        else Ok canvas);
              Ok (s32 (x + 1), canvas))
           (lox, canvas);
         Ok (s32 (y + 1), canvas))
      (loy, c) = Ok (k, c')
    /\ paints (fun i j => (lox <=? i) && (i <=? hix) && (loy <=? j)
                 && (j <=? hiy) && test i j) col c c'.
Proof.
  unfold CANVAS_WIDTH, CANVAS_HEIGHT. intros Hc Hlx Hhx Hly Hhy.
  set (inner := fun y canvas =>
    '(_, canvas) ← while_ (Z.to_nat (hix - lox + 1))
      (fun '(x, _) => x <=? hix)
      (fun '(x, canvas) =>
         canvas ← (if test x y then canvas_pixel canvas x y col else Ok canvas);
         Ok (s32 (x + 1), canvas))
      (lox, canvas); Ok canvas).
  destruct (for_paints (fun '(y, _) => y <=? hiy) inner
    (fun y i j => (j =? y) && (lox <=? i) && (i <=? hix) && test i j)
    (fun y i j => (lox <=? i) && (i <=? hix) && (loy <=? j) && (j <? y)
                  && test i j)
    col loy (Z.max loy (hiy + 1)) (Z.to_nat (hiy - loy + 1)) c)
    as (c' & Hl & HP); try lia; try done.
  - intros y c0 Hy Hc0. unfold inner.
    destruct (for_paints (fun '(x, _) => x <=? hix)
      (fun x canvas => if test x y then canvas_pixel canvas x y col else Ok canvas)
      (fun x i j => point x y i j && test i j)
      (fun x i j => (j =? y) && (lox <=? i) && (i <? x) && test i j)
      col lox (Z.max lox (hix + 1)) (Z.to_nat (hix - lox + 1)) c0)
      as (c1 & Hl1 & HP1); try lia; try done.
    + intros x c1 Hx Hc1. destruct (test x y) eqn:Ht.
      * destruct (canvas_pixel_paints c1 x y col Hc1) as (c2 & -> & HP2).
        exists c2. split; [done|]. eapply paints_ext; [|exact HP2].
        unfold point. intros i j _.
        destruct (Z.eqb_spec i x), (Z.eqb_spec j y); subst; simpl; congruence.
      * exists c1. split; [done|].
        eapply paints_ext; [|apply paints_refl]. unfold point, nowhere.
        intros i j _.
        destruct (Z.eqb_spec i x), (Z.eqb_spec j y); subst; simpl; congruence.
    + intros x i j Hx _. unfold point. destruct (test i j); lia.
    + rewrite Hl1. simpl. exists c1. split; [done|].
      eapply paints_ext; [|exact HP1]. intros i j _. cbv beta.
      destruct (test i j); lia.
  - exists (Z.max loy (hiy + 1)), c'. split.
    + rewrite <- Hl. apply while_ext; [done|]. intros [y c0]. unfold inner.
      by destruct (while_ _ _ _ (lox, c0)) as [[]| | |].
    + eapply paints_ext; [|exact HP]. intros i j _. cbv beta.
      destruct (test i j); lia.
Qed.

(** C38: [canvas_filltriangle] on three non-collinear vertices paints exactly
    the lattice points of the closed triangle (the convex combinations of its
    vertices) that lie on the canvas, whatever the orientation of the
    vertices. *)
Theorem canvas_filltriangle_exact {F : Fuel} c x1 y1 x2 y2 x3 y3 col :
  canvas_len c -> coord x1 -> coord y1 -> coord x2 -> coord y2 ->
  coord x3 -> coord y3 -> cross x1 y1 x2 y2 x3 y3 <> 0 ->
  exists c', canvas_filltriangle c x1 y1 x2 y2 x3 y3 col = Ok c'
    /\ length c' = length c
    /\ forall i j, in_canvas i j ->
         (in_triangle x1 y1 x2 y2 x3 y3 i j -> px c' i j = Some col)
         /\ (~ in_triangle x1 y1 x2 y2 x3 y3 i j -> px c' i j = px c i j).
Proof.
  intros Hc S1 S2 S3 S4 S5 S6 Harea. unfold canvas_filltriangle.
  rewrite edge_function_exact by done.
  replace (_ =? 0) with false by lia.
  destruct (min3_max3_small x1 x2 x3 S1 S3 S5) as [Bx1 Bx2].
  destruct (min3_max3_small y1 y2 y3 S2 S4 S6) as [By1 By2].
  set (lox := if min3 x1 x2 x3 <? 0 then 0 else min3 x1 x2 x3).
  set (hix := if CANVAS_WIDTH <=? max3 x1 x2 x3 then CANVAS_WIDTH - 1
              else max3 x1 x2 x3).
  set (loy := if min3 y1 y2 y3 <? 0 then 0 else min3 y1 y2 y3).
  set (hiy := if CANVAS_HEIGHT <=? max3 y1 y2 y3 then CANVAS_HEIGHT - 1
              else max3 y1 y2 y3).
  set (test := fun x y =>
    ((0 <? cross x1 y1 x2 y2 x3 y3) && (0 <=? edge_function x2 y2 x3 y3 x y)
     && (0 <=? edge_function x3 y3 x1 y1 x y)
     && (0 <=? edge_function x1 y1 x2 y2 x y))
    || ((cross x1 y1 x2 y2 x3 y3 <? 0) && (edge_function x2 y2 x3 y3 x y <=? 0)
        && (edge_function x3 y3 x1 y1 x y <=? 0)
        && (edge_function x1 y1 x2 y2 x y <=? 0))).
  unfold coord, CANVAS_WIDTH, CANVAS_HEIGHT in *.
  destruct (filltriangle_loops test c lox hix loy hiy col) as (k & c' & Hl & HP);
    [done|unfold lox, hix, loy, hiy, CANVAS_WIDTH, CANVAS_HEIGHT;
          bcase; lia..|].
  unfold test in Hl. rewrite Hl. simpl. exists c'. split; [done|].
  destruct HP as [Hlen HP]. split; [done|]. intros i j Hij.
  rewrite HP by done.
  assert (Htest : test i j = inside_test x1 y1 x2 y2 x3 y3 i j).
  { unfold test, inside_test, in_canvas, CANVAS_WIDTH, CANVAS_HEIGHT in *.
    by rewrite !edge_function_exact by (unfold coord; lia). }
  rewrite Htest. split; intros Hin.
  - rewrite (proj2 (inside_test_spec _ _ _ _ _ _ i j Harea) Hin).
    apply in_triangle_box in Hin.
    unfold in_canvas, lox, hix, loy, hiy, CANVAS_WIDTH, CANVAS_HEIGHT in *.
    replace (_ && true) with true; [done|].
    symmetry. repeat bcase; lia.
  - rewrite <- (inside_test_spec _ _ _ _ _ _ i j Harea) in Hin.
    apply not_true_is_false in Hin. by rewrite Hin, andb_false_r.
Qed.

Lemma canvas_filltriangle_exact_witness :
  exists c', canvas_filltriangle (F := 0%nat) blank_canvas 0 0 8 0 0 8 5 = Ok c'
    /\ px c' 2 2 = Some 5 /\ px c' 200 100 = px blank_canvas 200 100.
Proof.
  destruct (canvas_filltriangle_exact (F := 0%nat) blank_canvas 0 0 8 0 0 8 5)
    as (c' & Hl & _ & HP); [apply blank_canvas_len|unfold coord; lia..|done|].
  exists c'. split; [exact Hl|]. split; apply HP; unfold in_canvas, CANVAS_WIDTH, CANVAS_HEIGHT; try lia.
  - exists 4, 2, 2. lia.
  - intros (a & b & d & Hin). lia.
Defined.

(** * Ellipses *)

(** The lattice points of the closed axis-parallel ellipse with centre
    [(x, y)] and semi-axes [rx] and [ry] (a segment when one of them is 0). *)
Definition ellipse_disc (x y rx ry i j : Z) : bool :=
  (Z.abs (i - x) <=? rx) && (Z.abs (j - y) <=? ry)
  && ((i - x) * (i - x) * (ry * ry) + (j - y) * (j - y) * (rx * rx)
        <=? rx * rx * (ry * ry)).

(** The integer square root loop: the last [px] with [px^2 * d <= inside]. *)
Lemma extent_loop r d inside k :
  0 <= r <= 2 ^ 15 -> 0 < d <= 2 ^ 30 -> 0 <= inside <= r * r * d ->
  exists q,
    while_ (Z.to_nat (r + 1) + k) (fun px => s64 (s64 (px * px) * d) <=? inside)
      (fun px => Ok (s32 (px + 1))) 0 = Ok q
    /\ 1 <= q <= r + 1 /\ (q - 1) * (q - 1) * d <= inside < q * q * d.
Proof.
  intros Hr Hd Hin.
  assert (Hx : forall p, 0 <= p <= r + 1 -> s64 (s64 (p * p) * d) = p * p * d).
  { intros p Hp. assert (0 <= p * p <= (2 ^ 15 + 1) * (2 ^ 15 + 1)) by nia.
    assert (0 <= p * p * d <= (2 ^ 15 + 1) * (2 ^ 15 + 1) * 2 ^ 30) by nia.
    wraps. done. }
  destruct (while_rule (fun px => s64 (s64 (px * px) * d) <=? inside)
    (fun px => Ok (s32 (px + 1)))
    (fun px => 0 <= px <= r + 1 /\ (0 < px -> (px - 1) * (px - 1) * d <= inside))
    (fun px => r + 1 - px) (Z.to_nat (r + 1) + k) 0) as (q & Hw & [Hq Hlow] & Hend).
  - lia.
  - intros p [Hp _]. rewrite Hx, Z.leb_le by lia. intros Hle.
    destruct (decide (p = r + 1)) as [->|]; nia.
  - lia.
  - intros p [Hp _]. rewrite Hx, Z.leb_le by lia. intros Hle.
    exists (p + 1). split; [by rewrite s32_id by lia|].
    split; [|lia]. split; [destruct (decide (p = r + 1)) as [->|]; nia|].
    intros _.
    replace (p + 1 - 1) with p by lia. lia.
  - exists q. rewrite Hx in Hend by lia. split; [done|].
    destruct (decide (q = 0)) as [->|]; [lia|]. lia.
Qed.

Lemma square_le_iff u q d inside :
  0 < d -> 1 <= q -> (q - 1) * (q - 1) * d <= inside < q * q * d ->
  Z.abs u <= q - 1 <-> u * u * d <= inside.
Proof.
  intros Hd Hq Hi. replace (u * u) with (Z.abs u * Z.abs u) by nia.
  pose proof (Z.abs_nonneg u) as Hu. generalize dependent (Z.abs u). intros v Hv.
  split; intros H.
  - assert (v * v <= (q - 1) * (q - 1)) by nia. nia.
  - destruct (decide (v <= q - 1)); [done|].
    assert (q * q <= v * v) by nia. nia.
Qed.

Lemma canvas_fillellipse_general {F : Fuel} c x y rx ry col :
  canvas_len c -> coord x -> coord y -> 0 < rx <= 2 ^ 15 -> 0 < ry <= 2 ^ 15 ->
  exists c', canvas_fillellipse c x y rx ry col = Ok c'
    /\ paints (ellipse_disc x y rx ry) col c c'.
Proof.
  intros Hc Hx Hy Hrx Hry. unfold canvas_fillellipse.
  replace ((rx <? 0) || (ry <? 0)) with false by lia.
  replace (rx =? 0) with false by lia. replace (ry =? 0) with false by lia. simpl.
  unfold coord in *.
  assert (Hrx2 : 0 < rx * rx <= 2 ^ 30) by nia.
  assert (Hry2 : 0 < ry * ry <= 2 ^ 30) by nia.
  rewrite !(s64_id (_ * _)) by lia. rewrite (s32_id (- ry)) by lia.
  set (row := fun py canvas =>
     let inside := s64 (rx * rx * s64 (ry * ry - s64 (py * py))) in
     px ← while_ (Z.to_nat (rx + 1) + spare)
       (fun px => s64 (s64 (px * px) * (ry * ry)) <=? inside)
       (fun px => Ok (s32 (px + 1))) 0;
     let px := s32 (px - 1) in
     draw_hline canvas (s32 (y + py)) (s32 (x - px)) (s32 (x + px)) col).
  destruct (for_paints (fun '(py, _) => py <=? ry) row
    (fun py i j => (j =? y + py) && ellipse_disc x y rx ry i j)
    (fun py i j => (j <? y + py) && ellipse_disc x y rx ry i j)
    col (- ry) (ry + 1) (Z.to_nat (2 * ry + 1) + spare) c) as (c' & Hl & HP);
    try lia; try done.
  - intros py c0 Hpy Hc0. unfold row.
    assert (0 <= py * py <= ry * ry) by nia.
    assert (0 <= rx * rx * (ry * ry - py * py) <= rx * rx * (ry * ry)) by nia.
    assert (rx * rx * (ry * ry) <= 2 ^ 30 * 2 ^ 30) by nia.
    rewrite (s64_id (py * py)) by lia. rewrite (s64_id (ry * ry - _)) by lia.
    rewrite (s64_id (rx * rx * _)) by lia.
    destruct (extent_loop rx (ry * ry) (rx * rx * (ry * ry - py * py)) spare)
      as (q & -> & Hq & Hsq); try lia. simpl. wraps.
    destruct (draw_hline_paints c0 (y + py) (x - (q - 1)) (x + (q - 1)) col Hc0)
      as (c1 & -> & HP1).
    exists c1. split; [done|]. eapply paints_ext; [|exact HP1]. intros i j _.
    unfold hseg, ellipse_disc.
    pose proof (square_le_iff (i - x) q (ry * ry) _ ltac:(lia) ltac:(lia) Hsq) as Hiff.
    destruct (Z.eqb_spec j (y + py)) as [->|]; [|done].
    replace (y + py - y) with py by lia. simpl.
    apply eq_true_iff_eq. rewrite !andb_true_iff, !Z.leb_le. lia.
  - intros i j _. unfold ellipse_disc. lia.
  - exists c'. split.
    + erewrite while_ext; [rewrite Hl; done|done|].
      intros [py c0]. unfold row. simpl. by destruct (while_ _ _ _ 0).
    + eapply paints_ext; [|exact HP]. intros i j _. cbv beta.
      unfold ellipse_disc. lia.
Qed.

(** [canvas_fillellipse] with semi-axes of at most 2^15 returns, and
    paints exactly the canvas pixels of the closed ellipse
    [(i-x)^2 ry^2 + (j-y)^2 rx^2 <= rx^2 ry^2], including the degenerate cases
    (a segment or a single pixel). *)
Theorem canvas_fillellipse_exact {F : Fuel} c x y rx ry col :
  canvas_len c -> coord x -> coord y -> 0 <= rx <= 2 ^ 15 -> 0 <= ry <= 2 ^ 15 ->
  exists c', canvas_fillellipse c x y rx ry col = Ok c'
    /\ paints (ellipse_disc x y rx ry) col c c'.
Proof.
  intros Hc Hx Hy Hrx Hry.
  destruct (decide (0 < rx /\ 0 < ry)) as [[H1 H2]|Hz];
    [apply canvas_fillellipse_general; (done || lia)|].
  unfold canvas_fillellipse, coord in *.
  replace ((rx <? 0) || (ry <? 0)) with false by lia.
  destruct (Z.eqb_spec rx 0) as [->|], (Z.eqb_spec ry 0) as [->|]; simpl;
    try lia.
  - destruct (canvas_pixel_paints c x y col Hc) as (c' & -> & HP).
    exists c'. split; [done|]. eapply paints_ext; [|exact HP].
    intros i j _. unfold point, ellipse_disc. nia.
  - rewrite (s32_id (- ry)) by lia.
    destruct (for_paints (fun '(py, _) => py <=? ry)
      (fun py canvas => canvas_pixel canvas x (s32 (y + py)) col)
      (fun py => point x (y + py))
      (fun py i j => (i =? x) && (y - ry <=? j) && (j <? y + py))
      col (- ry) (ry + 1) (Z.to_nat (2 * ry + 1) + spare) c) as (c' & -> & HP);
      try lia; try done.
    + intros py c0 Hpy Hc0. wraps. by apply canvas_pixel_paints.
    + unfold point. lia.
    + simpl. exists c'. split; [done|]. eapply paints_ext; [|exact HP].
      intros i j _. unfold ellipse_disc. destruct (Z.eqb_spec i x) as [->|]; lia.
  - wraps. destruct (draw_hline_paints c y (x - rx) (x + rx) col Hc)
      as (c' & -> & HP).
    exists c'. split; [done|]. eapply paints_ext; [|exact HP].
    intros i j _. unfold hseg, ellipse_disc.
    destruct (Z.eqb_spec j y) as [->|]; lia.
Qed.

Lemma canvas_fillellipse_exact_witness :
  exists c', canvas_fillellipse (F := 0%nat) blank_canvas 100 100 30 12 4 = Ok c'
    /\ paints (ellipse_disc 100 100 30 12) 4 blank_canvas c'.
Proof.
  apply (canvas_fillellipse_exact (F := 0%nat) blank_canvas 100 100 30 12 4);
    [apply blank_canvas_len|unfold coord; lia..].
Defined.
