(* ===== verification/DrawCircle.v ===== *)
(** Correctness of the circles of src/drawlib.c.  The decision variable of the
    loop is shown to be the exact midpoint polynomial, so the outline is within
    half a pixel of the circle and has no gap, and the disc is filled between
    the radii given by [r^2 - r] and [r^2 + r]. *)
From stdpp Require Import base strings numbers list.
From S2P Require Import Prelude Drawlib.
Local Open Scope Z_scope.

Definition any_of (shape : Z -> Z -> Z -> Z -> bool) (pts : list (Z * Z))
    (i j : Z) : bool :=
  existsb (fun '(a, b) => shape a b i j) pts.

Lemma any_of_spec shape pts i j :
  any_of shape pts i j = true <->
  exists a b, (a, b) ∈ pts /\ shape a b i j = true.
Proof.
  unfold any_of. rewrite existsb_exists. split.
  - intros ([a b] & Hin & H). exists a, b. by rewrite list_elem_of_In.
  - intros (a & b & Hin & H). exists (a, b). by rewrite <- list_elem_of_In.
Qed.

Section midpoint.
Context (r : Z) (Hr : 0 <= r <= 2 ^ 28).

(** The octant pixel [(a, b)] is within half a pixel (along x) of the
    circle of radius [r]. *)
Definition octant_pixel (a b : Z) : Prop :=
  0 <= b <= a /\ a <= r /\ a * a - a + b * b <= r * r <= a * a + a + b * b.

(** The exact value of [err] in state [(cx, cy)]. *)
Definition decision (cx cy : Z) : Z :=
  cx * cx - cx + (cy + 1) * (cy + 1) - r * r.

Definition midpoint_inv (cx cy err : Z) : Prop :=
  0 <= cy <= cx + 2 /\ (-1 <= cx <= r /\ 0 <= cx + cy) /\ err = decision cx cy
  /\ r * r <= cx * cx + cx + cy * cy /\ (cy <= cx -> octant_pixel cx cy).

Lemma midpoint_start : midpoint_inv r 0 (1 - r).
Proof. unfold midpoint_inv, octant_pixel, decision. repeat split; nia. Qed.

Lemma midpoint_err_range cx cy err :
  midpoint_inv cx cy err -> cy <= cx -> - 2 ^ 29 - 2 <= err <= 2 ^ 29 + 2.
Proof.
  unfold midpoint_inv, octant_pixel, decision. intros (H1 & H2 & -> & _ & H) Hle.
  specialize (H Hle). nia.
Qed.

(** One update of [(cx, cy, err)] keeps the invariant; [cx] goes down exactly
    when the midpoint is outside the circle. *)
Lemma midpoint_step cx cy err :
  midpoint_inv cx cy err -> cy <= cx ->
  exists cx' err', circle_step cx cy err = (cx', cy + 1, err')
    /\ midpoint_inv cx' (cy + 1) err'
    /\ ((cx' = cx) \/ (cx' = cx - 1 /\ r * r <= cx * cx - cx + (cy + 1) * (cy + 1))).
Proof.
  intros Hinv Hle. pose proof (midpoint_err_range _ _ _ Hinv Hle) as Herr.
  destruct Hinv as (Hcy & Hcx & He & Hlow & Hoct).
  specialize (Hoct Hle). destruct Hoct as (_ & _ & Hhi & _).
  unfold circle_step. rewrite (s32_id (cy + 1)) by lia.
  unfold midpoint_inv, octant_pixel, decision in *. bcase.
  - exists cx, (err + (2 * (cy + 1) + 1)). wraps.
    split; [done|]. split; [repeat split; nia|by left].
  - exists (cx - 1), (err + (2 * (cy + 1 - (cx - 1)) + 1)). wraps.
    split; [done|]. split; [repeat split; nia|right; nia].
Qed.

Context (col : Z) (draw : Z -> Z -> list Z -> res (list Z)).
Context (shape : Z -> Z -> Z -> Z -> bool).
Context (Hdraw : forall a b c, octant_pixel a b -> canvas_len c ->
  exists c', draw a b c = Ok c' /\ paints (shape a b) col c c').

(** What the loop has drawn when it is in state [(cx, cy, _)]: one octant
    pixel for every row below [cy], and, for every column it has left, the
    last row of that column. *)
Definition octant (pts : list (Z * Z)) (cx cy : Z) : Prop :=
  (forall a b, (a, b) ∈ pts -> octant_pixel a b)
  /\ (forall k, 0 <= k < cy -> exists a, (a, k) ∈ pts)
  /\ (forall v, cx < v <= r ->
        exists b, (v, b) ∈ pts /\ r * r <= v * v - v + (b + 1) * (b + 1)).

Lemma octant_step pts cx cy cx' :
  octant pts cx cy -> octant_pixel cx cy ->
  cx' = cx \/ (cx' = cx - 1 /\ r * r <= cx * cx - cx + (cy + 1) * (cy + 1)) ->
  octant ((cx, cy) :: pts) cx' (cy + 1).
Proof.
  intros (H1 & H2 & H3) Hpix Hx. split; [|split].
  - intros a b [[= -> ->]|?]%elem_of_cons; auto.
  - intros k Hk. destruct (decide (k = cy)) as [->|].
    + exists cx. rewrite elem_of_cons. auto.
    + destruct (H2 k) as [a Ha]; [lia|]. exists a. rewrite elem_of_cons. auto.
  - intros v Hv. destruct (decide (v = cx)) as [->|].
    + exists cy. rewrite elem_of_cons. split; [auto|lia].
    + destruct (H3 v) as (b & Hb & Hle); [lia|]. exists b. rewrite elem_of_cons. auto.
Qed.

Lemma midpoint_loop k c :
  canvas_len c ->
  exists pts st c',
    while_ (Z.to_nat (r + 1) + k) (fun '((cx, cy, _), _) => cy <=? cx)
      (fun '((cx, cy, err), canvas) =>
         canvas ← draw cx cy canvas; Ok (circle_step cx cy err, canvas))
      ((r, 0, s32 (1 - r)), c) = Ok (st, c')
    /\ paints (any_of shape pts) col c c'
    /\ (forall a b, (a, b) ∈ pts -> octant_pixel a b)
    /\ (forall k, 0 <= k -> 2 * (k * k) <= r * r -> exists a, (a, k) ∈ pts)
    /\ (forall v, 0 <= v <= r -> (exists a, (a, v) ∈ pts) \/
          exists b, (v, b) ∈ pts /\ r * r <= v * v - v + (b + 1) * (b + 1)).
Proof.
  intros Hc.
  destruct (while_rule (fun '((cx, cy, _), _) => cy <=? cx)
    (fun '((cx, cy, err), canvas) =>
       canvas ← draw cx cy canvas; Ok (circle_step cx cy err, canvas))
    (fun '((cx, cy, err), c') => midpoint_inv cx cy err /\
       exists pts, paints (any_of shape pts) col c c' /\ octant pts cx cy)
    (fun '((_, cy, _), _) => r + 1 - cy) (Z.to_nat (r + 1) + k)
    ((r, 0, s32 (1 - r)), c))
    as ([[[cx cy] err] c'] & Hw & (Hinv & pts & HP & Hoct) & Hend).
  - rewrite s32_id by lia. split; [apply midpoint_start|].
    exists []. split; [apply paints_refl|].
    split; [intros a b []%not_elem_of_nil|split; intros; lia].
  - intros [[[cx cy] err] c'] [Hinv _] Hle. unfold midpoint_inv in Hinv. lia.
  - lia.
  - intros [[[cx cy] err] c'] [Hinv (pts & HP & Hoct)] Hle.
    apply Z.leb_le in Hle.
    assert (Hpix : octant_pixel cx cy) by (by apply Hinv).
    destruct (Hdraw cx cy c') as (c'' & Hd & HP');
      [done|by eapply paints_len|].
    destruct (midpoint_step _ _ _ Hinv Hle) as (cx' & err' & Hs & Hinv' & Hx).
    exists ((cx', cy + 1, err'), c''). rewrite Hd; simpl. rewrite Hs.
    split; [done|]. split; [|lia]. split; [done|].
    exists ((cx, cy) :: pts). split; [|by apply octant_step].
    eapply paints_ext; [|by eapply paints_trans].
    intros i j _. unfold either. apply orb_comm.
  - exists pts, (cx, cy, err), c'.
    destruct Hinv as (Hcy & Hcx & _ & Hlow & _). destruct Hoct as (H1 & H2 & H3).
    apply Z.leb_gt in Hend.
    split; [done|]. split; [done|]. split; [done|]. split.
    + intros row Hk Hsq. apply H2. split; [done|].
      destruct (decide (row < cy)) as [|Hge]; [done|].
      assert (cy * cy <= row * row) by nia. nia.
    + intros v Hv. destruct (decide (v <= cx)) as [Hle|Hgt].
      * left. apply H2. lia.
      * right. apply H3. lia.
Qed.
End midpoint.

(** The eight images of the octant pixel [(a, b)] about the centre. *)
Definition eight (x y a b i j : Z) : bool :=
  ((Z.abs (i - x) =? a) && (Z.abs (j - y) =? b))
  || ((Z.abs (i - x) =? b) && (Z.abs (j - y) =? a)).

(** The four spans [canvas_fillcircle] draws for [(a, b)]. *)
Definition spans (x y a b i j : Z) : bool :=
  ((Z.abs (j - y) =? b) && (Z.abs (i - x) <=? a))
  || ((Z.abs (j - y) =? a) && (Z.abs (i - x) <=? b)).

(** Find the disjunct of the goal that [lia] proves. *)
Ltac pick := first [ solve [split; lia] | left; pick | right; pick ].

Lemma eight_pixels_paint x y r col a b c :
  coord x -> coord y -> 0 <= r <= 2 ^ 28 -> octant_pixel r a b -> canvas_len c ->
  exists c',
    (canvas ← canvas_pixel c (s32 (x + a)) (s32 (y + b)) col;
     canvas ← canvas_pixel canvas (s32 (x + b)) (s32 (y + a)) col;
     canvas ← canvas_pixel canvas (s32 (x - b)) (s32 (y + a)) col;
     canvas ← canvas_pixel canvas (s32 (x - a)) (s32 (y + b)) col;
     canvas ← canvas_pixel canvas (s32 (x - a)) (s32 (y - b)) col;
     canvas ← canvas_pixel canvas (s32 (x - b)) (s32 (y - a)) col;
     canvas ← canvas_pixel canvas (s32 (x + b)) (s32 (y - a)) col;
     canvas_pixel canvas (s32 (x + a)) (s32 (y - b)) col) = Ok c'
    /\ paints (eight x y a b) col c c'.
Proof.
  unfold coord, octant_pixel. intros Hx Hy Hr (Hb & Ha & _) Hc. wraps.
  destruct (canvas_pixel_paints c (x + a) (y + b) col Hc) as (c1 & -> & P1).
  pose proof (paints_len _ _ _ _ Hc P1) as L1. simpl.
  destruct (canvas_pixel_paints c1 (x + b) (y + a) col L1) as (c2 & -> & P2).
  pose proof (paints_len _ _ _ _ L1 P2) as L2. simpl.
  destruct (canvas_pixel_paints c2 (x - b) (y + a) col L2) as (c3 & -> & P3).
  pose proof (paints_len _ _ _ _ L2 P3) as L3. simpl.
  destruct (canvas_pixel_paints c3 (x - a) (y + b) col L3) as (c4 & -> & P4).
  pose proof (paints_len _ _ _ _ L3 P4) as L4. simpl.
  destruct (canvas_pixel_paints c4 (x - a) (y - b) col L4) as (c5 & -> & P5).
  pose proof (paints_len _ _ _ _ L4 P5) as L5. simpl.
  destruct (canvas_pixel_paints c5 (x - b) (y - a) col L5) as (c6 & -> & P6).
  pose proof (paints_len _ _ _ _ L5 P6) as L6. simpl.
  destruct (canvas_pixel_paints c6 (x + b) (y - a) col L6) as (c7 & -> & P7).
  pose proof (paints_len _ _ _ _ L6 P7) as L7. simpl.
  destruct (canvas_pixel_paints c7 (x + a) (y - b) col L7) as (c8 & -> & P8).
  exists c8. split; [done|].
  pose proof (paints_trans _ _ _ _ _ _ (paints_trans _ _ _ _ _ _ P1 P2)
    (paints_trans _ _ _ _ _ _ P3 P4)) as Q1.
  pose proof (paints_trans _ _ _ _ _ _ (paints_trans _ _ _ _ _ _ P5 P6)
    (paints_trans _ _ _ _ _ _ P7 P8)) as Q2.
  eapply paints_ext; [|exact (paints_trans _ _ _ _ _ _ Q1 Q2)].
  intros i j _. apply eq_true_iff_eq. unfold either, point, eight.
  rewrite !orb_true_iff, !andb_true_iff, !Z.eqb_eq. split.
  - intros H. destruct_or!; lia.
  - intros H. destruct (Z.abs_spec (i - x)) as [[_ E1]|[_ E1]],
      (Z.abs_spec (j - y)) as [[_ E2]|[_ E2]]; rewrite E1, E2 in H;
      destruct H as [[H1 H2]|[H1 H2]]; pick.
Qed.

Lemma four_spans_paint x y r col a b c :
  coord x -> coord y -> 0 <= r <= 2 ^ 28 -> octant_pixel r a b -> canvas_len c ->
  exists c',
    (canvas ← draw_hline c (s32 (y + b)) (s32 (x - a)) (s32 (x + a)) col;
     canvas ← draw_hline canvas (s32 (y - b)) (s32 (x - a)) (s32 (x + a)) col;
     canvas ← draw_hline canvas (s32 (y + a)) (s32 (x - b)) (s32 (x + b)) col;
     draw_hline canvas (s32 (y - a)) (s32 (x - b)) (s32 (x + b)) col) = Ok c'
    /\ paints (spans x y a b) col c c'.
Proof.
  unfold coord, octant_pixel. intros Hx Hy Hr (Hb & Ha & _) Hc. wraps.
  destruct (draw_hline_paints c (y + b) (x - a) (x + a) col Hc) as (c1 & -> & P1).
  pose proof (paints_len _ _ _ _ Hc P1) as L1. simpl.
  destruct (draw_hline_paints c1 (y - b) (x - a) (x + a) col L1) as (c2 & -> & P2).
  pose proof (paints_len _ _ _ _ L1 P2) as L2. simpl.
  destruct (draw_hline_paints c2 (y + a) (x - b) (x + b) col L2) as (c3 & -> & P3).
  pose proof (paints_len _ _ _ _ L2 P3) as L3. simpl.
  destruct (draw_hline_paints c3 (y - a) (x - b) (x + b) col L3) as (c4 & -> & P4).
  exists c4. split; [done|].
  eapply paints_ext; [|exact (paints_trans _ _ _ _ _ _
    (paints_trans _ _ _ _ _ _ P1 P2) (paints_trans _ _ _ _ _ _ P3 P4))].
  intros i j _. unfold either, hseg, spans. lia.
Qed.

(** [canvas_circle] returns for every radius up to 2^28; every pixel it
    paints is within half a pixel of the circle; the painted set is symmetric
    under the reflections of the square about the centre; and it has no gap:
    every row offset [k] of the first octant ([2 k^2 <= r^2]) has a painted
    pixel at or right of the diagonal. *)
Theorem canvas_circle_ring {F : Fuel} c x y r col :
  canvas_len c -> coord x -> coord y -> 0 <= r <= 2 ^ 28 ->
  exists P c', canvas_circle c x y r col = Ok c' /\ paints P col c c'
    /\ (forall i j, P i j = true ->
          Z.abs ((i - x) * (i - x) + (j - y) * (j - y) - r * r)
            <= Z.max (Z.abs (i - x)) (Z.abs (j - y)))
    /\ (forall u v, P (x + u) (y + v) = P (x - u) (y + v)
          /\ P (x + u) (y + v) = P (x + u) (y - v)
          /\ P (x + u) (y + v) = P (x + v) (y + u))
    /\ (forall k, 0 <= k -> 2 * (k * k) <= r * r ->
          exists a, k <= a /\ P (x + a) (y + k) = true).
Proof.
  intros Hc Hx Hy Hr. unfold canvas_circle.
  replace (r <? 0) with false by lia.
  destruct (midpoint_loop r Hr col _ (eight x y)
    (fun a b c => eight_pixels_paint x y r col a b c Hx Hy Hr) spare c Hc)
    as (pts & st & c' & Hl & HP & Hpix & Hrows & _).
  exists (any_of (eight x y) pts), c'. split; [|split; [done|split; [|split]]].
  - erewrite while_ext; [by rewrite Hl|done|]. intros [[[cx cy] err] c0].
    simpl. repeat (destruct (canvas_pixel _ _ _ _); simpl; try done).
  - intros i j (a & b & Hin & He)%any_of_spec. apply Hpix in Hin.
    unfold octant_pixel, eight in *.
    replace ((i - x) * (i - x)) with (Z.abs (i - x) * Z.abs (i - x)) by nia.
    replace ((j - y) * (j - y)) with (Z.abs (j - y) * Z.abs (j - y)) by nia.
    apply orb_true_iff in He as [He|He]; apply andb_true_iff in He as
      [->%Z.eqb_eq ->%Z.eqb_eq]; lia.
  - intros u v.
    assert (Hs : forall i j i' j', (forall a b, eight x y a b i j = eight x y a b i' j')
       -> any_of (eight x y) pts i j = any_of (eight x y) pts i' j').
    { intros i j i' j' H. unfold any_of. clear -H.
      induction pts as [|[a b] pts IH]; simpl; [done|]. by rewrite H, IH. }
    split; [|split]; apply Hs; intros a b; unfold eight; lia.
  - intros k Hk Hsq. destruct (Hrows k Hk Hsq) as [a Ha]. exists a.
    pose proof (Hpix _ _ Ha) as Hp. unfold octant_pixel in Hp. split; [lia|].
    apply any_of_spec. exists a, k. split; [done|]. unfold eight. lia.
Qed.

Lemma spans_inside x y r a b i j :
  octant_pixel r a b -> spans x y a b i j = true ->
  (i - x) * (i - x) + (j - y) * (j - y) <= r * r + r.
Proof.
  unfold octant_pixel, spans. intros (Hb & Ha & Hlo & _) H.
  replace ((i - x) * (i - x)) with (Z.abs (i - x) * Z.abs (i - x)) by nia.
  replace ((j - y) * (j - y)) with (Z.abs (j - y) * Z.abs (j - y)) by nia.
  pose proof (Z.abs_nonneg (i - x)) as Hu.
  generalize dependent (Z.abs (i - x)). generalize dependent (Z.abs (j - y)).
  intros v u H Hu.
  apply orb_true_iff in H as [H|H]; apply andb_true_iff in H as
    [->%Z.eqb_eq H%Z.leb_le]; nia.
Qed.

(** [canvas_fillcircle] returns for every radius up to 2^28; it paints
    every canvas pixel with [d^2 <= r^2 - r], no pixel with [d^2 > r^2 + r]
    ([d] the distance from the centre: the disc is filled without holes and
    its rim is off by less than one pixel), and changes nothing else. *)
Theorem canvas_fillcircle_disc {F : Fuel} c x y r col :
  canvas_len c -> coord x -> coord y -> 0 <= r <= 2 ^ 28 ->
  exists P c', canvas_fillcircle c x y r col = Ok c' /\ paints P col c c'
    /\ forall i j,
         ((i - x) * (i - x) + (j - y) * (j - y) <= r * r - r -> P i j = true)
         /\ (r * r + r < (i - x) * (i - x) + (j - y) * (j - y) -> P i j = false).
Proof.
  intros Hc Hx Hy Hr. unfold canvas_fillcircle.
  replace (r <? 0) with false by lia.
  destruct (midpoint_loop r Hr col _ (spans x y)
    (fun a b c => four_spans_paint x y r col a b c Hx Hy Hr) spare c Hc)
    as (pts & st & c' & Hl & HP & Hpix & Hrows & Hcols).
  exists (any_of (spans x y) pts), c'. split; [|split; [done|]].
  - erewrite while_ext; [by rewrite Hl|done|]. intros [[[cx cy] err] c0].
    simpl. repeat (destruct (draw_hline _ _ _ _ _); simpl; try done).
  - intros i j. split; intros Hd.
    + apply any_of_spec.
      assert (Hd' : Z.abs (i - x) * Z.abs (i - x) + Z.abs (j - y) * Z.abs (j - y)
                <= r * r - r) by nia.
      assert (Hspan : forall a b,
        (a, b) ∈ pts ->
        (Z.abs (j - y) = b /\ Z.abs (i - x) <= a) \/
        (Z.abs (j - y) = a /\ Z.abs (i - x) <= b) ->
        exists a b, (a, b) ∈ pts /\ spans x y a b i j = true).
      { intros a b Hin H. exists a, b. split; [done|]. unfold spans. lia. }
      pose proof (Z.abs_nonneg (i - x)) as Hu. pose proof (Z.abs_nonneg (j - y)) as Hv.
      set (u := Z.abs (i - x)) in *. set (v := Z.abs (j - y)) in *.
      clearbody u v. clear Hd.
      assert (Hvr : v <= r) by nia.
      destruct (Hcols v ltac:(lia)) as [[a Ha]|(b & Hb & Hlast)].
      * apply (Hspan a v Ha). left. split; [done|].
        pose proof (Hpix _ _ Ha) as (Ha0 & Har & _ & Hlow).
        assert (u * u <= a * a) by lia. nia.
      * apply (Hspan v b Hb). right. split; [done|].
        pose proof (Hpix _ _ Hb) as (Hb0 & _).
        destruct (decide (r = 0)) as [->|]; [nia|].
        assert (u * u < (b + 1) * (b + 1)) by lia. nia.
    + apply not_true_is_false. intros (a & b & Hin & Hs)%any_of_spec.
      pose proof (spans_inside x y r a b i j (Hpix _ _ Hin) Hs). lia.
Qed.

Lemma canvas_circle_ring_witness :
  exists P c', canvas_circle (F := 0%nat) blank_canvas 160 100 40 9 = Ok c'
    /\ paints P 9 blank_canvas c' /\ exists a, 10 <= a /\ P (160 + a) (100 + 10) = true.
Proof.
  destruct (canvas_circle_ring (F := 0%nat) blank_canvas 160 100 40 9)
    as (P & c' & Hl & HP & _ & _ & Hrows);
    [apply blank_canvas_len|unfold coord; lia..|].
  exists P, c'. split; [exact Hl|]. split; [exact HP|]. apply Hrows; lia.
Defined.

Lemma canvas_fillcircle_disc_witness :
  exists P c', canvas_fillcircle (F := 0%nat) blank_canvas 160 100 40 9 = Ok c'
    /\ paints P 9 blank_canvas c' /\ P 165 110 = true /\ P 210 100 = false.
Proof.
  destruct (canvas_fillcircle_disc (F := 0%nat) blank_canvas 160 100 40 9)
    as (P & c' & Hl & HP & Hd);
    [apply blank_canvas_len|unfold coord; lia..|].
  exists P, c'. split; [exact Hl|]. split; [exact HP|]. split; apply Hd; lia.
Defined.
