(* ===== verification/AiDraw.v ===== *)
(** Model of src/aidraw.c: the parser and interpreter of the drawing commands
    the host returns, and the assembly of the prompt.  A cursor into a line is
    the rest of the line; a routine that returns -1 returns [None] where its
    caller only tests for failure. *)
From stdpp Require Import base strings numbers list.
From S2P Require Import Prelude CString Printf Drawlib.
Local Open Scope Z_scope.

Definition AI_RESPONSE_MAX : Z := 32768.
Definition AI_PROMPT_MAX : Z := 512.

Definition is_blank (c : Z) : bool := (c =? 32) || (c =? 9).

Fixpoint skip_spaces (cursor : list Z) : list Z :=
  match cursor with
  | c :: rest => if is_blank c then skip_spaces rest else cursor
  | [] => []
  end.

Definition line_done (cursor : list Z) : bool := cur (skip_spaces cursor) =? 0.

(** The cursor after [name], if the line starts with [name] followed by the
    end of the line or a blank. *)
Definition match_command (cursor name : list Z) : option (list Z) :=
  let len := length name in
  if negb (strncmp cursor name len =? 0) then None else
  let c := cur (drop len cursor) in
  if negb (c =? 0) && negb (c =? 32) && negb (c =? 9) then None
  else Some (drop len cursor).

Fixpoint parse_digits (cursor : list Z) (result : Z) (saw_digit : bool)
    : list Z * Z * bool :=
  match cursor with
  | c :: rest =>
      if is_digit c then
        parse_digits rest (s32 (s32 (result * 10) + s32 (c - 48))) true
      else (cursor, result, saw_digit)
  | [] => (cursor, result, saw_digit)
  end.

Definition parse_int (cursor : list Z) : option (Z * list Z) :=
  let cursor := skip_spaces cursor in
  let '(sign, cursor) := if cur cursor =? 45 then (-1, tail cursor)
                         else (1, cursor) in
  let '(cursor, result, saw_digit) := parse_digits cursor 0 false in
  if negb saw_digit then None else Some (s32 (sign * result), cursor).

(** [parse_int(&cursor, &v1) < 0 || ... || parse_int(&cursor, &vn) < 0],
    evaluated left to right. *)
Fixpoint parse_ints (n : nat) (cursor : list Z) : option (list Z * list Z) :=
  match n with
  | O => Some ([], cursor)
  | S n =>
      '(v, cursor) ← parse_int cursor;
      '(vs, cursor) ← parse_ints n cursor;
      Some (v :: vs, cursor)
  end.

(** The test of every fixed-arity command: [n] integers, then the end of the
    line. *)
Definition parse_args (n : nat) (cursor : list Z) : option (list Z) :=
  '(vs, cursor) ← parse_ints n cursor;
  if line_done cursor then Some vs else None.

(** The [count] coordinate pairs of a polygon: the integers alternate. *)
Fixpoint parse_points (n : nat) (cursor : list Z)
    : option (list Z * list Z * list Z) :=
  match n with
  | O => Some ([], [], cursor)
  | S n =>
      '(x, cursor) ← parse_int cursor;
      '(y, cursor) ← parse_int cursor;
      '(xs, ys, cursor) ← parse_points n cursor;
      Some (x :: xs, y :: ys, cursor)
  end.

(** The result of [parse_line]: the return code, the canvas and [*saw_end]. *)
Record outcome : Type := mkOutcome { rc : Z; canvas_of : list Z; saw_end : Z }.

Definition reject (canvas : list Z) : res outcome := Ok (mkOutcome (-1) canvas 0).
Definition accept (r : res (list Z)) : res outcome :=
  canvas ← r; Ok (mkOutcome 0 canvas 0).

(** The local arrays [xs] and [ys] have [POLYGON_MAX_POINTS] elements, so the
    bound on [count] is what keeps the stores inside them; the elements past
    [count] are never read. *)
Definition parse_polygon {F : Fuel} (cursor canvas : list Z) (filled : bool)
    : res outcome :=
  match parse_int cursor with
  | None => reject canvas
  | Some (count, cursor) =>
      if (count <? 3) || (POLYGON_MAX_POINTS <? count) then reject canvas else
      match parse_points (Z.to_nat count) cursor with
      | None => reject canvas
      | Some (xs, ys, cursor) =>
          match parse_int cursor with
          | None => reject canvas
          | Some (color, cursor) =>
              if negb (line_done cursor) then reject canvas else
              accept (if filled
                      then canvas_fillpolygon canvas xs ys count (u8 color)
                      else canvas_polygon canvas xs ys count (u8 color))
          end
      end
  end.

(** One line of the response. *)
Definition parse_line {F : Fuel} (canvas line : list Z) : res outcome :=
  let cursor := skip_spaces line in
  if cur cursor =? 0 then Ok (mkOutcome 0 canvas 0) else
  match match_command cursor (cstr "END") with
  | Some cursor =>
      if negb (line_done cursor) then reject canvas
      else Ok (mkOutcome 0 canvas 1)
  | None =>
  match match_command cursor (cstr "CLEAR") with
  | Some cursor =>
      match parse_args 1 cursor with
      | Some [a] => accept (canvas_clear canvas (u8 a))
      | _ => reject canvas
      end
  | None =>
  match match_command cursor (cstr "PIXEL") with
  | Some cursor =>
      match parse_args 3 cursor with
      | Some [a; b; c] => accept (canvas_pixel canvas a b (u8 c))
      | _ => reject canvas
      end
  | None =>
  match match_command cursor (cstr "LINE") with
  | Some cursor =>
      match parse_args 5 cursor with
      | Some [a; b; c; d; e] => accept (canvas_line canvas a b c d (u8 e))
      | _ => reject canvas
      end
  | None =>
  match match_command cursor (cstr "RECT") with
  | Some cursor =>
      match parse_args 5 cursor with
      | Some [a; b; c; d; e] => accept (canvas_rect canvas a b c d (u8 e))
      | _ => reject canvas
      end
  | None =>
  match match_command cursor (cstr "FILLRECT") with
  | Some cursor =>
      match parse_args 5 cursor with
      | Some [a; b; c; d; e] => accept (canvas_fillrect canvas a b c d (u8 e))
      | _ => reject canvas
      end
  | None =>
  match match_command cursor (cstr "CIRCLE") with
  | Some cursor =>
      match parse_args 4 cursor with
      | Some [a; b; c; d] => accept (canvas_circle canvas a b c (u8 d))
      | _ => reject canvas
      end
  | None =>
  match match_command cursor (cstr "FILLCIRCLE") with
  | Some cursor =>
      match parse_args 4 cursor with
      | Some [a; b; c; d] => accept (canvas_fillcircle canvas a b c (u8 d))
      | _ => reject canvas
      end
  | None =>
  match match_command cursor (cstr "TRIANGLE") with
  | Some cursor =>
      match parse_args 7 cursor with
      | Some [a; b; c; d; e; f; g] =>
          accept (canvas_triangle canvas a b c d e f (u8 g))
      | _ => reject canvas
      end
  | None =>
  match match_command cursor (cstr "FILLTRIANGLE") with
  | Some cursor =>
      match parse_args 7 cursor with
      | Some [a; b; c; d; e; f; g] =>
          accept (canvas_filltriangle canvas a b c d e f (u8 g))
      | _ => reject canvas
      end
  | None =>
  match match_command cursor (cstr "ELLIPSE") with
  | Some cursor =>
      match parse_args 5 cursor with
      | Some [a; b; c; d; e] => accept (canvas_ellipse canvas a b c d (u8 e))
      | _ => reject canvas
      end
  | None =>
  match match_command cursor (cstr "FILLELLIPSE") with
  | Some cursor =>
      match parse_args 5 cursor with
      | Some [a; b; c; d; e] => accept (canvas_fillellipse canvas a b c d (u8 e))
      | _ => reject canvas
      end
  | None =>
  match match_command cursor (cstr "POLYGON") with
  | Some cursor => parse_polygon cursor canvas false
  | None =>
  match match_command cursor (cstr "FILLPOLYGON") with
  | Some cursor => parse_polygon cursor canvas true
  | None => reject canvas
  end end end end end end end end end end end end end end.

(** [join_prompt(argc, argv, prompt)]: the words are copied into
    [char prompt[AI_PROMPT_MAX]].  [None] is the return value -1; [Some] holds
    the buffer. *)
Definition copy_word (prompt : list Z) (len : Z) (word : list Z)
    : res (list Z * Z) :=
  '(_, prompt, len) ← while_ (length word)
    (fun '(j, _, _) => j <? strlen word)
    (fun '(j, prompt, len) =>
       c ← buf_get word j;
       prompt ← buf_set prompt len c;
       Ok (j + 1, prompt, len + 1))
    (0, prompt, len);
  Ok (prompt, len).

Fixpoint join_words (i : nat) (words : list (list Z)) (prompt : list Z) (len : Z)
    : res (option (list Z)) :=
  match words with
  | [] => prompt ← buf_set prompt len 0; Ok (Some prompt)
  | word :: words =>
      let word_len := strlen word in
      st ← (if bool_decide (1 < i)%nat then
              if AI_PROMPT_MAX <=? len + 1 then Ok None
              else prompt ← buf_set prompt len 32; Ok (Some (prompt, len + 1))
            else Ok (Some (prompt, len)));
      match st with
      | None => Ok None
      | Some (prompt, len) =>
          if AI_PROMPT_MAX <=? len + word_len then Ok None else
          '(prompt, len) ← copy_word prompt len word;
          join_words (S i) words prompt len
      end
  end.

(** [argv] without [argv[0]]; [prompt] is the caller's array. *)
Definition join_prompt (argv : list (list Z)) (prompt : list Z)
    : res (option (list Z)) :=
  prompt ← buf_set prompt 0 0;
  join_words 1 argv prompt 0.

(** The command loop of [main]: lines up to [END].  [inl line] is the exit on
    an invalid command, [inr] carries the canvas and [saw_end]. *)
Fixpoint take_line (s : list Z) : list Z * option (list Z) :=
  match s with
  | [] => ([], None)
  | c :: s => if c =? 10 then ([], Some s)
              else let '(l, next) := take_line s in (c :: l, next)
  end.

Fixpoint run_lines {F : Fuel} (fuel : nat) (canvas line : list Z)
    : res (list Z + list Z * bool) :=
  match line with
  | [] => Ok (inr (canvas, false))
  | _ =>
      match fuel with
      | O => NoFuel
      | S fuel =>
          let '(text, next) := take_line line in
          o ← parse_line canvas text;
          if rc o <? 0 then Ok (inl text) else
          if saw_end o =? 1 then Ok (inr (canvas_of o, true)) else
          match next with
          | None => Ok (inr (canvas_of o, false))
          | Some line => run_lines fuel (canvas_of o) line
          end
      end
  end.

Definition render {F : Fuel} (canvas response : list Z) : res (list Z + list Z * bool) :=
  canvas ← canvas_clear canvas 0;
  run_lines (S (length response)) canvas response.

(** * The command language

    The abstract syntax of the drawing language, its concrete text (integers
    written as [printf("%d")] writes them) and its meaning on a canvas. *)
Inductive command : Type :=
  | CLEAR (color : Z)
  | PIXEL (x y color : Z)
  | LINE (x1 y1 x2 y2 color : Z)
  | RECT (x y w h color : Z)
  | FILLRECT (x y w h color : Z)
  | CIRCLE (x y radius color : Z)
  | FILLCIRCLE (x y radius color : Z)
  | TRIANGLE (x1 y1 x2 y2 x3 y3 color : Z)
  | FILLTRIANGLE (x1 y1 x2 y2 x3 y3 color : Z)
  | ELLIPSE (x y rx ry color : Z)
  | FILLELLIPSE (x y rx ry color : Z)
  | POLYGON (pts : list (Z * Z)) (color : Z)
  | FILLPOLYGON (pts : list (Z * Z)) (color : Z).

Definition poly_args (pts : list (Z * Z)) (color : Z) : list Z :=
  Z.of_nat (length pts) :: concat (map (fun '(x, y) => [x; y]) pts) ++ [color].

Definition command_args (cmd : command) : list Z :=
  match cmd with
  | CLEAR c => [c]
  | PIXEL x y c => [x; y; c]
  | LINE a b c d e | RECT a b c d e | FILLRECT a b c d e
  | ELLIPSE a b c d e | FILLELLIPSE a b c d e => [a; b; c; d; e]
  | CIRCLE x y r c | FILLCIRCLE x y r c => [x; y; r; c]
  | TRIANGLE a b c d e f g | FILLTRIANGLE a b c d e f g => [a; b; c; d; e; f; g]
  | POLYGON pts c | FILLPOLYGON pts c => poly_args pts c
  end.

Definition command_name (cmd : command) : string :=
  match cmd with
  | CLEAR _ => "CLEAR" | PIXEL _ _ _ => "PIXEL" | LINE _ _ _ _ _ => "LINE"
  | RECT _ _ _ _ _ => "RECT" | FILLRECT _ _ _ _ _ => "FILLRECT"
  | CIRCLE _ _ _ _ => "CIRCLE" | FILLCIRCLE _ _ _ _ => "FILLCIRCLE"
  | TRIANGLE _ _ _ _ _ _ _ => "TRIANGLE"
  | FILLTRIANGLE _ _ _ _ _ _ _ => "FILLTRIANGLE"
  | ELLIPSE _ _ _ _ _ => "ELLIPSE" | FILLELLIPSE _ _ _ _ _ => "FILLELLIPSE"
  | POLYGON _ _ => "POLYGON" | FILLPOLYGON _ _ => "FILLPOLYGON"
  end.

Definition show_int (v : Z) : list Z :=
  match print_d v with Ok ds => ds | _ => [] end.
Definition show_args (vs : list Z) : list Z :=
  concat (map (fun v => 32 :: show_int v) vs).
Definition show_command (cmd : command) : list Z :=
  cstr (command_name cmd) ++ show_args (command_args cmd).

Definition exec {F : Fuel} (cmd : command) (c : list Z) : res (list Z) :=
  match cmd with
  | CLEAR k => canvas_clear c (u8 k)
  | PIXEL x y k => canvas_pixel c x y (u8 k)
  | LINE x1 y1 x2 y2 k => canvas_line c x1 y1 x2 y2 (u8 k)
  | RECT x y w h k => canvas_rect c x y w h (u8 k)
  | FILLRECT x y w h k => canvas_fillrect c x y w h (u8 k)
  | CIRCLE x y r k => canvas_circle c x y r (u8 k)
  | FILLCIRCLE x y r k => canvas_fillcircle c x y r (u8 k)
  | TRIANGLE x1 y1 x2 y2 x3 y3 k => canvas_triangle c x1 y1 x2 y2 x3 y3 (u8 k)
  | FILLTRIANGLE x1 y1 x2 y2 x3 y3 k =>
      canvas_filltriangle c x1 y1 x2 y2 x3 y3 (u8 k)
  | ELLIPSE x y rx ry k => canvas_ellipse c x y rx ry (u8 k)
  | FILLELLIPSE x y rx ry k => canvas_fillellipse c x y rx ry (u8 k)
  | POLYGON pts k =>
      canvas_polygon c (map fst pts) (map snd pts) (Z.of_nat (length pts)) (u8 k)
  | FILLPOLYGON pts k =>
      canvas_fillpolygon c (map fst pts) (map snd pts) (Z.of_nat (length pts)) (u8 k)
  end.

Fixpoint exec_all {F : Fuel} (cmds : list command) (c : list Z) : res (list Z) :=
  match cmds with
  | [] => Ok c
  | cmd :: cmds => c ← exec cmd c; exec_all cmds c
  end.

(** The response text of a program. *)
Definition show_program (cmds : list command) : list Z :=
  concat (map (fun cmd => show_command cmd ++ [10]) cmds) ++ cstr "END" ++ [10].

(** The arguments are [int]s and a polygon has 3 to 16 vertices. *)
Definition wf_command (cmd : command) : Prop :=
  Forall is_s32 (command_args cmd) /\
  match cmd with
  | POLYGON pts _ | FILLPOLYGON pts _ => (3 <= length pts <= 16)%nat
  | _ => True
  end.

(** * Round trip *)

Lemma is_digit_not_blank c : is_digit c = true -> is_blank c = false.
Proof. unfold is_digit, is_blank. lia. Qed.

Lemma fold_dec_mod ds a b :
  a mod 2 ^ 32 = b mod 2 ^ 32 ->
  fold_left (fun a d => a * 10 + (d - 48)) ds a mod 2 ^ 32
  = fold_left (fun a d => a * 10 + (d - 48)) ds b mod 2 ^ 32.
Proof.
  revert a b. induction ds as [|d ds IH]; intros a b H; [done|]. simpl.
  apply IH. rewrite <- Zplus_mod_idemp_l, <- (Zplus_mod_idemp_l (b * 10)).
  rewrite <- Zmult_mod_idemp_l, <- (Zmult_mod_idemp_l b). by rewrite H.
Qed.

(** Reading digits: the accumulator wraps at every step, so it is the value
    modulo 2^32. *)
Lemma parse_digits_val ds rest acc b :
  Forall (fun c => is_digit c = true) ds -> is_digit (cur rest) = false ->
  ds <> [] \/ b = true ->
  exists r, parse_digits (ds ++ rest) acc b = (rest, r, true)
    /\ (is_s32 acc -> is_s32 r)
    /\ r mod 2 ^ 32
       = fold_left (fun a d => a * 10 + (d - 48)) ds acc mod 2 ^ 32.
Proof.
  revert acc b. induction ds as [|d ds IH]; intros acc b Hd Hr Hb.
  - destruct Hb as [ | -> ]; [done|]. exists acc. split; [|done].
    destruct rest as [|c rest]; [done|]. simpl in *. by rewrite Hr.
  - apply Forall_cons in Hd as [Hd0 Hd]. simpl. rewrite Hd0.
    destruct (IH (s32 (s32 (acc * 10) + s32 (d - 48))) true Hd Hr)
      as (r & -> & Hrange & Hr'); [by right|].
    exists r. split; [done|]. split; [intros _; apply Hrange, s32_range|].
    rewrite Hr'. apply fold_dec_mod. rewrite s32_mod.
    by rewrite <- Zplus_mod_idemp_l, <- Zplus_mod_idemp_r, !s32_mod,
      Zplus_mod_idemp_l, Zplus_mod_idemp_r.
Qed.

Lemma skip_spaces_id s : is_blank (cur s) = false -> skip_spaces s = s.
Proof. destruct s as [|c s]; [done|]. simpl. by intros ->. Qed.

Lemma cur_app_digit ds rest :
  Forall (fun c => is_digit c = true) ds -> ds <> [] ->
  is_digit (cur (ds ++ rest)) = true.
Proof. destruct ds; [done|]. intros [H _]%Forall_cons _. done. Qed.

Lemma parse_int_show v rest :
  is_s32 v -> is_digit (cur rest) = false ->
  parse_int (show_int v ++ rest) = Some (v, rest).
Proof.
  intros Hv Hrest. unfold show_int.
  destruct (print_d_spec v Hv) as (ds & -> & Hd & Hlen & Hval).
  assert (Hne : ds <> []) by (intros ->; simpl in Hlen; lia).
  pose proof (cur_app_digit ds rest Hd Hne) as Hcur.
  destruct (parse_digits_val ds rest 0 false Hd Hrest) as (r & Hp & Hr & Hmod);
    [by left|].
  fold (dec_val ds) in Hmod. rewrite Hval in Hmod. unfold parse_int.
  assert (Hfin : forall sign, sign * Z.abs v = v ->
    s32 (sign * r) = v).
  { intros sign Hs. apply s32_mod_inj; [apply s32_range|done|].
    rewrite s32_mod, <- Zmult_mod_idemp_r, Hmod, Zmult_mod_idemp_r.
    by rewrite Hs. }
  unfold is_digit in Hcur.
  destruct (Z.ltb_spec v 0).
  - simpl. rewrite Hp. simpl. rewrite Hfin; [done|lia].
  - rewrite skip_spaces_id by (rewrite app_nil_l; unfold is_blank; lia).
    rewrite app_nil_l. replace (cur (ds ++ rest) =? 45) with false by lia.
    rewrite Hp. cbn [negb]. rewrite Hfin; [done|lia].
Qed.

Lemma parse_int_blank s : parse_int (32 :: s) = parse_int s.
Proof. done. Qed.

Lemma show_args_cons v vs : show_args (v :: vs) = 32 :: show_int v ++ show_args vs.
Proof. done. Qed.

Lemma show_args_cur vs : is_digit (cur (show_args vs)) = false.
Proof. destruct vs; done. Qed.

Lemma parse_ints_show vs ws :
  Forall is_s32 vs ->
  parse_ints (length vs) (show_args (vs ++ ws)) = Some (vs, show_args ws).
Proof.
  induction vs as [|v vs IH]; intros Hvs; [done|].
  apply Forall_cons in Hvs as [Hv Hvs].
  rewrite <- app_comm_cons, show_args_cons. cbn [length parse_ints].
  rewrite parse_int_blank, parse_int_show by (done || apply show_args_cur).
  simpl. by rewrite IH.
Qed.

Lemma parse_args_show vs :
  Forall is_s32 vs -> parse_args (length vs) (show_args vs) = Some vs.
Proof.
  intros Hvs. unfold parse_args. rewrite <- (app_nil_r vs) at 2.
  by rewrite parse_ints_show.
Qed.

Lemma parse_points_show pts ws :
  Forall (fun '(x, y) => is_s32 x /\ is_s32 y) pts ->
  parse_points (length pts)
    (show_args (concat (map (fun '(x, y) => [x; y]) pts) ++ ws))
  = Some (map fst pts, map snd pts, show_args ws).
Proof.
  induction pts as [|[x y] pts IH]; intros H; [done|].
  apply Forall_cons in H as [[Hx Hy] H].
  cbn [length parse_points map concat app]. rewrite !show_args_cons.
  rewrite parse_int_blank, parse_int_show by done. simpl.
  rewrite parse_int_blank, parse_int_show by (done || apply show_args_cur).
  simpl. by rewrite IH.
Qed.

Lemma parse_polygon_show {F : Fuel} pts color c filled :
  Forall is_s32 (poly_args pts color) -> (3 <= length pts <= 16)%nat ->
  parse_polygon (show_args (poly_args pts color)) c filled =
  accept (if filled
    then canvas_fillpolygon c (map fst pts) (map snd pts) (Z.of_nat (length pts)) (u8 color)
    else canvas_polygon c (map fst pts) (map snd pts) (Z.of_nat (length pts)) (u8 color)).
Proof.
  unfold poly_args. intros [Hn [Hp [Hc _]%Forall_cons]%Forall_app]%Forall_cons Hlen.
  unfold parse_polygon. rewrite show_args_cons, parse_int_blank.
  rewrite parse_int_show by (done || apply show_args_cur).
  replace (_ || _) with false by (unfold POLYGON_MAX_POINTS; lia).
  rewrite Nat2Z.id, parse_points_show.
  - rewrite show_args_cons, parse_int_blank, parse_int_show by done.
    by destruct filled.
  - clear -Hp. induction pts as [|[x y] pts IH]; constructor.
    + simpl in Hp. by do 2 apply Forall_cons in Hp as [? Hp].
    + apply IH. simpl in Hp. by do 2 apply Forall_cons in Hp as [_ Hp].
Qed.

(** Whatever follows a command name after a blank, [parse_line] finds the
    command: the names are told apart by [match_command]. *)
Ltac dispatch :=
  lazy -[parse_args accept reject u8 parse_polygon line_done show_args poly_args
         canvas_clear canvas_pixel canvas_line canvas_rect canvas_fillrect
         canvas_circle canvas_fillcircle canvas_triangle canvas_filltriangle
         canvas_ellipse canvas_fillellipse].

Lemma parse_line_show {F : Fuel} c cmd :
  wf_command cmd -> parse_line c (show_command cmd) = accept (exec cmd c).
Proof.
  intros [Hargs Hpoly]. pose proof (parse_args_show _ Hargs) as Hparse.
  assert (Hne : exists t, show_args (command_args cmd) = 32 :: t).
  { destruct cmd; eexists; apply show_args_cons. }
  destruct Hne as [t Ht]. unfold show_command.
  destruct cmd; cbn [command_name command_args length] in *.
  12: trans (parse_polygon (show_args (poly_args pts color)) c false);
    [rewrite Ht; dispatch; reflexivity|by apply (parse_polygon_show _ _ _ false)].
  12: trans (parse_polygon (show_args (poly_args pts color)) c true);
    [rewrite Ht; dispatch; reflexivity|by apply (parse_polygon_show _ _ _ true)].
  all: rewrite Ht in *; dispatch; rewrite Hparse; reflexivity.
Qed.

(** No character of a command's text is a newline. *)
Lemma show_int_no_newline v : is_s32 v -> Forall (fun c => c <> 10) (show_int v).
Proof.
  intros Hv. unfold show_int. destruct (print_d_spec v Hv) as (ds & -> & Hd & _).
  apply Forall_app. split; [by destruct (v <? 0); repeat constructor|].
  eapply Forall_impl; [exact Hd|]. unfold is_digit. intros c. lia.
Qed.

Lemma show_command_no_newline cmd :
  wf_command cmd -> Forall (fun c => c <> 10) (show_command cmd).
Proof.
  intros [Hargs _]. unfold show_command. apply Forall_app. split.
  - by destruct cmd; repeat (constructor; [done|]).
  - induction Hargs as [|v vs Hv _ IH]; [constructor|].
    rewrite show_args_cons. constructor; [done|].
    apply Forall_app. split; [by apply show_int_no_newline|done].
Qed.

Lemma take_line_app l rest :
  Forall (fun c => c <> 10) l -> take_line (l ++ 10 :: rest) = (l, Some rest).
Proof.
  induction 1 as [|c l Hc _ IH]; [done|]. simpl. rewrite IH.
  by replace (c =? 10) with false by lia.
Qed.

Lemma run_lines_show {F : Fuel} cmds fuel c :
  Forall wf_command cmds -> (length cmds < fuel)%nat ->
  run_lines fuel c (show_program cmds)
  = (c' ← exec_all cmds c; Ok (inr (c', true))).
Proof.
  intros Hwf. revert fuel c.
  induction Hwf as [|cmd cmds Hcmd Hcmds IH]; intros fuel c Hf.
  - destruct fuel as [|fuel]; [simpl in Hf; lia|]. reflexivity.
  - destruct fuel as [|fuel]; [simpl in Hf; lia|].
    assert (Hsplit : show_program (cmd :: cmds)
              = show_command cmd ++ 10 :: show_program cmds).
    { unfold show_program. simpl. by rewrite <- !app_assoc. }
    assert (Hhd : exists x xs, show_program (cmd :: cmds) = x :: xs).
    { rewrite Hsplit. destruct (show_command cmd); eauto. }
    destruct Hhd as (x & xs & Hhd). rewrite Hhd. cbn [run_lines].
    rewrite <- Hhd, Hsplit, take_line_app by (by apply show_command_no_newline).
    rewrite parse_line_show by done. cbn [exec_all].
    destruct (exec cmd c) as [c'| | |]; try done. ok.
    unfold accept. ok. cbn [rc saw_end canvas_of].
    apply IH. simpl in Hf. lia.
Qed.

Lemma show_program_length cmds : (length cmds <= length (show_program cmds))%nat.
Proof.
  unfold show_program. rewrite length_app. induction cmds as [|cmd cmds IH]; [simpl; lia|].
  cbn [flat_map mbind list_bind length]. rewrite ?length_app. simpl in *. rewrite ?length_app in *. simpl in *. lia.
Qed.

(** C1: rendering the text of any program of the drawing language, every
    command on its own line, integers written by the [%d] conversion and [END]
    last, performs exactly the program's drawing operations in order on a
    cleared canvas and reports [END]; the parser recognises each of the
    thirteen commands and reads back every 32-bit argument.  No argument is
    refused for its value: coordinates outside the canvas are left to the
    clipping of the drawing routines and of a colour the low byte is used, also
    when it is outside the range 0 to 15 that plan.md wants enforced. *)
Theorem render_program {F : Fuel} c cmds :
  Forall wf_command cmds ->
  render c (show_program cmds)
  = (c0 ← canvas_clear c 0; c' ← exec_all cmds c0; Ok (inr (c', true))).
Proof.
  intros Hwf. unfold render. destruct (canvas_clear c 0); try done. ok.
  apply run_lines_show; [done|]. pose proof (show_program_length cmds). lia.
Qed.

Definition house : list command :=
  [FILLRECT 0 140 320 60 2; TRIANGLE 10 20 30 5 50 20 15; PIXEL (-7) 3 1;
   FILLPOLYGON [(18, 150); (42, 112); (72, 120)] 10].

Lemma render_program_witness :
  render (F := 0%nat) blank_canvas (show_program house)
  = (c0 ← canvas_clear blank_canvas 0; c' ← exec_all (F := 0%nat) house c0;
     Ok (inr (c', true))).
Proof.
  apply (render_program (F := 0%nat) blank_canvas house).
  unfold house, wf_command, is_s32, poly_args.
  repeat constructor; simpl; lia.
Defined.
