(* ===== verification/DrawSafe.v ===== *)
(** Memory safety of src/drawlib.c and of the response parser of src/aidraw.c.

    The response comes from outside, so its text and its numbers are arbitrary.
    [safe P r] says that [r] is no access outside an object and no panic, and
    that a value it returns satisfies [P]; together with the termination results
    for arguments within the range of the drawing arithmetic it gives total
    correctness. *)
From stdpp Require Import base strings numbers list.
From S2P Require Import Prelude CString Drawlib DrawLine DrawFill DrawCircle AiDraw.
Local Open Scope Z_scope.

(** A canvas: 64000 bytes. *)
Definition canvas_ok (c : list Z) : Prop := canvas_len c /\ Forall is_u8 c.

Definition safe {A} (P : A -> Prop) (r : res A) : Prop :=
  match r with Ok a => P a | NoFuel => True | _ => False end.

Lemma safe_bind {A B} (P : A -> Prop) (Q : B -> Prop) (r : res A) (f : A -> res B) :
  safe P r -> (forall a, P a -> safe Q (f a)) -> safe Q (r ≫= f).
Proof. destruct r; cbn; auto. Qed.

Lemma safe_mono {A} (P Q : A -> Prop) r : safe P r -> (forall a, P a -> Q a) -> safe Q r.
Proof. destruct r; cbn; auto. Qed.

Lemma safe_while {S} (I : S -> Prop) fuel cond body s :
  I s -> (forall s, I s -> cond s = true -> safe I (body s)) ->
  safe (fun s => I s /\ cond s = false) (while_ fuel cond body s).
Proof.
  intros HI Hb. revert s HI. induction fuel as [|fuel IH]; intros s HI; cbn [while_];
    destruct (cond s) eqn:E; try done.
  eapply safe_bind; [by apply Hb|]. auto.
Qed.

Lemma safe_loop {S R} (I : S -> Prop) (Q : R -> Prop) fuel body s :
  I s -> (forall s, I s -> safe (fun x => match x with inl s' => I s' | inr v => Q v end) (body s)) ->
  safe Q (loop_ fuel body s).
Proof.
  intros HI Hb. revert s HI. induction fuel as [|fuel IH]; intros s HI; cbn [loop_]; [done|].
  eapply safe_bind; [by apply Hb|]. intros [s'|v] H; [by apply IH|done].
Qed.

(** A loop that carries a canvas and other variables. *)
Lemma safe_canvas_while {S} fuel (cond : S * list Z -> bool) body s c :
  canvas_ok c ->
  (forall s c, canvas_ok c -> cond (s, c) = true -> safe (fun st => canvas_ok (snd st)) (body (s, c))) ->
  safe canvas_ok ('(_, c) ← while_ fuel cond body (s, c); Ok c).
Proof.
  intros Hc Hb. eapply safe_bind;
    [apply (safe_while (fun st => canvas_ok (snd st)) fuel cond body (s, c)); [done|]|].
  - intros [s' c'] H. by apply Hb.
  - by intros [s' c'] [H _].
Qed.

Lemma buf_set_safe c i col : canvas_ok c -> is_u8 col -> 0 <= i < CANVAS_SIZE ->
  safe canvas_ok (buf_set c i col).
Proof.
  intros [Hl Hb] Hc Hi. unfold canvas_len in Hl. rewrite buf_set_ok by lia. split.
  - unfold canvas_len. by rewrite length_insert.
  - by apply Forall_insert.
Qed.

Lemma canvas_pixel_safe c x y col : canvas_ok c -> is_u8 col -> safe canvas_ok (canvas_pixel c x y col).
Proof.
  intros Hc Hcol. unfold canvas_pixel. destruct (_ || _) eqn:E; [done|].
  change CANVAS_WIDTH with 320 in *. change CANVAS_HEIGHT with 200 in *.
  apply buf_set_safe; [done..|]. change CANVAS_SIZE with 64000. wraps. lia.
Qed.

Lemma draw_hline_safe c y x0 x1 col : canvas_ok c -> is_u8 col ->
  safe canvas_ok (draw_hline c y x0 x1 col).
Proof.
  intros Hc Hcol. unfold draw_hline.
  destruct ((y <? 0) || (CANVAS_HEIGHT <=? y)) eqn:E1; [done|]. cbn zeta.
  change CANVAS_WIDTH with 320 in *. change CANVAS_HEIGHT with 200 in *.
  set (left := if x1 <? x0 then x1 else x0) in *. set (right := if x1 <? x0 then x0 else x1) in *.
  destruct ((right <? 0) || (320 <=? left)) eqn:E2; [done|].
  set (l := if left <? 0 then 0 else left). set (rr := if 320 <=? right then 320 - 1 else right).
  assert (0 <= l <= 320 /\ rr < 320) as [Hl Hr]
    by (subst l rr; destruct (left <? 0) eqn:?, (320 <=? right) eqn:?; lia).
  eapply safe_bind.
  - apply (safe_while (fun '(x, c) => 0 <= x <= 320 /\ canvas_ok c)); [done|].
    intros [x c'] [Hx Hc'] Hcond. assert (x <= rr) by lia.
    eapply safe_bind; [apply buf_set_safe; [done..|]|].
    + change CANVAS_SIZE with 64000. wraps. lia.
    + intros c'' Hc''. cbn. rewrite s32_id by lia. split; [lia|done].
  - by intros [x c'] [[_ Hc'] _].
Qed.

Create HintDb safety discriminated.
#[export] Hint Resolve canvas_pixel_safe draw_hline_safe : safety.

(** Sequences of safe drawing calls. *)
Ltac draw_safe :=
  repeat first
    [ progress cbv beta iota zeta
    | assumption
    | solve [eauto with safety]
    | match goal with
      | |- safe _ (Ok _) => cbn [safe snd]; try assumption
      | |- safe _ (if ?b then _ else _) => destruct b
      | |- safe _ (let '(_, _) := ?p in _) => destruct p
      | |- safe canvas_ok ('(_, c) ← while_ _ _ _ (_, _); Ok c) =>
          apply safe_canvas_while; [|let Hc := fresh in intros ? ? Hc _]
      | |- safe _ (_ ≫= _) =>
          eapply (safe_bind canvas_ok); [|let Hc := fresh in intros ? Hc]
      end ].

Lemma canvas_clear_safe c col : canvas_ok c -> safe canvas_ok (canvas_clear c col).
Proof.
  intros [Hl Hb]. unfold canvas_clear. unfold canvas_len in Hl. rewrite Hl, Z.ltb_irrefl. split.
  - unfold canvas_len. rewrite length_app, length_replicate, length_drop. lia.
  - apply Forall_app. split; [apply Forall_replicate, u8_range|by apply Forall_drop].
Qed.

Lemma canvas_line_safe {F : Fuel} c x1 y1 x2 y2 col : canvas_ok c -> is_u8 col ->
  safe canvas_ok (canvas_line c x1 y1 x2 y2 col).
Proof.
  intros Hc Hcol. unfold canvas_line. cbn zeta.
  apply (safe_loop (fun '(_, _, _, c) => canvas_ok c)); [done|].
  intros [[[a b] err] c'] Hc'. eapply (safe_bind canvas_ok); [by apply canvas_pixel_safe|].
  intros c'' Hc''. destruct (_ && _); [done|]. cbn zeta.
  repeat match goal with |- context [if ?b then _ else _] => destruct b end; done.
Qed.
#[export] Hint Resolve canvas_clear_safe canvas_line_safe : safety.

Lemma canvas_rect_safe {F : Fuel} c x y w h col : canvas_ok c -> is_u8 col ->
  safe canvas_ok (canvas_rect c x y w h col).
Proof. intros Hc Hcol. unfold canvas_rect. draw_safe. Qed.

Lemma canvas_fillrect_safe c x y w h col : canvas_ok c -> is_u8 col ->
  safe canvas_ok (canvas_fillrect c x y w h col).
Proof. intros Hc Hcol. unfold canvas_fillrect. draw_safe. Qed.

Lemma canvas_circle_safe {F : Fuel} c x y r col : canvas_ok c -> is_u8 col ->
  safe canvas_ok (canvas_circle c x y r col).
Proof.
  intros Hc Hcol. unfold canvas_circle. cbn zeta. destruct (r <? 0); [done|].
  apply safe_canvas_while; [done|]. intros [[cx cy] err] c' Hc' _. draw_safe.
Qed.

Lemma canvas_fillcircle_safe {F : Fuel} c x y r col : canvas_ok c -> is_u8 col ->
  safe canvas_ok (canvas_fillcircle c x y r col).
Proof.
  intros Hc Hcol. unfold canvas_fillcircle. cbn zeta. destruct (r <? 0); [done|].
  apply safe_canvas_while; [done|]. intros [[cx cy] err] c' Hc' _. draw_safe.
Qed.

Lemma canvas_triangle_safe {F : Fuel} c x1 y1 x2 y2 x3 y3 col : canvas_ok c -> is_u8 col ->
  safe canvas_ok (canvas_triangle c x1 y1 x2 y2 x3 y3 col).
Proof. intros Hc Hcol. unfold canvas_triangle. draw_safe. Qed.
#[export] Hint Resolve canvas_triangle_safe : safety.

(** Of a loop that carries a canvas only the canvas matters afterwards. *)
Lemma safe_inner_while {S T} fuel (cond : S * list Z -> bool) body s c (k : list Z -> T) :
  canvas_ok c ->
  (forall s c, canvas_ok c -> cond (s, c) = true -> safe (fun st => canvas_ok (snd st)) (body (s, c))) ->
  (forall Q, (forall c, canvas_ok c -> Q (k c)) ->
   safe Q ('(_, c) ← while_ fuel cond body (s, c); Ok (k c))).
Proof.
  intros Hc Hb Q HQ. eapply safe_bind;
    [apply (safe_while (fun st => canvas_ok (snd st)) fuel cond body (s, c)); [done|]|].
  - intros [s' c'] H. by apply Hb.
  - intros [s' c'] [H _]. by apply HQ.
Qed.

Lemma canvas_filltriangle_safe {F : Fuel} c x1 y1 x2 y2 x3 y3 col : canvas_ok c -> is_u8 col ->
  safe canvas_ok (canvas_filltriangle c x1 y1 x2 y2 x3 y3 col).
Proof.
  intros Hc Hcol. unfold canvas_filltriangle. cbn zeta. destruct (_ =? 0); [by apply canvas_triangle_safe|].
  apply safe_canvas_while; [done|]. intros y c1 Hc1 _.
  apply safe_inner_while; [done| |done]. intros x c2 Hc2 _. draw_safe.
Qed.

Lemma canvas_ellipse_safe {F : Fuel} c x y rx ry col : canvas_ok c -> is_u8 col ->
  safe canvas_ok (canvas_ellipse c x y rx ry col).
Proof.
  intros Hc Hcol. unfold canvas_ellipse. destruct (_ || _); [done|].
  destruct (_ && _); [by apply canvas_pixel_safe|].
  eapply (safe_bind canvas_ok).
  - apply (safe_loop (fun '(_, c) => canvas_ok c)); [done|]. intros [px c1] Hc1. cbn zeta.
    destruct (rx <? px); [done|]. destruct (rx =? 0); [done|].
    eapply safe_bind; [apply (safe_while (fun _ => True)); done|]. intros py _. draw_safe.
  - intros c1 Hc1. draw_safe.
Qed.

Lemma canvas_fillellipse_safe {F : Fuel} c x y rx ry col : canvas_ok c -> is_u8 col ->
  safe canvas_ok (canvas_fillellipse c x y rx ry col).
Proof.
  intros Hc Hcol. unfold canvas_fillellipse. destruct (_ || _); [done|].
  destruct (_ && _); [by apply canvas_pixel_safe|].
  destruct (rx =? 0); [draw_safe|]. destruct (ry =? 0); [draw_safe|]. cbn zeta.
  apply safe_canvas_while; [done|]. intros py c1 Hc1 _. cbv beta iota.
  eapply safe_bind; [apply (safe_while (fun _ => True)); done|]. intros px _. draw_safe.
Qed.
#[export] Hint Resolve canvas_rect_safe canvas_fillrect_safe canvas_circle_safe
  canvas_fillcircle_safe canvas_filltriangle_safe canvas_ellipse_safe canvas_fillellipse_safe : safety.

(** ** Polygons *)

Lemma buf_get_safe (l : list Z) i : 0 <= i < Z.of_nat (length l) -> safe (fun _ => True) (buf_get l i).
Proof. intros Hi. destruct (buf_get_inb l i Hi) as (v & _ & ->). done. Qed.

Lemma rem_range i n : 0 <= i -> 0 < n -> 0 <= Z.rem i n < n.
Proof. intros Hi Hn. rewrite Z.rem_mod_nonneg by lia. by apply Z.mod_pos_bound. Qed.

Lemma swap_int_safe l i j : 0 <= i < Z.of_nat (length l) -> 0 <= j < Z.of_nat (length l) ->
  safe (fun l' => length l' = length l) (swap_int l i j).
Proof.
  intros Hi Hj. unfold swap_int. eapply safe_bind; [by apply buf_get_safe|]. intros vi _.
  eapply safe_bind; [by apply buf_get_safe|]. intros vj _.
  rewrite buf_set_ok by lia. ok. rewrite buf_set_ok by (rewrite length_insert; lia).
  cbn. by rewrite !length_insert.
Qed.

Lemma sort_ints_safe l n : n = Z.of_nat (length l) -> n < 2 ^ 31 ->
  safe (fun l' => length l' = length l) (sort_ints l n).
Proof.
  intros -> Hn. set (n := Z.of_nat (length l)) in *. unfold sort_ints. eapply safe_bind.
  - apply (safe_while (fun '(i, l') => 0 <= i <= n /\ length l' = length l)); [by split; [lia|]|].
    intros [i l1] [Hi Hl1] Hc. assert (i < n) by lia. eapply safe_bind.
    + apply (safe_while (fun '(j, l') => 0 <= j <= n /\ length l' = length l)).
      { rewrite s32_id by lia. split; [lia|done]. }
      intros [j l2] [Hj Hl2] Hc2. assert (j < n) by lia.
      eapply safe_bind; [apply buf_get_safe; lia|]. intros vj _.
      eapply safe_bind; [apply buf_get_safe; lia|]. intros vi _.
      eapply (safe_bind (fun l' : list Z => length l' = length l)).
      * destruct (vj <? vi); [|done]. eapply safe_mono; [apply swap_int_safe; lia|].
        intros l3 H3. congruence.
      * intros l3 H3. cbn. rewrite s32_id by lia. split; [lia|done].
    + intros [j l2] [[_ Hl2] _]. cbn. rewrite s32_id by lia. split; [lia|done].
  - intros [i l'] [[_ H] _]. done.
Qed.

Lemma canvas_polygon_safe {F : Fuel} c xs ys n col : canvas_ok c -> is_u8 col ->
  n = Z.of_nat (length xs) -> length ys = length xs -> n < 2 ^ 31 ->
  safe canvas_ok (canvas_polygon c xs ys n col).
Proof.
  intros Hc Hcol -> Hys Hn. unfold canvas_polygon. destruct (Z.ltb_spec (Z.of_nat (length xs)) 2); [done|].
  set (n := Z.of_nat (length xs)) in *. eapply safe_bind.
  - apply (safe_while (fun '(i, c) => 0 <= i <= n /\ canvas_ok c)); [by split; [lia|]|].
    intros [i c1] [Hi Hc1] Hcond. assert (i < n) by lia. cbn zeta.
    rewrite s32_id by lia. pose proof (rem_range (i + 1) n ltac:(lia) ltac:(lia)).
    do 4 (eapply safe_bind; [apply buf_get_safe; lia|]; intros ? _).
    eapply safe_bind; [by apply canvas_line_safe|]. intros c2 Hc2. by split; [lia|].
  - by intros [i c1] [[_ H1] _].
Qed.

Lemma scan_edge_safe xs ys n y i l : n = Z.of_nat (length xs) -> length ys = length xs ->
  n <= POLYGON_MAX_POINTS -> 0 <= i < n -> Z.of_nat (length l) <= i ->
  safe (fun l' => Z.of_nat (length l') <= i + 1) (scan_edge xs ys n y i l).
Proof.
  intros -> Hys Hn Hi Hl. unfold POLYGON_MAX_POINTS in Hn. unfold scan_edge. cbn zeta.
  rewrite s32_id by lia. pose proof (rem_range (i + 1) (Z.of_nat (length xs)) ltac:(lia) ltac:(lia)).
  do 4 (eapply safe_bind; [apply buf_get_safe; lia|]; intros ? _).
  destruct (_ =? _); [cbn; lia|]. destruct (_ || _); [|cbn; lia].
  unfold POLYGON_MAX_POINTS. replace (16 <=? Z.of_nat (length l)) with false by lia.
  cbn. rewrite length_app. cbn. lia.
Qed.

(** Crossings of a scan line: at most one per edge. *)
Lemma scan_line_safe xs ys n y : n = Z.of_nat (length xs) -> length ys = length xs ->
  0 <= n <= POLYGON_MAX_POINTS ->
  safe (fun '(_, l) => Z.of_nat (length l) <= n)
    (while_ (Z.to_nat n) (fun '(i, _) => i <? n)
       (fun '(i, l) => l ← scan_edge xs ys n y i l; Ok (s32 (i + 1), l)) (0, [])).
Proof.
  intros Hxs Hys Hn.
  eapply safe_mono; [apply (safe_while (fun '(i, l) => 0 <= i <= n /\ Z.of_nat (length l) <= i))|].
  - cbn. lia.
  - intros [i l] [Hi Hl] Hc. assert (i < n) by lia.
    eapply safe_bind; [apply scan_edge_safe; try done; lia|]. intros l' Hl'. cbn in Hl' |- *.
    unfold POLYGON_MAX_POINTS in Hn. rewrite s32_id by lia. lia.
  - intros [i l] [[Hi Hl] _]. lia.
Qed.

(** The spans between sorted crossings. *)
Lemma spans_safe c l y col : canvas_ok c -> is_u8 col -> Z.of_nat (length l) <= POLYGON_MAX_POINTS ->
  safe canvas_ok
    ('(_, c) ← while_ (Z.to_nat (Z.of_nat (length l)))
       (fun '(i, _) => s32 (i + 1) <? Z.of_nat (length l))
       (fun '(i, c) =>
          a ← buf_get l i; b ← buf_get l (s32 (i + 1));
          c ← draw_hline c y a b col; Ok (s32 (i + 2), c))
       (0, c);
     Ok c).
Proof.
  intros Hc Hcol Hl. unfold POLYGON_MAX_POINTS in Hl. eapply safe_bind.
  - apply (safe_while (fun '(i, c) => 0 <= i <= 17 /\ canvas_ok c)); [by split; [lia|]|].
    intros [i c1] [Hi Hc1] Hcond. cbv beta iota in Hcond. rewrite s32_id in Hcond by lia.
    eapply safe_bind; [apply buf_get_safe; lia|]. intros a _. rewrite !s32_id by lia.
    eapply safe_bind; [apply buf_get_safe; lia|]. intros b _.
    eapply safe_bind; [by apply draw_hline_safe|]. intros c2 Hc2. cbn.
    split; [lia|done].
  - by intros [i c1] [[_ H1] _].
Qed.

Lemma canvas_fillpolygon_safe c xs ys n col : canvas_ok c -> is_u8 col ->
  n = Z.of_nat (length xs) -> length ys = length xs ->
  safe canvas_ok (canvas_fillpolygon c xs ys n col).
Proof.
  intros Hc Hcol Hxs Hys. unfold canvas_fillpolygon. destruct (_ || _) eqn:E; [done|].
  assert (3 <= n <= POLYGON_MAX_POINTS) as Hn by lia.
  eapply safe_bind; [apply buf_get_safe; lia|]. intros y0 _.
  eapply safe_bind; [apply buf_get_safe; lia|]. intros y1 _.
  eapply safe_bind.
  { apply (safe_while (fun '(i, _, _) => 0 <= i <= n)); [lia|].
    intros [[i a] b] Hi Hcond. assert (i < n) by lia. eapply safe_bind; [apply buf_get_safe; lia|].
    intros yi _. cbn. unfold POLYGON_MAX_POINTS in Hn. rewrite s32_id by lia. lia. }
  intros [[i lo] hi] _. cbn zeta.
  apply safe_canvas_while; [done|]. intros y c1 Hc1 _.
  eapply safe_bind; [by apply scan_line_safe; try done; lia|]. intros [j l] Hl. cbv beta iota in Hl. cbn zeta.
  destruct (_ <? 2); [done|]. unfold POLYGON_MAX_POINTS in Hn.
  eapply safe_bind; [apply sort_ints_safe; [done|lia]|]. intros l' Hl'. cbv beta in Hl'.
  rewrite <- Hl'. pose proof (spans_safe c1 l' y col Hc1 Hcol) as Hs.
  unfold POLYGON_MAX_POINTS in Hs. specialize (Hs ltac:(lia)).
  revert Hs. unfold mbind, res_bind. destruct (while_ _ _ _ _) as [[k c2]| | |]; done.
Qed.
#[export] Hint Resolve canvas_polygon_safe canvas_fillpolygon_safe : safety.

(** * The response parser *)

Notation good := (fun o => canvas_ok (canvas_of o)).

Lemma accept_safe r : safe canvas_ok r -> safe good (accept r).
Proof. intros H. unfold accept. by eapply safe_bind. Qed.

Lemma parse_points_length n s xs ys s' : parse_points n s = Some (xs, ys, s') ->
  length xs = n /\ length ys = n.
Proof.
  revert s xs ys. induction n as [|n IH]; intros s xs ys E; cbn in E; [by simplify_eq|].
  destruct (parse_int s) as [[x s1]|]; [|done]. cbn in E.
  destruct (parse_int s1) as [[y s2]|]; [|done]. cbn in E.
  destruct (parse_points n s2) as [[[xs' ys'] s3]|] eqn:E3; [|done]. cbn in E. simplify_eq.
  destruct (IH _ _ _ E3) as [H1 H2]. cbn. lia.
Qed.

Lemma parse_polygon_safe {F : Fuel} s c filled : canvas_ok c -> safe good (parse_polygon s c filled).
Proof.
  intros Hc. unfold parse_polygon. destruct (parse_int s) as [[n s1]|]; [|done].
  destruct (_ || _) eqn:E; [done|]. unfold POLYGON_MAX_POINTS in E.
  destruct (parse_points (Z.to_nat n) s1) as [[[xs ys] s2]|] eqn:Ep; [|done].
  destruct (parse_points_length _ _ _ _ _ Ep) as [Hx Hy].
  destruct (parse_int s2) as [[col s3]|]; [|done]. destruct (negb _); [done|].
  apply accept_safe. destruct filled.
  - apply canvas_fillpolygon_safe; [done|apply u8_range|lia..].
  - apply canvas_polygon_safe; [done|apply u8_range|lia..].
Qed.

Lemma parse_line_safe {F : Fuel} c l : canvas_ok c -> safe good (parse_line c l).
Proof.
  intros Hc. unfold parse_line. cbn zeta. destruct (_ =? 0); [done|].
  destruct (match_command _ (cstr "END")); [by destruct (negb _)|].
  repeat match goal with |- safe good (match ?x with _ => _ end) => destruct x end;
    try done; try (by apply parse_polygon_safe); apply accept_safe;
    eauto using u8_range with safety.
Qed.

Notation rendered := (fun x => match x with inl _ => True | inr (c, _) => canvas_ok c end).

Lemma run_lines_safe {F : Fuel} fuel c s : canvas_ok c -> safe rendered (run_lines fuel c s).
Proof.
  revert c s. induction fuel as [|fuel IH]; intros c s Hc; (destruct s as [|b s]; [done|]); [done|].
  cbn [run_lines]. destruct (take_line (b :: s)) as [text next].
  eapply safe_bind; [by apply parse_line_safe|]. intros o Ho. cbn beta in Ho.
  destruct (_ <? 0); [done|]. destruct (_ =? 1); [done|]. destruct next; [by apply IH|done].
Qed.

Lemma render_is_safe {F : Fuel} c response : canvas_ok c -> safe rendered (render c response).
Proof.
  intros Hc. unfold render. eapply safe_bind; [by apply canvas_clear_safe|]. intros c' Hc'.
  by apply run_lines_safe.
Qed.

(** Structurally valid commands; the numbers are arbitrary. *)
Lemma exec_safe {F : Fuel} cmd c : canvas_ok c -> wf_command cmd -> safe canvas_ok (exec cmd c).
Proof.
  intros Hc Hwf. pose proof u8_range.
  destruct cmd as [| | | | | | | | | | |pts k|pts k]; cbn [exec]; eauto with safety;
    destruct Hwf as [_ Hlen].
  - apply canvas_polygon_safe; [done|apply u8_range|rewrite ?length_map; lia..].
  - apply canvas_fillpolygon_safe; [done|apply u8_range|by rewrite ?length_map..].
Qed.

Lemma exec_all_safe {F : Fuel} cmds c : canvas_ok c -> Forall wf_command cmds -> safe canvas_ok (exec_all cmds c).
Proof.
  intros Hc Hwf. revert c Hc. induction Hwf as [|cmd cmds Hcmd _ IH]; intros c Hc; [done|].
  cbn [exec_all]. eapply safe_bind; [by apply exec_safe|]. auto.
Qed.

(** * Termination

    [total P r]: [r] returns, and what it returns satisfies [P].  The fuel of
    every loop of the drawing routines suffices for arguments whose arithmetic
    does not overflow. *)
Definition total {A} (P : A -> Prop) (r : res A) : Prop := exists a, r = Ok a /\ P a.

Lemma total_ok {A} (P : A -> Prop) a : P a -> total P (Ok a).
Proof. intros H. by exists a. Qed.

Lemma total_bind {A B} (P : A -> Prop) (Q : B -> Prop) (r : res A) (f : A -> res B) :
  total P r -> (forall a, P a -> total Q (f a)) -> total Q (r ≫= f).
Proof. intros (a & -> & Ha) Hf. by apply Hf. Qed.

Lemma total_safe {A} (P : A -> Prop) r : (exists a, r = Ok a) -> safe P r -> total P r.
Proof. intros [a ->] H. by exists a. Qed.

Lemma total_while {S} (I : S -> Prop) (m : S -> Z) fuel cond body s :
  I s -> m s <= Z.of_nat fuel ->
  (forall s, I s -> cond s = true -> 0 < m s /\ total (fun s' => I s' /\ m s' <= m s - 1) (body s)) ->
  total (fun s' => I s' /\ cond s' = false) (while_ fuel cond body s).
Proof.
  intros HI Hm Hb. destruct (while_rule cond body I m fuel s) as (s' & -> & HI' & Hc'); [done| |done| |].
  - intros s0 H0 Hc. by apply Hb.
  - intros s0 H0 Hc. by apply Hb.
  - by exists s'.
Qed.

(** A counting loop over a canvas. *)
Lemma total_for fuel cond (body : Z * list Z -> res (Z * list Z)) lo n c :
  (forall k c, lo <= k -> cond (k, c) = (k <? n)) ->
  (forall k c, lo <= k < n -> canvas_ok c ->
     total (fun '(k', c) => k' = s32 (k + 1) /\ canvas_ok c) (body (k, c))) ->
  - 2 ^ 31 <= lo -> n < 2 ^ 31 -> n - lo <= Z.of_nat fuel -> canvas_ok c ->
  total (fun '(_, c) => canvas_ok c) (while_ fuel cond body (lo, c)).
Proof.
  intros Hcond Hbody Hlo Hn Hf Hc.
  destruct (total_while (fun '(k, c) => lo <= k /\ canvas_ok c) (fun '(k, _) => Z.max 0 (n - k))
              fuel cond body (lo, c)) as ([k c1] & -> & [_ H1] & _); [done|lia| |by apply total_ok].
  intros [k c1] [Hk Hc1] Hc2. rewrite Hcond in Hc2 by done. split; [lia|].
  destruct (Hbody k c1) as ([k' c3] & -> & -> & Hc3); [lia|done|]. apply total_ok.
  rewrite s32_id by lia. split; [split; [lia|done]|lia].
Qed.

Lemma total_canvas {S} (r : res (S * list Z)) :
  total (fun '(_, c) => canvas_ok c) r -> total canvas_ok ('(_, c) ← r; Ok c).
Proof. intros ([s c] & -> & Hc). by apply total_ok. Qed.

Lemma canvas_pixel_total c x y col : canvas_ok c -> is_u8 col ->
  total canvas_ok (canvas_pixel c x y col).
Proof.
  intros Hc Hcol. apply total_safe; [|by apply canvas_pixel_safe].
  pose proof (canvas_pixel_safe c x y col Hc Hcol) as Hs. revert Hs. unfold canvas_pixel.
  destruct (_ || _); [eauto|]. unfold buf_set. destruct (_ && _); [eauto|done].
Qed.

Lemma draw_hline_total c y x0 x1 col : canvas_ok c -> is_u8 col ->
  total canvas_ok (draw_hline c y x0 x1 col).
Proof.
  intros Hc Hcol. apply total_safe; [|by apply draw_hline_safe].
  destruct (draw_hline_paints c y x0 x1 col (proj1 Hc)) as (c' & -> & _). eauto.
Qed.

Lemma canvas_line_total {F : Fuel} c x1 y1 x2 y2 col : canvas_ok c -> is_u8 col ->
  coord x1 -> coord y1 -> coord x2 -> coord y2 -> total canvas_ok (canvas_line c x1 y1 x2 y2 col).
Proof.
  intros Hc Hcol H1 H2 H3 H4. apply total_safe; [|by apply canvas_line_safe].
  destruct (canvas_line_path c x1 y1 x2 y2 col (proj1 Hc) H1 H2 H3 H4) as (p & c' & -> & _). eauto.
Qed.

Lemma canvas_triangle_total {F : Fuel} c x1 y1 x2 y2 x3 y3 col : canvas_ok c -> is_u8 col ->
  coord x1 -> coord y1 -> coord x2 -> coord y2 -> coord x3 -> coord y3 ->
  total canvas_ok (canvas_triangle c x1 y1 x2 y2 x3 y3 col).
Proof.
  intros Hc Hcol ? ? ? ? ? ?. unfold canvas_triangle.
  do 2 (eapply total_bind; [by apply canvas_line_total|]; intros ? ?). by apply canvas_line_total.
Qed.

Lemma canvas_rect_total {F : Fuel} c x y w h col : canvas_ok c -> is_u8 col ->
  coord x -> coord y -> coord (x + w) -> coord (y + h) -> total canvas_ok (canvas_rect c x y w h col).
Proof.
  intros Hc Hcol Hx Hy Hw Hh. unfold canvas_rect. destruct (_ || _) eqn:E; [by apply total_ok|].
  unfold coord in *. wraps.
  do 3 (eapply total_bind; [apply canvas_line_total; (done || unfold coord; lia)|]; intros ? ?).
  apply canvas_line_total; (done || unfold coord; lia).
Qed.

Lemma canvas_fillrect_total c x y w h col : canvas_ok c -> is_u8 col ->
  coord x -> coord y -> coord (x + w) -> coord (y + h) ->
  total canvas_ok (canvas_fillrect c x y w h col).
Proof.
  intros Hc Hcol Hx Hy Hw Hh. apply total_safe; [|by apply canvas_fillrect_safe].
  destruct ((w <=? 0) || (h <=? 0)) eqn:E; [unfold canvas_fillrect; rewrite E; eauto|].
  unfold coord in *.
  destruct (canvas_fillrect_paints c x y w h col (proj1 Hc)) as (c' & -> & _); [lia..|]. eauto.
Qed.

(** The midpoint loop: the gap [cx - cy] closes at every step. *)
Lemma circle_step_closes cx cy err cx' cy' err' : 0 <= cy <= cx -> cx <= 2 ^ 28 ->
  circle_step cx cy err = (cx', cy', err') ->
  0 <= cy' /\ -1 <= cx' <= cx /\ cx' - cy' <= cx - cy - 1.
Proof.
  intros Hcy Hcx. unfold circle_step. rewrite (s32_id (cy + 1)) by lia.
  destruct (err <? 0); intros E; simplify_eq; rewrite ?s32_id by lia; lia.
Qed.

Lemma circle_loop_total r err body c k : 0 <= r <= 2 ^ 28 -> canvas_ok c ->
  (forall cx cy err c, canvas_ok c ->
     total (fun '(st, c) => st = circle_step cx cy err /\ canvas_ok c) (body ((cx, cy, err), c))) ->
  total canvas_ok
    ('(_, c) ← while_ (Z.to_nat (r + 1) + k) (fun '((cx, cy, _), _) => cy <=? cx) body ((r, 0, err), c); Ok c).
Proof.
  intros Hr Hc Hbody. eapply total_bind.
  - apply (total_while (fun '((cx, cy, _), c) => 0 <= cy /\ -1 <= cx <= r /\ canvas_ok c)
             (fun '((cx, cy, _), _) => Z.max 0 (cx - cy + 1))); [split; [lia|split; [lia|done]]|lia|].
    intros [[[cx cy] e] c1] (Hcy & Hcx & Hc1) Hcond. apply Z.leb_le in Hcond. split; [lia|].
    destruct (Hbody cx cy e c1 Hc1) as ([st c2] & -> & -> & Hc2). apply total_ok.
    destruct (circle_step cx cy e) as [[cx' cy'] e'] eqn:E.
    apply circle_step_closes in E; [|lia..]. split; [|lia]. split; [lia|]. split; [lia|done].
  - intros [[[cx cy] e] c1] [(_ & _ & H1) _]. by apply total_ok.
Qed.

Lemma canvas_circle_total {F : Fuel} c x y r col : canvas_ok c -> is_u8 col -> r <= 2 ^ 28 ->
  total canvas_ok (canvas_circle c x y r col).
Proof.
  intros Hc Hcol Hr. unfold canvas_circle. cbn zeta.
  destruct (Z.ltb_spec r 0); [by apply total_ok|]. apply circle_loop_total; [lia|done|].
  intros cx cy err c1 Hc1. do 8 (eapply total_bind; [by apply canvas_pixel_total|]; intros ? ?).
  by apply total_ok.
Qed.

Lemma canvas_fillcircle_total {F : Fuel} c x y r col : canvas_ok c -> is_u8 col -> r <= 2 ^ 28 ->
  total canvas_ok (canvas_fillcircle c x y r col).
Proof.
  intros Hc Hcol Hr. unfold canvas_fillcircle. cbn zeta.
  destruct (Z.ltb_spec r 0); [by apply total_ok|]. apply circle_loop_total; [lia|done|].
  intros cx cy err c1 Hc1. do 4 (eapply total_bind; [by apply draw_hline_total|]; intros ? ?).
  by apply total_ok.
Qed.

Lemma canvas_filltriangle_total {F : Fuel} c x1 y1 x2 y2 x3 y3 col : canvas_ok c -> is_u8 col ->
  coord x1 -> coord y1 -> coord x2 -> coord y2 -> coord x3 -> coord y3 ->
  total canvas_ok (canvas_filltriangle c x1 y1 x2 y2 x3 y3 col).
Proof.
  intros Hc Hcol H1 H2 H3 H4 H5 H6. unfold canvas_filltriangle. cbn zeta.
  destruct (_ =? 0); [by apply canvas_triangle_total|].
  change CANVAS_WIDTH with 320. change CANVAS_HEIGHT with 200.
  set (lox := if _ <? 0 then 0 else min3 x1 x2 x3). set (hix := if 320 <=? _ then _ else _).
  set (loy := if _ <? 0 then 0 else min3 y1 y2 y3). set (hiy := if 200 <=? _ then _ else _).
  assert (0 <= lox <= 2 ^ 28 /\ 0 <= loy <= 2 ^ 28 /\ hix < 320 /\ hiy < 200) as (Bx & By & Bhx & Bhy).
  { unfold coord in *. subst lox loy hix hiy. rewrite !min3_min, !max3_max.
    repeat match goal with |- context [if ?b then _ else _] => destruct b eqn:? end; lia. }
  apply total_canvas, (total_for _ _ _ _ (hiy + 1)); [lia| |lia..|done].
  intros y c1 _ Hc1. eapply total_bind;
    [apply (total_for _ _ _ _ (hix + 1)); [lia| |lia..|done]|intros [x c2] Hc2; by apply total_ok].
  intros x c2 _ Hc2. cbn zeta. eapply (total_bind canvas_ok); [|intros c3 Hc3; by apply total_ok].
  destruct (_ || _); [by apply canvas_pixel_total|by apply total_ok].
Qed.

(** The search for the half-chord: [p] goes up while [p^2 a^2 <= inside]. *)
Lemma chord_total a b inside k : 0 < a <= 2 ^ 15 -> 0 <= b <= 2 ^ 15 -> inside <= b * b * (a * a) ->
  total (fun _ => True)
    (while_ (Z.to_nat (b + 1) + k) (fun p => s64 (s64 (p * p) * s64 (a * a)) <=? inside)
       (fun p => Ok (s32 (p + 1))) 0).
Proof.
  intros Ha Hb Hin.
  destruct (total_while (fun p => 0 <= p <= b + 1) (fun p => b + 1 - p) (Z.to_nat (b + 1) + k)
    (fun p => s64 (s64 (p * p) * s64 (a * a)) <=? inside) (fun p => Ok (s32 (p + 1))) 0)
    as (p & -> & _); [lia|lia| |by apply total_ok].
  intros p Hp Hcond. apply Z.leb_le in Hcond.
  assert (0 < a * a <= 2 ^ 30) by nia. assert (0 <= p * p <= 2 ^ 31) by nia.
  assert (0 <= p * p * (a * a) <= 2 ^ 61) by nia.
  rewrite !s64_id in Hcond by (rewrite ?s64_id by lia; lia).
  assert (p <= b) by (apply Z.le_ngt; intros Hgt; assert (b * b < p * p) by nia;
    pose proof (Z.mul_lt_mono_pos_r (a * a) (b * b) (p * p)); lia).
  split; [lia|]. apply total_ok. rewrite s32_id by lia. lia.
Qed.

Lemma inside_bound a b p : 0 <= a <= 2 ^ 15 -> 0 <= b <= 2 ^ 15 -> - b <= p <= b ->
  s64 (s64 (a * a) * s64 (s64 (b * b) - s64 (p * p))) <= a * a * (b * b).
Proof.
  intros Ha Hb Hp. assert (0 <= a * a <= 2 ^ 30) by nia. assert (0 <= b * b <= 2 ^ 30) by nia.
  assert (0 <= p * p <= b * b) by nia.
  rewrite (s64_id (a * a)), (s64_id (b * b)), (s64_id (p * p)) by lia.
  rewrite (s64_id (b * b - p * p)) by lia.
  assert (0 <= a * a * (b * b - p * p) <= 2 ^ 60) by nia. rewrite s64_id by lia. nia.
Qed.

Lemma canvas_fillellipse_total {F : Fuel} c x y rx ry col : canvas_ok c -> is_u8 col ->
  rx <= 2 ^ 15 -> ry <= 2 ^ 15 -> total canvas_ok (canvas_fillellipse c x y rx ry col).
Proof.
  intros Hc Hcol Hrx Hry. unfold canvas_fillellipse. destruct (_ || _) eqn:E; [by apply total_ok|].
  destruct (_ && _); [by apply canvas_pixel_total|]. destruct (Z.eqb_spec rx 0).
  { rewrite s32_id by lia. apply total_canvas, (total_for _ _ _ _ (ry + 1)); [lia| |lia..|done].
    intros k c1 _ Hc1. eapply total_bind; [by apply canvas_pixel_total|]. intros c2 Hc2.
    by apply total_ok. }
  destruct (Z.eqb_spec ry 0); [by apply draw_hline_total|]. cbn zeta. rewrite (s32_id (- ry)) by lia.
  apply total_canvas, (total_for _ _ _ _ (ry + 1)); [lia| |lia..|done]. intros py c1 Hpy Hc1.
  eapply total_bind.
  { apply chord_total; [lia..|]. pose proof (inside_bound rx ry py). lia. }
  intros px _. cbn zeta. eapply total_bind; [by apply draw_hline_total|]. intros c2 Hc2.
  by apply total_ok.
Qed.

Lemma canvas_ellipse_total {F : Fuel} c x y rx ry col : canvas_ok c -> is_u8 col ->
  rx <= 2 ^ 15 -> ry <= 2 ^ 15 -> total canvas_ok (canvas_ellipse c x y rx ry col).
Proof.
  intros Hc Hcol Hrx Hry. unfold canvas_ellipse. destruct (_ || _) eqn:E; [by apply total_ok|].
  destruct (_ && _); [by apply canvas_pixel_total|]. eapply (total_bind canvas_ok).
  - apply (loop_rule _ (fun '(px, c) => - rx <= px <= rx + 1 /\ canvas_ok c) canvas_ok
             (fun '(px, _) => rx + 2 - px)); [rewrite s32_id by lia; split; [lia|done]| | |].
    + intros [px c1] [Hpx _]. lia.
    + rewrite s32_id by lia. lia.
    + intros [px c1] [Hpx Hc1]. cbn zeta.
      destruct (Z.ltb_spec rx px); [right; by exists c1|].
      destruct (Z.eqb_spec rx 0); [right; by exists c1|]. left.
      destruct (chord_total rx ry (s64 (s64 (ry * ry) * s64 (s64 (rx * rx) - s64 (px * px)))) spare)
        as (py & -> & _); [lia..| |]; [pose proof (inside_bound ry rx px); lia|]. ok.
      destruct (canvas_pixel_total c1 (s32 (x + px)) (s32 (y + s32 (py - 1))) col Hc1 Hcol)
        as (c2 & -> & Hc2). ok.
      destruct (canvas_pixel_total c2 (s32 (x + px)) (s32 (y - s32 (py - 1))) col Hc2 Hcol)
        as (c3 & -> & Hc3). ok.
      eexists. split; [reflexivity|]. rewrite s32_id by lia. split; [split; [lia|done]|lia].
  - intros c1 Hc1. destruct (rx =? 0); [|by apply total_ok]. rewrite s32_id by lia.
    apply total_canvas, (total_for _ _ _ _ (ry + 1)); [lia| |lia..|done].
    intros k c2 _ Hc2. eapply total_bind; [by apply canvas_pixel_total|]. intros c3 Hc3.
    by apply total_ok.
Qed.

(** ** Polygons *)

Lemma buf_get_total (P : Z -> Prop) (l : list Z) i : Forall P l -> 0 <= i < Z.of_nat (length l) ->
  total P (buf_get l i).
Proof.
  intros Hl Hi. destruct (buf_get_inb l i Hi) as (v & Hv & ->). apply total_ok.
  rewrite Forall_lookup in Hl. by eapply Hl.
Qed.

Lemma Forall_True (l : list Z) : Forall (fun _ => True) l.
Proof. by apply Forall_forall. Qed.

Lemma canvas_polygon_total {F : Fuel} c xs ys n col : canvas_ok c -> is_u8 col ->
  n = Z.of_nat (length xs) -> length ys = length xs -> n < 2 ^ 31 -> Forall coord xs -> Forall coord ys ->
  total canvas_ok (canvas_polygon c xs ys n col).
Proof.
  intros Hc Hcol Hxs Hys Hn Hcx Hcy. unfold canvas_polygon. destruct (Z.ltb_spec n 2); [by apply total_ok|].
  apply total_canvas, (total_for _ _ _ _ n); [done| |lia..|done].
  intros i c1 Hi Hc1. cbn zeta. rewrite s32_id by lia.
  pose proof (rem_range (i + 1) n ltac:(lia) ltac:(lia)).
  do 4 (eapply (total_bind coord); [apply buf_get_total; [done|lia]|]; intros ? ?).
  eapply total_bind; [by apply canvas_line_total|]. intros c2 Hc2. by apply total_ok.
Qed.

Lemma swap_int_total l i j : 0 <= i < Z.of_nat (length l) -> 0 <= j < Z.of_nat (length l) ->
  total (fun l' => length l' = length l) (swap_int l i j).
Proof.
  intros Hi Hj. unfold swap_int.
  do 2 (eapply (total_bind (fun _ => True)); [by apply buf_get_total; [apply Forall_True|]|]; intros ? _).
  rewrite buf_set_ok by lia. ok. rewrite buf_set_ok by (rewrite length_insert; lia).
  apply total_ok. by rewrite !length_insert.
Qed.

Lemma sort_ints_total l n : n = Z.of_nat (length l) -> n < 2 ^ 31 ->
  total (fun l' => length l' = length l) (sort_ints l n).
Proof.
  intros Hn Hn31. unfold sort_ints. eapply total_bind.
  - apply (total_while (fun '(i, l') => 0 <= i <= n /\ length l' = length l) (fun '(i, _) => n - i));
      [split; [lia|done]|lia|].
    intros [i l1] [Hi Hl1] Hc. apply Z.ltb_lt in Hc. split; [lia|]. eapply total_bind.
    + apply (total_while (fun '(j, l') => 0 <= j <= n /\ length l' = length l) (fun '(j, _) => n - j));
        [rewrite s32_id by lia; split; [lia|done]|rewrite s32_id by lia; lia|].
      intros [j l2] [Hj Hl2] Hc2. apply Z.ltb_lt in Hc2. split; [lia|].
      do 2 (eapply (total_bind (fun _ => True)); [apply buf_get_total; [apply Forall_True|lia]|]; intros ? _).
      eapply (total_bind (fun l' : list Z => length l' = length l)).
      * destruct (_ <? _); [|by apply total_ok].
        destruct (swap_int_total l2 i j) as (l3 & -> & H3); [lia..|]. apply total_ok. congruence.
      * intros l3 H3. apply total_ok. rewrite s32_id by lia. split; [split; [lia|done]|lia].
    + intros [j l2] [[_ Hl2] _]. apply total_ok. rewrite s32_id by lia. split; [split; [lia|done]|lia].
  - intros [i l'] [[_ H] _]. by apply total_ok.
Qed.

Lemma scan_edge_total xs ys n y i l : n = Z.of_nat (length xs) -> length ys = length xs ->
  n <= POLYGON_MAX_POINTS -> 0 <= i < n -> Z.of_nat (length l) <= i ->
  total (fun l' => Z.of_nat (length l') <= i + 1) (scan_edge xs ys n y i l).
Proof.
  intros Hxs Hys Hn Hi Hl. apply total_safe; [|by apply scan_edge_safe].
  pose proof (scan_edge_safe xs ys n y i l Hxs Hys Hn Hi Hl) as Hs. revert Hs.
  unfold scan_edge. cbn zeta.
  repeat match goal with |- context [buf_get ?a ?b] =>
    let E := fresh in destruct (buf_get a b) eqn:E; ok;
    [|done|done|unfold buf_get in E; destruct (0 <=? b); [destruct (a !! Z.to_nat b)|]; done] end.
  repeat match goal with |- context [if ?b then _ else _] => destruct b end; eauto; done.
Qed.

Lemma scan_line_total xs ys n y : n = Z.of_nat (length xs) -> length ys = length xs ->
  0 <= n <= POLYGON_MAX_POINTS ->
  total (fun '(_, l) => Z.of_nat (length l) <= n)
    (while_ (Z.to_nat n) (fun '(i, _) => i <? n)
       (fun '(i, l) => l ← scan_edge xs ys n y i l; Ok (s32 (i + 1), l)) (0, [])).
Proof.
  intros Hxs Hys Hn.
  destruct (total_while (fun '(i, l) => 0 <= i <= n /\ Z.of_nat (length l) <= i) (fun '(i, _) => n - i)
    (Z.to_nat n) (fun '(i, _) => i <? n)
    (fun '(i, l) => l ← scan_edge xs ys n y i l; Ok (s32 (i + 1), l)) (0, []))
    as ([i l] & -> & [Hi Hl] & _); [cbn; lia|lia| |apply total_ok; lia].
  intros [i l] [Hi Hl] Hc. apply Z.ltb_lt in Hc. split; [lia|].
  eapply total_bind; [apply scan_edge_total; try done; lia|]. intros l' Hl'. cbv beta in Hl'.
  apply total_ok. unfold POLYGON_MAX_POINTS in Hn. rewrite s32_id by lia. lia.
Qed.

Lemma spans_total c l y col (k : Z) : canvas_ok c -> is_u8 col ->
  Z.of_nat (length l) <= POLYGON_MAX_POINTS ->
  total (fun '(k', c) => k' = k /\ canvas_ok c)
    ('(_, c) ← while_ (Z.to_nat (Z.of_nat (length l)))
       (fun '(i, _) => s32 (i + 1) <? Z.of_nat (length l))
       (fun '(i, c) =>
          a ← buf_get l i; b ← buf_get l (s32 (i + 1));
          c ← draw_hline c y a b col; Ok (s32 (i + 2), c))
       (0, c);
     Ok (k, c)).
Proof.
  intros Hc Hcol Hl. unfold POLYGON_MAX_POINTS in Hl. eapply total_bind.
  - apply (total_while (fun '(i, c) => 0 <= i <= 17 /\ canvas_ok c)
             (fun '(i, _) => Z.max 0 (Z.of_nat (length l) - i))); [split; [lia|done]|lia|].
    intros [i c1] [Hi Hc1] Hcond. apply Z.ltb_lt in Hcond. rewrite !s32_id in * by lia. split; [lia|].
    do 2 (eapply (total_bind (fun _ => True)); [apply buf_get_total; [apply Forall_True|lia]|]; intros ? _).
    eapply total_bind; [by apply draw_hline_total|]. intros c2 Hc2. apply total_ok.
    split; [split; [lia|done]|lia].
  - intros [i c1] [[_ H1] _]. by apply total_ok.
Qed.

Lemma canvas_fillpolygon_total c xs ys n col : canvas_ok c -> is_u8 col ->
  n = Z.of_nat (length xs) -> length ys = length xs ->
  total canvas_ok (canvas_fillpolygon c xs ys n col).
Proof.
  intros Hc Hcol Hxs Hys. unfold canvas_fillpolygon. destruct (_ || _) eqn:E; [by apply total_ok|].
  assert (3 <= n <= POLYGON_MAX_POINTS) as Hn by lia.
  do 2 (eapply (total_bind (fun _ => True)); [apply buf_get_total; [apply Forall_True|lia]|]; intros ? _).
  eapply total_bind.
  { apply (total_while (fun '(i, _, _) => 0 <= i <= n) (fun '(i, _, _) => n - i)); [lia..|].
    intros [[i u] v] Hi Hcond. apply Z.ltb_lt in Hcond. split; [lia|].
    eapply (total_bind (fun _ => True)); [apply buf_get_total; [apply Forall_True|lia]|]. intros yi _.
    apply total_ok. unfold POLYGON_MAX_POINTS in Hn. rewrite s32_id by lia. lia. }
  intros [[i u] v] _. cbn zeta. change CANVAS_HEIGHT with 200.
  set (lo := if u <? 0 then 0 else u). set (hi := if 200 <=? v then 200 - 1 else v).
  assert (0 <= lo /\ hi < 200) as [Hlo Hhi]
    by (subst lo hi; destruct (u <? 0) eqn:?, (200 <=? v) eqn:?; lia).
  apply total_canvas, (total_for _ _ _ _ (hi + 1)); [lia| |lia..|done].
  intros y c1 _ Hc1. eapply total_bind; [apply scan_line_total; try done; lia|].
  intros [j l] Hl. cbv beta iota in Hl. cbn zeta. destruct (_ <? 2); [by apply total_ok|].
  unfold POLYGON_MAX_POINTS in Hn.
  eapply total_bind; [apply sort_ints_total; [done|lia]|]. intros l' Hl'. cbv beta in Hl'.
  rewrite <- Hl'. apply spans_total; [done..|]. unfold POLYGON_MAX_POINTS. lia.
Qed.

(** Commands whose numbers stay within the range of the drawing arithmetic. *)
Definition drawable (cmd : command) : Prop :=
  match cmd with
  | CLEAR _ | PIXEL _ _ _ => True
  | LINE x1 y1 x2 y2 _ => coord x1 /\ coord y1 /\ coord x2 /\ coord y2
  | RECT x y w h _ | FILLRECT x y w h _ => coord x /\ coord y /\ coord (x + w) /\ coord (y + h)
  | CIRCLE _ _ r _ | FILLCIRCLE _ _ r _ => r <= 2 ^ 28
  | TRIANGLE x1 y1 x2 y2 x3 y3 _ | FILLTRIANGLE x1 y1 x2 y2 x3 y3 _ =>
      coord x1 /\ coord y1 /\ coord x2 /\ coord y2 /\ coord x3 /\ coord y3
  | ELLIPSE _ _ rx ry _ | FILLELLIPSE _ _ rx ry _ => rx <= 2 ^ 15 /\ ry <= 2 ^ 15
  | POLYGON pts _ => Forall coord (map fst pts) /\ Forall coord (map snd pts)
  | FILLPOLYGON _ _ => True
  end.

Lemma exec_total {F : Fuel} cmd c : canvas_ok c -> wf_command cmd -> drawable cmd -> total canvas_ok (exec cmd c).
Proof.
  intros Hc [_ Hwf] Hd. pose proof u8_range as Hu. destruct cmd; cbn [exec drawable] in *;
    repeat match goal with H : _ /\ _ |- _ => destruct H end.
  - apply total_safe; [|by apply canvas_clear_safe]. destruct Hc as [Hl _]. unfold canvas_len in Hl.
    unfold canvas_clear. rewrite Hl, Z.ltb_irrefl. eauto.
  - by apply canvas_pixel_total.
  - by apply canvas_line_total.
  - by apply canvas_rect_total.
  - by apply canvas_fillrect_total.
  - by apply canvas_circle_total.
  - by apply canvas_fillcircle_total.
  - by apply canvas_triangle_total.
  - by apply canvas_filltriangle_total.
  - by apply canvas_ellipse_total.
  - by apply canvas_fillellipse_total.
  - apply canvas_polygon_total; try done; rewrite ?length_map; try done; lia.
  - apply canvas_fillpolygon_total; try done; by rewrite ?length_map.
Qed.

Lemma exec_all_total {F : Fuel} cmds c : canvas_ok c -> Forall wf_command cmds -> Forall drawable cmds ->
  total canvas_ok (exec_all cmds c).
Proof.
  intros Hc Hwf. revert c Hc. induction Hwf as [|cmd cmds Hcmd _ IH]; intros c Hc Hd; [by apply total_ok|].
  inversion Hd. subst. cbn [exec_all]. eapply total_bind; [by apply exec_total|]. auto.
Qed.

Lemma render_shown {F : Fuel} c cmds : canvas_ok c -> Forall wf_command cmds -> Forall drawable cmds ->
  exists c0 c', canvas_clear c 0 = Ok c0 /\ exec_all cmds c0 = Ok c'
  /\ render c (show_program cmds) = Ok (inr (c', true)) /\ canvas_ok c'.
Proof.
  intros Hc Hwf Hd. pose proof (canvas_clear_safe c 0 Hc) as Hs.
  destruct Hc as [Hl Hb]. unfold canvas_len in Hl.
  destruct (canvas_clear c 0) as [c0| | |] eqn:E0; [|done..|];
    [|unfold canvas_clear in E0; by rewrite Hl, Z.ltb_irrefl in E0].
  destruct (exec_all_total cmds c0 Hs Hwf Hd) as (c' & E & Hc').
  exists c0, c'. split; [done|]. split; [done|]. split; [|done].
  unfold render. rewrite E0. ok.
  rewrite run_lines_show; [by rewrite E|done|]. pose proof (show_program_length cmds). lia.
Qed.

(** * More turns

    [below r r']: [r'] is [r], unless [r] has not ended.  With more spare turns a
    drawing routine gives the same result or one that was not there before. *)
Definition below {A} (r r' : res A) : Prop := r = NoFuel \/ r' = r.

Lemma below_refl {A} (r : res A) : below r r.
Proof. by right. Qed.

Lemma below_bind {A B} (r r' : res A) (f f' : A -> res B) :
  below r r' -> (forall a, below (f a) (f' a)) -> below (r ≫= f) (r' ≫= f').
Proof. intros [->| ->] Hf; [by left|]. destruct r; cbn; [apply Hf|by right..]. Qed.

Lemma below_while {S} (cond : S -> bool) body body' k k' (s : S) :
  (k <= k')%nat -> (forall s, below (body s) (body' s)) -> below (while_ k cond body s) (while_ k' cond body' s).
Proof.
  intros Hk Hb. revert k' s Hk. induction k as [|k IH]; intros [|k'] s Hk; try lia; cbn [while_]; destruct (cond s);
    try (by left); try (by right); apply below_bind; auto with lia.
Qed.

Lemma below_loop {S R} (body body' : S -> res (S + R)) k k' (s : S) :
  (k <= k')%nat -> (forall s, below (body s) (body' s)) -> below (loop_ k body s) (loop_ k' body' s).
Proof.
  intros Hk Hb. revert k' s Hk. induction k as [|k IH]; intros [|k'] s Hk; try lia; cbn [loop_]; [by left..|].
  apply below_bind; [done|]. intros [s'|v]; [apply IH; lia|by right].
Qed.

Create HintDb more discriminated.
Ltac more :=
  repeat match goal with
    | |- below ?r ?r => apply below_refl
    | |- below (mbind _ _) (mbind _ _) => apply below_bind; [|intros ?]
    | |- below (while_ _ _ _ _) (while_ _ _ _ _) => apply below_while; [unfold spare in *; lia|intros ?]
    | |- below (loop_ _ _ _) (loop_ _ _ _) => apply below_loop; [unfold spare in *; lia|intros ?]
    | |- below (match ?x with _ => _ end) _ => destruct x
    | |- below _ _ => solve [eauto with more]
    end.

Section More.
Context (F F' : Fuel) (HF : (F <= F')%nat).

Lemma line_more c x1 y1 x2 y2 col : below (canvas_line (F := F) c x1 y1 x2 y2 col) (canvas_line (F := F') c x1 y1 x2 y2 col).
Proof using HF. unfold canvas_line. more. Qed.
#[local] Hint Resolve line_more : more.
Lemma rect_more c x y w h col : below (canvas_rect (F := F) c x y w h col) (canvas_rect (F := F') c x y w h col).
Proof using HF. unfold canvas_rect. more. Qed.
Lemma circle_more c x y r col : below (canvas_circle (F := F) c x y r col) (canvas_circle (F := F') c x y r col).
Proof using HF. unfold canvas_circle. more. Qed.
Lemma fillcircle_more c x y r col : below (canvas_fillcircle (F := F) c x y r col) (canvas_fillcircle (F := F') c x y r col).
Proof using HF. unfold canvas_fillcircle. more. Qed.
Lemma triangle_more c x1 y1 x2 y2 x3 y3 col :
  below (canvas_triangle (F := F) c x1 y1 x2 y2 x3 y3 col) (canvas_triangle (F := F') c x1 y1 x2 y2 x3 y3 col).
Proof using HF. unfold canvas_triangle. more. Qed.
#[local] Hint Resolve triangle_more : more.
Lemma filltriangle_more c x1 y1 x2 y2 x3 y3 col :
  below (canvas_filltriangle (F := F) c x1 y1 x2 y2 x3 y3 col) (canvas_filltriangle (F := F') c x1 y1 x2 y2 x3 y3 col).
Proof using HF. unfold canvas_filltriangle. more. Qed.
Lemma ellipse_more c x y rx ry col : below (canvas_ellipse (F := F) c x y rx ry col) (canvas_ellipse (F := F') c x y rx ry col).
Proof using HF. unfold canvas_ellipse. more. Qed.
Lemma fillellipse_more c x y rx ry col :
  below (canvas_fillellipse (F := F) c x y rx ry col) (canvas_fillellipse (F := F') c x y rx ry col).
Proof using HF. unfold canvas_fillellipse. more. Qed.
Lemma polygon_more c xs ys n col : below (canvas_polygon (F := F) c xs ys n col) (canvas_polygon (F := F') c xs ys n col).
Proof using HF. unfold canvas_polygon. more. Qed.
#[local] Hint Resolve rect_more circle_more fillcircle_more filltriangle_more ellipse_more fillellipse_more polygon_more : more.

Lemma parse_polygon_more s c b : below (parse_polygon (F := F) s c b) (parse_polygon (F := F') s c b).
Proof using HF. unfold parse_polygon, accept. more. Qed.
#[local] Hint Resolve parse_polygon_more : more.
Lemma parse_line_more c l : below (parse_line (F := F) c l) (parse_line (F := F') c l).
Proof using HF. unfold parse_line, accept. more. Qed.
#[local] Hint Resolve parse_line_more : more.
Lemma run_lines_more fuel c s : below (run_lines (F := F) fuel c s) (run_lines (F := F') fuel c s).
Proof using HF.
  revert c s. induction fuel as [|fuel IH]; intros c s; cbn [run_lines]; more.
Qed.
#[local] Hint Resolve run_lines_more : more.
Lemma render_more c s : below (render (F := F) c s) (render (F := F') c s).
Proof using HF. unfold render. more. Qed.

End More.

(** C3: Whatever text the agent answers (any bytes, any numbers, truncated or
    malformed commands), parsing and rendering it never stores outside the
    canvas, never overruns the polygon arrays or the scan-line buffer and never
    reads outside them; the canvas stays 64000 bytes.  Numbers whose sums
    overflow can keep a drawing loop running for longer than they say, or
    forever; so this holds for every number [F] of further turns given to these
    loops, and a result once reached does not depend on it: a run that has not
    ended ([NoFuel]) is the beginning of the run with more turns. *)
Theorem render_memory_safe c response :
  canvas_ok c ->
  (forall F : Fuel,
     match render (F := F) c response with
     | Ok (inl _) => True
     | Ok (inr (c', _)) => canvas_ok c'
     | NoFuel => True
     | Fault | Panic _ => False
     end)
  /\ forall F F' : Fuel, (F <= F')%nat ->
       render (F := F) c response = NoFuel \/ render (F := F') c response = render (F := F) c response.
Proof. intros Hc. split; [intros F; exact (render_is_safe c response Hc)|]. intros F F' HF. by apply render_more. Qed.

Lemma blank_canvas_ok : canvas_ok blank_canvas.
Proof. split; [apply blank_canvas_len|apply blank_canvas_u8]. Qed.

Lemma render_memory_safe_witness :
  match render (F := 7%nat) blank_canvas (cstr "LINE -1073741824 0 1073741824 0 1" ++ [10] ++ cstr "FILLPOLYGON 3 7 99999999999 7 7 0 -1 300") with
  | Ok (inl _) => True
  | Ok (inr (c', _)) => canvas_ok c'
  | NoFuel => True
  | Fault | Panic _ => False
  end.
Proof.
  exact (proj1 (render_memory_safe blank_canvas
    (cstr "LINE -1073741824 0 1073741824 0 1" ++ [10] ++ cstr "FILLPOLYGON 3 7 99999999999 7 7 0 -1 300") blank_canvas_ok) 7%nat).
Defined.

(** C4: Rendering terminates with a picture: for every program whose coordinates
    are within 2^28, radii within 2^28 and ellipse radii within 2^15, every loop of
    every drawing routine ends within its bound, and rendering the program's text
    returns the canvas that the program's operations draw, 64000 bytes, with [END]
    seen. *)
Theorem render_returns {F : Fuel} c cmds :
  canvas_ok c -> Forall wf_command cmds -> Forall drawable cmds ->
  exists c0 c', canvas_clear c 0 = Ok c0 /\ exec_all cmds c0 = Ok c'
  /\ render c (show_program cmds) = Ok (inr (c', true)) /\ canvas_ok c'.
Proof. apply render_shown. Qed.

Lemma house_drawable : Forall wf_command house /\ Forall drawable house.
Proof.
  split; unfold house, wf_command, drawable, coord, is_s32; repeat constructor; simpl; lia.
Qed.

Lemma render_returns_witness :
  exists c0 c', canvas_clear blank_canvas 0 = Ok c0 /\ exec_all (F := 0%nat) house c0 = Ok c'
  /\ render (F := 0%nat) blank_canvas (show_program house) = Ok (inr (c', true)) /\ canvas_ok c'.
Proof.
  exact (render_returns (F := 0%nat) blank_canvas house blank_canvas_ok (proj1 house_drawable) (proj2 house_drawable)).
Defined.
