(* ===== verification/Ai.v ===== *)
(** Model of src/ai.c: the kernel's side of the drawing-agent protocol on the
    serial line.

    The state of the [ai] object is the record [ai]; every function that holds
    [ai.lock] from beginning to end is one function on that record, and
    [aiquery], which drops the lock while it sleeps, is cut at its [sleep]:
    [aiquery_begin], [ai_request] (the bytes it sends), [aiquery_check] (one
    turn of its waiting loop) and [aiquery_end].  The field [woken] is the
    scheduler's side of the channel [&ai]: [sleep] clears it, [wakeup] sets
    it. *)
From stdpp Require Import base strings numbers list.
From S2P Require Import Prelude CString.
Local Open Scope Z_scope.

Definition AI_PROMPT_MAX : Z := 512.
Definition AI_RESPONSE_MAX : Z := 32768.
Definition AI_LINE_MAX : Z := 1024.
Definition AI_TIMEOUT_TICKS : Z := 500000.

Record ai : Type := mkAi {
  active : bool;
  draining : bool;
  suppress_console : bool;
  in_response : bool;
  complete : bool;
  failed : bool;
  response_len : Z;
  line_len : Z;
  response : list Z;
  line : list Z;
  woken : bool }.

(** The four ways the code updates the record. *)
Definition set_line (s : ai) (len : Z) (l : list Z) : ai :=
  mkAi (active s) (draining s) (suppress_console s) (in_response s)
    (complete s) (failed s) (response_len s) len (response s) l (woken s).
Definition set_response (s : ai) (inr : bool) (len : Z) (r : list Z) : ai :=
  mkAi (active s) (draining s) (suppress_console s) inr
    (complete s) (failed s) len (line_len s) r (line s) (woken s).
Definition set_woken (s : ai) (w : bool) : ai :=
  mkAi (active s) (draining s) (suppress_console s) (in_response s)
    (complete s) (failed s) (response_len s) (line_len s) (response s) (line s) w.
Definition set_phase (s : ai) (act drn sup cmp fld : bool) : ai :=
  mkAi act drn sup (in_response s) cmp fld (response_len s) (line_len s)
    (response s) (line s) (woken s).

Definition streq (lhs rhs : list Z) : bool :=
  if strlen lhs =? strlen rhs then strncmp lhs rhs (length lhs) =? 0 else false.

Definition ai_wakeup (s : ai) : ai := set_woken s true.

Definition ai_finish_locked (fld : bool) (s : ai) : ai :=
  ai_wakeup (set_phase s false false false true fld).

(** [for(i = 0; i < ai.line_len; i++) ai.response[ai.response_len++] = ai.line[i]]:
    [n] is the number of turns left. *)
Fixpoint append_loop (n : nat) (i len : Z) (line response : list Z)
    : res (Z * list Z) :=
  match n with
  | O => Ok (len, response)
  | S n =>
      c ← buf_get line i;
      response ← buf_set response len c;
      append_loop n (i + 1) (len + 1) line response
  end.

Definition ai_append_line_locked (s : ai) : res ai :=
  if AI_RESPONSE_MAX <=? response_len s + line_len s + 1
  then Ok (ai_finish_locked true s)
  else
    '(len, r) ← append_loop (Z.to_nat (line_len s)) 0 (response_len s)
                  (line s) (response s);
    r ← buf_set r len 10;
    r ← buf_set r (len + 1) 0;
    Ok (set_response s (in_response s) (len + 1) r).

(** The bytes [ai_send_str] and [ai_send_prompt] hand to [uartputc]. *)
Definition ai_send_str (s : string) : list Z := cstr s.

Definition ai_send_prompt (prompt : list Z) (promptlen : Z) : list Z :=
  map (fun c => if (c =? 10) || (c =? 13) then 32 else c)
    (take (Z.to_nat promptlen) prompt).

Definition aiinit (s : ai) : res ai :=
  r ← buf_set (response s) 0 0;
  l ← buf_set (line s) 0 0;
  Ok (mkAi false false false false false false 0 0 r l (woken s)).

Definition ai_should_suppress_console (s : ai) : bool := suppress_console s.
Definition ai_is_active (s : ai) : bool := active s || draining s.

(** What [ai_uart_rx] does with a complete line in [ai.line]. *)
Definition ai_handle_line (s : ai) : res ai :=
  if negb (in_response s) then
    if streq (c_string (line s)) (cstr "BEGIN_RESP") then
      r ← buf_set (response s) 0 0;
      Ok (set_response s true 0 r)
    else Ok s
  else if streq (c_string (line s)) (cstr "END_RESP") then
    Ok (ai_finish_locked false s)
  else ai_append_line_locked s.

Definition ai_uart_rx (c : Z) (s : ai) : res ai :=
  if negb (active s) && negb (draining s) then Ok s
  else if c =? 13 then Ok s
  else if negb (c =? 10) then
    if AI_LINE_MAX - 1 <=? line_len s then Ok (ai_finish_locked true s)
    else
      l ← buf_set (line s) (line_len s) c;
      Ok (set_line s (line_len s + 1) l)
  else
    l ← buf_set (line s) (line_len s) 0;
    let s := set_line s (line_len s) l in
    s ← ai_handle_line s;
    l ← buf_set (line s) 0 0;
    Ok (set_line s 0 l).

Definition ai_tick (s : ai) : ai := if active s then ai_wakeup s else s.

(** ** aiquery *)

(** Up to the first [release]: the arguments are checked and the object is
    claimed, or -1 is returned ([None]). *)
Definition aiquery_begin (promptlen maxlen : Z) (s : ai) : res (option ai) :=
  if (promptlen <? 0) || (AI_PROMPT_MAX <? promptlen) || (maxlen <=? 0)
  then Ok None
  else if active s || draining s then Ok None
  else
    r ← buf_set (response s) 0 0;
    l ← buf_set (line s) 0 0;
    Ok (Some (mkAi true false true false false false 0 0 r l (woken s))).

(** The bytes sent to the agent. *)
Definition ai_request (prompt : list Z) (promptlen : Z) : list Z :=
  ai_send_str "BEGIN_REQ" ++ [10] ++ ai_send_str "DRAW" ++ [10]
  ++ ai_send_prompt prompt promptlen
  ++ [10] ++ ai_send_str "END_REQ" ++ [10].

(** One turn of [while(!ai.complete)]: leave the loop, return -1, or sleep.
    [now - started] is [uint] arithmetic. *)
Inductive turn : Type :=
  | Leave
  | GiveUp (s : ai)
  | Sleep (s : ai).

Definition aiquery_check (killed : bool) (now started : Z) (s : ai) : turn :=
  if complete s then Leave
  else if killed then GiveUp (set_phase s false true false (complete s) (failed s))
  else if AI_TIMEOUT_TICKS <=? u32 (now - started)
  then GiveUp (set_phase s false true false (complete s) (failed s))
  else Sleep (set_woken s false).

(** After the loop: the return value and the caller's buffer. *)
Definition aiquery_end (buf : list Z) (maxlen : Z) (s : ai) : res (Z * list Z) :=
  if failed s || (maxlen <? response_len s + 1) then Ok (-1, buf)
  else
    let buf := take (Z.to_nat (response_len s)) (response s)
               ++ drop (Z.to_nat (response_len s)) buf in
    buf ← buf_set buf (response_len s) 0;
    Ok (response_len s, buf).

(** The bytes of an interrupt's worth of input, in order (the loop of
    [uartintr] while the agent is active). *)
Fixpoint ai_receive (bytes : list Z) (s : ai) : res ai :=
  match bytes with
  | [] => Ok s
  | c :: bytes => s ← ai_uart_rx c s; ai_receive bytes s
  end.

(** * The invariant of the object *)

Record ai_inv (s : ai) : Prop := {
  inv_response : length (response s) = Z.to_nat AI_RESPONSE_MAX;
  inv_line : length (line s) = Z.to_nat AI_LINE_MAX;
  inv_line_len : 0 <= line_len s < AI_LINE_MAX;
  inv_response_len : 0 <= response_len s < AI_RESPONSE_MAX;
  inv_nul : response s !! Z.to_nat (response_len s) = Some 0;
  inv_phase : active s && draining s = false;
  inv_suppress : suppress_console s = true -> active s = true;
  inv_complete : complete s = true -> ai_is_active s = false /\ woken s = true }.

Lemma finish_inv f s : ai_inv s -> ai_inv (ai_finish_locked f s).
Proof. intros []. constructor; simpl; done. Qed.

Lemma set_line_inv s len l :
  ai_inv s -> length l = length (line s) -> 0 <= len < AI_LINE_MAX ->
  ai_inv (set_line s len l).
Proof. intros [] Hl Hn. constructor; simpl; try done. congruence. Qed.

Lemma append_loop_spec n i len line response :
  0 <= i -> 0 <= len ->
  (Z.to_nat i + n <= length line)%nat -> (Z.to_nat len + n <= length response)%nat ->
  exists r, append_loop n i len line response = Ok (len + Z.of_nat n, r)
    /\ length r = length response
    /\ take (Z.to_nat len + n) r
       = take (Z.to_nat len) response ++ take n (drop (Z.to_nat i) line).
Proof.
  revert i len response. induction n as [|n IH]; intros i len rsp Hi Hlen H1 H2; simpl.
  - exists rsp. rewrite Nat.add_0_r, app_nil_r. split; [f_equal; f_equal; lia|done].
  - destruct (buf_get_inb line i) as (c & Hc & ->); [lia|]. ok.
    rewrite buf_set_ok by lia. ok.
    destruct (IH (i + 1) (len + 1) (<[Z.to_nat len := c]> rsp))
      as (r & -> & Hr & Ht); [lia| lia| lia |rewrite length_insert; lia|].
    exists r. rewrite length_insert in Hr. split; [f_equal; f_equal; lia|].
    split; [done|].
    replace (Z.to_nat len + S n)%nat with (Z.to_nat (len + 1) + n)%nat by lia.
    rewrite Ht. replace (Z.to_nat (len + 1)) with (S (Z.to_nat len)) by lia.
    rewrite take_insert_S by lia. rewrite <- app_assoc. f_equal.
    rewrite (drop_S line c (Z.to_nat i)) by done. simpl.
    by replace (Z.to_nat (i + 1)) with (S (Z.to_nat i)) by lia.
Qed.

(** What appending a line does: fail when it does not fit, and otherwise extend
    the response by the line and a newline, NUL-terminated. *)
Lemma append_spec s :
  ai_inv s ->
  if AI_RESPONSE_MAX <=? response_len s + line_len s + 1
  then ai_append_line_locked s = Ok (ai_finish_locked true s)
  else exists r,
    ai_append_line_locked s
      = Ok (set_response s (in_response s) (response_len s + line_len s + 1) r)
    /\ length r = length (response s)
    /\ r !! Z.to_nat (response_len s + line_len s + 1) = Some 0
    /\ take (Z.to_nat (response_len s + line_len s + 1)) r
       = take (Z.to_nat (response_len s)) (response s)
         ++ take (Z.to_nat (line_len s)) (line s) ++ [10].
Proof.
  intros [Hr Hl Hll Hrl _ _ _ _]. unfold ai_append_line_locked, AI_RESPONSE_MAX, AI_LINE_MAX in *.
  bcase; [done|].
  destruct (append_loop_spec (Z.to_nat (line_len s)) 0 (response_len s) (line s)
    (response s)) as (r & -> & Hlr & Ht); [lia..|]. ok.
  rewrite Z2Nat.id by lia.
  rewrite buf_set_ok by lia. ok. rewrite buf_set_ok by (rewrite length_insert; lia). ok.
  eexists. split; [reflexivity|]. rewrite !length_insert. split; [done|].
  split; [apply list_lookup_insert_eq; rewrite length_insert; lia|].
  rewrite take_insert_ge by lia.
  replace (Z.to_nat (response_len s + line_len s + 1))
    with (S (Z.to_nat (response_len s + line_len s))) by lia.
  rewrite take_insert_S by lia.
  replace (Z.to_nat (response_len s + line_len s))
    with (Z.to_nat (response_len s) + Z.to_nat (line_len s))%nat by lia.
  rewrite Ht. by rewrite <- app_assoc.
Qed.

Lemma append_inv s :
  ai_inv s -> exists s', ai_append_line_locked s = Ok s' /\ ai_inv s'.
Proof.
  intros Hs. pose proof (append_spec s Hs) as Ha. destruct (_ <=? _) eqn:E.
  - eexists. split; [exact Ha|]. by apply finish_inv.
  - destruct Ha as (r & -> & Hlr & Hn & _). eexists. split; [done|].
    destruct Hs. unfold AI_RESPONSE_MAX, AI_LINE_MAX in *.
    constructor; simpl; try done; unfold AI_RESPONSE_MAX in *; lia || congruence.
Qed.

Lemma handle_line_inv s :
  ai_inv s -> exists s', ai_handle_line s = Ok s' /\ ai_inv s'.
Proof.
  intros Hs. unfold ai_handle_line. repeat bcase.
  - pose proof Hs as [Hr ? ? ? ? ? ? ?]. unfold AI_RESPONSE_MAX in *.
    rewrite buf_set_ok by lia. ok. eexists. split; [done|].
    constructor; simpl; try done; unfold AI_RESPONSE_MAX in *;
      rewrite ?length_insert; try lia.
    apply list_lookup_insert_eq. lia.
  - by eauto.
  - eexists. split; [done|]. by apply finish_inv.
  - by apply append_inv.
Qed.

Lemma ai_uart_rx_inv c s :
  ai_inv s -> exists s', ai_uart_rx c s = Ok s' /\ ai_inv s'.
Proof.
  intros Hs. unfold ai_uart_rx. pose proof Hs as [_ Hl Hll _ _ _ _ _].
  unfold AI_LINE_MAX in *.
  bcase; [by eauto|]. bcase; [by eauto|]. bcase; [bcase|].
  - eexists. split; [done|]. by apply finish_inv.
  - rewrite buf_set_ok by lia. ok. eexists. split; [done|].
    apply set_line_inv; [done|by rewrite length_insert|unfold AI_LINE_MAX; lia].
  - rewrite buf_set_ok by lia. ok.
    destruct (handle_line_inv (set_line s (line_len s)
      (<[Z.to_nat (line_len s) := 0]> (line s)))) as (s2 & -> & H2).
    { apply set_line_inv; [done|by rewrite length_insert|unfold AI_LINE_MAX; lia]. }
    ok. pose proof H2 as [_ Hl2 _ _ _ _ _ _]. unfold AI_LINE_MAX in *.
    rewrite buf_set_ok by lia. ok. eexists. split; [done|].
    apply set_line_inv; [done|by rewrite length_insert|unfold AI_LINE_MAX; lia].
Qed.

(** * The system: interrupts, the timer and any number of querying processes

    A world is the [ai] object and, for each process inside [aiquery], the
    tick at which it started and the size of its buffer. *)
Record world : Type := mkWorld { obj : ai; queries : list (nat * (Z * Z)) }.

Definition zeroed : ai :=
  mkAi false false false false false false 0 0
    (replicate (Z.to_nat AI_RESPONSE_MAX) 0) (replicate (Z.to_nat AI_LINE_MAX) 0) false.

Inductive astep : world -> world -> Prop :=
  | step_rx c a a' q :
      ai_uart_rx c a = Ok a' -> astep (mkWorld a q) (mkWorld a' q)
  | step_tick a q : astep (mkWorld a q) (mkWorld (ai_tick a) q)
  | step_begin p promptlen maxlen started a a' q :
      aiquery_begin promptlen maxlen a = Ok (Some a') ->
      astep (mkWorld a q) (mkWorld a' ((p, (started, maxlen)) :: q))
  | step_refused promptlen maxlen a q :
      aiquery_begin promptlen maxlen a = Ok None ->
      astep (mkWorld a q) (mkWorld a q)
  | step_sleep p started maxlen killed now a a' q :
      (p, (started, maxlen)) ∈ q -> aiquery_check killed now started a = Sleep a' ->
      astep (mkWorld a q) (mkWorld a' q)
  | step_give_up p started maxlen killed now a a' q1 q2 :
      aiquery_check killed now started a = GiveUp a' ->
      astep (mkWorld a (q1 ++ (p, (started, maxlen)) :: q2)) (mkWorld a' (q1 ++ q2))
  | step_return p started maxlen killed now a q1 q2 buf r :
      aiquery_check killed now started a = Leave -> aiquery_end buf maxlen a = Ok r ->
      astep (mkWorld a (q1 ++ (p, (started, maxlen)) :: q2)) (mkWorld a (q1 ++ q2)).

Inductive areach : world -> Prop :=
  | areach_init a : aiinit zeroed = Ok a -> areach (mkWorld a [])
  | areach_step w w' : areach w -> astep w w' -> areach w'.

Lemma begin_inv promptlen maxlen s :
  ai_inv s -> exists r, aiquery_begin promptlen maxlen s = Ok r
    /\ (forall s', r = Some s' -> ai_inv s' /\ 0 < maxlen
          /\ ai_is_active s = false /\ active s' = true /\ line_len s' = 0
          /\ in_response s' = false /\ failed s' = false).
Proof.
  intros [Hr Hl _ _ _ _ _ _]. unfold aiquery_begin, ai_is_active.
  unfold AI_RESPONSE_MAX, AI_LINE_MAX in *.
  bcase; [by eexists|]. bcase; [by eexists|].
  rewrite !buf_set_ok by lia. ok. eexists. split; [done|]. intros s' [= <-].
  repeat split; simpl; rewrite ?length_insert; unfold AI_LINE_MAX, AI_RESPONSE_MAX;
    try (done || lia).
  apply list_lookup_insert_eq. lia.
Qed.

Lemma begin_free promptlen maxlen s :
  ai_inv s -> ai_is_active s = false ->
  (promptlen <? 0) || (AI_PROMPT_MAX <? promptlen) || (maxlen <=? 0) = false ->
  exists s', aiquery_begin promptlen maxlen s = Ok (Some s')
    /\ response_len s' = 0 /\ complete s' = false.
Proof.
  intros [Hr Hl _ _ _ _ _ _] Ha Harg. unfold aiquery_begin, ai_is_active in *.
  rewrite Harg, Ha. unfold AI_RESPONSE_MAX, AI_LINE_MAX in *.
  rewrite !buf_set_ok by lia. ok. by eexists.
Qed.

Lemma check_inv killed now started s :
  ai_inv s ->
  match aiquery_check killed now started s with
  | Leave => complete s = true
  | GiveUp s' => ai_inv s' /\ complete s' = false
  | Sleep s' => ai_inv s' /\ complete s' = false
  end.
Proof.
  intros []. unfold aiquery_check. destruct (complete s) eqn:E; [done|].
  bcase; [|bcase]; (split; [constructor; simpl|simpl]); try done; by rewrite E.
Qed.

(** [aiquery_end] never writes outside a buffer of [maxlen] bytes. *)
Lemma end_safe buf maxlen s :
  ai_inv s -> Z.of_nat (length buf) = maxlen ->
  exists rc buf', aiquery_end buf maxlen s = Ok (rc, buf')
    /\ length buf' = length buf /\ -1 <= rc < maxlen.
Proof.
  intros [Hr _ _ Hrl _ _ _ _] Hb. unfold aiquery_end.
  unfold AI_RESPONSE_MAX in *. bcase; [exists (-1), buf; repeat split; lia|].
  rewrite buf_set_ok by (rewrite length_app, length_take, length_drop; lia).
  ok. do 2 eexists. split; [done|].
  rewrite length_insert, length_app, length_take, length_drop. lia.
Qed.

Lemma aiinit_inv s :
  length (response s) = Z.to_nat AI_RESPONSE_MAX ->
  length (line s) = Z.to_nat AI_LINE_MAX ->
  exists s', aiinit s = Ok s' /\ ai_inv s' /\ ai_is_active s' = false.
Proof.
  intros Hr Hl. unfold aiinit, AI_RESPONSE_MAX, AI_LINE_MAX in *.
  rewrite !buf_set_ok by lia. ok. eexists. split; [done|].
  repeat split; simpl; rewrite ?length_insert; unfold AI_LINE_MAX, AI_RESPONSE_MAX;
    try (done || lia).
  apply list_lookup_insert_eq. lia.
Qed.

Lemma tick_inv s : ai_inv s -> ai_inv (ai_tick s).
Proof.
  intros Hs. unfold ai_tick. bcase; [|done]. destruct Hs as [? ? ? ? ? ? ? Hcmp]. constructor; simpl; try done.
  intros H. by destruct (Hcmp H).
Qed.

Lemma areach_inv w : areach w -> ai_inv (obj w).
Proof.
  induction 1 as [a Ha|w w' _ IH Hs].
  - destruct (aiinit_inv zeroed) as (a' & E & Hi & _); [apply length_replicate..|].
    rewrite Ha in E. injection E as <-. exact Hi.
  - destruct Hs as [c a a' q Hrx|a q|p pl ml st a a' q Hb| |p st ml k now a a' q _ Hc
      |p st ml k now a a' q1 q2 Hc|]; simpl in *; try done.
    + destruct (ai_uart_rx_inv c a IH) as (? & E & ?). congruence.
    + by apply tick_inv.
    + destruct (begin_inv pl ml a IH) as (r & E & Hr). rewrite Hb in E.
      injection E as <-. by apply Hr.
    + pose proof (check_inv k now st a IH) as H. rewrite Hc in H. apply H.
    + pose proof (check_inv k now st a IH) as H. rewrite Hc in H. apply H.
Qed.

(** * Receiving lines *)

Definition no_cr (s : list Z) : list Z := filter (fun c => c <> 13) s.

Lemma receive_app b1 b2 s :
  ai_receive (b1 ++ b2) s = (s ← ai_receive b1 s; ai_receive b2 s).
Proof.
  revert s. induction b1 as [|c b1 IH]; intros s; [done|]. simpl.
  destruct (ai_uart_rx c s); [|done..]. ok. apply IH.
Qed.

(** Carriage returns are ignored wherever they occur. *)
Lemma receive_no_cr bytes s : ai_receive bytes s = ai_receive (no_cr bytes) s.
Proof.
  revert s. induction bytes as [|c bytes IH]; intros s; [done|].
  unfold no_cr. rewrite filter_cons. case_decide as Hc.
  - simpl. destruct (ai_uart_rx c s); [|done..]. apply IH.
  - assert (c = 13) as -> by lia. simpl.
    assert (ai_uart_rx 13 s = Ok s) as ->; [|apply IH].
    unfold ai_uart_rx. by bcase.
Qed.

(** A line of the protocol: no line end, no NUL, short enough for [ai.line]. *)
Definition is_line (l : list Z) : Prop :=
  Forall (fun c => 0 < c < 256 /\ c <> 10 /\ c <> 13) l
  /\ Z.of_nat (length l) < AI_LINE_MAX.

(** The text of a sequence of lines. *)
Fixpoint unlines (ls : list (list Z)) : list Z :=
  match ls with
  | [] => []
  | l :: ls => l ++ [10] ++ unlines ls
  end.

(** The object is receiving, a line begins, and [rsp] is the response so far. *)
Record at_line (s : ai) (inr : bool) (rsp : list Z) : Prop := {
  at_inv : ai_inv s;
  at_active : ai_is_active s = true;
  at_line_len : line_len s = 0;
  at_in_response : in_response s = inr;
  at_len : response_len s = Z.of_nat (length rsp);
  at_text : take (length rsp) (response s) = rsp }.

(** The object has finished with outcome [f] and response [rsp]. *)
Record finished (s : ai) (f : bool) (rsp : list Z) : Prop := {
  fin_inv : ai_inv s;
  fin_active : ai_is_active s = false;
  fin_complete : complete s = true;
  fin_failed : failed s = f;
  fin_len : response_len s = Z.of_nat (length rsp);
  fin_text : take (length rsp) (response s) = rsp }.

Lemma streq_eq l1 l2 :
  is_cstr l1 -> is_cstr l2 -> streq l1 l2 = bool_decide (l1 = l2).
Proof.
  intros H1 H2. unfold streq, strlen.
  destruct (Z.eqb_spec (Z.of_nat (length l1)) (Z.of_nat (length l2))) as [E|E].
  - apply eq_true_iff_eq. rewrite bool_decide_eq_true, Z.eqb_eq.
    rewrite strncmp_eq_iff by done.
    rewrite firstn_all, (firstn_all2 l2) by lia. done.
  - symmetry. apply bool_decide_eq_false. congruence.
Qed.

Lemma receive_chars l : forall s pre,
  ai_inv s -> ai_is_active s = true -> line_len s = Z.of_nat (length pre) ->
  take (length pre) (line s) = pre ->
  Forall (fun c => 0 < c < 256 /\ c <> 10 /\ c <> 13) l ->
  Z.of_nat (length pre + length l) < AI_LINE_MAX ->
  exists lb, ai_receive l s = Ok (set_line s (Z.of_nat (length pre + length l)) lb)
    /\ length lb = length (line s)
    /\ take (length pre + length l) lb = pre ++ l.
Proof.
  induction l as [|c l IH]; intros s pre Hs Hact Hlen Htk Hl Hmax; simpl.
  - exists (line s). rewrite Nat.add_0_r, app_nil_r, <- Hlen. split; [|done].
    by destruct s.
  - apply Forall_cons in Hl as [(Hc & Hc10 & Hc13) Hl]. simpl in Hmax.
    pose proof Hs as [_ Hll _ _ _ _ _ _]. unfold AI_LINE_MAX in *.
    assert (Hrx : ai_uart_rx c s = Ok (set_line s (line_len s + 1)
                    (<[length pre := c]> (line s)))).
    { unfold ai_uart_rx. unfold ai_is_active in Hact.
      replace (negb (active s) && negb (draining s)) with false by lia.
      replace (c =? 13) with false by lia. replace (c =? 10) with false by lia.
      simpl negb. cbn iota. replace (_ <=? line_len s) with false by (unfold AI_LINE_MAX; lia).
      rewrite buf_set_ok by lia. ok. by rewrite Hlen, Nat2Z.id. }
    rewrite Hrx. ok.
    destruct (IH (set_line s (line_len s + 1) (<[length pre:=c]> (line s)))
      (pre ++ [c])) as (lb & -> & Hlb & Hlt); try done.
    + apply set_line_inv; [done|by rewrite length_insert|unfold AI_LINE_MAX; lia].
    + simpl. rewrite length_app. simpl. lia.
    + rewrite length_app. simpl. rewrite Nat.add_1_r, take_insert_S by lia. by rewrite Htk.
    + rewrite length_app. simpl. lia.
    + rewrite length_app in *. simpl in Hlb, Hlt. rewrite length_insert in Hlb.
      exists lb. simpl. replace (length pre + S (length l))%nat
        with (length pre + 1 + length l)%nat by lia.
      by rewrite Hlt, <- app_assoc.
Qed.

(** A received line reaches [ai_handle_line] as it was sent. *)
Lemma receive_line l s inr rsp :
  at_line s inr rsp -> is_line l ->
  exists s1,
    ai_receive (l ++ [10]) s
      = (s2 ← ai_handle_line s1; lb ← buf_set (line s2) 0 0; Ok (set_line s2 0 lb))
    /\ ai_inv s1 /\ ai_is_active s1 = true /\ in_response s1 = inr
    /\ response_len s1 = Z.of_nat (length rsp) /\ response s1 = response s
    /\ line_len s1 = Z.of_nat (length l) /\ take (length l) (line s1) = l
    /\ c_string (line s1) = l.
Proof.
  intros [Hs Hact Hll Hir Hrl Htxt] [Hl Hlen].
  destruct (receive_chars l s [] Hs Hact) as (lb & Hrecv & Hlb & Htk);
    [done..|]. simpl in *.
  pose proof Hs as [_ Hlg _ _ _ _ _ _]. unfold AI_LINE_MAX in *.
  exists (set_line s (Z.of_nat (length l)) (<[length l := 0]> lb)).
  rewrite receive_app, Hrecv. ok. split.
  { unfold ai_is_active in Hact. simpl. unfold ai_uart_rx. simpl.
    replace (negb (active s) && negb (draining s)) with false by lia.
    rewrite buf_set_ok by lia. ok. rewrite Nat2Z.id. unfold set_line at 1. simpl.
    unfold set_line. simpl. destruct (ai_handle_line _) as [s2| | |]; try done. ok.
    by destruct (buf_set (line s2) 0 0). }
  split.
  { apply set_line_inv; [done|by rewrite length_insert|unfold AI_LINE_MAX; lia]. }
  do 5 (split; [done|]). simpl.
  rewrite take_insert_ge by lia. split; [done|].
  rewrite insert_take_drop by lia. rewrite Htk. apply c_string_app.
  eapply Forall_impl; [exact Hl|]. simpl. lia.
Qed.

Lemma is_line_cstr l : is_line l -> is_cstr l.
Proof. intros [Hl _]. eapply Forall_impl; [exact Hl|]. simpl. lia. Qed.

Lemma literal_cstr : is_cstr (cstr "BEGIN_RESP") /\ is_cstr (cstr "END_RESP").
Proof. split; unfold is_cstr; cbn; repeat constructor. Qed.

Lemma literal_line : is_line (cstr "BEGIN_RESP") /\ is_line (cstr "END_RESP").
Proof.
  split; (split; [|done]); vm_compute; repeat (constructor; [by repeat split|]); constructor.
Qed.

(** The state after the line buffer has been reset. *)
Lemma reset_line s :
  ai_inv s -> exists lb, buf_set (line s) 0 0 = Ok lb /\ ai_inv (set_line s 0 lb).
Proof.
  intros Hs. pose proof Hs as [_ Hl _ _ _ _ _ _]. unfold AI_LINE_MAX in *.
  rewrite buf_set_ok by lia. eexists. split; [done|].
  apply set_line_inv; [done|by rewrite length_insert|unfold AI_LINE_MAX; lia].
Qed.

Lemma receive_noise l s rsp :
  at_line s false rsp -> is_line l -> l <> cstr "BEGIN_RESP" ->
  exists s', ai_receive (l ++ [10]) s = Ok s' /\ at_line s' false rsp.
Proof.
  intros Hat Hl Hne.
  destruct (receive_line l s false rsp Hat Hl)
    as (s1 & -> & Hs & Hact & Hir & Hrl & Hr & Hll & Htk & Hcs).
  unfold ai_handle_line. rewrite Hir, Hcs, streq_eq
    by (apply is_line_cstr, Hl || apply literal_cstr).
  rewrite bool_decide_eq_false_2 by done. simpl negb. cbn iota. ok.
  destruct (reset_line s1 Hs) as (lb & -> & Hi). ok. eexists. split; [done|].
  constructor; simpl; try done. rewrite Hr. apply Hat.
Qed.

Lemma receive_begin s rsp :
  at_line s false rsp ->
  exists s', ai_receive (cstr "BEGIN_RESP" ++ [10]) s = Ok s' /\ at_line s' true [].
Proof.
  intros Hat.
  destruct (receive_line (cstr "BEGIN_RESP") s false rsp Hat)
    as (s1 & -> & Hs & Hact & Hir & Hrl & Hr & Hll & Htk & Hcs).
  { apply literal_line. }
  unfold ai_handle_line. rewrite Hir, Hcs. simpl negb. cbn iota.
  replace (streq _ _) with true by reflexivity.
  pose proof Hs as [Hrg Hlg Hlr _ _ ? ? ?]. unfold AI_RESPONSE_MAX in *.
  rewrite buf_set_ok by lia. ok.
  destruct (reset_line (set_response s1 true 0 (<[Z.to_nat 0:=0]> (response s1))))
    as (lb & -> & Hi).
  { constructor; simpl; try done; rewrite ?length_insert; try done.
    apply list_lookup_insert_eq. lia. }
  ok. eexists. split; [done|]. by constructor.
Qed.

Lemma receive_end s rsp :
  at_line s true rsp ->
  exists s', ai_receive (cstr "END_RESP" ++ [10]) s = Ok s' /\ finished s' false rsp.
Proof.
  intros Hat.
  destruct (receive_line (cstr "END_RESP") s true rsp Hat)
    as (s1 & -> & Hs & Hact & Hir & Hrl & Hr & Hll & Htk & Hcs).
  { apply literal_line. }
  unfold ai_handle_line. rewrite Hir, Hcs. simpl negb. cbn iota.
  replace (streq _ _) with true by reflexivity. ok.
  destruct (reset_line _ (finish_inv false s1 Hs)) as (lb & -> & Hi). ok.
  eexists. split; [done|]. constructor; simpl; try done. rewrite Hr. apply Hat.
Qed.

Lemma receive_body l s rsp :
  at_line s true rsp -> is_line l -> l <> cstr "END_RESP" ->
  exists s', ai_receive (l ++ [10]) s = Ok s'
    /\ if AI_RESPONSE_MAX <=? Z.of_nat (length (rsp ++ l ++ [10]))
       then exists rsp', finished s' true rsp'
       else at_line s' true (rsp ++ l ++ [10]).
Proof.
  intros Hat Hl Hne.
  destruct (receive_line l s true rsp Hat Hl)
    as (s1 & -> & Hs & Hact & Hir & Hrl & Hr & Hll & Htk & Hcs).
  unfold ai_handle_line. rewrite Hir, Hcs. simpl negb. cbn iota.
  rewrite streq_eq by (apply is_line_cstr, Hl || apply literal_cstr).
  rewrite bool_decide_eq_false_2 by done.
  pose proof (append_spec s1 Hs) as Ha. rewrite Hrl, Hll in Ha.
  destruct (append_inv s1 Hs) as (s2 & E2 & Hs2).
  replace (Z.of_nat (length (rsp ++ l ++ [10])))
    with (Z.of_nat (length rsp) + Z.of_nat (length l) + 1)
    by (rewrite !length_app; simpl; lia).
  rewrite E2 in *. ok. destruct (reset_line s2 Hs2) as (lb & -> & Hi). ok.
  eexists. split; [done|]. destruct (_ <=? _) eqn:E.
  - injection Ha as ->. exists rsp. constructor; simpl; try done.
    rewrite Hr. apply Hat.
  - destruct Ha as (r & [= ->] & Hlr & _ & Ht).
    constructor; simpl; try done.
    + rewrite !length_app. simpl. lia.
    + rewrite !length_app. simpl. rewrite !Nat2Z.id in Ht.
      replace (length rsp + (length l + 1))%nat
        with (Z.to_nat (Z.of_nat (length rsp) + Z.of_nat (length l) + 1)) by lia.
      rewrite Ht, Htk, Hr. f_equal. apply Hat.
Qed.

Lemma receive_finished bytes s :
  ai_is_active s = false -> ai_receive bytes s = Ok s.
Proof.
  intros Ha. induction bytes as [|c bytes IH]; [done|]. simpl.
  unfold ai_is_active in Ha. unfold ai_uart_rx.
  replace (negb (active s) && negb (draining s)) with true by lia. ok. apply IH.
Qed.

Definition noise_line (l : list Z) : Prop := is_line l /\ l <> cstr "BEGIN_RESP".
Definition body_line (l : list Z) : Prop := is_line l /\ l <> cstr "END_RESP".

(** What the agent sends for a response [body], after unrelated lines
    [noise]. *)
Definition response_frame (noise body : list (list Z)) : list Z :=
  unlines noise ++ unlines [cstr "BEGIN_RESP"] ++ unlines body
  ++ unlines [cstr "END_RESP"].

Lemma unlines_one l : unlines [l] = l ++ [10].
Proof. done. Qed.

Lemma receive_noises noise s rsp :
  Forall noise_line noise -> at_line s false rsp ->
  exists s', ai_receive (unlines noise) s = Ok s' /\ at_line s' false rsp.
Proof.
  intros Hn. revert s. induction Hn as [|l ls [Hl Hne] _ IH]; intros s Hs; cbn [unlines].
  - by eauto.
  - destruct (receive_noise l s rsp Hs Hl Hne) as (s1 & E & H1).
    rewrite (app_assoc l [10]), receive_app, E. ok. by apply IH.
Qed.

Lemma receive_bodies body s rsp :
  Forall body_line body -> at_line s true rsp ->
  exists s', ai_receive (unlines body) s = Ok s'
    /\ if AI_RESPONSE_MAX <=? Z.of_nat (length (rsp ++ unlines body))
       then exists rsp', finished s' true rsp'
       else at_line s' true (rsp ++ unlines body).
Proof.
  intros Hn. revert s rsp. induction Hn as [|l ls [Hl Hne] _ IH]; intros s rsp Hs; cbn [unlines].
  - exists s. split; [done|]. rewrite app_nil_r.
    replace (_ <=? _) with false; [done|].
    destruct Hs as [[] _ _ _ Hlen _]. lia.
  - destruct (receive_body l s rsp Hs Hl Hne) as (s1 & E & H1).
    rewrite (app_assoc l [10]), receive_app, E. ok.
    rewrite !(app_assoc rsp). destruct (AI_RESPONSE_MAX <=? _) eqn:E1.
    + destruct H1 as (rsp' & H1). rewrite receive_finished by exact (fin_active _ _ _ H1).
      exists s1. split; [done|].
      replace (_ <=? _) with true; [by eauto|].
      rewrite !length_app in *. lia.
    + rewrite app_assoc in H1. destruct (IH s1 _ H1) as (s2 & ? & ?). eauto.
Qed.

Lemma receive_frame noise body s rsp :
  Forall noise_line noise -> Forall body_line body -> at_line s false rsp ->
  exists s', ai_receive (response_frame noise body) s = Ok s'
    /\ if AI_RESPONSE_MAX <=? Z.of_nat (length (unlines body))
       then exists rsp', finished s' true rsp'
       else finished s' false (unlines body).
Proof.
  intros Hn Hb Hs. unfold response_frame. rewrite !unlines_one, receive_app.
  destruct (receive_noises noise s rsp Hn Hs) as (s1 & -> & H1). ok.
  rewrite receive_app. destruct (receive_begin s1 rsp H1) as (s2 & -> & H2). ok.
  rewrite receive_app.
  destruct (receive_bodies body s2 [] Hb H2) as (s3 & -> & H3). ok. simpl in H3.
  destruct (_ <=? _).
  - destruct H3 as (rsp' & H3). rewrite receive_finished by exact (fin_active _ _ _ H3). eauto.
  - by apply receive_end.
Qed.

(** The state in which a query starts to wait. *)
Lemma begin_at_line promptlen maxlen s s0 :
  ai_inv s -> aiquery_begin promptlen maxlen s = Ok (Some s0) -> at_line s0 false [].
Proof.
  intros Hs Hb. unfold aiquery_begin in Hb. destruct (begin_inv promptlen maxlen s Hs) as (r & E & Hr).
  unfold aiquery_begin in E. rewrite Hb in E. injection E as <-.
  destruct (Hr s0 eq_refl) as (Hi & _ & _ & Ha & Hl & Hir & _).
  destruct (_ || _); [done|]. destruct (_ || _); [done|].
  destruct (buf_set (response s) 0 0); try done.
  destruct (buf_set (line s) 0 0); try done. injection Hb as <-. by constructor.
Qed.

Lemma finished_leave s f rsp killed now started :
  finished s f rsp -> aiquery_check killed now started s = Leave.
Proof. intros [_ _ Hc _ _ _]. unfold aiquery_check. by rewrite Hc. Qed.

Lemma finished_end s rsp buf maxlen :
  finished s false rsp -> Z.of_nat (length buf) = maxlen ->
  aiquery_end buf maxlen s =
    if Z.of_nat (length rsp) <? maxlen
    then Ok (Z.of_nat (length rsp), rsp ++ 0 :: drop (S (length rsp)) buf)
    else Ok (-1, buf).
Proof.
  intros [Hi _ _ Hf Hlen Htxt] Hbuf. unfold aiquery_end. rewrite Hf, Hlen. simpl.
  rewrite Nat2Z.id, Htxt.
  destruct (Z.ltb_spec (Z.of_nat (length rsp)) maxlen) as [H|H].
  - replace (_ <? _) with false by lia.
    rewrite buf_set_ok by (rewrite length_app, length_drop; lia). ok.
    do 2 f_equal. rewrite Nat2Z.id, insert_app_r_alt by lia.
    rewrite Nat.sub_diag. f_equal.
    destruct (drop (length rsp) buf) as [|c d] eqn:E.
    { apply (f_equal length) in E. rewrite length_drop in E. simpl in E. lia. }
    simpl. f_equal. replace (S (length rsp)) with (length rsp + 1)%nat by lia.
    by rewrite <- drop_drop, E.
  - by replace (_ <? _) with true by lia.
Qed.

(** ** Giving up

    A query that waits: bytes arrive, the clock ticks and the process goes back to
    sleep, in any order; the list is the bytes that arrived. *)
Inductive waiting : list Z -> ai -> ai -> Prop :=
  | wait_now s : waiting [] s s
  | wait_rx c bytes s s1 s2 :
      ai_uart_rx c s = Ok s1 -> waiting bytes s1 s2 -> waiting (c :: bytes) s s2
  | wait_tick bytes s s2 : waiting bytes (ai_tick s) s2 -> waiting bytes s s2
  | wait_sleep now started bytes s s1 s2 :
      aiquery_check false now started s = Sleep s1 -> waiting bytes s1 s2 -> waiting bytes s s2.

(** States that receive alike: they differ at most in who is to be told. *)
Record alike (s t : ai) : Prop := {
  al_active : ai_is_active s = ai_is_active t;
  al_in_response : in_response s = in_response t;
  al_response_len : response_len s = response_len t;
  al_line_len : line_len s = line_len t;
  al_response : response s = response t;
  al_line : line s = line t }.

Lemma alike_refl s : alike s s.
Proof. done. Qed.

Lemma alike_finish f s t : alike s t -> alike (ai_finish_locked f s) (ai_finish_locked f t).
Proof. intros []. by constructor. Qed.

Lemma append_alike s t s' : alike s t -> ai_append_line_locked s = Ok s' ->
  exists t', ai_append_line_locked t = Ok t' /\ alike s' t'.
Proof.
  intros Ha. pose proof Ha as [Hact Hin Hrl Hll Hr Hl]. unfold ai_append_line_locked. rewrite Hrl, Hll, Hr, Hl.
  bcase; [intros [= <-]; eexists; split; [done|by apply alike_finish]|].
  destruct (append_loop _ _ _ _ _) as [[len r]| | |]; try done. ok.
  destruct (buf_set r len 10) as [r1| | |]; try done. ok. destruct (buf_set r1 (len + 1) 0) as [r2| | |]; try done. ok.
  intros [= <-]. eexists. split; [done|]. by constructor.
Qed.

Lemma handle_alike s t s' : alike s t -> ai_handle_line s = Ok s' ->
  exists t', ai_handle_line t = Ok t' /\ alike s' t'.
Proof.
  intros Ha. pose proof Ha as [Hact Hin Hrl Hll Hr Hl]. unfold ai_handle_line. rewrite Hin, Hl, Hr.
  bcase; [bcase|bcase; [|by apply append_alike]].
  - destruct (buf_set (response t) 0 0); try done. ok. intros [= <-]. eexists. split; [done|]. by constructor.
  - intros [= <-]. eauto.
  - intros [= <-]. eexists. split; [done|by apply alike_finish].
Qed.

Lemma rx_alike c s t s' : alike s t -> ai_uart_rx c s = Ok s' ->
  exists t', ai_uart_rx c t = Ok t' /\ alike s' t'.
Proof.
  intros Ha. pose proof Ha as [Hact Hin Hrl Hll Hr Hl]. unfold ai_uart_rx.
  rewrite <- !negb_orb. unfold ai_is_active in Hact. rewrite Hact, Hll, Hl.
  bcase; [intros [= <-]; eauto|]. bcase; [intros [= <-]; eauto|]. bcase; [bcase|].
  - intros [= <-]. eexists. split; [done|by apply alike_finish].
  - destruct (buf_set (line t) (line_len t) c) as [l| | |]; try done. ok. intros [= <-].
    eexists. split; [done|]. by constructor.
  - destruct (buf_set (line t) (line_len t) 0) as [l| | |]; try done. ok.
    destruct (ai_handle_line (set_line s (line_len t) l)) as [s1| | |] eqn:Eh; try done. ok.
    destruct (handle_alike (set_line s (line_len t) l) (set_line t (line_len t) l) _ ltac:(by constructor) Eh) as (t1 & -> & H1). ok.
    pose proof H1 as [? ? ? ? ? Hl1]. rewrite Hl1. destruct (buf_set (line t1) 0 0) as [l1| | |]; try done. ok.
    intros [= <-]. eexists. split; [done|]. by constructor.
Qed.

Lemma receive_alike bytes s t s' : alike s t -> ai_receive bytes s = Ok s' ->
  exists t', ai_receive bytes t = Ok t' /\ alike s' t'.
Proof.
  revert s t. induction bytes as [|c bytes IH]; intros s t Ha; cbn [ai_receive]; [intros [= <-]; eauto|].
  destruct (ai_uart_rx c s) as [s1| | |] eqn:E; try done. ok.
  destruct (rx_alike c s t s1 Ha E) as (t1 & -> & H1). ok. by apply IH.
Qed.

Lemma receive_inv bytes s : ai_inv s -> exists s', ai_receive bytes s = Ok s' /\ ai_inv s'.
Proof.
  revert s. induction bytes as [|c bytes IH]; intros s Hs; cbn [ai_receive]; [eauto|].
  destruct (ai_uart_rx_inv c s Hs) as (s1 & -> & H1). ok. by apply IH.
Qed.

(** A byte leaves the phase alone or finishes the query. *)
Lemma handle_phase s s' : active s = negb (complete s) -> ai_handle_line s = Ok s' ->
  active s' = negb (complete s').
Proof.
  intros Ha. unfold ai_handle_line, ai_append_line_locked. repeat bcase; try by intros [= <-].
  - destruct (buf_set _ _ _); try done. ok. by intros [= <-].
  - destruct (append_loop _ _ _ _ _) as [[len r]| | |]; try done. ok.
    destruct (buf_set r len 10) as [r1| | |]; try done. ok. destruct (buf_set r1 _ 0); try done. ok.
    by intros [= <-].
Qed.

Lemma rx_phase c s s' : active s = negb (complete s) -> ai_uart_rx c s = Ok s' ->
  active s' = negb (complete s').
Proof.
  intros Ha. unfold ai_uart_rx. repeat bcase; try by intros [= <-].
  - destruct (buf_set _ _ _); try done. ok. by intros [= <-].
  - destruct (buf_set (line s) _ _) as [l| | |]; try done. ok.
    destruct (ai_handle_line _) as [s1| | |] eqn:Eh; try done. ok.
    apply handle_phase in Eh; [|done]. destruct (buf_set _ _ _); try done. ok. by intros [= <-].
Qed.

(** Waiting is receiving: nothing else changes what the query has. *)
Lemma waiting_receive bytes s s' : waiting bytes s s' -> ai_inv s -> active s = negb (complete s) ->
  ai_inv s' /\ active s' = negb (complete s') /\ exists t, ai_receive bytes s = Ok t /\ alike t s'.
Proof.
  induction 1 as [s|c bytes s s1 s2 E _ IH|bytes s s2 _ IH|now started bytes s s1 s2 E _ IH]; intros Hi Ha.
  - split; [done|]. split; [done|]. by exists s.
  - destruct (ai_uart_rx_inv c s Hi) as (s1' & E' & Hi1). rewrite E in E'. injection E' as <-.
    destruct (IH Hi1 (rx_phase c s s1 Ha E)) as (? & ? & t & Et & ?). do 2 (split; [done|]).
    exists t. split; [|done]. cbn [ai_receive]. by rewrite E.
  - assert (ai_inv (ai_tick s) /\ active (ai_tick s) = negb (complete (ai_tick s)) /\ alike (ai_tick s) s)
      as (Hi1 & Ha1 & Hal).
    { unfold ai_tick. destruct (active s) eqn:Ea; [|by rewrite Ea].
      split; [|split; [cbn; congruence|by constructor]].
      pose proof (tick_inv s Hi) as Hti. unfold ai_tick in Hti. by rewrite Ea in Hti. }
    destruct (IH Hi1 Ha1) as (? & ? & t & Et & Ht). do 2 (split; [done|]).
    destruct (receive_alike bytes _ s t Hal Et) as (t' & Et' & Ht'). exists t'. split; [done|].
    destruct Ht, Ht'. constructor; congruence.
  - pose proof (check_inv false now started s Hi) as Hc. rewrite E in Hc. destruct Hc as [Hi1 _].
    assert (s1 = set_woken s false) as ->.
    { unfold aiquery_check in E. repeat case_match; try done. by injection E as <-. }
    destruct (IH Hi1 Ha) as (? & ? & t & Et & Ht). do 2 (split; [done|]).
    destruct (receive_alike bytes (set_woken s false) s t ltac:(by constructor) Et) as (t' & Et' & Ht').
    exists t'. split; [done|]. destruct Ht, Ht'. constructor; congruence.
Qed.

(** The object is busy before each of the bytes. *)
Definition stays (s : ai) (bytes : list Z) : Prop :=
  forall got rest, bytes = got ++ rest -> rest <> [] ->
  exists s', ai_receive got s = Ok s' /\ ai_is_active s' = true.

Lemma stays_nil s : stays s [].
Proof. by intros [|] [|]. Qed.

Lemma stays_app s s' a b : stays s a -> ai_receive a s = Ok s' -> stays s' b -> stays s (a ++ b).
Proof.
  intros Ha Er Hb got rest E Hne. apply app_eq_inv in E as [(k & -> & ->)|(k & -> & ->)].
  - destruct k as [|c k]; [|by eapply (Ha got (c :: k))]. rewrite app_nil_r in *. cbn [app] in *.
    destruct (Hb [] b eq_refl Hne) as (s1 & [= <-] & H). eauto.
  - rewrite receive_app, Er. ok. by apply (Hb k rest).
Qed.

Lemma stays_line s inr rsp l : at_line s inr rsp -> is_line l -> stays s (l ++ [10]).
Proof.
  intros [Hs Hact Hll _ _ _] [Hl Hlen] got rest E Hne.
  assert (exists r, l = got ++ r) as [r ->].
  { apply app_eq_inv in E as [(k & -> & _)|(k & -> & E)]; [by eexists|].
    destruct k as [|c k]; [exists []; by rewrite !app_nil_r|].
    injection E as _ E. symmetry in E. apply app_eq_nil in E as [_ ->]. done. }
  apply Forall_app in Hl as [Hl _]. rewrite length_app in Hlen.
  destruct (receive_chars got s [] Hs Hact) as (lb & Er & _); try done; [cbn; lia|]. eauto.
Qed.

Lemma stays_noises noise s rsp :
  Forall noise_line noise -> at_line s false rsp -> stays s (unlines noise).
Proof.
  intros Hn. revert s. induction Hn as [|l ls [Hl Hne] _ IH]; intros s Hs; cbn [unlines]; [apply stays_nil|].
  destruct (receive_noise l s rsp Hs Hl Hne) as (s1 & E & H1). rewrite (app_assoc l [10]).
  eapply stays_app; [by eapply stays_line|exact E|by apply IH].
Qed.

Lemma stays_bodies body s rsp :
  Forall body_line body -> at_line s true rsp -> Z.of_nat (length (rsp ++ unlines body)) < AI_RESPONSE_MAX ->
  stays s (unlines body).
Proof.
  intros Hn. revert s rsp. induction Hn as [|l ls [Hl Hne] _ IH]; intros s rsp Hs Hfit; cbn [unlines] in *;
    [apply stays_nil|].
  destruct (receive_body l s rsp Hs Hl Hne) as (s1 & E & H1). rewrite (app_assoc l [10]) in *.
  replace (_ <=? _) with false in H1 by (rewrite !length_app in *; lia).
  eapply stays_app; [by eapply stays_line|exact E|]. apply (IH s1 _ H1). by rewrite <- app_assoc.
Qed.

(** A response that fits keeps the object busy up to its last byte. *)
Lemma stays_frame noise body s rsp :
  Forall noise_line noise -> Forall body_line body -> at_line s false rsp ->
  Z.of_nat (length (unlines body)) < AI_RESPONSE_MAX -> stays s (response_frame noise body).
Proof.
  intros Hn Hb Hs Hfit. unfold response_frame. rewrite !unlines_one.
  destruct (receive_noises noise s rsp Hn Hs) as (s1 & E1 & H1).
  eapply stays_app; [by eapply stays_noises|exact E1|].
  destruct (receive_begin s1 rsp H1) as (s2 & E2 & H2).
  eapply stays_app; [eapply stays_line; [exact H1|apply literal_line]|exact E2|].
  destruct (receive_bodies body s2 [] Hb H2) as (s3 & E3 & H3). cbn [app] in H3.
  replace (_ <=? _) with false in H3 by lia.
  eapply stays_app; [by eapply stays_bodies|exact E3|]. eapply stays_line; [exact H3|apply literal_line].
Qed.

(** C39: in every reachable state of the agent interface (bytes from the serial
    line, timer ticks and any number of [aiquery] calls in any order) the
    object's lengths stay within its buffers, the stored response is
    NUL-terminated, [suppress_console] is set only while a query is active, a
    completed query has been woken, and the next byte is handled without an
    access outside the buffers. *)
Theorem ai_system_safe w c :
  areach w ->
  ai_inv (obj w) /\ exists a', ai_uart_rx c (obj w) = Ok a'.
Proof.
  intros Hw. apply areach_inv in Hw. split; [done|].
  destruct (ai_uart_rx_inv c (obj w) Hw) as (a' & ? & _). eauto.
Qed.

(** C5: a query whose answer arrives returns exactly the answer: when the
    serial line delivers, with carriage returns anywhere, some unrelated lines
    and then a [BEGIN_RESP] / [END_RESP] frame around [body], the waiting loop
    ends and [aiquery] returns the length of the text of [body] with that text
    and a NUL in the caller's buffer, or -1 with the buffer untouched when the
    text does not fit the kernel's buffer or the caller's; the object is free
    afterwards. *)
Theorem aiquery_returns_response s s0 promptlen maxlen noise body bytes buf :
  ai_inv s -> aiquery_begin promptlen maxlen s = Ok (Some s0) ->
  Forall noise_line noise -> Forall body_line body ->
  no_cr bytes = response_frame noise body -> Z.of_nat (length buf) = maxlen ->
  exists s', ai_receive bytes s0 = Ok s'
    /\ ai_is_active s' = false
    /\ (forall killed now started, aiquery_check killed now started s' = Leave)
    /\ let text := unlines body in
       aiquery_end buf maxlen s' =
         if Z.of_nat (length text) <? Z.min maxlen AI_RESPONSE_MAX
         then Ok (Z.of_nat (length text), text ++ 0 :: drop (S (length text)) buf)
         else Ok (-1, buf).
Proof.
  intros Hs Hb Hn Hbd Hbytes Hbuf. rewrite receive_no_cr, Hbytes.
  destruct (receive_frame noise body s0 []) as (s' & -> & Hf);
    [done..|by eapply begin_at_line|].
  exists s'. split; [done|].
  destruct (Z.leb_spec AI_RESPONSE_MAX (Z.of_nat (length (unlines body)))).
  - destruct Hf as (rsp' & Hf). split; [by destruct Hf|].
    split; [intros; by eapply finished_leave|]. cbv zeta.
    replace (_ <? _) with false by lia. unfold aiquery_end.
    by rewrite (fin_failed _ _ _ Hf).
  - split; [by destruct Hf|]. split; [intros; by eapply finished_leave|]. cbv zeta.
    rewrite (finished_end _ _ buf maxlen Hf Hbuf).
    destruct (Z.ltb_spec (Z.of_nat (length (unlines body))) maxlen);
      [by replace (_ <? _) with true by lia|by replace (_ <? _) with false by lia].
Qed.

(** C40: a query that gives up, because of the timeout or a kill, at any point of
    its wait (before the response, in the middle of a line or between two lines of
    it; the bytes so far are [before]) leaves the object draining.  While the rest
    of the late response arrives, carriage returns anywhere, every new query is
    refused after each of its bytes until the [END_RESP] line is complete, and then
    the next query is accepted.  (A response whose text does not fit the kernel's
    buffer ends the draining at the line that does not fit: the bytes after it are
    not part of the claim about refusals.) *)
Theorem ai_late_response_drained s s0 s' s1 promptlen maxlen killed now started
    noise body before after :
  ai_inv s -> aiquery_begin promptlen maxlen s = Ok (Some s0) ->
  Forall noise_line noise -> Forall body_line body ->
  no_cr (before ++ after) = response_frame noise body ->
  waiting before s0 s' -> aiquery_check killed now started s' = GiveUp s1 ->
  suppress_console s1 = false
  /\ (Z.of_nat (length (unlines body)) < AI_RESPONSE_MAX ->
      forall got rest, after = got ++ rest -> no_cr rest <> [] ->
      exists s2, ai_receive got s1 = Ok s2 /\ forall p m, aiquery_begin p m s2 = Ok None)
  /\ exists s2 s3, ai_receive after s1 = Ok s2 /\ ai_is_active s2 = false
       /\ aiquery_begin promptlen maxlen s2 = Ok (Some s3).
Proof.
  intros Hs Hb Hn Hbd Hbytes Hw Hc. pose proof (begin_at_line _ _ _ _ Hs Hb) as H0.
  destruct (begin_inv promptlen maxlen s Hs) as (r & Er & Hr). rewrite Hb in Er. injection Er as <-.
  destruct (Hr s0 eq_refl) as (Hi0 & _ & _ & Ha0 & _).
  assert (complete s0 = false) as Hc0.
  { destruct (complete s0) eqn:E; [|done]. destruct (inv_complete _ Hi0 E) as [Hx _].
    unfold ai_is_active in Hx. by rewrite Ha0 in Hx. }
  destruct (waiting_receive _ _ _ Hw Hi0) as (Hi' & Ha' & t & Et & Ht); [by rewrite Ha0, Hc0|].
  pose proof (check_inv killed now started s' Hi') as Hi1. rewrite Hc in Hi1. destruct Hi1 as [Hi1 _].
  assert (alike s' s1 /\ suppress_console s1 = false) as [Hal Hsup].
  { unfold aiquery_check in Hc. destruct (complete s'); [done|]. cbn in Ha'.
    repeat case_match; try done; injection Hc as <-; (split; [|done]); constructor; try done; cbn;
      unfold ai_is_active; by rewrite Ha'. }
  assert (Hts : alike t s1) by (destruct Ht, Hal; constructor; congruence).
  assert (Hrun : forall bytes, exists u s2, ai_receive (before ++ bytes) s0 = Ok u
            /\ ai_receive bytes s1 = Ok s2 /\ ai_inv s2 /\ ai_is_active u = ai_is_active s2).
  { intros bytes. destruct (receive_inv bytes s1 Hi1) as (s2 & E2 & Hi2).
    destruct (receive_alike bytes s1 t s2) as (u & Eu & Hu); [|done|].
    { destruct Hts. by constructor. }
    exists u, s2. rewrite receive_app, Et. ok. destruct Hu. eauto. }
  split; [done|]. split.
  - intros Hfit got rest -> Hrest. destruct (Hrun got) as (u & s2 & Eu & E2 & _ & Hact).
    exists s2. split; [done|].
    destruct (stays_frame noise body s0 [] Hn Hbd H0 Hfit (no_cr (before ++ got)) (no_cr rest)) as (u' & Eu' & Hu').
    { rewrite <- Hbytes. unfold no_cr. by rewrite app_assoc, filter_app. } { done. }
    rewrite <- receive_no_cr, Eu in Eu'. injection Eu' as <-.
    intros p m. unfold aiquery_begin. bcase; [done|]. unfold ai_is_active in *.
    by rewrite <- Hact, Hu'.
  - destruct (Hrun after) as (u & s2 & Eu & E2 & Hi2 & Hact).
    destruct (receive_frame noise body s0 [] Hn Hbd H0) as (u' & Eu' & Hf).
    rewrite receive_no_cr, Hbytes, Eu' in Eu. injection Eu as <-.
    assert (ai_is_active s2 = false) as Hfree.
    { rewrite <- Hact. destruct (_ <=? _); [destruct Hf as [? Hf]|]; exact (fin_active _ _ _ Hf). }
    assert (Harg : (promptlen <? 0) || (AI_PROMPT_MAX <? promptlen) || (maxlen <=? 0) = false).
    { unfold aiquery_begin in Hb. by destruct (_ || _ || _). }
    destruct (begin_free promptlen maxlen s2 Hi2 Hfree Harg) as (s3 & ? & _). eauto.
Qed.

(** The request is always exactly four lines, whatever bytes the prompt
    holds: a prompt cannot close the frame early or add lines to it. *)
Theorem ai_request_framing prompt promptlen :
  exists text,
    ai_request prompt promptlen
      = unlines [cstr "BEGIN_REQ"; cstr "DRAW"; text; cstr "END_REQ"]
    /\ length text = Nat.min (Z.to_nat promptlen) (length prompt)
    /\ Forall (fun c => c <> 10 /\ c <> 13) text.
Proof.
  exists (ai_send_prompt prompt promptlen). split; [|split].
  - unfold ai_request, ai_send_str. by cbn [unlines].
  - unfold ai_send_prompt. by rewrite length_map, length_take.
  - unfold ai_send_prompt. apply Forall_map, Forall_forall. intros c _. simpl.
    destruct (_ || _) eqn:E; lia.
Qed.

(** The answer of a completed query is lost when another process starts
    its own query before the first one runs again: [aiquery_begin] accepts the
    new query because [active] is already clear, resets the response, and the
    first process goes back to sleep. *)
Theorem ai_second_query_steals s f rsp promptlen maxlen started now :
  finished s f rsp -> 0 <= promptlen <= AI_PROMPT_MAX -> 0 < maxlen ->
  u32 (now - started) < AI_TIMEOUT_TICKS ->
  exists s' s'', aiquery_begin promptlen maxlen s = Ok (Some s')
    /\ response_len s' = 0
    /\ aiquery_check false now started s' = Sleep s''.
Proof.
  intros [Hi Ha _ _ _ _] Hp Hm Ht.
  destruct (begin_free promptlen maxlen s Hi Ha) as (s' & -> & Hl & Hc); [lia|].
  do 2 eexists. split; [done|]. split; [done|].
  unfold aiquery_check. rewrite Hc. by replace (_ <=? _) with false by lia.
Qed.

(** A concrete run: a query answered by one unrelated line and a one-line
    response, sent with a carriage return. *)
Definition booted : ai :=
  match aiinit zeroed with Ok s => s | _ => zeroed end.
Definition asked : ai :=
  match aiquery_begin 5 64 booted with Ok (Some s) => s | _ => booted end.

Lemma booted_inv :
  ai_inv booted /\ ai_is_active booted = false /\ aiinit zeroed = Ok booted.
Proof.
  destruct (aiinit_inv zeroed) as (s & E & Hs & Ha); [apply length_replicate..|].
  unfold booted. by rewrite E.
Qed.
Lemma asked_begin :
  aiquery_begin 5 64 booted = Ok (Some asked) /\ complete asked = false.
Proof.
  destruct booted_inv as (Hi & Ha & _).
  destruct (begin_free 5 64 booted Hi Ha eq_refl) as (s & E & _ & Hc).
  unfold asked. by rewrite E.
Qed.
#[local] Opaque asked booted.

Lemma ai_system_safe_witness :
  exists a', ai_uart_rx 65 (obj (mkWorld booted [])) = Ok a'.
Proof.
  apply (ai_system_safe (mkWorld booted []) 65), areach_init.
  apply booted_inv.
Defined.

Lemma aiquery_returns_response_witness :
  exists s', ai_receive ([13] ++ cstr "hi" ++ [10] ++ cstr "BEGIN_RESP" ++ [13; 10]
                   ++ cstr "END" ++ [10] ++ cstr "END_RESP" ++ [10]) asked = Ok s'
    /\ aiquery_end (replicate 64 0) 64 s'
       = Ok (4, cstr "END" ++ [10] ++ replicate 60 0).
Proof.
  destruct (aiquery_returns_response booted asked 5 64 [cstr "hi"] [cstr "END"]
    ([13] ++ cstr "hi" ++ [10] ++ cstr "BEGIN_RESP" ++ [13; 10]
                   ++ cstr "END" ++ [10] ++ cstr "END_RESP" ++ [10])
    (replicate 64 0)) as (s' & E & _ & _ & Hend).
  - apply (proj1 booted_inv).
  - apply (proj1 asked_begin).
  - repeat constructor; done.
  - repeat constructor; done.
  - reflexivity.
  - reflexivity.
  - exists s'. split; [exact E|]. rewrite Hend. reflexivity.
Defined.

(** The query is killed after the first two letters of the response. *)
Definition half : ai := match ai_receive (cstr "BE") asked with Ok s => s | _ => asked end.

Lemma receive_waiting bytes s s' : ai_receive bytes s = Ok s' -> waiting bytes s s'.
Proof.
  revert s. induction bytes as [|c bytes IH]; intros s; cbn [ai_receive]; [intros [= <-]; apply wait_now|].
  destruct (ai_uart_rx c s) as [s1| | |] eqn:E; try done. ok. intros H. eapply wait_rx; [exact E|by apply IH].
Qed.

Lemma half_waiting : waiting (cstr "BE") asked half /\ complete half = false.
Proof.
  pose proof (begin_at_line _ _ _ _ (proj1 booted_inv) (proj1 asked_begin)) as [Hi Ha Hl _ _ _].
  destruct (receive_chars (cstr "BE") asked [] Hi Ha Hl) as (lb & E & _); [done|by repeat constructor|done|].
  unfold half. rewrite E. split; [by apply receive_waiting|exact (proj2 asked_begin)].
Qed.

Lemma ai_late_response_drained_witness :
  exists s1, aiquery_check true 7 3 half = GiveUp s1
    /\ (exists s2, ai_receive (cstr "GIN_RESP" ++ [10] ++ cstr "END_RESP") s1 = Ok s2
         /\ forall p m, aiquery_begin p m s2 = Ok None)
    /\ exists s2 s3, ai_receive (cstr "GIN_RESP" ++ [10] ++ cstr "END_RESP" ++ [13; 10]) s1 = Ok s2
         /\ ai_is_active s2 = false /\ aiquery_begin 5 64 s2 = Ok (Some s3).
Proof.
  assert (E : aiquery_check true 7 3 half
              = GiveUp (set_phase half false true false (complete half) (failed half))).
  { unfold aiquery_check. by rewrite (proj2 half_waiting). }
  eexists. split; [exact E|].
  destruct (ai_late_response_drained booted asked half _ 5 64 true 7 3 [] []
    (cstr "BE") (cstr "GIN_RESP" ++ [10] ++ cstr "END_RESP" ++ [13; 10])
    (proj1 booted_inv) (proj1 asked_begin) (Forall_nil_2 _) (Forall_nil_2 _) eq_refl
    (proj1 half_waiting) E) as (_ & Hr & Hd).
  split; [|exact Hd]. apply (Hr eq_refl _ [13; 10]).
  - reflexivity.
  - discriminate.
Defined.

Lemma ai_second_query_steals_witness :
  exists s' s'', aiquery_begin 5 64 (ai_finish_locked false asked) = Ok (Some s')
    /\ aiquery_check false 9 3 s' = Sleep s''.
Proof.
  destruct (ai_second_query_steals (ai_finish_locked false asked) false [] 5 64 3 9)
    as (s' & s'' & H1 & _ & H2).
  - destruct (begin_at_line _ _ _ _ (proj1 booted_inv) (proj1 asked_begin)) as [Hi _ _ _ Hl _].
    constructor; simpl; (done || by apply finish_inv).
  - done.
  - done.
  - done.
  - eauto.
Defined.
