(* ===== verification/Pipe.v ===== *)
(** Model of src/pipe.c: the pipe's ring buffer, its blocking reads and writes
    and their wakeups.

    [pipewrite] and [piperead] give up the lock only inside [sleep].  Each is a
    function from the pipe to the pipe and how the call ends: it returns, it
    fails, or it goes to sleep with the work that remains; waking up is calling
    the function again on what remains.  The channels [&p->nread] and
    [&p->nwrite] are the two booleans of [wake]: which of them the call has
    woken. *)
From stdpp Require Import base strings numbers list.
From S2P Require Import Prelude CString.
Local Open Scope Z_scope.

Definition PIPESIZE : Z := 512.

Record pipe : Type := mkPipe {
  data : list Z;
  nread : Z;
  nwrite : Z;
  readopen : bool;
  writeopen : bool }.

(** Which channels a call wakes. *)
Record wake : Type := mkWake { wake_nread : bool; wake_nwrite : bool }.

(** The part of [pipealloc] that initialises the page it was given. *)
Definition pipe_init (data : list Z) : pipe := mkPipe data 0 0 true true.

(** [pipeclose]: the new pipe, the channel woken, and whether the page is
    freed. *)
Definition pipeclose (p : pipe) (writable : bool) : pipe * wake * bool :=
  let '(p, w) :=
    if writable
    then (mkPipe (data p) (nread p) (nwrite p) (readopen p) false, mkWake true false)
    else (mkPipe (data p) (nread p) (nwrite p) false (writeopen p), mkWake false true)
  in
  (p, w, negb (readopen p) && negb (writeopen p)).

Inductive ending (A : Type) : Type :=
  | Return (v : A)
  | Error
  | Asleep (rest : list Z).
Arguments Return {A} _.
Arguments Error {A}.
Arguments Asleep {A} _.

(** [p->data[p->nwrite++ % PIPESIZE] = c]. *)
Definition put_byte (p : pipe) (c : Z) : res pipe :=
  d ← buf_set (data p) (nwrite p mod PIPESIZE) c;
  Ok (mkPipe d (nread p) (u32 (nwrite p + 1)) (readopen p) (writeopen p)).

Definition pipe_full (p : pipe) : bool := nwrite p =? u32 (nread p + PIPESIZE).

(** The loop of [pipewrite] from the bytes [addr[i..n)]. *)
Fixpoint pipewrite (killed : bool) (rest : list Z) (p : pipe)
    : res (pipe * wake * ending unit) :=
  match rest with
  | [] => Ok (p, mkWake true false, Return tt)
  | c :: rest' =>
      if pipe_full p then
        if negb (readopen p) || killed then Ok (p, mkWake false false, Error)
        else Ok (p, mkWake true false, Asleep rest)
      else p ← put_byte p c; pipewrite killed rest' p
  end.

(** The copying loop of [piperead]; [n] is the number of turns left. *)
Fixpoint read_loop (n : nat) (p : pipe) : res (list Z * pipe) :=
  match n with
  | O => Ok ([], p)
  | S n =>
      if nread p =? nwrite p then Ok ([], p)
      else
        c ← buf_get (data p) (nread p mod PIPESIZE);
        '(cs, p) ← read_loop n
          (mkPipe (data p) (u32 (nread p + 1)) (nwrite p) (readopen p) (writeopen p));
        Ok (c :: cs, p)
  end.

Definition piperead (killed : bool) (n : Z) (p : pipe)
    : res (pipe * wake * ending (list Z)) :=
  if (nread p =? nwrite p) && writeopen p then
    if killed then Ok (p, mkWake false false, Error)
    else Ok (p, mkWake false false, Asleep [])
  else
    '(cs, p) ← read_loop (Z.to_nat n) p;
    Ok (p, mkWake false true, Return cs).

(** * The queue a pipe implements *)

Definition count (p : pipe) : Z := u32 (nwrite p - nread p).

(** The bytes in the pipe, oldest first. *)
Definition contents (p : pipe) : list Z :=
  map (fun k => nth (Z.to_nat (u32 (nread p + Z.of_nat k) mod PIPESIZE)) (data p) 0)
    (seq 0 (Z.to_nat (count p))).

Record pipe_inv (p : pipe) : Prop := {
  pi_data : Z.of_nat (length (data p)) = PIPESIZE;
  pi_nread : is_u32 (nread p);
  pi_nwrite : is_u32 (nwrite p);
  pi_count : count p <= PIPESIZE }.

Lemma length_contents p : length (contents p) = Z.to_nat (count p).
Proof. unfold contents. by rewrite length_map, length_seq. Qed.

Lemma count_nonneg p : 0 <= count p.
Proof. apply u32_range. Qed.

Lemma pipe_full_count p : pipe_inv p -> pipe_full p = (count p =? PIPESIZE).
Proof.
  intros [_ Hr Hw _]. unfold pipe_full, count, is_u32, u32, PIPESIZE in *.
  apply eq_true_iff_eq. rewrite !Z.eqb_eq. dlia.
Qed.

Lemma pipe_empty_count p : pipe_inv p -> (nread p =? nwrite p) = (count p =? 0).
Proof.
  intros [_ Hr Hw _]. unfold count, is_u32, u32 in *.
  apply eq_true_iff_eq. rewrite !Z.eqb_eq. dlia.
Qed.

(** The slot of the [k]th byte after [nread] is that of [nread + k], also when
    the counters have wrapped around. *)
Lemma slot_mod a : u32 a mod PIPESIZE = a mod PIPESIZE.
Proof. unfold u32, PIPESIZE. dlia. Qed.

Lemma put_byte_spec p c :
  pipe_inv p -> count p < PIPESIZE ->
  exists p', put_byte p c = Ok p' /\ pipe_inv p'
    /\ contents p' = contents p ++ [c]
    /\ readopen p' = readopen p /\ writeopen p' = writeopen p.
Proof.
  intros [Hd Hr Hw Hc] Hlt. pose proof (count_nonneg p) as H0.
  assert (Hs : 0 <= nwrite p mod PIPESIZE < PIPESIZE) by (by apply Z.mod_pos_bound).
  unfold put_byte. rewrite buf_set_ok by lia. ok. eexists. split; [done|].
  assert (Hcnt : u32 (u32 (nwrite p + 1) - nread p) = count p + 1).
  { unfold count, u32, is_u32, PIPESIZE in *. dlia. }
  split; [|split; [|done]].
  { constructor; unfold count; simpl; rewrite ?length_insert; try done.
    - apply u32_range.
    - rewrite Hcnt. lia. }
  unfold contents, count at 1. simpl. rewrite Hcnt.
  replace (Z.to_nat (count p + 1)) with (S (Z.to_nat (count p))) by lia.
  rewrite seq_S, map_app. simpl. f_equal.
  - apply map_ext_in. intros k Hk%in_seq. rewrite !slot_mod.
    rewrite !nth_lookup, list_lookup_insert_ne; [done|].
    intros E. apply (f_equal Z.of_nat) in E.
    rewrite !Z2Nat.id in E by (try lia; apply Z.mod_pos_bound; done).
    unfold count, u32, is_u32, PIPESIZE in *. clear -E Hk Hlt Hr Hw. dlia.
  - do 2 f_equal. rewrite slot_mod, Z2Nat.id by done.
    replace (Z.to_nat ((nread p + count p) mod PIPESIZE))
      with (Z.to_nat (nwrite p mod PIPESIZE)).
    + rewrite nth_lookup, list_lookup_insert_eq by lia. done.
    + f_equal. unfold count, u32, is_u32, PIPESIZE in *. clear -Hr Hw. dlia.
Qed.

(** [pipewrite] stores as many bytes as fit; it fails only on a full pipe whose
    reader is gone or when killed there, and wakes readers unless it fails. *)
Lemma pipewrite_spec killed rest p :
  pipe_inv p ->
  let k := Nat.min (length rest) (Z.to_nat (PIPESIZE - count p)) in
  let fails := negb (k =? length rest)%nat && (negb (readopen p) || killed) in
  exists p', pipewrite killed rest p
    = Ok (p', mkWake (negb fails) false,
          if fails then Error
          else if (k =? length rest)%nat then Return tt else Asleep (drop k rest))
    /\ pipe_inv p' /\ contents p' = contents p ++ take k rest
    /\ readopen p' = readopen p /\ writeopen p' = writeopen p.
Proof.
  revert p. induction rest as [|c rest IH]; intros p Hp; cbv zeta.
  - simpl. exists p. by rewrite app_nil_r.
  - pose proof (pi_count _ Hp) as Hle. pose proof (count_nonneg p) as Hge.
    cbn [pipewrite]. rewrite pipe_full_count by done.
    destruct (Z.eqb_spec (count p) PIPESIZE) as [E|E].
    + rewrite E, Z.sub_diag. simpl. rewrite app_nil_r.
      destruct (negb (readopen p) || killed); exists p; (split; [reflexivity|]);
        by repeat (split; [done|]).
    + destruct (put_byte_spec p c Hp) as (p1 & -> & Hp1 & Hc1 & Hro & Hwo); [lia|].
      ok. destruct (IH p1 Hp1) as (p' & -> & Hp' & Hc' & Hro' & Hwo').
      assert (Hcnt : count p1 = count p + 1).
      { pose proof (count_nonneg p1). apply (f_equal length) in Hc1.
        rewrite length_app, !length_contents in Hc1. simpl in Hc1. lia. }
      rewrite Hcnt, Hro in *.
      replace (Z.to_nat (PIPESIZE - count p))
        with (S (Z.to_nat (PIPESIZE - (count p + 1)))) by lia.
      simpl. exists p'. split; [done|]. split; [done|].
      rewrite Hc', Hc1, <- app_assoc, Hwo', Hro', Hwo. done.
Qed.

Lemma read_byte_spec p :
  pipe_inv p -> 0 < count p ->
  exists c q,
    buf_get (data p) (nread p mod PIPESIZE) = Ok c
    /\ contents p = c :: q
    /\ let p' := mkPipe (data p) (u32 (nread p + 1)) (nwrite p) (readopen p) (writeopen p)
       in pipe_inv p' /\ contents p' = q.
Proof.
  intros [Hd Hr Hw Hc] Hlt.
  assert (Hs : 0 <= nread p mod PIPESIZE < PIPESIZE) by (by apply Z.mod_pos_bound).
  destruct (buf_get_inb (data p) (nread p mod PIPESIZE)) as (c & Hl & Hg); [lia|].
  assert (Hcnt : u32 (nwrite p - u32 (nread p + 1)) = count p - 1).
  { unfold count, u32, is_u32, PIPESIZE in *. dlia. }
  exists c, (contents (mkPipe (data p) (u32 (nread p + 1)) (nwrite p) (readopen p) (writeopen p))).
  split; [done|]. split; [|split; [|done]].
  - unfold contents, count at 2. simpl. rewrite Hcnt.
    replace (Z.to_nat (count p)) with (S (Z.to_nat (count p - 1))) by lia.
    rewrite <- cons_seq. simpl. f_equal.
    + rewrite slot_mod, Z.add_0_r, nth_lookup, Hl. done.
    + rewrite <- seq_shift, map_map. apply map_ext. intros k. rewrite !slot_mod.
      do 2 f_equal. unfold u32, PIPESIZE. dlia.
  - constructor; unfold count; simpl; try done; [apply u32_range|]. rewrite Hcnt. lia.
Qed.

Lemma read_loop_spec n p :
  pipe_inv p ->
  exists p', read_loop n p = Ok (take n (contents p), p') /\ pipe_inv p'
    /\ contents p' = drop n (contents p)
    /\ readopen p' = readopen p /\ writeopen p' = writeopen p.
Proof.
  revert p. induction n as [|n IH]; intros p Hp; cbn [read_loop].
  - exists p. by rewrite take_0, drop_0.
  - rewrite pipe_empty_count by done. pose proof (count_nonneg p) as Hge.
    destruct (Z.eqb_spec (count p) 0) as [E|E].
    + exists p. assert (contents p = []) as ->; [|done].
      apply nil_length_inv. rewrite length_contents. lia.
    + destruct (read_byte_spec p Hp) as (c & q & -> & -> & Hp1 & Hc1); [lia|]. ok.
      destruct (IH _ Hp1) as (p' & -> & Hp' & Hc' & Hro & Hwo). ok.
      rewrite Hc1 in *. exists p'. by repeat (split; [done|]).
Qed.

(** [piperead] sleeps only on an empty pipe with a writer; otherwise it returns
    the oldest [n] bytes (fewer when there are fewer) and wakes writers. *)
Lemma piperead_spec killed n p :
  pipe_inv p ->
  exists p' w e, piperead killed n p = Ok (p', w, e) /\ pipe_inv p'
    /\ readopen p' = readopen p /\ writeopen p' = writeopen p
    /\ wake_nread w = false
    /\ if (count p =? 0) && writeopen p
       then contents p' = contents p /\ wake_nwrite w = false
            /\ e = if killed then Error else Asleep []
       else e = Return (take (Z.to_nat n) (contents p)) /\ wake_nwrite w = true
            /\ contents p' = drop (Z.to_nat n) (contents p).
Proof.
  intros Hp. unfold piperead. rewrite pipe_empty_count by done.
  destruct (_ && _).
  - destruct killed; eexists _, _, _; (split; [reflexivity|]); by repeat (split; [done|]).
  - destruct (read_loop_spec (Z.to_nat n) p Hp) as (p' & -> & ?). ok.
    eexists _, _, _. split; [reflexivity|]. simpl. intuition done.
Qed.

(** * A writer and a reader, in any interleaving *)

(** A process outside any call, inside a call and runnable, asleep in it, or on
    its way out after a call that failed because it was killed (it closes its
    end next). *)
Inductive task (A : Type) : Type :=
  | Idle
  | Ready (work : A)
  | Sleeping (work : A)
  | Exiting.
Arguments Idle {A}.
Arguments Ready {A} _.
Arguments Sleeping {A} _.
Arguments Exiting {A}.

Definition wakeup {A} (b : bool) (t : task A) : task A :=
  match t with
  | Sleeping w => if b then Ready w else Sleeping w
  | _ => t
  end.

(** Where a call that ended with [e] leaves its process. *)
Definition after {A B} (killed : bool) (asleep : list Z -> task B) (e : ending A)
    : task B :=
  match e with
  | Return _ => Idle
  | Error => if killed then Exiting else Idle
  | Asleep rest => asleep rest
  end.

Definition out_of_call {A} (t : task A) : bool :=
  match t with Idle | Exiting => true | _ => false end.

(** A call of [write] as its process made it: the bytes it passed, how many of
    them have gone into the pipe, and how the call stands. *)
Inductive call_state : Type := Running | Returned | Failed.

Record call : Type := mkCall { message : list Z; taken : nat; state : call_state }.

Definition stored (c : call) : list Z := take (taken c) (message c).

(** The pipe, the writing process with the bytes it still has to write, the
    reading process with the number of bytes it asked for, the calls of [write],
    newest first, and the bytes that have been returned by reads. *)
Record psys : Type := mkSys {
  pp : pipe;
  writer : task (list Z);
  reader : task Z;
  calls : list call;
  got : list Z }.

(** The bytes of the calls of [write] that have gone into the pipe, oldest
    first: prefixes of what the callers passed. *)
Definition sent (x : psys) : list Z := concat (stored <$> reverse (calls x)).

(** The newest call after [pipewrite] has advanced [nwrite] by [k] and ended
    with [e]. *)
Definition progress {A} (k : nat) (e : ending A) (cs : list call) : list call :=
  match cs with
  | [] => []
  | c :: cs =>
      mkCall (message c) (taken c + k)
        (match e with Return _ => Returned | Error => Failed | Asleep _ => Running end) :: cs
  end.

Inductive pstep : psys -> psys -> Prop :=
  | ps_write p r cs g msg :
      writeopen p = true ->
      pstep (mkSys p Idle r cs g) (mkSys p (Ready msg) r (mkCall msg 0 Running :: cs) g)
  | ps_read p w cs g n :
      readopen p = true ->
      pstep (mkSys p w Idle cs g) (mkSys p w (Ready n) cs g)
  | ps_run_write p r cs g killed rest p' wk e :
      pipewrite killed rest p = Ok (p', wk, e) ->
      pstep (mkSys p (Ready rest) r cs g)
        (mkSys p' (after killed Sleeping e) (wakeup (wake_nread wk) r)
           (progress (Z.to_nat (u32 (nwrite p' - nwrite p))) e cs) g)
  | ps_run_read p w cs g killed n p' wk e :
      piperead killed n p = Ok (p', wk, e) ->
      pstep (mkSys p w (Ready n) cs g)
        (mkSys p' (wakeup (wake_nwrite wk) w) (after killed (fun _ => Sleeping n) e) cs
           (match e with Return bs => g ++ bs | _ => g end))
  | ps_close_write p w r cs g p' wk freed :
      out_of_call w = true -> pipeclose p true = (p', wk, freed) ->
      pstep (mkSys p w r cs g) (mkSys p' Idle (wakeup (wake_nread wk) r) cs g)
  | ps_close_read p w r cs g p' wk freed :
      out_of_call r = true -> pipeclose p false = (p', wk, freed) ->
      pstep (mkSys p w r cs g) (mkSys p' (wakeup (wake_nwrite wk) w) Idle cs g)
  | ps_kill p w r cs g bw br :
      (* [kill] makes a sleeping process runnable *)
      pstep (mkSys p w r cs g) (mkSys p (wakeup bw w) (wakeup br r) cs g).

Inductive preach : psys -> Prop :=
  | preach_init d :
      Z.of_nat (length d) = PIPESIZE -> preach (mkSys (pipe_init d) Idle Idle [] [])
  | preach_step x y : preach x -> pstep x y -> preach y.

(** A call has stored at most what it was given, and all of it when it has
    returned. *)
Definition call_inv (c : call) : Prop :=
  (taken c <= length (message c))%nat
  /\ (state c = Returned -> taken c = length (message c)).

(** The newest call is under way with [rest] left to store. *)
Definition in_call (rest : list Z) (cs : list call) : Prop :=
  exists c cs', cs = c :: cs' /\ state c = Running /\ drop (taken c) (message c) = rest.

(** A sleeping process waits for what it sleeps on; the one exception is a
    reader whose writer was killed half-way through a write and is about to
    close its end. *)
Record sys_inv (x : psys) : Prop := {
  si_pipe : pipe_inv (pp x);
  si_fifo : sent x = got x ++ contents (pp x);
  si_calls : Forall call_inv (calls x);
  si_rest : forall rest, writer x = Ready rest \/ writer x = Sleeping rest ->
    in_call rest (calls x);
  si_writer : forall rest, writer x = Sleeping rest ->
    count (pp x) = PIPESIZE /\ readopen (pp x) = true;
  si_reader : forall n, reader x = Sleeping n ->
    writeopen (pp x) = true /\ (count (pp x) = 0 \/ writer x = Exiting);
  si_read_end : readopen (pp x) = false -> reader x = Idle }.

Lemma wakeup_sleeping {A} b (t : task A) w :
  wakeup b t = Sleeping w -> b = false /\ t = Sleeping w.
Proof. by destruct t, b. Qed.

Lemma wakeup_working {A} b (t : task A) w :
  wakeup b t = Ready w \/ wakeup b t = Sleeping w -> t = Ready w \/ t = Sleeping w.
Proof. destruct t, b; cbn; intros [[= ->]|[= ->]]; auto. Qed.

Lemma wakeup_idle {A} b (t : task A) : t = Idle -> wakeup b t = Idle.
Proof. by intros ->. Qed.

Lemma wakeup_exiting {A} b (t : task A) : t = Exiting -> wakeup b t = Exiting.
Proof. by intros ->. Qed.

(** [pipewrite] advances [nwrite] by the number of bytes it stores. *)
Lemma pipewrite_nread killed rest p p' wk e :
  pipewrite killed rest p = Ok (p', wk, e) -> nread p' = nread p.
Proof.
  revert p. induction rest as [|c rest IH]; intros p; cbn [pipewrite]; [by intros [= <- _ _]|].
  destruct (pipe_full p); [destruct (_ || _); by intros [= <- _ _]|].
  unfold put_byte. destruct (buf_set _ _ _); try done. ok. intros H%IH. exact H.
Qed.

Lemma pipewrite_advance killed rest p p' wk e :
  pipe_inv p -> pipewrite killed rest p = Ok (p', wk, e) ->
  Z.to_nat (u32 (nwrite p' - nwrite p)) = Nat.min (length rest) (Z.to_nat (PIPESIZE - count p)).
Proof.
  intros Hp Hrun. pose proof (pipewrite_nread _ _ _ _ _ _ Hrun) as Hn.
  destruct (pipewrite_spec killed rest p Hp) as (p1 & E & Hp1 & Hc & _).
  rewrite Hrun in E. injection E as -> _ _. apply (f_equal length) in Hc.
  rewrite length_app, !length_contents, length_take in Hc.
  pose proof (count_nonneg p). pose proof (count_nonneg p1). destruct Hp as [_ Hr Hw Hle], Hp1 as [_ _ Hw1 Hle1].
  assert (u32 (nwrite p1 - nwrite p) = u32 (count p1 - count p)) as ->.
  { unfold count. rewrite Hn. unfold u32. dlia. }
  unfold PIPESIZE, u32 in *. rewrite Z.mod_small; lia.
Qed.

(** What one run of [pipewrite] does to the newest call. *)
Lemma progress_inv {A} k (e : ending A) rest cs :
  in_call rest cs -> Forall call_inv cs -> (k <= length rest)%nat ->
  (forall v, e = Return v -> k = length rest) ->
  Forall call_inv (progress k e cs)
  /\ concat (stored <$> reverse (progress k e cs)) = concat (stored <$> reverse cs) ++ take k rest
  /\ (forall r, e = Asleep r -> r = drop k rest -> in_call r (progress k e cs)).
Proof.
  intros (c & cs' & -> & Hst & <-) [[Hle _] Hcs]%Forall_cons Hk He. rewrite length_drop in *.
  cbn [progress]. split; [|split].
  - apply Forall_cons. split; [|done]. split; cbn; [lia|].
    destruct e; try done. intros _. specialize (He v eq_refl). lia.
  - rewrite !reverse_cons, !fmap_app, !concat_app, <- app_assoc. f_equal. cbn. rewrite !app_nil_r.
    unfold stored. cbn. symmetry. apply take_take_drop.
  - intros r -> ->. eexists _, _. split; [reflexivity|]. split; [done|]. cbn.
    by rewrite drop_drop.
Qed.

Lemma run_write_inv p r cs g killed rest p' wk e :
  sys_inv (mkSys p (Ready rest) r cs g) -> pipewrite killed rest p = Ok (p', wk, e) ->
  sys_inv (mkSys p' (after killed Sleeping e) (wakeup (wake_nread wk) r)
             (progress (Z.to_nat (u32 (nwrite p' - nwrite p))) e cs) g).
Proof.
  intros [Hp Hf Hcs Hrest Hw Hr Hre] Hrun. simpl in *. pose proof (pi_count _ Hp) as Hle.
  pose proof (Hrest rest (or_introl eq_refl)) as Hin. rewrite (pipewrite_advance _ _ _ _ _ _ Hp Hrun).
  destruct (pipewrite_spec killed rest p Hp) as (p1 & E & Hp1 & Hc1 & Hro & Hwo).
  set (k := Nat.min (length rest) (Z.to_nat (PIPESIZE - count p))) in *.
  rewrite Hrun in E. injection E as -> -> ->.
  pose proof (length_contents p1) as Hl1. pose proof (count_nonneg p1) as Hn1.
  pose proof (length_contents p) as Hl0. pose proof (count_nonneg p) as Hn0.
  rewrite Hc1, length_app, length_take in Hl1. assert (Hk : (k <= length rest)%nat) by lia.
  assert (Hread : readopen p1 = false -> forall b, wakeup b r = Idle).
  { rewrite Hro. intros H b. by apply wakeup_idle, Hre. }
  unfold sent in *. cbn [calls] in *.
  destruct (Nat.eqb_spec k (length rest)) as [Ek|Ek]; cbn [negb andb wake_nread after] in *.
  - destruct (progress_inv k (Return tt) rest cs Hin Hcs Hk) as (Hcs' & Hs' & _); [done|].
    constructor; cbn [pp writer reader calls got]; try done; [| |by intros n [? _]%wakeup_sleeping|eauto].
    + unfold sent. cbn [calls]. by rewrite Hs', Hf, Hc1, app_assoc.
    + by intros ? [?|?].
  - destruct (negb (readopen p) || killed) eqn:Ef; cbn [negb after] in *.
    + destruct (progress_inv k (@Error unit) rest cs Hin Hcs Hk) as (Hcs' & Hs' & _); [done|].
      constructor; cbn [pp writer reader calls got]; try done; [| | | |eauto].
      * unfold sent. cbn [calls]. by rewrite Hs', Hf, Hc1, app_assoc.
      * intros ? [?|?]; by destruct killed.
      * by destruct killed.
      * intros n [_ Hs]%wakeup_sleeping. destruct (Hr n Hs) as [Hwop _].
        split; [by rewrite Hwo|]. right. destruct (readopen p) eqn:Erp; [by destruct killed|].
        by rewrite Hre in Hs.
    + destruct (progress_inv k (@Asleep unit (drop k rest)) rest cs Hin Hcs Hk) as (Hcs' & Hs' & Hin'); [done|].
      constructor; cbn [pp writer reader calls got]; try done; [| | |by intros n [? _]%wakeup_sleeping|eauto].
      * unfold sent. cbn [calls]. by rewrite Hs', Hf, Hc1, app_assoc.
      * intros ? [?|[= <-]]; [done|]. by eapply Hin'.
      * intros rest' _. split; [lia|]. rewrite Hro. by destruct (readopen p).
Qed.

Lemma run_read_inv p w cs g killed n p' wk e :
  sys_inv (mkSys p w (Ready n) cs g) -> piperead killed n p = Ok (p', wk, e) ->
  sys_inv (mkSys p' (wakeup (wake_nwrite wk) w) (after killed (fun _ => Sleeping n) e) cs
             (match e with Return bs => g ++ bs | _ => g end)).
Proof.
  intros [Hp Hf Hcs Hrest Hw Hr Hre] Hrun. simpl in *.
  destruct (piperead_spec killed n p Hp) as (p1 & w1 & e1 & E & Hp1 & Hro & Hwo & _ & H).
  rewrite Hrun in E. injection E as -> -> ->.
  assert (Hop : readopen p = true) by (by destruct (readopen p); [|specialize (Hre eq_refl)]).
  destruct (_ && _) eqn:Ec.
  - destruct H as (Hc & Hwk & ->).
    assert (Hcnt : count p1 = count p).
    { pose proof (length_contents p1) as Hl1. pose proof (length_contents p) as Hl0.
      pose proof (count_nonneg p). pose proof (count_nonneg p1).
      rewrite Hc in Hl1. lia. }
    constructor; simpl; [done| |done| | | |by rewrite Hro, Hop].
    + unfold sent in *. simpl in *. destruct killed; by rewrite Hc.
    + intros rest H%wakeup_working. by apply Hrest.
    + intros rest [_ ->]%wakeup_sleeping. destruct (Hw rest eq_refl) as [H1 _].
      unfold PIPESIZE in *. lia.
    + intros m Hm. rewrite Hwo, Hcnt. lia.
  - destruct H as (-> & Hwk & Hc). constructor; simpl;
      [done| |done|by intros ? ?%wakeup_working; apply Hrest
      |by rewrite Hwk; intros ? [? _]%wakeup_sleeping|done|done].
    unfold sent in *. simpl in *. by rewrite Hc, <- app_assoc, take_drop.
Qed.

Lemma preach_inv x : preach x -> sys_inv x.
Proof.
  induction 1 as [d Hd|x y _ IH Hs].
  - constructor; try done. by intros rest [?|?].
  - destruct Hs as [| |p r cs g killed rest p' wk e Hrun|p w cs g killed n p' wk e Hrun
      |p w r cs g p' wk freed Ho Hcl|p w r cs g p' wk freed Ho Hcl|].
    + destruct IH as [Hp Hf Hcs Hrest Hw Hr Hre]. constructor; simpl in *; try done.
      * unfold sent in *. simpl in *.
        by rewrite reverse_cons, fmap_app, concat_app, app_nil_r.
      * apply Forall_cons. split; [|done]. split; simpl; [lia|done].
      * intros rest [[= <-]|?]; [|done]. by eexists _, _.
      * intros n Hn. destruct (Hr n Hn) as [? [?|?]]; [by auto|done].
    + destruct IH as [Hp Hf Hcs Hrest Hw Hr Hre]. constructor; simpl in *; try done. congruence.
    + by eapply run_write_inv.
    + by eapply run_read_inv.
    + destruct IH as [Hp Hf Hcs Hrest Hw Hr Hre]. unfold pipeclose in Hcl. simpl in *.
      injection Hcl as <- <- _. destruct Hp.
      constructor; simpl; try done.
      * by intros rest [?|?].
      * by intros n [? _]%wakeup_sleeping.
      * intros H. by apply wakeup_idle, Hre.
    + destruct IH as [Hp Hf Hcs Hrest Hw Hr Hre]. unfold pipeclose in Hcl. simpl in *.
      injection Hcl as <- <- _. destruct Hp.
      constructor; simpl; try done; [|by intros n [? _]%wakeup_sleeping].
      intros rest H%wakeup_working. by apply Hrest.
    + destruct IH as [Hp Hf Hcs Hrest Hw Hr Hre]. constructor; simpl in *; try done.
      * intros rest H%wakeup_working. by apply Hrest.
      * intros rest [_ H]%wakeup_sleeping. by apply (Hw rest).
      * intros n [_ H]%wakeup_sleeping. destruct (Hr n H) as [? [?|?]]; [by auto|].
        split; [done|]. right. by apply wakeup_exiting.
      * intros H. by apply wakeup_idle, Hre.
Qed.

(** C7: a pipe is a first-in first-out channel for every interleaving of
    blocking writes, blocking reads, kills and closes by a writing and a reading
    process: the bytes returned by the reads so far, followed by the bytes in
    the pipe, are the bytes passed to the calls of [write], in order, none lost,
    repeated, altered or reordered: of each call the first [taken] bytes of its
    message, all of them once the call has returned successfully (a call that
    is under way or has failed may have stored only a part).  At most 512 bytes
    are in the pipe, also after the 32-bit counters have wrapped around. *)
Theorem pipe_fifo x :
  preach x ->
  concat ((fun c => take (taken c) (message c)) <$> reverse (calls x))
    = got x ++ contents (pp x)
  /\ Forall (fun c => (taken c <= length (message c))%nat
                      /\ (state c = Returned -> taken c = length (message c))) (calls x)
  /\ (forall rest, writer x = Ready rest \/ writer x = Sleeping rest ->
      exists c cs, calls x = c :: cs /\ state c = Running
        /\ message c = take (taken c) (message c) ++ rest)
  /\ Z.of_nat (length (contents (pp x))) <= PIPESIZE.
Proof.
  intros H. destruct (preach_inv x H) as [[_ _ _ Hc] Hf Hcs Hrest _ _ _].
  split; [exact Hf|]. split; [exact Hcs|]. split.
  - intros rest Hw. destruct (Hrest rest Hw) as (c & cs & E & Hst & <-).
    exists c, cs. by rewrite take_drop.
  - rewrite length_contents. pose proof (count_nonneg (pp x)). lia.
Qed.

(** C8: no wakeup is lost between the writing and the reading process of a
    pipe: the writer sleeps only while the pipe is full and the read end is
    open; the reader sleeps only while the write end is open and the pipe is
    empty, with one exception, a writer that was killed in the middle of a write
    ([pipewrite] then returns -1 without a wakeup) and has not closed its end
    yet; closing it wakes the reader.  So the two are never asleep together. *)
Theorem pipe_no_lost_wakeup x :
  preach x ->
  (forall rest, writer x = Sleeping rest ->
     Z.of_nat (length (contents (pp x))) = PIPESIZE /\ readopen (pp x) = true)
  /\ (forall n, reader x = Sleeping n ->
     writeopen (pp x) = true /\ (contents (pp x) = [] \/ writer x = Exiting))
  /\ (forall n, reader x = Sleeping n ->
     wakeup (wake_nread (pipeclose (pp x) true).1.2) (reader x) = Ready n)
  /\ (forall rest n, ~ (writer x = Sleeping rest /\ reader x = Sleeping n)).
Proof.
  intros H. destruct (preach_inv x H) as [_ _ _ _ Hw Hr _].
  pose proof (length_contents (pp x)) as Hl. pose proof (count_nonneg (pp x)).
  split; [|split; [|split]].
  - intros rest E. destruct (Hw rest E). split; [lia|done].
  - intros n E. destruct (Hr n E) as [? [E0|?]]; (split; [done|]); [left|by right].
    apply nil_length_inv. lia.
  - by intros n ->.
  - intros rest n [E1 E2]. destruct (Hw rest E1), (Hr n E2) as [_ [?|?]]; [|congruence].
    unfold PIPESIZE in *. lia.
Qed.

(** A write that fills the pipe and is then killed returns -1 with its
    bytes left in the pipe and no reader woken: a reader asleep on the empty
    pipe keeps sleeping although there is data, until someone else writes or
    the last write end is closed. *)
Theorem pipewrite_killed_no_wakeup p msg :
  pipe_inv p -> contents p = [] -> PIPESIZE < Z.of_nat (length msg) ->
  exists p', pipewrite true msg p = Ok (p', mkWake false false, Error)
    /\ contents p' = take (Z.to_nat PIPESIZE) msg.
Proof.
  intros Hp Hc Hm.
  assert (H0 : count p = 0).
  { pose proof (count_nonneg p). pose proof (length_contents p) as Hl.
    rewrite Hc in Hl. simpl in Hl. lia. }
  destruct (pipewrite_spec true msg p Hp) as (p' & E & _ & Hc' & _).
  rewrite H0, Z.sub_0_r in *. unfold PIPESIZE in *.
  replace (Nat.min (length msg) (Z.to_nat 512)) with (Z.to_nat 512) in * by lia.
  replace (Z.to_nat 512 =? length msg)%nat with false in E by lia.
  rewrite orb_true_r in E. exists p'. split; [exact E|]. by rewrite Hc', Hc.
Qed.

Definition empty_pipe : pipe := pipe_init (replicate 512 0).

(** A reader waits on a new pipe, three bytes are written and the reader is
    woken. *)
Lemma pipe_steps :
  exists x, preach x /\ got x = [] /\ calls x = [mkCall [1; 2; 3] 3 Returned] /\ reader x = Ready 5.
Proof.
  eexists. split; [|split; [|split]].
  - eapply preach_step; [eapply preach_step; [eapply preach_step; [eapply preach_step;
      [apply (preach_init (replicate 512 0)); reflexivity|]|]|]|].
    + apply (ps_read _ _ _ _ 5). reflexivity.
    + apply (ps_run_read _ _ _ _ false). reflexivity.
    + apply (ps_write _ _ _ _ [1; 2; 3]). reflexivity.
    + eapply (ps_run_write _ _ _ _ false). vm_compute. reflexivity.
  - reflexivity.
  - vm_compute. reflexivity.
  - reflexivity.
Qed.

Lemma pipe_fifo_witness :
  exists x, preach x /\ calls x = [mkCall [1; 2; 3] 3 Returned] /\ contents (pp x) = [1; 2; 3].
Proof.
  destruct pipe_steps as (x & Hx & Hg & Hs & _). exists x.
  split; [exact Hx|]. split; [exact Hs|]. destruct (pipe_fifo x Hx) as [E _].
  rewrite Hs, Hg in E. symmetry. exact E.
Defined.

Lemma pipe_no_lost_wakeup_witness :
  exists x, preach x /\ reader x = Ready 5
    /\ forall rest n, ~ (writer x = Sleeping rest /\ reader x = Sleeping n).
Proof.
  destruct pipe_steps as (x & Hx & _ & _ & Hr). exists x.
  split; [exact Hx|]. split; [exact Hr|]. apply (pipe_no_lost_wakeup x Hx).
Defined.

Lemma pipewrite_killed_no_wakeup_witness :
  exists p', pipewrite true (replicate 600 7) empty_pipe
             = Ok (p', mkWake false false, Error)
    /\ contents p' = take (Z.to_nat PIPESIZE) (replicate 600 7).
Proof.
  apply (pipewrite_killed_no_wakeup empty_pipe (replicate 600 7)).
  - by constructor.
  - reflexivity.
  - reflexivity.
Defined.
