(* ===== verification/Locks.v ===== *)
(** Model of src/spinlock.c and src/sleeplock.c: spin locks with their interrupt
    bookkeeping, and sleep locks.

    [acquire] and [release] are split at every access to the shared lock, one
    step per access, so that a schedule (a list of CPU numbers) interleaves any
    number of CPUs as finely as the hardware does.  The fields of a lock that
    only record a call stack for debugging are left out of the lock's record;
    the function that fills them is [getstackpcs]. *)
From stdpp Require Import base strings numbers list.
From S2P Require Import Prelude.
Local Open Scope Z_scope.

(** * Interrupt nesting *)

(** [iflag] is the interrupt flag of the CPU's [eflags]. *)
Record cpu : Type := mkCpu { ncli : Z; intena : bool; iflag : bool }.

Definition pushcli (c : cpu) : cpu :=
  let eflags := iflag c in
  mkCpu (s32 (ncli c + 1)) (if ncli c =? 0 then eflags else intena c) false.

Definition popcli (c : cpu) : res cpu :=
  if iflag c then Panic "popcli - interruptible"
  else
    let n := s32 (ncli c - 1) in
    if n <? 0 then Panic "popcli"
    else Ok (mkCpu n (intena c) ((n =? 0) && intena c || iflag c)).

(** The saved program counters of the call stack at [rbp]: at most ten frames,
    stopping at a frame pointer that is null, below the kernel or all ones;
    [mem] reads a 64-bit word. *)
Definition KERNBASE : Z := 0xFFFF800000000000.

Fixpoint stack_frames (mem : Z -> Z) (n : nat) (rbp : Z) : list Z :=
  match n with
  | O => []
  | S n =>
      if (rbp =? 0) || (rbp <? KERNBASE) || (rbp =? 0xffffffff) then []
      else mem (u64 (rbp + 8)) :: stack_frames mem n (mem rbp)
  end.
Definition getstackpcs (mem : Z -> Z) (rbp : Z) : list Z :=
  let pcs := stack_frames mem 10 rbp in
  pcs ++ replicate (10 - length pcs) 0.

(** * Spin locks *)

Record spinlock : Type := mkLock { locked : Z; lcpu : option nat }.

Definition initlock : spinlock := mkLock 0 None.

(** [holding(lk)] on CPU [me]. *)
Definition holding (me : nat) (lk : spinlock) : bool :=
  negb (locked lk =? 0) && bool_decide (lcpu lk = Some me).

(** Where a CPU is in [acquire] and [release]: outside; spinning on the
    exchange; after the exchange succeeded; inside the critical section; after
    [lk->cpu = 0]; after [lk->locked = 0]. *)
Inductive phase : Type := Out | Spinning | Taken | Held | Dropping | Popping.

(** [acquire] up to the loop. *)
Definition acquire_enter (me : nat) (lk : spinlock) (c : cpu) : res cpu :=
  let c := pushcli c in
  if holding me lk then Panic "acquire" else Ok c.

(** One [xchg(&lk->locked, 1)]: the new lock and whether the old value was 0. *)
Definition acquire_xchg (lk : spinlock) : spinlock * bool :=
  (mkLock 1 (lcpu lk), locked lk =? 0).

Definition acquire_own (me : nat) (lk : spinlock) : spinlock :=
  mkLock (locked lk) (Some me).

Definition release_enter (me : nat) (lk : spinlock) : res spinlock :=
  if negb (holding me lk) then Panic "release" else Ok (mkLock (locked lk) None).

Definition release_drop (lk : spinlock) : spinlock := mkLock 0 (lcpu lk).

(** The lock and, for each CPU, its phase and interrupt state. *)
Record machine : Type := mkMachine { lk : spinlock; cpus : list (phase * cpu) }.

(** CPU [i] executes its next access.  A CPU outside starts acquiring, one
    inside starts releasing. *)
Definition cpu_step (i : nat) (m : machine) : res machine :=
  match cpus m !! i with
  | None => Fault
  | Some (ph, c) =>
      let set ph c lk := Ok (mkMachine lk (<[i := (ph, c)]> (cpus m))) in
      match ph with
      | Out => c ← acquire_enter i (lk m) c; set Spinning c (lk m)
      | Spinning =>
          let '(l, won) := acquire_xchg (lk m) in
          set (if won then Taken else Spinning) c l
      | Taken => set Held c (acquire_own i (lk m))
      | Held => l ← release_enter i (lk m); set Dropping c l
      | Dropping => set Popping c (release_drop (lk m))
      | Popping => c ← popcli c; set Out c (lk m)
      end
  end.

Fixpoint run (schedule : list nat) (m : machine) : res machine :=
  match schedule with
  | [] => Ok m
  | i :: schedule => m ← cpu_step i m; run schedule m
  end.

(** * Mutual exclusion *)

Definition critical (ph : phase) : bool :=
  match ph with Taken | Held | Dropping => true | _ => false end.

(** A CPU that has interrupts on when it is outside every lock. *)
Definition cpu_ok (ph : phase) (c : cpu) : Prop :=
  match ph with
  | Out => c = mkCpu 0 (intena c) true
  | _ => c = mkCpu 1 true false
  end.

Record lock_inv (m : machine) (owner : option nat) : Prop := {
  li_cpu : forall i ph c, cpus m !! i = Some (ph, c) -> cpu_ok ph c;
  li_locked : locked (lk m) = if owner then 1 else 0;
  li_critical : forall i ph c, cpus m !! i = Some (ph, c) ->
    critical ph = true <-> owner = Some i;
  li_held : forall i ph c, cpus m !! i = Some (ph, c) ->
    ph = Held <-> lcpu (lk m) = Some i;
  li_lcpu : forall j, lcpu (lk m) = Some j -> owner = Some j }.

Lemma holding_held m owner i ph c :
  lock_inv m owner -> cpus m !! i = Some (ph, c) ->
  holding i (lk m) = true <-> ph = Held.
Proof.
  intros [_ Hl Hc Hh _] Hi. unfold holding. rewrite andb_true_iff, bool_decide_eq_true.
  rewrite (Hh i ph c Hi), Hl. split; [by intros [_ ?]|]. intros E. split; [|done].
  assert (ph = Held) as -> by (by eapply Hh).
  destruct (Hc i Held c Hi) as [-> _]; done.
Qed.

(** What a step must establish for its own CPU; the others are unchanged. *)
Lemma lock_inv_update m (owner : option nat) i ph c ph' c' l' (owner' : option nat) :
  lock_inv m owner -> cpus m !! i = Some (ph, c) ->
  cpu_ok ph' c' ->
  locked l' = (if owner' then 1 else 0) ->
  (critical ph' = true <-> owner' = Some i) ->
  (ph' = Held <-> lcpu l' = Some i) ->
  (forall j, j <> i -> owner' = Some j <-> owner = Some j) ->
  (forall j, j <> i -> lcpu l' = Some j <-> lcpu (lk m) = Some j) ->
  (forall j, lcpu l' = Some j -> owner' = Some j) ->
  lock_inv (mkMachine l' (<[i := (ph', c')]> (cpus m))) owner'.
Proof.
  intros [Hcpu Hl Hc Hh _] Hi Hok Hl' Hcr Hhd Ho Hlc Hlo.
  assert (Hcase : forall j q d, <[i:=(ph', c')]> (cpus m) !! j = Some (q, d) ->
    (j = i /\ q = ph' /\ d = c') \/ (j <> i /\ cpus m !! j = Some (q, d))).
  { intros j q d. destruct (decide (j = i)) as [->|Hne].
    - rewrite list_lookup_insert_eq by (by eapply lookup_lt_Some).
      intros [= -> ->]. by left.
    - rewrite list_lookup_insert_ne by done. by right. }
  constructor; simpl; [|done| | |done]; intros j q d [(-> & -> & ->)|[Hne Hj]]%Hcase; try done.
  - by eapply Hcpu.
  - rewrite Ho by done. by eapply Hc.
  - rewrite Hlc by done. by eapply Hh.
Qed.

Lemma cpu_step_inv i m owner :
  lock_inv m owner -> (i < length (cpus m))%nat ->
  exists m' owner', cpu_step i m = Ok m' /\ lock_inv m' owner'
    /\ length (cpus m') = length (cpus m).
Proof.
  intros Hm Hi. apply lookup_lt_is_Some_2 in Hi as [[ph c] Hi].
  pose proof (holding_held m owner i ph c Hm Hi) as Hhold.
  pose proof Hm as [Hcpu Hl Hc Hh Hlo].
  specialize (Hcpu i ph c Hi). specialize (Hc i ph c Hi). specialize (Hh i ph c Hi).
  unfold cpu_step. rewrite Hi.
  destruct ph; simpl in Hcpu, Hc; unfold acquire_enter, release_enter, acquire_xchg.
  - destruct (holding i (lk m)); [by destruct Hhold as [E _]; specialize (E eq_refl)|]. ok.
    exists (mkMachine (lk m) (<[i := (Spinning, pushcli c)]> (cpus m))), owner.
    split; [done|]. split; [|by simpl; rewrite length_insert].
    eapply lock_inv_update; try done; [by rewrite Hcpu|split; [done|by intros E%Hh]].
  - destruct owner as [k|].
    + eexists _, (Some k). rewrite Hl. split; [reflexivity|].
      split; [|by simpl; rewrite length_insert]. eapply lock_inv_update; done || (split; [done|by intros E%Hh]).
    + eexists _, (Some i). rewrite Hl. split; [reflexivity|].
      split; [|by simpl; rewrite length_insert]. eapply lock_inv_update; try done.
      * split; [done|by intros E%Hh].
      * intros j Hj. split; [congruence|done].
      * intros j Hj. by apply Hlo in Hj.
  - assert (owner = Some i) as -> by (by apply Hc).
    eexists _, (Some i). split; [reflexivity|]. split; [|by simpl; rewrite length_insert].
    eapply lock_inv_update; try done. intros j Hj. simpl. split; [congruence|].
    intros E. apply Hlo in E. congruence.
  - assert (owner = Some i) as -> by (by apply Hc).
    rewrite (proj2 Hhold eq_refl). simpl negb. cbn iota. ok.
    eexists _, (Some i). split; [reflexivity|]. split; [|by simpl; rewrite length_insert].
    eapply lock_inv_update; try done. intros j Hj. simpl. split; [done|].
    intros E. apply Hlo in E. congruence.
  - assert (owner = Some i) as -> by (by apply Hc).
    eexists _, None. split; [reflexivity|]. split; [|by simpl; rewrite length_insert].
    eapply lock_inv_update; try done.
    + split; [done|by intros E%Hh].
    + intros j Hj. split; [done|congruence].
    + intros j Hj. simpl in Hj. assert (j = i) as -> by (apply Hlo in Hj; congruence).
      by apply Hh in Hj.
  - rewrite Hcpu. unfold popcli. simpl. eexists _, owner. split; [reflexivity|].
    split; [|by simpl; rewrite length_insert]. eapply lock_inv_update; done || (split; [done|by intros E%Hh]).
Qed.

Lemma run_inv schedule m owner :
  lock_inv m owner -> Forall (fun i => (i < length (cpus m))%nat) schedule ->
  exists m' owner', run schedule m = Ok m' /\ lock_inv m' owner'.
Proof.
  revert m owner. induction schedule as [|i sched IH]; intros m owner Hm Hs.
  - by exists m, owner.
  - apply Forall_cons in Hs as [Hi Hs]. simpl.
    destruct (cpu_step_inv i m owner Hm Hi) as (m1 & o1 & -> & H1 & Hlen). ok.
    apply (IH m1 o1 H1). by rewrite Hlen.
Qed.

(** A machine of [n] CPUs outside the lock, with interrupts enabled. *)
Definition smp (n : nat) : machine :=
  mkMachine initlock (replicate n (Out, mkCpu 0 false true)).

Lemma smp_inv n : lock_inv (smp n) None.
Proof.
  constructor; simpl; try done; intros i ph c [[= -> ->] _]%lookup_replicate; done.
Qed.

(** C16: however the steps of any number of CPUs that acquire and release a spin
    lock over and over are interleaved, no [panic] happens, at most one CPU is
    past the exchange and before the store that unlocks, interrupts are off on
    every CPU from [acquire] to [release], and [lk->cpu] names the CPU in the
    critical section. *)
Theorem spinlock_mutual_exclusion n schedule :
  Forall (fun i => (i < n)%nat) schedule ->
  exists m, run schedule (smp n) = Ok m
    /\ (forall i j ph c ph' c', cpus m !! i = Some (ph, c) ->
          cpus m !! j = Some (ph', c') ->
          critical ph = true -> critical ph' = true -> i = j)
    /\ (forall i ph c, cpus m !! i = Some (ph, c) -> ph <> Out -> iflag c = false)
    /\ (forall i ph c, cpus m !! i = Some (ph, c) ->
          ph = Held <-> lcpu (lk m) = Some i).
Proof.
  intros Hs. destruct (run_inv schedule (smp n) None (smp_inv n))
    as (m & o & -> & [Hcpu _ Hc Hh _]).
  { simpl. by rewrite length_replicate. }
  exists m. split; [done|]. split; [|split; [|done]].
  - intros i j ph c ph' c' Hi Hj Hci Hcj.
    apply (Hc i ph c Hi) in Hci. apply (Hc j ph' c' Hj) in Hcj. congruence.
  - intros i ph c Hi Hne. apply Hcpu in Hi. destruct ph; simpl in Hi; try done;
      by rewrite Hi.
Qed.

Lemma spinlock_mutual_exclusion_witness :
  exists m, run [0; 1; 0; 1; 0; 1; 0; 0; 1]%nat (smp 2) = Ok m
    /\ forall i ph c, cpus m !! i = Some (ph, c) -> ph <> Out -> iflag c = false.
Proof.
  destruct (spinlock_mutual_exclusion 2 [0; 1; 0; 1; 0; 1; 0; 0; 1]%nat)
    as (m & ? & _ & ? & _); [repeat constructor; lia|].
  exists m. done.
Defined.

(** A sequence of [pushcli] ([true]) and [popcli] ([false]). *)
Fixpoint run_cli (ops : list bool) (c : cpu) : res cpu :=
  match ops with
  | [] => Ok c
  | true :: ops => run_cli ops (pushcli c)
  | false :: ops => c ← popcli c; run_cli ops c
  end.

(** The nesting depth after [ops], [None] when a pop has no push. *)
Fixpoint depth (ops : list bool) (d : nat) : option nat :=
  match ops with
  | [] => Some d
  | true :: ops => depth ops (S d)
  | false :: ops => match d with O => None | S d => depth ops d end
  end.

(** The state of a CPU at nesting depth [d] whose interrupts were [flag] outside
    every [pushcli]. *)
Definition cli_at (flag : bool) (d : nat) (c : cpu) : Prop :=
  ncli c = Z.of_nat d /\ iflag c = (if d then flag else false)
  /\ (d <> 0%nat -> intena c = flag).

Lemma run_cli_spec flag ops d d' c :
  Z.of_nat (d + length ops) < 2 ^ 31 -> cli_at flag d c -> depth ops d = Some d' ->
  exists c', run_cli ops c = Ok c' /\ cli_at flag d' c'.
Proof.
  revert d c. induction ops as [|[] ops IH]; intros d c Hlen (Hn & Hf & Hi) Hd; simpl in *.
  - injection Hd as <-. by exists c.
  - apply (IH (S d)); [lia| |done]. unfold cli_at, pushcli. simpl.
    rewrite Hn, s32_id by lia. split; [lia|]. split; [done|]. intros _.
    destruct d; simpl in *; [done|]. by apply Hi.
  - destruct d as [|d]; [done|]. unfold popcli. rewrite Hf, Hn, s32_id by lia.
    replace (Z.of_nat (S d) - 1) with (Z.of_nat d) by lia.
    replace (Z.of_nat d <? 0) with false by lia. ok.
    apply (IH d); [lia| |done]. unfold cli_at. simpl. split; [done|].
    specialize (Hi ltac:(lia)). rewrite orb_false_r. split; [|done].
    destruct d; simpl; [done|]. reflexivity.
Qed.

(** [pushcli] and [popcli] nest: a sequence in which every pop has its push
    never panics, keeps interrupts off while the depth is positive, and
    restores the interrupt flag the CPU had before the first push whenever the
    depth returns to zero. *)
Theorem cli_nesting flag ops d c :
  Z.of_nat (length ops) < 2 ^ 31 -> ncli c = 0 -> iflag c = flag ->
  depth ops 0 = Some d ->
  exists c', run_cli ops c = Ok c' /\ ncli c' = Z.of_nat d
    /\ iflag c' = if d then flag else false.
Proof.
  intros Hlen Hn Hf Hd.
  destruct (run_cli_spec flag ops 0 d c) as (c' & ? & ? & ? & _); [done| |done|eauto].
  by split.
Qed.

Lemma cli_nesting_witness :
  exists c', run_cli [true; true; false; false] (mkCpu 0 false true) = Ok c'
    /\ ncli c' = 0 /\ iflag c' = true.
Proof. by apply (cli_nesting true [true; true; false; false] 0). Defined.

(** * Sleep locks *)

Record sleeplock : Type := mkSleep { slocked : Z; spid : Z }.

Definition initsleeplock : sleeplock := mkSleep 0 0.

(** A process outside, inside [acquiresleep] and runnable, asleep on the lock,
    or between [acquiresleep] and [releasesleep]. *)
Inductive status : Type := Away | Wanting | Waiting | Owning.

(** The section of [acquiresleep] between two sleeps: take the lock or go to
    sleep. *)
Definition acquiresleep (pid : Z) (l : sleeplock) : sleeplock * status :=
  if negb (slocked l =? 0) then (l, Waiting) else (mkSleep 1 pid, Owning).

(** [releasesleep], with [wakeup(lk)] on the processes. *)
Definition releasesleep (l : sleeplock) (procs : list status)
    : sleeplock * list status :=
  (mkSleep 0 0,
   map (fun s => match s with Waiting => Wanting | _ => s end) procs).

Definition holdingsleep (l : sleeplock) : bool := negb (slocked l =? 0).

Record sleepers : Type := mkSleepers { sl : sleeplock; procs : list status }.

(** Process [i] (of pid [i + 1]) takes its next step. *)
Definition proc_step (i : nat) (m : sleepers) : sleepers :=
  match procs m !! i with
  | Some Away => mkSleepers (sl m) (<[i := Wanting]> (procs m))
  | Some Wanting =>
      let '(l, s) := acquiresleep (Z.of_nat i + 1) (sl m) in
      mkSleepers l (<[i := s]> (procs m))
  | Some Owning =>
      let '(l, ps) := releasesleep (sl m) (<[i := Away]> (procs m)) in
      mkSleepers l ps
  | _ => m
  end.

Definition run_procs (schedule : list nat) (m : sleepers) : sleepers :=
  fold_left (fun m i => proc_step i m) schedule m.

Record sleep_inv (m : sleepers) (owner : option nat) : Prop := {
  sv_locked : slocked (sl m) = if owner then 1 else 0;
  sv_owner : forall i s, procs m !! i = Some s -> s = Owning <-> owner = Some i;
  sv_pid : forall i, owner = Some i ->
    spid (sl m) = Z.of_nat i + 1 /\ (i < length (procs m))%nat;
  sv_waiting : forall i, procs m !! i = Some Waiting -> owner <> None }.

Lemma insert_cases {A} (l : list A) i x j y :
  <[i := x]> l !! j = Some y -> (j = i /\ y = x) \/ (j <> i /\ l !! j = Some y).
Proof.
  destruct (decide (j = i)) as [->|Hne].
  - intros H. assert (i < length l)%nat by (apply lookup_lt_Some in H; by rewrite length_insert in H).
    rewrite list_lookup_insert_eq in H by done. injection H as ->. by left.
  - rewrite list_lookup_insert_ne by done. by right.
Qed.

Lemma proc_step_inv i m owner :
  sleep_inv m owner -> exists owner', sleep_inv (proc_step i m) owner'.
Proof.
  intros Hm. pose proof Hm as [Hl Ho Hp Hw]. unfold proc_step.
  destruct (procs m !! i) as [[]|] eqn:Ei; try (by exists owner).
  - exists owner. pose proof (Ho i _ Ei) as Hi.
    constructor; simpl; [done| |by rewrite length_insert|].
    + intros j s [[-> ->]|[_ Hj]]%insert_cases; [split; [done|by intros E%Hi]|by apply Ho].
    + intros j [[-> ?]|[_ Hj]]%insert_cases; [done|by eapply Hw].
  - pose proof (Ho i _ Ei) as Hi. unfold acquiresleep. rewrite Hl.
    destruct owner as [k|]; simpl.
    + exists (Some k). constructor; simpl; [done| |by rewrite length_insert|done].
      intros j s [[-> ->]|[_ Hj]]%insert_cases; [split; [done|by intros E%Hi]|by apply Ho].
    + exists (Some i). constructor; simpl; [done| | |done].
      * intros j s [[-> ->]|[Hne Hj]]%insert_cases; [done|].
        rewrite (Ho j s Hj). split; [done|congruence].
      * intros j [= <-]. rewrite length_insert. split; [done|].
        by eapply lookup_lt_Some.
  - exists None. assert (owner = Some i) as -> by (by eapply Ho).
    constructor; simpl; [done| |done|].
    + intros j s. rewrite list_lookup_fmap. intros (t & Ht & ->)%fmap_Some.
      apply insert_cases in Ht as [[-> ->]|[Hne Ht]]; [done|].
      split; [|done]. intros E. assert (t = Owning) as -> by (by destruct t).
      apply Ho in Ht as [Ht _]. specialize (Ht eq_refl). congruence.
    + intros j. rewrite list_lookup_fmap. intros (t & _ & E)%fmap_Some.
      by destruct t.
Qed.

(** A sleep lock excludes: in every schedule of any number of processes at
    most one process is between [acquiresleep] and [releasesleep], the lock's
    [pid] is that process's, and a process is asleep on the lock only while
    some process holds it (whose release will wake it). *)
Theorem sleeplock_mutual_exclusion n schedule :
  let m := run_procs schedule (mkSleepers initsleeplock (replicate n Away)) in
  (forall i j, procs m !! i = Some Owning -> procs m !! j = Some Owning -> i = j)
  /\ (forall i, procs m !! i = Some Owning ->
        holdingsleep (sl m) = true /\ spid (sl m) = Z.of_nat i + 1)
  /\ (forall i, procs m !! i = Some Waiting -> exists j, procs m !! j = Some Owning).
Proof.
  intros m. assert (H : exists owner, sleep_inv m owner).
  { assert (H0 : sleep_inv (mkSleepers initsleeplock (replicate n Away)) None).
    { constructor; simpl; [done| |done|].
      - by intros i s [-> _]%lookup_replicate.
      - by intros i [? _]%lookup_replicate. }
    subst m. revert H0. generalize (mkSleepers initsleeplock (replicate n Away)) as m0.
    generalize (@None nat) as o0. induction schedule as [|i sched IH]; intros o0 m0 H0; simpl.
    - by exists o0.
    - destruct (proc_step_inv i m0 o0 H0) as (o1 & H1). by eapply IH. }
  destruct H as (owner & [Hl Ho Hp Hw]). split; [|split].
  - intros i j Hi Hj. apply Ho in Hi as [Hi _]. apply Ho in Hj as [Hj _].
    specialize (Hi eq_refl). specialize (Hj eq_refl). congruence.
  - intros i Hi. apply Ho in Hi as [Hi _]. rewrite (Hi eq_refl) in *.
    unfold holdingsleep. rewrite Hl. split; [done|]. by apply Hp.
  - intros i Hi. apply Hw in Hi. destruct owner as [j|]; [|done].
    destruct (Hp j eq_refl) as [_ Hj]. apply lookup_lt_is_Some_2 in Hj as [s Hs].
    exists j. rewrite Hs. f_equal. by apply (Ho j s Hs).
Qed.
