(* ===== verification/Kalloc.v ===== *)
(** Model of src/kalloc.c: the physical page allocator.

    The free list is threaded through the free pages themselves, so the model
    works on the byte memory of CString: [kfree] fills the page with junk and
    stores the link in its first eight bytes, [kalloc] reads it back.  [end_]
    is the first address after the kernel, a link-time constant.  The lock
    [kmem.lock] makes each function atomic. *)
From stdpp Require Import base strings numbers list.
From S2P Require Import Prelude CString Locks.
Local Open Scope Z_scope.

Definition PGSIZE : Z := 4096.
Definition PHYSTOP : Z := 0xE000000.
Definition V2P (a : Z) : Z := u64 (a - KERNBASE).
Definition P2V (a : Z) : Z := u64 (a + KERNBASE).
Definition PGROUNDUP (sz : Z) : Z :=
  Z.land (u64 (sz + (PGSIZE - 1))) (u64 (Z.lnot (PGSIZE - 1))).
Definition PGROUNDDOWN (a : Z) : Z := Z.land a (u64 (Z.lnot (PGSIZE - 1))).

(** An eight-byte little-endian load and store. *)
Fixpoint load_le (n : nat) (m : mem) (a : Z) : Z :=
  match n with
  | O => 0
  | S n => m a + 256 * load_le n m (a + 1)
  end.
Fixpoint store_le (n : nat) (m : mem) (a v : Z) : mem :=
  match n with
  | O => m
  | S n => store_le n (store m a v) (a + 1) (v / 256)
  end.
Definition load64 : mem -> Z -> Z := load_le 8.
Definition store64 : mem -> Z -> Z -> mem := store_le 8.

Record kmem : Type := mkKmem { use_lock : bool; freelist : Z; ram : mem }.

Definition kfree (end_ v : Z) (k : kmem) : res kmem :=
  if negb (v mod PGSIZE =? 0) || (v <? end_) || (PHYSTOP <=? V2P v)
  then Panic "kfree"
  else
    let m := memset (ram k) v 1 PGSIZE in
    Ok (mkKmem (use_lock k) v (store64 m v (freelist k))).

Definition kalloc (k : kmem) : res (Z * kmem) :=
  let r := freelist k in
  if negb (r =? 0) then Ok (r, mkKmem (use_lock k) (load64 (ram k) r) (ram k))
  else Panic "Out of memory!".

(** [for(; p + PGSIZE <= vend; p += PGSIZE) kfree(p)]; the fuel covers the
    pages between the two addresses. *)
Definition freerange (end_ vstart vend : Z) (k : kmem) : res kmem :=
  '(_, k) ← while_ (Z.to_nat ((vend - vstart) / PGSIZE + 1))
    (fun '(p, _) => u64 (p + PGSIZE) <=? vend)
    (fun '(p, k) => k ← kfree end_ p k; Ok (u64 (p + PGSIZE), k))
    (PGROUNDUP vstart, k);
  Ok k.

Definition kinit1 (end_ vstart vend : Z) (k : kmem) : res kmem :=
  freerange end_ vstart vend (mkKmem false 0 (ram k)).

Definition kinit2 (k : kmem) : kmem := mkKmem true (freelist k) (ram k).

(** * Loads and stores *)

Lemma load_le_ext n m m' a :
  (forall b, a <= b < a + Z.of_nat n -> m b = m' b) -> load_le n m a = load_le n m' a.
Proof.
  revert a. induction n as [|n IH]; intros a H; [done|]. cbn [load_le].
  rewrite (H a) by lia. rewrite (IH (a + 1)); [done|]. intros b Hb. apply H. lia.
Qed.

Lemma store_le_other n m a v b :
  ~ (a <= b < a + Z.of_nat n) -> store_le n m a v b = m b.
Proof.
  revert m a v. induction n as [|n IH]; intros m a v H; [done|]. cbn [store_le].
  rewrite IH by lia. unfold store. by replace (b =? a) with false by lia.
Qed.

Lemma load_store_le n m a v :
  0 <= v < 256 ^ Z.of_nat n -> load_le n (store_le n m a v) a = v.
Proof.
  revert m a v. induction n as [|n IH]; intros m a v Hv; [simpl in *; lia|].
  cbn [load_le store_le]. rewrite store_le_other by lia.
  rewrite Nat2Z.inj_succ, Z.pow_succ_r in Hv by lia.
  rewrite IH by (split; [apply Z.div_pos; lia|apply Z.div_lt_upper_bound; lia]).
  unfold store. rewrite Z.eqb_refl. unfold u8. change (2 ^ 8) with 256.
  pose proof (Z.div_mod v 256). lia.
Qed.

Lemma store_le_u8 n m a v : (forall b, is_u8 (m b)) -> forall b, is_u8 (store_le n m a v b).
Proof.
  revert m a v. induction n as [|n IH]; intros m a v H b; [done|]. cbn [store_le].
  apply IH. intros b'. unfold store. destruct (b' =? a); [apply u8_range|apply H].
Qed.

(** * The free list *)

Definition page (end_ v : Z) : Prop :=
  v mod PGSIZE = 0 /\ end_ <= v /\ KERNBASE <= v < KERNBASE + PHYSTOP.

Fixpoint chain (m : mem) (p : Z) (l : list Z) : Prop :=
  match l with
  | [] => p = 0
  | v :: l => p = v /\ v <> 0 /\ chain m (load64 m v) l
  end.

Record kmem_inv (end_ : Z) (k : kmem) (l : list Z) : Prop := {
  ki_chain : chain (ram k) (freelist k) l;
  ki_nodup : NoDup l;
  ki_page : Forall (page end_) l }.

(** Distinct pages do not overlap. *)
Lemma page_disjoint end_ v w a :
  page end_ v -> page end_ w -> v <> w ->
  w <= a < w + PGSIZE -> ~ (v <= a < v + PGSIZE).
Proof. unfold page, PGSIZE. intros (Hv & _) (Hw & _) Hne Ha Hb. dlia. Qed.

(** Writes outside the free pages leave the free list as it is. *)
Lemma chain_ext end_ m m' p l :
  Forall (page end_) l ->
  (forall v a, v ∈ l -> v <= a < v + PGSIZE -> m' a = m a) ->
  chain m p l -> chain m' p l.
Proof.
  revert p. induction l as [|v l IH]; intros p Hp Hext; [done|].
  apply Forall_cons in Hp as [Hv Hp]. intros (-> & Hne & Hc). split; [done|].
  split; [done|]. replace (load64 m' v) with (load64 m v).
  - apply IH; [done| |done]. intros w a Hw Ha. apply (Hext w); [by right|done].
  - apply load_le_ext. intros b Hb. symmetry. apply (Hext v); [by left|].
    unfold PGSIZE. simpl in Hb. lia.
Qed.

Lemma memset_other m dst c n a :
  0 <= n < 2 ^ 32 -> ~ (dst <= a < dst + n) -> memset m dst c n a = m a.
Proof.
  intros Hn Ha. rewrite memset_spec by done. by replace (_ && _) with false by lia.
Qed.

Lemma page_range end_ v : page end_ v -> 0 < v < 2 ^ 64.
Proof. unfold page, KERNBASE, PHYSTOP. lia. Qed.

Lemma chain_head m p l end_ : Forall (page end_) l -> chain m p l -> 0 <= p < 256 ^ 8.
Proof.
  destruct l as [|v l]; simpl; intros Hp H; [lia|].
  apply Forall_cons in Hp as [Hv _]. apply page_range in Hv. destruct H as [-> _]. lia.
Qed.

Lemma page_check end_ v :
  page end_ v ->
  negb (v mod PGSIZE =? 0) || (v <? end_) || (PHYSTOP <=? V2P v) = false.
Proof.
  unfold page, V2P, KERNBASE, PHYSTOP. intros (Hm & He & Hk). rewrite u64_id by lia. lia.
Qed.

Lemma kfree_spec end_ v k l :
  kmem_inv end_ k l -> page end_ v -> v ∉ l ->
  exists k', kfree end_ v k = Ok k' /\ kmem_inv end_ k' (v :: l)
    /\ use_lock k' = use_lock k
    /\ forall a, ~ (v <= a < v + PGSIZE) -> ram k' a = ram k a.
Proof.
  intros [Hc Hnd Hp] Hv Hin. unfold kfree. rewrite page_check by done.
  eexists. split; [reflexivity|].
  assert (Hout : forall a, ~ (v <= a < v + PGSIZE) ->
    store64 (memset (ram k) v 1 PGSIZE) v (freelist k) a = ram k a).
  { intros a Ha. unfold PGSIZE in *. unfold store64. rewrite store_le_other by lia.
    apply memset_other; lia. }
  split; [|done]. constructor; simpl; [|by constructor|by constructor].
  split; [done|]. split; [apply page_range in Hv; lia|].
  unfold load64, store64. rewrite load_store_le by (by eapply chain_head).
  apply (chain_ext end_ (ram k)); [done| |done].
  intros w a Hw Ha. apply Hout. apply (page_disjoint end_ v w); [done| |congruence|done].
  by eapply Forall_forall in Hp.
Qed.

Lemma kalloc_spec end_ k v l :
  kmem_inv end_ k (v :: l) ->
  exists k', kalloc k = Ok (v, k') /\ kmem_inv end_ k' l /\ ram k' = ram k
    /\ page end_ v /\ v ∉ l.
Proof.
  intros [(Hf & Hne & Hc) [Hnin Hnd]%NoDup_cons [Hv Hp]%Forall_cons].
  unfold kalloc. rewrite Hf. replace (v =? 0) with false by lia. eexists.
  split; [reflexivity|]. split; [by constructor|]. by repeat (split; [done|]).
Qed.

(** * The allocator and its clients

    [held] are the pages given out and not yet returned.  Clients return only
    pages they hold and write only to pages they hold. *)
Inductive kstep (end_ : Z) : kmem * list Z -> kmem * list Z -> Prop :=
  | ks_alloc k k' v held :
      kalloc k = Ok (v, k') -> kstep end_ (k, held) (k', v :: held)
  | ks_free k k' v held1 held2 :
      kfree end_ v k = Ok k' -> kstep end_ (k, held1 ++ v :: held2) (k', held1 ++ held2)
  | ks_write k a b v held :
      v ∈ held -> v <= a < v + PGSIZE ->
      kstep end_ (k, held) (mkKmem (use_lock k) (freelist k) (store (ram k) a b), held)
  | ks_init2 k held : kstep end_ (k, held) (kinit2 k, held).

Inductive kreach (end_ : Z) (k0 : kmem) : kmem * list Z -> Prop :=
  | kreach_init : kreach end_ k0 (k0, [])
  | kreach_step x y : kreach end_ k0 x -> kstep end_ x y -> kreach end_ k0 y.

Lemma kreach_inv end_ k0 pages x :
  kmem_inv end_ k0 pages -> kreach end_ k0 x ->
  exists free, kmem_inv end_ (fst x) free
    /\ Forall (page end_) (snd x) /\ Permutation (snd x ++ free) pages.
Proof.
  intros H0. induction 1 as [|x y _ (free & Hk & Hh & Hp) Hs].
  - by exists pages.
  - assert (Hnd : NoDup (snd x ++ free)) by (rewrite Hp; apply H0).
    destruct Hs as [k k' v held Ha|k k' v held1 held2 Hf|k a b v held Hv Ha|k held]; simpl in *.
    + destruct free as [|w free].
      { unfold kalloc in Ha. destruct Hk as [Hc _ _]. simpl in Hc. by rewrite Hc in Ha. }
      destruct (kalloc_spec end_ k w free Hk) as (k1 & E & Hk1 & _ & Hw & _).
      rewrite Ha in E. injection E as -> ->. exists free. split; [done|].
      split; [by constructor|]. rewrite <- Hp. simpl. apply Permutation_middle.
    + apply Forall_app in Hh as [Hh1 [Hv Hh2]%Forall_cons].
      destruct (kfree_spec end_ v k free Hk Hv) as (k1 & E & Hk1 & _).
      { apply NoDup_app in Hnd as (_ & Hd & _). apply Hd. apply elem_of_app; right; left. }
      rewrite Hf in E. injection E as ->. exists (v :: free). split; [done|].
      split; [by apply Forall_app|]. rewrite <- Hp, <- !app_assoc. simpl.
      apply Permutation_app_head. symmetry. apply Permutation_middle.
    + exists free. split; [|done]. destruct Hk as [Hc Hn Hpg]. constructor; simpl; try done.
      apply (chain_ext end_ (ram k)); [done| |done]. intros w c Hw Hc'.
      unfold store. destruct (Z.eqb_spec c a) as [->|]; [|done].
      apply NoDup_app in Hnd as (_ & Hd & _).
      exfalso. apply (page_disjoint end_ v w a); try done.
      * by eapply Forall_forall in Hh.
      * by eapply Forall_forall in Hpg.
      * intros ->. by apply (Hd w).
    + exists free. split; [|done]. by destruct Hk.
Qed.

Lemma PGROUNDUP_spec a :
  0 <= a < 2 ^ 64 - PGSIZE -> PGROUNDUP a = (a + (PGSIZE - 1)) / PGSIZE * PGSIZE.
Proof.
  unfold PGROUNDUP, PGSIZE. intros Ha. rewrite u64_id by lia.
  change (u64 (Z.lnot (4096 - 1))) with (Z.shiftl (Z.ones 52) 12).
  set (x := a + (4096 - 1)). assert (Hx : 0 <= x < 2 ^ 64) by lia. clearbody x. clear Ha.
  apply Z.bits_inj'. intros n Hn.
  change 4096 with (2 ^ 12). rewrite <- Z.shiftr_div_pow2, <- Z.shiftl_mul_pow2 by lia.
  rewrite Z.land_spec. destruct (Z.ltb_spec n 12) as [H|H].
  - rewrite !Z.shiftl_spec_low by lia. apply andb_false_r.
  - rewrite !Z.shiftl_spec, Z.shiftr_spec by lia. replace (n - 12 + 12) with n by lia.
    destruct (Z.ltb_spec n 64) as [H64|H64].
    + rewrite Z.ones_spec_low by lia. apply andb_true_r.
    + rewrite Z.ones_spec_high by lia. rewrite andb_false_r. symmetry.
      apply Z.bits_above_log2; [lia|].
      destruct (Z.eq_dec x 0) as [->|]; [simpl; lia|]. apply Z.log2_lt_pow2; [lia|].
      apply Z.lt_le_trans with (2 ^ 64); [lia|]. apply Z.pow_le_mono_r; lia.
Qed.

Lemma kmem_empty end_ k : kmem_inv end_ (mkKmem false 0 (ram k)) [].
Proof. constructor; simpl; [done|constructor..]. Qed.

Lemma freerange_spec end_ vstart vend k :
  end_ <= vstart -> KERNBASE <= vstart <= vend -> vend <= KERNBASE + PHYSTOP ->
  kmem_inv end_ k [] ->
  exists k' l, freerange end_ vstart vend k = Ok k' /\ kmem_inv end_ k' l
    /\ forall v, v ∈ l <-> v mod PGSIZE = 0 /\ vstart <= v /\ v + PGSIZE <= vend.
Proof.
  intros He Hs Hv Hk. unfold freerange.
  assert (Hp0 : PGROUNDUP vstart mod PGSIZE = 0
                /\ vstart <= PGROUNDUP vstart < vstart + PGSIZE).
  { unfold KERNBASE, PHYSTOP in *. rewrite PGROUNDUP_spec by (unfold PGSIZE; lia).
    unfold PGSIZE. dlia. }
  set (p0 := PGROUNDUP vstart) in *. clearbody p0. destruct Hp0 as [Hm0 Hp0].
  destruct (while_rule (fun '(p, _) => u64 (p + PGSIZE) <=? vend)
    (fun '(p, k) => k ← kfree end_ p k; Ok (u64 (p + PGSIZE), k))
    (fun '(p, k) => p mod PGSIZE = 0 /\ p0 <= p <= Z.max p0 vend /\ exists l,
       kmem_inv end_ k l /\ forall v, v ∈ l <-> v mod PGSIZE = 0 /\ p0 <= v < p)
    (fun '(p, _) => (vend - p) / PGSIZE)
    (Z.to_nat ((vend - vstart) / PGSIZE + 1)) (p0, k))
    as ([p k'] & -> & (Hm & Hp & l & Hl & Hin) & Hc).
  - split; [done|]. split; [lia|]. exists []. split; [done|]. intros v.
    split; [by intros ?%elem_of_nil|lia].
  - intros [p k1] (_ & Hp & _) Hc. unfold KERNBASE, PHYSTOP, PGSIZE in *.
    rewrite u64_id in Hc by lia. dlia.
  - unfold KERNBASE, PHYSTOP, PGSIZE in *. dlia.
  - intros [p k1] (Hm & Hp & l & Hl & Hin) Hc.
    assert (Hu : u64 (p + PGSIZE) = p + PGSIZE).
    { apply u64_id. unfold KERNBASE, PHYSTOP, PGSIZE in *. lia. }
    rewrite Hu in Hc.
    destruct (kfree_spec end_ p k1 l Hl) as (k2 & -> & Hk2 & _).
    { unfold page. unfold PGSIZE in *. lia. }
    { rewrite Hin. lia. }
    ok. rewrite Hu. eexists. split; [reflexivity|]. unfold PGSIZE in *. split; [|dlia].
    split; [dlia|]. split; [lia|]. exists (p :: l). split; [done|].
    intros v. rewrite elem_of_cons, Hin.
    split; [intros [->|?]|intros ?]; [lia..|].
    destruct (decide (v = p)); [by left|right]. clear -Hm H n. dlia.
  - ok. exists k', l. split; [done|]. split; [done|]. intros v. rewrite Hin.
    unfold KERNBASE, PHYSTOP, PGSIZE in *. rewrite u64_id in Hc by lia.
    clear -Hm0 Hp0 Hm Hp Hc. split; intros ?; dlia.
Qed.

(** [kinit1] puts every page frame that lies entirely between the two
    addresses on the free list, once each, and nothing else. *)
Theorem kinit1_frees_all end_ vstart vend k :
  end_ <= vstart -> KERNBASE <= vstart <= vend -> vend <= KERNBASE + PHYSTOP ->
  exists k' l, kinit1 end_ vstart vend k = Ok k' /\ kmem_inv end_ k' l
    /\ forall v, v ∈ l <-> v mod PGSIZE = 0 /\ vstart <= v /\ v + PGSIZE <= vend.
Proof. intros. apply freerange_spec; try done. apply kmem_empty. Qed.

(** C9: the allocator never gives a page to two clients and never loses one:
    after any sequence of [kalloc], [kfree] of pages held and writes into pages
    held, the pages held and the pages on the free list (a well-formed chain
    through memory) are together exactly the initial pages, without
    repetition; and [kalloc] fails only when no page is free. *)
Theorem kalloc_conserves_pages end_ k0 pages k held :
  kmem_inv end_ k0 pages -> kreach end_ k0 (k, held) ->
  exists free, kmem_inv end_ k free /\ NoDup (held ++ free)
    /\ Permutation (held ++ free) pages
    /\ match free with
       | [] => kalloc k = Panic "Out of memory!"
       | v :: _ => exists k', kalloc k = Ok (v, k') /\ v ∉ held
       end.
Proof.
  intros H0 Hr. destruct (kreach_inv end_ k0 pages _ H0 Hr) as (free & Hk & _ & Hp).
  simpl in *. assert (Hnd : NoDup (held ++ free)) by (rewrite Hp; apply H0).
  exists free. do 3 (split; [done|]). destruct free as [|v free].
  - unfold kalloc. destruct Hk as [Hc _ _]. simpl in Hc. by rewrite Hc.
  - destruct (kalloc_spec end_ k v free Hk) as (k' & E & _). exists k'. split; [done|].
    intros Hin. apply NoDup_app in Hnd as (_ & Hd & _). by apply (Hd v Hin); left.
Qed.

Lemma kinit1_frees_all_witness :
  exists k' l, kinit1 KERNBASE (KERNBASE + 100) (KERNBASE + 9000)
                 (mkKmem false 0 (fun _ => 0)) = Ok k' /\ kmem_inv KERNBASE k' l
    /\ KERNBASE + 4096 ∈ l.
Proof.
  destruct (kinit1_frees_all KERNBASE (KERNBASE + 100) (KERNBASE + 9000)
    (mkKmem false 0 (fun _ => 0))) as (k' & l & Hk & Hi & Hl);
    [unfold KERNBASE, PHYSTOP; lia..|].
  exists k', l. split; [exact Hk|]. split; [exact Hi|]. apply Hl.
  unfold KERNBASE, PGSIZE. dlia.
Defined.

(** One page, allocated: the list is then empty. *)
Definition one_page : kmem := mkKmem true KERNBASE (fun _ => 0).

Lemma one_page_inv : kmem_inv KERNBASE one_page [KERNBASE].
Proof.
  constructor; simpl; [done|apply NoDup_singleton|].
  apply Forall_singleton. unfold page, KERNBASE, PHYSTOP, PGSIZE. dlia.
Qed.

Lemma kalloc_conserves_pages_witness :
  exists k, kreach KERNBASE one_page (k, [KERNBASE]) /\ exists free, kmem_inv KERNBASE k free
    /\ Permutation ([KERNBASE] ++ free) [KERNBASE].
Proof.
  exists (mkKmem true 0 (fun _ => 0)).
  assert (Hr : kreach KERNBASE one_page (mkKmem true 0 (fun _ => 0), [KERNBASE])).
  { eapply kreach_step; [apply kreach_init|]. by apply ks_alloc. }
  split; [exact Hr|].
  destruct (kalloc_conserves_pages KERNBASE one_page [KERNBASE] _ _ one_page_inv Hr)
    as (free & ? & _ & ? & _). by exists free.
Defined.
