(* ===== verification/Mp.v ===== *)
(** Model of src/mp.c and src/mp.h: finding the processors.

    [m] is the memory the firmware has filled, by kernel address.  The structures
    are read at the offsets of their fields.  [mpstate] is what [mpinit] records;
    [ports] are the bytes it sends to I/O ports, and [imcr] is what port 0x23
    answers. *)
From stdpp Require Import base strings numbers list.
From S2P Require Import Prelude CString Kalloc.
Local Open Scope Z_scope.

Definition NCPU : Z := 8.
Definition sizeof_mp : Z := 16.
Definition sizeof_mpconf : Z := 44.
Definition sizeof_mpproc : Z := 20.
Definition sizeof_mpioapic : Z := 8.
Definition MPPROC : Z := 0.
Definition MPBUS : Z := 1.
Definition MPIOAPIC : Z := 2.
Definition MPIOINTR : Z := 3.
Definition MPLINTR : Z := 4.

(** Fields of [struct mp] and [struct mpconf]. *)
Definition mp_physaddr (m : mem) (p : Z) : Z := load_le 4 m (p + 4).
Definition mp_imcrp (m : mem) (p : Z) : Z := m (p + 12).
Definition conf_length (m : mem) (p : Z) : Z := load_le 2 m (p + 4).
Definition conf_version (m : mem) (p : Z) : Z := m (p + 6).
Definition conf_lapicaddr_p (m : mem) (p : Z) : Z := load_le 4 m (p + 36).

Fixpoint sum_loop (m : mem) (addr : Z) (n : nat) (acc : Z) : Z :=
  match n with
  | O => acc
  | S n => sum_loop m (addr + 1) n (s32 (acc + m addr))
  end.
Definition sum (m : mem) (addr len : Z) : Z := u8 (sum_loop m addr (Z.to_nat len) 0).

(** [memcmp(p, s, n) == 0] for a literal of [n] characters. *)
Fixpoint mem_is (m : mem) (p : Z) (s : list Z) : bool :=
  match s with
  | [] => true
  | c :: s => (m p =? c) && mem_is m (p + 1) s
  end.

(** The loop of [mpsearch1]. *)
Fixpoint mpsearch_loop (fuel : nat) (m : mem) (p e : Z) : res (option Z) :=
  if p <? e then
    match fuel with
    | O => NoFuel
    | S fuel =>
        if mem_is m p (cstr "_MP_") && (sum m p sizeof_mp =? 0) then Ok (Some p)
        else mpsearch_loop fuel m (p + sizeof_mp) e
    end
  else Ok None.

Definition mpsearch1 (m : mem) (a len : Z) : res (option Z) :=
  let addr := P2V a in
  mpsearch_loop (Z.to_nat len) m addr (addr + len).

Definition mpsearch (m : mem) : res (option Z) :=
  let bda := P2V 0x400 in
  let p := Z.shiftl (Z.lor (Z.shiftl (m (bda + 0x0F)) 8) (m (bda + 0x0E))) 4 in
  r ← (if negb (p =? 0) then mpsearch1 m p 1024
       else
         let p := (Z.lor (Z.shiftl (m (bda + 0x14)) 8) (m (bda + 0x13))) * 1024 in
         mpsearch1 m (u32 (p - 1024)) 1024);
  match r with
  | Some mp => Ok (Some mp)
  | None => mpsearch1 m 0xF0000 0x10000
  end.

(** [mpconfig]: the floating pointer and the table. *)
Definition mpconfig (m : mem) : res (option (Z * Z)) :=
  r ← mpsearch m;
  match r with
  | None => Ok None
  | Some mp =>
      if mp_physaddr m mp =? 0 then Ok None
      else
        let conf := P2V (mp_physaddr m mp) in
        if negb (mem_is m conf (cstr "PCMP")) then Ok None
        else if negb (conf_version m conf =? 1) && negb (conf_version m conf =? 4) then Ok None
        else if negb (sum m conf (conf_length m conf) =? 0) then Ok None
        else Ok (Some (mp, conf))
  end.

Record mpstate : Type := mkMp {
  cpus : list Z;
  ncpu : Z;
  ioapicid : Z;
  lapic : Z;
  ports : list (Z * Z) }.

(** [cpus[ncpu].apicid = id; ncpu++], inside the array. *)
Definition add_cpu (s : mpstate) (id : Z) : res mpstate :=
  if decide (0 <= ncpu s < Z.of_nat (length (cpus s)))
  then Ok (mkMp (<[Z.to_nat (ncpu s) := id]> (cpus s)) (ncpu s + 1) (ioapicid s) (lapic s) (ports s))
  else Fault.

(** The loop over the table; every entry has at least 8 bytes. *)
Fixpoint mp_loop (fuel : nat) (m : mem) (p e : Z) (s : mpstate) : res mpstate :=
  if p <? e then
    match fuel with
    | O => NoFuel
    | S fuel =>
        if m p =? MPPROC then
          s ← (if ncpu s <? NCPU then add_cpu s (m (p + 1)) else Ok s);
          mp_loop fuel m (p + sizeof_mpproc) e s
        else if m p =? MPIOAPIC then
          mp_loop fuel m (p + sizeof_mpioapic) e (mkMp (cpus s) (ncpu s) (m (p + 1)) (lapic s) (ports s))
        else if (m p =? MPBUS) || (m p =? MPIOINTR) || (m p =? MPLINTR) then mp_loop fuel m (p + 8) e s
        else Panic "Major problem parsing mp config."
    end
  else Ok s.

Definition mpinit (m : mem) (imcr : Z) (s : mpstate) : res mpstate :=
  r ← mpconfig m;
  match r with
  | None => Ok s
  | Some (mp, conf) =>
      let s := mkMp (cpus s) (ncpu s) (ioapicid s) (P2V (conf_lapicaddr_p m conf)) (ports s) in
      s ← mp_loop (Z.to_nat (conf_length m conf)) m (conf + sizeof_mpconf) (conf + conf_length m conf) s;
      if negb (mp_imcrp m mp =? 0)
      then Ok (mkMp (cpus s) (ncpu s) (ioapicid s) (lapic s) (ports s ++ [(0x22, 0x70); (0x23, Z.lor imcr 1)]))
      else Ok s
  end.

(** The variables before [mpinit]. *)
Definition mp_start : mpstate := mkMp (replicate (Z.to_nat NCPU) 0) 0 0 0 [].

(** * The search, as a list of places *)

Fixpoint bytes_at (m : mem) (a : Z) (n : nat) : list Z :=
  match n with O => [] | S n => m a :: bytes_at m (a + 1) n end.

(** The bytes add up to zero, in one byte. *)
Definition zero_sum (m : mem) (a : Z) (n : nat) : bool := foldr Z.add 0 (bytes_at m a n) mod 256 =? 0.

(** A floating pointer structure: its signature, and a sum of zero. *)
Definition valid_mp (m : mem) (p : Z) : bool :=
  bool_decide (bytes_at m p 4 = cstr "_MP_") && zero_sum m p 16.

(** The paragraphs of an area of [n] times 16 bytes. *)
Fixpoint paragraphs (a : Z) (n : nat) : list Z :=
  match n with O => [] | S n => a :: paragraphs (a + 16) n end.

(** Where the code looks: the first kilobyte of the extended BIOS data area (or,
    only without one, the last kilobyte of base memory), then the upper half of the
    BIOS ROM.  The comment of src/mp.c gives the ROM range of the specification as
    0xE0000 to 0xFFFFF; the lower half, 0xE0000 to 0xEFFFF, is not searched. *)
Definition ebda (m : mem) : Z := 16 * (256 * m (P2V 0x40F) + m (P2V 0x40E)).
Definition base_top (m : mem) : Z := 1024 * (256 * m (P2V 0x414) + m (P2V 0x413)).
Definition places (m : mem) : list Z :=
  paragraphs (P2V (if decide (ebda m = 0) then u32 (base_top m - 1024) else ebda m)) 64
  ++ paragraphs (P2V 0xF0000) (Z.to_nat 4096).

(** * The table, as a list of entries *)

Inductive entry : Type :=
  | EProc (apicid : Z) (rest : list Z)
  | EIoapic (apicno : Z) (rest : list Z)
  | EOther (type : Z) (rest : list Z).

Definition entry_ok (e : entry) : Prop :=
  match e with
  | EProc _ rest => length rest = 18%nat
  | EIoapic _ rest => length rest = 6%nat
  | EOther t rest => (t = MPBUS \/ t = MPIOINTR \/ t = MPLINTR) /\ length rest = 7%nat
  end.

Definition entry_bytes (e : entry) : list Z :=
  match e with
  | EProc id rest => MPPROC :: id :: rest
  | EIoapic id rest => MPIOAPIC :: id :: rest
  | EOther t rest => t :: rest
  end.

Definition table_bytes (es : list entry) : list Z := concat (entry_bytes <$> es).

(** The processors and the last I/O APIC of a table. *)
Definition proc_ids (es : list entry) : list Z :=
  omap (fun e => match e with EProc id _ => Some id | _ => None end) es.
Definition ioapic_of (es : list entry) (d : Z) : Z :=
  default d (last (omap (fun e => match e with EIoapic id _ => Some id | _ => None end) es)).

(** Memory holds [bs] from [a] on. *)
Definition holds (m : mem) (a : Z) (bs : list Z) : Prop :=
  forall k b, bs !! k = Some b -> m (a + Z.of_nat k) = b.

Lemma sum_loop_mod m a n acc : sum_loop m a n acc mod 2 ^ 8 = (acc + foldr Z.add 0 (bytes_at m a n)) mod 2 ^ 8.
Proof.
  revert a acc. induction n as [|n IH]; intros a acc; cbn [sum_loop bytes_at foldr]; [by rewrite Z.add_0_r|].
  rewrite IH, Z.add_assoc. rewrite (Z.add_mod (s32 _)), (Z.add_mod (acc + m a)) by lia. do 2 f_equal.
  unfold s32. set (x := acc + m a). change (2 ^ 32) with (2 ^ 8 * 2 ^ 24). change (2 ^ 31) with (2 ^ 23 * 2 ^ 8).
  rewrite Z.rem_mul_r by lia. rewrite <- Z.mod_add with (b := 2 ^ 23) (a := x) by lia. Z.div_mod_to_equations. lia.
Qed.

Lemma sum_zero m a len : 0 <= len -> (sum m a len =? 0) = zero_sum m a (Z.to_nat len).
Proof. intros _. unfold sum, zero_sum, u8. by rewrite sum_loop_mod. Qed.

Lemma mem_is_bytes m p cs : mem_is m p cs = bool_decide (bytes_at m p (length cs) = cs).
Proof.
  revert p. induction cs as [|c cs IH]; intros p; cbn [mem_is bytes_at length]; [done|]. rewrite IH.
  destruct (Z.eqb_spec (m p) c) as [->|Hne]; cbn [andb].
  - apply bool_decide_ext. split; [by intros ->|]. intros E. by injection E.
  - symmetry. apply bool_decide_eq_false. intros E. by injection E.
Qed.

Lemma mpsearch_loop_ok m n fuel a : (n <= fuel)%nat ->
  mpsearch_loop fuel m a (a + 16 * Z.of_nat n) = Ok (List.find (valid_mp m) (paragraphs a n)).
Proof.
  revert fuel a. induction n as [|n IH]; intros fuel a Hf.
  - rewrite Z.add_0_r. destruct fuel; cbn [mpsearch_loop]; by rewrite Z.ltb_irrefl.
  - destruct fuel as [|fuel]; [lia|]. cbn [mpsearch_loop paragraphs List.find]. replace (a <? _) with true by lia.
    unfold valid_mp at 1. rewrite mem_is_bytes, sum_zero by done. destruct (_ && _); [done|].
    change sizeof_mp with 16. replace (a + 16 * Z.of_nat (S n)) with (a + 16 + 16 * Z.of_nat n) by lia. apply IH. lia.
Qed.

Lemma mpsearch1_ok m a n : mpsearch1 m a (16 * Z.of_nat n) = Ok (List.find (valid_mp m) (paragraphs (P2V a) n)).
Proof. apply mpsearch_loop_ok. lia. Qed.

Lemma bits_of_byte l k : 0 <= l < 256 -> 8 <= k -> Z.testbit l k = false.
Proof. intros Hl Hk. rewrite <- (Z.mod_small l (2 ^ 8)) by done. apply Z.mod_pow2_bits_high. lia. Qed.

Lemma lor_bytes h l : 0 <= l < 256 -> Z.lor (Z.shiftl h 8) l = 256 * h + l.
Proof.
  intros Hl. assert (Z.land (Z.shiftl h 8) l = 0) as H0.
  { apply Z.bits_inj'. intros k Hk. rewrite Z.land_spec, Z.bits_0. destruct (Z.ltb_spec k 8).
    - by rewrite Z.shiftl_spec_low.
    - rewrite (bits_of_byte l) by lia. apply andb_false_r. }
  rewrite <- Z.lxor_lor, <- Z.add_nocarry_lxor by done. rewrite Z.shiftl_mul_pow2 by lia. lia.
Qed.

Lemma find_app {A} (f : A -> bool) l l' :
  List.find f (l ++ l') = match List.find f l with Some x => Some x | None => List.find f l' end.
Proof. induction l as [|x l IH]; [done|]. cbn [app List.find]. by destruct (f x). Qed.

(** [mpsearch] finds the first structure in the places it searches. *)
Lemma mpsearch_ok m : (forall a, is_u8 (m a)) -> mpsearch m = Ok (List.find (valid_mp m) (places m)).
Proof.
  intros Hb. unfold mpsearch, places. cbv zeta. change (P2V 0x400 + 0x0F) with (P2V 0x40F). change (P2V 0x400 + 0x0E) with (P2V 0x40E).
  change (P2V 0x400 + 0x14) with (P2V 0x414). change (P2V 0x400 + 0x13) with (P2V 0x413).
  rewrite !lor_bytes by apply Hb. rewrite Z.shiftl_mul_pow2 by lia.
  replace ((256 * m (P2V 0x40F) + m (P2V 0x40E)) * 2 ^ 4) with (ebda m) by (unfold ebda; lia).
  replace ((256 * m (P2V 0x414) + m (P2V 0x413)) * 1024) with (base_top m) by (unfold base_top; lia).
  assert (mpsearch1 m 0xF0000 0x10000 = Ok (List.find (valid_mp m) (paragraphs (P2V 0xF0000) (Z.to_nat 4096)))) as ->.
  { replace 0x10000 with (16 * Z.of_nat (Z.to_nat 4096)) by lia. apply mpsearch1_ok. }
  pose proof (fun a => mpsearch1_ok m a 64) as E1. change (16 * Z.of_nat 64) with 1024 in E1. rewrite !E1.
  generalize (paragraphs (P2V 0xF0000) (Z.to_nat 4096)) as bios; intros bios. destruct (Z.eqb_spec (ebda m) 0) as [E|E]; [rewrite decide_True by done|rewrite decide_False by done].
  all: cbn [negb mbind res_bind]; rewrite find_app; destruct (List.find _ _); reflexivity.
Qed.

(** * The table *)

Lemma holds_app m a l l' : holds m a (l ++ l') -> holds m a l /\ holds m (a + Z.of_nat (length l)) l'.
Proof.
  intros Hh. split; intros k b Hk.
  - apply Hh. by apply lookup_app_l_Some.
  - rewrite <- Z.add_assoc, <- Nat2Z.inj_add. apply Hh. rewrite lookup_app_r by lia. by replace (_ + k - _)%nat with k by lia.
Qed.

Lemma take_snoc_insert (l : list Z) n x : (n < length l)%nat -> take (S n) (<[n := x]> l) = take n l ++ [x].
Proof.
  intros Hn. rewrite (take_S_r _ _ x) by (by apply list_lookup_insert_eq). by rewrite take_insert_ge.
Qed.

(** What the loop leaves of the table [es]. *)
Record mp_table (s s' : mpstate) (es : list entry) : Prop := {
  mt_ncpu : ncpu s' = Z.min 8 (ncpu s + Z.of_nat (length (proc_ids es)));
  mt_len : length (cpus s') = 8%nat;
  mt_cpus : take (Z.to_nat (ncpu s')) (cpus s') = take 8 (take (Z.to_nat (ncpu s)) (cpus s) ++ proc_ids es);
  mt_ioapic : ioapicid s' = ioapic_of es (ioapicid s);
  mt_lapic : lapic s' = lapic s;
  mt_ports : ports s' = ports s }.

Lemma ioapic_of_app l l' d : ioapic_of (l ++ l') d = ioapic_of l' (ioapic_of l d).
Proof. unfold ioapic_of. rewrite omap_app, last_app. by destruct (last (omap _ l')). Qed.

Lemma mp_table_trans s s1 s' l l' : 0 <= ncpu s -> mp_table s s1 l -> mp_table s1 s' l' -> mp_table s s' (l ++ l').
Proof.
  intros Hn [A1 A2 A3 A4 A5 A6] [B1 B2 B3 B4 B5 B6]. assert (proc_ids (l ++ l') = proc_ids l ++ proc_ids l') as Ep by apply omap_app.
  split; try congruence.
  - rewrite Ep, length_app. lia.
  - rewrite B3, A3, Ep, app_assoc. generalize (take (Z.to_nat (ncpu s)) (cpus s) ++ proc_ids l). intros x.
    destruct (decide (length x <= 8)%nat); [by rewrite (take_ge x)|].
    rewrite !take_app_le by (rewrite ?length_take; lia). by rewrite take_take.
  - by rewrite B4, A4, ioapic_of_app.
Qed.

(** An entry that is no processor. *)
Lemma mp_table_skip s id e : length (cpus s) = 8%nat -> 0 <= ncpu s <= 8 -> proc_ids [e] = [] -> ioapic_of [e] (ioapicid s) = id ->
  mp_table s (mkMp (cpus s) (ncpu s) id (lapic s) (ports s)) [e].
Proof.
  intros Hl Hn He Hi. split; cbn [ncpu cpus ioapicid lapic ports]; try done; rewrite He; [cbn; lia|].
  rewrite app_nil_r. symmetry. apply take_ge. rewrite length_take. lia.
Qed.

Lemma add_cpu_ok s id : length (cpus s) = 8%nat -> 0 <= ncpu s <= 8 ->
  exists s', (if ncpu s <? NCPU then add_cpu s id else Ok s) = Ok s' /\ mp_table s s' [EProc id []] /\ 0 <= ncpu s' <= 8.
Proof.
  intros Hl Hn. change NCPU with 8. destruct (Z.ltb_spec (ncpu s) 8) as [Hlt|Hge].
  - unfold add_cpu. rewrite decide_True by lia. eexists. split; [reflexivity|]. split; [|cbn [ncpu]; lia].
    split; cbn [ncpu cpus ioapicid lapic ports proc_ids omap list_omap length]; try done; [lia|by rewrite length_insert|].
    replace (Z.to_nat (ncpu s + 1)) with (S (Z.to_nat (ncpu s))) by lia. rewrite take_snoc_insert by lia.
    symmetry. apply take_ge. rewrite length_app, length_take. cbn. lia.
  - exists s. split; [done|]. split; [|done]. split; cbn [proc_ids omap list_omap length]; try done; [lia|].
    replace (ncpu s) with 8 by lia. rewrite (take_ge (cpus s)) by lia. rewrite take_app_le by lia. by rewrite take_ge by lia.
Qed.

(** The loop takes the entries one after the other. *)
Lemma mp_loop_ok m es : forall fuel p s, Forall entry_ok es -> holds m p (table_bytes es) ->
  (length (table_bytes es) <= fuel)%nat -> length (cpus s) = 8%nat -> 0 <= ncpu s <= 8 ->
  exists s', mp_loop fuel m p (p + Z.of_nat (length (table_bytes es))) s = Ok s' /\ mp_table s s' es.
Proof.
  induction es as [|e es IH]; intros fuel p s Hok Hh Hf Hl Hn.
  { cbn [table_bytes fmap list_fmap concat length]. rewrite Z.add_0_r. exists s. split; [destruct fuel; cbn [mp_loop]; by rewrite Z.ltb_irrefl|].
    split; try done; cbn [proc_ids omap list_omap length]; [lia|]. rewrite app_nil_r. symmetry. apply take_ge. rewrite length_take. lia. }
  apply Forall_cons in Hok as [He Hok]. change (table_bytes (e :: es)) with (entry_bytes e ++ table_bytes es) in *.
  apply holds_app in Hh as [Hhe Hh]. rewrite length_app in Hf |- *. rewrite Nat2Z.inj_add, Z.add_assoc.
  assert (0 < length (entry_bytes e))%nat as Hpos by (destruct e; cbn; lia).
  destruct fuel as [|fuel]; [lia|]. cbn [mp_loop]. replace (p <? _) with true by lia.
  assert (forall s1, mp_table s s1 [e] -> 0 <= ncpu s1 <= 8 -> exists s', mp_loop fuel m (p + Z.of_nat (length (entry_bytes e)))
    (p + Z.of_nat (length (entry_bytes e)) + Z.of_nat (length (table_bytes es))) s1 = Ok s' /\ mp_table s s' (e :: es)) as Hgo.
  { intros s1 T1 Hn1. destruct (IH fuel (p + Z.of_nat (length (entry_bytes e))) s1) as (s' & E & T); try done; [lia|apply T1|].
    exists s'. split; [done|]. apply (mp_table_trans s s1 s' [e] es); [lia|done|done]. }
  pose proof (Hhe 0%nat) as H0. pose proof (Hhe 1%nat) as H1. rewrite Z.add_0_r in H0. change (p + Z.of_nat 1) with (p + 1) in H1.
  destruct e as [id rest|id rest|t rest]; cbn [entry_ok entry_bytes length] in *.
  - rewrite (H0 MPPROC eq_refl), (H1 id eq_refl). change (MPPROC =? MPPROC) with true. cbv iota.
    destruct (add_cpu_ok s id Hl Hn) as (s1 & -> & T1 & Hn1). rewrite He in Hgo |- *. apply Hgo; [|done]. by destruct T1; split.
  - rewrite (H0 MPIOAPIC eq_refl), (H1 id eq_refl). change (MPIOAPIC =? MPPROC) with false. change (MPIOAPIC =? MPIOAPIC) with true. cbv iota.
    rewrite He in Hgo |- *. apply Hgo; [by apply mp_table_skip|done].
  - destruct He as [Ht He]. rewrite (H0 t eq_refl). rewrite He in Hgo |- *. destruct s as [cs n io la ps].
    assert (t =? MPPROC = false /\ t =? MPIOAPIC = false /\ (t =? MPBUS) || (t =? MPIOINTR) || (t =? MPLINTR) = true) as (-> & -> & ->)
      by (destruct Ht as [->|[->| ->]]; done).
    apply Hgo; [by apply (mp_table_skip (mkMp cs n io la ps) io)|done].
Qed.

Lemma bytes_at_holds m a bs : bytes_at m a (length bs) = bs -> holds m a bs.
Proof.
  revert a. induction bs as [|b bs IH]; intros a E k x Hk; [done|]. cbn [bytes_at length] in E. injection E as E0 E.
  destruct k as [|k]; cbn in Hk; [rewrite Z.add_0_r; congruence|].
  replace (a + Z.of_nat (S k)) with (a + 1 + Z.of_nat k) by lia. by apply IH.
Qed.

(** C10: [mpinit] finds the processors.  Let the firmware leave a floating pointer
    structure, the first in the places the code searches (the first kilobyte of the
    extended BIOS data area or, without one, the last kilobyte of base memory; then
    0xF0000 to 0xFFFFF, where the comment of the code has 0xE0000 to 0xFFFFF), that
    leads to a table with the right signature, version and sum, made of the entries
    [es].
    Then [mpinit] returns; it records the identifiers of the processors in order,
    at most [NCPU] of them and never outside [cpus], the last I/O APIC and the
    address of the local APIC, and masks the external interrupts exactly if the
    structure asks for it.  If no structure is in those places it changes nothing,
    also when there is one between 0xE0000 and 0xEFFFF. *)
Theorem mpinit_finds_processors (m : mem) (imcr : Z) : (forall a, is_u8 (m a)) ->
  (List.find (valid_mp m) (places m) = None -> mpinit m imcr mp_start = Ok mp_start)
  /\ forall mp es, List.find (valid_mp m) (places m) = Some mp -> mp_physaddr m mp <> 0 ->
  let conf := P2V (mp_physaddr m mp) in
  bytes_at m conf 4 = cstr "PCMP" -> (conf_version m conf = 1 \/ conf_version m conf = 4) ->
  conf_length m conf = 44 + Z.of_nat (length (table_bytes es)) -> zero_sum m conf (Z.to_nat (conf_length m conf)) = true ->
  Forall entry_ok es -> bytes_at m (conf + 44) (length (table_bytes es)) = table_bytes es ->
  exists s, mpinit m imcr mp_start = Ok s
  /\ ncpu s = Z.min NCPU (Z.of_nat (length (proc_ids es))) /\ length (cpus s) = Z.to_nat NCPU
  /\ take (Z.to_nat (ncpu s)) (cpus s) = take 8 (proc_ids es)
  /\ ioapicid s = ioapic_of es 0 /\ lapic s = P2V (conf_lapicaddr_p m conf)
  /\ ports s = if decide (mp_imcrp m mp = 0) then [] else [(0x22, 0x70); (0x23, Z.lor imcr 1)].
Proof.
  intros Hb. split; [intros Hf; unfold mpinit, mpconfig; by rewrite (mpsearch_ok m Hb), Hf|].
  intros mp es Hf Hpa conf Hsig Hver Hlen Hsum Hok Htab.
  assert (mpconfig m = Ok (Some (mp, conf))) as Ec.
  { unfold mpconfig. rewrite (mpsearch_ok m Hb), Hf. cbn [mbind res_bind]. replace (mp_physaddr m mp =? 0) with false by lia.
    fold conf. rewrite mem_is_bytes. change (length (cstr "PCMP")) with 4%nat. rewrite bool_decide_true by done.
    replace (negb (conf_version m conf =? 1) && negb (conf_version m conf =? 4)) with false by lia.
    rewrite sum_zero by lia. by rewrite Hsum. }
  unfold mpinit. rewrite Ec. cbn [mbind res_bind]. change sizeof_mpconf with 44.
  replace (conf + conf_length m conf) with (conf + 44 + Z.of_nat (length (table_bytes es))) by lia.
  set (s0 := mkMp (cpus mp_start) _ _ _ _).
  destruct (mp_loop_ok m es (Z.to_nat (conf_length m conf)) (conf + 44) s0) as (s & -> & T); try done.
  { by apply bytes_at_holds. } { lia. }
  destruct T as [T1 T2 T3 T4 T5 T6]. cbn [s0 ncpu cpus ioapicid lapic ports mp_start] in *. change (Z.to_nat 0) with 0%nat in T3.
  rewrite take_0 in T3. cbn [app] in T3. change NCPU with 8. change (Z.to_nat 8) with 8%nat.
  destruct (Z.eqb_spec (mp_imcrp m mp) 0) as [E|E]; [rewrite decide_True by done|rewrite decide_False by done].
  - exists s. split; [done|]. split; [lia|]. done.
  - eexists. split; [reflexivity|]. cbn [ncpu cpus ioapicid lapic ports]. rewrite T6. split; [lia|]. done.
Qed.

(** Two processors and an I/O APIC; the structure is in the second paragraph of an
    extended BIOS data area at 0x9FC00, and the table at 0xF5000. *)
Definition demo_es : list entry :=
  [EProc 3 (replicate 18 1); EProc 7 (replicate 18 2); EOther MPBUS (replicate 7 9); EIoapic 5 (replicate 6 0)].
Definition demo_header : list Z :=
  cstr "PCMP" ++ [100; 0; 4; 3] ++ replicate 28 0 ++ [0; 0; 224; 254] ++ replicate 4 0.
Definition demo_area : list (Z * list Z) :=
  [(0x40E, [0xC0; 0x9F]); (0x9FC10, cstr "_MP_" ++ [0; 0x50; 0x0F; 0; 1; 4; 65; 0; 0; 0; 0; 0]);
   (0xF5000, demo_header ++ table_bytes demo_es)].
Definition demo_mem : mem := fun a =>
  foldr (fun '(p, bs) z => if (P2V p <=? a) && (a <? P2V p + Z.of_nat (length bs)) then nth (Z.to_nat (a - P2V p)) bs 0 else z) 0 demo_area.

Lemma demo_mem_bytes a : is_u8 (demo_mem a).
Proof.
  assert (forall l, forallb (fun '(p, bs) => forallb (fun b => (0 <=? b) && (b <? 256)) bs) l = true ->
    is_u8 (foldr (fun '(p, bs) z => if (P2V p <=? a) && (a <? P2V p + Z.of_nat (length bs)) then nth (Z.to_nat (a - P2V p)) bs 0 else z) 0 l)) as H.
  { intros l. induction l as [|[p bs] l IH]; cbn [foldr forallb]; [by unfold is_u8; cbn; lia|].
    intros [Hbs Hl]%andb_prop. destruct (_ && _) eqn:E; [|by apply IH].
    rewrite forallb_forall in Hbs. specialize (Hbs (nth (Z.to_nat (a - P2V p)) bs 0)). unfold is_u8. change (2 ^ 8) with 256.
    assert (List.In (nth (Z.to_nat (a - P2V p)) bs 0) bs) by (apply nth_In; lia). specialize (Hbs H). lia. }
  by apply H.
Qed.

Lemma mpinit_finds_processors_witness : exists s, mpinit demo_mem 0 mp_start = Ok s
  /\ ncpu s = 2 /\ take 2 (cpus s) = [3; 7] /\ ioapicid s = 5 /\ lapic s = P2V 0xFEE00000.
Proof.
  destruct (proj2 (mpinit_finds_processors demo_mem 0 demo_mem_bytes) (P2V 0x9FC10) demo_es)
    as (s & E & H1 & _ & H3 & H4 & H5 & _).
  - vm_compute. reflexivity.
  - vm_compute. discriminate.
  - vm_compute. reflexivity.
  - right. vm_compute. reflexivity.
  - vm_compute. reflexivity.
  - vm_compute. reflexivity.
  - repeat (apply Forall_cons_2; [first [reflexivity|split; [by left|reflexivity]]|]). apply Forall_nil_2.
  - vm_compute. reflexivity.
  - exists s. split; [exact E|]. assert (ncpu s = 2) as N by (rewrite H1; reflexivity). split; [exact N|].
    rewrite N in H3. split; [exact H3|]. split; [rewrite H4; reflexivity|]. rewrite H5. vm_compute. reflexivity.
Defined.
