(* ===== verification/Vm.v ===== *)
(** Model of src/vm.c: four-level page tables and user address spaces.

    The page tables live in physical memory, which the kernel reaches through its
    direct map at [KERNBASE]; the model keeps them there, in the byte memory of
    the page allocator, and [walkpgdir], [mappages] and the others read and write
    their 64-bit entries with [load64] and [store64].  [end_] is the first
    address after the kernel. *)
From stdpp Require Import base strings numbers list.
From S2P Require Import Prelude CString Locks Kalloc.
Local Open Scope Z_scope.

(** * mmu.h *)

Definition PXMASK : Z := 0x1FF.
Definition PMX (va : Z) : Z := Z.land (Z.shiftr va 39) PXMASK.
Definition PDPX (va : Z) : Z := Z.land (Z.shiftr va 30) PXMASK.
Definition PDX (va : Z) : Z := Z.land (Z.shiftr va 21) PXMASK.
Definition PTX (va : Z) : Z := Z.land (Z.shiftr va 12) PXMASK.

Definition NPDENTRIES : Z := 512.
Definition PTE_P : Z := 0x001.
Definition PTE_W : Z := 0x002.
Definition PTE_U : Z := 0x004.
Definition PTE_PWT : Z := 0x008.
Definition PTE_PCD : Z := 0x010.
Definition PTE_PS : Z := 0x080.
Definition PTE_ADDR (pte : Z) : Z := Z.land pte (u64 (Z.lnot 0xFFF)).
Definition PTE_FLAGS (pte : Z) : Z := Z.land pte 0xFFF.

Definition KSTACKSIZE : Z := 4096.

(** * State

    The allocator with the memory, the two static pointers of vm.c, the page
    table register and the kernel stack pointer of the task state segment. *)
Record vmstate : Type := mkVm {
  km : kmem; kpml4 : Z; kpdpt : Z; cr3 : Z; tss1 : Z; tss2 : Z }.

Definition with_km (s : vmstate) (k : kmem) : vmstate :=
  mkVm k (kpml4 s) (kpdpt s) (cr3 s) (tss1 s) (tss2 s).
Definition vram (s : vmstate) : mem := ram (km s).

Definition set_ram (k : kmem) (m : mem) : kmem := mkKmem (use_lock k) (freelist k) m.
Definition update (f : mem -> mem) : M vmstate unit := fun s =>
  Ok (tt, with_km s (set_ram (km s) (f (vram s)))).

Definition alloc_page : M vmstate Z := fun s =>
  '(v, k) ← kalloc (km s); Ok (v, with_km s k).
Definition free_page (end_ v : Z) : M vmstate unit := fun s =>
  k ← kfree end_ v (km s); Ok (tt, with_km s k).
Definition load_pte (a : Z) : M vmstate Z := gets (fun s => load64 (vram s) a).
Definition store_pte (a v : Z) : M vmstate unit := update (fun m => store64 m a v).
Definition clear_page (v : Z) : M vmstate unit := update (fun m => memset m v 0 PGSIZE).

(** * Page tables *)

Definition setupkvm : M vmstate Z :=
  pml4 ← alloc_page;
  clear_page pml4 ;;
  s ← get;
  store_pte (pml4 + 8 * 256) (Z.lor (Z.lor (V2P (kpdpt s)) PTE_P) PTE_W) ;;
  mret pml4.

Definition lcr3 (v : Z) : M vmstate unit := modify (fun s =>
  mkVm (km s) (kpml4 s) (kpdpt s) v (tss1 s) (tss2 s)).

Definition switchkvm : M vmstate unit := s ← get; lcr3 (V2P (kpml4 s)).

Definition kvmalloc : M vmstate unit :=
  p ← alloc_page;
  modify (fun s => mkVm (km s) p (kpdpt s) (cr3 s) (tss1 s) (tss2 s)) ;;
  clear_page p ;;
  q ← alloc_page;
  modify (fun s => mkVm (km s) (kpml4 s) q (cr3 s) (tss1 s) (tss2 s)) ;;
  clear_page q ;;
  store_pte (p + 8 * PMX KERNBASE) (Z.lor (Z.lor (V2P q) PTE_P) PTE_W) ;;
  store_pte (q + 8 * 0) (Z.lor (Z.lor (Z.lor 0 PTE_PS) PTE_P) PTE_W) ;;
  store_pte (q + 8 * 3)
    (Z.lor (Z.lor (Z.lor (Z.lor (Z.lor 0xC0000000 PTE_PS) PTE_P) PTE_W) PTE_PWT) PTE_PCD) ;;
  switchkvm.

(** The process is its page table and kernel stack; [pushcli] and [popcli] around
    the body leave the interrupt state as it was. *)
Definition switchuvm (pgdir kstack : Z) : M vmstate unit :=
  if pgdir =? 0 then panic "switchuvm: no pgdir"
  else
    let stktop := u64 (kstack + KSTACKSIZE) in
    modify (fun s => mkVm (km s) (kpml4 s) (kpdpt s) (cr3 s) (u32 stktop) (u32 (Z.shiftr stktop 32))) ;;
    lcr3 (V2P pgdir).

(** One level of [walkpgdir]: the table an entry refers to, found or allocated. *)
Definition walk_level (tbl idx : Z) (alloc : bool) : M vmstate (option Z) :=
  e ← load_pte (tbl + 8 * idx);
  if negb (Z.land e PTE_P =? 0) then mret (Some (P2V (PTE_ADDR e)))
  else if negb alloc then mret None
  else
    p ← alloc_page;
    if p =? 0 then mret None
    else
      clear_page p ;;
      store_pte (tbl + 8 * idx) (Z.lor (Z.lor (Z.lor (V2P p) PTE_P) PTE_W) PTE_U) ;;
      mret (Some p).

Definition walkpgdir (pml4 va : Z) (alloc : bool) : M vmstate (option Z) :=
  pdp ← walk_level pml4 (PMX va) alloc;
  match pdp with
  | None => mret None
  | Some pdp =>
      pd ← walk_level pdp (PDPX va) alloc;
      match pd with
      | None => mret None
      | Some pd =>
          pgtab ← walk_level pd (PDX va) alloc;
          match pgtab with
          | None => mret None
          | Some pgtab => mret (Some (pgtab + 8 * PTX va))
          end
      end
  end.

Definition vm_nofuel {A} : M vmstate A := fun _ => NoFuel.

(** The loop of [mappages]; the fuel is the number of pages from [a] to [last]. *)
Fixpoint mappages_loop (fuel : nat) (pgdir a last pa perm : Z) : M vmstate Z :=
  match fuel with
  | O => vm_nofuel
  | S fuel =>
      pte ← walkpgdir pgdir a true;
      match pte with
      | None => mret (-1)
      | Some pte =>
          e ← load_pte pte;
          if negb (Z.land e PTE_P =? 0) then panic "remap"
          else
            store_pte pte (Z.lor (Z.lor pa perm) PTE_P) ;;
            if a =? last then mret 0
            else mappages_loop fuel pgdir (u64 (a + PGSIZE)) last (u64 (pa + PGSIZE)) perm
      end
  end.

Definition mappages (pgdir va size pa perm : Z) : M vmstate Z :=
  let a := PGROUNDDOWN va in
  let last := PGROUNDDOWN (u64 (va + size - 1)) in
  mappages_loop (Z.to_nat (u64 (last - a) / PGSIZE + 1)) pgdir a last pa perm.

(** [init] is the address of the first program in kernel memory. *)
Definition inituvm (pgdir init sz : Z) : M vmstate unit :=
  if PGSIZE <=? sz then panic "inituvm: more than a page"
  else
    v ← alloc_page;
    clear_page v ;;
    mappages pgdir PGSIZE PGSIZE (V2P v) (Z.lor PTE_W PTE_U) ;;
    update (fun m => memmove m v init sz).

(** * Growing and shrinking *)

(** The loop of [deallocuvm]; the fuel is the number of pages up to [oldsz]. *)
Fixpoint dealloc_loop (fuel : nat) (end_ pgdir oldsz a : Z) : M vmstate unit :=
  if a <? oldsz then
    match fuel with
    | O => vm_nofuel
    | S fuel =>
        pte ← walkpgdir pgdir a false;
        match pte with
        | None => mret tt
        | Some pte =>
            e ← load_pte pte;
            if negb (Z.land e PTE_P =? 0) then
              let pa := PTE_ADDR e in
              if pa =? 0 then panic "kfree"
              else
                free_page end_ (P2V pa) ;;
                store_pte pte 0
            else mret tt
        end ;;
        dealloc_loop fuel end_ pgdir oldsz (u64 (a + PGSIZE))
    end
  else mret tt.

Definition deallocuvm (end_ pgdir oldsz newsz : Z) : M vmstate Z :=
  if oldsz <=? newsz then mret oldsz
  else
    let a := PGROUNDUP newsz in
    dealloc_loop (Z.to_nat ((oldsz - a) / PGSIZE + 1)) end_ pgdir oldsz a ;;
    mret newsz.

(** The loop of [allocuvm]. *)
Fixpoint alloc_loop (fuel : nat) (end_ pgdir oldsz newsz a : Z) : M vmstate Z :=
  if a <? newsz then
    match fuel with
    | O => vm_nofuel
    | S fuel =>
        v ← alloc_page;
        if v =? 0 then
          deallocuvm end_ pgdir newsz oldsz ;;
          mret 0
        else
          clear_page v ;;
          r ← mappages pgdir a PGSIZE (V2P v) (Z.lor PTE_W PTE_U);
          if r <? 0 then
            deallocuvm end_ pgdir newsz oldsz ;;
            free_page end_ v ;;
            mret 0
          else alloc_loop fuel end_ pgdir oldsz newsz (u64 (a + PGSIZE))
    end
  else mret newsz.

Definition allocuvm (end_ pgdir oldsz newsz : Z) : M vmstate Z :=
  if KERNBASE <=? newsz then mret 0
  else if newsz <? oldsz then mret oldsz
  else
    let a := PGROUNDUP oldsz in
    alloc_loop (Z.to_nat ((newsz - a) / PGSIZE + 1)) end_ pgdir oldsz newsz a.

(** * Freeing *)

(** [for(i = ...) if(t[i] & PTE_P) body(P2V(PTE_ADDR(t[i])))]. *)
Fixpoint for_entries (t : Z) (ixs : list Z) (body : Z -> M vmstate unit) : M vmstate unit :=
  match ixs with
  | [] => mret tt
  | i :: ixs =>
      e ← load_pte (t + 8 * i);
      (if negb (Z.land e PTE_P =? 0) then body (P2V (PTE_ADDR e)) else mret tt) ;;
      for_entries t ixs body
  end.

Definition freevm (end_ pml4 : Z) : M vmstate unit :=
  if pml4 =? 0 then panic "freevm: no pgdir"
  else
    for_entries pml4 (seqZ 0 (NPDENTRIES / 2)) (fun pdp =>
      for_entries pdp (seqZ 0 NPDENTRIES) (fun pd =>
        for_entries pd (seqZ 0 NPDENTRIES) (fun pt =>
          for_entries pt (seqZ 0 NPDENTRIES) (fun v => free_page end_ v) ;;
          free_page end_ pt) ;;
        free_page end_ pd) ;;
      free_page end_ pdp) ;;
    free_page end_ pml4.

Definition clearpteu (pgdir uva : Z) : M vmstate unit :=
  pte ← walkpgdir pgdir uva false;
  match pte with
  | None => panic "clearpteu"
  | Some pte =>
      e ← load_pte pte;
      store_pte pte (Z.land e (u64 (Z.lnot PTE_U)))
  end.

(** * Copying *)

(** The loop of [copyuvm]; [None] is the jump to [bad]. *)
Fixpoint copy_loop (fuel : nat) (pgdir d sz i : Z) : M vmstate (option unit) :=
  if i <? sz then
    match fuel with
    | O => vm_nofuel
    | S fuel =>
        pte ← walkpgdir pgdir i false;
        match pte with
        | None => panic "copyuvm: pte should exist"
        | Some pte =>
            e ← load_pte pte;
            if Z.land e PTE_P =? 0 then panic "copyuvm: page not present"
            else
              let pa := PTE_ADDR e in
              let flags := PTE_FLAGS e in
              v ← alloc_page;
              if v =? 0 then mret None
              else
                update (fun m => memmove m v (P2V pa) PGSIZE) ;;
                r ← mappages d i PGSIZE (V2P v) flags;
                if r <? 0 then mret None
                else copy_loop fuel pgdir d sz (u64 (i + PGSIZE))
        end
    end
  else mret (Some tt).

(** The parameter [sz] is an [unsigned int]. *)
Definition copyuvm (end_ pgdir sz : Z) : M vmstate Z :=
  let sz := u32 sz in
  d ← setupkvm;
  if d =? 0 then mret 0
  else
    r ← copy_loop (Z.to_nat (sz / PGSIZE + 1)) pgdir d sz PGSIZE;
    match r with
    | Some _ => mret d
    | None => freevm end_ d ;; mret 0
    end.

(** A missing page table makes [uva2ka] dereference a null pointer. *)
Definition uva2ka (pgdir uva : Z) : M vmstate Z :=
  pte ← walkpgdir pgdir uva false;
  match pte with
  | None => fault
  | Some pte =>
      e ← load_pte pte;
      if Z.land e PTE_P =? 0 then mret 0
      else if Z.land e PTE_U =? 0 then mret 0
      else mret (P2V (PTE_ADDR e))
  end.

(** [memmove] from a buffer outside the pages written. *)
Fixpoint store_bytes (m : mem) (a : Z) (cs : list Z) : mem :=
  match cs with
  | [] => m
  | c :: cs => store_bytes (store m a c) (a + 1) cs
  end.

(** [src] are the [len] bytes at [p], which is on the kernel stack or in the
    memory of the calling process; each turn copies at least one byte. *)
Fixpoint copyout_loop (fuel : nat) (pgdir va : Z) (src : list Z) : M vmstate Z :=
  let len := Z.of_nat (length src) in
  if 0 <? len then
    match fuel with
    | O => vm_nofuel
    | S fuel =>
        let va0 := PGROUNDDOWN va in
        pa0 ← uva2ka pgdir va0;
        if pa0 =? 0 then mret (-1)
        else
          let n := PGSIZE - (va - va0) in
          let n := if len <? n then len else n in
          update (fun m => store_bytes m (pa0 + (va - va0)) (take (Z.to_nat n) src)) ;;
          copyout_loop fuel pgdir (u64 (va0 + PGSIZE)) (drop (Z.to_nat n) src)
    end
  else mret 0.

Definition copyout (pgdir va : Z) (src : list Z) : M vmstate Z :=
  copyout_loop (length src) pgdir va src.
