(* ===== verification/VmTree.v ===== *)
(** The page tables of src/vm.c as trees of pages.

    [pages n m p] lists the pages of the tree of level [n] at [p] in memory [m]
    (the tables and the pages they map), [tables n m p] the tables alone, and
    [pte n m p va] is the entry for [va].  A tree depends on the bytes of its
    tables only, so that a change in one subtree or in a page elsewhere leaves the
    rest as it is. *)
From stdpp Require Import base strings numbers list.
From S2P Require Import Prelude CString Locks Kalloc Vm.
Local Open Scope Z_scope.

(** * Binds of lists *)

Section Bind.
Context {A B : Type} `{!EqDecision A} (f g : A -> list B).

Lemma bind_ext (l : list A) : (forall x, x ∈ l -> f x = g x) -> l ≫= f = l ≫= g.
Proof.
  induction l as [|x l IH]; intros H; [done|]. cbn. rewrite H by left. f_equal. apply IH.
  intros y Hy. apply H. by right.
Qed.

Lemma bind_one (l : list A) i l1 l2 : NoDup l -> i ∈ l -> (forall x, x ∈ l -> x <> i -> f x = g x) ->
  l1 ++ f i ≡ₚ l2 ++ g i -> l1 ++ (l ≫= f) ≡ₚ l2 ++ (l ≫= g).
Proof.
  intros Hnd Hi Hne Hp. induction Hnd as [|x l Hx Hnd IH]; [by apply elem_of_nil in Hi|]. cbn.
  destruct (decide (x = i)) as [->|Hxi].
  - rewrite !app_assoc, Hp, (bind_ext l); [done|]. intros y Hy. apply Hne; [by right|]. by intros ->.
  - apply elem_of_cons in Hi as [->|Hi]; [done|]. rewrite Hne by (done || left).
    rewrite !app_assoc, (Permutation_app_comm l1), (Permutation_app_comm l2), <- !app_assoc.
    rewrite IH; [done|done|]. intros y Hy. apply Hne. by right.
Qed.

Lemma bind_disjoint (l : list A) i j x : NoDup (l ≫= f) -> i ∈ l -> j ∈ l -> i <> j ->
  x ∈ f i -> x ∉ f j.
Proof.
  intros Hnd Hi Hj Hij. induction l as [|y l IH]; [by apply elem_of_nil in Hi|]. cbn in Hnd.
  apply NoDup_app in Hnd as (_ & Hd & Hnd). apply elem_of_cons in Hi as [->|Hi], Hj as [->|Hj]; try done.
  - intros Hx Hx'. apply (Hd x Hx). apply list_elem_of_bind. by exists j.
  - intros Hx Hx'. apply (Hd x Hx'). apply list_elem_of_bind. by exists i.
  - by apply IH.
Qed.

Lemma bind_nodup (l : list A) i : NoDup (l ≫= f) -> i ∈ l -> NoDup (f i).
Proof.
  intros Hnd Hi. induction l as [|y l IH]; [by apply elem_of_nil in Hi|]. cbn in Hnd.
  apply NoDup_app in Hnd as (Hy & _ & Hnd). apply elem_of_cons in Hi as [->|Hi]; [done|by apply IH].
Qed.
End Bind.

(** * Entries *)

Definition entry (m : mem) (t i : Z) : Z := load64 m (t + 8 * i).
Definition present (e : Z) : bool := negb (Z.land e PTE_P =? 0).
Definition child (e : Z) : Z := P2V (PTE_ADDR e).

(** The index of level [n], 1 for the page table and 4 for the PML4. *)
Definition ix (n : nat) (va : Z) : Z := Z.land (Z.shiftr va (12 + 9 * (Z.of_nat n - 1))) PXMASK.

(** The entries the code descends into: the lower half of the PML4. *)
Definition idxs (n : nat) : list Z := seqZ 0 (if (n =? 4)%nat then 256 else 512).

Fixpoint pages (n : nat) (m : mem) (p : Z) : list Z :=
  match n with
  | O => [p]
  | S n' => p :: (idxs n ≫= fun i =>
      if present (entry m p i) then pages n' m (child (entry m p i)) else [])
  end.

Fixpoint tables (n : nat) (m : mem) (p : Z) : list Z :=
  match n with
  | O => []
  | S n' => p :: (idxs n ≫= fun i =>
      if present (entry m p i) then tables n' m (child (entry m p i)) else [])
  end.

(** The address of the entry for [va], if its tables are there. *)
Fixpoint pte_at (n : nat) (m : mem) (p va : Z) : option Z :=
  match n with
  | O => None
  | S O => Some (p + 8 * ix 1 va)
  | S n' =>
      let e := entry m p (ix n va) in
      if present e then pte_at n' m (child e) va else None
  end.

Definition pte (n : nat) (m : mem) (p va : Z) : Z :=
  match pte_at n m p va with Some a => load64 m a | None => 0 end.

Lemma pages_0 m p : pages 0 m p = [p].
Proof. done. Qed.
Lemma pages_S n m p : pages (S n) m p = p :: (idxs (S n) ≫= fun i =>
  if present (entry m p i) then pages n m (child (entry m p i)) else []).
Proof. done. Qed.

Lemma pte_at_S n m p va : (0 < n)%nat -> pte_at (S n) m p va =
  if present (entry m p (ix (S n) va)) then pte_at n m (child (entry m p (ix (S n) va))) va else None.
Proof. destruct n; [lia|done]. Qed.

Definition in_page (p a : Z) : Prop := p <= a < p + PGSIZE.

(** [m'] differs from [m] in the pages [l] only. *)
Definition only_pages (l : list Z) (m m' : mem) : Prop :=
  forall a, (forall t, t ∈ l -> ~ in_page t a) -> m' a = m a.

(** [m'] agrees with [m] on the pages [l]. *)
Definition agree (l : list Z) (m m' : mem) : Prop :=
  forall t a, t ∈ l -> in_page t a -> m' a = m a.

Definition user (va : Z) : Prop := 0 <= va < 2 ^ 47.

Lemma land_mask x k : 0 <= k -> Z.land x (Z.ones k) = x mod 2 ^ k.
Proof. intros Hk. by apply Z.land_ones. Qed.

Lemma ix_spec n va : (0 < n)%nat -> ix n va = va / 2 ^ (12 + 9 * (Z.of_nat n - 1)) mod 512.
Proof.
  intros Hn. unfold ix. change PXMASK with (Z.ones 9). rewrite land_mask by lia.
  by rewrite Z.shiftr_div_pow2 by lia.
Qed.

Lemma ix_in n va : (0 < n <= 4)%nat -> user va -> ix n va ∈ idxs n.
Proof.
  intros Hn Hva. unfold idxs. apply elem_of_seqZ. rewrite ix_spec by lia. unfold user in Hva.
  destruct (Nat.eqb_spec n 4) as [->|]; [|pose proof (Z.mod_pos_bound (va / 2 ^ (12 + 9 * (Z.of_nat n - 1))) 512); lia].
  change (12 + 9 * (Z.of_nat 4 - 1)) with 39. Z.div_mod_to_equations. lia.
Qed.

Lemma idxs_range n i : i ∈ idxs n -> 0 <= i < 512.
Proof. unfold idxs. intros H%elem_of_seqZ. destruct (n =? 4)%nat; lia. Qed.

Lemma idxs_nodup n : NoDup (idxs n).
Proof. apply NoDup_seqZ. Qed.

Lemma entry_in_page p i k : 0 <= i < 512 -> 0 <= k < 8 -> in_page p (p + 8 * i + k).
Proof. unfold in_page, PGSIZE. lia. Qed.

Lemma entry_agree m m' p i : (forall a, in_page p a -> m' a = m a) -> 0 <= i < 512 ->
  entry m' p i = entry m p i.
Proof.
  intros H Hi. unfold entry. apply load_le_ext. intros b Hb. apply H. cbn in Hb. unfold in_page, PGSIZE. lia.
Qed.

Lemma tables_pages n m p x : x ∈ tables n m p -> x ∈ pages n m p.
Proof.
  revert p. induction n as [|n IH]; intros p; [by intros ?%elem_of_nil|]. cbn [tables pages].
  rewrite !elem_of_cons, !list_elem_of_bind. intros [->|(i & Hi & Hx)]; [by left|right]. exists i.
  split; [|done]. destruct (present _); [by apply IH|done].
Qed.

(** A tree is determined by its tables. *)
Lemma tree_local n m m' p : agree (tables n m p) m m' ->
  pages n m' p = pages n m p /\ tables n m' p = tables n m p.
Proof.
  revert p. induction n as [|n IH]; intros p H; [done|]. cbn [pages tables] in *.
  assert (forall i, i ∈ idxs (S n) -> entry m' p i = entry m p i) as He.
  { intros i Hi%idxs_range. apply entry_agree; [|done]. intros a Ha. apply (H p); [left|done]. }
  assert (forall i, i ∈ idxs (S n) -> present (entry m p i) = true ->
    agree (tables n m (child (entry m p i))) m m') as Hs.
  { intros i Hi Hp t a Ht Ha. apply (H t); [|done]. right. apply list_elem_of_bind. exists i. by rewrite Hp. }
  split; f_equal; apply bind_ext; intros i Hi; rewrite He by done;
    (destruct (present (entry m p i)) eqn:E; [|done]); by apply IH, Hs.
Qed.

Lemma pte_at_local n m m' p va : (n <= 4)%nat -> user va -> agree (tables n m p) m m' ->
  pte_at n m' p va = pte_at n m p va.
Proof.
  revert p. induction n as [|n IH]; intros p Hn Hva H; [done|]. destruct n as [|n]; [done|].
  cbn [pte_at]. assert (ix (S (S n)) va ∈ idxs (S (S n))) as Hi by (apply ix_in; [lia|done]).
  rewrite (entry_agree m m' p) by ((intros a Ha; apply (H p); [left|done]) || by apply (idxs_range (S (S n)))).
  destruct (present _) eqn:E; [|done]. apply IH; [lia|done|].
  intros t a Ht. apply H. right. apply list_elem_of_bind. exists (ix (S (S n)) va). by rewrite E.
Qed.

Lemma pte_at_in n m p va a : (n <= 4)%nat -> user va -> pte_at n m p va = Some a ->
  exists t i, t ∈ tables n m p /\ 0 <= i < 512 /\ a = t + 8 * i.
Proof.
  revert p. induction n as [|n IH]; intros p Hn Hva H; [done|]. destruct n as [|n].
  - injection H as <-. exists p, (ix 1 va). split; [left|]. split; [|done].
    apply (idxs_range 1), ix_in; [lia|done].
  - cbn [pte_at] in H. assert (ix (S (S n)) va ∈ idxs (S (S n))) as Hi by (apply ix_in; [lia|done]).
    destruct (present _) eqn:E; [|done]. destruct (IH _ ltac:(lia) Hva H) as (t & i & Ht & Hi' & ->).
    exists t, i. split; [|done]. right. apply list_elem_of_bind. exists (ix (S (S n)) va). by rewrite E.
Qed.

Lemma pte_local n m m' p va : (n <= 4)%nat -> user va -> agree (tables n m p) m m' ->
  pte n m' p va = pte n m p va.
Proof.
  intros Hn Hva H. unfold pte. rewrite (pte_at_local n m m' p va) by done.
  destruct (pte_at n m p va) as [a|] eqn:E; [|done].
  destruct (pte_at_in n m p va a Hn Hva E) as (t & i & Ht & Hi & ->).
  apply (entry_agree m m' t i); [|done]. intros x Hx. by apply (H t).
Qed.

(** Addresses of one page have one entry. *)
Lemma pte_at_page n m p va va' : (0 < n)%nat -> va / 4096 = va' / 4096 -> pte_at n m p va = pte_at n m p va'.
Proof.
  intros Hn E. assert (forall k, (0 < k)%nat -> ix k va = ix k va') as Hix.
  { intros k Hk. rewrite !ix_spec by lia. replace (12 + 9 * (Z.of_nat k - 1)) with (12 + (9 * (Z.of_nat k - 1))) by lia.
    rewrite Z.pow_add_r by lia. change (2 ^ 12) with 4096. rewrite <- !Z.div_div by lia. by rewrite E. }
  revert p. induction n as [|n IH]; intros p; [lia|]. destruct (decide (n = 0%nat)) as [->|Hn0].
  - cbn [pte_at]. by rewrite Hix by lia.
  - rewrite !pte_at_S, Hix by lia. destruct (present _); [apply IH; lia|done].
Qed.

Lemma pte_same n m p va va' : (0 < n)%nat -> va / 4096 = va' / 4096 -> pte n m p va = pte n m p va'.
Proof. intros Hn E. unfold pte. by rewrite (pte_at_page n m p va va'). Qed.

(** * Numbers *)

Lemma land_align a : 0 <= a < 2 ^ 64 -> Z.land a (u64 (Z.lnot 0xFFF)) = a / 4096 * 4096.
Proof.
  intros Ha. change (u64 (Z.lnot 0xFFF)) with (Z.shiftl (Z.ones 52) 12).
  apply Z.bits_inj'. intros n Hn. change 4096 with (2 ^ 12).
  rewrite <- Z.shiftr_div_pow2, <- Z.shiftl_mul_pow2, Z.land_spec by lia.
  destruct (Z.ltb_spec n 12) as [H|H].
  - rewrite !Z.shiftl_spec_low by lia. apply andb_false_r.
  - rewrite !Z.shiftl_spec, Z.shiftr_spec by lia. replace (n - 12 + 12) with n by lia.
    destruct (Z.ltb_spec n 64) as [H64|H64].
    + rewrite Z.ones_spec_low by lia. apply andb_true_r.
    + rewrite Z.ones_spec_high by lia. rewrite andb_false_r. symmetry.
      apply Z.bits_above_log2; [lia|]. destruct (Z.eq_dec a 0) as [->|]; [cbn; lia|].
      apply Z.log2_lt_pow2; [lia|]. apply Z.lt_le_trans with (2 ^ 64); [lia|]. apply Z.pow_le_mono_r; lia.
Qed.

Lemma PTE_ADDR_spec e : 0 <= e < 2 ^ 64 -> PTE_ADDR e = e / 4096 * 4096.
Proof. apply land_align. Qed.
Lemma PGROUNDDOWN_spec a : 0 <= a < 2 ^ 64 -> PGROUNDDOWN a = a / 4096 * 4096.
Proof. apply land_align. Qed.
Lemma PTE_FLAGS_spec e : PTE_FLAGS e = e mod 4096.
Proof. apply (land_mask e 12). lia. Qed.

Lemma lor_add x f : x mod 4096 = 0 -> 0 <= f < 4096 -> Z.lor x f = x + f.
Proof.
  intros Hx Hf. rewrite <- Z.lxor_lor, Z.add_nocarry_lxor; [done|..];
    (apply Z.bits_inj'; intros n Hn; rewrite Z.land_spec, Z.bits_0;
     destruct (Z.ltb_spec n 12) as [Hl|Hl];
     [replace x with (x / 4096 * 2 ^ 12) by (Z.div_mod_to_equations; lia);
      rewrite Z.mul_pow2_bits_low by lia; done|]).
  all: replace f with (f mod 2 ^ 12) by (apply Z.mod_small; lia);
    rewrite Z.mod_pow2_bits_high by lia; apply andb_false_r.
Qed.

Lemma present_odd e : present e = Z.odd e.
Proof.
  unfold present. change PTE_P with (Z.ones 1). rewrite Z.land_ones by lia. change (2 ^ 1) with 2.
  rewrite Zmod_odd. by destruct (Z.odd e).
Qed.

(** An entry made of a page's address and flags. *)
Lemma mk_entry end_ v f : page end_ v -> 0 <= f < 4096 ->
  Z.lor (V2P v) f = V2P v + f /\ 0 <= V2P v + f < 2 ^ 64
  /\ child (V2P v + f) = v /\ PTE_FLAGS (V2P v + f) = f /\ PTE_ADDR (V2P v + f) = V2P v
  /\ present (V2P v + f) = present f.
Proof.
  intros (Hm & He & Hk) Hf. unfold PGSIZE, KERNBASE, PHYSTOP in *.
  assert (V2P v = v - KERNBASE) as Ev by (unfold V2P, KERNBASE; apply u64_id; lia).
  unfold KERNBASE in Ev.
  assert (V2P v mod 4096 = 0) as Ha by (rewrite Ev; Z.div_mod_to_equations; lia).
  assert (PTE_ADDR (V2P v + f) = V2P v) as E.
  { rewrite PTE_ADDR_spec by lia. Z.div_mod_to_equations. lia. }
  split; [by apply lor_add|]. split; [lia|]. split; [|split; [|split; [done|]]].
  - unfold child. rewrite E. unfold P2V. rewrite Ev. unfold KERNBASE. rewrite u64_id by lia. lia.
  - rewrite PTE_FLAGS_spec. Z.div_mod_to_equations. lia.
  - rewrite !present_odd, Z.odd_add. replace (Z.odd (V2P v)) with false; [by destruct (Z.odd f)|].
    symmetry. replace (V2P v) with (2 * (V2P v / 2)) by (Z.div_mod_to_equations; lia).
    by rewrite Z.odd_mul.
Qed.

(** * Trees *)

Section Trees.
Context (end_ : Z).

Record good (n : nat) (m : mem) (p : Z) : Prop := {
  gd_nodup : NoDup (pages n m p);
  gd_page : Forall (page end_) (pages n m p) }.

(** The pages of [l] are apart from the page [t]. *)
Lemma apart_page t l a : page end_ t -> Forall (page end_) l -> t ∉ l -> in_page t a ->
  forall u, u ∈ l -> ~ in_page u a.
Proof.
  intros Ht Hl Hn Ha u Hu. apply (page_disjoint end_ u t); try done.
  - by eapply Forall_forall in Hl.
  - by intros ->.
Qed.

Lemma only_agree l l' m m' : Forall (page end_) l -> Forall (page end_) l' ->
  (forall t, t ∈ l -> t ∉ l') -> only_pages l' m m' -> agree l m m'.
Proof.
  intros Hl Hl' Hd Ho t a Ht Ha. apply Ho. apply (apart_page t l' a); try done.
  - by eapply Forall_forall in Hl.
  - by apply Hd.
Qed.

Lemma only_pages_trans l m m1 m2 : only_pages l m m1 -> only_pages l m1 m2 -> only_pages l m m2.
Proof. intros H1 H2 a Ha. by rewrite H2, H1. Qed.

Lemma only_pages_mono l l' m m' : (forall t, t ∈ l -> t ∈ l') -> only_pages l m m' -> only_pages l' m m'.
Proof. intros Hs H a Ha. apply H. intros t Ht. by apply Ha, Hs. Qed.

Lemma sub_pages n m p i t : i ∈ idxs (S n) -> present (entry m p i) = true ->
  t ∈ pages n m (child (entry m p i)) -> t ∈ pages (S n) m p.
Proof. intros Hi Hp Ht. cbn [pages]. right. apply list_elem_of_bind. exists i. by rewrite Hp. Qed.

Lemma sub_tables n m p i t : i ∈ idxs (S n) -> present (entry m p i) = true ->
  t ∈ tables n m (child (entry m p i)) -> t ∈ tables (S n) m p.
Proof. intros Hi Hp Ht. cbn [tables]. right. apply list_elem_of_bind. exists i. by rewrite Hp. Qed.

Lemma good_child n m p i : good (S n) m p -> i ∈ idxs (S n) -> present (entry m p i) = true ->
  good n m (child (entry m p i)) /\ p ∉ pages n m (child (entry m p i)).
Proof.
  intros [Hnd Hpg] Hi Hp. cbn [pages] in Hnd. apply NoDup_cons in Hnd as [Hn Hnd]. split; [split|].
  - eapply bind_nodup in Hnd; [|exact Hi]. by rewrite Hp in Hnd.
  - rewrite Forall_forall in Hpg |- *. intros t Ht. apply Hpg. by eapply sub_pages.
  - intros Hin. apply Hn, list_elem_of_bind. exists i. by rewrite Hp.
Qed.

Lemma good_root n m p : good n m p -> page end_ p.
Proof. intros [_ H]. destruct n; by apply Forall_cons in H as [? _]. Qed.

(** Two subtrees have no page in common. *)
Lemma good_apart n m p i j t : good (S n) m p -> i ∈ idxs (S n) -> j ∈ idxs (S n) -> i <> j ->
  present (entry m p i) = true -> present (entry m p j) = true ->
  t ∈ pages n m (child (entry m p i)) -> t ∉ pages n m (child (entry m p j)).
Proof.
  intros [Hnd _] Hi Hj Hij Hpi Hpj. cbn [pages] in Hnd. apply NoDup_cons in Hnd as [_ Hnd].
  pose proof (bind_disjoint _ (idxs (S n)) i j t Hnd Hi Hj Hij) as H. cbv beta in H. by rewrite Hpi, Hpj in H.
Qed.

(** A change inside one subtree, with fresh pages [new]. *)
Lemma lift_agree n m m' p i0 new : good (S n) m p -> i0 ∈ idxs (S n) -> present (entry m p i0) = true ->
  (forall t, t ∈ new -> t ∉ pages (S n) m p) -> Forall (page end_) new ->
  only_pages (tables n m (child (entry m p i0)) ++ new) m m' ->
  (forall i, 0 <= i < 512 -> entry m' p i = entry m p i)
  /\ forall i, i ∈ idxs (S n) -> i <> i0 -> present (entry m p i) = true ->
     agree (tables n m (child (entry m p i))) m m'.
Proof.
  intros Hg Hi0 Hp0 Hnew Hpn Ho. set (c := child (entry m p i0)) in *.
  destruct (good_child n m p i0 Hg Hi0 Hp0) as [Hgc Hpc]. fold c in Hgc, Hpc.
  assert (Forall (page end_) (tables n m c ++ new)) as Hall.
  { apply Forall_app. split; [|done]. rewrite Forall_forall. intros t Ht.
    pose proof (gd_page _ _ _ Hgc) as Hpg. rewrite Forall_forall in Hpg. by apply Hpg, tables_pages. }
  split.
  - intros i Hi. apply entry_agree; [|done]. intros a Ha. apply Ho. apply (apart_page p _ a); try done.
    + by eapply good_root.
    + rewrite elem_of_app. intros [Ht|Ht]; [by apply Hpc, tables_pages|]. apply (Hnew p Ht). by left.
  - intros i Hi Hne Hp. apply (only_agree _ (tables n m c ++ new)); try done.
    + rewrite Forall_forall. intros t Ht. pose proof (gd_page _ _ _ Hg) as Hpg. rewrite Forall_forall in Hpg.
      apply Hpg. by eapply sub_pages, tables_pages.
    + intros t Ht. rewrite elem_of_app. intros [Ht'|Ht'].
      * apply (good_apart n m p i i0 t); try done; by apply tables_pages.
      * apply (Hnew t Ht'). by eapply sub_pages, tables_pages.
Qed.

(** The change, seen from the tree: other subtrees are as before. *)
Lemma lift_subtrees n m m' p i0 new : good (S n) m p -> i0 ∈ idxs (S n) -> present (entry m p i0) = true ->
  (forall t, t ∈ new -> t ∉ pages (S n) m p) -> Forall (page end_) new ->
  only_pages (tables n m (child (entry m p i0)) ++ new) m m' ->
  let sub (F : nat -> mem -> Z -> list Z) (m : mem) i :=
    if present (entry m p i) then F n m (child (entry m p i)) else [] in
  forall i, i ∈ idxs (S n) -> i <> i0 ->
    sub pages m' i = sub pages m i /\ sub tables m' i = sub tables m i.
Proof.
  intros Hg Hi0 Hp0 Hnew Hpn Ho sub i Hi Hne. subst sub. cbv beta.
  destruct (lift_agree n m m' p i0 new) as [He Ha]; try done. rewrite He by (by apply (idxs_range (S n))).
  destruct (present (entry m p i)) eqn:E; [|done]. by apply tree_local, Ha.
Qed.

Lemma lift_add n m m' p i0 new : good (S n) m p -> i0 ∈ idxs (S n) -> present (entry m p i0) = true ->
  (forall t, t ∈ new -> t ∉ pages (S n) m p) -> Forall (page end_) new ->
  let c := child (entry m p i0) in
  only_pages (tables n m c ++ new) m m' ->
  (forall l1 l2, l1 ++ pages n m' c ≡ₚ l2 ++ pages n m c ->
     l1 ++ pages (S n) m' p ≡ₚ l2 ++ pages (S n) m p)
  /\ (forall l, tables n m' c ≡ₚ l ++ tables n m c -> tables (S n) m' p ≡ₚ l ++ tables (S n) m p)
  /\ (tables n m' c = tables n m c -> tables (S n) m' p = tables (S n) m p).
Proof.
  intros Hg Hi0 Hp0 Hnew Hpn c Ho. destruct (lift_agree n m m' p i0 new) as [He _]; try done.
  pose proof (lift_subtrees n m m' p i0 new Hg Hi0 Hp0 Hnew Hpn Ho) as Hs. cbv zeta in Hs.
  assert (0 <= i0 < 512) as Hr by (by apply (idxs_range (S n))).
  assert (forall l1 l2 (x y : list Z), l1 ++ x ≡ₚ l2 ++ y -> l1 ++ p :: x ≡ₚ l2 ++ p :: y) as Hcons.
  { intros l1 l2 x y H. by rewrite <- !Permutation_middle, H. }
  cbn [pages tables]. split; [|split].
  - intros l1 l2 Hl. apply Hcons, (bind_one _ _ (idxs (S n)) i0); [apply idxs_nodup|done|intros; by apply Hs|].
    cbv beta. rewrite He, Hp0 by done. done.
  - intros l Hl. apply (Hcons [] l), (bind_one _ _ (idxs (S n)) i0); [apply idxs_nodup|done|intros; by apply Hs|].
    cbv beta. rewrite He, Hp0 by done. done.
  - intros Hl. f_equal. apply bind_ext. intros i Hi. destruct (decide (i = i0)) as [->|Hne]; [|by apply Hs].
    rewrite He, Hp0 by done. done.
Qed.

(** Entries seen from the tree. *)
Lemma lift_pte n m m' p i0 new va : (S n <= 4)%nat -> user va -> (0 < n)%nat ->
  good (S n) m p -> i0 ∈ idxs (S n) -> present (entry m p i0) = true ->
  (forall t, t ∈ new -> t ∉ pages (S n) m p) -> Forall (page end_) new ->
  let c := child (entry m p i0) in
  only_pages (tables n m c ++ new) m m' ->
  (ix (S n) va = i0 -> pte_at (S n) m' p va = pte_at n m' c va /\ pte_at (S n) m p va = pte_at n m c va)
  /\ (ix (S n) va <> i0 -> pte_at (S n) m' p va = pte_at (S n) m p va
       /\ pte (S n) m' p va = pte (S n) m p va).
Proof.
  intros Hn Hva Hn0 Hg Hi0 Hp0 Hnew Hpn c Ho. destruct (lift_agree n m m' p i0 new) as [He Ha]; try done.
  assert (0 <= i0 < 512) as Hr by (by apply (idxs_range (S n))).
  assert (ix (S n) va ∈ idxs (S n)) as Hix by (apply ix_in; [lia|done]).
  unfold pte. rewrite !pte_at_S by done. split.
  - intros ->. rewrite He, Hp0 by done. done.
  - intros Hne. rewrite He by (by eapply idxs_range).
    destruct (present (entry m p (ix (S n) va))) eqn:E; [|done]. specialize (Ha _ Hix Hne E).
    split; [apply pte_at_local; (done || lia)|].
    apply (pte_local n m m' (child (entry m p (ix (S n) va))) va); (done || lia).
Qed.

(** * Storing an entry *)

Lemma entry_store_ne m p i0 v i : i <> i0 -> entry (store64 m (p + 8 * i0) v) p i = entry m p i.
Proof.
  intros Hne. apply load_le_ext. intros b Hb. apply store_le_other. cbn in *. lia.
Qed.

Lemma entry_store m p i0 v i : 0 <= i0 < 512 -> 0 <= v < 2 ^ 64 -> 0 <= i < 512 ->
  entry (store64 m (p + 8 * i0) v) p i = if i =? i0 then v else entry m p i.
Proof.
  intros Hi0 Hv Hi. unfold entry, store64. destruct (Z.eqb_spec i i0) as [->|Hne].
  - apply load_store_le. done.
  - by apply entry_store_ne.
Qed.

Lemma store_only m p i0 v : 0 <= i0 < 512 -> only_pages [p] m (store64 m (p + 8 * i0) v).
Proof.
  intros Hi0 a Ha. apply store_le_other. specialize (Ha p ltac:(left)). unfold in_page, PGSIZE in Ha. cbn. lia.
Qed.

(** The page an entry maps. *)
Definition leaf (e : Z) : list Z := if present e then [child e] else [].

(** The lower [9 n] bits of two page numbers agree. *)
Definition same_ix (n : nat) (va va' : Z) : bool :=
  (va / 4096) mod 2 ^ (9 * Z.of_nat n) =? (va' / 4096) mod 2 ^ (9 * Z.of_nat n).

Lemma ix_page n va : ix (S n) va = (va / 4096 / 2 ^ (9 * Z.of_nat n)) mod 512.
Proof.
  rewrite ix_spec by lia. rewrite Z.div_div by lia. do 2 f_equal.
  change 4096 with (2 ^ 12). rewrite <- Z.pow_add_r by lia. f_equal. lia.
Qed.

Lemma same_ix_S n va va' : same_ix (S n) va va' = (ix (S n) va =? ix (S n) va') && same_ix n va va'.
Proof.
  unfold same_ix. rewrite !ix_page. replace (9 * Z.of_nat (S n)) with (9 * Z.of_nat n + 9) by lia.
  rewrite Z.pow_add_r by lia. change (2 ^ 9) with 512. set (b := 2 ^ (9 * Z.of_nat n)).
  assert (0 < b) as Hb by (apply Z.pow_pos_nonneg; lia). rewrite !Z.rem_mul_r by lia.
  set (x := va / 4096). set (y := va' / 4096).
  pose proof (Z.mod_pos_bound x b Hb). pose proof (Z.mod_pos_bound y b Hb).
  destruct (Z.eqb_spec ((x / b) mod 512) ((y / b) mod 512)) as [->|Hne]; cbn [andb].
  - destruct (Z.eqb_spec (x mod b) (y mod b)) as [->|]; [apply Z.eqb_refl|apply Z.eqb_neq; lia].
  - apply Z.eqb_neq. intros E. apply Hne. nia.
Qed.

Lemma same_ix_user va va' : user va -> user va' -> same_ix 4 va va' = (va / 4096 =? va' / 4096).
Proof.
  unfold user, same_ix. intros Hv Hv'. change (2 ^ (9 * Z.of_nat 4)) with (2 ^ 36).
  rewrite !Z.mod_small by (Z.div_mod_to_equations; lia). done.
Qed.

Lemma same_ix_1 va va' : same_ix 1 va va' = (ix 1 va =? ix 1 va').
Proof. rewrite same_ix_S. unfold same_ix. by rewrite !Z.mod_1_r, andb_true_r. Qed.

(** Storing [v] as the entry for [va]. *)
Record pte_set (n : nat) (m m' : mem) (p va v : Z) : Prop := {
  ps_tables : tables n m' p = tables n m p;
  ps_pages : leaf (pte n m p va) ++ pages n m' p ≡ₚ leaf v ++ pages n m p;
  ps_only : only_pages (tables n m p) m m';
  ps_at : forall va', user va' -> pte_at n m' p va' = pte_at n m p va';
  ps_pte : forall va', user va' -> pte n m' p va' = if same_ix n va va' then v else pte n m p va' }.

Lemma set_pte_1 m p va v : user va -> 0 <= v < 2 ^ 64 ->
  pte_set 1 m (store64 m (p + 8 * ix 1 va) v) p va v.
Proof.
  intros Hva Hv. set (m' := store64 m (p + 8 * ix 1 va) v).
  assert (forall x, user x -> 0 <= ix 1 x < 512) as Hr by (intros x Hx; apply (idxs_range 1), ix_in; [lia|done]).
  assert (forall i, 0 <= i < 512 -> entry m' p i = if i =? ix 1 va then v else entry m p i) as He
    by (intros i Hi; apply entry_store; auto).
  split.
  - cbn [tables]. f_equal. apply bind_ext. intros i _. by destruct (present _), (present _).
  - cbn [pages]. rewrite <- !Permutation_middle. constructor.
    apply (bind_one _ _ (idxs 1) (ix 1 va)); [apply idxs_nodup|apply ix_in; [lia|done]| |].
    + intros i Hi Hne. rewrite He by (by apply (idxs_range 1)). by rewrite (proj2 (Z.eqb_neq _ _)) by done.
    + cbv beta. rewrite He, Z.eqb_refl by auto. unfold pte. cbn [pte_at]. fold (entry m p (ix 1 va)).
      unfold leaf. apply Permutation_app_comm.
  - apply (only_pages_mono [p]); [|by apply store_only, Hr].
    intros t ->%list_elem_of_singleton. left.
  - done.
  - intros va' Hva'. rewrite same_ix_1, Z.eqb_sym. unfold pte. cbn [pte_at].
    fold (entry m' p (ix 1 va')). fold (entry m p (ix 1 va')). by rewrite He by auto.
Qed.

Lemma set_pte n m p va a v : (n <= 4)%nat -> user va -> good n m p ->
  pte_at n m p va = Some a -> 0 <= v < 2 ^ 64 -> pte_set n m (store64 m a v) p va v.
Proof.
  intros Hn Hva. revert p. induction n as [|n IH]; intros p Hg Ha Hv; [done|].
  destruct (decide (n = 0%nat)) as [->|Hn0].
  { injection Ha as <-. by apply set_pte_1. }
  assert (ix (S n) va ∈ idxs (S n)) as Hi by (apply ix_in; [lia|done]).
  pose proof Ha as Ha0. rewrite pte_at_S in Ha by lia. destruct (present _) eqn:Ep; [|done].
  destruct (good_child n m p _ Hg Hi Ep) as [Hgc _]. set (c := child (entry m p (ix (S n) va))) in *.
  destruct (IH ltac:(lia) c Hgc Ha Hv) as [P1 P2 P3 P4 P5]. set (m' := store64 m a v) in *.
  assert (only_pages (tables n m c ++ []) m m') as Ho by (by rewrite app_nil_r).
  assert (forall t : Z, t ∈ ([] : list Z) -> t ∉ pages (S n) m p) as Hnil by (intros t Ht; by apply elem_of_nil in Ht).
  destruct (lift_add n m m' p (ix (S n) va) [] Hg Hi Ep Hnil (Forall_nil_2 _) Ho) as (L1 & _ & L3).
  fold c in L1, L3.
  assert (forall va', user va' -> ix (S n) va' = ix (S n) va ->
    pte_at (S n) m' p va' = pte_at n m' c va' /\ pte_at (S n) m p va' = pte_at n m c va') as Heq.
  { intros va' Hu. apply (lift_pte n m m' p (ix (S n) va) []); try done; lia. }
  assert (forall va', user va' -> ix (S n) va' <> ix (S n) va ->
    pte_at (S n) m' p va' = pte_at (S n) m p va' /\ pte (S n) m' p va' = pte (S n) m p va') as Hne.
  { intros va' Hu. apply (lift_pte n m m' p (ix (S n) va) []); try done; lia. }
  split.
  - by apply L3.
  - apply L1. unfold pte. destruct (Heq va) as [_ ->]; [done..|]. exact P2.
  - apply (only_pages_mono (tables n m c)); [|done]. intros t Ht. by eapply sub_tables.
  - intros va' Hu. destruct (decide (ix (S n) va' = ix (S n) va)) as [E|E]; [|by apply Hne].
    destruct (Heq va' Hu E) as [-> ->]. by apply P4.
  - intros va' Hu. rewrite same_ix_S, Z.eqb_sym. destruct (Z.eqb_spec (ix (S n) va') (ix (S n) va)) as [E|E];
      cbn [andb]; [|by apply Hne].
    unfold pte. destruct (Heq va' Hu E) as [-> ->]. by apply P5.
Qed.

(** * New tables *)

Record grown (n : nat) (m m' : mem) (p : Z) (new : list Z) : Prop := {
  gw_pages : pages n m' p ≡ₚ new ++ pages n m p;
  gw_tables : tables n m' p ≡ₚ new ++ tables n m p;
  gw_only : only_pages (tables n m p ++ new) m m';
  gw_pte : forall va, user va -> pte n m' p va = pte n m p va }.

Lemma grown_refl n m p : grown n m m p [].
Proof. by split. Qed.

Lemma grown_trans n m m1 m2 p new1 new2 :
  grown n m m1 p new1 -> grown n m1 m2 p new2 -> grown n m m2 p (new1 ++ new2).
Proof.
  intros [P1 T1 O1 E1] [P2 T2 O2 E2]. split.
  - rewrite P2, P1. rewrite !app_assoc. by rewrite (Permutation_app_comm new1).
  - rewrite T2, T1. rewrite !app_assoc. by rewrite (Permutation_app_comm new1).
  - apply (only_pages_trans _ _ m1).
    + eapply only_pages_mono; [|exact O1]. intros t. rewrite !elem_of_app. tauto.
    + eapply only_pages_mono; [|exact O2]. intros t. rewrite T1, !elem_of_app. tauto.
  - intros va Hva. by rewrite E2, E1.
Qed.

Lemma grown_lift n m m' p i0 new : (0 < n)%nat -> (S n <= 4)%nat -> good (S n) m p ->
  i0 ∈ idxs (S n) -> present (entry m p i0) = true ->
  (forall t, t ∈ new -> t ∉ pages (S n) m p) -> Forall (page end_) new ->
  grown n m m' (child (entry m p i0)) new -> grown (S n) m m' p new.
Proof.
  intros Hn0 Hn Hg Hi Hp Hnew Hpg [P T O E].
  destruct (lift_add n m m' p i0 new Hg Hi Hp Hnew Hpg O) as (L1 & L2 & _). split.
  - by apply (L1 [] new).
  - by apply L2.
  - eapply only_pages_mono; [|exact O]. intros t. rewrite !elem_of_app. intros [Ht|?]; [left|by right].
    by eapply sub_tables.
  - intros va Hva. destruct (lift_pte n m m' p i0 new va) as [Heq Hne]; try done.
    destruct (decide (ix (S n) va = i0)) as [Ei|Ei]; [|by apply Hne].
    unfold pte. destruct (Heq Ei) as [-> ->]. by apply E.
Qed.

Lemma load_le_zero n m a : (forall b, a <= b < a + Z.of_nat n -> m b = 0) -> load_le n m a = 0.
Proof.
  revert a. induction n as [|n IH]; intros a H; [done|]. cbn [load_le]. rewrite H by lia.
  rewrite IH; [done|]. intros b Hb. apply H. lia.
Qed.

(** A table without entries. *)
Lemma empty_table n m c : (0 < n <= 4)%nat -> (forall i, i ∈ idxs n -> entry m c i = 0) ->
  pages n m c = [c] /\ tables n m c = [c] /\ forall va, user va -> pte n m c va = 0.
Proof.
  intros Hn He.
  assert (forall F : Z -> list Z, (idxs n ≫= fun i => if present (entry m c i) then F i else []) = []) as Hb.
  { intros F. rewrite (bind_ext _ (fun _ => [])).
    - clear. generalize (idxs n). intros l. by induction l.
    - intros i Hi. by rewrite He. }
  destruct n as [|n]; [lia|]. cbn [pages tables]. split; [by rewrite Hb|]. split; [by rewrite Hb|].
  intros va Hva. assert (ix (S n) va ∈ idxs (S n)) as Hi by (apply ix_in; [lia|done]).
  unfold pte. destruct n as [|n]; [by apply He|]. rewrite pte_at_S, He by (done || lia). done.
Qed.

Lemma zero_entry m c i : (forall a, in_page c a -> m a = 0) -> 0 <= i < 512 -> entry m c i = 0.
Proof.
  intros Hz Hi. apply load_le_zero. intros b Hb. apply Hz. unfold in_page, PGSIZE. cbn in Hb. lia.
Qed.

(** A zeroed page is an empty table. *)
Lemma zero_table n m c : (0 < n <= 4)%nat -> (forall a, in_page c a -> m a = 0) ->
  pages n m c = [c] /\ tables n m c = [c] /\ forall va, user va -> pte n m c va = 0.
Proof.
  intros Hn Hz. apply empty_table; [done|]. intros i Hi%idxs_range. by apply zero_entry.
Qed.

Definition table_entry (c : Z) : Z := Z.lor (Z.lor (Z.lor (V2P c) PTE_P) PTE_W) PTE_U.

Lemma table_entry_ok c : page end_ c -> 0 <= table_entry c < 2 ^ 64
  /\ present (table_entry c) = true /\ child (table_entry c) = c.
Proof.
  intros Hc. destruct (mk_entry end_ c 7 Hc) as (E & Hr & Hch & _ & _ & Hp); [lia|].
  assert (table_entry c = V2P c + 7) as ->.
  { unfold table_entry. rewrite <- !Z.lor_assoc. change (Z.lor PTE_P (Z.lor PTE_W PTE_U)) with 7. done. }
  by rewrite Hp.
Qed.

(** The memory after the allocation of a table. *)
Lemma grow_table_mem n m p i0 c : good (S n) m p -> i0 ∈ idxs (S n) -> page end_ c -> c ∉ pages (S n) m p ->
  let m' := store64 (memset m c 0 PGSIZE) (p + 8 * i0) (table_entry c) in
  only_pages [p; c] m m' /\ (forall a, in_page c a -> m' a = 0)
  /\ forall i, 0 <= i < 512 -> entry m' p i = if i =? i0 then table_entry c else entry m p i.
Proof.
  intros Hg Hi Hc Hcn m'. destruct (table_entry_ok c Hc) as (Hv & _).
  pose proof (idxs_range _ _ Hi) as Hr. pose proof (good_root _ _ _ Hg) as Hpp.
  assert (p <> c) as Hpc by (intros ->; apply Hcn; left).
  set (m1 := memset m c 0 PGSIZE).
  assert (only_pages [c] m m1) as O1.
  { intros a Ha. apply memset_other; [unfold PGSIZE; lia|]. apply (Ha c). left. }
  assert (only_pages [p] m1 m') as O2 by (by apply store_only).
  split.
  { apply (only_pages_trans _ _ m1); [apply (only_pages_mono [c])|apply (only_pages_mono [p])]; try done;
      intros t ->%list_elem_of_singleton; rewrite !elem_of_cons; tauto. }
  split.
  - intros a Ha. rewrite O2.
    + unfold m1. rewrite memset_spec by (unfold PGSIZE; lia). unfold in_page in Ha.
      by replace (_ && _) with true by lia.
    + apply (apart_page c [p] a); try done; [by constructor|]. by intros ->%list_elem_of_singleton.
  - intros i Hi'. unfold m'. rewrite entry_store by done. destruct (i =? i0); [done|].
    apply entry_agree; [|done]. intros a Ha. apply O1. apply (apart_page p [c] a); try done; [by constructor|].
    by intros ->%list_elem_of_singleton.
Qed.

(** The allocation of a table. *)
Lemma grow_table n m p i0 c : (0 < n)%nat -> (S n <= 4)%nat -> good (S n) m p -> i0 ∈ idxs (S n) ->
  present (entry m p i0) = false -> page end_ c -> c ∉ pages (S n) m p ->
  let m' := store64 (memset m c 0 PGSIZE) (p + 8 * i0) (table_entry c) in
  grown (S n) m m' p [c] /\ entry m' p i0 = table_entry c.
Proof.
  intros Hn0 Hn Hg Hi Hp Hc Hcn m'. destruct (table_entry_ok c Hc) as (Hv & Hvp & Hvc).
  destruct (grow_table_mem n m p i0 c Hg Hi Hc Hcn) as (O & Hz & He). fold m' in O, Hz, He.
  destruct (zero_table n m' c) as (Z1 & Z2 & Z3); [lia|done|].
  assert (entry m' p i0 = table_entry c) as He0
    by (rewrite He, Z.eqb_refl by (by eapply idxs_range); done).
  assert (forall i, i ∈ idxs (S n) -> i <> i0 -> entry m' p i = entry m p i) as Hne.
  { intros i Hi' Hne. rewrite He by (by eapply idxs_range). by rewrite (proj2 (Z.eqb_neq _ _)). }
  assert (forall i, i ∈ idxs (S n) -> present (entry m p i) = true ->
    agree (tables n m (child (entry m p i))) m m') as Hag.
  { intros i Hi' Hpi. destruct (good_child n m p i Hg Hi' Hpi) as [Hgc Hpn].
    pose proof (gd_page _ _ _ Hgc) as H. rewrite Forall_forall in H.
    apply (only_agree _ [p; c]); [|apply Forall_cons_2; [by eapply good_root|by apply Forall_singleton]|intros t Ht%tables_pages|done].
    - rewrite Forall_forall. intros t Ht%tables_pages. by apply H.
    - rewrite !elem_of_cons. intros [->|[->|[]%elem_of_nil]]; [done|]. apply Hcn. by eapply sub_pages. }
  split; [|done]. split.
  - cbn [pages]. rewrite <- (Permutation_middle [c]). constructor.
    apply (bind_one _ _ (idxs (S n)) i0 [] [c]); [apply idxs_nodup|done| |].
    + intros i Hi' Hi0. rewrite Hne by done. destruct (present (entry m p i)) eqn:E; [|done]. by apply tree_local, Hag.
    + cbv beta. by rewrite He0, Hvp, Hvc, Hp, Z1.
  - cbn [tables]. rewrite <- (Permutation_middle [c]). constructor.
    apply (bind_one _ _ (idxs (S n)) i0 [] [c]); [apply idxs_nodup|done| |].
    + intros i Hi' Hi0. rewrite Hne by done. destruct (present (entry m p i)) eqn:E; [|done]. by apply tree_local, Hag.
    + cbv beta. by rewrite He0, Hvp, Hvc, Hp, Z2.
  - eapply only_pages_mono; [|exact O]. intros t. cbn [tables].
    rewrite elem_of_app, !elem_of_cons. tauto.
  - intros va Hva. assert (ix (S n) va ∈ idxs (S n)) as Hix by (apply ix_in; [lia|done]).
    unfold pte. rewrite !pte_at_S by done. destruct (decide (ix (S n) va = i0)) as [->|Hd].
    + rewrite He0, Hvp, Hvc, Hp. by apply Z3.
    + rewrite Hne by done. destruct (present (entry m p (ix (S n) va))) eqn:E; [|done].
      apply pte_local; [lia|done|by apply Hag].
Qed.

(** * Mapped pages *)

(** The page of a present entry is in the tree and is no table; different pages of
    the address space are different pages of memory. *)
Lemma pte_present_S n m p va : (0 < n)%nat -> present (pte (S n) m p va) = true ->
  present (entry m p (ix (S n) va)) = true
  /\ pte (S n) m p va = pte n m (child (entry m p (ix (S n) va))) va.
Proof.
  intros Hn. unfold pte. rewrite pte_at_S by done. by destruct (present (entry m p (ix (S n) va))).
Qed.

Lemma pte_page n m p va : (0 < n <= 4)%nat -> user va -> present (pte n m p va) = true ->
  child (pte n m p va) ∈ pages n m p.
Proof.
  intros Hn Hva. revert p. induction n as [|n IH]; intros p Hp; [lia|].
  assert (ix (S n) va ∈ idxs (S n)) as Hi by (apply ix_in; [lia|done]).
  destruct (decide (n = 0%nat)) as [->|Hn0].
  - unfold pte in *. cbn [pte_at] in *. apply (sub_pages 0 m p (ix 1 va)); try done. left.
  - destruct (pte_present_S n m p va ltac:(lia) Hp) as [He E]. rewrite E in *.
    apply (sub_pages n m p (ix (S n) va)); try done. apply IH; [lia|done].
Qed.

Lemma pte_no_table n m p va : (0 < n <= 4)%nat -> user va -> good n m p -> present (pte n m p va) = true ->
  child (pte n m p va) ∉ tables n m p.
Proof.
  intros Hn Hva. revert p. induction n as [|n IH]; intros p Hg Hp; [lia|].
  assert (ix (S n) va ∈ idxs (S n)) as Hi by (apply ix_in; [lia|done]).
  cbn [tables]. rewrite elem_of_cons, list_elem_of_bind.
  destruct (decide (n = 0%nat)) as [->|Hn0].
  - unfold pte in *. cbn [pte_at] in *. destruct (good_child 0 m p (ix 1 va) Hg Hi Hp) as [_ Hn'].
    intros [E|(i & Hx & _)]; [apply Hn', list_elem_of_singleton; by symmetry|]. destruct (present (entry m p i)); by apply elem_of_nil in Hx.
  - destruct (pte_present_S n m p va ltac:(lia) Hp) as [He E]. rewrite E in *.
    destruct (good_child n m p (ix (S n) va) Hg Hi He) as [Hgc Hpn].
    assert (child (pte n m (child (entry m p (ix (S n) va))) va) ∈ pages n m (child (entry m p (ix (S n) va)))) as Hin
      by (apply pte_page; [lia|done|done]).
    intros [E'|(i & Hx & Hii)]; [by rewrite E' in Hin|]. destruct (present (entry m p i)) eqn:Hpi; [|by apply elem_of_nil in Hx].
    destruct (decide (i = ix (S n) va)) as [->|Hne]; [by apply (IH ltac:(lia) _ Hgc Hp)|].
    apply (good_apart n m p i (ix (S n) va) _ Hg Hii Hi Hne Hpi He (tables_pages _ _ _ _ Hx) Hin).
Qed.

Lemma pte_inj n m p va va' : (0 < n <= 4)%nat -> user va -> user va' -> good n m p ->
  present (pte n m p va) = true -> present (pte n m p va') = true ->
  child (pte n m p va) = child (pte n m p va') -> same_ix n va va' = true.
Proof.
  intros Hn Hva Hva'. revert p. induction n as [|n IH]; intros p Hg Hp Hp' E; [lia|].
  assert (ix (S n) va ∈ idxs (S n) /\ ix (S n) va' ∈ idxs (S n)) as [Hi Hi']
    by (split; apply ix_in; (lia || done)).
  rewrite same_ix_S. destruct (decide (n = 0%nat)) as [->|Hn0].
  - unfold pte in *. cbn [pte_at] in *. unfold same_ix. rewrite !Z.mod_1_r, Z.eqb_refl, andb_true_r.
    apply Z.eqb_eq. destruct (decide (ix 1 va = ix 1 va')) as [|Hne]; [done|exfalso].
    apply (good_apart 0 m p (ix 1 va) (ix 1 va') (child (entry m p (ix 1 va))) Hg Hi Hi' Hne Hp Hp'); cbn [pages];
      [by left|]. apply list_elem_of_singleton. exact E.
  - destruct (pte_present_S n m p va ltac:(lia) Hp) as [He Ee].
    destruct (pte_present_S n m p va' ltac:(lia) Hp') as [He' Ee']. rewrite Ee, Ee' in *.
    destruct (decide (ix (S n) va = ix (S n) va')) as [Ei|Hne].
    + rewrite <- Ei, Z.eqb_refl in *. cbn [andb]. apply (IH ltac:(lia) (child (entry m p (ix (S n) va)))); try done.
      by apply good_child.
    + exfalso. apply (good_apart n m p (ix (S n) va) (ix (S n) va') _ Hg Hi Hi' Hne He He'
        (pte_page n m _ va ltac:(lia) Hva Hp)). rewrite E. by apply pte_page; [lia|..].
Qed.
End Trees.
