(* ===== verification/VmSpace.v ===== *)
(** The operations of src/vm.c on address spaces.

    [space s root free] is the invariant of an address space: its page tables and
    pages form a tree without sharing, apart from the free list.  The lemmas give
    [walkpgdir], [mappages], [allocuvm], [deallocuvm], [freevm] and [copyuvm] in
    terms of the entries [pte] and of the pages the tree owns. *)
From stdpp Require Import base strings numbers list.
From S2P Require Import Prelude CString Locks Kalloc Vm VmTree.
Local Open Scope Z_scope.

(** * [walkpgdir] by levels *)

Fixpoint walk (n : nat) (p va : Z) (alloc : bool) : M vmstate (option Z) :=
  match n with
  | O => mret None
  | S O => mret (Some (p + 8 * ix 1 va))
  | S n' =>
      r ← walk_level p (ix n va) alloc;
      match r with None => mret None | Some c => walk n' c va alloc end
  end.

Lemma walkpgdir_walk p va alloc : walkpgdir p va alloc = walk 4 p va alloc.
Proof. reflexivity. Qed.

Lemma walk_S n p va alloc : (0 < n)%nat -> walk (S n) p va alloc =
  (r ← walk_level p (ix (S n) va) alloc;
   match r with None => mret None | Some c => walk n c va alloc end).
Proof. destruct n; [lia|done]. Qed.

Lemma walk_level_present s p i alloc : present (entry (vram s) p i) = true ->
  walk_level p i alloc s = Ok (Some (child (entry (vram s) p i)), s).
Proof. intros H. unfold walk_level, load_pte, gets. mrun. fold (entry (vram s) p i). unfold present in H. by rewrite H. Qed.

(** Looking without allocating. *)
Lemma walk_false n s p va : (0 < n)%nat -> walk n p va false s = Ok (pte_at n (vram s) p va, s).
Proof.
  revert p. induction n as [|n IH]; intros p Hn; [lia|]. destruct (decide (n = 0%nat)) as [->|Hn0]; [done|].
  rewrite walk_S, pte_at_S by lia. destruct (present (entry (vram s) p (ix (S n) va))) eqn:E.
  - rewrite (bind_ok _ _ _ _ _ (walk_level_present s p _ false E)). apply IH. lia.
  - unfold walk_level, load_pte, gets. mrun. fold (entry (vram s) p (ix (S n) va)).
    unfold present in E. by rewrite E.
Qed.

(** The steps of the code. *)
Definition with_ram (s : vmstate) (m : mem) : vmstate := with_km s (set_ram (km s) m).

Lemma update_ok f s : update f s = Ok (tt, with_ram s (f (vram s))).
Proof. done. Qed.
Lemma store_pte_ok a v s : store_pte a v s = Ok (tt, with_ram s (store64 (vram s) a v)).
Proof. done. Qed.
Lemma clear_page_ok v s : clear_page v s = Ok (tt, with_ram s (memset (vram s) v 0 PGSIZE)).
Proof. done. Qed.
Lemma load_pte_ok a s : load_pte a s = Ok (load64 (vram s) a, s).
Proof. done. Qed.
Lemma alloc_page_ok s v k : kalloc (km s) = Ok (v, k) -> alloc_page s = Ok (v, with_km s k).
Proof. intros E. unfold alloc_page. by rewrite E. Qed.
Lemma free_page_ok end_ v s k : kfree end_ v (km s) = Ok k -> free_page end_ v s = Ok (tt, with_km s k).
Proof. intros E. unfold free_page. by rewrite E. Qed.

Lemma store64_u8 m a v : (forall b, is_u8 (m b)) -> forall b, is_u8 (store64 m a v b).
Proof. apply store_le_u8. Qed.

Section Spaces.
Context (end_ : Z).

Lemma kmem_write k m' l free : kmem_inv end_ k free -> only_pages l (ram k) m' ->
  Forall (page end_) l -> (forall t, t ∈ l -> t ∉ free) -> kmem_inv end_ (set_ram k m') free.
Proof.
  intros [Hc Hn Hp] Ho Hl Hd. split; [|done..]. cbn.
  apply (chain_ext end_ (ram k)); [done| |done]. intros v a Hv Ha. apply Ho.
  apply (apart_page end_ v l a); try done.
  - by eapply Forall_forall in Hp.
  - intros Hin. by apply (Hd v).
Qed.

Lemma grown_good n m m' p new : good end_ n m p -> grown n m m' p new ->
  Forall (page end_) new -> NoDup new -> (forall t, t ∈ new -> t ∉ pages n m p) -> good end_ n m' p.
Proof.
  intros [Hnd Hpg] [P _ _ _] Hnp Hnn Hd. split; rewrite P; [|by apply Forall_app].
  apply NoDup_app. split; [done|]. split; [|done]. intros t Ht. by apply Hd.
Qed.

(** Taking a page for a table. *)
Lemma walk_level_alloc s n p i c free : (0 < n)%nat -> (S n <= 4)%nat -> good end_ (S n) (vram s) p ->
  i ∈ idxs (S n) -> present (entry (vram s) p i) = false ->
  kmem_inv end_ (km s) (c :: free) -> (forall t, t ∈ pages (S n) (vram s) p -> t ∉ c :: free) ->
  exists s', walk_level p i true s = Ok (Some c, s') /\ s' = with_km s (km s')
  /\ kmem_inv end_ (km s') free /\ grown (S n) (vram s) (vram s') p [c]
  /\ entry (vram s') p i = table_entry c /\ page end_ c /\ c ∉ free.
Proof.
  intros Hn0 Hn Hg Hi Hp Hk Hd. destruct (kalloc_spec end_ (km s) c free Hk) as (k1 & E & Hk1 & Er & Hc & Hcf).
  assert (c ∉ pages (S n) (vram s) p) as Hcn by (intros Hin; apply (Hd c Hin); left).
  destruct (grow_table end_ n (vram s) p i c) as [Hgr He]; try done.
  set (m' := store64 (memset (vram s) c 0 PGSIZE) (p + 8 * i) (table_entry c)) in *.
  exists (with_km s (set_ram k1 m')). split; [|split; [done|split; [|done]]].
  - unfold walk_level. rewrite (bind_ok _ _ _ _ _ (load_pte_ok _ _)). fold (entry (vram s) p i).
    unfold present in Hp. rewrite Hp. cbn [negb]. rewrite (bind_ok _ _ _ _ _ (alloc_page_ok s c k1 E)).
    replace (c =? 0) with false by (apply page_range in Hc; lia).
    rewrite (bind_ok _ _ _ _ _ (clear_page_ok _ _)), (bind_ok _ _ _ _ _ (store_pte_ok _ _ _)).
    unfold m', vram. by rewrite <- Er.
  - apply (kmem_write k1 m' (tables (S n) (vram s) p ++ [c])); [done|rewrite Er; apply Hgr| |].
    + apply Forall_app. split; [|by apply Forall_singleton]. rewrite Forall_forall. intros t Ht%tables_pages.
      pose proof (gd_page _ _ _ _ Hg) as H. rewrite Forall_forall in H. by apply H.
    + intros t. rewrite elem_of_app. intros [Ht%tables_pages| ->%list_elem_of_singleton]; [|done].
      intros Hf. apply (Hd t Ht). by right.
Qed.

(** A tree of level [n] at [p] and a free list apart from it. *)
Record tree (n : nat) (s : vmstate) (p : Z) (free : list Z) : Prop := {
  tr_good : good end_ n (vram s) p;
  tr_free : kmem_inv end_ (km s) free;
  tr_apart : forall t, t ∈ pages n (vram s) p -> t ∉ free }.

(** What an allocating walk gives. *)
Definition walked (n : nat) (s s' : vmstate) (p va a : Z) (new free' : list Z) : Prop :=
  s' = with_km s (km s') /\ grown n (vram s) (vram s') p new
  /\ pte_at n (vram s') p va = Some a /\ tree n s' p free'.

Lemma grown_tree n s s' p new free : tree n s p (new ++ free) -> grown n (vram s) (vram s') p new ->
  kmem_inv end_ (km s') free -> tree n s' p free.
Proof.
  intros [Hg Hk Hd] Hgr Hk'. pose proof (ki_nodup _ _ _ Hk) as Hnd. pose proof (ki_page _ _ _ Hk) as Hpg.
  apply NoDup_app in Hnd as (Hnn & Hnf & _). apply Forall_app in Hpg as [Hpn _]. split; [|done|].
  - apply (grown_good n (vram s) (vram s') p new); try done.
    intros t Ht Hin. apply (Hd t Hin). apply elem_of_app. by left.
  - intros t. rewrite (gw_pages _ _ _ _ _ Hgr), elem_of_app. intros [Ht|Ht]; [by apply Hnf|].
    intros Hf. apply (Hd t Ht). apply elem_of_app. by right.
Qed.

Lemma walk_true n : forall p va s free, (0 < n <= 4)%nat -> user va -> tree n s p free ->
  (n <= S (length free))%nat ->
  exists a s' new free', walk n p va true s = Ok (Some a, s') /\ free = new ++ free'
  /\ (length new < n)%nat /\ walked n s s' p va a new free'.
Proof.
  induction n as [|n IH]; intros p va s free Hn Hva Ht Hlen; [lia|].
  destruct (decide (n = 0%nat)) as [->|Hn0].
  { exists (p + 8 * ix 1 va), s, [], free. split; [done|]. split; [done|]. split; [cbn; lia|].
    split; [by destruct s|]. split; [apply grown_refl|done]. }
  assert (ix (S n) va ∈ idxs (S n)) as Hi by (apply ix_in; [lia|done]).
  assert (forall s free, tree (S n) s p free -> (n <= S (length free))%nat ->
    present (entry (vram s) p (ix (S n) va)) = true ->
    exists a s' new free', walk n (child (entry (vram s) p (ix (S n) va))) va true s = Ok (Some a, s')
    /\ free = new ++ free' /\ (length new < n)%nat /\ walked (S n) s s' p va a new free') as Hstep.
  { clear s free Ht Hlen. intros s free Ht Hlen Ep. destruct Ht as [Hg Hk Hd].
    destruct (good_child end_ n (vram s) p _ Hg Hi Ep) as [Hgc _].
    set (c := child (entry (vram s) p (ix (S n) va))) in *.
    destruct (IH c va s free) as (a & s' & new & free' & E & Ef & Hl & Hs & Hgr & Hat & Ht'); try done; try lia.
    { split; try done. intros t Ht. apply Hd. by eapply sub_pages. }
    exists a, s', new, free'. split; [done|]. split; [done|]. split; [done|].
    assert (forall t, t ∈ new -> t ∉ pages (S n) (vram s) p) as Hnew.
    { intros t Ht Hin. apply (Hd t Hin). rewrite Ef. apply elem_of_app. by left. }
    assert (Forall (page end_) new) as Hnp.
    { pose proof (ki_page _ _ _ Hk) as Hpg. rewrite Ef in Hpg. by apply Forall_app in Hpg as [? _]. }
    assert (grown (S n) (vram s) (vram s') p new) as Hgr'.
    { apply (grown_lift end_ n (vram s) (vram s') p (ix (S n) va)); try done; lia. }
    split; [done|]. split; [done|]. split.
    - destruct (lift_pte end_ n (vram s) (vram s') p (ix (S n) va) new va) as [Heq _]; try done; try lia.
      { apply Hgr. }
      by rewrite (proj1 (Heq eq_refl)).
    - apply (grown_tree (S n) s s' p new); try done; [|apply Ht']. split; try done; by rewrite <- Ef. }
  rewrite walk_S by lia. destruct (present (entry (vram s) p (ix (S n) va))) eqn:Ep.
  - rewrite (bind_ok _ _ _ _ _ (walk_level_present s p _ true Ep)).
    destruct (Hstep s free Ht ltac:(lia) Ep) as (a & s' & new & free' & E & Ef & Hl & Hw).
    exists a, s', new, free'. split; [done|]. split; [done|]. split; [lia|done].
  - destruct free as [|c free]; [cbn in Hlen; lia|]. pose proof Ht as [Hg Hk Hd].
    destruct (walk_level_alloc s n p (ix (S n) va) c free) as (s1 & E1 & Hs1 & Hk1 & Hgr1 & He1 & Hc & _);
      try done; try lia.
    rewrite (bind_ok _ _ _ _ _ E1).
    assert (tree (S n) s1 p free) as Ht1 by (by apply (grown_tree (S n) s s1 p [c])).
    destruct (table_entry_ok end_ c Hc) as (_ & Hpc & Hcc).
    destruct (Hstep s1 free Ht1) as (a & s' & new & free' & E & Ef & Hl & Hs & Hgr & Hat & Ht').
    { cbn in Hlen. lia. } { by rewrite He1. }
    rewrite He1, Hcc in E. exists a, s', (c :: new), free'. split; [done|]. split; [by rewrite Ef|].
    split; [cbn; lia|]. split; [by rewrite Hs, Hs1|]. split; [by apply (grown_trans _ _ (vram s1) _ _ [c])|done].
Qed.

(** * One page *)

Lemma lor_flags f g : 0 <= f < 4096 -> 0 <= g < 4096 -> 0 <= Z.lor f g < 4096.
Proof.
  intros Hf Hg. replace (Z.lor f g) with (Z.lor f g mod 2 ^ 12); [apply Z.mod_pos_bound; lia|].
  rewrite <- Z.land_ones, Z.land_lor_distr_l, !Z.land_ones by lia. by rewrite !Z.mod_small by lia.
Qed.

Lemma present_lor f : present (Z.lor f PTE_P) = true.
Proof.
  unfold present. rewrite Z.land_lor_distr_l. change (Z.land PTE_P PTE_P) with 1.
  apply negb_true_iff, Z.eqb_neq. intros E. apply Z.lor_eq_0_iff in E. lia.
Qed.

Lemma round_page va : user va -> va mod 4096 = 0 ->
  PGROUNDDOWN va = va /\ PGROUNDDOWN (u64 (va + PGSIZE - 1)) = va.
Proof.
  unfold user, PGSIZE. intros Hu Hm. rewrite u64_id by lia. rewrite !PGROUNDDOWN_spec by lia.
  split; Z.div_mod_to_equations; lia.
Qed.

(** The entry for [va] in the tree of [root] in [s'] is [e]; every other entry and
    all memory outside the tables is as in [s]. *)
Record mapped (s s' : vmstate) (root va e : Z) (new : list Z) : Prop := {
  mp_state : s' = with_km s (km s');
  mp_pte : forall va', user va' ->
    pte 4 (vram s') root va' = if va' / 4096 =? va / 4096 then e else pte 4 (vram s) root va';
  mp_only : only_pages (tables 4 (vram s) root ++ new) (vram s) (vram s') }.

(** Storing an entry in an address space. *)
Lemma store_tree s root va a v free l1 l2 :
  tree 4 s root free -> user va -> pte_at 4 (vram s) root va = Some a -> 0 <= v < 2 ^ 64 ->
  leaf (pte 4 (vram s) root va) = l1 -> leaf v = l2 -> Forall (page end_) l2 ->
  NoDup l2 -> (forall t, t ∈ l2 -> t ∉ pages 4 (vram s) root /\ t ∉ free) ->
  let s' := with_ram s (store64 (vram s) a v) in
  tree 4 s' root free /\ mapped s s' root va v []
  /\ l1 ++ pages 4 (vram s') root ≡ₚ l2 ++ pages 4 (vram s) root.
Proof.
  intros [Hg Hk Hd] Hva Ha Hv <- <- Hpg Hnd2 Hnew s'.
  destruct (set_pte end_ 4 (vram s) root va a v) as [P1 P2 P3 P4 P5]; try done.
  assert (vram s' = store64 (vram s) a v) as Em by done. rewrite <- Em in *.
  assert (NoDup (leaf (pte 4 (vram s) root va) ++ pages 4 (vram s') root)) as Hnd.
  { rewrite P2. apply NoDup_app. split; [done|]. split; [|apply Hg]. intros t Ht. by apply Hnew. }
  assert (forall t, t ∈ pages 4 (vram s') root -> t ∈ leaf v ++ pages 4 (vram s) root) as Hsub.
  { intros t Ht. rewrite <- P2. apply elem_of_app. by right. }
  assert (Forall (page end_) (leaf v ++ pages 4 (vram s) root)) as Hall
    by (apply Forall_app; split; [done|apply Hg]).
  split; [|split; [|done]].
  - split.
    + split; [by apply NoDup_app in Hnd as (_ & _ & ?)|]. rewrite Forall_forall in Hall |- *. auto.
    + apply (kmem_write (km s) _ (tables 4 (vram s) root)); [done|exact P3| |].
      * rewrite Forall_forall. intros t Ht%tables_pages. pose proof (gd_page _ _ _ _ Hg) as H.
        rewrite Forall_forall in H. by apply H.
      * intros t Ht%tables_pages. by apply Hd.
    + intros t [Ht|Ht]%Hsub%elem_of_app; [by apply Hnew|by apply Hd].
  - split; [by destruct s|..].
    + intros va' Hva'. rewrite P5, same_ix_user by done. by rewrite Z.eqb_sym.
    + by rewrite app_nil_r.
Qed.

Lemma mapped_grown s s1 s' root va e new : s1 = with_km s (km s1) ->
  grown 4 (vram s) (vram s1) root new -> mapped s1 s' root va e [] -> mapped s s' root va e new.
Proof.
  intros Hs [P T O E] [S2 P2 O2]. split.
  - by rewrite S2, Hs.
  - intros va' Hva'. rewrite P2 by done. destruct (_ =? _); [done|by apply E].
  - apply (only_pages_trans _ _ (vram s1)); [done|]. eapply only_pages_mono; [|exact O2].
    intros t. rewrite app_nil_r, T, !elem_of_app. tauto.
Qed.

(** [mappages] of one page. *)
Lemma map_page s root va v perm free :
  tree 4 s root free -> user va -> va mod 4096 = 0 -> present (pte 4 (vram s) root va) = false ->
  page end_ v -> v ∉ pages 4 (vram s) root -> v ∉ free -> 0 <= perm < 4096 -> (3 <= length free)%nat ->
  exists s' new free', mappages root va PGSIZE (V2P v) perm s = Ok (0, s') /\ free = new ++ free'
  /\ (length new <= 3)%nat /\ tree 4 s' root free'
  /\ mapped s s' root va (V2P v + Z.lor perm PTE_P) new
  /\ pages 4 (vram s') root ≡ₚ v :: new ++ pages 4 (vram s) root.
Proof.
  intros Ht Hva Hm Hnp Hv Hvt Hvf Hperm Hlen. destruct (round_page va Hva Hm) as [E1 E2].
  destruct (walk_true 4 root va s free) as (a & s1 & new & free' & Ew & Ef & Hl & Hs1 & Hgr & Hat & Ht1);
    [lia|done|done|lia|].
  assert (0 <= Z.lor perm PTE_P < 4096) as Hf by (apply lor_flags; [done|unfold PTE_P; lia]).
  destruct (mk_entry end_ v (Z.lor perm PTE_P) Hv Hf) as (Elor & Hr & Hch & _ & _ & Hpr).
  rewrite present_lor in Hpr.
  assert (pte 4 (vram s1) root va = pte 4 (vram s) root va) as Epte by (by apply Hgr).
  destruct (store_tree s1 root va a (V2P v + Z.lor perm PTE_P) free' [] [v]) as (Ht' & Hmp & Hpg); try done.
  { rewrite Epte. unfold leaf. by rewrite Hnp. }
  { unfold leaf. by rewrite Hpr, Hch. }
  { by apply Forall_singleton. }
  { apply NoDup_singleton. }
  { intros t ->%list_elem_of_singleton. rewrite (gw_pages _ _ _ _ _ Hgr). rewrite Ef, elem_of_app in Hvf.
    rewrite elem_of_app. tauto. }
  exists (with_ram s1 (store64 (vram s1) a (V2P v + Z.lor perm PTE_P))), new, free'.
  split; [|split; [done|split; [lia|split; [done|split; [by eapply mapped_grown|]]]]].
  - unfold mappages. cbn zeta. rewrite E1, E2.
    replace (Z.to_nat (u64 (va - va) / PGSIZE + 1)) with 1%nat by (by rewrite Z.sub_diag).
    cbn [mappages_loop]. rewrite walkpgdir_walk, (bind_ok _ _ _ _ _ Ew), (bind_ok _ _ _ _ _ (load_pte_ok _ _)).
    replace (load64 (vram s1) a) with (pte 4 (vram s1) root va) by (unfold pte; by rewrite Hat).
    rewrite Epte. unfold present in Hnp. rewrite Hnp. rewrite <- Z.lor_assoc, Elor.
    rewrite (bind_ok _ _ _ _ _ (store_pte_ok _ _ _)). by rewrite Z.eqb_refl.
  - rewrite Hpg, (gw_pages _ _ _ _ _ Hgr). done.
Qed.

(** * The user's view

    What a user address shows: the flags of its page and the byte there. *)
Definition uview (s : vmstate) (root va : Z) : option (Z * Z) :=
  let e := pte 4 (vram s) root va in
  if present e then Some (PTE_FLAGS e, vram s (child e + va mod 4096)) else None.

Lemma uview_none s root va : uview s root va = None -> present (pte 4 (vram s) root va) = false.
Proof. unfold uview. cbv zeta. destruct (present (pte 4 (vram s) root va)); [discriminate|done]. Qed.

Lemma in_page_off p va : in_page p (p + va mod 4096).
Proof. unfold in_page, PGSIZE. pose proof (Z.mod_pos_bound va 4096). lia. Qed.

(** Writes to pages that are no tables leave the tree alone. *)
Lemma tree_write n s p free l m' : tree n s p free -> only_pages l (vram s) m' -> Forall (page end_) l ->
  (forall t, t ∈ l -> t ∉ tables n (vram s) p /\ t ∉ free) ->
  tree n (with_ram s m') p free /\ pages n m' p = pages n (vram s) p
  /\ (forall va, (n <= 4)%nat -> user va -> pte n m' p va = pte n (vram s) p va).
Proof.
  intros [Hg Hk Hd] Ho Hl Hdis. pose proof (gd_page _ _ _ _ Hg) as Hpg. rewrite Forall_forall in Hpg.
  assert (agree (tables n (vram s) p) (vram s) m') as Hag.
  { apply (only_agree end_ _ l); try done.
    - rewrite Forall_forall. intros t Ht%tables_pages. by apply Hpg.
    - intros t Ht Hin. by apply (proj1 (Hdis t Hin)). }
  destruct (tree_local n (vram s) m' p Hag) as [E1 E2].
  split; [|split; [done|intros va Hn Hva; by apply pte_local]].
  split.
  - change (vram (with_ram s m')) with m'. destruct Hg. split; by rewrite E1.
  - apply (kmem_write (km s) m' l); try done. intros t Ht. by apply Hdis.
  - change (vram (with_ram s m')) with m'. by rewrite E1.
Qed.

(** A page of the address space is outside the tables and the free list. *)
Lemma leaf_apart s root free va : tree 4 s root free -> user va -> present (pte 4 (vram s) root va) = true ->
  page end_ (child (pte 4 (vram s) root va))
  /\ child (pte 4 (vram s) root va) ∉ tables 4 (vram s) root /\ child (pte 4 (vram s) root va) ∉ free.
Proof.
  intros [Hg _ Hd] Hva Hp. assert (child (pte 4 (vram s) root va) ∈ pages 4 (vram s) root) as Hin
    by (apply pte_page; [lia|done..]).
  split; [|split; [by apply (pte_no_table end_); [lia|..]|by apply Hd]].
  pose proof (gd_page _ _ _ _ Hg) as H. rewrite Forall_forall in H. by apply H.
Qed.

Lemma tables_page s root free : tree 4 s root free -> Forall (page end_) (tables 4 (vram s) root).
Proof.
  intros [Hg _ _]. rewrite Forall_forall. intros t Ht%tables_pages.
  pose proof (gd_page _ _ _ _ Hg) as H. rewrite Forall_forall in H. by apply H.
Qed.

(** The view after one entry has been stored. *)
Lemma uview_mapped s s' root va e new free va' : tree 4 s root (new ++ free) ->
  mapped s s' root va e new -> user va' ->
  uview s' root va' =
    if va' / 4096 =? va / 4096
    then if present e then Some (PTE_FLAGS e, vram s' (child e + va' mod 4096)) else None
    else uview s root va'.
Proof.
  intros Ht [_ P O] Hu. unfold uview. rewrite P by done. destruct (va' / 4096 =? va / 4096); [done|].
  destruct (present (pte 4 (vram s) root va')) eqn:E; [|done]. do 2 f_equal.
  destruct (leaf_apart s root _ va' Ht Hu E) as (Hpg & Hnt & Hnf). apply O.
  apply (apart_page end_ (child (pte 4 (vram s) root va'))); [done| | |apply in_page_off].
  - apply Forall_app. split; [by eapply tables_page|]. pose proof (ki_page _ _ _ (tr_free _ _ _ _ Ht)) as H.
    by apply Forall_app in H as [? _].
  - rewrite elem_of_app in Hnf |- *. tauto.
Qed.

(** A mapped page shows its contents. *)
Lemma map_page_view s root va v perm new free s' : tree 4 s root (new ++ free) -> page end_ v ->
  v ∉ pages 4 (vram s) root -> v ∉ new ++ free -> 0 <= perm < 4096 ->
  mapped s s' root va (V2P v + Z.lor perm PTE_P) new ->
  forall va', user va' -> uview s' root va' =
    if va' / 4096 =? va / 4096 then Some (Z.lor perm PTE_P, vram s (v + va' mod 4096))
    else uview s root va'.
Proof.
  intros Ht Hv Hvt Hvf Hperm Hm va' Hu. rewrite (uview_mapped s s' root va _ new free va') by done.
  destruct (va' / 4096 =? va / 4096); [|done].
  destruct (mk_entry end_ v (Z.lor perm PTE_P) Hv) as (_ & _ & Hch & Hfl & _ & Hpr);
    [apply lor_flags; [done|unfold PTE_P; lia]|].
  rewrite Hpr, present_lor, Hfl, Hch. do 2 f_equal. apply Hm.
  apply (apart_page end_ v); [done| | |apply in_page_off].
  - apply Forall_app. split; [by eapply tables_page|]. pose proof (ki_page _ _ _ (tr_free _ _ _ _ Ht)) as H.
    by apply Forall_app in H as [? _].
  - rewrite elem_of_app in Hvf |- *. intros [Hin%tables_pages|Hin]; tauto.
Qed.
End Spaces.
