(* ===== verification/VmUser.v ===== *)
(** User address spaces of src/vm.c: what [allocuvm], [deallocuvm], [copyuvm],
    [freevm] and [copyout] do to the user's view of memory, and where the pages
    go. *)
From stdpp Require Import base strings numbers list.
From S2P Require Import Prelude CString Locks Kalloc Vm VmTree VmSpace.
Local Open Scope Z_scope.

#[local] Opaque pages tables pte_at load64 store64.

Section User.
Context (end_ : Z).

(** Changes in other pages leave an address space as it is. *)
Lemma space_frame s s' root l : good end_ 4 (vram s) root -> only_pages l (vram s) (vram s') ->
  Forall (page end_) l -> (forall t, t ∈ pages 4 (vram s) root -> t ∉ l) ->
  pages 4 (vram s') root = pages 4 (vram s) root /\ good end_ 4 (vram s') root
  /\ forall va, user va -> uview s' root va = uview s root va.
Proof.
  intros Hg Ho Hl Hd. pose proof (gd_page _ _ _ _ Hg) as Hpg.
  assert (agree (pages 4 (vram s) root) (vram s) (vram s')) as Hag by (by apply (only_agree end_ _ l)).
  assert (agree (tables 4 (vram s) root) (vram s) (vram s')) as Hat.
  { intros t a Ht. apply Hag. by apply tables_pages. }
  destruct (tree_local 4 _ _ root Hat) as [E _]. split; [done|]. split; [destruct Hg; split; by rewrite E|].
  intros va Hva. unfold uview. rewrite (pte_local 4 (vram s)) by (lia || done).
  destruct (present _) eqn:Ep; [|done]. do 2 f_equal. apply (Hag (child (pte 4 (vram s) root va))).
  - by apply pte_page; [lia|..].
  - apply in_page_off.
Qed.

(** [s'] differs from [s] in the memory and the free list. *)
Definition same_regs (s s' : vmstate) : Prop := s' = with_km s (km s').

Lemma same_regs_trans s s1 s' : same_regs s s1 -> same_regs s1 s' -> same_regs s s'.
Proof. unfold same_regs. intros H1 H2. by rewrite H2, H1. Qed.

(** A page taken from the free list, filled and mapped. *)
Lemma fill_map s root va v free m' perm :
  tree end_ 4 s root (v :: free) -> user va -> va mod 4096 = 0 -> uview s root va = None ->
  0 <= perm < 4096 -> (3 <= length free)%nat -> only_pages [v] (vram s) m' ->
  exists s1 s' taken free',
    alloc_page s = Ok (v, s1) /\ v <> 0 /\ vram s1 = vram s
  /\ mappages root va PGSIZE (V2P v) perm (with_ram s1 m') = Ok (0, s')
  /\ free = taken ++ free' /\ (length taken <= 3)%nat /\ tree end_ 4 s' root free' /\ same_regs s s'
  /\ pages 4 (vram s') root ≡ₚ (v :: taken) ++ pages 4 (vram s) root
  /\ only_pages (tables 4 (vram s) root ++ v :: taken) (vram s) (vram s')
  /\ forall va', user va' -> uview s' root va' =
       if va' / 4096 =? va / 4096 then Some (Z.lor perm PTE_P, m' (v + va' mod 4096))
       else uview s root va'.
Proof.
  intros Ht Hva Hm Hnone Hperm Hlen Ho. destruct Ht as [Hg Hk Hd].
  destruct (kalloc_spec end_ (km s) v free Hk) as (k1 & E1 & Hk1 & Er & Hv & Hvf).
  set (s1 := with_km s k1). assert (vram s1 = vram s) as Em by exact Er.
  assert (v ∉ pages 4 (vram s) root) as Hvt by (intros Hin; apply (Hd v Hin); left).
  assert (tree end_ 4 s1 root free) as Ht1.
  { split; rewrite ?Em; try done. intros t Ht Hf. apply (Hd t Ht). by right. }
  destruct (tree_write end_ 4 s1 root free [v] m' Ht1) as (Ht2 & Epg & Epte); [by rewrite Em|by apply Forall_singleton| |].
  { intros t ->%list_elem_of_singleton. split; [|done]. rewrite Em. by intros ?%tables_pages. }
  set (s2 := with_ram s1 m') in *. assert (vram s2 = m') as Em2 by done. rewrite Em in Epg, Epte.
  assert (present (pte 4 m' root va) = false) as Hnp.
  { rewrite Epte by (done || lia). by apply uview_none. }
  destruct (map_page end_ s2 root va v perm free) as (s' & taken & free' & E2 & Ef & Hl & Ht' & Hmp & Hpg); try done.
  { by rewrite Em2, Epg. }
  exists s1, s', taken, free'. split; [by apply alloc_page_ok|]. split; [apply page_range in Hv; lia|].
  do 2 (split; [done|]). do 3 (split; [done|]). split; [by rewrite (mp_state _ _ _ _ _ _ Hmp)|].
  split; [by rewrite Hpg, Em2, Epg|].
  assert (tables 4 m' root = tables 4 (vram s) root) as Et.
  { refine (proj2 (tree_local 4 (vram s) m' root _)).
    apply (only_agree end_ _ [v]); [|by apply Forall_singleton| |exact Ho].
    - rewrite <- Em. by eapply tables_page.
    - intros t Ht ->%list_elem_of_singleton. by apply Hvt, tables_pages. }
  split.
  - apply (only_pages_trans _ _ m').
    + apply (only_pages_mono [v]); [|done]. intros t ->%list_elem_of_singleton. rewrite elem_of_app. right. left.
    + eapply only_pages_mono; [|exact (mp_only _ _ _ _ _ _ Hmp)]. intros t. rewrite Em2, Et.
      rewrite !elem_of_app. intros [?|?]; [by left|right; by right].
  - intros va' Hu. rewrite Ef in *. rewrite (map_page_view end_ s2 root va v perm taken free' s') by (done || by rewrite Em2, Epg).
    rewrite Em2. destruct (va' / 4096 =? va / 4096); [done|].
    unfold uview. rewrite Em2, Epte by (lia || done). cbv zeta.
    destruct (present (pte 4 (vram s) root va')) eqn:Ep; [|done]. do 2 f_equal. apply Ho.
    intros t ->%list_elem_of_singleton. apply (page_disjoint end_ v (child (pte 4 (vram s) root va'))); try done.
    + destruct (leaf_apart end_ s1 root (taken ++ free') va' Ht1 Hu) as [H _]; by rewrite Em in *.
    + intros ->. apply Hvt. by apply pte_page; [lia|..].
    + apply in_page_off.
Qed.

(** * Growing *)

Definition rup (x : Z) : Z := (x + 4095) / 4096 * 4096.

(** The tree has grown by the pages [taken] of the free list. *)
Record took (s s' : vmstate) (root : Z) (taken free' : list Z) : Prop := {
  tk_tree : tree end_ 4 s' root free';
  tk_regs : same_regs s s';
  tk_pages : pages 4 (vram s') root ≡ₚ taken ++ pages 4 (vram s) root;
  tk_only : only_pages (pages 4 (vram s) root ++ taken) (vram s) (vram s') }.

Lemma took_refl s root free : tree end_ 4 s root free -> took s s root [] free.
Proof. intros Ht. split; [done|by destruct s|done|done]. Qed.

Lemma took_trans s s1 s2 root t1 t2 f1 f2 :
  took s s1 root t1 f1 -> took s1 s2 root t2 f2 -> took s s2 root (t1 ++ t2) f2.
Proof.
  intros [_ R1 P1 O1] [T2 R2 P2 O2]. split.
  - done.
  - by eapply same_regs_trans.
  - rewrite P2, P1, !app_assoc. by rewrite (Permutation_app_comm t1).
  - apply (only_pages_trans _ _ (vram s1)).
    + eapply only_pages_mono; [|exact O1]. intros t. rewrite !elem_of_app. intros [?|?]; [by left|right; by left].
    + eapply only_pages_mono; [|exact O2]. intros t. rewrite P1, !elem_of_app.
      intros [[?|?]|?]; [right; by left|by left|right; by right].
Qed.

Lemma memset_only m v c : only_pages [v] m (memset m v c PGSIZE).
Proof. intros a Ha. apply memset_other; [unfold PGSIZE; lia|]. apply (Ha v). left. Qed.

Lemma alloc_loop_spec root oldsz newsz fuel : forall s a free,
  tree end_ 4 s root free -> 0 <= a -> a mod 4096 = 0 -> newsz < 2 ^ 47 - 4096 ->
  newsz - a <= Z.of_nat fuel * 4096 -> (forall va, a <= va < rup newsz -> uview s root va = None) ->
  (4 * Z.to_nat ((newsz - a + 4095) / 4096) <= length free)%nat ->
  exists s' taken free', alloc_loop fuel end_ root oldsz newsz a s = Ok (newsz, s')
  /\ free = taken ++ free' /\ (length taken <= 4 * Z.to_nat ((newsz - a + 4095) / 4096))%nat
  /\ took s s' root taken free'
  /\ forall va, user va -> uview s' root va =
       if (a <=? va) && (va <? rup newsz) then Some (7, 0) else uview s root va.
Proof.
  unfold rup. induction fuel as [|fuel IH]; intros s a free Ht Ha Hal Hnew Hfuel Hnone Hlen;
    cbn [alloc_loop]; destruct (Z.ltb_spec a newsz) as [Hlt|Hge].
  1: lia.
  1, 3: exists s, [], free; split; [done|]; split; [done|]; split; [cbn; lia|]; split; [by apply took_refl|]; intros va Hu;
    (replace (_ && _) with false; [done|]); symmetry; apply andb_false_iff; Z.div_mod_to_equations; lia.
  destruct free as [|v free]; [cbn in Hlen; Z.div_mod_to_equations; lia|].
  destruct (fill_map s root a v free (memset (vram s) v 0 PGSIZE) (Z.lor PTE_W PTE_U))
    as (s1 & s2 & taken & free' & E1 & Hv & Em & E2 & Ef & Hl & Ht2 & Hr & Hp & Ho & Hu2); try done.
  { unfold user. lia. }
  { apply Hnone. Z.div_mod_to_equations. lia. }
  { cbn in Hlen. Z.div_mod_to_equations. lia. }
  { apply memset_only. }
  rewrite (bind_ok _ _ _ _ _ E1). rewrite (proj2 (Z.eqb_neq v 0)) by done.
  rewrite (bind_ok _ _ _ _ _ (clear_page_ok _ _)), Em, (bind_ok _ _ _ _ _ E2). cbn [Z.ltb Z.compare].
  assert (u64 (a + PGSIZE) = a + 4096) as -> by (unfold PGSIZE; apply u64_id; lia).
  assert (took s s2 root (v :: taken) free') as Tk.
  { split; [exact Ht2|exact Hr|exact Hp|]. eapply only_pages_mono; [|exact Ho]. intros t. rewrite !elem_of_app.
    intros [?%tables_pages|?]; [by left|by right]. }
  destruct (IH s2 (a + 4096) free') as (s' & taken' & free'' & E3 & Ef' & Hl' & Tk' & Hu'); try done; try lia.
  { Z.div_mod_to_equations. lia. }
  { intros va Hva. rewrite Hu2 by (unfold user; Z.div_mod_to_equations; lia).
    rewrite (proj2 (Z.eqb_neq _ _)) by (Z.div_mod_to_equations; lia). apply Hnone. lia. }
  { rewrite Ef in Hlen. cbn in Hlen. rewrite length_app in Hlen. Z.div_mod_to_equations. lia. }
  exists s', ((v :: taken) ++ taken'), free''. split; [done|]. split; [by rewrite Ef, Ef', app_assoc|].
  split; [rewrite length_app; cbn [length]; Z.div_mod_to_equations; lia|].
  split; [by eapply took_trans|]. intros va Hva. rewrite Hu', Hu2 by done. set (r := (newsz + 4095) / 4096 * 4096).
  assert (a + 4096 <= r) as Hr' by (subst r; Z.div_mod_to_equations; lia).
  destruct (Z.eqb_spec (va / 4096) (a / 4096)) as [E|E].
  - assert (a <= va < a + 4096) as Hin by (Z.div_mod_to_equations; lia).
    replace (_ && _) with false by lia. replace (_ && _) with true by lia.
    do 2 f_equal. rewrite memset_spec by (unfold PGSIZE; lia). pose proof (Z.mod_pos_bound va 4096).
    by replace (_ && _) with true by (unfold PGSIZE; lia).
  - replace ((a + 4096 <=? va) && (va <? r)) with ((a <=? va) && (va <? r)); [done|].
    destruct (Z.leb_spec (a + 4096) va), (Z.leb_spec a va); (done || lia || (exfalso; apply E; Z.div_mod_to_equations; lia)).
Qed.

(** [allocuvm] on every branch. *)
Lemma allocuvm_spec s root oldsz newsz free :
  tree end_ 4 s root free -> 0 <= oldsz <= newsz -> newsz < 2 ^ 47 - 4096 ->
  (forall va, rup oldsz <= va < rup newsz -> uview s root va = None) ->
  (4 * Z.to_nat ((rup newsz - rup oldsz) / 4096) <= length free)%nat ->
  exists s' taken free', allocuvm end_ root oldsz newsz s = Ok (newsz, s')
  /\ free = taken ++ free' /\ (length taken <= 4 * Z.to_nat ((rup newsz - rup oldsz) / 4096))%nat
  /\ took s s' root taken free'
  /\ forall va, user va -> uview s' root va =
       if (rup oldsz <=? va) && (va <? rup newsz) then Some (7, 0) else uview s root va.
Proof.
  intros Ht Hsz Hnew Hnone Hlen. unfold allocuvm.
  rewrite (proj2 (Z.leb_gt KERNBASE newsz)) by (unfold KERNBASE; lia). rewrite (proj2 (Z.ltb_ge newsz oldsz)) by lia.
  cbn zeta. rewrite PGROUNDUP_spec by (unfold PGSIZE; lia). change (PGSIZE - 1) with 4095. change PGSIZE with 4096.
  fold (rup oldsz).
  assert ((newsz - rup oldsz + 4095) / 4096 <= (rup newsz - rup oldsz) / 4096) as Hk
    by (unfold rup; Z.div_mod_to_equations; lia).
  destruct (alloc_loop_spec root oldsz newsz (Z.to_nat ((newsz - rup oldsz) / 4096 + 1)) s (rup oldsz) free)
    as (s' & taken & free' & E & Ef & Hl & Tk & Hu); try assumption;
    [unfold rup; Z.div_mod_to_equations; lia..|lia|].
  exists s', taken, free'. split; [exact E|]. split; [exact Ef|]. split; [lia|]. split; [exact Tk|exact Hu].
Qed.

(** * Freeing *)

Fixpoint free_tree (n : nat) (p : Z) : M vmstate unit :=
  match n with
  | O => free_page end_ p
  | S n' => for_entries p (idxs n) (free_tree n') ;; free_page end_ p
  end.

Lemma freevm_tree root : root <> 0 -> freevm end_ root = free_tree 4 root.
Proof. intros H. unfold freevm. rewrite (proj2 (Z.eqb_neq root 0)) by done.
  unfold free_tree, idxs. cbn [Nat.eqb]. change (NPDENTRIES / 2) with 256. change NPDENTRIES with 512. done. Qed.

(** What the entries [ixs] of the table [p] own. *)
Definition subtrees (n : nat) (m : mem) (p : Z) (ixs : list Z) : list Z :=
  ixs ≫= fun i => if present (entry m p i) then pages n m (child (entry m p i)) else [].

(** The pages [l] have gone to the free list. *)
Definition freed (s s' : vmstate) (l free free' : list Z) : Prop :=
  same_regs s s' /\ kmem_inv end_ (km s') free' /\ free' ≡ₚ l ++ free
  /\ only_pages l (vram s) (vram s').

Lemma free_page_spec s v free : kmem_inv end_ (km s) free -> page end_ v -> v ∉ free ->
  exists s' , free_page end_ v s = Ok (tt, s') /\ freed s s' [v] free (v :: free).
Proof.
  intros Hk Hv Hn. destruct (kfree_spec end_ v (km s) free Hk Hv Hn) as (k' & E & Hk' & _ & Ho).
  exists (with_km s k'). split; [by apply free_page_ok|]. split; [done|]. split; [done|]. split; [done|].
  intros a Ha. apply Ho. apply (Ha v). left.
Qed.

Lemma freed_trans s s1 s2 l1 l2 f f1 f2 : freed s s1 l1 f f1 -> freed s1 s2 l2 f1 f2 -> freed s s2 (l1 ++ l2) f f2.
Proof.
  intros (R1 & _ & P1 & O1) (R2 & K2 & P2 & O2). split; [by eapply same_regs_trans|]. split; [done|]. split.
  - rewrite P2, P1, !app_assoc. by rewrite (Permutation_app_comm l1).
  - apply (only_pages_trans _ _ (vram s1)); [eapply only_pages_mono; [|exact O1]|eapply only_pages_mono; [|exact O2]];
      intros t; rewrite elem_of_app; tauto.
Qed.

(** One subtree after another; the table itself is not freed yet. *)
Lemma for_entries_free n p :
  (forall c s free, tree end_ n s c free ->
     exists s' free', free_tree n c s = Ok (tt, s') /\ freed s s' (pages n (vram s) c) free free') ->
  forall ixs s free, Forall (fun i => 0 <= i < 512) ixs -> page end_ p ->
  kmem_inv end_ (km s) free -> NoDup (subtrees n (vram s) p ixs) ->
  Forall (page end_) (subtrees n (vram s) p ixs) -> p ∉ subtrees n (vram s) p ixs ->
  (forall t, t ∈ subtrees n (vram s) p ixs -> t ∉ free) ->
  exists s' free', for_entries p ixs (free_tree n) s = Ok (tt, s')
  /\ freed s s' (subtrees n (vram s) p ixs) free free'.
Proof.
  intros IH. induction ixs as [|i ixs IHl]; intros s free Hr Hpp Hk Hnd Hpg Hp Hd.
  { exists s, free. split; [done|]. split; [by destruct s|done]. }
  apply Forall_cons in Hr as [Hi Hr]. unfold subtrees in *. cbn [mbind list_bind] in *.
  set (l1 := if present (entry (vram s) p i) then pages n (vram s) (child (entry (vram s) p i)) else []) in *.
  set (l2 := ixs ≫= _) in *. apply NoDup_app in Hnd as (Hn1 & Hn12 & Hn2). apply Forall_app in Hpg as [Hp1 Hp2].
  assert (p ∉ l1 /\ p ∉ l2) as [Hpl1 Hpl2] by (rewrite elem_of_app in Hp; tauto).
  assert (exists s1 free1, (if present (entry (vram s) p i) then free_tree n (child (entry (vram s) p i)) else mret tt) s
    = Ok (tt, s1) /\ freed s s1 l1 free free1) as (s1 & free1 & E1 & F1).
  { subst l1. destruct (present (entry (vram s) p i)) eqn:Ep; [|by exists s, free; split; [done|split; [by destruct s|done]]].
    apply IH. split; [by split|done|]. intros t Ht. apply Hd. apply elem_of_app. by left. }
  destruct F1 as (R1 & K1 & P1 & O1).
  assert (forall F, F ⊆ l2 -> agree F (vram s) (vram s1)) as Hag.
  { intros F HF. apply (only_agree end_ F l1); [|done| |exact O1].
    - rewrite Forall_forall in Hp2 |- *. intros t Ht. apply Hp2. by apply HF.
    - intros t Ht Hin. apply (Hn12 t Hin). by apply HF. }
  assert (forall j, 0 <= j < 512 -> entry (vram s1) p j = entry (vram s) p j) as He.
  { intros j Hj. apply entry_agree; [|done]. intros a Ha. apply O1. by apply (apart_page end_ p l1 a). }
  assert ((ixs ≫= fun j => if present (entry (vram s1) p j) then pages n (vram s1) (child (entry (vram s1) p j)) else [])
    = l2) as El2.
  { apply bind_ext. intros j Hj. rewrite He by (by rewrite Forall_forall in Hr; apply Hr).
    destruct (present (entry (vram s) p j)) eqn:Ej; [|done]. apply tree_local, Hag. intros t Ht%tables_pages.
    apply list_elem_of_bind. exists j. by rewrite Ej. }
  destruct (IHl s1 free1) as (s2 & free2 & E2 & F2); rewrite ?El2; try done.
  { intros t Ht. rewrite P1, elem_of_app. intros [Hin|Hin]; [by apply (Hn12 t)|].
    apply (Hd t); [|done]. apply elem_of_app. by right. }
  rewrite El2 in F2. exists s2, free2. split; [|by apply (freed_trans s s1 s2 l1 l2 free free1)].
  cbn [for_entries]. rewrite (bind_ok _ _ _ _ _ (load_pte_ok _ _)). fold (entry (vram s) p i).
  change (negb (Z.land (entry (vram s) p i) PTE_P =? 0)) with (present (entry (vram s) p i)).
  by rewrite (bind_ok _ _ _ _ _ E1).
Qed.

Lemma free_tree_spec n : forall p s free, tree end_ n s p free ->
  exists s' free', free_tree n p s = Ok (tt, s') /\ freed s s' (pages n (vram s) p) free free'.
Proof.
  induction n as [|n IH]; intros p s free [Hg Hk Hd].
  { rewrite pages_0 in *. destruct (free_page_spec s p free) as (s' & E & F); [done|by eapply good_root|apply Hd; left|].
    by exists s', (p :: free). }
  pose proof Hg as [Hnd Hpg]. rewrite pages_S in *. fold (subtrees n (vram s) p (idxs (S n))) in *.
  apply NoDup_cons in Hnd as [Hpn Hnd]. apply Forall_cons in Hpg as [Hpp Hpg].
  destruct (for_entries_free n p IH (idxs (S n)) s free) as (s1 & free1 & E1 & F1); try done.
  { rewrite Forall_forall. intros i. apply idxs_range. }
  { intros t Ht. apply Hd. by right. }
  destruct F1 as (R1 & K1 & P1 & O1).
  destruct (free_page_spec s1 p free1) as (s2 & E2 & F2); try done.
  { rewrite P1, elem_of_app. intros [?|?]; [done|]. apply (Hd p); [left|done]. }
  exists s2, (p :: free1). split.
  - cbn [free_tree]. by rewrite (bind_ok _ _ _ _ _ E1).
  - pose proof (freed_trans s s1 s2 _ [p] free free1 (p :: free1) (conj R1 (conj K1 (conj P1 O1))) F2) as (R & K & P & O).
    split; [done|]. split; [done|]. split; [by rewrite P, <- Permutation_cons_append|].
    eapply only_pages_mono; [|exact O]. intros t. rewrite elem_of_app, list_elem_of_singleton, elem_of_cons. tauto.
Qed.

(** * Shrinking *)

(** The pages [dropped] have left the address space for the free list. *)
Record gave (s s' : vmstate) (root : Z) (dropped free free' : list Z) : Prop := {
  gv_tree : tree end_ 4 s' root free';
  gv_regs : same_regs s s';
  gv_free : free' ≡ₚ dropped ++ free;
  gv_pages : pages 4 (vram s) root ≡ₚ dropped ++ pages 4 (vram s') root;
  gv_only : only_pages (pages 4 (vram s) root) (vram s) (vram s') }.

Lemma gave_refl s root free : tree end_ 4 s root free -> gave s s root [] free free.
Proof. intros Ht. split; [done|by destruct s|done|done|done]. Qed.

Lemma gave_trans s s1 s2 root d1 d2 f f1 f2 :
  gave s s1 root d1 f f1 -> gave s1 s2 root d2 f1 f2 -> gave s s2 root (d1 ++ d2) f f2.
Proof.
  intros [_ R1 F1 P1 O1] [T2 R2 F2 P2 O2]. split.
  - done.
  - by eapply same_regs_trans.
  - rewrite F2, F1, !app_assoc. by rewrite (Permutation_app_comm d1).
  - by rewrite P1, P2, app_assoc.
  - apply (only_pages_trans _ _ (vram s1)); [exact O1|]. eapply only_pages_mono; [|exact O2].
    intros t Ht. rewrite P1. apply elem_of_app. by right.
Qed.

(** Freeing the page of [va] and clearing its entry. *)
Lemma unmap_page s root va a free :
  tree end_ 4 s root free -> user va -> pte_at 4 (vram s) root va = Some a ->
  present (pte 4 (vram s) root va) = true ->
  exists s1 s', free_page end_ (child (pte 4 (vram s) root va)) s = Ok (tt, s1)
  /\ store_pte a 0 s1 = Ok (tt, s')
  /\ gave s s' root [child (pte 4 (vram s) root va)] free (child (pte 4 (vram s) root va) :: free)
  /\ forall va', user va' -> uview s' root va' = if va' / 4096 =? va / 4096 then None else uview s root va'.
Proof.
  intros Ht Hva Hat Hp. pose proof Ht as [Hg Hk Hd].
  destruct (leaf_apart end_ s root free va Ht Hva Hp) as (Hvp & Hvt & Hvf).
  set (v := child (pte 4 (vram s) root va)) in *.
  assert (v ∈ pages 4 (vram s) root) as Hvin by (by apply pte_page; [lia|..]).
  destruct (free_page_spec s v free Hk Hvp Hvf) as (s1 & E1 & R1 & K1 & _ & O1).
  assert (agree (tables 4 (vram s) root) (vram s) (vram s1)) as Hag.
  { apply (only_agree end_ _ [v]); [by eapply tables_page|by apply Forall_singleton| |exact O1].
    intros t Ht' ->%list_elem_of_singleton. done. }
  destruct (tree_local 4 _ _ root Hag) as [Epg Etb].
  assert (good end_ 4 (vram s1) root) as Hg1 by (destruct Hg; split; by rewrite Epg).
  assert (forall va', user va' -> pte 4 (vram s1) root va' = pte 4 (vram s) root va') as Epte
    by (intros va' Hu; apply pte_local; (done || lia)).
  assert (pte_at 4 (vram s1) root va = Some a) as Hat1 by (rewrite <- Hat; apply pte_at_local; (done || lia)).
  destruct (set_pte end_ 4 (vram s1) root va a 0) as [P1 P2 P3 P4 P5]; [lia|done|done|done|lia|].
  set (s' := with_ram s1 (store64 (vram s1) a 0)). assert (vram s' = store64 (vram s1) a 0) as Em by done.
  rewrite <- Em in *. rewrite Epte, Epg in P2 by done. unfold leaf in P2. rewrite Hp in P2. fold v in P2.
  change (present 0) with false in P2. cbn [app] in P2.
  assert (NoDup (v :: pages 4 (vram s') root)) as Hnd by (rewrite P2; apply Hg).
  assert (forall t, t ∈ pages 4 (vram s') root -> t ∈ pages 4 (vram s) root) as Hsub
    by (intros t Ht'; rewrite <- P2; by right).
  assert (only_pages (tables 4 (vram s) root ++ [v]) (vram s) (vram s')) as Ho.
  { apply (only_pages_trans _ _ (vram s1)); [eapply only_pages_mono; [|exact O1]|eapply only_pages_mono; [|exact P3]];
      intros t Ht'; rewrite ?Etb in Ht'; apply elem_of_app; [by right|by left]. }
  exists s1, s'. split; [done|]. split; [done|]. split; [split|].
  - split.
    + split; [by apply NoDup_cons in Hnd as [_ ?]|]. pose proof (gd_page _ _ _ _ Hg) as H.
      rewrite Forall_forall in H |- *. auto.
    + apply (kmem_write end_ (km s1) _ (tables 4 (vram s1) root)); [done|exact P3| |].
      * rewrite Etb. by eapply tables_page.
      * intros t. rewrite Etb. intros Ht' [->|Hin]%elem_of_cons; [done|]. apply (Hd t); [by apply tables_pages|done].
    + intros t Ht' [->|Hin]%elem_of_cons; [by apply NoDup_cons in Hnd as [? _]|]. by apply (Hd t); [apply Hsub|].
  - by apply (same_regs_trans s s1 s').
  - done.
  - by rewrite <- P2.
  - eapply only_pages_mono; [|exact Ho]. intros t. rewrite elem_of_app, list_elem_of_singleton.
    intros [?%tables_pages| ->]; done.
  - intros va' Hu. unfold uview. cbv zeta. rewrite P5, same_ix_user, Z.eqb_sym, Epte by done.
    destruct (Z.eqb_spec (va' / 4096) (va / 4096)) as [E|Hne]; [done|].
    destruct (present (pte 4 (vram s) root va')) eqn:Ep; [|done]. do 2 f_equal.
    destruct (leaf_apart end_ s root free va' Ht Hu Ep) as (Hwp & Hwt & _). apply Ho.
    apply (apart_page end_ (child (pte 4 (vram s) root va'))); [done| | |apply in_page_off].
    + apply Forall_app. split; [by eapply tables_page|by apply Forall_singleton].
    + rewrite elem_of_app, list_elem_of_singleton. intros [?|E]; [done|]. apply Hne.
      pose proof (pte_inj end_ 4 (vram s) root va' va ltac:(lia) Hu Hva Hg Ep Hp E) as Hs.
      rewrite same_ix_user in Hs by done. by apply Z.eqb_eq.
Qed.

Hypothesis kernel_there : KERNBASE < end_.

(** One turn of [deallocuvm]'s loop. *)
Lemma dealloc_one s root a free : tree end_ 4 s root free -> user a ->
  exists s' dropped free',
    match pte_at 4 (vram s) root a with
    | None => mret tt
    | Some pte =>
        e ← load_pte pte;
        if negb (Z.land e PTE_P =? 0) then
          let pa := PTE_ADDR e in
          if pa =? 0 then panic "kfree"
          else
            free_page end_ (P2V pa) ;;
            store_pte pte 0
        else mret tt
    end s = Ok (tt, s')
  /\ gave s s' root dropped free free'
  /\ forall va, user va -> uview s' root va = if va / 4096 =? a / 4096 then None else uview s root va.
Proof.
  intros Ht Hua. destruct (present (pte 4 (vram s) root a)) eqn:Ep.
  - destruct (pte_at 4 (vram s) root a) as [x|] eqn:Ex; [|unfold pte in Ep; by rewrite Ex in Ep].
    destruct (unmap_page s root a x free Ht Hua Ex Ep) as (s1 & s' & E1 & E2 & G & Hu).
    exists s', [child (pte 4 (vram s) root a)], (child (pte 4 (vram s) root a) :: free).
    split; [|done]. rewrite (bind_ok _ _ _ _ _ (load_pte_ok _ _)).
    assert (load64 (vram s) x = pte 4 (vram s) root a) as -> by (unfold pte; by rewrite Ex).
    unfold present in Ep. rewrite Ep. cbn zeta.
    destruct (Z.eqb_spec (PTE_ADDR (pte 4 (vram s) root a)) 0) as [E0|_]; [|by rewrite (bind_ok _ _ _ _ _ E1)].
    destruct (leaf_apart end_ s root free a Ht Hua) as ((_ & He & _) & _); [by unfold present|].
    unfold child in He. rewrite E0 in He. unfold P2V in He. rewrite u64_id in He by (unfold KERNBASE; lia). lia.
  - exists s, [], free. split; [|split; [by apply gave_refl|]].
    + destruct (pte_at 4 (vram s) root a) as [x|] eqn:Ex; [|done].
      rewrite (bind_ok _ _ _ _ _ (load_pte_ok _ _)).
      assert (load64 (vram s) x = pte 4 (vram s) root a) as -> by (unfold pte; by rewrite Ex).
      unfold present in Ep. by rewrite Ep.
    + intros va Hu. destruct (Z.eqb_spec (va / 4096) (a / 4096)) as [E|]; [|done]. unfold uview. cbv zeta.
      by rewrite (pte_same 4 (vram s) root va a), Ep by (done || lia).
Qed.

(** The loop of [deallocuvm]. *)
Lemma dealloc_loop_spec root oldsz fuel : forall s a free,
  tree end_ 4 s root free -> 0 <= a -> a mod 4096 = 0 -> oldsz < 2 ^ 47 - 4096 ->
  oldsz - a <= Z.of_nat fuel * 4096 ->
  exists s' dropped free', dealloc_loop fuel end_ root oldsz a s = Ok (tt, s')
  /\ gave s s' root dropped free free'
  /\ forall va, user va -> uview s' root va =
       if (a <=? va) && (va <? rup oldsz) then None else uview s root va.
Proof.
  unfold rup. induction fuel as [|fuel IH]; intros s a free Ht Ha Hal Hold Hfuel;
    cbn [dealloc_loop]; destruct (Z.ltb_spec a oldsz) as [Hlt|Hge].
  1: lia.
  1, 3: exists s, [], free; split; [done|]; split; [by apply gave_refl|]; intros va Hu;
    (replace (_ && _) with false; [done|]); symmetry; apply andb_false_iff; Z.div_mod_to_equations; lia.
  assert (user a) as Hua by (unfold user; lia).
  rewrite walkpgdir_walk, (bind_ok _ _ _ _ _ (walk_false 4 s root a ltac:(lia))).
  destruct (dealloc_one s root a free Ht Hua) as (s1 & d1 & f1 & E1 & G1 & Hu1).
  rewrite (bind_ok _ _ _ _ _ E1).
  assert (u64 (a + PGSIZE) = a + 4096) as -> by (unfold PGSIZE; apply u64_id; lia).
  destruct (IH s1 (a + 4096) f1) as (s' & d2 & f2 & E2 & G2 & Hu2); try lia; [apply G1|Z.div_mod_to_equations; lia|].
  exists s', (d1 ++ d2), f2. split; [done|]. split; [by eapply gave_trans|].
  intros va Hva. rewrite Hu2, Hu1 by done. set (r := (oldsz + 4095) / 4096 * 4096).
  assert (a + 4096 <= r) as Hr' by (subst r; Z.div_mod_to_equations; lia).
  destruct (Z.eqb_spec (va / 4096) (a / 4096)) as [E|E].
  - assert (a <= va < a + 4096) as Hin by (Z.div_mod_to_equations; lia).
    replace (_ && _) with false by lia. by replace (_ && _) with true by lia.
  - replace ((a + 4096 <=? va) && (va <? r)) with ((a <=? va) && (va <? r)); [done|].
    destruct (Z.leb_spec (a + 4096) va), (Z.leb_spec a va); (done || lia || (exfalso; apply E; Z.div_mod_to_equations; lia)).
Qed.

Lemma deallocuvm_spec s root oldsz newsz free :
  tree end_ 4 s root free -> 0 <= newsz < oldsz -> oldsz < 2 ^ 47 - 4096 ->
  exists s' dropped free', deallocuvm end_ root oldsz newsz s = Ok (newsz, s')
  /\ gave s s' root dropped free free'
  /\ forall va, user va -> uview s' root va =
       if (rup newsz <=? va) && (va <? rup oldsz) then None else uview s root va.
Proof.
  intros Ht Hsz Hold. unfold deallocuvm. rewrite (proj2 (Z.leb_gt oldsz newsz)) by lia.
  cbn zeta. rewrite PGROUNDUP_spec by (unfold PGSIZE; lia). change (PGSIZE - 1) with 4095. change PGSIZE with 4096.
  fold (rup newsz).
  destruct (dealloc_loop_spec root oldsz (Z.to_nat ((oldsz - rup newsz) / 4096 + 1)) s (rup newsz) free)
    as (s' & d & f & E & G & Hu); try done; try (unfold rup; Z.div_mod_to_equations; lia).
  exists s', d, f. by rewrite (bind_ok _ _ _ _ _ E).
Qed.

(** * A new address space *)

Lemma setupkvm_spec s d free : kmem_inv end_ (km s) (d :: free) ->
  exists s', setupkvm s = Ok (d, s') /\ same_regs s s' /\ tree end_ 4 s' d free
  /\ pages 4 (vram s') d = [d] /\ d <> 0 /\ only_pages [d] (vram s) (vram s')
  /\ forall va, user va -> uview s' d va = None.
Proof.
  intros Hk. destruct (kalloc_spec end_ (km s) d free Hk) as (k1 & E1 & Hk1 & Er & Hd & Hdf).
  set (s1 := with_km s k1). set (m1 := memset (vram s) d 0 PGSIZE).
  set (e := Z.lor (Z.lor (V2P (kpdpt s)) PTE_P) PTE_W).
  set (s' := with_ram s1 (store64 m1 (d + 8 * 256) e)).
  assert (only_pages [d] (vram s) (vram s')) as Ho.
  { apply (only_pages_trans _ _ m1); [apply memset_only|]. by apply store_only. }
  assert (forall i, i ∈ idxs 4 -> entry (vram s') d i = 0) as He.
  { intros i Hi. unfold idxs in Hi. apply elem_of_seqZ in Hi. cbn in Hi.
    assert (entry (vram s') d i = entry m1 d i) as ->.
    { apply entry_store_ne. lia. }
    apply zero_entry; [|lia]. intros a Ha. unfold m1. rewrite memset_spec by (unfold PGSIZE; lia).
    unfold in_page in Ha. by replace (_ && _) with true by lia. }
  destruct (empty_table 4 (vram s') d ltac:(lia) He) as (Ep & Et & Epte).
  exists s'. split; [|split; [done|split; [|split; [exact Ep|split; [apply page_range in Hd; lia|split; [exact Ho|]]]]]].
  - unfold setupkvm. rewrite (bind_ok _ _ _ _ _ (alloc_page_ok s d k1 E1)).
    rewrite (bind_ok _ _ _ _ _ (clear_page_ok _ _)), (bind_ok get _ _ _ _ eq_refl), (bind_ok _ _ _ _ _ (store_pte_ok _ _ _)).
    unfold s', m1, s1, vram. cbn [with_ram with_km km set_ram ram]. by rewrite Er.
  - split.
    + split; rewrite Ep; [apply NoDup_singleton|by apply Forall_singleton].
    + apply (kmem_write end_ k1 _ [d]); [done| |by apply Forall_singleton|by intros t ->%list_elem_of_singleton].
      rewrite Er. exact Ho.
    + intros t. rewrite Ep. by intros ->%list_elem_of_singleton.
  - intros va Hva. unfold uview. by rewrite Epte.
Qed.

(** * Bytes stay bytes *)

Definition bytes (s : vmstate) : Prop := forall a, is_u8 (vram s a).

Definition pres {A} (c : M vmstate A) : Prop := forall s r s', c s = Ok (r, s') -> bytes s -> bytes s'.

Lemma pres_ret {A} (a : A) : pres (mret a).
Proof. by intros s r s' [= _ <-]. Qed.

Lemma pres_bind {A B} (c : M vmstate A) (f : A -> M vmstate B) : pres c -> (forall a, pres (f a)) -> pres (c ≫= f).
Proof.
  intros Hc Hf s r s' E Hs. unfold mbind, M_bind in E. destruct (c s) as [[a s1]| | |] eqn:Ec; try done.
  by eapply Hf; [exact E|eapply Hc].
Qed.

Lemma pres_load a : pres (load_pte a).
Proof. by intros s r s' [= _ <-]. Qed.

Lemma pres_alloc : pres alloc_page.
Proof.
  intros s r s' E Hs. unfold alloc_page, kalloc in E. destruct (negb _); [|done]. by injection E as _ <-.
Qed.

Lemma pres_update f : (forall m, (forall a, is_u8 (m a)) -> forall a, is_u8 (f m a)) -> pres (update f).
Proof. intros Hf s r s' [= _ <-] Hs a. by apply Hf. Qed.

Lemma pres_store a v : pres (store_pte a v).
Proof. apply pres_update. intros m Hm. by apply store64_u8. Qed.

Lemma pres_clear v : pres (clear_page v).
Proof.
  apply pres_update. intros m Hm a. rewrite memset_spec by (unfold PGSIZE; lia).
  destruct (_ && _); [done|apply Hm].
Qed.

Hint Resolve pres_ret pres_load pres_alloc pres_store pres_clear : pres.

Lemma pres_walk_level p i alloc : pres (walk_level p i alloc).
Proof.
  unfold walk_level. apply pres_bind; [auto with pres|]. intros e. destruct (negb _); [auto with pres|].
  destruct (negb alloc); [auto with pres|]. apply pres_bind; [auto with pres|]. intros v.
  destruct (v =? 0); [auto with pres|]. apply pres_bind; [auto with pres|]. intros _.
  apply pres_bind; auto with pres.
Qed.

Lemma pres_walkpgdir p va alloc : pres (walkpgdir p va alloc).
Proof.
  unfold walkpgdir. do 3 (apply pres_bind; [apply pres_walk_level|]; intros [?|]; [|apply pres_ret]).
  apply pres_ret.
Qed.

Lemma pres_setupkvm : pres setupkvm.
Proof.
  unfold setupkvm. apply pres_bind; [apply pres_alloc|]. intros v. apply pres_bind; [apply pres_clear|]. intros _.
  apply pres_bind; [by intros s r s' [= _ <-]|]. intros s. apply pres_bind; [apply pres_store|]. intros _. apply pres_ret.
Qed.

Lemma pres_mappages p va size pa perm : pres (mappages p va size pa perm).
Proof.
  unfold mappages. cbn zeta. set (last := PGROUNDDOWN (u64 (va + size - 1))).
  generalize (Z.to_nat (u64 (last - PGROUNDDOWN va) / PGSIZE + 1)) as fuel.
  generalize (PGROUNDDOWN va) as a. intros a fuel. revert a pa.
  induction fuel as [|fuel IH]; intros a pa; [done|]. cbn [mappages_loop].
  apply pres_bind; [apply pres_walkpgdir|]. intros [x|]; [|apply pres_ret].
  apply pres_bind; [apply pres_load|]. intros e. destruct (negb _); [done|].
  apply pres_bind; [apply pres_store|]. intros _. destruct (a =? last); [apply pres_ret|apply IH].
Qed.

Lemma kfree_u8 v k k' : kfree end_ v k = Ok k' -> (forall a, is_u8 (ram k a)) -> forall a, is_u8 (ram k' a).
Proof.
  unfold kfree. destruct (_ || _); [done|]. intros [= <-] Hm. cbn [ram]. apply store64_u8. intros b.
  rewrite memset_spec by (unfold PGSIZE; lia). destruct (_ && _); [done|apply Hm].
Qed.

Lemma pres_free v : pres (free_page end_ v).
Proof.
  intros s r s' E Hs. unfold free_page in E. destruct (kfree end_ v (km s)) as [k| | |] eqn:Ek; try discriminate.
  injection E as _ <-. intros a. by apply (kfree_u8 v (km s) k).
Qed.

Lemma pres_deallocuvm p oldsz newsz : pres (deallocuvm end_ p oldsz newsz).
Proof.
  unfold deallocuvm. destruct (oldsz <=? newsz); [apply pres_ret|]. cbn zeta. apply pres_bind; [|intros _; apply pres_ret].
  generalize (Z.to_nat ((oldsz - PGROUNDUP newsz) / PGSIZE + 1)) as fuel. generalize (PGROUNDUP newsz) as a.
  intros a fuel. revert a. induction fuel as [|fuel IH]; intros a; cbn [dealloc_loop];
    (destruct (a <? oldsz); [|apply pres_ret]); [done|].
  apply pres_bind; [apply pres_walkpgdir|]. intros x. apply pres_bind; [|intros _; apply IH].
  destruct x as [x|]; [|apply pres_ret]. apply pres_bind; [apply pres_load|]. intros e.
  destruct (negb _); [|apply pres_ret]. cbn zeta. destruct (PTE_ADDR e =? 0); [done|].
  apply pres_bind; [apply pres_free|intros _; apply pres_store].
Qed.

Lemma pres_allocuvm p oldsz newsz : pres (allocuvm end_ p oldsz newsz).
Proof.
  unfold allocuvm. destruct (KERNBASE <=? newsz); [apply pres_ret|]. destruct (newsz <? oldsz); [apply pres_ret|].
  cbn zeta. generalize (Z.to_nat ((newsz - PGROUNDUP oldsz) / PGSIZE + 1)) as fuel. generalize (PGROUNDUP oldsz) as a.
  intros a fuel. revert a. induction fuel as [|fuel IH]; intros a; cbn [alloc_loop];
    (destruct (a <? newsz); [|apply pres_ret]); [done|].
  apply pres_bind; [apply pres_alloc|]. intros v. destruct (v =? 0).
  { apply pres_bind; [apply pres_deallocuvm|intros _; apply pres_ret]. }
  apply pres_bind; [apply pres_clear|]. intros _. apply pres_bind; [apply pres_mappages|]. intros r.
  destruct (r <? 0); [|apply IH]. apply pres_bind; [apply pres_deallocuvm|]. intros _.
  apply pres_bind; [apply pres_free|intros _; apply pres_ret].
Qed.

(** * Copying *)

Lemma memmove_only m v src : (forall a, is_u8 (m a)) -> only_pages [v] m (memmove m v src PGSIZE).
Proof.
  intros Hm a Ha. rewrite memmove_correct by (done || (unfold PGSIZE; lia)).
  specialize (Ha v ltac:(left)). unfold in_page in Ha. by replace (_ && _) with false by lia.
Qed.

(** The address space [root] keeps its pages and its view. *)
Definition kept (s s' : vmstate) (root : Z) : Prop :=
  pages 4 (vram s') root = pages 4 (vram s) root /\ good end_ 4 (vram s') root
  /\ forall va, user va -> uview s' root va = uview s root va.

Lemma flags_odd e : present e = true -> Z.lor (PTE_FLAGS e) PTE_P = PTE_FLAGS e.
Proof.
  rewrite present_odd. intros Ho. rewrite PTE_FLAGS_spec. set (f := e mod 4096).
  assert (Z.odd f = true) as Hf.
  { subst f. rewrite Z.mod_eq by lia. replace (e - 4096 * (e / 4096)) with (e + 2 * (- 2048 * (e / 4096))) by lia.
    by rewrite Z.odd_add_mul_2. }
  apply Z.bits_inj'. intros n Hn. rewrite Z.lor_spec. change PTE_P with (2 ^ 0). rewrite Z.pow2_bits_eqb by lia.
  destruct (Z.eqb_spec 0 n) as [<-|]; [|by rewrite orb_false_r]. by rewrite Z.bit0_odd, Hf.
Qed.

(** A page of the parent, copied into the child. *)
Lemma copy_page s root d i v free :
  tree end_ 4 s d (v :: free) -> good end_ 4 (vram s) root -> bytes s ->
  (forall t, t ∈ pages 4 (vram s) root -> t ∉ v :: free /\ t ∉ pages 4 (vram s) d) ->
  user i -> i mod 4096 = 0 -> uview s root i <> None -> uview s d i = None -> (3 <= length free)%nat ->
  let e := pte 4 (vram s) root i in
  exists x s1 s' taken free', pte_at 4 (vram s) root i = Some x /\ load64 (vram s) x = e
  /\ Z.land e PTE_P <> 0 /\ alloc_page s = Ok (v, s1) /\ v <> 0
  /\ mappages d i PGSIZE (V2P v) (PTE_FLAGS e)
       (with_ram s1 (memmove (vram s1) v (P2V (PTE_ADDR e)) PGSIZE)) = Ok (0, s')
  /\ free = taken ++ free' /\ (length taken <= 3)%nat /\ took s s' d (v :: taken) free' /\ bytes s'
  /\ kept s s' root
  /\ forall va, user va -> uview s' d va = if va / 4096 =? i / 4096 then uview s root va else uview s d va.
Proof.
  intros Ht Hg Hby Hdis Hui Hal Hin Hnone Hlen e.
  assert (present e = true) as Hp by (unfold uview in Hin; fold e in Hin; cbv zeta in Hin; by destruct (present e)).
  destruct (pte_at 4 (vram s) root i) as [x|] eqn:Ex; [|unfold e, pte in Hp; by rewrite Ex in Hp].
  assert (load64 (vram s) x = e) as Ee by (unfold e, pte; by rewrite Ex).
  set (m' := memmove (vram s) v (P2V (PTE_ADDR e)) PGSIZE).
  assert (0 <= PTE_FLAGS e < 4096) as Hfl by (rewrite PTE_FLAGS_spec; apply Z.mod_pos_bound; lia).
  assert (only_pages [v] (vram s) m') as Hov by (by apply memmove_only).
  destruct (fill_map s d i v free m' (PTE_FLAGS e))
    as (s1 & s' & taken & free' & E1 & Hv & Em & E2 & Ef & Hl & Ht' & Hr & Hpg & Ho & Hu); try assumption.
  exists x, s1, s', taken, free'. split; [done|]. split; [done|].
  split; [unfold present in Hp; by apply negb_true_iff, Z.eqb_neq in Hp|].
  split; [done|]. split; [done|]. rewrite Em. split; [done|]. split; [done|]. split; [done|].
  assert (Forall (page end_) (v :: free)) as Hpf by apply (ki_page _ _ _ (tr_free _ _ _ _ _ Ht)).
  split; [|split; [|split]].
  - split; [exact Ht'|exact Hr|exact Hpg|]. eapply only_pages_mono; [|exact Ho]. intros t. rewrite !elem_of_app.
    intros [?%tables_pages|?]; [by left|by right].
  - eapply pres_mappages; [exact E2|]. intros a. cbn. unfold m'.
    rewrite memmove_correct by (done || (unfold PGSIZE; lia)). destruct (_ && _); apply Hby.
  - apply (space_frame s s' root (tables 4 (vram s) d ++ v :: taken)); try done.
    + apply Forall_app. split; [by eapply tables_page|]. apply Forall_cons in Hpf as [Hv' Hpf].
      apply Forall_cons_2; [done|]. rewrite Ef in Hpf. by apply Forall_app in Hpf as [? _].
    + intros t Htr. destruct (Hdis t Htr) as [H1 H2]. rewrite elem_of_app. intros [?%tables_pages|Hin']; [done|].
      apply H1. rewrite Ef. apply elem_of_cons in Hin' as [->|?]; [left|right]. apply elem_of_app. by left.
  - intros va Hva. rewrite Hu by done. destruct (Z.eqb_spec (va / 4096) (i / 4096)) as [E|]; [|done].
    unfold uview. cbv zeta. rewrite (pte_same 4 (vram s) root va i) by (done || lia). fold e. rewrite Hp, flags_odd by done.
    do 2 f_equal. unfold m'. rewrite memmove_correct by (done || (unfold PGSIZE; lia)).
    pose proof (Z.mod_pos_bound va 4096 ltac:(lia)). replace (_ && _) with true by (unfold PGSIZE; lia).
    unfold child. f_equal. lia.
Qed.
End User.
