(* ===== verification/VmFork.v ===== *)
(** [copyuvm] and [freevm] of src/vm.c for [fork], and the claims about address
    spaces. *)
From stdpp Require Import base strings numbers list.
From S2P Require Import Prelude CString Locks Kalloc Vm VmTree VmSpace VmUser.
Local Open Scope Z_scope.

#[local] Opaque pages tables pte_at load64 store64.

Section Fork.
Context (end_ : Z).
Hypothesis kernel_there : KERNBASE < end_.

(** The pages of two address spaces and the free list are all different. *)
Definition separate (s : vmstate) (root d : Z) (free : list Z) : Prop :=
  forall t, t ∈ pages 4 (vram s) root -> t ∉ free /\ t ∉ pages 4 (vram s) d.

Lemma kept_trans s s1 s2 root : kept end_ s s1 root -> kept end_ s1 s2 root -> kept end_ s s2 root.
Proof.
  intros (P1 & _ & U1) (P2 & G2 & U2). split; [congruence|]. split; [done|].
  intros va Hva. by rewrite U2, U1.
Qed.

Lemma separate_took s s1 root d taken free : separate s root d (taken ++ free) -> kept end_ s s1 root ->
  took end_ s s1 d taken free -> separate s1 root d free.
Proof.
  intros Hs (P & _ & _) T t. rewrite P, (tk_pages _ _ _ _ _ _ T), elem_of_app. intros Ht.
  destruct (Hs t Ht) as [H1 H2]. rewrite elem_of_app in H1. split; [intros ?; apply H1; by right|].
  intros [?|?]; [apply H1; by left|done].
Qed.

Lemma copy_loop_spec root d sz fuel : forall s i free,
  tree end_ 4 s d free -> good end_ 4 (vram s) root -> bytes s -> separate s root d free ->
  0 <= i -> i mod 4096 = 0 -> sz < 2 ^ 32 -> sz - i <= Z.of_nat fuel * 4096 ->
  (forall va, i <= va < rup sz -> uview s root va <> None /\ uview s d va = None) ->
  (4 * Z.to_nat ((sz - i + 4095) / 4096) <= length free)%nat ->
  exists s' taken free', copy_loop fuel root d sz i s = Ok (Some tt, s') /\ free = taken ++ free'
  /\ took end_ s s' d taken free' /\ kept end_ s s' root /\ bytes s'
  /\ forall va, user va -> uview s' d va =
       if (i <=? va) && (va <? rup sz) then uview s root va else uview s d va.
Proof.
  unfold rup. induction fuel as [|fuel IH]; intros s i free Ht Hg Hby Hs Hi Hal Hsz Hfuel Hin Hlen;
    cbn [copy_loop]; destruct (Z.ltb_spec i sz) as [Hlt|Hge].
  1: lia.
  1, 3: exists s, [], free; split; [done|]; split; [done|]; split; [by apply took_refl|]; split; [done|]; split; [done|];
    intros va Hu; (replace (_ && _) with false; [done|]); symmetry; apply andb_false_iff; Z.div_mod_to_equations; lia.
  destruct free as [|v free]; [cbn in Hlen; Z.div_mod_to_equations; lia|].
  assert (i <= i < (sz + 4095) / 4096 * 4096) as Hii by (Z.div_mod_to_equations; lia).
  destruct (Hin i Hii) as [Hi1 Hi2]. assert (user i) as Hui by (unfold user; lia).
  destruct (copy_page end_ s root d i v free) as
    (x & s1 & s2 & taken & free' & Ex & Ee & Hp & E1 & Hv & E2 & Ef & Hl & T & Hby2 & K & Hu); try assumption.
  { cbn in Hlen. Z.div_mod_to_equations. lia. }
  rewrite walkpgdir_walk, (bind_ok _ _ _ _ _ (walk_false 4 s root i ltac:(lia))), Ex.
  rewrite (bind_ok _ _ _ _ _ (load_pte_ok _ _)), Ee, (proj2 (Z.eqb_neq _ _) Hp). cbn zeta.
  rewrite (bind_ok _ _ _ _ _ E1), (proj2 (Z.eqb_neq v 0) Hv).
  rewrite (bind_ok _ _ _ _ _ (update_ok _ _)), (bind_ok _ _ _ _ _ E2). cbn [Z.ltb Z.compare].
  assert (u64 (i + PGSIZE) = i + 4096) as -> by (unfold PGSIZE; apply u64_id; lia).
  assert (separate s2 root d free') as Hs2.
  { apply (separate_took s s2 root d (v :: taken)); [|done|done]. by rewrite <- app_comm_cons, <- Ef. }
  destruct (IH s2 (i + 4096) free') as (s' & taken' & free'' & E3 & Ef' & T' & K' & Hby' & Hu'); try assumption; try lia.
  { apply T. }
  { apply K. }
  { Z.div_mod_to_equations. lia. }
  { intros va Hva. assert (user va) as Huv by (unfold user; Z.div_mod_to_equations; lia).
    destruct (Hin va) as [H1 H2]; [lia|]. destruct K as (_ & _ & KU). rewrite KU, Hu by done.
    rewrite (proj2 (Z.eqb_neq _ _)) by (Z.div_mod_to_equations; lia). done. }
  { rewrite Ef in Hlen. cbn in Hlen. rewrite length_app in Hlen. Z.div_mod_to_equations. lia. }
  exists s', ((v :: taken) ++ taken'), free''. split; [done|]. split; [by rewrite Ef, Ef', app_assoc|].
  split; [by eapply took_trans|]. split; [by eapply kept_trans|]. split; [done|].
  intros va Hva. destruct K as (_ & _ & KU). rewrite Hu', Hu, KU by done. set (r := (sz + 4095) / 4096 * 4096).
  assert (i + 4096 <= r) as Hr' by (subst r; Z.div_mod_to_equations; lia).
  destruct (Z.eqb_spec (va / 4096) (i / 4096)) as [E|E].
  - assert (i <= va < i + 4096) as Hiv by (Z.div_mod_to_equations; lia).
    replace (_ && _) with false by lia. by replace (_ && _) with true by lia.
  - replace ((i + 4096 <=? va) && (va <? r)) with ((i <=? va) && (va <? r)); [done|].
    destruct (Z.leb_spec (i + 4096) va), (Z.leb_spec i va); (done || lia || (exfalso; apply E; Z.div_mod_to_equations; lia)).
Qed.

(** [copyuvm]. *)
Lemma copyuvm_spec s root sz d free :
  tree end_ 4 s root (d :: free) -> bytes s -> 0 <= sz < 2 ^ 32 ->
  (forall va, PGSIZE <= va < rup sz -> uview s root va <> None) ->
  (4 * Z.to_nat ((sz - 1) / 4096) <= length free)%nat ->
  exists s' taken free', copyuvm end_ root sz s = Ok (d, s') /\ free = taken ++ free'
  /\ tree end_ 4 s' d free' /\ same_regs s s' /\ kept end_ s s' root /\ bytes s' /\ separate s' root d free'
  /\ pages 4 (vram s') d ≡ₚ d :: taken
  /\ only_pages (d :: taken) (vram s) (vram s')
  /\ forall va, user va -> uview s' d va =
       if (PGSIZE <=? va) && (va <? rup sz) then uview s root va else None.
Proof.
  intros Ht Hby Hsz Hin Hlen. pose proof Ht as [Hg Hk Hd].
  destruct (setupkvm_spec end_ s d free Hk) as (s1 & E1 & R1 & T1 & P1 & Hd0 & O1 & U1).
  assert (page end_ d /\ d ∉ pages 4 (vram s) root) as [Hdp Hdn].
  { pose proof (ki_page _ _ _ Hk) as Hp. apply Forall_cons in Hp as [? _]. split; [done|]. intros Hin'. apply (Hd d Hin'). left. }
  assert (kept end_ s s1 root) as K1.
  { apply (space_frame end_ s s1 root [d]); [done|done|by apply Forall_singleton|].
    intros t Htr ->%list_elem_of_singleton. done. }
  assert (bytes s1) as Hby1.
  { eapply pres_setupkvm; [exact E1|done]. }
  assert (separate s1 root d free) as S1.
  { intros t. destruct K1 as (-> & _). intros Htr. rewrite P1, list_elem_of_singleton.
    split; [intros ?; apply (Hd t Htr); by right|by intros ->]. }
  unfold copyuvm. cbn zeta. rewrite u32_id by done. rewrite (bind_ok _ _ _ _ _ E1), (proj2 (Z.eqb_neq d 0) Hd0).
  destruct (copy_loop_spec root d sz (Z.to_nat (sz / PGSIZE + 1)) s1 PGSIZE free)
    as (s' & taken & free' & E2 & Ef & T2 & K2 & Hby2 & U2); try assumption; try (unfold PGSIZE; Z.div_mod_to_equations; lia).
  { apply K1. }
  { unfold PGSIZE in *. intros va Hva. assert (user va) as Hu by (unfold user, rup in *; Z.div_mod_to_equations; lia).
    destruct K1 as (_ & _ & KU). rewrite KU, U1 by done. split; [by apply Hin|done]. }
  exists s', taken, free'. rewrite (bind_ok _ _ _ _ _ E2). split; [done|]. split; [done|]. split; [apply T2|].
  split; [by eapply same_regs_trans, T2|]. split; [by eapply kept_trans|]. split; [done|].
  split; [eapply separate_took; [|exact K2|exact T2]; by rewrite <- Ef|].
  split; [by rewrite (tk_pages _ _ _ _ _ _ T2), P1, <- Permutation_cons_append|]. split.
  - apply (only_pages_trans _ _ (vram s1)).
    + eapply only_pages_mono; [|exact O1]. intros t ->%list_elem_of_singleton. left.
    + eapply only_pages_mono; [|apply (tk_only _ _ _ _ _ _ T2)]. intros t. by rewrite P1.
  - intros va Hva. rewrite U2 by done. destruct K1 as (_ & _ & KU). by rewrite KU, U1 by done.
Qed.

(** [freevm]. *)
Lemma freevm_spec s root free : tree end_ 4 s root free ->
  exists s' free', freevm end_ root s = Ok (tt, s') /\ freed end_ s s' (pages 4 (vram s) root) free free'.
Proof.
  intros Ht. rewrite freevm_tree; [by apply free_tree_spec|].
  pose proof (good_root _ _ _ _ (tr_good _ _ _ _ _ Ht)) as H. apply page_range in H. lia.
Qed.
End Fork.

(** * The claims *)

(** C12: [copyuvm] gives [fork] an independent copy: with memory enough, the child's
    address space shows the same bytes with the same flags as the parent's from the
    second page up to the size, and nothing else; the parent's is unchanged; no
    write to pages of the one shows in the other; and freeing the child gives
    exactly the pages back that the copy took. *)
Theorem copyuvm_copies_space end_ s root sz d free :
  KERNBASE < end_ -> tree end_ 4 s root (d :: free) -> bytes s -> 0 <= sz < 2 ^ 32 ->
  (forall va, PGSIZE <= va < rup sz -> uview s root va <> None) ->
  (4 * Z.to_nat ((sz - 1) / 4096) <= length free)%nat ->
  exists s', copyuvm end_ root sz s = Ok (d, s')
  /\ (forall va, user va -> uview s' root va = uview s root va)
  /\ (forall va, user va -> uview s' d va =
        if (PGSIZE <=? va) && (va <? rup sz) then uview s root va else None)
  /\ (forall m' va, user va -> only_pages (pages 4 (vram s') d) (vram s') m' ->
        uview (with_ram s' m') root va = uview s' root va)
  /\ (forall m' va, user va -> only_pages (pages 4 (vram s') root) (vram s') m' ->
        uview (with_ram s' m') d va = uview s' d va)
  /\ exists s2 free2, freevm end_ d s' = Ok (tt, s2) /\ kmem_inv end_ (km s2) free2
     /\ free2 ≡ₚ d :: free /\ (forall va, user va -> uview s2 root va = uview s root va).
Proof.
  intros Hend Ht Hby Hsz Hin Hlen.
  destruct (copyuvm_spec end_ s root sz d free Ht Hby Hsz Hin Hlen)
    as (s' & taken & free' & E & Ef & T & R & (KP & KG & KU) & Hby' & Hsep & P & O & U).
  pose proof (tr_good _ _ _ _ _ T) as Gd.
  exists s'. split; [exact E|]. split; [exact KU|]. split; [exact U|]. split; [|split].
  - intros m' va Hva Ho.
    destruct (space_frame end_ s' (with_ram s' m') root (pages 4 (vram s') d) KG Ho (gd_page _ _ _ _ Gd)) as (_ & _ & H);
      [|by apply H]. intros t Htr. exact (proj2 (Hsep t Htr)).
  - intros m' va Hva Ho.
    destruct (space_frame end_ s' (with_ram s' m') d (pages 4 (vram s') root) Gd Ho (gd_page _ _ _ _ KG)) as (_ & _ & H);
      [|by apply H]. intros t Htr Htr'. exact (proj2 (Hsep t Htr') Htr).
  - destruct (freevm_spec end_ s' d free' T) as (s2 & free2 & E2 & R2 & K2 & P2 & O2).
    exists s2, free2. split; [exact E2|]. split; [exact K2|]. split; [rewrite P2, P, Ef; reflexivity|].
    intros va Hva. destruct (space_frame end_ s' s2 root (pages 4 (vram s') d) KG O2 (gd_page _ _ _ _ Gd)) as (_ & _ & H).
    { intros t Htr. exact (proj2 (Hsep t Htr)). }
    rewrite H by exact Hva. exact (KU va Hva).
Qed.

(** C13: growing and shrinking a process: [allocuvm] makes every address from the
    old size, rounded up, to the new one show a zero byte the user may write, and
    changes no other; [deallocuvm] back to the old size restores the user's view
    exactly; and the pages of the address space and the free list are together the
    same pages throughout. *)
Theorem sbrk_grow_shrink end_ s root oldsz newsz free :
  KERNBASE < end_ -> tree end_ 4 s root free -> 0 <= oldsz < newsz -> newsz < 2 ^ 47 - 4096 ->
  (forall va, rup oldsz <= va < rup newsz -> uview s root va = None) ->
  (4 * Z.to_nat ((rup newsz - rup oldsz) / 4096) <= length free)%nat ->
  exists s1 s2 free1 free2,
     allocuvm end_ root oldsz newsz s = Ok (newsz, s1) /\ tree end_ 4 s1 root free1
  /\ (forall va, user va -> uview s1 root va =
        if (rup oldsz <=? va) && (va <? rup newsz) then Some (Z.lor (Z.lor PTE_W PTE_U) PTE_P, 0)
        else uview s root va)
  /\ pages 4 (vram s1) root ++ free1 ≡ₚ pages 4 (vram s) root ++ free
  /\ deallocuvm end_ root newsz oldsz s1 = Ok (oldsz, s2) /\ tree end_ 4 s2 root free2
  /\ (forall va, user va -> uview s2 root va = uview s root va)
  /\ pages 4 (vram s2) root ++ free2 ≡ₚ pages 4 (vram s) root ++ free.
Proof.
  intros Hend Ht Hsz Hnew Hnone Hlen.
  destruct (allocuvm_spec end_ s root oldsz newsz free) as (s1 & taken & free1 & E1 & Ef & _ & T & U1); try assumption; [lia|].
  destruct (deallocuvm_spec end_ Hend s1 root newsz oldsz free1) as (s2 & dropped & free2 & E2 & G & U2);
    [apply T|lia|lia|].
  exists s1, s2, free1, free2. split; [exact E1|]. split; [apply T|]. split; [exact U1|].
  assert (pages 4 (vram s1) root ++ free1 ≡ₚ pages 4 (vram s) root ++ free) as Hp.
  { rewrite (tk_pages _ _ _ _ _ _ T), Ef, <- !app_assoc.
    rewrite !(app_assoc _ taken), !(app_assoc taken). by rewrite (Permutation_app_comm taken). }
  split; [exact Hp|]. split; [exact E2|]. split; [apply G|]. split.
  - intros va Hva. rewrite U2, U1 by done. destruct ((rup oldsz <=? va) && (va <? rup newsz)) eqn:E; [|done].
    symmetry. apply Hnone. lia.
  - rewrite <- Hp, (gv_free _ _ _ _ _ _ _ G), (gv_pages _ _ _ _ _ _ _ G).
    rewrite app_assoc. by rewrite (Permutation_app_comm dropped).
Qed.

(** [freevm] leaks nothing and frees nothing twice: the free list afterwards is
    the old one and every page of the address space (tables, page directories and
    user pages), and every other address space keeps its pages and its view. *)
Theorem freevm_returns_pages end_ s root free :
  tree end_ 4 s root free ->
  exists s' free', freevm end_ root s = Ok (tt, s') /\ kmem_inv end_ (km s') free'
  /\ free' ≡ₚ pages 4 (vram s) root ++ free
  /\ forall other, good end_ 4 (vram s) other ->
       (forall t, t ∈ pages 4 (vram s) other -> t ∉ pages 4 (vram s) root) ->
       pages 4 (vram s') other = pages 4 (vram s) other
       /\ forall va, user va -> uview s' other va = uview s other va.
Proof.
  intros Ht. destruct (freevm_spec end_ s root free Ht) as (s' & free' & E & R & K & P & O).
  exists s', free'. split; [exact E|]. split; [exact K|]. split; [exact P|]. intros other Hg Hd.
  destruct (space_frame end_ s s' other (pages 4 (vram s) root) Hg O) as (HP & _ & HU); [|done|by split].
  apply (gd_page _ _ _ _ (tr_good _ _ _ _ _ Ht)).
Qed.

(** ** A small machine: twelve free pages after a kernel of one page. *)

Definition demo_end : Z := KERNBASE + 4096.
Definition demo_pages : list Z := (fun i => KERNBASE + 4096 * i) <$> seqZ 1 12.

Lemma some_pages end_ l : NoDup l -> Forall (page end_) l ->
  exists k, kmem_inv end_ k l /\ forall a, is_u8 (ram k a).
Proof.
  induction l as [|v l IH]; intros Hnd Hpg.
  - exists (mkKmem false 0 (fun _ => 0)). split; [apply (kmem_empty end_ (mkKmem false 0 (fun _ => 0)))|done].
  - apply NoDup_cons in Hnd as [Hv Hnd]. apply Forall_cons in Hpg as [Hp Hpg].
    destruct (IH Hnd Hpg) as (k & Hk & Hb). destruct (kfree_spec end_ v k l Hk Hp Hv) as (k' & E & Hk' & _).
    exists k'. split; [done|]. by eapply kfree_u8.
Qed.

Lemma demo_pages_ok : NoDup demo_pages /\ Forall (page demo_end) demo_pages.
Proof.
  split.
  - unfold demo_pages. apply NoDup_fmap_2_strong; [|apply NoDup_seqZ]. intros x y _ _ H. lia.
  - apply Forall_fmap, Forall_forall. intros i Hi%elem_of_seqZ. unfold page, compose, demo_end, PGSIZE, PHYSTOP.
    unfold KERNBASE. split; [|lia]. Z.div_mod_to_equations. lia.
Qed.

(** An empty address space. *)
Lemma demo_space : exists s root free, tree demo_end 4 s root free /\ bytes s /\ length free = 11%nat
  /\ forall va, user va -> uview s root va = None.
Proof.
  destruct demo_pages_ok as [Hnd Hpg]. destruct (some_pages demo_end demo_pages Hnd Hpg) as (k & Hk & Hb).
  destruct demo_pages as [|d free] eqn:E; [discriminate|].
  assert (length free = 11%nat) as Hl by (by injection E as _ <-).
  destruct (setupkvm_spec demo_end (mkVm k 0 0 0 0 0) d free Hk) as (s & E1 & _ & T & _ & _ & _ & U).
  exists s, d, free. split; [exact T|]. split; [|split; [exact Hl|exact U]].
  eapply pres_setupkvm; [exact E1|exact Hb].
Qed.

Lemma sbrk_grow_shrink_witness : exists s root s1 s2,
  allocuvm demo_end root 4096 8192 s = Ok (8192, s1) /\ uview s1 root 5000 = Some (7, 0)
  /\ deallocuvm demo_end root 8192 4096 s1 = Ok (4096, s2) /\ uview s2 root 5000 = None.
Proof.
  destruct demo_space as (s & root & free & T & Hb & Hl & U).
  destruct (sbrk_grow_shrink demo_end s root 4096 8192 free) as (s1 & s2 & f1 & f2 & E1 & _ & U1 & _ & E2 & _ & U2 & _).
  - unfold demo_end, KERNBASE. lia.
  - exact T.
  - lia.
  - lia.
  - intros va Hva. apply U. change (rup 4096) with 4096 in Hva. change (rup 8192) with 8192 in Hva. unfold user. lia.
  - rewrite Hl. change (Z.to_nat ((rup 8192 - rup 4096) / 4096)) with 1%nat. lia.
  - exists s, root, s1, s2. split; [exact E1|]. split; [|split; [exact E2|]].
    + rewrite U1 by (unfold user; lia). reflexivity.
    + rewrite U2 by (unfold user; lia). apply U. unfold user. lia.
Defined.

(** An address space with one user page, at address 4096. *)
Lemma demo_process : exists s root free, tree demo_end 4 s root free /\ bytes s /\ (7 <= length free)%nat
  /\ forall va, user va -> uview s root va = if (4096 <=? va) && (va <? 8192) then Some (7, 0) else None.
Proof.
  destruct demo_space as (s & root & free & T & Hb & Hl & U).
  destruct (allocuvm_spec demo_end s root 4096 8192 free T) as (s1 & taken & free1 & E1 & Ef & Hlt & Tk & U1).
  - lia.
  - lia.
  - intros va Hva. apply U. change (rup 4096) with 4096 in Hva. change (rup 8192) with 8192 in Hva. unfold user. lia.
  - rewrite Hl. change (Z.to_nat ((rup 8192 - rup 4096) / 4096)) with 1%nat. lia.
  - exists s1, root, free1. split; [apply Tk|]. split; [by eapply pres_allocuvm; [exact E1|]|]. split.
    + change (Z.to_nat ((rup 8192 - rup 4096) / 4096)) with 1%nat in Hlt. rewrite Ef, length_app in Hl. lia.
    + intros va Hva. rewrite U1 by exact Hva. rewrite (U va Hva). reflexivity.
Qed.

Lemma copyuvm_copies_space_witness : exists s root d s',
  copyuvm demo_end root 8192 s = Ok (d, s') /\ uview s' d 5000 = Some (7, 0).
Proof.
  destruct demo_process as (s & root & free & T & Hb & Hl & U). destruct free as [|d free]; [cbn in Hl; lia|].
  destruct (copyuvm_copies_space demo_end s root 8192 d free) as (s' & E & _ & U' & _).
  - unfold demo_end, KERNBASE. lia.
  - exact T.
  - exact Hb.
  - lia.
  - intros va Hva. change (rup 8192) with 8192 in Hva. unfold PGSIZE in Hva. rewrite U by (unfold user; lia).
    replace ((4096 <=? va) && (va <? 8192)) with true by lia. discriminate.
  - change (Z.to_nat ((8192 - 1) / 4096)) with 1%nat. cbn [length] in Hl. lia.
  - exists s, root, d, s'. split; [exact E|]. rewrite U' by (unfold user; lia).
    change (if (PGSIZE <=? 5000) && (5000 <? rup 8192) then uview s root 5000 else None) with (uview s root 5000).
    rewrite U by (unfold user; lia). reflexivity.
Defined.

Lemma freevm_returns_pages_witness : exists s root s' free free',
  freevm demo_end root s = Ok (tt, s') /\ free' ≡ₚ pages 4 (vram s) root ++ free.
Proof.
  destruct demo_process as (s & root & free & T & _).
  destruct (freevm_returns_pages demo_end s root free T) as (s' & free' & E & _ & P & _).
  exists s, root, s', free, free'. split; [exact E|exact P].
Defined.
