(* ===== verification/Syscall.v ===== *)
(** Model of src/syscall.c, src/syscall.h and src/sysproc.c: how the kernel takes
    the arguments of a system call from a process, the dispatch, and the calls
    about the process itself.

    [m] is memory as the kernel sees it while it runs for the process: user
    addresses go through the process's page table, kernel addresses through the
    direct map.  A fetch function that can fail returns [None] for its [-1]. *)
From stdpp Require Import base strings numbers list.
From S2P Require Import Prelude CString Locks Kalloc Vm VmTree VmSpace VmUser VmFork.
Local Open Scope Z_scope.

(** * Fetching from user memory *)

(** The registers of the trap frame that hold a call's number and arguments. *)
Record trapframe : Type := mkTf { rax : Z; rdi : Z; rsi : Z; rdx : Z; r10 : Z; r8 : Z; r9 : Z }.

Definition fetchint (sz : Z) (m : mem) (addr : Z) : option Z :=
  if (addr <? PGSIZE) || (sz <=? addr) || (sz <? u64 (addr + 4)) then None
  else Some (s32 (load_le 4 m addr)).

Definition fetchaddr (sz : Z) (m : mem) (addr : Z) : option Z :=
  if (addr <? PGSIZE) || (sz <=? addr) || (sz <? u64 (addr + 8)) then None
  else Some (load64 m addr).

(** [for(s = *pp; s < ep; s++) if( *s == 0) return s - *pp;] *)
Fixpoint fetchstr_loop (fuel : nat) (sz : Z) (m : mem) (s : Z) : option Z :=
  match fuel with
  | O => None
  | S fuel =>
      if s <? sz then if m s =? 0 then Some s else fetchstr_loop fuel sz m (s + 1) else None
  end.

(** The pointer and the length of the string; the fuel covers the memory from
    [addr] to the end of the process. *)
Definition fetchstr (sz : Z) (m : mem) (addr : Z) : option (Z * Z) :=
  if (addr <? PGSIZE) || (sz <=? addr) then None
  else
    s ← fetchstr_loop (Z.to_nat (sz - addr)) sz m addr;
    Some (addr, s32 (s - addr)).

(** * Arguments *)

Definition fetcharg (tf : trapframe) (n : Z) : res Z :=
  if n =? 0 then Ok (rdi tf)
  else if n =? 1 then Ok (rsi tf)
  else if n =? 2 then Ok (rdx tf)
  else if n =? 3 then Ok (r10 tf)
  else if n =? 4 then Ok (r8 tf)
  else if n =? 5 then Ok (r9 tf)
  else Panic "failed fetch".

(** The value returned and the value stored. *)
Definition argint (tf : trapframe) (n : Z) : res (Z * Z) :=
  v ← fetcharg tf n; Ok (0, s32 v).

Definition argaddr (tf : trapframe) (n : Z) : res (Z * Z) :=
  v ← fetcharg tf n; Ok (0, v).

(** The value returned, of the unsigned type [addr_t], and the pointer stored,
    [None] where the caller's variable stays uninitialised. *)
Definition argptr (tf : trapframe) (sz n size : Z) : res (Z * option Z) :=
  '(r, i) ← argaddr tf n;
  if r <? 0 then Ok (u64 (-1), None)
  else if (size <? 0) || (sz <=? u32 i) || (sz <? u32 (u32 i + size)) then Ok (u64 (-1), None)
  else Ok (0, Some i).

(** The value returned (a length or -1) and the pointer. *)
Definition argstr (tf : trapframe) (sz : Z) (m : mem) (n : Z) : res (Z * option Z) :=
  '(r, addr) ← argint tf n;
  if r <? 0 then Ok (-1, None)
  else
    match fetchstr sz m (u64 addr) with
    | Some (p, len) => Ok (len, Some p)
    | None => Ok (-1, None)
    end.

(** * Dispatch *)

Inductive sysname : Type :=
  | SYS_fork | SYS_exit | SYS_wait | SYS_pipe | SYS_read | SYS_kill | SYS_exec | SYS_fstat | SYS_chdir
  | SYS_dup | SYS_getpid | SYS_sbrk | SYS_sleep | SYS_uptime | SYS_open | SYS_write | SYS_mknod
  | SYS_unlink | SYS_link | SYS_mkdir | SYS_close | SYS_ioctl | SYS_ai_query.

#[export] Instance sysname_eq_dec : EqDecision sysname.
Proof. solve_decision. Defined.

Definition syscalls : list (option sysname) :=
  [None; Some SYS_fork; Some SYS_exit; Some SYS_wait; Some SYS_pipe; Some SYS_read; Some SYS_kill;
   Some SYS_exec; Some SYS_fstat; Some SYS_chdir; Some SYS_dup; Some SYS_getpid; Some SYS_sbrk;
   Some SYS_sleep; Some SYS_uptime; Some SYS_open; Some SYS_write; Some SYS_mknod; Some SYS_unlink;
   Some SYS_link; Some SYS_mkdir; Some SYS_close; Some SYS_ioctl; Some SYS_ai_query].

(** [call] runs a handler on the rest of the kernel's state and returns its
    value; [unknown] prints the message; [exit_if_killed] is the end of
    [syscall]. *)
Definition syscall {K : Type} (call : sysname -> trapframe -> M K Z) (unknown exit_if_killed : M K unit)
    (tf : trapframe) : M K trapframe :=
  let num := rax tf in
  r ← (match (if (0 <? num) && (num <? Z.of_nat (length syscalls)) then syscalls !! Z.to_nat num else None) with
       | Some (Some h) => call h tf
       | _ => unknown ;; mret (u64 (-1))
       end);
  exit_if_killed ;;
  mret (mkTf r (rdi tf) (rsi tf) (rdx tf) (r10 tf) (r8 tf) (r9 tf)).

(** * sysproc.c *)

(** [sys_read] and [sys_write] up to the call of [fileread] or [filewrite]:
    the count and the buffer; [None] is the return of -1. *)
Definition rw_args (tf : trapframe) (sz : Z) : res (option (Z * option Z)) :=
  '(r, n) ← argint tf 2;
  if r <? 0 then Ok None
  else
    '(r, p) ← argptr tf sz 1 n;
    if r <? 0 then Ok None else Ok (Some (n, p)).

(** [sys_ai_query] up to the call of [aiquery]: prompt, its length, response
    buffer and its size. *)
Definition ai_query_args (tf : trapframe) (sz : Z) (m : mem)
    : res (option (option Z * Z * option Z * Z)) :=
  '(promptlen, prompt) ← argstr tf sz m 0;
  if promptlen <? 0 then Ok None
  else
    '(r, maxlen) ← argint tf 2;
    if r <? 0 then Ok None
    else
      '(r, response) ← argptr tf sz 1 maxlen;
      if r <? 0 then Ok None else Ok (Some (prompt, promptlen, response, maxlen)).

(** A process's memory: the page table, its size and the kernel stack. *)
Record pspace : Type := mkPspace { pgdir : Z; psz : Z; kstack : Z }.

(** [growproc]; [n] is an [int64]. *)
Definition growproc (end_ : Z) (p : pspace) (n : Z) : M vmstate (Z * pspace) :=
  let sz := psz p in
  sz' ← (if 0 <? n then
           r ← allocuvm end_ (pgdir p) sz (u64 (sz + n));
           mret (if r =? 0 then None else Some r)
         else if n <? 0 then
           r ← deallocuvm end_ (pgdir p) sz (u64 (sz + n));
           mret (if r =? 0 then None else Some r)
         else mret (Some sz));
  match sz' with
  | None => mret (-1, p)
  | Some sz =>
      switchuvm (pgdir p) (kstack p) ;;
      mret (0, mkPspace (pgdir p) sz (kstack p))
  end.

Definition sys_sbrk (end_ : Z) (tf : trapframe) (p : pspace) : M vmstate (Z * pspace) :=
  '(_, n) ← lift (argaddr tf 0);
  let addr := psz p in
  '(r, p) ← growproc end_ p (s64 n);
  mret (if r <? 0 then (u64 (-1), p) else (addr, p)).

(** What one turn of [sys_sleep]'s loop does, [ticks] being an unsigned counter:
    the comparison with the [int] [n] is unsigned. *)
Inductive slept : Type := SleepDone | SleepKilled | SleepMore.
Definition sleep_turn (ticks0 n : Z) (killed : bool) (ticks : Z) : slept :=
  if u32 (ticks - ticks0) <? u32 n then if killed then SleepKilled else SleepMore else SleepDone.

(** The loop over the ticks at which the process is woken: the value returned,
    or [None] while it sleeps. *)
Fixpoint sleep_loop (ticks0 n : Z) (wakes : list (bool * Z)) : option Z :=
  match wakes with
  | [] => None
  | (killed, ticks) :: wakes =>
      match sleep_turn ticks0 n killed ticks with
      | SleepDone => Some 0
      | SleepKilled => Some (-1)
      | SleepMore => sleep_loop ticks0 n wakes
      end
  end.

Definition sys_sleep (tf : trapframe) (killed : bool) (ticks : Z) (wakes : list (bool * Z)) : res (option Z) :=
  '(r, n) ← argint tf 0;
  if r <? 0 then Ok (Some (-1)) else Ok (sleep_loop ticks n ((killed, ticks) :: wakes)).

(** ** The argument vector of [exec] *)

Definition MAXARG : Z := 64.

(** The loop of [sys_exec]: the pointers of [argv], in order; [None] is the return
    of -1. *)
Fixpoint exec_args (fuel : nat) (sz : Z) (m : mem) (uargv i : Z) : option (list Z) :=
  if MAXARG <=? i then None
  else
    match fuel with
    | O => None
    | S fuel =>
        uarg ← fetchaddr sz m (u64 (uargv + 8 * i));
        if uarg =? 0 then Some []
        else
          p ← fetchstr sz m uarg;
          args ← exec_args fuel sz m uargv (i + 1);
          Some (fst p :: args)
    end.

(** The path and the vector [sys_exec] hands to [exec]. *)
Definition sys_exec (tf : trapframe) (sz : Z) (m : mem) : res (option (Z * list Z)) :=
  '(len, path) ← argstr tf sz m 0;
  if len <? 0 then Ok None
  else
    '(r, uargv) ← argaddr tf 1;
    if r <? 0 then Ok None
    else
      Ok (p ← path;
          args ← exec_args (Z.to_nat MAXARG) sz m uargv 0;
          Some (p, args)).

(** * Strings and vectors of a process *)

(** A string of length [len] at [p], with its NUL, inside the process. *)
Definition ustring (sz : Z) (m : mem) (p len : Z) : Prop :=
  PGSIZE <= p /\ 0 <= len /\ p + len < sz /\ m (p + len) = 0 /\ forall i, 0 <= i < len -> m (p + i) <> 0.

Lemma fetchstr_loop_spec fuel sz m s q : sz - s <= Z.of_nat fuel ->
  fetchstr_loop fuel sz m s = Some q <-> s <= q < sz /\ m q = 0 /\ forall i, s <= i < q -> m i <> 0.
Proof.
  revert s. induction fuel as [|fuel IH]; intros s Hf; cbn [fetchstr_loop].
  - split; [done|lia].
  - destruct (Z.ltb_spec s sz) as [Hs|Hs]; [|split; [done|lia]].
    destruct (Z.eqb_spec (m s) 0) as [H0|H0].
    + split; [intros [= <-]; split; [lia|]; split; [done|lia]|]. intros (Hq & Hm & Hb). f_equal.
      destruct (decide (s = q)); [done|]. exfalso. apply (Hb s); [lia|done].
    + rewrite IH by lia. split; intros (Hq & Hm & Hb); (split; [|split; [done|]]); [lia| | |].
      * intros i Hi. destruct (decide (i = s)) as [->|]; [done|apply Hb; lia].
      * destruct (decide (s = q)) as [->|]; [done|lia].
      * intros i Hi. apply Hb. lia.
Qed.

(** [fetchstr] accepts exactly the strings of the process. *)
Lemma fetchstr_spec sz m addr p len : 0 <= addr -> sz < 2 ^ 31 ->
  fetchstr sz m addr = Some (p, len) <-> p = addr /\ ustring sz m addr len.
Proof.
  intros Ha Hsz. unfold fetchstr, ustring.
  destruct ((addr <? PGSIZE) || (sz <=? addr)) eqn:E; [split; [done|unfold PGSIZE in *; lia]|].
  apply orb_false_iff in E as [E1%Z.ltb_ge E2%Z.leb_gt].
  destruct (fetchstr_loop _ _ _ _) as [q|] eqn:Eq; cbn.
  - apply fetchstr_loop_spec in Eq; [|lia]. destruct Eq as (Hq & Hm & Hb). rewrite s32_id by lia. split.
    + intros [= <- <-]. split; [done|]. split; [done|]. split; [lia|]. split; [lia|].
      replace (addr + (q - addr)) with q by lia. split; [done|]. intros i Hi. apply Hb. lia.
    + intros (-> & _ & Hl & Hs & H0 & Hn). do 2 f_equal. destruct (Z.lt_trichotomy q (addr + len)) as [H|[H|H]].
      * exfalso. apply (Hn (q - addr)); [lia|]. by replace (addr + (q - addr)) with q by lia.
      * lia.
      * exfalso. apply (Hb (addr + len)); [lia|done].
  - split; [done|]. intros (-> & _ & Hl & Hs & H0 & Hn). exfalso.
    assert (fetchstr_loop (Z.to_nat (sz - addr)) sz m addr = Some (addr + len)) as E; [|congruence].
    apply fetchstr_loop_spec; [lia|]. split; [lia|]. split; [done|]. intros i Hi.
    replace i with (addr + (i - addr)) by lia. apply Hn. lia.
Qed.

Lemma fetchaddr_spec sz m addr v : 0 <= addr < 2 ^ 64 -> sz < 2 ^ 31 ->
  fetchaddr sz m addr = Some v <-> PGSIZE <= addr /\ addr + 8 <= sz /\ load64 m addr = v.
Proof.
  intros Ha Hsz. unfold fetchaddr. destruct (Z.leb_spec sz addr) as [H1|H1].
  { rewrite orb_true_r. cbn. split; [done|lia]. }
  rewrite u64_id by lia. destruct (Z.ltb_spec addr PGSIZE), (Z.ltb_spec sz (addr + 8)); cbn;
    (split; [intros [=]; subst; split_and!; (done || lia)|intros (? & ? & <-); (done || lia)]).
Qed.

(** The vector at [uargv]: the pointers [args], each to a string of the process,
    and a null pointer after them. *)
Definition uvector (sz : Z) (m : mem) (uargv : Z) (args : list Z) : Prop :=
  PGSIZE <= uargv /\ uargv + 8 * Z.of_nat (length args) + 8 <= sz
  /\ load64 m (uargv + 8 * Z.of_nat (length args)) = 0
  /\ forall i a, args !! i = Some a ->
       load64 m (uargv + 8 * Z.of_nat i) = a /\ a <> 0 /\ exists len, ustring sz m a len.

Lemma uvector_cons sz m uargv a args : 
  uvector sz m uargv (a :: args) <->
  PGSIZE <= uargv /\ load64 m uargv = a /\ a <> 0 /\ (exists len, ustring sz m a len)
  /\ uvector sz m (uargv + 8) args.
Proof.
  unfold uvector. cbn [length]. split.
  - intros (Hp & He & H0 & Ha). destruct (Ha 0%nat a eq_refl) as (Hl & Hn & Hs).
    rewrite Z.add_0_r in Hl. split; [done|]. split; [done|]. split; [done|]. split; [done|].
    split; [lia|]. split; [lia|]. split; [by replace (uargv + 8 + _) with (uargv + 8 * Z.of_nat (S (length args))) by lia|].
    intros i b Hb. replace (uargv + 8 + 8 * Z.of_nat i) with (uargv + 8 * Z.of_nat (S i)) by lia. by apply Ha.
  - intros (Hp & Hl & Hn & Hs & Hp' & He & H0 & Ha). split; [done|]. split; [lia|].
    split; [by replace (uargv + 8 * Z.of_nat (S (length args))) with (uargv + 8 + 8 * Z.of_nat (length args)) by lia|].
    intros [|i] b Hb; cbn in Hb.
    + injection Hb as <-. by rewrite Z.add_0_r.
    + replace (uargv + 8 * Z.of_nat (S i)) with (uargv + 8 + 8 * Z.of_nat i) by lia. by apply Ha.
Qed.

Lemma uvector_nil sz m uargv : uvector sz m uargv [] <-> PGSIZE <= uargv /\ uargv + 8 <= sz /\ load64 m uargv = 0.
Proof.
  unfold uvector. cbn [length]. rewrite Z.mul_0_r, Z.add_0_r. split; [by intros (? & ? & ? & _)|].
  intros (? & ? & ?). split_and!; done.
Qed.

Lemma uvector_inj sz m uargv a b : uvector sz m uargv a -> uvector sz m uargv b -> a = b.
Proof.
  revert uargv b. induction a as [|x a IH]; intros uargv b Ha Hb; destruct b as [|y b]; [done| | |].
  - apply uvector_cons in Hb as (_ & Hl & Hn & _). apply uvector_nil in Ha as (_ & _ & H0). congruence.
  - apply uvector_cons in Ha as (_ & Hl & Hn & _). apply uvector_nil in Hb as (_ & _ & H0). congruence.
  - apply uvector_cons in Ha as (_ & Hl & _ & _ & Ha). apply uvector_cons in Hb as (_ & Hl' & _ & _ & Hb).
    f_equal; [congruence|]. by eapply IH.
Qed.

Section Args.
Context (sz : Z) (m : mem) (Hsz : 0 <= sz < 2 ^ 31) (Hm : forall a, is_u8 (m a)).

Lemma load64_nonneg a : 0 <= load64 m a.
Proof.
  unfold load64. generalize 8%nat as n. intros n. revert a. induction n as [|n IH]; intros a; cbn [load_le]; [lia|].
  specialize (IH (a + 1)). specialize (Hm a). unfold is_u8 in Hm. lia.
Qed.

Lemma exec_args_sound fuel uargv i args : 0 <= i -> 0 <= uargv -> uargv + 8 * i < 2 ^ 64 ->
  exec_args fuel sz m uargv i = Some args ->
  i + Z.of_nat (length args) < MAXARG /\ uvector sz m (uargv + 8 * i) args.
Proof.
  revert i args. induction fuel as [|fuel IH]; intros i args Hi Hu Hw; cbn [exec_args];
    destruct (Z.leb_spec MAXARG i); try done.
  rewrite u64_id by lia. destruct (fetchaddr sz m (uargv + 8 * i)) as [v|] eqn:Ev; cbn; [|done].
  apply fetchaddr_spec in Ev as (H1 & H2 & H3); [|lia|lia]. destruct (Z.eqb_spec v 0) as [->|Hv].
  { intros [= <-]. rewrite uvector_nil. cbn [length]. split_and!; (done || lia). }
  destruct (fetchstr sz m v) as [[p len]|] eqn:Es; cbn; [|done].
  apply fetchstr_spec in Es as [-> Hs]; [|rewrite <- H3; apply load64_nonneg|lia].
  destruct (exec_args fuel sz m uargv (i + 1)) as [args'|] eqn:Ea; cbn; [|done]. intros [= <-].
  apply IH in Ea as [Hc Hvec]; [|lia..]. rewrite uvector_cons. cbn [length].
  replace (uargv + 8 * (i + 1)) with (uargv + 8 * i + 8) in Hvec by lia. split; [lia|]. eauto 10.
Qed.

Lemma exec_args_complete fuel uargv i args : 0 <= i -> MAXARG <= i + Z.of_nat fuel -> 0 <= uargv ->
  uargv + 8 * i < 2 ^ 64 -> i + Z.of_nat (length args) < MAXARG -> uvector sz m (uargv + 8 * i) args ->
  exec_args fuel sz m uargv i = Some args.
Proof.
  revert i args. induction fuel as [|fuel IH]; intros i args Hi Hf Hu Hw Hc Hvec; [lia|]. cbn [exec_args].
  replace (MAXARG <=? i) with false by (symmetry; lia). rewrite u64_id by lia.
  destruct args as [|a args].
  - apply uvector_nil in Hvec. assert (fetchaddr sz m (uargv + 8 * i) = Some 0) as ->; [|done].
    apply fetchaddr_spec; [lia..|exact Hvec].
  - pose proof Hvec as (_ & He & _). apply uvector_cons in Hvec as (Hp & Hl & Hn & (len & Hs) & Hvec). cbn [length] in *.
    assert (fetchaddr sz m (uargv + 8 * i) = Some a) as ->.
    { apply fetchaddr_spec; [lia..|]. split; [done|]. split; [lia|done]. }
    assert (fetchstr sz m a = Some (a, len)) as Es.
    { apply fetchstr_spec; [rewrite <- Hl; apply load64_nonneg|lia|done]. }
    cbn. rewrite (proj2 (Z.eqb_neq a 0)), Es by done. cbn.
    rewrite (IH (i + 1) args); [done|lia..|]. by replace (uargv + 8 * (i + 1)) with (uargv + 8 * i + 8) by lia.
Qed.
End Args.

(** * The claims *)

(** The address [argstr] looks at is the low half of the register. *)
Lemma path_pointer sz m v len : 0 <= sz < 2 ^ 31 -> ustring sz m (u64 (s32 v)) len <-> ustring sz m (u32 v) len.
Proof.
  intros Hsz. destruct (Z.lt_ge_cases (u32 v) (2 ^ 31)) as [H|H].
  - assert (u64 (s32 v) = u32 v) as ->; [|done]. unfold u64, s32, u32 in *. repeat bcase; dlia.
  - pose proof (u32_range v) as Hr. unfold is_u32 in Hr.
    assert (sz <= u64 (s32 v)) by (unfold u64, s32, u32 in *; repeat bcase; dlia).
    unfold ustring. split; intros (? & ? & ? & _); lia.
Qed.

(** C15: what [exec] is given, by a process smaller than 2 GB.  [sys_exec] accepts a call exactly when the low 32
    bits of the first argument are the address of a NUL-terminated string inside
    the process, and the second argument is the address of an array inside the
    process of fewer than [MAXARG] pointers to such strings, closed by a null
    pointer; and it hands on that path and those pointers.  So [exec] only sees
    strings of the process; but the path pointer is cut to an [int] by [argstr], and
    a pointer outside the process whose low half is the address of a string, such as
    0x100001000, is accepted and means that string.  The vector and its pointers are
    checked at their full width. *)
Theorem sys_exec_checks_arguments tf sz m path args :
  0 <= sz < 2 ^ 31 -> (forall a, is_u8 (m a)) -> 0 <= rsi tf < 2 ^ 64 ->
  sys_exec tf sz m = Ok (Some (path, args)) <->
  path = u32 (rdi tf) /\ (exists len, ustring sz m path len)
  /\ Z.of_nat (length args) < MAXARG /\ uvector sz m (rsi tf) args.
Proof.
  intros Hsz Hm Hv. pose proof (u32_range (rdi tf)) as Hp. unfold is_u32 in Hp.
  unfold sys_exec, argstr, argint, argaddr, fetcharg. cbn [Z.eqb Pos.eqb]. ok. cbn [Z.ltb Z.compare].
  assert (0 <= u64 (s32 (rdi tf))) as H0 by apply u64_range.
  destruct (fetchstr sz m (u64 (s32 (rdi tf)))) as [[p len]|] eqn:Es.
  - apply fetchstr_spec in Es as [-> Hs]; [|lia..].
    assert (u64 (s32 (rdi tf)) = u32 (rdi tf)) as E.
    { destruct Hs as (_ & ? & ? & _). unfold u64, s32, u32 in *. repeat bcase; dlia. }
    rewrite E in *. ok.
    replace (len <? 0) with false by (symmetry; destruct Hs; lia). ok. cbn [Z.ltb Z.compare].
    cbn [mbind option_bind].
    match goal with |- context [exec_args ?a ?b ?c ?d ?e] => destruct (exec_args a b c d e) as [args'|] eqn:Ea end.
    + apply exec_args_sound in Ea as [Hc Hvec]; [|done|done|lia..]. rewrite Z.mul_0_r, Z.add_0_r in Hvec.
      split; [intros [= <- <-]; eauto|]. intros (-> & _ & Hc' & Hvec').
      by rewrite (uvector_inj sz m (rsi tf) args args').
    + split; [done|]. intros (-> & _ & Hc & Hvec). exfalso. rewrite (exec_args_complete sz m Hsz Hm _ _ _ args) in Ea;
        [done|done|reflexivity || (cbn; lia)|lia|lia|lia|]. by rewrite Z.mul_0_r, Z.add_0_r.
  - ok. cbn [Z.ltb Z.compare]. split; [done|]. intros (-> & (len & Hs) & _). exfalso.
    apply path_pointer in Hs; [|done].
    enough (None = Some (u64 (s32 (rdi tf)), len)) by congruence. rewrite <- Es. apply fetchstr_spec; [lia..|done].
Qed.

(** A process that calls exec with the path "sh" at 4096 and the vector ["sh"] at
    4104; the path pointer has a bit above the low half, which is not looked at. *)
Definition demo_args : mem := fun a =>
  if a =? 4096 then 115 else if a =? 4097 then 104 else if a =? 4105 then 16 else 0.

Lemma sys_exec_checks_arguments_witness :
  sys_exec (mkTf 7 0x100001000 4104 0 0 0 0) 8192 demo_args = Ok (Some (4096, [4096])).
Proof.
  apply (sys_exec_checks_arguments (mkTf 7 0x100001000 4104 0 0 0 0) 8192 demo_args 4096 [4096]).
  - lia.
  - intros a. unfold demo_args, is_u8. repeat bcase; lia.
  - cbn. lia.
  - assert (ustring 8192 demo_args 4096 2) as Hs.
    { unfold ustring, PGSIZE. split; [lia|]. split; [lia|]. split; [lia|]. split; [reflexivity|].
      intros i Hi. assert (i = 0 \/ i = 1) as [->| ->] by lia; discriminate. }
    split; [reflexivity|]. split; [exists 2; exact Hs|]. split; [reflexivity|].
    apply uvector_cons. split; [unfold PGSIZE; cbn; lia|]. split; [reflexivity|]. split; [lia|].
    split; [exists 2; exact Hs|]. apply uvector_nil. unfold PGSIZE. cbn [rsi]. split; [lia|]. split; [lia|reflexivity].
Defined.

(** The check of buffers lets everything through.  [argptr] returns an unsigned
    value, so its callers' test for a negative one never holds: [sys_read] and
    [sys_write] never refuse a buffer.  An address outside the process leaves the
    pointer uninitialised, and an address of the kernel whose low 32 bits are
    inside the process's size is handed on as the buffer. *)
Theorem read_write_accept_any_buffer tf sz :
  0 <= sz < 2 ^ 32 -> 0 <= rsi tf < 2 ^ 64 ->
  exists n p, rw_args tf sz = Ok (Some (n, p))
  /\ (forall x, rsi tf = KERNBASE + x -> 0 <= x < sz -> 0 <= s32 (rdx tf) -> x + s32 (rdx tf) <= sz ->
        n = s32 (rdx tf) /\ p = Some (KERNBASE + x))
  /\ (sz <= rsi tf mod 2 ^ 32 -> p = None).
Proof.
  intros Hsz Hr. unfold rw_args, argint, argptr, argaddr, fetcharg. cbn [Z.eqb Pos.eqb]. ok. cbn [Z.ltb Z.compare].
  destruct (_ || _ || _) eqn:E; (eexists _, _; split; [reflexivity|]); split.
  - intros x Hr0 Hx Hn Hs. exfalso. rewrite Hr0 in E.
    assert (u32 (KERNBASE + x) = x) as Hk.
    { unfold u32. change KERNBASE with (0xFFFF8000 * 2 ^ 32).
      rewrite Z.add_comm, Z_mod_plus_full. apply Z.mod_small. lia. }
    rewrite Hk, (u32_id (x + _)) in E by lia. lia.
  - done.
  - intros x Hr0 Hx Hn Hs. by rewrite Hr0.
  - intros Hs. exfalso. change (rsi tf mod 2 ^ 32) with (u32 (rsi tf)) in Hs. lia.
Qed.

Lemma read_write_accept_any_buffer_witness :
  exists p, rw_args (mkTf 5 0 (KERNBASE + 100) 8 0 0 0) 8192 = Ok (Some (8, p)) /\ p = Some (KERNBASE + 100).
Proof.
  destruct (read_write_accept_any_buffer (mkTf 5 0 (KERNBASE + 100) 8 0 0 0) 8192) as (n & p & E & H & _).
  - lia.
  - unfold KERNBASE. cbn. lia.
  - destruct (H 100) as [Hn Hp].
    + reflexivity.
    + lia.
    + change (0 <= 8). lia.
    + change (100 + 8 <= 8192). lia.
    + exists p. split; [|exact Hp]. rewrite E, Hn. reflexivity.
Defined.

(** An address space whose pages are gone cannot be copied. *)
Lemma copyuvm_panics end_ s root sz d free :
  tree end_ 4 s root (d :: free) -> PGSIZE < sz < 2 ^ 32 -> uview s root PGSIZE = None ->
  exists msg, copyuvm end_ root sz s = Panic msg.
Proof.
  intros T Hsz U. destruct (setupkvm_spec end_ s d free (tr_free _ _ _ _ _ T)) as (s1 & E1 & _ & T1 & _ & Hd & O & _).
  unfold copyuvm. rewrite (bind_ok _ _ _ _ _ E1), (proj2 (Z.eqb_neq d 0)) by done.
  rewrite u32_id by (unfold PGSIZE in Hsz; lia).
  destruct (space_frame end_ s s1 root [d] (tr_good _ _ _ _ _ T) O) as (_ & _ & Hu).
  { apply Forall_singleton. exact (good_root _ _ _ _ (tr_good _ _ _ _ _ T1)). }
  { intros t Ht ->%list_elem_of_singleton. apply (tr_apart _ _ _ _ _ T d Ht). left. }
  assert (user PGSIZE) as Hus by (unfold user, PGSIZE; lia).
  rewrite <- (Hu PGSIZE Hus) in U. apply uview_none in U.
  replace (Z.to_nat (sz / PGSIZE + 1)) with (S (Z.to_nat (sz / PGSIZE))) by (unfold PGSIZE in *; Z.div_mod_to_equations; lia).
  cbn [copy_loop]. replace (PGSIZE <? sz) with true by (symmetry; lia).
  rewrite walkpgdir_walk. unfold mbind, M_bind. rewrite (walk_false 4 s1 root PGSIZE ltac:(lia)).
  unfold pte in U. destruct (pte_at 4 (vram s1) root PGSIZE) as [a|]; [|by eexists].
  rewrite load_pte_ok. unfold present in U. apply negb_false_iff in U. rewrite U. by eexists.
Qed.

(** Shrinking a process by its whole size breaks it: [sbrk] of minus the size
    frees every page and then reports failure, because a new size of 0 is taken
    for an error; the process keeps its old size, and its next [fork] makes the
    kernel panic in [copyuvm]. *)
Theorem sbrk_to_zero_breaks_fork end_ s p d free n :
  KERNBASE < end_ -> tree end_ 4 s (pgdir p) (d :: free) -> PGSIZE < psz p < 2 ^ 32 -> n = - psz p ->
  exists s', growproc end_ p n s = Ok ((-1, p), s')
  /\ (forall va, 0 <= va < rup (psz p) -> uview s' (pgdir p) va = None)
  /\ exists msg, copyuvm end_ (pgdir p) (psz p) s' = Panic msg.
Proof.
  intros Hend T Hsz ->. unfold growproc. unfold PGSIZE in Hsz.
  replace (0 <? - psz p) with false by (symmetry; lia). replace (- psz p <? 0) with true by (symmetry; lia).
  replace (psz p + - psz p) with 0 by lia. change (u64 0) with 0.
  destruct (deallocuvm_spec end_ Hend s (pgdir p) (psz p) 0 (d :: free) T) as (s' & dropped & free' & E & G & U); [lia..|].
  exists s'. assert (forall va, 0 <= va < rup (psz p) -> uview s' (pgdir p) va = None) as Hn.
  { intros va Hva. rewrite U by (unfold user; unfold rup in Hva; Z.div_mod_to_equations; lia).
    change (rup 0) with 0. by replace (_ && _) with true by lia. }
  split; [|split; [exact Hn|]].
  - rewrite (bind_ok _ _ _ None s'); [done|]. by rewrite (bind_ok _ _ _ _ _ E).
  - pose proof (gv_free _ _ _ _ _ _ _ G) as Hp. pose proof (gv_tree _ _ _ _ _ _ _ G) as T'.
    destruct free' as [|d' free']; [apply Permutation_nil_l in Hp; by destruct dropped|].
    apply (copyuvm_panics end_ s' (pgdir p) (psz p) d' free' T'); [unfold PGSIZE; lia|].
    apply Hn. unfold rup, PGSIZE. Z.div_mod_to_equations. lia.
Qed.

Lemma sbrk_to_zero_breaks_fork_witness : exists s root s' msg,
  growproc demo_end (mkPspace root 8192 0) (-8192) s = Ok ((-1, mkPspace root 8192 0), s')
  /\ uview s root 5000 = Some (7, 0) /\ copyuvm demo_end root 8192 s' = Panic msg.
Proof.
  destruct demo_process as (s & root & free & T & Hb & Hl & U). destruct free as [|d free]; [cbn in Hl; lia|].
  destruct (sbrk_to_zero_breaks_fork demo_end s (mkPspace root 8192 0) d free (-8192)) as (s' & E & _ & msg & Em).
  - unfold demo_end, KERNBASE. lia.
  - exact T.
  - unfold PGSIZE. cbn. lia.
  - reflexivity.
  - exists s, root, s', msg. split; [exact E|]. split; [|exact Em]. rewrite U by (unfold user; lia). reflexivity.
Defined.
