(* ===== verification/Bio.v ===== *)
(** Model of src/bio.c and src/memide.c: the buffer cache over the in-memory
    disk.

    The doubly linked list through [prev]/[next] is the list [lru] of buffer
    numbers from [head.next] (most recently used) to [head.prev].  The disk is
    a list of blocks.  [writes] is a history variable: the block writes that
    reached the disk, oldest first; nothing reads it, and the crash theorems of
    the log speak about its prefixes.

    The functions run on behalf of one process.  Taking a sleep lock that is
    held means waiting for another process; there is none here, so it is a
    [Fault] (a deadlock), and the theorems show it does not happen. *)
From stdpp Require Import base strings numbers list.
From S2P Require Import Prelude.
Local Open Scope Z_scope.

Definition BSIZE : Z := 512.
Definition NBUF : nat := 30.
Definition B_VALID : Z := 2.
Definition B_DIRTY : Z := 4.

Notation block := (list Z) (only parsing).

Record buf : Type := mkBuf {
  flags : Z;
  dev : Z;
  blockno : Z;
  slock : Z;
  refcnt : Z;
  bdata : block }.

Record bcache : Type := mkBcache {
  bufs : list buf;
  lru : list nat;
  disk : list block;
  writes : list (Z * block) }.

Definition set_buf (i : nat) (b : buf) : M bcache unit :=
  modify (fun s => mkBcache (<[i := b]> (bufs s)) (lru s) (disk s) (writes s)).
Definition get_buf (i : nat) : M bcache buf := fun s =>
  match bufs s !! i with Some b => Ok (b, s) | None => Fault end.
Definition set_lru (l : list nat) : M bcache unit :=
  modify (fun s => mkBcache (bufs s) l (disk s) (writes s)).

(** A write and a read of one block of [memdisk]. *)
Definition disk_write (n : Z) (d : block) : M bcache unit :=
  modify (fun s => mkBcache (bufs s) (lru s) (<[Z.to_nat n := d]> (disk s))
                     (writes s ++ [(n, d)])).
Definition disk_read (n : Z) : M bcache block := fun s =>
  match disk s !! Z.to_nat n with Some d => Ok (d, s) | None => Fault end.

Definition has (f bit : Z) : bool := negb (Z.land f bit =? 0).

(** [binit]: each buffer is put at the front of the list. *)
Definition binit (disk : list block) : bcache :=
  mkBcache (replicate NBUF (mkBuf 0 0 0 0 0 (replicate (Z.to_nat BSIZE) 0)))
    (rev (seq 0 NBUF)) disk [].

Definition buf_acquiresleep (i : nat) : M bcache unit :=
  b ← get_buf i;
  if negb (slock b =? 0) then fault
  else set_buf i (mkBuf (flags b) (dev b) (blockno b) 1 (refcnt b) (bdata b)).

Definition buf_holdingsleep (i : nat) : M bcache bool :=
  b ← get_buf i; mret (negb (slock b =? 0)).

Definition buf_releasesleep (i : nat) : M bcache unit :=
  b ← get_buf i;
  set_buf i (mkBuf (flags b) (dev b) (blockno b) 0 (refcnt b) (bdata b)).

(** memide.c *)
Definition iderw (i : nat) : M bcache unit :=
  held ← buf_holdingsleep i;
  if negb held then panic "iderw: buf not locked" else
  b ← get_buf i;
  if Z.land (flags b) (Z.lor B_VALID B_DIRTY) =? B_VALID
  then panic "iderw: nothing to do" else
  if negb (dev b =? 1) then panic "iderw: request not for disk 1" else
  s ← get;
  if Z.of_nat (length (disk s)) <=? blockno b
  then panic "iderw: block out of range" else
  if has (flags b) B_DIRTY then
    disk_write (blockno b) (bdata b) ;;
    set_buf i (mkBuf (Z.lor (Z.land (flags b) (Z.lnot B_DIRTY)) B_VALID)
                 (dev b) (blockno b) (slock b) (refcnt b) (bdata b))
  else
    d ← disk_read (blockno b);
    set_buf i (mkBuf (Z.lor (flags b) B_VALID)
                 (dev b) (blockno b) (slock b) (refcnt b) d).

Definition is_block (s : bcache) (d n : Z) (i : nat) : bool :=
  match bufs s !! i with
  | Some b => (dev b =? d) && (blockno b =? n)
  | None => false
  end.

Definition recyclable (s : bcache) (i : nat) : bool :=
  match bufs s !! i with
  | Some b => (refcnt b =? 0) && negb (has (flags b) B_DIRTY)
  | None => false
  end.

Definition bget (d n : Z) : M bcache nat :=
  s ← get;
  match List.find (is_block s d n) (lru s) with
  | Some i =>
      b ← get_buf i;
      set_buf i (mkBuf (flags b) (dev b) (blockno b) (slock b) (u32 (refcnt b + 1)) (bdata b)) ;;
      buf_acquiresleep i ;;
      mret i
  | None =>
      match List.find (recyclable s) (rev (lru s)) with
      | Some i =>
          b ← get_buf i;
          set_buf i (mkBuf 0 d n (slock b) 1 (bdata b)) ;;
          buf_acquiresleep i ;;
          mret i
      | None => panic "bget: no buffers"
      end
  end.

Definition bread (d n : Z) : M bcache nat :=
  i ← bget d n;
  b ← get_buf i;
  when (negb (has (flags b) B_VALID)) (iderw i) ;;
  mret i.

Definition bwrite (i : nat) : M bcache unit :=
  held ← buf_holdingsleep i;
  if negb held then panic "bwrite" else
  b ← get_buf i;
  set_buf i (mkBuf (Z.lor (flags b) B_DIRTY) (dev b) (blockno b) (slock b)
               (refcnt b) (bdata b)) ;;
  iderw i.

(** [brelse]: the buffer moves to the front when its last reference goes. *)
Definition brelse (i : nat) : M bcache unit :=
  held ← buf_holdingsleep i;
  if negb held then panic "brelse" else
  buf_releasesleep i ;;
  b ← get_buf i;
  let b := mkBuf (flags b) (dev b) (blockno b) (slock b) (u32 (refcnt b - 1)) (bdata b) in
  set_buf i b ;;
  s ← get;
  when (refcnt b =? 0)
    (set_lru (i :: List.filter (fun j => negb (j =? i)%nat) (lru s))).

(** [b->data = ...] on a locked buffer. *)
Definition set_data (i : nat) (d : block) : M bcache unit :=
  b ← get_buf i;
  set_buf i (mkBuf (flags b) (dev b) (blockno b) (slock b) (refcnt b) d).

(** * The invariant

    [held] are the buffers between [bread] and [brelse]. *)
Record binv (s : bcache) (held : list nat) : Prop := {
  bi_len : length (bufs s) = NBUF;
  bi_lru : Permutation (lru s) (seq 0 NBUF);
  bi_nodup : NoDup held;
  bi_in : forall i, i ∈ held -> exists b, bufs s !! i = Some b
            /\ slock b = 1 /\ refcnt b = 1 /\ dev b = 1;
  bi_out : forall i b, i ∉ held -> bufs s !! i = Some b -> slock b = 0 /\ refcnt b = 0;
  bi_flags : forall i b, bufs s !! i = Some b ->
    (dev b = 1 /\ (flags b = 2 \/ flags b = 6)
       /\ 0 <= blockno b < Z.of_nat (length (disk s)))
    \/ (dev b = 0 /\ flags b = 0);
  bi_uniq : forall i j b b', bufs s !! i = Some b -> bufs s !! j = Some b' ->
    dev b = 1 -> dev b' = 1 -> blockno b = blockno b' -> i = j;
  bi_clean : forall i b, bufs s !! i = Some b -> dev b = 1 -> flags b = 2 -> i ∉ held ->
    disk s !! Z.to_nat (blockno b) = Some (bdata b) }.

(** The contents of block [n] as the kernel sees it: the cached copy if there
    is one. *)
Definition cached (s : bcache) (n : Z) : option nat :=
  List.find (is_block s 1 n) (seq 0 (length (bufs s))).
Definition view (s : bcache) (n : Z) : option block :=
  match cached s n with
  | Some i => bdata <$> bufs s !! i
  | None => disk s !! Z.to_nat n
  end.

Definition ndirty (s : bcache) : nat :=
  length (List.filter (fun b => flags b =? 6) (bufs s)).

(** Block [n] is in the cache, modified. *)
Definition dirty (s : bcache) (n : Z) : Prop :=
  exists i b, bufs s !! i = Some b /\ dev b = 1 /\ blockno b = n /\ flags b = 6.

Lemma find_unique {A} (f : A -> bool) (l : list A) x :
  x ∈ l -> f x = true -> (forall y, y ∈ l -> f y = true -> y = x) ->
  List.find f l = Some x.
Proof.
  intros Hx Hf Hu. destruct (List.find f l) as [y|] eqn:E.
  - apply find_some in E as [Hy Hfy]. f_equal. apply Hu; [by apply list_elem_of_In|done].
  - apply list_elem_of_In in Hx. by rewrite (find_none f l E x Hx) in Hf.
Qed.

Lemma is_block_spec s n i :
  is_block s 1 n i = true <->
  exists b, bufs s !! i = Some b /\ dev b = 1 /\ blockno b = n.
Proof.
  unfold is_block. destruct (bufs s !! i) as [b|].
  - rewrite andb_true_iff, !Z.eqb_eq.
    split; [intros [? ?]; by exists b|by intros (? & [= <-] & ? & ?)].
  - split; [done|]. by intros (? & ? & _).
Qed.

Lemma find_cached s held i b l :
  binv s held -> bufs s !! i = Some b -> dev b = 1 -> Permutation l (seq 0 NBUF) ->
  List.find (is_block s 1 (blockno b)) l = Some i.
Proof.
  intros Hs Hi Hd Hl. apply find_unique.
  - rewrite Hl. apply elem_of_seq. apply lookup_lt_Some in Hi.
    rewrite (bi_len _ _ Hs) in Hi. lia.
  - apply is_block_spec. eauto.
  - intros j _ (b' & Hj & Hd' & Hn)%is_block_spec.
    symmetry. by eapply (bi_uniq _ _ Hs i j b b').
Qed.

Lemma view_cached s held i b :
  binv s held -> bufs s !! i = Some b -> dev b = 1 ->
  view s (blockno b) = Some (bdata b).
Proof.
  intros Hs Hi Hd. unfold view, cached. rewrite (bi_len _ _ Hs).
  rewrite (find_cached s held i b) by done. by rewrite Hi.
Qed.

Definition uncached (s : bcache) (n : Z) : Prop :=
  forall i b, bufs s !! i = Some b -> ~ (dev b = 1 /\ blockno b = n).

Lemma find_uncached s n l : uncached s n -> List.find (is_block s 1 n) l = None.
Proof.
  intros Hu. destruct (List.find _ _) as [i|] eqn:E; [|done].
  apply find_some in E as [_ (b & Hi & Hb)%is_block_spec]. by destruct (Hu i b Hi).
Qed.

Lemma view_uncached s n : uncached s n -> view s n = disk s !! Z.to_nat n.
Proof. intros Hu. unfold view, cached. by rewrite find_uncached. Qed.

Lemma cached_or_not s n :
  uncached s n \/ exists i b, bufs s !! i = Some b /\ dev b = 1 /\ blockno b = n.
Proof.
  destruct (List.find (is_block s 1 n) (seq 0 (length (bufs s)))) as [i|] eqn:E.
  - right. apply find_some in E as [_ (b & Hb)%is_block_spec]. eauto.
  - left. intros i b Hi Hb.
    assert (Hin : In i (seq 0 (length (bufs s)))).
    { apply in_seq. apply lookup_lt_Some in Hi. lia. }
    pose proof (find_none _ _ E i Hin) as H.
    assert (is_block s 1 n i = true) by (apply is_block_spec; eauto). congruence.
Qed.

(** When fewer than [NBUF] buffers are held or dirty, one can be recycled. *)
Lemma filter_split {A} (f : A -> bool) l :
  (length (List.filter f l) + length (List.filter (fun x => negb (f x)) l) = length l)%nat.
Proof. induction l as [|x l IH]; [done|]. simpl. destruct (f x); simpl; lia. Qed.

Lemma recyclable_exists s held :
  binv s held -> (length held + ndirty s < NBUF)%nat ->
  exists i, i ∉ held /\ recyclable s i = true.
Proof.
  intros Hs Hlt.
  destruct (decide (Exists (fun i => i ∉ held /\ recyclable s i = true) (seq 0 NBUF)))
    as [(i & _ & Hi)%Exists_exists|Hno]; [by eauto|]. exfalso.
  assert (Hall : forall i, (i < NBUF)%nat -> i ∈ held \/
            exists b, bufs s !! i = Some b /\ flags b = 6).
  { intros i Hi. destruct (decide (i ∈ held)) as [|Hni]; [by left|right].
    destruct (lookup_lt_is_Some_2 (bufs s) i) as [b Hb];
      [by rewrite (bi_len _ _ Hs)|].
    exists b. split; [done|].
    destruct (bi_flags _ _ Hs i b Hb) as [(_ & [Hf|Hf] & _)|[_ Hf]]; [|done|].
    all: destruct Hno; apply Exists_exists; exists i;
      (split; [apply elem_of_seq; lia|]); (split; [done|]); unfold recyclable;
      rewrite Hb, Hf, (proj2 (bi_out _ _ Hs i b Hni Hb)); done. }
  clear Hno.
  set (D := List.filter (fun i => match bufs s !! i with
              | Some b => flags b =? 6 | None => false end) (seq 0 NBUF)).
  assert (HD : length D = ndirty s).
  { unfold D, ndirty. rewrite <- (bi_len _ _ Hs). generalize (bufs s). clear.
    intros l. induction l as [|b l IH] using rev_ind; [done|].
    rewrite length_app, List.filter_app, length_app. simpl length.
    rewrite Nat.add_1_r, seq_S, List.filter_app, length_app. f_equal.
    - rewrite <- IH. f_equal. apply filter_ext_in. intros i Hi%in_seq.
      by rewrite lookup_app_l by lia.
    - simpl. rewrite lookup_app_r, Nat.sub_diag by lia. simpl. by destruct (_ =? _). }
  assert (Hsub : submseteq (seq 0 NBUF) (held ++ D)).
  { apply NoDup_submseteq; [apply NoDup_seq|]. intros i [_ Hi]%elem_of_seq.
    apply elem_of_app. destruct (Hall i) as [|(b & Hb & Hf)]; [lia|by left|right].
    apply list_elem_of_In, filter_In. split; [apply in_seq; lia|]. by rewrite Hb, Hf. }
  apply submseteq_length in Hsub. rewrite length_app, length_seq in Hsub. lia.
Qed.

(** * The operations on buffers *)

Definition upd (s : bcache) (i : nat) (b : buf) : bcache :=
  mkBcache (<[i := b]> (bufs s)) (lru s) (disk s) (writes s).

Lemma get_buf_ok s i b : bufs s !! i = Some b -> get_buf i s = Ok (b, s).
Proof. intros H. unfold get_buf. by rewrite H. Qed.

Lemma upd_eq s i b b0 : bufs s !! i = Some b0 -> bufs (upd s i b) !! i = Some b.
Proof. intros H. apply list_lookup_insert_eq. by eapply lookup_lt_Some. Qed.

Lemma upd_ne s i j b : j <> i -> bufs (upd s i b) !! j = bufs s !! j.
Proof. intros H. by apply list_lookup_insert_ne. Qed.

Lemma upd_upd s i b b' : upd (upd s i b) i b' = upd s i b'.
Proof. unfold upd. simpl. by rewrite list_insert_insert_eq. Qed.

(** The buffers after an update, by cases. *)
Lemma upd_cases s i b j c :
  bufs (upd s i b) !! j = Some c -> (j = i /\ c = b) \/ (j <> i /\ bufs s !! j = Some c).
Proof.
  unfold upd. simpl. destruct (decide (j = i)) as [->|Hne].
  - intros H. assert (i < length (bufs s))%nat
      by (apply lookup_lt_Some in H; by rewrite length_insert in H).
    rewrite list_lookup_insert_eq in H by done. injection H as ->. by left.
  - rewrite list_lookup_insert_ne by done. by right.
Qed.

(** The view after an update of a cached buffer that keeps its block. *)
Lemma view_upd s held held' i b b' m :
  binv s held -> binv (upd s i b') held' ->
  bufs s !! i = Some b -> dev b = 1 -> dev b' = 1 -> blockno b' = blockno b ->
  view (upd s i b') m = if m =? blockno b then Some (bdata b') else view s m.
Proof.
  intros Hs Hs' Hi Hd Hd' Hn. destruct (Z.eqb_spec m (blockno b)) as [->|Hm].
  - rewrite <- Hn. eapply view_cached; [done|by eapply upd_eq|done].
  - destruct (cached_or_not s m) as [Hu|(j & c & Hj & Hdc & <-)].
    + rewrite !view_uncached; [done|done|].
      intros j c [[-> ->]|[_ Hj]]%upd_cases; [|exact (Hu j c Hj)]. intros [_ ?]. congruence.
    + assert (Hji : j <> i) by congruence.
      rewrite (view_cached s held j c) by done.
      eapply view_cached; [done|by rewrite upd_ne|done].
Qed.

Lemma ndirty_upd s i b b' :
  bufs s !! i = Some b ->
  (ndirty (upd s i b') + (if (flags b =? 6)%Z then 1%nat else 0%nat)
   = ndirty s + (if (flags b' =? 6)%Z then 1%nat else 0%nat))%nat.
Proof.
  intros Hi. unfold ndirty, upd. simpl.
  rewrite insert_take_drop by (by eapply lookup_lt_Some).
  rewrite <- (take_drop_middle (bufs s) i b Hi) at 3.
  rewrite !List.filter_app, !length_app. simpl.
  destruct (flags b =? 6), (flags b' =? 6); simpl; lia.
Qed.

Lemma dirty_upd s held i b b' m :
  binv s held -> bufs s !! i = Some b ->
  dirty (upd s i b') m <->
  (dev b' = 1 /\ blockno b' = m /\ flags b' = 6)
  \/ (dirty s m /\ ~ (dev b = 1 /\ blockno b = m)).
Proof.
  intros Hs Hi. split.
  - intros (j & c & [[-> ->]|[Hne Hj]]%upd_cases & Hd & Hn & Hf); [by left|right].
    split; [by exists j, c|]. intros [Hdb Hnb].
    apply Hne. eapply (bi_uniq _ _ Hs j i c b); try done. congruence.
  - intros [(Hd & Hn & Hf)|[(j & c & Hj & Hd & Hn & Hf) Hno]].
    + exists i, b'. split; [by eapply upd_eq|]. done.
    + exists j, c. assert (j <> i) by (intros ->; rewrite Hi in Hj; injection Hj as <-; by apply Hno).
      by rewrite upd_ne.
Qed.

Lemma dirty_same s held i b b' m :
  binv s held -> bufs s !! i = Some b ->
  dev b' = dev b -> blockno b' = blockno b -> flags b' = flags b ->
  dirty (upd s i b') m <-> dirty s m.
Proof.
  intros Hs Hi Hd Hn Hf. rewrite (dirty_upd s held i b) by done. rewrite Hd, Hn, Hf.
  split.
  - intros [(? & ? & ?)|[? _]]; [by exists i, b|done].
  - intros Hdm. destruct (decide (dev b = 1 /\ blockno b = m)) as [[Hdb <-]|]; [left|by right].
    destruct Hdm as (j & c & Hj & Hdc & Hcm & Hc6).
    assert (j = i) as -> by (eapply (bi_uniq _ _ Hs j i c b); congruence).
    rewrite Hi in Hj. by injection Hj as <-.
Qed.

(** Changing the flags or the data of a held buffer keeps the invariant. *)
Lemma upd_held s held i b f d :
  binv s held -> i ∈ held -> bufs s !! i = Some b -> f = 2 \/ f = 6 ->
  binv (upd s i (mkBuf f (dev b) (blockno b) (slock b) (refcnt b) d)) held.
Proof.
  intros Hs Hin Hi Hf. pose proof Hs as [Hl Hlru Hnd Hheld Hout Hfl Hu Hcl].
  destruct (Hheld i Hin) as (b0 & Hi0 & Hsl & Hrc & Hdev).
  rewrite Hi in Hi0. injection Hi0 as <-.
  constructor; simpl.
  - by rewrite length_insert.
  - done.
  - done.
  - intros j Hj. destruct (decide (j = i)) as [->|Hne].
    + eexists. split; [by eapply upd_eq|]. done.
    + rewrite list_lookup_insert_ne by done. by apply Hheld.
  - intros j c Hj [[-> ->]|[Hne Hc]]%upd_cases; [done|]. by eapply Hout.
  - intros j c [[-> ->]|[Hne Hc]]%upd_cases; [|by eapply Hfl].
    left. simpl. split; [done|]. split; [done|].
    destruct (Hfl i b Hi) as [(_ & _ & ?)|[? _]]; [done|congruence].
  - intros j k c c' [[-> ->]|[Hj Hc]]%upd_cases [[-> ->]|[Hk Hc']]%upd_cases; simpl;
      intros; try done.
    + by eapply (Hu i k b c').
    + by eapply (Hu j i c b).
    + by eapply (Hu j k c c').
  - intros j c [[-> ->]|[Hj Hc]]%upd_cases; [done|]. by apply Hcl.
Qed.

(** Putting block [n] into buffer [i] and locking it. *)
Lemma upd_acquire s held i b f n d :
  binv s held -> i ∉ held -> bufs s !! i = Some b -> f = 2 \/ f = 6 ->
  0 <= n < Z.of_nat (length (disk s)) ->
  (forall j c, j <> i -> bufs s !! j = Some c -> dev c = 1 -> blockno c <> n) ->
  binv (upd s i (mkBuf f 1 n 1 1 d)) (i :: held).
Proof.
  intros [Hl Hlru Hnd Hheld Hout Hfl Hu Hcl] Hin Hi Hf Hn Huq.
  constructor; simpl.
  - by rewrite length_insert.
  - done.
  - by apply NoDup_cons.
  - intros j [->|Hj]%elem_of_cons.
    + eexists. split; [by eapply upd_eq|]. done.
    + assert (j <> i) by congruence. rewrite list_lookup_insert_ne by done. by apply Hheld.
  - intros j c [Hji Hj]%not_elem_of_cons [[-> ->]|[Hne Hc]]%upd_cases; [done|].
    by eapply Hout.
  - intros j c [[-> ->]|[Hne Hc]]%upd_cases; [by left|by eapply Hfl].
  - intros j k c c' [[-> ->]|[Hj Hc]]%upd_cases [[-> ->]|[Hk Hc']]%upd_cases; simpl;
      intros; try done.
    + exfalso. by eapply (Huq k c').
    + exfalso. by eapply (Huq j c).
    + by eapply (Hu j k c c').
  - intros j c [[-> ->]|[Hj Hc]]%upd_cases ? ? Hni%not_elem_of_cons; [by destruct Hni|].
    apply (Hcl j c); try done. by destruct Hni.
Qed.

(** The invariant keeps what a held buffer is. *)
Lemma held_buf s held i :
  binv s held -> i ∈ held -> exists b, bufs s !! i = Some b /\ slock b = 1
    /\ refcnt b = 1 /\ dev b = 1 /\ (flags b = 2 \/ flags b = 6)
    /\ 0 <= blockno b < Z.of_nat (length (disk s)).
Proof.
  intros Hs Hin. destruct (bi_in _ _ Hs i Hin) as (b & Hi & ? & ? & Hd).
  exists b. destruct (bi_flags _ _ Hs i b Hi) as [(_ & ? & ?)|[? _]]; [done|congruence].
Qed.

Definition not_held (s : bcache) (held : list nat) (n : Z) : Prop :=
  forall i b, i ∈ held -> bufs s !! i = Some b -> blockno b <> n.

(** What a successful [bread] of block [n] leaves: buffer [i] holds it. *)
Definition loaded (s : bcache) (i : nat) (f n : Z) (d : block) : bcache :=
  upd s i (mkBuf f 1 n 1 1 d).

(** [brun] unfolds the accesses to the cache's record; the buffers stay
    behind [upd] and [get_buf]. *)
Lemma set_buf_upd i b s : set_buf i b s = Ok (tt, upd s i b).
Proof. done. Qed.

Ltac brun := mrun; repeat (first
  [ rewrite set_buf_upd
  | match goal with
    | H : bufs ?s !! ?i = Some ?b |- context [get_buf ?i ?s] =>
        rewrite (get_buf_ok s i b H)
    | H : bufs ?s !! ?i = Some _ |- context [get_buf ?i (upd ?s ?i ?b)] =>
        rewrite (get_buf_ok (upd s i b) i b (upd_eq s i b _ H))
    | |- context [upd (upd ?s ?i _) ?i ?b] => rewrite (upd_upd s i)
    | |- context [if ?c then _ else _] =>
        let v := eval vm_compute in c in
        match v with true => change c with true | false => change c with false end
    end ]; cbv beta iota zeta; cbn [flags dev blockno slock refcnt bdata]).

Lemma bread_hit s held i b :
  binv s held -> bufs s !! i = Some b -> dev b = 1 -> i ∉ held ->
  bread 1 (blockno b) s = Ok (i, loaded s i (flags b) (blockno b) (bdata b)).
Proof.
  intros Hs Hi Hd Hni. destruct (bi_out _ _ Hs i b Hni Hi) as [Hsl Hrc].
  unfold bread, bget, buf_acquiresleep. mrun.
  rewrite (find_cached s held i b (lru s) Hs Hi Hd (bi_lru _ _ Hs)).
  brun. rewrite Hsl, Hrc. brun.
  destruct (bi_flags _ _ Hs i b Hi) as [(_ & [->| ->] & _)|[? _]]; [| |congruence];
    cbn; by rewrite Hd.
Qed.

Lemma bread_miss s held n :
  binv s held -> 0 <= n < Z.of_nat (length (disk s)) -> uncached s n ->
  (length held + ndirty s < NBUF)%nat ->
  exists i b d, bufs s !! i = Some b /\ i ∉ held /\ flags b <> 6
    /\ disk s !! Z.to_nat n = Some d /\ bread 1 n s = Ok (i, loaded s i 2 n d).
Proof.
  intros Hs Hn Hun Hav. destruct (recyclable_exists s held Hs Hav) as (k & Hk & Hrk).
  assert (Hf : exists i, List.find (recyclable s) (rev (lru s)) = Some i).
  { destruct (List.find (recyclable s) (rev (lru s))) as [i|] eqn:E; [by eauto|].
    assert (Hin : In k (rev (lru s))).
    { apply -> in_rev. apply list_elem_of_In. rewrite (bi_lru _ _ Hs).
      apply elem_of_seq. unfold recyclable in Hrk.
      destruct (bufs s !! k) as [b|] eqn:Eb; [|done]. apply lookup_lt_Some in Eb.
      rewrite (bi_len _ _ Hs) in Eb. lia. }
    by rewrite (find_none _ _ E k Hin) in Hrk. }
  destruct Hf as (i & Hf). pose proof (find_some _ _ Hf) as [_ Hri].
  unfold recyclable in Hri. destruct (bufs s !! i) as [b|] eqn:Hi; [|done].
  apply andb_true_iff in Hri as [Hrc Hfl].
  assert (Hni : i ∉ held).
  { intros Hin. destruct (bi_in _ _ Hs i Hin) as (b' & Hb' & _ & Hr & _).
    rewrite Hi in Hb'. injection Hb' as <-. lia. }
  destruct (bi_out _ _ Hs i b Hni Hi) as [Hsl _].
  destruct (lookup_lt_is_Some_2 (disk s) (Z.to_nat n)) as [d Hdk]; [lia|].
  exists i, b, d. split; [done|]. split; [done|]. split; [by intros E; rewrite E in Hfl|].
  split; [done|]. unfold bread, bget, buf_acquiresleep. mrun.
  rewrite find_uncached by done. rewrite Hf. brun. rewrite Hsl.
  unfold iderw, buf_holdingsleep. brun.
  cbn [disk upd]. replace (_ <=? n) with false by lia.
  unfold disk_read. cbn [disk upd]. rewrite Hdk. brun. done.
Qed.

(** [bread] returns a locked buffer with the current contents of the block; it
    is marked dirty exactly when the block was. *)
Lemma bread_spec s held n :
  binv s held -> 0 <= n < Z.of_nat (length (disk s)) -> not_held s held n ->
  (dirty s n \/ length held + ndirty s < NBUF)%nat ->
  exists i f d, bread 1 n s = Ok (i, loaded s i f n d)
    /\ view s n = Some d /\ i ∉ held
    /\ binv (loaded s i f n d) (i :: held)
    /\ ndirty (loaded s i f n d) = ndirty s
    /\ (forall m, view (loaded s i f n d) m = view s m)
    /\ (forall m, dirty (loaded s i f n d) m <-> dirty s m)
    /\ (f = 2 /\ disk s !! Z.to_nat n = Some d \/ f = 6).
Proof.
  intros Hs Hn Hnh Hav.
  destruct (cached_or_not s n) as [Hun|(i & b & Hi & Hd & <-)].
  - assert (length held + ndirty s < NBUF)%nat as Hlt.
    { destruct Hav as [(j & c & Hj & Hdc & Hnc & _)|?]; [|done].
      by destruct (Hun j c Hj). }
    clear Hav. rename Hlt into Hav.
    destruct (bread_miss s held n Hs Hn Hun Hav) as (i & b & d & Hi & Hni & Hfl & Hdk & Hbr).
    assert (Hinv : binv (loaded s i 2 n d) (i :: held)).
    { eapply upd_acquire; try done; [by left|].
      intros j c _ Hj Hdc Hbn. by apply (Hun j c Hj). }
    exists i, 2, d. split; [done|]. split; [by rewrite view_uncached|].
    split; [done|]. split; [done|]. split.
    { pose proof (ndirty_upd s i b (mkBuf 2 1 n 1 1 d) Hi) as H. simpl in H.
      replace (flags b =? 6) with false in H by lia. unfold loaded. lia. }
    split; [|split; [|by left]].
    2: { intros m. unfold loaded. rewrite (dirty_upd s held i b) by done. simpl.
         split; [intros [(_ & _ & ?)|[? _]]; done|]. intros Hdm. right. split; [done|].
         intros [Hdb Hbm]. destruct Hdm as (j & c & Hj & Hdc & Hcm & Hc6).
         assert (j = i) as -> by (eapply (bi_uniq _ _ Hs j i c b); congruence).
         rewrite Hi in Hj. injection Hj as <-. done. }
    intros m. destruct (Z.eqb_spec m n) as [->|Hm].
    + rewrite (view_uncached s) by done. rewrite Hdk.
      apply (view_cached _ _ i (mkBuf 2 1 n 1 1 d) Hinv); [by eapply upd_eq|done].
    + destruct (cached_or_not s m) as [Hum|(j & c & Hj & Hdc & <-)].
      * rewrite !view_uncached; [done|done|].
        intros j c [[-> ->]|[_ Hj]]%upd_cases; [|exact (Hum j c Hj)].
        simpl. intros [_ ?]. congruence.
      * rewrite (view_cached s held j c) by done. destruct (decide (j = i)) as [->|Hji].
        -- rewrite Hi in Hj. injection Hj as <-. rewrite view_uncached.
           ++ apply (bi_clean _ _ Hs i b); try done.
              destruct (bi_flags _ _ Hs i b Hi) as [(_ & [?|?] & _)|[? _]]; congruence.
           ++ intros j c [[-> ->]|[Hne Hj]]%upd_cases; simpl; [by intros [_ ?]|].
              intros [Hdj Hbj]. by destruct (bi_uniq _ _ Hs j i c b Hj Hi).
        -- eapply view_cached; [done|by unfold loaded; rewrite upd_ne|done].
  - assert (Hni : i ∉ held) by (intros Hin; by apply (Hnh i b Hin Hi)).
    destruct (bi_flags _ _ Hs i b Hi) as [(_ & Hfl & Hrng)|[? _]]; [|congruence].
    assert (Hinv : binv (loaded s i (flags b) (blockno b) (bdata b)) (i :: held)).
    { eapply upd_acquire; try done. intros j c Hj Hc Hdc Hbn.
      by destruct Hj; eapply (bi_uniq _ _ Hs j i c b). }
    exists i, (flags b), (bdata b). split; [by eapply bread_hit|].
    split; [by eapply view_cached|]. split; [done|]. split; [done|]. split.
    { pose proof (ndirty_upd s i b (mkBuf (flags b) 1 (blockno b) 1 1 (bdata b)) Hi) as H.
      simpl in H. unfold loaded. lia. }
    split; [|split; [|destruct Hfl as [Hfl|Hfl]; [left; split; [done|]|by right];
             by apply (bi_clean _ _ Hs i b)]].
    2: { intros m. by apply (dirty_same s held i b). }
    intros m. unfold loaded. rewrite (view_upd s held (i :: held) i b) by done.
    destruct (Z.eqb_spec m (blockno b)) as [->|]; [|done]. simpl. symmetry.
    by eapply view_cached.
Qed.

(** * Working on a held buffer *)

Lemma set_data_spec s held i b d :
  binv s held -> i ∈ held -> bufs s !! i = Some b ->
  let s' := upd s i (mkBuf (flags b) (dev b) (blockno b) (slock b) (refcnt b) d) in
  set_data i d s = Ok (tt, s') /\ binv s' held /\ ndirty s' = ndirty s
  /\ (forall m, view s' m = if m =? blockno b then Some d else view s m)
  /\ forall m, dirty s' m <-> dirty s m.
Proof.
  intros Hs Hin Hi s'. destruct (held_buf s held i Hs Hin) as (b0 & Hi0 & _ & _ & Hd & Hf & _).
  rewrite Hi in Hi0. injection Hi0 as <-.
  assert (Hs' : binv s' held) by (by apply upd_held).
  split; [unfold set_data; by brun|]. split; [done|]. split.
  - pose proof (ndirty_upd s i b (mkBuf (flags b) (dev b) (blockno b) (slock b) (refcnt b) d) Hi).
    simpl in *. subst s'. lia.
  - split; [intros m; by apply (view_upd s held held)|].
    intros m. by apply (dirty_same s held i b).
Qed.

(** [log_write]'s [b->flags |= B_DIRTY]. *)
Lemma set_dirty_spec s held i b :
  binv s held -> i ∈ held -> bufs s !! i = Some b ->
  let s' := upd s i (mkBuf 6 (dev b) (blockno b) (slock b) (refcnt b) (bdata b)) in
  binv s' held /\ (forall m, view s' m = view s m)
  /\ forall m, dirty s' m <-> dirty s m \/ m = blockno b.
Proof.
  intros Hs Hin Hi s'. destruct (held_buf s held i Hs Hin) as (b0 & Hi0 & _ & _ & Hd & Hf & _).
  rewrite Hi in Hi0. injection Hi0 as <-.
  assert (Hs' : binv s' held) by (apply upd_held; auto).
  split; [done|]. split.
  - intros m. unfold s'. rewrite (view_upd s held held i b) by done.
    destruct (Z.eqb_spec m (blockno b)) as [->|]; [|done]. simpl. symmetry. by eapply view_cached.
  - intros m. unfold s'. rewrite (dirty_upd s held i b) by done. simpl.
    destruct (decide (blockno b = m)) as [<-|Hne].
    + split; [by right|by left].
    + split; [intros [(_ & ? & _)|[? _]]; [done|by left]|].
      intros [?|?]; [right|done]. split; [done|]. by intros [_ ?].
Qed.

(** [bwrite] makes the disk agree with the buffer and the buffer clean. *)
Definition written (s : bcache) (i : nat) (b : buf) : bcache :=
  mkBcache (<[i := mkBuf 2 (dev b) (blockno b) (slock b) (refcnt b) (bdata b)]> (bufs s))
    (lru s) (<[Z.to_nat (blockno b) := bdata b]> (disk s))
    (writes s ++ [(blockno b, bdata b)]).

Lemma written_inv s held i b :
  binv s held -> i ∈ held -> bufs s !! i = Some b -> binv (written s i b) held.
Proof.
  intros Hs Hin Hi. destruct (held_buf s held i Hs Hin) as (b0 & Hi0 & Hsl & _ & Hd & Hf & Hr).
  rewrite Hi in Hi0. injection Hi0 as <-.
  pose proof (upd_held s held i b 2 (bdata b) Hs Hin Hi (or_introl eq_refl)) as Hu.
  set (b' := mkBuf 2 (dev b) (blockno b) (slock b) (refcnt b) (bdata b)) in *.
  destruct Hu as [Hl Hlru Hnd Hheld Hout Hfl Huq Hcl].
  constructor; simpl in *; try done; rewrite ?length_insert in *; try done.
  intros j c Hj Hdc Hfc Hnj. pose proof (Hcl j c Hj Hdc Hfc Hnj) as Hdk.
  rewrite list_lookup_insert_ne; [done|]. intros E.
  assert (j = i); [|by subst].
  destruct (Hfl j c Hj) as [(_ & _ & Hrc)|[? _]]; [|congruence].
  eapply (Huq j i c b' Hj); try done.
  - by eapply upd_eq.
  - simpl. lia.
Qed.

Lemma written_view s held held' i b m :
  binv s held -> i ∈ held -> bufs s !! i = Some b -> binv (written s i b) held' ->
  0 <= m -> view (written s i b) m = view s m.
Proof.
  intros Hs Hin Hi Hw Hm. destruct (held_buf s held i Hs Hin) as (b0 & Hi0 & _ & _ & Hd & _ & Hr).
  rewrite Hi in Hi0. injection Hi0 as <-.
  set (b' := mkBuf 2 (dev b) (blockno b) (slock b) (refcnt b) (bdata b)).
  assert (Hi' : bufs (written s i b) !! i = Some b') by (by apply (upd_eq s i b' b)).
  destruct (Z.eq_dec m (blockno b)) as [->|Hne].
  - rewrite (view_cached s held i b) by done. by apply (view_cached _ held' i b').
  - destruct (cached_or_not s m) as [Hu|(j & c & Hj & Hdc & <-)].
    + rewrite !view_uncached; [|done|].
      * simpl. apply list_lookup_insert_ne. lia.
      * intros j c [[-> ->]|[_ Hj]]%upd_cases; [|exact (Hu j c Hj)]. intros [_ ?].
        simpl in *. congruence.
    + assert (Hji : j <> i) by congruence. rewrite (view_cached s held j c) by done.
      eapply view_cached; [done| |done]. simpl. by rewrite list_lookup_insert_ne.
Qed.

Lemma bwrite_spec s held i b :
  binv s held -> i ∈ held -> bufs s !! i = Some b ->
  bwrite i s = Ok (tt, written s i b) /\ binv (written s i b) held
  /\ (ndirty (written s i b) <= ndirty s)%nat
  /\ (forall m, 0 <= m -> view (written s i b) m = view s m)
  /\ forall m, dirty (written s i b) m <-> dirty s m /\ m <> blockno b.
Proof.
  intros Hs Hin Hi. destruct (held_buf s held i Hs Hin) as (b0 & Hi0 & Hsl & _ & Hd & Hf & Hr).
  rewrite Hi in Hi0. injection Hi0 as <-.
  pose proof (written_inv s held i b Hs Hin Hi) as Hw.
  set (b' := mkBuf 2 (dev b) (blockno b) (slock b) (refcnt b) (bdata b)).
  split; [|split; [|split; [|split]]].
  - clear -Hi Hsl Hd Hf Hr. destruct b as [f dv n sl rc d]; simpl in *; subst sl dv.
    unfold bwrite, iderw, buf_holdingsleep, written.
    destruct Hf as [-> | ->]; brun; cbn [disk upd];
      replace (Z.of_nat (length (disk s)) <=? n) with false by lia;
      brun; unfold disk_write, set_buf; mrun; simpl; by rewrite list_insert_insert_eq.
  - done.
  - pose proof (ndirty_upd s i b b' Hi) as H. simpl in H.
    change (ndirty (written s i b)) with (ndirty (upd s i b')).
    destruct (flags b =? 6); lia.
  - intros m Hm. by apply (written_view s held held).
  - intros m. change (dirty (upd s i b') m <-> dirty s m /\ m <> blockno b).
    rewrite (dirty_upd s held i b) by done. simpl. split.
    + intros [(_ & _ & ?)|[? Hno]]; [done|]. split; [done|]. intros ->. by apply Hno.
    + intros [? Hne]. right. split; [done|]. by intros [_ ?].
Qed.

Lemma upd_release s held i b :
  binv s (i :: held) -> bufs s !! i = Some b ->
  flags b = 6 \/ disk s !! Z.to_nat (blockno b) = Some (bdata b) ->
  binv (upd s i (mkBuf (flags b) (dev b) (blockno b) 0 0 (bdata b))) held.
Proof.
  intros [Hl Hlru [Hni Hnd]%NoDup_cons Hheld Hout Hfl Hu Hcl] Hi Hco.
  constructor; simpl.
  - by rewrite length_insert.
  - done.
  - done.
  - intros j Hj. assert (j <> i) by congruence. rewrite list_lookup_insert_ne by done.
    apply Hheld. by right.
  - intros j c Hj [[-> ->]|[Hne Hc]]%upd_cases; [done|]. eapply Hout; [|done].
    by apply not_elem_of_cons.
  - intros j c [[-> ->]|[Hne Hc]]%upd_cases; [|by eapply Hfl]. simpl. by eapply Hfl.
  - intros j k c c' [[-> ->]|[Hj Hc]]%upd_cases [[-> ->]|[Hk Hc']]%upd_cases; simpl;
      intros; try done.
    + by eapply (Hu i k b c').
    + by eapply (Hu j i c b).
    + by eapply (Hu j k c c').
  - intros j c [[-> ->]|[Hj Hc]]%upd_cases; simpl.
    + intros _ Hf _. destruct Hco as [Hf6|?]; [congruence|done].
    + intros. apply (Hcl j c); try done. by apply not_elem_of_cons.
Qed.

Lemma move_to_front i l :
  NoDup l -> i ∈ l -> Permutation (i :: List.filter (fun j => negb (j =? i)%nat) l) l.
Proof.
  intros Hnd Hin. apply list_elem_of_split in Hin as (l1 & l2 & ->).
  apply NoDup_app in Hnd as (_ & Hd & Hnd). apply NoDup_cons in Hnd as [Hni _].
  rewrite List.filter_app. simpl. rewrite Nat.eqb_refl. simpl.
  assert (Hid : forall l, i ∉ l -> List.filter (fun j => negb (j =? i)%nat) l = l).
  { clear. induction l as [|j l IH]; [done|]. intros [Hne Hl]%not_elem_of_cons. simpl.
    destruct (Nat.eqb_spec j i); [congruence|]. simpl. by rewrite IH. }
  rewrite !Hid; [apply Permutation_middle|done|].
  intros H. apply (Hd i H). by left.
Qed.

(** [brelse] of a buffer that is dirty or agrees with the disk. *)
Lemma brelse_spec s held i b :
  binv s (i :: held) -> bufs s !! i = Some b ->
  flags b = 6 \/ disk s !! Z.to_nat (blockno b) = Some (bdata b) ->
  exists s', brelse i s = Ok (tt, s') /\ binv s' held
    /\ bufs s' = <[i := mkBuf (flags b) (dev b) (blockno b) 0 0 (bdata b)]> (bufs s)
    /\ disk s' = disk s /\ writes s' = writes s /\ ndirty s' = ndirty s
    /\ (forall m, view s' m = view s m) /\ (forall m, dirty s' m <-> dirty s m).
Proof.
  intros Hs Hi Hco.
  destruct (held_buf s (i :: held) i Hs) as (b0 & Hi0 & Hsl & Hrc & Hd & Hf & Hr); [by left|].
  rewrite Hi in Hi0. injection Hi0 as <-.
  set (b' := mkBuf (flags b) (dev b) (blockno b) 0 0 (bdata b)).
  set (l' := i :: List.filter (fun j => negb (j =? i)%nat) (lru s)).
  exists (mkBcache (<[i := b']> (bufs s)) l' (disk s) (writes s)).
  assert (Hs' : binv (mkBcache (<[i := b']> (bufs s)) l' (disk s) (writes s)) held).
  { pose proof (upd_release s held i b Hs Hi Hco) as [Hl Hlru ? ? ? ? ? ?].
    change (Permutation (lru s) (seq 0 NBUF)) in Hlru.
    constructor; try done. cbn [lru]. rewrite <- Hlru. apply move_to_front.
    - rewrite Hlru. apply NoDup_seq.
    - rewrite Hlru. apply elem_of_seq. apply lookup_lt_Some in Hi.
      rewrite (bi_len _ _ Hs) in Hi. lia. }
  split; [|split; [done|split; [done|split; [done|split; [done|split; [|split]]]]]].
  - clear -Hi Hsl Hrc. destruct b as [f dv n sl rc d]; simpl in *; subst sl rc.
    unfold brelse, buf_holdingsleep, buf_releasesleep, set_lru. by brun.
  - pose proof (ndirty_upd s i b b' Hi) as H. simpl in H.
    change (ndirty (upd s i b') = ndirty s). destruct (flags b =? 6); lia.
  - intros m. change (view (upd s i b') m = view s m).
    rewrite (view_upd s (i :: held) held i b b'); try done;
      [|by apply upd_release].
    destruct (Z.eqb_spec m (blockno b)) as [->|]; [|done]. simpl. symmetry.
    by eapply view_cached.
  - intros m. change (dirty (upd s i b') m <-> dirty s m). by eapply dirty_same.
Qed.


(** * The cache refines an array of blocks *)

(** [with_block d n f]: [bread] block [n] of device [d], run [f] on the buffer,
    [brelse] it. *)
Definition with_block {A} (d n : Z) (f : nat -> M bcache A) : M bcache A :=
  i ← bread d n; a ← f i; brelse i ;; mret a.

Inductive op : Type := Rd (n : Z) | Wr (n : Z) (d : block).

Definition do_op (o : op) : M bcache (option block) :=
  match o with
  | Rd n => with_block 1 n (fun i => b ← get_buf i; mret (Some (bdata b)))
  | Wr n d => with_block 1 n (fun i => set_data i d ;; bwrite i ;; mret None)
  end.

Fixpoint do_ops (ops : list op) : M bcache (list block) :=
  match ops with
  | [] => mret []
  | o :: ops =>
      r ← do_op o;
      rs ← do_ops ops;
      mret (match r with Some d => d :: rs | None => rs end)
  end.

(** The same operations on an array. *)
Fixpoint spec_ops (ops : list op) (a : list block) : list block * list block :=
  match ops with
  | [] => ([], a)
  | Rd n :: ops =>
      let '(rs, a') := spec_ops ops a in (default ([] : block) (a !! Z.to_nat n) :: rs, a')
  | Wr n d :: ops => spec_ops ops (<[Z.to_nat n := d]> a)
  end.

Definition op_block (o : op) : Z := match o with Rd n | Wr n _ => n end.

Lemma not_held_nil s n : not_held s [] n.
Proof. intros i b Hi. by apply elem_of_nil in Hi. Qed.

(** Every dirty block has its buffer, so a bound on the blocks is a bound on
    the buffers. *)
Lemma ndirty_le s held l :
  binv s held -> (forall m, dirty s m -> m ∈ l) -> (ndirty s <= length l)%nat.
Proof.
  intros Hs Hl. unfold ndirty. rewrite <- (length_map blockno).
  apply submseteq_length, NoDup_submseteq.
  - assert (Huq : forall i j b b', bufs s !! i = Some b -> bufs s !! j = Some b' ->
      flags b = 6 -> flags b' = 6 -> blockno b = blockno b' -> i = j).
    { intros i j b b' Hi Hj Hf Hf'. apply (bi_uniq _ _ Hs i j b b' Hi Hj).
      - destruct (bi_flags _ _ Hs i b Hi) as [[? _]|[_ ?]]; [done|congruence].
      - destruct (bi_flags _ _ Hs j b' Hj) as [[? _]|[_ ?]]; [done|congruence]. }
    clear Hl Hs. revert Huq. generalize (bufs s) as bs. induction bs as [|b bs IH]; intros Huq.
    { constructor. }
    assert (Hrest : NoDup (map blockno (List.filter (fun b => flags b =? 6) bs))).
    { apply IH. intros i j c c' Hi Hj ? ? ?. assert (S i = S j); [|lia].
      by eapply (Huq (S i) (S j) c c'). }
    simpl. destruct (Z.eqb_spec (flags b) 6) as [Hb|]; [|done]. simpl. constructor; [|done].
    intros (c & Hc & Hin)%list_elem_of_In%in_map_iff. apply filter_In in Hin as [Hin Hfc].
    apply list_elem_of_In, list_elem_of_lookup in Hin as [k Hk].
    assert (0%nat = S k); [|lia]. eapply (Huq 0%nat (S k) b c); try done. lia.
  - intros m (b & <- & Hin)%list_elem_of_In%in_map_iff. apply filter_In in Hin as [Hin Hf].
    apply list_elem_of_In, list_elem_of_lookup in Hin as [k Hk]. apply Hl.
    exists k, b. split; [done|]. apply Z.eqb_eq in Hf.
    destruct (bi_flags _ _ Hs k b Hk) as [[? _]|[_ ?]]; [done|congruence].
Qed.

Lemma ndirty_mono s held s' held' :
  binv s held -> binv s' held' -> (forall m, dirty s' m -> dirty s m) ->
  (ndirty s' <= ndirty s)%nat.
Proof.
  intros Hs Hs' Hd. unfold ndirty at 2. rewrite <- (length_map blockno).
  apply (ndirty_le s' held' _ Hs'). intros m (i & b & Hi & _ & <- & Hf)%Hd.
  apply list_elem_of_In, in_map, filter_In.
  split; [by apply list_elem_of_In, (list_elem_of_lookup_2 _ i)|lia].
Qed.

Lemma clean_view s n :
  binv s [] -> ~ dirty s n -> view s n = disk s !! Z.to_nat n.
Proof.
  intros Hs Hd. destruct (cached_or_not s n) as [Hu|(i & b & Hi & Hdv & <-)].
  - by apply view_uncached.
  - rewrite (view_cached s [] i b) by done. symmetry.
    apply (bi_clean _ _ Hs i b); [done|done| |by intros ?%elem_of_nil].
    destruct (bi_flags _ _ Hs i b Hi) as [(_ & [?|Hf] & _)|[? _]]; [done| |congruence].
    destruct Hd. by exists i, b.
Qed.

Lemma ndirty_zero s n : ndirty s = 0%nat -> ~ dirty s n.
Proof.
  intros Hd (i & b & Hi & _ & _ & Hf). unfold ndirty in Hd. apply nil_length_inv in Hd.
  apply list_elem_of_lookup_2, list_elem_of_In in Hi.
  assert (Hin : In b (List.filter (fun b => flags b =? 6) (bufs s)))
    by (apply filter_In; split; [done|lia]).
  by rewrite Hd in Hin.
Qed.

(** [bread] and [brelse] of a block leave what the kernel sees, the disk and
    the dirty buffers as they were. *)
Lemma read_block_spec {A} s n (f : block -> A) :
  binv s [] -> 0 <= n < Z.of_nat (length (disk s)) -> (ndirty s < NBUF)%nat ->
  exists s' d, with_block 1 n (fun i => b ← get_buf i; mret (f (bdata b))) s = Ok (f d, s')
    /\ view s n = Some d /\ binv s' [] /\ disk s' = disk s /\ writes s' = writes s
    /\ ndirty s' = ndirty s /\ (forall m, view s' m = view s m)
    /\ forall m, dirty s' m <-> dirty s m.
Proof.
  intros Hs Hn Hd.
  destruct (bread_spec s [] n Hs Hn (not_held_nil s n) (or_intror Hd))
    as (i & fl & d & Hbr & Hv & _ & Hs1 & Hd1 & Hv1 & Hdt1 & Hfl).
  assert (Hi1 : bufs (loaded s i fl n d) !! i = Some (mkBuf fl 1 n 1 1 d)).
  { destruct (held_buf _ _ i Hs1) as (b & Hb & _); [by left|].
    destruct (upd_cases _ _ _ _ _ Hb) as [[_ ->]|[? _]]; done. }
  destruct (brelse_spec (loaded s i fl n d) [] i _ Hs1 Hi1)
    as (s2 & Hre & Hs2 & _ & Hdk & Hw & Hn2 & Hv2 & Hdt2).
  { simpl. destruct Hfl as [[-> Hfl]|Hfl]; [right; exact Hfl|by left]. }
  exists s2, d. split.
  { unfold with_block. mrun. rewrite Hbr, (get_buf_ok _ _ _ Hi1), Hre. done. }
  split; [done|]. split; [done|]. split; [by rewrite Hdk|]. split; [by rewrite Hw|].
  split; [by rewrite Hn2, Hd1|]. split; intros m; [by rewrite Hv2, Hv1|].
  by rewrite Hdt2, Hdt1.
Qed.

(** [bread], a change of the data, [bwrite] and [brelse] write the block
    through to the disk. *)
Lemma write_block_spec s n (g : block -> block) :
  binv s [] -> 0 <= n < Z.of_nat (length (disk s)) -> (ndirty s < NBUF)%nat ->
  exists s' d,
    with_block 1 n (fun i => b ← get_buf i; set_data i (g (bdata b)) ;; bwrite i) s = Ok (tt, s')
    /\ view s n = Some d /\ binv s' [] /\ disk s' = <[Z.to_nat n := g d]> (disk s)
    /\ writes s' = writes s ++ [(n, g d)] /\ (ndirty s' <= ndirty s)%nat
    /\ (forall m, 0 <= m -> view s' m = if m =? n then Some (g d) else view s m)
    /\ forall m, dirty s' m <-> dirty s m /\ m <> n.
Proof.
  intros Hs Hn Hd.
  destruct (bread_spec s [] n Hs Hn (not_held_nil s n) (or_intror Hd))
    as (i & fl & d & Hbr & Hv & _ & Hs1 & Hd1 & Hv1 & Hdt1 & Hfl).
  assert (Hin : i ∈ [i]) by (by left).
  assert (Hi1 : bufs (loaded s i fl n d) !! i = Some (mkBuf fl 1 n 1 1 d)).
  { destruct (held_buf _ _ i Hs1) as (b & Hb & _); [by left|].
    destruct (upd_cases _ _ _ _ _ Hb) as [[_ ->]|[? _]]; done. }
  destruct (set_data_spec _ _ i _ (g d) Hs1 Hin Hi1) as (Hsd & Hs2 & Hd2 & Hv2 & Hdt2).
  simpl in Hsd, Hs2, Hd2, Hv2, Hdt2.
  set (s2 := upd (loaded s i fl n d) i (mkBuf fl 1 n 1 1 (g d))) in *.
  assert (Hi2 : bufs s2 !! i = Some (mkBuf fl 1 n 1 1 (g d))) by (by eapply upd_eq).
  destruct (bwrite_spec s2 _ i _ Hs2 Hin Hi2) as (Hbw & Hs3 & Hd3 & Hv3 & Hdt3).
  set (s3 := written s2 i (mkBuf fl 1 n 1 1 (g d))) in *.
  assert (Hi3 : bufs s3 !! i = Some (mkBuf 2 1 n 1 1 (g d))).
  { by apply (upd_eq s2 i (mkBuf 2 1 n 1 1 (g d)) (mkBuf fl 1 n 1 1 (g d))). }
  destruct (brelse_spec s3 [] i _ Hs3 Hi3) as (s4 & Hre & Hs4 & _ & Hdk & Hw & Hn4 & Hv4 & Hdt4).
  { right. simpl. apply list_lookup_insert_eq. lia. }
  exists s4, d. split.
  { unfold with_block. mrun. rewrite Hbr, (get_buf_ok _ _ _ Hi1). cbn [bdata].
    rewrite Hsd, Hbw, Hre. done. }
  split; [done|]. split; [done|]. split; [by rewrite Hdk|]. split; [by rewrite Hw|].
  split; [lia|]. split; [intros m Hm; by rewrite Hv4, Hv3, Hv2, Hv1 by done|].
  intros m. by rewrite Hdt4, Hdt3, Hdt2, Hdt1.
Qed.

Lemma binv_perm s held held' : Permutation held held' -> binv s held -> binv s held'.
Proof.
  intros Hp [Hl Hlru Hnd Hin Hout Hfl Hu Hcl]. constructor; try done.
  - by rewrite <- Hp.
  - intros i. rewrite <- Hp. apply Hin.
  - intros i b. rewrite <- Hp. apply Hout.
  - intros i b ? ? ?. rewrite <- Hp. by apply Hcl.
Qed.

(** Copying held block [ns] in buffer [y] over held block [nd] in buffer [x],
    writing it, and releasing the source and then the destination. *)
Lemma copy_held_spec s x y fx fy nd ns dx dy :
  binv s [x; y] ->
  bufs s !! x = Some (mkBuf fx 1 nd 1 1 dx) -> bufs s !! y = Some (mkBuf fy 1 ns 1 1 dy) ->
  fy = 6 \/ disk s !! Z.to_nat ns = Some dy ->
  exists s', (set_data x dy ;; bwrite x ;; brelse y ;; brelse x) s = Ok (tt, s')
    /\ binv s' [] /\ disk s' = <[Z.to_nat nd := dy]> (disk s)
    /\ writes s' = writes s ++ [(nd, dy)]
    /\ (forall m, 0 <= m -> view s' m = if m =? nd then Some dy else view s m)
    /\ (forall m, dirty s' m <-> dirty s m /\ m <> nd).
Proof.
  intros Hs Hx Hy Hco. assert (Hin : x ∈ [x; y]) by (by left).
  assert (Hxy : y <> x). { intros ->. apply (NoDup_cons x [x]); [apply Hs|by left]. }
  assert (Hnd : Z.to_nat ns <> Z.to_nat nd).
  { intros E. apply Hxy. eapply (bi_uniq _ _ Hs y x _ _ Hy Hx); try done. simpl.
    destruct (bi_flags _ _ Hs x _ Hx) as [(_ & _ & ?)|[? _]]; [|done].
    destruct (bi_flags _ _ Hs y _ Hy) as [(_ & _ & ?)|[? _]]; [|done]. simpl in *. lia. }
  destruct (set_data_spec s _ x _ dy Hs Hin Hx) as (Hsd & Hs2 & _ & Hv2 & Hdt2).
  simpl in Hsd, Hs2, Hv2, Hdt2.
  set (s2 := upd s x (mkBuf fx 1 nd 1 1 dy)) in *.
  assert (Hx2 : bufs s2 !! x = Some (mkBuf fx 1 nd 1 1 dy)) by (by eapply upd_eq).
  destruct (bwrite_spec s2 _ x _ Hs2 Hin Hx2) as (Hbw & Hs3 & _ & Hv3 & Hdt3).
  set (s3 := written s2 x (mkBuf fx 1 nd 1 1 dy)) in *.
  assert (Hx3 : bufs s3 !! x = Some (mkBuf 2 1 nd 1 1 dy)).
  { by apply (upd_eq s2 x (mkBuf 2 1 nd 1 1 dy) (mkBuf fx 1 nd 1 1 dy)). }
  assert (Hy3 : bufs s3 !! y = Some (mkBuf fy 1 ns 1 1 dy)).
  { simpl. by rewrite !list_lookup_insert_ne. }
  apply (binv_perm _ _ [y; x]) in Hs3; [|apply Permutation_swap].
  destruct (brelse_spec s3 [x] y _ Hs3 Hy3)
    as (s4 & Hre4 & Hs4 & Hb4 & Hdk4 & Hw4 & _ & Hv4 & Hdt4).
  { simpl. destruct Hco as [?|Hco]; [by left|right]. by rewrite list_lookup_insert_ne. }
  assert (Hx4 : bufs s4 !! x = Some (mkBuf 2 1 nd 1 1 dy)).
  { rewrite Hb4. by rewrite list_lookup_insert_ne. }
  destruct (brelse_spec s4 [] x _ Hs4 Hx4)
    as (s5 & Hre5 & Hs5 & _ & Hdk5 & Hw5 & _ & Hv5 & Hdt5).
  { right. simpl. rewrite Hdk4. simpl. apply list_lookup_insert_eq.
    destruct (bi_flags _ _ Hs x _ Hx) as [(_ & _ & ?)|[? _]]; [|done]. simpl in *. lia. }
  exists s5. split.
  { mrun. by rewrite Hsd, Hbw, Hre4, Hre5. }
  split; [done|]. split; [by rewrite Hdk5, Hdk4|]. split; [by rewrite Hw5, Hw4|]. split.
  - intros m Hm. rewrite Hv5, Hv4, Hv3, Hv2 by done. done.
  - intros m. by rewrite Hdt5, Hdt4, Hdt3, Hdt2.
Qed.

(** Reading two different blocks and holding both. *)
Lemma two_reads s p q :
  binv s [] -> p <> q ->
  0 <= p < Z.of_nat (length (disk s)) -> 0 <= q < Z.of_nat (length (disk s)) ->
  (dirty s p \/ ndirty s < NBUF)%nat -> (dirty s q \/ 1 + ndirty s < NBUF)%nat ->
  exists i j fi fj di dj s1 s2,
    bread 1 p s = Ok (i, s1) /\ bread 1 q s1 = Ok (j, s2)
    /\ binv s2 [j; i]
    /\ bufs s2 !! i = Some (mkBuf fi 1 p 1 1 di) /\ bufs s2 !! j = Some (mkBuf fj 1 q 1 1 dj)
    /\ view s p = Some di /\ view s q = Some dj
    /\ (fi = 6 \/ disk s2 !! Z.to_nat p = Some di)
    /\ (fj = 6 \/ disk s2 !! Z.to_nat q = Some dj)
    /\ disk s2 = disk s /\ writes s2 = writes s
    /\ (forall m, view s2 m = view s m) /\ (forall m, dirty s2 m <-> dirty s m).
Proof.
  intros Hs Hpq Hp Hq Hcp Hcq.
  destruct (bread_spec s [] p Hs Hp (not_held_nil s p) Hcp)
    as (i & fi & di & Hbp & Hvp & _ & Hs1 & Hd1 & Hv1 & Hdt1 & Hf1).
  assert (Hi1 : bufs (loaded s i fi p di) !! i = Some (mkBuf fi 1 p 1 1 di)).
  { destruct (held_buf _ _ i Hs1) as (b & Hb & _); [by left|].
    destruct (upd_cases _ _ _ _ _ Hb) as [[_ ->]|[? _]]; done. }
  destruct (bread_spec (loaded s i fi p di) [i] q Hs1)
    as (j & fj & dj & Hbq & Hvq & Hnj & Hs2 & Hd2 & Hv2 & Hdt2 & Hf2).
  - done.
  - intros k b ->%list_elem_of_singleton Hb. rewrite Hi1 in Hb. injection Hb as <-. done.
  - simpl. rewrite Hd1, Hdt1. done.
  - assert (Hji : i <> j) by (intros ->; by apply Hnj; left).
    exists i, j, fi, fj, di, dj, (loaded s i fi p di),
      (loaded (loaded s i fi p di) j fj q dj).
    split; [done|]. split; [done|]. split; [done|].
    split; [unfold loaded at 1; by rewrite upd_ne|]. split.
    { destruct (held_buf _ _ j Hs2) as (b & Hb & _); [by left|].
      destruct (upd_cases _ _ _ _ _ Hb) as [[_ ->]|[? _]]; done. }
    split; [done|]. split; [by rewrite <- Hv1|].
    split; [destruct Hf1 as [[_ ?]|?]; auto|]. split; [destruct Hf2 as [[_ ?]|?]; auto|].
    split; [done|]. split; [done|]. split; intros m; [by rewrite Hv2, Hv1|].
    by rewrite Hdt2, Hdt1.
Qed.

Lemma do_op_spec o s :
  binv s [] -> ndirty s = 0%nat -> 0 <= op_block o < Z.of_nat (length (disk s)) ->
  exists s', do_op o s = Ok (match o with
                             | Rd n => Some (default ([] : block) (disk s !! Z.to_nat n))
                             | Wr _ _ => None
                             end, s')
    /\ binv s' [] /\ ndirty s' = 0%nat
    /\ disk s' = match o with Rd _ => disk s | Wr n d => <[Z.to_nat n := d]> (disk s) end.
Proof.
  intros Hs Hd Hn. assert (Hlt : (ndirty s < NBUF)%nat) by (rewrite Hd; unfold NBUF; lia).
  destruct o as [n|n d]; simpl in Hn.
  - destruct (read_block_spec s n Some Hs Hn Hlt)
      as (s' & d & Hrun & Hv & Hs' & Hdk & _ & Hn' & _).
    rewrite clean_view in Hv by (done || by apply ndirty_zero). exists s'. cbn [do_op]. rewrite Hrun, Hv, Hn'. done.
  - destruct (write_block_spec s n (fun _ => d) Hs Hn Hlt)
      as (s' & d0 & Hrun & _ & Hs' & Hdk & _ & Hn' & _).
    exists s'. split; [|split; [done|split; [lia|done]]].
    revert Hrun. unfold do_op, with_block, set_data. mrun.
    destruct (bread 1 n s) as [[i s1]| | |]; try done.
    destruct (get_buf i s1) as [[b s2]| | |] eqn:E; try done.
    assert (s2 = s1) as -> by (unfold get_buf in E; destruct (bufs s1 !! i); congruence).
    rewrite E. destruct (set_buf i _ s1) as [[[] s3]| | |]; try done.
    destruct (bwrite i s3) as [[[] s4]| | |]; try done.
    destruct (brelse i s4) as [[[] s5]| | |]; try done. by intros [= ->].
Qed.

Lemma binit_inv d : binv (binit d) [] /\ ndirty (binit d) = 0%nat.
Proof.
  split; [|done].
  assert (Hb : forall i b, bufs (binit d) !! i = Some b ->
            b = mkBuf 0 0 0 0 0 (replicate (Z.to_nat BSIZE) 0)).
  { intros i b [-> _]%lookup_replicate. done. }
  constructor.
  - apply length_replicate.
  - simpl lru. symmetry. apply Permutation_rev.
  - constructor.
  - by intros i ?%elem_of_nil.
  - by intros i b _ ->%Hb.
  - intros i b ->%Hb. by right.
  - by intros i j b b' ->%Hb.
  - by intros i b ->%Hb.
Qed.

(** C18: the buffer cache is transparent: from [binit] on, any sequence of block
    reads ([bread]/[brelse]) and block writes ([bread], change, [bwrite],
    [brelse]) runs without panic or deadlock, through however many evictions,
    and returns and stores exactly what the same sequence does on a plain array
    of blocks; the disk always holds the array. *)
Theorem bcache_refines_array d ops :
  Forall (fun o => 0 <= op_block o < Z.of_nat (length d)) ops ->
  exists s, do_ops ops (binit d) = Ok (fst (spec_ops ops d), s)
    /\ disk s = snd (spec_ops ops d).
Proof.
  intros Hops. destruct (binit_inv d) as [Hi Hd].
  change d with (disk (binit d)) in Hops |- * at 2 3. 
  revert Hi Hd Hops. generalize (binit d) as s. clear d.
  induction ops as [|o ops IH]; intros s Hs Hd Hops; [by exists s|].
  apply Forall_cons in Hops as [Ho Hops].
  destruct (do_op_spec o s Hs Hd Ho) as (s1 & Hrun & Hs1 & Hd1 & Hdk).
  destruct (IH s1 Hs1 Hd1) as (s2 & Hrest & Hfin).
  { eapply Forall_impl; [exact Hops|]. intros o'. simpl. rewrite Hdk.
    destruct o; by rewrite ?length_insert. }
  exists s2. cbn [do_ops]. mrun. rewrite Hrun, Hrest. rewrite Hdk in *.
  destruct o as [n|n b]; cbn [spec_ops].
  - destruct (spec_ops ops (disk s)) as [rs a]. done.
  - done.
Qed.

Lemma bcache_refines_array_witness :
  exists s, do_ops [Rd 1; Wr 1 [7]; Rd 1] (binit [[1]; [2]; [3]]) = Ok ([[2]; [7]], s)
    /\ disk s = [[1]; [7]; [3]].
Proof.
  apply (bcache_refines_array [[1]; [2]; [3]] [Rd 1; Wr 1 [7]; Rd 1]).
  repeat constructor; simpl; lia.
Defined.

(** The cache can be exhausted by one transaction: when all [NBUF] buffers
    hold logged, uncommitted blocks, reading any other block panics.  The log
    allows [LOGSIZE = NBUF] blocks per transaction, and its commit reads the
    log blocks through the same cache. *)
Theorem bread_panics_when_all_dirty s n :
  binv s [] -> ndirty s = NBUF -> uncached s n ->
  bread 1 n s = Panic "bget: no buffers".
Proof.
  intros Hs Hd Hu. unfold bread, bget. mrun. rewrite find_uncached by done.
  assert (Hall : forall i, recyclable s i = false).
  { intros i. unfold recyclable. destruct (bufs s !! i) as [b|] eqn:Hi; [|done].
    assert (Hf : flags b = 6).
    { unfold ndirty in Hd. rewrite <- (bi_len _ _ Hs) in Hd.
      pose proof (filter_split (fun b => flags b =? 6) (bufs s)) as Hsp.
      assert (Hnil : List.filter (fun b => negb (flags b =? 6)) (bufs s) = [])
        by (apply nil_length_inv; lia).
      apply list_elem_of_lookup_2, list_elem_of_In in Hi.
      destruct (Z.eqb_spec (flags b) 6) as [|Hne]; [done|]. exfalso.
      assert (Hin : In b (List.filter (fun b => negb (flags b =? 6)) (bufs s)))
        by (apply filter_In; split; [done|lia]).
      by rewrite Hnil in Hin. }
    rewrite Hf. apply andb_false_r. }
  destruct (List.find (recyclable s) (rev (lru s))) as [i|] eqn:E; [|done].
  apply find_some in E as [_ E]. by rewrite Hall in E.
Qed.

Definition full_cache : bcache :=
  mkBcache (map (fun i => mkBuf 6 1 (Z.of_nat i) 0 0 []) (seq 0 NBUF)) (seq 0 NBUF)
    (replicate 40 []) [].

Lemma full_cache_buf i b :
  bufs full_cache !! i = Some b -> b = mkBuf 6 1 (Z.of_nat i) 0 0 [] /\ (i < NBUF)%nat.
Proof.
  unfold full_cache. cbn [bufs]. rewrite list_lookup_fmap. intros (j & Hj & ->)%fmap_Some.
  apply lookup_seq in Hj as [-> ?]. done.
Qed.

Lemma bread_panics_when_all_dirty_witness :
  bread 1 35 full_cache = Panic "bget: no buffers".
Proof.
  apply (bread_panics_when_all_dirty full_cache 35).
  - constructor.
    + reflexivity.
    + reflexivity.
    + constructor.
    + by intros i ?%elem_of_nil.
    + by intros i b _ [-> _]%full_cache_buf.
    + intros i b [-> Hi]%full_cache_buf. left. simpl. unfold NBUF in Hi. lia.
    + intros i j b b' [-> _]%full_cache_buf [-> _]%full_cache_buf. simpl. lia.
    + by intros i b [-> _]%full_cache_buf.
  - reflexivity.
  - intros i b [-> Hi]%full_cache_buf. simpl. unfold NBUF in Hi. lia.
Defined.
