(* ===== verification/Log.v ===== *)
(** Model of src/log.c: the write-ahead log that makes a group of file-system
    calls one atomic disk update.

    The log's state is the record [log] beside the buffer cache.  A header
    block on disk is decoded from the bytes of the block, as the cast to
    [struct logheader] does.  [begin_op] that has to sleep returns [None]. *)
From stdpp Require Import base strings numbers list.
From S2P Require Import Prelude Bio.
Local Open Scope Z_scope.

Definition MAXOPBLOCKS : Z := 10.
Definition LOGSIZE : Z := MAXOPBLOCKS * 3.

Record log : Type := mkLog {
  start : Z;
  size : Z;
  outstanding : Z;
  committing : bool;
  ldev : Z;
  lh_n : Z;
  lh_block : list Z }.

Record lstate : Type := mkLstate { cache : bcache; lg : log }.

Definition on_cache {A} (m : M bcache A) : M lstate A := fun s =>
  match m (cache s) with
  | Ok (a, c) => Ok (a, mkLstate c (lg s))
  | Panic e => Panic e
  | Fault => Fault
  | NoFuel => NoFuel
  end.
Definition set_log (l : log) : M lstate unit := modify (fun s => mkLstate (cache s) l).
Definition set_lh (n : Z) (block : list Z) : M lstate unit := modify (fun s =>
  let l := lg s in
  mkLstate (cache s)
    (mkLog (start l) (size l) (outstanding l) (committing l) (ldev l) n block)).

(** A little-endian [int] at byte offset [off] of a block. *)
Definition get_int (d : block) (off : nat) : Z :=
  let b k := nth (off + k) d 0 in
  s32 (b 0%nat + 256 * (b 1%nat + 256 * (b 2%nat + 256 * b 3%nat))).
Definition put_int (d : block) (off : nat) (v : Z) : block :=
  <[off := u8 v]> (<[(off + 1)%nat := u8 (v / 256)]>
  (<[(off + 2)%nat := u8 (v / 256 / 256)]> (<[(off + 3)%nat := u8 (v / 256 / 256 / 256)]> d))).

(** [struct logheader] in a block: [n] and then [block[]]. *)
Definition head_n (d : block) : Z := get_int d 0.
Definition head_block (d : block) (i : nat) : Z := get_int d (4 + 4 * i).

(** [hb->n = n; for (i = 0; i < n; i++) hb->block[i] = block[i]]. *)
Fixpoint put_blocks (d : block) (i : nat) (bl : list Z) : block :=
  match bl with
  | [] => d
  | b :: bl => put_blocks (put_int d (4 + 4 * i) b) (S i) bl
  end.
Definition put_head (d : block) (n : Z) (bl : list Z) : block :=
  put_blocks (put_int d 0 n) 0 (take (Z.to_nat n) bl).

Fixpoint for_each (l : list nat) (f : nat -> M lstate unit) : M lstate unit :=
  match l with
  | [] => mret tt
  | x :: l => f x ;; for_each l f
  end.

(** [log.lh.block[i]]. *)
Definition lh_get (i : nat) : M lstate Z := fun s =>
  match lh_block (lg s) !! i with Some b => Ok (b, s) | None => Fault end.

(** The body of [install_trans]: copy log block [tail] to its home. *)
Definition install_one (tail : nat) : M lstate unit :=
  l ← gets lg;
  dst ← lh_get tail;
  on_cache (
    lbuf ← bread (ldev l) (s32 (start l + Z.of_nat tail + 1));
    dbuf ← bread (ldev l) dst;
    b ← get_buf lbuf;
    set_data dbuf (bdata b) ;;
    bwrite dbuf ;;
    brelse lbuf ;;
    brelse dbuf).

Definition install_trans : M lstate unit :=
  l ← gets lg;
  for_each (seq 0 (Z.to_nat (lh_n l))) install_one.

(** [read_head] copies [n] block numbers into [log.lh.block], an array of
    [LOGSIZE]; more would be written past its end. *)
Definition read_head : M lstate unit :=
  l ← gets lg;
  d ← on_cache (with_block (ldev l) (start l) (fun buf =>
    b ← get_buf buf; mret (bdata b)));
  let n := head_n d in
  if LOGSIZE <? n then fault
  else set_lh n (map (head_block d) (seq 0 (Z.to_nat n)) ++ drop (Z.to_nat n) (lh_block l)).

Definition write_head : M lstate unit :=
  l ← gets lg;
  on_cache (with_block (ldev l) (start l) (fun buf =>
    b ← get_buf buf;
    set_data buf (put_head (bdata b) (lh_n l) (lh_block l)) ;;
    bwrite buf)).

Definition recover_from_log : M lstate unit :=
  read_head ;;
  install_trans ;;
  l ← gets lg;
  set_lh 0 (lh_block l) ;;
  write_head.

(** [initlog] with the superblock's [logstart] and [nlog]. *)
Definition initlog (dev logstart nlog : Z) : M lstate unit :=
  l ← gets lg;
  set_log (mkLog logstart nlog (outstanding l) (committing l) dev (lh_n l) (lh_block l)) ;;
  recover_from_log.

(** One turn of the loop of [begin_op]; [None] is a [sleep]. *)
Definition begin_op : M lstate (option unit) :=
  l ← gets lg;
  if committing l then mret None
  else if LOGSIZE <? lh_n l + (outstanding l + 1) * MAXOPBLOCKS then mret None
  else
    set_log (mkLog (start l) (size l) (outstanding l + 1) (committing l) (ldev l)
               (lh_n l) (lh_block l)) ;;
    mret (Some tt).

(** The body of [write_log]: copy the cached block to log block [tail]. *)
Definition write_one (tail : nat) : M lstate unit :=
  l ← gets lg;
  src ← lh_get tail;
  on_cache (
    to_ ← bread (ldev l) (s32 (start l + Z.of_nat tail + 1));
    from ← bread (ldev l) src;
    b ← get_buf from;
    set_data to_ (bdata b) ;;
    bwrite to_ ;;
    brelse from ;;
    brelse to_).

Definition write_log : M lstate unit :=
  l ← gets lg;
  for_each (seq 0 (Z.to_nat (lh_n l))) write_one.

Definition commit : M lstate unit :=
  l ← gets lg;
  when (0 <? lh_n l) (
    write_log ;;
    write_head ;;
    install_trans ;;
    l ← gets lg;
    set_lh 0 (lh_block l) ;;
    write_head).

Definition end_op : M lstate unit :=
  l ← gets lg;
  let out := outstanding l - 1 in
  if committing l then panic "log.committing"
  else if out =? 0 then
    set_log (mkLog (start l) (size l) out true (ldev l) (lh_n l) (lh_block l)) ;;
    commit ;;
    l ← gets lg;
    set_log (mkLog (start l) (size l) (outstanding l) false (ldev l) (lh_n l) (lh_block l))
  else
    set_log (mkLog (start l) (size l) out (committing l) (ldev l) (lh_n l) (lh_block l)).

(** [for (i = 0; i < log.lh.n; i++) if (log.lh.block[i] == b->blockno) break]. *)
Fixpoint absorb (blocks : list Z) (n : Z) (i : nat) : nat :=
  match blocks with
  | [] => i
  | b :: blocks => if b =? n then i else absorb blocks n (S i)
  end.

Definition log_write (i : nat) : M lstate unit :=
  l ← gets lg;
  if (LOGSIZE <=? lh_n l) || (size l - 1 <=? lh_n l)
  then panic "too big a transaction"
  else if outstanding l <? 1 then panic "log_write outside of trans"
  else
    b ← on_cache (get_buf i);
    let k := absorb (take (Z.to_nat (lh_n l)) (lh_block l)) (blockno b) 0 in
    block ← lift (buf_set (lh_block l) (Z.of_nat k) (blockno b));
    set_lh (if (Z.of_nat k =? lh_n l) then lh_n l + 1 else lh_n l) block ;;
    on_cache (set_buf i (mkBuf (Z.lor (flags b) B_DIRTY) (dev b) (blockno b) (slock b)
                           (refcnt b) (bdata b))).

(** * Header blocks *)

Lemma length_put_int d off v : length (put_int d off v) = length d.
Proof. unfold put_int. by rewrite !length_insert. Qed.

Lemma get_put_int_wrap d off v :
  (off + 3 < length d)%nat -> get_int (put_int d off v) off = s32 v.
Proof.
  intros Hl. unfold get_int, put_int. rewrite Nat.add_0_r, !nth_lookup.
  rewrite list_lookup_insert_eq by (rewrite !length_insert; lia).
  rewrite list_lookup_insert_ne by lia.
  rewrite list_lookup_insert_eq by (rewrite !length_insert; lia).
  do 2 (rewrite list_lookup_insert_ne by lia).
  rewrite list_lookup_insert_eq by (rewrite !length_insert; lia).
  do 3 (rewrite list_lookup_insert_ne by lia).
  rewrite list_lookup_insert_eq by lia. simpl.
  unfold s32, u8. dlia.
Qed.

Lemma get_put_int d off v :
  (off + 3 < length d)%nat -> is_s32 v -> get_int (put_int d off v) off = v.
Proof. intros Hl Hv. rewrite get_put_int_wrap by done. by apply s32_id. Qed.

Lemma get_put_int_ne d off off' v :
  (off + 4 <= off' \/ off' + 4 <= off)%nat -> get_int (put_int d off v) off' = get_int d off'.
Proof.
  intros H. unfold get_int, put_int. rewrite !nth_lookup.
  repeat (rewrite list_lookup_insert_ne by lia). done.
Qed.

Lemma length_put_blocks bl d i : length (put_blocks d i bl) = length d.
Proof.
  revert d i. induction bl as [|b bl IH]; intros d i; [done|]. simpl.
  by rewrite IH, length_put_int.
Qed.

Lemma put_blocks_low bl d i off :
  (off + 4 <= 4 + 4 * i)%nat -> get_int (put_blocks d i bl) off = get_int d off.
Proof.
  revert d i. induction bl as [|b bl IH]; intros d i Ho; [done|]. simpl.
  rewrite IH by lia. apply get_put_int_ne. lia.
Qed.

Lemma put_blocks_get bl d i k b :
  (4 + 4 * (i + length bl) <= length d)%nat -> Forall is_s32 bl -> bl !! k = Some b ->
  head_block (put_blocks d i bl) (i + k) = b.
Proof.
  revert d i k. induction bl as [|c bl IH]; intros d i k Hl Hs Hk; [done|].
  apply Forall_cons in Hs as [Hc Hs]. cbn [length put_blocks] in *.
  destruct k as [|k]; simpl in Hk.
  - injection Hk as ->. unfold head_block. rewrite (Nat.add_0_r i).
    rewrite put_blocks_low by lia. apply get_put_int; [lia|done].
  - replace (i + S k)%nat with (S i + k)%nat by lia. apply IH; [|done|done].
    rewrite length_put_int. lia.
Qed.

Definition is_head (d : block) : Prop := Z.of_nat (length d) = BSIZE.

(** The home block numbers a header lists. *)
Definition head_blocks (d : block) : list Z :=
  map (head_block d) (seq 0 (Z.to_nat (head_n d))).

Lemma put_head_spec d n bl :
  is_head d -> 0 <= n <= LOGSIZE -> (Z.to_nat n <= length bl)%nat -> Forall is_s32 bl ->
  is_head (put_head d n bl) /\ head_n (put_head d n bl) = n
  /\ head_blocks (put_head d n bl) = take (Z.to_nat n) bl.
Proof.
  unfold is_head, BSIZE, LOGSIZE, MAXOPBLOCKS. intros Hd Hn Hl Hs.
  assert (Hhn : head_n (put_head d n bl) = n).
  { unfold head_n, put_head. rewrite put_blocks_low by lia.
    apply get_put_int; [lia|]. unfold is_s32. lia. }
  split; [|split; [done|]].
  - unfold put_head. by rewrite length_put_blocks, length_put_int.
  - unfold head_blocks. rewrite Hhn. apply list_eq. intros k.
    rewrite list_lookup_fmap.
    destruct (decide (k < Z.to_nat n)%nat) as [Hk|Hk].
    + rewrite lookup_seq_lt by lia. simpl. rewrite lookup_take_lt by lia.
      destruct (lookup_lt_is_Some_2 bl k) as [b Hb]; [lia|]. rewrite Hb. f_equal.
      apply (put_blocks_get _ _ 0 k).
      * rewrite length_put_int, length_take. lia.
      * by apply Forall_take.
      * by rewrite lookup_take_lt by lia.
    + rewrite lookup_seq_ge by lia. simpl. rewrite lookup_take_ge by lia. done.
Qed.

(** * What a disk means

    [apply_writes ws d] is the disk after the block writes [ws]; a crash leaves
    the disk after some prefix of them.  [logical st d m] is the content of
    block [m] of the file system stored on disk [d] with its log at [st]: the
    logged copy if the header lists the block, its home otherwise. *)
Definition apply_writes (ws : list (Z * block)) (d : list block) : list block :=
  fold_left (fun d '(n, b) => <[Z.to_nat n := b]> d) ws d.

Definition header (st : Z) (d : list block) : block := default [] (d !! Z.to_nat st).

Definition logical (st : Z) (d : list block) (m : Z) : option block :=
  match list_find (m =.) (head_blocks (header st d)) with
  | Some (k, _) => d !! Z.to_nat (st + Z.of_nat k + 1)
  | None => d !! Z.to_nat m
  end.

(** Block [m] is outside the log area [st, st + sz) of a disk of [len] blocks. *)
Definition home (st sz len m : Z) : Prop := 0 <= m < len /\ ~ (st <= m < st + sz).

Record log_wf (st sz : Z) (d : list block) : Prop := {
  wf_area : 0 <= st /\ 0 < sz /\ st + sz <= Z.of_nat (length d) /\ Z.of_nat (length d) < 2 ^ 31;
  wf_head : is_head (header st d);
  wf_n : 0 <= head_n (header st d) <= LOGSIZE /\ head_n (header st d) <= sz - 1;
  wf_nodup : NoDup (head_blocks (header st d));
  wf_home : Forall (home st sz (Z.of_nat (length d))) (head_blocks (header st d)) }.

Lemma length_apply ws d : length (apply_writes ws d) = length d.
Proof.
  revert d. induction ws as [|[n b] ws IH]; intros d; [done|]. simpl.
  unfold apply_writes in *. simpl. by rewrite IH, length_insert.
Qed.

Lemma apply_app ws ws' d :
  apply_writes (ws ++ ws') d = apply_writes ws' (apply_writes ws d).
Proof. apply fold_left_app. Qed.

Lemma apply_other ws d i :
  Forall (fun w => Z.to_nat (fst w) <> i) ws -> apply_writes ws d !! i = d !! i.
Proof.
  intros H. revert d. induction H as [|[n b] ws Hn _ IH]; intros d; [done|].
  unfold apply_writes in *. simpl. rewrite IH. by apply list_lookup_insert_ne.
Qed.

Lemma apply_zip bl vals d k m v :
  NoDup bl -> Forall (fun m => 0 <= m < Z.of_nat (length d)) bl ->
  bl !! k = Some m -> vals !! k = Some v ->
  apply_writes (zip bl vals) d !! Z.to_nat m = Some v.
Proof.
  intros Hnd. revert vals d k. induction Hnd as [|b bl Hni Hnd IH]; intros vals d k Hr Hk Hv;
    [done|].
  apply Forall_cons in Hr as [Hb Hr]. destruct vals as [|w vals]; [done|].
  destruct k as [|k]; simpl in Hk, Hv.
  - injection Hk as ->. injection Hv as ->. simpl. unfold apply_writes. simpl.
    fold (apply_writes (zip bl vals) (<[Z.to_nat m:=v]> d)). rewrite apply_other.
    + apply list_lookup_insert_eq. lia.
    + apply Forall_forall. intros [n c] Hin%elem_of_zip_l. simpl.
      eapply Forall_forall in Hr; [|exact Hin]. intros E.
      assert (n = m) by lia. by subst.
  - simpl. unfold apply_writes. simpl. apply (IH vals (<[Z.to_nat b:=w]> d) k); [|done|done].
    by rewrite length_insert.
Qed.

(** The header lists nothing: the disk means itself. *)
Lemma logical_empty st d m : head_blocks (header st d) = [] -> logical st d m = d !! Z.to_nat m.
Proof. intros H. unfold logical. by rewrite H. Qed.

Lemma logical_listed st d k m :
  NoDup (head_blocks (header st d)) -> head_blocks (header st d) !! k = Some m ->
  logical st d m = d !! Z.to_nat (st + Z.of_nat k + 1).
Proof.
  intros Hnd Hk. unfold logical.
  destruct (list_find (m =.) (head_blocks (header st d))) as [[j m']|] eqn:E.
  - apply list_find_Some in E as (Hj & <- & _).
    by rewrite (NoDup_lookup _ k j m Hnd Hk Hj).
  - apply list_find_None in E. apply list_elem_of_lookup_2 in Hk.
    by eapply Forall_forall in E.
Qed.

Lemma logical_unlisted st d m :
  m ∉ head_blocks (header st d) -> logical st d m = d !! Z.to_nat m.
Proof.
  intros Hni. unfold logical.
  destruct (list_find (m =.) (head_blocks (header st d))) as [[j m']|] eqn:E; [|done].
  apply list_find_Some in E as (Hj & <- & _). by destruct Hni; eapply list_elem_of_lookup_2.
Qed.

(** Two disks with the same header and the same log slots mean the same if they
    agree on the homes that are not listed. *)
Lemma logical_ext st d d' m :
  NoDup (head_blocks (header st d)) -> header st d' = header st d ->
  (forall k, (k < length (head_blocks (header st d)))%nat ->
     d' !! Z.to_nat (st + Z.of_nat k + 1) = d !! Z.to_nat (st + Z.of_nat k + 1)) ->
  (m ∉ head_blocks (header st d) -> d' !! Z.to_nat m = d !! Z.to_nat m) ->
  logical st d' m = logical st d m.
Proof.
  intros Hnd Hh Hs Hm.
  destruct (decide (m ∈ head_blocks (header st d))) as [[k Hk]%list_elem_of_lookup|Hni].
  - rewrite (logical_listed st d k m) by done.
    rewrite (logical_listed st d' k m) by (by rewrite Hh).
    apply Hs. by eapply lookup_lt_Some.
  - rewrite !logical_unlisted by (by rewrite ?Hh). by apply Hm.
Qed.

Lemma head_blocks_length h : length (head_blocks h) = Z.to_nat (head_n h).
Proof. unfold head_blocks. by rewrite length_map, length_seq. Qed.

(** Writes to listed homes change neither the header nor the meaning. *)
Lemma install_writes st sz d ws :
  log_wf st sz d ->
  Forall (fun w => fst w ∈ head_blocks (header st d)) ws ->
  header st (apply_writes ws d) = header st d
  /\ log_wf st sz (apply_writes ws d)
  /\ forall m, 0 <= m -> logical st (apply_writes ws d) m = logical st d m.
Proof.
  intros [Ha Hh Hn Hnd Hhm] Hws.
  assert (Hlog : forall i, st <= i < st + sz ->
            apply_writes ws d !! Z.to_nat i = d !! Z.to_nat i).
  { intros i Hi. apply apply_other. eapply Forall_impl; [exact Hws|].
    intros [n b] Hin. simpl in *. eapply Forall_forall in Hhm; [|exact Hin].
    unfold home in Hhm. lia. }
  assert (Hhd : header st (apply_writes ws d) = header st d).
  { unfold header. by rewrite Hlog by lia. }
  split; [done|]. split.
  - constructor; rewrite ?Hhd, ?length_apply; done.
  - intros m Hm. apply logical_ext; [done|done| |].
    + intros k Hk. apply Hlog. rewrite head_blocks_length in Hk. lia.
    + intros Hni. apply apply_other. eapply Forall_impl; [exact Hws|].
      intros [n b] Hin E. simpl in *. assert (n = m); [|by subst].
      eapply Forall_forall in Hhm; [|exact Hin]. unfold home in Hhm. lia.
Qed.

(** The logged copies, in the order of the header. *)
Definition slots (st : Z) (d : list block) : list block :=
  map (fun k => default ([] : block) (d !! Z.to_nat (st + Z.of_nat k + 1)))
    (seq 0 (Z.to_nat (head_n (header st d)))).

(** The writes of a recovery (and of the second half of a commit): install the
    logged blocks and clear the header.  [blk] is the in-memory array, of which
    a header with [n = 0] stores nothing. *)
Definition recovery_writes (st : Z) (d : list block) (blk : list Z) : list (Z * block) :=
  zip (head_blocks (header st d)) (slots st d) ++ [(st, put_head (header st d) 0 blk)].

Lemma length_slots st d : length (slots st d) = length (head_blocks (header st d)).
Proof. unfold slots. by rewrite length_map, length_seq, head_blocks_length. Qed.

Lemma slots_lookup st sz d k :
  log_wf st sz d -> (k < length (head_blocks (header st d)))%nat ->
  d !! Z.to_nat (st + Z.of_nat k + 1) = slots st d !! k
  /\ is_Some (slots st d !! k).
Proof.
  intros [Ha _ Hn _ _] Hk. rewrite head_blocks_length in Hk.
  unfold slots. rewrite list_lookup_fmap, lookup_seq_lt by lia. simpl.
  destruct (lookup_lt_is_Some_2 d (Z.to_nat (st + Z.of_nat k + 1))) as [v Hv]; [lia|].
  rewrite Hv. split; [done|by eexists].
Qed.

Lemma header_insert st d h :
  0 <= st < Z.of_nat (length d) -> header st (<[Z.to_nat st := h]> d) = h.
Proof. intros H. unfold header. rewrite list_lookup_insert_eq by lia. done. Qed.

Lemma clear_head st sz d blk :
  log_wf st sz d -> head_blocks (put_head (header st d) 0 blk) = []
  /\ log_wf st sz (<[Z.to_nat st := put_head (header st d) 0 blk]> d).
Proof.
  intros [Ha Hh Hn Hnd Hhm].
  destruct (put_head_spec (header st d) 0 [] Hh) as (H1 & H2 & H3);
    [unfold LOGSIZE, MAXOPBLOCKS; lia|simpl; lia|constructor|].
  change (put_head (header st d) 0 []) with (put_head (header st d) 0 blk) in *.
  split; [done|].
  constructor; rewrite ?length_insert, ?header_insert by lia; try done.
  - rewrite H2. unfold LOGSIZE, MAXOPBLOCKS. lia.
  - rewrite H3. constructor.
  - rewrite H3. constructor.
Qed.

(** Installing everything gives every home its meaning. *)
Lemma install_all st sz d m :
  log_wf st sz d -> home st sz (Z.of_nat (length d)) m ->
  apply_writes (zip (head_blocks (header st d)) (slots st d)) d !! Z.to_nat m
  = logical st d m.
Proof.
  intros Hwf Hm. pose proof Hwf as [Ha Hh Hn Hnd Hhm].
  destruct (decide (m ∈ head_blocks (header st d))) as [[k Hk]%list_elem_of_lookup|Hni].
  - rewrite (logical_listed st d k m) by done.
    destruct (slots_lookup st sz d k Hwf) as [Hs [v Hv]]; [by eapply lookup_lt_Some|].
    rewrite Hs, Hv. eapply apply_zip; [done| |done|done].
    eapply Forall_impl; [exact Hhm|]. unfold home. lia.
  - rewrite logical_unlisted by done. apply apply_other, Forall_forall.
    intros [n b] Hin%elem_of_zip_l E. simpl in *. assert (n = m); [|by subst].
    eapply Forall_forall in Hhm; [|exact Hin]. unfold home in *. lia.
Qed.

Lemma zip_in_head st d k :
  Forall (fun w => fst w ∈ head_blocks (header st d))
    (take k (zip (head_blocks (header st d)) (slots st d))).
Proof. apply Forall_take, Forall_forall. intros [n b] Hin%elem_of_zip_l. done. Qed.

(** Every prefix of a recovery leaves a well-formed disk of the same meaning;
    the whole recovery leaves an empty log and every block at its home. *)
Lemma recovery_meaning st sz d blk k :
  log_wf st sz d ->
  let d' := apply_writes (take k (recovery_writes st d blk)) d in
  log_wf st sz d'
  /\ (forall m, home st sz (Z.of_nat (length d)) m -> logical st d' m = logical st d m)
  /\ ((length (recovery_writes st d blk) <= k)%nat ->
      head_blocks (header st d') = []
      /\ forall m, home st sz (Z.of_nat (length d)) m -> d' !! Z.to_nat m = logical st d m).
Proof.
  intros Hwf d'. unfold recovery_writes in *. subst d'.
  set (W := zip (head_blocks (header st d)) (slots st d)) in *.
  destruct (decide (k <= length W)%nat) as [Hk|Hk].
  - rewrite take_app_le by done.
    destruct (install_writes st sz d (take k W) Hwf (zip_in_head st d k)) as (_ & Hwf' & Hl).
    split; [done|]. split; [intros m [? _]; apply Hl; lia|].
    rewrite length_app. simpl. lia.
  - rewrite take_ge by (rewrite length_app; simpl; lia). rewrite apply_app.
    pose proof (zip_in_head st d (length W)) as Hin. fold W in Hin; rewrite take_ge in Hin by lia.
    destruct (install_writes st sz d W Hwf Hin) as (Hh & Hwf' & Hl).
    set (d1 := apply_writes W d) in *. unfold apply_writes. simpl.
    rewrite <- Hh. destruct (clear_head st sz d1 blk Hwf') as [Hc Hwf''].
    pose proof (wf_area _ _ _ Hwf) as Ha. assert (Hlen : length d1 = length d) by apply length_apply.
    assert (Hhome : forall m, home st sz (Z.of_nat (length d)) m ->
      <[Z.to_nat st:=put_head (header st d1) 0 blk]> d1 !! Z.to_nat m = logical st d m).
    { intros m Hm. rewrite list_lookup_insert_ne by (unfold home in Hm; lia).
      by apply (install_all st sz). }
    split; [done|].
    assert (He : head_blocks (header st (<[Z.to_nat st:=put_head (header st d1) 0 blk]> d1)) = [])
      by (rewrite header_insert by (rewrite Hlen; lia); done).
    split; [|by split].
    intros m Hm. rewrite logical_empty by done. by apply Hhome.
Qed.

(** * The writes of a commit *)

Definition slot_numbers (st : Z) (n : nat) : list Z :=
  map (fun k => st + Z.of_nat k + 1) (seq 0 n).

(** Log the blocks [bl] with contents [vals], then write the header. *)
Definition logging_writes (st : Z) (h : block) (bl blk : list Z) (vals : list block)
    : list (Z * block) :=
  zip (slot_numbers st (length bl)) vals
  ++ [(st, put_head h (Z.of_nat (length bl)) blk)].

(** A transaction that fits the log. *)
Record transaction (st sz len : Z) (bl blk : list Z) (vals : list block) : Prop := {
  tr_nodup : NoDup bl;
  tr_home : Forall (home st sz len) bl;
  tr_fits : Z.of_nat (length bl) <= LOGSIZE /\ Z.of_nat (length bl) <= sz - 1;
  tr_vals : length vals = length bl;
  tr_blk : take (length bl) blk = bl;
  tr_ints : Forall is_s32 blk }.

(** The contents after the transaction. *)
Definition updated (d : list block) (bl : list Z) (vals : list block) (m : Z)
    : option block :=
  match list_find (m =.) bl with
  | Some (k, _) => vals !! k
  | None => d !! Z.to_nat m
  end.

Lemma slot_numbers_nodup st n : NoDup (slot_numbers st n).
Proof.
  unfold slot_numbers. apply NoDup_fmap_2; [|apply NoDup_seq]. intros a b. simpl. lia.
Qed.

Lemma slot_numbers_in st n m :
  m ∈ slot_numbers st n -> st < m <= st + Z.of_nat n.
Proof.
  unfold slot_numbers. intros (k & -> & [_ Hk]%elem_of_seq)%list_elem_of_fmap. lia.
Qed.

(** While the log is being written the header is still empty, so the disk
    means what it meant. *)
Lemma logging_prefix st sz d bl blk vals k :
  log_wf st sz d -> head_blocks (header st d) = [] ->
  transaction st sz (Z.of_nat (length d)) bl blk vals -> (k <= length bl)%nat ->
  let d' := apply_writes (take k (logging_writes st (header st d) bl blk vals)) d in
  log_wf st sz d' /\ header st d' = header st d
  /\ forall m, home st sz (Z.of_nat (length d)) m -> logical st d' m = d !! Z.to_nat m.
Proof.
  intros Hwf He Htr Hk d'. pose proof Hwf as [Ha Hh Hn Hnd Hhm].
  destruct Htr as [_ _ Hfit Hv _ _].
  assert (Hw : d' = apply_writes (take k (zip (slot_numbers st (length bl)) vals)) d).
  { subst d'. unfold logging_writes. rewrite take_app_le; [done|].
    rewrite length_zip_with. unfold slot_numbers. rewrite length_map, length_seq. lia. }
  rewrite Hw. clear Hw d'. set (ws := take k _).
  assert (Hin : Forall (fun w => st < fst w < st + sz) ws).
  { apply Forall_take, Forall_forall. intros [n b] Hb%elem_of_zip_l. simpl.
    apply slot_numbers_in in Hb. lia. }
  assert (Hout : forall m, 0 <= m -> ~ (st < m < st + sz) ->
            apply_writes ws d !! Z.to_nat m = d !! Z.to_nat m).
  { intros m Hm Hno. apply apply_other. eapply Forall_impl; [exact Hin|].
    intros [n b] Hb E. simpl in *. assert (n = m) by lia. lia. }
  assert (Hhd : header st (apply_writes ws d) = header st d).
  { unfold header. by rewrite Hout by lia. }
  split; [constructor; rewrite ?Hhd, ?length_apply; done|]. split; [done|].
  intros m [Hm Hno]. rewrite logical_empty by (by rewrite Hhd). apply Hout; lia.
Qed.

(** Writing the header commits: from then on the disk means the new contents. *)
Lemma logging_commits st sz d bl blk vals :
  log_wf st sz d -> head_blocks (header st d) = [] ->
  transaction st sz (Z.of_nat (length d)) bl blk vals ->
  let d' := apply_writes (logging_writes st (header st d) bl blk vals) d in
  log_wf st sz d' /\ header st d' = put_head (header st d) (Z.of_nat (length bl)) blk
  /\ head_blocks (header st d') = bl /\ slots st d' = vals
  /\ forall m, home st sz (Z.of_nat (length d)) m -> logical st d' m = updated d bl vals m.
Proof.
  intros Hwf He Htr d'. pose proof Hwf as [Ha Hh Hn Hnd Hhm].
  pose proof Htr as [Hndb Hhb Hfit Hv Hblk Hint].
  destruct (put_head_spec (header st d) (Z.of_nat (length bl)) blk) as (P1 & P2 & P3);
    [done|lia| |done|].
  { rewrite Nat2Z.id, <- Hblk at 1. rewrite length_take. lia. }
  rewrite Nat2Z.id, Hblk in P3.
  set (h := put_head (header st d) (Z.of_nat (length bl)) blk) in *.
  set (d1 := apply_writes (zip (slot_numbers st (length bl)) vals) d).
  assert (Hd1 : length d1 = length d) by apply length_apply.
  assert (Hd' : d' = <[Z.to_nat st := h]> d1).
  { subst d'. unfold logging_writes. by rewrite apply_app. }
  assert (Hhd : header st d' = h) by (rewrite Hd', header_insert by lia; done).
  assert (Hlen : length d' = length d) by (rewrite Hd', length_insert; done).
  assert (Hslot : forall k v, vals !! k = Some v ->
            d' !! Z.to_nat (st + Z.of_nat k + 1) = Some v).
  { intros k v Hk. rewrite Hd'. rewrite list_lookup_insert_ne by lia.
    apply (apply_zip _ _ _ k _ _ (slot_numbers_nodup _ _)); [| |done].
    - apply Forall_forall. intros m Hm%slot_numbers_in. lia.
    - unfold slot_numbers. rewrite list_lookup_fmap, lookup_seq_lt; [done|].
      apply lookup_lt_Some in Hk. lia. }
  assert (Hwf' : log_wf st sz d').
  { constructor; rewrite ?Hhd, ?Hlen, ?P3; try done. rewrite P2. lia. }
  split; [done|]. split; [done|]. rewrite Hhd. split; [done|]. split.
  - apply list_eq. intros k. unfold slots. rewrite Hhd, P2, Nat2Z.id, list_lookup_fmap.
    destruct (vals !! k) as [v|] eqn:Ek.
    + rewrite lookup_seq_lt by (apply lookup_lt_Some in Ek; lia). simpl. by rewrite (Hslot k v).
    + rewrite lookup_seq_ge; [done|]. apply lookup_ge_None in Ek. lia.
  - intros m Hm. unfold updated, logical. rewrite Hhd, P3.
    destruct (list_find (m =.) bl) as [[k m']|] eqn:Ef.
    + apply list_find_Some in Ef as (Hk & _ & _).
      destruct (lookup_lt_is_Some_2 vals k) as [v Hvk];
        [apply lookup_lt_Some in Hk; lia|].
      by rewrite (Hslot k v), Hvk.
    + rewrite Hd', list_lookup_insert_ne by (unfold home in Hm; lia).
      apply apply_other, Forall_forall. intros [n b] Hb%elem_of_zip_l E. simpl in *.
      apply slot_numbers_in in Hb. unfold home in Hm. lia.
Qed.

(** * Running the log's functions *)

(** What one copied block does to the cache. *)
Definition copied (c c' : bcache) (dst : Z) (v : block) : Prop :=
  binv c' [] /\ disk c' = <[Z.to_nat dst := v]> (disk c)
  /\ writes c' = writes c ++ [(dst, v)]
  /\ (forall m, 0 <= m -> view c' m = if m =? dst then Some v else view c m)
  /\ (forall m, dirty c' m <-> dirty c m /\ m <> dst).

Lemma install_one_spec c l k dst :
  binv c [] -> ldev l = 1 -> lh_block l !! k = Some dst ->
  start l + Z.of_nat k + 1 <> dst -> Z.of_nat (length (disk c)) < 2 ^ 31 ->
  0 <= start l -> start l + Z.of_nat k + 1 < Z.of_nat (length (disk c)) ->
  0 <= dst < Z.of_nat (length (disk c)) ->
  (ndirty c < NBUF)%nat -> (dirty c dst \/ 1 + ndirty c < NBUF)%nat ->
  exists c' v, install_one k (mkLstate c l) = Ok (tt, mkLstate c' l)
    /\ view c (start l + Z.of_nat k + 1) = Some v /\ copied c c' dst v.
Proof.
  intros Hc Hd Hk Hne Hlen Hst Hsrc Hdst Hn Hcap.
  destruct (two_reads c (start l + Z.of_nat k + 1) dst Hc)
    as (i & j & fi & fj & di & dj & c1 & c2 & Hb1 & Hb2 & Hc2 & Hi & Hj & Hvi & Hvj
        & Hfi & Hfj & Hdk & Hw & Hv & Hdt); [done|lia|done|by right|done|].
  destruct (copy_held_spec c2 j i fj fi dst (start l + Z.of_nat k + 1) dj di)
    as (c' & Hrun & Hc' & Hdk' & Hw' & Hv' & Hdt'); [done..|].
  exists c', di. split.
  { revert Hrun. unfold install_one, on_cache, lh_get. mrun. cbn [lg cache]. rewrite Hk.
    cbn [lg cache].
    rewrite Hd, s32_id by lia. rewrite Hb1, Hb2, (get_buf_ok _ _ _ Hi). cbn [bdata].
    by intros ->. }
  split; [done|]. split; [done|]. split; [by rewrite Hdk', Hdk|].
  split; [by rewrite Hw', Hw|]. split; intros m; [intros Hm; by rewrite Hv', Hv|].
  by rewrite Hdt', Hdt.
Qed.

Lemma write_one_spec c l k src :
  binv c [] -> ldev l = 1 -> lh_block l !! k = Some src ->
  start l + Z.of_nat k + 1 <> src -> Z.of_nat (length (disk c)) < 2 ^ 31 ->
  0 <= start l -> start l + Z.of_nat k + 1 < Z.of_nat (length (disk c)) ->
  0 <= src < Z.of_nat (length (disk c)) ->
  (ndirty c < NBUF)%nat -> dirty c src ->
  exists c' v, write_one k (mkLstate c l) = Ok (tt, mkLstate c' l)
    /\ view c src = Some v /\ copied c c' (start l + Z.of_nat k + 1) v.
Proof.
  intros Hc Hd Hk Hne Hlen Hst Hto Hsrc Hn Hcap.
  destruct (two_reads c (start l + Z.of_nat k + 1) src Hc)
    as (i & j & fi & fj & di & dj & c1 & c2 & Hb1 & Hb2 & Hc2 & Hi & Hj & Hvi & Hvj
        & Hfi & Hfj & Hdk & Hw & Hv & Hdt); [done|lia|done|by right|by left|].
  destruct (copy_held_spec c2 i j fi fj (start l + Z.of_nat k + 1) src di dj)
    as (c' & Hrun & Hc' & Hdk' & Hw' & Hv' & Hdt');
    [by eapply binv_perm; [apply Permutation_swap|]|done..|].
  exists c', dj. split.
  { revert Hrun. unfold write_one, on_cache, lh_get. mrun. cbn [lg cache]. rewrite Hk.
    cbn [lg cache].
    rewrite Hd, s32_id by lia. rewrite Hb1, Hb2, (get_buf_ok _ _ _ Hj). cbn [bdata].
    by intros ->. }
  split; [done|]. split; [done|]. split; [by rewrite Hdk', Hdk|].
  split; [by rewrite Hw', Hw|]. split; intros m; [intros Hm; by rewrite Hv', Hv|].
  by rewrite Hdt', Hdt.
Qed.

(** The effect of a sequence of copied blocks. *)
Definition copied_all (c c' : bcache) (ws : list (Z * block)) : Prop :=
  binv c' [] /\ disk c' = apply_writes ws (disk c) /\ writes c' = writes c ++ ws
  /\ (forall m, 0 <= m -> m ∉ ws.*1 -> view c' m = view c m)
  /\ (forall m, dirty c' m <-> dirty c m /\ m ∉ ws.*1).

Lemma copied_all_nil c : binv c [] -> copied_all c c [].
Proof.
  intros Hc. split; [done|]. split; [done|]. split; [by rewrite app_nil_r|].
  split; [done|]. intros m. split; [|by intros [? _]]. intros ?. split; [done|].
  apply not_elem_of_nil.
Qed.

Lemma copied_all_cons c c1 c2 dst v ws :
  copied c c1 dst v -> copied_all c1 c2 ws -> copied_all c c2 ((dst, v) :: ws).
Proof.
  intros (_ & Hd1 & Hw1 & Hv1 & Ht1) (Hb2 & Hd2 & Hw2 & Hv2 & Ht2).
  split; [done|]. split; [by rewrite Hd2, Hd1|].
  split; [by rewrite Hw2, Hw1, <- app_assoc|]. simpl. split.
  - intros m Hm [Hne Hni]%not_elem_of_cons. rewrite Hv2, Hv1 by done.
    by replace (m =? dst) with false by lia.
  - intros m. rewrite Ht2, Ht1, not_elem_of_cons. tauto.
Qed.

(** [install_trans] from block [k] on. *)
Lemma install_loop l bl : forall k vals c,
  binv c [] -> ldev l = 1 -> 0 <= start l ->
  Z.of_nat (length (disk c)) < 2 ^ 31 ->
  start l + Z.of_nat (k + length bl) < Z.of_nat (length (disk c)) ->
  NoDup bl -> Forall (fun m => 0 <= m < Z.of_nat (length (disk c))
    /\ ~ (start l <= m <= start l + Z.of_nat (k + length bl))) bl ->
  (forall j b, bl !! j = Some b -> lh_block l !! (k + j)%nat = Some b) ->
  length vals = length bl ->
  (forall j v, vals !! j = Some v -> view c (start l + Z.of_nat (k + j) + 1) = Some v) ->
  (ndirty c < NBUF)%nat -> (forall b, b ∈ bl -> dirty c b \/ 1 + ndirty c < NBUF)%nat ->
  exists c', for_each (seq k (length bl)) install_one (mkLstate c l) = Ok (tt, mkLstate c' l)
    /\ copied_all c c' (zip bl vals).
Proof.
  induction bl as [|b bl IH]; intros k vals c Hc Hd Hst Hlen Harea Hnd Hhm Hblk Hvl Hvals Hn Hcap.
  - exists c. split; [done|]. by apply copied_all_nil.
  - destruct vals as [|v vals]; [done|]. apply NoDup_cons in Hnd as [Hni Hnd].
    apply Forall_cons in Hhm as [Hb Hhm]. cbn [length] in *.
    destruct (install_one_spec c l k b) as (c1 & w & Hrun & Hw & Hcp); try done; try lia.
    { rewrite <- (Nat.add_0_r k). by apply Hblk. }
    { apply Hcap. by left. }
    pose proof (Hvals 0%nat v eq_refl) as Hv0. rewrite Nat.add_0_r, Hw in Hv0.
    injection Hv0 as ->. pose proof Hcp as (Hc1 & Hdk1 & _ & Hv1 & Hdt1).
    assert (Hnd1 : (ndirty c1 <= ndirty c)%nat).
    { apply (ndirty_mono c [] c1 []); [done|done|]. intros m. rewrite Hdt1. tauto. }
    destruct (IH (S k) vals c1) as (c2 & Hrest & Hca);
      rewrite ?Hdk1, ?length_insert; try done; try lia.
    + eapply Forall_impl; [exact Hhm|]. simpl. lia.
    + intros j x Hj. replace (S k + j)%nat with (k + S j)%nat by lia. by apply Hblk.
    + intros j x Hj. pose proof (lookup_lt_Some _ _ _ Hj) as Hlt.
      rewrite Hv1 by lia. replace (_ =? b) with false by (simpl in Hvl; lia).
      replace (S k + j)%nat with (k + S j)%nat by lia. by apply Hvals.
    + intros x Hx. rewrite Hdt1. destruct (Hcap x) as [?|?]; [by right|left|right; lia].
      split; [done|]. congruence.
    + exists c2. split; [|by eapply copied_all_cons].
      cbn [seq for_each]. mrun. by rewrite Hrun.
Qed.

(** [write_log] from block [k] on. *)
Lemma write_loop l bl : forall k vals c,
  binv c [] -> ldev l = 1 -> 0 <= start l ->
  Z.of_nat (length (disk c)) < 2 ^ 31 ->
  start l + Z.of_nat (k + length bl) < Z.of_nat (length (disk c)) ->
  Forall (fun m => 0 <= m < Z.of_nat (length (disk c))
    /\ ~ (start l <= m <= start l + Z.of_nat (k + length bl))) bl ->
  (forall j b, bl !! j = Some b -> lh_block l !! (k + j)%nat = Some b) ->
  length vals = length bl ->
  (forall j b v, bl !! j = Some b -> vals !! j = Some v -> view c b = Some v) ->
  (ndirty c < NBUF)%nat -> (forall b, b ∈ bl -> dirty c b) ->
  exists c', for_each (seq k (length bl)) write_one (mkLstate c l) = Ok (tt, mkLstate c' l)
    /\ copied_all c c'
         (zip (map (fun j => start l + Z.of_nat j + 1) (seq k (length bl))) vals).
Proof.
  induction bl as [|b bl IH]; intros k vals c Hc Hd Hst Hlen Harea Hhm Hblk Hvl Hvals Hn Hcap.
  - exists c. split; [done|]. by apply copied_all_nil.
  - destruct vals as [|v vals]; [done|].
    apply Forall_cons in Hhm as [Hb Hhm]. cbn [length] in *.
    destruct (write_one_spec c l k b) as (c1 & w & Hrun & Hw & Hcp); try done; try lia.
    { rewrite <- (Nat.add_0_r k). by apply Hblk. }
    { apply Hcap. by left. }
    pose proof (Hvals 0%nat b v eq_refl eq_refl) as Hv0. rewrite Hw in Hv0.
    injection Hv0 as ->. pose proof Hcp as (Hc1 & Hdk1 & _ & Hv1 & Hdt1).
    assert (Hnd1 : (ndirty c1 <= ndirty c)%nat).
    { apply (ndirty_mono c [] c1 []); [done|done|]. intros m. rewrite Hdt1. tauto. }
    assert (Hout : forall x, x ∈ bl -> 0 <= x /\ x <> start l + Z.of_nat k + 1).
    { intros x Hx. eapply Forall_forall in Hhm; [|exact Hx]. simpl in Hhm. lia. }
    destruct (IH (S k) vals c1) as (c2 & Hrest & Hca);
      rewrite ?Hdk1, ?length_insert; try done; try lia.
    + eapply Forall_impl; [exact Hhm|]. simpl. lia.
    + intros j x Hj. replace (S k + j)%nat with (k + S j)%nat by lia. by apply Hblk.
    + intros j x y Hj Hy. destruct (Hout x) as [? ?]; [by eapply list_elem_of_lookup_2|].
      rewrite Hv1 by done. replace (_ =? _) with false by lia. by apply (Hvals (S j)).
    + intros x Hx. destruct (Hout x Hx). rewrite Hdt1. split; [apply Hcap; by right|done].
    + exists c2. split; [|by eapply copied_all_cons].
      cbn [seq for_each]. mrun. by rewrite Hrun.
Qed.

Lemma write_head_spec c l :
  binv c [] -> ldev l = 1 -> 0 <= start l < Z.of_nat (length (disk c)) ->
  (ndirty c < NBUF)%nat -> ~ dirty c (start l) ->
  exists c', write_head (mkLstate c l) = Ok (tt, mkLstate c' l)
    /\ copied_all c c' [(start l,
         put_head (header (start l) (disk c)) (lh_n l) (lh_block l))].
Proof.
  intros Hc Hd Hst Hn Hcl.
  destruct (write_block_spec c (start l) (fun d => put_head d (lh_n l) (lh_block l)) Hc Hst Hn)
    as (c' & d & Hrun & Hv & Hc' & Hdk & Hw & _ & Hv' & Hdt).
  rewrite clean_view in Hv by done.
  assert (header (start l) (disk c) = d) as -> by (unfold header; by rewrite Hv).
  exists c'. split.
  - unfold write_head, on_cache. mrun. cbn [lg cache]. rewrite Hd. mrun.
    revert Hrun. mrun. by intros ->.
  - split; [done|]. split; [done|]. split; [done|]. simpl. split.
    + intros m Hm Hni%not_elem_of_cons. rewrite Hv' by done.
      by replace (m =? start l) with false by lia.
    + intros m. rewrite Hdt, not_elem_of_cons.
      split; [intros [? ?]; split; [done|]; split; [done|apply not_elem_of_nil]|tauto].
Qed.

Lemma copied_all_app c c1 c2 ws ws' :
  copied_all c c1 ws -> copied_all c1 c2 ws' -> copied_all c c2 (ws ++ ws').
Proof.
  intros (_ & Hd1 & Hw1 & Hv1 & Ht1) (Hb2 & Hd2 & Hw2 & Hv2 & Ht2).
  split; [done|]. split; [by rewrite apply_app, Hd2, Hd1|].
  split; [by rewrite Hw2, Hw1, app_assoc|]. split.
  - intros m Hm. rewrite fmap_app, not_elem_of_app. intros [? ?]. by rewrite Hv2, Hv1.
  - intros m. rewrite Ht2, Ht1, fmap_app, not_elem_of_app. tauto.
Qed.

Definition cleared (l : log) : log :=
  mkLog (start l) (size l) (outstanding l) (committing l) (ldev l) 0 (lh_block l).

Lemma zip_fst_in {A B} (l : list A) (k : list B) x : x ∈ (zip l k).*1 -> x ∈ l.
Proof.
  intros ([y b] & -> & Hin)%list_elem_of_fmap. by apply elem_of_zip_l in Hin.
Qed.

Lemma fst_zip_all {A B} (l : list A) (k : list B) : length k = length l -> (zip l k).*1 = l.
Proof. intros H. apply fst_zip. lia. Qed.

(** Installing the logged blocks and clearing the header: the end of [commit]
    and of [recover_from_log]. *)
Lemma finish_spec c l sz :
  binv c [] -> ldev l = 1 -> log_wf (start l) sz (disk c) ->
  lh_n l = head_n (header (start l) (disk c)) ->
  take (Z.to_nat (lh_n l)) (lh_block l) = head_blocks (header (start l) (disk c)) ->
  (forall m, dirty c m -> m ∈ head_blocks (header (start l) (disk c))) ->
  (ndirty c < NBUF)%nat ->
  (forall b, b ∈ head_blocks (header (start l) (disk c)) -> dirty c b \/ 1 + ndirty c < NBUF)%nat ->
  exists c', (install_trans ;; l ← gets lg; set_lh 0 (lh_block l) ;; write_head) (mkLstate c l)
      = Ok (tt, mkLstate c' (cleared l))
    /\ copied_all c c' (recovery_writes (start l) (disk c) (lh_block l)).
Proof.
  intros Hc Hd Hwf Hn Hblk Hdt Hnd Hcap. pose proof Hwf as [Ha Hh Hhn Hndp Hhm].
  set (st := start l) in *. set (h := header st (disk c)) in *.
  assert (Hlen : length (head_blocks h) = Z.to_nat (lh_n l)) by (rewrite head_blocks_length, Hn; done).
  destruct (install_loop l (head_blocks h) 0 (slots st (disk c)) c) as (c1 & Hrun & Hc1);
    try done; try lia.
  - eapply Forall_impl; [exact Hhm|]. fold st. unfold home. intros m. simpl. lia.
  - intros j b Hj. rewrite <- Hblk in Hj. simpl.
    apply lookup_take_Some in Hj. by destruct Hj.
  - apply length_slots.
  - intros j v Hj. simpl. fold st. pose proof (lookup_lt_Some _ _ _ Hj) as Hjl.
    rewrite length_slots in Hjl. fold h in Hjl.
    destruct (slots_lookup st sz (disk c) j Hwf Hjl) as [Hs _].
    rewrite clean_view; [by rewrite Hs|done|]. intros Hdj%Hdt.
    eapply Forall_forall in Hhm; [|exact Hdj]. unfold home in Hhm. fold h in Hhn. lia.
  - pose proof Hc1 as (Hb1 & Hdk1 & Hw1 & Hv1 & Hdt1).
    rewrite fst_zip_all in Hdt1 by apply length_slots.
    assert (Hclean : forall m, ~ dirty c1 m).
    { intros m [Hm Hni]%Hdt1. by apply Hni, Hdt. }
    assert (Hin : Forall (fun w => fst w ∈ head_blocks h) (zip (head_blocks h) (slots st (disk c)))).
    { apply Forall_forall. by intros [n b] Hin%elem_of_zip_l. }
    destruct (install_writes st sz (disk c) _ Hwf Hin) as (Hhd & _ & _).
    destruct (write_head_spec c1 (cleared l)) as (c2 & Hrun2 & Hc2); try done.
    + rewrite Hdk1, length_apply. simpl. fold st. lia.
    + apply Nat.le_lt_trans with (ndirty c); [|done].
      apply (ndirty_mono c [] c1 []); [done|done|]. intros m. by intros ?%Hclean.
    + exists c2. split.
      * unfold install_trans. mrun. cbn [lg]. rewrite <- Hlen, Hrun. mrun.
        unfold set_lh. mrun. cbn [lg cache]. rewrite <- Hrun2. done.
      * unfold recovery_writes. eapply copied_all_app; [exact Hc1|].
        simpl in Hc2. fold st in Hc2. rewrite Hdk1, Hhd in Hc2. exact Hc2.
Qed.

(** ** Recovery *)

Lemma recover_spec c l sz :
  binv c [] -> ldev l = 1 -> log_wf (start l) sz (disk c) -> (forall m, ~ dirty c m) ->
  exists c' blk l', recover_from_log (mkLstate c l) = Ok (tt, mkLstate c' l')
    /\ copied_all c c' (recovery_writes (start l) (disk c) blk)
    /\ lh_n l' = 0 /\ start l' = start l /\ ldev l' = 1 /\ size l' = size l.
Proof.
  intros Hc Hd Hwf Hcl. pose proof Hwf as [Ha Hh Hhn Hndp Hhm].
  assert (Hnd0 : ndirty c = 0%nat).
  { pose proof (ndirty_le c [] [] Hc (fun m H => False_ind _ (Hcl m H))). simpl in *. lia. }
  set (h := header (start l) (disk c)) in *.
  destruct (read_block_spec c (start l) (fun d => d) Hc)
    as (c1 & d & Hrun & Hv & Hc1 & Hdk1 & Hw1 & Hn1 & Hv1 & Hdt1);
    [lia|rewrite Hnd0; unfold NBUF; lia|].
  rewrite clean_view in Hv by done.
  assert (Hhd : h = d) by (unfold h, header; by rewrite Hv).
  set (l1 := mkLog (start l) (size l) (outstanding l) (committing l) (ldev l) (head_n h)
               (head_blocks h ++ drop (Z.to_nat (head_n h)) (lh_block l))).
  assert (Hread : read_head (mkLstate c l) = Ok (tt, mkLstate c1 l1)).
  { unfold read_head, on_cache. mrun. cbn [lg cache]. rewrite Hd. revert Hrun. mrun. intros ->.
    rewrite <- Hhd. replace (LOGSIZE <? head_n h) with false by lia.
    unfold set_lh. mrun. cbn [lg cache]. unfold l1. by rewrite Hd. }
  destruct (finish_spec c1 l1 sz) as (c2 & Hfin & Hcp);
    rewrite ?Hdk1; try done.
  - simpl. fold h. by rewrite take_app_le, take_ge by (rewrite head_blocks_length; lia).
  - intros m Hm%Hdt1. by apply Hcl in Hm.
  - rewrite Hn1, Hnd0. unfold NBUF. lia.
  - intros b _. right. rewrite Hn1, Hnd0. unfold NBUF. lia.
  - exists c2, (lh_block l1), (cleared l1). split.
    + unfold recover_from_log. revert Hfin. mrun. rewrite Hread. mrun. done.
    + split; [|by repeat split].
      destruct Hcp as (Hb2 & Hdk2 & Hw2 & Hv2 & Hdt2). rewrite Hdk1 in *.
      split; [done|]. split; [done|]. split; [by rewrite Hw2, Hw1|]. split.
      * intros m Hm Hni. by rewrite Hv2, Hv1.
      * intros m. by rewrite Hdt2, Hdt1.
Qed.

(** ** Commit *)

(** The state in which [commit] is called: the modified blocks [bl], with
    contents [vals], are pinned in the cache, nothing of them is on disk and
    the log on disk is empty. *)
Record pending (c : bcache) (l : log) (sz : Z) (bl : list Z) (vals : list block) : Prop := {
  pd_inv : binv c [];
  pd_dev : ldev l = 1;
  pd_wf : log_wf (start l) sz (disk c);
  pd_empty : head_blocks (header (start l) (disk c)) = [];
  pd_n : lh_n l = Z.of_nat (length bl);
  pd_tr : transaction (start l) sz (Z.of_nat (length (disk c))) bl (lh_block l) vals;
  pd_dirty : forall m, dirty c m <-> m ∈ bl;
  pd_vals : forall j b v, bl !! j = Some b -> vals !! j = Some v -> view c b = Some v;
  pd_room : (length bl < NBUF)%nat }.

Definition commit_writes (st : Z) (d : list block) (bl blk : list Z) (vals : list block)
    : list (Z * block) :=
  let ws := logging_writes st (header st d) bl blk vals in
  ws ++ recovery_writes st (apply_writes ws d) blk.

Lemma commit_spec c l sz bl vals :
  pending c l sz bl vals -> bl <> [] ->
  exists c', commit (mkLstate c l) = Ok (tt, mkLstate c' (cleared l))
    /\ copied_all c c' (commit_writes (start l) (disk c) bl (lh_block l) vals).
Proof.
  intros [Hc Hd Hwf He Hn Htr Hdt Hvals Hroom] Hne. pose proof Hwf as [Ha _ _ _ _].
  pose proof Htr as [Hndb Hhb Hfit Hvl Hblk Hint].
  set (st := start l) in *.
  assert (Hnd : (ndirty c < NBUF)%nat).
  { apply Nat.le_lt_trans with (length bl); [|done]. apply (ndirty_le c [] bl Hc). apply Hdt. }
  destruct (write_loop l bl 0 vals c) as (c1 & Hrun1 & Hc1); try done; try lia.
  { eapply Forall_impl; [exact Hhb|]. fold st. unfold home. simpl. lia. }
  { intros j b Hj. simpl. rewrite <- Hblk in Hj. apply lookup_take_Some in Hj. by destruct Hj. }
  { intros b. apply Hdt. }
  pose proof Hc1 as (Hb1 & Hdk1 & _ & _ & Hdt1). fold st in Hdk1, Hdt1.
  assert (Hlog1 : header st (disk c1) = header st (disk c)).
  { unfold header. rewrite Hdk1, apply_other; [done|]. apply Forall_forall.
    intros [n b] Hin%elem_of_zip_l. simpl. apply (slot_numbers_in st (length bl)) in Hin. lia. }
  assert (Hdt1' : forall m, dirty c1 m <-> m ∈ bl).
  { intros m. rewrite Hdt1, Hdt. split; [by intros [? _]|]. intros Hm. split; [done|].
    intros Hin%zip_fst_in. apply (slot_numbers_in st (length bl)) in Hin.
    eapply Forall_forall in Hhb; [|exact Hm]. unfold home in Hhb. lia. }
  assert (Hnd1 : (ndirty c1 < NBUF)%nat).
  { apply Nat.le_lt_trans with (length bl); [|done]. apply (ndirty_le c1 [] bl Hb1). apply Hdt1'. }
  destruct (write_head_spec c1 l) as (c2 & Hrun2 & Hc2); try done.
  { rewrite Hdk1, length_apply. fold st. lia. }
  { rewrite Hdt1'. intros Hm. eapply Forall_forall in Hhb; [|exact Hm].
    unfold home in Hhb. fold st in Hhb. lia. }
  assert (Hc12 : copied_all c c2 (logging_writes st (header st (disk c)) bl (lh_block l) vals)).
  { unfold logging_writes. eapply copied_all_app; [exact Hc1|].
    fold st in Hc2. rewrite Hlog1, Hn in Hc2. exact Hc2. }
  pose proof Hc12 as (Hb2 & Hdk2 & _ & _ & Hdt2).
  destruct (logging_commits st sz (disk c) bl (lh_block l) vals Hwf He Htr)
    as (Hwf2 & Hh2 & Hhb2 & Hsl2 & _).
  rewrite <- Hdk2 in Hwf2, Hh2, Hhb2, Hsl2.
  assert (Hdt2' : forall m, dirty c2 m <-> m ∈ bl).
  { pose proof Hc2 as (_ & _ & _ & _ & Hdt2'). intros m. rewrite Hdt2', Hdt1'. simpl.
    split; [by intros [? _]|]. intros Hm. split; [done|].
    intros ->%list_elem_of_singleton. eapply Forall_forall in Hhb; [|exact Hm].
    unfold home in Hhb. fold st in Hhb. lia. }
  destruct (finish_spec c2 l sz) as (c3 & Hrun3 & Hc3); try done; fold st.
  - rewrite Hn. rewrite <- (Z2Nat.id (head_n (header st (disk c2)))) by apply Hwf2.
    by rewrite <- head_blocks_length, Hhb2.
  - by rewrite Hn, Nat2Z.id, Hhb2.
  - intros m. by rewrite Hhb2, Hdt2'.
  - apply Nat.le_lt_trans with (length bl); [|done]. apply (ndirty_le c2 [] bl Hb2). apply Hdt2'.
  - intros b. rewrite Hhb2. left. by apply Hdt2'.
  - exists c3. split.
    + unfold commit. revert Hrun3. mrun. cbn [lg].
      replace (0 <? lh_n l) with true by (destruct bl; [done|]; rewrite Hn; simpl; lia).
      unfold write_log. mrun. cbn [lg]. rewrite Hn, Nat2Z.id, Hrun1, Hrun2. done.
    + unfold commit_writes. cbv zeta. fold st in Hc3. rewrite Hdk2 in Hc3.
      eapply copied_all_app; [exact Hc12|exact Hc3].
Qed.

Lemma updated_view c l sz bl vals m :
  pending c l sz bl vals -> updated (disk c) bl vals m = view c m.
Proof.
  intros [Hc _ _ _ _ [_ _ _ Hvl _ _] Hdt Hvals _]. unfold updated.
  destruct (list_find (m =.) bl) as [[k m']|] eqn:E.
  - apply list_find_Some in E as (Hk & <- & _).
    destruct (lookup_lt_is_Some_2 vals k) as [v Hv]; [apply lookup_lt_Some in Hk; lia|].
    rewrite Hv. symmetry. by eapply Hvals.
  - symmetry. apply clean_view; [done|]. rewrite Hdt. intros Hm.
    apply list_find_None in E. by eapply Forall_forall in E.
Qed.

(** The disk after the first [k] writes of a commit. *)
Lemma commit_prefix c l sz bl vals k :
  pending c l sz bl vals ->
  let d := apply_writes (take k (commit_writes (start l) (disk c) bl (lh_block l) vals)) (disk c) in
  log_wf (start l) sz d /\ length d = length (disk c)
  /\ forall m, home (start l) sz (Z.of_nat (length (disk c))) m ->
       logical (start l) d m
       = if decide (k <= length bl)%nat then disk c !! Z.to_nat m else view c m.
Proof.
  intros Hp d. pose proof Hp as [_ _ Hwf He _ Htr _ _ _]. pose proof Htr as [_ _ _ Hvl _ _].
  set (st := start l) in *.
  set (ws := logging_writes st (header st (disk c)) bl (lh_block l) vals).
  assert (Hlw : length ws = S (length bl)).
  { unfold ws, logging_writes. rewrite length_app, length_zip_with. unfold slot_numbers.
    rewrite length_map, length_seq. simpl. lia. }
  subst d. unfold commit_writes. cbv zeta. fold ws.
  destruct (decide (k <= length bl)%nat) as [Hk|Hk].
  - rewrite take_app_le by lia.
    destruct (logging_prefix st sz (disk c) bl (lh_block l) vals k Hwf He Htr Hk)
      as (? & _ & ?). by rewrite length_apply.
  - rewrite take_app_ge by lia. rewrite apply_app.
    destruct (logging_commits st sz (disk c) bl (lh_block l) vals Hwf He Htr)
      as (Hwf1 & _ & _ & _ & Hl1). fold ws in Hwf1, Hl1.
    destruct (recovery_meaning st sz (apply_writes ws (disk c)) (lh_block l) (k - length ws) Hwf1)
      as (Hwf2 & Hl2 & _).
    split; [done|]. rewrite !length_apply. split; [done|]. rewrite length_apply in Hl2.
    intros m Hm. rewrite Hl2, Hl1 by done. by apply (updated_view c l sz).
Qed.

(** * Crashes *)

(** Booting on disk [d]: an empty cache and [initlog]. *)
Definition mount (st sz : Z) (l : log) (d : list block) : res (unit * lstate) :=
  initlog 1 st sz (mkLstate (binit d) l).

(** The disk when the machine crashes after [k] writes of the recovery. *)
Definition crash_mount (st sz : Z) (l : log) (d : list block) (k : nat) : list block :=
  match mount st sz l d with
  | Ok (_, s) => apply_writes (take k (writes (cache s))) d
  | _ => []
  end.

Lemma mount_spec st sz l d :
  log_wf st sz d ->
  exists c' blk l', mount st sz l d = Ok (tt, mkLstate c' l')
    /\ writes c' = recovery_writes st d blk
    /\ disk c' = apply_writes (recovery_writes st d blk) d
    /\ lh_n l' = 0 /\ binv c' [] /\ forall m, ~ dirty c' m.
Proof.
  intros Hwf. destruct (binit_inv d) as [Hi Hd0].
  assert (Hcl : forall m, ~ dirty (binit d) m) by (intros m; by apply ndirty_zero).
  destruct (recover_spec (binit d)
    (mkLog st sz (outstanding l) (committing l) 1 (lh_n l) (lh_block l)) sz)
    as (c' & blk & l' & Hrun & (Hb & Hdk & Hw & _ & Hdt) & Hn & _); try done.
  exists c', blk, l'. split; [exact Hrun|]. split; [done|]. split; [done|].
  split; [done|]. split; [done|]. intros m [Hm _]%Hdt. by apply (Hcl m).
Qed.

Lemma crashes_meaning st sz l ks d :
  log_wf st sz d ->
  let d' := fold_left (crash_mount st sz l) ks d in
  log_wf st sz d' /\ length d' = length d
  /\ forall m, home st sz (Z.of_nat (length d)) m -> logical st d' m = logical st d m.
Proof.
  revert d. induction ks as [|k ks IH]; intros d Hwf; [done|]. cbn [fold_left].
  destruct (mount_spec st sz l d Hwf) as (c' & blk & l' & Hrun & Hw & _).
  assert (Hcm : crash_mount st sz l d k = apply_writes (take k (recovery_writes st d blk)) d).
  { unfold crash_mount. by rewrite Hrun, <- Hw. }
  destruct (recovery_meaning st sz d blk k Hwf) as (Hwf1 & Hl1 & _).
  rewrite Hcm. destruct (IH _ Hwf1) as (Hwf2 & Hlen2 & Hl2).
  rewrite length_apply in Hlen2, Hl2. split; [done|]. split; [done|].
  intros m Hm. by rewrite Hl2, Hl1.
Qed.

(** A committed transaction is on disk: [commit] returns, every block outside
    the log area has on disk the contents the cache showed, the log is empty
    again and no buffer is left dirty. *)
Lemma commit_result c l sz bl vals :
  pending c l sz bl vals -> bl <> [] ->
  exists c', commit (mkLstate c l) = Ok (tt, mkLstate c' (cleared l))
    /\ (forall m, home (start l) sz (Z.of_nat (length (disk c))) m ->
          disk c' !! Z.to_nat m = view c m /\ view c' m = view c m)
    /\ head_blocks (header (start l) (disk c')) = []
    /\ log_wf (start l) sz (disk c') /\ length (disk c') = length (disk c)
    /\ binv c' [] /\ forall m, ~ dirty c' m.
Proof.
  intros Hp Hne. destruct (commit_spec c l sz bl vals Hp Hne) as (c' & Hrun & Hb & Hdk & _ & _ & Hdt).
  exists c'. split; [done|]. pose proof Hp as [_ _ Hwf He Hn Htr Hd _ _].
  destruct (logging_commits _ _ _ _ _ _ Hwf He Htr) as (Hwf1 & _ & Hhb & Hsl & Hl1).
  unfold commit_writes in Hdk. cbv zeta in Hdk. rewrite apply_app in Hdk.
  set (d1 := apply_writes (logging_writes _ _ _ _ _) _) in *.
  destruct (recovery_meaning _ _ _ (lh_block l) (length (recovery_writes (start l) d1 (lh_block l))) Hwf1)
    as (Hwf2 & _ & Hfin).
  destruct (Hfin (le_n _)) as [He2 Hdisk]. rewrite take_ge in Hwf2, He2, Hdisk by lia.
  assert (Hlen : length (disk c') = length (disk c))
    by (rewrite Hdk; unfold d1; by rewrite !length_apply).
  rewrite <- Hdk in Hwf2, He2, Hdisk. unfold d1 in Hdisk. rewrite length_apply in Hdisk. fold d1 in Hdisk.
  assert (Hcl : forall m, ~ dirty c' m).
  { intros m [Hm Hni]%Hdt. apply Hni. apply Hd in Hm. unfold commit_writes. cbv zeta.
    rewrite !fmap_app. fold d1. unfold recovery_writes. rewrite fmap_app, Hhb, Hsl.
    rewrite fst_zip_all by apply Htr. rewrite !elem_of_app. tauto. }
  split; [|done]. intros m Hm. rewrite (clean_view c') by done.
  rewrite Hdisk, Hl1 by done. by rewrite (updated_view c l sz).
Qed.

(** C17: a transaction is atomic with respect to crashes: if the machine stops
    after any number [k] of the disk writes of [commit], and again after any
    number of writes of any number of recoveries, the next complete recovery
    ([initlog] on an empty cache) returns and leaves every block outside the
    log area as before the transaction if the header had not been written
    ([k <= n]), and with the whole transaction applied otherwise. *)
Theorem log_crash_atomic c l sz bl vals k ks l0 :
  pending c l sz bl vals -> bl <> [] ->
  exists c', commit (mkLstate c l) = Ok (tt, mkLstate c' (cleared l))
  /\ exists ws, writes c' = writes c ++ ws
  /\ let d := fold_left (crash_mount (start l) sz l0) ks (apply_writes (take k ws) (disk c)) in
     exists s, mount (start l) sz l0 d = Ok (tt, s)
     /\ forall m, home (start l) sz (Z.of_nat (length (disk c))) m ->
          disk (cache s) !! Z.to_nat m
          = if decide (k <= length bl)%nat then disk c !! Z.to_nat m else view c m.
Proof.
  intros Hp Hne. destruct (commit_spec c l sz bl vals Hp Hne) as (c' & Hrun & _ & _ & Hw & _).
  exists c'. split; [done|]. eexists. split; [exact Hw|]. cbv zeta.
  destruct (commit_prefix c l sz bl vals k Hp) as (Hwf0 & Hlen0 & Hl0).
  set (d0 := apply_writes _ _) in *.
  destruct (crashes_meaning (start l) sz l0 ks d0 Hwf0) as (Hwf1 & Hlen1 & Hl1).
  set (d1 := fold_left _ _ _) in *.
  destruct (mount_spec (start l) sz l0 d1 Hwf1) as (c2 & blk & l2 & Hm & _ & Hdk & _).
  exists (mkLstate c2 l2). split; [done|]. intros m Hhm. cbn [cache].
  destruct (recovery_meaning (start l) sz d1 blk (length (recovery_writes (start l) d1 blk)) Hwf1)
    as (_ & _ & Hfin).
  destruct (Hfin (le_n _)) as [_ Hdisk]. rewrite take_ge in Hdisk by lia.
  rewrite Hdk, Hdisk by (by rewrite Hlen1, Hlen0). rewrite Hl1 by (by rewrite Hlen0).
  by apply Hl0.
Qed.

(** * Logged updates *)

(** The use of the log by the file system: [bread] a block, change its data,
    [log_write], [brelse]. *)
Definition log_update (n : Z) (g : block -> block) : M lstate unit :=
  l ← gets lg;
  i ← on_cache (bread (ldev l) n);
  b ← on_cache (get_buf i);
  on_cache (set_data i (g (bdata b))) ;;
  log_write i ;;
  on_cache (brelse i).

Lemma absorb_spec bl n i :
  if decide (n ∈ bl) then exists k, absorb bl n i = (i + k)%nat /\ bl !! k = Some n
  else absorb bl n i = (i + length bl)%nat.
Proof.
  revert i. induction bl as [|b bl IH]; intros i; cbn [absorb length].
  - destruct (decide (n ∈ [])) as [H|_]; [by apply elem_of_nil in H|lia].
  - destruct (Z.eqb_spec b n) as [->|Hne].
    + rewrite decide_True by (by left). exists 0%nat. split; [lia|done].
    + specialize (IH (S i)). destruct (decide (n ∈ bl)) as [Hin|Hni].
      * rewrite decide_True by (by right). destruct IH as (k & -> & Hk).
        exists (S k). split; [lia|done].
      * rewrite decide_False by (rewrite elem_of_cons; intros [->|?]; done). lia.
Qed.

(** The blocks of the transaction after a [log_write] of block [n]. *)
Definition absorbed (bl : list Z) (n : Z) : list Z :=
  if decide (n ∈ bl) then bl else bl ++ [n].

Lemma absorb_blocks l bl n :
  lh_n l = Z.of_nat (length bl) -> take (length bl) (lh_block l) = bl ->
  (length bl < length (lh_block l))%nat ->
  let k := absorb (take (Z.to_nat (lh_n l)) (lh_block l)) n 0 in
  let n' := if Z.of_nat k =? lh_n l then lh_n l + 1 else lh_n l in
  exists blk, buf_set (lh_block l) (Z.of_nat k) n = Ok blk
    /\ blk = <[k := n]> (lh_block l)
    /\ n' = Z.of_nat (length (absorbed bl n))
    /\ take (length (absorbed bl n)) blk = absorbed bl n.
Proof.
  intros Hn Hblk Hlen. rewrite Hn, Nat2Z.id, Hblk. cbv zeta.
  pose proof (absorb_spec bl n 0) as Ha. unfold absorbed.
  destruct (decide (n ∈ bl)) as [Hin|Hni].
  - destruct Ha as (k & -> & Hk). simpl. pose proof (lookup_lt_Some _ _ _ Hk) as Hlt.
    rewrite buf_set_ok by lia. rewrite Nat2Z.id. eexists. split; [done|]. split; [done|].
    replace (Z.of_nat k =? Z.of_nat (length bl)) with false by lia. split; [done|].
    rewrite list_insert_id; [done|]. rewrite <- Hblk in Hk.
    apply lookup_take_Some in Hk. by destruct Hk.
  - rewrite Ha. simpl. rewrite buf_set_ok by lia. rewrite Nat2Z.id. eexists.
    split; [done|]. split; [done|]. rewrite Z.eqb_refl, length_app. simpl.
    split; [lia|]. rewrite Nat.add_1_r, take_insert_S by done. by rewrite Hblk.
Qed.

Definition pending_vals (c : bcache) (bl : list Z) : list block :=
  map (fun b => default ([] : block) (view c b)) bl.

Lemma view_in_range c n :
  binv c [] -> 0 <= n < Z.of_nat (length (disk c)) -> is_Some (view c n).
Proof.
  intros Hc Hn. destruct (cached_or_not c n) as [Hu|(i & b & Hi & Hd & <-)].
  - rewrite view_uncached by done. apply lookup_lt_is_Some_2. lia.
  - rewrite (view_cached c [] i b) by done. by eexists.
Qed.

Lemma log_update_spec c l sz bl n g :
  pending c l sz bl (pending_vals c bl) -> size l = sz -> 1 <= outstanding l ->
  Z.of_nat (length (lh_block l)) = LOGSIZE ->
  Z.of_nat (length bl) < LOGSIZE -> Z.of_nat (length bl) < size l - 1 ->
  home (start l) sz (Z.of_nat (length (disk c))) n -> (length (absorbed bl n) < NBUF)%nat ->
  exists c' l' d, log_update n g (mkLstate c l) = Ok (tt, mkLstate c' l')
    /\ view c n = Some d
    /\ pending c' l' sz (absorbed bl n) (pending_vals c' (absorbed bl n))
    /\ disk c' = disk c /\ writes c' = writes c
    /\ (forall m, 0 <= m -> view c' m = if m =? n then Some (g d) else view c m)
    /\ size l' = size l /\ outstanding l' = outstanding l /\ start l' = start l
    /\ committing l' = committing l /\ length (lh_block l') = length (lh_block l).
Proof.
  intros [Hc Hd Hwf He Hn Htr Hdt _ Hroom] Hsz Hout Hlen Hfit1 Hfit2 Hhome Hroom'.
  pose proof Htr as [Hndb Hhb Hfit Hvl Hblk Hint]. pose proof (wf_area _ _ _ Hwf) as Ha.
  assert (Hnd : (ndirty c < NBUF)%nat).
  { apply Nat.le_lt_trans with (length bl); [|done]. apply (ndirty_le c [] bl Hc). apply Hdt. }
  destruct (bread_spec c [] n Hc) as (i & f & d & Hbr & Hv & _ & Hc1 & _ & Hv1 & Hdt1 & _);
    [apply Hhome|apply not_held_nil|by right|].
  assert (Hin : i ∈ [i]) by (by left).
  assert (Hi1 : bufs (loaded c i f n d) !! i = Some (mkBuf f 1 n 1 1 d)).
  { destruct (held_buf _ _ i Hc1) as (b & Hb & _); [by left|].
    destruct (upd_cases _ _ _ _ _ Hb) as [[_ ->]|[? _]]; done. }
  destruct (set_data_spec _ _ i _ (g d) Hc1 Hin Hi1) as (Hsd & Hc2 & _ & Hv2 & Hdt2).
  simpl in Hsd, Hc2, Hv2, Hdt2.
  set (c2 := upd (loaded c i f n d) i (mkBuf f 1 n 1 1 (g d))) in *.
  assert (Hi2 : bufs c2 !! i = Some (mkBuf f 1 n 1 1 (g d))) by (by eapply upd_eq).
  destruct (set_dirty_spec c2 _ i _ Hc2 Hin Hi2) as (Hc3 & Hv3 & Hdt3).
  simpl in Hc3, Hv3, Hdt3. set (c3 := upd c2 i (mkBuf 6 1 n 1 1 (g d))) in *.
  assert (Hi3 : bufs c3 !! i = Some (mkBuf 6 1 n 1 1 (g d))) by (by eapply upd_eq).
  destruct (brelse_spec c3 [] i _ Hc3 Hi3)
    as (c4 & Hre & Hc4 & _ & Hdk4 & Hw4 & _ & Hv4 & Hdt4); [by left|].
  destruct (absorb_blocks l bl n Hn Hblk) as (blk & Hset & Hblk' & Hn' & Htk'); [lia|].
  set (k := absorb _ n 0) in *. cbv zeta in Hset, Hn'.
  set (l' := mkLog (start l) (size l) (outstanding l) (committing l) (ldev l)
               (if Z.of_nat k =? lh_n l then lh_n l + 1 else lh_n l) blk).
  exists c4, l', d. split.
  { unfold log_update, on_cache, log_write. mrun. cbn [lg cache]. rewrite Hd, Hbr.
    cbn [lg cache]. rewrite (get_buf_ok _ _ _ Hi1). cbn [bdata lg cache]. rewrite Hsd.
    cbn [lg cache]. replace (_ || _) with false by lia.
    replace (outstanding l <? 1) with false by lia. mrun. unfold on_cache. cbn [lg cache].
    rewrite (get_buf_ok _ _ _ Hi2). cbn [blockno flags dev slock refcnt bdata lg cache].
    fold k. rewrite Hset. unfold set_lh. mrun. cbn [lg cache].
    destruct (bi_flags _ _ Hc2 i _ Hi2) as [(_ & Hf & _)|[? _]]; [|done]. simpl in Hf.
    replace (Z.lor f B_DIRTY) with 6 by (by destruct Hf as [-> | ->]).
    rewrite set_buf_upd. cbn [lg cache]. fold c3. rewrite Hre. done. }
  assert (Hview : forall m, 0 <= m -> view c4 m = if m =? n then Some (g d) else view c m).
  { intros m Hm. rewrite Hv4, Hv3, Hv2, Hv1. done. }
  assert (Hdisk : disk c4 = disk c) by done.
  assert (Hdirty : forall m, dirty c4 m <-> m ∈ absorbed bl n).
  { intros m. rewrite Hdt4, Hdt3, Hdt2, Hdt1, Hdt. unfold absorbed. case_decide as Hn0.
    - split; [intros [?| ->]; done|by left].
    - rewrite elem_of_app, list_elem_of_singleton. done. }
  split; [done|]. split; [|split; [done|]; split; [done|]; split; [done|]; do 4 (split; [done|]); simpl; by rewrite Hblk', length_insert].
  constructor; rewrite ?Hdisk; try done.
  - constructor; simpl; try done.
    + unfold absorbed. case_decide; [done|]. apply NoDup_app. split; [done|].
      split; [intros x Hx ->%list_elem_of_singleton; done|apply NoDup_singleton].
    + unfold absorbed. case_decide; [done|]. apply Forall_app. split; [done|].
      by apply Forall_singleton.
    + unfold absorbed. case_decide; rewrite ?length_app; simpl; lia.
    + apply length_map.
    + rewrite Hblk'. apply Forall_insert; [done|]. unfold is_s32, home in *. lia.
  - intros j b v Hj Hvj. unfold pending_vals in Hvj. rewrite list_lookup_fmap, Hj in Hvj.
    simpl in Hvj. injection Hvj as <-.
    assert (Hb : 0 <= b < Z.of_nat (length (disk c4))).
    { apply list_elem_of_lookup_2 in Hj. apply Hdirty in Hj as (x & y & Hx & Hdx & <- & _).
      by destruct (bi_flags _ _ Hc4 x y Hx) as [(_ & _ & ?)|[? _]]; [|congruence]. }
    destruct (view_in_range c4 b Hc4 Hb) as [v Hv']. by rewrite Hv'.
Qed.

(** * A file-system call *)

Fixpoint run_updates (us : list (Z * (block -> block))) : M lstate unit :=
  match us with
  | [] => mret tt
  | (n, g) :: us => log_update n g ;; run_updates us
  end.

Definition fs_call (us : list (Z * (block -> block))) : M lstate unit :=
  r ← begin_op;
  match r with
  | None => fault
  | Some _ => run_updates us ;; end_op
  end.

(** What the updates mean for the contents of the blocks. *)
Definition spec_update (f : Z -> option block) (u : Z * (block -> block)) (m : Z)
    : option block := if m =? fst u then snd u <$> f m else f m.
Definition spec_updates (us : list (Z * (block -> block))) (f : Z -> option block)
    : Z -> option block := fold_left spec_update us f.

(** No call is running and nothing is pending. *)
Record quiet (c : bcache) (l : log) : Prop := {
  q_pending : pending c l (size l) [] (pending_vals c []);
  q_out : outstanding l = 0;
  q_idle : committing l = false;
  q_blk : Z.of_nat (length (lh_block l)) = LOGSIZE }.

Lemma absorbed_length bl n : (length (absorbed bl n) <= S (length bl))%nat.
Proof. unfold absorbed. case_decide; rewrite ?length_app; simpl; lia. Qed.

Lemma spec_updates_ext us f f' m :
  (forall m, 0 <= m -> f m = f' m) -> 0 <= m -> spec_updates us f m = spec_updates us f' m.
Proof.
  revert f f'. induction us as [|u us IH]; intros f f' Hf Hm; [by apply Hf|].
  cbn [spec_updates fold_left]. apply IH; [|done]. intros x Hx. unfold spec_update.
  by rewrite Hf.
Qed.

Lemma run_updates_spec us : forall c l bl,
  pending c l (size l) bl (pending_vals c bl) -> 1 <= outstanding l ->
  Z.of_nat (length (lh_block l)) = LOGSIZE ->
  Z.of_nat (length bl + length us) <= MAXOPBLOCKS -> MAXOPBLOCKS < size l ->
  Forall (fun u => home (start l) (size l) (Z.of_nat (length (disk c))) (fst u)) us ->
  exists c' l' bl', run_updates us (mkLstate c l) = Ok (tt, mkLstate c' l')
    /\ pending c' l' (size l') bl' (pending_vals c' bl')
    /\ disk c' = disk c /\ (forall m, 0 <= m -> view c' m = spec_updates us (view c) m)
    /\ size l' = size l /\ outstanding l' = outstanding l /\ start l' = start l
    /\ committing l' = committing l /\ length (lh_block l') = length (lh_block l) /\ (us <> [] \/ bl <> [] -> bl' <> []).
Proof.
  unfold MAXOPBLOCKS. induction us as [|[n g] us IH]; intros c l bl Hp Hout Hlen Hfit Hsz Hh.
  - exists c, l, bl. simpl. split; [done|]. split; [done|]. repeat split; tauto.
  - apply Forall_cons in Hh as [Hn Hh]. cbn [length] in Hfit.
    pose proof (absorbed_length bl n) as Hal.
    destruct (log_update_spec c l (size l) bl n g)
      as (c1 & l1 & d & Hrun & Hv & Hp1 & Hdk1 & _ & Hv1 & Hsz1 & Hout1 & Hst1 & Hcm1 & Hlen1);
      try done; unfold LOGSIZE, MAXOPBLOCKS, NBUF in *; try lia.
    destruct (IH c1 l1 (absorbed bl n))
      as (c2 & l2 & bl2 & Hrun2 & Hp2 & Hdk2 & Hv2 & Hsz2 & Hout2 & Hst2 & Hcm2 & Hlen2 & Hne2);
      rewrite ?Hsz1, ?Hdk1, ?Hst1; try done; try lia.
    exists c2, l2, bl2. split; [cbn [run_updates]; mrun; by rewrite Hrun|].
    split; [done|]. split; [congruence|]. split.
    { intros m Hm. rewrite Hv2 by done. cbn [spec_updates fold_left].
      apply spec_updates_ext; [|done]. intros x Hx. rewrite Hv1 by done.
      unfold spec_update. simpl. destruct (Z.eqb_spec x n) as [->|]; [|done]. by rewrite Hv. }
    do 5 (split; [congruence|]). intros _. apply Hne2. right.
    unfold absorbed. case_decide as Hd; [|by destruct bl].
    intros ->. by apply elem_of_nil in Hd.
Qed.

(** C20: a file-system call runs as one transaction: from a quiet log,
    [begin_op], at most [MAXOPBLOCKS] logged updates of blocks outside the log
    area, and [end_op] run without panic or deadlock, put on disk exactly the
    updates applied in order to the old contents, and leave the log quiet. *)
Theorem fs_call_commits c l us :
  quiet c l -> us <> [] -> Z.of_nat (length us) <= MAXOPBLOCKS -> MAXOPBLOCKS < size l ->
  Forall (fun u => home (start l) (size l) (Z.of_nat (length (disk c))) (fst u)) us ->
  exists c' l', fs_call us (mkLstate c l) = Ok (tt, mkLstate c' l') /\ quiet c' l'
    /\ forall m, home (start l) (size l) (Z.of_nat (length (disk c))) m ->
         disk c' !! Z.to_nat m = spec_updates us (view c) m
         /\ view c' m = spec_updates us (view c) m.
Proof.
  intros [Hp Ho Hidle Hblk] Hne Hfit Hsz Hh.
  set (l1 := mkLog (start l) (size l) (outstanding l + 1) (committing l) (ldev l) (lh_n l)
               (lh_block l)).
  destruct (run_updates_spec us c l1 [])
    as (c2 & l2 & bl & Hrun & Hp2 & Hdk2 & Hv2 & Hsz2 & Hout2 & Hst2 & Hcm2 & Hlen2 & Hbl);
    try done; [by destruct Hp|simpl; lia|].
  set (l3 := mkLog (start l2) (size l2) 0 true (ldev l2) (lh_n l2) (lh_block l2)).
  destruct (commit_result c2 l3 (size l2) bl (pending_vals c2 bl))
    as (c3 & Hcom & Hdisk & He & Hwf & Hlen & Hb & Hcl); [by destruct Hp2|auto|].
  simpl in Hsz2, Hout2, Hst2, Hcm2, Hlen2, Hdisk, He, Hwf. rewrite Hsz2, Hst2 in *.
  exists c3, (mkLog (start l) (size l) 0 false (ldev l2) 0 (lh_block l2)). split; [|split].
  - unfold fs_call, begin_op, end_op, set_log. mrun. cbn [lg cache]. rewrite Hidle, Ho.
    replace (LOGSIZE <? _) with false
      by (destruct Hp as [_ _ _ _ Hn _ _ _ _]; rewrite Hn; unfold LOGSIZE, MAXOPBLOCKS; simpl; lia).
    mrun. cbn [lg cache]. unfold l1 in Hrun. rewrite Hidle, Ho in Hrun.
    change (0 + 1) with 1 in *. rewrite Hrun. cbn [lg cache].
    rewrite Hcm2, Hidle, Hout2, Ho. change (0 + 1 - 1 =? 0) with true. cbn iota.
    unfold l3 in Hcom. rewrite Hst2, Hsz2 in *. change (0 + 1 - 1) with 0.
    cbn [cache]. rewrite Hcom. done.
  - destruct Hp2 as [_ Hd2 _ _ _ [_ _ _ _ _ Hint] _ _ _].
    constructor; simpl; try done; [|by rewrite Hlen2].
    constructor; simpl; try done.
    + constructor; simpl; try done; [apply NoDup_nil_2|].
      pose proof (wf_area _ _ _ Hwf). unfold LOGSIZE, MAXOPBLOCKS. lia.
    + intros m. split; [by intros ?%Hcl|by intros ?%elem_of_nil].
    + unfold NBUF. lia.
  - intros m Hm. destruct (Hdisk m) as [H1 H2]; [by rewrite Hdk2|].
    rewrite H1, H2, Hv2 by apply Hm. done.
Qed.

(** The admission test of [begin_op] does not fit the log [mkfs] makes: with
    [log.size = LOGSIZE] three calls are admitted together, each entitled to
    [MAXOPBLOCKS] blocks, but once 29 blocks are logged the next [log_write] of
    these calls panics. *)
Theorem begin_op_admits_too_much c l i :
  size l = LOGSIZE -> committing l = false -> lh_n l = 0 -> outstanding l = 2 ->
  let l3 := mkLog (start l) (size l) 3 false (ldev l) 0 (lh_block l) in
  begin_op (mkLstate c l) = Ok (Some tt, mkLstate c l3)
  /\ forall l4, size l4 = size l3 -> outstanding l4 = outstanding l3 ->
       lh_n l4 = 3 * MAXOPBLOCKS - 1 ->
       log_write i (mkLstate c l4) = Panic "too big a transaction".
Proof.
  intros Hs Hc Hn Ho l3. split.
  - unfold begin_op, set_log. mrun. cbn [lg cache]. by rewrite Hc, Hn, Ho.
  - intros l4 Hs4 _ Hn4. unfold log_write. mrun. cbn [lg]. rewrite Hn4, Hs4. unfold l3.
    cbn [size]. by rewrite Hs.
Qed.

(** ** A concrete disk: 40 zeroed blocks, the log in blocks 2 to 32. *)
Definition zero_block : block := replicate 512 0.
Definition small_disk : list block := replicate 40 zero_block.
Definition small_log : log := mkLog 2 31 0 false 1 0 (replicate 30 0).

Lemma small_header : header 2 small_disk = zero_block.
Proof. reflexivity. Qed.

Lemma small_wf : log_wf 2 31 small_disk.
Proof.
  constructor; rewrite ?small_header.
  - unfold small_disk. rewrite length_replicate. lia.
  - reflexivity.
  - change (head_n zero_block) with 0. unfold LOGSIZE, MAXOPBLOCKS. lia.
  - apply NoDup_nil_2.
  - apply Forall_nil_2.
Qed.

Lemma small_quiet : quiet (binit small_disk) small_log.
Proof.
  destruct (binit_inv small_disk) as [Hi Hd].
  constructor; [|done..]. constructor; try done.
  - exact small_wf.
  - constructor; try done; [apply NoDup_nil_2|].
    repeat constructor; done.
  - intros m. split; [intros H; by apply ndirty_zero in H|by intros ?%elem_of_nil].
  - unfold NBUF. simpl. lia.
Qed.

Lemma fs_call_commits_witness :
  exists c' l', fs_call [(35, fun _ => [7]); (36, fun d => 1 :: d)]
                  (mkLstate (binit small_disk) small_log) = Ok (tt, mkLstate c' l')
    /\ disk c' !! 35%nat = Some [7].
Proof.
  destruct (fs_call_commits (binit small_disk) small_log
    [(35, fun _ => [7]); (36, fun d => 1 :: d)]) as (c' & l' & Hrun & _ & Hd).
  - exact small_quiet.
  - done.
  - done.
  - done.
  - repeat constructor; unfold home; simpl; lia.
  - exists c', l'. split; [exact Hrun|]. destruct (Hd 35) as [H _]; [unfold home; simpl; lia|].
    exact H.
Defined.

Lemma log_crash_atomic_witness :
  exists c l bl vals, pending c l 31 bl vals /\ bl = [35]
    /\ exists c', commit (mkLstate c l) = Ok (tt, mkLstate c' (cleared l)).
Proof.
  destruct small_quiet as [Hp Ho _ Hb].
  set (l1 := mkLog 2 31 1 false 1 0 (replicate 30 0)).
  destruct (log_update_spec (binit small_disk) l1 31 [] 35 (fun _ => [7]))
    as (c1 & l2 & d & _ & _ & Hp1 & _); try done.
  - by destruct Hp.
  - unfold home; simpl; lia.
  - unfold NBUF. simpl. lia.
  - exists c1, l2, [35], (pending_vals c1 [35]). split; [exact Hp1|]. split; [done|].
    destruct (log_crash_atomic c1 l2 31 [35] (pending_vals c1 [35]) 1 [0%nat; 3%nat] small_log Hp1)
      as (c' & Hc & _); [done|]. by exists c'.
Defined.

Lemma begin_op_admits_too_much_witness :
  let l := mkLog 2 LOGSIZE 2 false 1 0 (replicate 30 0) in
  begin_op (mkLstate (binit small_disk) l)
  = Ok (Some tt, mkLstate (binit small_disk) (mkLog 2 LOGSIZE 3 false 1 0 (replicate 30 0))).
Proof.
  apply (begin_op_admits_too_much (binit small_disk)
    (mkLog 2 LOGSIZE 2 false 1 0 (replicate 30 0)) 0); reflexivity.
Defined.
