(* ===== verification/Fs.v ===== *)
(** Model of src/fs.c: block allocation, inodes, file contents, directories and
    path names, on top of the log.

    Inodes are named by their index in [icache.inode]; a null inode pointer is
    [None].  On-disk structures are read from and written to the bytes of their
    block at the offsets of the C structs.  The functions run for one process;
    an inode lock that is held would make it wait for another process and is a
    [Fault] here, as for buffers. *)
From stdpp Require Import base strings numbers list.
From S2P Require Import Prelude CString Bio Log.
Local Open Scope Z_scope.

Definition NDIRECT : Z := 12.
Definition NINDIRECT : Z := BSIZE / 4.
Definition MAXFILE : Z := NDIRECT + NINDIRECT.
Definition IPB : Z := BSIZE / 64.
Definition BPB : Z := BSIZE * 8.
Definition DIRSIZ : Z := 14.
Definition NINODE : nat := 50.
Definition ROOTDEV : Z := 1.
Definition ROOTINO : Z := 1.
Definition T_DIR : Z := 1.
Definition I_VALID : Z := 2.

Record superblock : Type := mkSuper {
  sb_size : Z;
  sb_nblocks : Z;
  sb_ninodes : Z;
  sb_nlog : Z;
  sb_logstart : Z;
  sb_inodestart : Z;
  sb_bmapstart : Z }.

Record inode : Type := mkInode {
  idev : Z;
  inum : Z;
  iref : Z;
  ilocked : Z;
  iflags : Z;
  itype : Z;
  major : Z;
  minor : Z;
  nlink : Z;
  isize : Z;
  addrs : list Z }.

Record fstate : Type := mkFs {
  lst : lstate;
  sb : superblock;
  inodes : list inode;
  cwd : nat }.

Definition on_log {A} (m : M lstate A) : M fstate A := fun s =>
  match m (lst s) with
  | Ok (a, l) => Ok (a, mkFs l (sb s) (inodes s) (cwd s))
  | Panic e => Panic e
  | Fault => Fault
  | NoFuel => NoFuel
  end.

Definition no_fuel {A} : M fstate A := fun _ => NoFuel.

(** [begin_op()] of a call that finds room in the log; one that has to wait for
    other calls makes no progress here. *)
Definition start_op : M fstate unit :=
  r ← on_log begin_op;
  match r with Some _ => mret tt | None => no_fuel end.

(** * Layout of the on-disk structures *)

Definition get_uint (d : block) (off : nat) : Z := u32 (get_int d off).
Definition get_short (d : block) (off : nat) : Z :=
  s16 (nth off d 0 + 256 * nth (off + 1) d 0).
Definition put_short (d : block) (off : nat) (v : Z) : block :=
  <[off := u8 v]> (<[(off + 1)%nat := u8 (v / 256)]> d).

Definition get_super (d : block) : superblock :=
  mkSuper (get_uint d 0) (get_uint d 4) (get_uint d 8) (get_uint d 12) (get_uint d 16)
    (get_uint d 20) (get_uint d 24).

Definition IBLOCK (i : Z) (sb : superblock) : Z := i / IPB + sb_inodestart sb.
Definition BBLOCK (b : Z) (sb : superblock) : Z := b / BPB + sb_bmapstart sb.

(** The dinode at byte offset [off]: type, major, minor, nlink, size, addrs. *)
Definition dinode_off (i : Z) : nat := Z.to_nat (64 * (i mod IPB)).

Fixpoint put_uints (d : block) (off : nat) (vs : list Z) : block :=
  match vs with
  | [] => d
  | v :: vs => put_uints (put_int d off v) (off + 4) vs
  end.

Definition put_dinode (d : block) (off : nat) (ip : inode) : block :=
  let d := put_short d off (itype ip) in
  let d := put_short d (off + 2) (major ip) in
  let d := put_short d (off + 4) (minor ip) in
  let d := put_short d (off + 6) (nlink ip) in
  let d := put_int d (off + 8) (isize ip) in
  put_uints d (off + 12) (addrs ip).

(** The inode with its fields read from the block. *)
Definition get_dinode (d : block) (off : nat) (ip : inode) : inode :=
  mkInode (idev ip) (inum ip) (iref ip) (ilocked ip) (iflags ip)
    (get_short d off) (get_short d (off + 2)) (get_short d (off + 4)) (get_short d (off + 6))
    (get_uint d (off + 8))
    (map (fun k => get_uint d (off + 12 + 4 * k)) (seq 0 13)).

Definition zero_range (d : block) (off n : nat) : block :=
  take off d ++ replicate n 0 ++ drop (off + n) d.

(** * Blocks *)

Definition readsb (dev : Z) : M fstate superblock :=
  on_log (on_cache (with_block dev 1 (fun i => b ← get_buf i; mret (get_super (bdata b))))).

(** [bread], [log_write] and [brelse] of block [n] around a computation [f] on
    its data: [f] gives the new data, if it changes them, and a result. *)
Definition with_logged {A} (dev n : Z) (f : block -> option block * A) : M fstate A :=
  on_log (
    i ← on_cache (bread dev n);
    b ← on_cache (get_buf i);
    let '(d', a) := f (bdata b) in
    match d' with
    | Some d' => on_cache (set_data i d') ;; log_write i
    | None => mret tt
    end ;;
    on_cache (brelse i) ;;
    mret a).

Definition bzero (dev bno : Z) : M fstate unit :=
  with_logged dev bno (fun d => (Some (replicate (length d) 0), tt)).

(** [data[bi/8] & (1 << (bi % 8))]. *)
Definition bit_set (d : block) (bi : Z) : bool :=
  negb (Z.land (nth (Z.to_nat (bi / 8)) d 0) (Z.shiftl 1 (bi mod 8)) =? 0).

Definition set_bit (d : block) (bi : Z) : block :=
  let k := Z.to_nat (bi / 8) in
  <[k := Z.lor (nth k d 0) (Z.shiftl 1 (bi mod 8))]> d.

Definition clear_bit (d : block) (bi : Z) : block :=
  let k := Z.to_nat (bi / 8) in
  <[k := Z.land (nth k d 0) (u8 (Z.lnot (Z.shiftl 1 (bi mod 8))))]> d.

(** The inner loop of [balloc]: the first clear bit from [bi] on; [n] bits are
    left. *)
Fixpoint find_clear (d : block) (bi : Z) (n : nat) : option Z :=
  match n with
  | O => None
  | S n => if negb (bit_set d bi) then Some bi else find_clear d (bi + 1) n
  end.

(** One turn of the outer loop of [balloc]. *)
Definition balloc_group (dev b : Z) : M fstate (option Z) :=
  s ← get;
  with_logged dev (BBLOCK b (sb s)) (fun d =>
    match find_clear d 0 (Z.to_nat (Z.min BPB (sb_size (sb s) - b))) with
    | Some bi => (Some (set_bit d bi), Some bi)
    | None => (None, None)
    end).

Fixpoint balloc_loop (fuel : nat) (dev b : Z) : M fstate Z :=
  s ← get;
  if negb (b <? sb_size (sb s)) then panic "balloc: out of blocks"
  else match fuel with
  | O => no_fuel
  | S fuel =>
      r ← balloc_group dev b;
      match r with
      | Some bi => bzero dev (b + bi) ;; mret (b + bi)
      | None => balloc_loop fuel dev (b + BPB)
      end
  end.

Definition balloc (dev : Z) : M fstate Z :=
  s ← get;
  balloc_loop (S (Z.to_nat (sb_size (sb s) / BPB))) dev 0.

Definition bfree (dev b : Z) : M fstate unit :=
  sb' ← readsb dev;
  modify (fun s => mkFs (lst s) sb' (inodes s) (cwd s)) ;;
  let bi := b mod BPB in
  ok ← with_logged dev (BBLOCK b sb') (fun d =>
    if bit_set d bi then (Some (clear_bit d bi), true) else (None, false));
  if (ok : bool) then mret tt else panic "freeing free block".

(** * Inodes *)

Definition get_ip (i : nat) : M fstate inode := fun s =>
  match inodes s !! i with Some ip => Ok (ip, s) | None => Fault end.
Definition set_ip (i : nat) (ip : inode) : M fstate unit :=
  modify (fun s => mkFs (lst s) (sb s) (<[i := ip]> (inodes s)) (cwd s)).

Definition with_ref (ip : inode) (r : Z) : inode :=
  mkInode (idev ip) (inum ip) r (ilocked ip) (iflags ip) (itype ip) (major ip) (minor ip)
    (nlink ip) (isize ip) (addrs ip).
Definition with_lock (ip : inode) (l : Z) : inode :=
  mkInode (idev ip) (inum ip) (iref ip) l (iflags ip) (itype ip) (major ip) (minor ip)
    (nlink ip) (isize ip) (addrs ip).
Definition with_flags (ip : inode) (f : Z) : inode :=
  mkInode (idev ip) (inum ip) (iref ip) (ilocked ip) f (itype ip) (major ip) (minor ip)
    (nlink ip) (isize ip) (addrs ip).
Definition with_type (ip : inode) (t : Z) : inode :=
  mkInode (idev ip) (inum ip) (iref ip) (ilocked ip) (iflags ip) t (major ip) (minor ip)
    (nlink ip) (isize ip) (addrs ip).
Definition with_size (ip : inode) (n : Z) : inode :=
  mkInode (idev ip) (inum ip) (iref ip) (ilocked ip) (iflags ip) (itype ip) (major ip)
    (minor ip) (nlink ip) n (addrs ip).
Definition with_addr (ip : inode) (k : nat) (a : Z) : inode :=
  mkInode (idev ip) (inum ip) (iref ip) (ilocked ip) (iflags ip) (itype ip) (major ip)
    (minor ip) (nlink ip) (isize ip) (<[k := a]> (addrs ip)).

Definition iinit (dev : Z) : M fstate unit :=
  modify (fun s => mkFs (lst s) (sb s) (map (fun ip => with_lock ip 0) (inodes s)) (cwd s)) ;;
  sb' ← readsb dev;
  modify (fun s => mkFs (lst s) sb' (inodes s) (cwd s)).

(** The scan of [iget]: the entry in use for the inode, else the first free
    entry. *)
Fixpoint iget_scan (l : list inode) (dev num : Z) (i : nat) (empty : option nat)
    : nat + option nat :=
  match l with
  | [] => inr empty
  | ip :: l =>
      if (0 <? iref ip) && (idev ip =? dev) && (inum ip =? num) then inl i
      else iget_scan l dev num (S i)
             (match empty with
              | None => if iref ip =? 0 then Some i else None
              | Some _ => empty
              end)
  end.

Definition iget (dev num : Z) : M fstate nat :=
  s ← get;
  match iget_scan (inodes s) dev num 0 None with
  | inl i => ip ← get_ip i; set_ip i (with_ref ip (s32 (iref ip + 1))) ;; mret i
  | inr None => panic "iget: no inodes"
  | inr (Some i) =>
      ip ← get_ip i;
      set_ip i (mkInode dev num 1 (ilocked ip) 0 (itype ip) (major ip) (minor ip)
                  (nlink ip) (isize ip) (addrs ip)) ;;
      mret i
  end.

(** [ialloc]'s loop from inode number [num]. *)
Fixpoint ialloc_loop (fuel : nat) (dev type num : Z) : M fstate nat :=
  s ← get;
  if negb (num <? sb_ninodes (sb s)) then panic "ialloc: no inodes"
  else match fuel with
  | O => no_fuel
  | S fuel =>
      found ← with_logged dev (IBLOCK num (sb s)) (fun d =>
        let off := dinode_off num in
        if get_short d off =? 0
        then (Some (put_short (zero_range d off 64) off type), true)
        else (None, false));
      if (found : bool) then iget dev num else ialloc_loop fuel dev type (num + 1)
  end.

Definition ialloc (dev type : Z) : M fstate nat :=
  s ← get; ialloc_loop (Z.to_nat (sb_ninodes (sb s))) dev type 1.

Definition iupdate (i : nat) : M fstate unit :=
  ip ← get_ip i;
  s ← get;
  with_logged (idev ip) (IBLOCK (inum ip) (sb s)) (fun d =>
    (Some (put_dinode d (dinode_off (inum ip)) ip), tt)).

Definition idup (i : nat) : M fstate nat :=
  ip ← get_ip i; set_ip i (with_ref ip (s32 (iref ip + 1))) ;; mret i.

Definition ilock (i : nat) : M fstate unit :=
  ip ← get_ip i;
  if iref ip <? 1 then panic "ilock"
  else if negb (ilocked ip =? 0) then fault
  else
    let ip := with_lock ip 1 in
    set_ip i ip ;;
    if negb (has (iflags ip) I_VALID) then
      s ← get;
      ip ← with_logged (idev ip) (IBLOCK (inum ip) (sb s)) (fun d =>
        (None, get_dinode d (dinode_off (inum ip)) ip));
      let ip := with_flags ip (Z.lor (iflags ip) I_VALID) in
      set_ip i ip ;;
      if itype ip =? 0 then panic "ilock: no type" else mret tt
    else mret tt.

Definition iunlock (i : nat) : M fstate unit :=
  ip ← get_ip i;
  if (ilocked ip =? 0) || (iref ip <? 1) then panic "iunlock"
  else set_ip i (with_lock ip 0).

(** [for(i = 0; i < NDIRECT; i++) if(ip->addrs[i]) { bfree; ip->addrs[i] = 0 }]. *)
Fixpoint itrunc_direct (i : nat) (ks : list nat) : M fstate unit :=
  match ks with
  | [] => mret tt
  | k :: ks =>
      ip ← get_ip i;
      let a := nth k (addrs ip) 0 in
      (if negb (a =? 0) then bfree (idev ip) a ;; set_ip i (with_addr ip k 0) else mret tt) ;;
      itrunc_direct i ks
  end.

Fixpoint free_all (dev : Z) (as_ : list Z) : M fstate unit :=
  match as_ with
  | [] => mret tt
  | a :: as_ => (if negb (a =? 0) then bfree dev a else mret tt) ;; free_all dev as_
  end.

Definition itrunc (i : nat) : M fstate unit :=
  itrunc_direct i (seq 0 (Z.to_nat NDIRECT)) ;;
  ip ← get_ip i;
  let ind := nth (Z.to_nat NDIRECT) (addrs ip) 0 in
  (if negb (ind =? 0) then
     bp ← on_log (on_cache (bread (idev ip) ind));
     b ← on_log (on_cache (get_buf bp));
     free_all (idev ip)
       (map (fun j => get_uint (bdata b) (4 * j)) (seq 0 (Z.to_nat NINDIRECT))) ;;
     on_log (on_cache (brelse bp)) ;;
     bfree (idev ip) ind ;;
     set_ip i (with_addr ip (Z.to_nat NDIRECT) 0)
   else mret tt) ;;
  ip ← get_ip i;
  set_ip i (with_size ip 0) ;;
  iupdate i.

Definition iput (i : nat) : M fstate unit :=
  ip ← get_ip i;
  (if (iref ip =? 1) && has (iflags ip) I_VALID && (nlink ip =? 0) then
     itrunc i ;;
     ip ← get_ip i;
     set_ip i (with_type ip 0) ;;
     iupdate i ;;
     ip ← get_ip i;
     set_ip i (with_flags ip 0)
   else mret tt) ;;
  ip ← get_ip i;
  set_ip i (with_ref ip (s32 (iref ip - 1))).

Definition iunlockput (i : nat) : M fstate unit := iunlock i ;; iput i.

(** * File contents *)

Definition bmap (i : nat) (bn : Z) : M fstate Z :=
  ip ← get_ip i;
  if bn <? NDIRECT then
    let a := nth (Z.to_nat bn) (addrs ip) 0 in
    if a =? 0 then
      a ← balloc (idev ip);
      set_ip i (with_addr ip (Z.to_nat bn) a) ;;
      mret a
    else mret a
  else
    let bn := bn - NDIRECT in
    if bn <? NINDIRECT then
      let a := nth (Z.to_nat NDIRECT) (addrs ip) 0 in
      a ← (if a =? 0 then
             a ← balloc (idev ip);
             set_ip i (with_addr ip (Z.to_nat NDIRECT) a) ;;
             mret a
           else mret a);
      bp ← on_log (on_cache (bread (idev ip) a));
      b ← on_log (on_cache (get_buf bp));
      let a := get_uint (bdata b) (4 * Z.to_nat bn) in
      a ← (if a =? 0 then
             a ← balloc (idev ip);
             b ← on_log (on_cache (get_buf bp));
             on_log (on_cache (set_data bp (put_int (bdata b) (4 * Z.to_nat bn) a))) ;;
             on_log (log_write bp) ;;
             mret a
           else mret a);
      on_log (on_cache (brelse bp)) ;;
      mret a
    else panic "bmap: out of range".

Record stat : Type := mkStat {
  st_type : Z; st_dev : Z; st_ino : Z; st_nlink : Z; st_size : Z }.

Definition stati (ip : inode) : stat :=
  mkStat (itype ip) (idev ip) (inum ip) (nlink ip) (isize ip).

(** The loop of [readi]: [n] bytes from [off] on, appended to the bytes read.
    Each turn copies at least one byte, so [n] turns are enough. *)
Fixpoint readi_loop (fuel : nat) (i : nat) (off n : Z) : M fstate (list Z) :=
  if n <=? 0 then mret []
  else match fuel with
  | O => no_fuel
  | S fuel =>
      ip ← get_ip i;
      bn ← bmap i (off / BSIZE);
      let m := Z.min n (BSIZE - off mod BSIZE) in
      cs ← on_log (on_cache (with_block (idev ip) bn (fun bp =>
        b ← get_buf bp;
        mret (take (Z.to_nat m) (drop (Z.to_nat (off mod BSIZE)) (bdata b))))));
      rest ← readi_loop fuel i (off + m) (n - m);
      mret (cs ++ rest)
  end.

(** [None] is the return value -1; otherwise the bytes stored at [dst]. *)
Definition readi (i : nat) (off n : Z) : M fstate (option (list Z)) :=
  ip ← get_ip i;
  if (isize ip <? off) || (u32 (off + n) <? off) then mret None
  else
    let n := if isize ip <? u32 (off + n) then isize ip - off else n in
    cs ← readi_loop (Z.to_nat n) i off n;
    mret (Some cs).

(** [memmove(bp->data + k, src, m)]. *)
Definition splice (d : block) (k : nat) (src : list Z) : block :=
  take k d ++ src ++ drop (k + length src) d.

(** The loop of [writei]; the result is the final [off]. *)
Fixpoint writei_loop (fuel : nat) (i : nat) (src : list Z) (off : Z) : M fstate Z :=
  match src with
  | [] => mret off
  | _ =>
      match fuel with
      | O => no_fuel
      | S fuel =>
          ip ← get_ip i;
          bn ← bmap i (off / BSIZE);
          let m := Z.min (Z.of_nat (length src)) (BSIZE - off mod BSIZE) in
          with_logged (idev ip) bn (fun d =>
            (Some (splice d (Z.to_nat (off mod BSIZE)) (take (Z.to_nat m) src)), tt)) ;;
          writei_loop fuel i (drop (Z.to_nat m) src) (off + m)
      end
  end.

(** [src] are the [n] bytes to write. *)
Definition writei (i : nat) (src : list Z) (off : Z) : M fstate Z :=
  let n := Z.of_nat (length src) in
  ip ← get_ip i;
  if (isize ip <? off) || (u32 (off + n) <? off) then mret (-1)
  else if MAXFILE * BSIZE <? u32 (off + n) then mret (-1)
  else
    off ← writei_loop (length src) i src off;
    ip ← get_ip i;
    (if (0 <? n) && (isize ip <? off) then set_ip i (with_size ip off) ;; iupdate i
     else mret tt) ;;
    mret n.

(** * Directories *)

(** [strncmp(s, t, DIRSIZ)] on the bytes of two names. *)
Definition namecmp (s t : list Z) : Z := strncmp s t (Z.to_nat DIRSIZ).

Record dirent : Type := mkDirent { de_inum : Z; de_name : list Z }.

Definition get_dirent (bytes : list Z) : dirent :=
  mkDirent (u16 (nth 0 bytes 0 + 256 * nth 1 bytes 0)) (take 14 (drop 2 bytes)).
Definition put_dirent (de : dirent) : list Z :=
  [u8 (de_inum de); u8 (de_inum de / 256)] ++ de_name de.

Definition sizeof_dirent : Z := 16.

(** Read the entry at [off]. *)
Definition read_dirent (dp : nat) (off : Z) (msg : string) : M fstate dirent :=
  r ← readi dp off sizeof_dirent;
  match r with
  | Some bytes =>
      if Z.of_nat (length bytes) =? sizeof_dirent then mret (get_dirent bytes)
      else panic msg
  | None => panic msg
  end.

(** The loop of [dirlookup] from [off]; [fuel] bounds the entries left. *)
Fixpoint dirlookup_loop (fuel : nat) (dp : nat) (name : list Z) (off : Z)
    : M fstate (option (Z * Z)) :=
  ip ← get_ip dp;
  if negb (off <? isize ip) then mret None
  else match fuel with
  | O => no_fuel
  | S fuel =>
      de ← read_dirent dp off "dirlookup read";
      if de_inum de =? 0 then dirlookup_loop fuel dp name (u32 (off + sizeof_dirent))
      else if namecmp name (de_name de) =? 0 then mret (Some (off, de_inum de))
      else dirlookup_loop fuel dp name (u32 (off + sizeof_dirent))
  end.

(** The inode found, if any, and the offset of its entry ([*poff]). *)
Definition dirlookup (dp : nat) (name : list Z) : M fstate (option (nat * Z)) :=
  ip ← get_ip dp;
  if negb (itype ip =? T_DIR) then panic "dirlookup not DIR"
  else
    r ← dirlookup_loop (S (Z.to_nat (isize ip / sizeof_dirent))) dp name 0;
    match r with
    | None => mret None
    | Some (off, n) => i ← iget (idev ip) n; mret (Some (i, off))
    end.

(** The search of [dirlink] for an empty entry. *)
Fixpoint dirlink_loop (fuel : nat) (dp : nat) (off : Z) : M fstate Z :=
  ip ← get_ip dp;
  if negb (off <? isize ip) then mret off
  else match fuel with
  | O => no_fuel
  | S fuel =>
      de ← read_dirent dp off "dirlink read";
      if de_inum de =? 0 then mret off
      else dirlink_loop fuel dp (s32 (off + sizeof_dirent))
  end.

Definition dirlink (dp : nat) (name : list Z) (num : Z) : M fstate Z :=
  r ← dirlookup dp name;
  match r with
  | Some (i, _) => iput i ;; mret (-1)
  | None =>
      ip ← get_ip dp;
      off ← dirlink_loop (S (Z.to_nat (isize ip / sizeof_dirent))) dp 0;
      n ← writei dp (put_dirent (mkDirent (u16 num) (strncpy name (Z.to_nat DIRSIZ)))) off;
      if negb (n =? sizeof_dirent) then panic "dirlink" else mret 0
  end.

(** * Paths *)

Definition slash : Z := 47.

Fixpoint skip_slashes (path : list Z) : list Z :=
  match path with
  | c :: path' => if c =? slash then skip_slashes path' else path
  | [] => []
  end.

(** The characters up to the next slash, and the rest. *)
Fixpoint span_elem (path : list Z) : list Z * list Z :=
  match path with
  | c :: path' =>
      if c =? slash then ([], path)
      else let '(e, rest) := span_elem path' in (c :: e, rest)
  | [] => ([], [])
  end.

(** [skipelem(path, name)]: the bytes stored at [name] and the path after the
    element, or [None] when there is no element.  A short name is stored with
    its NUL, a name of [DIRSIZ] or more characters without one. *)
Definition skipelem (path : list Z) : option (list Z * list Z) :=
  let path := skip_slashes path in
  match path with
  | [] => None
  | _ =>
      let '(s, rest) := span_elem path in
      let name := if DIRSIZ <=? Z.of_nat (length s) then take (Z.to_nat DIRSIZ) s
                  else s ++ [0] in
      Some (name, skip_slashes rest)
  end.

(** The characters of a name, up to its NUL. *)
Fixpoint name_chars (name : list Z) : list Z :=
  match name with
  | [] => []
  | c :: name => if c =? 0 then [] else c :: name_chars name
  end.

(** The loop of [namex]: each turn removes an element, so the length of the
    path bounds the turns. *)
Fixpoint namex_loop (fuel : nat) (ip : nat) (path : list Z) (parent : bool)
    : M fstate (option (nat * list Z)) :=
  match skipelem path with
  | None => if parent then iput ip ;; mret None else mret (Some (ip, []))
  | Some (name, path) =>
      match fuel with
      | O => no_fuel
      | S fuel =>
          ilock ip ;;
          ino ← get_ip ip;
          if negb (itype ino =? T_DIR) then iunlockput ip ;; mret None
          else if parent && bool_decide (path = []) then
            iunlock ip ;; mret (Some (ip, name))
          else
            next ← dirlookup ip (name_chars name);
            match next with
            | None => iunlockput ip ;; mret None
            | Some (next, _) => iunlockput ip ;; namex_loop fuel next path parent
            end
      end
  end.

Definition namex (path : list Z) (parent : bool) : M fstate (option (nat * list Z)) :=
  s ← get;
  ip ← (if cur path =? slash then iget ROOTDEV ROOTINO else idup (cwd s));
  namex_loop (length path) ip path parent.

Definition namei (path : list Z) : M fstate (option nat) :=
  r ← namex path false; mret (fst <$> r).

Definition nameiparent (path : list Z) : M fstate (option (nat * list Z)) :=
  namex path true.
