(* ===== verification/FsPath.v ===== *)
(** Path names (the end of src/fs.c): [skipelem] against a reference splitting
    of the path at its slashes. *)
From stdpp Require Import base strings numbers list.
From S2P Require Import Prelude CString Bio Log Fs.
Local Open Scope Z_scope.

(** The pieces between slashes, empty ones included. *)
Fixpoint pieces (path : list Z) : list (list Z) :=
  match path with
  | [] => [[]]
  | c :: path =>
      if c =? slash then [] :: pieces path
      else match pieces path with
           | [] => [[c]]
           | e :: es => (c :: e) :: es
           end
  end.

(** The elements of a path: its non-empty pieces. *)
Definition elements (path : list Z) : list (list Z) :=
  List.filter (fun e => negb (bool_decide (e = []))) (pieces path).

(** What [skipelem] stores for an element: at most 14 characters. *)
Definition stored (e : list Z) : list Z :=
  if DIRSIZ <=? Z.of_nat (length e) then take (Z.to_nat DIRSIZ) e else e ++ [0].

(** The names [namex] looks up, one [skipelem] per turn. *)
Fixpoint path_names (fuel : nat) (path : list Z) : res (list (list Z)) :=
  match skipelem path with
  | None => Ok []
  | Some (name, rest) =>
      match fuel with
      | O => NoFuel
      | S fuel => names ← path_names fuel rest; Ok (name_chars name :: names)
      end
  end.

Lemma pieces_nonempty path : exists e es, pieces path = e :: es.
Proof.
  destruct path as [|c path]; simpl; [by eauto|].
  destruct (c =? slash); [by eauto|]. destruct (pieces path); eauto.
Qed.

Lemma elements_skip path : elements (skip_slashes path) = elements path.
Proof.
  induction path as [|c path IH]; [done|]. simpl. destruct (c =? slash) eqn:E; [|done].
  rewrite IH. unfold elements. simpl. by rewrite E.
Qed.

Lemma skip_slashes_head path : cur (skip_slashes path) <> slash.
Proof.
  induction path as [|c path IH]; [done|]. simpl.
  destruct (Z.eqb_spec c slash); [done|]. done.
Qed.

Lemma skip_slashes_length path : (length (skip_slashes path) <= length path)%nat.
Proof. induction path as [|c path IH]; simpl; [lia|]. destruct (_ =? _); simpl; lia. Qed.

Lemma skip_slashes_cstr path : is_cstr path -> is_cstr (skip_slashes path).
Proof.
  unfold is_cstr. induction 1 as [|c path Hc Hp IH]; simpl; [constructor|].
  destruct (_ =? _); [done|by constructor].
Qed.

(** The first piece, and where it ends. *)
Lemma span_elem_pieces path :
  let '(e, rest) := span_elem path in
  path = e ++ rest /\ (rest = [] \/ cur rest = slash)
  /\ match rest with
     | [] => pieces path = [e]
     | _ :: rest' => pieces path = e :: pieces rest'
     end.
Proof.
  induction path as [|c path IH]; simpl; [by auto|].
  destruct (Z.eqb_spec c slash) as [->|Hne]; [by auto|].
  destruct (span_elem path) as [e rest]. destruct IH as (-> & Hr & Hp).
  split; [done|]. split; [done|]. destruct rest; rewrite Hp; done.
Qed.

(** One [skipelem] takes the first element and leaves the others; the rest
    starts with no slash, so it is empty exactly after the last element. *)
Lemma skipelem_spec path :
  match elements path with
  | [] => skipelem path = None
  | e :: es => exists rest, skipelem path = Some (stored e, rest)
      /\ elements rest = es /\ (rest = [] <-> es = [])
      /\ (length rest < length path)%nat /\ (is_cstr path -> is_cstr rest)
  end.
Proof.
  rewrite <- (elements_skip path). unfold skipelem.
  pose proof (skip_slashes_head path) as Hhd. pose proof (skip_slashes_length path) as Hlen.
  pose proof (skip_slashes_cstr path) as Hcs.
  destruct (skip_slashes path) as [|c p]; [done|]. simpl in Hhd.
  pose proof (span_elem_pieces (c :: p)) as Hsp.
  destruct (span_elem (c :: p)) as [e rest]. destruct Hsp as (Hcp & Hr & Hp).
  assert (He : e <> []).
  { intros ->. simpl in Hcp. subst rest. destruct Hr; done. }
  assert (Hel : elements (c :: p) = e :: elements (skip_slashes rest)).
  { rewrite elements_skip. unfold elements. destruct rest as [|x rest]; rewrite Hp; simpl.
    - by rewrite bool_decide_eq_false_2 by done.
    - rewrite bool_decide_eq_false_2 by done. simpl.
      destruct Hr as [|Hx]; [done|]. simpl in Hx. by rewrite Hx, Z.eqb_refl. }
  rewrite Hel. exists (skip_slashes rest). split; [done|]. split; [done|].
  split; [|split; [|intros Hp'; specialize (Hcs Hp'); rewrite Hcp in Hcs;
    apply Forall_app in Hcs as [_ ?]; by apply skip_slashes_cstr]].
  - split; [by intros ->|]. intros Hnil. pose proof (skip_slashes_head rest) as Hh.
    destruct (skip_slashes rest) as [|x r]; [done|]. exfalso. simpl in Hh.
    unfold elements in Hnil. simpl in Hnil. replace (x =? slash) with false in Hnil by lia.
    destruct (pieces_nonempty r) as (y & ys & Hy). rewrite Hy in Hnil. done.
  - pose proof (skip_slashes_length rest) as Hl2.
    apply (f_equal length) in Hcp. rewrite length_app in Hcp.
    destruct e; [done|]. simpl in *. lia.
Qed.

Lemma name_chars_stored e :
  is_cstr e -> name_chars (stored e) = take (Z.to_nat DIRSIZ) e.
Proof.
  intros He. unfold stored. assert (Hid : forall l r, is_cstr l -> name_chars (l ++ r) = l ++ name_chars r).
  { induction l as [|c l IH]; intros r; [done|]. intros [Hc Hl]%Forall_cons. simpl.
    replace (c =? 0) with false by lia. simpl. by rewrite IH. }
  destruct (Z.leb_spec DIRSIZ (Z.of_nat (length e))).
  - pose proof (Hid (take (Z.to_nat DIRSIZ) e) [] (Forall_take _ _ _ He)) as H'.
    by rewrite !app_nil_r in H'.
  - rewrite Hid by done. simpl. rewrite app_nil_r, take_ge; [done|].
    unfold DIRSIZ in *. lia.
Qed.

Lemma pieces_cstr path : is_cstr path -> Forall is_cstr (pieces path).
Proof.
  unfold is_cstr. induction 1 as [|c path Hc _ IH]; simpl.
  - apply Forall_singleton, Forall_nil_2.
  - destruct (c =? slash); [by apply Forall_cons; split; [apply Forall_nil_2|]|].
    destruct (pieces path) as [|e es]; [by apply Forall_singleton, Forall_singleton|].
    apply Forall_cons in IH as [He Hes]. apply Forall_cons. split; [|done].
    by apply Forall_cons.
Qed.

Lemma path_names_spec fuel : forall path,
  is_cstr path -> (length path <= fuel)%nat ->
  path_names fuel path = Ok (map (take (Z.to_nat DIRSIZ)) (elements path)).
Proof.
  induction fuel as [|fuel IH]; intros path Hp Hf; cbn [path_names];
    pose proof (skipelem_spec path) as Hs;
    destruct (elements path) as [|e es] eqn:E.
  - by rewrite Hs.
  - destruct Hs as (rest & _ & _ & _ & Hlt & _). lia.
  - by rewrite Hs.
  - destruct Hs as (rest & Hs & Hes & _ & Hlt & Hcr). rewrite Hs.
    assert (Hce : is_cstr e).
    { pose proof (pieces_cstr path Hp) as Hpc. eapply Forall_forall in Hpc; [exact Hpc|].
      apply list_elem_of_In. assert (Hin : In e (elements path)) by (rewrite E; by left).
      by apply filter_In in Hin as [? _]. }
    rewrite IH; [|by apply Hcr|lia]. ok. by rewrite Hes, name_chars_stored.
Qed.

(** Looking up a path visits exactly its elements: repeating [skipelem] as
    [namex] does ends within the length of the path and yields, in order, the
    non-empty pieces between slashes, each cut to 14 characters; repeated,
    leading and trailing slashes make no difference. *)
Theorem namex_visits_elements path :
  is_cstr path ->
  path_names (length path) path = Ok (map (take (Z.to_nat DIRSIZ)) (elements path)).
Proof. intros Hp. by apply path_names_spec. Qed.

Lemma namex_visits_elements_witness :
  path_names (length (cstr "//usr//a_very_long_name/")) (cstr "//usr//a_very_long_name/")
     = Ok [cstr "usr"; cstr "a_very_long_na"].
Proof.
  rewrite (namex_visits_elements (cstr "//usr//a_very_long_name/")); [reflexivity|].
  unfold is_cstr. vm_compute. repeat (constructor; [by split|]). constructor.
Defined.
