(* ===== verification/FsInode.v ===== *)
(** The inode cache and the on-disk inode of src/fs.c. *)
From stdpp Require Import base strings numbers list.
From S2P Require Import Prelude CString Bio Log Fs.
Local Open Scope Z_scope.

(** * Bytes of a block *)

(** [d'] differs from [d] at most in the bytes [off, off + n). *)
Definition only_at (off n : nat) (d d' : block) : Prop :=
  length d' = length d
  /\ forall k, (k < off \/ off + n <= k)%nat -> nth k d' 0 = nth k d 0.

Lemma insert_only_at d k v off n :
  (off <= k < off + n)%nat -> only_at off n d (<[k := v]> d).
Proof.
  intros Hk. split; [by rewrite length_insert|]. intros j Hj.
  by rewrite !nth_lookup, list_lookup_insert_ne by lia.
Qed.

Lemma only_at_trans off n d d1 d2 :
  only_at off n d d1 -> only_at off n d1 d2 -> only_at off n d d2.
Proof.
  intros [Hl1 H1] [Hl2 H2]. split; [congruence|]. intros k Hk. by rewrite H2, H1.
Qed.

Lemma only_at_mono off n off' n' d d' :
  (off' <= off)%nat -> (off + n <= off' + n')%nat -> only_at off n d d' -> only_at off' n' d d'.
Proof. intros H1 H2 [Hl H]. split; [done|]. intros k Hk. apply H. lia. Qed.

Lemma put_short_at d off v : only_at off 2 d (put_short d off v).
Proof.
  unfold put_short. eapply only_at_trans; apply insert_only_at; lia.
Qed.

Lemma put_int_at d off v : only_at off 4 d (put_int d off v).
Proof.
  unfold put_int. do 3 (eapply only_at_trans; [|apply insert_only_at; lia]).
  apply insert_only_at. lia.
Qed.

Lemma put_uints_at vs d off : only_at off (4 * length vs) d (put_uints d off vs).
Proof.
  revert d off. induction vs as [|v vs IH]; intros d off; [done|]. cbn [put_uints length].
  apply (only_at_trans _ _ _ (put_int d off v)).
  - apply (only_at_mono off 4); [lia|lia|apply put_int_at].
  - apply (only_at_mono (off + 4) (4 * length vs)); [lia|lia|apply IH].
Qed.

Lemma get_short_ext d d' off n k :
  only_at off n d d' -> (k + 2 <= off \/ off + n <= k)%nat -> get_short d' k = get_short d k.
Proof. intros [_ H] Hk. unfold get_short. by rewrite !H by lia. Qed.

Lemma get_uint_ext d d' off n k :
  only_at off n d d' -> (k + 4 <= off \/ off + n <= k)%nat -> get_uint d' k = get_uint d k.
Proof. intros [_ H] Hk. unfold get_uint, get_int. by rewrite !H by lia. Qed.

Definition is_s16 (z : Z) : Prop := - 2 ^ 15 <= z < 2 ^ 15.

Lemma get_put_short d off v :
  (off + 1 < length d)%nat -> is_s16 v -> get_short (put_short d off v) off = v.
Proof.
  intros Hl Hv. unfold get_short, put_short. rewrite !nth_lookup.
  rewrite list_lookup_insert_eq by (rewrite length_insert; lia).
  rewrite list_lookup_insert_ne, list_lookup_insert_eq by lia. simpl.
  unfold s16, u8, is_s16 in *. dlia.
Qed.

Lemma get_put_uint d off v :
  (off + 3 < length d)%nat -> is_u32 v -> get_uint (put_int d off v) off = v.
Proof.
  intros Hl Hv. unfold get_uint. rewrite get_put_int_wrap by done.
  unfold s32, u32, is_u32 in *. dlia.
Qed.

Lemma get_put_uints vs d off k v :
  (off + 4 * length vs <= length d)%nat -> Forall is_u32 vs -> vs !! k = Some v ->
  get_uint (put_uints d off vs) (off + 4 * k) = v.
Proof.
  revert d off k. induction vs as [|w vs IH]; intros d off k Hl Hv Hk; [done|].
  apply Forall_cons in Hv as [Hw Hv]. cbn [put_uints length] in *.
  destruct k as [|k]; simpl in Hk.
  - injection Hk as ->. rewrite Nat.mul_0_r, Nat.add_0_r.
    erewrite get_uint_ext by (first [apply put_uints_at|lia]). apply get_put_uint; [lia|done].
  - replace (off + 4 * S k)%nat with (off + 4 + 4 * k)%nat by lia. apply IH; [|done|done].
    rewrite (proj1 (put_int_at d off w)). lia.
Qed.

(** * The on-disk inode *)

(** The fields of an inode are in the range of their C types. *)
Record inode_ok (ip : inode) : Prop := {
  ok_type : is_s16 (itype ip);
  ok_major : is_s16 (major ip);
  ok_minor : is_s16 (minor ip);
  ok_nlink : is_s16 (nlink ip);
  ok_size : is_u32 (isize ip);
  ok_addrs : Forall is_u32 (addrs ip);
  ok_naddrs : length (addrs ip) = 13%nat }.

Lemma put_dinode_at d off ip :
  length (addrs ip) = 13%nat -> only_at off 64 d (put_dinode d off ip).
Proof.
  intros Hn. unfold put_dinode. cbv zeta.
  eapply only_at_trans;
    [|apply (only_at_mono (off + 12) (4 * length (addrs ip))); [lia|lia|apply put_uints_at]].
  eapply only_at_trans; [|apply (only_at_mono (off + 8) 4); [lia|lia|apply put_int_at]].
  eapply only_at_trans; [|apply (only_at_mono (off + 6) 2); [lia|lia|apply put_short_at]].
  eapply only_at_trans; [|apply (only_at_mono (off + 4) 2); [lia|lia|apply put_short_at]].
  eapply only_at_trans; [|apply (only_at_mono (off + 2) 2); [lia|lia|apply put_short_at]].
  apply (only_at_mono off 2); [lia|lia|apply put_short_at].
Qed.

(** The inode as [ilock] rebuilds it in entry [ip']. *)
Definition reloaded (ip ip' : inode) : inode :=
  mkInode (idev ip') (inum ip') (iref ip') (ilocked ip') (iflags ip')
    (itype ip) (major ip) (minor ip) (nlink ip) (isize ip) (addrs ip).

Lemma get_put_dinode d off ip ip' :
  (off + 64 <= length d)%nat -> inode_ok ip ->
  get_dinode (put_dinode d off ip) off ip' = reloaded ip ip'.
Proof.
  intros Hl [Ht Hma Hmi Hnl Hsz Had Hn].
  unfold get_dinode, put_dinode, reloaded. cbv zeta.
  set (d1 := put_short d off (itype ip)). set (d2 := put_short d1 (off + 2) (major ip)).
  set (d3 := put_short d2 (off + 4) (minor ip)). set (d4 := put_short d3 (off + 6) (nlink ip)).
  set (d5 := put_int d4 (off + 8) (isize ip)). set (d6 := put_uints d5 (off + 12) (addrs ip)).
  pose proof (put_short_at d off (itype ip)) as H1. fold d1 in H1.
  pose proof (put_short_at d1 (off + 2) (major ip)) as H2. fold d2 in H2.
  pose proof (put_short_at d2 (off + 4) (minor ip)) as H3. fold d3 in H3.
  pose proof (put_short_at d3 (off + 6) (nlink ip)) as H4. fold d4 in H4.
  pose proof (put_int_at d4 (off + 8) (isize ip)) as H5. fold d5 in H5.
  pose proof (put_uints_at (addrs ip) d5 (off + 12)) as H6. fold d6 in H6.
  assert (Hlen : length d1 = length d /\ length d2 = length d /\ length d3 = length d
                 /\ length d4 = length d /\ length d5 = length d).
  { destruct H1, H2, H3, H4, H5. lia. }
  f_equal.
  - rewrite (get_short_ext _ _ _ _ off H6), (get_short_ext _ _ _ _ off H5),
      (get_short_ext _ _ _ _ off H4), (get_short_ext _ _ _ _ off H3),
      (get_short_ext _ _ _ _ off H2) by lia. apply get_put_short; [lia|done].
  - rewrite (get_short_ext _ _ _ _ _ H6), (get_short_ext _ _ _ _ _ H5),
      (get_short_ext _ _ _ _ _ H4), (get_short_ext _ _ _ _ _ H3) by lia.
    apply get_put_short; [lia|done].
  - rewrite (get_short_ext _ _ _ _ _ H6), (get_short_ext _ _ _ _ _ H5),
      (get_short_ext _ _ _ _ _ H4) by lia. apply get_put_short; [lia|done].
  - rewrite (get_short_ext _ _ _ _ _ H6), (get_short_ext _ _ _ _ _ H5) by lia.
    apply get_put_short; [lia|done].
  - rewrite (get_uint_ext _ _ _ _ _ H6) by lia. apply get_put_uint; [lia|done].
  - apply list_eq. intros k. rewrite list_lookup_fmap.
    destruct (addrs ip !! k) as [a|] eqn:Ek.
    + rewrite lookup_seq_lt by (apply lookup_lt_Some in Ek; lia). simpl. f_equal.
      by apply get_put_uints; [lia|..].
    + rewrite lookup_seq_ge; [done|]. apply lookup_ge_None in Ek. lia.
Qed.

Lemma dinode_off_apart a b :
  0 <= a -> 0 <= b -> a mod IPB <> b mod IPB ->
  (dinode_off b + 64 <= dinode_off a \/ dinode_off a + 64 <= dinode_off b)%nat.
Proof. unfold dinode_off. change IPB with 8. intros. dlia. Qed.

Lemma dinode_off_bound a : 0 <= a -> (dinode_off a + 64 <= Z.to_nat BSIZE)%nat.
Proof. unfold dinode_off. change IPB with 8. unfold BSIZE. intros. dlia. Qed.

(** The on-disk inode round trips: what [iupdate] stores for an inode in
    its block, [ilock] reads back field by field, and no other inode of the
    same block changes. *)
Theorem dinode_roundtrip d num ip ip' num' :
  is_head d -> inode_ok ip -> 0 <= num -> 0 <= num' -> num mod IPB <> num' mod IPB ->
  let d' := put_dinode d (dinode_off num) ip in
  is_head d' /\ get_dinode d' (dinode_off num) ip' = reloaded ip ip'
  /\ get_dinode d' (dinode_off num') ip' = get_dinode d (dinode_off num') ip'.
Proof.
  intros Hd Hok Hn Hn' Hne d'.
  pose proof (put_dinode_at d (dinode_off num) ip (ok_naddrs _ Hok)) as Hat.
  pose proof (dinode_off_bound num Hn) as Hb. unfold is_head in *.
  subst d'. split; [by rewrite (proj1 Hat)|]. split.
  - apply get_put_dinode; [lia|done].
  - pose proof (dinode_off_apart num num' Hn Hn' Hne) as Ha. unfold get_dinode.
    rewrite !(get_short_ext _ _ _ _ _ Hat) by lia.
    rewrite (get_uint_ext _ _ _ _ _ Hat) by lia. f_equal.
    apply map_ext_in. intros k Hk%in_seq. apply (get_uint_ext _ _ _ _ _ Hat). lia.
Qed.

Definition sample_inode : inode :=
  mkInode 1 9 1 0 2 2 0 0 1 600 [70; 71; 0; 0; 0; 0; 0; 0; 0; 0; 0; 0; 0].

Lemma dinode_roundtrip_witness :
  get_dinode (put_dinode zero_block (dinode_off 9) sample_inode) (dinode_off 9) sample_inode
  = sample_inode.
Proof.
  apply (dinode_roundtrip zero_block 9 sample_inode sample_inode 10).
  - reflexivity.
  - constructor; try done. repeat (constructor; [done|]). constructor.
  - lia.
  - lia.
  - done.
Defined.
