(* ===== verification/FsTxn.v ===== *)
(** Blocks inside a transaction: what [bread], [log_write] and [brelse] mean to
    the functions of src/fs.c.

    Between [begin_op] and [end_op] the file system sees the blocks through the
    buffer cache: [fview s n] is the contents of block [n].  [txn s bl held] is
    the invariant of a running transaction that has modified the blocks [bl] and
    holds the buffers [held]; the lemmas of this file reduce the block accesses
    of fs.c to updates of [fview]. *)
From stdpp Require Import base strings numbers list.
From S2P Require Import Prelude CString Bio Log Fs.
Local Open Scope Z_scope.

Definition fcache (s : fstate) : bcache := cache (lst s).
Definition flog (s : fstate) : log := lg (lst s).
Definition fview (s : fstate) (n : Z) : option block := view (fcache s) n.
Definition nblk (s : fstate) : Z := Z.of_nat (length (disk (fcache s))).
Definition fhome (s : fstate) (n : Z) : Prop := home (start (flog s)) (size (flog s)) (nblk s) n.

Record txn_at (o : Z) (s : fstate) (bl : list Z) (held : list nat) : Prop := {
  tx_inv : binv (fcache s) held;
  tx_dev : ldev (flog s) = 1;
  tx_out : o <= outstanding (flog s);
  tx_len : Z.of_nat (length (lh_block (flog s))) = LOGSIZE;
  tx_n : lh_n (flog s) = Z.of_nat (length bl);
  tx_blk : take (length bl) (lh_block (flog s)) = bl;
  tx_ints : Forall is_s32 (lh_block (flog s));
  tx_nodup : NoDup bl;
  tx_home : Forall (fhome s) bl;
  tx_dirty : forall m, dirty (fcache s) m <-> m ∈ bl;
  tx_wf : log_wf (start (flog s)) (size (flog s)) (disk (fcache s));
  tx_empty : head_blocks (header (start (flog s)) (disk (fcache s))) = [];
  tx_size : LOGSIZE <= size (flog s);
  tx_idle : committing (flog s) = false }.
Arguments tx_inv {o} s bl held.
Arguments tx_dev {o} s bl held.
Arguments tx_out {o} s bl held.
Arguments tx_len {o} s bl held.
Arguments tx_n {o} s bl held.
Arguments tx_blk {o} s bl held.
Arguments tx_ints {o} s bl held.
Arguments tx_nodup {o} s bl held.
Arguments tx_home {o} s bl held.
Arguments tx_dirty {o} s bl held.
Arguments tx_wf {o} s bl held.
Arguments tx_empty {o} s bl held.
Arguments tx_size {o} s bl held.
Arguments tx_idle {o} s bl held.

(** Inside a transaction at least one system call is outstanding; reading needs
    none. *)
Abbreviation txn := (txn_at 1).

(** [s'] differs from [s] in the contents of blocks only; the buffers [held] are
    untouched. *)
Record same (s s' : fstate) (held : list nat) : Prop := {
  sm_disk : disk (fcache s') = disk (fcache s);
  sm_start : start (flog s') = start (flog s);
  sm_size : size (flog s') = size (flog s);
  sm_out : outstanding (flog s') = outstanding (flog s);
  sm_sb : sb s' = sb s;
  sm_inodes : inodes s' = inodes s;
  sm_cwd : cwd s' = cwd s;
  sm_bufs : forall j, j ∈ held -> bufs (fcache s') !! j = bufs (fcache s) !! j }.

Lemma same_refl s held : same s s held.
Proof. by split. Qed.

Lemma same_trans s s' s'' held : same s s' held -> same s' s'' held -> same s s'' held.
Proof.
  intros [] []. split; try congruence. intros j Hj. rewrite sm_bufs1 by done. by apply sm_bufs0.
Qed.

Lemma same_home s s' held n : same s s' held -> fhome s' n <-> fhome s n.
Proof. intros []. unfold fhome, nblk. by rewrite sm_disk0, sm_start0, sm_size0. Qed.

Definition with_cache (s : fstate) (c : bcache) (l : log) : fstate :=
  mkFs (mkLstate c l) (sb s) (inodes s) (cwd s).

Lemma on_log_ok {A} (m : M lstate A) s a c l :
  m (lst s) = Ok (a, mkLstate c l) -> on_log m s = Ok (a, with_cache s c l).
Proof. intros E. unfold on_log. by rewrite E. Qed.

Lemma txn_ndirty {o} s bl held : txn_at o s bl held -> (ndirty (fcache s) <= length bl)%nat.
Proof. intros [Hi]. apply (ndirty_le _ held bl Hi). intros m. apply tx_dirty0. Qed.

(** [bread]. *)
Lemma txn_bread {o} s bl held n :
  txn_at o s bl held -> 0 <= n < nblk s -> not_held (fcache s) held n -> (length held + length bl < NBUF)%nat ->
  exists i f d, on_log (on_cache (bread 1 n)) s = Ok (i, with_cache s (loaded (fcache s) i f n d) (flog s))
  /\ let s' := with_cache s (loaded (fcache s) i f n d) (flog s) in
     fview s n = Some d /\ i ∉ held /\ txn_at o s' bl (i :: held) /\ same s s' held
     /\ (forall m, fview s' m = fview s m)
     /\ bufs (fcache s') !! i = Some (mkBuf f 1 n 1 1 d)
     /\ (f = 6 \/ disk (fcache s) !! Z.to_nat n = Some d).
Proof.
  intros Ht Hn Hnh Hroom. pose proof (txn_ndirty s bl held Ht) as Hnd.
  destruct (bread_spec (fcache s) held n (tx_inv _ _ _ Ht) Hn Hnh ltac:(right; lia))
    as (i & f & d & Hbr & Hv & Hi & Hb & _ & Hv1 & Hd1 & Hf).
  exists i, f, d. split.
  { apply on_log_ok. unfold on_cache. fold (fcache s). by rewrite Hbr. }
  cbn zeta. split; [done|]. split; [done|].
  assert (bufs (loaded (fcache s) i f n d) !! i = Some (mkBuf f 1 n 1 1 d)) as Hi1.
  { destruct (held_buf _ _ i Hb) as (b & Hbb & _); [by left|].
    destruct (upd_cases _ _ _ _ _ Hbb) as [[_ ->]|[? _]]; done. }
  split; [|split; [|split; [done|split; [done|]]]].
  - destruct Ht. split; try done. intros m. rewrite Hd1. apply tx_dirty0.
  - split; try done. intros j Hj. apply upd_ne. intros ->. done.
  - destruct Hf as [[_ ?]|?]; [by right|by left].
Qed.

(** [brelse] of a buffer whose block is logged or unchanged. *)
Lemma txn_brelse {o} s bl held i b :
  txn_at o s bl (i :: held) -> bufs (fcache s) !! i = Some b ->
  flags b = 6 \/ disk (fcache s) !! Z.to_nat (blockno b) = Some (bdata b) ->
  exists s', on_log (on_cache (brelse i)) s = Ok (tt, s') /\ txn_at o s' bl held /\ same s s' held
  /\ forall m, fview s' m = fview s m.
Proof.
  intros Ht Hi Hf. destruct (brelse_spec (fcache s) held i b (tx_inv _ _ _ Ht) Hi Hf)
    as (c & Hre & Hc & Hbufs & Hdk & _ & _ & Hv & Hd).
  exists (with_cache s c (flog s)). split.
  { apply on_log_ok. unfold on_cache. fold (fcache s). by rewrite Hre. }
  split; [|split; [|done]].
  - destruct Ht. split; cbn; rewrite ?Hdk; try done.
    + eapply Forall_impl; [exact tx_home0|]. intros m. unfold fhome, nblk. cbn. by rewrite Hdk.
    + intros m. rewrite Hd. apply tx_dirty0.
  - split; try done. intros j Hj. cbn. rewrite Hbufs. apply list_lookup_insert_ne.
    intros ->. pose proof (bi_nodup _ _ (tx_inv _ _ _ Ht)) as Hnd. apply NoDup_cons in Hnd. tauto.
Qed.

Definition wrote (b : buf) (d : block) : buf := mkBuf 6 (dev b) (blockno b) (slock b) (refcnt b) d.

(** A change of a held buffer's data and [log_write]. *)
Lemma txn_write s bl held i b d :
  txn s bl held -> i ∈ held -> bufs (fcache s) !! i = Some b -> fhome s (blockno b) ->
  (length bl < 29)%nat ->
  exists s', on_log (on_cache (set_data i d)) s
             = Ok (tt, with_cache s (upd (fcache s) i (mkBuf (flags b) (dev b) (blockno b) (slock b)
                                      (refcnt b) d)) (flog s))
  /\ on_log (log_write i)
       (with_cache s (upd (fcache s) i (mkBuf (flags b) (dev b) (blockno b) (slock b) (refcnt b) d))
          (flog s)) = Ok (tt, s')
  /\ txn s' (absorbed bl (blockno b)) held
  /\ (forall held', (forall j, j ∈ held' -> j <> i) -> same s s' held')
  /\ bufs (fcache s') !! i = Some (wrote b d)
  /\ forall m, 0 <= m -> fview s' m = if m =? blockno b then Some d else fview s m.
Proof.
  intros Ht Hin Hi Hhome Hroom. pose proof Ht as Ht0. destruct Ht.
  destruct (held_buf _ _ i tx_inv0 Hin) as (b0 & Hb0 & _ & _ & Hdev & Hfl & _).
  rewrite Hi in Hb0. injection Hb0 as <-.
  destruct (set_data_spec _ _ i b d tx_inv0 Hin Hi) as (Hsd & Hc2 & _ & Hv2 & Hdt2).
  set (b2 := mkBuf (flags b) (dev b) (blockno b) (slock b) (refcnt b) d) in *.
  set (c2 := upd (fcache s) i b2) in *.
  assert (Hi2 : bufs c2 !! i = Some b2) by (by eapply upd_eq).
  destruct (set_dirty_spec c2 _ i _ Hc2 Hin Hi2) as (Hc3 & Hv3 & Hdt3).
  set (c3 := upd c2 i (mkBuf 6 (dev b2) (blockno b2) (slock b2) (refcnt b2) (bdata b2))) in *.
  destruct (absorb_blocks (flog s) bl (blockno b) tx_n0 tx_blk0) as (blk & Hset & Hblk & Hn' & Htk);
    [unfold LOGSIZE, MAXOPBLOCKS in tx_len0; lia|]. cbv zeta in Hset, Hn'.
  set (k := absorb _ (blockno b) 0) in *.
  set (l' := mkLog (start (flog s)) (size (flog s)) (outstanding (flog s)) (committing (flog s))
               (ldev (flog s)) (if Z.of_nat k =? lh_n (flog s) then lh_n (flog s) + 1 else lh_n (flog s))
               blk).
  exists (with_cache s c3 l'). split.
  { apply on_log_ok. unfold on_cache. fold (fcache s). by rewrite Hsd. }
  split.
  { change (with_cache s c3 l') with (with_cache (with_cache s c2 (flog s)) c3 l').
    apply on_log_ok. unfold log_write, on_cache. mrun. cbn [lst with_cache lg cache].
    unfold LOGSIZE, MAXOPBLOCKS in *. replace (_ || _) with false by lia.
    replace (outstanding (flog s) <? 1) with false by lia. mrun. unfold on_cache. cbn [lg cache].
    rewrite (get_buf_ok _ _ _ Hi2). cbn [blockno flags dev slock refcnt bdata lg cache b2].
    fold k. rewrite Hset. unfold set_lh. mrun. cbn [lg cache].
    replace (Z.lor (flags b) B_DIRTY) with 6 by (by destruct Hfl as [-> | ->]).
    rewrite set_buf_upd. done. }
  assert (Hdirty : forall m, dirty c3 m <-> m ∈ absorbed bl (blockno b)).
  { intros m. rewrite Hdt3, Hdt2, tx_dirty0. unfold absorbed. case_decide as Hn0.
    - split; [intros [?| ->]; done|by left].
    - rewrite elem_of_app, list_elem_of_singleton. done. }
  split.
  { split; cbn; try done.
    - rewrite Hblk, length_insert. done.
    - rewrite Hblk. apply Forall_insert; [done|]. unfold is_s32.
      pose proof (wf_area _ _ _ tx_wf0). unfold fhome, home, nblk in Hhome. lia.
    - unfold absorbed. case_decide; [done|]. apply NoDup_app. split; [done|].
      split; [intros x Hx ->%list_elem_of_singleton; done|apply NoDup_singleton].
    - unfold absorbed. case_decide; [done|]. apply Forall_app. split; [done|]. by apply Forall_singleton. }
  split.
  { intros held' Hne. split; try done. intros j Hj.
    change (bufs c3 !! j = bufs (fcache s) !! j). subst c3 c2. by rewrite !upd_ne by (by apply Hne). }
  split; [by eapply upd_eq|].
  intros m Hm. unfold fview, fcache. cbn. by rewrite Hv3, Hv2.
Qed.

Lemma absorbed_mono bl n : forall m, m ∈ absorbed bl n -> m ∈ bl \/ m = n.
Proof.
  intros m. unfold absorbed. case_decide; [by left|]. rewrite elem_of_app, list_elem_of_singleton. tauto.
Qed.

(** The whole block access of fs.c: read, maybe change and log, release. *)
Lemma with_logged_spec {A} s bl held n (f : block -> option block * A) d :
  txn s bl held -> fhome s n -> not_held (fcache s) held n ->
  (length held + length bl < 29)%nat -> fview s n = Some d ->
  exists s', with_logged 1 n f s = Ok (snd (f d), s')
  /\ txn s' (match fst (f d) with Some _ => absorbed bl n | None => bl end) held
  /\ same s s' held
  /\ forall m, 0 <= m ->
       fview s' m = if m =? n then Some (default d (fst (f d))) else fview s m.
Proof.
  intros Ht Hn Hnh Hroom Hd.
  destruct (txn_bread s bl held n Ht (proj1 Hn) Hnh) as (i & fl & d' & E1 & Hv & Hi & Ht1 & Hs1 & Hv1 & Hb1 & Hf1);
    [unfold NBUF; lia|]. cbn zeta in *. rewrite Hd in Hv. injection Hv as <-.
  set (s1 := with_cache s (loaded (fcache s) i fl n d) (flog s)) in *.
  assert (with_logged 1 n f s
    = (let '(d', a) := f d in
       _ ← match d' with
           | Some d' => _ ← on_log (on_cache (set_data i d')); on_log (log_write i)
           | None => mret tt
           end;
       _ ← on_log (on_cache (brelse i)); mret a) s1) as ->.
  { unfold with_logged. unfold on_log at 1 in E1. unfold on_log at 1. mrun.
    destruct (on_cache (bread 1 n) (lst s)) as [[i0 l0]| | |]; try done. injection E1 as -> El.
    assert (l0 = lst s1) as -> by (subst s1; destruct l0; unfold with_cache, fcache, flog in *; cbn in *; congruence).
    assert (on_cache (get_buf i) (lst s1) = Ok (mkBuf fl 1 n 1 1 d, lst s1)) as ->.
    { unfold on_cache. fold (fcache s1). rewrite (get_buf_ok _ _ _ Hb1). by destruct s1 as [[] ? ? ?]. }
    cbn [bdata]. destruct (f d) as [[d''|] a]; cbn [fst snd]; mrun; unfold on_log;
      [destruct (on_cache (set_data i d'') (lst s1)) as [[? l1]| | |]; try done; cbn [lst];
       destruct (log_write i l1) as [[? l2]| | |]; try done; cbn [lst]|];
      by destruct (on_cache (brelse i) _) as [[? l3]| | |]. }
  assert (not_held (fcache s) held n) as Hnh' by done.
  destruct (f d) as [[d''|] a] eqn:Ef; cbn [fst snd default].
  - destruct (txn_write s1 bl (i :: held) i (mkBuf fl 1 n 1 1 d) d'' Ht1)
      as (s2 & Esd & Elw & Ht2 & Hs2 & Hb2 & Hv2); [by left|done|by apply (same_home s s1 held)|lia|].
    rewrite (bind_ok _ _ s1 tt s2) by (by rewrite (bind_ok _ _ _ _ _ Esd)).
    destruct (txn_brelse s2 _ held i _ Ht2 Hb2) as (s3 & Ere & Ht3 & Hs3 & Hv3); [by left|].
    rewrite (bind_ok _ _ _ _ _ Ere). exists s3. split; [done|]. split; [done|]. split.
    + eapply same_trans; [exact Hs1|]. eapply same_trans; [|exact Hs3]. apply Hs2.
      intros j Hj ->. done.
    + intros m Hm. rewrite Hv3, Hv2 by done. cbn [blockno]. destruct (m =? n); [done|apply Hv1].
  - rewrite (bind_ok (mret tt) _ s1 tt s1 eq_refl).
    destruct (txn_brelse s1 bl held i _ Ht1 Hb1) as (s3 & Ere & Ht3 & Hs3 & Hv3);
      [cbn; destruct Hf1 as [->|?]; [by left|by right]|].
    rewrite (bind_ok _ _ _ _ _ Ere). exists s3. split; [done|]. split; [done|].
    split; [by eapply same_trans|].
    intros m Hm. rewrite Hv3, Hv1. destruct (Z.eqb_spec m n) as [->|]; done.
Qed.

(** [with_block] that only reads. *)
Lemma read_block_txn {A} {o} s bl n (f : block -> A) d :
  txn_at o s bl [] -> 0 <= n < nblk s -> (length bl < NBUF)%nat -> fview s n = Some d ->
  exists s', on_log (on_cache (with_block 1 n (fun i => b ← get_buf i; mret (f (bdata b))))) s
             = Ok (f d, s')
  /\ txn_at o s' bl [] /\ same s s' [] /\ forall m, fview s' m = fview s m.
Proof.
  intros Ht Hn Hroom Hd. pose proof (txn_ndirty s bl [] Ht) as Hnd.
  destruct (read_block_spec (fcache s) n f (tx_inv _ _ _ Ht) Hn ltac:(lia))
    as (c & d' & Hrun & Hv & Hc & Hdk & _ & _ & Hv' & Hdt).
  unfold fview in Hd. rewrite Hd in Hv. injection Hv as <-.
  exists (with_cache s c (flog s)). split.
  { apply on_log_ok. unfold on_cache. fold (fcache s). by rewrite Hrun. }
  split; [|split; [|done]].
  - destruct Ht. split; cbn; rewrite ?Hdk; try done.
    + eapply Forall_impl; [exact tx_home0|]. intros m. unfold fhome, nblk. cbn. by rewrite Hdk.
    + intros m. rewrite Hdt. apply tx_dirty0.
  - split; try done. intros j Hj. by apply elem_of_nil in Hj.
Qed.
