(* ===== verification/FsAlloc.v ===== *)
(** The block allocator of src/fs.c ([balloc], [bfree]) inside a transaction: the
    bitmap as a set of allocated blocks. *)
From stdpp Require Import base strings numbers list.
From S2P Require Import Prelude CString Bio Log Fs FsTxn.
Local Open Scope Z_scope.

(** * Bits *)

Lemma bit_set_testbit d bi : 0 <= bi ->
  bit_set d bi = Z.testbit (nth (Z.to_nat (bi / 8)) d 0) (bi mod 8).
Proof.
  intros Hb. unfold bit_set. set (x := nth _ d 0). set (k := bi mod 8).
  assert (0 <= k) as Hk by (apply Z.mod_pos_bound; lia).
  destruct (Z.testbit x k) eqn:E.
  - apply negb_true_iff, Z.eqb_neq. intros E0.
    assert (Z.testbit (Z.land x (Z.shiftl 1 k)) k = true) as E1.
    { rewrite Z.land_spec, E, Z.shiftl_spec, Z.sub_diag by done. done. }
    rewrite E0, Z.bits_0 in E1. done.
  - apply negb_false_iff, Z.eqb_eq. apply Z.bits_inj'. intros j Hj.
    rewrite Z.land_spec, Z.bits_0, Z.shiftl_spec by done.
    destruct (Z.eqb_spec j k) as [->|Hne]; [by rewrite E|].
    destruct (Z.testbit x j); [|done]. cbn. destruct (Z.ltb_spec (j - k) 0).
    + by rewrite Z.testbit_neg_r.
    + rewrite <- (Z.bits_above_log2 1 (j - k)); [done|lia|cbn; lia].
Qed.

Lemma byte_eq_bits a b : 0 <= a -> 0 <= b -> (a / 8 = b / 8 /\ a mod 8 = b mod 8) <-> a = b.
Proof. intros Ha Hb. split; [|by intros ->]. intros [H1 H2]. Z.div_mod_to_equations. lia. Qed.

Lemma bit_of_one k j : 0 <= j -> 0 <= k -> Z.testbit (Z.shiftl 1 k) j = (j =? k).
Proof.
  intros Hj Hk. rewrite Z.shiftl_spec by done. destruct (Z.eqb_spec j k) as [->|Hne].
  - by rewrite Z.sub_diag.
  - destruct (Z.ltb_spec (j - k) 0); [by rewrite Z.testbit_neg_r|].
    rewrite <- (Z.bits_above_log2 1 (j - k)); [done|lia|cbn; lia].
Qed.

(** [set_bit] sets one bit of the map. *)
Lemma bit_set_set_bit d a b : 0 <= a -> 0 <= b -> (Z.to_nat (a / 8) < length d)%nat ->
  bit_set (set_bit d a) b = (b =? a) || bit_set d b.
Proof.
  intros Ha Hb Hlen. rewrite !bit_set_testbit by done. unfold set_bit.
  assert (0 <= a / 8 /\ 0 <= b / 8) as [Ha8 Hb8] by (split; apply Z.div_pos; lia).
  pose proof (Z.mod_pos_bound a 8). pose proof (Z.mod_pos_bound b 8).
  rewrite nth_lookup. destruct (decide (a / 8 = b / 8)) as [E|Hne].
  - rewrite <- E, list_lookup_insert_eq by done. cbn [from_option id].
    rewrite Z.lor_spec, bit_of_one by lia. rewrite orb_comm. f_equal.
    destruct (Z.eqb_spec b a) as [->|Hab]; [apply Z.eqb_refl|].
    apply Z.eqb_neq. intros E'. apply Hab, byte_eq_bits; [done..|]. split; [by rewrite E|done].
  - rewrite list_lookup_insert_ne by lia. rewrite <- nth_lookup.
    rewrite (proj2 (Z.eqb_neq b a)) by (intros ->; done). done.
Qed.

Lemma length_set_bit d a : length (set_bit d a) = length d.
Proof. apply length_insert. Qed.

Lemma length_clear_bit d a : length (clear_bit d a) = length d.
Proof. apply length_insert. Qed.

(** [clear_bit] clears one bit. *)
Lemma bit_set_clear_bit d a b : 0 <= a -> 0 <= b -> (Z.to_nat (a / 8) < length d)%nat ->
  bit_set (clear_bit d a) b = negb (b =? a) && bit_set d b.
Proof.
  intros Ha Hb Hlen. rewrite !bit_set_testbit by done. unfold clear_bit.
  assert (0 <= a / 8 /\ 0 <= b / 8) as [Ha8 Hb8] by (split; apply Z.div_pos; lia).
  pose proof (Z.mod_pos_bound a 8). pose proof (Z.mod_pos_bound b 8).
  rewrite nth_lookup. destruct (decide (a / 8 = b / 8)) as [E|Hne].
  - rewrite <- E, list_lookup_insert_eq by done. cbn [from_option id].
    rewrite Z.land_spec. unfold u8. rewrite Z.mod_pow2_bits_low by lia.
    rewrite Z.lnot_spec, bit_of_one by lia. rewrite andb_comm. f_equal. f_equal.
    destruct (Z.eqb_spec b a) as [->|Hab]; [apply Z.eqb_refl|].
    apply Z.eqb_neq. intros E'. apply Hab, byte_eq_bits; [done..|]. split; [by rewrite E|done].
  - rewrite list_lookup_insert_ne by lia. rewrite <- nth_lookup.
    rewrite (proj2 (Z.eqb_neq b a)) by (intros ->; done). done.
Qed.

Lemma find_clear_some d bi n b : find_clear d bi n = Some b ->
  bi <= b < bi + Z.of_nat n /\ bit_set d b = false.
Proof.
  revert bi. induction n as [|n IH]; intros bi; cbn [find_clear]; [done|].
  destruct (bit_set d bi) eqn:E; cbn [negb].
  - intros H%IH. lia.
  - intros [= <-]. split; [lia|done].
Qed.

Lemma find_clear_none d bi n : find_clear d bi n = None ->
  forall b, bi <= b < bi + Z.of_nat n -> bit_set d b = true.
Proof.
  revert bi. induction n as [|n IH]; intros bi; cbn [find_clear]; [lia|].
  destruct (bit_set d bi) eqn:E; cbn [negb]; [|done].
  intros H b Hb. destruct (decide (b = bi)) as [->|]; [done|]. apply (IH (bi + 1)); [done|lia].
Qed.

(** * The bitmap *)

Definition allocated (s : fstate) (b : Z) : bool :=
  match fview s (BBLOCK b (sb s)) with Some d => bit_set d (b mod BPB) | None => true end.

(** The disk's layout: blocks below [ds] (boot block, super block, log, inodes,
    bitmap) are marked allocated, blocks from [ds] on hold data; every block has
    512 bytes. *)
Record layout (s : fstate) (ds : Z) : Prop := {
  ly_size : ds <= sb_size (sb s) <= nblk s;
  ly_log : 0 <= start (flog s) /\ 0 <= size (flog s) /\ start (flog s) + size (flog s) <= ds;
  ly_bmap : forall b, 0 <= b < sb_size (sb s) ->
    BBLOCK b (sb s) < ds /\ fhome s (BBLOCK b (sb s));
  ly_len : forall n d, 0 <= n -> fview s n = Some d -> length d = 512%nat;
  ly_meta : forall b, 0 <= b < ds -> allocated s b = true }.

(** The held buffers are of allocated data blocks. *)
Definition held_data (s : fstate) (ds : Z) (held : list nat) : Prop :=
  forall i b, i ∈ held -> bufs (fcache s) !! i = Some b ->
    ds <= blockno b < sb_size (sb s) /\ allocated s (blockno b) = true.

Lemma fview_some {o} s bl held n : txn_at o s bl held -> 0 <= n < nblk s -> is_Some (fview s n).
Proof.
  intros Ht Hn. unfold fview. destruct (cached_or_not (fcache s) n) as [Hu|(i & b & Hi & Hd & <-)].
  - rewrite view_uncached by done. apply lookup_lt_is_Some_2. unfold nblk in Hn. lia.
  - rewrite (view_cached (fcache s) held i b) by (done || apply Ht). by eexists.
Qed.

Lemma data_home s ds b : layout s ds -> ds <= b < sb_size (sb s) -> fhome s b.
Proof.
  intros [Hs Hl _ _ _] Hb. unfold fhome, home. lia.
Qed.

Lemma BBLOCK_eq a b s : 0 <= a -> 0 <= b ->
  BBLOCK a s = BBLOCK b s /\ a mod BPB = b mod BPB <-> a = b.
Proof.
  intros Ha Hb. unfold BBLOCK. change BPB with 4096. split; [|by intros ->].
  intros [H1 H2]. Z.div_mod_to_equations. lia.
Qed.

Lemma mod_BPB_byte b : (Z.to_nat (b mod BPB / 8) < 512)%nat /\ 0 <= b mod BPB < 4096.
Proof. change BPB with 4096. pose proof (Z.mod_pos_bound b 4096). Z.div_mod_to_equations. lia. Qed.

(** The views before and after an allocation of block [b]. *)
Definition allocates (s s' : fstate) (b : Z) : Prop :=
  (exists d, fview s (BBLOCK b (sb s)) = Some d
     /\ fview s' (BBLOCK b (sb s)) = Some (set_bit d (b mod BPB)))
  /\ fview s' b = Some (replicate 512 0)
  /\ forall m, 0 <= m -> m <> b -> m <> BBLOCK b (sb s) -> fview s' m = fview s m.

Lemma allocated_after s s' ds b : layout s ds -> allocates s s' b -> sb s' = sb s ->
  ds <= b < sb_size (sb s) -> 0 <= ds -> forall a, 0 <= a < sb_size (sb s) ->
  allocated s' a = (a =? b) || allocated s a.
Proof.
  intros Hly ((d & Hd & Hd') & Hb & Hm) Hsb Hbr Hds a Ha. unfold allocated. rewrite Hsb.
  destruct (ly_bmap _ _ Hly a Ha) as [Ha1 Ha2]. destruct (ly_bmap _ _ Hly b ltac:(lia)) as [Hb1 Hb2].
  destruct (decide (BBLOCK a (sb s) = BBLOCK b (sb s))) as [E|Hne].
  - rewrite E, Hd, Hd'. pose proof (ly_len _ _ Hly _ _ (proj1 (proj1 Hb2)) Hd) as Hlen.
    pose proof (mod_BPB_byte a). pose proof (mod_BPB_byte b).
    rewrite bit_set_set_bit by (rewrite ?Hlen; lia). f_equal.
    destruct (Z.eqb_spec a b) as [->|Hab]; [apply Z.eqb_refl|]. apply Z.eqb_neq. intros E'.
    apply Hab. apply (BBLOCK_eq a b (sb s)); [lia|lia|done].
  - rewrite Hm; [|unfold fhome, home in Ha2; lia|lia|done].
    rewrite (proj2 (Z.eqb_neq a b)); [done|]. by intros ->.
Qed.

(** Reading a group of the bitmap. *)
Lemma balloc_group_spec s bl held ds b d :
  txn s bl held -> layout s ds -> held_data s ds held -> (length held + length bl < 29)%nat ->
  0 <= b < sb_size (sb s) -> fview s (BBLOCK b (sb s)) = Some d ->
  let r := find_clear d 0 (Z.to_nat (Z.min BPB (sb_size (sb s) - b))) in
  exists s', balloc_group 1 b s = Ok (r, s')
  /\ txn s' (match r with Some _ => absorbed bl (BBLOCK b (sb s)) | None => bl end) held
  /\ same s s' held
  /\ forall m, 0 <= m -> fview s' m =
       if m =? BBLOCK b (sb s)
       then Some (match r with Some bi => set_bit d bi | None => d end) else fview s m.
Proof.
  intros Ht Hly Hheld Hroom Hb Hd r. destruct (ly_bmap _ _ Hly b Hb) as [Hb1 Hb2].
  unfold balloc_group. rewrite (bind_ok get _ s s s eq_refl).
  set (f := fun d : block => match find_clear d 0 (Z.to_nat (Z.min BPB (sb_size (sb s) - b))) with
      | Some bi => (Some (set_bit d bi), Some bi) | None => (None, None) end).
  destruct (with_logged_spec s bl held (BBLOCK b (sb s)) f d Ht Hb2) as (s' & E & Ht' & Hs' & Hv');
    [|done..|].
  { intros i bf Hi Hbf E. destruct (Hheld i bf Hi Hbf). lia. }
  assert (f d = (match r with Some bi => Some (set_bit d bi) | None => None end, r)) as Ef
    by (subst f r; cbn beta; by destruct (find_clear _ _ _)).
  rewrite Ef in *. cbn [fst snd] in *. rewrite E.
  exists s'. split; [done|]. split; [by destruct r|]. split; [done|].
  intros m Hm. rewrite Hv' by done. by destruct r.
Qed.

(** [s'] shows the same blocks. *)
Definition same_view (s s' : fstate) : Prop := forall m, 0 <= m -> fview s' m = fview s m.

Lemma BBLOCK_nonneg s ds b : layout s ds -> 0 <= b < sb_size (sb s) -> 0 <= BBLOCK b (sb s).
Proof. intros Hly Hb. apply (ly_bmap _ _ Hly b Hb). Qed.

Lemma allocated_same s s' ds held b : layout s ds -> same s s' held -> same_view s s' ->
  0 <= b < sb_size (sb s) -> allocated s' b = allocated s b.
Proof.
  intros Hly Hs Hv Hb. unfold allocated. rewrite (sm_sb _ _ _ Hs), Hv; [done|].
  by apply (BBLOCK_nonneg s ds).
Qed.

Lemma layout_same s s' ds held : 0 <= ds -> layout s ds -> same s s' held -> same_view s s' -> layout s' ds.
Proof.
  intros Hds Hly Hs Hv. pose proof Hly as [Hz Hl Hb Hn Hm]. pose proof (sm_sb _ _ _ Hs) as Esb.
  split.
  - unfold nblk. rewrite Esb, (sm_disk _ _ _ Hs). done.
  - by rewrite (sm_start _ _ _ Hs), (sm_size _ _ _ Hs).
  - intros b Hb'. rewrite Esb in *. split; [by apply Hb|]. by apply (same_home s s' held), Hb.
  - intros n d Hn0 Hd. rewrite Hv in Hd by done. by apply (Hn n).
  - intros b Hb'. rewrite (allocated_same s s' ds held) by (done || lia). by apply Hm.
Qed.

Lemma held_same s s' ds held : 0 <= ds -> layout s ds -> same s s' held -> same_view s s' ->
  held_data s ds held -> held_data s' ds held.
Proof.
  intros Hds Hly Hs Hv Hh i b Hi Hb. rewrite (sm_bufs _ _ _ Hs i Hi) in Hb.
  destruct (Hh i b Hi Hb) as [H1 H2]. rewrite (sm_sb _ _ _ Hs). split; [done|].
  rewrite (allocated_same s s' ds held) by (done || lia). done.
Qed.

Lemma allocates_same s s1 s' b : same_view s s1 -> sb s1 = sb s -> 0 <= BBLOCK b (sb s) ->
  allocates s1 s' b -> allocates s s' b.
Proof.
  intros Hv Hsb Hbb ((d & Hd & Hd') & Hz & Hm). rewrite Hsb in *. split; [|split; [done|]].
  - exists d. by rewrite Hv in Hd.
  - intros m Hm0 H1 H2. rewrite Hm by done. by apply Hv.
Qed.

(** Zeroing the block found. *)
Lemma bzero_spec s bl held n d :
  txn s bl held -> fhome s n -> not_held (fcache s) held n -> (length held + length bl < 29)%nat ->
  fview s n = Some d -> length d = 512%nat ->
  exists s', bzero 1 n s = Ok (tt, s') /\ txn s' (absorbed bl n) held /\ same s s' held
  /\ forall m, 0 <= m -> fview s' m = if m =? n then Some (replicate 512 0) else fview s m.
Proof.
  intros Ht Hn Hnh Hroom Hd Hlen. unfold bzero.
  destruct (with_logged_spec s bl held n (fun d => (Some (replicate (length d) 0), tt)) d Ht Hn Hnh Hroom Hd)
    as (s' & E & Ht' & Hs' & Hv'). exists s'. split; [exact E|]. split; [exact Ht'|]. split; [done|].
  intros m Hm. rewrite Hv' by done. cbn [fst default from_option id]. by rewrite Hlen.
Qed.

(** The two halves of an allocation, once a group has a clear bit. *)
Lemma balloc_take s held ds b d bi s1 bl1 :
  layout s ds -> 0 <= ds -> held_data s ds held -> (length held + length bl1 < 29)%nat ->
  0 <= b -> b mod BPB = 0 -> fview s (BBLOCK b (sb s)) = Some d ->
  0 <= bi < Z.min BPB (sb_size (sb s) - b) -> bit_set d bi = false ->
  txn s1 bl1 held -> same s s1 held ->
  (forall m, 0 <= m -> fview s1 m = if m =? BBLOCK b (sb s) then Some (set_bit d bi) else fview s m) ->
  exists s', (_ ← bzero 1 (b + bi); mret (b + bi)) s1 = Ok (b + bi, s')
  /\ ds <= b + bi < sb_size (sb s) /\ allocated s (b + bi) = false /\ allocates s s' (b + bi)
  /\ txn s' (absorbed bl1 (b + bi)) held /\ same s s' held
  /\ BBLOCK (b + bi) (sb s) = BBLOCK b (sb s).
Proof.
  intros Hly Hds Hheld Hroom Hb Hmod Hd Hbi Hbit Ht1 Hs1 Hv1. change BPB with 4096 in *.
  assert ((b + bi) mod BPB = bi /\ BBLOCK (b + bi) (sb s) = BBLOCK b (sb s)) as [Em Eb].
  { unfold BBLOCK. change BPB with 4096. split; Z.div_mod_to_equations; lia. }
  assert (allocated s (b + bi) = false) as Hfree by (unfold allocated; by rewrite Eb, Hd, Em).
  assert (ds <= b + bi < sb_size (sb s)) as Hrange.
  { split; [|lia]. destruct (decide (ds <= b + bi)) as [|Hlt]; [done|].
    rewrite (ly_meta _ _ Hly) in Hfree by lia. done. }
  assert (fhome s1 (b + bi)) as Hhome by (apply (same_home s s1 held); [done|]; by eapply data_home).
  destruct (fview_some s1 bl1 held (b + bi) Ht1) as [d2 Hd2]; [apply Hhome|].
  assert (b + bi <> BBLOCK b (sb s)) as Hne.
  { destruct (ly_bmap _ _ Hly b) as [H1 _]; lia. }
  assert (fview s (b + bi) = Some d2) as Hd2s.
  { rewrite Hv1 in Hd2 by lia. by rewrite (proj2 (Z.eqb_neq _ _)) in Hd2. }
  destruct (bzero_spec s1 bl1 held (b + bi) d2 Ht1 Hhome) as (s2 & E2 & Ht2 & Hs2 & Hv2); try done.
  { intros i bf Hi Hbf E. rewrite (sm_bufs _ _ _ Hs1 i Hi) in Hbf.
    destruct (Hheld i bf Hi Hbf) as [_ Ha]. rewrite E in Ha. congruence. }
  { apply (ly_len _ _ Hly (b + bi)); [lia|done]. }
  exists s2. rewrite (bind_ok _ _ _ _ _ E2).
  split; [done|]. split; [done|]. split; [done|]. split; [|split; [done|split]].
  - split; [|split].
    + exists d. rewrite Eb, Em. split; [done|].
      rewrite Hv2, Hv1 by (by apply (BBLOCK_nonneg s ds); [|lia]).
      rewrite (proj2 (Z.eqb_neq _ _)) by done. by rewrite Z.eqb_refl.
    + rewrite Hv2 by lia. by rewrite Z.eqb_refl.
    + intros m Hm H1 H2. rewrite Eb in H2. rewrite Hv2, Hv1 by done.
      by rewrite !(proj2 (Z.eqb_neq _ _)) by done.
  - by eapply same_trans.
  - done.
Qed.

Lemma balloc_loop_spec fuel : forall s bl held ds b b0,
  txn s bl held -> layout s ds -> 0 <= ds -> held_data s ds held -> (length held + length bl < 28)%nat ->
  0 <= b -> b mod BPB = 0 -> b <= b0 < sb_size (sb s) -> allocated s b0 = false ->
  sb_size (sb s) - b <= Z.of_nat fuel * BPB ->
  exists a s', balloc_loop fuel 1 b s = Ok (a, s')
  /\ ds <= a < sb_size (sb s) /\ allocated s a = false /\ allocates s s' a
  /\ txn s' (absorbed (absorbed bl (BBLOCK a (sb s))) a) held /\ same s s' held.
Proof.
  induction fuel as [|fuel IH]; intros s bl held ds b b0 Ht Hly Hds Hheld Hroom Hb Hmod Hb0 Hfree Hfuel;
    [lia|].
  cbn [balloc_loop]. rewrite (bind_ok get _ s s s eq_refl).
  replace (b <? sb_size (sb s)) with true by lia. cbn [negb].
  destruct (ly_bmap _ _ Hly b ltac:(lia)) as [Hbb Hbh].
  destruct (fview_some s bl held (BBLOCK b (sb s)) Ht (proj1 Hbh)) as [d Hd].
  destruct (balloc_group_spec s bl held ds b d Ht Hly Hheld) as (s1 & E1 & Ht1 & Hs1 & Hv1);
    [lia|lia|done|]. cbn zeta in *. rewrite (bind_ok _ _ _ _ _ E1).
  destruct (find_clear d 0 _) as [bi|] eqn:Ef.
  - apply find_clear_some in Ef as [Hbi Hbit]. change BPB with 4096 in *.
    pose proof (absorbed_length bl (BBLOCK b (sb s))).
    destruct (balloc_take s held ds b d bi s1 (absorbed bl (BBLOCK b (sb s))))
      as (s' & E' & Ha & Hfr & Hal & Ht' & Hs' & Eb); try done; try lia; [change BPB with 4096; lia|].
    exists (b + bi), s'. rewrite Eb. done.
  - assert (same_view s s1) as Hsv.
    { intros m Hm. rewrite Hv1 by done. destruct (Z.eqb_spec m (BBLOCK b (sb s))) as [->|]; [|done]. done. }
    assert (b + BPB <= b0) as Hnext.
    { destruct (decide (b + BPB <= b0)) as [|Hlt]; [done|]. exfalso.
      unfold allocated in Hfree. change BPB with 4096 in *.
      assert (BBLOCK b0 (sb s) = BBLOCK b (sb s) /\ b0 mod 4096 = b0 - b) as [Eb Em].
      { unfold BBLOCK. change BPB with 4096. split; Z.div_mod_to_equations; lia. }
      rewrite Eb, Hd, Em in Hfree. rewrite (find_clear_none _ _ _ Ef) in Hfree; [done|lia]. }
    pose proof (sm_sb _ _ _ Hs1) as Esb.
    destruct (IH s1 bl held ds (b + BPB) b0) as (a & s' & E & Ha & Hfr & Hal & Ht' & Hs');
      rewrite ?Esb; try done; try lia.
    + by apply (layout_same s s1 ds held).
    + by apply (held_same s s1 ds held).
    + change BPB with 4096 in *. lia.
    + change BPB with 4096 in *. Z.div_mod_to_equations. lia.
    + rewrite (allocated_same s s1 ds held) by (done || lia). done.
    + exists a, s'. rewrite Esb in Ha, Ht'. split; [done|]. split; [done|].
      rewrite (allocated_same s s1 ds held) in Hfr by (done || lia). split; [done|].
      split; [|split; [done|by eapply same_trans]].
      apply (allocates_same s s1); try done. apply (BBLOCK_nonneg s ds); [done|lia].
Qed.

(** [balloc] finds a free block when there is one: it was free, it is marked, it
    is zeroed, and no other block changes. *)
Lemma balloc_spec s bl held ds b0 :
  txn s bl held -> layout s ds -> 0 <= ds -> held_data s ds held -> (length held + length bl < 28)%nat ->
  0 <= b0 < sb_size (sb s) -> allocated s b0 = false ->
  exists a s', balloc 1 s = Ok (a, s')
  /\ ds <= a < sb_size (sb s) /\ allocated s a = false /\ allocates s s' a
  /\ txn s' (absorbed (absorbed bl (BBLOCK a (sb s))) a) held /\ same s s' held.
Proof.
  intros Ht Hly Hds Hheld Hroom Hb0 Hfree. unfold balloc. rewrite (bind_ok get _ s s s eq_refl).
  apply (balloc_loop_spec _ s bl held ds 0 b0); try done; try lia.
  change BPB with 4096. Z.div_mod_to_equations. lia.
Qed.
