(* ===== verification/FsFile.v ===== *)
(** File contents of src/fs.c ([bmap], [readi], [writei]) against their meaning: a
    file is a list of bytes.

    The blocks of an inode are its direct addresses and the entries of its
    indirect block; [blk s ip k] is the block that holds bytes 512 k to 512 k + 511.
    [file_wf] says that these are distinct allocated data blocks and that they
    cover the file's size.  Everything happens inside a transaction; [weight]
    bounds the blocks the transaction has modified, so that it never overflows
    the log. *)
From stdpp Require Import base strings numbers list sets.
From S2P Require Import Prelude CString Bio Log Fs FsInode FsTxn FsAlloc.
Local Open Scope Z_scope.

(** * States that differ in blocks and inodes *)

Record ext (s s' : fstate) : Prop := {
  ex_disk : disk (fcache s') = disk (fcache s);
  ex_start : start (flog s') = start (flog s);
  ex_size : size (flog s') = size (flog s);
  ex_out : outstanding (flog s') = outstanding (flog s);
  ex_sb : sb s' = sb s;
  ex_cwd : cwd s' = cwd s }.

Lemma ext_refl s : ext s s.
Proof. by split. Qed.
Lemma ext_trans s s' s'' : ext s s' -> ext s' s'' -> ext s s''.
Proof. intros [] []. split; congruence. Qed.
Lemma same_ext s s' held : same s s' held -> ext s s'.
Proof. intros []. by split. Qed.
#[local] Hint Resolve ext_refl same_ext : core.

Definition put_ip (s : fstate) (i : nat) (ip : inode) : fstate :=
  mkFs (lst s) (sb s) (<[i := ip]> (inodes s)) (cwd s).

Lemma set_ip_ok i ip s : set_ip i ip s = Ok (tt, put_ip s i ip).
Proof. done. Qed.
Lemma get_ip_ok i ip s : inodes s !! i = Some ip -> get_ip i s = Ok (ip, s).
Proof. intros E. unfold get_ip. by rewrite E. Qed.
Lemma put_ip_ext s i ip : ext s (put_ip s i ip).
Proof. by split. Qed.
Lemma put_ip_txn {o} s i ip bl held : txn_at o s bl held -> txn_at o (put_ip s i ip) bl held.
Proof. intros []. by split. Qed.
Lemma put_ip_lookup s i ip ip0 : inodes s !! i = Some ip0 -> inodes (put_ip s i ip) !! i = Some ip.
Proof. intros E. apply list_lookup_insert_eq. by eapply lookup_lt_Some. Qed.

Lemma ext_home s s' n : ext s s' -> fhome s' n <-> fhome s n.
Proof. intros []. unfold fhome, nblk. by rewrite ex_disk0, ex_start0, ex_size0. Qed.

(** The layout holds as long as blocks keep their length and allocated blocks stay
    allocated. *)
Lemma layout_step s s' ds : layout s ds -> ext s s' ->
  (forall n d, 0 <= n -> fview s' n = Some d -> length d = 512%nat) ->
  (forall b, 0 <= b < ds -> allocated s b = true -> allocated s' b = true) -> layout s' ds.
Proof.
  intros [Hz Hl Hb Hn Hm] Hx Hlen Hal. pose proof (ex_sb _ _ Hx) as Esb. split.
  - unfold nblk. by rewrite Esb, (ex_disk _ _ Hx).
  - by rewrite (ex_start _ _ Hx), (ex_size _ _ Hx).
  - intros b. rewrite Esb. intros Hb'. split; [by apply Hb|]. by apply (ext_home s s'), Hb.
  - done.
  - intros b Hb'. apply Hal; [done|]. by apply Hm.
Qed.

(** * Free blocks *)

Definition nfree (s : fstate) : nat :=
  length (filter (fun b => allocated s b = false) (seqZ 0 (sb_size (sb s)))).

Lemma filter_iff {A} (P Q : A -> Prop) `{!forall x, Decision (P x), !forall x, Decision (Q x)} (l : list A) :
  (forall x, x ∈ l -> (P x <-> Q x)) -> filter P l = filter Q l.
Proof.
  induction l as [|x l IH]; intros Hl; [done|]. rewrite !filter_cons.
  rewrite IH by (intros y Hy; apply Hl; by right).
  assert (P x <-> Q x) as Hx by (apply Hl; left). destruct (decide (P x)), (decide (Q x)); tauto.
Qed.

Lemma filter_less {A} (P Q : A -> Prop) `{!forall x, Decision (P x), !forall x, Decision (Q x)} (l : list A) a :
  NoDup l -> a ∈ l -> P a -> ~ Q a -> (forall x, x ∈ l -> x <> a -> (P x <-> Q x)) ->
  length (filter P l) = S (length (filter Q l)).
Proof.
  intros Hnd Ha HP HQ Hx. induction Hnd as [|x l Hni Hnd IH]; [by apply elem_of_nil in Ha|].
  rewrite !filter_cons. apply elem_of_cons in Ha as [<-|Ha].
  - rewrite decide_True, decide_False by done. cbn [length]. do 2 f_equal. apply filter_iff.
    intros y Hy. apply Hx; [by right|]. intros ->. done.
  - assert (x <> a) as Hne by (intros ->; done).
    assert (P x <-> Q x) as Hpq by (apply Hx; [left|done]).
    specialize (IH Ha (fun z Hz => Hx z (proj2 (elem_of_cons _ _ _) (or_intror Hz)))).
    destruct (decide (P x)), (decide (Q x)); cbn [length]; (lia || tauto).
Qed.

Lemma nfree_some s : (0 < nfree s)%nat -> exists b, 0 <= b < sb_size (sb s) /\ allocated s b = false.
Proof.
  unfold nfree. destruct (filter (fun b => allocated s b = false) (seqZ 0 (sb_size (sb s)))) as [|b l] eqn:E;
    [cbn; lia|]. intros _.
  assert (b ∈ filter (fun b => allocated s b = false) (seqZ 0 (sb_size (sb s)))) as Hb
    by (rewrite E; left).
  apply list_elem_of_filter in Hb as [Hb1 Hb2]. apply elem_of_seqZ in Hb2. exists b. split; [lia|done].
Qed.

Lemma nfree_alloc s s' ds a : layout s ds -> 0 <= ds -> allocates s s' a -> sb s' = sb s ->
  ds <= a < sb_size (sb s) -> allocated s a = false -> nfree s = S (nfree s').
Proof.
  intros Hly Hds Hal Hsb Ha Hfree. unfold nfree. rewrite Hsb.
  apply (filter_less _ _ _ a); [apply NoDup_seqZ|apply elem_of_seqZ; lia|done| |].
  - rewrite (allocated_after s s' ds a) by (done || lia). by rewrite Z.eqb_refl.
  - intros x Hx Hne. apply elem_of_seqZ in Hx.
    rewrite (allocated_after s s' ds a) by (done || lia). by rewrite (proj2 (Z.eqb_neq x a)).
Qed.

Lemma nfree_ext s s' : sb s' = sb s ->
  (forall b, 0 <= b < sb_size (sb s) -> allocated s' b = allocated s b) -> nfree s' = nfree s.
Proof.
  intros Hsb Hal. unfold nfree. rewrite Hsb. f_equal. apply filter_iff.
  intros x Hx. apply elem_of_seqZ in Hx. by rewrite Hal by lia.
Qed.

(** * The size of a transaction *)

(** Modified blocks below [ds] are among [O]; at most [n] are data blocks. *)
Definition fits (ds : Z) (O bl : list Z) (n : nat) : Prop :=
  (forall m, m ∈ bl -> m < ds -> m ∈ O) /\ (length (filter (fun m : Z => (ds <= m)%Z) bl) <= n)%nat.

Lemma filter_split_length {A} (P : A -> Prop) `{!forall x, Decision (P x)} (l : list A) :
  length l = (length (filter P l) + length (filter (fun x => ~ P x) l))%nat.
Proof.
  induction l as [|x l IH]; [done|]. rewrite !filter_cons.
  destruct (decide (P x)), (decide (~ P x)); cbn [length]; (lia || tauto).
Qed.

Lemma fits_length ds O bl n : NoDup bl -> fits ds O bl n -> (length bl <= length O + n)%nat.
Proof.
  intros Hnd [Hm Hn]. rewrite (filter_split_length (fun m => ds <= m) bl).
  assert (length (filter (fun m : Z => ~ (ds <= m)%Z) bl) <= length O)%nat; [|lia].
  apply submseteq_length, NoDup_submseteq; [by apply NoDup_filter|].
  intros m Hin. apply list_elem_of_filter in Hin as [Hlt Hin]. apply Hm; [done|lia].
Qed.

Lemma absorbed_in bl b : b ∈ absorbed bl b.
Proof. unfold absorbed. case_decide; [done|]. apply elem_of_app. right. by left. Qed.

Lemma absorbed_sub bl b m : m ∈ bl -> m ∈ absorbed bl b.
Proof. intros Hm. unfold absorbed. case_decide; [done|]. apply elem_of_app. by left. Qed.

Lemma absorbed_old bl b : b ∈ bl -> absorbed bl b = bl.
Proof. intros Hb. unfold absorbed. by rewrite decide_True. Qed.

Lemma fits_meta ds O bl n b : fits ds O bl n -> b < ds -> b ∈ O -> fits ds O (absorbed bl b) n.
Proof.
  intros [Hm Hn] Hb HO. split.
  - intros m [Hin| ->]%absorbed_mono Hlt; [by apply Hm|done].
  - unfold absorbed. case_decide; [done|]. rewrite filter_app, length_app.
    rewrite filter_cons_False by lia. cbn. lia.
Qed.

Lemma fits_data ds O bl n b : fits ds O bl n -> ds <= b -> fits ds O (absorbed bl b) (S n).
Proof.
  intros [Hm Hn] Hb. split.
  - intros m [Hin| ->]%absorbed_mono Hlt; [by apply Hm|lia].
  - unfold absorbed. case_decide; [lia|]. rewrite filter_app, length_app.
    rewrite filter_cons_True by lia. cbn. lia.
Qed.

Lemma fits_mono ds O bl n n' : fits ds O bl n -> (n <= n')%nat -> fits ds O bl n'.
Proof. intros [Hm Hn] H. split; [done|lia]. Qed.

(** * Files *)

Definition ind (ip : inode) : Z := nth 12 (addrs ip) 0.

Definition ind_entry (s : fstate) (ip : inode) (j : nat) : Z :=
  if ind ip =? 0 then 0
  else match fview s (ind ip) with Some d => get_uint d (4 * j) | None => 0 end.

Definition blk (s : fstate) (ip : inode) (k : Z) : Z :=
  if k <? NDIRECT then nth (Z.to_nat k) (addrs ip) 0 else ind_entry s ip (Z.to_nat (k - NDIRECT)).

(** Block [b] is an allocated data block. *)
Definition data_block (s : fstate) (ds b : Z) : Prop :=
  ds <= b < sb_size (sb s) /\ allocated s b = true.

Record file_wf (s : fstate) (ds : Z) (ip : inode) : Prop := {
  fw_dev : idev ip = 1;
  fw_addrs : length (addrs ip) = 13%nat;
  fw_size : 0 <= isize ip <= MAXFILE * BSIZE;
  fw_blk : forall k, 0 <= k < MAXFILE -> blk s ip k <> 0 ->
    data_block s ds (blk s ip k) /\ blk s ip k <> ind ip;
  fw_ind : ind ip <> 0 -> data_block s ds (ind ip);
  fw_inj : forall k k', 0 <= k < MAXFILE -> 0 <= k' < MAXFILE ->
    blk s ip k = blk s ip k' -> blk s ip k <> 0 -> k = k';
  fw_cover : forall k, 0 <= k -> k * BSIZE < isize ip -> blk s ip k <> 0 }.

(** Byte [j] of the file. *)
Definition byte (s : fstate) (ip : inode) (j : Z) : Z :=
  match fview s (blk s ip (j / BSIZE)) with
  | Some d => nth (Z.to_nat (j mod BSIZE)) d 0
  | None => 0
  end.

Definition file_bytes (s : fstate) (ip : inode) : list Z := byte s ip <$> seqZ 0 (isize ip).

Definition set_addrs (ip : inode) (l : list Z) : inode :=
  mkInode (idev ip) (inum ip) (iref ip) (ilocked ip) (iflags ip) (itype ip) (major ip) (minor ip)
    (nlink ip) (isize ip) l.

(** What a step of [bmap] does: block [k] of the file is [a]; the other blocks of
    the file, the data of allocated blocks (the indirect block apart) and the
    metadata other than the bitmap stay. *)
Record grows (s s' : fstate) (ds : Z) (ip ip' : inode) : Prop := {
  gr_ext : ext s s';
  gr_ip : ip' = set_addrs ip (addrs ip');
  gr_wf : file_wf s' ds ip';
  gr_layout : layout s' ds;
  gr_ind : ind ip' = ind ip \/ allocated s (ind ip') = false;
  gr_data : forall b, data_block s ds b -> b <> ind ip -> fview s' b = fview s b;
  gr_alloc : forall b, 0 <= b < sb_size (sb s) -> allocated s b = true -> allocated s' b = true;
  gr_meta : forall m, 0 <= m < ds -> (forall b, 0 <= b < sb_size (sb s) -> m <> BBLOCK b (sb s)) ->
    fview s' m = fview s m }.

(** A transaction has to log the indirect block at most once. *)
Definition slack (ip : inode) (bl : list Z) : nat :=
  if decide (ind ip <> 0 /\ ind ip ∈ bl) then 0 else 1.

Section Files.
Context (ds : Z) (O : list Z).
Hypothesis Hds : 0 < ds.

(** The bitmap blocks are accounted for in [O]. *)
Definition bitmap_in (s : fstate) : Prop :=
  forall b, 0 <= b < sb_size (sb s) -> BBLOCK b (sb s) ∈ O.

Lemma length_zeros : length (replicate 512 0 : block) = 512%nat.
Proof. apply length_replicate. Qed.

Lemma layout_alloc s s' a : layout s ds -> allocates s s' a -> ext s s' ->
  ds <= a < sb_size (sb s) -> layout s' ds.
Proof.
  intros Hly Hal Hx Ha. apply (layout_step s); [done..| |].
  - destruct Hal as ((d & Hd & Hd') & Hz & Hm). intros n d' Hn Hn'.
    destruct (decide (n = a)) as [->|Hna]; [rewrite Hz in Hn'; injection Hn' as <-; apply length_zeros|].
    destruct (decide (n = BBLOCK a (sb s))) as [->|Hnb].
    + rewrite Hd' in Hn'. injection Hn' as <-. rewrite length_set_bit. by apply (ly_len _ _ Hly _ _ Hn).
    + rewrite Hm in Hn' by done. by apply (ly_len _ _ Hly _ _ Hn).
  - intros b Hb Hb1. pose proof (ly_size _ _ Hly).
    rewrite (allocated_after s s' ds a) by (done || apply Hx || lia). by rewrite Hb1, orb_true_r.
Qed.

(** An allocation keeps the blocks in use and the metadata. *)
Lemma allocates_data s s' a b : layout s ds -> allocates s s' a -> allocated s a = false ->
  ds <= a < sb_size (sb s) -> data_block s ds b -> fview s' b = fview s b.
Proof.
  intros Hly (_ & _ & Hm) Hfree Ha [Hb1 Hb2]. apply Hm; [lia|congruence|].
  destruct (ly_bmap _ _ Hly a) as [H1 _]; lia.
Qed.

Lemma allocates_alloc s s' a b : layout s ds -> allocates s s' a -> ext s s' ->
  ds <= a < sb_size (sb s) -> 0 <= b < sb_size (sb s) ->
  allocated s' b = (b =? a) || allocated s b.
Proof. intros Hly Hal Hx Ha Hb. apply (allocated_after s s' ds a); (done || apply Hx || lia). Qed.

Lemma data_block_ne0 s b : data_block s ds b -> b <> 0.
Proof. intros [H _]. lia. Qed.

Lemma data_block_mono s s' b : ext s s' ->
  (forall b, 0 <= b < sb_size (sb s) -> allocated s b = true -> allocated s' b = true) ->
  data_block s ds b -> data_block s' ds b.
Proof.
  intros Hx Hal [H1 H2]. split; [by rewrite (ex_sb _ _ Hx)|]. apply Hal; [lia|done].
Qed.

(** A file whose block [k] becomes [a], fresh or as before, is well formed. *)
Lemma wf_grow s s' ip ip' k a :
  file_wf s ds ip -> ext s s' -> ip' = set_addrs ip (addrs ip') -> length (addrs ip') = 13%nat ->
  (forall b, 0 <= b < sb_size (sb s) -> allocated s b = true -> allocated s' b = true) ->
  0 <= k < MAXFILE ->
  (forall k', 0 <= k' < MAXFILE -> blk s' ip' k' = if k' =? k then a else blk s ip k') ->
  a = blk s ip k \/ (data_block s' ds a /\ allocated s a = false) ->
  (a <> 0 -> a <> ind ip') ->
  ind ip' = ind ip \/ (data_block s' ds (ind ip') /\ allocated s (ind ip') = false) ->
  file_wf s' ds ip'.
Proof.
  intros Hwf Hx Hip Hlen Hal Hk Hblk Ha Hai Hind. destruct Hwf as [Hdev Had Hsz Hb Hi Hinj Hcov].
  assert (forall b, data_block s ds b -> data_block s' ds b) as Hdb
    by (intros b; by apply data_block_mono).
  assert (forall k', 0 <= k' < MAXFILE -> k' <> k -> blk s ip k' <> 0 -> blk s ip k' <> a) as Hfresh.
  { intros k' Hk' Hne H0 E. destruct Ha as [->|[_ Hf]].
    - apply Hne. symmetry. by apply Hinj; [..|congruence].
    - destruct (Hb k' Hk' H0) as [[_ Hal'] _]. congruence. }
  split.
  - by rewrite Hip.
  - done.
  - by rewrite Hip.
  - intros k' Hk'. rewrite Hblk by done. destruct (Z.eqb_spec k' k) as [->|Hne]; intros H0.
    + split; [|by apply Hai]. destruct Ha as [E|[? _]]; [|done]. rewrite E in H0 |- *. apply Hdb. by apply Hb.
    + destruct (Hb k' Hk' H0) as [Hd Hni]. split; [by apply Hdb|]. destruct Hind as [->|[_ Hf]]; [done|].
      intros E. destruct Hd as [_ Hd]. congruence.
  - destruct Hind as [E|[? _]]; [|done]. rewrite E. intros H0. by apply Hdb, Hi.
  - intros k1 k2 H1 H2. rewrite !Hblk by done.
    destruct (Z.eqb_spec k1 k) as [->|Hn1], (Z.eqb_spec k2 k) as [->|Hn2]; try done.
    + intros E H0. symmetry in E. exfalso. apply (Hfresh k2); try done. congruence.
    + intros E H0. exfalso. by apply (Hfresh k1).
    + intros E H0. by apply Hinj.
  - assert (isize ip' = isize ip) as Es by (by rewrite Hip). rewrite Es. intros k' Hk0 Hlt.
    assert (k' < MAXFILE) by (change BSIZE with 512 in *; lia).
    rewrite Hblk by lia. destruct (Z.eqb_spec k' k) as [->|_]; [|by apply Hcov].
    destruct Ha as [->|[? _]]; [by apply Hcov|by eapply data_block_ne0].
Qed.

Lemma blk_direct s ip k : k < NDIRECT -> blk s ip k = nth (Z.to_nat k) (addrs ip) 0.
Proof. intros Hk. unfold blk. by rewrite (proj2 (Z.ltb_lt k NDIRECT)). Qed.
Lemma blk_indirect s ip k : NDIRECT <= k -> blk s ip k = ind_entry s ip (Z.to_nat (k - NDIRECT)).
Proof. intros Hk. unfold blk. by rewrite (proj2 (Z.ltb_ge k NDIRECT)). Qed.

Lemma ind_entry_view s s' ip ip' j : ind ip' = ind ip -> (ind ip <> 0 -> fview s' (ind ip) = fview s (ind ip)) ->
  ind_entry s' ip' j = ind_entry s ip j.
Proof.
  intros E Hv. unfold ind_entry. rewrite E. destruct (Z.eqb_spec (ind ip) 0); [done|]. by rewrite Hv.
Qed.

Lemma nth_insert (l : list Z) i j x : (i < length l)%nat ->
  nth j (<[i := x]> l) 0 = if (j =? i)%nat then x else nth j l 0.
Proof.
  intros Hi. rewrite !nth_lookup. destruct (Nat.eqb_spec j i) as [->|Hne].
  - by rewrite list_lookup_insert_eq.
  - by rewrite list_lookup_insert_ne.
Qed.

Lemma with_addr_set ip k a : with_addr ip k a = set_addrs ip (<[k := a]> (addrs ip)).
Proof. done. Qed.

(** A fresh direct block. *)
Lemma wf_direct s s1 i ip k a :
  layout s ds -> file_wf s ds ip -> 0 <= k < NDIRECT -> blk s ip k = 0 ->
  ds <= a < sb_size (sb s) -> allocated s a = false -> allocates s s1 a -> ext s s1 ->
  let ip' := with_addr ip (Z.to_nat k) a in
  let s' := put_ip s1 i ip' in
  grows s s' ds ip ip' /\ blk s' ip' k = a
  /\ (forall k', 0 <= k' < MAXFILE -> k' <> k -> blk s' ip' k' = blk s ip k').
Proof.
  intros Hly Hwf Hk Hk0 Ha Hfree Hal Hx ip' s'. unfold NDIRECT in Hk.
  pose proof (fw_addrs _ _ _ Hwf) as Hlen.
  assert (ext s s') as Hx' by (eapply ext_trans; [exact Hx|apply put_ip_ext]).
  assert (ind ip' = ind ip) as Ei.
  { unfold ind, ip'. cbn [addrs with_addr]. rewrite nth_insert by lia.
    by rewrite (proj2 (Nat.eqb_neq 12 (Z.to_nat k))) by lia. }
  assert (forall b, 0 <= b < sb_size (sb s) -> allocated s b = true -> allocated s' b = true) as Hmono.
  { intros b Hb Hb1. change (allocated s' b) with (allocated s1 b).
    rewrite (allocates_alloc s s1 a) by done. by rewrite Hb1, orb_true_r. }
  assert (forall k', 0 <= k' < MAXFILE -> blk s' ip' k' = if k' =? k then a else blk s ip k') as Hblk.
  { intros k' Hk'. destruct (decide (k' < NDIRECT)) as [Hd|Hd].
    - rewrite !blk_direct by done. unfold ip'. cbn [addrs with_addr]. rewrite nth_insert by lia.
      destruct (Z.eqb_spec k' k) as [->|Hne]; [by rewrite Nat.eqb_refl|].
      by rewrite (proj2 (Nat.eqb_neq _ _)) by lia.
    - rewrite !blk_indirect by lia. unfold NDIRECT in Hd. rewrite (proj2 (Z.eqb_neq k' k)) by lia.
      apply ind_entry_view; [done|]. intros H0. change (fview s' (ind ip)) with (fview s1 (ind ip)).
      apply (allocates_data s s1 a); try done. by apply (fw_ind _ _ _ Hwf). }
  assert (data_block s' ds a) as Hda.
  { split; [by rewrite (ex_sb _ _ Hx')|]. change (allocated s' a) with (allocated s1 a).
    rewrite (allocates_alloc s s1 a) by (done || lia). by rewrite Z.eqb_refl. }
  split; [|split; [by rewrite Hblk, Z.eqb_refl by (change MAXFILE with 140; lia)|]].
  - split; try done.
    + apply (wf_grow s s' ip ip' k a); try done.
      * unfold ip'. cbn. by rewrite length_insert.
      * change MAXFILE with 140. lia.
      * by right.
      * rewrite Ei. intros _ E. destruct (decide (ind ip = 0)); [lia|].
        destruct (fw_ind _ _ _ Hwf ltac:(done)) as [_ H1]. congruence.
      * by left.
    + apply (layout_step s1); [by eapply layout_alloc|apply put_ip_ext|..].
      * intros n d Hn Hd. apply (ly_len s1 ds ltac:(by eapply layout_alloc) n d Hn Hd).
      * done.
    + by left.
    + intros b Hb _. change (fview s' b) with (fview s1 b). by apply (allocates_data s s1 a).
    + intros m Hm Hnb. change (fview s' m) with (fview s1 m). destruct Hal as (_ & _ & Hother).
      apply Hother; [lia|lia|]. apply Hnb. lia.
  - intros k' Hk' Hne. rewrite Hblk by done. by rewrite (proj2 (Z.eqb_neq k' k)).
Qed.

Lemma get_uint_zeros off : get_uint (replicate 512 0) off = 0.
Proof.
  unfold get_uint, get_int.
  assert (forall n, nth n (replicate 512 0 : list Z) 0 = 0) as Hz.
  { intros n. rewrite nth_lookup. destruct (_ !! n) as [v|] eqn:E; [|done].
    apply lookup_replicate in E as [-> _]. done. }
  by rewrite !Hz.
Qed.

(** A fresh indirect block has no entries. *)
Lemma wf_fresh_ind s s1 i ip a :
  layout s ds -> file_wf s ds ip -> ind ip = 0 ->
  ds <= a < sb_size (sb s) -> allocated s a = false -> allocates s s1 a -> ext s s1 ->
  let ip' := with_addr ip (Z.to_nat NDIRECT) a in
  let s' := put_ip s1 i ip' in
  grows s s' ds ip ip' /\ ind ip' = a
  /\ (forall k', 0 <= k' < MAXFILE -> blk s' ip' k' = blk s ip k').
Proof.
  intros Hly Hwf Hi0 Ha Hfree Hal Hx ip' s'. pose proof (fw_addrs _ _ _ Hwf) as Hlen.
  assert (ext s s') as Hx' by (eapply ext_trans; [exact Hx|apply put_ip_ext]).
  assert (ind ip' = a) as Ei.
  { unfold ind, ip'. cbn [addrs with_addr]. change (Z.to_nat NDIRECT) with 12%nat.
    rewrite nth_insert by lia. done. }
  assert (forall b, 0 <= b < sb_size (sb s) -> allocated s b = true -> allocated s' b = true) as Hmono.
  { intros b Hb Hb1. change (allocated s' b) with (allocated s1 b).
    rewrite (allocates_alloc s s1 a) by done. by rewrite Hb1, orb_true_r. }
  assert (forall k', 0 <= k' < MAXFILE -> blk s' ip' k' = blk s ip k') as Hblk.
  { intros k' Hk'. destruct (decide (k' < NDIRECT)) as [Hd|Hd].
    - rewrite !blk_direct by done. unfold ip'. cbn [addrs with_addr].
      change (Z.to_nat NDIRECT) with 12%nat. unfold NDIRECT in Hd.
      rewrite nth_insert by lia. by rewrite (proj2 (Nat.eqb_neq _ _)) by lia.
    - rewrite !blk_indirect by lia. unfold ind_entry. rewrite Ei, Hi0. cbn [Z.eqb].
      rewrite (proj2 (Z.eqb_neq a 0)) by lia. destruct Hal as (_ & Hz & _).
      change (fview s' a) with (fview s1 a). rewrite Hz. apply get_uint_zeros. }
  assert (data_block s' ds a) as Hda.
  { split; [by rewrite (ex_sb _ _ Hx')|]. change (allocated s' a) with (allocated s1 a).
    rewrite (allocates_alloc s s1 a) by (done || lia). by rewrite Z.eqb_refl. }
  split; [|split; done]. split; try done.
  - apply (wf_grow s s' ip ip' 0 (blk s ip 0)); try done.
    + unfold ip'. cbn. by rewrite length_insert.
    + intros k' Hk'. rewrite Hblk by done. by destruct (Z.eqb_spec k' 0) as [->|].
    + by left.
    + intros H0 E. destruct (fw_blk _ _ _ Hwf 0) as [[_ H1] _]; [done..|]. congruence.
    + right. by rewrite Ei.
  - apply (layout_step s1); [by eapply layout_alloc|apply put_ip_ext| |done].
    intros n d Hn Hd. apply (ly_len s1 ds ltac:(by eapply layout_alloc) n d Hn Hd).
  - right. by rewrite Ei.
  - intros b Hb _. change (fview s' b) with (fview s1 b). by apply (allocates_data s s1 a).
  - intros m Hm Hnb. change (fview s' m) with (fview s1 m). destruct Hal as (_ & _ & Hother).
    apply Hother; [lia|lia|]. apply Hnb. lia.
Qed.

Lemma get_uint_put d off off' v : (off + 3 < length d)%nat -> 0 <= v < 2 ^ 32 ->
  (off' = off \/ off + 4 <= off' \/ off' + 4 <= off)%nat ->
  get_uint (put_int d off v) off' = if (off' =? off)%nat then v else get_uint d off'.
Proof.
  intros Hl Hv Ho. unfold get_uint. destruct (Nat.eqb_spec off' off) as [->|Hne].
  - rewrite get_put_int_wrap by done. unfold u32. rewrite s32_mod. by apply Z.mod_small.
  - rewrite get_put_int_ne by lia. done.
Qed.

(** A fresh entry of the indirect block. *)
Lemma wf_entry s s1 s' ip j a d0 :
  layout s ds -> file_wf s ds ip -> ind ip <> 0 -> (j < 128)%nat -> fview s (ind ip) = Some d0 ->
  get_uint d0 (4 * j) = 0 -> sb_size (sb s) < 2 ^ 32 ->
  ds <= a < sb_size (sb s) -> allocated s a = false -> allocates s s1 a -> ext s s1 ->
  ext s1 s' ->
  (forall m, 0 <= m -> fview s' m = if m =? ind ip then Some (put_int d0 (4 * j) a) else fview s1 m) ->
  let k := NDIRECT + Z.of_nat j in
  grows s s' ds ip ip /\ blk s' ip k = a
  /\ (forall k', 0 <= k' < MAXFILE -> k' <> k -> blk s' ip k' = blk s ip k').
Proof.
  intros Hly Hwf Hi0 Hj Hd0 Hz Hsz Ha Hfree Hal Hx Hx1 Hv k.
  assert (ext s s') as Hx' by (by eapply ext_trans).
  destruct (fw_ind _ _ _ Hwf Hi0) as [Hir Hia]. pose proof (ly_size _ _ Hly) as Hsize.
  assert (length d0 = 512%nat) as Hl0 by (apply (ly_len _ _ Hly (ind ip)); [lia|done]).
  assert (layout s1 ds) as Hly1 by (by eapply layout_alloc).
  assert (forall b, 0 <= b < sb_size (sb s) -> allocated s' b = allocated s1 b) as Hal'.
  { intros b Hb. unfold allocated. rewrite (ex_sb _ _ Hx1), (ex_sb _ _ Hx).
    destruct (ly_bmap _ _ Hly b Hb) as [Hb1 Hb2]. unfold fhome, home in Hb2.
    rewrite Hv by lia. by rewrite (proj2 (Z.eqb_neq _ _)) by lia. }
  assert (forall b, 0 <= b < sb_size (sb s) -> allocated s b = true -> allocated s' b = true) as Hmono.
  { intros b Hb Hb1. rewrite Hal', (allocates_alloc s s1 a) by done. by rewrite Hb1, orb_true_r. }
  assert (forall k', 0 <= k' < MAXFILE -> blk s' ip k' = if k' =? k then a else blk s ip k') as Hblk.
  { intros k' Hk'. change MAXFILE with 140 in Hk'. subst k. unfold NDIRECT.
    destruct (decide (k' < NDIRECT)) as [Hd|Hd]; unfold NDIRECT in Hd.
    - rewrite !blk_direct by done. by rewrite (proj2 (Z.eqb_neq _ _)) by lia.
    - rewrite !blk_indirect by (unfold NDIRECT; lia). unfold ind_entry.
      rewrite (proj2 (Z.eqb_neq (ind ip) 0)) by done. rewrite Hv, Z.eqb_refl, Hd0 by lia.
      rewrite get_uint_put by (unfold NDIRECT; lia). unfold NDIRECT.
      destruct (Z.eqb_spec k' (12 + Z.of_nat j)) as [->|Hne].
      + by replace (_ =? _)%nat with true by lia.
      + by replace (_ =? _)%nat with false by lia. }
  assert (data_block s' ds a) as Hda.
  { split; [by rewrite (ex_sb _ _ Hx')|].
    rewrite Hal', (allocates_alloc s s1 a) by (done || lia). by rewrite Z.eqb_refl. }
  assert (0 <= k < MAXFILE) as Hk by (change MAXFILE with 140; subst k; unfold NDIRECT; lia).
  split; [|split; [by rewrite Hblk, Z.eqb_refl by done|]].
  2: { intros k' Hk' Hne. rewrite Hblk by done. by rewrite (proj2 (Z.eqb_neq _ _)). }
  split; try done.
  - by destruct ip.
  - apply (wf_grow s s' ip ip k a); try done.
    + by destruct ip.
    + apply (fw_addrs _ _ _ Hwf).
    + by right.
    + intros _ E. congruence.
    + by left.
  - apply (layout_step s1); [done..| |].
    + intros n d Hn. rewrite Hv by done. destruct (n =? ind ip).
      * intros [= <-]. by rewrite length_put_int.
      * apply (ly_len _ _ Hly1 n d Hn).
    + intros b Hb. rewrite Hal' by lia. done.
  - by left.
  - intros b Hb Hne. destruct Hb as [Hb1 Hb2]. rewrite Hv by lia. rewrite (proj2 (Z.eqb_neq _ _)) by done.
    by apply (allocates_data s s1 a).
  - intros m Hm Hnb. rewrite Hv by lia. rewrite (proj2 (Z.eqb_neq _ _)) by lia.
    destruct Hal as (_ & _ & Hother). apply Hother; [lia|lia|]. apply Hnb. lia.
Qed.

(** ** [bmap] *)

Record bmapped (s s' : fstate) (ip ip' : inode) (k a : Z) : Prop := {
  bm_grows : grows s s' ds ip ip';
  bm_a : blk s' ip' k = a;
  bm_ne : a <> 0;
  bm_keep : blk s ip k <> 0 -> ip' = ip;
  bm_other : forall k', 0 <= k' < MAXFILE -> k' <> k -> blk s' ip' k' = blk s ip k';
  bm_new : blk s ip k = 0 /\ allocated s a = false /\ fview s' a = Some (replicate 512 0)
    \/ blk s ip k = a /\ fview s' a = fview s a }.

Lemma fits_balloc s bl n a : layout s ds -> bitmap_in s -> fits ds O bl n ->
  ds <= a < sb_size (sb s) ->
  fits ds O (absorbed (absorbed bl (BBLOCK a (sb s))) a) (S n).
Proof.
  intros Hly HO Hf Ha. apply fits_data; [|lia].
  destruct (ly_bmap _ _ Hly a) as [Hb _]; [lia|]. apply fits_meta; [done|done|]. apply HO. lia.
Qed.

Lemma grows_refl s ip : layout s ds -> file_wf s ds ip -> grows s s ds ip ip.
Proof. intros Hly Hwf. split; try done; [by destruct ip|by left]. Qed.

(** The file is unchanged and the block is there. *)
Lemma bmapped_there s s' ip k : layout s ds -> file_wf s ds ip -> ext s s' -> same_view s s' ->
  0 <= k < MAXFILE -> blk s ip k <> 0 -> bmapped s s' ip ip k (blk s ip k).
Proof.
  intros Hly Hwf Hx Hv Hk H0. pose proof (ly_size _ _ Hly) as Hsz.
  assert (forall k, 0 <= k < MAXFILE -> blk s' ip k = blk s ip k) as Hblk.
  { intros k' Hk'. unfold blk. destruct (k' <? NDIRECT); [done|]. apply ind_entry_view; [done|].
    intros Hi. apply Hv. destruct (fw_ind _ _ _ Hwf Hi) as [H1 _]. lia. }
  assert (forall b, 0 <= b < sb_size (sb s) -> allocated s' b = allocated s b) as Hal.
  { intros b Hb. unfold allocated. rewrite (ex_sb _ _ Hx), Hv; [done|]. by apply (BBLOCK_nonneg s ds). }
  assert (forall b, data_block s ds b -> 0 <= b) as Hpos by (intros b [? _]; lia).
  assert (forall b, 0 <= b < sb_size (sb s) -> allocated s b = true -> allocated s' b = true) as Hmono
    by (intros b Hb; by rewrite Hal).
  split; [|by apply Hblk|done|done|by intros; apply Hblk|].
  - split; try done.
    + by destruct ip.
    + apply (wf_grow s s' ip ip k (blk s ip k)); try done.
      * by destruct ip.
      * apply (fw_addrs _ _ _ Hwf).
      * intros k' Hk'. rewrite Hblk by done. by destruct (Z.eqb_spec k' k) as [->|].
      * by left.
      * intros _. by apply (fw_blk _ _ _ Hwf).
      * by left.
    + apply (layout_step s); [done..| |].
      * intros n d Hn. rewrite Hv by done. by apply (ly_len _ _ Hly).
      * intros b Hb. by rewrite Hal by lia.
    + by left.
    + intros b Hb _. apply Hv. by apply Hpos.
    + intros m Hm _. apply Hv. lia.
  - right. split; [done|]. apply Hv, Hpos. by apply (fw_blk _ _ _ Hwf).
Qed.

(** A state whose only difference is which buffers are cached. *)
Lemma nfree_same s s' held : layout s ds -> same s s' held -> same_view s s' -> nfree s' = nfree s.
Proof.
  intros Hly Hs Hv. apply nfree_ext; [apply Hs|]. intros b Hb. by apply (allocated_same s s' ds held).
Qed.

Lemma nfree_entry s s' x d : layout s ds -> sb s' = sb s -> ds <= x ->
  (forall m, 0 <= m -> fview s' m = if m =? x then Some d else fview s m) -> nfree s' = nfree s.
Proof.
  intros Hly Hsb Hx Hv. apply nfree_ext; [done|]. intros b Hb. unfold allocated. rewrite Hsb.
  destruct (ly_bmap _ _ Hly b Hb) as [H1 H2]. unfold fhome, home in H2.
  rewrite Hv by lia. by rewrite (proj2 (Z.eqb_neq _ _)) by lia.
Qed.

Definition pending_data (a : Z) (bl : list Z) : nat := if decide (a ∈ bl) then 0 else 1.

Lemma held_data_nil s : held_data s ds [].
Proof. intros i b Hi. by apply elem_of_nil in Hi. Qed.

Lemma slack_le ip ip' bl bl' : ind ip' = ind ip -> (forall m, m ∈ bl -> m ∈ bl') ->
  (slack ip' bl' <= slack ip bl)%nat.
Proof.
  intros E Hsub. unfold slack. rewrite E. destruct (decide (ind ip <> 0 /\ ind ip ∈ bl)) as [[H0 Hin]|_].
  - rewrite decide_True; [done|]. split; [done|by apply Hsub].
  - destruct (decide _); lia.
Qed.

Lemma slack_le1 ip bl : (slack ip bl <= 1)%nat.
Proof. unfold slack. case_decide; lia. Qed.

(** The direct blocks. *)
Lemma bmap_direct s bl i ip k n :
  txn s bl [] -> layout s ds -> bitmap_in s -> fits ds O bl n -> (length O + n + 4 <= 28)%nat ->
  inodes s !! i = Some ip -> file_wf s ds ip -> 0 <= k < NDIRECT ->
  blk s ip k <> 0 \/ (0 < nfree s)%nat ->
  exists a s' ip' bl' n', bmap i k s = Ok (a, s') /\ txn s' bl' []
  /\ inodes s' = <[i := ip']> (inodes s) /\ bmapped s s' ip ip' k a /\ fits ds O bl' n'
  /\ (n' + slack ip' bl' + pending_data a bl' <= n + slack ip bl + 1)%nat
  /\ (nfree s <= nfree s' + if decide (blk s ip k = 0)%Z then 1 else 0)%nat.
Proof.
  intros Ht Hly HO Hf Hcap Hi Hwf Hk Hfree. unfold NDIRECT in Hk.
  assert (0 <= k < MAXFILE) as Hkm by (change MAXFILE with 140; lia).
  pose proof (fits_length ds O bl n (tx_nodup _ _ _ Ht) Hf) as Hlen.
  unfold bmap. rewrite (bind_ok _ _ _ _ _ (get_ip_ok i ip s Hi)).
  rewrite (proj2 (Z.ltb_lt k NDIRECT)) by (unfold NDIRECT; lia). cbn zeta.
  rewrite <- (blk_direct s ip k) by (unfold NDIRECT; lia).
  destruct (Z.eqb_spec (blk s ip k) 0) as [H0|H0].
  - destruct (nfree_some s) as (b0 & Hb0 & Hb0f); [destruct Hfree; [done|lia]|].
    rewrite (fw_dev _ _ _ Hwf).
    destruct (balloc_spec s bl [] ds b0 Ht Hly ltac:(lia) (held_data_nil s)) as (a & s1 & E & Ha & Haf & Hal & Ht1 & Hs1);
      [cbn; lia|done|done|].
    rewrite (bind_ok _ _ _ _ _ E). rewrite (bind_ok _ _ _ _ _ (set_ip_ok _ _ _)).
    destruct (wf_direct s s1 i ip k a) as (Hg & Hb & Hoth); try done; [by eapply same_ext|].
    cbn zeta in *. set (ip' := with_addr ip (Z.to_nat k) a) in *.
    exists a, (put_ip s1 i ip'), ip', (absorbed (absorbed bl (BBLOCK a (sb s))) a), (S n).
    split; [done|]. split; [by apply put_ip_txn|].
    split; [cbn; by rewrite (sm_inodes _ _ _ Hs1)|]. split; [|split; [|split]].
    + split; try done; [lia|]. left. split; [done|split; [done|apply Hal]].
    + by apply fits_balloc.
    + unfold pending_data. rewrite decide_True by apply absorbed_in.
      assert (slack ip' (absorbed (absorbed bl (BBLOCK a (sb s))) a) <= slack ip bl)%nat; [|lia].
      apply slack_le; [|intros m Hm; by apply absorbed_sub, absorbed_sub].
      unfold ind, ip'. cbn [addrs with_addr]. rewrite nth_insert by (rewrite (fw_addrs _ _ _ Hwf); lia).
      by rewrite (proj2 (Nat.eqb_neq 12 (Z.to_nat k))) by lia.
    + rewrite (nfree_alloc s s1 ds a) by (done || apply Hs1 || lia).
      rewrite decide_True by done. change (nfree (put_ip s1 i ip')) with (nfree s1). lia.
  - exists (blk s ip k), s, ip, bl, n. split; [done|]. split; [done|].
    split; [by rewrite list_insert_id|]. split; [by apply bmapped_there|]. split; [done|].
    split; [|lia]. unfold pending_data. destruct (decide _); lia.
Qed.

(** Two steps one after the other: the second file may have a new indirect block. *)
Lemma grows_trans s s1 s' ip ip1 ip' :
  grows s s1 ds ip ip1 -> grows s1 s' ds ip1 ip' -> grows s s' ds ip ip'.
Proof.
  intros G1 G2. destruct G1 as [X1 I1 W1 L1 Hind D1 A1 M1], G2 as [X2 I2 W2 L2 Hind2 D2 A2 M2].
  pose proof (ex_sb _ _ X1) as Esb. split; try done.
  - by eapply ext_trans.
  - rewrite I2, I1. done.
  - destruct Hind2 as [->|Hf]; [done|]. destruct (decide (ind ip' = 0)) as [E|H0].
    { rewrite E, (ly_meta _ _ L1) in Hf by lia. done. }
    right. destruct (allocated s (ind ip')) eqn:Ea; [|done]. destruct (fw_ind _ _ _ W2 H0) as [Hr _].
    rewrite (ex_sb _ _ X2), Esb in Hr. rewrite A1 in Hf; (done || lia).
  - intros b Hb Hne. rewrite D2, D1; try done.
    + by eapply data_block_mono.
    + destruct Hind as [->|Hf]; [done|]. intros ->. destruct Hb as [_ Hb]. congruence.
  - intros b Hb Hb1. apply A2; [by rewrite Esb|]. by apply A1.
  - intros m Hm Hnb. rewrite M2, M1; try done. by rewrite Esb.
Qed.

(** The first half of the indirect case: an indirect block. *)
Lemma bmap_ind s bl i ip n :
  txn s bl [] -> layout s ds -> bitmap_in s -> fits ds O bl n -> (length O + n + 4 <= 28)%nat ->
  inodes s !! i = Some ip -> file_wf s ds ip -> ind ip <> 0 \/ (0 < nfree s)%nat ->
  exists s' ip' bl' n',
    (if ind ip =? 0 then a ← balloc (idev ip); set_ip i (with_addr ip (Z.to_nat NDIRECT) a) ;; mret a
     else mret (ind ip)) s = Ok (ind ip', s')
  /\ txn s' bl' [] /\ inodes s' = <[i := ip']> (inodes s) /\ grows s s' ds ip ip'
  /\ ind ip' <> 0 /\ (ind ip <> 0 -> ip' = ip)
  /\ (forall k, 0 <= k < MAXFILE -> blk s' ip' k = blk s ip k)
  /\ fits ds O bl' n' /\ (n' + slack ip' bl' <= n + slack ip bl)%nat
  /\ (nfree s <= nfree s' + if decide (ind ip = 0)%Z then 1 else 0)%nat.
Proof.
  intros Ht Hly HO Hf Hcap Hi Hwf Hfree.
  pose proof (fits_length ds O bl n (tx_nodup _ _ _ Ht) Hf) as Hlen.
  destruct (Z.eqb_spec (ind ip) 0) as [H0|H0].
  - destruct (nfree_some s) as (b0 & Hb0 & Hb0f); [destruct Hfree; [done|lia]|].
    rewrite (fw_dev _ _ _ Hwf).
    destruct (balloc_spec s bl [] ds b0 Ht Hly ltac:(lia) (held_data_nil s)) as (a & s1 & E & Ha & Haf & Hal & Ht1 & Hs1);
      [cbn; lia|done|done|].
    rewrite (bind_ok _ _ _ _ _ E), (bind_ok _ _ _ _ _ (set_ip_ok _ _ _)).
    destruct (wf_fresh_ind s s1 i ip a) as (Hg & Hb & Hoth); try done; [by eapply same_ext|].
    cbn zeta in *. set (ip' := with_addr ip (Z.to_nat NDIRECT) a) in *.
    exists (put_ip s1 i ip'), ip', (absorbed (absorbed bl (BBLOCK a (sb s))) a), (S n).
    rewrite Hb. split; [done|]. split; [by apply put_ip_txn|].
    split; [cbn; by rewrite (sm_inodes _ _ _ Hs1)|]. split; [done|]. split; [lia|].
    do 2 (split; [done|]). split; [by apply fits_balloc|]. split.
    + unfold slack at 1. rewrite decide_True by (rewrite Hb; split; [lia|apply absorbed_in]).
      unfold slack. rewrite decide_False by tauto. lia.
    + rewrite (nfree_alloc s s1 ds a) by (done || apply Hs1 || lia). rewrite decide_True by done.
      change (nfree (put_ip s1 i ip')) with (nfree s1). lia.
  - exists s, ip, bl, n. split; [done|]. split; [done|]. split; [by rewrite list_insert_id|].
    split; [by apply grows_refl|]. do 3 (split; [done|]).
    split; [done|]. rewrite decide_False by done. split; lia.
Qed.

(** The second half: the entry [j] of the indirect block. *)
Definition entry_code (ip : inode) (j : nat) (bp : nat) : M fstate Z :=
  b ← on_log (on_cache (get_buf bp));
  let a := get_uint (bdata b) (4 * j) in
  a ← (if a =? 0 then
         a ← balloc (idev ip);
         b ← on_log (on_cache (get_buf bp));
         on_log (on_cache (set_data bp (put_int (bdata b) (4 * j) a))) ;;
         on_log (log_write bp) ;;
         mret a
       else mret a);
  on_log (on_cache (brelse bp)) ;;
  mret a.

Lemma fget_buf_ok s i b : bufs (fcache s) !! i = Some b -> on_log (on_cache (get_buf i)) s = Ok (b, s).
Proof.
  intros Hb. unfold on_log, on_cache. fold (fcache s). rewrite (get_buf_ok _ _ _ Hb).
  by destruct s as [[] ? ? ?].
Qed.

(** The entry is missing: a block is allocated and entered. *)
Lemma entry_alloc_run s s1 bl ip bp fl d0 j n :
  layout s ds -> bitmap_in s -> fits ds O bl n -> (length O + n + 4 <= 28)%nat ->
  file_wf s ds ip -> ind ip <> 0 -> get_uint d0 (4 * j) = 0 -> (0 < nfree s)%nat ->
  txn s1 bl [bp] -> same s s1 [] -> same_view s s1 ->
  bufs (fcache s1) !! bp = Some (mkBuf fl 1 (ind ip) 1 1 d0) ->
  exists a s2 s', entry_code ip j bp s1 = Ok (a, s')
  /\ ds <= a < sb_size (sb s) /\ allocated s a = false /\ allocates s s2 a
  /\ same s s2 [] /\ same s2 s' []
  /\ txn s' (absorbed (absorbed (absorbed bl (BBLOCK a (sb s))) a) (ind ip)) []
  /\ forall m, 0 <= m -> fview s' m = if m =? ind ip then Some (put_int d0 (4 * j) a) else fview s2 m.
Proof.
  intros Hly HO Hf Hcap Hwf H0 He Hfree Ht1 Hs1 Hv1 Hb1.
  destruct (fw_ind _ _ _ Hwf H0) as [Hir Hia]. pose proof (sm_sb _ _ _ Hs1) as Esb1.
  pose proof (fits_length ds O bl n (tx_nodup _ _ _ Ht1) Hf) as Hlen.
  destruct (nfree_some s) as (b0 & Hb0 & Hb0f); [lia|].
  assert (layout s1 ds) as Hly1 by (apply (layout_same s s1 ds []); try done; lia).
  unfold entry_code. rewrite (bind_ok _ _ _ _ _ (fget_buf_ok _ _ _ Hb1)). cbn zeta. cbn [bdata].
  rewrite He. cbn [Z.eqb]. rewrite (fw_dev _ _ _ Hwf).
  destruct (balloc_spec s1 bl [bp] ds b0 Ht1 Hly1 ltac:(lia)) as (a & s2 & E2 & Ha & Haf & Hal & Ht2 & Hs2).
  { intros i b ->%list_elem_of_singleton Hb. rewrite Hb1 in Hb. injection Hb as <-. cbn. rewrite Esb1.
    split; [done|]. rewrite (allocated_same s s1 ds []) by (done || lia). done. }
  { cbn. lia. }
  { by rewrite Esb1. }
  { rewrite (allocated_same s s1 ds []) by (done || lia). done. }
  rewrite Esb1 in Ha, Ht2. rewrite (allocated_same s s1 ds []) in Haf by (done || lia).
  apply (allocates_same s s1) in Hal; [|done..|apply (BBLOCK_nonneg s ds); [done|lia]].
  assert (same s s2 []) as Hs02.
  { eapply same_trans; [exact Hs1|]. destruct Hs2. split; try done. intros i Hi. by apply elem_of_nil in Hi. }
  assert (bufs (fcache s2) !! bp = Some (mkBuf fl 1 (ind ip) 1 1 d0)) as Hb2.
  { rewrite (sm_bufs _ _ _ Hs2) by (by apply list_elem_of_singleton). done. }
  set (bl2 := absorbed (absorbed bl (BBLOCK a (sb s))) a) in *.
  assert (fits ds O bl2 (S n)) as Hf2 by (by apply fits_balloc).
  pose proof (fits_length ds O bl2 (S n) (tx_nodup _ _ _ Ht2) Hf2) as Hlen2.
  destruct (txn_write s2 bl2 [bp] bp (mkBuf fl 1 (ind ip) 1 1 d0) (put_int d0 (4 * j) a) Ht2)
    as (s3 & E3 & E4 & Ht3 & Hs3 & Hb3 & Hv3); [by apply list_elem_of_singleton|exact Hb2| |lia|].
  { cbn [blockno]. apply (same_home s s2 []); [done|]. by eapply data_home. }
  cbn [blockno] in *.
  destruct (txn_brelse s3 _ [] bp _ Ht3 Hb3) as (s4 & E5 & Ht4 & Hs4 & Hv4); [by left|].
  exists a, s2, s4. split; [|split; [done|split; [done|split; [done|split; [done|split; [|split; [done|]]]]]]].
  - rewrite (bind_ok _ _ s1 a s3); [by rewrite (bind_ok _ _ _ _ _ E5)|].
    rewrite (bind_ok _ _ _ _ _ E2), (bind_ok _ _ _ _ _ (fget_buf_ok _ _ _ Hb2)). cbn [bdata].
    by rewrite (bind_ok _ _ _ _ _ E3), (bind_ok _ _ _ _ _ E4).
  - eapply same_trans; [|exact Hs4]. apply Hs3. intros i Hi. by apply elem_of_nil in Hi.
  - intros m Hm. rewrite Hv4. by apply Hv3.
Qed.

Lemma fits_entry bl n a ip : fits ds O bl n -> (ind ip ∈ bl -> ind ip ∈ a) -> ds <= ind ip ->
  fits ds O a (S n) -> 
  exists n', fits ds O (absorbed a (ind ip)) n'
  /\ (n' + slack ip (absorbed a (ind ip)) <= n + slack ip bl + 1)%nat.
Proof.
  intros Hf Hsub Hi Ha. unfold slack at 1. rewrite decide_True by (split; [lia|apply absorbed_in]).
  unfold slack. destruct (decide _) as [[_ Hin]|_].
  - exists (S n). rewrite absorbed_old by auto. split; [done|lia].
  - exists (S (S n)). split; [by apply fits_data|lia].
Qed.

Lemma entry_alloc s s1 bl ip bp fl d0 j n :
  layout s ds -> bitmap_in s -> fits ds O bl n -> (length O + n + 4 <= 28)%nat ->
  file_wf s ds ip -> ind ip <> 0 -> (j < 128)%nat -> sb_size (sb s) < 2 ^ 32 ->
  fview s (ind ip) = Some d0 -> get_uint d0 (4 * j) = 0 -> (0 < nfree s)%nat ->
  txn s1 bl [bp] -> same s s1 [] -> same_view s s1 ->
  bufs (fcache s1) !! bp = Some (mkBuf fl 1 (ind ip) 1 1 d0) ->
  exists a s' bl' n', entry_code ip j bp s1 = Ok (a, s') /\ txn s' bl' []
  /\ inodes s' = inodes s /\ bmapped s s' ip ip (NDIRECT + Z.of_nat j) a /\ fits ds O bl' n'
  /\ (n' + slack ip bl' + pending_data a bl' <= n + slack ip bl + 1)%nat
  /\ (nfree s <= nfree s' + 1)%nat.
Proof.
  intros Hly HO Hf Hcap Hwf H0 Hj Hsz Hd0 He Hfree Ht1 Hs1 Hv1 Hb1.
  destruct (fw_ind _ _ _ Hwf H0) as [Hir Hia].
  destruct (entry_alloc_run s s1 bl ip bp fl d0 j n) as (a & s2 & s' & E & Ha & Haf & Hal & Hs2 & Hs' & Ht' & Hv');
    try done.
  assert (ext s s2) as Hx2 by (by eapply same_ext). assert (ext s2 s') as Hx' by (by eapply same_ext).
  destruct (wf_entry s s2 s' ip j a d0) as (Hg & Hb & Hoth); try done. cbn zeta in *.
  set (bl2 := absorbed (absorbed bl (BBLOCK a (sb s))) a) in *.
  destruct (fits_entry bl n bl2 ip) as (n' & Hf' & Hw); [done| |lia|by apply fits_balloc|].
  { intros Hin. by apply absorbed_sub, absorbed_sub. }
  exists a, s', (absorbed bl2 (ind ip)), n'. split; [done|]. split; [done|].
  split; [by rewrite (sm_inodes _ _ _ Hs'), (sm_inodes _ _ _ Hs2)|]. split; [|split; [done|split]].
  - assert (a <> ind ip) as Hne by (intros ->; congruence).
    assert (blk s ip (NDIRECT + Z.of_nat j) = 0) as Hz.
    { rewrite blk_indirect by (unfold NDIRECT; lia). unfold ind_entry.
      rewrite (proj2 (Z.eqb_neq _ _)), Hd0 by done. rewrite <- He. do 2 f_equal. unfold NDIRECT. lia. }
    split; try done; [lia|]. left. split; [done|split; [done|]]. rewrite Hv' by lia.
    rewrite (proj2 (Z.eqb_neq _ _)) by done. apply Hal.
  - unfold pending_data. rewrite decide_True by (apply absorbed_sub, absorbed_in). lia.
  - rewrite (nfree_alloc s s2 ds a) by (done || apply Hs2 || lia).
    rewrite (nfree_entry s2 s' (ind ip) (put_int d0 (4 * j) a)); [lia|by eapply layout_alloc|apply Hs'|lia|done].
Qed.

(** The second half of the indirect case. *)
Lemma bmap_entry s bl ip j n :
  txn s bl [] -> layout s ds -> bitmap_in s -> fits ds O bl n -> (length O + n + 4 <= 28)%nat ->
  file_wf s ds ip -> ind ip <> 0 -> (j < 128)%nat -> sb_size (sb s) < 2 ^ 32 ->
  blk s ip (NDIRECT + Z.of_nat j) <> 0 \/ (0 < nfree s)%nat ->
  exists a s' bl' n', (bp ← on_log (on_cache (bread (idev ip) (ind ip))); entry_code ip j bp) s = Ok (a, s')
  /\ txn s' bl' [] /\ inodes s' = inodes s /\ bmapped s s' ip ip (NDIRECT + Z.of_nat j) a
  /\ fits ds O bl' n'
  /\ (n' + slack ip bl' + pending_data a bl' <= n + slack ip bl + 1)%nat
  /\ (nfree s <= nfree s' + if decide (blk s ip (NDIRECT + Z.of_nat j) = 0)%Z then 1 else 0)%nat.
Proof.
  intros Ht Hly HO Hf Hcap Hwf H0 Hj Hsz Hfree.
  destruct (fw_ind _ _ _ Hwf H0) as [Hir Hia]. pose proof (ly_size _ _ Hly).
  pose proof (fits_length ds O bl n (tx_nodup _ _ _ Ht) Hf) as Hlen.
  destruct (txn_bread s bl [] (ind ip) Ht ltac:(lia) (not_held_nil _ _))
    as (bp & fl & d0 & E1 & Hd0 & _ & Ht1 & Hs1 & Hv1 & Hb1 & Hf1); [unfold NBUF; cbn; lia|]. cbn zeta in *.
  rewrite (fw_dev _ _ _ Hwf), (bind_ok _ _ _ _ _ E1).
  set (s1 := with_cache s _ _) in *.
  assert (same_view s s1) as Hsv by (intros m _; apply Hv1).
  assert (blk s ip (NDIRECT + Z.of_nat j) = get_uint d0 (4 * j)) as Eb.
  { rewrite blk_indirect by (unfold NDIRECT; lia). unfold ind_entry.
    rewrite (proj2 (Z.eqb_neq _ _)), Hd0 by done. do 2 f_equal. unfold NDIRECT. lia. }
  destruct (Z.eqb_spec (get_uint d0 (4 * j)) 0) as [He|He].
  - rewrite decide_True by congruence.
    apply (entry_alloc s s1 bl ip bp fl d0 j n); try done. destruct Hfree; [congruence|done].
  - unfold entry_code. rewrite (bind_ok _ _ _ _ _ (fget_buf_ok _ _ _ Hb1)). cbn zeta. cbn [bdata].
    rewrite (proj2 (Z.eqb_neq _ _)) by done. rewrite (bind_ok (mret _) _ _ _ _ eq_refl).
    destruct (txn_brelse s1 bl [] bp _ Ht1 Hb1) as (s2 & E2 & Ht2 & Hs2 & Hv2); [cbn; tauto|].
    rewrite (bind_ok _ _ _ _ _ E2). exists (get_uint d0 (4 * j)), s2, bl, n.
    assert (same s s2 []) as Hs02 by (by eapply same_trans).
    assert (same_view s s2) as Hsv2 by (intros m Hm; rewrite Hv2; by apply Hsv).
    split; [done|]. split; [done|]. split; [by rewrite (sm_inodes _ _ _ Hs02)|].
    split; [|split; [done|split]].
    + rewrite <- Eb. apply bmapped_there; try done; [by eapply same_ext| |by rewrite Eb].
      change MAXFILE with 140. unfold NDIRECT. lia.
    + unfold pending_data. destruct (decide _); lia.
    + rewrite (nfree_same s s2 []) by done. lia.
Qed.

(** The blocks [bmap] may have to allocate for block [k]. *)
Definition need (s : fstate) (ip : inode) (k : Z) : nat :=
  (if decide (blk s ip k = 0)%Z then 1 else 0)
  + (if decide (NDIRECT <= k /\ ind ip = 0)%Z then 1 else 0).

Lemma bm_range s s' ip ip' k a : 0 <= k < MAXFILE -> bmapped s s' ip ip' k a ->
  data_block s' ds a /\ a <> ind ip'.
Proof.
  intros Hk [G <- N _ _ _]. by apply (fw_blk _ _ _ (gr_wf _ _ _ _ _ G)).
Qed.

Lemma bmapped_after s s1 s' ip ip1 ip' k a :
  grows s s1 ds ip ip1 -> (blk s ip k <> 0 -> ip1 = ip) ->
  (forall k, 0 <= k < MAXFILE -> blk s1 ip1 k = blk s ip k) -> file_wf s ds ip -> 0 <= k < MAXFILE ->
  bmapped s1 s' ip1 ip' k a -> bmapped s s' ip ip' k a.
Proof.
  intros Hg Hkeep Hblk Hwf Hk Hb. pose proof Hb as [G A N Keep Oth New]. split; try done.
  - by eapply grows_trans.
  - intros H0. rewrite Keep by (by rewrite Hblk). by apply Hkeep.
  - intros k' Hk' Hne. rewrite Oth by done. by apply Hblk.
  - rewrite Hblk in New by done. destruct New as [(H0 & Hf & Hz)|(E & Hv)]; [left|right].
    + split; [done|split; [|done]]. destruct (allocated s a) eqn:Ea; [|done].
      destruct (bm_range s1 s' ip1 ip' k a) as [[Ha _] _]; [done..|].
      rewrite (ex_sb _ _ (gr_ext _ _ _ _ _ G)), (ex_sb _ _ (gr_ext _ _ _ _ _ Hg)) in Ha.
      rewrite (gr_alloc _ _ _ _ _ Hg) in Hf; (done || lia).
    + split; [done|]. rewrite Hv. rewrite <- E in N |- *. destruct (fw_blk _ _ _ Hwf k Hk N) as [Hd Hne].
      by apply (gr_data _ _ _ _ _ Hg).
Qed.

(** [bmap]: block [k] of the file, allocated and zeroed when it was missing. *)
Lemma bmap_spec s bl i ip k n :
  txn s bl [] -> layout s ds -> bitmap_in s -> fits ds O bl n -> (length O + n + 5 <= 28)%nat ->
  inodes s !! i = Some ip -> file_wf s ds ip -> 0 <= k < MAXFILE -> sb_size (sb s) < 2 ^ 32 ->
  (need s ip k <= nfree s)%nat ->
  exists a s' ip' bl' n', bmap i k s = Ok (a, s') /\ txn s' bl' []
  /\ inodes s' = <[i := ip']> (inodes s) /\ bmapped s s' ip ip' k a /\ fits ds O bl' n'
  /\ (n' + slack ip' bl' + pending_data a bl' <= n + slack ip bl + 1)%nat
  /\ (nfree s <= nfree s' + need s ip k)%nat.
Proof.
  intros Ht Hly HO Hf Hcap Hi Hwf Hk Hsz Hfree. change MAXFILE with 140 in Hk.
  destruct (decide (k < NDIRECT)) as [Hd|Hd].
  - destruct (bmap_direct s bl i ip k n) as (a & s' & ip' & bl' & n' & E & Ht' & Hi' & Hb & Hf' & Hw & Hn);
      try done; [lia|lia|..].
    + destruct (decide (blk s ip k = 0)) as [E|]; [right|by left]. unfold need in Hfree.
      rewrite decide_True in Hfree by done. lia.
    + exists a, s', ip', bl', n'. do 6 (split; [done|]). unfold need. lia.
  - set (j := Z.to_nat (k - NDIRECT)). unfold NDIRECT in Hd.
    assert (NDIRECT + Z.of_nat j = k) as Ek by (unfold NDIRECT, j; change NDIRECT with 12; lia).
    destruct (bmap_ind s bl i ip n) as (s1 & ip1 & bl1 & n1 & E1 & Ht1 & Hi1 & Hg1 & Hn0 & Hkeep & Hblk & Hf1 & Hw1 & Hnf1);
      try done; [lia|..].
    { destruct (decide (ind ip = 0)) as [E|]; [right|by left]. unfold need in Hfree.
      rewrite (decide_True (P := NDIRECT <= k /\ ind ip = 0)) in Hfree by (unfold NDIRECT; lia). lia. }
    assert (sb s1 = sb s) as Esb by apply Hg1.
    assert (need s ip k = (if decide (blk s1 ip1 k = 0)%Z then 1 else 0) + (if decide (ind ip = 0)%Z then 1 else 0))%nat as En.
    { unfold need. rewrite Hblk by (change MAXFILE with 140; lia). f_equal.
      destruct (decide (ind ip = 0)), (decide (NDIRECT <= k /\ ind ip = 0)); unfold NDIRECT in *; (done || lia). }
    pose proof (slack_le1 ip bl).
    destruct (bmap_entry s1 bl1 ip1 j n1) as (a & s' & bl' & n' & E2 & Ht' & Hi' & Hb & Hf' & Hw & Hn);
      rewrite ?Esb, ?Ek in *; try done; try apply Hg1; [|lia|change NDIRECT with 12 in *; lia|..].
    { intros b. rewrite Esb. apply HO. }
    { destruct (decide (blk s1 ip1 k = 0)) as [E|]; [right|by left]. lia. }
    exists a, s', ip1, bl', n'. split; [|split; [done|split; [|split; [|split; [done|split]]]]].
    + unfold bmap. rewrite (bind_ok _ _ _ _ _ (get_ip_ok i ip s Hi)).
      rewrite (proj2 (Z.ltb_ge k NDIRECT)) by (unfold NDIRECT; lia). cbn zeta.
      replace (k - NDIRECT <? NINDIRECT) with true by (change NDIRECT with 12; change NINDIRECT with 128; lia).
      change (nth (Z.to_nat NDIRECT) (addrs ip) 0) with (ind ip).
      rewrite (bind_ok _ _ _ _ _ E1). fold j.
      assert (idev ip = idev ip1) as -> by (by rewrite (gr_ip _ _ _ _ _ Hg1)). exact E2.
    + by rewrite Hi', Hi1.
    + apply (bmapped_after s s1 s' ip ip1 ip1); try done.
      intros H0. apply Hkeep. intros Hi0. apply H0. rewrite blk_indirect by (unfold NDIRECT; lia).
      unfold ind_entry. by rewrite Hi0.
    + lia.
    + lia.
Qed.
End Files.
