(* ===== verification/FsContents.v ===== *)
(** [readi] and [writei] of src/fs.c against byte lists: reading gives a slice of
    the file's bytes, writing replaces one, and neither touches other files. *)
From stdpp Require Import base strings numbers list sets.
From S2P Require Import Prelude CString Bio Log Fs FsInode FsTxn FsAlloc FsFile.
Local Open Scope Z_scope.

(** * Reading *)

Lemma byte_same s s' ip ds j : layout s ds -> 0 < ds -> file_wf s ds ip -> same_view s s' ->
  0 <= j < isize ip -> byte s' ip j = byte s ip j.
Proof.
  intros Hly Hds Hwf Hv Hj. pose proof (fw_size _ _ _ Hwf) as Hsz. change BSIZE with 512 in *.
  assert (0 <= j / 512 < MAXFILE) as Hk by (change MAXFILE with 140 in *; Z.div_mod_to_equations; lia).
  assert (blk s' ip (j / 512) = blk s ip (j / 512)) as E.
  { unfold blk. destruct (_ <? _); [done|]. apply ind_entry_view; [done|].
    intros Hi. apply Hv. destruct (fw_ind _ _ _ Hwf Hi). lia. }
  unfold byte. change BSIZE with 512. rewrite E, Hv; [done|].
  destruct (fw_blk _ _ _ Hwf _ Hk) as [[? _] _]; [|lia].
  apply (fw_cover _ _ _ Hwf); change BSIZE with 512; [lia|]. Z.div_mod_to_equations. lia.
Qed.

Section Reading.
Context (ds : Z) (o : Z).
Hypothesis Hds : 0 < ds.

(** [bmap] of a block that is there changes nothing. *)
Lemma bmap_there s bl i ip k :
  txn_at o s bl [] -> layout s ds -> (length bl < 28)%nat ->
  inodes s !! i = Some ip -> file_wf s ds ip -> 0 <= k < MAXFILE -> blk s ip k <> 0 ->
  exists s', bmap i k s = Ok (blk s ip k, s') /\ txn_at o s' bl [] /\ same s s' [] /\ same_view s s'.
Proof.
  intros Ht Hly Hlen Hi Hwf Hk H0. change MAXFILE with 140 in Hk. pose proof (ly_size _ _ Hly).
  unfold bmap. rewrite (bind_ok _ _ _ _ _ (get_ip_ok i ip s Hi)).
  destruct (Z.ltb_spec k NDIRECT) as [Hd|Hd]; cbn zeta.
  - rewrite <- (blk_direct s ip k) by done. rewrite (proj2 (Z.eqb_neq _ _)) by done.
    exists s. split; [done|]. split; [done|]. split; [apply same_refl|done].
  - replace (k - NDIRECT <? NINDIRECT) with true by (change NDIRECT with 12; change NINDIRECT with 128; lia).
    change (nth (Z.to_nat NDIRECT) (addrs ip) 0) with (ind ip).
    rewrite blk_indirect in * by done. unfold ind_entry in *.
    destruct (Z.eqb_spec (ind ip) 0) as [|Hi0]; [done|].
    destruct (fw_ind _ _ _ Hwf Hi0) as [Hir _]. rewrite (bind_ok (mret _) _ _ _ _ eq_refl).
    destruct (txn_bread s bl [] (ind ip) Ht ltac:(lia) (not_held_nil _ _))
      as (bp & fl & d0 & E1 & Hd0 & _ & Ht1 & Hs1 & Hv1 & Hb1 & Hf1); [unfold NBUF; cbn; lia|]. cbn zeta in *.
    rewrite (fw_dev _ _ _ Hwf), (bind_ok _ _ _ _ _ E1), (bind_ok _ _ _ _ _ (fget_buf_ok _ _ _ Hb1)).
    cbn [bdata]. rewrite Hd0 in *. rewrite (proj2 (Z.eqb_neq _ _)) by done.
    rewrite (bind_ok (mret _) _ _ _ _ eq_refl). set (s1 := with_cache s _ _) in *.
    destruct (txn_brelse s1 bl [] bp _ Ht1 Hb1) as (s2 & E2 & Ht2 & Hs2 & Hv2); [cbn; tauto|].
    rewrite (bind_ok _ _ _ _ _ E2). exists s2. split; [done|]. split; [done|].
    split; [by eapply same_trans|]. intros m Hm. by rewrite Hv2.
Qed.

(** Part of a block is a slice of the file. *)
Lemma chunk_bytes s ip d off m :
  0 <= off -> 0 <= m <= BSIZE - off mod BSIZE -> fview s (blk s ip (off / BSIZE)) = Some d ->
  length d = 512%nat ->
  take (Z.to_nat m) (drop (Z.to_nat (off mod BSIZE)) d) = byte s ip <$> seqZ off m.
Proof.
  intros Hoff Hm Hd Hlen. change BSIZE with 512 in *. apply list_eq. intros j.
  rewrite list_lookup_fmap. destruct (decide (j < Z.to_nat m)%nat) as [Hj|Hj].
  - rewrite lookup_take_lt, lookup_drop, lookup_seqZ_lt by lia. cbn [fmap option_fmap option_map].
    unfold byte. change BSIZE with 512.
    assert ((off + Z.of_nat j) / 512 = off / 512 /\ (off + Z.of_nat j) mod 512 = off mod 512 + Z.of_nat j)
      as [-> ->] by (Z.div_mod_to_equations; lia).
    rewrite Hd, nth_lookup. pose proof (Z.mod_pos_bound off 512).
    replace (Z.to_nat (off mod 512 + Z.of_nat j)) with (Z.to_nat (off mod 512) + j)%nat by lia.
    destruct (lookup_lt_is_Some_2 d (Z.to_nat (off mod 512) + j)) as [v ->]; [lia|done].
  - rewrite lookup_take_ge, lookup_seqZ_ge by lia. done.
Qed.

Lemma readi_loop_spec fuel : forall s bl i ip off n,
  txn_at o s bl [] -> layout s ds -> (length bl < 28)%nat ->
  inodes s !! i = Some ip -> file_wf s ds ip -> 0 <= off -> off + n <= isize ip ->
  n <= Z.of_nat fuel ->
  exists s', readi_loop fuel i off n s = Ok (byte s ip <$> seqZ off n, s')
  /\ txn_at o s' bl [] /\ same s s' [] /\ same_view s s'.
Proof.
  induction fuel as [|fuel IH]; intros s bl i ip off n Ht Hly Hlen Hi Hwf Hoff Hn Hfuel;
    cbn [readi_loop]; destruct (Z.leb_spec n 0) as [Hn0|Hn0]; try lia.
  1, 2: exists s; rewrite seqZ_nil by lia; (split; [done|split; [done|split; [apply same_refl|done]]]).
  pose proof (fw_size _ _ _ Hwf) as Hsz. pose proof (ly_size _ _ Hly). change BSIZE with 512 in *.
  assert (0 <= off / 512 < MAXFILE) as Hk by (change MAXFILE with 140 in *; Z.div_mod_to_equations; lia).
  assert (blk s ip (off / 512) <> 0) as H0.
  { apply (fw_cover _ _ _ Hwf); change BSIZE with 512; [lia|]. Z.div_mod_to_equations. lia. }
  destruct (fw_blk _ _ _ Hwf _ Hk H0) as [[Hb _] _].
  rewrite (bind_ok _ _ _ _ _ (get_ip_ok i ip s Hi)).
  destruct (bmap_there s bl i ip (off / 512)) as (s1 & E1 & Ht1 & Hs1 & Hv1); try done.
  rewrite (bind_ok _ _ _ _ _ E1). cbn zeta. rewrite (fw_dev _ _ _ Hwf).
  set (m := Z.min n (512 - off mod 512)). pose proof (Z.mod_pos_bound off 512).
  assert (nblk s1 = nblk s) as En by (unfold nblk; by rewrite (sm_disk _ _ _ Hs1)).
  destruct (fview_some s1 bl [] (blk s ip (off / 512)) Ht1) as [d Hd]; [lia|].
  destruct (read_block_txn s1 bl (blk s ip (off / 512))
              (fun d => take (Z.to_nat m) (drop (Z.to_nat (off mod 512)) d)) d Ht1) as (s2 & E2 & Ht2 & Hs2 & Hv2);
    [lia|unfold NBUF; lia|done|].
  rewrite (bind_ok _ _ _ _ _ E2). rewrite Hv1 in Hd by lia.
  assert (same s s2 []) as Hs02 by (by eapply same_trans).
  assert (same_view s s2) as Hv02 by (intros x Hx; rewrite Hv2; by apply Hv1).
  assert (file_wf s2 ds ip) as Hwf2.
  { eapply gr_wf, (bm_grows ds s s2 ip ip (off / 512)), bmapped_there; try done. by eapply same_ext. }
  destruct (IH s2 bl i ip (off + m) (n - m)) as (s' & E3 & Ht' & Hs' & Hv'); try done; try lia.
  { by apply (layout_same s s2 ds []); [lia|..]. }
  { by rewrite (sm_inodes _ _ _ Hs02). }
  rewrite (bind_ok _ _ _ _ _ E3). exists s'. split; [|split; [done|split; [by eapply same_trans|]]].
  - unfold mret, M_ret. do 2 f_equal.
    pose proof (chunk_bytes s ip d off m) as Hc. change BSIZE with 512 in Hc.
    rewrite Hc by (done || lia || (apply (ly_len _ _ Hly (blk s ip (off / 512))); (lia || done))).
    replace n with (m + (n - m)) at 2 by lia. rewrite seqZ_app by lia. rewrite fmap_app. f_equal.
    apply list_fmap_ext. intros j x Hx. apply lookup_seqZ in Hx. apply (byte_same s s2 ip ds); (done || lia).
  - intros x Hx. rewrite Hv' by done. by apply Hv02.
Qed.

Lemma slice_seqZ {A} (f : Z -> A) off n z : 0 <= off -> 0 <= n -> off + n <= z ->
  take (Z.to_nat n) (drop (Z.to_nat off) (f <$> seqZ 0 z)) = f <$> seqZ off n.
Proof.
  intros Hoff Hn Hz. apply list_eq. intros j. rewrite list_lookup_fmap.
  destruct (decide (j < Z.to_nat n)%nat) as [Hj|Hj].
  - rewrite lookup_take_lt, lookup_drop, list_lookup_fmap, !lookup_seqZ_lt by lia. cbn. do 2 f_equal. lia.
  - rewrite lookup_take_ge, lookup_seqZ_ge by lia. done.
Qed.

Lemma length_file_bytes s ip : length (file_bytes s ip) = Z.to_nat (isize ip).
Proof. unfold file_bytes. by rewrite length_fmap, length_seqZ. Qed.

(** [readi] on any 32-bit offset and count. *)
Lemma readi_spec s bl i ip off n :
  txn_at o s bl [] -> layout s ds -> (length bl < 28)%nat ->
  inodes s !! i = Some ip -> file_wf s ds ip -> 0 <= off < 2 ^ 32 -> 0 <= n < 2 ^ 32 ->
  exists s', readi i off n s
    = Ok (if (isize ip <? off) || (2 ^ 32 <=? off + n) then None
          else Some (take (Z.to_nat n) (drop (Z.to_nat off) (file_bytes s ip))), s')
  /\ txn_at o s' bl [] /\ same s s' [] /\ same_view s s'.
Proof.
  intros Ht Hly Hlen Hi Hwf Hoff Hn. unfold readi. rewrite (bind_ok _ _ _ _ _ (get_ip_ok i ip s Hi)).
  pose proof (fw_size _ _ _ Hwf) as Hsz. change BSIZE with 512 in *. change MAXFILE with 140 in *.
  assert (u32 (off + n) = if 2 ^ 32 <=? off + n then off + n - 2 ^ 32 else off + n) as Eu.
  { unfold u32. destruct (Z.leb_spec (2 ^ 32) (off + n)); Z.div_mod_to_equations; lia. }
  replace ((isize ip <? off) || (u32 (off + n) <? off)) with ((isize ip <? off) || (2 ^ 32 <=? off + n))
    by (rewrite Eu; destruct (2 ^ 32 <=? off + n) eqn:E2; lia).
  destruct ((isize ip <? off) || (2 ^ 32 <=? off + n)) eqn:Eb.
  { exists s. split; [done|]. split; [done|]. split; [apply same_refl|done]. }
  apply orb_false_iff in Eb as [Eb1 Eb2]. rewrite Eb2 in Eu. rewrite Eu. cbn zeta.
  set (n' := if isize ip <? off + n then isize ip - off else n).
  assert (0 <= n' /\ off + n' <= isize ip) as Hn' by (subst n'; destruct (Z.ltb_spec (isize ip) (off + n)); lia).
  destruct (readi_loop_spec (Z.to_nat n') s bl i ip off n') as (s' & E & H'); try done; [lia..|].
  rewrite (bind_ok _ _ _ _ _ E). exists s'. split; [|done]. unfold mret, M_ret. do 3 f_equal.
  rewrite <- (slice_seqZ (byte s ip) off n' (isize ip)) by lia. fold (file_bytes s ip).
  subst n'. destruct (Z.ltb_spec (isize ip) (off + n)); [|done].
  rewrite !take_ge; [done|rewrite length_drop, length_file_bytes; lia..].
Qed.
End Reading.

(** * Writing *)

Section Writing.
Context (ds : Z) (O : list Z).
Hypothesis Hds : 0 < ds.

Notation off_end off src := (off + Z.of_nat (length src)).

(** The bytes [src] are in the file from [off] on; the other bytes, the blocks of
    other files and the metadata other than the bitmap are as before. *)
Record writes (s s' : fstate) (ip ip' : inode) (off : Z) (src : list Z) : Prop := {
  wr_ext : ext s s';
  wr_ip : ip' = set_addrs ip (addrs ip');
  wr_wf : file_wf s' ds ip';
  wr_layout : layout s' ds;
  wr_ind : ind ip' = ind ip \/ allocated s (ind ip') = false;
  wr_blk : forall k, 0 <= k < MAXFILE ->
    blk s' ip' k = blk s ip k \/ blk s ip k = 0 /\ allocated s (blk s' ip' k) = false;
  wr_there : forall j, off <= j < off_end off src -> blk s' ip' (j / BSIZE) <> 0;
  wr_new : forall j, off <= j < off_end off src -> byte s' ip' j = nth (Z.to_nat (j - off)) src 0;
  wr_old : forall j, 0 <= j < MAXFILE * BSIZE -> blk s ip (j / BSIZE) <> 0 ->
    ~ (off <= j < off_end off src) -> byte s' ip' j = byte s ip j;
  wr_frame : forall b, data_block s ds b -> b <> ind ip ->
    (forall k, 0 <= k < MAXFILE -> blk s ip k <> b) -> fview s' b = fview s b;
  wr_alloc : forall b, 0 <= b < sb_size (sb s) -> allocated s b = true -> allocated s' b = true;
  wr_meta : forall m, 0 <= m < ds -> (forall b, 0 <= b < sb_size (sb s) -> m <> BBLOCK b (sb s)) ->
    fview s' m = fview s m;
  wr_keep : (forall j, off <= j < off_end off src -> blk s ip (j / BSIZE) <> 0) -> ip' = ip }.

Lemma writes_nil s ip off : layout s ds -> file_wf s ds ip -> writes s s ip ip off [].
Proof.
  intros Hly Hwf. split; try done; cbn [length]; try (intros; lia).
  by destruct ip.
Qed.

(** A block that was free and is now in use by the file is none of the old ones. *)
Lemma fresh_mono s s1 b : layout s ds -> layout s1 ds -> ext s s1 ->
  (forall b, 0 <= b < sb_size (sb s) -> allocated s b = true -> allocated s1 b = true) ->
  b = 0 \/ ds <= b < sb_size (sb s) -> allocated s1 b = false -> allocated s b = false.
Proof.
  intros Hly Hly1 Hx Hal Hb Hf. destruct (allocated s b) eqn:E; [|done].
  pose proof (ly_size _ _ Hly). rewrite Hal in Hf; [done|lia|done].
Qed.

Lemma blk_index j : 0 <= j < MAXFILE * BSIZE -> 0 <= j / BSIZE < MAXFILE.
Proof. intros Hj. change BSIZE with 512 in *. change MAXFILE with 140 in *. Z.div_mod_to_equations. lia. Qed.

Lemma writes_blk s s' ip ip' off src k : writes s s' ip ip' off src -> 0 <= k < MAXFILE ->
  blk s ip k <> 0 -> blk s' ip' k = blk s ip k.
Proof. intros W Hk H0. destruct (wr_blk _ _ _ _ _ _ W k Hk) as [->|[? _]]; done. Qed.

(** The blocks of the file after two writes. *)
Lemma writes_blocks s s1 s' ip ip1 ip' off1 off2 src1 src2 :
  layout s ds -> writes s s1 ip ip1 off1 src1 -> writes s1 s' ip1 ip' off2 src2 ->
  (ind ip' = ind ip \/ allocated s (ind ip') = false)
  /\ forall k, 0 <= k < MAXFILE ->
     blk s' ip' k = blk s ip k \/ blk s ip k = 0 /\ allocated s (blk s' ip' k) = false.
Proof.
  intros Hly W1 W2.
  assert (sb s1 = sb s) as Esb by apply W1. assert (sb s' = sb s1) as Esb' by apply W2.
  assert (forall b, b = 0 \/ ds <= b < sb_size (sb s) -> allocated s1 b = false -> allocated s b = false) as Hfr.
  { intros b. apply fresh_mono; try done; apply W1. }
  split.
  - destruct (wr_ind _ _ _ _ _ _ W2) as [->|Hf]; [apply W1|]. right. apply Hfr; [|done].
    destruct (decide (ind ip' = 0)) as [|H0]; [by left|right].
    destruct (fw_ind _ _ _ (wr_wf _ _ _ _ _ _ W2) H0) as [Hr _]. by rewrite Esb', Esb in Hr.
  - intros k Hk. destruct (wr_blk _ _ _ _ _ _ W2 k Hk) as [->|[H0 Hf]]; [by apply W1|].
    destruct (wr_blk _ _ _ _ _ _ W1 k Hk) as [E|[H01 Hf1]].
    + right. split; [congruence|]. apply Hfr; [|done].
      destruct (decide (blk s' ip' k = 0)) as [|Hb0]; [by left|right].
      destruct (fw_blk _ _ _ (wr_wf _ _ _ _ _ _ W2) k Hk Hb0) as [[Hr _] _]. by rewrite Esb', Esb in Hr.
    + rewrite H0 in Hf1. rewrite (ly_meta _ _ Hly) in Hf1 by lia. done.
Qed.

(** One write after another is a write of both. *)
Lemma writes_trans s s1 s' ip ip1 ip' off src1 src2 :
  layout s ds -> 0 <= off -> off_end off (src1 ++ src2) <= MAXFILE * BSIZE ->
  writes s s1 ip ip1 off src1 -> writes s1 s' ip1 ip' (off_end off src1) src2 ->
  writes s s' ip ip' off (src1 ++ src2).
Proof.
  intros Hly Hoff Hmax W1 W2. rewrite length_app in Hmax.
  destruct (writes_blocks _ _ _ _ _ _ _ _ _ _ Hly W1 W2) as [Hind Hblk].
  assert (sb s1 = sb s) as Esb by apply W1. assert (ext s s1) as Hx1 by apply W1.
  assert (forall j, off <= j < off_end off src1 -> blk s1 ip1 (j / BSIZE) <> 0 /\ 0 <= j / BSIZE < MAXFILE) as Hin.
  { intros j Hj. split; [by apply (wr_there _ _ _ _ _ _ W1)|apply blk_index; lia]. }
  split; try done; rewrite ?length_app.
  - by eapply ext_trans; [apply W1|apply W2].
  - rewrite (wr_ip _ _ _ _ _ _ W2), (wr_ip _ _ _ _ _ _ W1). done.
  - apply W2.
  - apply W2.
  - intros j Hj. destruct (decide (j < off_end off src1)) as [Hlt|]; [|apply (wr_there _ _ _ _ _ _ W2); lia].
    destruct (Hin j) as [H0 Hk]; [lia|]. by rewrite (writes_blk _ _ _ _ _ _ _ W2).
  - intros j Hj. destruct (decide (j < off_end off src1)) as [Hlt|].
    + destruct (Hin j) as [H0 Hk]; [lia|]. rewrite (wr_old _ _ _ _ _ _ W2) by (done || lia).
      rewrite (wr_new _ _ _ _ _ _ W1), app_nth1 by lia. done.
    + rewrite (wr_new _ _ _ _ _ _ W2), app_nth2 by lia. f_equal. lia.
  - intros j Hj H0 Hout. assert (0 <= j / BSIZE < MAXFILE) as Hk by (by apply blk_index).
    rewrite (wr_old _ _ _ _ _ _ W2), (wr_old _ _ _ _ _ _ W1); try done; try lia.
    by rewrite (writes_blk _ _ _ _ _ _ _ W1).
  - intros b Hb Hi Hn. rewrite (wr_frame _ _ _ _ _ _ W2), (wr_frame _ _ _ _ _ _ W1); try done.
    + eapply data_block_mono; try done. apply W1.
    + destruct (wr_ind _ _ _ _ _ _ W1) as [->|Hf]; [done|]. intros ->. destruct Hb as [_ Hb]. congruence.
    + intros k Hk. destruct (wr_blk _ _ _ _ _ _ W1 k Hk) as [->|[_ Hf]]; [by apply Hn|].
      intros <-. destruct Hb as [_ Hb]. congruence.
  - intros b Hb Hb1. apply (wr_alloc _ _ _ _ _ _ W2); [by rewrite Esb|]. by apply (wr_alloc _ _ _ _ _ _ W1).
  - intros m Hm Hn. rewrite (wr_meta _ _ _ _ _ _ W2), (wr_meta _ _ _ _ _ _ W1); try done. by rewrite Esb.
  - intros Hall. rewrite (wr_keep _ _ _ _ _ _ W2); [apply (wr_keep _ _ _ _ _ _ W1)|].
    + intros j Hj. apply Hall. lia.
    + intros j Hj. rewrite (writes_blk _ _ _ _ _ _ _ W1); [apply Hall; lia|apply blk_index; lia|apply Hall; lia].
Qed.

Lemma nth_splice (d : block) p c x : (p + length c <= length d)%nat ->
  nth x (splice d p c) 0
  = if ((p <=? x) && (x <? p + length c))%nat then nth (x - p) c 0 else nth x d 0.
Proof.
  intros Hl. unfold splice.
  assert (length (take p d) = p) as Et by (rewrite length_take; lia).
  destruct (Nat.leb_spec p x) as [Hp|Hp]; cbn [andb]; [destruct (Nat.ltb_spec x (p + length c)) as [Hx|Hx]|].
  - rewrite app_nth2, Et, app_nth1 by lia. done.
  - rewrite app_nth2, Et, app_nth2, !nth_lookup, lookup_drop by lia. do 2 f_equal. lia.
  - rewrite app_nth1 by lia. rewrite !nth_lookup. by rewrite lookup_take_lt.
Qed.

Lemma length_splice (d : block) p c : (p + length c <= length d)%nat -> length (splice d p c) = length d.
Proof. intros Hl. unfold splice. rewrite !length_app, length_take, length_drop. lia. Qed.

Lemma bm_blk s s1 ip ip1 k a k' : bmapped ds s s1 ip ip1 k a -> 0 <= k' < MAXFILE ->
  blk s ip k' <> 0 -> blk s1 ip1 k' = blk s ip k'.
Proof.
  intros Hb Hk H0. destruct (decide (k' = k)) as [->|Hne]; [|by apply (bm_other _ _ _ _ _ _ _ Hb)].
  rewrite (bm_a _ _ _ _ _ _ _ Hb). destruct (bm_new _ _ _ _ _ _ _ Hb) as [[? _]|[? _]]; done.
Qed.

(** [bmap] keeps the bytes of the blocks that are there. *)
Lemma bm_bytes s s1 ip ip1 k a j : file_wf s ds ip -> bmapped ds s s1 ip ip1 k a ->
  0 <= j < MAXFILE * BSIZE -> blk s ip (j / BSIZE) <> 0 -> byte s1 ip1 j = byte s ip j.
Proof.
  intros Hwf Hb Hj H0. pose proof (blk_index j Hj) as Hk.
  unfold byte. rewrite (bm_blk _ _ _ _ _ _ _ Hb) by done. destruct (fw_blk _ _ _ Hwf _ Hk H0) as [Hd Hi].
  by rewrite (gr_data _ _ _ _ _ (bm_grows _ _ _ _ _ _ _ Hb)).
Qed.

(** Changing the data of a block that is neither in the bitmap nor the indirect
    block. *)
Lemma file_set_block s s' ip a d : file_wf s ds ip -> layout s ds -> ext s s' ->
  (forall b, 0 <= b < sb_size (sb s) -> a <> BBLOCK b (sb s)) -> (ind ip <> 0 -> a <> ind ip) ->
  length d = 512%nat ->
  (forall m, 0 <= m -> fview s' m = if m =? a then Some d else fview s m) ->
  file_wf s' ds ip /\ layout s' ds /\ (forall k, blk s' ip k = blk s ip k)
  /\ (forall b, 0 <= b < sb_size (sb s) -> allocated s' b = allocated s b).
Proof.
  intros Hwf Hly Hx Ha Hni Hlen Hv. pose proof (ly_size _ _ Hly).
  assert (forall b, 0 <= b < sb_size (sb s) -> allocated s' b = allocated s b) as Hal'.
  { intros b Hb. unfold allocated. rewrite (ex_sb _ _ Hx). destruct (ly_bmap _ _ Hly b Hb) as [H1 H2].
    unfold fhome, home in H2. rewrite Hv by lia. rewrite (proj2 (Z.eqb_neq _ _)); [done|].
    apply not_eq_sym. by apply Ha. }
  assert (forall k, blk s' ip k = blk s ip k) as Hblk.
  { intros k. unfold blk. destruct (_ <? _); [done|]. apply ind_entry_view; [done|]. intros Hi0.
    destruct (fw_ind _ _ _ Hwf Hi0). rewrite Hv by lia. rewrite (proj2 (Z.eqb_neq _ _)); [done|].
    apply not_eq_sym. by apply Hni. }
  assert (forall b, data_block s ds b -> data_block s' ds b) as Hdb.
  { intros b [H1 H2]. split; [by rewrite (ex_sb _ _ Hx)|]. by rewrite Hal' by lia. }
  split; [|split; [|done]].
  - destruct Hwf as [W1 W2 W3 W4 W5 W6 W7]. split; try done.
    + intros k Hk. rewrite Hblk. intros H0. destruct (W4 k Hk H0). auto.
    + auto.
    + intros k k' Hk Hk'. rewrite !Hblk. by apply W6.
    + intros k Hk. rewrite Hblk. by apply W7.
  - apply (layout_step s); [done..| |].
    + intros n d' Hn. rewrite Hv by done. destruct (n =? a); [by intros [= <-]|by apply (ly_len _ _ Hly)].
    + intros b Hb. by rewrite Hal' by lia.
Qed.

(** The bytes of a file after its block [k] has been changed. *)
Lemma byte_set_block s s' ip k a d j : file_wf s ds ip -> (forall k, blk s' ip k = blk s ip k) ->
  0 <= k < MAXFILE -> blk s ip k = a -> a <> 0 -> 0 <= j < MAXFILE * BSIZE -> blk s ip (j / BSIZE) <> 0 ->
  (forall m, 0 <= m -> fview s' m = if m =? a then Some d else fview s m) ->
  byte s' ip j = if j / BSIZE =? k then nth (Z.to_nat (j mod BSIZE)) d 0 else byte s ip j.
Proof.
  intros Hwf Hblk Hk Ha H0 Hj Hj0 Hv. pose proof (blk_index j Hj) as Hjk.
  destruct (fw_blk _ _ _ Hwf _ Hjk Hj0) as [[Hr _] _]. unfold byte. rewrite Hblk, Hv by lia.
  destruct (Z.eqb_spec (j / BSIZE) k) as [->|Hne]; [by rewrite Ha, Z.eqb_refl|].
  rewrite (proj2 (Z.eqb_neq _ _)); [done|]. intros E. apply Hne.
  apply (fw_inj _ _ _ Hwf); congruence.
Qed.

Lemma byte_splice s s' ip off c d j : file_wf s ds ip -> (forall k, blk s' ip k = blk s ip k) ->
  0 <= off -> off mod BSIZE + Z.of_nat (length c) <= BSIZE -> 0 <= off / BSIZE < MAXFILE ->
  blk s ip (off / BSIZE) <> 0 -> fview s (blk s ip (off / BSIZE)) = Some d -> length d = 512%nat ->
  (forall m, 0 <= m -> fview s' m = if m =? blk s ip (off / BSIZE)
     then Some (splice d (Z.to_nat (off mod BSIZE)) c) else fview s m) ->
  0 <= j < MAXFILE * BSIZE -> blk s ip (j / BSIZE) <> 0 ->
  byte s' ip j = if decide (off <= j < off_end off c) then nth (Z.to_nat (j - off)) c 0 else byte s ip j.
Proof.
  intros Hwf Hblk Hoff Hroom Hk H0 Hd Hlen Hv Hj Hj0.
  rewrite (byte_set_block s s' ip (off / BSIZE) _ _ j Hwf Hblk Hk eq_refl H0 Hj Hj0 Hv).
  assert (0 <= off mod BSIZE /\ 0 <= j mod BSIZE < BSIZE) as [Hom Hjm]
    by (change BSIZE with 512; pose proof (Z.mod_pos_bound off 512); pose proof (Z.mod_pos_bound j 512); lia).
  destruct (Z.eqb_spec (j / BSIZE) (off / BSIZE)) as [E|Hne].
  - assert (j mod BSIZE - off mod BSIZE = j - off) as Ej
      by (change BSIZE with 512 in *; Z.div_mod_to_equations; lia).
    rewrite nth_splice by (change BSIZE with 512 in *; lia).
    destruct (decide _) as [Hin|Hout].
    + rewrite (proj2 (Nat.leb_le _ _)), (proj2 (Nat.ltb_lt _ _)) by lia. cbn [andb]. f_equal. lia.
    + unfold byte. rewrite E, Hd. destruct (Nat.leb_spec (Z.to_nat (off mod BSIZE)) (Z.to_nat (j mod BSIZE)));
        [|done]. cbn [andb]. by rewrite (proj2 (Nat.ltb_ge _ _)) by lia.
  - rewrite decide_False; [done|]. intros Hin. apply Hne. change BSIZE with 512 in *.
    Z.div_mod_to_equations. lia.
Qed.

(** One turn of [writei]'s loop. *)
Lemma writes_step s s1 s' ip ip1 off c d :
  layout s ds -> file_wf s ds ip -> 0 <= off -> c <> [] ->
  off mod BSIZE + Z.of_nat (length c) <= BSIZE -> off_end off c <= MAXFILE * BSIZE ->
  bmapped ds s s1 ip ip1 (off / BSIZE) (blk s1 ip1 (off / BSIZE)) ->
  fview s1 (blk s1 ip1 (off / BSIZE)) = Some d -> ext s1 s' ->
  (forall m, 0 <= m -> fview s' m = if m =? blk s1 ip1 (off / BSIZE)
     then Some (splice d (Z.to_nat (off mod BSIZE)) c) else fview s1 m) ->
  writes s s' ip ip1 off c.
Proof.
  intros Hly Hwf Hoff Hc Hroom Hmax Hb Hd Hx Hv.
  assert (0 < Z.of_nat (length c)) as Hc0 by (destruct c; [done|cbn; lia]).
  assert (0 <= off / BSIZE < MAXFILE) as Hk by (apply blk_index; lia).
  set (k := off / BSIZE) in *. set (a := blk s1 ip1 k) in *. pose proof (bm_grows _ _ _ _ _ _ _ Hb) as G.
  destruct (bm_range ds s s1 ip ip1 k a Hk Hb) as [Hda Hai].
  assert (length d = 512%nat) as Hlen.
  { destruct Hda as [? _]. apply (ly_len _ _ (gr_layout _ _ _ _ _ G) a); [lia|done]. }
  assert (0 <= off mod BSIZE) as Hmod by (by apply Z.mod_pos_bound).
  assert (Z.to_nat (off mod BSIZE) + length c <= length d)%nat as Hfit
    by (change BSIZE with 512 in *; lia).
  destruct (file_set_block s1 s' ip1 a (splice d (Z.to_nat (off mod BSIZE)) c)) as (Hwf' & Hly' & Hblk & Hal);
    try done; try apply G; [|by rewrite length_splice|].
  { intros b Hb'. destruct Hda, (ly_bmap _ _ (gr_layout _ _ _ _ _ G) b Hb'). lia. }
  assert (forall j, off <= j < off_end off c -> j / BSIZE = k /\ j mod BSIZE = off mod BSIZE + (j - off)) as Hin.
  { intros j Hj. subst k. change BSIZE with 512 in *. Z.div_mod_to_equations. lia. }
  assert (forall j, 0 <= j < MAXFILE * BSIZE -> blk s1 ip1 (j / BSIZE) <> 0 -> byte s' ip1 j
    = if decide (off <= j < off_end off c) then nth (Z.to_nat (j - off)) c 0 else byte s1 ip1 j) as Hbyte.
  { intros j. apply (byte_splice s1 s' ip1 off c d j); try done; [apply G|apply (bm_ne _ _ _ _ _ _ _ Hb)]. }
  assert (forall j, off <= j < off_end off c -> blk s1 ip1 (j / BSIZE) <> 0) as Hthere.
  { intros j [-> _]%Hin. apply (bm_ne _ _ _ _ _ _ _ Hb). }
  assert (sb s1 = sb s) as Esb by apply G.
  split; try done.
  - eapply ext_trans; [apply G|done].
  - apply G.
  - apply G.
  - intros k' Hk'. rewrite Hblk. destruct (decide (k' = k)) as [->|Hne]; [|left; by apply (bm_other _ _ _ _ _ _ _ Hb)].
    fold a. destruct (bm_new _ _ _ _ _ _ _ Hb) as [(E & Hf & _)|[E _]]; [by right|by left].
  - intros j Hj. rewrite Hblk. by apply Hthere.
  - intros j Hj. rewrite Hbyte by (try lia; by apply Hthere). by rewrite decide_True.
  - intros j Hj H0 Hout. rewrite Hbyte; [rewrite decide_False by done|done|].
    + by apply (bm_bytes s s1 ip ip1 k a).
    + by rewrite (bm_blk _ _ _ _ _ _ _ Hb) by (done || by apply blk_index).
  - intros b Hbd Hbi Hbk. pose proof (gr_data _ _ _ _ _ G b Hbd Hbi) as E. destruct Hbd as [Hbr Hba].
    rewrite Hv by lia. rewrite (proj2 (Z.eqb_neq _ _)); [done|]. intros ->.
    destruct (bm_new _ _ _ _ _ _ _ Hb) as [(_ & Hf & _)|[E' _]]; [congruence|]. by apply (Hbk k).
  - intros b Hbr Hb1. rewrite Hal by (by rewrite Esb). by apply (gr_alloc _ _ _ _ _ G).
  - intros m Hm Hnb. rewrite Hv by lia. destruct Hda. rewrite (proj2 (Z.eqb_neq _ _)) by lia.
    by apply (gr_meta _ _ _ _ _ G).
  - intros Hall. apply (bm_keep _ _ _ _ _ _ _ Hb). apply (Hall off). lia.
Qed.

Lemma fits_pending bl n a : fits ds O bl n -> ds <= a -> fits ds O (absorbed bl a) (n + pending_data a bl).
Proof.
  intros Hf Ha. unfold pending_data. case_decide as Hin.
  - rewrite absorbed_old by done. by rewrite Nat.add_0_r.
  - rewrite Nat.add_1_r. by apply fits_data.
Qed.

(** The number of blocks [len] bytes from [off] on are spread over. *)
Definition nblocks (off len : Z) : nat :=
  if len <=? 0 then 0 else Z.to_nat ((off + len + 511) / 512 - off / 512).

Lemma nblocks_step off len : 0 <= off -> 0 < len ->
  let m := Z.min len (512 - off mod 512) in nblocks off len = S (nblocks (off + m) (len - m)).
Proof.
  intros Hoff Hlen m. unfold nblocks. replace (len <=? 0) with false by lia.
  pose proof (Z.mod_pos_bound off 512). destruct (Z.leb_spec (len - m) 0) as [Hm|Hm].
  - assert (m = len) as E by lia. subst m. Z.div_mod_to_equations. lia.
  - assert (m = 512 - off mod 512) as -> by lia. Z.div_mod_to_equations. lia.
Qed.

Definition noind (ip : inode) : nat := if decide (ind ip = 0) then 1 else 0.

(** What [bmap] allocates, with the indirect block counted once. *)
Lemma need_noind s s' ip ip' k a : layout s ds -> 0 <= k < MAXFILE -> bmapped ds s s' ip ip' k a ->
  (need s ip k + noind ip' <= 1 + noind ip)%nat.
Proof.
  intros Hly Hk Hb. unfold need, noind. pose proof (bm_ne _ _ _ _ _ _ _ Hb) as Ha.
  assert (ind ip <> 0 -> ind ip' <> 0) as Hi.
  { intros H0. destruct (gr_ind _ _ _ _ _ (bm_grows _ _ _ _ _ _ _ Hb)) as [->|Hf]; [done|].
    intros E. rewrite E, (ly_meta _ _ Hly) in Hf by lia. done. }
  assert (NDIRECT <= k -> ind ip' <> 0) as Hi'.
  { intros Hd E. rewrite <- (bm_a _ _ _ _ _ _ _ Hb), blk_indirect in Ha by done. apply Ha.
    unfold ind_entry. by rewrite E. }
  destruct (decide (blk s ip k = 0)), (decide (NDIRECT <= k /\ ind ip = 0)), (decide (ind ip' = 0)),
    (decide (ind ip = 0)); try lia; tauto.
Qed.

(** One turn of the loop: [bmap], then the block's bytes. *)
Lemma write_turn s bl i ip off c n :
  txn s bl [] -> layout s ds -> bitmap_in O s -> fits ds O bl n -> (length O + n + 5 <= 28)%nat ->
  inodes s !! i = Some ip -> file_wf s ds ip -> sb_size (sb s) < 2 ^ 32 ->
  0 <= off -> c <> [] -> off mod BSIZE + Z.of_nat (length c) <= BSIZE ->
  off_end off c <= MAXFILE * BSIZE -> (1 + noind ip <= nfree s)%nat ->
  exists s' ip' bl' n', (bn ← bmap i (off / BSIZE);
     with_logged 1 bn (fun d => (Some (splice d (Z.to_nat (off mod BSIZE)) c), tt))) s = Ok (tt, s')
  /\ txn s' bl' [] /\ inodes s' = <[i := ip']> (inodes s) /\ writes s s' ip ip' off c
  /\ fits ds O bl' n' /\ (n' + slack ip' bl' <= n + slack ip bl + 1)%nat
  /\ (nfree s + noind ip' <= nfree s' + 1 + noind ip)%nat.
Proof.
  intros Ht Hly HO Hf Hcap Hi Hwf Hsz Hoff Hc Hroom Hmax Hfree.
  assert (0 < Z.of_nat (length c)) as Hc0 by (destruct c; [done|cbn; lia]).
  assert (0 <= off / BSIZE < MAXFILE) as Hk by (apply blk_index; lia).
  assert (need s ip (off / BSIZE) <= 1 + noind ip)%nat as Hneed.
  { unfold need, noind. destruct (decide (blk _ _ _ = 0)), (decide (ind ip = 0)), (decide (_ /\ _)); (lia || tauto). }
  destruct (bmap_spec ds O Hds s bl i ip (off / BSIZE) n) as
    (a & s1 & ip1 & bl1 & n1 & E1 & Ht1 & Hi1 & Hb & Hf1 & Hw1 & Hn1); try done; [lia|].
  pose proof (slack_le1 ip bl). pose proof (fits_length _ _ _ _ (tx_nodup _ _ _ Ht1) Hf1).
  destruct (bm_range ds s s1 ip ip1 (off / BSIZE) a Hk Hb) as [[Har Haa] Hai].
  pose proof (bm_grows _ _ _ _ _ _ _ Hb) as G. pose proof (gr_layout _ _ _ _ _ G) as Hly1.
  pose proof (ly_size _ _ Hly1).
  destruct (fview_some s1 bl1 [] a Ht1) as [d Hd]; [lia|].
  destruct (with_logged_spec s1 bl1 [] a
    (fun d => (Some (splice d (Z.to_nat (off mod BSIZE)) c), tt)) d Ht1) as (s2 & E2 & Ht2 & Hs2 & Hv2);
    [by eapply data_home|apply not_held_nil|cbn; lia|done|]. cbn [fst snd default] in *.
  rewrite (bind_ok _ _ _ _ _ E1). exists s2, ip1, (absorbed bl1 a), (n1 + pending_data a bl1)%nat.
  split; [done|]. split; [done|]. split; [by rewrite (sm_inodes _ _ _ Hs2)|].
  assert (a = blk s1 ip1 (off / BSIZE)) as Ea by (symmetry; apply (bm_a _ _ _ _ _ _ _ Hb)).
  split; [|split; [by apply fits_pending; [|lia]|split]].
  - apply (writes_step s s1 s2 ip ip1 off c d); rewrite <- ?Ea; try done. by eapply same_ext.
  - assert (slack ip1 (absorbed bl1 a) <= slack ip1 bl1)%nat; [|lia].
    apply slack_le; [done|]. intros m. apply absorbed_sub.
  - pose proof (need_noind s s1 ip ip1 _ a Hly Hk Hb). rewrite (nfree_entry ds s1 s2 a _ Hly1 (sm_sb _ _ _ Hs2) ltac:(lia) Hv2). lia.
Qed.

(** The loop of [writei]. *)
Lemma writei_loop_spec fuel : forall s bl i ip src off n,
  txn s bl [] -> layout s ds -> bitmap_in O s -> fits ds O bl n ->
  inodes s !! i = Some ip -> file_wf s ds ip -> sb_size (sb s) < 2 ^ 32 ->
  0 <= off -> off_end off src <= MAXFILE * BSIZE -> (length src <= fuel)%nat ->
  let k := nblocks off (Z.of_nat (length src)) in
  (length O + (n + slack ip bl + k) + 5 <= 28)%nat -> (k + noind ip <= nfree s)%nat ->
  exists s' ip' bl' n', writei_loop fuel i src off s = Ok (off_end off src, s')
  /\ txn s' bl' [] /\ inodes s' = <[i := ip']> (inodes s) /\ writes s s' ip ip' off src
  /\ fits ds O bl' n' /\ (n' + slack ip' bl' <= n + slack ip bl + k)%nat
  /\ (nfree s + noind ip' <= nfree s' + k + noind ip)%nat.
Proof.
  induction fuel as [|fuel IH]; intros s bl i ip src off n Ht Hly HO Hf Hi Hwf Hsz Hoff Hmax Hfuel k Hcap Hfree;
    destruct src as [|x src]; cbn [writei_loop]; [|cbn in Hfuel; lia| |].
  1, 2: exists s, ip, bl, n; split; [cbn; by rewrite Z.add_0_r|]; split; [done|]; split; [by rewrite list_insert_id|];
    split; [by apply writes_nil|]; split; [done|]; split; lia.
  set (l := x :: src) in *. assert (0 < Z.of_nat (length l)) as Hl by (cbn; lia).
  rewrite (bind_ok _ _ _ _ _ (get_ip_ok i ip s Hi)). rewrite (fw_dev _ _ _ Hwf). cbn zeta.
  set (m := Z.min (Z.of_nat (length l)) (BSIZE - off mod BSIZE)).
  pose proof (nblocks_step off (Z.of_nat (length l)) Hoff Hl) as Ek. cbn zeta in Ek. fold k in Ek.
  change (Z.min (Z.of_nat (length l)) (512 - off mod 512)) with m in Ek.
  assert (0 < m <= Z.of_nat (length l) /\ off mod BSIZE + m <= BSIZE) as [Hm Hmr].
  { subst m. pose proof (Z.mod_pos_bound off BSIZE eq_refl). lia. }
  assert (length (take (Z.to_nat m) l) = Z.to_nat m) as Elt by (rewrite length_take; lia).
  assert (length (drop (Z.to_nat m) l) = (length l - Z.to_nat m)%nat) as Eld by apply length_drop.
  destruct (write_turn s bl i ip off (take (Z.to_nat m) l) n) as (s1 & ip1 & bl1 & n1 & E1 & Ht1 & Hi1 & W1 & Hf1 & Hw1 & Hn1);
    rewrite ?Elt; try done; try lia.
  { intros E. rewrite E in Elt. cbn in Elt. lia. }
  pose proof (f_equal sb_size (ex_sb _ _ (wr_ext _ _ _ _ _ _ W1))) as Esb.
  destruct (IH s1 bl1 i ip1 (drop (Z.to_nat m) l) (off + m) n1) as (s' & ip' & bl' & n' & E2 & Ht' & Hi' & W2 & Hf' & Hw' & Hn');
    rewrite ?Eld; replace (Z.of_nat (length l - Z.to_nat m)) with (Z.of_nat (length l) - m) by lia;
    try done; try apply W1; try lia.
  { intros b. rewrite (ex_sb _ _ (wr_ext _ _ _ _ _ _ W1)). apply HO. }
  { rewrite Hi1. apply list_lookup_insert_eq. by eapply lookup_lt_Some. }
  rewrite Eld in *. replace (Z.of_nat (length l - Z.to_nat m)) with (Z.of_nat (length l) - m) in * by lia.
  exists s', ip', bl', n'. split; [|split; [done|split; [|split; [|split; [done|split; lia]]]]].
  - transitivity ((_ ← (bn ← bmap i (off / BSIZE);
     with_logged 1 bn (fun d => (Some (splice d (Z.to_nat (off mod BSIZE)) (take (Z.to_nat m) l)), tt)));
     writei_loop fuel i (drop (Z.to_nat m) l) (off + m)) s).
    { unfold mbind, M_bind. destruct (bmap _ _ s) as [[]| | |]; try done. }
    rewrite (bind_ok _ _ _ _ _ E1), E2. do 2 f_equal. lia.
  - by rewrite Hi', Hi1, list_insert_insert_eq.
  - rewrite <- (take_drop (Z.to_nat m) l). apply (writes_trans s s1 s' ip ip1 ip'); try done.
    + by rewrite take_drop.
    + rewrite Elt. replace (off + Z.of_nat (Z.to_nat m)) with (off + m) by lia. done.
Qed.

(** ** The inode on disk *)

Record inode_block (s : fstate) (ip : inode) : Prop := {
  ib_num : 0 <= inum ip;
  ib_meta : IBLOCK (inum ip) (sb s) < ds;
  ib_home : fhome s (IBLOCK (inum ip) (sb s));
  ib_in : IBLOCK (inum ip) (sb s) ∈ O;
  ib_apart : forall b, 0 <= b < sb_size (sb s) -> IBLOCK (inum ip) (sb s) <> BBLOCK b (sb s) }.

(** The inode block holds the inode. *)
Definition stored (s : fstate) (ip : inode) : Prop :=
  exists d, fview s (IBLOCK (inum ip) (sb s)) = Some d /\ get_dinode d (dinode_off (inum ip)) ip = ip.

Lemma inode_block_ext s s' ip ip' : inode_block s ip -> ext s s' -> inum ip' = inum ip -> inode_block s' ip'.
Proof.
  intros [H1 H2 H3 H4 H5] Hx E. split; rewrite ?E, ?(ex_sb _ _ Hx); try done. by apply (ext_home s s').
Qed.

(** Writing the inode block leaves every file as it was. *)
Lemma file_set_meta s s' ip a d : file_wf s ds ip -> layout s ds -> ext s s' -> a < ds ->
  (forall b, 0 <= b < sb_size (sb s) -> a <> BBLOCK b (sb s)) -> length d = 512%nat ->
  (forall m, 0 <= m -> fview s' m = if m =? a then Some d else fview s m) ->
  file_wf s' ds ip /\ layout s' ds /\ (forall k, blk s' ip k = blk s ip k)
  /\ (forall j, 0 <= j < MAXFILE * BSIZE -> blk s ip (j / BSIZE) <> 0 -> byte s' ip j = byte s ip j).
Proof.
  intros Hwf Hly Hx Ha Hnb Hlen Hv.
  destruct (file_set_block s s' ip a d Hwf Hly Hx Hnb) as (Hwf' & Hly' & Hblk & _); [|done..|].
  { intros H0. destruct (fw_ind _ _ _ Hwf H0). lia. }
  split; [done|]. split; [done|]. split; [done|]. intros j Hj H0. unfold byte. rewrite Hblk.
  destruct (fw_blk _ _ _ Hwf _ (blk_index j Hj) H0) as [[Hr _] _]. rewrite Hv by lia.
  by rewrite (proj2 (Z.eqb_neq _ _)) by lia.
Qed.

Lemma iupdate_spec s bl i ip : txn s bl [] -> layout s ds -> (length bl < 29)%nat ->
  inodes s !! i = Some ip -> idev ip = 1 -> inode_block s ip -> inode_ok ip ->
  exists s' d, iupdate i s = Ok (tt, s') /\ txn s' (absorbed bl (IBLOCK (inum ip) (sb s))) []
  /\ same s s' [] /\ stored s' ip /\ length d = 512%nat
  /\ forall m, 0 <= m -> fview s' m = if m =? IBLOCK (inum ip) (sb s) then Some d else fview s m.
Proof.
  intros Ht Hly Hlen Hi Hdev Hib Hok. unfold iupdate.
  rewrite (bind_ok _ _ _ _ _ (get_ip_ok i ip s Hi)), (bind_ok get _ s s s eq_refl), Hdev.
  pose proof (ib_home _ _ Hib) as Hhome.
  destruct (fview_some s bl [] (IBLOCK (inum ip) (sb s)) Ht (proj1 Hhome)) as [d Hd].
  destruct (with_logged_spec s bl [] (IBLOCK (inum ip) (sb s))
    (fun d => (Some (put_dinode d (dinode_off (inum ip)) ip), tt)) d Ht Hhome) as (s' & E & Ht' & Hs' & Hv');
    [apply not_held_nil|done..|]. cbn [fst snd default] in *.
  assert (0 <= IBLOCK (inum ip) (sb s)) as Hpos by apply Hhome.
  pose proof (ly_len _ _ Hly _ _ Hpos Hd) as Hl.
  exists s', (put_dinode d (dinode_off (inum ip)) ip). split; [done|]. split; [done|]. split; [done|].
  split; [|split; [|done]].
  - exists (put_dinode d (dinode_off (inum ip)) ip). rewrite (sm_sb _ _ _ Hs'), Hv', Z.eqb_refl by done.
    split; [done|]. rewrite get_put_dinode; [by destruct ip| |done].
    rewrite Hl. apply (dinode_off_bound (inum ip)), Hib.
  - rewrite <- Hl. apply (put_dinode_at d (dinode_off (inum ip)) ip), Hok.
Qed.

(** The fields of the inode stay in range. *)
Lemma inode_ok_grow s ip ip' z : file_wf s ds ip' -> sb_size (sb s) < 2 ^ 32 -> inode_ok ip ->
  ip' = set_addrs ip (addrs ip') -> is_u32 z -> inode_ok (with_size ip' z).
Proof.
  intros Hwf Hsz [Ht Hma Hmi Hnl Hs Had Hn] E Hz. pose proof (fw_addrs _ _ _ Hwf) as Hlen.
  split; cbn [with_size itype major minor nlink isize addrs]; try done; try (rewrite E; done).
  apply Forall_lookup. intros k a Hk. assert (k < 13)%nat as Hk13 by (apply lookup_lt_Some in Hk; lia).
  assert (nth k (addrs ip') 0 = a) as Hnth by (by rewrite nth_lookup, Hk).
  destruct (decide (a = 0)) as [->|H0]; [done|]. unfold is_u32.
  destruct (decide (k = 12%nat)) as [->|Hne].
  - destruct (fw_ind _ _ _ Hwf) as [Hr _]; unfold ind in *; rewrite Hnth in *; (done || lia).
  - assert (blk s ip' (Z.of_nat k) = a) as Eb by (rewrite blk_direct by (unfold NDIRECT; lia); by rewrite Nat2Z.id).
    destruct (fw_blk _ _ _ Hwf (Z.of_nat k)) as [[Hr _] _]; [change MAXFILE with 140; lia|by rewrite Eb|].
    rewrite Eb in Hr. lia.
Qed.

(** A file that can be written in the running transaction [bl]. *)
Record open_file (s : fstate) (bl : list Z) (i : nat) (ip : inode) (n : nat) : Prop := {
  of_txn : txn s bl [];
  of_layout : layout s ds;
  of_bitmap : bitmap_in O s;
  of_size : sb_size (sb s) < 2 ^ 32;
  of_fits : fits ds O bl n;
  of_ip : inodes s !! i = Some ip;
  of_wf : file_wf s ds ip;
  of_ok : inode_ok ip;
  of_block : inode_block s ip;
  of_stored : stored s ip }.

(** Two files without a common block. *)
Definition apart (s : fstate) (ip ip2 : inode) : Prop :=
  (ind ip2 <> 0 -> ind ip2 <> ind ip)
  /\ forall k, 0 <= k < MAXFILE ->
     (blk s ip2 k <> 0 -> blk s ip2 k <> ind ip) /\ (blk s ip k <> 0 -> blk s ip k <> ind ip2)
     /\ forall k', 0 <= k' < MAXFILE -> blk s ip2 k <> 0 -> blk s ip k' <> blk s ip2 k.

(** [s'] shows file [ip2] as [s] does. *)
Definition keeps (s s' : fstate) (ip2 : inode) : Prop :=
  file_wf s' ds ip2 /\ file_bytes s' ip2 = file_bytes s ip2.

Lemma keeps_view s s' ip2 : file_wf s ds ip2 -> ext s s' ->
  (forall b, 0 <= b < sb_size (sb s) -> allocated s b = true -> allocated s' b = true) ->
  (ind ip2 <> 0 -> fview s' (ind ip2) = fview s (ind ip2)) ->
  (forall k, 0 <= k < MAXFILE -> blk s ip2 k <> 0 -> fview s' (blk s ip2 k) = fview s (blk s ip2 k)) ->
  keeps s s' ip2.
Proof.
  intros Hwf Hx Hal Hi Hb.
  assert (forall k, blk s' ip2 k = blk s ip2 k) as Hblk.
  { intros k. unfold blk. destruct (_ <? _); [done|]. by apply ind_entry_view. }
  split.
  - apply (wf_grow ds Hds s s' ip2 ip2 0 (blk s ip2 0)); try done.
    + by destruct ip2.
    + apply (fw_addrs _ _ _ Hwf).
    + intros k _. rewrite Hblk. by destruct (Z.eqb_spec k 0) as [->|].
    + by left.
    + intros H0. by apply (fw_blk _ _ _ Hwf).
    + by left.
  - unfold file_bytes. apply list_fmap_ext. intros j x Hx'. apply lookup_seqZ in Hx' as [-> Hj].
    pose proof (fw_size _ _ _ Hwf) as Hsz. unfold byte. rewrite Hblk, Hb; [done|apply blk_index; lia|].
    apply (fw_cover _ _ _ Hwf); change BSIZE with 512 in *; Z.div_mod_to_equations; lia.
Qed.

(** Writing one file keeps the others. *)
Lemma writes_keeps s s' ip ip' off src ip2 : writes s s' ip ip' off src ->
  file_wf s ds ip2 -> apart s ip ip2 -> keeps s s' ip2.
Proof.
  intros W Hwf [Hi Hb]. apply keeps_view; try done; try apply W.
  - intros H0. apply (wr_frame _ _ _ _ _ _ W); [by apply (fw_ind _ _ _ Hwf)|by apply Hi|].
    intros k Hk E. destruct (decide (blk s ip k = 0)) as [|Hk0]; [congruence|].
    by apply (proj1 (proj2 (Hb k Hk)) Hk0).
  - intros k Hk H0. destruct (Hb k Hk) as (H1 & _ & H3).
    apply (wr_frame _ _ _ _ _ _ W); [by apply (fw_blk _ _ _ Hwf)|by apply H1|].
    intros k' Hk'. by apply H3.
Qed.

(** The block map of another file is not touched ... *)
Lemma writes_other_blk s s' ip ip' off src ip2 k : writes s s' ip ip' off src ->
  file_wf s ds ip2 -> apart s ip ip2 -> blk s' ip2 k = blk s ip2 k.
Proof.
  intros W Hwf [Hi Hb]. unfold blk. destruct (_ <? _); [done|]. apply ind_entry_view; [done|].
  intros H0. apply (wr_frame _ _ _ _ _ _ W); [by apply (fw_ind _ _ _ Hwf)|by apply Hi|].
  intros k' Hk E. destruct (decide (blk s ip k' = 0)) as [|Hk0]; [congruence|].
  by apply (proj1 (proj2 (Hb k' Hk)) Hk0).
Qed.

(** ... and the new blocks are not its own. *)
Lemma writes_apart s s' ip ip' off src ip2 : writes s s' ip ip' off src ->
  file_wf s ds ip2 -> apart s ip ip2 -> apart s' ip' ip2.
Proof.
  intros W Hwf Hap. pose proof Hap as [Hi Hb].
  assert (forall b, data_block s ds b -> allocated s b = true) as Hall by (by intros b [_ ?]).
  split.
  - intros H0. pose proof (Hall _ (fw_ind _ _ _ Hwf H0)) as Ha.
    destruct (wr_ind _ _ _ _ _ _ W) as [-> |Hf]; [by apply Hi|congruence].
  - intros k Hk. rewrite (writes_other_blk s s' ip ip' off src ip2 k W Hwf Hap). destruct (Hb k Hk) as (B1 & B2 & B3).
    split; [|split].
    + intros H0. pose proof (Hall _ (proj1 (fw_blk _ _ _ Hwf k Hk H0))) as Ha.
      destruct (wr_ind _ _ _ _ _ _ W) as [-> |Hf]; [by apply B1|congruence].
    + intros H0 E. destruct (wr_blk _ _ _ _ _ _ W k Hk) as [Eb|[_ Hf]]; [rewrite Eb in *; by apply B2|].
      rewrite E in *. pose proof (Hall _ (fw_ind _ _ _ Hwf H0)). congruence.
    + intros k' Hk' H0 E. pose proof (Hall _ (proj1 (fw_blk _ _ _ Hwf k Hk H0))) as Ha.
      destruct (wr_blk _ _ _ _ _ _ W k' Hk') as [Eb|[_ Hf]]; [rewrite Eb in E; by apply (B3 k' Hk')|congruence].
Qed.

Lemma keeps_meta s s' ip2 a d : file_wf s ds ip2 -> layout s ds -> ext s s' -> a < ds ->
  (forall b, 0 <= b < sb_size (sb s) -> a <> BBLOCK b (sb s)) -> length d = 512%nat ->
  (forall m, 0 <= m -> fview s' m = if m =? a then Some d else fview s m) -> keeps s s' ip2.
Proof.
  intros Hwf Hly Hx Ha Hnb Hd Hv.
  destruct (file_set_meta s s' ip2 a d) as (Hwf' & _ & _ & Hb); try done. split; [done|].
  unfold file_bytes. apply list_fmap_ext. intros j x Hx'. apply lookup_seqZ in Hx' as [-> Hj].
  pose proof (fw_size _ _ _ Hwf) as Hsz. apply Hb; [lia|].
  apply (fw_cover _ _ _ Hwf); change BSIZE with 512 in *; Z.div_mod_to_equations; lia.
Qed.

(** A list of bytes with [src] in place of the bytes from [off] on. *)
Lemma bytes_spliced (f f' : Z -> Z) z off src : 0 <= off <= z ->
  (forall j, off <= j < off_end off src -> f' j = nth (Z.to_nat (j - off)) src 0) ->
  (forall j, 0 <= j < z -> ~ (off <= j < off_end off src) -> f' j = f j) ->
  f' <$> seqZ 0 (Z.max z (off_end off src))
  = take (Z.to_nat off) (f <$> seqZ 0 z) ++ src ++ drop (Z.to_nat (off_end off src)) (f <$> seqZ 0 z).
Proof.
  intros Hoff Hnew Hold. set (e := off_end off src) in *.
  replace (Z.max z e) with (off + (Z.of_nat (length src) + (Z.max z e - e))) by lia.
  rewrite !seqZ_app, !fmap_app by lia. rewrite Z.add_0_l. f_equal; [|f_equal].
  - pose proof (slice_seqZ f 0 off z ltac:(lia) ltac:(lia) ltac:(lia)) as E.
    change (Z.to_nat 0) with 0%nat in E. rewrite drop_0 in E. rewrite E.
    apply list_fmap_ext. intros j x Hx. apply lookup_seqZ in Hx as [-> Hj]. apply Hold; lia.
  - apply list_eq. intros j. rewrite list_lookup_fmap. destruct (decide (j < length src)%nat) as [Hj|Hj].
    + rewrite lookup_seqZ_lt by lia. cbn. rewrite Hnew by lia.
      replace (Z.to_nat (off + Z.of_nat j - off)) with j by lia.
      rewrite nth_lookup. by destruct (lookup_lt_is_Some_2 src j Hj) as [v ->].
    + rewrite lookup_seqZ_ge, lookup_ge_None_2 by lia. done.
  - fold e. destruct (decide (e <= z)) as [He|He].
    + pose proof (slice_seqZ f e (z - e) z ltac:(lia) ltac:(lia) ltac:(lia)) as E.
      rewrite take_ge in E by (rewrite length_drop, length_fmap, length_seqZ; lia). rewrite E.
      replace (Z.max z e - e) with (z - e) by lia.
      apply list_fmap_ext. intros j x Hx. apply lookup_seqZ in Hx as [-> Hj]. apply Hold; lia.
    + rewrite seqZ_nil, drop_ge by (rewrite ?length_fmap, ?length_seqZ; lia). done.
Qed.

(** The file's new bytes, [f] giving the bytes in the new state. *)
Lemma writes_bytes s s' ip ip' off src : file_wf s ds ip -> writes s s' ip ip' off src ->
  0 <= off <= isize ip ->
  byte s' ip' <$> seqZ 0 (Z.max (isize ip) (off_end off src))
  = take (Z.to_nat off) (file_bytes s ip) ++ src
    ++ drop (Z.to_nat (off_end off src)) (file_bytes s ip).
Proof.
  intros Hwf W Hoff. apply bytes_spliced; [done|apply W|]. pose proof (fw_size _ _ _ Hwf).
  intros j Hj Hout. apply (wr_old _ _ _ _ _ _ W); [lia| |done].
  apply (fw_cover _ _ _ Hwf); change BSIZE with 512 in *; Z.div_mod_to_equations; lia.
Qed.

(** All blocks up to the end of the bytes written are there. *)
Lemma writes_cover s s' ip ip' off src k : writes s s' ip ip' off src -> 0 <= off <= isize ip ->
  0 <= k -> k * BSIZE < Z.max (isize ip) (off_end off src) -> blk s' ip' k <> 0.
Proof.
  intros W Hoff Hk Hlt. assert (isize ip' = isize ip) as Es by (by rewrite (wr_ip _ _ _ _ _ _ W)).
  destruct (decide (k * BSIZE < isize ip)).
  - apply (fw_cover _ _ _ (wr_wf _ _ _ _ _ _ W)); [done|]. by rewrite Es.
  - replace k with (k * BSIZE / BSIZE) by (by apply Z.div_mul).
    apply (wr_there _ _ _ _ _ _ W). lia.
Qed.

(** The end of [writei]: the new size goes to the inode and to disk. *)
Lemma writei_grow s s1 bl i ip ip1 off src n :
  open_file s bl i ip n -> writes s s1 ip ip1 off src -> 0 <= off <= isize ip ->
  isize ip < off_end off src <= MAXFILE * BSIZE ->
  forall bl1 n1, txn s1 bl1 [] -> fits ds O bl1 n1 -> (length bl1 < 29)%nat -> inodes s1 !! i = Some ip1 ->
  let ip' := with_size ip1 (off_end off src) in
  exists s' bl', (set_ip i ip' ;; iupdate i) s1 = Ok (tt, s')
  /\ open_file s' bl' i ip' n1 /\ inodes s' = <[i := ip']> (inodes s1)
  /\ file_bytes s' ip' = take (Z.to_nat off) (file_bytes s ip) ++ src
      ++ drop (Z.to_nat (off_end off src)) (file_bytes s ip)
  /\ nfree s' = nfree s1 /\ ext s1 s'
  /\ (forall ip2, file_wf s1 ds ip2 -> keeps s1 s' ip2 /\ (apart s1 ip1 ip2 -> apart s' ip' ip2)).
Proof.
  intros Hof W Hoff Hend bl1 n1 Ht1 Hf1 Hlen Hi1 ip'. pose proof (wr_wf _ _ _ _ _ _ W) as Hwf1.
  pose proof (wr_layout _ _ _ _ _ _ W) as Hly1. pose proof (wr_ext _ _ _ _ _ _ W) as Hx1.
  pose proof (ex_sb _ _ Hx1) as Esb. pose proof (of_block _ _ _ _ _ Hof) as Hib.
  assert (inum ip' = inum ip /\ idev ip' = 1) as [En Edev].
  { split; [unfold ip'; cbn; by rewrite (wr_ip _ _ _ _ _ _ W)|apply (fw_dev _ _ _ Hwf1)]. }
  set (sp := put_ip s1 i ip').
  assert (ext s sp) as Hxp by (eapply ext_trans; [exact Hx1|apply put_ip_ext]).
  assert (file_wf sp ds ip') as Hwfp.
  { destruct Hwf1 as [W1 W2 W3 W4 W5 W6 W7]. split; try done; [cbn; lia|].
    intros k Hk Hlt. apply (writes_cover s s1 ip ip1 off src k); try done. cbn in Hlt. lia. }
  assert (layout sp ds) as Hlyp by (by destruct Hly1; split).
  assert (inode_ok ip') as Hok.
  { apply (inode_ok_grow s1 ip); [done|rewrite Esb; apply Hof|apply Hof|apply W|].
    unfold is_u32. change BSIZE with 512 in *. change MAXFILE with 140 in *. lia. }
  assert (inode_block sp ip') as Hibp by (by apply (inode_block_ext s sp ip)).
  destruct (iupdate_spec sp bl1 i ip') as (s' & d & E & Ht' & Hs' & Hst & Hd & Hv'); try done.
  { by apply put_ip_txn. }
  { by eapply put_ip_lookup. }
  assert (ext sp s') as Hx' by (by eapply same_ext).
  destruct (file_set_meta sp s' ip' (IBLOCK (inum ip') (sb sp)) d) as (Hwf' & Hly' & Hblk' & Hb'); try done; try apply Hibp.
  assert (forall j, 0 <= j < isize ip' -> byte s' ip' j = byte s1 ip1 j) as Hbyte.
  { intros j Hj. cbn in Hj. rewrite Hb'; [done|lia|]. apply (fw_cover _ _ _ Hwfp); [|cbn];
      change BSIZE with 512 in *; Z.div_mod_to_equations; lia. }
  exists s', (absorbed bl1 (IBLOCK (inum ip') (sb sp))).
  split; [by rewrite (bind_ok _ _ _ _ _ (set_ip_ok _ _ _))|].
  split; [|split; [by rewrite (sm_inodes _ _ _ Hs')|split; [|split; [|split; [by eapply ext_trans; [apply put_ip_ext|exact Hx']|]]]]].
  - split; try done.
    + intros b. rewrite (ex_sb _ _ Hx'). change (sb sp) with (sb s1). rewrite Esb. apply Hof.
    + rewrite (ex_sb _ _ Hx'). change (sb sp) with (sb s1). rewrite Esb. apply Hof.
    + apply fits_meta; [done|apply Hibp..].
    + rewrite (sm_inodes _ _ _ Hs'). by eapply put_ip_lookup.
    + by apply (inode_block_ext sp s' ip').
  - rewrite <- (writes_bytes s s1 ip ip1 off src) by (done || apply Hof). unfold file_bytes.
    replace (Z.max (isize ip) (off_end off src)) with (isize ip') by (cbn; lia).
    apply list_fmap_ext. intros j x Hx. apply lookup_seqZ in Hx as [-> Hj]. apply Hbyte. lia.
  - change (nfree s1) with (nfree sp). apply nfree_ext; [apply Hx'|]. intros b Hb. unfold allocated. rewrite (ex_sb _ _ Hx'), Hv'.
    + rewrite (proj2 (Z.eqb_neq _ _)); [done|]. intros H. by apply (ib_apart _ _ Hibp b Hb).
    + destruct (ly_bmap _ _ Hlyp b Hb) as [_ [Hh _]]. apply Hh.
  - intros ip2 Hwf2. assert (file_wf sp ds ip2) as Hwf2p by (by destruct Hwf2; split). split.
    + apply (keeps_meta sp s' ip2 (IBLOCK (inum ip') (sb sp)) d); try done; apply Hibp.
    + destruct (file_set_meta sp s' ip2 (IBLOCK (inum ip') (sb sp)) d) as (_ & _ & Hblk2 & _); try done; try apply Hibp.
      intros [A1 A2]. split; [done|]. intros k Hk. rewrite Hblk2, Hblk'. destruct (A2 k Hk) as (B1 & B2 & B3).
      split; [done|]. split; [done|]. intros k'. rewrite Hblk'. apply B3.
Qed.

(** A write inside the file leaves the inode alone. *)
Lemma writei_stay s s1 bl i ip ip1 off src n :
  open_file s bl i ip n -> writes s s1 ip ip1 off src -> 0 <= off -> off_end off src <= isize ip ->
  forall bl1 n1, txn s1 bl1 [] -> fits ds O bl1 n1 -> inodes s1 !! i = Some ip1 ->
  open_file s1 bl1 i ip1 n1
  /\ file_bytes s1 ip1 = take (Z.to_nat off) (file_bytes s ip) ++ src
      ++ drop (Z.to_nat (off_end off src)) (file_bytes s ip).
Proof.
  intros Hof W Hoff Hend bl1 n1 Ht1 Hf1 Hi1. pose proof (of_wf _ _ _ _ _ Hof) as Hwf.
  pose proof (fw_size _ _ _ Hwf) as Hsz. pose proof (wr_ext _ _ _ _ _ _ W) as Hx.
  assert (ip1 = ip) as ->.
  { apply (wr_keep _ _ _ _ _ _ W). intros j Hj. apply (fw_cover _ _ _ Hwf);
      change BSIZE with 512 in *; Z.div_mod_to_equations; lia. }
  pose proof (of_block _ _ _ _ _ Hof) as Hib. pose proof (ex_sb _ _ Hx) as Esb.
  split.
  - split; try done; try apply W; try apply Hof.
    + intros b. rewrite Esb. apply Hof.
    + rewrite Esb. apply Hof.
    + by apply (inode_block_ext s s1 ip).
    + destruct (of_stored _ _ _ _ _ Hof) as (d & Hd & Hg). exists d. split; [|done]. rewrite Esb.
      rewrite (wr_meta _ _ _ _ _ _ W); [done|split; apply Hib|apply Hib].
  - rewrite <- (writes_bytes s s1 ip ip off src) by (done || lia). unfold file_bytes. do 2 f_equal. lia.
Qed.

(** [writei] on any offset and bytes: either it refuses and changes nothing, or
    the file's bytes from [off] on are [src], its other bytes stay, and so does
    every other file. *)
Lemma writei_spec s bl i ip src off n :
  open_file s bl i ip n -> is_u32 off -> Z.of_nat (length src) < 2 ^ 32 ->
  let k := nblocks off (Z.of_nat (length src)) in
  (length O + (n + slack ip bl + k) + 5 <= 28)%nat -> (k + noind ip <= nfree s)%nat ->
  if (isize ip <? off) || (MAXFILE * BSIZE <? off_end off src)
  then writei i src off s = Ok (-1, s)
  else exists s' ip' bl' n', writei i src off s = Ok (Z.of_nat (length src), s')
  /\ open_file s' bl' i ip' n' /\ (n' <= n + slack ip bl + k)%nat
  /\ inodes s' = <[i := ip']> (inodes s)
  /\ file_bytes s' ip' = take (Z.to_nat off) (file_bytes s ip) ++ src
      ++ drop (Z.to_nat (off_end off src)) (file_bytes s ip)
  /\ ip' = with_size (set_addrs ip (addrs ip')) (isize ip')
  /\ (nfree s + noind ip' <= nfree s' + k + noind ip)%nat /\ ext s s'
  /\ (forall ip2, file_wf s ds ip2 -> apart s ip ip2 -> keeps s s' ip2 /\ apart s' ip' ip2).
Proof.
  intros Hof Hoff Hsrc k Hcap Hfree. unfold is_u32 in Hoff. pose proof (of_wf _ _ _ _ _ Hof) as Hwf.
  pose proof (fw_size _ _ _ Hwf) as Hsz. unfold writei.
  rewrite (bind_ok _ _ _ _ _ (get_ip_ok i ip s (of_ip _ _ _ _ _ Hof))).
  set (e := off_end off src). cbn zeta. fold e.
  assert (u32 e = if 2 ^ 32 <=? e then e - 2 ^ 32 else e) as Eu.
  { unfold u32. destruct (Z.leb_spec (2 ^ 32) e); Z.div_mod_to_equations; lia. }
  change (MAXFILE * BSIZE) with 71680 in *.
  destruct ((isize ip <? off) || (71680 <? e)) eqn:Eg.
  { destruct ((isize ip <? off) || (u32 e <? off)) eqn:Eo; [done|].
    rewrite Eu in *. destruct (Z.leb_spec (2 ^ 32) e); replace (71680 <? _) with true by lia; done. }
  apply orb_false_iff in Eg as [Eg1 Eg2]. rewrite Eu.
  replace (2 ^ 32 <=? e) with false by lia. replace (e <? off) with false by lia. rewrite Eg1, Eg2. cbn [orb].
  destruct (writei_loop_spec (length src) s bl i ip src off n) as (s1 & ip1 & bl1 & n1 & E1 & Ht1 & Hi1 & W & Hf1 & Hw1 & Hn1);
    try apply Hof; try done; try lia; [change (MAXFILE * BSIZE) with 71680; lia|].
  rewrite (bind_ok _ _ _ _ _ E1).
  assert (inodes s1 !! i = Some ip1) as Hi1'.
  { rewrite Hi1. apply list_lookup_insert_eq. eapply lookup_lt_Some, Hof. }
  rewrite (bind_ok _ _ _ _ _ (get_ip_ok i ip1 s1 Hi1')). fold e.
  assert (isize ip1 = isize ip) as -> by (by rewrite (wr_ip _ _ _ _ _ _ W)).
  pose proof (fits_length _ _ _ _ (tx_nodup _ _ _ Ht1) Hf1).
  destruct (Z.ltb_spec (isize ip) e) as [Hg|Hg].
  - replace (0 <? Z.of_nat (length src)) with true by lia. cbn [andb].
    destruct (writei_grow s s1 bl i ip ip1 off src n) with (bl1 := bl1) (n1 := n1)
      as (s' & bl' & E2 & Hof' & Hi' & Hb' & Hfr & Hxx & Hk'); try done; [lia|change (MAXFILE * BSIZE) with 71680; lia|lia|].
    rewrite (bind_ok _ _ _ _ _ E2). exists s', (with_size ip1 e), bl', n1.
    split; [done|]. split; [done|]. split; [lia|]. split; [by rewrite Hi', Hi1, list_insert_insert_eq|].
    split; [done|]. split; [cbn; f_equal; apply (wr_ip _ _ _ _ _ _ W)|].
    split; [rewrite Hfr; exact Hn1|]. split; [eapply ext_trans; [apply (wr_ext _ _ _ _ _ _ W)|done]|]. intros ip2 Hwf2 Hap.
    destruct (writes_keeps s s1 ip ip1 off src ip2 W Hwf2 Hap) as [K1 K2].
    destruct (Hk' ip2 K1) as [[K3 K4] K5]. split; [split; [done|congruence]|]. by apply K5, (writes_apart s s1 ip ip1 off src).
  - rewrite andb_false_r. rewrite (bind_ok (mret tt) _ s1 tt s1 eq_refl).
    destruct (writei_stay s s1 bl i ip ip1 off src n Hof W ltac:(lia) Hg bl1 n1 Ht1 Hf1 Hi1') as [Hof1 Hb1].
    exists s1, ip1, bl1, n1. split; [done|]. split; [done|]. split; [lia|]. split; [done|]. split; [done|].
    split; [pose proof (wr_ip _ _ _ _ _ _ W) as Hip; rewrite Hip; by destruct ip|]. split; [exact Hn1|]. split; [apply (wr_ext _ _ _ _ _ _ W)|]. intros ip2 Hwf2 Hap.
    split; [by apply (writes_keeps s s1 ip ip1 off src)|by apply (writes_apart s s1 ip ip1 off src)].
Qed.
End Writing.

(** * The claims *)

(** [readi] returns the slice of the file's bytes the caller asks for, cut at
    the end of the file, for every 32-bit offset and count; it fails exactly when
    the offset is past the end or offset plus count overflows, and it changes no
    block, whether or not a transaction is running. *)
Theorem readi_returns_slice ds o s bl i ip off n :
  0 < ds -> txn_at o s bl [] -> layout s ds -> (length bl < 28)%nat ->
  inodes s !! i = Some ip -> file_wf s ds ip -> is_u32 off -> is_u32 n ->
  exists s', readi i off n s
    = Ok (if (isize ip <? off) || (2 ^ 32 <=? off + n) then None
          else Some (take (Z.to_nat n) (drop (Z.to_nat off) (file_bytes s ip))), s')
  /\ same s s' [] /\ same_view s s'.
Proof.
  intros Hds Ht Hly Hl Hi Hwf Hoff Hn.
  destruct (readi_spec ds o Hds s bl i ip off n Ht Hly Hl Hi Hwf Hoff Hn) as (s' & E & _ & H). by exists s'.
Qed.

(** [writei] replaces a slice of the file's bytes: with the log space and free
    blocks it needs, it fails exactly when the offset is past the end or the file
    would outgrow [MAXFILE] blocks, leaving the state alone; otherwise the file is
    its old bytes with the new ones in place from the offset on, extended as
    needed, the inode on disk agrees with the one in memory, the file is ready for
    the next write, and no other file changes. *)
Theorem writei_replaces_slice ds O s bl i ip src off n :
  0 < ds -> open_file ds O s bl i ip n -> is_u32 off -> Z.of_nat (length src) < 2 ^ 32 ->
  (length O + (n + slack ip bl + nblocks off (Z.of_nat (length src))) + 5 <= 28)%nat ->
  (nblocks off (Z.of_nat (length src)) + noind ip <= nfree s)%nat ->
  if (isize ip <? off) || (MAXFILE * BSIZE <? off + Z.of_nat (length src))
  then writei i src off s = Ok (-1, s)
  else exists s' ip' bl' n', writei i src off s = Ok (Z.of_nat (length src), s')
  /\ file_bytes s' ip' = take (Z.to_nat off) (file_bytes s ip) ++ src
      ++ drop (Z.to_nat (off + Z.of_nat (length src))) (file_bytes s ip)
  /\ open_file ds O s' bl' i ip' n'
  /\ (n' <= n + slack ip bl + nblocks off (Z.of_nat (length src)))%nat
  /\ inodes s' = <[i := ip']> (inodes s)
  /\ (forall ip2, file_wf s ds ip2 -> apart s ip ip2 ->
        file_wf s' ds ip2 /\ file_bytes s' ip2 = file_bytes s ip2).
Proof.
  intros Hds Hof Hoff Hsrc Hcap Hfree.
  pose proof (writei_spec ds O Hds s bl i ip src off n Hof Hoff Hsrc Hcap Hfree) as H.
  destruct ((isize ip <? off) || (MAXFILE * BSIZE <? off + Z.of_nat (length src))); [done|].
  destruct H as (s' & ip' & bl' & n' & E & Hof' & Hn' & Hi' & Hb' & _ & _ & _ & Hk').
  exists s', ip', bl', n'. split; [done|]. split; [done|]. do 3 (split; [done|]).
  intros ip2 Hwf2 Hap. apply (Hk' ip2 Hwf2 Hap).
Qed.

(** A disk of 40 blocks: the log in blocks 2 to 31, the inodes in block 32, the
    bitmap in block 33; file 1 has five bytes in block 34. *)
Definition demo_ip : inode :=
  mkInode 1 1 1 1 2 2 0 0 1 5 [34; 0; 0; 0; 0; 0; 0; 0; 0; 0; 0; 0; 0].
Definition demo_disk : list block :=
  replicate 32 zero_block
  ++ [put_dinode zero_block 64 demo_ip; splice zero_block 0 [255; 255; 255; 255; 7];
      splice zero_block 0 [10; 11; 12; 13; 14]]
  ++ replicate 5 zero_block.
Definition demo_fs (o : Z) : fstate :=
  mkFs (mkLstate (binit demo_disk) (mkLog 2 30 o false 1 0 (replicate 30 0)))
    (mkSuper 40 6 8 30 2 32 33) [demo_ip] 0.

Lemma view_binit d n : view (binit d) n = d !! Z.to_nat n.
Proof. apply view_uncached. intros i b Hi. apply lookup_replicate in Hi as [-> _]. by intros [H _]. Qed.

Lemma demo_view o n : fview (demo_fs o) n = demo_disk !! Z.to_nat n.
Proof. apply view_binit. Qed.

Lemma demo_txn o : txn_at o (demo_fs o) [] [].
Proof.
  destruct (binit_inv demo_disk) as [Hi Hd]. split; try done.
  - by repeat constructor.
  - apply NoDup_nil_2.
  - intros m. split; [intros H; by apply ndirty_zero in H|by intros ?%elem_of_nil].
  - split; try done. apply NoDup_nil_2.
Qed.

Lemma demo_len : Forall (fun d : block => length d = 512%nat) demo_disk.
Proof. by repeat constructor. Qed.

Lemma demo_allocated o b : 0 <= b < 40 -> allocated (demo_fs o) b = (b <? 35).
Proof.
  intros Hb. unfold allocated. rewrite demo_view.
  assert (BBLOCK b (sb (demo_fs o)) = 33 /\ b mod BPB = b) as [-> ->].
  { unfold BBLOCK. change BPB with 4096. cbn. Z.div_mod_to_equations. lia. }
  revert b Hb. assert (Forall (fun b => bit_set (nth 33 demo_disk []) b = (b <? 35)) (seqZ 0 40)) as H.
  { by repeat (constructor; [vm_compute; reflexivity|]). }
  intros b Hb. change (demo_disk !! Z.to_nat 33) with (Some (nth 33 demo_disk [])).
  rewrite Forall_forall in H. apply H, elem_of_seqZ. lia.
Qed.

Lemma demo_layout o : layout (demo_fs o) 34.
Proof.
  split; try done.
  - intros b Hb. change (sb_size (sb (demo_fs o))) with 40 in Hb.
    assert (BBLOCK b (sb (demo_fs o)) = 33) as ->.
    { unfold BBLOCK. change BPB with 4096. cbn. Z.div_mod_to_equations. lia. }
    split; [lia|]. unfold fhome, home, nblk. cbn. lia.
  - intros n d Hn Hd. rewrite demo_view in Hd. by apply (Forall_lookup_1 _ _ _ _ demo_len Hd).
  - intros b Hb. rewrite demo_allocated by lia. lia.
Qed.

Lemma demo_blk o k : 0 <= k < MAXFILE -> blk (demo_fs o) demo_ip k = if k =? 0 then 34 else 0.
Proof.
  intros Hk. unfold blk. destruct (Z.ltb_spec k NDIRECT) as [Hd|Hd].
  - unfold NDIRECT in Hd. assert (Forall (fun k => nth (Z.to_nat k) (addrs demo_ip) 0 = if k =? 0 then 34 else 0) (seqZ 0 12)) as H.
    { by repeat (constructor; [vm_compute; reflexivity|]). }
    rewrite Forall_forall in H. apply H, elem_of_seqZ. lia.
  - unfold NDIRECT in Hd. by rewrite (proj2 (Z.eqb_neq k 0)) by lia.
Qed.

Lemma demo_wf o : file_wf (demo_fs o) 34 demo_ip.
Proof.
  assert (data_block (demo_fs o) 34 34) as H34 by (split; [done|by rewrite demo_allocated]).
  split; try done.
  - intros k Hk. rewrite demo_blk by done. by destruct (k =? 0).
  - intros k k' Hk Hk'. rewrite !demo_blk by done. destruct (Z.eqb_spec k 0), (Z.eqb_spec k' 0); (done || lia).
  - intros k Hk Hlt. change BSIZE with 512 in Hlt. cbn in Hlt.
    rewrite demo_blk by (change MAXFILE with 140; lia). by replace (k =? 0) with true by lia.
Qed.

Lemma demo_free : nfree (demo_fs 1) = 5%nat.
Proof. by vm_compute. Qed.

Lemma demo_ip_ok : inode_ok demo_ip.
Proof. split; try done. by repeat constructor. Qed.

Lemma demo_open : open_file 34 [33; 32] (demo_fs 1) [] 0 demo_ip 0.
Proof.
  split; try done.
  - apply demo_txn.
  - apply demo_layout.
  - intros b Hb. change (sb_size (sb (demo_fs 1))) with 40 in Hb.
    replace (BBLOCK b (sb (demo_fs 1))) with 33; [by left|].
    unfold BBLOCK. change BPB with 4096. cbn. Z.div_mod_to_equations. lia.
  - split; [by intros m ?%elem_of_nil|done].
  - apply demo_wf.
  - apply demo_ip_ok.
  - split; try done.
    + change (IBLOCK _ _) with 32. unfold fhome, home, nblk. cbn. lia.
    + right. by left.
    + intros b Hb. change (sb_size (sb (demo_fs 1))) with 40 in Hb.
      replace (BBLOCK b (sb (demo_fs 1))) with 33; [done|].
      unfold BBLOCK. change BPB with 4096. cbn. Z.div_mod_to_equations. lia.
  - exists (put_dinode zero_block 64 demo_ip). split; [by rewrite demo_view|by vm_compute].
Qed.

Lemma readi_returns_slice_witness :
  exists s', readi 0 1 100 (demo_fs 0) = Ok (Some [11; 12; 13; 14], s').
Proof.
  destruct (readi_returns_slice 34 0 (demo_fs 0) [] 0 demo_ip 1 100) as (s' & E & _);
    [done|apply demo_txn|apply demo_layout|cbn; lia|done|apply demo_wf|done|done|].
  exists s'. rewrite E. by vm_compute.
Defined.

Lemma writei_replaces_slice_witness :
  exists s' ip', writei 0 [1; 2; 3] 4 (demo_fs 1) = Ok (3, s')
  /\ file_bytes s' ip' = [10; 11; 12; 13; 1; 2; 3].
Proof.
  pose proof (writei_replaces_slice 34 [33; 32] (demo_fs 1) [] 0 demo_ip [1; 2; 3] 4 0
    ltac:(done) demo_open ltac:(done) ltac:(done) ltac:(vm_compute; lia)
    ltac:(rewrite demo_free; vm_compute; lia)) as H.
  change (if false then writei 0 [1; 2; 3] 4 (demo_fs 1) = Ok (-1, demo_fs 1) else
    exists s' ip' bl' n', writei 0 [1; 2; 3] 4 (demo_fs 1) = Ok (3, s')
    /\ file_bytes s' ip' = take 4 (file_bytes (demo_fs 1) demo_ip) ++ [1; 2; 3]
        ++ drop 7 (file_bytes (demo_fs 1) demo_ip)
    /\ open_file 34 [33; 32] s' bl' 0 ip' n'
    /\ (n' <= 0 + slack demo_ip [] + nblocks 4 3)%nat
    /\ inodes s' = [ip']
    /\ (forall ip2, file_wf (demo_fs 1) 34 ip2 -> apart (demo_fs 1) demo_ip ip2 ->
          file_wf s' 34 ip2 /\ file_bytes s' ip2 = file_bytes (demo_fs 1) ip2)) in H.
  destruct H as (s' & ip' & bl' & n' & E & Hb & _). exists s', ip'. split; [exact E|].
  rewrite Hb. by vm_compute.
Defined.
