(* ===== verification/FsCall.v ===== *)
(** System calls on files as transactions: what [begin_op] and [end_op] of
    src/log.c mean to the files of src/fs.c.

    Between calls the file system is quiet: nothing is logged, and what the cache
    shows of a block outside the log area is what the disk holds.  A call opens a
    transaction, changes files through the cache ([FsContents.v]) and commits. *)
From stdpp Require Import base strings numbers list.
From S2P Require Import Prelude CString Bio Log Fs FsInode FsTxn FsAlloc FsFile FsContents.
Local Open Scope Z_scope.

(** * Block sizes across a commit *)

Lemma apply_writes_len ws d n b : Forall (fun w => length (snd w) = 512%nat) ws ->
  apply_writes ws d !! n = Some b -> length b = 512%nat \/ d !! n = Some b.
Proof.
  intros H. revert d. induction H as [|[m x] ws Hx _ IH]; intros d Hb; [by right|].
  destruct (IH (<[Z.to_nat m := x]> d) Hb) as [?|Hd]; [by left|].
  apply list_lookup_insert_Some in Hd as [(_ & <- & _)|[_ ?]]; [by left|by right].
Qed.

Lemma zip_snd_len {A} (l : list A) (vs : list block) : Forall (fun v => length v = 512%nat) vs ->
  Forall (fun w => length (snd w) = 512%nat) (zip l vs).
Proof.
  intros H. revert l. induction H as [|v vs Hv _ IH]; intros [|x l]; cbn; by constructor.
Qed.

Lemma commit_lengths c l sz bl :
  let vals := pending_vals c bl in
  pending c l sz bl vals -> bl <> [] ->
  (forall m d, 0 <= m -> view c m = Some d -> length d = 512%nat) ->
  forall c', commit (mkLstate c l) = Ok (tt, mkLstate c' (cleared l)) ->
  forall m d, 0 <= m -> view c' m = Some d -> length d = 512%nat.
Proof.
  intros vals Hp Hne Hlen c' Hrun m d Hm Hd.
  destruct (commit_spec c l sz bl vals Hp Hne) as (c1 & E1 & _ & Hdk & _).
  destruct (commit_result c l sz bl vals Hp Hne) as (c2 & E2 & Hhome & _ & Hwf' & Hl2 & Hb & Hcl).
  rewrite Hrun in E1, E2. injection E1 as <-. injection E2 as <-.
  rewrite (clean_view c') in Hd by (done || apply Hcl).
  pose proof Hp as [Hinv _ Hwf He _ Htr Hdt _ _].
  destruct (decide (home (start l) sz (Z.of_nat (length (disk c))) m)) as [Hh|Hh].
  { destruct (Hhome m Hh) as [H1 _]. rewrite H1 in Hd. by apply (Hlen m). }
  assert (Forall (fun v => length v = 512%nat) vals) as Hvals.
  { apply Forall_forall. intros v (b & -> & Hb')%list_elem_of_fmap.
    pose proof (proj1 (Forall_forall _ _) (tr_home _ _ _ _ _ _ Htr) b Hb') as [Hr _].
    destruct (view_in_range c b Hinv Hr) as [x Hx]. rewrite Hx. by apply (Hlen b); [lia|]. }
  destruct (logging_commits _ _ _ _ _ _ Hwf He Htr) as (Hwf1 & Hhd & Hhb & Hsl & _).
  assert (Forall (fun w => length (snd w) = 512%nat) (commit_writes (start l) (disk c) bl (lh_block l) vals)) as Hws.
  { unfold commit_writes. cbv zeta. apply Forall_app. split.
    - unfold logging_writes. apply Forall_app. split; [by apply zip_snd_len|]. apply Forall_singleton.
      cbn [snd]. rewrite <- Hhd. pose proof (wf_head _ _ _ Hwf1) as H. unfold is_head, BSIZE in H. lia.
    - unfold recovery_writes. rewrite Hsl. apply Forall_app. split; [by apply zip_snd_len|]. apply Forall_singleton.
      cbn [snd]. pose proof (wf_head _ _ _ Hwf1) as H.
      unfold put_head. rewrite length_put_blocks, length_put_int.
      unfold is_head, BSIZE in H. lia. }
  rewrite Hdk in Hd. destruct (apply_writes_len _ _ _ _ Hws Hd) as [|Hd0]; [done|].
  apply (Hlen m); [done|]. rewrite clean_view; [done|done|].
  intros Hdirty%Hdt. apply Hh. by apply (proj1 (Forall_forall _ _) (tr_home _ _ _ _ _ _ Htr)).
Qed.

(** * Opening and closing a transaction *)

Record quiet_fs (s : fstate) : Prop := {
  qf_txn : txn_at 0 s [] [];
  qf_out : outstanding (flog s) = 0 }.

Definition opened (s : fstate) : fstate :=
  let l := flog s in
  with_cache s (fcache s) (mkLog (start l) (size l) 1 false (ldev l) 0 (lh_block l)).

Lemma start_op_spec s : quiet_fs s -> start_op s = Ok (tt, opened s) /\ txn (opened s) [] [].
Proof.
  intros [Ht Ho]. pose proof Ht as Ht0. destruct Ht0. split.
  - unfold start_op, on_log, begin_op, set_log. mrun. fold (flog s). rewrite tx_idle, Ho, tx_n.
    change (LOGSIZE <? Z.of_nat (@length Z []) + (0 + 1) * MAXOPBLOCKS) with false. cbn. done.
  - by split.
Qed.

Lemma opened_ext s : quiet_fs s -> fcache (opened s) = fcache s /\ inodes (opened s) = inodes s
  /\ sb (opened s) = sb s /\ cwd (opened s) = cwd s.
Proof. done. Qed.

(** What a commit keeps. *)
Record committed (s s' : fstate) : Prop := {
  cm_quiet : quiet_fs s';
  cm_view : forall n, fhome s n -> fview s' n = fview s n;
  cm_disk : forall n, fhome s n -> disk (fcache s') !! Z.to_nat n = fview s n;
  cm_nblk : nblk s' = nblk s;
  cm_start : start (flog s') = start (flog s);
  cm_size : size (flog s') = size (flog s);
  cm_sb : sb s' = sb s;
  cm_inodes : inodes s' = inodes s;
  cm_cwd : cwd s' = cwd s;
  cm_len : (forall n d, 0 <= n -> fview s n = Some d -> length d = 512%nat) ->
           forall n d, 0 <= n -> fview s' n = Some d -> length d = 512%nat }.

Lemma txn_pending s bl : txn s bl [] -> (length bl < 30)%nat ->
  forall l, start l = start (flog s) -> size l = size (flog s) -> ldev l = ldev (flog s) ->
  lh_n l = lh_n (flog s) -> lh_block l = lh_block (flog s) ->
  pending (fcache s) l (size l) bl (pending_vals (fcache s) bl).
Proof.
  intros Ht Hlen l E1 E2 E3 E4 E5. destruct Ht. split; rewrite ?E1, ?E2, ?E3, ?E4, ?E5; try done.
  - split; try done.
    + unfold LOGSIZE, MAXOPBLOCKS in *. lia.
    + unfold pending_vals. by rewrite length_map.
  - intros j b v Hb Hv. unfold pending_vals in Hv. rewrite list_lookup_fmap, Hb in Hv. cbn in Hv. injection Hv as <-.
    pose proof (Forall_lookup_1 _ _ _ _ tx_home Hb) as [Hr _].
    by destruct (view_in_range (fcache s) b tx_inv Hr) as [x ->].
Qed.

(** Only one call is running: [end_op] commits. *)
Lemma end_op_spec s bl : txn s bl [] -> outstanding (flog s) = 1 -> (length bl < 30)%nat ->
  exists s', on_log end_op s = Ok (tt, s') /\ committed s s'.
Proof.
  intros Ht Ho Hlen. pose proof Ht as Ht0. destruct Ht0.
  set (l := flog s) in *. set (l1 := mkLog (start l) (size l) 0 true (ldev l) (lh_n l) (lh_block l)).
  assert (forall c', commit (mkLstate (fcache s) l1) = Ok (tt, mkLstate c' (cleared l1)) ->
    on_log end_op s = Ok (tt, with_cache s c' (mkLog (start l) (size l) 0 false (ldev l) 0 (lh_block l)))) as Hrun.
  { intros c' E. unfold on_log, end_op, set_log. mrun. fold (flog s). fold l. rewrite tx_idle, Ho.
    change (1 - 1) with 0. change (0 =? 0) with true. cbn iota. mrun. fold (fcache s). fold l1. rewrite E. done. }
  destruct (decide (bl = [])) as [->|Hne].
  - assert (forall m, ~ dirty (fcache s) m) as Hcl by (intros m ?%tx_dirty; by apply elem_of_nil in H).
    eexists. split.
    { apply (Hrun (fcache s)). unfold commit. mrun. cbn [lg l1 lh_n]. rewrite tx_n. cbn.
      unfold cleared, l1. cbn. by rewrite tx_n. }
    split; try done.
    intros n [_ _]. symmetry. apply clean_view; [done|apply Hcl].
  - pose proof (txn_pending s bl Ht Hlen l1 eq_refl eq_refl eq_refl eq_refl eq_refl) as Hp.
    destruct (commit_result _ _ _ _ _ Hp Hne) as (c' & E & Hdisk & He & Hwf & Hl & Hb & Hcl).
    exists (with_cache s c' (mkLog (start l) (size l) 0 false (ldev l) 0 (lh_block l))).
    split; [by apply Hrun|]. split; try done.
    + split; [|done]. split; try done.
      * apply NoDup_nil_2.
      * intros m. split; [by intros ?%Hcl|by intros ?%elem_of_nil].
    + intros n Hn. by apply Hdisk.
    + intros n Hn. by apply Hdisk.
    + unfold nblk, fcache. cbn. by rewrite Hl.
    + intros H512. apply (commit_lengths (fcache s) l1 (size l1) bl Hp Hne H512 c' E).
Qed.

(** * A file between system calls *)

Section Files.
Context (ds : Z) (O : list Z).
Hypothesis Hds : 0 < ds.

(** Its inode is cached, valid, referenced and unlocked, and agrees with the one
    on disk. *)
Record idle_file (s : fstate) (i : nat) (ip : inode) : Prop := {
  id_quiet : quiet_fs s;
  id_layout : layout s ds;
  id_bitmap : bitmap_in O s;
  id_size : sb_size (sb s) < 2 ^ 32;
  id_ip : inodes s !! i = Some ip;
  id_wf : file_wf s ds ip;
  id_ok : inode_ok ip;
  id_block : inode_block ds O s ip;
  id_stored : stored s ip;
  id_lock : ilocked ip = 0;
  id_valid : has (iflags ip) I_VALID = true;
  id_ref : 1 <= iref ip }.

Lemma file_wf_lock s ip l : file_wf s ds ip -> file_wf s ds (with_lock ip l).
Proof. intros []. by split. Qed.

Lemma stored_lock s ip l : stored s ip -> stored s (with_lock ip l).
Proof.
  intros (d & Hd & Hg). exists d. split; [done|].
  change (with_lock (get_dinode d (dinode_off (inum ip)) ip) l = with_lock ip l). by rewrite Hg.
Qed.

Lemma inode_ok_lock ip l : inode_ok ip -> inode_ok (with_lock ip l).
Proof. intros []. by split. Qed.

(** Two states that show the same blocks outside the log area. *)
Record shows (s s' : fstate) : Prop := {
  sh_view : forall n, fhome s n -> fview s' n = fview s n;
  sh_nblk : nblk s' = nblk s;
  sh_start : start (flog s') = start (flog s);
  sh_size : size (flog s') = size (flog s);
  sh_sb : sb s' = sb s }.

Lemma committed_shows s s' : committed s s' -> shows s s'.
Proof. intros []. by split. Qed.

Lemma shows_allocated s s' b : shows s s' -> layout s ds -> 0 <= b < sb_size (sb s) -> allocated s' b = allocated s b.
Proof.
  intros Hs Hly Hb. unfold allocated. rewrite (sh_sb _ _ Hs), (sh_view _ _ Hs); [done|]. by apply (ly_bmap _ _ Hly).
Qed.

Lemma shows_blk s s' ip k : shows s s' -> layout s ds -> file_wf s ds ip -> blk s' ip k = blk s ip k.
Proof.
  intros Hs Hly Hwf. unfold blk. destruct (_ <? _); [done|]. apply ind_entry_view; [done|].
  intros H0. apply (sh_view _ _ Hs). eapply data_home; [done|]. apply (fw_ind _ _ _ Hwf H0).
Qed.

Lemma shows_data s s' b : shows s s' -> layout s ds -> data_block s ds b -> data_block s' ds b.
Proof.
  intros Hs Hly [Hr Ha]. split; [by rewrite (sh_sb _ _ Hs)|]. rewrite (shows_allocated s s') by (done || lia). done.
Qed.

Lemma shows_wf s s' ip : shows s s' -> layout s ds -> file_wf s ds ip -> file_wf s' ds ip.
Proof.
  intros Hs Hly Hwf. pose proof (shows_blk s s' ip) as Hb. pose proof Hwf as [W1 W2 W3 W4 W5 W6 W7].
  split; try done.
  - intros k Hk. rewrite Hb by done. intros H0. destruct (W4 k Hk H0) as [D1 D2]. split; [|done]. by apply (shows_data s s').
  - intros H0. by apply (shows_data s s'), W5.
  - intros k k' Hk Hk'. rewrite !Hb by done. by apply W6.
  - intros k Hk Hlt. rewrite Hb by done. by apply W7.
Qed.

Lemma shows_bytes s s' ip : shows s s' -> layout s ds -> file_wf s ds ip -> file_bytes s' ip = file_bytes s ip.
Proof.
  intros Hs Hly Hwf. unfold file_bytes. apply list_fmap_ext. intros j x Hx. apply lookup_seqZ in Hx as [-> Hj].
  pose proof (fw_size _ _ _ Hwf) as Hsz. unfold byte. rewrite (shows_blk s s') by done. rewrite (sh_view _ _ Hs); [done|].
  assert (blk s ip ((0 + Z.of_nat j) / BSIZE) <> 0) as H0.
  { apply (fw_cover _ _ _ Hwf); change BSIZE with 512 in *; Z.div_mod_to_equations; lia. }
  eapply data_home; [done|]. apply (fw_blk _ _ _ Hwf); [apply blk_index; lia|done].
Qed.

Lemma shows_apart s s' ip ip2 : shows s s' -> layout s ds -> file_wf s ds ip -> file_wf s ds ip2 ->
  apart s ip ip2 -> apart s' ip ip2.
Proof.
  intros Hs Hly W1 W2 [A1 A2]. split; [done|]. intros k Hk. rewrite !(shows_blk s s') by done.
  destruct (A2 k Hk) as (B1 & B2 & B3). split; [done|]. split; [done|].
  intros k' Hk'. rewrite (shows_blk s s') by done. auto.
Qed.

Lemma shows_nfree s s' : shows s s' -> layout s ds -> nfree s' = nfree s.
Proof. intros Hs Hly. apply nfree_ext; [apply Hs|]. intros b Hb. by apply shows_allocated. Qed.

Lemma committed_layout s s' : committed s s' -> layout s ds -> layout s' ds.
Proof.
  intros Hc Hly. pose proof (committed_shows _ _ Hc) as Hs. pose proof Hly as [L1 L2 L3 L4 L5]. pose proof Hs as [S1 S2 S3 S4 S5].
  split.
  - by rewrite S5, S2.
  - by rewrite S3, S4.
  - intros b Hb. rewrite S5 in *. unfold fhome. rewrite S3, S4, S2. by apply L3.
  - by apply (cm_len _ _ Hc).
  - intros b Hb. rewrite (shows_allocated s s') by (done || lia). by apply L5.
Qed.

(** * A call on the file *)

Lemma ilock_cached s i ip : inodes s !! i = Some ip -> ilocked ip = 0 -> has (iflags ip) I_VALID = true ->
  1 <= iref ip -> ilock i s = Ok (tt, put_ip s i (with_lock ip 1)).
Proof.
  intros Hi Hl Hv Hr. unfold ilock. rewrite (bind_ok _ _ _ _ _ (get_ip_ok i ip s Hi)).
  replace (iref ip <? 1) with false by lia. rewrite Hl. cbn [Z.eqb negb].
  rewrite (bind_ok _ _ _ _ _ (set_ip_ok _ _ _)). cbn [iflags with_lock]. by rewrite Hv.
Qed.

Lemma iunlock_cached s i ip : inodes s !! i = Some ip -> ilocked ip <> 0 -> 1 <= iref ip ->
  iunlock i s = Ok (tt, put_ip s i (with_lock ip 0)).
Proof.
  intros Hi Hl Hr. unfold iunlock. rewrite (bind_ok _ _ _ _ _ (get_ip_ok i ip s Hi)).
  replace ((ilocked ip =? 0) || (iref ip <? 1)) with false by lia. done.
Qed.

Lemma put_ip_twice s i ip ip' : put_ip (put_ip s i ip) i ip' = put_ip s i ip'.
Proof. unfold put_ip. cbn. by rewrite list_insert_insert_eq. Qed.

Lemma call_opens s i ip : idle_file s i ip ->
  start_op s = Ok (tt, opened s) /\ ilock i (opened s) = Ok (tt, put_ip (opened s) i (with_lock ip 1))
  /\ open_file ds O (put_ip (opened s) i (with_lock ip 1)) [] i (with_lock ip 1) 0.
Proof.
  intros [Q Hly HO Hsz Hi Hwf Hok Hib Hst Hl Hv Hr]. destruct (start_op_spec s Q) as [E Ht].
  split; [done|]. split; [by apply ilock_cached|].
  assert (shows s (opened s)) as Hs by (by split).
  split; try done.
  - by apply put_ip_txn.
  - by destruct Hly; split.
  - split; [by intros m ?%elem_of_nil|cbn; lia].
  - cbn. apply list_lookup_insert_eq. by eapply lookup_lt_Some.
  - apply file_wf_lock. by destruct Hwf; split.
  - by apply inode_ok_lock.
  - by destruct Hib; split.
  - by apply stored_lock.
Qed.

Lemma call_commits s bl i ip n : open_file ds O s bl i ip n -> outstanding (flog s) = 1 -> (length bl < 30)%nat ->
  ilocked ip = 1 -> has (iflags ip) I_VALID = true -> 1 <= iref ip ->
  iunlock i s = Ok (tt, put_ip s i (with_lock ip 0))
  /\ exists s', on_log end_op (put_ip s i (with_lock ip 0)) = Ok (tt, s')
  /\ idle_file s' i (with_lock ip 0) /\ file_bytes s' (with_lock ip 0) = file_bytes s ip
  /\ inodes s' = <[i := with_lock ip 0]> (inodes s) /\ nfree s' = nfree s /\ shows s s'
  /\ forall ip2, file_wf s ds ip2 -> file_wf s' ds ip2 /\ file_bytes s' ip2 = file_bytes s ip2
       /\ (apart s ip ip2 -> apart s' (with_lock ip 0) ip2).
Proof.
  intros [Ht Hly HO Hsz _ Hi Hwf Hok Hib Hst] Ho Hlen Hl Hv Hr.
  split; [apply iunlock_cached; (done || lia)|].
  destruct (end_op_spec (put_ip s i (with_lock ip 0)) bl) as (s' & E & Hc); [by apply put_ip_txn|done|done|].
  exists s'. split; [done|].
  assert (layout (put_ip s i (with_lock ip 0)) ds) as Hlyp by (by destruct Hly; split).
  assert (shows s s') as Hs by (pose proof (committed_shows _ _ Hc) as []; by split).
  assert (file_wf s' ds (with_lock ip 0)) as Hwf' by (by apply file_wf_lock, (shows_wf s s')).
  split; [|split; [exact (shows_bytes s s' ip Hs Hly Hwf)|split; [apply (cm_inodes _ _ Hc)|split; [by apply shows_nfree|split; [done|]]]]].
  - destruct Hib as [I1 I2 I3 I4 I5]. split; try done.
    + apply Hc.
    + by eapply committed_layout.
    + intros b. rewrite (sh_sb _ _ Hs). apply HO.
    + by rewrite (sh_sb _ _ Hs).
    + rewrite (cm_inodes _ _ Hc). cbn. apply list_lookup_insert_eq. by eapply lookup_lt_Some.
    + by apply inode_ok_lock.
    + cbn. split; rewrite ?(sh_sb _ _ Hs); try done. unfold fhome in *. by rewrite (sh_start _ _ Hs), (sh_size _ _ Hs), (sh_nblk _ _ Hs).
    + apply stored_lock. destruct Hst as (d & Hd & Hg). exists d. split; [|done].
      rewrite (sh_sb _ _ Hs), (sh_view _ _ Hs); done.
  - intros ip2 Hwf2. split; [by apply (shows_wf s s')|]. split; [by apply (shows_bytes s s')|].
    intros Hap. by apply (shows_apart s s' ip ip2).
Qed.

(** One transaction of [filewrite]. *)
Lemma write_chunk s i ip src off : idle_file s i ip -> 0 <= off <= isize ip -> off + Z.of_nat (length src) <= MAXFILE * BSIZE ->
  (length O + 1 + nblocks off (Z.of_nat (length src)) + 5 <= 28)%nat ->
  (nblocks off (Z.of_nat (length src)) + noind ip <= nfree s)%nat ->
  exists s1 s2 s' ip', start_op s = Ok (tt, opened s) /\ ilock i (opened s) = Ok (tt, s1)
  /\ writei i src off s1 = Ok (Z.of_nat (length src), s2)
  /\ (iunlock i ;; on_log end_op) s2 = Ok (tt, s')
  /\ idle_file s' i ip' /\ inodes s' = <[i := ip']> (inodes s)
  /\ file_bytes s' ip' = take (Z.to_nat off) (file_bytes s ip) ++ src
      ++ drop (Z.to_nat (off + Z.of_nat (length src))) (file_bytes s ip)
  /\ ip' = with_size (set_addrs ip (addrs ip')) (isize ip')
  /\ (nfree s + noind ip' <= nfree s' + nblocks off (Z.of_nat (length src)) + noind ip)%nat
  /\ forall ip2, file_wf s ds ip2 -> apart s ip ip2 -> keeps ds s s' ip2 /\ apart s' ip' ip2.
Proof.
  intros Hid Hoff Hmax Hcap Hfree. destruct (call_opens s i ip Hid) as (E1 & E2 & Hof).
  set (s1 := put_ip (opened s) i (with_lock ip 1)) in *.
  pose proof (slack_le1 (with_lock ip 1) []) as Hsl. change (MAXFILE * BSIZE) with 71680 in *.
  pose proof (writei_spec ds O Hds s1 [] i (with_lock ip 1) src off 0 Hof) as W. cbv zeta in W.
  change (MAXFILE * BSIZE) with 71680 in W. cbn [isize with_lock] in W.
  replace ((isize ip <? off) || (71680 <? off + Z.of_nat (length src))) with false in W by lia.
  destruct W as (s2 & ip2 & bl & n & E3 & Hof2 & Hn & Hi2 & Hb & Hip & Hfr & Hx & Hk);
    [unfold is_u32; lia|lia|lia|exact Hfree|].
  exists s1, s2.
  assert (ilocked ip2 = 1 /\ iflags ip2 = iflags ip /\ iref ip2 = iref ip) as (F1 & F2 & F3) by (by rewrite Hip).
  pose proof (fits_length _ _ _ _ (tx_nodup _ _ _ (of_txn _ _ _ _ _ _ _ Hof2)) (of_fits _ _ _ _ _ _ _ Hof2)) as Hbl.
  destruct (call_commits s2 bl i ip2 n Hof2) as (E4 & s' & E5 & Hid' & Hb' & Hi' & Hf' & Hs' & Hk'); try done.
  { by rewrite (ex_out _ _ Hx). }
  { lia. }
  { by rewrite F2, (id_valid _ _ _ Hid). }
  { rewrite F3. apply Hid. }
  exists s', (with_lock ip2 0). split; [done|]. split; [done|]. split; [done|].
  split; [by rewrite (bind_ok _ _ _ _ _ E4)|]. split; [done|].
  split; [by rewrite Hi', Hi2; cbn; rewrite !list_insert_insert_eq|].
  split; [by rewrite Hb'|]. split.
  { rewrite Hip. destruct ip. pose proof (id_lock _ _ _ Hid) as Hl. cbn in *. by rewrite Hl. }
  split; [rewrite Hf'; exact Hfr|]. intros ip3 Hwf3 Hap.
  destruct (Hk ip3) as [[K1 K2] K3]; [by destruct Hwf3; split|done|]. destruct (Hk' ip3 K1) as (K4 & K5 & K6).
  split; [|by apply K6]. split; [done|]. rewrite K5, K2. done.
Qed.
End Files.
