(* ===== verification/Mkfs.v ===== *)
(** Model of src/mkfs.c: the host program that builds the file system image.

    The image file is a list of blocks; [assert] and [exit(1)] are [Panic].  The
    structures are written in the kernel's byte order whatever the host's
    ([xshort], [xint]), so the values of the model are those the kernel reads.  A
    file to copy is its name and its bytes, read 512 at a time. *)
From stdpp Require Import base strings numbers list.
From S2P Require Import Prelude CString Bio Log Fs.
Local Open Scope Z_scope.

Definition FSSIZE : Z := 1000.
Definition NINODES : Z := 200.
Definition nbitmap : Z := FSSIZE / (BSIZE * 8) + 1.
Definition ninodeblocks : Z := NINODES / IPB + 1.
Definition nlog : Z := LOGSIZE.
Definition nmeta : Z := 2 + nlog + ninodeblocks + nbitmap.
Definition mk_nblocks : Z := FSSIZE - nmeta.
Definition mk_sb : superblock :=
  mkSuper FSSIZE mk_nblocks NINODES nlog 2 (2 + nlog) (2 + nlog + ninodeblocks).

Record mkstate : Type := mkMk {
  image : list block;
  freeinode : Z;
  freeblock : Z }.

Definition stuck {A} : M mkstate A := fun _ => NoFuel.

Definition zeroes : block := replicate (Z.to_nat BSIZE) 0.

(** Writing past the end of the image file extends it. *)
Definition wsect (sec : Z) (buf : block) : M mkstate unit :=
  modify (fun s =>
    let k := Z.to_nat sec in
    let d := image s ++ replicate (S k - length (image s)) zeroes in
    mkMk (<[k := buf]> d) (freeinode s) (freeblock s)).

Definition rsect (sec : Z) : M mkstate block := fun s =>
  match image s !! Z.to_nat sec with Some b => Ok (b, s) | None => Panic "read" end.

Definition winode (inum : Z) (ip : inode) : M mkstate unit :=
  let bn := IBLOCK inum mk_sb in
  buf ← rsect bn;
  wsect bn (put_dinode buf (dinode_off inum) ip).

(** A [struct dinode] is the inode with its in-memory fields zero. *)
Definition din0 (inum : Z) : inode := mkInode 1 inum 0 0 0 0 0 0 0 0 (replicate 13 0).

Definition rinode (inum : Z) : M mkstate inode :=
  buf ← rsect (IBLOCK inum mk_sb);
  mret (get_dinode buf (dinode_off inum) (din0 inum)).

Definition mk_ialloc (type : Z) : M mkstate Z :=
  s ← get;
  let inum := freeinode s in
  put (mkMk (image s) (u32 (inum + 1)) (freeblock s)) ;;
  winode inum (mkInode 1 inum 0 0 0 (s16 type) 0 0 1 0 (replicate 13 0)) ;;
  mret inum.

(** [freeblock++]. *)
Definition next_block : M mkstate Z :=
  s ← get;
  put (mkMk (image s) (freeinode s) (u32 (freeblock s + 1))) ;;
  mret (freeblock s).

(** The address of block [fbn] of the file with addresses [ad], allocated if it
    has none, and the new addresses. *)
Definition get_block (ad : list Z) (fbn : Z) : M mkstate (Z * list Z) :=
  if fbn <? NDIRECT then
    let k := Z.to_nat fbn in
    ad ← (if nth k ad 0 =? 0 then x ← next_block; mret (<[k := x]> ad) else mret ad);
    mret (nth k ad 0, ad)
  else
    let k := Z.to_nat NDIRECT in
    ad ← (if nth k ad 0 =? 0 then x ← next_block; mret (<[k := x]> ad) else mret ad);
    indirect ← rsect (nth k ad 0);
    let j := (4 * Z.to_nat (fbn - NDIRECT))%nat in
    indirect ←
      (if get_uint indirect j =? 0 then
         x ← next_block;
         let indirect := put_int indirect j x in
         wsect (nth k ad 0) indirect ;;
         mret indirect
       else mret indirect);
    mret (get_uint indirect j, ad).

(** The loop of [iappend]; every turn takes at least one byte. *)
Fixpoint iappend_loop (fuel : nat) (ad : list Z) (off : Z) (p : list Z) : M mkstate (list Z * Z) :=
  match p with
  | [] => mret (ad, off)
  | _ =>
      match fuel with
      | O => stuck
      | S fuel =>
          let fbn := off / BSIZE in
          if negb (fbn <? MAXFILE) then panic "assert"
          else
            '(x, ad) ← get_block ad fbn;
            let n1 := Z.min (Z.of_nat (length p)) ((fbn + 1) * BSIZE - off) in
            buf ← rsect x;
            wsect x (splice buf (Z.to_nat (off - fbn * BSIZE)) (take (Z.to_nat n1) p)) ;;
            iappend_loop fuel ad (off + n1) (drop (Z.to_nat n1) p)
      end
  end.

Definition iappend (inum : Z) (p : list Z) : M mkstate unit :=
  din ← rinode inum;
  '(ad, off) ← iappend_loop (length p) (addrs din) (isize din) p;
  winode inum (mkInode (idev din) inum 0 0 0 (itype din) (major din) (minor din) (nlink din) (u32 off) ad).

(** [buf[i/8] = buf[i/8] | (0x1 << (i%8))] for the first [used] blocks. *)
Fixpoint set_bits (buf : block) (bs : list Z) : block :=
  match bs with
  | [] => buf
  | i :: bs => set_bits (set_bit buf i) bs
  end.

Definition mk_balloc (used : Z) : M mkstate unit :=
  if negb (used <? BSIZE * 8) then panic "assert"
  else wsect (sb_bmapstart mk_sb) (set_bits zeroes (seqZ 0 used)).

Definition put_super (d : block) (s : superblock) : block :=
  put_uints d 0 [sb_size s; sb_nblocks s; sb_ninodes s; sb_nlog s; sb_logstart s; sb_inodestart s; sb_bmapstart s].

(** A directory entry whose name the string [name] fills with zeros. *)
Definition mk_dirent (inum : Z) (name : list Z) : list Z :=
  put_dirent (mkDirent (u16 inum) (strncpy name (Z.to_nat DIRSIZ))).

(** [while((cc = read(fd, buf, sizeof(buf))) > 0) iappend(inum, buf, cc)]. *)
Fixpoint copy_file (fuel : nat) (inum : Z) (bytes : list Z) : M mkstate unit :=
  match bytes with
  | [] => mret tt
  | _ =>
      match fuel with
      | O => stuck
      | S fuel =>
          iappend inum (take (Z.to_nat BSIZE) bytes) ;;
          copy_file fuel inum (drop (Z.to_nat BSIZE) bytes)
      end
  end.

(** [_rm] is copied as [rm]. *)
Definition image_name (arg : list Z) : list Z :=
  match arg with c :: rest => if c =? 95 (* '_' *) then rest else arg | [] => [] end.

Fixpoint add_files (rootino : Z) (files : list (list Z * list Z)) : M mkstate unit :=
  match files with
  | [] => mret tt
  | (arg, bytes) :: files =>
      if bool_decide (47 ∈ arg) then panic "assert"
      else
        inum ← mk_ialloc 2;
        iappend rootino (mk_dirent inum (image_name arg)) ;;
        copy_file (length bytes) inum bytes ;;
        add_files rootino files
  end.

Fixpoint wzero (secs : list Z) : M mkstate unit :=
  match secs with
  | [] => mret tt
  | i :: secs => wsect i zeroes ;; wzero secs
  end.

(** [main] from the opened image on. *)
Definition mkfs (files : list (list Z * list Z)) : M mkstate unit :=
  wzero (seqZ 0 FSSIZE) ;;
  wsect 1 (put_super zeroes mk_sb) ;;
  rootino ← mk_ialloc 1;
  if negb (rootino =? 1) then panic "assert"
  else
    iappend rootino (mk_dirent rootino [46]) ;;
    iappend rootino (mk_dirent rootino [46; 46]) ;;
    add_files rootino files ;;
    din ← rinode rootino;
    let off := (isize din / BSIZE + 1) * BSIZE in
    winode rootino (with_size din (u32 off)) ;;
    s ← get;
    mk_balloc (s32 (freeblock s)).

(** The image file is truncated when it is opened. *)
Definition mk_start : mkstate := mkMk [] 1 nmeta.
