(* ===== verification/Ide.v ===== *)
(** Model of src/ide.c: the disk driver of the standard kernel, against the drive.

    The drive is hardware: [DriveOps] holds what a processor can do to it (the port
    instructions), [Drive] what the ATA interface promises of their effect, in terms
    of a view: the address registers, what the drive is doing, and its blocks.

    The buffers are those of the buffer cache; [qnext] is the table of their queue
    links.  [calls] holds the processes inside [iderw], by the buffer each has
    locked: [true] while it sleeps.  [acquire] and [release] of [idelock] make
    [iderw] up to its [sleep], each turn of its waiting loop, and [ideintr] atomic
    steps; they are the steps here. *)
From stdpp Require Import base strings numbers list gmap.
From S2P Require Import Prelude Bio Mkfs.
Local Open Scope Z_scope.

Definition SECTOR_SIZE : Z := 512.
Definition IDE_BSY : Z := 0x80.
Definition IDE_DRDY : Z := 0x40.
Definition IDE_DF : Z := 0x20.
Definition IDE_ERR : Z := 0x01.
Definition IDE_CMD_READ : Z := 0x20.
Definition IDE_CMD_WRITE : Z := 0x30.
Definition IDE_CMD_RDMUL : Z := 0xc4.
Definition IDE_CMD_WRMUL : Z := 0xc5.

(** * The drive *)

Class DriveOps (D : Type) : Type := {
  outb : Z -> Z -> D -> D;
  inb : Z -> D -> Z * D;
  outsl : Z -> list Z -> D -> D;
  (** [insl port n]: [n] words of four bytes. *)
  insl : Z -> Z -> D -> list Z * D }.

(** What the drive is doing: nothing; reading a sector; holding the sector it has
    read; waiting for the sector to write; writing it. *)
Inductive phase : Type :=
  | PReady
  | PRead (drv sec : Z)
  | PData (drv sec : Z)
  | PWrite (drv sec : Z)
  | PFlush.

Record dview : Type := mkView {
  v_regs : list Z;
  v_phase : phase;
  v_disk : Z -> Z -> block }.

Definition with_phase (v : dview) (p : phase) : dview := mkView (v_regs v) p (v_disk v).
Definition status_ready (st : Z) : bool := Z.land st (Z.lor IDE_BSY IDE_DRDY) =? IDE_DRDY.
Definition status_err (st : Z) : bool := negb (Z.land st (Z.lor IDE_DF IDE_ERR) =? 0).

(** Reading the status shows how far the command has come. *)
Definition next_phase (p : phase) (st : Z) : phase :=
  if status_ready st then
    match p with
    | PRead d n => if status_err st then PReady else PData d n
    | PFlush => PReady
    | _ => p
    end
  else p.

(** The registers behind ports 0x1f2 to 0x1f6: the number of sectors, three bytes of
    address, and the drive with the last four address bits. *)
Definition sel_count (r : list Z) : Z := nth 0 r 0.
Definition sel_sec (r : list Z) : Z :=
  nth 1 r 0 + 2 ^ 8 * nth 2 r 0 + 2 ^ 16 * nth 3 r 0 + 2 ^ 24 * (nth 4 r 0 mod 16).
Definition sel_drv (r : list Z) : Z := (nth 4 r 0 / 16) mod 2.

Definition store_sector (m : Z -> Z -> block) (drv sec : Z) (bs : block) : Z -> Z -> block :=
  fun d n => if (d =? drv) && (n =? sec) then bs else m d n.

(** Some of the next [n] answers of the status port says ready. *)
Fixpoint ready_within {D} `{DriveOps D} (n : nat) (d : D) : bool :=
  match n with
  | O => false
  | S n => let '(st, d) := inb 0x1f7 d in status_ready st || ready_within n d
  end.

(** What the driver relies on.  All but one of the laws are promises of the ATA
    interface; [view_write] with [view_outsl] says more: the drive takes the sector
    right after the write command.  ATA asks the host to wait until the drive is not
    busy and asks for data (DRQ); [idestart] writes the data without looking, so the
    driver works only with drives that are ready for it at once, such as emulated
    ones. *)
Class Drive (D : Type) `{DriveOps D} : Type := {
  view : D -> dview;
  patience : nat;
  (** The sectors the drive cannot read. *)
  bad : Z -> Z -> bool;
  view_regs : forall d, length (v_regs (view d)) = 5%nat;
  view_ctl : forall x d, view (outb 0x3f6 x d) = view d;
  view_reg : forall p x d, 0x1f2 <= p <= 0x1f6 -> v_phase (view d) = PReady ->
    view (outb p x d) = mkView (<[Z.to_nat (p - 0x1f2) := x]> (v_regs (view d))) PReady (v_disk (view d));
  view_read : forall d, v_phase (view d) = PReady -> sel_count (v_regs (view d)) = 1 ->
    view (outb 0x1f7 IDE_CMD_READ d)
    = with_phase (view d) (PRead (sel_drv (v_regs (view d))) (sel_sec (v_regs (view d))));
  view_write : forall d, v_phase (view d) = PReady -> sel_count (v_regs (view d)) = 1 ->
    view (outb 0x1f7 IDE_CMD_WRITE d)
    = with_phase (view d) (PWrite (sel_drv (v_regs (view d))) (sel_sec (v_regs (view d))));
  view_outsl : forall bs d drv sec, v_phase (view d) = PWrite drv sec -> length bs = 512%nat ->
    view (outsl 0x1f0 bs d) = mkView (v_regs (view d)) PFlush (store_sector (v_disk (view d)) drv sec bs);
  view_status : forall d, let '(st, d') := inb 0x1f7 d in
    view d' = with_phase (view d) (next_phase (v_phase (view d)) st);
  read_error : forall d drv sec, v_phase (view d) = PRead drv sec ->
    let '(st, _) := inb 0x1f7 d in status_ready st = true -> status_err st = bad drv sec;
  view_insl : forall d drv sec, v_phase (view d) = PData drv sec ->
    let '(bs, d') := insl 0x1f0 128 d in
    bs = v_disk (view d) drv sec /\ view d' = with_phase (view d) PReady;
  drive_patient : forall d, ready_within patience d = true }.

(** * The driver *)

Record ide (D : Type) : Type := mkIde {
  ib : list buf;
  qnext : list (option nat);
  idequeue : option nat;
  havedisk1 : bool;
  drive : D;
  calls : gmap nat bool }.
Arguments mkIde {D} _ _ _ _ _ _.
Arguments ib {D} _.
Arguments qnext {D} _.
Arguments idequeue {D} _.
Arguments havedisk1 {D} _.
Arguments drive {D} _.
Arguments calls {D} _.

Section Driver.
Context {D : Type} `{DriveOps D}.

Definition with_drive (s : ide D) (d : D) : ide D :=
  mkIde (ib s) (qnext s) (idequeue s) (havedisk1 s) d (calls s).
Definition with_calls (s : ide D) (c : gmap nat bool) : ide D :=
  mkIde (ib s) (qnext s) (idequeue s) (havedisk1 s) (drive s) c.

Definition d_out (p x : Z) : M (ide D) unit := modify (fun s => with_drive s (outb p x (drive s))).
Definition d_in (p : Z) : M (ide D) Z := fun s =>
  let '(x, d) := inb p (drive s) in Ok (x, with_drive s d).
Definition d_outsl (p : Z) (bs : list Z) : M (ide D) unit :=
  modify (fun s => with_drive s (outsl p bs (drive s))).
Definition d_insl (p n : Z) : M (ide D) (list Z) := fun s =>
  let '(bs, d) := insl p n (drive s) in Ok (bs, with_drive s d).

Definition get_ib (i : nat) : M (ide D) buf := fun s =>
  match ib s !! i with Some b => Ok (b, s) | None => Fault end.
Definition set_ib (i : nat) (b : buf) : M (ide D) unit :=
  modify (fun s => mkIde (<[i := b]> (ib s)) (qnext s) (idequeue s) (havedisk1 s) (drive s) (calls s)).
Definition get_qnext (i : nat) : M (ide D) (option nat) := fun s =>
  match qnext s !! i with Some n => Ok (n, s) | None => Fault end.
Definition set_qnext (i : nat) (n : option nat) : M (ide D) unit :=
  modify (fun s => mkIde (ib s) (<[i := n]> (qnext s)) (idequeue s) (havedisk1 s) (drive s) (calls s)).
Definition set_idequeue (p : option nat) : M (ide D) unit :=
  modify (fun s => mkIde (ib s) (qnext s) p (havedisk1 s) (drive s) (calls s)).
Definition set_havedisk1 : M (ide D) unit :=
  modify (fun s => mkIde (ib s) (qnext s) (idequeue s) true (drive s) (calls s)).

Definition no_polls {A} : M (ide D) A := fun _ => NoFuel.

(** The loop of [idewait], for at most [fuel] polls. *)
Fixpoint idewait_loop (fuel : nat) : M (ide D) Z :=
  match fuel with
  | O => no_polls
  | S fuel =>
      r ← d_in 0x1f7;
      if Z.land r (Z.lor IDE_BSY IDE_DRDY) =? IDE_DRDY then mret r else idewait_loop fuel
  end.

Definition idewait (fuel : nat) (checkerr : bool) : M (ide D) Z :=
  r ← idewait_loop fuel;
  if checkerr && negb (Z.land r (Z.lor IDE_DF IDE_ERR) =? 0) then mret (-1) else mret 0.

(** [for(int i=0; i<1000; i++) if(inb(0x1f7) != 0) { havedisk1 = 1; break; }]. *)
Fixpoint probe (n : nat) : M (ide D) unit :=
  match n with
  | O => mret tt
  | S n => r ← d_in 0x1f7; if negb (r =? 0) then set_havedisk1 else probe n
  end.

Definition ideinit (fuel : nat) : M (ide D) unit :=
  _ ← idewait fuel false;
  d_out 0x1f6 (Z.lor 0xe0 (Z.shiftl 1 4)) ;;
  probe 1000 ;;
  d_out 0x1f6 (Z.lor 0xe0 (Z.shiftl 0 4)).

Definition idestart (fuel : nat) (p : option nat) : M (ide D) unit :=
  match p with
  | None => panic "idestart"
  | Some i =>
      b ← get_ib i;
      if FSSIZE <=? blockno b then panic "incorrect blockno"
      else
        let sector_per_block := BSIZE / SECTOR_SIZE in
        let sector := s32 (blockno b * sector_per_block) in
        let read_cmd := if sector_per_block =? 1 then IDE_CMD_READ else IDE_CMD_RDMUL in
        let write_cmd := if sector_per_block =? 1 then IDE_CMD_WRITE else IDE_CMD_WRMUL in
        if 7 <? sector_per_block then panic "idestart"
        else
          _ ← idewait fuel false;
          d_out 0x3f6 0 ;;
          d_out 0x1f2 sector_per_block ;;
          d_out 0x1f3 (Z.land sector 0xff) ;;
          d_out 0x1f4 (Z.land (Z.shiftr sector 8) 0xff) ;;
          d_out 0x1f5 (Z.land (Z.shiftr sector 16) 0xff) ;;
          d_out 0x1f6 (Z.lor (Z.lor 0xe0 (Z.shiftl (Z.land (dev b) 1) 4)) (Z.land (Z.shiftr sector 24) 0x0f)) ;;
          if has (flags b) B_DIRTY then
            d_out 0x1f7 write_cmd ;;
            d_outsl 0x1f0 (take (Z.to_nat (4 * (BSIZE / 4))) (bdata b))
          else d_out 0x1f7 read_cmd
  end.

(** [wakeup(b)]. *)
Definition wake_call (i : nat) : M (ide D) unit :=
  modify (fun s => with_calls s (alter (fun _ => false) i (calls s))).

Definition ideintr (fuel : nat) : M (ide D) unit :=
  s ← get;
  match idequeue s with
  | None => mret tt
  | Some i =>
      next ← get_qnext i;
      set_idequeue next ;;
      b ← get_ib i;
      data ←
        (if negb (has (flags b) B_DIRTY) then
           ok ← idewait fuel true;
           if 0 <=? ok then d_insl 0x1f0 (BSIZE / 4) else mret (bdata b)
         else mret (bdata b));
      set_ib i (mkBuf (Z.land (Z.lor (flags b) B_VALID) (Z.lnot B_DIRTY))
                  (dev b) (blockno b) (slock b) (refcnt b) data) ;;
      wake_call i ;;
      s ← get;
      match idequeue s with
      | None => mret tt
      | Some _ => idestart fuel (idequeue s)
      end
  end.

(** The walk to the end of the queue: [pp] is [&idequeue] ([None]) or the link of a
    buffer, and [p] is [*pp]. *)
Fixpoint queue_end (fuel : nat) (pp p : option nat) : M (ide D) (option nat) :=
  match p with
  | None => mret pp
  | Some i =>
      match fuel with
      | O => no_polls
      | S fuel => n ← get_qnext i; queue_end fuel (Some i) n
      end
  end.

Definition set_link (pp p : option nat) : M (ide D) unit :=
  match pp with None => set_idequeue p | Some i => set_qnext i p end.

Definition synced (b : buf) : bool := Z.land (flags b) (Z.lor B_VALID B_DIRTY) =? B_VALID.

(** One turn of the waiting loop: the process sleeps, or leaves [iderw]. *)
Definition iderw_wait (i : nat) : M (ide D) unit :=
  b ← get_ib i;
  modify (fun s => with_calls s (if synced b then delete i (calls s) else <[i := true]> (calls s))).

(** [iderw] up to its first [sleep]. *)
Definition iderw_call (fuel : nat) (i : nat) : M (ide D) unit :=
  b ← get_ib i;
  if slock b =? 0 then panic "iderw: buf not locked"
  else if synced b then panic "iderw: nothing to do"
  else
    s ← get;
    if negb (dev b =? 0) && negb (havedisk1 s) then panic "iderw: ide disk 1 not present"
    else
      set_qnext i None ;;
      s ← get;
      pp ← queue_end (length (qnext s)) None (idequeue s);
      set_link pp (Some i) ;;
      s ← get;
      (if decide (idequeue s = Some i) then idestart fuel (Some i) else mret tt) ;;
      iderw_wait i.

End Driver.
