(* ===== verification/IdeRefine.v ===== *)
(** The disk driver of ide.c behaves as the memory disk of memide.c.

    [served] says what the requests in the queue will do; [ide_rel] relates a state
    of the driver to the state the buffer cache would have if every call of [iderw]
    had been carried out by memide.c at the moment it was made. *)
From stdpp Require Import base strings numbers list gmap.
From S2P Require Import Prelude Bio Mkfs Ide.
Local Open Scope Z_scope.

(** * What a request does *)

Notation contents := (Z -> block) (only parsing).

Definition done_buf (c : contents) (b : buf) : buf :=
  if has (flags b) B_DIRTY
  then mkBuf (Z.lor (Z.land (flags b) (Z.lnot B_DIRTY)) B_VALID) (dev b) (blockno b) (slock b) (refcnt b) (bdata b)
  else mkBuf (Z.lor (flags b) B_VALID) (dev b) (blockno b) (slock b) (refcnt b) (c (blockno b)).

Definition write_to (c : contents) (b : buf) : contents :=
  if has (flags b) B_DIRTY then fun n => if n =? blockno b then bdata b else c n else c.

Definition same_disk (c c' : contents) : Prop := forall n, 0 <= n < FSSIZE -> c n = c' n.
#[export] Instance same_disk_equiv : Equivalence same_disk.
Proof.
  split; [by intros c n Hn|by intros c c' E n Hn; rewrite E|].
  intros c c' c'' E E' n Hn. by rewrite E, E'.
Qed.

Record pending (b : buf) : Prop := {
  pd_locked : slock b <> 0;
  pd_open : synced b = false;
  pd_dev : dev b = 1;
  pd_block : 0 <= blockno b < FSSIZE;
  pd_data : length (bdata b) = 512%nat }.

Fixpoint served (c : contents) (bs abs : list buf) (ad : contents) (q : list nat) : Prop :=
  match q with
  | [] => same_disk c ad
  | i :: q => exists b, bs !! i = Some b /\ pending b /\ abs !! i = Some (done_buf c b)
      /\ served (write_to c b) bs abs ad q
  end.

#[export] Instance write_to_proper : Proper (same_disk ==> eq ==> same_disk) write_to.
Proof. intros c c' E b ? <- n Hn. unfold write_to. destruct (has _ _); [|by apply E]. by rewrite E. Qed.

Lemma done_buf_same c c' b : same_disk c c' -> pending b -> done_buf c b = done_buf c' b.
Proof. intros E Hb. unfold done_buf. destruct (has _ _); [done|]. by rewrite E by apply Hb. Qed.

Lemma served_same c c' bs abs ad q : same_disk c c' -> served c bs abs ad q -> served c' bs abs ad q.
Proof.
  revert c c'. induction q as [|i q IH]; intros c c' E; cbn [served].
  - intros Ha. by rewrite <- E.
  - intros (b & Hb & Hp & Ha & Hs). exists b. split_and!; try done.
    + by rewrite <- (done_buf_same c c').
    + eapply IH; [|exact Hs]. by rewrite E.
Qed.

Lemma write_to_idem c b : pending b -> same_disk (write_to (write_to c b) b) (write_to c b).
Proof. intros _ n Hn. unfold write_to. destruct (has _ _); [|done]. by destruct (n =? blockno b). Qed.

Lemma served_open c bs abs ad q i : served c bs abs ad q -> i ∈ q -> exists b, bs !! i = Some b /\ pending b.
Proof.
  revert c. induction q as [|j q IH]; intros c Hs Hi; [by apply elem_of_nil in Hi|]. destruct Hs as (b & Hb & Hp & _ & Hs).
  apply elem_of_cons in Hi as [->|Hi]; eauto.
Qed.

(** Starting the request at the head early changes nothing. *)
Lemma served_started c bs abs ad i q b : bs !! i = Some b ->
  served c bs abs ad (i :: q) -> served (write_to c b) bs abs ad (i :: q).
Proof.
  intros Hb (b' & Hb' & Hp & Ha & Hs). rewrite Hb in Hb'. injection Hb' as <-. exists b. split_and!; try done.
  - rewrite Ha. unfold done_buf, write_to. by destruct (has _ _).
  - eapply served_same; [symmetry; by apply write_to_idem|done].
Qed.

(** Buffers outside the queue do not matter. *)
Lemma served_insert c bs abs ad q i b b' : i ∉ q ->
  served c bs abs ad q -> served c (<[i := b]> bs) (<[i := b']> abs) ad q.
Proof.
  revert c. induction q as [|j q IH]; intros c Hi; cbn [served]; [done|].
  apply not_elem_of_cons in Hi as [Hj Hi]. intros (b0 & Hb & Hp & Ha & Hs).
  exists b0. rewrite !list_lookup_insert_ne by done. split_and!; try done. by apply IH.
Qed.

(** The next request to be queued acts on what the earlier ones leave. *)
Lemma served_snoc c bs abs ad q i b : i ∉ q -> bs !! i = Some b -> (i < length abs)%nat -> pending b ->
  served c bs abs ad q ->
  served c bs (<[i := done_buf ad b]> abs) (write_to ad b) (q ++ [i]).
Proof.
  intros Hi Hb Hl Hp. revert c. induction q as [|j q IH]; intros c; cbn [served app].
  - intros E. exists b. split_and!; try done.
    + rewrite list_lookup_insert_eq by done. by rewrite (done_buf_same c ad).
    + by rewrite E.
  - apply not_elem_of_cons in Hi as [Hj Hi]. intros (b0 & Hb0 & Hp0 & Ha & Hs).
    exists b0. rewrite list_lookup_insert_ne by done. split_and!; try done. by apply IH.
Qed.

(** * The queue *)

Fixpoint chain (qn : list (option nat)) (p : option nat) (q : list nat) : Prop :=
  match q with
  | [] => p = None
  | i :: q => p = Some i /\ exists n, qn !! i = Some n /\ chain qn n q
  end.

Lemma queue_insert qn p q i n : i ∉ q -> chain qn p q -> chain (<[i := n]> qn) p q.
Proof.
  revert p. induction q as [|j q IH]; intros p Hi; cbn [chain]; [done|].
  apply not_elem_of_cons in Hi as [Hj Hi]. intros (-> & m & Hm & Hc). split; [done|].
  exists m. rewrite list_lookup_insert_ne by done. auto.
Qed.

(** Linking a new buffer behind the last one. *)
Lemma chain_snoc qn p q x i : chain qn p (q ++ [x]) -> NoDup (q ++ [x]) -> qn !! i = Some None -> i ∉ q ++ [x] ->
  chain (<[x := Some i]> qn) p ((q ++ [x]) ++ [i]).
Proof.
  revert p. induction q as [|j q IH]; intros p Hc Hnd Hn Hi; cbn [app chain] in *.
  - destruct Hc as (-> & n & Hx & ->). split; [done|]. exists (Some i).
    rewrite list_lookup_insert_eq by (by eapply lookup_lt_Some). split; [done|]. split; [done|]. exists None.
    rewrite list_lookup_insert_ne by (intros ->; apply Hi; by left). done.
  - destruct Hc as (-> & n & Hj & Hc). apply NoDup_cons in Hnd as [Hjq Hnd]. split; [done|]. exists n.
    rewrite list_lookup_insert_ne by (intros ->; apply Hjq; apply elem_of_app; right; by left).
    split; [done|]. apply IH; try done. intros Hin. apply Hi. by right.
Qed.

(** * memide.c *)

Definition adisk (a : bcache) : contents := fun n => default [] (disk a !! Z.to_nat n).

Lemma disk_write_adisk a n d b' : 0 <= n -> (Z.to_nat n < length (disk a))%nat ->
  same_disk (adisk (mkBcache b' (lru a) (<[Z.to_nat n := d]> (disk a)) (writes a ++ [(n, d)])))
    (fun m => if m =? n then d else adisk a m).
Proof.
  intros Hn Hl m Hm. unfold adisk. cbn [disk]. destruct (Z.eqb_spec m n) as [->|Hne].
  - by rewrite list_lookup_insert_eq.
  - by rewrite list_lookup_insert_ne by lia.
Qed.

Lemma memide_call i a a' b : Bio.iderw i a = Ok (tt, a') -> bufs a !! i = Some b ->
  length (disk a) = 1000%nat -> 0 <= blockno b -> length (bdata b) = 512%nat ->
  pending b /\ bufs a' = <[i := done_buf (adisk a) b]> (bufs a)
  /\ same_disk (adisk a') (write_to (adisk a) b)
  /\ length (disk a') = 1000%nat
  /\ (Forall (fun d => length d = 512%nat) (disk a) -> Forall (fun d => length d = 512%nat) (disk a')).
Proof.
  intros E Hb Hl Hn Hd. unfold Bio.iderw, buf_holdingsleep, get_buf, mbind, M_bind, mret, M_ret, get in E. rewrite Hb in E.
  destruct (Z.eqb_spec (slock b) 0) as [|Hs]; [done|]. cbn [negb] in E. rewrite Hb in E.
  destruct (Z.land (flags b) (Z.lor B_VALID B_DIRTY) =? B_VALID) eqn:Ef; [done|].
  destruct (Z.eqb_spec (dev b) 1) as [Hdev|]; [|done]. cbn [negb] in E.
  destruct (Z.leb_spec (Z.of_nat (length (disk a))) (blockno b)) as [|Hlt]; [done|]. rewrite Hl in Hlt.
  assert (pending b) as Hp by (split; [done|exact Ef|done|change FSSIZE with 1000; lia|done]).
  split; [done|]. unfold done_buf, write_to. destruct (has (flags b) B_DIRTY).
  - unfold disk_write, set_buf, modify in E. cbn [bufs lru disk writes] in E. injection E as <-. cbn [bufs disk].
    split; [done|]. split; [apply disk_write_adisk; lia|]. rewrite length_insert. split; [done|].
    intros Hall. by apply Forall_insert.
  - unfold disk_read in E. destruct (disk a !! Z.to_nat (blockno b)) as [d|] eqn:Ed; [|done].
    unfold set_buf, modify in E. injection E as <-. cbn [bufs disk]. split; [|done].
    unfold adisk. by rewrite Ed.
Qed.

(** * Driving the drive *)

Section Refine.
Context {D : Type} `{HD : Drive D}.
Implicit Types (s : ide D) (d : D).

Definition cont s : contents := v_disk (view (drive s)) 1.
Definition phase_of s : phase := v_phase (view (drive s)).
Definition at_rest (p : phase) : Prop := p = PReady \/ p = PFlush.

Lemma ready_within_mono n m d : (n <= m)%nat -> ready_within n d = true -> ready_within m d = true.
Proof.
  revert m d. induction n as [|n IH]; intros [|m] d Hle; cbn [ready_within]; try done; [lia|].
  destruct (inb 0x1f7 d) as [st d']. destruct (status_ready st); [done|]. apply IH. lia.
Qed.

Lemma view_same d : with_phase (view d) (v_phase (view d)) = view d.
Proof. by destruct (view d). Qed.

(** [idewait] ends with the drive ready, and its last answer tells what became of
    the command. *)
Lemma idewait_loop_ok n s : ready_within n (drive s) = true ->
  exists st d, idewait_loop n s = Ok (st, with_drive s d) /\ status_ready st = true
  /\ view d = with_phase (view (drive s)) (next_phase (phase_of s) st)
  /\ forall drv sec, phase_of s = PRead drv sec -> status_err st = bad drv sec.
Proof.
  revert s. induction n as [|n IH]; intros s; cbn [ready_within idewait_loop]; [done|].
  pose proof (view_status (drive s)) as Hv. pose proof (read_error (drive s)) as He.
  unfold mbind, M_bind, d_in, phase_of. destruct (inb 0x1f7 (drive s)) as [st d].
  fold (status_ready st). destruct (status_ready st) eqn:Er; cbn [orb].
  - intros _. exists st, d. split_and!; try done. intros drv sec Hp. by apply (He drv sec).
  - unfold next_phase in Hv. rewrite Er, view_same in Hv. intros Hr.
    destruct (IH (with_drive s d) Hr) as (st' & d' & E & Hst & Hview & Herr). exists st', d'.
    unfold phase_of in *. cbn [drive with_drive] in *. rewrite Hv in *. rewrite E. split_and!; done.
Qed.

Context (fuel : nat) (Hfuel : (patience <= fuel)%nat).

Lemma polls_enough d : ready_within fuel d = true.
Proof. eapply ready_within_mono; [exact Hfuel|apply drive_patient]. Qed.

(** Waiting for a drive with no read under way. *)
Lemma idewait_rest s : at_rest (phase_of s) ->
  exists d, idewait fuel false s = Ok (0, with_drive s d) /\ view d = with_phase (view (drive s)) PReady.
Proof.
  intros Hp. destruct (idewait_loop_ok fuel s (polls_enough _)) as (st & d & E & Hr & Hv & _).
  exists d. unfold idewait. rewrite (bind_ok _ _ _ _ _ E). split; [done|]. rewrite Hv.
  unfold next_phase. rewrite Hr. by destruct Hp as [-> | ->].
Qed.

(** Waiting for the data of a good sector, and taking it. *)
Lemma idewait_data s drv sec : phase_of s = PRead drv sec -> bad drv sec = false ->
  exists d, idewait fuel true s = Ok (0, with_drive s d) /\ view d = with_phase (view (drive s)) (PData drv sec).
Proof.
  intros Hp Hb. destruct (idewait_loop_ok fuel s (polls_enough _)) as (st & d & E & Hr & Hv & He).
  specialize (He _ _ Hp). rewrite Hb in He. exists d. unfold idewait. rewrite (bind_ok _ _ _ _ _ E).
  fold (status_err st). rewrite He. split; [done|]. rewrite Hv, Hp. unfold next_phase. by rewrite Hr, He.
Qed.

(** An error of the drive is reported and the data is not there. *)
Lemma idewait_bad s drv sec : phase_of s = PRead drv sec -> bad drv sec = true ->
  exists d, idewait fuel true s = Ok (-1, with_drive s d) /\ view d = with_phase (view (drive s)) PReady.
Proof.
  intros Hp Hb. destruct (idewait_loop_ok fuel s (polls_enough _)) as (st & d & E & Hr & Hv & He).
  specialize (He _ _ Hp). rewrite Hb in He. exists d. unfold idewait. rewrite (bind_ok _ _ _ _ _ E).
  fold (status_err st). rewrite He. split; [done|]. rewrite Hv, Hp. unfold next_phase. by rewrite Hr, He.
Qed.

(** Writing the registers of a ready drive selects the sectors. *)
Lemma view_out_reg d v p x : view d = v -> v_phase v = PReady -> 0x1f2 <= p <= 0x1f6 ->
  view (outb p x d) = mkView (<[Z.to_nat (p - 0x1f2) := x]> (v_regs v)) PReady (v_disk v).
Proof. intros <- Hp Hr. by apply view_reg. Qed.

Lemma view_select d n x3 x4 x5 h : v_phase (view d) = PReady ->
  view (outb 0x1f6 h (outb 0x1f5 x5 (outb 0x1f4 x4 (outb 0x1f3 x3 (outb 0x1f2 n (outb 0x3f6 0 d))))))
  = mkView [n; x3; x4; x5; h] PReady (v_disk (view d)).
Proof.
  intros Hp. pose proof (view_regs d) as Hl. destruct (view d) as [r p m] eqn:Ev. cbn [v_regs v_phase v_disk] in *. subst p.
  do 6 (destruct r as [|? r]; try done).
  assert (view (outb 0x3f6 0 d) = mkView [z; z0; z1; z2; z3] PReady m) as E0 by (by rewrite view_ctl).
  pose proof (view_out_reg _ _ 0x1f2 n E0 eq_refl ltac:(lia)) as E1.
  pose proof (view_out_reg _ _ 0x1f3 x3 E1 eq_refl ltac:(lia)) as E2.
  pose proof (view_out_reg _ _ 0x1f4 x4 E2 eq_refl ltac:(lia)) as E3.
  pose proof (view_out_reg _ _ 0x1f5 x5 E3 eq_refl ltac:(lia)) as E4.
  exact (view_out_reg _ _ 0x1f6 h E4 eq_refl ltac:(lia)).
Qed.

(** The bytes of the sector number give it back. *)
Lemma sel_sec_bytes sec : 0 <= sec < FSSIZE ->
  let r := [1; Z.land sec 0xff; Z.land (Z.shiftr sec 8) 0xff; Z.land (Z.shiftr sec 16) 0xff;
            Z.lor (Z.lor 0xe0 (Z.shiftl (Z.land 1 1) 4)) (Z.land (Z.shiftr sec 24) 0x0f)] in
  sel_sec r = sec /\ sel_drv r = 1.
Proof.
  change FSSIZE with 1000. intros Hs r. unfold sel_sec, sel_drv, r. cbn [nth].
  change 0xff with (Z.ones 8). rewrite !Z.land_ones, !Z.shiftr_div_pow2 by lia.
  replace (sec / 2 ^ 24) with 0 by (symmetry; apply Z.div_small; lia).
  replace (sec / 2 ^ 16) with 0 by (symmetry; apply Z.div_small; lia). split; [|done].
  change (Z.lor (Z.lor 0xe0 (Z.shiftl (Z.land 1 1) 4)) (Z.land 0 0x0f) mod 16) with 0.
  change (2 ^ 8) with 256. change (0 mod 256) with 0. clear r. Z.div_mod_to_equations. lia.
Qed.

(** [idestart] sends the request to a drive that is not reading. *)
Lemma idestart_ok s i b : ib s !! i = Some b -> pending b -> at_rest (phase_of s) ->
  exists d, idestart fuel (Some i) s = Ok (tt, with_drive s d)
  /\ v_phase (view d) = (if has (flags b) B_DIRTY then PFlush else PRead 1 (blockno b))
  /\ same_disk (v_disk (view d) 1) (write_to (cont s) b).
Proof.
  intros Hb Hp Hr. destruct (idewait_rest s Hr) as (d0 & Ew & Hv0). pose proof (pd_block _ Hp) as Hn.
  assert (get_ib i s = Ok (b, s)) as Eg by (unfold get_ib; by rewrite Hb).
  unfold idestart. rewrite (bind_ok _ _ _ _ _ Eg). replace (FSSIZE <=? blockno b) with false by lia.
  cbv zeta. change (BSIZE / SECTOR_SIZE) with 1. cbn [Z.eqb Pos.eqb]. change (7 <? 1) with false. cbv iota.
  rewrite (bind_ok _ _ _ _ _ Ew), (pd_dev _ Hp). rewrite Z.mul_1_r, s32_id by (change FSSIZE with 1000 in Hn; lia).
  destruct (sel_sec_bytes _ Hn) as [Hsec Hdrv].
  assert (v_phase (view d0) = PReady) as Hp0 by (by rewrite Hv0).
  pose proof (fun x3 x4 x5 h => view_select d0 1 x3 x4 x5 h Hp0) as Hsel.
  unfold mbind, M_bind, d_out, d_outsl, modify. cbn [drive with_drive].
  set (d6 := outb 0x1f6 _ _). pose proof (Hsel _ _ _ _ : view d6 = _) as H6. clearbody d6.
  destruct (has (flags b) B_DIRTY) eqn:Ed.
  - eexists. split; [reflexivity|]. assert (v_phase (view d6) = PReady) as E6 by (by rewrite H6).
    assert (sel_count (v_regs (view d6)) = 1) as C6 by (by rewrite H6). cbn [drive with_drive].
    pose proof (view_write d6 E6 C6) as H7. rewrite H6 in H7. cbn [v_regs] in H7. rewrite Hsec, Hdrv in H7.
    change (Z.to_nat (4 * (BSIZE / 4))) with 512%nat. rewrite take_ge by (rewrite (pd_data _ Hp); lia).
    rewrite (view_outsl (bdata b) _ 1 (blockno b)); [|by rewrite H7|apply Hp]. split; [done|].
    cbn [v_disk]. rewrite H7. cbn [v_disk with_phase]. rewrite Hv0. unfold write_to, store_sector, cont. rewrite Ed. done.
  - eexists. split; [reflexivity|]. cbn [drive with_drive]. assert (v_phase (view d6) = PReady) as E6 by (by rewrite H6).
    assert (sel_count (v_regs (view d6)) = 1) as C6 by (by rewrite H6).
    rewrite (view_read d6 E6 C6), H6. cbn [v_regs v_phase with_phase]. rewrite Hsec, Hdrv. split; [done|].
    unfold write_to. rewrite Ed. cbn [v_disk]. by rewrite Hv0.
Qed.

(** * The relation *)

Definition buf_wf (b : buf) : Prop := length (bdata b) = 512%nat /\ 0 <= blockno b.

(** What the drive is doing for the request at the head of the queue. *)
Definition head_started s (q : list nat) : Prop :=
  match q with
  | [] => at_rest (phase_of s)
  | i :: _ => exists b, ib s !! i = Some b
      /\ phase_of s = (if has (flags b) B_DIRTY then PFlush else PRead 1 (blockno b))
      /\ same_disk (cont s) (write_to (cont s) b)
  end.

Record ide_rel s (a : bcache) (q : list nat) : Prop := {
  ir_len : length (ib s) = length (bufs a);
  ir_links : length (qnext s) = length (ib s);
  ir_disk1 : havedisk1 s = true;
  ir_size : length (disk a) = 1000%nat;
  ir_blocks : Forall (fun x => length x = 512%nat) (disk a);
  ir_bufs : Forall buf_wf (bufs a);
  ir_chain : chain (qnext s) (idequeue s) q;
  ir_nodup : NoDup q;
  ir_served : served (cont s) (ib s) (bufs a) (adisk a) q;
  ir_started : head_started s q;
  ir_rest : forall i, i ∉ q -> ib s !! i = bufs a !! i;
  ir_queued : forall i, i ∈ q -> is_Some (calls s !! i);
  ir_asleep : forall i, calls s !! i = Some true -> i ∈ q;
  ir_done : forall i, is_Some (calls s !! i) -> i ∉ q ->
    exists b, bufs a !! i = Some b /\ synced b = true }.

Lemma has_valid_dirty f :
  synced (mkBuf f 0 0 0 0 []) = Z.testbit f 1 && negb (Z.testbit f 2).
Proof.
  unfold synced. cbn [flags]. change (Z.lor B_VALID B_DIRTY) with (Z.lor (2 ^ 1) (2 ^ 2)). change B_VALID with (2 ^ 1).
  destruct (Z.testbit f 1) eqn:E1, (Z.testbit f 2) eqn:E2; cbn [andb negb].
  all: first [apply Z.eqb_eq | apply Z.eqb_neq].
  2: { apply Z.bits_inj'. intros n Hn. rewrite Z.land_spec, Z.lor_spec, !Z.pow2_bits_eqb by lia.
       destruct (Z.eqb_spec 1 n) as [<-|]; [by rewrite E1|]. destruct (Z.eqb_spec 2 n) as [<-|]; [by rewrite E2|].
       apply andb_false_r. }
  all: intros E; pose proof (f_equal (fun z => Z.testbit z 1) E) as F1; pose proof (f_equal (fun z => Z.testbit z 2) E) as F2.
  all: cbv beta in F1, F2; rewrite Z.land_spec, Z.lor_spec, !Z.pow2_bits_eqb in F1, F2 by lia.
  all: rewrite ?E1, ?E2 in F1; rewrite ?E1, ?E2 in F2; done.
Qed.

Lemma has_bit f n : 0 <= n -> has f (2 ^ n) = Z.testbit f n.
Proof.
  intros Hn. unfold has. destruct (Z.testbit f n) eqn:E.
  - apply negb_true_iff, Z.eqb_neq. intros H0. pose proof (f_equal (fun z => Z.testbit z n) H0) as F.
    cbv beta in F. rewrite Z.land_spec, Z.pow2_bits_eqb, Z.eqb_refl, E, Z.bits_0 in F by lia. done.
  - apply negb_false_iff, Z.eqb_eq, Z.bits_inj'. intros m Hm.
    rewrite Z.land_spec, Z.pow2_bits_eqb, Z.bits_0 by lia. destruct (Z.eqb_spec n m) as [<-|]; [by rewrite E|apply andb_false_r].
Qed.

Lemma finish_flags f : let f' := Z.land (Z.lor f B_VALID) (Z.lnot B_DIRTY) in
  f' = Z.lor (Z.land f (Z.lnot B_DIRTY)) B_VALID
  /\ (has f B_DIRTY = false -> f' = Z.lor f B_VALID)
  /\ Z.testbit f' 1 && negb (Z.testbit f' 2) = true.
Proof.
  change B_VALID with (2 ^ 1). change B_DIRTY with (2 ^ 2). cbv zeta.
  assert (forall n, 0 <= n -> Z.testbit (Z.land (Z.lor f (2 ^ 1)) (Z.lnot (2 ^ 2))) n
            = (Z.testbit f n || (1 =? n)) && negb (2 =? n)) as Hb.
  { intros n Hn. by rewrite Z.land_spec, Z.lor_spec, Z.lnot_spec, !Z.pow2_bits_eqb by lia. }
  split; [|split].
  - apply Z.bits_inj'. intros n Hn. rewrite Hb by done. rewrite Z.lor_spec, Z.land_spec, Z.lnot_spec, !Z.pow2_bits_eqb by lia.
    destruct (Z.eqb_spec 1 n) as [<-|]; [by rewrite !orb_true_r|]. by rewrite !orb_false_r.
  - rewrite has_bit by lia. intros E2. apply Z.bits_inj'. intros n Hn. rewrite Hb by done. rewrite Z.lor_spec, Z.pow2_bits_eqb by lia.
    destruct (Z.eqb_spec 2 n) as [<-|]; [by rewrite E2|]. by rewrite andb_true_r.
  - rewrite !Hb by lia. cbn. by rewrite orb_true_r, andb_false_r.
Qed.

Lemma synced_bits b : synced b = Z.testbit (flags b) 1 && negb (Z.testbit (flags b) 2).
Proof. rewrite <- has_valid_dirty. done. Qed.

(** [ideintr] leaves the buffer as memide.c does. *)
Lemma done_buf_intr c b data : (has (flags b) B_DIRTY = true -> data = bdata b) ->
  (has (flags b) B_DIRTY = false -> data = c (blockno b)) ->
  mkBuf (Z.land (Z.lor (flags b) B_VALID) (Z.lnot B_DIRTY)) (dev b) (blockno b) (slock b) (refcnt b) data = done_buf c b
  /\ synced (done_buf c b) = true.
Proof.
  intros Hd Hc. destruct (finish_flags (flags b)) as (E1 & E2 & E3). cbv zeta in *.
  unfold done_buf. rewrite !synced_bits. destruct (has (flags b) B_DIRTY).
  - rewrite Hd by done. cbn [flags]. rewrite <- E1. done.
  - rewrite Hc by done. cbn [flags]. rewrite E2 in E3 by done. rewrite E2 by done. done.
Qed.

(** * The steps *)

Lemma queue_end_ok n pp p q s : chain (qnext s) p q -> (length q <= n)%nat ->
  queue_end n pp p s = Ok (match last q with Some x => Some x | None => pp end, s).
Proof.
  revert n pp p. induction q as [|i q IH]; intros n pp p; cbn [chain length]; [by intros -> _; destruct n|].
  intros (-> & m & Hm & Hc) Hle. destruct n as [|n]; [lia|]. cbn [queue_end].
  assert (get_qnext i s = Ok (m, s)) as E by (unfold get_qnext; by rewrite Hm).
  rewrite (bind_ok _ _ _ _ _ E), (IH n (Some i) m) by (done || lia). rewrite last_cons. by destruct (last q).
Qed.

Lemma NoDup_le_length (q : list nat) n : NoDup q -> (forall i, i ∈ q -> i < n)%nat -> (length q <= n)%nat.
Proof.
  intros Hnd Hlt. rewrite <- (length_seq n 0). apply submseteq_length, NoDup_submseteq; [done|].
  intros i Hi. apply elem_of_seq. specialize (Hlt i Hi). lia.
Qed.

Lemma chain_lt qn p q i : chain qn p q -> i ∈ q -> (i < length qn)%nat.
Proof.
  revert p. induction q as [|j q IH]; intros p Hc Hi; [by apply elem_of_nil in Hi|].
  destruct Hc as (-> & n & Hn & Hc). apply elem_of_cons in Hi as [->|Hi]; [by eapply lookup_lt_Some|]. by eapply IH.
Qed.

Definition with_queue s (qn : list (option nat)) (p : option nat) : ide D :=
  mkIde (ib s) qn p (havedisk1 s) (drive s) (calls s).

(** The walk and the two stores put [i] at the end of the queue. *)
Lemma enqueue_ok s q i : chain (qnext s) (idequeue s) q -> NoDup q -> i ∉ q -> (i < length (qnext s))%nat ->
  exists qn p, chain qn p (q ++ [i]) /\ length qn = length (qnext s)
  /\ forall A (k : M (ide D) A), (set_qnext i None ;; s ← get; pp ← queue_end (length (qnext s)) None (idequeue s);
        set_link pp (Some i) ;; k) s = k (with_queue s qn p).
Proof.
  intros Hc Hnd Hi Hl. set (s1 := with_queue s (<[i := None]> (qnext s)) (idequeue s)).
  assert (chain (qnext s1) (idequeue s1) q) as Hc1 by (by apply queue_insert).
  assert (length q <= length (qnext s1))%nat as Hq.
  { apply NoDup_le_length; [done|]. intros j Hj. by eapply chain_lt. }
  pose proof (queue_end_ok (length (qnext s1)) None _ q s1 Hc1 Hq) as Ee.
  assert (qnext s1 !! i = Some None) as Hi1 by (by apply list_lookup_insert_eq).
  destruct (last q) as [x|] eqn:El.
  - apply last_Some in El as [q' ->]. exists (<[x := Some i]> (qnext s1)), (idequeue s). split; [by apply chain_snoc|].
    split; [unfold s1; cbn; by rewrite !length_insert|]. intros A k.
    change ((s ← get; pp ← queue_end (length (qnext s)) None (idequeue s); set_link pp (Some i) ;; k) s1 = k (with_queue s (<[x:=Some i]> (qnext s1)) (idequeue s))).
    rewrite (bind_ok get _ s1 s1 s1 eq_refl), (bind_ok _ _ _ _ _ Ee). done.
  - apply last_None in El as ->. exists (qnext s1), (Some i). split; [split; [done|]; by exists None|].
    split; [unfold s1; cbn; by rewrite length_insert|]. intros A k.
    change ((s ← get; pp ← queue_end (length (qnext s)) None (idequeue s); set_link pp (Some i) ;; k) s1 = k (with_queue s (qnext s1) (Some i))).
    rewrite (bind_ok get _ s1 s1 s1 eq_refl), (bind_ok _ _ _ _ _ Ee). done.
Qed.

Lemma queue_head qn p q i : chain qn p (q ++ [i]) -> i ∉ q -> (p = Some i <-> q = []).
Proof.
  intros Hc Hi. destruct q as [|j q]; cbn [app chain] in Hc; destruct Hc as [-> _]; [done|].
  split; [|done]. intros E. injection E as ->. exfalso. apply Hi. by left.
Qed.

Lemma done_buf_wf c b : buf_wf b -> length (c (blockno b)) = 512%nat -> buf_wf (done_buf c b).
Proof. intros [H1 H2] Hc. unfold done_buf. by destruct (has _ _). Qed.

Lemma iderw_wait_ok s i b : ib s !! i = Some b ->
  iderw_wait i s = Ok (tt, with_calls s (if synced b then delete i (calls s) else <[i := true]> (calls s))).
Proof. intros Hb. unfold iderw_wait, mbind, M_bind, get_ib. by rewrite Hb. Qed.

Lemma served_disk_same c bs abs ad ad' q : same_disk ad ad' -> served c bs abs ad q -> served c bs abs ad' q.
Proof.
  intros E. revert c. induction q as [|j q IH]; intros c; cbn [served]; [intros Hs; by rewrite <- E|]. naive_solver.
Qed.

Lemma adisk_block a n : length (disk a) = 1000%nat -> Forall (fun x => length x = 512%nat) (disk a) -> 0 <= n < FSSIZE ->
  length (adisk a n) = 512%nat.
Proof.
  intros Hl Hall Hn. unfold adisk. change FSSIZE with 1000 in Hn.
  destruct (lookup_lt_is_Some_2 (disk a) (Z.to_nat n)) as [x Hx]; [rewrite Hl; lia|].
  rewrite Hx. exact (Forall_lookup_1 _ _ _ _ Hall Hx).
Qed.

(** The drive is started on a request that is alone in the queue. *)
Lemma start_if_alone s abs ad q i b p : ib s !! i = Some b -> pending b -> i ∉ q -> head_started s q ->
  chain (qnext s) p (q ++ [i]) -> served (cont s) (ib s) abs ad (q ++ [i]) ->
  exists d, (if decide (p = Some i) then idestart fuel (Some i) else mret tt) s = Ok (tt, with_drive s d)
  /\ head_started (with_drive s d) (q ++ [i]) /\ served (v_disk (view d) 1) (ib s) abs ad (q ++ [i]).
Proof.
  intros Hb Hp Hi Hst Hch Hsv. destruct (decide (p = Some i)) as [Hpi|Hpi].
  - apply (queue_head _ _ _ _ Hch Hi) in Hpi as ->.
    destruct (idestart_ok s i b Hb Hp Hst) as (d & Es & Hph & Hco). exists d. split; [exact Es|]. split.
    + exists b. split; [exact Hb|]. split; [exact Hph|]. unfold cont. cbn [drive with_drive]. rewrite Hco. by rewrite write_to_idem.
    + apply (served_started _ _ _ _ _ _ b Hb) in Hsv. by eapply served_same; [symmetry; exact Hco|].
  - exists (drive s). split; [by destruct s|]. split; [|exact Hsv].
    destruct q as [|j q]; [exfalso; apply Hpi; by apply (queue_head _ _ _ _ Hch Hi)|]. exact Hst.
Qed.

(** A call: the buffer joins the queue, and the drive is started if it was idle. *)
Lemma call_ok s a a' q i : ide_rel s a q -> calls s !! i = None -> Bio.iderw i a = Ok (tt, a') ->
  exists s', iderw_call fuel i s = Ok (tt, s') /\ ide_rel s' a' (q ++ [i]) /\ calls s' = <[i := true]> (calls s).
Proof.
  intros R Hc E.
  assert (i ∉ q) as Hi by (intros Hi; destruct (ir_queued _ _ _ R i Hi); congruence).
  destruct (bufs a !! i) as [b|] eqn:Ha.
  2:{ unfold Bio.iderw, buf_holdingsleep, get_buf, mbind, M_bind in E. by rewrite Ha in E. }
  pose proof (ir_rest _ _ _ R i Hi) as Hb. rewrite Ha in Hb.
  destruct (Forall_lookup_1 _ _ _ _ (ir_bufs _ _ _ R) Ha) as [Hd Hn].
  destruct (memide_call i a a' b E Ha (ir_size _ _ _ R) Hn Hd) as (Hp & Eb & Ed & El & Eall).
  pose proof (lookup_lt_Some _ _ _ Hb) as Hlt.
  destruct (enqueue_ok s q i (ir_chain _ _ _ R) (ir_nodup _ _ _ R) Hi) as (qn & p & Hch & Hlq & Eq).
  { by rewrite (ir_links _ _ _ R). }
  set (s2 := with_queue s qn p) in *.
  assert (served (cont s) (ib s) (bufs a') (adisk a') (q ++ [i])) as Hsv0.
  { rewrite Eb. eapply served_disk_same; [symmetry; exact Ed|].
    apply served_snoc; try done; [by rewrite <- (ir_len _ _ _ R)|apply R]. }
  destruct (start_if_alone s2 (bufs a') (adisk a') q i b p Hb Hp Hi (ir_started _ _ _ R) Hch Hsv0) as (d & Es & Hst & Hsv).
  exists (with_calls (with_drive s2 d) (<[i := true]> (calls s))). split.
  { unfold iderw_call. assert (get_ib i s = Ok (b, s)) as Eg by (unfold get_ib; by rewrite Hb).
    rewrite (bind_ok _ _ _ _ _ Eg). destruct (Z.eqb_spec (slock b) 0) as [|_]; [by destruct (pd_locked _ Hp)|].
    rewrite (pd_open _ Hp), (bind_ok get _ s s s eq_refl), (ir_disk1 _ _ _ R), andb_false_r.
    rewrite Eq, (bind_ok get _ s2 s2 s2 eq_refl). change (idequeue s2) with p. rewrite (bind_ok _ _ _ _ _ Es).
    rewrite (iderw_wait_ok (with_drive s2 d) i b Hb), (pd_open _ Hp). done. }
  split; [|done]. split; cbn [ib qnext idequeue havedisk1 drive calls with_calls with_drive with_queue s2].
  - rewrite Eb, length_insert. apply R.
  - rewrite Hlq. apply R.
  - apply R.
  - done.
  - apply Eall, R.
  - rewrite Eb. apply Forall_insert; [apply R|]. apply done_buf_wf; [done|]. apply adisk_block; [apply R|apply R|apply Hp].
  - done.
  - apply NoDup_app. split; [apply R|]. split; [|apply NoDup_singleton]. intros j Hj Hji. apply list_elem_of_singleton in Hji as ->. done.
  - exact Hsv.
  - exact Hst.
  - intros j Hj. rewrite not_elem_of_app, not_elem_of_cons in Hj. destruct Hj as [Hj [Hji _]].
    rewrite Eb, list_lookup_insert_ne by done. by apply R.
  - intros j Hj. destruct (decide (i = j)) as [<-|Hne]; [rewrite lookup_insert_eq; eauto|]. rewrite lookup_insert_ne by done.
    apply R. apply elem_of_app in Hj as [Hj|Hj]; [done|]. apply list_elem_of_singleton in Hj. congruence.
  - intros j Hj. apply elem_of_app. destruct (decide (i = j)) as [<-|Hne]; [right; by left|left]. rewrite lookup_insert_ne in Hj by done.
    by apply R.
  - intros j Hj Hq. rewrite not_elem_of_app, not_elem_of_cons in Hq. destruct Hq as [Hq [Hji _]].
    rewrite lookup_insert_ne in Hj by done. rewrite Eb, list_lookup_insert_ne by done. by apply (ir_done _ _ _ R).
Qed.

(** The sector of a request that has been started: [ideintr] ends up with the data
    memide.c would have given, on a drive at rest. *)
Lemma take_data s b : pending b -> bad 1 (blockno b) = false ->
  phase_of s = (if has (flags b) B_DIRTY then PFlush else PRead 1 (blockno b)) ->
  exists data d, (if negb (has (flags b) B_DIRTY) then
           ok ← idewait fuel true;
           if 0 <=? ok then d_insl 0x1f0 (BSIZE / 4) else mret (bdata b)
         else mret (bdata b)) s = Ok (data, with_drive s d)
  /\ at_rest (v_phase (view d)) /\ v_disk (view d) = v_disk (view (drive s))
  /\ (has (flags b) B_DIRTY = true -> data = bdata b) /\ (has (flags b) B_DIRTY = false -> data = cont s (blockno b)).
Proof.
  intros Hp Hg Hph. destruct (has (flags b) B_DIRTY) eqn:Ed; cbn [negb].
  - exists (bdata b), (drive s). split; [by destruct s|]. split; [by right|]. done.
  - destruct (idewait_data s 1 (blockno b) Hph Hg) as (d & Ew & Hv). rewrite (bind_ok _ _ _ _ _ Ew).
    change (0 <=? 0) with true. change (BSIZE / 4) with 128. unfold d_insl. cbn [drive with_drive].
    assert (v_phase (view d) = PData 1 (blockno b)) as Hpd by (by rewrite Hv).
    pose proof (view_insl d 1 (blockno b) Hpd) as Hi. destruct (insl 0x1f0 128 d) as [bs d']. destruct Hi as [-> Hv'].
    exists (v_disk (view d) 1 (blockno b)), d'. split; [done|]. rewrite Hv'. split; [by left|].
    rewrite Hv. done.
Qed.

(** The queue without its head: the drive is at rest, to be started on the next. *)
Lemma start_next s abs ad q : chain (qnext s) (idequeue s) q -> at_rest (phase_of s) ->
  served (cont s) (ib s) abs ad q ->
  exists d, (s ← get; match idequeue s with None => mret tt | Some _ => idestart fuel (idequeue s) end) s = Ok (tt, with_drive s d)
  /\ head_started (with_drive s d) q /\ served (v_disk (view d) 1) (ib s) abs ad q.
Proof.
  intros Hc Hr Hs. rewrite (bind_ok get _ s s s eq_refl). destruct q as [|i q].
  - cbn [chain] in Hc. rewrite Hc. exists (drive s). split; [by destruct s|]. done.
  - destruct Hc as [-> _]. destruct (Hs) as (b & Hb & Hp & _).
    destruct (idestart_ok s i b Hb Hp Hr) as (d & Es & Hph & Hco). exists d. split; [exact Es|]. split.
    + exists b. split; [exact Hb|]. split; [exact Hph|]. unfold cont. cbn [drive with_drive]. rewrite Hco. by rewrite write_to_idem.
    + apply (served_started _ _ _ _ _ _ b Hb) in Hs. by eapply served_same; [symmetry; exact Hco|].
Qed.

Definition popped s i b next d : ide D :=
  mkIde (<[i := done_buf (cont s) b]> (ib s)) (qnext s) next (havedisk1 s) d (alter (fun _ => false) i (calls s)).

Context (Hgood : forall n, 0 <= n < FSSIZE -> bad 1 n = false).

(** An interrupt, expected or not, finishes the request at the head. *)
Lemma intr_ok s a q : ide_rel s a q ->
  exists s', ideintr fuel s = Ok (tt, s') /\ ide_rel s' a (tail q)
  /\ dom (calls s') = dom (calls s) /\ forall i, calls s' !! i = Some true -> calls s !! i = Some true.
Proof.
  intros R. unfold ideintr. rewrite (bind_ok get _ s s s eq_refl). pose proof (ir_chain _ _ _ R) as Hc.
  destruct q as [|i q]; cbn [chain] in Hc; [rewrite Hc; by exists s|]. destruct Hc as (Hq & next & Hn & Hc). rewrite Hq.
  destruct (ir_started _ _ _ R) as (b & Hb & Hph & Hw). destruct (ir_served _ _ _ R) as (b' & Hb' & Hp & Ha & Hs).
  rewrite Hb in Hb'. injection Hb' as <-. pose proof (ir_nodup _ _ _ R) as Hnd. apply NoDup_cons in Hnd as [Hi Hnd].
  assert (get_qnext i s = Ok (next, s)) as En by (unfold get_qnext; by rewrite Hn). rewrite (bind_ok _ _ _ _ _ En).
  set (s1 := with_queue s (qnext s) next). rewrite (bind_ok (set_idequeue next) _ s tt s1 eq_refl).
  assert (get_ib i s1 = Ok (b, s1)) as Eb by (unfold get_ib; cbn; by rewrite Hb). rewrite (bind_ok _ _ _ _ _ Eb).
  destruct (take_data s1 b Hp (Hgood _ (pd_block _ Hp)) Hph) as (data & d & Et & Hr & Hd & Hdirty & Hclean).
  rewrite (bind_ok _ _ _ _ _ Et). destruct (done_buf_intr (cont s) b data Hdirty Hclean) as [Edone Hfin]. rewrite Edone.
  set (s3 := popped s i b next d). cbn [mbind M_bind set_ib wake_call modify].
  assert (v_disk (view d) 1 = cont s) as Hcont by (unfold cont; by rewrite Hd).
  destruct (start_next s3 (bufs a) (adisk a) q Hc Hr) as (d' & Es & Hst & Hsv).
  { unfold cont. cbn [drive s3 popped]. rewrite Hcont.
    rewrite <- (list_insert_id (bufs a) i (done_buf (cont s) b) Ha). apply served_insert; [done|].
    eapply served_same; [symmetry; exact Hw|exact Hs]. }
  exists (with_drive s3 d'). split; [exact Es|]. split; [|split].
  - split; cbn [ib qnext idequeue havedisk1 drive calls with_drive s3 popped]; try apply R; try done.
    + rewrite length_insert. apply R.
    + rewrite length_insert. apply R.
    + intros j Hj. destruct (decide (i = j)) as [<-|Hne]; [by rewrite list_lookup_insert_eq by (by eapply lookup_lt_Some)|].
      rewrite list_lookup_insert_ne by done. apply R. by rewrite not_elem_of_cons.
    + intros j Hj. rewrite lookup_alter_ne by (intros ->; done). apply R. by right.
    + intros j Hj. destruct (decide (i = j)) as [<-|Hne].
      { rewrite lookup_alter_eq in Hj. by destruct (calls s !! i). }
      rewrite lookup_alter_ne in Hj by done. apply R in Hj. by apply elem_of_cons in Hj as [->|Hj].
    + intros j Hj Hq'. destruct (decide (i = j)) as [<-|Hne]; [by exists (done_buf (cont s) b)|].
      rewrite lookup_alter_ne in Hj by done. apply (ir_done _ _ _ R); [done|]. by rewrite not_elem_of_cons.
  - apply dom_alter_L.
  - intros j Hj. cbn [calls with_drive s3 popped] in Hj. destruct (decide (i = j)) as [<-|Hne].
    { rewrite lookup_alter_eq in Hj. by destruct (calls s !! i). }
    by rewrite lookup_alter_ne in Hj.
Qed.

(** A process that runs in [iderw] looks at its buffer: it leaves when the request
    is done and sleeps again when it is not. *)
Lemma resume_ok s a q i : ide_rel s a q -> is_Some (calls s !! i) ->
  exists s', iderw_wait i s = Ok (tt, s') /\ ide_rel s' a q /\ (i ∉ q -> calls s' !! i = None).
Proof.
  intros R Hi. assert (exists b, ib s !! i = Some b /\ (synced b = true <-> i ∉ q)) as (b & Hb & Hfin).
  { destruct (decide (i ∈ q)) as [Hq|Hq].
    - destruct (served_open _ _ _ _ _ _ (ir_served _ _ _ R) Hq) as (b & Hb & Hp). exists b. rewrite (pd_open _ Hp). done.
    - destruct (ir_done _ _ _ R i Hi Hq) as (b & Hb & Hf). exists b. rewrite (ir_rest _ _ _ R i Hq). done. }
  rewrite (iderw_wait_ok s i b Hb). eexists. split; [reflexivity|].
  assert (forall j, j <> i -> (if synced b then delete i (calls s) else <[i := true]> (calls s)) !! j = calls s !! j) as Hne.
  { intros j Hj. destruct (synced b); [by rewrite lookup_delete_ne|by rewrite lookup_insert_ne]. }
  split.
  - destruct R. split; try done; cbn [calls with_calls].
    + intros j Hj. destruct (decide (j = i)) as [->|Hji]; [|rewrite Hne by done; auto].
      destruct (synced b); [by destruct (proj1 Hfin eq_refl)|]. rewrite lookup_insert_eq. eauto.
    + intros j Hj. destruct (decide (j = i)) as [->|Hji]; [|rewrite Hne in Hj by done; auto].
      destruct (synced b); [by rewrite lookup_delete_eq in Hj|]. apply dec_stable. intros Hq. by apply Hfin in Hq.
    + intros j Hj Hq. destruct (decide (j = i)) as [->|Hji]; [|rewrite Hne in Hj by done; auto]. auto.
  - intros Hq. apply Hfin in Hq. rewrite Hq. cbn [calls with_calls]. apply lookup_delete_eq.
Qed.

(** Being woken for another reason, such as a kill, is harmless. *)
Lemma kicked_ok s a q i : ide_rel s a q -> is_Some (calls s !! i) -> ide_rel (with_calls s (<[i := false]> (calls s))) a q.
Proof.
  intros R Hi. destruct R. split; try done; cbn [calls with_calls].
  - intros j Hj. destruct (decide (i = j)) as [<-|Hne]; [rewrite lookup_insert_eq; eauto|rewrite lookup_insert_ne by done; auto].
  - intros j Hj. destruct (decide (i = j)) as [<-|Hne]; [by rewrite lookup_insert_eq in Hj|rewrite lookup_insert_ne in Hj by done; auto].
  - intros j Hj Hq. destruct (decide (i = j)) as [<-|Hne]; [auto|rewrite lookup_insert_ne in Hj by done; auto].
Qed.

Definition with_ib s (i : nat) (b : buf) : ide D :=
  mkIde (<[i := b]> (ib s)) (qnext s) (idequeue s) (havedisk1 s) (drive s) (calls s).

(** The rest of the kernel changes a buffer no call is about. *)
Lemma cache_ok s a q i b l : ide_rel s a q -> calls s !! i = None -> buf_wf b ->
  ide_rel (with_ib s i b) (mkBcache (<[i := b]> (bufs a)) l (disk a) (writes a)) q.
Proof.
  intros R Hi Hw. assert (i ∉ q) as Hq by (intros Hq; destruct (ir_queued _ _ _ R i Hq); congruence).
  destruct R as [R1 R2 R3 R4 R5 R6 R7 R8 R9 R10 R11 R12 R13 R14].
  split; try done; cbn [ib bufs with_ib disk].
  - by rewrite !length_insert.
  - by rewrite length_insert.
  - by apply Forall_insert.
  - by apply served_insert.
  - destruct q as [|j q]; [done|]. destruct R10 as (b0 & Hb & Hrest). exists b0. split; [|done]. cbn [ib with_ib].
    rewrite list_lookup_insert_ne; [done|]. intros ->. apply Hq. by left.
  - intros j Hj. destruct (decide (i = j)) as [<-|Hne]; [|rewrite !list_lookup_insert_ne by done; auto].
    destruct (decide (i < length (ib s))%nat) as [Hl|Hl].
    + by rewrite !list_lookup_insert_eq by lia.
    + by rewrite !lookup_ge_None_2 by (rewrite length_insert; lia).
  - intros j Hj Hjq. destruct (R14 j Hj Hjq) as (b0 & Hb0 & Hf). exists b0. split; [|done].
    rewrite list_lookup_insert_ne; [done|]. intros ->. destruct Hj as [x Hx]. cbn [calls with_ib] in Hx. congruence.
Qed.

(** Every request in the queue takes one interrupt. *)
Fixpoint interrupts (n : nat) : M (ide D) unit :=
  match n with O => mret tt | S n => ideintr fuel ;; interrupts n end.

Lemma interrupts_ok n s a q : ide_rel s a q -> (length q <= n)%nat ->
  exists s', interrupts n s = Ok (tt, s') /\ ide_rel s' a [] /\ dom (calls s') = dom (calls s).
Proof.
  revert s q. induction n as [|n IH]; intros s q R Hn; cbn [interrupts].
  - destruct q; [|cbn in Hn; lia]. by exists s.
  - destruct (intr_ok s a q R) as (s1 & E1 & R1 & Hd & _). rewrite (bind_ok _ _ _ _ _ E1).
    destruct (IH s1 (tail q) R1) as (s2 & E2 & R2 & Hd2); [destruct q; cbn in *; lia|].
    exists s2. split; [done|]. split; [done|]. by rewrite Hd2.
Qed.

(** * Starting up *)

Lemma status_ready_nonzero st : status_ready st = true -> st <> 0.
Proof. intros Hr ->. done. Qed.

Lemma probe_ok n s : ready_within n (drive s) = true -> phase_of s = PReady ->
  exists d, probe n s = Ok (tt, mkIde (ib s) (qnext s) (idequeue s) true d (calls s)) /\ view d = view (drive s).
Proof.
  revert s. induction n as [|n IH]; intros s Hr Hp; cbn [ready_within probe] in *; [done|].
  pose proof (view_status (drive s)) as Hv. unfold mbind, M_bind, d_in. destruct (inb 0x1f7 (drive s)) as [st d].
  assert (view d = view (drive s)) as Hd.
  { rewrite Hv. unfold phase_of in Hp. rewrite Hp. unfold next_phase. rewrite <- (view_same (drive s)), Hp. by destruct (status_ready st). }
  destruct (Z.eqb_spec st 0) as [->|Hst]; cbn [negb]; [|by exists d].
  destruct (IH (with_drive s d) Hr) as (d' & E & Hd'); [unfold phase_of; cbn; by rewrite Hd|].
  exists d'. split; [exact E|]. by rewrite Hd'.
Qed.

Lemma ideinit_ok s : (patience <= 1000)%nat -> at_rest (phase_of s) ->
  exists d, ideinit fuel s = Ok (tt, mkIde (ib s) (qnext s) (idequeue s) true d (calls s))
  /\ at_rest (v_phase (view d)) /\ v_disk (view d) = v_disk (view (drive s)).
Proof.
  intros Hpat Hr. destruct (idewait_rest s Hr) as (d0 & Ew & Hv0). unfold ideinit. rewrite (bind_ok _ _ _ _ _ Ew).
  set (d1 := outb 0x1f6 (Z.lor 0xe0 (Z.shiftl 1 4)) d0).
  assert (view d1 = mkView (<[4%nat := Z.lor 0xe0 (Z.shiftl 1 4)]> (v_regs (view d0))) PReady (v_disk (view d0))) as Hv1.
  { apply (view_reg 0x1f6); [lia|by rewrite Hv0]. }
  rewrite (bind_ok (d_out _ _) _ (with_drive s d0) tt (with_drive s d1) eq_refl).
  destruct (probe_ok 1000 (with_drive s d1)) as (d2 & Ep & Hv2).
  { eapply ready_within_mono; [exact Hpat|apply drive_patient]. }
  { unfold phase_of. cbn [drive with_drive]. by rewrite Hv1. }
  rewrite (bind_ok _ _ _ _ _ Ep). unfold d_out, modify. eexists. split; [reflexivity|]. cbn [drive with_drive] in *.
  assert (view (outb 0x1f6 (Z.lor 0xe0 (Z.shiftl 0 4)) d2)
    = mkView (<[4%nat := Z.lor 0xe0 (Z.shiftl 0 4)]> (v_regs (view d2))) PReady (v_disk (view d2))) as ->.
  { apply (view_reg 0x1f6); [lia|]. by rewrite Hv2, Hv1. }
  split; [by left|]. cbn [v_disk]. by rewrite Hv2, Hv1, Hv0.
Qed.

(** * The kernel around the driver *)

(** The driver, beside the buffer cache as it would be over memide.c.  Processes
    call [iderw] on buffers they have locked; the drive interrupts at any time;
    processes in [iderw] are woken by [ideintr] or a kill, and run; and the kernel
    changes the buffers that are not in a call. *)
Inductive ide_run : ide D -> bcache -> Prop :=
  | run_boot bs l dsk d s :
      Forall buf_wf bs -> length dsk = 1000%nat -> Forall (fun x => length x = 512%nat) dsk ->
      at_rest (v_phase (view d)) ->
      (forall n, 0 <= n < FSSIZE -> dsk !! Z.to_nat n = Some (v_disk (view d) 1 n)) ->
      ideinit fuel (mkIde bs (replicate (length bs) None) None false d ∅) = Ok (tt, s) ->
      ide_run s (mkBcache bs l dsk [])
  | run_call s a i s' a' :
      ide_run s a -> calls s !! i = None -> Bio.iderw i a = Ok (tt, a') ->
      iderw_call fuel i s = Ok (tt, s') -> ide_run s' a'
  | run_intr s a s' : ide_run s a -> ideintr fuel s = Ok (tt, s') -> ide_run s' a
  | run_kill s a i : ide_run s a -> calls s !! i = Some true ->
      ide_run (with_calls s (<[i := false]> (calls s))) a
  | run_resume s a i s' : ide_run s a -> calls s !! i = Some false -> iderw_wait i s = Ok (tt, s') -> ide_run s' a
  | run_cache s a i b l : ide_run s a -> calls s !! i = None -> buf_wf b ->
      ide_run (with_ib s i b) (mkBcache (<[i := b]> (bufs a)) l (disk a) (writes a)).

Lemma ide_boot_rel bs l dsk d s : (patience <= 1000)%nat ->
  Forall buf_wf bs -> length dsk = 1000%nat -> Forall (fun x => length x = 512%nat) dsk ->
  at_rest (v_phase (view d)) ->
  (forall n, 0 <= n < FSSIZE -> dsk !! Z.to_nat n = Some (v_disk (view d) 1 n)) ->
  ideinit fuel (mkIde bs (replicate (length bs) None) None false d ∅) = Ok (tt, s) ->
  ide_rel s (mkBcache bs l dsk []) [] /\ calls s = ∅.
Proof.
  intros Hpat Hbs Hl Hall Hr Hd E.
  destruct (ideinit_ok (mkIde bs (replicate (length bs) None) None false d ∅) Hpat Hr) as (d' & E' & Hr' & Hd').
  rewrite E in E'. injection E' as ->. cbn [ib qnext idequeue calls drive] in *. split; [|done].
  split; cbn [ib bufs qnext idequeue havedisk1 disk calls]; try done.
  - by rewrite length_replicate.
  - by apply NoDup_nil_2.
  - intros n Hn. unfold cont, adisk. cbn [drive disk]. by rewrite Hd', Hd.
  - by intros i Hi%elem_of_nil.
  - by intros i [x Hx].
Qed.

Lemma run_rel s a : (patience <= 1000)%nat -> ide_run s a -> exists q, ide_rel s a q.
Proof.
  intros Hpat. induction 1 as [bs l dsk d s Hbs Hl Hall Hr Hd E|s a i s' a' _ [q R] Hc E E'|s a s' _ [q R] E
    |s a i _ [q R] Hi|s a i s' _ [q R] Hi E|s a i b l _ [q R] Hi Hb].
  - exists []. by eapply ide_boot_rel.
  - destruct (call_ok s a a' q i R Hc E) as (s1 & E1 & R1 & _). rewrite E' in E1. injection E1 as ->. eauto.
  - destruct (intr_ok s a q R) as (s1 & E1 & R1 & _). rewrite E in E1. injection E1 as ->. eauto.
  - exists q. by apply kicked_ok.
  - destruct (resume_ok s a q i R) as (s1 & E1 & R1 & _); [eauto|]. rewrite E in E1. injection E1 as ->. eauto.
  - exists q. by apply cache_ok.
Qed.

End Refine.

(** A sector the drive cannot read: [ideintr] still marks the buffer valid, with
    whatever it held. *)
Section Errors.
Context {D : Type} `{HD : Drive D} (fuel : nat) (Hfuel : (patience <= fuel)%nat).

Lemma bad_sector_hidden (s : ide D) i b : idequeue s = Some i -> qnext s !! i = Some None -> ib s !! i = Some b ->
  has (flags b) B_DIRTY = false -> phase_of s = PRead 1 (blockno b) -> bad 1 (blockno b) = true ->
  exists s', ideintr fuel s = Ok (tt, s')
  /\ ib s' !! i = Some (mkBuf (Z.land (Z.lor (flags b) B_VALID) (Z.lnot B_DIRTY)) (dev b) (blockno b) (slock b) (refcnt b) (bdata b)).
Proof.
  intros Hq Hn Hb Hd Hp Hbad. unfold ideintr. rewrite (bind_ok get _ s s s eq_refl), Hq.
  assert (get_qnext i s = Ok (None, s)) as En by (unfold get_qnext; by rewrite Hn). rewrite (bind_ok _ _ _ _ _ En).
  set (s1 := with_queue s (qnext s) None). rewrite (bind_ok (set_idequeue None) _ s tt s1 eq_refl).
  assert (get_ib i s1 = Ok (b, s1)) as Eb by (unfold get_ib; cbn; by rewrite Hb). rewrite (bind_ok _ _ _ _ _ Eb), Hd.
  destruct (idewait_bad fuel Hfuel s1 1 (blockno b) Hp Hbad) as (d & Ew & _). cbn [negb].
  assert ((ok ← idewait fuel true; if 0 <=? ok then d_insl 0x1f0 (BSIZE / 4) else mret (bdata b)) s1
          = Ok (bdata b, with_drive s1 d)) as Et by (by rewrite (bind_ok _ _ _ _ _ Ew)).
  rewrite (bind_ok _ _ _ _ _ Et). eexists. split; [reflexivity|]. cbn.
  apply list_lookup_insert_eq. by eapply lookup_lt_Some.
Qed.

End Errors.

(** * A drive

    One that is busy at the first poll after every command. *)
Record sim : Type := mkSim {
  sm_regs : Z * Z * Z * Z * Z;
  sm_phase : phase;
  sm_disk : Z -> Z -> block;
  sm_busy : bool }.

Definition sim_view (d : sim) : dview :=
  let '(a, b, c, e, f) := sm_regs d in mkView [a; b; c; e; f] (sm_phase d) (sm_disk d).

Definition sim_cmd (d : sim) (p : Z -> Z -> phase) : sim :=
  let r := v_regs (sim_view d) in mkSim (sm_regs d) (p (sel_drv r) (sel_sec r)) (sm_disk d) true.

#[export] Instance sim_ops : DriveOps sim := {
  outb p x d :=
    let '(a, b, c, e, f) := sm_regs d in
    let with_regs r := mkSim r (sm_phase d) (sm_disk d) (sm_busy d) in
    if p =? 0x1f2 then with_regs (x, b, c, e, f)
    else if p =? 0x1f3 then with_regs (a, x, c, e, f)
    else if p =? 0x1f4 then with_regs (a, b, x, e, f)
    else if p =? 0x1f5 then with_regs (a, b, c, x, f)
    else if p =? 0x1f6 then with_regs (a, b, c, e, x)
    else if p =? 0x1f7 then
      if x =? IDE_CMD_READ then sim_cmd d PRead
      else if x =? IDE_CMD_WRITE then sim_cmd d PWrite else d
    else d;
  inb p d :=
    if sm_busy d then (IDE_BSY, mkSim (sm_regs d) (sm_phase d) (sm_disk d) false)
    else (IDE_DRDY, mkSim (sm_regs d) (next_phase (sm_phase d) IDE_DRDY) (sm_disk d) false);
  outsl p bs d :=
    match sm_phase d with
    | PWrite drv sec => mkSim (sm_regs d) PFlush (store_sector (sm_disk d) drv sec bs) true
    | _ => d
    end;
  insl p n d :=
    match sm_phase d with
    | PData drv sec => (sm_disk d drv sec, mkSim (sm_regs d) PReady (sm_disk d) (sm_busy d))
    | _ => ([], d)
    end }.

Lemma sim_reg p x (d : sim) : 0x1f2 <= p <= 0x1f6 -> v_phase (sim_view d) = PReady ->
  sim_view (outb p x d) = mkView (<[Z.to_nat (p - 0x1f2) := x]> (v_regs (sim_view d))) PReady (v_disk (sim_view d)).
Proof.
  destruct d as [[[[[a b] c] e] f] ph m bz]. cbn [sim_view sm_regs sm_phase sm_disk v_phase]. intros Hp ->.
  assert (p = 0x1f2 \/ p = 0x1f3 \/ p = 0x1f4 \/ p = 0x1f5 \/ p = 0x1f6) as [->|[->|[->|[->| ->]]]] by lia; reflexivity.
Qed.

#[export] Instance sim_drive : Drive sim.
Proof.
  refine (Build_Drive sim _ sim_view 2 (fun _ _ => false) _ _ sim_reg _ _ _ _ _ _ _).
  - by intros [[[[[a b] c] e] f] ph m bz].
  - by intros x [[[[[a b] c] e] f] ph m bz].
  - by intros [[[[[a b] c] e] f] ph m bz].
  - by intros [[[[[a b] c] e] f] ph m bz].
  - intros bs [[[[[a b] c] e] f] ph m bz] drv sec Hp _. cbn in Hp. by subst ph.
  - by intros [[[[[a b] c] e] f] ph m []].
  - by intros [[[[[a b] c] e] f] ph m []] drv sec Hp.
  - intros [[[[[a b] c] e] f] ph m bz] drv sec Hp. cbn in Hp. by subst ph.
  - by intros [[[[[a b] c] e] f] ph m []].
Defined.


(** Block 5 is written through one buffer and, before the drive has finished, read
    through another. *)
Definition demo_drive : sim := mkSim (0, 0, 0, 0, 0) PReady (fun _ _ => zeroes) false.
Definition demo_bufs : list buf :=
  [mkBuf B_DIRTY 1 5 1 1 (replicate 512 7); mkBuf 0 1 5 1 1 zeroes].
Definition demo_cache (bs : list buf) (dsk : list block) (w : list (Z * block)) : bcache :=
  mkBcache bs [1%nat; 0%nat] dsk w.

