(* ===== verification/Boot.v ===== *)
(** Model of src/bootmain.c: the boot loader, on the drive of [Ide.v].

    The state is memory, by physical address, and the drive; the loader reads from
    drive 0.  Numbers are the 32-bit numbers of the loader.  Starting the kernel is
    returning its entry address; [None] is a loader that gives up. *)
From stdpp Require Import base strings numbers list.
From S2P Require Import Prelude CString Kalloc Bio Mkfs Ide IdeRefine.
Local Open Scope Z_scope.

Definition SECTSIZE : Z := 512.
(** The scratch space [x]. *)
Definition SCRATCH : Z := 0x10000.

Section Boot.
Context {D : Type} `{DriveOps D}.

Fixpoint waitdisk (fuel : nat) (d : D) : res D :=
  match fuel with
  | O => NoFuel
  | S fuel => let '(st, d) := inb 0x1f7 d in if Z.land st 0xC0 =? 0x40 then Ok d else waitdisk fuel d
  end.

(** [insl(port, dst, cnt)]: the words come in at [dst]. *)
Definition put_mem (m : mem) (a : Z) (bs : list Z) : mem := fun x =>
  if (a <=? x) && (x <? a + Z.of_nat (length bs)) then nth (Z.to_nat (x - a)) bs 0 else m x.

(** [outb] sends the low byte. *)
Definition readsect (fuel : nat) (dst offset : Z) (s : mem * D) : res (mem * D) :=
  let '(m, d) := s in
  d ← waitdisk fuel d;
  let d := outb 0x1f2 1 d in
  let d := outb 0x1f3 (u8 offset) d in
  let d := outb 0x1f4 (u8 (Z.shiftr offset 8)) d in
  let d := outb 0x1f5 (u8 (Z.shiftr offset 16)) d in
  let d := outb 0x1f6 (u8 (Z.lor (Z.shiftr offset 24) 0xE0)) d in
  let d := outb 0x1f7 0x20 d in
  d ← waitdisk fuel d;
  let '(bs, d) := insl 0x1f0 (SECTSIZE / 4) d in
  Ok (put_mem m dst bs, d).

Fixpoint readseg_loop (n : nat) (fuel : nat) (pa epa offset : Z) (s : mem * D) : res (mem * D) :=
  if pa <? epa then
    match n with
    | O => NoFuel
    | S n => s ← readsect fuel pa offset s; readseg_loop n fuel (u32 (pa + SECTSIZE)) epa (u32 (offset + 1)) s
    end
  else Ok s.

Definition readseg (fuel : nat) (pa count offset : Z) (s : mem * D) : res (mem * D) :=
  let epa := u32 (pa + count) in
  let pa := u32 (pa - offset mod SECTSIZE) in
  let offset := u32 (offset / SECTSIZE + 1) in
  readseg_loop (Z.to_nat (epa - pa)) fuel pa epa offset s.

(** [x[n]]. *)
Definition word (m : mem) (n : Z) : Z := load_le 4 m (SCRATCH + 4 * n).

Definition is_header (m : mem) (n : Z) : bool :=
  (word m n =? 0x1BADB002) && (u32 (word m n + word m (n + 1) + word m (n + 2)) =? 0).

Definition find_header (m : mem) : option Z := List.find (is_header m) (seqZ 0 2048).

(** The fields of the header at [x + n]. *)
Definition h_flags (m : mem) (n : Z) : Z := word m (n + 1).
Definition h_header_addr (m : mem) (n : Z) : Z := word m (n + 3).
Definition h_load_addr (m : mem) (n : Z) : Z := word m (n + 4).
Definition h_load_end_addr (m : mem) (n : Z) : Z := word m (n + 5).
Definition h_bss_end_addr (m : mem) (n : Z) : Z := word m (n + 6).
Definition h_entry_addr (m : mem) (n : Z) : Z := word m (n + 7).

Definition bootmain (fuel : nat) (s : mem * D) : res (option Z * (mem * D)) :=
  s ← readseg fuel SCRATCH 8192 0 s;
  match find_header (fst s) with
  | None => Ok (None, s)
  | Some n =>
      let m := fst s in
      if Z.land (h_flags m n) 0x10000 =? 0 then Ok (None, s)
      else if h_header_addr m n <? h_load_addr m n then Ok (None, s)
      else if h_load_end_addr m n <? h_load_addr m n then Ok (None, s)
      else
        s ← readseg fuel (h_load_addr m n) (u32 (h_load_end_addr m n - h_load_addr m n))
              (u32 (n * 4 - u32 (h_header_addr m n - h_load_addr m n))) s;
        let m := fst s in
        let m := if h_load_end_addr m n <? h_bss_end_addr m n
                 then stosb m (h_load_end_addr m n) 0 (Z.to_nat (h_bss_end_addr m n - h_load_end_addr m n))
                 else m in
        Ok (Some (h_entry_addr m n), (m, snd s))
  end.

End Boot.

(** * Loading *)

Section Load.
Context {D : Type} `{HD : Drive D} (fuel : nat) (Hfuel : (patience <= fuel)%nat).
Implicit Types d : D.

(** The kernel's image starts at sector 1. *)
Definition kernel_byte (v : dview) (off : Z) : Z := nth (Z.to_nat (off mod 512)) (v_disk v 0 (off / 512 + 1)) 0.

Lemma waitdisk_ok n d : ready_within n d = true ->
  exists st d', waitdisk n d = Ok d' /\ status_ready st = true
  /\ view d' = with_phase (view d) (next_phase (v_phase (view d)) st)
  /\ forall drv sec, v_phase (view d) = PRead drv sec -> status_err st = bad drv sec.
Proof.
  revert d. induction n as [|n IH]; intros d; cbn [ready_within waitdisk]; [done|].
  pose proof (view_status d) as Hv. pose proof (read_error d) as He. destruct (inb 0x1f7 d) as [st d1].
  change (Z.land st 0xC0 =? 0x40) with (status_ready st). destruct (status_ready st) eqn:Er; cbn [orb].
  - intros _. exists st, d1. split_and!; try done. intros drv sec Hp. by apply (He drv sec).
  - unfold next_phase in Hv. rewrite Er in Hv. replace (with_phase (view d) (v_phase (view d))) with (view d) in Hv by (by destruct (view d)).
    rewrite <- Hv. apply IH.
Qed.

Lemma waitdisk_rest d : at_rest (v_phase (view d)) ->
  exists d', waitdisk fuel d = Ok d' /\ view d' = with_phase (view d) PReady.
Proof.
  intros Hp. destruct (waitdisk_ok fuel d (polls_enough fuel Hfuel d)) as (st & d' & E & Hr & Hv & _).
  exists d'. split; [done|]. rewrite Hv. unfold next_phase. rewrite Hr. by destruct Hp as [-> | ->].
Qed.

Lemma waitdisk_data d drv sec : v_phase (view d) = PRead drv sec -> bad drv sec = false ->
  exists d', waitdisk fuel d = Ok d' /\ view d' = with_phase (view d) (PData drv sec).
Proof.
  intros Hp Hb. destruct (waitdisk_ok fuel d (polls_enough fuel Hfuel d)) as (st & d' & E & Hr & Hv & He).
  exists d'. split; [done|]. rewrite Hv, Hp. unfold next_phase. rewrite Hr, (He _ _ Hp), Hb. done.
Qed.

(** The bytes sent for a sector of drive 0 select it. *)
Lemma sel_boot off : 0 <= off < 2 ^ 28 ->
  let r := [1; u8 off; u8 (Z.shiftr off 8); u8 (Z.shiftr off 16); u8 (Z.lor (Z.shiftr off 24) 0xE0)] in
  sel_sec r = off /\ sel_drv r = 0.
Proof.
  intros Ho r. unfold sel_sec, sel_drv, r. cbn [nth]. rewrite !Z.shiftr_div_pow2 by lia.
  assert (0 <= off / 2 ^ 24 < 16) as Hh by (split; [apply Z.div_pos; lia|apply Z.div_lt_upper_bound; lia]).
  assert (Z.lor (off / 2 ^ 24) 0xE0 = off / 2 ^ 24 + 14 * 16) as ->.
  { change 0xE0 with (14 * 2 ^ 4). rewrite <- Z.lxor_lor, <- Z.add_nocarry_lxor; [lia| |]; rewrite Z.land_comm.
    all: rewrite <- Z.shiftl_mul_pow2 by lia; apply Z.bits_inj'; intros k Hk; rewrite Z.land_spec, Z.bits_0.
    all: destruct (Z.ltb_spec k 4); [by rewrite Z.shiftl_spec_low by lia|].
    all: rewrite <- (Z.mod_small (off / 2 ^ 24) (2 ^ 4)) by lia; rewrite Z.mod_pow2_bits_high by lia; apply andb_false_r. }
  clear r. unfold u8. change (2 ^ 8) with 256. change (2 ^ 16) with 65536 in *. change (2 ^ 24) with 16777216 in *. change (2 ^ 28) with 268435456 in *.
  split; Z.div_mod_to_equations; lia.
Qed.

Lemma readsect_ok m d dst off : at_rest (v_phase (view d)) -> 0 <= off < 2 ^ 28 -> bad 0 off = false ->
  exists d', readsect fuel dst off (m, d) = Ok (put_mem m dst (v_disk (view d) 0 off), d')
  /\ at_rest (v_phase (view d')) /\ v_disk (view d') = v_disk (view d).
Proof.
  intros Hr Ho Hb. unfold readsect. destruct (waitdisk_rest d Hr) as (d0 & -> & Hv0). cbn [mbind res_bind].
  pose proof (view_regs d0) as Hl. destruct (v_regs (view d0)) as [|r0 [|r1 [|r2 [|r3 [|r4 [|? ?]]]]]] eqn:Eregs; try done.
  assert (view d0 = mkView [r0; r1; r2; r3; r4] PReady (v_disk (view d))) as E0.
  { rewrite <- Eregs. rewrite Hv0. done. }
  pose proof (view_out_reg d0 _ 0x1f2 1 E0 eq_refl ltac:(lia)) as E1.
  pose proof (view_out_reg _ _ 0x1f3 (u8 off) E1 eq_refl ltac:(lia)) as E2.
  pose proof (view_out_reg _ _ 0x1f4 (u8 (Z.shiftr off 8)) E2 eq_refl ltac:(lia)) as E3.
  pose proof (view_out_reg _ _ 0x1f5 (u8 (Z.shiftr off 16)) E3 eq_refl ltac:(lia)) as E4.
  pose proof (view_out_reg _ _ 0x1f6 (u8 (Z.lor (Z.shiftr off 24) 0xE0)) E4 eq_refl ltac:(lia)) as E5.
  set (d5 := outb 0x1f6 _ _) in *. clearbody d5. destruct (sel_boot off Ho) as [Hsec Hdrv].
  assert (view (outb 0x1f7 0x20 d5) = with_phase (view d5) (PRead 0 off)) as E6.
  { assert (sel_drv (v_regs (view d5)) = 0 /\ sel_sec (v_regs (view d5)) = off) as [<- <-] by (by rewrite E5).
    apply (view_read d5); by rewrite E5. }
  set (d6 := outb 0x1f7 0x20 d5) in *. clearbody d6.
  assert (v_phase (view d6) = PRead 0 off) as P6 by (by rewrite E6).
  destruct (waitdisk_data d6 0 off P6 Hb) as (d7 & -> & Hv7). cbn [mbind res_bind].
  assert (v_phase (view d7) = PData 0 off) as P7 by (by rewrite Hv7).
  pose proof (view_insl d7 0 off P7) as Hi. change (SECTSIZE / 4) with 128. destruct (insl 0x1f0 128 d7) as [bs d8]. destruct Hi as [-> Hv8].
  assert (v_disk (view d7) = v_disk (view d)) as Ed by (rewrite Hv7; cbn [v_disk with_phase]; rewrite E6; cbn [v_disk with_phase]; by rewrite E5).
  exists d8. rewrite Ed. split; [done|]. rewrite Hv8. split; [by left|]. exact Ed.
Qed.

(** The sectors below [hi] can be read. *)
Definition sectors_ok (v : dview) (hi : Z) : Prop :=
  hi <= 2 ^ 28 /\ forall n, 1 <= n < hi -> bad 0 n = false /\ length (v_disk v 0 n) = 512%nat.

Lemma put_mem_block m dst bs a : length bs = 512%nat ->
  put_mem m dst bs a = if decide (dst <= a < dst + 512) then nth (Z.to_nat (a - dst)) bs 0 else m a.
Proof.
  intros Hl. unfold put_mem. rewrite Hl. change (Z.of_nat 512) with 512.
  destruct (decide (dst <= a < dst + 512)) as [Ha|Ha]; [by replace ((dst <=? a) && (a <? dst + 512)) with true by lia|].
  by replace ((dst <=? a) && (a <? dst + 512)) with false by lia.
Qed.

Lemma readseg_loop_ok k : forall n m d pa epa off hi, (k <= n)%nat -> at_rest (v_phase (view d)) ->
  epa <= pa + 512 * Z.of_nat k -> ((0 < k)%nat -> pa + 512 * (Z.of_nat k - 1) < epa) ->
  sectors_ok (view d) hi -> 1 <= off -> off + Z.of_nat k <= hi -> 0 <= pa -> epa <= 2 ^ 32 - 512 ->
  exists m' d', readseg_loop n fuel pa epa off (m, d) = Ok (m', d') /\ at_rest (v_phase (view d')) /\ v_disk (view d') = v_disk (view d)
  /\ forall a, m' a = if decide (pa <= a < pa + 512 * Z.of_nat k)
                      then nth (Z.to_nat ((a - pa) mod 512)) (v_disk (view d) 0 (off + (a - pa) / 512)) 0 else m a.
Proof.
  induction k as [|k IH]; intros n m d pa epa off hi Hn Hr He1 He2 Hs Ho Hhi Hpa Hep.
  { exists m, d. split; [destruct n; cbn [readseg_loop]; by replace (pa <? epa) with false by lia|]. split; [done|]. split; [done|].
    intros a. by rewrite decide_False by lia. }
  destruct n as [|n]; [lia|]. cbn [readseg_loop]. replace (pa <? epa) with true by lia.
  destruct (proj2 Hs off) as [Hb Hl]; [lia|]. destruct Hs as [Hmax Hs].
  destruct (readsect_ok m d pa off Hr ltac:(lia) Hb) as (d1 & -> & Hr1 & Hd1). cbn [mbind res_bind].
  change SECTSIZE with 512. rewrite !u32_id by lia.
  destruct (IH n (put_mem m pa (v_disk (view d) 0 off)) d1 (pa + 512) epa (off + 1) hi) as (m2 & d2 & -> & Hr2 & Hd2 & Hm2); try done; try lia.
  { split; [done|]. rewrite Hd1. done. }
  exists m2, d2. split; [done|]. split; [done|]. split; [by rewrite Hd2|]. intros a. rewrite Hm2, Hd1.
  destruct (decide (pa + 512 <= a < pa + 512 + 512 * Z.of_nat k)) as [Ha|Ha].
  - rewrite decide_True by lia. replace (a - pa) with (a - (pa + 512) + 1 * 512) by lia. rewrite Z.mod_add, Z.div_add by lia.
    do 2 f_equal. lia.
  - rewrite put_mem_block by done. destruct (decide (pa <= a < pa + 512)) as [Hb1|Hb1].
    + rewrite decide_True by lia. rewrite Z.mod_small, Z.div_small by lia. by rewrite Z.add_0_r.
    + by rewrite decide_False by lia.
Qed.

(** [readseg] brings [count] bytes of the image from [off] on to [pa]; what else it
    writes is less than a sector before and after them. *)
Lemma readseg_ok m d pa count off hi : at_rest (v_phase (view d)) -> sectors_ok (view d) hi ->
  0 <= off -> 0 <= count -> off mod 512 <= pa -> pa + count <= 2 ^ 32 - 512 -> off + count <= 512 * (hi - 1) -> 1 < hi ->
  exists m' d', readseg fuel pa count off (m, d) = Ok (m', d') /\ at_rest (v_phase (view d')) /\ v_disk (view d') = v_disk (view d)
  /\ (forall a, pa <= a < pa + count -> m' a = kernel_byte (view d) (off + (a - pa)))
  /\ (forall a, a < pa - 511 \/ pa + count + 511 <= a -> m' a = m a).
Proof.
  intros Hr Hs Ho Hc Hpa Hend Hhi H1. unfold readseg. change SECTSIZE with 512. set (pa0 := pa - off mod 512).
  assert (0 <= off mod 512 < 512) as Hm by (apply Z.mod_pos_bound; lia).
  assert (hi <= 2 ^ 28) as Hmax by apply Hs. assert (0 <= off / 512 < hi) as Hq by (Z.div_mod_to_equations; lia).
  rewrite !u32_id by (unfold pa0; lia). fold pa0.
  set (k := Z.to_nat ((pa + count - pa0 + 511) / 512)).
  assert (512 * Z.of_nat k <= pa + count - pa0 + 511 < 512 * Z.of_nat k + 512) as Hk by (unfold k, pa0; Z.div_mod_to_equations; lia).
  destruct (readseg_loop_ok k (Z.to_nat (pa + count - pa0)) m d pa0 (pa + count) (off / 512 + 1) hi) as (m' & d' & E & Hr' & Hd' & Hm').
  { unfold pa0 in *. lia. } { done. } { lia. } { unfold pa0 in *. lia. } { done. } { lia. }
  { unfold pa0 in *. Z.div_mod_to_equations. lia. } { unfold pa0. lia. } { lia. }
  exists m', d'. split; [done|]. split; [done|]. split; [done|]. split.
  - intros a Ha. rewrite Hm', decide_True by (unfold pa0 in *; lia). unfold kernel_byte.
    replace (off + (a - pa)) with (a - pa0 + off / 512 * 512) by (unfold pa0; Z.div_mod_to_equations; lia).
    rewrite Z.mod_add, Z.div_add by lia. do 2 f_equal. lia.
  - intros a Ha. rewrite Hm', decide_False; [done|]. unfold pa0 in *. lia.
Qed.

(** * The image *)

Definition iword (v : dview) (n : Z) : Z := load_le 4 (kernel_byte v) (4 * n).
Definition image_header (v : dview) (n : Z) : bool :=
  (iword v n =? 0x1BADB002) && (u32 (iword v n + iword v (n + 1) + iword v (n + 2)) =? 0).

Lemma load_le_shift n (m m' : mem) a a' : (forall k, 0 <= k < Z.of_nat n -> m (a + k) = m' (a' + k)) -> load_le n m a = load_le n m' a'.
Proof.
  revert a a'. induction n as [|n IH]; intros a a' E; cbn [load_le]; [done|].
  pose proof (E 0 ltac:(lia)) as E0. rewrite !Z.add_0_r in E0. rewrite E0. do 2 f_equal. apply IH. intros k Hk.
  rewrite <- !Z.add_assoc. apply E. lia.
Qed.

Lemma load_le_range n (m : mem) a : (forall x, is_u8 (m x)) -> 0 <= load_le n m a < 256 ^ Z.of_nat n.
Proof.
  intros Hm. revert a. induction n as [|n IH]; intros a; [cbn; lia|]. cbn [load_le].
  pose proof (IH (a + 1)). pose proof (Hm a) as Ha. unfold is_u8 in Ha. rewrite Nat2Z.inj_succ, Z.pow_succ_r by lia. lia.
Qed.

Lemma find_first (f : Z -> bool) n k : 0 <= n < k -> f n = true -> (forall j, 0 <= j < n -> f j = false) ->
  List.find f (seqZ 0 k) = Some n.
Proof.
  intros Hn Hf Hj. replace k with (n + (k - n)) by lia. rewrite seqZ_app by lia. rewrite Z.add_0_l.
  assert (forall l, Forall (fun j => f j = false) l -> forall l', List.find f (l ++ l') = List.find f l') as Hskip.
  { induction 1 as [|j l E _ IH]; intros l'; cbn [app List.find]; [done|]. by rewrite E. }
  rewrite Hskip; [|apply Forall_seqZ; intros j Hj'; apply Hj; lia].
  rewrite seqZ_cons by lia. cbn [List.find]. by rewrite Hf.
Qed.

(** Where the kernel goes, by the header at word [n] of its image. *)
Record loadable (v : dview) (hi n : Z) : Prop := {
  ld_sectors : sectors_ok v hi;
  ld_room : 17 <= hi;
  ld_bytes : forall off, is_u8 (kernel_byte v off);
  ld_pos : 0 <= n <= 2040;
  ld_header : image_header v n = true;
  ld_first : forall k, 0 <= k < n -> image_header v k = false;
  ld_flags : Z.land (iword v (n + 1)) 0x10000 <> 0;
  ld_offset : 0 <= iword v (n + 3) - iword v (n + 4) <= 4 * n;
  ld_order : iword v (n + 4) <= iword v (n + 5);
  ld_top : iword v (n + 5) <= 2 ^ 32 - 512;
  ld_above : SCRATCH + 8192 + 511 <= iword v (n + 4);
  ld_size : 4 * n - (iword v (n + 3) - iword v (n + 4)) + (iword v (n + 5) - iword v (n + 4)) <= 512 * (hi - 1) }.

(** The header read into the scratch space is the image's. *)
Lemma scratch_word v (m : mem) j : (forall a, SCRATCH <= a < SCRATCH + 8192 -> m a = kernel_byte v (a - SCRATCH)) ->
  0 <= j < 2048 -> word m j = iword v j.
Proof. intros Hm Hj. apply load_le_shift. intros k Hk. rewrite Hm by lia. f_equal. lia. Qed.

Lemma header_found m d hi n : at_rest (v_phase (view d)) -> loadable (view d) hi n ->
  exists m1 d1, readseg fuel SCRATCH 8192 0 (m, d) = Ok (m1, d1) /\ at_rest (v_phase (view d1)) /\ v_disk (view d1) = v_disk (view d)
  /\ (forall a, SCRATCH <= a < SCRATCH + 8192 -> m1 a = kernel_byte (view d) (a - SCRATCH))
  /\ find_header m1 = Some n.
Proof.
  intros Hr L. pose proof (ld_pos _ _ _ L) as Hn. pose proof (ld_room _ _ _ L) as Hhi. unfold SCRATCH.
  destruct (readseg_ok m d 0x10000 8192 0 hi Hr (ld_sectors _ _ _ L)) as (m1 & d1 & E1 & Hr1 & Hd1 & Hm1 & _);
    [lia|lia|change (0 mod 512) with 0; lia|lia|lia|lia|].
  assert (forall a, 0x10000 <= a < 0x10000 + 8192 -> m1 a = kernel_byte (view d) (a - 0x10000)) as Hs1 by (intros a Ha; by rewrite Hm1 by lia).
  exists m1, d1. do 4 (split; [done|]). apply find_first; [lia| |].
  - unfold is_header. rewrite !(scratch_word (view d) m1) by (done || lia). apply (ld_header _ _ _ L).
  - intros k Hk. unfold is_header. rewrite !(scratch_word (view d) m1) by (done || lia). by apply (ld_first _ _ _ L).
Qed.

(** Clearing the memory after the image. *)
Lemma clear_bss (m : mem) load_end bss_end a :
  (if load_end <? bss_end then stosb m load_end 0 (Z.to_nat (bss_end - load_end)) else m) a
  = if (load_end <=? a) && (a <? bss_end) then 0 else m a.
Proof.
  destruct (Z.ltb_spec load_end bss_end); [|by replace ((load_end <=? a) && (a <? bss_end)) with false by lia].
  rewrite stosb_spec. by replace (load_end + Z.of_nat (Z.to_nat (bss_end - load_end))) with bss_end by lia.
Qed.

Lemma bootmain_loads m d hi n : at_rest (v_phase (view d)) -> loadable (view d) hi n ->
  let v := view d in let load := iword v (n + 4) in let load_end := iword v (n + 5) in let bss_end := iword v (n + 6) in
  exists m' d', bootmain fuel (m, d) = Ok (Some (iword v (n + 7)), (m', d'))
  /\ (forall a, load <= a < load_end -> m' a = kernel_byte v (4 * n - (iword v (n + 3) - load) + (a - load)))
  /\ (forall a, load_end <= a < bss_end -> m' a = 0)
  /\ v_disk (view d') = v_disk v.
Proof.
  intros Hr L v load load_end bss_end. destruct (header_found m d hi n Hr L) as (m1 & d1 & E1 & Hr1 & Hd1 & Hs1 & Hfind).
  pose proof (ld_pos _ _ _ L) as Hn. assert (forall j, 0 <= iword v j < 2 ^ 32) as Hw by (intros j; apply (load_le_range 4), L).
  destruct L as [[S1 S2] Hhi _ _ _ _ Hfl Hoff Hord Htop Habove Hsize]. fold v load load_end in Hfl, Hoff, Hord, Htop, Habove, Hsize.
  unfold bootmain. rewrite E1. cbn [mbind res_bind fst snd]. rewrite Hfind.
  unfold h_flags, h_header_addr, h_load_addr, h_load_end_addr, h_bss_end_addr, h_entry_addr. cbv zeta.
  rewrite !(scratch_word v m1) by (done || lia). fold load load_end. unfold SCRATCH in Habove.
  destruct (Z.eqb_spec (Z.land (iword v (n + 1)) 65536) 0) as [E0|_]; [done|].
  replace (iword v (n + 3) <? load) with false by lia. replace (load_end <? load) with false by lia.
  pose proof (Hw (n + 3)) as W3. pose proof (Hw (n + 4)) as W4. pose proof (Hw (n + 5)) as W5. fold load in W4. fold load_end in W5.
  rewrite (u32_id (iword v (n + 3) - load)), (u32_id (n * 4 - _)), (u32_id (load_end - load)) by lia.
  set (off := n * 4 - (iword v (n + 3) - load)).
  assert (0 <= off mod 512 < 512) as Hom by (apply Z.mod_pos_bound; lia).
  destruct (readseg_ok m1 d1 load (load_end - load) off hi Hr1) as (m2 & d2 & E2 & _ & Hd2 & Hm2 & Hk2); try (unfold off in *; lia).
  { split; [done|]. by rewrite Hd1. }
  rewrite E2. cbn [mbind res_bind fst snd].
  assert (forall j, 0 <= j < 2048 -> word m2 j = iword v j) as Hw2.
  { intros j. apply scratch_word. intros a Ha. unfold SCRATCH in Ha. rewrite Hk2 by lia. by apply Hs1. }
  rewrite !Hw2 by lia. fold load_end bss_end. set (m3 := if load_end <? bss_end then _ else m2).
  assert (word m3 (n + 7) = iword v (n + 7)) as ->.
  { rewrite <- Hw2 by lia. apply load_le_shift. intros k Hk. unfold m3, SCRATCH. rewrite clear_bss. by replace (_ && _) with false by lia. }
  exists m3, d2. split; [done|]. split; [|split; [|by rewrite Hd2]]; intros a Ha; unfold m3; rewrite clear_bss.
  - replace (_ && _) with false by lia. rewrite Hm2 by lia. unfold kernel_byte. rewrite Hd1.
    replace (4 * n - (iword v (n + 3) - load) + (a - load)) with (off + (a - load)) by (unfold off; lia). done.
  - by replace (_ && _) with true by lia.
Qed.

End Load.

(** C11: the boot loader loads the kernel.  If the first header in the first 8192 bytes
    of the image has the load fields and describes a region above the scratch space,
    inside the image and not in the last sector of the address space, [bootmain] starts the kernel at the header's entry
    address, with every byte of the region holding its byte of the image (whole
    sectors are read, from the sector the region starts in), the bytes after it up
    to [bss_end_addr] zero, and the disk as it was. *)
Theorem bootmain_loads_kernel {D : Type} `{Drive D} (fuel : nat) (m : mem) (d : D) (hi n : Z) :
  (patience <= fuel)%nat -> at_rest (v_phase (view d)) -> loadable (view d) hi n ->
  let v := view d in let load := iword v (n + 4) in let load_end := iword v (n + 5) in let bss_end := iword v (n + 6) in
  exists m' d', bootmain fuel (m, d) = Ok (Some (iword v (n + 7)), (m', d'))
  /\ (forall a, load <= a < load_end -> m' a = kernel_byte v (4 * n - (iword v (n + 3) - load) + (a - load)))
  /\ (forall a, load_end <= a < bss_end -> m' a = 0)
  /\ v_disk (view d') = v_disk v.
Proof. intros Hf. by apply bootmain_loads. Qed.

(** An image of 8192 bytes whose header says: 600 bytes at 1 MB, 400 more cleared. *)
Definition demo_kernel : list Z :=
  [0x02; 0xB0; 0xAD; 0x1B; 0; 0; 1; 0; 0xFE; 0x4F; 0x51; 0xE4; 0; 0; 0x10; 0; 0; 0; 0x10; 0;
   0x58; 2; 0x10; 0; 0xE8; 3; 0x10; 0; 0x20; 0; 0x10; 0] ++ replicate 480 7.
Definition boot_drive : sim :=
  mkSim (0, 0, 0, 0, 0) PReady (fun _ n => if n =? 1 then demo_kernel else replicate 512 9) false.

Lemma demo_kernel_bytes l k : forallb (fun b => (0 <=? b) && (b <? 256)) l = true -> is_u8 (nth k l 0).
Proof.
  revert k. induction l as [|b l IH]; intros k; cbn [forallb]; [intros _; destruct k; unfold is_u8; cbn; lia|].
  intros [Hb Hl]%andb_prop. destruct k; cbn [nth]; [unfold is_u8; change (2 ^ 8) with 256; lia|by apply IH].
Qed.

Lemma boot_drive_loadable : loadable (view boot_drive) 17 0.
Proof.
  split; try lia; try (vm_compute; done); try (split; vm_compute; discriminate).
  - split; [lia|]. intros n _. split; [done|]. cbn. by destruct (n =? 1).
  - intros off. unfold kernel_byte. cbn [view v_disk]. cbn. destruct (_ =? 1); by apply demo_kernel_bytes.
Qed.

Lemma boot_drive_words : iword (view boot_drive) 3 = 0x100000 /\ iword (view boot_drive) 4 = 0x100000
  /\ iword (view boot_drive) 5 = 0x100258 /\ iword (view boot_drive) 6 = 0x1003E8 /\ iword (view boot_drive) 7 = 0x100020
  /\ kernel_byte (view boot_drive) 0 = 2 /\ kernel_byte (view boot_drive) 0x257 = 9.
Proof. split_and!; vm_compute; reflexivity. Qed.

Lemma bootmain_loads_kernel_witness : exists m' d', bootmain 2 (fun _ => 255, boot_drive) = Ok (Some 0x100020, (m', d'))
  /\ m' 0x100000 = 2 /\ m' 0x100257 = 9 /\ m' 0x100300 = 0.
Proof.
  destruct (bootmain_loads_kernel 2 (fun _ => 255) boot_drive 17 0) as (m' & d' & E & H1 & H2 & _).
  - apply le_n.
  - by left.
  - apply boot_drive_loadable.
  - destruct boot_drive_words as (W3 & W4 & W5 & W6 & W7 & K0 & K1). rewrite !Z.add_0_l in *.
    rewrite W3, W4, W5 in H1. rewrite W5, W6 in H2. rewrite W7 in E. exists m', d'. split; [exact E|].
    split; [|split]; [| |apply H2; lia].
    + rewrite H1 by lia. exact K0.
    + rewrite H1 by lia. exact K1.
Defined.
