(* ===== verification/FsDir.v ===== *)
(** Directories of src/fs.c as finite maps: [dirlookup] is a lookup and [dirlink]
    an insertion, on the bytes [readi] and [writei] give. *)
From stdpp Require Import base strings numbers list gmap sets.
From S2P Require Import Prelude CString Bio Log Fs FsInode FsTxn FsAlloc FsFile FsContents.
Local Open Scope Z_scope.

(** * The map of a directory *)

Fixpoint dirents (n : nat) (bs : list Z) : list dirent :=
  match n with
  | O => []
  | S n => get_dirent (take 16 bs) :: dirents n (drop 16 bs)
  end.

(** A name as the directory keeps it: at most [DIRSIZ] characters. *)
Definition key (name : list Z) : list Z := take 14 name.

(** The entries in use; of two with one name the first counts. *)
Definition dir_map (es : list dirent) : gmap (list Z) Z :=
  foldr (fun e m => if de_inum e =? 0 then m else <[name_chars (de_name e) := de_inum e]> m) ∅ es.

Definition dir_of (s : fstate) (ip : inode) : gmap (list Z) Z :=
  dir_map (dirents (Z.to_nat (isize ip / 16)) (file_bytes s ip)).

(** Where the search of [dirlookup] ends. *)
Fixpoint find_entry (name : list Z) (off : Z) (es : list dirent) : option (Z * Z) :=
  match es with
  | [] => None
  | e :: es =>
      if de_inum e =? 0 then find_entry name (off + 16) es
      else if namecmp name (de_name e) =? 0 then Some (off, de_inum e)
      else find_entry name (off + 16) es
  end.

(** Where the search of [dirlink] ends. *)
Fixpoint find_free (off : Z) (es : list dirent) : Z :=
  match es with
  | [] => off
  | e :: es => if de_inum e =? 0 then off else find_free (off + 16) es
  end.

Lemma name_chars_cstr q : Forall is_u8 q -> is_cstr (name_chars q).
Proof.
  unfold is_cstr. induction 1 as [|c q Hc _ IH]; cbn; [constructor|]. destruct (Z.eqb_spec c 0); [constructor|].
  constructor; [unfold is_u8 in Hc; lia|done].
Qed.

Lemma strncmp_nul p q n : is_cstr p -> Forall is_u8 q -> strncmp p q n = 0 <-> take n p = take n (name_chars q).
Proof.
  intros Hp Hq. rewrite <- strncmp_eq_iff by (done || by apply name_chars_cstr).
  assert (strncmp p q n = 0 <-> strncmp p (name_chars q) n = 0) as H; [|exact H].
  revert p q Hp Hq. induction n as [|n IH]; intros p q Hp Hq; [done|]. cbn [strncmp].
  destruct q as [|y q]; [done|]. apply Forall_cons in Hq as [Hy Hq]. cbn [name_chars cur].
  destruct (Z.eqb_spec y 0) as [->|Hy0]; cbn [cur tail].
  - destruct p as [|x p]; cbn [cur]; [done|]. apply Forall_cons in Hp as [Hx _].
    replace (negb (x =? 0) && (x =? 0)) with false by lia. done.
  - destruct (negb (cur p =? 0) && (cur p =? y)); [|done]. apply IH; [|done].
    destruct p; [constructor|]. by apply Forall_cons in Hp as [_ ?].
Qed.

(** Entries as [readi] delivers them: names of at most [DIRSIZ] bytes. *)
Definition entry_ok (e : dirent) : Prop := Forall is_u8 (de_name e) /\ (length (de_name e) <= 14)%nat.

Lemma length_name_chars q : (length (name_chars q) <= length q)%nat.
Proof. induction q as [|c q IH]; cbn; [done|]. destruct (c =? 0); cbn; lia. Qed.

Lemma namecmp_key name e : is_cstr name -> entry_ok e ->
  (namecmp name (de_name e) =? 0) = bool_decide (key name = name_chars (de_name e)).
Proof.
  intros Hn [He Hl]. apply eq_bool_prop_intro. rewrite bool_decide_spec, Is_true_true, Z.eqb_eq.
  unfold namecmp. change (Z.to_nat DIRSIZ) with 14%nat. rewrite strncmp_nul by done. unfold key.
  rewrite (take_ge (name_chars (de_name e)) 14); [done|]. pose proof (length_name_chars (de_name e)). lia.
Qed.

Lemma find_entry_map name off es : is_cstr name -> Forall entry_ok es ->
  snd <$> find_entry name off es = dir_map es !! key name.
Proof.
  intros Hn He. revert off. induction He as [|e es He _ IH]; intros off; cbn [find_entry dir_map foldr]; [done|].
  fold (dir_map es). destruct (de_inum e =? 0); [done|]. rewrite namecmp_key by done.
  case_bool_decide as Hk; [by rewrite <- Hk, lookup_insert_eq|]. by rewrite IH, lookup_insert_ne by done.
Qed.

(** * Entering a name *)

Fixpoint put_at (es : list dirent) (new : dirent) : list dirent :=
  match es with
  | [] => [new]
  | e :: es => if de_inum e =? 0 then new :: es else e :: put_at es new
  end.

Fixpoint free_ix (es : list dirent) : nat :=
  match es with
  | [] => 0
  | e :: es => if de_inum e =? 0 then 0 else S (free_ix es)
  end.

Lemma find_free_ix off es : find_free off es = off + 16 * Z.of_nat (free_ix es).
Proof.
  revert off. induction es as [|e es IH]; intros off; cbn [find_free free_ix]; [lia|].
  destruct (de_inum e =? 0); [lia|]. rewrite IH. lia.
Qed.

Lemma free_ix_le es : (free_ix es <= length es)%nat.
Proof. induction es as [|e es IH]; cbn; [done|]. destruct (de_inum e =? 0); lia. Qed.

Lemma length_dirents n bs : length (dirents n bs) = n.
Proof. revert bs. induction n as [|n IH]; intros bs; cbn; [done|]. by rewrite IH. Qed.

Lemma dir_map_put es name num : num <> 0 -> dir_map es !! name_chars (de_name (mkDirent num name)) = None ->
  dir_map (put_at es (mkDirent num name)) = <[name_chars name := num]> (dir_map es).
Proof.
  intros Hn. cbn [de_name]. induction es as [|e es IH]; intros Hnone; cbn [put_at dir_map foldr] in *; [|fold (dir_map es) in *].
  - cbn [de_inum de_name]. by rewrite (proj2 (Z.eqb_neq num 0)).
  - destruct (de_inum e =? 0) eqn:E.
    + cbn [dir_map foldr de_inum de_name]. by rewrite (proj2 (Z.eqb_neq num 0)).
    + cbn [dir_map foldr]. fold (dir_map (put_at es (mkDirent num name))). rewrite E.
      apply lookup_insert_None in Hnone as [Hm Hne]. rewrite IH by done. by rewrite insert_insert_ne.
Qed.

Lemma dirents_put n : forall bs ent, length bs = (16 * n)%nat -> length ent = 16%nat ->
  let fi := free_ix (dirents n bs) in
  dirents (Nat.max n (S fi)) (take (16 * fi) bs ++ ent ++ drop (16 * fi + 16) bs)
  = put_at (dirents n bs) (get_dirent ent).
Proof.
  induction n as [|n IH]; intros bs ent Hb He; cbn [dirents free_ix put_at].
  - apply nil_length_inv in Hb as ->. rewrite take_nil, drop_nil, app_nil_r. cbn. by rewrite take_ge by lia.
  - destruct (de_inum (get_dirent (take 16 bs)) =? 0).
    + cbv zeta. rewrite Nat.max_l, Nat.mul_0_r by lia. cbn [dirents]. rewrite take_0, app_nil_l, Nat.add_0_l.
      rewrite take_app_length', drop_app_length' by lia. done.
    + cbv zeta. specialize (IH (drop 16 bs) ent). cbv zeta in IH. rewrite length_drop in IH.
      set (fi := free_ix (dirents n (drop 16 bs))) in *. rewrite <- IH by lia.
      replace (Nat.max (S n) (S (S fi))) with (S (Nat.max n (S fi))) by lia. cbn [dirents].
      replace (16 * S fi)%nat with (16 + 16 * fi)%nat by lia.
      assert (length (take 16 bs) = 16%nat) as Hl by (rewrite length_take; lia).
      assert (take (16 + 16 * fi) bs = take 16 bs ++ take (16 * fi) (drop 16 bs)) as ->.
      { rewrite <- (take_drop 16 bs) at 1. rewrite take_app_ge by lia. rewrite Hl. f_equal. f_equal. lia. }
      rewrite <- !app_assoc, (take_app_length' (take 16 bs)), (drop_app_length' (take 16 bs)) by done.
      rewrite drop_drop. by replace (16 + (16 * fi + 16))%nat with (16 + 16 * fi + 16)%nat by lia.
Qed.

Lemma get_put_dirent num name : 0 <= num < 2 ^ 16 -> length name = 14%nat ->
  get_dirent (put_dirent (mkDirent num name)) = mkDirent num name.
Proof.
  intros Hn Hl. unfold get_dirent, put_dirent. cbn [de_inum de_name app nth drop].
  rewrite drop_0, take_ge by lia. f_equal. unfold u8, u16. Z.div_mod_to_equations; lia.
Qed.

Lemma name_chars_strncpy name n : is_cstr name -> name_chars (strncpy name n) = take n name.
Proof.
  intros H. revert n. induction H as [|c name Hc _ IH]; intros [|n]; cbn; try done.
  rewrite (proj2 (Z.eqb_neq c 0)) by lia. by rewrite IH.
Qed.

Lemma strncpy_u8 name n : is_cstr name -> Forall is_u8 (strncpy name n).
Proof.
  intros H. revert n. induction H as [|c name Hc _ IH]; intros [|n]; cbn; try constructor; try done.
  - apply Forall_replicate. done.
  - unfold is_u8. lia.
Qed.

Lemma dirents_ok n bs : Forall is_u8 bs -> Forall entry_ok (dirents n bs).
Proof.
  revert bs. induction n as [|n IH]; intros bs Hb; cbn; constructor; [|by apply IH, Forall_drop].
  split; cbn [de_name get_dirent].
  - by apply Forall_take, Forall_drop, Forall_take.
  - rewrite length_take. lia.
Qed.

(** * The loops *)

Section Dir.
Context (ds : Z) (o : Z).
Hypothesis Hds : 0 < ds.

(** A directory in memory: a well-formed file of whole entries. *)
Record dir_ok (s : fstate) (bl : list Z) (i : nat) (ip : inode) : Prop := {
  do_txn : txn_at o s bl [];
  do_layout : layout s ds;
  do_len : (length bl < 28)%nat;
  do_ip : inodes s !! i = Some ip;
  do_wf : file_wf s ds ip;
  do_size : isize ip mod 16 = 0;
  do_bytes : Forall is_u8 (file_bytes s ip) }.

(** What reading leaves: the same blocks and the same directory. *)
Record looked (s s' : fstate) (bl : list Z) (i : nat) (ip : inode) : Prop := {
  lk_same : same s s' [];
  lk_view : same_view s s';
  lk_dir : dir_ok s' bl i ip;
  lk_bytes : file_bytes s' ip = file_bytes s ip }.

Lemma looked_refl s bl i ip : dir_ok s bl i ip -> looked s s bl i ip.
Proof. intros H. split; [apply same_refl|done|done|done]. Qed.

Lemma looked_trans s s1 s2 bl i ip : looked s s1 bl i ip -> looked s1 s2 bl i ip -> looked s s2 bl i ip.
Proof.
  intros [S1 V1 D1 B1] [S2 V2 D2 B2]. split; [by eapply same_trans| |done|congruence].
  intros m Hm. by rewrite V2, V1.
Qed.

Lemma keeps_same s s' ip : layout s ds -> file_wf s ds ip -> same s s' [] -> same_view s s' -> keeps ds s s' ip.
Proof.
  intros Hly Hwf Hs Hv. apply (keeps_view ds Hds); [done|by eapply same_ext| | |].
  - intros b Hb Ha. by rewrite (allocated_same s s' ds []).
  - intros Hi. apply Hv. destruct (fw_ind _ _ _ Hwf Hi). lia.
  - intros k Hk Hb. apply Hv. destruct (fw_blk _ _ _ Hwf k Hk Hb) as [[? _] _]. lia.
Qed.

Lemma looked_intro s s' bl i ip : dir_ok s bl i ip -> txn_at o s' bl [] -> same s s' [] -> same_view s s' ->
  looked s s' bl i ip.
Proof.
  intros D Ht Hs Hv. destruct (keeps_same s s' ip (do_layout _ _ _ _ D) (do_wf _ _ _ _ D) Hs Hv) as [Hwf Hb].
  split; [done|done| |done]. split; try done.
  - apply (layout_same s s' ds []); [lia|exact (do_layout _ _ _ _ D)|done|done].
  - exact (do_len _ _ _ _ D).
  - rewrite (sm_inodes _ _ _ Hs). exact (do_ip _ _ _ _ D).
  - exact (do_size _ _ _ _ D).
  - rewrite Hb. exact (do_bytes _ _ _ _ D).
Qed.

Definition chunk (bs : list Z) (k : nat) : list Z := take 16 (drop (16 * k) bs).

Lemma read_dirent_spec s bl i ip k msg : dir_ok s bl i ip -> 16 * Z.of_nat k < isize ip ->
  exists s', read_dirent i (16 * Z.of_nat k) msg s = Ok (get_dirent (chunk (file_bytes s ip) k), s')
  /\ looked s s' bl i ip.
Proof.
  intros D Hk. pose proof (fw_size _ _ _ (do_wf _ _ _ _ D)) as Hsz. pose proof (do_size _ _ _ _ D) as Hm.
  change (MAXFILE * BSIZE) with 71680 in Hsz.
  destruct (readi_spec ds o Hds s bl i ip (16 * Z.of_nat k) 16) as (s' & E & Ht & Hs & Hv);
    [exact (do_txn _ _ _ _ D)|exact (do_layout _ _ _ _ D)|exact (do_len _ _ _ _ D)|exact (do_ip _ _ _ _ D)
    |exact (do_wf _ _ _ _ D)|lia|lia|].
  exists s'. split; [|by apply looked_intro]. unfold read_dirent, sizeof_dirent.
  rewrite (bind_ok _ _ _ _ _ E). replace (_ || _) with false by lia.
  change (Z.to_nat 16) with 16%nat. replace (Z.to_nat (16 * Z.of_nat k)) with (16 * k)%nat by lia. fold (chunk (file_bytes s ip) k).
  assert (length (chunk (file_bytes s ip) k) = 16%nat) as ->; [|done].
  unfold chunk. rewrite length_take, length_drop, length_file_bytes. Z.div_mod_to_equations; lia.
Qed.

Lemma dirents_drop n k bs : (k < n)%nat ->
  drop k (dirents n bs) = get_dirent (chunk bs k) :: drop (S k) (dirents n bs).
Proof.
  revert k bs. induction n as [|n IH]; intros k bs Hk; [lia|]. destruct k as [|k]; cbn [dirents drop].
  - by unfold chunk.
  - rewrite (IH k (drop 16 bs)) by lia. cbn. do 2 f_equal. unfold chunk. rewrite drop_drop. do 2 f_equal. lia.
Qed.

(** The entries of the directory. *)
Definition ents (s : fstate) (ip : inode) : list dirent := dirents (Z.to_nat (isize ip / 16)) (file_bytes s ip).

Lemma ents_ok s bl i ip : dir_ok s bl i ip -> Forall entry_ok (ents s ip).
Proof. intros D. apply dirents_ok, D. Qed.

Lemma ents_looked s s' bl i ip : looked s s' bl i ip -> ents s' ip = ents s ip.
Proof. intros L. unfold ents. by rewrite (lk_bytes _ _ _ _ _ L). Qed.

Lemma dirlookup_loop_spec fuel : forall s bl i ip name k,
  dir_ok s bl i ip -> (Z.to_nat (isize ip / 16) <= fuel + k)%nat -> 16 * Z.of_nat k <= isize ip ->
  exists s', dirlookup_loop fuel i name (16 * Z.of_nat k) s
      = Ok (find_entry name (16 * Z.of_nat k) (drop k (ents s ip)), s')
  /\ looked s s' bl i ip.
Proof.
  induction fuel as [|fuel IH]; intros s bl i ip name k D Hf Hk;
    pose proof (fw_size _ _ _ (do_wf _ _ _ _ D)) as Hsz; change (MAXFILE * BSIZE) with 71680 in Hsz;
    pose proof (do_size _ _ _ _ D) as Hm; cbn [dirlookup_loop];
    rewrite (bind_ok _ _ _ _ _ (get_ip_ok i ip s (do_ip _ _ _ _ D)));
    (destruct (Z.ltb_spec (16 * Z.of_nat k) (isize ip)) as [Hlt|Hge]; cbn [negb];
     [|exists s; split; [|by apply looked_refl]; unfold ents; rewrite drop_ge;
       [done|rewrite length_dirents; Z.div_mod_to_equations; lia]]).
  - Z.div_mod_to_equations; lia.
  - destruct (read_dirent_spec s bl i ip k "dirlookup read" D Hlt) as (s1 & E1 & L1).
    rewrite (bind_ok _ _ _ _ _ E1). unfold ents. rewrite dirents_drop by (Z.div_mod_to_equations; lia).
    fold (ents s ip). cbn [find_entry]. unfold sizeof_dirent.
    replace (u32 (16 * Z.of_nat k + 16)) with (16 * Z.of_nat (S k)) by (rewrite u32_id; lia).
    replace (16 * Z.of_nat k + 16) with (16 * Z.of_nat (S k)) by lia.
    destruct (IH s1 bl i ip name (S k) (lk_dir _ _ _ _ _ L1)) as (s2 & E2 & L2); [lia|Z.div_mod_to_equations; lia|].
    rewrite (ents_looked _ _ _ _ _ L1) in E2.
    destruct (de_inum _ =? 0); [exists s2; split; [done|by eapply looked_trans]|].
    destruct (namecmp _ _ =? 0); [by exists s1|]. exists s2. split; [done|by eapply looked_trans].
Qed.

Lemma dirlink_loop_spec fuel : forall s bl i ip k,
  dir_ok s bl i ip -> (Z.to_nat (isize ip / 16) <= fuel + k)%nat -> 16 * Z.of_nat k <= isize ip ->
  exists s', dirlink_loop fuel i (16 * Z.of_nat k) s
      = Ok (find_free (16 * Z.of_nat k) (drop k (ents s ip)), s')
  /\ looked s s' bl i ip.
Proof.
  induction fuel as [|fuel IH]; intros s bl i ip k D Hf Hk;
    pose proof (fw_size _ _ _ (do_wf _ _ _ _ D)) as Hsz; change (MAXFILE * BSIZE) with 71680 in Hsz;
    pose proof (do_size _ _ _ _ D) as Hm; cbn [dirlink_loop];
    rewrite (bind_ok _ _ _ _ _ (get_ip_ok i ip s (do_ip _ _ _ _ D)));
    (destruct (Z.ltb_spec (16 * Z.of_nat k) (isize ip)) as [Hlt|Hge]; cbn [negb];
     [|exists s; split; [|by apply looked_refl]; unfold ents; rewrite drop_ge;
       [done|rewrite length_dirents; Z.div_mod_to_equations; lia]]).
  - Z.div_mod_to_equations; lia.
  - destruct (read_dirent_spec s bl i ip k "dirlink read" D Hlt) as (s1 & E1 & L1).
    rewrite (bind_ok _ _ _ _ _ E1). unfold ents. rewrite dirents_drop by (Z.div_mod_to_equations; lia).
    fold (ents s ip). cbn [find_free]. unfold sizeof_dirent.
    replace (s32 (16 * Z.of_nat k + 16)) with (16 * Z.of_nat (S k)) by (rewrite s32_id; lia).
    replace (16 * Z.of_nat k + 16) with (16 * Z.of_nat (S k)) by lia.
    destruct (IH s1 bl i ip (S k) (lk_dir _ _ _ _ _ L1)) as (s2 & E2 & L2); [lia|Z.div_mod_to_equations; lia|].
    rewrite (ents_looked _ _ _ _ _ L1) in E2.
    destruct (de_inum _ =? 0); [by exists s1|]. exists s2. split; [done|by eapply looked_trans].
Qed.

(** * The operations *)

(** [dirlookup] up to the inode: a lookup in the map. *)
Lemma dirlookup_spec s bl i ip name :
  dir_ok s bl i ip -> itype ip = T_DIR -> is_cstr name ->
  exists s1, looked s s1 bl i ip
  /\ (dir_of s ip !! key name = None -> dirlookup i name s = Ok (None, s1))
  /\ forall n, dir_of s ip !! key name = Some n ->
       exists off, dirlookup i name s = (j ← iget 1 n; mret (Some (j, off))) s1.
Proof.
  intros D Ht Hn. pose proof (fw_size _ _ _ (do_wf _ _ _ _ D)) as Hsz.
  destruct (dirlookup_loop_spec (S (Z.to_nat (isize ip / 16))) s bl i ip name 0 D) as (s1 & E & L); [lia|lia|].
  change (16 * Z.of_nat 0) with 0 in E. rewrite drop_0 in E. exists s1. split; [done|].
  assert (snd <$> find_entry name 0 (ents s ip) = dir_of s ip !! key name) as Hf
    by (apply find_entry_map; [done|by eapply ents_ok]).
  unfold dirlookup. rewrite (bind_ok _ _ _ _ _ (get_ip_ok i ip s (do_ip _ _ _ _ D))), Ht, Z.eqb_refl. cbn [negb].
  unfold sizeof_dirent. rewrite (bind_ok _ _ _ _ _ E), (fw_dev _ _ _ (do_wf _ _ _ _ D)).
  destruct (find_entry name 0 (ents s ip)) as [[off n]|]; cbn in Hf; rewrite <- Hf.
  - split; [done|]. intros ? [= <-]. by exists off.
  - split; [done|]. by intros ? [=].
Qed.
End Dir.

Section Link.
Context (ds : Z) (O : list Z).
Hypothesis Hds : 0 < ds.

(** A directory that can be written in the running transaction. *)
Record open_dir (s : fstate) (bl : list Z) (i : nat) (ip : inode) (n : nat) : Prop := {
  od_file : open_file ds O s bl i ip n;
  od_type : itype ip = T_DIR;
  od_len : (length bl < 28)%nat;
  od_size : isize ip mod 16 = 0;
  od_bytes : Forall is_u8 (file_bytes s ip) }.

Lemma open_dir_ok s bl i ip n : open_dir s bl i ip n -> dir_ok ds 1 s bl i ip.
Proof. intros [Hf Ht Hl Hs Hb]. split; try done; apply Hf. Qed.

Lemma open_looked s s' bl i ip n : open_dir s bl i ip n -> looked ds 1 s s' bl i ip ->
  open_dir s' bl i ip n /\ nfree s' = nfree s.
Proof.
  intros [Hf Ht Hl Hs Hb] [S V D B]. pose proof (same_ext _ _ _ S) as Hx. split.
  - split; try done; [|by rewrite B]. destruct Hf as [F1 F2 F3 F4 F5 F6 F7 F8 F9 F10].
    split; try done; try (destruct D; done).
    + intros b. rewrite (sm_sb _ _ _ S). apply F3.
    + by rewrite (sm_sb _ _ _ S).
    + by apply (inode_block_ext ds O s s' ip).
    + destruct F10 as (d & Hd & Hg). exists d. split; [|done]. rewrite (sm_sb _ _ _ S), V; [done|].
      pose proof (ib_home _ _ _ _ F9) as H. unfold fhome, home in H. lia.
  - apply (nfree_same ds s s' []); [apply Hf|done|done].
Qed.

Lemma blk_same s s' ip k : file_wf s ds ip -> same_view s s' -> blk s' ip k = blk s ip k.
Proof.
  intros Hwf Hv. unfold blk. destruct (_ <? _); [done|]. apply ind_entry_view; [done|].
  intros Hi. apply Hv. destruct (fw_ind _ _ _ Hwf Hi). lia.
Qed.

Lemma apart_same s s' ip ip2 : file_wf s ds ip -> file_wf s ds ip2 -> same_view s s' ->
  apart s ip ip2 -> apart s' ip ip2.
Proof.
  intros W1 W2 Hv [A1 A2]. split; [done|]. intros k Hk. rewrite !(blk_same s s') by done.
  destruct (A2 k Hk) as (B1 & B2 & B3). split; [done|]. split; [done|]. intros k' Hk'. rewrite (blk_same s s') by done. auto.
Qed.

Lemma nblocks_entry off : 0 <= off -> off mod 16 = 0 -> nblocks off 16 = 1%nat.
Proof. intros Ho Hm. unfold nblocks. cbn [Z.leb Z.compare]. Z.div_mod_to_equations; lia. Qed.

(** Writing an entry in the first free place enters it in the map. *)
Lemma put_entry_map s s' ip ip' name num :
  is_cstr name -> 0 < num < 2 ^ 16 -> isize ip mod 16 = 0 -> 0 <= isize ip -> 0 <= isize ip' ->
  dir_of s ip !! key name = None ->
  let off := 16 * Z.of_nat (free_ix (ents s ip)) in
  let ent := put_dirent (mkDirent num (strncpy name 14)) in
  file_bytes s' ip' = take (Z.to_nat off) (file_bytes s ip) ++ ent ++ drop (Z.to_nat (off + 16)) (file_bytes s ip) ->
  dir_of s' ip' = <[key name := num]> (dir_of s ip) /\ isize ip' mod 16 = 0.
Proof.
  intros Hn Hnum Hm H0 H0' Hnone off ent Hb.
  assert (length ent = 16%nat) as He by (unfold ent, put_dirent; cbn [de_name de_inum app length]; by rewrite length_strncpy).
  pose proof (free_ix_le (ents s ip)) as Hfi. unfold ents in Hfi at 2. rewrite length_dirents in Hfi.
  set (k := Z.to_nat (isize ip / 16)) in *. set (fi := free_ix (ents s ip)) in *.
  assert (length (file_bytes s ip) = (16 * k)%nat) as Hl.
  { rewrite length_file_bytes. unfold k. Z.div_mod_to_equations; lia. }
  assert (isize ip' = Z.of_nat (16 * Nat.max k (S fi))) as Hsz.
  { pose proof (length_file_bytes s' ip') as Hl'. rewrite Hb, !length_app, length_take, length_drop, Hl, He in Hl'. lia. }
  split; [|rewrite Hsz; Z.div_mod_to_equations; lia].
  pose proof (dirents_put k (file_bytes s ip) ent Hl He) as Hd. cbv zeta in Hd.
  change (dirents k (file_bytes s ip)) with (ents s ip) in Hd. fold fi in Hd.
  unfold dir_of. replace (Z.to_nat (isize ip' / 16)) with (Nat.max k (S fi)) by (rewrite Hsz; Z.div_mod_to_equations; lia).
  rewrite Hb. replace (Z.to_nat off) with (16 * fi)%nat by lia. replace (Z.to_nat (off + 16)) with (16 * fi + 16)%nat by lia.
  rewrite Hd. change (dirents (Z.to_nat (isize ip / 16)) (file_bytes s ip)) with (ents s ip). unfold ent. rewrite get_put_dirent by (lia || by rewrite length_strncpy).
  assert (name_chars (strncpy name 14) = key name) as Hk by (by apply name_chars_strncpy).
  rewrite dir_map_put; [by rewrite Hk|lia|]. cbn [de_name]. by rewrite Hk.
Qed.

Lemma dirlink_spec s bl i ip n name num :
  open_dir s bl i ip n -> is_cstr name -> 0 < num < 2 ^ 16 -> dir_of s ip !! key name = None ->
  isize ip + 16 <= MAXFILE * BSIZE ->
  (length O + (n + slack ip bl + 1) + 5 <= 28)%nat -> (1 + noind ip <= nfree s)%nat ->
  exists s' ip' bl' n', dirlink i name num s = Ok (0, s')
  /\ dir_of s' ip' = <[key name := num]> (dir_of s ip)
  /\ open_dir s' bl' i ip' n' /\ inodes s' = <[i := ip']> (inodes s)
  /\ (forall ip2, file_wf s ds ip2 -> apart s ip ip2 -> keeps ds s s' ip2).
Proof.
  intros Hd Hn Hnum Hnone Hmax Hcap Hfree.
  destruct (dirlookup_spec ds 1 Hds s bl i ip name (open_dir_ok _ _ _ _ _ Hd) (od_type _ _ _ _ _ Hd) Hn) as (s1 & L1 & E1 & _).
  destruct (open_looked s s1 bl i ip n Hd L1) as [Hd1 Hf1].
  pose proof (open_dir_ok _ _ _ _ _ Hd1) as D1. pose proof (fw_size _ _ _ (do_wf _ _ _ _ _ _ D1)) as Hsz.
  destruct (dirlink_loop_spec ds 1 Hds (S (Z.to_nat (isize ip / 16))) s1 bl i ip 0 D1) as (s2 & E2 & L2); [lia|lia|].
  change (16 * Z.of_nat 0) with 0 in E2. rewrite drop_0, find_free_ix, Z.add_0_l in E2.
  destruct (open_looked s1 s2 bl i ip n Hd1 L2) as [Hd2 Hf2].
  rewrite (ents_looked ds 1 s s1 bl i ip L1) in E2. set (off := 16 * Z.of_nat (free_ix (ents s ip))) in *.
  assert (file_bytes s2 ip = file_bytes s ip) as Hb2 by (by rewrite (lk_bytes _ _ _ _ _ _ _ L2), (lk_bytes _ _ _ _ _ _ _ L1)).
  assert (0 <= off <= isize ip /\ off mod 16 = 0) as [Ho Hom].
  { pose proof (free_ix_le (ents s ip)) as Hfi. unfold ents in Hfi at 2. rewrite length_dirents in Hfi.
    pose proof (od_size _ _ _ _ _ Hd). unfold off. Z.div_mod_to_equations; lia. }
  set (ent := put_dirent (mkDirent num (strncpy name 14))).
  assert (length ent = 16%nat) as He by (unfold ent, put_dirent; cbn [de_name de_inum app length]; by rewrite length_strncpy).
  change (MAXFILE * BSIZE) with 71680 in *.
  pose proof (writei_spec ds O Hds s2 bl i ip ent off n (od_file _ _ _ _ _ Hd2)) as W.
  rewrite He in W. change (Z.of_nat 16) with 16 in W. rewrite nblocks_entry in W by (done || lia).
  cbv zeta in W. change (MAXFILE * BSIZE) with 71680 in W.
  replace ((isize ip <? off) || (71680 <? off + 16)) with false in W by lia.
  destruct W as (s' & ip' & bl' & n' & Ew & Hof & Hn' & Hi & Hb & Hip & _ & _ & Hk);
    [unfold is_u32; lia|lia|lia|rewrite Hf2, Hf1; lia|].
  rewrite Hb2 in Hb.
  destruct (put_entry_map s s' ip ip' name num Hn Hnum) as [Hmap Hsz'];
    [exact (od_size _ _ _ _ _ Hd)|lia|apply (fw_size _ _ _ (of_wf _ _ _ _ _ _ _ Hof))|done|exact Hb|].
  exists s', ip', bl', n'. split; [|split; [exact Hmap|split; [|split; [by rewrite Hi, (sm_inodes _ _ _ (lk_same _ _ _ _ _ _ _ L2)), (sm_inodes _ _ _ (lk_same _ _ _ _ _ _ _ L1))|]]]].
  - unfold dirlink. rewrite (bind_ok _ _ _ _ _ (E1 Hnone)).
    rewrite (bind_ok _ _ _ _ _ (get_ip_ok i ip s1 (do_ip _ _ _ _ _ _ D1))). unfold sizeof_dirent.
    rewrite (bind_ok _ _ _ _ _ E2). change (Z.to_nat DIRSIZ) with 14%nat.
    replace (u16 num) with num by (unfold u16; rewrite Z.mod_small; lia). fold ent. by rewrite (bind_ok _ _ _ _ _ Ew).
  - split; [exact Hof| | |exact Hsz'|].
    + rewrite Hip. exact (od_type _ _ _ _ _ Hd).
    + pose proof (fits_length _ _ _ _ (tx_nodup _ _ _ (of_txn _ _ _ _ _ _ _ Hof)) (of_fits _ _ _ _ _ _ _ Hof)). lia.
    + rewrite Hb. pose proof (od_bytes _ _ _ _ _ Hd) as Hu. apply Forall_app. split; [by apply Forall_take|].
      apply Forall_app. split; [|by apply Forall_drop]. unfold ent, put_dirent. cbn [de_inum de_name app].
      repeat (constructor; [apply u8_range|]). by apply strncpy_u8.
  - intros ip2 Hwf2 Hap.
    destruct (keeps_same ds Hds s s1 ip2) as [K1 B1]; [exact (of_layout _ _ _ _ _ _ _ (od_file _ _ _ _ _ Hd))|done|apply L1|apply L1|].
    destruct (keeps_same ds Hds s1 s2 ip2) as [K2 B2]; [exact (of_layout _ _ _ _ _ _ _ (od_file _ _ _ _ _ Hd1))|done|apply L2|apply L2|].
    destruct (Hk ip2 K2) as [[K3 B3] _].
    { apply (apart_same s1 s2); try done; [exact (of_wf _ _ _ _ _ _ _ (od_file _ _ _ _ _ Hd1))|apply L2|]. apply (apart_same s s1); try done; [exact (of_wf _ _ _ _ _ _ _ (od_file _ _ _ _ _ Hd))|apply L1]. }
    split; [exact K3|congruence].
Qed.
End Link.

(** * The claim *)

(** C22: a directory is a finite map.  In a transaction with room, [dirlink] of a new
    name succeeds and the map of the directory on disk becomes the old one with
    the name (cut to [DIRSIZ] characters) bound to the inode number; [dirlookup]
    of any name then finds exactly what the map holds, and no other file changes. *)
Theorem dirlink_inserts ds O s bl i ip n name num :
  0 < ds -> open_dir ds O s bl i ip n -> is_cstr name -> 0 < num < 2 ^ 16 ->
  dir_of s ip !! key name = None -> isize ip + 16 <= MAXFILE * BSIZE ->
  (length O + (n + slack ip bl + 1) + 5 <= 28)%nat -> (1 + noind ip <= nfree s)%nat ->
  exists s' ip' bl' n', dirlink i name num s = Ok (0, s')
  /\ dir_of s' ip' = <[key name := num]> (dir_of s ip)
  /\ open_dir ds O s' bl' i ip' n'
  /\ (forall name2, is_cstr name2 -> exists s2, same_view s' s2
       /\ (dir_of s' ip' !! key name2 = None -> dirlookup i name2 s' = Ok (None, s2))
       /\ forall m, dir_of s' ip' !! key name2 = Some m ->
            exists off, dirlookup i name2 s' = (j ← iget 1 m; mret (Some (j, off))) s2)
  /\ (forall ip2, file_wf s ds ip2 -> apart s ip ip2 ->
        file_wf s' ds ip2 /\ file_bytes s' ip2 = file_bytes s ip2).
Proof.
  intros Hds Hd Hn Hnum Hnone Hmax Hcap Hfree.
  destruct (dirlink_spec ds O Hds s bl i ip n name num Hd Hn Hnum Hnone Hmax Hcap Hfree)
    as (s' & ip' & bl' & n' & E & Hmap & Hd' & _ & Hk).
  exists s', ip', bl', n'. split; [exact E|]. split; [exact Hmap|]. split; [exact Hd'|]. split; [|exact Hk].
  intros name2 Hn2.
  destruct (dirlookup_spec ds 1 Hds s' bl' i ip' name2 (open_dir_ok _ _ _ _ _ _ _ Hd') (od_type _ _ _ _ _ _ _ Hd') Hn2)
    as (s2 & L & H1 & H2).
  exists s2. split; [exact (lk_view _ _ _ _ _ _ _ L)|]. by split.
Qed.

(** An empty directory, inode 2, on the disk of the file demonstration. *)
Definition demo_dir : inode := mkInode 1 2 1 1 2 1 0 0 1 0 (replicate 13 0).

Lemma demo_dir_blk s k : blk s demo_dir k = 0.
Proof.
  unfold blk. destruct (_ <? _); [|done]. change (addrs demo_dir) with (replicate 13 0). rewrite nth_lookup. destruct (replicate 13 0 !! Z.to_nat k) as [x|] eqn:E; [|done]. by apply lookup_replicate in E as [-> _].
Qed.

Lemma demo_dir_wf s : file_wf s 34 demo_dir.
Proof.
  split; try done.
  - intros k _ H. by rewrite demo_dir_blk in H.
  - intros k k' _ _ _ H. by rewrite demo_dir_blk in H.
  - intros k Hk Hlt. change (isize demo_dir) with 0 in Hlt. change BSIZE with 512 in Hlt. lia.
Qed.

Lemma demo_dir_ok : inode_ok demo_dir.
Proof. split; try done. by repeat constructor. Qed.

Lemma demo_open_dir : exists s bl, open_dir 34 [33; 32] s bl 0 demo_dir 0 /\ bl = [32] /\ nfree s = 5%nat
  /\ dir_of s demo_dir = ∅.
Proof.
  set (s0 := put_ip (demo_fs 1) 0 demo_dir).
  assert (layout s0 34) as Hly by (destruct (demo_layout 1); by split).
  assert (inode_block 34 [33; 32] s0 demo_dir) as Hib.
  { split; try done.
    - change (IBLOCK _ _) with 32. unfold fhome, home, nblk. cbn. lia.
    - right. by left.
    - intros b Hb. change (sb_size (sb s0)) with 40 in Hb. replace (BBLOCK b (sb s0)) with 33; [done|].
      unfold BBLOCK. change BPB with 4096. cbn. Z.div_mod_to_equations. lia. }
  destruct (iupdate_spec 34 [33; 32] s0 [] 0 demo_dir) as (s & d & E & Ht & Hs & Hst & Hd & Hv); try done.
  { apply put_ip_txn, demo_txn. }
  { cbn. lia. }
  { apply demo_dir_ok. }
  pose proof (same_ext _ _ _ Hs) as Hx.
  destruct (file_set_meta 34 ltac:(lia) s0 s demo_dir 32 d (demo_dir_wf _) Hly Hx) as (_ & Hly' & _); try done.
  { apply (ib_apart _ _ _ _ Hib). }
  exists s, [32]. split; [|split; [done|split]].
  - split; try done; [|cbn; lia]. split; try done.
    + intros b. rewrite (sm_sb _ _ _ Hs). apply (of_bitmap _ _ _ _ _ _ _ demo_open).
    + by rewrite (sm_sb _ _ _ Hs).
    + split; [intros m ->%list_elem_of_singleton _; right; by left|by vm_compute].
    + by rewrite (sm_inodes _ _ _ Hs).
    + apply demo_dir_wf.
    + apply demo_dir_ok.
    + by apply (inode_block_ext 34 [33; 32] s0 s demo_dir).
  - rewrite <- demo_free. change (nfree (demo_fs 1)) with (nfree s0). apply nfree_ext; [by rewrite (sm_sb _ _ _ Hs)|].
    intros b Hb. unfold allocated. rewrite (sm_sb _ _ _ Hs), Hv.
    + change (IBLOCK (inum demo_dir) (sb s0)) with 32. rewrite (proj2 (Z.eqb_neq _ 32)); [done|].
      intros H. apply (ib_apart _ _ _ _ Hib b Hb). by rewrite H.
    + change (sb_size (sb s0)) with 40 in Hb. unfold BBLOCK. change BPB with 4096. cbn. Z.div_mod_to_equations. lia.
  - unfold dir_of. done.
Qed.

Lemma dirlink_inserts_witness : exists s s' ip',
  dirlink 0 (cstr "sh") 7 s = Ok (0, s') /\ dir_of s' ip' = <[cstr "sh" := 7]> ∅.
Proof.
  destruct demo_open_dir as (s & bl & Hd & -> & Hf & He).
  destruct (dirlink_inserts 34 [33; 32] s [32] 0 demo_dir 0 (cstr "sh") 7) as (s' & ip' & bl' & n' & E & Hm & _).
  - lia.
  - exact Hd.
  - change (cstr "sh") with [115; 104]. repeat (apply Forall_cons_2; [lia|]). apply Forall_nil_2.
  - lia.
  - rewrite He. reflexivity.
  - vm_compute. congruence.
  - vm_compute. lia.
  - rewrite Hf. vm_compute. lia.
  - exists s, s', ip'. split; [exact E|]. rewrite Hm, He. reflexivity.
Defined.
