(* ===== verification/Ls.v ===== *)
(** Model of the file utilities src/ls.c, src/ln.c, src/mkdir.c, src/rm.c and
    src/kill.c, and of [stat] of src/ulib.c.

    What a program can learn of a path is a [node]: the answer of [fstat] and the
    bytes it can read; [nodes] gives the node of every path that can be opened.
    The calls of the other utilities act on a state [W] of the system and return
    their result. *)
From stdpp Require Import base strings numbers list.
From S2P Require Import Prelude CString Printf User Bio Log Fs FsDir.
Local Open Scope Z_scope.

Record node : Type := mkNode { n_stat : option stat; n_data : stream }.

Section Ls.
Context (nodes : list Z -> option node).

(** [stat]: [None] is -1. *)
Definition stat_path (n : list Z) : option stat :=
  match nodes n with None => None | Some nd => n_stat nd end.

(** [for(p=path+strlen(path); p >= path && *p != '/'; p--); p++]: the index of [p]
    after the loop, from [p] at index [n - 1]. *)
Fixpoint after_slash (path : list Z) (n : nat) : nat :=
  match n with
  | O => O
  | S k => if nth k path 0 =? 47 then n else after_slash path k
  end.

Definition fmtname (path : list Z) : list Z :=
  let p := drop (after_slash path (S (length path))) path in
  if DIRSIZ <=? strlen p then p
  else p ++ replicate (Z.to_nat (DIRSIZ - strlen p)) 32.

(** Stores into [char buf[512]]: outside it they are a fault. *)
Definition put_buf (buf : list Z) (k : nat) (cs : list Z) : res (list Z) :=
  if decide (k + length cs <= length buf)%nat then Ok (splice buf k cs) else Fault.

Definition print_node (name : list Z) (st : stat) : M uio unit :=
  fprintf 1 (cstr "%s %d %d %d" ++ [10])
    [AStr (Some (fmtname name)); AInt (st_type st); AInt (st_ino st); AInt (st_size st)].

(** The loop over the directory; [p] is the index of the name in [buf].  Every turn
    takes 16 bytes. *)
Fixpoint ls_loop (fuel : nat) (fd : stream) (buf : list Z) (p : nat) : M uio unit :=
  let '(n, bytes, fd) := read fd 16 in
  if n =? sizeof_dirent then
    match fuel with
    | O => io_nofuel
    | S fuel =>
        let de := get_dirent bytes in
        if de_inum de =? 0 then ls_loop fuel fd buf p
        else
          buf ← lift (put_buf buf p (de_name de));
          buf ← lift (put_buf buf (p + 14)%nat [0]);
          match stat_path (c_string buf) with
          | None =>
              fprintf 1 (cstr "ls: cannot stat %s" ++ [10]) [AStr (Some (c_string buf))] ;;
              ls_loop fuel fd buf p
          | Some st =>
              print_node (c_string buf) st ;;
              ls_loop fuel fd buf p
          end
    end
  else mret tt.

Definition ls (path : list Z) : M uio unit :=
  match nodes path with
  | None => fprintf 2 (cstr "ls: cannot open %s" ++ [10]) [AStr (Some path)]
  | Some nd =>
      match n_stat nd with
      | None => fprintf 2 (cstr "ls: cannot stat %s" ++ [10]) [AStr (Some path)]
      | Some st =>
          if st_type st =? 2 then print_node path st
          else if st_type st =? 1 then
            if 512 <? strlen path + 1 + DIRSIZ + 1
            then fprintf 1 (cstr "ls: path too long" ++ [10]) []
            else
              buf ← lift (put_buf (replicate 512 0) 0 (path ++ [0]));
              let p := length (c_string buf) in
              buf ← lift (put_buf buf p [47]);
              ls_loop (stream_fuel (n_data nd)) (n_data nd) buf (S p)
          else mret tt
      end
  end.

(** The loop of [main] over its arguments. *)
Fixpoint ls_all (args : list (list Z)) : M uio unit :=
  match args with
  | [] => mret tt
  | a :: args => ls a ;; ls_all args
  end.

Definition ls_main (args : list (list Z)) : M uio unit :=
  match args with [] => ls (cstr ".") | _ => ls_all args end.

End Ls.

(** * ln, mkdir, rm and kill *)

Section Calls.
Context {W : Type} (link : list Z -> list Z -> W -> Z * W) (mkdir unlink : list Z -> W -> Z * W) (kill : Z -> W -> W).

Definition on_world {A} (f : W -> A * W) : M (W * uio) A := fun '(w, io) => let '(a, w) := f w in Ok (a, (w, io)).
Definition say (fd : Z) (fmt : list Z) (ap : list arg) : M (W * uio) unit := fun '(w, io) =>
  '(_, io) ← fprintf fd fmt ap io; Ok (tt, (w, io)).

Definition ln_main (args : list (list Z)) : M (W * uio) unit :=
  match args with
  | [old; new] =>
      r ← on_world (link old new);
      if r <? 0 then say 2 (cstr "link %s %s: failed" ++ [10]) [AStr (Some old); AStr (Some new)] else mret tt
  | _ => say 2 (cstr "Usage: ln old new" ++ [10]) []
  end.

(** The loop of mkdir and rm: it ends at the first failure. *)
Fixpoint until_failure (call : list Z -> W -> Z * W) (msg : list Z) (args : list (list Z)) : M (W * uio) unit :=
  match args with
  | [] => mret tt
  | a :: args =>
      r ← on_world (call a);
      if r <? 0 then say 2 msg [AStr (Some a)] else until_failure call msg args
  end.

Definition mkdir_main (args : list (list Z)) : M (W * uio) unit :=
  match args with
  | [] => say 2 (cstr "Usage: mkdir files..." ++ [10]) []
  | _ => until_failure mkdir (cstr "mkdir: %s failed to create" ++ [10]) args
  end.

Definition rm_main (args : list (list Z)) : M (W * uio) unit :=
  match args with
  | [] => say 2 (cstr "Usage: rm files..." ++ [10]) []
  | _ => until_failure unlink (cstr "rm: %s failed to delete" ++ [10]) args
  end.

Fixpoint kill_loop (args : list (list Z)) : M (W * uio) unit :=
  match args with
  | [] => mret tt
  | a :: args => on_world (fun w => (tt, kill (atoi a) w)) ;; kill_loop args
  end.

Definition kill_main (args : list (list Z)) : M (W * uio) unit :=
  match args with
  | [] => say 2 (cstr "usage: kill pid..." ++ [10]) []
  | _ => kill_loop args
  end.

End Calls.

(** * What ls prints *)

Definition dec (z : Z) : list Z := match print_d (s32 z) with Ok ds => ds | _ => [] end.

(** A name in a field of [DIRSIZ] characters. *)
Definition pad_name (name : list Z) : list Z := name ++ replicate (14 - length name) 32.

Section LsSpec.
Context (nodes : list Z -> option node).

Definition node_line (name : list Z) (st : stat) : list Z :=
  pad_name name ++ [32] ++ dec (st_type st) ++ [32] ++ dec (st_ino st) ++ [32] ++ dec (st_size st) ++ [10].

Definition entry_line (path : list Z) (e : dirent) : list Z :=
  let name := name_chars (de_name e) in
  match stat_path nodes (path ++ [47] ++ name) with
  | Some st => node_line name st
  | None => cstr "ls: cannot stat " ++ path ++ [47] ++ name ++ [10]
  end.

Definition used (e : dirent) : bool := negb (de_inum e =? 0).

Lemma dec_ok z : print_d (s32 z) = Ok (dec z).
Proof. unfold dec. destruct (print_d_spec (s32 z)) as (ds & E & _); [apply s32_range|]. by rewrite E. Qed.

Lemma after_slash_ok path name n : 47 ∉ name -> (n <= S (length name))%nat ->
  after_slash (path ++ 47 :: name) (S (length path) + n) = S (length path).
Proof.
  intros Hn. induction n as [|n IH]; intros Hle.
  - rewrite Nat.add_0_r. cbn [after_slash]. by rewrite app_nth2, Nat.sub_diag by lia.
  - rewrite Nat.add_succ_r. cbn [after_slash]. rewrite app_nth2 by lia. replace (S (length path) + n - length path)%nat with (S n) by lia.
    cbn [nth]. destruct (Z.eqb_spec (nth n name 0) 47) as [E|_]; [|apply IH; lia].
    destruct (decide (n < length name)%nat) as [Hlt|Hge]; [|by rewrite nth_overflow in E by lia].
    exfalso. apply Hn. rewrite <- E. apply list_elem_of_In, nth_In. lia.
Qed.

Lemma fmtname_ok path name : 47 ∉ name -> (length name <= 14)%nat -> fmtname (path ++ 47 :: name) = pad_name name.
Proof.
  intros Hs Hl. unfold fmtname, pad_name, strlen. cbv zeta.
  replace (S (length (path ++ 47 :: name))) with (S (length path) + S (length name))%nat by (rewrite length_app; cbn; lia).
  rewrite after_slash_ok by (done || lia). change (path ++ 47 :: name) with (path ++ [47] ++ name).
  rewrite app_assoc. replace (S (length path)) with (length (path ++ [47])) by (rewrite length_app; cbn; lia).
  rewrite drop_app_length. change DIRSIZ with 14. destruct (Z.leb_spec 14 (Z.of_nat (length name))).
  - replace (14 - length name)%nat with 0%nat by lia. by rewrite app_nil_r.
  - do 2 f_equal. lia.
Qed.

Lemma fprintf_out fmt ap cs io : printf fmt ap = Ok cs -> obroken io = false ->
  fprintf 1 fmt ap io = Ok (tt, mkIo (uout io ++ cs) (uerr io) false).
Proof. intros E Hb. unfold fprintf, mbind, M_bind, lift, write. rewrite E, Hb. done. Qed.

Lemma print_node_ok path name st io : 47 ∉ name -> (length name <= 14)%nat -> obroken io = false ->
  print_node (path ++ 47 :: name) st io = Ok (tt, mkIo (uout io ++ node_line name st) (uerr io) false).
Proof.
  intros Hs Hl Hb. apply fprintf_out; [|done]. rewrite fmtname_ok by done. unfold node_line.
  change (cstr "%s %d %d %d" ++ [10]) with [37; 115; 32; 37; 100; 32; 37; 100; 32; 37; 100; 10].
  cbn [printf Z.eqb Pos.eqb negb]. unfold print_conv. cbn [Z.eqb Pos.eqb va_str va_word mbind res_bind].
  do 3 (rewrite dec_ok; cbn [mbind res_bind va_word]). done.
Qed.

Lemma cannot_stat_ok s io : obroken io = false ->
  fprintf 1 (cstr "ls: cannot stat %s" ++ [10]) [AStr (Some s)] io = Ok (tt, mkIo (uout io ++ cstr "ls: cannot stat " ++ s ++ [10]) (uerr io) false).
Proof. intros Hb. by apply fprintf_out. Qed.

Lemma put_buf_ok buf k cs : (k + length cs <= length buf)%nat ->
  put_buf buf k cs = Ok (splice buf k cs) /\ length (splice buf k cs) = length buf.
Proof.
  intros Hk. unfold put_buf. rewrite decide_True by done. split; [done|]. unfold splice.
  rewrite !length_app, length_take, length_drop. lia.
Qed.

Lemma c_string_name_chars l rest : c_string (l ++ 0 :: rest) = name_chars l.
Proof. induction l as [|c l IH]; cbn [app c_string name_chars]; [done|]. destruct (c =? 0); [done|]. by rewrite IH. Qed.

Lemma c_string_prefix p rest : Forall (fun c => c <> 0) p -> c_string (p ++ rest) = p ++ c_string rest.
Proof. induction 1 as [|c p Hc _ IH]; [done|]. cbn [app c_string]. replace (c =? 0) with false by lia. by rewrite IH. Qed.

(** The two stores leave the path of the entry in [buf]. *)
Lemma entry_path path buf name : Forall (fun c => c <> 0) path -> length buf = 512%nat -> length name = 14%nat ->
  (length path + 16 <= 512)%nat -> take (S (length path)) buf = path ++ [47] ->
  let buf1 := splice buf (S (length path)) name in let buf2 := splice buf1 (S (length path) + 14) [0] in
  put_buf buf (S (length path)) name = Ok buf1 /\ put_buf buf1 (S (length path) + 14) [0] = Ok buf2
  /\ length buf2 = 512%nat /\ take (S (length path)) buf2 = path ++ [47] /\ c_string buf2 = path ++ 47 :: name_chars name.
Proof.
  intros Hp Hl Hn Hle Ht buf1 buf2.
  destruct (put_buf_ok buf (S (length path)) name) as [E1 L1]; [lia|]. fold buf1 in E1, L1.
  destruct (put_buf_ok buf1 (S (length path) + 14) [0]) as [E2 L2]; [cbn [length]; lia|]. fold buf2 in E2, L2.
  assert (length (path ++ [47] ++ name) = (S (length path) + 14)%nat) as Hpn by (rewrite !length_app; cbn; lia).
  assert (buf2 = path ++ [47] ++ name ++ 0 :: drop (S (length path) + 15) buf) as Eb.
  { unfold buf2, splice. assert (buf1 = (path ++ [47] ++ name) ++ drop (S (length path) + 14) buf) as ->.
    { unfold buf1, splice. rewrite Ht, Hn. by rewrite <- !app_assoc. }
    rewrite take_app_length' by done. cbn [length]. rewrite drop_app_ge by (rewrite Hpn; lia). rewrite Hpn, drop_drop, <- !app_assoc.
    by replace (S (length path) + 14 + (S (length path) + 14 + 1 - (S (length path) + 14)))%nat with (S (length path) + 15)%nat by lia. }
  split; [done|]. split; [done|]. split; [lia|]. rewrite Eb. split.
  - rewrite app_assoc. apply take_app_length'. rewrite length_app. cbn. lia.
  - rewrite c_string_prefix by done. cbn [app c_string]. change (47 =? 0) with false. by rewrite c_string_name_chars.
Qed.

(** The entries in use have names that are file names. *)
Definition names_ok (es : list dirent) : Prop := Forall (fun e => used e = true -> 47 ∉ name_chars (de_name e)) es.

Lemma length_ls_name l : (length (name_chars l) <= length l)%nat.
Proof. induction l as [|c l IH]; cbn [name_chars length]; [lia|]. destruct (c =? 0); cbn [length]; lia. Qed.

Lemma ls_loop_ok path n : Forall (fun c => c <> 0) path -> (length path + 16 <= 512)%nat ->
  forall fuel bytes buf io, (16 * n <= length bytes < 16 * S n)%nat -> (n <= fuel)%nat -> names_ok (dirents n bytes) ->
  length buf = 512%nat -> take (S (length path)) buf = path ++ [47] -> obroken io = false ->
  ls_loop nodes fuel (mkStream bytes []) buf (S (length path)) io
  = Ok (tt, mkIo (uout io ++ concat (entry_line path <$> filter (fun e => used e = true) (dirents n bytes))) (uerr io) false).
Proof.
  intros Hp Hle. induction n as [|n IH]; intros fuel bytes buf io Hlen Hf Hok Hl Ht Hb.
  - assert (ls_loop nodes fuel (mkStream bytes []) buf (S (length path)) io = Ok (tt, io)) as ->.
    { destruct fuel; cbn [ls_loop read sched sdata]; change (Z.to_nat 16) with 16%nat; rewrite take_ge by lia;
        by replace (Z.of_nat (length bytes) =? sizeof_dirent) with false by (unfold sizeof_dirent; lia). }
    cbn. rewrite app_nil_r, <- Hb. by destruct io.
  - destruct fuel as [|fuel]; [lia|]. cbn [ls_loop read sched sdata]. change (Z.to_nat 16) with 16%nat.
    rewrite length_take. replace (Z.of_nat (16 `min` length bytes) =? sizeof_dirent) with true by (unfold sizeof_dirent; lia).
    cbn [dirents] in Hok |- *. apply Forall_cons in Hok as [He Hok]. set (e := get_dirent (take 16 bytes)) in *.
    assert (length (de_name e) = 14%nat) as Hn by (unfold e, get_dirent; cbn [de_name]; rewrite length_take, length_drop, length_take; lia).
    assert (forall buf io, length buf = 512%nat -> take (S (length path)) buf = path ++ [47] -> obroken io = false ->
      ls_loop nodes fuel (mkStream (drop 16 bytes) []) buf (S (length path)) io
      = Ok (tt, mkIo (uout io ++ concat (entry_line path <$> filter (fun e => used e = true) (dirents n (drop 16 bytes)))) (uerr io) false)) as Hgo.
    { intros buf' io' Hl' Ht' Hb'. apply IH; try done; [rewrite length_drop; lia|lia]. }
    unfold used in He at 1. destruct (de_inum e =? 0) eqn:Ei; cbn [negb] in He.
    + rewrite filter_cons_False by (unfold used; by rewrite Ei). by apply Hgo.
    + rewrite filter_cons_True by (unfold used; by rewrite Ei). cbn [fmap list_fmap concat].
      destruct (entry_path path buf (de_name e) Hp Hl Hn Hle Ht) as (E1 & E2 & L2 & T2 & C2). cbv zeta in *.
      set (buf2 := splice (splice buf _ _) _ _) in *. clearbody buf2.
      unfold mbind at 1, M_bind at 1, lift at 1. rewrite E1. unfold mbind at 1, M_bind at 1, lift at 1. rewrite E2, C2.
      pose proof (length_ls_name (de_name e)) as Hnl. rewrite Hn in Hnl. unfold entry_line at 1. cbn [app].
      destruct (stat_path nodes (path ++ 47 :: name_chars (de_name e))) as [st|].
      * unfold mbind, M_bind. rewrite print_node_ok by auto. rewrite Hgo by done. cbn [uout uerr]. by rewrite <- app_assoc.
      * unfold mbind, M_bind. rewrite cannot_stat_ok by done. rewrite Hgo by done. cbn [uout uerr]. rewrite <- !app_assoc. cbn [app]. rewrite <- ?app_assoc. done.
Qed.

End LsSpec.

(** C35: [ls] of a directory prints its contents: one line for every entry in use, in
    order, with the name padded to the width of a file name, and the type, inode
    number and size of the file of that name in the directory (or a message if it
    cannot be examined); free entries are skipped, a trailing fragment of an entry
    ends the listing, the path buffer is never overrun and nothing goes to the
    standard error. *)
Theorem ls_lists_directory (nodes : list Z -> option node) (path bytes : list Z) (st : stat) (io : uio) :
  nodes path = Some (mkNode (Some st) (mkStream bytes [])) -> st_type st = 1 ->
  is_cstr path -> (length path + 16 <= 512)%nat -> obroken io = false ->
  let es := dirents (length bytes / 16) bytes in
  names_ok es ->
  ls nodes path io
  = Ok (tt, mkIo (uout io ++ concat (entry_line nodes path <$> filter (fun e => used e = true) es)) (uerr io) false).
Proof.
  intros Hnode Hst Hc Hle Hb es Hok.
  assert (Forall (fun c => c <> 0) path) as Hp by (eapply Forall_impl; [exact Hc|]; intros c Hcc; cbv beta in Hcc |- *; lia).
  unfold ls. rewrite Hnode. cbn [n_stat n_data]. rewrite Hst. change (1 =? 2) with false. change (1 =? 1) with true. cbv iota.
  replace (512 <? strlen path + 1 + DIRSIZ + 1) with false by (unfold strlen; change DIRSIZ with 14; lia).
  destruct (put_buf_ok (replicate 512 0) 0 (path ++ [0])) as [E1 L1]; [rewrite length_replicate, length_app; cbn [length]; lia|].
  set (b1 := splice (replicate 512 0) 0 (path ++ [0])) in *.
  assert (b1 = path ++ 0 :: drop (length path + 1) (replicate 512 0)) as Eb1.
  { unfold b1, splice. rewrite length_app. cbn [take app length Nat.add]. by rewrite <- app_assoc. }
  assert (c_string b1 = path) as Ec by (rewrite Eb1; apply c_string_app; eapply Forall_impl; [exact Hc|]; intros c Hcc; cbv beta in Hcc |- *; lia).
  rewrite (bind_ok (lift (put_buf _ _ _)) _ io b1 io) by (unfold lift; by rewrite E1). rewrite Ec.
  assert (length b1 = 512%nat) as Lb1 by (rewrite L1; apply length_replicate).
  destruct (put_buf_ok b1 (length path) [47]) as [E2 L2]; [cbn [length]; lia|].
  set (b2 := splice b1 (length path) [47]) in *.
  rewrite (bind_ok (lift (put_buf b1 _ _)) _ io b2 io) by (unfold lift; by rewrite E2).
  pose proof (Nat.div_mod_eq (length bytes) 16) as Hdm. pose proof (Nat.mod_upper_bound (length bytes) 16 ltac:(lia)) as Hm.
  apply ls_loop_ok; try done; [lia|unfold stream_fuel; cbn [sdata sched]; lia|lia|].
  unfold b2, splice. rewrite Eb1, take_app_length, app_assoc. apply take_app_length'. rewrite length_app. cbn. lia.
Qed.

(** A directory "d" with two entries in use, one free, of which one is a file. *)
Definition demo_dir : list Z :=
  put_dirent (mkDirent 5 (strncpy (cstr "kernel") 14)) ++ put_dirent (mkDirent 0 (replicate 14 0))
  ++ put_dirent (mkDirent 9 (strncpy (cstr "lost") 14)).
Definition demo_nodes (path : list Z) : option node :=
  if bool_decide (path = cstr "d") then Some (mkNode (Some (mkStat 1 1 3 1 48)) (mkStream demo_dir []))
  else if bool_decide (path = cstr "d/kernel") then Some (mkNode (Some (mkStat 2 1 5 1 1234)) (mkStream [] []))
  else None.

Lemma ls_lists_directory_witness :
  ls demo_nodes (cstr "d") (mkIo [] [] false)
  = Ok (tt, mkIo (cstr "kernel         2 5 1234" ++ [10] ++ cstr "ls: cannot stat d/lost" ++ [10]) [] false).
Proof.
  rewrite (ls_lists_directory demo_nodes (cstr "d") demo_dir (mkStat 1 1 3 1 48) (mkIo [] [] false)).
  - vm_compute. reflexivity.
  - reflexivity.
  - reflexivity.
  - apply Forall_cons_2; [vm_compute; split; reflexivity|apply Forall_nil_2].
  - cbn. lia.
  - reflexivity.
  - vm_compute dirents. repeat (apply Forall_cons_2; [intros _; apply (bool_decide_eq_true_1 (47 ∉ _)); reflexivity|]). apply Forall_nil_2.
Defined.
