(* ===== verification/MkfsImage.v ===== *)
(** The image [mkfs] builds (src/mkfs.c) is a file system the kernel can mount:
    every file's blocks are its own, hold its bytes and are marked in the bitmap,
    and the root directory names the files. *)
From stdpp Require Import base strings numbers list gmap sets.
From S2P Require Import Prelude CString Bio Log Fs FsInode FsTxn FsAlloc FsFile FsContents FsCall FsDir Mkfs.
Local Open Scope Z_scope.

(** * Blocks of the image *)

Definition zblk (d : list block) (b : Z) : block := default [] (d !! Z.to_nat b).

Definition img_ok (d : list block) : Prop := length d = 1000%nat /\ Forall (fun b => length b = 512%nat) d.

Definition wr (d : list block) (b : Z) (x : block) : list block := <[Z.to_nat b := x]> d.

Lemma img_ok_wr d b x : img_ok d -> length x = 512%nat -> img_ok (wr d b x).
Proof. intros [Hl Hf] Hx. split; [unfold wr; by rewrite length_insert|by apply Forall_insert]. Qed.

Lemma zblk_wr d b c x : img_ok d -> 0 <= b < 1000 -> 0 <= c ->
  zblk (wr d b x) c = if c =? b then x else zblk d c.
Proof.
  intros [Hl _] Hb Hc. unfold zblk, wr. destruct (Z.eqb_spec c b) as [->|Hne].
  - by rewrite list_lookup_insert_eq by lia.
  - rewrite list_lookup_insert_ne by lia. done.
Qed.

Lemma zblk_len d b : img_ok d -> 0 <= b < 1000 -> length (zblk d b) = 512%nat.
Proof.
  intros [Hl Hf] Hb. unfold zblk. destruct (lookup_lt_is_Some_2 d (Z.to_nat b)) as [x Hx]; [lia|]. rewrite Hx.
  apply (Forall_lookup_1 _ _ _ _ Hf Hx).
Qed.

Lemma zblk_some d b : img_ok d -> 0 <= b < 1000 -> d !! Z.to_nat b = Some (zblk d b).
Proof.
  intros [Hl Hf] Hb. unfold zblk. by destruct (lookup_lt_is_Some_2 d (Z.to_nat b)) as [x ->]; [lia|].
Qed.

Definition with_image (s : mkstate) (d : list block) : mkstate := mkMk d (freeinode s) (freeblock s).

Lemma wsect_ok s b x : img_ok (image s) -> 0 <= b < 1000 -> wsect b x s = Ok (tt, with_image s (wr (image s) b x)).
Proof.
  intros [Hl _] Hb. unfold wsect, modify, with_image, wr. cbv zeta.
  replace (S (Z.to_nat b) - length (image s))%nat with 0%nat by lia. by rewrite app_nil_r.
Qed.

Lemma rsect_ok s b : img_ok (image s) -> 0 <= b < 1000 -> rsect b s = Ok (zblk (image s) b, s).
Proof. intros H Hb. unfold rsect. by rewrite zblk_some. Qed.

(** * A file in the image *)

Definition pad (n : nat) (l : list Z) : list Z := l ++ replicate (n - length l) 0.
Definition data (d : list block) (bl : list Z) : list Z := concat (zblk d <$> bl).
Definition ind_of (ad : list Z) : Z := nth 12 ad 0.
Definition own (ad bl : list Z) : list Z := bl ++ (if decide (length bl <= 12)%nat then [] else [ind_of ad]).

(** The blocks [bl] of a file with addresses [ad] hold [bytes] and then zeros;
    blocks from [fb] on are not used. *)
Record file_at (d : list block) (fb : Z) (ad bl bytes : list Z) : Prop := {
  fa_addrs : ad = pad 12 (take 12 bl) ++ [ind_of ad];
  fa_max : (length bl <= 140)%nat;
  fa_ind : if decide (length bl <= 12)%nat then ind_of ad = 0
           else forall j, (j < 128)%nat -> get_uint (zblk d (ind_of ad)) (4 * j) = nth (12 + j) bl 0;
  fa_range : Forall (fun b => 59 <= b < fb) (own ad bl);
  fa_nodup : NoDup (own ad bl);
  fa_fits : (length bytes <= 512 * length bl)%nat;
  fa_data : data d bl = bytes ++ replicate (512 * length bl - length bytes) 0 }.

(** Blocks a file of [n] blocks takes. *)
Definition costb (n : nat) : Z := Z.of_nat n + (if decide (n <= 12)%nat then 0 else 1).

Lemma data_app d l1 l2 : data d (l1 ++ l2) = data d l1 ++ data d l2.
Proof. unfold data. by rewrite fmap_app, concat_app. Qed.

Lemma data_ext d d' bl : (forall b, b ∈ bl -> zblk d' b = zblk d b) -> data d' bl = data d bl.
Proof. intros H. unfold data. f_equal. apply list_fmap_ext. intros i b Hb. apply H. by eapply list_elem_of_lookup_2. Qed.

Lemma length_data d bl : img_ok d -> Forall (fun b => 0 <= b < 1000) bl -> length (data d bl) = (512 * length bl)%nat.
Proof.
  intros Hd. induction 1 as [|b bl Hb _ IH]; [done|]. unfold data in *. cbn. rewrite length_app, zblk_len, IH by done. lia.
Qed.

Lemma own_in ad bl b : b ∈ bl -> b ∈ own ad bl.
Proof. intros H. apply elem_of_app. by left. Qed.

Lemma file_at_ext d d' fb fb' ad bl bytes : file_at d fb ad bl bytes -> fb <= fb' ->
  (forall b, b ∈ own ad bl -> zblk d' b = zblk d b) -> file_at d' fb' ad bl bytes.
Proof.
  intros [F1 F2 F3 F4 F5 F6 F7] Hfb Hext. split; try done.
  - destruct (decide (length bl <= 12)%nat) as [|Hl]; [done|]. intros j Hj. rewrite Hext; [by apply F3|].
    apply elem_of_app. right. rewrite decide_False by done. by left.
  - eapply Forall_impl; [exact F4|]. cbn. lia.
  - rewrite <- F7. apply data_ext. intros b Hb. by apply Hext, own_in.
Qed.

Lemma pad_nth n l k : (k < n)%nat -> nth k (pad n l) 0 = nth k l 0.
Proof.
  intros Hk. unfold pad. destruct (decide (k < length l)%nat) as [H|H].
  - by rewrite app_nth1.
  - rewrite app_nth2, (nth_overflow l) by lia. rewrite nth_lookup.
    destruct (replicate (n - length l) 0 !! (k - length l)%nat) as [x|] eqn:E; [|done]. by apply lookup_replicate in E as [-> _].
Qed.

Lemma length_zpad n l : (length l <= n)%nat -> length (pad n l) = n.
Proof. intros H. unfold pad. rewrite length_app, length_replicate. lia. Qed.

(** The address of block [k] in the inode. *)
Lemma file_direct d fb ad bl bytes k : file_at d fb ad bl bytes -> (k < 12)%nat -> nth k ad 0 = nth k bl 0.
Proof.
  intros H Hk. rewrite (fa_addrs _ _ _ _ _ H), app_nth1 by (rewrite length_zpad; [lia|rewrite length_take; lia]).
  rewrite pad_nth by done. rewrite !nth_lookup, lookup_take_lt by done. done.
Qed.

(** Writing [c] right behind the bytes, in the last block. *)
Lemma file_at_write d fb ad bl0 x bytes k c : img_ok d -> fb <= 1000 -> file_at d fb ad (bl0 ++ [x]) bytes ->
  length bytes = (512 * length bl0 + k)%nat -> (k + length c <= 512)%nat ->
  file_at (wr d x (splice (zblk d x) k c)) fb ad (bl0 ++ [x]) (bytes ++ c)
  /\ length (splice (zblk d x) k c) = 512%nat.
Proof.
  intros Hd Hfb H Hlen Hk. pose proof H as [F1 F2 F3 F4 F5 F6 F7].
  assert (59 <= x < fb) as Hx by (apply (proj1 (Forall_forall _ _) F4), own_in, elem_of_app; right; by left).
  pose proof (zblk_len d x Hd ltac:(lia)) as Hxl.
  assert (length (splice (zblk d x) k c) = 512%nat) as Hsl.
  { unfold splice. rewrite !length_app, length_take, length_drop, Hxl. lia. }
  assert (forall b, b ∈ own ad (bl0 ++ [x]) -> b <> x -> zblk (wr d x (splice (zblk d x) k c)) b = zblk d b) as Hoth.
  { intros b Hb Hne. pose proof (proj1 (Forall_forall _ _) F4 b Hb) as Hr. cbn in Hr. rewrite zblk_wr by (done || lia). by rewrite (proj2 (Z.eqb_neq b x)). }
  split; [|done]. unfold own in F5. rewrite <- app_assoc in F5. apply NoDup_app in F5 as (N1 & N2 & N3). cbn [app] in N3. apply NoDup_cons in N3 as [N3 N4].
  assert (forall b, b ∈ bl0 -> b <> x) as Hb0 by (intros b Hb ->; apply (N2 x Hb); by left).
  rewrite length_app in *. cbn [length] in *. split; try done.
  - by rewrite length_app.
  - rewrite length_app. cbn [length]. destruct (decide (length bl0 + 1 <= 12)%nat) as [|Hl]; [done|]. intros j Hj. rewrite Hoth.
    + by apply F3.
    + unfold own. rewrite decide_False by (rewrite ?length_app; cbn; lia). apply elem_of_app. right. by left.
    + intros E. apply N3. rewrite E. by left.
  - exact (fa_nodup _ _ _ _ _ H).
  - rewrite !length_app. cbn [length]. lia.
  - rewrite data_app in *. unfold data at 2. cbn. rewrite app_nil_r, zblk_wr, Z.eqb_refl by (done || lia).
    rewrite (data_ext d) by (intros b Hb; apply Hoth; [apply own_in, elem_of_app; by left|by apply Hb0]).
    unfold data at 2 in F7. cbn in F7. rewrite app_nil_r in F7.
    assert (length (data d bl0) = (512 * length bl0)%nat) as Hdl.
    { apply length_data; [done|]. apply Forall_forall. intros b Hb. assert (b ∈ own ad (bl0 ++ [x])) as Hb' by (apply own_in, elem_of_app; by left).
      pose proof (proj1 (Forall_forall _ _) F4 b Hb') as Hr. cbn in Hr. lia. }
    unfold splice. rewrite !length_app. cbn [length].
    assert (data d bl0 ++ take k (zblk d x) = bytes) as E1.
    { apply (f_equal (take (512 * length bl0 + k))) in F7. rewrite (take_app_length' bytes) in F7 by lia. rewrite <- F7, take_app_ge by lia. f_equal. f_equal. lia. }
    assert (drop (k + length c) (zblk d x) = replicate (512 * (length bl0 + 1) - (length bytes + length c)) 0) as E2.
    { apply (f_equal (drop (512 * length bl0 + (k + length c)))) in F7. rewrite drop_app_ge in F7 by lia.
      replace (512 * length bl0 + (k + length c) - length (data d bl0))%nat with (k + length c)%nat in F7 by lia. rewrite F7.
      rewrite drop_app_ge by lia. rewrite drop_replicate. f_equal. lia. }
    rewrite E2, app_assoc, E1, <- app_assoc. done.
Qed.

(** * Allocating the next block *)

Definition fresh (d : list block) (fb : Z) : Prop := forall b, fb <= b < 1000 -> zblk d b = zeroes.

Lemma zeroes_len : length zeroes = 512%nat.
Proof. reflexivity. Qed.

Lemma get_zero k : get_uint zeroes k = 0.
Proof.
  assert (forall j, nth j zeroes 0 = 0) as H.
  { intros j. rewrite nth_lookup. destruct (zeroes !! j) as [x|] eqn:E; [|done]. by apply lookup_replicate in E as [-> _]. }
  unfold get_uint, get_int. by rewrite !H.
Qed.

Lemma take12_app (bl : list Z) x : (12 <= length bl)%nat -> take 12 (bl ++ [x]) = take 12 bl.
Proof. intros H. by rewrite take_app_le. Qed.

(** The file with one more block, of zeros. *)
Lemma file_at_grow d d' fb fb' ad ad' bl bytes x :
  file_at d fb ad bl bytes -> (length bl < 140)%nat -> zblk d' x = zeroes ->
  (forall b, b ∈ bl -> zblk d' b = zblk d b) ->
  ad' = pad 12 (take 12 (bl ++ [x])) ++ [ind_of ad'] ->
  (if decide (S (length bl) <= 12)%nat then ind_of ad' = 0
   else forall j, (j < 128)%nat -> get_uint (zblk d' (ind_of ad')) (4 * j) = nth (12 + j) (bl ++ [x]) 0) ->
  Forall (fun b => 59 <= b < fb') (own ad' (bl ++ [x])) -> NoDup (own ad' (bl ++ [x])) ->
  file_at d' fb' ad' (bl ++ [x]) bytes.
Proof.
  intros [F1 F2 F3 F4 F5 F6 F7] Hl Hx Hb Had Hind Hr Hnd.
  assert (length (bl ++ [x]) = S (length bl)) as El by (rewrite length_app; cbn; lia).
  split; rewrite ?El; try done; try lia.
  rewrite data_app, (data_ext d) by done. unfold data at 2. cbn. rewrite app_nil_r, Hx, F7, <- app_assoc. f_equal.
  change zeroes with (replicate 512 0). rewrite <- replicate_add. f_equal. lia.
Qed.

Lemma pad_insert n l x : (length l < n)%nat -> <[length l := x]> (pad n l) = pad n (l ++ [x]).
Proof.
  intros H. unfold pad. rewrite length_app. cbn [length]. replace (n - length l)%nat with (S (n - (length l + 1)))%nat by lia.
  cbn [replicate]. rewrite <- app_assoc. cbn [app]. rewrite insert_app_r_alt by lia. by rewrite Nat.sub_diag.
Qed.

(** What allocating block [n] of a file gives. *)
Record block_got (s s' : mkstate) (ad ad' bl bl' bytes : list Z) (n : nat) (x : Z) : Prop := {
  bg_file : file_at (image s') (freeblock s') ad' bl' bytes;
  bg_last : exists bl0, bl' = bl0 ++ [x] /\ length bl0 = n;
  bg_fb : freeblock s' = freeblock s + costb (S n) - costb (length bl);
  bg_fi : freeinode s' = freeinode s;
  bg_img : img_ok (image s');
  bg_fresh : fresh (image s') (freeblock s');
  bg_frame : forall b, 0 <= b -> b ∉ own ad' bl' -> zblk (image s') b = zblk (image s) b;
  bg_own : forall b, b ∈ own ad' bl' -> b ∈ own ad bl \/ freeblock s <= b;
  bg_sub : forall b, b ∈ own ad bl -> b ∈ own ad' bl' }.

Definition took (s : mkstate) (k : Z) (d : list block) : mkstate := mkMk d (freeinode s) (freeblock s + k).

Lemma next_block_ok s : 0 <= freeblock s <= 1000 -> next_block s = Ok (freeblock s, took s 1 (image s)).
Proof.
  intros H. unfold next_block, took. mrun. replace (u32 (freeblock s + 1)) with (freeblock s + 1) by (unfold u32; rewrite Z.mod_small; lia). done.
Qed.

Lemma costb_S n : costb (S n) - costb n = if decide (n = 12)%nat then 2 else 1.
Proof. unfold costb. destruct (decide (S n <= 12)%nat), (decide (n <= 12)%nat), (decide (n = 12)%nat); lia. Qed.

Lemma length_addrs d fb ad bl bytes : file_at d fb ad bl bytes -> length ad = 13%nat.
Proof. intros H. rewrite (fa_addrs _ _ _ _ _ H), length_app, length_zpad by (rewrite length_take; lia). done. Qed.

(** A block that is there. *)
Lemma get_block_old s ad bl0 x bytes : img_ok (image s) -> fresh (image s) (freeblock s) -> freeblock s <= 1000 ->
  file_at (image s) (freeblock s) ad (bl0 ++ [x]) bytes ->
  get_block ad (Z.of_nat (length bl0)) s = Ok ((x, ad), s)
  /\ block_got s s ad ad (bl0 ++ [x]) (bl0 ++ [x]) bytes (length bl0) x.
Proof.
  intros Hd Hfr Hfb H. pose proof H as [F1 F2 F3 F4 F5 F6 F7]. rewrite length_app in F2, F3. cbn [length] in F2, F3. split.
  - assert (59 <= x < freeblock s) as Hx by (apply (proj1 (Forall_forall _ _) F4), own_in, elem_of_app; right; by left).
    assert (nth (length bl0) (bl0 ++ [x]) 0 = x) as Enth by (rewrite app_nth2, Nat.sub_diag by lia; done).
    unfold get_block. change NDIRECT with 12. destruct (Z.ltb_spec (Z.of_nat (length bl0)) 12) as [Hl|Hl].
    + rewrite Nat2Z.id, (file_direct _ _ _ _ _ _ H), Enth by lia. rewrite (proj2 (Z.eqb_neq x 0)) by lia.
      rewrite (bind_ok (mret ad) _ s ad s eq_refl). by rewrite (file_direct _ _ _ _ _ _ H), Enth by lia.
    + rewrite decide_False in F3 by lia. change (Z.to_nat 12) with 12%nat. fold (ind_of ad).
      assert (59 <= ind_of ad < freeblock s) as Hi.
      { apply (proj1 (Forall_forall _ _) F4), elem_of_app. right. rewrite decide_False by (rewrite length_app; cbn; lia). by left. }
      rewrite (proj2 (Z.eqb_neq (ind_of ad) 0)) by lia. rewrite (bind_ok (mret ad) _ s ad s eq_refl). fold (ind_of ad).
      rewrite (bind_ok _ _ _ _ _ (rsect_ok s (ind_of ad) Hd ltac:(lia))).
      replace (Z.to_nat (Z.of_nat (length bl0) - 12)) with (length bl0 - 12)%nat by lia. rewrite (F3 (length bl0 - 12)%nat) by lia.
      replace (12 + (length bl0 - 12))%nat with (length bl0) by lia. rewrite Enth, (proj2 (Z.eqb_neq x 0)) by lia.
      rewrite (bind_ok (mret _) _ s _ s eq_refl). rewrite (F3 (length bl0 - 12)%nat) by lia.
      replace (12 + (length bl0 - 12))%nat with (length bl0) by lia. by rewrite Enth.
  - split; try done; [by exists bl0| |by left]. rewrite length_app. cbn. replace (length bl0 + 1)%nat with (S (length bl0)) by lia. lia.
Qed.

(** A new direct block. *)
Lemma get_block_direct s ad bl bytes : img_ok (image s) -> fresh (image s) (freeblock s) -> 59 <= freeblock s < 1000 ->
  file_at (image s) (freeblock s) ad bl bytes -> (length bl < 12)%nat ->
  exists x ad' s', get_block ad (Z.of_nat (length bl)) s = Ok ((x, ad'), s')
  /\ block_got s s' ad ad' bl (bl ++ [x]) bytes (length bl) x.
Proof.
  intros Hd Hfr Hfb H Hl. pose proof H as [F1 F2 F3 F4 F5 F6 F7]. rewrite decide_True in F3 by lia.
  set (fb := freeblock s) in *. set (ad' := <[length bl := fb]> ad).
  assert (ind_of ad' = 0) as Ei. { unfold ad', ind_of. rewrite nth_lookup, list_lookup_insert_ne, <- nth_lookup by lia. exact F3. }
  exists fb, ad', (took s 1 (image s)). split.
  - unfold get_block. change NDIRECT with 12. replace (Z.of_nat (length bl) <? 12) with true by lia.
    rewrite Nat2Z.id, (file_direct _ _ _ _ _ _ H), nth_overflow by lia. cbn [Z.eqb].
    assert ((x ← next_block; mret (<[length bl := x]> ad)) s = Ok (ad', took s 1 (image s))) as E.
    { by rewrite (bind_ok _ _ _ _ _ (next_block_ok s ltac:(lia))). }
    rewrite (bind_ok _ _ _ _ _ E). unfold ad'. rewrite nth_lookup, list_lookup_insert_eq; [done|].
    rewrite (length_addrs _ _ _ _ _ H). lia.
  - assert (own ad' (bl ++ [fb]) = bl ++ [fb]) as Eo by (unfold own; rewrite decide_True, app_nil_r; [done|rewrite length_app; cbn; lia]).
    assert (own ad bl = bl) as Eo0 by (unfold own; rewrite decide_True, app_nil_r; [done|lia]). rewrite Eo0 in *.
    split; cbn [image freeblock freeinode took]; try done.
    + apply (file_at_grow (image s) _ fb _ ad); try done.
      * lia.
      * apply Hfr. lia.
      * rewrite Ei. unfold ad'. rewrite F1, F3. rewrite insert_app_l by (rewrite length_zpad; rewrite ?length_take; lia).
        rewrite !(take_ge _ 12) by (rewrite ?length_app; cbn; lia). by rewrite pad_insert.
      * by rewrite decide_True by lia.
      * rewrite Eo. apply Forall_app. split; [|apply Forall_singleton; lia]. eapply Forall_impl; [exact F4|]. cbn. lia.
      * rewrite Eo. apply NoDup_app. split; [done|]. split; [|apply NoDup_singleton]. intros y Hy ->%list_elem_of_singleton.
        pose proof (proj1 (Forall_forall _ _) F4 _ Hy). cbn in *. lia.
    + by exists bl.
    + pose proof (costb_S (length bl)). destruct (decide _); lia.
    + intros b Hb. apply Hfr. lia.
    + rewrite Eo, Eo0. intros b [?| ->%list_elem_of_singleton]%elem_of_app; [by left|right; lia].
    + rewrite Eo, Eo0. intros b ?. apply elem_of_app. by left.
Qed.

(** The first indirect block, with the block of addresses. *)
Lemma get_block_first s ad bl bytes : img_ok (image s) -> fresh (image s) (freeblock s) -> 59 <= freeblock s < 999 ->
  file_at (image s) (freeblock s) ad bl bytes -> length bl = 12%nat ->
  exists x ad' s', get_block ad (Z.of_nat (length bl)) s = Ok ((x, ad'), s')
  /\ block_got s s' ad ad' bl (bl ++ [x]) bytes (length bl) x.
Proof.
  intros Hd Hfr Hfb H Hl. pose proof H as [F1 F2 F3 F4 F5 F6 F7]. rewrite decide_True in F3 by lia.
  set (fb := freeblock s) in *. set (ad' := <[12%nat := fb]> ad). set (e := put_int zeroes 0 (fb + 1)). set (d' := wr (image s) fb e).
  assert (ind_of ad' = fb) as Ei. { unfold ad', ind_of. rewrite nth_lookup, list_lookup_insert_eq; [done|]. rewrite (length_addrs _ _ _ _ _ H). lia. }
  assert (length e = 512%nat) as He by (unfold e; by rewrite length_put_int).
  assert (img_ok d') as Hd' by (by apply img_ok_wr).
  assert (forall b, 0 <= b -> b <> fb -> zblk d' b = zblk (image s) b) as Hoth.
  { intros b Hb Hne. unfold d'. rewrite zblk_wr by (done || lia). by rewrite (proj2 (Z.eqb_neq b fb)). }
  assert (zblk d' fb = e) as Hfbe by (unfold d'; rewrite zblk_wr, Z.eqb_refl by (done || lia); done).
  assert (get_uint e 0 = fb + 1) as Hge by (apply get_put_uint; [rewrite zeroes_len; lia|unfold is_u32; lia]).
  exists (fb + 1), ad', (took s 2 d'). split.
  - unfold get_block. change NDIRECT with 12. rewrite Hl. change (Z.of_nat 12 <? 12) with false. change (Z.to_nat 12) with 12%nat. fold (ind_of ad). rewrite F3. cbn [Z.eqb].
    assert ((x ← next_block; mret (<[12%nat := x]> ad)) s = Ok (ad', took s 1 (image s))) as E.
    { by rewrite (bind_ok _ _ _ _ _ (next_block_ok s ltac:(lia))). }
    rewrite (bind_ok _ _ _ _ _ E). fold (ind_of ad'). rewrite Ei.
    rewrite (bind_ok _ _ _ _ _ (rsect_ok (took s 1 (image s)) fb Hd ltac:(lia))). cbn [image took]. rewrite (Hfr fb) by lia.
    change (4 * Z.to_nat (Z.of_nat 12 - 12))%nat with 0%nat. rewrite get_zero. cbn [Z.eqb].
    assert ((x ← next_block; wsect fb (put_int zeroes 0 x) ;; mret (put_int zeroes 0 x)) (took s 1 (image s)) = Ok (e, took s 2 d')) as E2.
    { rewrite (bind_ok _ _ _ _ _ (next_block_ok (took s 1 (image s)) ltac:(cbn; lia))). cbn [freeblock took]. fold fb.
      cbn [image].
      rewrite (bind_ok _ _ _ _ _ (wsect_ok (took (took s 1 (image s)) 1 (image s)) fb (put_int zeroes 0 (fb + 1)) Hd ltac:(lia))). unfold took, with_image. cbn [image freeinode freeblock mret]. fold fb. fold e. fold d'.
      replace (fb + 1 + 1) with (fb + 2) by lia. done. }
    rewrite (bind_ok _ _ _ _ _ E2). by rewrite Hge.
  - assert (own ad' (bl ++ [fb + 1]) = (bl ++ [fb + 1]) ++ [fb]) as Eo by (unfold own; rewrite decide_False, Ei; [done|rewrite length_app; cbn; lia]).
    assert (own ad bl = bl) as Eo0 by (unfold own; rewrite decide_True, app_nil_r; [done|lia]). rewrite Eo0 in *.
    assert (forall b, b ∈ bl -> 59 <= b < fb) as Hbl by (intros b Hb; by apply (proj1 (Forall_forall _ _) F4 b)).
    split; cbn [image freeblock freeinode took]; try done.
    + apply (file_at_grow (image s) _ fb _ ad); try done.
      * lia.
      * rewrite Hoth by lia. apply Hfr. lia.
      * intros b Hb%Hbl. apply Hoth; lia.
      * rewrite Ei, take12_app by lia. unfold ad'. rewrite F1. rewrite insert_app_r_alt by (rewrite length_zpad; rewrite ?length_take; lia).
        rewrite length_zpad by (rewrite length_take; lia). done.
      * rewrite decide_False by lia. intros j Hj. rewrite Ei, Hfbe. destruct (decide (j = 0)%nat) as [->|Hj0].
        -- change (4 * 0)%nat with 0%nat. rewrite Hge. rewrite app_nth2 by lia. by rewrite Hl.
        -- unfold e. rewrite (get_uint_ext zeroes _ 0 4) by (apply put_int_at || lia). rewrite get_zero, nth_overflow; [done|].
           rewrite length_app. cbn. lia.
      * rewrite Eo. repeat (apply Forall_app; split); try (apply Forall_singleton; lia). eapply Forall_impl; [exact F4|]. cbn. lia.
      * rewrite Eo. apply NoDup_app. split; [apply NoDup_app; split; [done|split; [|apply NoDup_singleton]]|split; [|apply NoDup_singleton]].
        -- intros y Hy%Hbl ->%list_elem_of_singleton. lia.
        -- intros y [Hy%Hbl|Hy%list_elem_of_singleton]%elem_of_app Hy2%list_elem_of_singleton; lia.
    + by exists bl.
    + pose proof (costb_S (length bl)). rewrite decide_True in * by done. lia.
    + intros b Hb. rewrite Hoth by lia. apply Hfr. lia.
    + rewrite Eo. intros b Hb Hn. apply Hoth; [done|]. intros ->. apply Hn. apply elem_of_app. right. by left.
    + rewrite Eo, Eo0. intros b [[?| ->%list_elem_of_singleton]%elem_of_app| ->%list_elem_of_singleton]%elem_of_app; [by left|right; lia|right; lia].
    + rewrite Eo, Eo0. intros b ?. apply elem_of_app. left. apply elem_of_app. by left.
Qed.

(** A further indirect block. *)
Lemma get_block_indirect s ad bl bytes : img_ok (image s) -> fresh (image s) (freeblock s) -> 59 <= freeblock s < 1000 ->
  file_at (image s) (freeblock s) ad bl bytes -> (12 < length bl < 140)%nat ->
  exists x ad' s', get_block ad (Z.of_nat (length bl)) s = Ok ((x, ad'), s')
  /\ block_got s s' ad ad' bl (bl ++ [x]) bytes (length bl) x.
Proof.
  intros Hd Hfr Hfb H Hl. pose proof H as [F1 F2 F3 F4 F5 F6 F7]. rewrite decide_False in F3 by lia.
  set (fb := freeblock s) in *. set (i := ind_of ad) in *. set (j := (length bl - 12)%nat).
  set (e := put_int (zblk (image s) i) (4 * j) fb). set (d' := wr (image s) i e).
  assert (own ad bl = bl ++ [i]) as Eo0 by (unfold own; by rewrite decide_False by lia). rewrite Eo0 in *.
  assert (59 <= i < fb) as Hi by (apply (proj1 (Forall_forall _ _) F4), elem_of_app; right; by left).
  assert (forall b, b ∈ bl -> 59 <= b < fb /\ b <> i) as Hbl.
  { intros b Hb. split; [apply (proj1 (Forall_forall _ _) F4), elem_of_app; by left|]. intros ->. apply NoDup_app in F5 as (_ & N & _). apply (N i Hb). by left. }
  assert (length (zblk (image s) i) = 512%nat) as Hzl by (apply zblk_len; [done|lia]).
  assert (length e = 512%nat) as He by (unfold e; by rewrite length_put_int).
  assert (img_ok d') as Hd' by (by apply img_ok_wr).
  assert (forall b, 0 <= b -> b <> i -> zblk d' b = zblk (image s) b) as Hoth.
  { intros b Hb Hne. unfold d'. rewrite zblk_wr by (done || lia). by rewrite (proj2 (Z.eqb_neq b i)). }
  assert (zblk d' i = e) as Hie by (unfold d'; rewrite zblk_wr, Z.eqb_refl by (done || lia); done).
  assert (get_uint e (4 * j) = fb) as Hge by (apply get_put_uint; [rewrite Hzl; lia|unfold is_u32; lia]).
  exists fb, ad, (took s 1 d'). split.
  - unfold get_block. change NDIRECT with 12. replace (Z.of_nat (length bl) <? 12) with false by lia. change (Z.to_nat 12) with 12%nat. fold (ind_of ad). fold i.
    rewrite (proj2 (Z.eqb_neq i 0)) by lia. rewrite (bind_ok (mret ad) _ s ad s eq_refl). fold (ind_of ad). fold i.
    rewrite (bind_ok _ _ _ _ _ (rsect_ok s i Hd ltac:(lia))). replace (Z.to_nat (Z.of_nat (length bl) - 12)) with j by lia.
    rewrite F3, nth_overflow by lia. cbn [Z.eqb].
    assert ((x ← next_block; wsect i (put_int (zblk (image s) i) (4 * j) x) ;; mret (put_int (zblk (image s) i) (4 * j) x)) s = Ok (e, took s 1 d')) as E2.
    { rewrite (bind_ok _ _ _ _ _ (next_block_ok s ltac:(lia))). by rewrite (bind_ok _ _ _ _ _ (wsect_ok (took s 1 (image s)) i (put_int (zblk (image s) i) (4 * j) fb) Hd ltac:(lia))). }
    rewrite (bind_ok _ _ _ _ _ E2). by rewrite Hge.
  - assert (own ad (bl ++ [fb]) = (bl ++ [fb]) ++ [i]) as Eo by (unfold own; rewrite decide_False; [done|rewrite length_app; cbn; lia]).
    split; cbn [image freeblock freeinode took]; try done.
    + apply (file_at_grow (image s) _ fb _ ad); try done.
      * lia.
      * rewrite Hoth by lia. apply Hfr. lia.
      * intros b Hb%Hbl. apply Hoth; lia.
      * fold i. by rewrite take12_app by lia.
      * rewrite decide_False by lia. intros j' Hj. fold i. rewrite Hie. destruct (decide (j' = j)%nat) as [->|Hj0].
        -- rewrite Hge. rewrite app_nth2 by lia. by replace (12 + j - length bl)%nat with 0%nat by lia.
        -- unfold e. rewrite (get_uint_ext (zblk (image s) i) _ (4 * j) 4) by (apply put_int_at || lia). rewrite F3 by done.
           destruct (decide (12 + j' < length bl)%nat); [by rewrite app_nth1|]. rewrite !nth_overflow; [done|rewrite length_app; cbn; lia|lia].
      * rewrite Eo. apply Forall_app in F4 as [F4 _]. repeat (apply Forall_app; split); try (apply Forall_singleton; lia). eapply Forall_impl; [exact F4|]. cbn. lia.
      * rewrite Eo. apply NoDup_app in F5 as (N1 & _ & _). apply NoDup_app. split; [apply NoDup_app; split; [done|split; [|apply NoDup_singleton]]|split; [|apply NoDup_singleton]].
        -- intros y Hy%Hbl ->%list_elem_of_singleton. lia.
        -- intros y [Hy%Hbl|Hy%list_elem_of_singleton]%elem_of_app Hy2%list_elem_of_singleton; lia.
    + by exists bl.
    + pose proof (costb_S (length bl)). rewrite decide_False in * by lia. lia.
    + intros b Hb. rewrite Hoth by lia. apply Hfr. lia.
    + rewrite Eo. intros b Hb Hn. apply Hoth; [done|]. intros ->. apply Hn. apply elem_of_app. right. by left.
    + rewrite Eo, Eo0. intros b [[?| ->%list_elem_of_singleton]%elem_of_app| ->%list_elem_of_singleton]%elem_of_app;
        [left; apply elem_of_app; by left|right; lia|left; apply elem_of_app; right; by left].
    + rewrite Eo, Eo0. intros b [?|?]%elem_of_app; apply elem_of_app; [left; apply elem_of_app; by left|by right].
Qed.

(** * [iappend] *)

Definition nbk (n : nat) : nat := Z.to_nat ((Z.of_nat n + 511) / 512).

Lemma get_block_spec s ad bl bytes : img_ok (image s) -> fresh (image s) (freeblock s) -> 59 <= freeblock s ->
  file_at (image s) (freeblock s) ad bl bytes -> length bl = nbk (length bytes) -> Z.of_nat (length bytes) < 71680 ->
  let n := (length bytes / 512)%nat in
  freeblock s + costb (S n) - costb (length bl) <= 1000 ->
  exists x ad' bl' s', get_block ad (Z.of_nat n) s = Ok ((x, ad'), s') /\ block_got s s' ad ad' bl bl' bytes n x.
Proof.
  intros Hd Hfr Hfb H Hl Hmax n Hroom.
  assert (Z.of_nat n = Z.of_nat (length bytes) / 512) as Hn by (unfold n; by rewrite Nat2Z.inj_div).
  pose proof (costb_S n) as Hc.
  assert (length bl = n \/ length bl = S n) as [E|E] by (unfold nbk in Hl; Z.div_mod_to_equations; lia).
  - clearbody n. rewrite <- E in *. assert (exists x ad' s', get_block ad (Z.of_nat (length bl)) s = Ok ((x, ad'), s')
      /\ block_got s s' ad ad' bl (bl ++ [x]) bytes (length bl) x) as (x & ad' & s' & Hg); [|by exists x, ad', (bl ++ [x]), s'].
    assert (length bl < 140)%nat by (Z.div_mod_to_equations; lia).
    destruct (lt_eq_lt_dec (length bl) 12) as [[Hlt|Heq]|Hgt].
    + apply get_block_direct; try done. destruct (decide _); lia.
    + apply get_block_first; try done. rewrite decide_True in Hc by done. lia.
    + apply get_block_indirect; try done. rewrite decide_False in Hc by lia. lia.
  - destruct bl as [|x bl0 _] using rev_ind; [done|]. rewrite length_app in E. cbn [length] in E. assert (length bl0 = n) as En by lia.
    rewrite length_app in Hroom. cbn [length] in Hroom. replace (length bl0 + 1)%nat with (S n) in Hroom by lia.
    exists x, ad, (bl0 ++ [x]), s. rewrite <- En. apply get_block_old; try done. lia.
Qed.

(** What appending [p] to a file does. *)
Record grown (s s' : mkstate) (ad ad' bl bl' bytes p : list Z) : Prop := {
  gw_file : file_at (image s') (freeblock s') ad' bl' (bytes ++ p);
  gw_len : length bl' = nbk (length (bytes ++ p));
  gw_fb : freeblock s' = freeblock s + costb (length bl') - costb (length bl);
  gw_fi : freeinode s' = freeinode s;
  gw_img : img_ok (image s');
  gw_fresh : fresh (image s') (freeblock s');
  gw_frame : forall b, 0 <= b -> b ∉ own ad' bl' -> zblk (image s') b = zblk (image s) b;
  gw_own : forall b, b ∈ own ad' bl' -> b ∈ own ad bl \/ freeblock s <= b;
  gw_sub : forall b, b ∈ own ad bl -> b ∈ own ad' bl' }.

Lemma costb_mono a b : (a <= b)%nat -> costb a <= costb b.
Proof. intros H. unfold costb. destruct (decide (a <= 12)%nat), (decide (b <= 12)%nat); lia. Qed.

Lemma nbk_mono a b : (a <= b)%nat -> (nbk a <= nbk b)%nat.
Proof. intros H. unfold nbk. Z.div_mod_to_equations. lia. Qed.

Lemma iappend_loop_spec fuel : forall s ad bl bytes p,
  img_ok (image s) -> fresh (image s) (freeblock s) -> 59 <= freeblock s ->
  file_at (image s) (freeblock s) ad bl bytes -> length bl = nbk (length bytes) ->
  Z.of_nat (length bytes + length p) <= 71680 -> (length p <= fuel)%nat ->
  freeblock s + costb (nbk (length bytes + length p)) - costb (length bl) <= 1000 ->
  exists ad' bl' s', iappend_loop fuel ad (Z.of_nat (length bytes)) p s = Ok ((ad', Z.of_nat (length bytes + length p)), s')
  /\ grown s s' ad ad' bl bl' bytes p.
Proof.
  induction fuel as [|fuel IH]; intros s ad bl bytes p Hd Hfr Hfb H Hl Hmax Hfuel Hroom;
    destruct p as [|y p]; cbn [iappend_loop]; [|cbn in Hfuel; lia| |].
  1, 2: exists ad, bl, s; cbn [length]; rewrite Nat.add_0_r; split; [done|]; split; rewrite ?app_nil_r; try done; [lia|by left].
  set (q := y :: p) in *. assert (0 < length q)%nat as Hq by (cbn; lia). set (n := (length bytes / 512)%nat).
  assert (Z.of_nat (length bytes) / BSIZE = Z.of_nat n) as En by (unfold n; by rewrite Nat2Z.inj_div).
  rewrite En. assert (Z.of_nat n = Z.of_nat (length bytes) / 512) as En' by (by rewrite <- En).
  replace (Z.of_nat n <? MAXFILE) with true by (change MAXFILE with 140; Z.div_mod_to_equations; lia). cbn [negb].
  set (k := (length bytes - 512 * n)%nat). assert (length bytes = 512 * n + k /\ k < 512)%nat as [Ek Hk] by (unfold k; Z.div_mod_to_equations; lia).
  set (m := Nat.min (length q) (512 - k)).
  assert (nbk (length bytes + length q) >= S n)%nat as Hge by (unfold nbk; Z.div_mod_to_equations; lia).
  destruct (get_block_spec s ad bl bytes Hd Hfr Hfb H Hl ltac:(lia)) as (x & ad1 & bl1 & s1 & E1 & G).
  { fold n. pose proof (costb_mono (S n) (nbk (length bytes + length q)) ltac:(lia)). lia. }
  fold n in E1, G. clearbody n. rewrite (bind_ok _ _ _ _ _ E1). destruct G as [G1 (bl0 & -> & Hbl0) G3 G4 G5 G6 G7 G8 G9].
  pose proof (costb_mono (S n) (nbk (length bytes + length q)) ltac:(lia)) as Hcm.
  assert (59 <= x < freeblock s1) as Hx by (apply (proj1 (Forall_forall _ _) (fa_range _ _ _ _ _ G1)), own_in, elem_of_app; right; by left).
  replace (Z.min (Z.of_nat (length q)) ((Z.of_nat n + 1) * BSIZE - Z.of_nat (length bytes))) with (Z.of_nat m) by (unfold BSIZE; lia).
  rewrite (bind_ok _ _ _ _ _ (rsect_ok s1 x G5 ltac:(lia))).
  replace (Z.to_nat (Z.of_nat (length bytes) - Z.of_nat n * BSIZE)) with k by (unfold BSIZE; lia). rewrite Nat2Z.id.
  set (c := take m q). assert (length c = m) as Hc by (unfold c; rewrite length_take; lia).
  rewrite (bind_ok _ _ _ _ _ (wsect_ok s1 x (splice (zblk (image s1) x) k c) G5 ltac:(lia))).
  destruct (file_at_write (image s1) (freeblock s1) ad1 bl0 x bytes k c G5 ltac:(lia) G1) as [G10 Hsl]; [by rewrite Hbl0|lia|].
  set (s2 := with_image s1 (wr (image s1) x (splice (zblk (image s1) x) k c))) in *.
  assert (length (bl0 ++ [x]) = S n) as Hl1 by (rewrite length_app; cbn [length]; lia).
  assert (nbk (length (bytes ++ c)) = S n) as Hnb by (rewrite length_app; unfold nbk; Z.div_mod_to_equations; lia).
  assert (length (drop m q) = (length q - m)%nat) as Hdr by apply length_drop.
  destruct (IH s2 ad1 (bl0 ++ [x]) (bytes ++ c) (drop m q)) as (ad' & bl' & s' & E2 & W).
  { by apply img_ok_wr. }
  { intros b Hb. cbn [image freeblock s2 with_image] in *. rewrite zblk_wr by (done || lia). rewrite (proj2 (Z.eqb_neq b x)) by lia. by apply G6. }
  { cbn. lia. }
  { exact G10. }
  { lia. }
  { rewrite length_app. lia. }
  { rewrite Hdr. lia. }
  { rewrite length_app, Hdr. replace (length bytes + length c + (length q - m))%nat with (length bytes + length q)%nat by lia. cbn [freeblock s2 with_image]. rewrite Hl1. lia. }
  rewrite length_app, Hdr in E2. exists ad', bl', s'. split.
  - replace (Z.of_nat (length bytes) + Z.of_nat m) with (Z.of_nat (length bytes + length c)) by lia. rewrite E2. do 3 f_equal. lia.
  - destruct W as [W1 W2 W3 W4 W5 W6 W7 W8 W9]. rewrite <- app_assoc in W1, W2. unfold c in W1, W2. rewrite take_drop in W1, W2. cbn [freeblock freeinode image s2 with_image] in *.
    rewrite Hl1 in W3. split; try done; try lia.
    + intros b Hb Hn. rewrite W7 by done. assert (b ∉ own ad1 (bl0 ++ [x])) as Hn1 by (intros Hin; by apply Hn, W9).
      rewrite zblk_wr by (done || lia). rewrite (proj2 (Z.eqb_neq b x)); [by apply G7|]. intros ->. apply Hn1, own_in, elem_of_app. right. by left.
    + intros b Hb. destruct (W8 b Hb) as [H1|H1]; [by apply G8|right; pose proof (costb_mono (length bl) (S n)); unfold nbk in Hl; Z.div_mod_to_equations; lia].
    + intros b Hb. by apply W9, G9.
Qed.

(** * The state of [mkfs] *)

Definition dino (d : list block) (i : Z) : inode := get_dinode (zblk d (IBLOCK i mk_sb)) (dinode_off i) (din0 i).

Lemma IBLOCK_val i : IBLOCK i mk_sb = i / 8 + 32.
Proof. reflexivity. Qed.

Lemma dino_ext d d' i : zblk d' (IBLOCK i mk_sb) = zblk d (IBLOCK i mk_sb) -> dino d' i = dino d i.
Proof. intros E. unfold dino. by rewrite E. Qed.

Lemma winode_spec s i ip : img_ok (image s) -> 0 <= i < 208 -> inode_ok ip ->
  exists d', winode i ip s = Ok (tt, with_image s d') /\ img_ok d' /\ dino d' i = reloaded ip (din0 i)
  /\ (forall j, 0 <= j -> j <> i -> dino d' j = dino (image s) j)
  /\ (forall b, 0 <= b -> b < 32 \/ 58 <= b -> zblk d' b = zblk (image s) b).
Proof.
  intros Hd Hi Hok. pose proof (IBLOCK_val i) as Eb. set (b := IBLOCK i mk_sb) in *.
  assert (32 <= b < 58) as Hb by (Z.div_mod_to_equations; lia).
  pose proof (zblk_len (image s) b Hd ltac:(lia)) as Hl.
  set (e := put_dinode (zblk (image s) b) (dinode_off i) ip).
  pose proof (put_dinode_at (zblk (image s) b) (dinode_off i) ip (ok_naddrs _ Hok)) as Hat. fold e in Hat.
  assert (length e = 512%nat) as He by (rewrite (proj1 Hat); done).
  pose proof (dinode_off_bound i ltac:(lia)) as Ho. unfold BSIZE in Ho.
  exists (wr (image s) b e). split; [|split; [by apply img_ok_wr|split; [|split]]].
  - unfold winode. fold b. rewrite (bind_ok _ _ _ _ _ (rsect_ok s b Hd ltac:(lia))). apply wsect_ok; [done|lia].
  - unfold dino. fold b. rewrite zblk_wr, Z.eqb_refl by (done || lia). apply get_put_dinode; [lia|done].
  - intros j Hj Hne. unfold dino. rewrite zblk_wr by (done || lia || (rewrite IBLOCK_val; Z.div_mod_to_equations; lia)).
    destruct (Z.eqb_spec (IBLOCK j mk_sb) b) as [E|E]; [|done]. rewrite E.
    assert (j mod IPB <> i mod IPB) as Hm by (rewrite IBLOCK_val in E; change IPB with 8; Z.div_mod_to_equations; lia).
    pose proof (dinode_off_apart j i Hj ltac:(lia) Hm) as Ha. unfold get_dinode.
    rewrite !(get_short_ext _ _ _ _ _ Hat) by lia. rewrite (get_uint_ext _ _ _ _ _ Hat) by lia. f_equal.
    apply map_ext_in. intros k Hk%in_seq. apply (get_uint_ext _ _ _ _ _ Hat). lia.
  - intros c Hc Hr. rewrite zblk_wr by (done || lia). by rewrite (proj2 (Z.eqb_neq c b)) by lia.
Qed.

Record finfo : Type := mkFi { fi_type : Z; fi_bytes : list Z; fi_ad : list Z; fi_bl : list Z }.
Definition fi_own (f : finfo) : list Z := own (fi_ad f) (fi_bl f).
Definition total (fs : list finfo) : Z := foldr (fun f z => costb (length (fi_bl f)) + z) 0 fs.

(** A file of inode [i]. *)
Record stored_file (d : list block) (fb i : Z) (f : finfo) : Prop := {
  sf_dino : dino d i = mkInode 1 i 0 0 0 (fi_type f) 0 0 1 (Z.of_nat (length (fi_bytes f))) (fi_ad f);
  sf_file : file_at d fb (fi_ad f) (fi_bl f) (fi_bytes f);
  sf_len : length (fi_bl f) = nbk (length (fi_bytes f));
  sf_type : is_s16 (fi_type f) }.

Record mk_inv (s : mkstate) (fs : list finfo) : Prop := {
  mi_img : img_ok (image s);
  mi_fresh : fresh (image s) (freeblock s);
  mi_total : freeblock s = 59 + total fs;
  mi_room : freeblock s <= 1000;
  mi_inode : freeinode s = 1 + Z.of_nat (length fs);
  mi_count : (length fs < 208)%nat;
  mi_file : forall k f, fs !! k = Some f -> stored_file (image s) (freeblock s) (1 + Z.of_nat k) f;
  mi_disj : forall k l f g b, k <> l -> fs !! k = Some f -> fs !! l = Some g -> b ∈ fi_own f -> b ∉ fi_own g;
  mi_free : forall i, Z.of_nat (length fs) < i < 208 -> itype (dino (image s) i) = 0;
  mi_super : zblk (image s) 1 = put_super zeroes mk_sb;
  mi_zero : forall b, 0 <= b < 32 \/ b = 58 -> b <> 1 -> zblk (image s) b = zeroes }.

Lemma total_nonneg fs : 0 <= total fs.
Proof.
  induction fs as [|f fs IH]; [done|]. change (0 <= costb (length (fi_bl f)) + total fs).
  assert (0 <= costb (length (fi_bl f))); [|lia]. unfold costb. destruct (decide _); lia.
Qed.
Lemma total_insert fs k f g : fs !! k = Some f ->
  total (<[k := g]> fs) = total fs - costb (length (fi_bl f)) + costb (length (fi_bl g)).
Proof.
  revert k. induction fs as [|h fs IH]; intros [|k] E; simplify_eq/=; [lia|].
  fold (total (<[k := g]> fs)). fold (total fs). rewrite (IH k) by done. lia.
Qed.
Lemma total_app fs gs : total (fs ++ gs) = total fs + total gs.
Proof.
  induction fs as [|f fs IH]; [done|]. cbn. fold (total (fs ++ gs)). fold (total fs). lia.
Qed.

Lemma stored_ok d fb i f : stored_file d fb i f -> fb <= 1000 -> inode_ok (dino d i).
Proof.
  intros [H1 H2 H3 H4] Hfb. rewrite H1. pose proof H2 as [F1 F2 F3 F4 F5 F6 F7]. split; cbn; try done.
  - unfold is_u32. lia.
  - rewrite F1. apply Forall_app. split.
    + unfold pad. apply Forall_app. split; [|by apply Forall_replicate]. apply Forall_take. unfold own in F4. apply Forall_app in F4 as [F4 _].
      eapply Forall_impl; [exact F4|]. intros b Hb. cbn in Hb. unfold is_u32. lia.
    + apply Forall_singleton. destruct (decide (length (fi_bl f) <= 12)%nat) as [Hl|Hl]; [by rewrite F3|]. unfold own in F4. rewrite decide_False in F4 by done.
      apply Forall_app in F4 as [_ F4]. apply Forall_cons in F4 as [F4 _]. cbn beta in F4. unfold is_u32. lia.
  - by eapply length_addrs.
Qed.

(** [iappend] to file [k]. *)
Lemma iappend_spec s fs k f p : mk_inv s fs -> fs !! k = Some f ->
  Z.of_nat (length (fi_bytes f) + length p) <= 71680 ->
  freeblock s + costb (nbk (length (fi_bytes f) + length p)) - costb (length (fi_bl f)) <= 1000 ->
  exists s' ad bl, iappend (1 + Z.of_nat k) p s = Ok (tt, s')
  /\ mk_inv s' (<[k := mkFi (fi_type f) (fi_bytes f ++ p) ad bl]> fs)
  /\ length bl = nbk (length (fi_bytes f) + length p).
Proof.
  intros Hinv Hk Hmax Hroom. pose proof Hinv as [I1 I2 I3 I4 I5 I6 I7 I8 I9 I10 I11].
  pose proof (I7 k f Hk) as SF. pose proof SF as [SD SFi SL ST]. set (i := 1 + Z.of_nat k) in *.
  pose proof (lookup_lt_Some _ _ _ Hk) as Hlt. pose proof (total_nonneg fs) as Htn.
  destruct (iappend_loop_spec (length p) s (fi_ad f) (fi_bl f) (fi_bytes f) p I1 I2 ltac:(lia) SFi SL Hmax (le_n _) Hroom)
    as (ad & bl & s1 & E1 & [W1 W2 W3 W4 W5 W6 W7 W8 W9]).
  rewrite length_app in W2.
  set (f' := mkFi (fi_type f) (fi_bytes f ++ p) ad bl).
  assert (forall b, b ∈ own ad bl -> 59 <= b < freeblock s1) as Hown by (intros b Hb; by apply (proj1 (Forall_forall _ _) (fa_range _ _ _ _ _ W1) b)).
  assert (forall b, 0 <= b < 59 -> zblk (image s1) b = zblk (image s) b) as Hmeta.
  { intros b Hb. apply W7; [lia|]. intros Hin%Hown. lia. }
  assert (forall j, 0 <= j < 208 -> dino (image s1) j = dino (image s) j) as Hdino.
  { intros j Hj. apply dino_ext, Hmeta. rewrite IBLOCK_val. Z.div_mod_to_equations. lia. }
  assert (costb (length (fi_bl f)) <= costb (length bl)) as Hcm by (apply costb_mono; rewrite SL, W2; apply nbk_mono; lia).
  assert (freeblock s1 <= 1000) as Hfb1 by (rewrite W3, W2; lia).
  assert (inode_ok (mkInode 1 i 0 0 0 (fi_type f) 0 0 1 (Z.of_nat (length (fi_bytes f) + length p)) ad)) as Hok.
  { split; cbn; try done.
    - unfold is_u32. lia.
    - rewrite (fa_addrs _ _ _ _ _ W1). apply Forall_app. split.
      + unfold pad. apply Forall_app. split; [|by apply Forall_replicate]. apply Forall_take. apply Forall_forall. intros b Hb. unfold is_u32. specialize (Hown b (own_in _ _ _ Hb)). lia.
      + apply Forall_singleton. pose proof (fa_ind _ _ _ _ _ W1) as Hin. destruct (decide (length bl <= 12)%nat) as [Hl|Hl]; [by rewrite Hin|].
        assert (ind_of ad ∈ own ad bl) as Hi by (unfold own; rewrite decide_False by done; apply elem_of_app; right; by left). specialize (Hown _ Hi). unfold is_u32. lia.
    - by eapply length_addrs. }
  destruct (winode_spec s1 i _ W5 ltac:(lia) Hok) as (d' & E2 & D1 & D2 & D3 & D4).
  exists (with_image s1 d'), ad, bl. split; [|split; [|done]].
  - unfold iappend, rinode. pose proof (IBLOCK_val i) as Eb.
    assert ((buf ← rsect (IBLOCK i mk_sb); mret (get_dinode buf (dinode_off i) (din0 i))) s = Ok (dino (image s) i, s)) as Er.
    { rewrite (bind_ok _ _ _ _ _ (rsect_ok s (IBLOCK i mk_sb) I1 ltac:(rewrite Eb; Z.div_mod_to_equations; lia))). done. }
    rewrite (bind_ok _ _ _ _ _ Er), SD. cbn [addrs isize]. rewrite (bind_ok _ _ _ _ _ E1). cbn [idev itype major minor nlink].
    replace (u32 (Z.of_nat (length (fi_bytes f) + length p))) with (Z.of_nat (length (fi_bytes f) + length p)) by (unfold u32; rewrite Z.mod_small; lia). exact E2.
  - assert (forall b, 59 <= b -> zblk d' b = zblk (image s1) b) as Hdata by (intros b Hb; apply D4; lia).
    split; cbn [image freeblock freeinode with_image].
    + done.
    + intros b Hb. rewrite Hdata by lia. by apply W6.
    + rewrite (total_insert _ _ f) by done. cbn. lia.
    + rewrite W3, W2. lia.
    + by rewrite length_insert, W4.
    + by rewrite length_insert.
    + intros l g Hl. destruct (decide (k = l)) as [<-|Hne].
      * rewrite list_lookup_insert_eq in Hl by done. injection Hl as <-. split; cbn [fi_type fi_bytes fi_ad fi_bl].
        -- fold i. rewrite D2, length_app. done.
        -- apply (file_at_ext (image s1) _ (freeblock s1)); [done|lia|]. intros b Hb%Hown. apply Hdata. lia.
        -- by rewrite length_app.
        -- done.
      * rewrite list_lookup_insert_ne in Hl by done. destruct (I7 l g Hl) as [G1 G2 G3 G4]. apply lookup_lt_Some in Hl as Hll. split; [| |done..].
        -- rewrite D3 by lia. rewrite Hdino by lia. done.
        -- apply (file_at_ext (image s) _ (freeblock s)); [done|lia|]. intros b Hb.
           pose proof (proj1 (Forall_forall _ _) (fa_range _ _ _ _ _ G2) b Hb) as Hr. cbn in Hr. rewrite Hdata by lia. apply W7; [lia|].
           intros Hin. destruct (W8 b Hin) as [Hin2|]; [|lia]. by apply (I8 k l f g b).
    + intros a c g h b Hac Ha Hc Hb. destruct (decide (k = a)) as [<-|Hka], (decide (k = c)) as [<-|Hkc]; try done.
      * rewrite list_lookup_insert_eq in Ha by done. injection Ha as <-. rewrite list_lookup_insert_ne in Hc by done. unfold fi_own in Hb. cbn in Hb.
        destruct (W8 b Hb) as [Hb2|Hb2]; [by apply (I8 k c f h b)|]. intros Hin. destruct (I7 c h Hc) as [_ G2 _ _].
        pose proof (proj1 (Forall_forall _ _) (fa_range _ _ _ _ _ G2) b Hin) as Hr. cbn in Hr. lia.
      * rewrite list_lookup_insert_eq in Hc by done. injection Hc as <-. rewrite list_lookup_insert_ne in Ha by done. unfold fi_own. cbn.
        intros Hin. destruct (W8 b Hin) as [Hb2|Hb2]; [by apply (I8 a k g f b)|]. destruct (I7 a g Ha) as [_ G2 _ _].
        pose proof (proj1 (Forall_forall _ _) (fa_range _ _ _ _ _ G2) b Hb) as Hr. cbn in Hr. lia.
      * rewrite list_lookup_insert_ne in Ha, Hc by done. by apply (I8 a c g h b).
    + intros j Hj. rewrite length_insert in Hj. rewrite D3 by lia. rewrite Hdino by lia. apply I9. lia.
    + rewrite D4 by lia. rewrite Hmeta by lia. done.
    + intros b Hb Hb1. rewrite D4 by lia. rewrite Hmeta by lia. by apply I11.
Qed.

Lemma empty_file d fb : file_at d fb (replicate 13 0) [] [].
Proof. split; cbn; try done; try lia. apply NoDup_nil_2. Qed.

(** [ialloc] of [mkfs]. *)
Lemma mk_ialloc_spec s fs ty : mk_inv s fs -> (length fs < 207)%nat -> is_s16 ty ->
  exists s', mk_ialloc ty s = Ok (1 + Z.of_nat (length fs), s')
  /\ mk_inv s' (fs ++ [mkFi ty [] (replicate 13 0) []]) /\ freeblock s' = freeblock s.
Proof.
  intros Hinv Hlen Hty. pose proof Hinv as [I1 I2 I3 I4 I5 I6 I7 I8 I9 I10 I11]. set (i := freeinode s) in *.
  assert (inode_ok (mkInode 1 i 0 0 0 ty 0 0 1 0 (replicate 13 0))) as Hok by (split; cbn; try done; by repeat constructor).
  set (s1 := mkMk (image s) (i + 1) (freeblock s)).
  destruct (winode_spec s1 i _ I1 ltac:(lia) Hok) as (d' & E2 & D1 & D2 & D3 & D4).
  exists (with_image s1 d'). split; [|split; [|done]].
  - unfold mk_ialloc. mrun. fold i. replace (u32 (i + 1)) with (i + 1) by (unfold u32; rewrite Z.mod_small; lia).
    replace (s16 ty) with ty by (unfold s16, is_s16 in *; Z.div_mod_to_equations; lia). fold s1. rewrite E2. by rewrite I5.
  - cbn [image s1] in *.
    assert (forall b, 59 <= b -> zblk d' b = zblk (image s) b) as Hdata by (intros b Hb; apply D4; lia).
    split; cbn [image freeblock freeinode with_image s1].
    + done.
    + intros b Hb. pose proof (total_nonneg fs). rewrite Hdata by lia. by apply I2.
    + rewrite total_app. change (total [mkFi ty [] (replicate 13 0) []]) with 0. lia.
    + done.
    + rewrite length_app. cbn. lia.
    + rewrite length_app. cbn. lia.
    + intros l g Hl. apply lookup_app_Some in Hl as [Hl|[Hge Hl]].
      * destruct (I7 l g Hl) as [G1 G2 G3 G4]. apply lookup_lt_Some in Hl as Hll. split; [| |done..].
        -- rewrite D3 by lia. done.
        -- apply (file_at_ext (image s) _ (freeblock s)); [done|lia|]. intros b Hb.
           pose proof (proj1 (Forall_forall _ _) (fa_range _ _ _ _ _ G2) b Hb) as Hr. cbn in Hr. apply Hdata. lia.
      * apply list_lookup_singleton_Some in Hl as [Hl0 <-]. assert (l = length fs) as -> by lia. split; cbn; try done; [|apply empty_file].
        replace (1 + Z.of_nat (length fs)) with i by lia. by rewrite D2.
    + intros a c g h b Hac Ha Hc Hb. apply lookup_app_Some in Ha as [Ha|[Hge Ha]].
      * apply lookup_app_Some in Hc as [Hc|[Hge Hc]]; [by apply (I8 a c g h b)|]. apply list_lookup_singleton_Some in Hc as [_ <-]. by intros ?%elem_of_nil.
      * apply list_lookup_singleton_Some in Ha as [_ <-]. by apply elem_of_nil in Hb.
    + intros j Hj. rewrite length_app in Hj. cbn in Hj. rewrite D3 by lia. apply I9. lia.
    + rewrite D4 by lia. done.
    + intros b Hb Hb1. rewrite D4 by lia. by apply I11.
Qed.

(** Copying a file, 512 bytes at a time. *)
Lemma copy_file_spec fuel : forall s fs k f bytes, mk_inv s fs -> fs !! k = Some f ->
  Z.of_nat (length (fi_bytes f) + length bytes) <= 71680 -> (length bytes <= fuel)%nat ->
  freeblock s + costb (nbk (length (fi_bytes f) + length bytes)) - costb (length (fi_bl f)) <= 1000 ->
  exists s' ad bl, copy_file fuel (1 + Z.of_nat k) bytes s = Ok (tt, s')
  /\ mk_inv s' (<[k := mkFi (fi_type f) (fi_bytes f ++ bytes) ad bl]> fs)
  /\ length bl = nbk (length (fi_bytes f) + length bytes).
Proof.
  induction fuel as [|fuel IH]; intros s fs k f bytes Hinv Hk Hmax Hfuel Hroom;
    destruct bytes as [|y bytes]; cbn [copy_file]; [|cbn in Hfuel; lia| |].
  1, 2: exists s, (fi_ad f), (fi_bl f); split; [done|]; cbn [length]; rewrite app_nil_r, Nat.add_0_r; split;
    [rewrite list_insert_id; [done|by destruct f]|apply (mi_file _ _ Hinv k f Hk)].
  set (q := y :: bytes) in *. set (c := take (Z.to_nat BSIZE) q). set (r := drop (Z.to_nat BSIZE) q).
  assert (length q = length c + length r)%nat as Hq by (unfold c, r; rewrite length_take, length_drop; lia).
  assert (0 < length c)%nat as Hc by (unfold c; rewrite length_take; change (Z.to_nat BSIZE) with 512%nat; unfold q; cbn [length]; lia).
  assert (costb (nbk (length (fi_bytes f) + length c)) <= costb (nbk (length (fi_bytes f) + length q))) as Hcm by (apply costb_mono, nbk_mono; lia).
  destruct (iappend_spec s fs k f c Hinv Hk ltac:(lia) ltac:(lia)) as (s1 & ad1 & bl1 & E1 & Hinv1 & Hl1).
  pose proof (lookup_lt_Some _ _ _ Hk) as Hlt.
  destruct (IH s1 _ k (mkFi (fi_type f) (fi_bytes f ++ c) ad1 bl1) r Hinv1) as (s2 & ad2 & bl2 & E2 & Hinv2 & Hl2); cbn [fi_bytes fi_bl fi_type].
  - by apply list_lookup_insert_eq.
  - rewrite length_app. lia.
  - lia.
  - rewrite (mi_total _ _ Hinv1), (total_insert _ _ f), Hl1, length_app by done. cbn [fi_bl]. rewrite Hl1.
    replace (length (fi_bytes f) + length c + length r)%nat with (length (fi_bytes f) + length q)%nat by lia. pose proof (mi_total _ _ Hinv). lia.
  - exists s2, ad2, bl2. split; [by rewrite (bind_ok _ _ _ _ _ E1)|]. cbn [fi_bytes fi_type] in *.
    rewrite list_insert_insert_eq, <- app_assoc in Hinv2. unfold c, r in Hinv2. rewrite take_drop in Hinv2. split; [done|].
    rewrite Hl2, length_app. f_equal. lia.
Qed.
