(* ===== verification/MkfsMount.v ===== *)
(** Mounting the image [mkfs] builds: the kernel of [Fs.v] finds in it the layout
    its theorems ask for, the files with their bytes and the root directory. *)
From stdpp Require Import base strings numbers list gmap sets.
From S2P Require Import Prelude CString Bio Log Fs FsInode FsTxn FsAlloc FsFile FsContents FsCall FsDir Mkfs MkfsImage.
Local Open Scope Z_scope.

(** * All files *)

(** The entries of the root directory for the files, from inode [i] on. *)
Fixpoint entries (i : Z) (files : list (list Z * list Z)) : list (Z * list Z) :=
  match files with
  | [] => []
  | (arg, _) :: files => (i, image_name arg) :: entries (i + 1) files
  end.
Definition dir_bytes (es : list (Z * list Z)) : list Z := concat ((fun '(i, name) => mk_dirent i name) <$> es).

Lemma length_mk_dirent i name : length (mk_dirent i name) = 16%nat.
Proof. unfold mk_dirent, put_dirent. cbn [de_inum de_name app length]. by rewrite length_strncpy. Qed.

Lemma length_dir_bytes es : length (dir_bytes es) = (16 * length es)%nat.
Proof.
  induction es as [|[i name] es IH]; [done|]. unfold dir_bytes in *. cbn [fmap list_fmap concat]. rewrite length_app, length_mk_dirent, IH. cbn. lia.
Qed.

Lemma length_entries i files : length (entries i files) = length files.
Proof. revert i. induction files as [|[arg bytes] files IH]; intros i; cbn; [done|]. by rewrite IH. Qed.

(** Blocks the files take. *)
Definition files_cost (files : list (list Z * list Z)) : Z :=
  foldr (fun f z => costb (nbk (length (snd f))) + z) 0 files.

Lemma files_cost_nonneg files : 0 <= files_cost files.
Proof.
  induction files as [|f files IH]; [done|]. change (0 <= costb (nbk (length (snd f))) + files_cost files).
  pose proof (costb_mono 0 (nbk (length (snd f))) ltac:(lia)). change (costb 0) with 0 in *. lia.
Qed.

(** What [mkfs] can take: plain names, files the inodes can hold. *)
Definition arg_ok (f : list Z * list Z) : Prop :=
  47 ∉ fst f /\ is_cstr (fst f) /\ Z.of_nat (length (snd f)) <= 71680.

Definition new_file (f : list Z * list Z) (g : finfo) : Prop := fi_type g = 2 /\ fi_bytes g = snd f.

Lemma add_files_spec files : forall s root gs, mk_inv s (root :: gs) -> Forall arg_ok files ->
  (S (length gs) + length files <= 207)%nat ->
  Z.of_nat (length (fi_bytes root) + 16 * length files) <= 71680 ->
  freeblock s + costb (nbk (length (fi_bytes root) + 16 * length files)) - costb (length (fi_bl root)) + files_cost files <= 1000 ->
  exists s' root' hs, add_files 1 files s = Ok (tt, s') /\ mk_inv s' (root' :: gs ++ hs)
  /\ fi_type root' = fi_type root
  /\ fi_bytes root' = fi_bytes root ++ dir_bytes (entries (2 + Z.of_nat (length gs)) files)
  /\ Forall2 new_file files hs.
Proof.
  induction files as [|[arg bytes] files IH]; intros s root gs Hinv Hok Hcnt Hmax Hroom; cbn [add_files].
  { exists s, root, []. change (dir_bytes (entries (2 + Z.of_nat (length gs)) [])) with (@nil Z). rewrite !app_nil_r.
    do 4 (split; [done|]). constructor. }
  apply Forall_cons in Hok as [(Hslash & _ & Hsz) Hok]. cbn [fst snd] in *. rewrite bool_decide_eq_false_2 by done.
  change (files_cost ((arg, bytes) :: files)) with (costb (nbk (length bytes)) + files_cost files) in Hroom.
  cbn [length] in Hcnt, Hmax, Hroom. pose proof (files_cost_nonneg files) as Hfc.
  set (n := length gs) in *. set (rl := length (fi_bytes root)) in *.
  assert (costb (nbk (rl + 16)) <= costb (nbk (rl + 16 * S (length files)))) as Hcm by (apply costb_mono, nbk_mono; lia).
  pose proof (costb_mono 0 (nbk (length bytes)) ltac:(lia)) as Hc0. change (costb 0) with 0 in Hc0.
  destruct (mk_ialloc_spec s (root :: gs) 2 Hinv ltac:(cbn; lia) ltac:(done)) as (s1 & E1 & Hinv1 & Hfb1).
  cbn [length] in E1. fold n in E1. replace (1 + Z.of_nat (S n)) with (2 + Z.of_nat n) in E1 by lia.
  set (nf := mkFi 2 [] (replicate 13 0) []) in *.
  destruct (iappend_spec s1 _ 0 root (mk_dirent (2 + Z.of_nat n) (image_name arg)) Hinv1) as (s2 & ad2 & bl2 & E2 & Hinv2 & Hl2);
    [done|rewrite length_mk_dirent; fold rl; lia|rewrite length_mk_dirent, Hfb1; fold rl; lia|].
  change (1 + Z.of_nat 0) with 1 in E2. cbn [insert list_insert app] in Hinv2. set (root2 := mkFi (fi_type root) _ ad2 bl2) in Hinv2.
  rewrite length_mk_dirent in Hl2. fold rl in Hl2.
  destruct (copy_file_spec (length bytes) s2 (root2 :: gs ++ [nf]) (S n) nf bytes Hinv2) as (s3 & ad3 & bl3 & E3 & Hinv3 & Hl3).
  { change ((gs ++ [nf]) !! n = Some nf). rewrite lookup_app_r by (unfold n; lia). unfold n. by rewrite Nat.sub_diag. }
  { cbn. lia. }
  { lia. }
  { cbn [fi_bytes fi_bl nf length plus]. change (costb 0) with 0. pose proof (mi_total _ _ Hinv2) as T2. pose proof (mi_total _ _ Hinv) as T.
    change (total (root2 :: gs ++ [nf])) with (costb (length bl2) + total (gs ++ [nf])) in T2. rewrite total_app in T2. change (total [nf]) with 0 in T2.
    change (total (root :: gs)) with (costb (length (fi_bl root)) + total gs) in T. rewrite Hl2 in T2. lia. }
  change (<[S n := ?x]> (root2 :: gs ++ [nf])) with (root2 :: <[n := x]> (gs ++ [nf])) in Hinv3. rewrite insert_app_r_alt in Hinv3 by (unfold n; lia). replace (n - length gs)%nat with 0%nat in Hinv3 by (unfold n; lia).
  cbn [insert list_insert fi_type fi_bytes nf app] in Hinv3. set (g := mkFi 2 bytes ad3 bl3) in Hinv3. cbn [nf fi_bytes length plus] in Hl3.
  replace (2 + Z.of_nat n) with (1 + Z.of_nat (S n)) in * by lia.
  destruct (IH s3 root2 (gs ++ [g]) Hinv3 Hok) as (s' & root' & hs & E4 & Hinv' & Et & Eb & Hnew); clear IH.
  { rewrite length_app. cbn [length]. fold n. lia. }
  { cbn [fi_bytes root2]. rewrite length_app, length_mk_dirent. fold rl. lia. }
  { cbn [fi_bytes fi_bl root2]. rewrite length_app, length_mk_dirent. fold rl. replace (rl + 16 + 16 * length files)%nat with (rl + 16 * S (length files))%nat by lia.
    pose proof (mi_total _ _ Hinv3) as T3. pose proof (mi_total _ _ Hinv) as T.
    change (total (root2 :: gs ++ [g])) with (costb (length bl2) + total (gs ++ [g])) in T3. rewrite total_app in T3. change (total [g]) with (costb (length bl3) + 0) in T3.
    change (total (root :: gs)) with (costb (length (fi_bl root)) + total gs) in T. rewrite Hl3 in T3. lia. }
  exists s', root', (g :: hs). split; [|split; [|split; [done|split]]].
  - rewrite (bind_ok _ _ _ _ _ E1), (bind_ok _ _ _ _ _ E2), (bind_ok _ _ _ _ _ E3). exact E4.
  - by rewrite <- app_assoc in Hinv'.
  - rewrite Eb. cbn [fi_bytes root2 entries]. rewrite <- app_assoc, length_app. cbn [length]. fold n.
    replace (2 + Z.of_nat (n + 1)) with (1 + Z.of_nat (S n) + 1) by lia. replace (2 + Z.of_nat n) with (1 + Z.of_nat (S n)) by lia. done.
  - constructor; [done|exact Hnew].
Qed.

(** * The empty image *)

Lemma wzero_spec n : forall k fi fb,
  wzero (seqZ (Z.of_nat k) (Z.of_nat n)) (mkMk (replicate k zeroes) fi fb) = Ok (tt, mkMk (replicate (k + n) zeroes) fi fb).
Proof.
  induction n as [|n IH]; intros k fi fb; [by rewrite Nat.add_0_r|].
  rewrite seqZ_cons by lia. replace (Z.pred (Z.of_nat (S n))) with (Z.of_nat n) by lia. replace (Z.succ (Z.of_nat k)) with (Z.of_nat (S k)) by lia.
  cbn [wzero]. assert (wsect (Z.of_nat k) zeroes (mkMk (replicate k zeroes) fi fb) = Ok (tt, mkMk (replicate (S k) zeroes) fi fb)) as E.
  { unfold wsect, modify. cbn [image freeinode freeblock]. rewrite Nat2Z.id, length_replicate.
    replace (S k - k)%nat with 1%nat by lia. cbn [replicate]. rewrite insert_app_r_alt by (rewrite length_replicate; lia).
    rewrite length_replicate, Nat.sub_diag. cbn [insert list_insert]. change [zeroes] with (replicate 1 zeroes).
    rewrite <- replicate_add. by replace (k + 1)%nat with (S k) by lia. }
  rewrite (bind_ok _ _ _ _ _ E), IH. by replace (S k + n)%nat with (k + S n)%nat by lia.
Qed.

Definition blank : mkstate := mkMk (wr (replicate 1000 zeroes) 1 (put_super zeroes mk_sb)) 1 59.

Lemma blank_zero b : 0 <= b < 1000 -> b <> 1 -> zblk (image blank) b = zeroes.
Proof.
  intros Hb Hne. assert (img_ok (replicate 1000 zeroes)) as H by (split; [done|by apply Forall_replicate]).
  cbn [image blank]. rewrite zblk_wr by (done || lia). rewrite (proj2 (Z.eqb_neq b 1)) by done. unfold zblk. by rewrite lookup_replicate_2 by lia.
Qed.

Lemma blank_inv : mk_inv blank [].
Proof.
  assert (img_ok (replicate 1000 zeroes)) as H by (split; [done|by apply Forall_replicate]).
  split; cbn [freeblock freeinode length blank]; try done; try lia.
  - by apply img_ok_wr.
  - intros b Hb. apply blank_zero; lia.
  - intros i Hi. unfold dino. rewrite blank_zero; [|rewrite IBLOCK_val; Z.div_mod_to_equations; lia|rewrite IBLOCK_val; Z.div_mod_to_equations; lia].
    cbn [itype get_dinode]. unfold get_short. assert (forall j, nth j zeroes 0 = 0) as Hz.
    { intros j. rewrite nth_lookup. destruct (zeroes !! j) as [x|] eqn:E; [|done]. by apply lookup_replicate in E as [-> _]. }
    by rewrite !Hz.
  - intros b Hb Hne. apply blank_zero; lia.
Qed.

(** * The end of [mkfs] *)

Lemma set_bits_spec n : forall a d b, (length d = 512)%nat -> 0 <= a -> a + Z.of_nat n <= 4096 -> 0 <= b < 4096 ->
  length (set_bits d (seqZ a (Z.of_nat n))) = 512%nat
  /\ bit_set (set_bits d (seqZ a (Z.of_nat n))) b = bit_set d b || ((a <=? b) && (b <? a + Z.of_nat n)).
Proof.
  induction n as [|n IH]; intros a d b Hd Ha Hn Hb.
  - change (seqZ a (Z.of_nat 0)) with (@nil Z). cbn [set_bits]. split; [done|].
    replace ((a <=? b) && (b <? a + Z.of_nat 0)) with false by lia. by rewrite orb_false_r.
  - rewrite seqZ_cons by lia. replace (Z.pred (Z.of_nat (S n))) with (Z.of_nat n) by lia. cbn [set_bits].
    destruct (IH (Z.succ a) (set_bit d a) b) as [H1 H2]; [by rewrite length_set_bit|lia|lia|done|]. split; [done|]. rewrite H2.
    rewrite bit_set_set_bit by (lia || (rewrite Hd; Z.div_mod_to_equations; lia)).
    destruct (bit_set d b), (b =? a) eqn:E; lia.
Qed.

Lemma bit_set_zeroes b : bit_set zeroes b = false.
Proof.
  unfold bit_set. assert (nth (Z.to_nat (b / 8)) zeroes 0 = 0) as ->; [|done].
  rewrite nth_lookup. destruct (zeroes !! Z.to_nat (b / 8)) as [x|] eqn:E; [|done]. by apply lookup_replicate in E as [-> _].
Qed.

(** The image as the kernel sees it after [iinit] on an empty cache. *)
Definition mount_state (img : list block) : fstate :=
  mkFs (mkLstate (binit img) (mkLog 2 30 0 false 1 0 (replicate 30 0))) mk_sb [] 0.

Lemma mount_view img b : img_ok img -> 0 <= b < 1000 -> fview (mount_state img) b = Some (zblk img b).
Proof. intros Hd Hb. unfold fview, fcache. cbn [lst mount_state cache]. rewrite view_binit. by apply zblk_some. Qed.

(** What the finished image holds: the files as before, the root directory with
    its new size, the bitmap. *)
Record final (img : list block) (fb : Z) (root : finfo) (gs : list finfo) (z : Z) : Prop := {
  fl_img : img_ok img;
  fl_fb : 59 <= fb <= 1000;
  fl_root_dino : dino img 1 = mkInode 1 1 0 0 0 1 0 0 1 z (fi_ad root);
  fl_root : file_at img fb (fi_ad root) (fi_bl root) (fi_bytes root);
  fl_files : forall k g, gs !! k = Some g -> stored_file img fb (2 + Z.of_nat k) g;
  fl_disj : forall k l f g b, k <> l -> (root :: gs) !! k = Some f -> (root :: gs) !! l = Some g -> b ∈ fi_own f -> b ∉ fi_own g;
  fl_free : forall i, 1 + Z.of_nat (length gs) < i < 208 -> itype (dino img i) = 0;
  fl_super : zblk img 1 = put_super zeroes mk_sb;
  fl_log : forall b, 2 <= b < 32 -> zblk img b = zeroes;
  fl_bitmap : forall b, 0 <= b < 1000 -> bit_set (zblk img 58) b = (b <? fb) }.

(** The rounding of the root directory's size. *)
Definition root_size (n : nat) : Z := (Z.of_nat n / 512 + 1) * 512.

Lemma mkfs_final s root gs : mk_inv s (root :: gs) -> fi_type root = 1 -> Z.of_nat (length (fi_bytes root)) < 71168 ->
  exists s', (din ← rinode 1; let off := (isize din / BSIZE + 1) * BSIZE in winode 1 (with_size din (u32 off)) ;; s ← get; mk_balloc (s32 (freeblock s))) s = Ok (tt, s')
  /\ final (image s') (freeblock s) root gs (root_size (length (fi_bytes root))).
Proof.
  intros Hinv Hty Hsz. pose proof Hinv as [I1 I2 I3 I4 I5 I6 I7 I8 I9 I10 I11]. pose proof (total_nonneg (root :: gs)) as Htn.
  pose proof (I7 0%nat root eq_refl) as SF. change (1 + Z.of_nat 0) with 1 in SF. pose proof SF as [SD SFi SL ST]. pose proof (stored_ok _ _ _ _ SF I4) as Hok0.
  set (z := root_size (length (fi_bytes root))).
  assert (0 <= z < 2 ^ 32) as Hz by (unfold z, root_size; Z.div_mod_to_equations; lia).
  assert (inode_ok (with_size (dino (image s) 1) z)) as Hok by (destruct Hok0; split; try done).
  destruct (winode_spec s 1 _ I1 ltac:(lia) Hok) as (d1 & E2 & D1 & D2 & D3 & D4).
  set (s1 := with_image s d1). set (fb := freeblock s) in *.
  set (bm := set_bits zeroes (seqZ 0 fb)).
  assert (length bm = 512%nat /\ forall b, 0 <= b < 1000 -> bit_set bm b = (b <? fb)) as [Hbl Hbm].
  { unfold bm. replace fb with (Z.of_nat (Z.to_nat fb)) by lia. split.
    - apply (set_bits_spec (Z.to_nat fb) 0 zeroes 0); (done || lia).
    - intros b Hb. destruct (set_bits_spec (Z.to_nat fb) 0 zeroes b) as [_ ->]; [done|lia|lia|lia|]. rewrite bit_set_zeroes. lia. }
  exists (with_image s1 (wr d1 58 bm)). split.
  - assert (rinode 1 s = Ok (dino (image s) 1, s)) as Er.
    { unfold rinode. by rewrite (bind_ok _ _ _ _ _ (rsect_ok s (IBLOCK 1 mk_sb) I1 ltac:(done))). }
    rewrite (bind_ok _ _ _ _ _ Er). cbv zeta.
    replace (u32 ((isize (dino (image s) 1) / BSIZE + 1) * BSIZE)) with z.
    2:{ rewrite SD. cbn [isize]. unfold u32. rewrite Z.mod_small; [done|]. change BSIZE with 512. unfold z, root_size in Hz. exact Hz. }
    rewrite (bind_ok _ _ _ _ _ E2). fold s1. rewrite (bind_ok get _ s1 s1 s1 eq_refl). unfold mk_balloc. cbn [freeblock s1 with_image]. fold fb.
    replace (s32 fb) with fb by (unfold s32; Z.div_mod_to_equations; lia). replace (fb <? BSIZE * 8) with true by (change BSIZE with 512; lia). cbn [negb].
    fold bm. apply (wsect_ok s1 58 bm D1). lia.
  - assert (forall b, 0 <= b -> b <> 58 -> zblk (wr d1 58 bm) b = zblk d1 b) as Hw.
    { intros b Hb Hne. rewrite zblk_wr by (done || lia). by rewrite (proj2 (Z.eqb_neq b 58)). }
    assert (forall i, 0 <= i < 208 -> dino (wr d1 58 bm) i = dino d1 i) as Hdi.
    { intros i Hi. apply dino_ext, Hw; rewrite IBLOCK_val; Z.div_mod_to_equations; lia. }
    assert (forall b, 59 <= b -> zblk (wr d1 58 bm) b = zblk (image s) b) as Hdata by (intros b Hb; rewrite Hw by lia; apply D4; lia).
    assert (forall ad bl bytes, file_at (image s) fb ad bl bytes -> file_at (wr d1 58 bm) fb ad bl bytes) as Hfa.
    { intros ad bl bytes H. apply (file_at_ext (image s) _ fb); [done|lia|]. intros b Hb.
      pose proof (proj1 (Forall_forall _ _) (fa_range _ _ _ _ _ H) b Hb) as Hr. cbn in Hr. apply Hdata. lia. }
    cbn [image with_image]. split.
    + by apply img_ok_wr.
    + lia.
    + rewrite Hdi, D2, SD by lia. unfold reloaded, with_size. cbn. by rewrite Hty.
    + by apply Hfa.
    + intros k g Hg. destruct (I7 (S k) g Hg) as [G1 G2 G3 G4]. apply lookup_lt_Some in Hg as Hlt. cbn [length] in I6. replace (1 + Z.of_nat (S k)) with (2 + Z.of_nat k) in * by lia.
      split; [|by apply Hfa|done..]. rewrite Hdi, D3 by lia. done.
    + exact I8.
    + intros i Hi. rewrite Hdi, D3 by lia. apply I9. cbn [length]. lia.
    + rewrite Hw, D4 by lia. done.
    + intros b Hb. rewrite Hw, D4 by lia. apply I11; lia.
    + intros b Hb. rewrite zblk_wr, Z.eqb_refl by (done || lia). by apply Hbm.
Qed.

(** * The kernel's view *)

Section View.
Context (img : list block) (fb : Z) (root : finfo) (gs : list finfo) (z : Z).
Hypothesis Hfl : final img fb root gs z.
Abbreviation s := (mount_state img).

Lemma mount_alloc b : 0 <= b < 1000 -> allocated s b = (b <? fb).
Proof.
  intros Hb. unfold allocated. change (sb s) with mk_sb.
  assert (BBLOCK b mk_sb = 58 /\ b mod BPB = b) as [-> ->].
  { unfold BBLOCK. change BPB with 4096. change (sb_bmapstart mk_sb) with 58. Z.div_mod_to_equations. lia. }
  rewrite mount_view by (apply Hfl || lia). by apply (fl_bitmap _ _ _ _ _ Hfl).
Qed.

Lemma mount_layout : layout s 59.
Proof.
  pose proof (fl_img _ _ _ _ _ Hfl) as [Hl Hf]. pose proof (fl_fb _ _ _ _ _ Hfl).
  assert (nblk s = 1000) as Hn by (unfold nblk, fcache; cbn; lia).
  split.
  - rewrite Hn. change (sb_size (sb s)) with 1000. lia.
  - cbn. lia.
  - intros b Hb. change (sb_size (sb s)) with 1000 in Hb.
    assert (BBLOCK b (sb s) = 58) as ->.
    { unfold BBLOCK. change BPB with 4096. change (sb_bmapstart (sb s)) with 58. Z.div_mod_to_equations. lia. }
    split; [lia|]. unfold fhome, home. rewrite Hn. cbn. lia.
  - intros n d Hn0 Hd. unfold fview, fcache in Hd. cbn [lst mount_state cache] in Hd. rewrite view_binit in Hd. by apply (Forall_lookup_1 _ _ _ _ Hf Hd).
  - intros b Hb. rewrite mount_alloc by lia. lia.
Qed.

Lemma mount_quiet : quiet_fs s.
Proof.
  pose proof (fl_img _ _ _ _ _ Hfl) as [Hl Hf].
  assert (header 2 img = zeroes) as Hh by (apply (fl_log _ _ _ _ _ Hfl 2); lia).
  split; [|done]. destruct (binit_inv img) as [Hi Hd]. split; cbn; try done.
  - by repeat constructor.
  - apply NoDup_nil_2.
  - intros m. split; [intros H; by apply ndirty_zero in H|by intros ?%elem_of_nil].
  - split; rewrite ?Hh; try done; [lia|apply NoDup_nil_2].
  - by rewrite Hh.
Qed.

Lemma mount_blk ad bl bytes ip k : file_at img fb ad bl bytes -> addrs ip = ad -> (k < 140)%nat ->
  blk s ip (Z.of_nat k) = nth k bl 0.
Proof.
  intros H Ha Hk. unfold blk. change NDIRECT with 12. destruct (Z.ltb_spec (Z.of_nat k) 12) as [Hd|Hd].
  - rewrite Nat2Z.id, Ha. eapply file_direct; [done|lia].
  - unfold ind_entry, ind. rewrite Ha. fold (ind_of ad). pose proof (fa_ind _ _ _ _ _ H) as Hi. pose proof (fl_fb _ _ _ _ _ Hfl).
    destruct (decide (length bl <= 12)%nat) as [Hl|Hl].
    + rewrite Hi. cbn [Z.eqb]. rewrite nth_overflow by lia. done.
    + assert (59 <= ind_of ad < fb) as Hr.
      { apply (proj1 (Forall_forall _ _) (fa_range _ _ _ _ _ H)). unfold own. rewrite decide_False by done. apply elem_of_app. right. by left. }
      rewrite (proj2 (Z.eqb_neq _ 0)) by lia. rewrite mount_view by (apply Hfl || lia).
      replace (Z.to_nat (Z.of_nat k - 12)) with (k - 12)%nat by lia. rewrite Hi by lia. f_equal. lia.
Qed.

Lemma bl_range ad bl bytes k : file_at img fb ad bl bytes -> (k < length bl)%nat -> 59 <= nth k bl 0 < fb.
Proof.
  intros H Hk. destruct (lookup_lt_is_Some_2 bl k Hk) as [b Hb]. rewrite nth_lookup, Hb. cbn.
  apply (proj1 (Forall_forall _ _) (fa_range _ _ _ _ _ H)), own_in. by eapply list_elem_of_lookup_2.
Qed.

Lemma mount_file ad bl bytes ip : file_at img fb ad bl bytes -> addrs ip = ad -> idev ip = 1 ->
  0 <= isize ip <= 512 * Z.of_nat (length bl) ->
  file_wf s 59 ip /\ file_bytes s ip = take (Z.to_nat (isize ip)) (data img bl).
Proof.
  intros H Ha Hdev Hz. pose proof (fl_fb _ _ _ _ _ Hfl) as Hfb. pose proof (fl_img _ _ _ _ _ Hfl) as Himg. pose proof (fa_max _ _ _ _ _ H) as Hmax.
  assert (forall k, 0 <= k < 140 -> blk s ip k = nth (Z.to_nat k) bl 0) as Hblk.
  { intros k Hk. replace k with (Z.of_nat (Z.to_nat k)) at 1 by lia. eapply mount_blk; [done|done|lia]. }
  assert (forall k, blk s ip k <> 0 -> 0 <= k < 140 -> (Z.to_nat k < length bl)%nat) as Hin.
  { intros k H0 Hk. rewrite Hblk in H0 by done. destruct (decide (Z.to_nat k < length bl)%nat); [done|]. rewrite nth_overflow in H0; [done|lia]. }
  assert (forall b, 59 <= b < fb -> data_block s 59 b) as Hdb.
  { intros b Hb. split; [change (sb_size (sb s)) with 1000; lia|]. rewrite mount_alloc by lia. lia. }
  assert (ind ip = ind_of ad) as Ei by (unfold ind, ind_of; by rewrite Ha).
  split.
  - split; try done.
    + rewrite Ha. by eapply length_addrs.
    + change (MAXFILE * BSIZE) with 71680. lia.
    + change MAXFILE with 140. intros k Hk H0. pose proof (Hin k H0 Hk) as Hlt. rewrite Hblk by done. split; [apply Hdb; by eapply bl_range|].
      rewrite Ei. intros E. pose proof (bl_range _ _ _ _ H Hlt) as Hr. pose proof (fa_ind _ _ _ _ _ H) as Hi.
      destruct (decide (length bl <= 12)%nat) as [Hl|Hl]; [lia|]. pose proof (fa_nodup _ _ _ _ _ H) as Hnd. unfold own in Hnd. rewrite decide_False in Hnd by done.
      apply NoDup_app in Hnd as (_ & Hnd & _). apply (Hnd (nth (Z.to_nat k) bl 0)); [|rewrite E; by left].
      destruct (lookup_lt_is_Some_2 bl _ Hlt) as [b Hb]. rewrite nth_lookup, Hb. by eapply list_elem_of_lookup_2.
    + rewrite Ei. intros H0. apply Hdb. pose proof (fa_ind _ _ _ _ _ H) as Hi. destruct (decide (length bl <= 12)%nat) as [Hl|Hl]; [done|].
      apply (proj1 (Forall_forall _ _) (fa_range _ _ _ _ _ H)). unfold own. rewrite decide_False by done. apply elem_of_app. right. by left.
    + change MAXFILE with 140. intros k k' Hk Hk' E H0. pose proof (Hin k H0 Hk) as Hlt. rewrite E in H0. pose proof (Hin k' H0 Hk') as Hlt'.
      rewrite !Hblk in E by done. pose proof (fa_nodup _ _ _ _ _ H) as Hnd. unfold own in Hnd. apply NoDup_app in Hnd as (Hnd & _ & _).
      destruct (lookup_lt_is_Some_2 bl _ Hlt) as [b Hb]. destruct (lookup_lt_is_Some_2 bl _ Hlt') as [b' Hb'].
      rewrite !nth_lookup, Hb, Hb' in E. cbn in E. subst b'. pose proof (NoDup_lookup _ _ _ _ Hnd Hb Hb'). lia.
    + intros k Hk Hlt. change BSIZE with 512 in Hlt. assert (Z.to_nat k < length bl)%nat as Hlt' by lia. rewrite Hblk by lia. pose proof (bl_range _ _ _ _ H Hlt'). lia.
  - assert (length (data img bl) = (512 * length bl)%nat) as Hdl.
    { apply length_data; [done|]. apply Forall_forall. intros b Hb. pose proof (proj1 (Forall_forall _ _) (fa_range _ _ _ _ _ H) b (own_in _ _ _ Hb)) as Hr. cbn in Hr. lia. }
    apply list_eq. intros j. unfold file_bytes. rewrite list_lookup_fmap.
    destruct (decide (j < Z.to_nat (isize ip))%nat) as [Hj|Hj].
    2:{ rewrite lookup_seqZ_ge by lia. rewrite lookup_ge_None_2; [done|]. rewrite length_take. lia. }
    rewrite lookup_seqZ_lt by lia. cbn [fmap option_fmap option_map]. rewrite lookup_take_lt by done. unfold byte.
    change BSIZE with 512. set (q := (0 + Z.of_nat j) / 512). set (r := (0 + Z.of_nat j) mod 512).
    assert (0 <= q < Z.of_nat (length bl) /\ 0 <= r < 512 /\ Z.of_nat j = 512 * q + r) as (Hq & Hr & Ej) by (unfold q, r; Z.div_mod_to_equations; lia).
    clearbody q r. rewrite Hblk by lia. assert (Z.to_nat q < length bl)%nat as Hq' by lia.
    pose proof (bl_range _ _ _ _ H Hq') as Hb. rewrite mount_view by (done || lia).
    destruct (lookup_lt_is_Some_2 bl _ Hq') as [b Eb]. rewrite (nth_lookup bl), Eb. cbn [default from_option id].
    rewrite <- (take_drop_middle bl (Z.to_nat q) b Eb) at 1. rewrite data_app.
    assert (length (data img (take (Z.to_nat q) bl)) = (512 * Z.to_nat q)%nat) as Htl.
    { rewrite length_data; [rewrite length_take; lia|done|]. apply Forall_take, Forall_forall. intros c Hc.
      pose proof (proj1 (Forall_forall _ _) (fa_range _ _ _ _ _ H) c (own_in _ _ _ Hc)) as Hr'. cbn in Hr'. lia. }
    rewrite lookup_app_r by lia. rewrite Htl. unfold data. cbn [fmap list_fmap concat].
    rewrite nth_lookup, Eb in Hb. cbn in Hb.
    assert (length (zblk img b) = 512%nat) as Hbl by (apply zblk_len; [done|lia]).
    rewrite lookup_app_l by lia. replace (j - 512 * Z.to_nat q)%nat with (Z.to_nat r) by lia.
    rewrite nth_lookup. by destruct (lookup_lt_is_Some_2 (zblk img b) (Z.to_nat r)) as [v ->]; [lia|].
Qed.

(** Files without a common block. *)
Lemma mount_apart k l f g ip ip2 : k <> l -> (root :: gs) !! k = Some f -> (root :: gs) !! l = Some g ->
  file_at img fb (fi_ad f) (fi_bl f) (fi_bytes f) -> file_at img fb (fi_ad g) (fi_bl g) (fi_bytes g) ->
  addrs ip = fi_ad f -> addrs ip2 = fi_ad g -> apart s ip ip2.
Proof.
  intros Hkl Hk Hl Hf Hg Ef Eg.
  assert (forall h ip0, file_at img fb (fi_ad h) (fi_bl h) (fi_bytes h) -> addrs ip0 = fi_ad h -> ind ip0 <> 0 -> ind ip0 ∈ fi_own h) as Hind.
  { intros h ip0 H E H0. unfold ind in *. rewrite E in *. fold (ind_of (fi_ad h)) in *. pose proof (fa_ind _ _ _ _ _ H) as Hi.
    unfold fi_own, own. destruct (decide (length (fi_bl h) <= 12)%nat); [done|]. apply elem_of_app. right. by left. }
  assert (forall h ip0 n, file_at img fb (fi_ad h) (fi_bl h) (fi_bytes h) -> addrs ip0 = fi_ad h -> 0 <= n < 140 -> blk s ip0 n <> 0 -> blk s ip0 n ∈ fi_own h) as Hblk.
  { intros h ip0 n H E Hn. replace n with (Z.of_nat (Z.to_nat n)) by lia. rewrite (mount_blk _ _ _ ip0 _ H E) by lia. intros H0.
    apply own_in. destruct (fi_bl h !! Z.to_nat n) as [b|] eqn:Eb; rewrite nth_lookup, Eb in *; [|done]. by eapply list_elem_of_lookup_2. }
  assert (forall b, b ∈ fi_own f -> b ∈ fi_own g -> False) as Hdis by (intros b H1 H2; by apply (fl_disj _ _ _ _ _ Hfl k l f g b)).
  split; [|change MAXFILE with 140; intros n Hn; split; [|split]].
  - intros H0 E. apply (Hdis (ind ip2)); [rewrite E; apply (Hind f); (done || congruence)|by apply (Hind g)].
  - intros H0 E. apply (Hdis (blk s ip2 n)); [rewrite E; apply (Hind f); (done || congruence)|by apply (Hblk g)].
  - intros H0 E. apply (Hdis (blk s ip n)); [by apply (Hblk f)|rewrite E; apply (Hind g); (done || congruence)].
  - intros n' Hn' H0 E. apply (Hdis (blk s ip2 n)); [rewrite <- E; apply (Hblk f); (done || congruence)|by apply (Hblk g)].
Qed.
End View.

(** * The root directory *)

Definition entry_of (e : Z * list Z) : dirent := mkDirent (fst e) (strncpy (snd e) 14).

Lemma dirents_entries es k : Forall (fun e => 0 <= fst e < 2 ^ 16) es ->
  dirents (length es + k) (dir_bytes es ++ replicate (16 * k) 0) = (entry_of <$> es) ++ replicate k (mkDirent 0 (replicate 14 0)).
Proof.
  induction 1 as [|[i name] es Hi _ IH]; cbn [length plus fst] in *.
  - cbn [dir_bytes fmap list_fmap concat app]. induction k as [|k IHk]; [done|]. cbn [dirents replicate].
    replace (16 * S k)%nat with (16 + 16 * k)%nat by lia. rewrite replicate_add, take_app_length', drop_app_length' by done. rewrite IHk. done.
  - cbn [dirents]. change (dir_bytes ((i, name) :: es)) with (mk_dirent i name ++ dir_bytes es). rewrite <- app_assoc.
    rewrite take_app_length', drop_app_length' by (by rewrite length_mk_dirent). rewrite IH. cbn [fmap list_fmap app]. f_equal.
    unfold mk_dirent. change (Z.to_nat DIRSIZ) with 14%nat. replace (u16 i) with i by (unfold u16; rewrite Z.mod_small; lia).
    apply get_put_dirent; [done|by rewrite length_strncpy].
Qed.

Lemma dir_map_lookup es k i name : Forall (fun e => fst e <> 0 /\ is_cstr (snd e)) es -> NoDup (key ∘ snd <$> es) -> (i, name) ∈ es ->
  dir_map ((entry_of <$> es) ++ replicate k (mkDirent 0 (replicate 14 0))) !! key name = Some i.
Proof.
  intros He Hnd Hin. induction He as [|[j nm] es [Hj Hc] _ IH]; [by apply elem_of_nil in Hin|].
  cbn [fmap list_fmap app dir_map foldr entry_of de_inum de_name fst snd] in *. fold (dir_map ((entry_of <$> es) ++ replicate k (mkDirent 0 (replicate 14 0)))).
  rewrite (proj2 (Z.eqb_neq j 0)) by done. rewrite name_chars_strncpy by done. fold (key nm).
  apply NoDup_cons in Hnd as [Hn Hnd]. apply elem_of_cons in Hin as [[= -> ->]|Hin]; [apply lookup_insert_eq|].
  rewrite lookup_insert_ne; [by apply IH|]. intros E. apply Hn, list_elem_of_fmap. exists (i, name). split; [exact E|exact Hin].
Qed.

Lemma entries_props i files : Forall arg_ok files -> 1 < i -> i + Z.of_nat (length files) <= 2 ^ 15 ->
  Forall (fun e => 1 < fst e < 2 ^ 15 /\ is_cstr (snd e)) (entries i files).
Proof.
  intros H. revert i. induction H as [|[arg bytes] files (_ & Hc & _) _ IH]; intros i Hi Hn; cbn [entries length] in *; constructor; [|apply IH; lia].
  cbn. split; [lia|]. unfold image_name. destruct arg as [|c arg]; [done|]. apply Forall_cons in Hc as [? Hc]. cbn in *.
  destruct (c =? 95); [done|]. by constructor.
Qed.

Lemma entries_in files : forall i k arg bytes, files !! k = Some (arg, bytes) -> (i + Z.of_nat k, image_name arg) ∈ entries i files.
Proof.
  induction files as [|[arg' bytes'] files IH]; intros i [|k] arg bytes H; simplify_eq/=.
  - rewrite Z.add_0_r. by left.
  - right. replace (i + Z.of_nat (S k)) with (i + 1 + Z.of_nat k) by lia. by eapply IH.
Qed.

(** * The claim *)

(** The names in the root directory. *)
Definition root_names (files : list (list Z * list Z)) : list (list Z) :=
  [46] :: [46; 46] :: (image_name ∘ fst <$> files).

Lemma entries_names i files : snd <$> entries i files = image_name ∘ fst <$> files.
Proof. revert i. induction files as [|[arg bytes] files IH]; intros i; cbn; [done|]. by rewrite IH. Qed.

(** [main] up to the last inode. *)
Lemma mkfs_files files : Forall arg_ok files -> (length files <= 198)%nat ->
  59 + costb (nbk (16 * (2 + length files))) + files_cost files <= 1000 ->
  exists s st root hs, mkfs files mk_start = Ok (tt, st)
  /\ fi_bytes root = dir_bytes ((1, [46]) :: (1, [46; 46]) :: entries 2 files)
  /\ length (fi_bl root) = nbk (16 * (2 + length files))
  /\ Forall2 new_file files hs /\ final (image st) (freeblock s) root hs (root_size (16 * (2 + length files))).
Proof.
  intros Hok Hn Hroom. pose proof (files_cost_nonneg files) as Hfc.
  destruct (mk_ialloc_spec blank [] 1 blank_inv ltac:(cbn; lia) ltac:(done)) as (s1 & E1 & Hinv1 & Hfb1). cbn [app] in Hinv1.
  change (1 + Z.of_nat (length (@nil finfo))) with 1 in E1. change (freeblock blank) with 59 in Hfb1. set (r0 := mkFi 1 [] (replicate 13 0) []) in *.
  destruct (iappend_spec s1 [r0] 0 r0 (mk_dirent 1 [46]) Hinv1 eq_refl) as (s2 & ad2 & bl2 & E2 & Hinv2 & Hl2);
    [rewrite length_mk_dirent; by vm_compute|rewrite length_mk_dirent, Hfb1; by vm_compute|].
  cbn [insert list_insert] in Hinv2. set (r1 := mkFi _ _ ad2 bl2) in Hinv2. change (1 + Z.of_nat 0) with 1 in E2.
  assert (freeblock s2 = 60) as Hfb2 by (rewrite (mi_total _ _ Hinv2); cbn; rewrite Hl2, length_mk_dirent; done).
  destruct (iappend_spec s2 [r1] 0 r1 (mk_dirent 1 [46; 46]) Hinv2 eq_refl) as (s3 & ad3 & bl3 & E3 & Hinv3 & Hl3).
  { cbn [fi_bytes r1 r0 app]. rewrite !length_mk_dirent. by vm_compute. }
  { cbn [fi_bytes fi_bl r1 r0 app]. rewrite Hfb2, Hl2, !length_mk_dirent. by vm_compute. }
  cbn [insert list_insert] in Hinv3. set (r2 := mkFi _ _ ad3 bl3) in Hinv3. change (1 + Z.of_nat 0) with 1 in E3.
  cbn [fi_bytes r1 r0 app] in Hl3. rewrite !length_mk_dirent in Hl3.
  assert (freeblock s3 = 60) as Hfb3 by (rewrite (mi_total _ _ Hinv3); cbn; by rewrite Hl3).
  assert (length (fi_bytes r2) = 32%nat) as Hr2 by (cbn [fi_bytes r2 r1 r0 app]; rewrite length_app, !length_mk_dirent; lia).
  destruct (add_files_spec files s3 r2 [] Hinv3 Hok) as (s4 & root & hs & E4 & Hinv4 & Et & Eb & Hnew).
  { cbn. lia. }
  { rewrite Hr2. lia. }
  { rewrite Hr2, Hfb3. cbn [fi_bl r2]. rewrite Hl3. change (costb (nbk (16 + 16))) with 1.
    replace (32 + 16 * length files)%nat with (16 * (2 + length files))%nat by lia. lia. }
  cbn [app] in Hinv4.
  assert (fi_bytes root = dir_bytes ((1, [46]) :: (1, [46; 46]) :: entries 2 files)) as Ebr.
  { rewrite Eb. cbn [fi_bytes r2 r1 r0 app length]. unfold dir_bytes. cbn [fmap list_fmap concat]. by rewrite <- app_assoc. }
  assert (length (fi_bytes root) = 16 * (2 + length files))%nat as Hlr by (rewrite Ebr, length_dir_bytes; cbn [length]; rewrite length_entries; lia).
  destruct (mkfs_final s4 root hs Hinv4) as (st & E5 & Hfin); [by rewrite Et|rewrite Hlr; lia|].
  exists s4, st, root, hs. split; [|split; [done|split; [|split; [done|by rewrite <- Hlr]]]].
  - unfold mkfs. pose proof (wzero_spec 1000 0 1 nmeta) as Ez. change (replicate 0 zeroes) with (@nil block) in Ez. change (Z.of_nat 0) with 0 in Ez.
    change (Z.of_nat 1000) with FSSIZE in Ez. change (mkMk [] 1 nmeta) with mk_start in Ez. rewrite (bind_ok _ _ _ _ _ Ez). change (0 + 1000)%nat with 1000%nat.
    assert (wsect 1 (put_super zeroes mk_sb) (mkMk (replicate 1000 zeroes) 1 nmeta) = Ok (tt, blank)) as Ew.
    { apply (wsect_ok (mkMk (replicate 1000 zeroes) 1 nmeta) 1); [|lia]. split; [done|by apply Forall_replicate]. }
    rewrite (bind_ok _ _ _ _ _ Ew), (bind_ok _ _ _ _ _ E1). cbn [Z.eqb Pos.eqb negb].
    rewrite (bind_ok _ _ _ _ _ E2), (bind_ok _ _ _ _ _ E3), (bind_ok _ _ _ _ _ E4). exact E5.
  - rewrite <- Hlr. apply (mi_file _ _ Hinv4 0%nat root eq_refl).
Qed.

(** C23: the image [mkfs] builds mounts.  For any files with plain, distinct names that
    fit the disk, and a number of directory entries that does not fill its last
    block exactly: [mkfs] returns; the kernel finds the super block it expects, an
    empty log and the layout its theorems ask for; the root directory is a well
    formed directory that maps each name to its inode; every inode so named is a
    well formed regular file with exactly the bytes given, no two files share a
    block, and the remaining inodes are free. *)
Theorem mkfs_image_mounts files :
  Forall arg_ok files -> (length files <= 198)%nat -> ((2 + length files) mod 32 <> 0)%nat ->
  NoDup (key <$> root_names files) ->
  59 + costb (nbk (16 * (2 + length files))) + files_cost files <= 1000 ->
  exists st, mkfs files mk_start = Ok (tt, st) /\
  let s := mount_state (image st) in let ino := dino (image st) in
  quiet_fs s /\ layout s 59 /\ get_super (zblk (image st) 1) = sb s
  /\ itype (ino 1) = T_DIR /\ file_wf s 59 (ino 1)
  /\ dir_of s (ino 1) !! [46] = Some 1 /\ dir_of s (ino 1) !! [46; 46] = Some 1
  /\ (forall k arg bytes, files !! k = Some (arg, bytes) ->
        dir_of s (ino 1) !! key (image_name arg) = Some (2 + Z.of_nat k)
        /\ itype (ino (2 + Z.of_nat k)) = 2 /\ nlink (ino (2 + Z.of_nat k)) = 1
        /\ file_wf s 59 (ino (2 + Z.of_nat k)) /\ file_bytes s (ino (2 + Z.of_nat k)) = bytes
        /\ apart s (ino 1) (ino (2 + Z.of_nat k))
        /\ forall l, (l < length files)%nat -> k <> l -> apart s (ino (2 + Z.of_nat k)) (ino (2 + Z.of_nat l)))
  /\ (forall i, 1 + Z.of_nat (length files) < i < 208 -> itype (ino i) = 0).
Proof.
  intros Hok Hn Hm Hnd Hroom. destruct (mkfs_files files Hok Hn Hroom) as (s4 & st & root & hs & E & Eb & El & Hnew & Hfin).
  exists st. split; [done|]. intros s ino. set (n := length files) in *. set (img := image st) in *. set (fb := freeblock s4) in *.
  pose proof (fl_root_dino _ _ _ _ _ Hfin) as Hrd. fold ino in Hrd. pose proof (fl_root _ _ _ _ _ Hfin) as Hrf.
  pose proof (Forall2_length _ _ _ Hnew) as Hlen. fold n in Hlen.
  assert (root_size (16 * (2 + n)) = 512 * Z.of_nat (length (fi_bl root))) as Hz.
  { rewrite El. unfold root_size, nbk. assert (Z.of_nat (2 + n) mod 32 <> 0) by (intros H0; apply Hm, Nat2Z.inj; rewrite Nat2Z.inj_mod; exact H0). Z.div_mod_to_equations. lia. }
  destruct (mount_file img fb root hs _ Hfin _ _ _ (ino 1) Hrf) as [Hrwf Hrb]; [by rewrite Hrd|by rewrite Hrd|rewrite Hrd; cbn [isize]; lia|]. fold s in Hrwf, Hrb.
  set (es := (1, [46]) :: (1, [46; 46]) :: entries 2 files) in *.
  assert (length es = 2 + n)%nat as Hes by (unfold es; cbn [length]; by rewrite length_entries).
  assert (dir_of s (ino 1) = dir_map ((entry_of <$> es) ++ replicate (32 * length (fi_bl root) - (2 + n)) (mkDirent 0 (replicate 14 0)))) as Hdir.
  { assert (2 + n <= 32 * length (fi_bl root))%nat as Hle by (rewrite El; unfold nbk; Z.div_mod_to_equations; lia).
    unfold dir_of. rewrite Hrb, Hrd. cbn [isize]. rewrite Hz, (fa_data _ _ _ _ _ Hrf), Eb, length_dir_bytes, Hes.
    rewrite take_ge by (rewrite length_app, length_dir_bytes, length_replicate, Hes; lia). f_equal.
    rewrite <- (dirents_entries es).
    - rewrite Hes. f_equal; [Z.div_mod_to_equations; lia|]. do 2 f_equal. lia.
    - unfold es. apply Forall_cons; split; [cbn; lia|]. apply Forall_cons; split; [cbn; lia|].
      eapply Forall_impl; [apply entries_props; [done|lia|fold n; lia]|]. intros e [He _]. lia. }
  assert (forall i name, (i, name) ∈ es -> dir_of s (ino 1) !! key name = Some i) as Hlook.
  { intros i name Hin. rewrite Hdir. apply dir_map_lookup; [| |done].
    - unfold es. apply Forall_cons; split; [split; [done|by repeat constructor]|]. apply Forall_cons; split; [split; [done|by repeat constructor]|].
      eapply Forall_impl; [apply entries_props; [done|lia|fold n; lia]|]. intros e [He ?]. split; [lia|done].
    - unfold es. cbn [fmap list_fmap]. unfold root_names in Hnd. cbn [fmap list_fmap] in Hnd. rewrite <- (entries_names 2), <- list_fmap_compose in Hnd. exact Hnd. }
  assert (forall k g, hs !! k = Some g -> stored_file img fb (2 + Z.of_nat k) g) as Hst by apply Hfin.
  split; [exact (mount_quiet _ _ _ _ _ Hfin)|]. split; [exact (mount_layout _ _ _ _ _ Hfin)|].
  split; [rewrite (fl_super _ _ _ _ _ Hfin); by vm_compute|]. split; [by rewrite Hrd|]. split; [exact Hrwf|].
  split; [apply (Hlook 1 [46]); by left|]. split; [apply (Hlook 1 [46; 46]); right; by left|].
  split; [|intros i Hi; apply (fl_free _ _ _ _ _ Hfin); lia].
  intros k arg bytes Hk. destruct (Forall2_lookup_l _ _ _ _ _ Hnew Hk) as (g & Hg & Hty & Hby). cbn [snd] in Hby.
  destruct (Hst k g Hg) as [G1 G2 G3 _]. fold ino in G1.
  split; [apply Hlook; right; right; by eapply entries_in|]. split; [by rewrite G1|]. split; [by rewrite G1|].
  destruct (mount_file img fb root hs _ Hfin _ _ _ (ino (2 + Z.of_nat k)) G2) as [W1 W2]; [by rewrite G1|by rewrite G1|rewrite G1; cbn [isize]; pose proof (fa_fits _ _ _ _ _ G2); lia|]. fold s in W1, W2.
  split; [exact W1|]. split.
  { rewrite W2, G1. cbn [isize]. rewrite Nat2Z.id, (fa_data _ _ _ _ _ G2), take_app_length. exact Hby. }
  split.
  { refine (mount_apart img fb root hs _ Hfin 0 (S k) root g _ _ _ eq_refl Hg Hrf G2 _ _); [lia|by rewrite Hrd|by rewrite G1]. }
  intros l Hl Hkl. destruct (lookup_lt_is_Some_2 hs l) as [g' Hg']; [lia|]. destruct (Hst l g' Hg') as [K1 K2 _ _]. fold ino in K1.
  refine (mount_apart img fb root hs _ Hfin (S k) (S l) g g' _ _ _ Hg Hg' G2 K2 _ _); [lia|by rewrite G1|by rewrite K1].
Qed.

(** Two files of 7000 and 600 bytes. *)
Definition demo_args : list (list Z * list Z) :=
  [(cstr "_cat", replicate (Z.to_nat 7000) 65); (cstr "README", replicate 600 66)].

Lemma mkfs_image_mounts_witness : exists st, mkfs demo_args mk_start = Ok (tt, st)
  /\ dir_of (mount_state (image st)) (dino (image st) 1) !! cstr "cat" = Some 2
  /\ file_bytes (mount_state (image st)) (dino (image st) 3) = replicate 600 66.
Proof.
  destruct (mkfs_image_mounts demo_args) as (st & E & H).
  - apply Forall_cons_2; [|apply Forall_cons_2; [|apply Forall_nil_2]].
    + split; [apply (bool_decide_eq_true_1 (47 ∉ _)); reflexivity|]. split; [|vm_compute; discriminate].
      change (cstr "_cat") with [95; 99; 97; 116]. repeat (apply Forall_cons_2; [lia|]). apply Forall_nil_2.
    + split; [apply (bool_decide_eq_true_1 (47 ∉ _)); reflexivity|]. split; [|vm_compute; discriminate].
      change (cstr "README") with [82; 69; 65; 68; 77; 69]. repeat (apply Forall_cons_2; [lia|]). apply Forall_nil_2.
  - cbn. lia.
  - discriminate.
  - apply (bool_decide_eq_true_1 (NoDup _)). reflexivity.
  - vm_compute. discriminate.
  - exists st. split; [exact E|]. cbv zeta in H. destruct H as (_ & _ & _ & _ & _ & _ & _ & H & _). split.
    + exact (proj1 (H 0%nat (cstr "_cat") _ eq_refl)).
    + destruct (H 1%nat (cstr "README") _ eq_refl) as (_ & _ & _ & _ & Hb & _). exact Hb.
Defined.
