(* ===== verification/Exec.v ===== *)
(** Model of src/exec.c, src/elf.h and [loaduvm] of src/vm.c: loading a program.

    The state is the file system, the page tables and what [exec] changes of the
    calling process.  [argv] are the argument strings as the kernel reads them in
    the caller's memory. *)
From stdpp Require Import base strings numbers list.
From S2P Require Import Prelude CString Locks Kalloc Vm VmTree VmSpace VmUser VmFork Syscall Bio Log Fs.
Local Open Scope Z_scope.

(** The registers of the trap frame [exec] sets. *)
Record eregs : Type := mkRegs { e_rdi : Z; e_rsi : Z; e_rip : Z; e_rcx : Z; e_rsp : Z }.

Record kstate : Type := mkK {
  kfs : fstate; kvm : vmstate; space : pspace; eframe : eregs; pname : list Z }.

Definition on_fs {A} (c : M fstate A) : M kstate A := fun s =>
  '(a, f) ← c (kfs s); Ok (a, mkK f (kvm s) (space s) (eframe s) (pname s)).
Definition on_vm {A} (c : M vmstate A) : M kstate A := fun s =>
  '(a, v) ← c (kvm s); Ok (a, mkK (kfs s) v (space s) (eframe s) (pname s)).

(** * elf.h *)

Definition ELF_MAGIC : Z := 0x464C457F.
Definition ELF_PROG_LOAD : Z := 1.

(** The little-endian field of [n] bytes at [off]. *)
Fixpoint field (n : nat) (bs : list Z) : Z :=
  match n with
  | O => 0
  | S n => nth 0 bs 0 + 256 * field n (tail bs)
  end.

Record elfhdr : Type := mkElf { e_magic : Z; e_entry : Z; e_phoff : Z; e_phnum : Z }.
Definition sizeof_elfhdr : Z := 64.
Definition get_elfhdr (bs : list Z) : elfhdr :=
  mkElf (field 4 bs) (field 8 (drop 24 bs)) (field 8 (drop 32 bs)) (field 2 (drop 56 bs)).

Record proghdr : Type := mkPh { ph_type : Z; ph_off : Z; ph_vaddr : Z; ph_filesz : Z; ph_memsz : Z }.
Definition sizeof_proghdr : Z := 56.
Definition get_proghdr (bs : list Z) : proghdr :=
  mkPh (field 4 bs) (field 8 (drop 8 bs)) (field 8 (drop 16 bs)) (field 8 (drop 32 bs)) (field 8 (drop 40 bs)).

(** * Loading *)

(** [readi(ip, buf, off, n) != n]: the bytes read, or [None]. *)
Definition read_exact (ip : nat) (off n : Z) : M kstate (option (list Z)) :=
  r ← on_fs (readi ip (u32 off) n);
  mret (match r with
        | Some bs => if Z.of_nat (length bs) =? n then Some bs else None
        | None => None
        end).

Definition k_nofuel {A} : M kstate A := fun _ => NoFuel.

(** The loop of [loaduvm]; the bytes [readi] delivers go to the page, also when
    there are too few of them. *)
Fixpoint load_loop (fuel : nat) (pgdir addr : Z) (ip : nat) (offset sz i : Z) : M kstate Z :=
  if i <? sz then
    match fuel with
    | O => k_nofuel
    | S fuel =>
        pte ← on_vm (walkpgdir pgdir (u64 (addr + i)) false);
        match pte with
        | None => panic "loaduvm: address should exist"
        | Some pte =>
            e ← on_vm (load_pte pte);
            let pa := PTE_ADDR e in
            let n := if sz - i <? PGSIZE then sz - i else PGSIZE in
            r ← on_fs (readi ip (u32 (offset + i)) n);
            match r with
            | None => mret (-1)
            | Some bs =>
                on_vm (update (fun m => store_bytes m (P2V pa) bs)) ;;
                if negb (Z.of_nat (length bs) =? n) then mret (-1)
                else load_loop fuel pgdir addr ip offset sz (u32 (i + PGSIZE))
            end
        end
    end
  else mret 0.

(** [offset] and [sz] are [uint]s. *)
Definition loaduvm (pgdir addr : Z) (ip : nat) (offset sz : Z) : M kstate Z :=
  let sz := u32 sz in
  if negb (addr mod PGSIZE =? 0) then panic "loaduvm: addr must be page aligned"
  else load_loop (Z.to_nat (sz / PGSIZE + 1)) pgdir addr ip (u32 offset) sz 0.

(** The loop over the program headers: the size reached, [None] for the jump to
    [bad]. *)
Fixpoint load_segments (end_ : Z) (n : nat) (pgdir : Z) (ip : nat) (off sz : Z) : M kstate (option Z) :=
  match n with
  | O => mret (Some sz)
  | S n =>
      r ← read_exact ip off sizeof_proghdr;
      match r with
      | None => mret None
      | Some bs =>
          let ph := get_proghdr bs in
          let next := s32 (off + sizeof_proghdr) in
          if negb (ph_type ph =? ELF_PROG_LOAD) then load_segments end_ n pgdir ip next sz
          else if ph_memsz ph <? ph_filesz ph then mret None
          else if u64 (ph_vaddr ph + ph_memsz ph) <? ph_vaddr ph then mret None
          else
            sz ← on_vm (allocuvm end_ pgdir sz (u64 (ph_vaddr ph + ph_memsz ph)));
            if sz =? 0 then mret None
            else if negb (ph_vaddr ph mod PGSIZE =? 0) then mret None
            else
              r ← loaduvm pgdir (ph_vaddr ph) ip (ph_off ph) (ph_filesz ph);
              if r <? 0 then mret None else load_segments end_ n pgdir ip next sz
      end
  end.

(** * The stack *)

(** The eight bytes of an [addr_t]. *)
Fixpoint le_bytes (n : nat) (v : Z) : list Z :=
  match n with O => [] | S n => v mod 256 :: le_bytes n (v / 256) end.
Definition addr_bytes (v : Z) : list Z := le_bytes 8 v.

(** The loop that pushes the strings: the stack pointer and the pointers stored
    in [ustack + 1], [None] for [bad]. *)
Fixpoint push_args (pgdir : Z) (argv : list (list Z)) (argc sp : Z) : M vmstate (option (Z * list Z)) :=
  match argv with
  | [] => mret (Some (sp, []))
  | a :: argv =>
      if MAXARG <=? argc then mret None
      else
        let sp := Z.land (u64 (sp - (strlen a + 1))) (u64 (Z.lnot 7)) in
        r ← copyout pgdir sp (a ++ [0]);
        if r <? 0 then mret None
        else
          rest ← push_args pgdir argv (argc + 1) sp;
          mret (match rest with
                | None => None
                | Some (sp', ps) => Some (sp', sp :: ps)
                end)
  end.

(** [ustack]: a fake return address, the pointers and a null pointer. *)
Definition ustack (ps : list Z) : list Z := 0xffffffffffffffff :: ps ++ [0].

(** The part of the path after the last slash. *)
Fixpoint last_elem (path last : list Z) : list Z :=
  match path with
  | [] => last
  | c :: path => last_elem path (if c =? 47 then path else last)
  end.

(** * exec *)

(** [proc->tf->rdi = argc; proc->tf->rsi = ...] *)
Definition set_arg_regs (argc rsi : Z) : M kstate unit := modify (fun s =>
  mkK (kfs s) (kvm s) (space s)
    (mkRegs argc rsi (e_rip (eframe s)) (e_rcx (eframe s)) (e_rsp (eframe s))) (pname s)).

(** The name, the page table and size, and the registers the program starts with. *)
Definition commit_image (name : list Z) (p : pspace) (entry sp : Z) : M kstate unit := modify (fun s =>
  mkK (kfs s) (kvm s) p (mkRegs (e_rdi (eframe s)) (e_rsi (eframe s)) entry entry sp) name).

(** From [sz = PGROUNDUP(sz)] to the commit; [None] for the jump to [bad]. *)
Definition exec_image (end_ pgdir : Z) (path : list Z) (argv : list (list Z)) (entry sz : Z)
    : M kstate (option unit) :=
  let sz := PGROUNDUP sz in
  sz ← on_vm (allocuvm end_ pgdir sz (u64 (sz + 2 * PGSIZE)));
  if sz =? 0 then mret None
  else
    on_vm (clearpteu pgdir (u64 (sz - 2 * PGSIZE))) ;;
    r ← on_vm (push_args pgdir argv 0 sz);
    match r with
    | None => mret None
    | Some (sp, ps) =>
        let argc := Z.of_nat (length argv) in
        set_arg_regs argc (u64 (sp - (argc + 1) * 8)) ;;
        let sp := u64 (sp - (1 + argc + 1) * 8) in
        r ← on_vm (copyout pgdir sp (mjoin (addr_bytes <$> ustack ps)));
        if r <? 0 then mret None
        else
          old ← gets space;
          commit_image (safestrcpy (last_elem path path) 16) (mkPspace pgdir sz (kstack old)) entry sp ;;
          on_vm (switchuvm pgdir (kstack old)) ;;
          on_vm (freevm end_ (Syscall.pgdir old)) ;;
          mret (Some tt)
    end.

(** [bad] with the inode still held. *)
Definition exec_bad (end_ pgdir : Z) (ip : option nat) : M kstate Z :=
  when (negb (pgdir =? 0)) (on_vm (freevm end_ pgdir)) ;;
  match ip with
  | Some i => on_fs (iunlockput i ;; on_log end_op)
  | None => mret tt
  end ;;
  mret (-1).

Definition exec (end_ : Z) (path : list Z) (argv : list (list Z)) : M kstate Z :=
  on_fs start_op ;;
  ip ← on_fs (namei path);
  match ip with
  | None => on_fs (on_log end_op) ;; mret (-1)
  | Some ip =>
      on_fs (ilock ip) ;;
      r ← read_exact ip 0 sizeof_elfhdr;
      match r with
      | None => exec_bad end_ 0 (Some ip)
      | Some bs =>
          let elf := get_elfhdr bs in
          if negb (e_magic elf =? ELF_MAGIC) then exec_bad end_ 0 (Some ip)
          else
            pgdir ← on_vm setupkvm;
            if pgdir =? 0 then exec_bad end_ 0 (Some ip)
            else
              r ← load_segments end_ (Z.to_nat (e_phnum elf)) pgdir ip (s32 (e_phoff elf)) PGSIZE;
              match r with
              | None => exec_bad end_ pgdir (Some ip)
              | Some sz =>
                  on_fs (iunlockput ip ;; on_log end_op) ;;
                  r ← exec_image end_ pgdir path argv (e_entry elf) sz;
                  match r with
                  | Some _ => mret 0
                  | None => exec_bad end_ pgdir None
                  end
              end
      end
  end.
