(* ===== verification/ExecStack.v ===== *)
(** The memory of a new program: user writes through the page tables ([copyout]),
    the guard page ([clearpteu]), and what [exec] leaves for [main] to find. *)
From stdpp Require Import base strings numbers list.
From S2P Require Import Prelude CString Locks Kalloc Vm VmTree VmSpace VmUser VmFork Syscall Bio Log Fs FsContents Exec.
Local Open Scope Z_scope.
#[local] Opaque pages tables pte_at load64 store64.

(** * Bytes of a buffer *)

Lemma store_bytes_spec cs m a b :
  store_bytes m a cs b = if (a <=? b) && (b <? a + Z.of_nat (length cs)) then u8 (nth (Z.to_nat (b - a)) cs 0) else m b.
Proof.
  revert m a. induction cs as [|c cs IH]; intros m a; cbn [store_bytes length].
  - by replace (_ && _) with false by lia.
  - rewrite IH. unfold store. destruct (Z.eqb_spec b a) as [->|Hb].
    + replace ((a + 1 <=? a) && _) with false by lia. replace (_ && _) with true by lia. by rewrite Z.sub_diag.
    + destruct (decide (a <= b < a + Z.of_nat (S (length cs)))).
      * replace ((a + 1 <=? b) && _) with true by lia. replace (_ && _) with true by lia.
        replace (Z.to_nat (b - a)) with (S (Z.to_nat (b - (a + 1)))) by lia. done.
      * replace ((a + 1 <=? b) && _) with false by lia. by replace (_ && _) with false by lia.
Qed.

Section Stack.
Context (end_ : Z).

(** The page of [va] is mapped for the user. *)
Definition user_page (s : vmstate) (root va : Z) : Prop :=
  exists f b, uview s root va = Some (f, b) /\ Z.land f PTE_U <> 0.

Lemma user_page_pte s root va : user_page s root va <->
  present (pte 4 (vram s) root va) = true /\ Z.land (PTE_FLAGS (pte 4 (vram s) root va)) PTE_U <> 0.
Proof.
  unfold user_page, uview. cbv zeta. destruct (present (pte 4 (vram s) root va)).
  - split; [intros (f & b & [= <- <-] & H); done|]. intros [_ H]. eauto.
  - split; [by intros (f & b & [=] & _)|by intros [[=] _]].
Qed.

(** Writing bytes to one page of an address space. *)
Lemma write_user s root free va bs :
  tree end_ 4 s root free -> user va -> present (pte 4 (vram s) root va) = true ->
  va mod 4096 + Z.of_nat (length bs) <= 4096 ->
  let s' := with_ram s (store_bytes (vram s) (child (pte 4 (vram s) root va) + va mod 4096) bs) in
  took end_ s s' root [] free
  /\ forall a, user a -> uview s' root a =
       if (va <=? a) && (a <? va + Z.of_nat (length bs))
       then Some (PTE_FLAGS (pte 4 (vram s) root va), u8 (nth (Z.to_nat (a - va)) bs 0)) else uview s root a.
Proof.
  intros Ht Hva Hp Hlen s'. set (c := child (pte 4 (vram s) root va)) in *.
  destruct (leaf_apart end_ s root free va Ht Hva Hp) as (Hpg & Hnt & Hnf). fold c in Hpg, Hnt, Hnf.
  pose proof (Z.mod_pos_bound va 4096 ltac:(lia)) as Hm.
  assert (only_pages [c] (vram s) (vram s')) as Ho.
  { intros a Ha. change (vram s') with (store_bytes (vram s) (c + va mod 4096) bs). rewrite store_bytes_spec.
    specialize (Ha c ltac:(left)). unfold in_page, PGSIZE in Ha. by replace (_ && _) with false by lia. }
  destruct (tree_write end_ 4 s root free [c] (vram s') Ht Ho) as (T & P & Hpte).
  { by apply Forall_singleton. }
  { by intros t ->%list_elem_of_singleton. }
  split.
  - split; [exact T|by destruct s|by rewrite P|]. eapply only_pages_mono; [|exact Ho].
    intros t ->%list_elem_of_singleton. rewrite app_nil_r. by apply pte_page; [lia|..].
  - intros a Ha. unfold uview. cbv zeta. rewrite Hpte by (lia || done).
    change (vram s') with (store_bytes (vram s) (c + va mod 4096) bs). rewrite store_bytes_spec.
    destruct (decide (va <= a < va + Z.of_nat (length bs))) as [Hin|Hout].
    + replace ((va <=? a) && _) with true by lia.
      assert (a / 4096 = va / 4096) as Hd by (Z.div_mod_to_equations; lia).
      rewrite (pte_same 4 (vram s) root a va) by (lia || done). rewrite Hp. fold c.
      replace (_ && _) with true by (Z.div_mod_to_equations; lia).
      replace (c + a mod 4096 - (c + va mod 4096)) with (a - va) by (Z.div_mod_to_equations; lia). done.
    + replace ((va <=? a) && _) with false by lia.
      destruct (present (pte 4 (vram s) root a)) eqn:Ea; [|done]. do 2 f_equal.
      destruct ((c + va mod 4096 <=? _) && _) eqn:E; [|done]. exfalso. apply Hout.
      assert (a / 4096 = va / 4096) as Hd.
      { apply Z.eqb_eq. rewrite <- same_ix_user by done. apply (pte_inj end_ 4 (vram s) root); try done; [lia|apply Ht|].
        fold c. destruct (leaf_apart end_ s root free a Ht Ha Ea) as (Hpa & _ & _).
        unfold page, PGSIZE in Hpa, Hpg. Z.div_mod_to_equations; lia. }
      rewrite (pte_same 4 (vram s) root a va) in E by (lia || done). fold c in E. Z.div_mod_to_equations; lia.
Qed.

(** The byte the program sees at an address. *)
Definition ubyte (s : vmstate) (root a : Z) : option Z :=
  match uview s root a with
  | Some (f, b) => if Z.land f PTE_U =? 0 then None else Some b
  | None => None
  end.

(** The bytes [bs] are at [a] in the program's half of the memory. *)
Definition umem_has (s : vmstate) (root a : Z) (bs : list Z) : Prop :=
  forall k b, bs !! k = Some b -> user (a + Z.of_nat k) /\ ubyte s root (a + Z.of_nat k) = Some b.

Lemma uva2ka_spec s root va : user va -> user_page s root va ->
  uva2ka root va s = Ok (child (pte 4 (vram s) root va), s).
Proof.
  intros Hva [Hp Hu]%user_page_pte. unfold uva2ka.
  rewrite walkpgdir_walk, (bind_ok _ _ _ _ _ (walk_false 4 s root va ltac:(lia))).
  unfold pte in *. destruct (pte_at 4 (vram s) root va) as [a|]; [|done].
  rewrite (bind_ok _ _ _ _ _ (load_pte_ok a s)). unfold present in Hp. apply negb_true_iff in Hp. rewrite Hp.
  assert (Z.land (load64 (vram s) a) PTE_U =? 0 = false) as ->; [|done].
  apply Z.eqb_neq. intros H. apply Hu. unfold PTE_FLAGS. rewrite <- Z.land_assoc.
  by change (Z.land 4095 PTE_U) with PTE_U.
Qed.

Lemma umem_has_app s root a x y :
  umem_has s root a (x ++ y) <-> umem_has s root a x /\ umem_has s root (a + Z.of_nat (length x)) y.
Proof.
  unfold umem_has. split.
  - intros H. split; intros k b Hb.
    + apply H. by apply lookup_app_l_Some.
    + replace (a + Z.of_nat (length x) + Z.of_nat k) with (a + Z.of_nat (length x + k)) by lia. apply H.
      rewrite lookup_app_r by lia. by replace (length x + k - length x)%nat with k by lia.
  - intros [Hx Hy] k b [Hb|[Hk Hb]]%lookup_app_Some; [by apply Hx|].
    specialize (Hy _ _ Hb). by replace (a + Z.of_nat (length x) + Z.of_nat (k - length x)) with (a + Z.of_nat k) in Hy by lia.
Qed.

Lemma umem_has_frame s s' root a bs :
  (forall k, 0 <= k < Z.of_nat (length bs) -> uview s' root (a + k) = uview s root (a + k)) ->
  umem_has s root a bs -> umem_has s' root a bs.
Proof.
  intros Hu H k b Hb. specialize (H k b Hb). unfold ubyte in *. rewrite Hu; [exact H|].
  apply lookup_lt_Some in Hb. lia.
Qed.

(** What one write does for the program: the bytes are there, the rest is kept. *)
Record wrote (s s' : vmstate) (root va : Z) (bs free : list Z) : Prop := {
  wr_took : took end_ s s' root [] free;
  wr_rest : forall a, user a -> ~ va <= a < va + Z.of_nat (length bs) -> uview s' root a = uview s root a;
  wr_page : forall a, user a -> user_page s root a -> user_page s' root a;
  wr_has : umem_has s' root va bs }.

Lemma wrote_nil s root va free : tree end_ 4 s root free -> wrote s s root va [] free.
Proof. intros T. split; [by apply took_refl|done|done|]. intros k b [=]. Qed.

Lemma wrote_app s s1 s2 root va x y free :
  0 <= va -> va + Z.of_nat (length x) < 2 ^ 47 ->
  wrote s s1 root va x free -> wrote s1 s2 root (va + Z.of_nat (length x)) y free -> wrote s s2 root va (x ++ y) free.
Proof.
  intros Hva Hx [T1 R1 P1 H1] [T2 R2 P2 H2]. split.
  - by apply (took_trans end_ s s1 s2 root [] [] free free).
  - intros a Ha Hn. rewrite length_app in Hn. rewrite R2, R1 by (done || lia). done.
  - auto.
  - apply umem_has_app. split; [|done]. eapply umem_has_frame; [|exact H1].
    intros k Hk. apply R2; [unfold user|]; lia.
Qed.

Lemma write_user_wrote s root free va bs :
  tree end_ 4 s root free -> user va -> user_page s root va -> Forall is_u8 bs ->
  va mod 4096 + Z.of_nat (length bs) <= 4096 ->
  wrote s (with_ram s (store_bytes (vram s) (child (pte 4 (vram s) root va) + va mod 4096) bs)) root va bs free.
Proof.
  intros T Hva [Hp HU]%user_page_pte Hbs Hlen. destruct (write_user s root free va bs T Hva Hp Hlen) as [T1 U1].
  pose proof (Z.mod_pos_bound va 4096 ltac:(lia)) as Hm.
  split; [exact T1| | |].
  - intros a Ha Hn. rewrite U1 by done. by replace (_ && _) with false by lia.
  - intros a Ha (f & b & E & HF). unfold user_page. rewrite U1 by done. destruct (_ && _); eauto.
  - intros k b Hb. pose proof (lookup_lt_Some _ _ _ Hb) as Hk.
    assert (user (va + Z.of_nat k)) as Huk by (unfold user in *; Z.div_mod_to_equations; lia).
    split; [exact Huk|]. unfold ubyte. rewrite U1 by done. replace (_ && _) with true by lia.
    rewrite (proj2 (Z.eqb_neq _ 0)) by done. replace (Z.to_nat (va + Z.of_nat k - va)) with k by lia.
    rewrite (nth_lookup_Some bs k 0 b) by done. rewrite u8_id; [done|]. rewrite Forall_lookup in Hbs. by apply (Hbs k).
Qed.

(** [copyout] to pages of the user: the bytes appear, nothing else changes. *)
Lemma copyout_loop_spec fuel : forall s root free va src,
  tree end_ 4 s root free -> 0 <= va -> va + Z.of_nat (length src) < 2 ^ 47 -> (length src <= fuel)%nat ->
  Forall is_u8 src -> (forall a, va <= a < va + Z.of_nat (length src) -> user_page s root a) ->
  exists s', copyout_loop fuel root va src s = Ok (0, s') /\ wrote s s' root va src free.
Proof.
  induction fuel as [|fuel IH]; intros s root free va src T Hva Hend Hf Hsrc Hup.
  { destruct src; [|cbn in Hf; lia]. exists s. split; [done|]. by apply wrote_nil. }
  cbn [copyout_loop]. destruct (decide (length src = 0%nat)) as [H0|H0].
  { apply nil_length_inv in H0 as ->. exists s. split; [done|]. by apply wrote_nil. }
  replace (0 <? Z.of_nat (length src)) with true by (symmetry; lia).
  rewrite PGROUNDDOWN_spec by lia. set (va0 := va / 4096 * 4096).
  assert (user va /\ user va0) as [Hu Hu0] by (unfold user, va0; Z.div_mod_to_equations; lia).
  assert (user_page s root va) as Hupv by (apply Hup; lia).
  assert (pte 4 (vram s) root va0 = pte 4 (vram s) root va) as Ep
    by (apply pte_same; [lia|unfold va0; Z.div_mod_to_equations; lia]).
  assert (user_page s root va0) as Hup0 by (apply user_page_pte; rewrite Ep; by apply user_page_pte).
  rewrite (bind_ok _ _ _ _ _ (uva2ka_spec s root va0 Hu0 Hup0)), Ep.
  pose proof (proj1 (user_page_pte s root va) Hupv) as [Hp _].
  destruct (leaf_apart end_ s root free va T Hu Hp) as (Hpg & _).
  rewrite (proj2 (Z.eqb_neq _ 0)) by (apply page_range in Hpg; lia).
  replace (va - va0) with (va mod 4096) by (unfold va0; Z.div_mod_to_equations; lia).
  change PGSIZE with 4096. set (n := if _ <? 4096 - va mod 4096 then _ else _).
  assert (0 < n <= Z.of_nat (length src) /\ va mod 4096 + n <= 4096
    /\ (n = Z.of_nat (length src) \/ va0 + 4096 = va + n)) as (Hn & Hn' & Hnx).
  { unfold n, va0. bcase; Z.div_mod_to_equations; lia. }
  rewrite (bind_ok _ _ _ _ _ (update_ok _ _)).
  rewrite <- (take_drop (Z.to_nat n) src) in Hsrc. apply Forall_app in Hsrc as [Hs1 Hs2].
  assert (length (take (Z.to_nat n) src) = Z.to_nat n) as Hl by (rewrite length_take; lia).
  pose proof (write_user_wrote s root free va (take (Z.to_nat n) src) T Hu Hupv Hs1 ltac:(lia)) as W1.
  set (s1 := with_ram s _) in *.
  assert (exists s', copyout_loop fuel root (u64 (va0 + 4096)) (drop (Z.to_nat n) src) s1 = Ok (0, s')
    /\ wrote s1 s' root (va + n) (drop (Z.to_nat n) src) free) as (s' & E & W2).
  { destruct Hnx as [-> | ->].
    - rewrite Nat2Z.id, drop_all. exists s1. split; [by destruct fuel|]. apply wrote_nil, W1.
    - rewrite u64_id by lia. apply IH; try done; rewrite ?length_drop; try lia; [apply W1|].
      intros a Ha. apply (wr_page _ _ _ _ _ _ W1); [unfold user|apply Hup]; lia. }
  exists s'. split; [exact E|]. rewrite <- (take_drop (Z.to_nat n) src).
  apply (wrote_app s s1 s'); [lia|lia|exact W1|]. rewrite Hl. by replace (Z.of_nat (Z.to_nat n)) with n by lia.
Qed.

Lemma copyout_spec s root free va src :
  tree end_ 4 s root free -> 0 <= va -> va + Z.of_nat (length src) < 2 ^ 47 ->
  Forall is_u8 src -> (forall a, va <= a < va + Z.of_nat (length src) -> user_page s root a) ->
  exists s', copyout root va src s = Ok (0, s') /\ wrote s s' root va src free.
Proof. intros. by apply copyout_loop_spec. Qed.

(** ** The guard page *)

(** Storing an entry that refers to the same page. *)
Lemma retag_tree s root va a v free :
  tree end_ 4 s root free -> user va -> pte_at 4 (vram s) root va = Some a -> 0 <= v < 2 ^ 64 ->
  leaf v = leaf (pte 4 (vram s) root va) ->
  let s' := with_ram s (store64 (vram s) a v) in
  took end_ s s' root [] free
  /\ (forall va', user va' ->
       pte 4 (vram s') root va' = if va' / 4096 =? va / 4096 then v else pte 4 (vram s) root va')
  /\ only_pages (tables 4 (vram s) root) (vram s) (vram s').
Proof.
  intros [Hg Hk Hd] Hva Ha Hv Hl s'.
  destruct (set_pte end_ 4 (vram s) root va a v) as [P1 P2 P3 P4 P5]; try done.
  assert (vram s' = store64 (vram s) a v) as Em by done. rewrite <- Em in *. rewrite <- Hl in P2.
  apply Permutation_app_inv_l in P2.
  split; [|split; [|exact P3]].
  - split.
    + split.
      * destruct Hg as [G1 G2]. split; by rewrite P2.
      * apply (kmem_write end_ (km s) _ (tables 4 (vram s) root)); [done|exact P3| |].
        -- rewrite Forall_forall. intros t Ht%tables_pages. pose proof (gd_page _ _ _ _ Hg) as H.
           rewrite Forall_forall in H. by apply H.
        -- intros t Ht%tables_pages. by apply Hd.
      * intros t. rewrite P2. apply Hd.
    + by destruct s.
    + exact P2.
    + rewrite app_nil_r. eapply only_pages_mono; [|exact P3]. intros t. apply tables_pages.
  - intros va' Hva'. rewrite P5, same_ix_user by done. by rewrite Z.eqb_sym.
Qed.

Lemma clear_u e : let v := Z.land e (u64 (Z.lnot PTE_U)) in
  0 <= v < 2 ^ 64 /\ leaf v = leaf e /\ child v = child e /\ PTE_FLAGS v = Z.land (PTE_FLAGS e) 0xFFB
  /\ present v = present e.
Proof.
  intros v. assert (v = Z.land e 0xFFFFFFFFFFFFFFFB) as Ev by done. clearbody v. subst v.
  assert (present (Z.land e 0xFFFFFFFFFFFFFFFB) = present e) as Hp.
  { unfold present. by rewrite <- Z.land_assoc. }
  assert (child (Z.land e 0xFFFFFFFFFFFFFFFB) = child e) as Hc.
  { unfold child, PTE_ADDR. by rewrite <- Z.land_assoc. }
  split; [|split; [|split; [done|split; [|done]]]].
  - change 0xFFFFFFFFFFFFFFFB with (Z.land 0xFFFFFFFFFFFFFFFB (Z.ones 64)).
    rewrite Z.land_assoc, Z.land_ones by lia. apply Z.mod_pos_bound. lia.
  - unfold leaf. by rewrite Hp, Hc.
  - unfold PTE_FLAGS. by rewrite <- !Z.land_assoc.
Qed.

Lemma clearpteu_spec s root free va : tree end_ 4 s root free -> user va -> uview s root va <> None ->
  exists s', clearpteu root va s = Ok (tt, s') /\ took end_ s s' root [] free
  /\ forall a, user a -> uview s' root a =
       if a / 4096 =? va / 4096 then (fun fb => (Z.land (fst fb) 0xFFB, snd fb)) <$> uview s root a
       else uview s root a.
Proof.
  intros T Hva Hv. unfold uview in Hv. cbv zeta in Hv.
  destruct (present (pte 4 (vram s) root va)) eqn:Hp; [|done]. clear Hv.
  destruct (pte_at 4 (vram s) root va) as [a|] eqn:Ha; [|unfold pte in Hp; by rewrite Ha in Hp].
  assert (pte 4 (vram s) root va = load64 (vram s) a) as Ee by (unfold pte; by rewrite Ha).
  destruct (clear_u (load64 (vram s) a)) as (Hr & Hl & Hc & Hf & Hpr).
  set (v := Z.land (load64 (vram s) a) (u64 (Z.lnot PTE_U))) in *. rewrite <- Ee in Hl, Hc, Hf, Hpr.
  destruct (retag_tree s root va a v free T Hva Ha Hr Hl) as (T1 & Hpte & Ho).
  eexists. split; [|split; [exact T1|]].
  - unfold clearpteu. rewrite walkpgdir_walk, (bind_ok _ _ _ _ _ (walk_false 4 s root va ltac:(lia))), Ha.
    rewrite (bind_ok _ _ _ _ _ (load_pte_ok a s)). apply store_pte_ok.
  - intros b Hb. unfold uview. cbv zeta. rewrite Hpte by done.
    assert (forall c, present (pte 4 (vram s) root b) = true -> c = child (pte 4 (vram s) root b) ->
      vram (with_ram s (store64 (vram s) a v)) (c + b mod 4096) = vram s (c + b mod 4096)) as Hm.
    { intros c Hpb ->. destruct (leaf_apart end_ s root free b T Hb Hpb) as (Hpg & Hnt & _).
      assert (agree [child (pte 4 (vram s) root b)] (vram s) (vram (with_ram s (store64 (vram s) a v)))) as Hag.
      { apply (only_agree end_ _ (tables 4 (vram s) root)); [by apply Forall_singleton|by apply (tables_page _ _ _ free)| |exact Ho].
        by intros t ->%list_elem_of_singleton. }
      apply (Hag (child (pte 4 (vram s) root b))); [left|apply in_page_off]. }
    destruct (Z.eqb_spec (b / 4096) (va / 4096)) as [E|E].
    + rewrite (pte_same 4 (vram s) root b va) in * by (lia || done). rewrite Hpr, Hp, Hc, Hf. cbn [fmap option_fmap option_map fst snd]. by rewrite Hm.
    + destruct (present (pte 4 (vram s) root b)) eqn:Hpb; [|done]. by rewrite Hm.
Qed.

(** ** The arguments *)

(** The room a string takes on the stack, with its NUL and rounded up. *)
Definition arg_room (a : list Z) : Z := (Z.of_nat (length a) + 8) / 8 * 8.
Definition args_room (argv : list (list Z)) : Z := fold_right (fun a n => arg_room a + n) 0 argv.

Lemma arg_room_range a : Z.of_nat (length a) + 1 <= arg_room a /\ arg_room a mod 8 = 0.
Proof. unfold arg_room. Z.div_mod_to_equations; lia. Qed.

Lemma args_room_nonneg argv : 0 <= args_room argv.
Proof.
  induction argv as [|a argv IH]; [done|]. cbn [args_room fold_right]. fold (args_room argv).
  pose proof (arg_room_range a). lia.
Qed.

Lemma align8 x : 0 <= x < 2 ^ 64 -> Z.land x (u64 (Z.lnot 7)) = x / 8 * 8.
Proof.
  intros Hx. change (u64 (Z.lnot 7)) with (Z.ldiff (Z.ones 64) (Z.ones 3)). apply Z.bits_inj'. intros n Hn.
  rewrite Z.land_spec, Z.ldiff_spec, !Z.testbit_ones by lia.
  replace (x / 8 * 8) with (Z.shiftl (Z.shiftr x 3) 3) by (rewrite Z.shiftl_mul_pow2, Z.shiftr_div_pow2 by lia; done).
  rewrite Z.shiftl_spec by lia. destruct (decide (n < 3)).
  - rewrite (Z.testbit_neg_r _ (n - 3)) by lia. replace (n <? 3) with true by lia. cbn. rewrite !andb_true_r.
    replace (0 <=? n) with true by lia. cbn. rewrite andb_false_r. by rewrite andb_false_r.
  - rewrite Z.shiftr_spec by lia. replace (n - 3 + 3) with n by lia. replace (n <? 3) with false by lia.
    destruct (decide (n < 64)); [replace (n <? 64) with true by lia; replace (0 <=? n) with true by lia; by rewrite andb_true_r|].
    rewrite <- (Z.mod_small x (2 ^ 64)) by lia. by rewrite Z.mod_pow2_bits_high by lia.
Qed.

Lemma push_sp a sp : sp mod 8 = 0 -> arg_room a <= sp < 2 ^ 47 ->
  Z.land (u64 (sp - (strlen a + 1))) (u64 (Z.lnot 7)) = sp - arg_room a.
Proof.
  intros Hm Hsp. unfold strlen. pose proof (arg_room_range a). rewrite u64_id, align8 by lia.
  unfold arg_room in *. Z.div_mod_to_equations; lia.
Qed.

(** The strings are on the stack. *)
Definition has_strings (s : vmstate) (root : Z) (ps : list Z) (argv : list (list Z)) : Prop :=
  Forall2 (fun p a => umem_has s root p (a ++ [0])) ps argv.

Definition in_range (lo hi : Z) (ps : list Z) (argv : list (list Z)) : Prop :=
  Forall2 (fun p a => lo <= p /\ p + Z.of_nat (length a) + 1 <= hi) ps argv.

Lemma has_strings_frame s s' root lo hi ps argv :
  in_range lo hi ps argv -> (forall a, lo <= a < hi -> uview s' root a = uview s root a) ->
  has_strings s root ps argv -> has_strings s' root ps argv.
Proof.
  unfold in_range, has_strings. intros Hr Hu H. induction H as [|p a ps argv H _ IH]; [constructor|].
  apply Forall2_cons in Hr as [Hp Hr]. constructor; [|by apply IH].
  eapply umem_has_frame; [|exact H]. intros k Hk. rewrite length_app in Hk. cbn in Hk. apply Hu. lia.
Qed.

(** What pushing does: below [sp], down to [sp'], there are the strings. *)
Record pushed (s s' : vmstate) (root : Z) (argv : list (list Z)) (sp sp' : Z) (ps free : list Z) : Prop := {
  pu_took : took end_ s s' root [] free;
  pu_rest : forall a, user a -> ~ sp' <= a < sp -> uview s' root a = uview s root a;
  pu_page : forall a, user a -> user_page s root a -> user_page s' root a;
  pu_range : in_range sp' sp ps argv;
  pu_has : has_strings s' root ps argv }.

Definition cstrings (argv : list (list Z)) : Prop := Forall is_cstr argv.

Lemma cstr_bytes a : is_cstr a -> Forall is_u8 (a ++ [0]).
Proof.
  intros H. apply Forall_app. split; [|by repeat constructor]. eapply Forall_impl; [exact H|].
  intros c Hc. unfold is_u8. cbn in Hc. lia.
Qed.

Lemma push_args_spec argv : forall s root free argc sp lo,
  tree end_ 4 s root free -> cstrings argv -> 0 <= argc -> argc + Z.of_nat (length argv) <= MAXARG ->
  sp mod 8 = 0 -> 0 <= lo -> lo + args_room argv <= sp -> sp < 2 ^ 47 ->
  (forall a, lo <= a < sp -> user_page s root a) ->
  exists s' ps, push_args root argv argc sp s = Ok (Some (sp - args_room argv, ps), s')
  /\ pushed s s' root argv sp (sp - args_room argv) ps free.
Proof.
  induction argv as [|a argv IH]; intros s root free argc sp lo T Hc Hargc Hlen Hm Hlo Hroom Hsp Hup.
  { exists s, []. cbn [args_room fold_right]. rewrite Z.sub_0_r. split; [done|].
    split; [by apply took_refl|done|done|constructor|constructor]. }
  cbn [args_room fold_right length] in *. fold (args_room argv) in *.
  pose proof (arg_room_range a) as [Ha Ham]. pose proof (args_room_nonneg argv) as Hnn.
  apply Forall_cons in Hc as [Hca Hc].
  cbn [push_args]. replace (MAXARG <=? argc) with false by (symmetry; lia).
  rewrite push_sp by (done || lia). set (sp1 := sp - arg_room a).
  destruct (copyout_spec s root free sp1 (a ++ [0]) T) as (s1 & E1 & W1);
    [lia|rewrite length_app; cbn; lia|by apply cstr_bytes|intros b Hb; rewrite length_app in Hb; cbn in Hb; apply Hup; lia|].
  rewrite (bind_ok _ _ _ _ _ E1). cbn [Z.ltb Z.compare].
  destruct (IH s1 root free (argc + 1) sp1 lo (tk_tree _ _ _ _ _ _ (wr_took _ _ _ _ _ _ W1)) Hc) as (s2 & ps & E2 & P2);
    [lia|lia|unfold sp1; Z.div_mod_to_equations; lia|lia|lia|lia| |].
  { intros b Hb. apply (wr_page _ _ _ _ _ _ W1); [unfold user; lia|]. apply Hup. lia. }
  rewrite (bind_ok _ _ _ _ _ E2). exists s2, (sp1 :: ps).
  replace (sp - (arg_room a + args_room argv)) with (sp1 - args_room argv) by lia. split; [done|].
  destruct W1 as [WT WR WP WH]. destruct P2 as [PT PR PP PRg PH]. rewrite length_app in WR. cbn [length] in WR. split.
  - by apply (took_trans end_ s s1 s2 root [] [] free free).
  - intros b Hb Hn. rewrite PR, WR by (done || lia). done.
  - auto.
  - constructor; [lia|]. eapply Forall2_impl; [exact PRg|]. cbn. lia.
  - constructor; [|done]. eapply umem_has_frame; [|exact WH]. intros k Hk. rewrite length_app in Hk. cbn in Hk.
    apply PR; [unfold user; lia|lia].
Qed.

(** ** The whole stack *)

Lemma le_bytes_u8 n v : Forall is_u8 (le_bytes n v).
Proof.
  revert v. induction n as [|n IH]; intros v; cbn [le_bytes]; constructor; [|done].
  apply (Z.mod_pos_bound v 256). lia.
Qed.

Lemma length_le_bytes n v : length (le_bytes n v) = n.
Proof. revert v. induction n as [|n IH]; intros v; cbn; [done|]. by rewrite IH. Qed.

Definition words (vs : list Z) : list Z := mjoin (addr_bytes <$> vs).

Lemma words_cons v vs : words (v :: vs) = addr_bytes v ++ words vs.
Proof. done. Qed.

Lemma words_u8 vs : Forall is_u8 (words vs).
Proof.
  induction vs as [|v vs IH]; [constructor|]. rewrite words_cons. apply Forall_app. split; [apply le_bytes_u8|done].
Qed.

Lemma length_words vs : length (words vs) = (8 * length vs)%nat.
Proof.
  induction vs as [|v vs IH]; [done|]. rewrite words_cons, length_app, IH. unfold addr_bytes.
  rewrite length_le_bytes. cbn. lia.
Qed.

(** What [main] finds: at the stack pointer the return address, then its vector,
    whose pointers lead to the strings. *)
Record main_stack (s : vmstate) (root rsp rsi : Z) (argv : list (list Z)) : Prop := {
  ms_rsi : rsi = rsp + 8;
  ms_ret : umem_has s root rsp (addr_bytes 0xffffffffffffffff);
  ms_argv : exists ps, umem_has s root rsi (words (ps ++ [0])) /\ has_strings s root ps argv }.

Lemma stack_spec s root free argv sz :
  tree end_ 4 s root free -> cstrings argv -> Z.of_nat (length argv) <= MAXARG ->
  sz mod 4096 = 0 -> 4096 <= sz < 2 ^ 47 -> args_room argv + 8 * (Z.of_nat (length argv) + 2) <= 4096 ->
  (forall a, sz - 4096 <= a < sz -> user_page s root a) ->
  exists s1 s2 ps, let sp := sz - args_room argv in let argc := Z.of_nat (length argv) in
     push_args root argv 0 sz s = Ok (Some (sp, ps), s1)
  /\ copyout root (u64 (sp - (1 + argc + 1) * 8)) (words (ustack ps)) s1 = Ok (0, s2)
  /\ took end_ s s2 root [] free
  /\ (forall a, user a -> ~ sz - 4096 <= a < sz -> uview s2 root a = uview s root a)
  /\ main_stack s2 root (u64 (sp - (1 + argc + 1) * 8)) (u64 (sp - (argc + 1) * 8)) argv.
Proof.
  intros T Hc Hlen Hsz Hrange Hroom Hup. pose proof (args_room_nonneg argv) as Hnn.
  destruct (push_args_spec argv s root free 0 sz (sz - 4096) T Hc) as (s1 & ps & E1 & P1);
    [lia|lia|Z.div_mod_to_equations; lia|lia|lia|lia|done|].
  destruct P1 as [PT PR PP PRg PH]. pose proof (Forall2_length _ _ _ PRg) as Hps.
  set (sp := sz - args_room argv) in *. set (argc := Z.of_nat (length argv)) in *.
  assert (Z.of_nat (length (words (ustack ps))) = 8 * (argc + 2)) as Hlw.
  { rewrite length_words. unfold ustack. cbn [length]. rewrite length_app, Hps. cbn [length]. lia. }
  assert (Z.of_nat (length argv) = argc) as Hac by done.
  destruct (copyout_spec s1 root free (sp - (1 + argc + 1) * 8) (words (ustack ps))) as (s2 & E2 & W2).
  { apply PT. } { lia. } { lia. } { apply words_u8. }
  { intros a Ha. apply PP; [unfold user; lia|]. apply Hup. lia. }
  destruct W2 as [WT WR WP WH]. exists s1, s2, ps. cbv zeta. fold argc sp. rewrite !u64_id by lia. split; [exact E1|]. split; [exact E2|].
  split; [by apply (took_trans end_ s s1 s2 root [] [] free free)|]. split.
  - intros a Ha Hn. rewrite WR, PR by (done || lia). done.
  - unfold ustack in WH. rewrite words_cons in WH. apply umem_has_app in WH as [W1 W2].
    change (Z.of_nat (length (addr_bytes 18446744073709551615))) with 8 in W2.
    split; [lia|exact W1|]. exists ps. split; [by replace (sp - (argc + 1) * 8) with (sp - (1 + argc + 1) * 8 + 8) by lia|].
    eapply has_strings_frame; [exact PRg| |exact PH]. intros a Ha. apply WR; [unfold user; lia|lia].
Qed.
End Stack.

(** * The image *)

Definition with_kvm (s : kstate) (v : vmstate) : kstate := mkK (kfs s) v (space s) (eframe s) (pname s).

Lemma on_vm_ok {A} (c : M vmstate A) s a v : c (kvm s) = Ok (a, v) -> on_vm c s = Ok (a, with_kvm s v).
Proof. intros E. unfold on_vm. by rewrite E. Qed.

Lemma switchuvm_ok p ks s : p <> 0 ->
  exists s', switchuvm p ks s = Ok (tt, s') /\ km s' = km s /\ cr3 s' = V2P p.
Proof. intros Hp. unfold switchuvm. rewrite (proj2 (Z.eqb_neq p 0)) by done. eexists. split; [reflexivity|done]. Qed.

Lemma uview_km s s' root a : km s' = km s -> uview s' root a = uview s root a.
Proof. intros E. unfold uview, vram. by rewrite E. Qed.

Lemma tree_km end_ n s s' root free : km s' = km s -> tree end_ n s root free -> tree end_ n s' root free.
Proof. intros E [H1 H2 H3]. unfold vram in *. split; unfold vram; by rewrite E. Qed.

Lemma main_stack_view s s' root rsp rsi argv :
  (forall a, user a -> uview s' root a = uview s root a) ->
  main_stack s root rsp rsi argv -> main_stack s' root rsp rsi argv.
Proof.
  intros Hu.
  assert (forall a bs, umem_has s root a bs -> umem_has s' root a bs) as H.
  { intros a bs Hb k b Hk. destruct (Hb k b Hk) as [H1 H2]. split; [done|]. unfold ubyte in *. by rewrite Hu. }
  intros [H1 H2 (ps & H3 & H4)]. split; [done|by apply H|]. exists ps. split; [by apply H|].
  eapply Forall2_impl; [exact H4|]. cbn. auto.
Qed.

(** The pages of [exec]: the new address space with its two more pages, and the
    old one, which is then freed. *)
Lemma image_space end_ v0 root free sz :
  tree end_ 4 v0 root free -> 0 <= sz -> rup sz + 8192 < 2 ^ 47 - 4096 -> (8 <= length free)%nat ->
  (forall a, rup sz <= a < rup sz + 8192 -> uview v0 root a = None) ->
  exists v1 v2 taken free',
     allocuvm end_ root (rup sz) (rup sz + 8192) v0 = Ok (rup sz + 8192, v1)
  /\ clearpteu root (rup sz) v1 = Ok (tt, v2)
  /\ free = taken ++ free' /\ took end_ v0 v2 root taken free'
  /\ (forall a, user a -> uview v2 root a =
        if (rup sz <=? a) && (a <? rup sz + 4096) then Some (3, 0)
        else if (rup sz <=? a) && (a <? rup sz + 8192) then Some (7, 0) else uview v0 root a).
Proof.
  intros T Hsz Htop Hfree Hnone.
  assert (rup (rup sz) = rup sz /\ rup (rup sz + 8192) = rup sz + 8192 /\ rup sz mod 4096 = 0 /\ sz <= rup sz)
    as (R1 & R2 & R3 & R4) by (unfold rup; Z.div_mod_to_equations; lia).
  destruct (allocuvm_spec end_ v0 root (rup sz) (rup sz + 8192) free T) as (v1 & taken & free' & E1 & Ef & _ & K1 & U1);
    rewrite ?R1, ?R2; try done; try lia.
  { replace (rup sz + 8192 - rup sz) with 8192 by lia. change (Z.to_nat (8192 / 4096)) with 2%nat. lia. }
  rewrite R1, R2 in U1.
  destruct (clearpteu_spec end_ v1 root free' (rup sz) (tk_tree _ _ _ _ _ _ K1)) as (v2 & E2 & K2 & U2).
  { unfold user. lia. }
  { rewrite U1 by (unfold user; lia). by replace (_ && _) with true by lia. }
  exists v1, v2, taken, free'. split; [exact E1|]. split; [exact E2|]. split; [exact Ef|]. split.
  { rewrite <- (app_nil_r taken). by apply (took_trans end_ v0 v1 v2 root taken [] free' free'). }
  intros a Ha. rewrite U2, U1 by done. clear - R3 Ha. destruct (Z.eqb_spec (a / 4096) (rup sz / 4096)) as [E|E].
  - replace ((rup sz <=? a) && (a <? rup sz + 8192)) with true by (Z.div_mod_to_equations; lia).
    by replace ((rup sz <=? a) && (a <? rup sz + 4096)) with true by (Z.div_mod_to_equations; lia).
  - by replace ((rup sz <=? a) && (a <? rup sz + 4096)) with false by (Z.div_mod_to_equations; lia).
Qed.

(** The old address space after work on the new one. *)
Lemma old_space end_ v0 v2 root old taken free' :
  took end_ v0 v2 root taken free' -> Forall (page end_) (pages 4 (vram v0) root ++ taken) ->
  good end_ 4 (vram v0) old -> separate v0 old root (taken ++ free') ->
  tree end_ 4 v2 old free' /\ pages 4 (vram v2) old = pages 4 (vram v0) old
  /\ (forall t, t ∈ pages 4 (vram v2) root -> t ∉ pages 4 (vram v2) old).
Proof.
  intros K Hpg Hg Hsep.
  destruct (space_frame end_ v0 v2 old (pages 4 (vram v0) root ++ taken) Hg (tk_only _ _ _ _ _ _ K) Hpg) as (P & G & _).
  { intros t Ht. destruct (Hsep t Ht) as [H1 H2]. rewrite elem_of_app in H1. rewrite elem_of_app. intros [?|?]; [done|].
    apply H1. by left. }
  split; [|split; [exact P|]].
  - split; [exact G|exact (tr_free _ _ _ _ _ (tk_tree _ _ _ _ _ _ K))|]. intros t. rewrite P. intros Ht Hf.
    destruct (Hsep t Ht) as [H1 _]. apply H1, elem_of_app. by right.
  - intros t. rewrite P, (tk_pages _ _ _ _ _ _ K), elem_of_app. intros Ht Ho. destruct (Hsep t Ho) as [H1 H2].
    rewrite elem_of_app in H1. destruct Ht as [Ht|Ht]; [apply H1; left; exact Ht|exact (H2 Ht)].
Qed.

(** Freeing the old address space under the new one. *)
Lemma free_old end_ v2 root old free' ks :
  tree end_ 4 v2 root free' -> tree end_ 4 v2 old free' ->
  (forall t, t ∈ pages 4 (vram v2) root -> t ∉ pages 4 (vram v2) old) ->
  exists v3 v4 free4, switchuvm root ks v2 = Ok (tt, v3) /\ freevm end_ old v3 = Ok (tt, v4)
  /\ cr3 v4 = V2P root /\ tree end_ 4 v4 root free4
  /\ (forall a, user a -> uview v4 root a = uview v2 root a)
  /\ pages 4 (vram v4) root = pages 4 (vram v2) root /\ free4 ≡ₚ pages 4 (vram v2) old ++ free'.
Proof.
  intros T To Hd.
  destruct (switchuvm_ok root ks v2) as (v3 & E3 & Ek & Ec).
  { pose proof (good_root _ _ _ _ (tr_good _ _ _ _ _ T)) as H. apply page_range in H. lia. }
  assert (vram v3 = vram v2) as Em by (unfold vram; by rewrite Ek).
  destruct (freevm_spec end_ v3 old free' (tree_km end_ 4 v2 v3 old free' Ek To)) as (v4 & free4 & E4 & R & K & P & O).
  rewrite Em in *.
  pose proof (tr_good _ _ _ _ _ (tree_km end_ 4 v2 v3 root free' Ek T)) as G3.
  destruct (space_frame end_ v3 v4 root (pages 4 (vram v2) old) G3) as (P4 & G4 & U4).
  { by rewrite Em. }
  { apply (gd_page _ _ _ _ (tr_good _ _ _ _ _ To)). }
  { by rewrite Em. }
  rewrite Em in P4. exists v3, v4, free4. split; [exact E3|]. split; [exact E4|].
  split; [rewrite R; exact Ec|]. split; [|split; [|split; [exact P4|exact P]]].
  - split; [exact G4|exact K|]. intros t. rewrite P4, P, elem_of_app. intros Ht [Ho|Hf].
    + exact (Hd t Ht Ho).
    + exact (tr_apart _ _ _ _ _ T t Ht Hf).
  - intros a Ha. rewrite U4 by done. by apply uview_km.
Qed.

(** C14: [exec] leaves a program ready to run.  With the segments loaded below [sz],
    memory enough and arguments that fit a page, the rest of [exec] succeeds: the
    process runs on the new page table; [main]'s registers and stack give exactly
    the argument strings, NUL-terminated, through a vector closed by a null
    pointer; the loaded segments are untouched; the page below the stack is out of
    the program's reach; and every page of the old address space is back on the
    free list, none lost and none shared. *)
Theorem exec_image_ready end_ root path argv entry sz s free :
  KERNBASE < end_ -> tree end_ 4 (kvm s) root free -> good end_ 4 (vram (kvm s)) (Syscall.pgdir (space s)) ->
  separate (kvm s) (Syscall.pgdir (space s)) root free ->
  0 <= sz -> rup sz + 8192 < 2 ^ 47 - 4096 -> (8 <= length free)%nat ->
  (forall a, rup sz <= a < rup sz + 8192 -> uview (kvm s) root a = None) ->
  Forall is_cstr argv -> Z.of_nat (length argv) <= MAXARG ->
  args_room argv + 8 * (Z.of_nat (length argv) + 2) <= 4096 ->
  exists s', exec_image end_ root path argv entry sz s = Ok (Some tt, s')
  /\ space s' = mkPspace root (rup sz + 8192) (kstack (space s)) /\ cr3 (kvm s') = V2P root
  /\ e_rdi (eframe s') = Z.of_nat (length argv) /\ e_rip (eframe s') = entry
  /\ main_stack (kvm s') root (e_rsp (eframe s')) (e_rsi (eframe s')) argv
  /\ (forall a, 0 <= a < rup sz -> uview (kvm s') root a = uview (kvm s) root a)
  /\ (forall a, rup sz <= a < rup sz + 4096 -> ubyte (kvm s') root a = None)
  /\ exists free', tree end_ 4 (kvm s') root free'
     /\ pages 4 (vram (kvm s')) root ++ free'
        ≡ₚ pages 4 (vram (kvm s)) (Syscall.pgdir (space s)) ++ pages 4 (vram (kvm s)) root ++ free.
Proof.
  intros Hend T Go Hsep Hsz Htop Hfree Hnone Hc Hargc Hroom. set (old := Syscall.pgdir (space s)) in *.
  destruct (image_space end_ (kvm s) root free sz T Hsz Htop Hfree Hnone)
    as (v1 & v2 & taken & free' & E1 & E2 & -> & K2 & U2).
  assert (sz <= rup sz /\ rup sz mod 4096 = 0) as [R1 R2] by (unfold rup; Z.div_mod_to_equations; lia).
  destruct (stack_spec end_ v2 root free' argv (rup sz + 8192) (tk_tree _ _ _ _ _ _ K2) Hc Hargc)
    as (v3 & v4 & ps & E3 & E4 & K4 & U4 & MS); [Z.div_mod_to_equations; lia|lia|done| |].
  { intros a Ha. exists 7, 0. rewrite U2 by (unfold user; lia). replace (_ && (a <? rup sz + 4096)) with false by lia.
    by replace (_ && _) with true by lia. }
  pose proof (took_trans end_ (kvm s) v2 v4 root taken [] free' free' K2 K4) as K. rewrite app_nil_r in K.
  destruct (old_space end_ (kvm s) v4 root old taken free' K) as (To & Po & Hd); [|done|done|].
  { apply Forall_app. split; [apply (gd_page _ _ _ _ (tr_good _ _ _ _ _ T))|].
    pose proof (ki_page _ _ _ (tr_free _ _ _ _ _ T)) as H. by apply Forall_app in H as [? _]. }
  destruct (free_old end_ v4 root old free' (kstack (space s)) (tk_tree _ _ _ _ _ _ K) To Hd)
    as (v5 & v6 & free6 & E5 & E6 & Ec & T6 & U6 & P6 & F6).
  assert (root <> 0) as Hr by (pose proof (good_root _ _ _ _ (tr_good _ _ _ _ _ T)) as H; apply page_range in H; lia).
  eexists. split.
  { unfold exec_image. rewrite PGROUNDUP_spec by (unfold PGSIZE; lia). change (PGSIZE - 1) with 4095.
    change PGSIZE with 4096. fold (rup sz). cbv zeta. rewrite u64_id by lia.
    erewrite bind_ok by (apply on_vm_ok; exact E1). rewrite (proj2 (Z.eqb_neq _ 0)) by lia.
    replace (u64 (rup sz + 8192 - 2 * 4096)) with (rup sz) by (rewrite u64_id; lia).
    erewrite bind_ok by (apply on_vm_ok; exact E2). erewrite bind_ok by (apply on_vm_ok; exact E3). cbn beta iota.
    erewrite bind_ok by reflexivity. erewrite bind_ok by (apply on_vm_ok; exact E4). cbn [Z.ltb Z.compare].
    erewrite bind_ok by reflexivity. erewrite bind_ok by reflexivity.
    erewrite bind_ok by (apply on_vm_ok; exact E5). erewrite bind_ok by (apply on_vm_ok; exact E6). reflexivity. }
  cbn [space kvm eframe e_rdi e_rip e_rsp e_rsi with_kvm]. split; [done|]. split; [exact Ec|]. split; [done|]. split; [done|].
  split; [by apply (main_stack_view v4)|]. split; [|split].
  - intros a Ha. assert (user a) as Hu by (unfold user; lia). rewrite U6, U4, U2 by (done || lia).
    replace (_ && (a <? rup sz + 4096)) with false by lia. by replace (_ && _) with false by lia.
  - intros a Ha. assert (user a) as Hu by (unfold user; lia). unfold ubyte. rewrite U6, U4, U2 by (done || lia).
    by replace (_ && _) with true by lia.
  - exists free6. split; [exact T6|]. rewrite P6, F6, Po, (tk_pages _ _ _ _ _ _ K).
    rewrite (app_assoc (taken ++ _)), (Permutation_app_comm (taken ++ _)), <- !app_assoc. apply Permutation_app_head.
    rewrite !app_assoc. apply Permutation_app_tail. apply Permutation_app_comm.
Qed.

(** Two address spaces on the small machine. *)
Lemma demo_two : exists v old root free, tree demo_end 4 v root free /\ good demo_end 4 (vram v) old
  /\ separate v old root free /\ (8 <= length free)%nat /\ forall a, user a -> uview v root a = None.
Proof.
  destruct demo_pages_ok as [Hnd Hpg]. destruct (some_pages demo_end demo_pages Hnd Hpg) as (k & Hk & Hb).
  destruct demo_pages as [|d [|e free]] eqn:E; [discriminate..|].
  assert (length free = 10%nat) as Hl by (by injection E as _ _ <-).
  destruct (setupkvm_spec demo_end (mkVm k 0 0 0 0 0) d (e :: free) Hk) as (s1 & E1 & _ & T1 & P1 & _).
  destruct (setupkvm_spec demo_end s1 e free (tr_free _ _ _ _ _ T1)) as (s2 & E2 & _ & T2 & P2 & _ & O2 & U2).
  assert (d ∉ e :: free) as Hde by (by apply NoDup_cons in Hnd as [? _]).
  destruct (space_frame demo_end s1 s2 d [e] (tr_good _ _ _ _ _ T1) O2) as (P3 & G3 & _).
  { apply Forall_singleton. exact (good_root _ _ _ _ (tr_good _ _ _ _ _ T2)). }
  { rewrite P1. intros t ->%list_elem_of_singleton ->%list_elem_of_singleton. apply Hde. left. }
  exists s2, d, e, free. split; [exact T2|]. split; [exact G3|]. split; [|split; [lia|exact U2]].
  intros t. rewrite P3, P1, P2. intros ->%list_elem_of_singleton. split.
  - intros Hf. apply Hde. right. exact Hf.
  - intros ->%list_elem_of_singleton. apply Hde. left.
Qed.

Lemma exec_image_ready_witness : exists s root s',
  exec_image demo_end root (cstr "/echo") [cstr "echo"; cstr "hi"] 4096 4096 s = Ok (Some tt, s')
  /\ e_rdi (eframe s') = 2
  /\ main_stack (kvm s') root (e_rsp (eframe s')) (e_rsi (eframe s')) [cstr "echo"; cstr "hi"].
Proof.
  destruct demo_two as (v & old & root & free & T & G & Hsep & Hl & U).
  destruct (exec_image_ready demo_end root (cstr "/echo") [cstr "echo"; cstr "hi"] 4096 4096
    (mkK (demo_fs 0) v (mkPspace old 4096 0) (mkRegs 0 0 0 0 0) []) free) as (s' & E & _ & _ & Hd & _ & M & _).
  - unfold demo_end, KERNBASE. lia.
  - exact T.
  - exact G.
  - exact Hsep.
  - lia.
  - change (rup 4096) with 4096. lia.
  - exact Hl.
  - intros a Ha. change (rup 4096) with 4096 in Ha. apply U. unfold user. lia.
  - change (cstr "echo") with [101; 99; 104; 111]. change (cstr "hi") with [104; 105].
    repeat (apply Forall_cons_2; [unfold is_cstr; repeat (apply Forall_cons_2; [lia|]); apply Forall_nil_2|]). apply Forall_nil_2.
  - unfold MAXARG. cbn. lia.
  - vm_compute. congruence.
  - eexists _, root, s'. split; [exact E|]. split; [exact Hd|exact M].
Defined.
