(* ===== verification/Sh.v ===== *)
(** Model of the command parser of src/sh.c.

    The command line is one buffer of bytes ending in a NUL; a [char*] into it
    is an index, [es] the index of the NUL.  Commands hold pointers into the
    buffer, as in the code, and [nulterminate] overwrites the byte after each
    string.  [panic] prints and exits, so it is the outcome [Panic].  [malloc]
    is taken to succeed.  [Fault] is an access outside the buffer. *)
From stdpp Require Import base strings numbers list.
From S2P Require Import Prelude CString.
Local Open Scope Z_scope.

Definition MAXARGS : Z := 32.
Definition O_RDONLY : Z := 0.
Definition O_WRONLY : Z := 1.
Definition O_CREATE : Z := 512.

(** A string under construction is a pair of pointers: its first byte and the
    byte after it ([argv]/[eargv], [file]/[efile]). *)
Inductive cmd : Type :=
  | EXEC (argv : list (Z * Z))
  | REDIR (c : cmd) (file : Z * Z) (mode fd : Z)
  | PIPE (left right : cmd)
  | LIST (left right : cmd)
  | BACK (c : cmd).

(** The constructors of the code: a node with its other fields zero. *)
Definition execcmd : cmd := EXEC [].
Definition redircmd (subcmd : cmd) (file : Z * Z) (mode fd : Z) : cmd := REDIR subcmd file mode fd.
Definition pipecmd (left right : cmd) : cmd := PIPE left right.
Definition listcmd (left right : cmd) : cmd := LIST left right.
Definition backcmd (subcmd : cmd) : cmd := BACK subcmd.

Definition whitespace : list Z := [32; 9; 13; 10; 11].
Definition symbols : list Z := cstr "<|>&;()".

Definition is_in (toks : list Z) (c : Z) : bool :=
  match strchr toks c with Some _ => true | None => false end.

(** [while(s < es && p( *s)) s++], with [n = es - s]. *)
Fixpoint scan (p : Z -> bool) (buf : list Z) (n : nat) (s : Z) : res Z :=
  match n with
  | O => Ok s
  | S n => c ← buf_get buf s; if p c then scan p buf n (s + 1) else Ok s
  end.

Definition skip_ws (buf : list Z) (es s : Z) : res Z :=
  scan (is_in whitespace) buf (Z.to_nat (es - s)) s.

Definition word_char (c : Z) : bool := negb (is_in whitespace c) && negb (is_in symbols c).

(** The token code, its bounds [q] and [eq], and the new position. *)
Definition gettoken (buf : list Z) (es s : Z) : res (Z * (Z * Z) * Z) :=
  s ← skip_ws buf es s;
  let q := s in
  c ← buf_get buf s;
  '(ret, s) ←
    (if c =? 0 then Ok (c, s)
     else if is_in (cstr "|();&<") c then Ok (c, s + 1)
     else if c =? 62 then
       c' ← buf_get buf (s + 1);
       Ok (if c' =? 62 then (43, s + 2) else (c, s + 1))
     else
       s ← scan word_char buf (Z.to_nat (es - s)) s;
       Ok (97, s));
  let eq := s in
  s ← skip_ws buf es s;
  Ok (ret, (q, eq), s).

Definition peek (buf : list Z) (es s : Z) (toks : list Z) : res (bool * Z) :=
  s ← skip_ws buf es s;
  c ← buf_get buf s;
  Ok (negb (c =? 0) && is_in toks c, s).

(** [parseredirs]: one round of its loop, and the loop. *)
Definition redirect (tok : Z) (c : cmd) (file : Z * Z) : cmd :=
  if tok =? 60 then redircmd c file O_RDONLY 0
  else if tok =? 62 then redircmd c file (Z.lor O_WRONLY O_CREATE) 1
  else if tok =? 43 then redircmd c file (Z.lor O_WRONLY O_CREATE) 1
  else c.

Fixpoint parseredirs (fuel : nat) (buf : list Z) (es : Z) (c : cmd) (s : Z) : res (cmd * Z) :=
  '(b, s) ← peek buf es s (cstr "<>");
  if (b : bool) then
    match fuel with
    | O => NoFuel
    | S fuel =>
        '(tok, _, s) ← gettoken buf es s;
        '(t, file, s) ← gettoken buf es s;
        if negb (t =? 97) then Panic "missing file for redirection"
        else parseredirs fuel buf es (redirect tok c file) s
    end
  else Ok (c, s).

(** In [parseexec], [cmd] points to the [EXEC] node inside [ret], which
    [parseredirs] may have wrapped: [add_arg] stores the next argument there. *)
Fixpoint add_arg (ret : cmd) (a : Z * Z) : cmd :=
  match ret with
  | EXEC argv => EXEC (argv ++ [a])
  | REDIR c file mode fd => REDIR (add_arg c a) file mode fd
  | _ => ret
  end.

Fixpoint parseargs (fuel : nat) (buf : list Z) (es : Z) (argc : Z) (ret : cmd) (s : Z)
    : res (cmd * Z) :=
  '(b, s) ← peek buf es s (cstr "|)&;");
  if (b : bool) then Ok (ret, s) else
  match fuel with
  | O => NoFuel
  | S fuel =>
      '(tok, a, s) ← gettoken buf es s;
      if tok =? 0 then Ok (ret, s)
      else if negb (tok =? 97) then Panic "syntax"
      else
        let ret := add_arg ret a in
        let argc := argc + 1 in
        if MAXARGS <=? argc then Panic "too many args"
        else
          '(ret, s) ← parseredirs (S (Z.to_nat (es - s))) buf es ret s;
          parseargs fuel buf es argc ret s
  end.

(** The [&] loop of [parseline]. *)
Fixpoint parseback (fuel : nat) (buf : list Z) (es : Z) (c : cmd) (s : Z) : res (cmd * Z) :=
  '(b, s) ← peek buf es s (cstr "&");
  if (b : bool) then
    match fuel with
    | O => NoFuel
    | S fuel => '(_, _, s) ← gettoken buf es s; parseback fuel buf es (backcmd c) s
    end
  else Ok (c, s).

(** The recursive functions.  [fuel] bounds the depth of the calls. *)
Fixpoint parseline (fuel : nat) (buf : list Z) (es s : Z) : res (cmd * Z) :=
  match fuel with
  | O => NoFuel
  | S fuel =>
      '(c, s) ← parsepipe fuel buf es s;
      '(c, s) ← parseback (S (Z.to_nat (es - s))) buf es c s;
      '(b, s) ← peek buf es s (cstr ";");
      if (b : bool) then
        '(_, _, s) ← gettoken buf es s;
        '(c', s) ← parseline fuel buf es s;
        Ok (listcmd c c', s)
      else Ok (c, s)
  end
with parsepipe (fuel : nat) (buf : list Z) (es s : Z) : res (cmd * Z) :=
  match fuel with
  | O => NoFuel
  | S fuel =>
      '(c, s) ← parseexec fuel buf es s;
      '(b, s) ← peek buf es s (cstr "|");
      if (b : bool) then
        '(_, _, s) ← gettoken buf es s;
        '(c', s) ← parsepipe fuel buf es s;
        Ok (pipecmd c c', s)
      else Ok (c, s)
  end
with parseexec (fuel : nat) (buf : list Z) (es s : Z) : res (cmd * Z) :=
  match fuel with
  | O => NoFuel
  | S fuel =>
      '(b, s) ← peek buf es s (cstr "(");
      if (b : bool) then parseblock fuel buf es s
      else
        '(ret, s) ← parseredirs (S (Z.to_nat (es - s))) buf es execcmd s;
        parseargs (S (Z.to_nat (es - s))) buf es 0 ret s
  end
with parseblock (fuel : nat) (buf : list Z) (es s : Z) : res (cmd * Z) :=
  match fuel with
  | O => NoFuel
  | S fuel =>
      '(b, s) ← peek buf es s (cstr "(");
      if negb b then Panic "parseblock" else
      '(_, _, s) ← gettoken buf es s;
      '(c, s) ← parseline fuel buf es s;
      '(b, s) ← peek buf es s (cstr ")");
      if negb b then Panic "syntax - missing )" else
      '(_, _, s) ← gettoken buf es s;
      parseredirs (S (Z.to_nat (es - s))) buf es c s
  end.

Fixpoint nul_all (ps : list (Z * Z)) (buf : list Z) : res (list Z) :=
  match ps with
  | [] => Ok buf
  | (_, e) :: ps => buf ← buf_set buf e 0; nul_all ps buf
  end.

Fixpoint nulterminate (c : cmd) (buf : list Z) : res (list Z) :=
  match c with
  | EXEC argv => nul_all argv buf
  | REDIR c (_, efile) _ _ => buf ← nulterminate c buf; buf_set buf efile 0
  | PIPE l r | LIST l r => buf ← nulterminate l buf; nulterminate r buf
  | BACK c => nulterminate c buf
  end.

(** The parsed command and the buffer its strings live in. *)
Definition parsecmd (buf : list Z) : res (cmd * list Z) :=
  let es := Z.of_nat (length (c_string buf)) in
  '(c, s) ← parseline (4 * length (c_string buf) + 4) buf es 0;
  '(_, s) ← peek buf es s [];
  if negb (s =? es) then Panic "syntax"
  else buf ← nulterminate c buf; Ok (c, buf).
