(* ===== verification/ShParse.v ===== *)
(** Properties of the command parser of src/sh.c: it never leaves the buffer
    and always ends, and it parses every command line of the grammar. *)
From stdpp Require Import base strings numbers list sets.
From S2P Require Import Prelude CString Sh.
Local Open Scope Z_scope.

(** * Text at a position of the buffer *)

Fixpoint take_while (p : Z -> bool) (l : list Z) : list Z :=
  match l with [] => [] | c :: l => if p c then c :: take_while p l else [] end.
Fixpoint drop_while (p : Z -> bool) (l : list Z) : list Z :=
  match l with [] => [] | c :: l' => if p c then drop_while p l' else l end.

Lemma take_drop_while p l : l = take_while p l ++ drop_while p l.
Proof. induction l as [|c l IH]; simpl; [done|]. destruct (p c); simpl; congruence. Qed.
Lemma take_while_all p l : Forall (fun c => p c = true) (take_while p l).
Proof.
  induction l as [|c l IH]; simpl; [apply Forall_nil_2|].
  destruct (p c) eqn:E; [by constructor|apply Forall_nil_2].
Qed.
Lemma drop_while_head p l c t : drop_while p l = c :: t -> p c = false.
Proof.
  induction l as [|x l IH]; simpl; [done|]. destruct (p x) eqn:E; [done|]. congruence.
Qed.
Lemma drop_while_idem p l : drop_while p (drop_while p l) = drop_while p l.
Proof. induction l as [|c l IH]; simpl; [done|]. destruct (p c) eqn:E; simpl; [done|by rewrite E]. Qed.
Lemma drop_while_app p l r :
  Forall (fun c => p c = true) l -> drop_while p (l ++ r) = drop_while p r.
Proof. induction 1 as [|c l Hc _ IH]; simpl; [done|]. by rewrite Hc. Qed.
Lemma take_while_app p l r :
  Forall (fun c => p c = true) l -> take_while p (l ++ r) = l ++ take_while p r.
Proof. induction 1 as [|c l Hc _ IH]; simpl; [done|]. by rewrite Hc, IH. Qed.

Lemma is_in_cons x l c : is_in (x :: l) c = (x =? c) || is_in l c.
Proof. unfold is_in. simpl. by destruct (x =? c). Qed.

(** Replace the character classes by the lists of their characters. *)
Ltac unfold_toks :=
  unfold symbols in *;
  repeat match goal with
  | |- context [cstr ?t] => let l := eval vm_compute in (cstr t) in change (cstr t) with l
  | H : context [cstr ?t] |- _ =>
      let l := eval vm_compute in (cstr t) in change (cstr t) with l in H
  end.

Section Line.
Context (buf : list Z) (es : Z).

(** [text] is what lies between position [s] and the final NUL at [es]. *)
Record line_at (s : Z) (text : list Z) : Prop := {
  la_pos : 0 <= s;
  la_end : es = s + Z.of_nat (length text);
  la_nonul : Forall (fun c => c <> 0) text;
  la_buf : exists junk, drop (Z.to_nat s) buf = text ++ 0 :: junk }.

Lemma line_at_get_cons s c text :
  line_at s (c :: text) -> buf_get buf s = Ok c /\ line_at (s + 1) text.
Proof.
  intros [Hp He Hn [junk Hb]]. split.
  - apply buf_get_ok; [done|]. pose proof (lookup_drop buf (Z.to_nat s) 0) as H.
    rewrite Hb, Nat.add_0_r in H. by rewrite <- H.
  - apply Forall_cons in Hn as [_ Hn]. simpl in He. constructor; [lia|lia|done|].
    exists junk. replace (Z.to_nat (s + 1)) with (Z.to_nat s + 1)%nat by lia.
    by rewrite <- drop_drop, Hb.
Qed.

Lemma line_at_get_nil s : line_at s [] -> buf_get buf s = Ok 0 /\ s = es.
Proof.
  intros [Hp He _ [junk Hb]]. simpl in *. split; [|lia].
  apply buf_get_ok; [done|]. pose proof (lookup_drop buf (Z.to_nat s) 0) as H.
  rewrite Hb, Nat.add_0_r in H. by rewrite <- H.
Qed.

Lemma line_at_app s l r : line_at s (l ++ r) -> line_at (s + Z.of_nat (length l)) r.
Proof.
  revert s. induction l as [|c l IH]; intros s H; cbn [length].
  - by rewrite Z.add_0_r.
  - apply line_at_get_cons in H as [_ H]. apply IH in H.
    by replace (s + Z.of_nat (S (length l))) with (s + 1 + Z.of_nat (length l)) by lia.
Qed.

Lemma line_at_lookup s l c r :
  line_at s (l ++ c :: r) -> buf !! Z.to_nat (s + Z.of_nat (length l)) = Some c.
Proof.
  intros H%line_at_app. pose proof (line_at_get_cons _ _ _ H) as [Hg _].
  unfold buf_get in Hg. destruct (0 <=? _); [|done]. by destruct (buf !! _); simplify_eq.
Qed.

Lemma scan_spec p s text :
  line_at s text ->
  scan p buf (length text) s = Ok (s + Z.of_nat (length (take_while p text)))
  /\ line_at (s + Z.of_nat (length (take_while p text))) (drop_while p text).
Proof.
  revert s. induction text as [|c text IH]; intros s H;
    cbn [length scan take_while drop_while].
  - by rewrite Z.add_0_r.
  - pose proof (line_at_get_cons _ _ _ H) as [-> H']. ok. destruct (p c) eqn:E; cbn [length].
    + destruct (IH _ H') as [-> Hl].
      by replace (s + Z.of_nat (S (length (take_while p text))))
        with (s + 1 + Z.of_nat (length (take_while p text))) by lia.
    + by rewrite Z.add_0_r.
Qed.

Lemma line_at_len s text : line_at s text -> Z.to_nat (es - s) = length text.
Proof. intros [_ -> _ _]. lia. Qed.

Notation blank := (is_in whitespace).

Lemma skip_ws_spec s text :
  line_at s text ->
  exists s', skip_ws buf es s = Ok s' /\ s <= s' /\ line_at s' (drop_while blank text).
Proof.
  intros H. unfold skip_ws. rewrite (line_at_len _ _ H).
  destruct (scan_spec blank _ _ H) as [-> Hl]. eexists; split; [done|]. split; [lia|done].
Qed.

(** The next token of a text: its code, its characters, and what follows. *)
Definition lex (text : list Z) : Z * list Z * list Z :=
  match drop_while blank text with
  | [] => (0, [], [])
  | c :: t =>
      if is_in (cstr "|();&<") c then (c, [c], t)
      else if c =? 62 then
        match t with
        | c' :: t' => if c' =? 62 then (43, [c; c'], t') else (c, [c], t)
        | [] => (c, [c], t)
        end
      else (97, take_while word_char (c :: t), drop_while word_char (c :: t))
  end.

Lemma peek_spec s text toks :
  line_at s text ->
  exists s', peek buf es s toks
      = Ok (match drop_while blank text with c :: _ => is_in toks c | [] => false end, s')
    /\ s <= s' /\ line_at s' (drop_while blank text).
Proof.
  intros H. unfold peek. destruct (skip_ws_spec _ _ H) as (s' & -> & Hle & Hl). ok.
  exists s'. destruct (drop_while blank text) as [|c t] eqn:E.
  - destruct (line_at_get_nil _ Hl) as [-> _]. done.
  - destruct (line_at_get_cons _ _ _ Hl) as [-> _]. ok. split; [|done].
    pose proof (la_nonul _ _ Hl) as Hn. apply Forall_cons in Hn as [Hn _].
    by replace (c =? 0) with false by lia.
Qed.

Lemma gettoken_spec s text :
  line_at s text ->
  exists q s', gettoken buf es s
      = Ok (fst (fst (lex text)), (q, q + Z.of_nat (length (snd (fst (lex text))))), s')
    /\ s <= q /\ q + Z.of_nat (length (snd (fst (lex text)))) <= s'
    /\ line_at q (snd (fst (lex text)) ++ snd (lex text))
    /\ line_at s' (drop_while blank (snd (lex text))).
Proof.
  intros H. unfold gettoken, lex. destruct (skip_ws_spec _ _ H) as (q & -> & Hle & Hl). ok.
  exists q.
  assert (Hdone : forall (ret : Z) tok rest, line_at q (tok ++ rest) ->
    exists s', (s'' ← skip_ws buf es (q + Z.of_nat (length tok));
                Ok (ret, (q, q + Z.of_nat (length tok)), s'')) = Ok (ret, (q, q + Z.of_nat (length tok)), s')
      /\ s <= q /\ q + Z.of_nat (length tok) <= s' /\ line_at q (tok ++ rest)
      /\ line_at s' (drop_while blank rest)).
  { intros ret tok rest Ht. destruct (skip_ws_spec _ _ (line_at_app _ _ _ Ht)) as (s' & -> & ? & ?).
    exists s'. done. }
  destruct (drop_while blank text) as [|c t] eqn:E.
  - destruct (line_at_get_nil _ Hl) as [-> Hq]. ok.
    destruct (Hdone 0 [] [] Hl) as (s' & He & Hr). cbn [length fst snd] in *.
    rewrite Z.add_0_r in *. exists s'. by rewrite <- He.
  - destruct (line_at_get_cons _ _ _ Hl) as [-> Hl']. ok.
    pose proof (la_nonul _ _ Hl) as Hn. apply Forall_cons in Hn as [Hn _].
    replace (c =? 0) with false by lia. destruct (is_in (cstr "|();&<") c); [|bcase].
    + apply (Hdone c [c] t Hl).
    + destruct t as [|c' t'].
      * destruct (line_at_get_nil _ Hl') as [-> _]. ok. apply (Hdone c [c] [] Hl).
      * destruct (line_at_get_cons _ _ _ Hl') as [-> _]. ok. bcase.
        -- apply (Hdone 43 [c; c'] t' Hl).
        -- apply (Hdone c [c] (c' :: t') Hl).
    + rewrite (line_at_len _ _ Hl). destruct (scan_spec word_char _ _ Hl) as [-> _]. ok.
      cbn [fst snd]. apply (Hdone 97 (take_while word_char (c :: t))).
      by rewrite <- take_drop_while.
Qed.

(** * Strings of a parsed command *)

Definition is_word (c : Z) : Prop := word_char c = true /\ c <> 0.

(** A pair of pointers around a non-empty run of word characters. *)
Record good_str (p : Z * Z) : Prop := {
  gs_pos : 0 <= fst p < snd p;
  gs_in : forall i, fst p <= i < snd p ->
    exists c, buf !! Z.to_nat i = Some c /\ is_word c;
  gs_end : exists c, buf !! Z.to_nat (snd p) = Some c /\ ~ is_word c }.

Fixpoint wf_cmd (c : cmd) : Prop :=
  match c with
  | EXEC argv => Forall good_str argv /\ Z.of_nat (length argv) < MAXARGS
  | REDIR c file _ _ => wf_cmd c /\ good_str file
  | PIPE l r | LIST l r => wf_cmd l /\ wf_cmd r
  | BACK c => wf_cmd c
  end.

Lemma lex_consumes text : fst (fst (lex text)) <> 0 -> snd (fst (lex text)) <> [].
Proof.
  unfold lex. destruct (drop_while blank text) as [|c t] eqn:E; [done|].
  pose proof (drop_while_head _ _ _ _ E) as Hb.
  destruct (is_in (cstr "|();&<") c) eqn:E1; [done|]. destruct (c =? 62) eqn:E2.
  - destruct t as [|c' t']; [done|]. by destruct (c' =? 62).
  - intros _. cbn [fst snd take_while].
    assert (word_char c = true) as ->; [|done].
    unfold word_char. rewrite Hb. unfold_toks. rewrite !is_in_cons in *.
    change (is_in [] c) with false in *. lia.
Qed.

Lemma lex_nonblank c t : blank c = false -> c <> 0 -> fst (fst (lex (c :: t))) <> 0.
Proof.
  intros Hb Hc. unfold lex. simpl. rewrite Hb. destruct (is_in (cstr "|();&<") c); [done|].
  bcase; [|done]. destruct t as [|c' t']; [done|]. by destruct (c' =? 62).
Qed.

Lemma lex_word text :
  fst (fst (lex text)) = 97 ->
  Forall (fun c => word_char c = true) (snd (fst (lex text)))
  /\ forall c t, snd (lex text) = c :: t -> word_char c = false.
Proof.
  unfold lex. destruct (drop_while blank text) as [|c t] eqn:E; [done|].
  destruct (is_in (cstr "|();&<") c) eqn:E1.
  - simpl. intros ->. done.
  - destruct (c =? 62) eqn:E2.
    + destruct t as [|c' t']; [simpl; lia|]. destruct (c' =? 62); simpl; lia.
    + intros _. cbn [fst snd]. split; [apply take_while_all|].
      intros x r H. by apply drop_while_head in H.
Qed.

Lemma good_str_intro q tok rest :
  line_at q (tok ++ rest) -> tok <> [] -> Forall (fun c => word_char c = true) tok ->
  (forall c t, rest = c :: t -> word_char c = false) ->
  good_str (q, q + Z.of_nat (length tok)).
Proof.
  intros Hl Hne Hw Hr. pose proof (la_pos _ _ Hl). pose proof (la_nonul _ _ Hl) as Hn.
  apply Forall_app in Hn as [Hn _]. constructor; cbn [fst snd].
  - destruct tok; [done|]. cbn [length]. lia.
  - intros i Hi. destruct (lookup_lt_is_Some_2 tok (Z.to_nat (i - q))) as [c Hc]; [lia|].
    exists c. pose proof (Forall_lookup_1 _ _ _ _ Hw Hc). pose proof (Forall_lookup_1 _ _ _ _ Hn Hc).
    split; [|done]. apply list_elem_of_split_length in Hc as (l1 & l2 & -> & Hlen).
    rewrite <- app_assoc in Hl. simpl in Hl. apply line_at_lookup in Hl.
    by replace (q + Z.of_nat (length l1)) with i in Hl by lia.
  - destruct rest as [|c t].
    + apply line_at_app, line_at_get_nil in Hl as [Hg _]. exists 0. split; [|by intros []].
      unfold buf_get in Hg. destruct (0 <=? _); [|done]. by destruct (buf !! _); simplify_eq.
    + exists c. split; [by eapply line_at_lookup|]. intros [Hc _].
      by rewrite (Hr _ _ eq_refl) in Hc.
Qed.

(** What a call of the lexer from a sane position guarantees. *)
Definition sane (s : Z) : Prop := exists text, line_at s text.

Lemma sane_le s : sane s -> 0 <= s <= es.
Proof. intros [text [? ? ? ?]]. lia. Qed.

Lemma gettoken_safe s :
  sane s ->
  exists tok p s', gettoken buf es s = Ok (tok, p, s') /\ s <= s' /\ sane s'
    /\ (tok <> 0 -> s < s') /\ (tok = 97 -> good_str p).
Proof.
  intros [text H]. destruct (gettoken_spec _ _ H) as (q & s' & -> & H1 & H2 & H3 & H4).
  pose proof (lex_consumes text) as Hc. pose proof (lex_word text) as Hw.
  destruct (lex text) as [[tok w] rest]. cbn [fst snd] in *.
  eexists _, _, s'. split; [done|]. split; [lia|]. split; [by eexists|]. split.
  - intros Ht. specialize (Hc Ht). destruct w; [done|]. cbn [length] in H2. lia.
  - intros ->. destruct (Hw eq_refl) as [Hw1 Hw2]. apply (good_str_intro _ _ rest); auto.
Qed.

Lemma peek_safe s toks :
  sane s ->
  exists b s', peek buf es s toks = Ok (b, s') /\ s <= s' /\ sane s'
    /\ (b = true -> exists tok p s'', gettoken buf es s' = Ok (tok, p, s'') /\ s' < s'' /\ sane s'').
Proof.
  intros [text H]. destruct (peek_spec _ _ toks H) as (s' & -> & Hle & Hl).
  eexists _, s'. split; [done|]. split; [done|]. split; [by eexists|].
  destruct (drop_while blank text) as [|c t] eqn:E; [done|]. intros _.
  pose proof (drop_while_head _ _ _ _ E) as Hb.
  pose proof (la_nonul _ _ Hl) as Hn. apply Forall_cons in Hn as [Hn _].
  destruct (gettoken_spec _ _ Hl) as (q & s'' & -> & H1 & H2 & H3 & H4).
  pose proof (lex_consumes _ (lex_nonblank c t Hb Hn)) as Hc.
  eexists _, _, s''. split; [done|]. split; [|by eexists].
  destruct (snd (fst (lex (c :: t)))); [done|]. cbn [length] in H2. lia.
Qed.

(** * The parser stays in the buffer and ends *)

(** The outcome of a parsing function called at [s0]: an error message, or a
    command with property [P] and a position not before [s0]. *)
Definition parses (P : cmd -> Prop) (s0 : Z) (r : res (cmd * Z)) : Prop :=
  (exists m, r = Panic m) \/ (exists c s, r = Ok (c, s) /\ s0 <= s /\ sane s /\ P c).

Lemma parses_ok (P : cmd -> Prop) s0 c s :
  s0 <= s -> sane s -> P c -> parses P s0 (Ok (c, s)).
Proof. right. eauto 6. Qed.
Lemma parses_panic P s0 m : parses P s0 (Panic m).
Proof. left. eauto. Qed.
Lemma parses_le P s0 s1 r : s0 <= s1 -> parses P s1 r -> parses P s0 r.
Proof. intros H [?|(c & s & ? & ? & ?)]; [by left|]. right. exists c, s. split; [done|]. split; [lia|done]. Qed.
Lemma parses_bind P Q s0 r f :
  parses P s0 r -> (forall c s, s0 <= s -> sane s -> P c -> parses Q s0 (f (c, s))) ->
  parses Q s0 (r ≫= f).
Proof.
  intros [[m ->]|(c & s & -> & ? & ? & ?)] Hf; [apply parses_panic|]. ok. by apply Hf.
Qed.

(** Step over the [peek] or [gettoken] at the front of the goal. *)
Ltac lex_step :=
  match goal with
  | H : sane ?s |- context [peek buf es ?s ?t] =>
      let b := fresh "b" in let s' := fresh "s" in
      destruct (peek_safe s t H) as (b & s' & -> & ? & ? & ?); ok
  | H : sane ?s |- context [gettoken buf es ?s] =>
      let t := fresh "tok" in let p := fresh "p" in let s' := fresh "s" in
      destruct (gettoken_safe s H) as (t & p & s' & -> & ? & ? & ? & ?); ok
  end.
Ltac lex_token :=
  match goal with
  | H : true = true -> _ |- _ =>
      let t := fresh "tok" in let p := fresh "p" in let s' := fresh "s" in
      let Hs := fresh "Hs" in let E := fresh "E" in
      destruct (H eq_refl) as (t & p & s' & E & ? & Hs); clear H;
      try rewrite E; ok;
      pose proof (sane_le _ Hs)
  end.

Lemma parseredirs_safe (P : cmd -> Prop) :
  (forall tok c p, P c -> good_str p -> P (redirect tok c p)) ->
  forall fuel c s, sane s -> P c -> es - s <= Z.of_nat fuel ->
  parses P s (parseredirs fuel buf es c s).
Proof.
  intros HP. induction fuel as [|fuel IH]; intros c s Hs Hc Hf; cbn [parseredirs];
    lex_step; destruct b; try by apply parses_ok.
  - lex_token. lia.
  - lex_token. lex_step. bcase; [apply parses_panic|].
    apply (parses_le _ _ s2); [lia|]. apply IH; auto; lia.
Qed.

Lemma redirect_wf tok c p : wf_cmd c -> good_str p -> wf_cmd (redirect tok c p).
Proof. intros. unfold redirect. repeat bcase; done. Qed.

(** [ret] is the [EXEC] node with [argc] arguments inside redirections. *)
Fixpoint spine (argc : nat) (ret : cmd) : Prop :=
  match ret with
  | EXEC argv => length argv = argc
  | REDIR c _ _ _ => spine argc c
  | _ => False
  end.

Lemma redirect_spine n tok c p : spine n c -> spine n (redirect tok c p).
Proof. intros. unfold redirect. repeat bcase; done. Qed.

Lemma add_arg_wf n c a :
  wf_cmd c -> spine n c -> good_str a -> Z.of_nat (S n) < MAXARGS ->
  wf_cmd (add_arg c a) /\ spine (S n) (add_arg c a).
Proof.
  induction c as [argv|c IH f m d|l _ r _|l _ r _|c _]; simpl; intros Hw Hs Ha Hn; try done.
  - rewrite length_app. simpl. destruct Hw as [Hw _]. split; [|lia]. split; [|lia].
    apply Forall_app. split; [done|]. constructor; [done|apply Forall_nil_2].
  - destruct Hw as [Hw Hf]. destruct (IH Hw Hs Ha Hn). done.
Qed.

Lemma parseargs_safe fuel n c s :
  sane s -> wf_cmd c -> spine n c -> es - s < Z.of_nat fuel ->
  parses wf_cmd s (parseargs fuel buf es (Z.of_nat n) c s).
Proof.
  revert n c s. induction fuel as [|fuel IH]; intros n c s Hs Hw Hn Hf; cbn [parseargs];
    pose proof (sane_le _ Hs); [lia|].
  lex_step. destruct b; [by apply parses_ok|]. lex_step.
  bcase; [apply parses_ok; [lia|done|done]|]. bcase; [apply parses_panic|].
  bcase; [apply parses_panic|].
  assert (Ha : good_str p) by auto.
  destruct (add_arg_wf n c p Hw Hn Ha) as [Hw' Hn']; [lia|].
  apply (parses_le _ _ s1); [lia|].
  apply (parses_bind (fun c => wf_cmd c /\ spine (S n) c)).
  - apply parseredirs_safe; [|done|done|lia].
    intros t c' p' [] ?. split; [by apply redirect_wf|by apply redirect_spine].
  - intros c' s' Hle Hs' [Hcw Hcs]. apply (parses_le _ _ s'); [lia|].
    replace (Z.of_nat n + 1) with (Z.of_nat (S n)) by lia. apply IH; auto. lia.
Qed.

Lemma parseback_safe fuel c s :
  sane s -> wf_cmd c -> es - s <= Z.of_nat fuel ->
  parses wf_cmd s (parseback fuel buf es c s).
Proof.
  revert c s. induction fuel as [|fuel IH]; intros c s Hs Hc Hf; cbn [parseback];
    lex_step; destruct b; try by apply parses_ok.
  - lex_token. lia.
  - lex_token. apply (parses_le _ _ s1); [lia|]. apply IH; [done|done|lia].
Qed.

Lemma parse_safe fuel :
  (forall s, sane s -> 4 * (es - s) + 3 < Z.of_nat fuel -> parses wf_cmd s (parseline fuel buf es s))
  /\ (forall s, sane s -> 4 * (es - s) + 2 < Z.of_nat fuel -> parses wf_cmd s (parsepipe fuel buf es s))
  /\ (forall s, sane s -> 4 * (es - s) + 1 < Z.of_nat fuel -> parses wf_cmd s (parseexec fuel buf es s))
  /\ (forall s, sane s -> 4 * (es - s) < Z.of_nat fuel -> parses wf_cmd s (parseblock fuel buf es s)).
Proof.
  induction fuel as [|fuel (IHl & IHp & IHe & IHb)].
  { repeat split; intros s Hs Hf; pose proof (sane_le _ Hs); lia. }
  repeat split; intros s Hs Hf; cbn [parseline parsepipe parseexec parseblock].
  - apply (parses_bind wf_cmd); [apply IHp; [done|lia]|]. intros c s1 Hle1 Hs1 Hc1.
    apply (parses_bind wf_cmd).
    { apply (parses_le _ _ s1); [done|]. apply parseback_safe; [done|done|lia]. }
    intros c2 s2 Hle2 Hs2 Hc2. lex_step. destruct b; [|apply parses_ok; [lia|done|done]].
    lex_token. apply (parses_bind wf_cmd).
    { apply (parses_le _ _ s3); [lia|]. apply IHl; [done|lia]. }
    intros c4 s4 ? ? ?. by apply parses_ok.
  - apply (parses_bind wf_cmd); [apply IHe; [done|lia]|]. intros c s1 Hle1 Hs1 Hc1.
    lex_step. destruct b; [|apply parses_ok; [lia|done|done]].
    lex_token. apply (parses_bind wf_cmd).
    { apply (parses_le _ _ s2); [lia|]. apply IHp; [done|lia]. }
    intros c4 s4 ? ? ?. by apply parses_ok.
  - lex_step. apply (parses_le _ _ s0); [done|]. destruct b; [apply IHb; [done|lia]|].
    apply (parses_bind (fun c => wf_cmd c /\ spine 0 c)).
    { apply parseredirs_safe; [|done|done|lia].
      intros t c' p' [] ?. split; [by apply redirect_wf|by apply redirect_spine]. }
    intros c s1 Hle1 Hs1 [Hw Hsp]. apply (parses_le _ _ s1); [done|].
    apply (parseargs_safe _ 0); [done|done|done|lia].
  - lex_step. destruct b; cbn [negb]; [|apply parses_panic]. lex_token.
    apply (parses_bind wf_cmd).
    { apply (parses_le _ _ s1); [lia|]. apply IHl; [done|lia]. }
    intros c s4 ? ? ?. lex_step. destruct b; cbn [negb]; [|apply parses_panic]. lex_token.
    apply (parses_le _ _ s3); [lia|]. apply parseredirs_safe; [|done|done|lia].
    intros. by apply redirect_wf.
Qed.
End Line.

(** * NUL termination *)

(** A command with its strings. *)
Inductive tree : Type :=
  | TExec (argv : list (list Z))
  | TRedir (t : tree) (file : list Z) (mode fd : Z)
  | TPipe (left right : tree)
  | TList (left right : tree)
  | TBack (t : tree).

Fixpoint tree_with (str : Z * Z -> list Z) (c : cmd) : tree :=
  match c with
  | EXEC argv => TExec (map str argv)
  | REDIR c file mode fd => TRedir (tree_with str c) (str file) mode fd
  | PIPE l r => TPipe (tree_with str l) (tree_with str r)
  | LIST l r => TList (tree_with str l) (tree_with str r)
  | BACK c => TBack (tree_with str c)
  end.

(** The C string a pointer refers to, as [runcmd] passes it on. *)
Definition string_at (buf : list Z) (p : Z * Z) : list Z :=
  c_string (drop (Z.to_nat (fst p)) buf).
(** The characters between the two pointers. *)
Definition slice (buf : list Z) (p : Z * Z) : list Z :=
  take (Z.to_nat (snd p - fst p)) (drop (Z.to_nat (fst p)) buf).

Fixpoint ends (c : cmd) : list Z :=
  match c with
  | EXEC argv => map snd argv
  | REDIR c file _ _ => ends c ++ [snd file]
  | PIPE l r | LIST l r => ends l ++ ends r
  | BACK c => ends c
  end.

Definition nulled (es : list Z) (buf : list Z) : list Z :=
  fold_left (fun b e => <[Z.to_nat e := 0]> b) es buf.

Lemma nulled_app l r buf : nulled (l ++ r) buf = nulled r (nulled l buf).
Proof. apply fold_left_app. Qed.
Lemma nulled_length l buf : length (nulled l buf) = length buf.
Proof.
  revert buf. induction l as [|e l IH]; intros buf; [done|].
  change (length (nulled l (<[Z.to_nat e := 0]> buf)) = length buf).
  by rewrite IH, length_insert.
Qed.
Lemma nulled_out l buf i :
  (forall e, e ∈ l -> Z.to_nat e <> i) -> nulled l buf !! i = buf !! i.
Proof.
  revert buf. induction l as [|e l IH]; intros buf H; [done|].
  change (nulled l (<[Z.to_nat e := 0]> buf) !! i = buf !! i). rewrite IH.
  - apply list_lookup_insert_ne. apply H. by left.
  - intros e' He. apply H. by right.
Qed.
Lemma nulled_zero l buf i : buf !! i = Some 0 -> nulled l buf !! i = Some 0.
Proof.
  revert buf. induction l as [|e l IH]; intros buf H; [done|]. apply IH.
  destruct (decide (Z.to_nat e = i)) as [<-|?].
  - apply list_lookup_insert_eq. by apply lookup_lt_Some in H.
  - by rewrite list_lookup_insert_ne.
Qed.
Lemma nulled_in l buf e :
  e ∈ l -> (Z.to_nat e < length buf)%nat -> nulled l buf !! Z.to_nat e = Some 0.
Proof.
  revert buf. induction l as [|e' l IH]; intros buf He Hlen; [by apply not_elem_of_nil in He|].
  apply elem_of_cons in He as [<-|He].
  - by apply (nulled_zero l (<[Z.to_nat e := 0]> buf)), list_lookup_insert_eq.
  - apply (IH (<[Z.to_nat e' := 0]> buf)); [done|by rewrite length_insert].
Qed.

Section Terminate.
Context (buf : list Z).

(** Ends of good strings lie in the buffer, on characters that are not part
    of a word. *)
Definition good_end (e : Z) : Prop :=
  0 <= e /\ exists c, buf !! Z.to_nat e = Some c /\ ~ is_word c.

Lemma good_str_end p : good_str buf p -> good_end (snd p).
Proof. intros [H _ He]. split; [lia|done]. Qed.

Lemma wf_ends c : wf_cmd buf c -> Forall good_end (ends c).
Proof.
  induction c as [argv|c IH f m d|l IHl r IHr|l IHl r IHr|c IH]; simpl.
  - intros [H _]. induction H as [|p argv Hp _ IH]; simpl; [apply Forall_nil_2|].
    constructor; [by apply good_str_end|done].
  - intros [Hc Hf]. apply Forall_app. split; [auto|].
    constructor; [by apply good_str_end|apply Forall_nil_2].
  - intros [Hl Hr]. apply Forall_app. auto.
  - intros [Hl Hr]. apply Forall_app. auto.
  - auto.
Qed.

Lemma good_end_lt e : good_end e -> 0 <= e < Z.of_nat (length buf).
Proof. intros [H (c & Hc & _)]. apply lookup_lt_Some in Hc. lia. Qed.

Lemma nul_all_spec argv b :
  Forall good_end (map snd argv) -> length b = length buf ->
  nul_all argv b = Ok (nulled (map snd argv) b).
Proof.
  revert b. induction argv as [|[q e] argv IH]; intros b H Hb; [done|].
  apply Forall_cons in H as [He H]. apply good_end_lt in He. cbn [nul_all snd] in *.
  rewrite buf_set_ok by lia. ok. rewrite IH; [done|done|by rewrite length_insert].
Qed.

Lemma nulterminate_spec c b :
  Forall good_end (ends c) -> length b = length buf ->
  nulterminate c b = Ok (nulled (ends c) b).
Proof.
  revert b. induction c as [argv|c IH [q e] m d|l IHl r IHr|l IHl r IHr|c IH];
    intros b H Hb; cbn [nulterminate ends snd] in *.
  - by apply nul_all_spec.
  - apply Forall_app in H as [H He]. apply Forall_cons in He as [He%good_end_lt _].
    rewrite IH by done. ok. rewrite buf_set_ok by (rewrite nulled_length; lia).
    by rewrite nulled_app.
  - apply Forall_app in H as [Hl Hr]. rewrite IHl by done. ok.
    rewrite IHr, nulled_app; [done|done|by rewrite nulled_length].
  - apply Forall_app in H as [Hl Hr]. rewrite IHl by done. ok.
    rewrite IHr, nulled_app; [done|done|by rewrite nulled_length].
  - by apply IH.
Qed.

Lemma c_string_run (l : list Z) n :
  (forall i, (i < n)%nat -> exists c, l !! i = Some c /\ c <> 0) -> l !! n = Some 0 ->
  c_string l = take n l.
Proof.
  revert l. induction n as [|n IH]; intros l H H0; destruct l as [|x l]; try done.
  - simpl in *. by simplify_eq.
  - destruct (H 0%nat) as (c & Hc & Hn); [lia|]. simpl in Hc. simplify_eq. simpl.
    replace (c =? 0) with false by lia. f_equal. apply IH; [|done].
    intros i Hi. apply (H (S i)). lia.
Qed.

Lemma string_at_nulled E p :
  Forall good_end E -> good_str buf p -> snd p ∈ E -> string_at (nulled E buf) p = slice buf p.
Proof.
  intros HE Hp Hin. pose proof (gs_pos _ _ Hp) as Hpos.
  assert (Hsame : forall i, fst p <= i < snd p -> nulled E buf !! Z.to_nat i = buf !! Z.to_nat i).
  { intros i Hi. apply nulled_out. intros e He Heq.
    rewrite Forall_forall in HE. destruct (HE e He) as [He0 (c & Hc & Hnw)].
    destruct (gs_in _ _ Hp i Hi) as (c' & Hc' & Hw). rewrite Heq in Hc. congruence. }
  unfold string_at, slice. rewrite (c_string_run _ (Z.to_nat (snd p - fst p))).
  - apply list_eq. intros i. destruct (decide (i < Z.to_nat (snd p - fst p))%nat) as [Hi|Hi].
    + rewrite !lookup_take_lt, !lookup_drop by lia.
      specialize (Hsame (fst p + Z.of_nat i)).
      replace (Z.to_nat (fst p + Z.of_nat i)) with (Z.to_nat (fst p) + i)%nat in Hsame by lia.
      apply Hsame. lia.
    + by rewrite !lookup_take_ge by lia.
  - intros i Hi. rewrite lookup_drop.
    replace (Z.to_nat (fst p) + i)%nat with (Z.to_nat (fst p + Z.of_nat i)) by lia.
    rewrite Hsame by lia. destruct (gs_in _ _ Hp (fst p + Z.of_nat i)) as (c & Hc & _ & H0); [lia|].
    eauto.
  - rewrite lookup_drop.
    replace (Z.to_nat (fst p) + Z.to_nat (snd p - fst p))%nat with (Z.to_nat (snd p)) by lia.
    apply nulled_in; [done|]. pose proof (good_end_lt _ (good_str_end _ Hp)). lia.
Qed.

Lemma tree_nulled E c :
  Forall good_end E -> wf_cmd buf c -> ends c ⊆ E ->
  tree_with (string_at (nulled E buf)) c = tree_with (slice buf) c.
Proof.
  intros HE. induction c as [argv|c IH f m d|l IHl r IHr|l IHl r IHr|c IH];
    cbn [wf_cmd ends tree_with]; intros Hw Hs.
  - destruct Hw as [Hw _]. f_equal. apply map_ext_in. intros p Hp%list_elem_of_In.
    rewrite Forall_forall in Hw. apply string_at_nulled; [done|auto|]. apply Hs.
    by apply list_elem_of_fmap_2.
  - destruct Hw as [Hw Hf]. rewrite IH; [|done|set_solver].
    rewrite string_at_nulled; [done|done|done|set_solver].
  - destruct Hw. rewrite IHl, IHr; [done|done|set_solver|done|set_solver].
  - destruct Hw. rewrite IHl, IHr; [done|done|set_solver|done|set_solver].
  - by rewrite IH.
Qed.

Lemma nulterminate_tree c :
  wf_cmd buf c ->
  exists buf', nulterminate c buf = Ok buf' /\ length buf' = length buf
    /\ tree_with (string_at buf') c = tree_with (slice buf) c.
Proof.
  intros Hc. pose proof (wf_ends _ Hc) as He. exists (nulled (ends c) buf).
  split; [by apply nulterminate_spec|]. split; [apply nulled_length|].
  by apply tree_nulled.
Qed.
End Terminate.

Lemma line_at_start line junk :
  Forall (fun c => c <> 0) line -> line_at (line ++ 0 :: junk) (Z.of_nat (length line)) 0 line.
Proof. intros H. constructor; [lia|lia|done|]. by exists junk. Qed.

Lemma c_string_line line junk :
  Forall (fun c => c <> 0) line -> c_string (line ++ 0 :: junk) = line.
Proof.
  induction 1 as [|c l Hc _ IH]; [done|]. simpl. by replace (c =? 0) with false by lia; rewrite IH.
Qed.

(** C33: the shell's parser is safe on every command line: it ends, never
    touches a byte outside the buffer, and either reports a syntax error or
    returns a command whose strings, read in the NUL-terminated buffer, are
    exactly the words that were between their pointers, each non-empty, and
    at most 31 to an [exec] (so the argument array ends in a null pointer). *)
Theorem parsecmd_safe line junk :
  Forall (fun c => c <> 0) line ->
  let buf := line ++ 0 :: junk in
  (exists m, parsecmd buf = Panic m)
  \/ (exists c buf', parsecmd buf = Ok (c, buf') /\ length buf' = length buf
      /\ wf_cmd buf c /\ tree_with (string_at buf') c = tree_with (slice buf) c).
Proof.
  intros Hl buf. unfold parsecmd.
  assert (Hcs : c_string buf = line) by (by apply c_string_line). rewrite Hcs.
  set (es := Z.of_nat (length line)).
  assert (Hs : sane buf es 0) by (eexists; by apply line_at_start).
  destruct (parse_safe buf es (4 * length line + 4)) as [Hp _].
  destruct (Hp 0 Hs) as [[m ->]|(c & s & -> & Hle & Hs' & Hc)]; [unfold es; lia|left; by exists m|].
  ok. destruct (peek_safe buf es s [] Hs') as (b & s' & -> & _ & _ & _). ok.
  bcase; [left; by eexists|]. right.
  destruct (nulterminate_tree buf c Hc) as (buf' & -> & Hlen & Ht). ok. by exists c, buf'.
Qed.

Lemma parsecmd_safe_witness :
  let buf := cstr "echo a b > c" ++ [0; 1; 2] in
  (exists m, parsecmd buf = Panic m)
  \/ (exists c buf', parsecmd buf = Ok (c, buf') /\ length buf' = length buf
      /\ wf_cmd buf c /\ tree_with (string_at buf') c = tree_with (slice buf) c).
Proof.
  apply (parsecmd_safe (cstr "echo a b > c") [1; 2]).
  repeat (constructor; [done|]). constructor.
Defined.
