(* ===== verification/ShGrammar.v ===== *)
(** The grammar of the command language of src/sh.c and the round trip: the
    parser recovers the command from every way to write it down. *)
From stdpp Require Import base strings numbers list.
From S2P Require Import Prelude CString Sh ShParse.
Local Open Scope Z_scope.

(** * Tokens *)
Inductive token : Type :=
  | TWord (w : list Z)
  | TSym (c : Z)
  | TApp.

Definition show (t : token) : list Z :=
  match t with TWord w => w | TSym c => [c] | TApp => [62; 62] end.
Definition code (t : token) : Z :=
  match t with TWord _ => 97 | TSym c => c | TApp => 43 end.
Definition tok_ok (t : token) : Prop :=
  match t with
  | TWord w => w <> [] /\ Forall is_word w
  | TSym c => is_in symbols c = true
  | TApp => True
  end.
(** [text] may follow [t] directly: it does not continue the token. *)
Definition sep (t : token) (text : list Z) : Prop :=
  match t, text with
  | TWord _, c :: _ => word_char c = false
  | TSym 62, c :: _ => c <> 62
  | _, _ => True
  end.

(** [text] is the tokens with any blanks before, between and after them. *)
Inductive renders : list Z -> list token -> Prop :=
  | renders_nil ws :
      Forall (fun c => is_in whitespace c = true) ws -> renders ws []
  | renders_cons ws t text toks :
      Forall (fun c => is_in whitespace c = true) ws -> tok_ok t -> sep t text ->
      renders text toks -> renders (ws ++ show t ++ text) (t :: toks).

(** * Grammar *)
Inductive rkind : Type := RIn | ROut | RApp.
Notation redir := (rkind * list Z)%type.

(** A simple command is redirections and arguments in any order: the
    redirections before the first argument, then each argument with the
    redirections that follow it.  [bg] counts the ampersands. *)
Inductive pexec : Type :=
  | PSimple (rs : list redir) (args : list (list Z * list redir))
  | PBlock (l : pline) (rs : list redir)
with ppipe : Type :=
  | POne (e : pexec)
  | PPipe (e : pexec) (p : ppipe)
with pline : Type :=
  | PEnd (p : ppipe) (bg : nat)
  | PSeq (p : ppipe) (bg : nat) (l : pline).

Scheme pexec_mut := Induction for pexec Sort Prop
  with ppipe_mut := Induction for ppipe Sort Prop
  with pline_mut := Induction for pline Sort Prop.
Combined Scheme grammar_ind from pexec_mut, ppipe_mut, pline_mut.

Definition rtok (k : rkind) : token :=
  match k with RIn => TSym 60 | ROut => TSym 62 | RApp => TApp end.
Definition toks_redirs (rs : list redir) : list token :=
  concat (map (fun r => [rtok (fst r); TWord (snd r)]) rs).
Definition toks_args (args : list (list Z * list redir)) : list token :=
  concat (map (fun a => TWord (fst a) :: toks_redirs (snd a)) args).

Fixpoint toks_exec (e : pexec) : list token :=
  match e with
  | PSimple rs args => toks_redirs rs ++ toks_args args
  | PBlock l rs => TSym 40 :: toks_line l ++ TSym 41 :: toks_redirs rs
  end
with toks_pipe (p : ppipe) : list token :=
  match p with
  | POne e => toks_exec e
  | PPipe e p => toks_exec e ++ TSym 124 :: toks_pipe p
  end
with toks_line (l : pline) : list token :=
  match l with
  | PEnd p bg => toks_pipe p ++ replicate bg (TSym 38)
  | PSeq p bg l => toks_pipe p ++ replicate bg (TSym 38) ++ TSym 59 :: toks_line l
  end.

(** The meaning: a redirection wraps the command, later ones outermost. *)
Definition tredir (t : tree) (r : redir) : tree :=
  match fst r with
  | RIn => TRedir t (snd r) O_RDONLY 0
  | ROut | RApp => TRedir t (snd r) (Z.lor O_WRONLY O_CREATE) 1
  end.

Fixpoint den_exec (e : pexec) : tree :=
  match e with
  | PSimple rs args =>
      fold_left tredir (rs ++ concat (map snd args)) (TExec (map fst args))
  | PBlock l rs => fold_left tredir rs (den_line l)
  end
with den_pipe (p : ppipe) : tree :=
  match p with
  | POne e => den_exec e
  | PPipe e p => TPipe (den_exec e) (den_pipe p)
  end
with den_line (l : pline) : tree :=
  match l with
  | PEnd p bg => Nat.iter bg TBack (den_pipe p)
  | PSeq p bg l => TList (Nat.iter bg TBack (den_pipe p)) (den_line l)
  end.

(** At most [MAXARGS - 1] arguments. *)
Fixpoint fits_exec (e : pexec) : Prop :=
  match e with
  | PSimple _ args => Z.of_nat (length args) < MAXARGS
  | PBlock l _ => fits_line l
  end
with fits_pipe (p : ppipe) : Prop :=
  match p with
  | POne e => fits_exec e
  | PPipe e p => fits_exec e /\ fits_pipe p
  end
with fits_line (l : pline) : Prop :=
  match l with
  | PEnd p _ => fits_pipe p
  | PSeq p _ l => fits_pipe p /\ fits_line l
  end.

(** * Lexing a rendered token *)

Notation blank := (is_in whitespace).

Lemma word_not_blank c : is_word c -> blank c = false.
Proof. intros [H _]. unfold word_char in H. by destruct (blank c). Qed.
Lemma symbol_not_blank c : is_in symbols c = true -> blank c = false.
Proof. unfold_toks. unfold whitespace. rewrite !is_in_cons. change (is_in [] c) with false. lia. Qed.

Lemma show_head t :
  tok_ok t -> exists c r, show t = c :: r /\ blank c = false.
Proof.
  destruct t as [w|c|]; simpl.
  - intros [Hne Hw]. destruct w as [|c w]; [done|]. apply Forall_cons in Hw as [Hc _].
    exists c, w. split; [done|]. by apply word_not_blank.
  - intros H. exists c, []. split; [done|]. by apply symbol_not_blank.
  - intros _. by exists 62, [62].
Qed.

Lemma renders_strip text toks :
  renders text toks -> renders (drop_while blank text) toks.
Proof.
  intros [ws Hws|ws t text' toks' Hws Ht Hsep Hr].
  - rewrite <- (app_nil_r ws), drop_while_app by done. apply renders_nil, Forall_nil_2.
  - rewrite drop_while_app by done. destruct (show_head t Ht) as (c & r & E & Hb).
    rewrite E. simpl. rewrite Hb.
    change (renders ([] ++ (c :: r) ++ text') (t :: toks')). rewrite <- E.
    apply renders_cons; [apply Forall_nil_2|done..].
Qed.

Lemma drop_while_renders text t toks :
  renders text (t :: toks) ->
  exists text', drop_while blank text = show t ++ text' /\ tok_ok t /\ sep t text'
    /\ renders text' toks.
Proof.
  inversion 1 as [|ws t' text' toks' Hws Ht Hsep Hr]; subst. exists text'.
  split; [|done]. rewrite drop_while_app by done.
  destruct (show_head t Ht) as (c & r & -> & Hb). simpl. by rewrite Hb.
Qed.

Lemma drop_while_renders_nil text : renders text [] -> drop_while blank text = [].
Proof. inversion 1; subst. rewrite <- (app_nil_r text). by rewrite drop_while_app. Qed.

Lemma word_not_special c : is_word c -> is_in (cstr "|();&<") c = false /\ (c =? 62) = false.
Proof.
  intros [H _]. revert H. unfold word_char. unfold_toks. rewrite !is_in_cons.
  change (is_in [] c) with false. destruct (blank c); cbn [negb andb]; [done|]. intros. split; lia.
Qed.

Lemma lex_show text t rest :
  drop_while blank text = show t ++ rest -> tok_ok t -> sep t rest ->
  lex text = (code t, show t, rest).
Proof.
  intros E Ht Hs. unfold lex. rewrite E.
  destruct t as [w|c|]; cbn [show code tok_ok app] in *.
  - destruct Ht as [Hne Hw]. destruct w as [|c w]; [done|].
    assert (Hww : Forall (fun c => word_char c = true) (c :: w))
      by (eapply Forall_impl; [apply Hw|by intros ? []]).
    apply Forall_cons in Hw as [Hc Hw]. cbn [app].
    destruct (word_not_special c Hc) as [-> ->].
    change (c :: w ++ rest) with ((c :: w) ++ rest).
    rewrite take_while_app, drop_while_app by done.
    destruct rest as [|x rest]; cbn [sep take_while drop_while] in *; [by rewrite app_nil_r|].
    by rewrite Hs, app_nil_r.
  - destruct (decide (c = 62)) as [->|Hc].
    + simpl. destruct rest as [|x rest]; [done|]. simpl in Hs. by replace (x =? 62) with false by lia.
    + assert (is_in (cstr "|();&<") c = true) as ->; [|done].
      revert Ht. unfold_toks. rewrite !is_in_cons. change (is_in [] c) with false. lia.
  - done.
Qed.

(** * Parsing tokens *)

Section Parse.
Context (buf : list Z) (es : Z).

(** The tokens from position [s] to the end of the line. *)
Definition At (s : Z) (toks : list token) : Prop :=
  exists text, line_at buf es s text /\ renders text toks.

Definition starts (set : list Z) (toks : list token) : bool :=
  match toks with
  | TSym c :: _ => is_in set c
  | TApp :: _ => is_in set 62
  | _ => false
  end.

Lemma is_in_sub set c :
  forallb (is_in symbols) set = true -> is_in set c = true -> is_in symbols c = true.
Proof.
  induction set as [|x set IH]; [done|]. cbn [forallb]. intros [H1 H2]%andb_true_iff.
  rewrite is_in_cons. intros [H|H]%orb_true_iff; [|auto].
  by replace c with x by lia.
Qed.

Lemma At_peek s toks set :
  At s toks -> forallb (is_in symbols) set = true ->
  exists s', peek buf es s set = Ok (starts set toks, s') /\ s <= s' /\ At s' toks.
Proof.
  intros (text & Hl & Hr) Hsub. destruct (peek_spec _ _ _ _ set Hl) as (s' & -> & Hle & Hl').
  exists s'. split; [|split; [done|]].
  - do 2 f_equal. destruct toks as [|t toks]; [by rewrite (drop_while_renders_nil _ Hr)|].
    destruct (drop_while_renders _ _ _ Hr) as (rest & -> & Ht & _ & _).
    destruct t as [w|c|]; [|done|done]. simpl in Ht. destruct Ht as [Hne Hw].
    destruct w as [|c w]; [done|]. simpl. apply Forall_cons in Hw as [[Hc _] _].
    destruct (is_in set c) eqn:E; [|done]. apply (is_in_sub _ _ Hsub) in E.
    unfold word_char in Hc. rewrite E in Hc. by destruct (blank c).
  - exists (drop_while blank text). split; [done|]. by apply renders_strip.
Qed.

Lemma slice_line q tok rest :
  line_at buf es q (tok ++ rest) -> slice buf (q, q + Z.of_nat (length tok)) = tok.
Proof.
  intros [Hp _ _ [junk Hb]]. unfold slice. cbn [fst snd]. rewrite Hb.
  replace (Z.to_nat (q + Z.of_nat (length tok) - q)) with (length tok) by lia.
  rewrite <- app_assoc. apply take_app_length.
Qed.

Lemma At_token s t toks :
  At s (t :: toks) ->
  exists p s', gettoken buf es s = Ok (code t, p, s') /\ s < s' /\ At s' toks
    /\ slice buf p = show t.
Proof.
  intros (text & Hl & Hr). destruct (drop_while_renders _ _ _ Hr) as (rest & E & Ht & Hs & Hr').
  destruct (gettoken_spec _ _ _ _ Hl) as (q & s' & Hg & H1 & H2 & H3 & H4).
  rewrite (lex_show _ _ _ E Ht Hs) in *. cbn [fst snd] in *. eexists _, s'.
  split; [done|]. split; [|split].
  - destruct (show_head t Ht) as (c & r & Es & _). rewrite Es in H2. cbn [length] in H2. lia.
  - exists (drop_while blank rest). split; [done|]. by apply renders_strip.
  - by apply (slice_line _ _ rest).
Qed.

Lemma At_token_end s : At s [] -> exists p s', gettoken buf es s = Ok (0, p, s') /\ s <= s' /\ At s' [].
Proof.
  intros (text & Hl & Hr). destruct (gettoken_spec _ _ _ _ Hl) as (q & s' & Hg & H1 & H2 & H3 & H4).
  unfold lex in *. rewrite (drop_while_renders_nil _ Hr) in *. cbn [fst snd] in *.
  eexists _, s'. split; [done|]. cbn [length] in H2. split; [lia|]. exists []. split; [done|].
  apply renders_nil, Forall_nil_2.
Qed.

Lemma At_le s toks : At s toks -> 0 <= s <= es.
Proof. intros (text & [? ? _ _] & _). lia. Qed.

Lemma At_lt s t toks : At s (t :: toks) -> s < es.
Proof. intros H. destruct (At_token _ _ _ H) as (p & s' & _ & ? & ?%At_le & _). lia. Qed.

Notation T := (tree_with (slice buf)).

(** A call from [s] that parses what precedes the tokens [k] to tree [t]. *)
Definition gives (s : Z) (k : list token) (t : tree) (r : res (cmd * Z)) : Prop :=
  exists c s', r = Ok (c, s') /\ s <= s' /\ At s' k /\ T c = t.

Lemma gives_le s s' k t r : s <= s' -> gives s' k t r -> gives s k t r.
Proof. intros H (c & s2 & ? & ? & ?). exists c, s2. split; [done|]. split; [lia|done]. Qed.
Lemma gives_bind s k t k' t' r f :
  gives s k t r -> (forall c s', s <= s' -> At s' k -> T c = t -> gives s' k' t' (f (c, s'))) ->
  gives s k' t' (r ≫= f).
Proof.
  intros (c & s' & -> & Hle & Hat & Ht) Hf. ok. apply (gives_le _ s'); [done|]. by apply Hf.
Qed.
Lemma gives_ok s k c t : At s k -> T c = t -> gives s k t (Ok (c, s)).
Proof. intros. exists c, s. split; [done|]. split; [lia|done]. Qed.

Ltac peek_step :=
  match goal with
  | H : At ?s ?toks |- context [peek buf es ?s ?set] =>
      let s' := fresh "s" in let Hle := fresh "Hle" in let Ha := fresh "Ha" in
      let E := fresh "E" in
      destruct (At_peek s toks set H eq_refl) as (s' & E & Hle & Ha); rewrite E; clear E; ok;
      apply (gives_le _ s'); [done|]
  end.
Ltac token_step :=
  match goal with
  | H : At ?s (?t :: ?toks) |- context [gettoken buf es ?s] =>
      let p := fresh "p" in let s' := fresh "s" in let Hle := fresh "Hlt" in
      let Ha := fresh "Ha" in let Hp := fresh "Hp" in let E := fresh "E" in
      destruct (At_token s t toks H) as (p & s' & E & Hle & Ha & Hp); rewrite E; clear E; ok
  end.

Definition no_redir (k : list token) : Prop := starts (cstr "<>") k = false.

Lemma redirect_tree k c p : T (redirect (code (rtok k)) c p) = tredir (T c) (k, slice buf p).
Proof. by destruct k. Qed.

Lemma parseredirs_gives rs k : no_redir k -> forall fuel c s,
  At s (toks_redirs rs ++ k) -> es - s <= Z.of_nat fuel ->
  gives s k (fold_left tredir rs (T c)) (parseredirs fuel buf es c s).
Proof.
  intros Hk. induction rs as [|[kd f] rs IH]; intros fuel c s Ha Hf.
  - change (At s k) in Ha. destruct fuel; cbn [parseredirs]; peek_step; rewrite Hk;
      by apply gives_ok.
  - change (At s (rtok kd :: TWord f :: toks_redirs rs ++ k)) in Ha.
    destruct fuel as [|fuel]; [apply At_lt in Ha; lia|]. cbn [parseredirs]. peek_step.
    replace (starts _ _) with true by (by destruct kd). token_step.
    token_step. apply (gives_le _ s2); [lia|]. cbn [code negb Z.eqb Pos.eqb].
    cbn [show] in Hp0. cbn [fold_left]. rewrite <- Hp0, <- redirect_tree.
    apply IH; [done|lia].
Qed.

Fixpoint tadd (t : tree) (w : list Z) : tree :=
  match t with
  | TExec argv => TExec (argv ++ [w])
  | TRedir t f m d => TRedir (tadd t w) f m d
  | _ => t
  end.

Lemma add_arg_tree c p : T (add_arg c p) = tadd (T c) (slice buf p).
Proof.
  induction c as [argv|c IH f m d|l _ r _|l _ r _|c _]; simpl; [|by rewrite IH|done..].
  by rewrite map_app.
Qed.

Lemma tadd_redirs rs t w : tadd (fold_left tredir rs t) w = fold_left tredir rs (tadd t w).
Proof.
  revert t. induction rs as [|[k f] rs IH]; intros t; [done|]. cbn [fold_left].
  rewrite IH. by destruct k.
Qed.

(** The follow set of a simple command or block. *)
Definition follows (set : list Z) (k : list token) : Prop := k = [] \/ starts set k = true /\ hd TApp k <> TApp.

Lemma follows_no_redir set k :
  forallb (is_in (cstr "|)&;")) set = true -> follows set k -> no_redir k.
Proof.
  intros Hset [->|[Hk Hh]]; [done|]. destruct k as [|[w|c|] k]; [done..| |done].
  unfold no_redir. simpl in *.
  assert (H : is_in (cstr "|)&;") c = true).
  { clear -Hset Hk. induction set as [|x set IH]; [done|]. cbn [forallb] in Hset.
    apply andb_true_iff in Hset as [H1 H2]. rewrite is_in_cons in Hk.
    apply orb_true_iff in Hk as [Hk|Hk]; [|auto]. by replace c with x by lia. }
  revert H. unfold_toks. rewrite !is_in_cons. change (is_in [] c) with false. lia.
Qed.

Lemma parseargs_gives args k : follows (cstr "|)&;") k -> forall fuel n c s rs ws,
  At s (toks_args args ++ k) -> T c = fold_left tredir rs (TExec ws) ->
  n + Z.of_nat (length args) < MAXARGS -> es - s < Z.of_nat fuel ->
  gives s k (fold_left tredir (rs ++ concat (map snd args)) (TExec (ws ++ map fst args)))
    (parseargs fuel buf es n c s).
Proof.
  intros Hk. induction args as [|[w rs'] args IH]; intros fuel n c s rs ws Ha Hc Hn Hf;
    (destruct fuel as [|fuel]; [apply At_le in Ha; lia|]); cbn [parseargs].
  - change (At s k) in Ha. simpl. rewrite !app_nil_r, <- Hc. peek_step.
    destruct Hk as [->|[Hk _]]; [|rewrite Hk; by apply gives_ok]. simpl.
    destruct (At_token_end _ Ha0) as (p & s' & -> & Hle' & Ha'). ok. simpl.
    apply (gives_le _ s'); [done|]. by apply gives_ok.
  - assert (Ha' : At s (TWord w :: toks_redirs rs' ++ toks_args args ++ k)).
    { unfold toks_args in *. cbn [map concat fst snd] in Ha. simpl in Ha.
      by rewrite <- !app_assoc in Ha. }
    clear Ha. peek_step. cbn [starts]. token_step. cbn [code Z.eqb Pos.eqb negb].
    cbn [length] in Hn. replace (MAXARGS <=? n + 1) with false by lia.
    apply (gives_le _ s1); [lia|].
    apply (gives_bind _ (toks_args args ++ k) (fold_left tredir (rs ++ rs') (TExec (ws ++ [w])))).
    + rewrite fold_left_app. 
      replace (fold_left tredir rs (TExec (ws ++ [w]))) with (T (add_arg c p)).
      2:{ rewrite add_arg_tree, Hc, tadd_redirs, Hp. done. }
      apply parseredirs_gives; [|done|lia]. destruct args; [|done].
      by apply (follows_no_redir (cstr "|)&;")).
    + intros c' s' Hle' Hat' Hc'. cbn [map concat fst snd].
      replace (ws ++ w :: map fst args) with ((ws ++ [w]) ++ map fst args) by (by rewrite <- app_assoc).
      rewrite app_assoc. apply IH; [done|done|lia|lia].
Qed.

Lemma parseback_gives bg k : starts (cstr "&") k = false -> forall fuel c s,
  At s (replicate bg (TSym 38) ++ k) -> es - s <= Z.of_nat fuel ->
  gives s k (Nat.iter bg TBack (T c)) (parseback fuel buf es c s).
Proof.
  intros Hk. induction bg as [|bg IH]; intros fuel c s Ha Hf.
  - change (At s k) in Ha. destruct fuel; cbn [parseback]; peek_step; rewrite Hk; by apply gives_ok.
  - change (At s (TSym 38 :: replicate bg (TSym 38) ++ k)) in Ha.
    destruct fuel as [|fuel]; [apply At_lt in Ha; lia|]. cbn [parseback]. peek_step.
    change (starts _ _) with true. cbn iota. token_step.
    apply (gives_le _ s1); [lia|]. rewrite Nat.iter_succ_r.
    change (TBack (T c)) with (T (BACK c)). apply IH; [done|lia].
Qed.

(** One lemma for each production. *)
Notation parses_exec e := (forall fuel k s, At s (toks_exec e ++ k) ->
  follows (cstr "|)&;") k -> 4 * (es - s) + 1 < Z.of_nat fuel ->
  gives s k (den_exec e) (parseexec fuel buf es s)).
Notation parses_pipe p := (forall fuel k s, At s (toks_pipe p ++ k) ->
  follows (cstr ")&;") k -> 4 * (es - s) + 2 < Z.of_nat fuel ->
  gives s k (den_pipe p) (parsepipe fuel buf es s)).
Notation parses_line l := (forall fuel k s, At s (toks_line l ++ k) ->
  follows (cstr ")") k -> 4 * (es - s) + 3 < Z.of_nat fuel ->
  gives s k (den_line l) (parseline fuel buf es s)).

Lemma follows_cons set c k : is_in set c = true -> follows set (TSym c :: k).
Proof. intros H. right. done. Qed.

Lemma follows_sub set set' k :
  forallb (is_in set') set = true -> follows set k -> follows set' k.
Proof.
  intros Hset [->|[Hk Hh]]; [by left|]. right. split; [|done].
  destruct k as [|[w|c|] k]; [done..| |done]. simpl in *.
  induction set as [|x set IH]; [done|]. cbn [forallb] in Hset.
  apply andb_true_iff in Hset as [H1 H2]. rewrite is_in_cons in Hk.
  apply orb_true_iff in Hk as [Hk|Hk]; [|auto]. by replace c with x by lia.
Qed.

(** A follower in [set] starts no token of a disjoint set. *)
Lemma follows_not set set' k :
  forallb (fun c => negb (is_in set' c)) set = true -> follows set k -> starts set' k = false.
Proof.
  intros Hset [->|[Hk Hh]]; [done|]. destruct k as [|[w|c|] k]; [done..| |done]. simpl in *.
  induction set as [|x set IH]; [done|]. cbn [forallb] in Hset.
  apply andb_true_iff in Hset as [H1 H2]. rewrite is_in_cons in Hk.
  apply orb_true_iff in Hk as [Hk|Hk]; [|auto]. apply negb_true_iff in H1.
  by replace c with x by lia.
Qed.

Lemma parse_simple rs args : fits_exec (PSimple rs args) -> parses_exec (PSimple rs args).
Proof.
  intros Hfit fuel k s Ha Hk Hf. destruct fuel as [|fuel]; [apply At_le in Ha; lia|].
  cbn [toks_exec fits_exec den_exec] in *. rewrite <- app_assoc in Ha.
  cbn [parseexec]. peek_step.
  assert (Hnr : no_redir (toks_args args ++ k)).
  { destruct args; [|done]. by apply (follows_no_redir (cstr "|)&;")). }
  assert (starts (cstr "(") (toks_redirs rs ++ toks_args args ++ k) = false) as ->.
  { destruct rs as [|[[] f] rs]; [|done..]. destruct args; [|done].
    by apply (follows_not (cstr "|)&;")). }
  apply (gives_bind _ (toks_args args ++ k) (fold_left tredir rs (TExec []))).
  - change (TExec []) with (T (EXEC [])). apply parseredirs_gives; [done|done|lia].
  - intros c s' Hle' Hat Hc. apply (parseargs_gives args k Hk _ _ _ _ rs []); [done|done|lia|lia].
Qed.

Lemma parse_block l rs : parses_line l -> parses_exec (PBlock l rs).
Proof.
  intros IH fuel k s Ha Hk Hf. cbn [toks_exec den_exec] in *.
  change (At s (TSym 40 :: (toks_line l ++ TSym 41 :: toks_redirs rs) ++ k)) in Ha.
  rewrite <- app_assoc in Ha. cbn [app] in Ha.
  pose proof (At_lt _ _ _ Ha). destruct fuel as [|[|fuel]]; [lia..|].
  cbn [parseexec parseblock]. peek_step. change (starts _ _) with true. cbn iota. peek_step.
  change (starts _ _) with true. cbn [negb]. token_step. apply (gives_le _ s2); [lia|].
  apply (gives_bind _ (TSym 41 :: toks_redirs rs ++ k) (den_line l)).
  { apply IH; [done|by apply follows_cons|lia]. }
  intros c s' Hle' Hat Hc. peek_step. change (starts _ _) with true. cbn [negb]. token_step.
  apply (gives_le _ s4); [lia|]. rewrite <- Hc. apply parseredirs_gives; [|done|lia].
  by apply (follows_no_redir (cstr "|)&;")).
Qed.

Lemma parse_one e : parses_exec e -> parses_pipe (POne e).
Proof.
  intros IH fuel k s Ha Hk Hf. pose proof (At_le _ _ Ha). destruct fuel as [|fuel]; [lia|].
  cbn [parsepipe den_pipe toks_pipe] in *. apply (gives_bind _ k (den_exec e)).
  { apply IH; [done|by apply (follows_sub (cstr ")&;"))|lia]. }
  intros c s' Hle' Hat Hc. peek_step. rewrite (follows_not (cstr ")&;")) by done.
  by apply gives_ok.
Qed.

Lemma parse_pipe e p : parses_exec e -> parses_pipe p -> parses_pipe (PPipe e p).
Proof.
  intros IHe IHp fuel k s Ha Hk Hf. pose proof (At_le _ _ Ha). destruct fuel as [|fuel]; [lia|].
  cbn [parsepipe den_pipe toks_pipe] in *. rewrite <- app_assoc in Ha. cbn [app] in Ha.
  apply (gives_bind _ (TSym 124 :: toks_pipe p ++ k) (den_exec e)).
  { apply IHe; [done|by apply follows_cons|lia]. }
  intros c s' Hle' Hat Hc. peek_step. change (starts _ _) with true. cbn iota. token_step.
  apply (gives_le _ s1); [lia|]. apply (gives_bind _ k (den_pipe p)).
  { apply IHp; [done|done|lia]. }
  intros c2 s2 ? ? ?. apply gives_ok; [done|]. simpl. congruence.
Qed.

Lemma follows_amp bg k : follows (cstr ")&;") k -> follows (cstr ")&;") (replicate bg (TSym 38) ++ k).
Proof. intros H. destruct bg; [done|]. by apply follows_cons. Qed.

Lemma parse_end p bg : parses_pipe p -> parses_line (PEnd p bg).
Proof.
  intros IH fuel k s Ha Hk Hf. pose proof (At_le _ _ Ha). destruct fuel as [|fuel]; [lia|].
  cbn [parseline den_line toks_line] in *. rewrite <- app_assoc in Ha.
  apply (gives_bind _ (replicate bg (TSym 38) ++ k) (den_pipe p)).
  { apply IH; [done| |lia]. apply follows_amp. by apply (follows_sub (cstr ")")). }
  intros c s' Hle' Hat Hc. apply (gives_bind _ k (Nat.iter bg TBack (den_pipe p))).
  { rewrite <- Hc. apply parseback_gives; [|done|lia]. by apply (follows_not (cstr ")")). }
  intros c2 s2 ? ? ?. peek_step. rewrite (follows_not (cstr ")")) by done. by apply gives_ok.
Qed.

Lemma parse_seq p bg l : parses_pipe p -> parses_line l -> parses_line (PSeq p bg l).
Proof.
  intros IHp IHl fuel k s Ha Hk Hf. pose proof (At_le _ _ Ha). destruct fuel as [|fuel]; [lia|].
  cbn [parseline den_line toks_line] in *. rewrite <- !app_assoc in Ha. cbn [app] in Ha.
  apply (gives_bind _ (replicate bg (TSym 38) ++ TSym 59 :: toks_line l ++ k) (den_pipe p)).
  { apply IHp; [done| |lia]. apply follows_amp. by apply follows_cons. }
  intros c s' Hle' Hat Hc.
  apply (gives_bind _ (TSym 59 :: toks_line l ++ k) (Nat.iter bg TBack (den_pipe p))).
  { rewrite <- Hc. apply parseback_gives; [done|done|lia]. }
  intros c2 s2 ? ? ?. peek_step. change (starts _ _) with true. cbn iota. token_step.
  apply (gives_le _ s1); [lia|]. apply (gives_bind _ k (den_line l)).
  { apply IHl; [done|done|lia]. }
  intros c3 s3 ? ? ?. apply gives_ok; [done|]. simpl. congruence.
Qed.

Lemma parse_gives :
  (forall e, fits_exec e -> forall fuel k s, At s (toks_exec e ++ k) -> follows (cstr "|)&;") k ->
     4 * (es - s) + 1 < Z.of_nat fuel -> gives s k (den_exec e) (parseexec fuel buf es s))
  /\ (forall p, fits_pipe p -> forall fuel k s, At s (toks_pipe p ++ k) -> follows (cstr ")&;") k ->
     4 * (es - s) + 2 < Z.of_nat fuel -> gives s k (den_pipe p) (parsepipe fuel buf es s))
  /\ (forall l, fits_line l -> forall fuel k s, At s (toks_line l ++ k) -> follows (cstr ")") k ->
     4 * (es - s) + 3 < Z.of_nat fuel -> gives s k (den_line l) (parseline fuel buf es s)).
Proof.
  apply grammar_ind.
  - apply parse_simple.
  - intros l IH rs Hl. apply parse_block, IH, Hl.
  - intros e IH He. apply parse_one, IH, He.
  - intros e IHe p IHp [He Hp]. apply parse_pipe; auto.
  - intros p IH bg Hp. apply parse_end, IH, Hp.
  - intros p IHp bg l IHl [Hp Hl]. apply parse_seq; auto.
Qed.
End Parse.

Lemma parsecmd_renders l text junk :
  renders text (toks_line l) -> Forall (fun c => c <> 0) text -> fits_line l ->
  exists c buf', parsecmd (text ++ 0 :: junk) = Ok (c, buf')
    /\ tree_with (string_at buf') c = den_line l.
Proof.
  intros Hr Hn Hfit. set (buf := text ++ 0 :: junk). unfold parsecmd.
  assert (Hcs : c_string buf = text) by (by apply c_string_line). rewrite Hcs.
  set (es := Z.of_nat (length text)). pose proof (line_at_start text junk Hn) as Hl.
  assert (Ha : At buf es 0 (toks_line l ++ [])) by (rewrite app_nil_r; by exists text).
  destruct (parse_gives buf es) as (_ & _ & Hp).
  destruct (Hp l Hfit (4 * length text + 4)%nat [] 0 Ha) as (c & s & E & Hle & Hat & Hc);
    [by left|unfold es; lia|].
  destruct (parse_safe buf es (4 * length text + 4)) as [Hsafe _].
  destruct (Hsafe 0) as [[m Em]|(c' & s' & E' & _ & _ & Hwf)];
    [by exists text|unfold es; lia|by rewrite E in Em|].
  rewrite E in E'. simplify_eq. rewrite E. ok.
  destruct Hat as (rest & Hl' & Hr'). 
  destruct (peek_spec _ _ _ _ [] Hl') as (s2 & -> & _ & Hl2). ok.
  rewrite (drop_while_renders_nil _ Hr') in Hl2. destruct (line_at_get_nil _ _ _ Hl2) as [_ ->].
  rewrite Z.eqb_refl. cbn [negb].
  destruct (nulterminate_tree buf c' Hwf) as (buf' & -> & _ & Ht). ok.
  exists c', buf'. by rewrite Ht, Hc.
Qed.

(** C28: parsing inverts writing a command line: however the tokens of a line of
    the grammar are written, with any blanks around them, [parsecmd] accepts
    the text and returns the command the line denotes, with every argument and
    file name NUL-terminated in the buffer: pipelines and lists associate to
    the right, parentheses group, redirections wrap in the order they occur
    and may stand anywhere among the arguments. *)
Theorem parsecmd_roundtrip l text junk :
  renders text (toks_line l) -> Forall (fun c => c <> 0) text -> fits_line l ->
  exists c buf', parsecmd (text ++ 0 :: junk) = Ok (c, buf')
    /\ tree_with (string_at buf') c = den_line l.
Proof. apply parsecmd_renders. Qed.

(** [ls <in -l|(wc;x>>o)& ] written with and without blanks. *)
Definition sample_line : pline :=
  PEnd (PPipe (PSimple [] [(cstr "ls", [(RIn, cstr "in")]); (cstr "-l", [])])
         (POne (PBlock (PSeq (POne (PSimple [] [(cstr "wc", [])])) 0
                   (PEnd (POne (PSimple [] [(cstr "x", [(RApp, cstr "o")])])) 0)) []))) 1.

Lemma parsecmd_roundtrip_witness :
  exists c buf', parsecmd (cstr "ls <in -l|(wc; x>>o)& " ++ 0 :: [7]) = Ok (c, buf')
    /\ tree_with (string_at buf') c = den_line sample_line.
Proof.
  apply (parsecmd_roundtrip sample_line).
  - repeat match goal with
    | |- renders ?t ?k => let t' := eval vm_compute in t in let k' := eval vm_compute in k in
        change (renders t' k')
    end.
    repeat match goal with
    | |- renders (32 :: ?t) (?k :: ?ks) => 
        refine (renders_cons [32] k (drop (length (show k)) t) ks _ _ _ _)
    | |- renders ?t (?k :: ?ks) => 
        refine (renders_cons [] k (drop (length (show k)) t) ks _ _ _ _)
    | |- renders _ [] => apply renders_nil
    | |- Forall _ _ => repeat (constructor; [by vm_compute|]); constructor
    | |- tok_ok (TWord _) => split; [done|]; repeat (constructor; [by vm_compute|]); constructor
    | |- tok_ok _ => by vm_compute
    | |- sep _ _ => by vm_compute
    | |- renders _ _ => simpl
    end.
  - repeat (constructor; [done|]). constructor.
  - by vm_compute.
Defined.
