(* ===== verification/File.v ===== *)
(** Model of src/file.c with the descriptor layer of src/sysfile.c, the file
    side of src/pipe.c's [pipealloc], and the descriptor loops of [fork] and
    [exit] in src/proc.c.

    A [struct file*] is an index into [ftable.file]; each process has its table
    [ofile] of [NOFILE] descriptors.  A pipe is named by a number that is not
    used again after its page is freed ([None]).  What closing an inode does is
    the interface [InodeLayer]: the theorems are proved against it, and
    src/fs.c's [iput] inside a transaction is an instance. *)
From stdpp Require Import base strings numbers list.
From S2P Require Import Prelude CString Pipe Bio Log Fs.
Local Open Scope Z_scope.

Definition NFILE : nat := 100.
Definition NOFILE : nat := 16.

Inductive filetype : Type := FD_NONE | FD_PIPE | FD_INODE.
#[export] Instance filetype_eq_dec : EqDecision filetype.
Proof. solve_decision. Defined.

Record file : Type := mkFile {
  ftype : filetype;
  fref : Z;
  readable : bool;
  writable : bool;
  fpipe : nat;
  fip : nat;
  foff : Z }.

(** What file.c needs of the inode layer: [begin_op(); iput(ip); end_op()]. *)
Class InodeLayer (F : Type) : Type := {
  il_put : nat -> M F unit;
  il_inv : F -> Prop;
  il_valid : nat -> Prop;
  il_put_ok : forall ip s, il_inv s -> il_valid ip ->
    exists s', il_put ip s = Ok (tt, s') /\ il_inv s' }.

Section File.
Context {F : Type} `{InodeLayer F}.

Record kfiles : Type := mkKfiles {
  ftab : list file;
  ofiles : list (list (option nat));
  pipes : list (option pipe);
  inodes_of : F }.

Definition set_ftab (i : nat) (f : file) : M kfiles unit :=
  modify (fun k => mkKfiles (<[i := f]> (ftab k)) (ofiles k) (pipes k) (inodes_of k)).
Definition get_file (i : nat) : M kfiles file := fun k =>
  match ftab k !! i with Some f => Ok (f, k) | None => Fault end.
Definition get_ofile (me : nat) : M kfiles (list (option nat)) := fun k =>
  match ofiles k !! me with Some t => Ok (t, k) | None => Fault end.
Definition set_ofile (me : nat) (t : list (option nat)) : M kfiles unit :=
  modify (fun k => mkKfiles (ftab k) (<[me := t]> (ofiles k)) (pipes k) (inodes_of k)).
Definition with_fref (f : file) (r : Z) : file :=
  mkFile (ftype f) r (readable f) (writable f) (fpipe f) (fip f) (foff f).

(** ** file.c *)

(** The scan of [filealloc]. *)
Fixpoint free_file (l : list file) (i : nat) : option nat :=
  match l with
  | [] => None
  | f :: l => if fref f =? 0 then Some i else free_file l (S i)
  end.

Definition filealloc : M kfiles (option nat) :=
  k ← get;
  match free_file (ftab k) 0 with
  | Some i => f ← get_file i; set_ftab i (with_fref f 1) ;; mret (Some i)
  | None => mret None
  end.

Definition filedup (i : nat) : M kfiles nat :=
  f ← get_file i;
  if fref f <? 1 then panic "filedup"
  else set_ftab i (with_fref f (s32 (fref f + 1))) ;; mret i.

(** [pipeclose(ff.pipe, ff.writable)] on the pipe store. *)
Definition close_pipe (p : nat) (w : bool) : M kfiles unit := fun k =>
  match pipes k !! p with
  | Some (Some pp) =>
      let '(pp, _, freed) := pipeclose pp w in
      Ok (tt, mkKfiles (ftab k) (ofiles k)
                (<[p := if freed then None else Some pp]> (pipes k)) (inodes_of k))
  | _ => Fault
  end.

Definition put_inode (ip : nat) : M kfiles unit := fun k =>
  match il_put ip (inodes_of k) with
  | Ok (_, s) => Ok (tt, mkKfiles (ftab k) (ofiles k) (pipes k) s)
  | Panic e => Panic e
  | Fault => Fault
  | NoFuel => NoFuel
  end.

Definition fileclose (i : nat) : M kfiles unit :=
  f ← get_file i;
  if fref f <? 1 then panic "fileclose"
  else
    let r := s32 (fref f - 1) in
    if 0 <? r then set_ftab i (with_fref f r)
    else
      set_ftab i (mkFile FD_NONE 0 (readable f) (writable f) (fpipe f) (fip f) (foff f)) ;;
      match ftype f with
      | FD_PIPE => close_pipe (fpipe f) (writable f)
      | FD_INODE => put_inode (fip f)
      | FD_NONE => mret tt
      end.

(** ** sysfile.c: descriptors *)

(** The argument check of [argfd] on a descriptor number. *)
Definition argfd (me : nat) (fd : Z) : M kfiles (option (nat * nat)) :=
  t ← get_ofile me;
  if (fd <? 0) || (Z.of_nat NOFILE <=? fd) then mret None
  else match t !! Z.to_nat fd with
       | Some (Some f) => mret (Some (Z.to_nat fd, f))
       | Some None => mret None
       | None => fault
       end.

(** The lowest free descriptor. *)
Fixpoint free_fd {A} (t : list (option A)) (fd : nat) : option nat :=
  match t with
  | [] => None
  | None :: _ => Some fd
  | Some _ :: t => free_fd t (S fd)
  end.

Definition fdalloc (me f : nat) : M kfiles (option nat) :=
  t ← get_ofile me;
  match free_fd t 0 with
  | Some fd => set_ofile me (<[fd := Some f]> t) ;; mret (Some fd)
  | None => mret None
  end.

(** The system calls return [None] for -1. *)
Definition sys_dup (me : nat) (fd : Z) : M kfiles (option nat) :=
  a ← argfd me fd;
  match a with
  | None => mret None
  | Some (_, f) =>
      r ← fdalloc me f;
      match r with
      | None => mret None
      | Some fd => filedup f ;; mret (Some fd)
      end
  end.

Definition sys_close (me : nat) (fd : Z) : M kfiles (option unit) :=
  a ← argfd me fd;
  match a with
  | None => mret None
  | Some (fd, f) =>
      t ← get_ofile me;
      set_ofile me (<[fd := None]> t) ;;
      fileclose f ;;
      mret (Some tt)
  end.

(** The end of [sys_open]: the file and descriptor for the opened inode [ip];
    on failure the inode is put by the caller. *)
Definition open_file (me ip : nat) (omode : Z) : M kfiles (option nat) :=
  r ← filealloc;
  match r with
  | None => mret None
  | Some f =>
      r ← fdalloc me f;
      match r with
      | None => fileclose f ;; mret None
      | Some fd =>
          ff ← get_file f;
          set_ftab f (mkFile FD_INODE (fref ff) (Z.land omode 1 =? 0)
                        (negb (Z.land omode 1 =? 0) || negb (Z.land omode 2 =? 0))
                        (fpipe ff) ip 0) ;;
          mret (Some fd)
      end
  end.

(** [pipealloc]; [page] is the page [kalloc] gives (it panics when there is
    none). *)
Definition pipealloc (page : list Z) : M kfiles (option (nat * nat)) :=
  r0 ← filealloc;
  match r0 with
  | None => mret None
  | Some f0 =>
      r1 ← filealloc;
      match r1 with
      | None => fileclose f0 ;; mret None
      | Some f1 =>
          k ← get;
          let p := length (pipes k) in
          put (mkKfiles (ftab k) (ofiles k) (pipes k ++ [Some (pipe_init page)]) (inodes_of k)) ;;
          ff ← get_file f0;
          set_ftab f0 (mkFile FD_PIPE (fref ff) true false p (fip ff) (foff ff)) ;;
          ff ← get_file f1;
          set_ftab f1 (mkFile FD_PIPE (fref ff) false true p (fip ff) (foff ff)) ;;
          mret (Some (f0, f1))
      end
  end.

Definition sys_pipe (me : nat) (page : list Z) : M kfiles (option (nat * nat)) :=
  r ← pipealloc page;
  match r with
  | None => mret None
  | Some (rf, wf) =>
      r0 ← fdalloc me rf;
      match r0 with
      | None => fileclose rf ;; fileclose wf ;; mret None
      | Some fd0 =>
          r1 ← fdalloc me wf;
          match r1 with
          | None =>
              t ← get_ofile me;
              set_ofile me (<[fd0 := None]> t) ;;
              fileclose rf ;; fileclose wf ;; mret None
          | Some fd1 => mret (Some (fd0, fd1))
          end
      end
  end.

(** ** proc.c: descriptors in [fork] and [exit] *)

Fixpoint fork_files (me np : nat) (fds : list nat) : M kfiles unit :=
  match fds with
  | [] => mret tt
  | fd :: fds =>
      t ← get_ofile me;
      match t !! fd with
      | Some (Some f) =>
          f ← filedup f;
          t' ← get_ofile np;
          set_ofile np (<[fd := Some f]> t')
      | Some None => mret tt
      | None => fault
      end ;;
      fork_files me np fds
  end.

Fixpoint exit_files (me : nat) (fds : list nat) : M kfiles unit :=
  match fds with
  | [] => mret tt
  | fd :: fds =>
      t ← get_ofile me;
      match t !! fd with
      | Some (Some f) =>
          fileclose f ;;
          t ← get_ofile me;
          set_ofile me (<[fd := None]> t)
      | Some None => mret tt
      | None => fault
      end ;;
      exit_files me fds
  end.
End File.
Arguments kfiles F : clear implicits.
