(* ===== verification/FileRefs.v ===== *)
(** Reference counts of open files (src/file.c): in every state the system can
    reach, the count of an open file is the number of descriptors that name it,
    and a pipe's end is open exactly as long as such a descriptor exists. *)
From stdpp Require Import base strings numbers list relations.
From S2P Require Import Prelude CString Pipe Bio Log Fs File.
Local Open Scope Z_scope.

(** * Counting *)

Definition b2z (b : bool) : Z := if b then 1 else 0.
Fixpoint cnt {A} (P : A -> bool) (l : list A) : Z :=
  match l with [] => 0 | a :: l => b2z (P a) + cnt P l end.

Lemma cnt_nonneg {A} (P : A -> bool) l : 0 <= cnt P l <= Z.of_nat (length l).
Proof. induction l as [|a l IH]; cbn [cnt length]; [lia|]. destruct (P a); simpl b2z; lia. Qed.

Lemma cnt_insert {A} (P : A -> bool) l n a b :
  l !! n = Some a -> cnt P (<[n := b]> l) = cnt P l - b2z (P a) + b2z (P b).
Proof.
  revert n. induction l as [|c l IH]; intros [|n] H; simplify_eq/=; [lia|].
  rewrite (IH n) by done. lia.
Qed.

Lemma cnt_pos {A} (P : A -> bool) l n a : l !! n = Some a -> P a = true -> 1 <= cnt P l.
Proof.
  revert n. induction l as [|c l IH]; intros [|n] H HP; simplify_eq/=.
  - rewrite HP. pose proof (cnt_nonneg P l). simpl. lia.
  - specialize (IH n H HP). destruct (P c); simpl; lia.
Qed.

Lemma cnt_zero {A} (P : A -> bool) l : (forall a, a ∈ l -> P a = false) -> cnt P l = 0.
Proof.
  induction l as [|a l IH]; intros H; [done|]. cbn [cnt].
  rewrite H by (by left). rewrite IH; [done|]. intros b Hb. apply H. by right.
Qed.

Lemma cnt_exists {A} (P : A -> bool) l : 1 <= cnt P l -> exists n a, l !! n = Some a /\ P a = true.
Proof.
  induction l as [|a l IH]; simpl; [lia|]. destruct (P a) eqn:E.
  - intros _. by exists 0%nat, a.
  - intros H. destruct IH as (n & b & ? & ?); [simpl in H; lia|]. by exists (S n), b.
Qed.

(** Descriptors of a table, and of all tables, that name file [i]. *)
Definition names (i : nat) (o : option nat) : bool := bool_decide (o = Some i).
Definition refs (i : nat) (ts : list (list (option nat))) : Z :=
  foldr (fun t n => cnt (names i) t + n) 0 ts.

Lemma refs_insert i ts me t t' :
  ts !! me = Some t ->
  refs i (<[me := t']> ts) = refs i ts - cnt (names i) t + cnt (names i) t'.
Proof.
  revert me. induction ts as [|u ts IH]; intros [|me] H; simplify_eq/=; [lia|].
  rewrite (IH me) by done. lia.
Qed.

Lemma refs_bound i ts n :
  Forall (fun t => length t = n) ts -> 0 <= refs i ts <= Z.of_nat (n * length ts).
Proof.
  induction 1 as [|t ts Ht _ IH]; simpl; [lia|]. pose proof (cnt_nonneg (names i) t). lia.
Qed.

Lemma refs_pos i ts me t fd :
  ts !! me = Some t -> t !! fd = Some (Some i) -> 1 <= refs i ts.
Proof.
  intros Hme Hfd. pose proof (cnt_pos (names i) t fd _ Hfd) as Hc.
  unfold names at 1 in Hc. rewrite bool_decide_eq_true_2 in Hc by done.
  specialize (Hc eq_refl). revert me Hme. induction ts as [|u ts IH]; intros [|me] H; simplify_eq/=.
  - enough (0 <= refs i ts) by lia. clear. induction ts as [|u ts IH]; simpl; [lia|].
    pose proof (cnt_nonneg (names i) u). lia.
  - specialize (IH me H). pose proof (cnt_nonneg (names i) u). lia.
Qed.

Definition delta (i j : nat) : Z := b2z (bool_decide (i = j)).

Lemma names_delta i o : b2z (names i (Some o)) = delta o i.
Proof. unfold names, delta. repeat case_bool_decide; simplify_eq; done. Qed.

(** * The invariant *)

Section Refs.
Context {F : Type} `{InodeLayer F}.

Definition is_end (p : nat) (w : bool) (f : file) : bool :=
  bool_decide (ftype f = FD_PIPE) && bool_decide (fpipe f = p) && bool_decide (writable f = w).

Definition end_open (k : kfiles F) (p : nat) (w : bool) : bool :=
  match pipes k !! p with
  | Some (Some pp) => if w then writeopen pp else readopen pp
  | _ => false
  end.

(** The invariant while [x i] references to file [i] are not in a table: in a
    local variable of the running system call, or (negative) in a table but
    not counted yet. *)
Record kinv (x : nat -> Z) (k : kfiles F) : Prop := {
  ki_len : length (ftab k) = NFILE;
  ki_ofile : Forall (fun t => length t = NOFILE) (ofiles k);
  ki_procs : (length (ofiles k) <= 64)%nat;
  ki_ref : forall i f, ftab k !! i = Some f -> fref f = refs i (ofiles k) + x i;
  ki_idx : forall me t fd i, ofiles k !! me = Some t -> t !! fd = Some (Some i) -> (i < NFILE)%nat;
  ki_free : forall i f, ftab k !! i = Some f -> fref f = 0 -> ftype f = FD_NONE;
  ki_ends : forall p w, cnt (is_end p w) (ftab k) = b2z (end_open k p w);
  ki_live : forall p pp, pipes k !! p = Some (Some pp) -> readopen pp || writeopen pp = true;
  ki_ino : forall i f, ftab k !! i = Some f -> ftype f = FD_INODE -> il_valid (fip f);
  ki_layer : il_inv (inodes_of k) }.

Definition zero : nat -> Z := fun _ => 0.

Lemma kinv_ext x y k : (forall i, x i = y i) -> kinv x k -> kinv y k.
Proof. intros Hxy [? ? ? Hr ? ? ? ? ? ?]. constructor; try done. intros i f Hf. rewrite <- Hxy. by apply Hr. Qed.

#[export] Instance kinv_proper : Proper (pointwise_relation nat eq ==> eq ==> iff) kinv.
Proof.
  intros x y Hxy k ? <-. split; apply kinv_ext; [done|]. intros i. by rewrite Hxy.
Qed.

(** Replace file [i] by [g] and the pipes by [ps]: the count of [g] fits the
    references in flight, and the open ends of [ps] fit the kind of [g]. *)
Lemma kinv_replace x d k i f g ps s :
  kinv x k -> ftab k !! i = Some f -> fref g = fref f + d ->
  (fref g = 0 -> ftype g = FD_NONE) -> (ftype g = FD_INODE -> il_valid (fip g)) ->
  (forall p w, b2z (end_open (mkKfiles (ftab k) (ofiles k) ps s) p w)
     = b2z (end_open k p w) - b2z (is_end p w f) + b2z (is_end p w g)) ->
  (forall p pp, ps !! p = Some (Some pp) -> readopen pp || writeopen pp = true) ->
  il_inv s ->
  kinv (fun j => x j + d * delta i j) (mkKfiles (<[i := g]> (ftab k)) (ofiles k) ps s).
Proof.
  intros Hk Hf Hr Hz Hi He Hl Hs. pose proof (lookup_lt_Some _ _ _ Hf) as Hlt. destruct Hk.
  constructor; cbn [ftab ofiles pipes inodes_of]; try done.
  - by rewrite length_insert.
  - intros j h Hh. unfold delta. destruct (decide (i = j)) as [<-|Hij].
    + rewrite list_lookup_insert_eq in Hh by done. simplify_eq/=.
      rewrite bool_decide_eq_true_2 by done. specialize (ki_ref0 _ _ Hf). simpl. lia.
    + rewrite list_lookup_insert_ne in Hh by done. rewrite bool_decide_eq_false_2 by done.
      rewrite (ki_ref0 _ _ Hh). simpl. lia.
  - intros j h Hh. destruct (decide (i = j)) as [<-|Hij].
    + rewrite list_lookup_insert_eq in Hh by done. by simplify_eq/=.
    + rewrite list_lookup_insert_ne in Hh by done. eauto.
  - intros p w. rewrite (cnt_insert _ _ _ f), ki_ends0 by done.
    specialize (He p w). unfold end_open in *. cbn [pipes] in *. lia.
  - intros j h Hh. destruct (decide (i = j)) as [<-|Hij].
    + rewrite list_lookup_insert_eq in Hh by done. by simplify_eq/=.
    + rewrite list_lookup_insert_ne in Hh by done. eauto.
Qed.

(** ... by one that differs only in the count. *)
Lemma kinv_set_ref x d k i f :
  kinv x k -> ftab k !! i = Some f -> fref f + d <> 0 ->
  kinv (fun j => x j + d * delta i j)
    (mkKfiles (<[i := with_fref f (fref f + d)]> (ftab k)) (ofiles k) (pipes k) (inodes_of k)).
Proof.
  intros Hk Hf Hd. apply (kinv_replace x d k i f); try done;
    [by apply (ki_ino _ _ Hk i f)| |apply (ki_live _ _ Hk)|apply (ki_layer _ _ Hk)].
  intros p w. unfold end_open. cbn [pipes]. change (is_end p w (with_fref f (fref f + d)))
    with (is_end p w f). lia.
Qed.

(** Store to a descriptor. *)
Lemma kinv_set_ofile x k me t fd o o' :
  kinv x k -> ofiles k !! me = Some t -> t !! fd = Some o ->
  (forall i, o' = Some i -> (i < NFILE)%nat) ->
  kinv (fun j => x j + b2z (names j o) - b2z (names j o'))
    (mkKfiles (ftab k) (<[me := <[fd := o']> t]> (ofiles k)) (pipes k) (inodes_of k)).
Proof.
  intros Hk Ht Hfd Ho. destruct Hk. constructor; cbn [ftab ofiles pipes inodes_of]; try done.
  - apply Forall_insert; [done|]. rewrite length_insert. by eapply (Forall_lookup_1 _ _ _ _ ki_ofile0).
  - by rewrite length_insert.
  - intros j f Hf. rewrite (refs_insert j _ me t) by done.
    rewrite (cnt_insert _ _ _ o) by done. rewrite (ki_ref0 _ _ Hf). lia.
  - intros me' t' fd' i Hme Hi. destruct (decide (me = me')) as [<-|Hne].
    + rewrite list_lookup_insert_eq in Hme by (by eapply lookup_lt_Some). simplify_eq.
      destruct (decide (fd = fd')) as [<-|Hne].
      * rewrite list_lookup_insert_eq in Hi by (by eapply lookup_lt_Some). simplify_eq. eauto.
      * rewrite list_lookup_insert_ne in Hi by done. eauto.
    + rewrite list_lookup_insert_ne in Hme by done. eauto.
Qed.

(** * The operations *)

(** [m] runs from [k], keeps the invariant with the references [x'] in flight,
    and its result satisfies [Q]. *)
Definition runs {A} (m : M (kfiles F) A) (k : kfiles F) (x' : nat -> Z)
    (Q : A -> kfiles F -> Prop) : Prop :=
  exists a k', m k = Ok (a, k') /\ kinv x' k' /\ Q a k'.

Lemma file_lookup x k i : kinv x k -> (i < NFILE)%nat -> exists f, ftab k !! i = Some f.
Proof. intros Hk Hi. apply lookup_lt_is_Some_2. by rewrite (ki_len _ _ Hk). Qed.

Lemma fref_small x k i f :
  kinv x k -> ftab k !! i = Some f -> -1000 <= x i <= 1000 -> -1000 <= fref f < 2 ^ 20.
Proof.
  intros Hk Hf Hx. rewrite (ki_ref _ _ Hk _ _ Hf).
  pose proof (refs_bound i _ _ (ki_ofile _ _ Hk)). pose proof (ki_procs _ _ Hk).
  unfold NOFILE in *. lia.
Qed.

Lemma free_file_spec l i n :
  free_file l i = Some n -> exists f, (i <= n)%nat /\ l !! (n - i)%nat = Some f /\ fref f = 0.
Proof.
  revert i. induction l as [|f l IH]; intros i; simpl; [done|]. bcase.
  - intros [= <-]. exists f. rewrite Nat.sub_diag. done.
  - intros Hn. destruct (IH _ Hn) as (g & Hle & Hg & Hz). exists g.
    split; [lia|]. split; [|done]. by replace (n - i)%nat with (S (n - S i)) by lia.
Qed.

Lemma filealloc_run k :
  kinv zero k ->
  exists r k', filealloc k = Ok (r, k') /\ ofiles k' = ofiles k
    /\ match r with
       | Some i => kinv (delta i) k' /\ (i < NFILE)%nat
           /\ exists f, ftab k' !! i = Some f /\ ftype f = FD_NONE /\ fref f = 1
       | None => k' = k
       end.
Proof.
  intros Hk. unfold filealloc, get_file, set_ftab. mrun.
  destruct (free_file (ftab k) 0) as [i|] eqn:E; [|by exists None, k].
  destruct (free_file_spec _ _ _ E) as (f & _ & Hf & Hz). rewrite Nat.sub_0_r in Hf. rewrite Hf.
  eexists (Some i), _. split; [done|]. split; [done|].
  pose proof (lookup_lt_Some _ _ _ Hf) as Hlt. rewrite (ki_len _ _ Hk) in Hlt.
  pose proof (kinv_set_ref zero 1 k i f Hk Hf) as Hn. rewrite Hz in Hn. 
  split; [|split; [done|]].
  - eapply kinv_ext; [|apply Hn; lia]. intros j. unfold zero. simpl. lia.
  - eexists. cbn [ftab]. rewrite list_lookup_insert_eq by (by rewrite (ki_len _ _ Hk)).
    split; [done|]. split; [|done]. simpl. by apply (ki_free _ _ Hk _ _ Hf).
Qed.

Lemma filedup_run x k i f :
  kinv x k -> ftab k !! i = Some f -> 1 <= fref f -> -1000 <= x i <= 1000 ->
  exists k', filedup i k = Ok (i, k') /\ ofiles k' = ofiles k
    /\ kinv (fun j => x j + delta i j) k'.
Proof.
  intros Hk Hf Hr Hx. pose proof (fref_small _ _ _ _ Hk Hf Hx).
  unfold filedup, get_file, set_ftab. mrun. rewrite Hf.
  replace (fref f <? 1) with false by lia. rewrite s32_id by lia.
  eexists. split; [done|]. split; [done|].
  eapply kinv_ext; [|apply (kinv_set_ref x 1 k i f); [done|done|lia]].
  intros j. cbv beta. lia.
Qed.

(** The table after the last reference to [i] is gone. *)
Definition closed_file (f : file) : file :=
  mkFile FD_NONE 0 (readable f) (writable f) (fpipe f) (fip f) (foff f).

Lemma is_end_not p w f : ftype f <> FD_PIPE -> is_end p w f = false.
Proof. intros Hf. unfold is_end. by rewrite bool_decide_eq_false_2. Qed.

Lemma is_end_closed p w f : is_end p w (closed_file f) = false.
Proof. done. Qed.

Lemma kinv_close_last x k i f ps s :
  kinv x k -> ftab k !! i = Some f -> fref f = 1 ->
  (forall p w, b2z (end_open (mkKfiles (ftab k) (ofiles k) ps s) p w)
     = b2z (end_open k p w) - b2z (is_end p w f)) ->
  (forall p pp, ps !! p = Some (Some pp) -> readopen pp || writeopen pp = true) ->
  il_inv s ->
  kinv (fun j => x j - delta i j)
    (mkKfiles (<[i := closed_file f]> (ftab k)) (ofiles k) ps s).
Proof.
  intros Hk Hf Hr He Hl Hs. eapply kinv_ext; [|apply (kinv_replace x (-1) k i f); try done].
  - intros j. cbv beta. lia.
  - simpl. lia.
  - intros p w. rewrite He, is_end_closed. simpl. lia.
Qed.

(** The pipe store after closing one end. *)
Definition after_close (pp : pipe) (w : bool) : option pipe :=
  let '(pp', _, freed) := pipeclose pp w in if (freed : bool) then None else Some pp'.

Definition side (w : bool) (pp : pipe) : bool := if w then writeopen pp else readopen pp.

Lemma after_close_side pp w w' :
  match after_close pp w with Some q => side w' q | None => false end
  = side w' pp && negb (bool_decide (w = w')).
Proof. destruct pp as [dt nr nw [] []]; by destruct w, w'. Qed.

Lemma after_close_live pp w q : after_close pp w = Some q -> readopen q || writeopen q = true.
Proof. destruct pp as [dt nr nw [] []], w; cbn; by intros [= <-]. Qed.

Lemma close_pipe_run (k : kfiles F) p w pp :
  pipes k !! p = Some (Some pp) ->
  close_pipe p w k = Ok (tt, mkKfiles (ftab k) (ofiles k) (<[p := after_close pp w]> (pipes k))
                               (inodes_of k)).
Proof.
  intros Hp. unfold close_pipe. rewrite Hp. unfold after_close.
  by destruct (pipeclose pp w) as [[q wk] []].
Qed.

Lemma end_open_insert (k : kfiles F) p w pp o ps s p' w' :
  pipes k !! p = Some (Some pp) -> o = after_close pp w -> side w pp = true ->
  b2z (end_open (mkKfiles (ftab k) ps (<[p := o]> (pipes k)) s) p' w')
  = b2z (end_open k p' w') - b2z (bool_decide (p = p') && bool_decide (w = w')).
Proof.
  intros Hp -> Hw. pose proof (lookup_lt_Some _ _ _ Hp) as Hlt. unfold end_open. cbn [pipes].
  destruct (decide (p = p')) as [<-|Hne].
  - rewrite list_lookup_insert_eq, Hp, (bool_decide_eq_true_2 (p = p)) by done.
    pose proof (after_close_side pp w w') as Ha. unfold side in *.
    destruct (after_close pp w); rewrite Ha || rewrite <- Ha; case_bool_decide; subst;
      try rewrite Hw; simpl; try rewrite andb_true_r in *; try rewrite andb_false_r in *; simpl; try lia.
    all: rewrite <- Ha; simpl; lia.
  - rewrite list_lookup_insert_ne, (bool_decide_eq_false_2 (p = p')) by done. simpl. lia.
Qed.

Lemma fileclose_run x k i f :
  kinv x k -> ftab k !! i = Some f -> 1 <= fref f -> -1000 <= x i <= 1000 ->
  exists k', fileclose i k = Ok (tt, k') /\ ofiles k' = ofiles k
    /\ kinv (fun j => x j - delta i j) k'.
Proof.
  intros Hk Hf Hr Hx. pose proof (fref_small _ _ _ _ Hk Hf Hx).
  unfold fileclose, get_file, set_ftab. mrun. rewrite Hf.
  replace (fref f <? 1) with false by lia. rewrite s32_id by lia. bcase.
  { eexists. split; [done|]. split; [done|].
    eapply kinv_ext; [|apply (kinv_set_ref x (-1) k i f); [done|done|lia]].
    intros j. cbv beta. lia. }
  assert (Hr1 : fref f = 1) by lia. fold (closed_file f).
  destruct (ftype f) eqn:Et.
  - eexists. split; [done|]. split; [done|]. cbn [ofiles ftab pipes inodes_of].
    apply kinv_close_last; try done; [|apply (ki_live _ _ Hk)|apply (ki_layer _ _ Hk)].
    intros p w. unfold is_end. rewrite Et. simpl. unfold end_open. cbn [pipes]. lia.
  - assert (He : end_open k (fpipe f) (writable f) = true).
    { pose proof (ki_ends _ _ Hk (fpipe f) (writable f)) as Hc.
      pose proof (cnt_pos (is_end (fpipe f) (writable f)) _ _ _ Hf) as Hp.
      unfold is_end in Hp at 1. rewrite Et, !bool_decide_eq_true_2 in Hp by done.
      specialize (Hp eq_refl). destruct (end_open _ _ _); [done|]. simpl in Hc. lia. }
    unfold end_open in He. destruct (pipes k !! fpipe f) as [[pp|]|] eqn:Ep; [|done..].
    rewrite (close_pipe_run _ _ _ pp) by done. eexists. split; [done|]. split; [done|].
    cbn [ofiles ftab pipes inodes_of]. apply kinv_close_last; try done.
    + intros p w. rewrite (end_open_insert k _ (writable f) pp) by done.
      unfold is_end. rewrite Et. simpl. done.
    + intros p q Hq. destruct (decide (fpipe f = p)) as [<-|Hne].
      * rewrite list_lookup_insert_eq in Hq by (by eapply lookup_lt_Some). simplify_eq.
        by eapply after_close_live.
      * rewrite list_lookup_insert_ne in Hq by done. by apply (ki_live _ _ Hk p).
    + apply (ki_layer _ _ Hk).
  - destruct (il_put_ok (fip f) (inodes_of k)) as (s' & Hs & Hi);
      [apply (ki_layer _ _ Hk)|by apply (ki_ino _ _ Hk i f)|].
    unfold put_inode. cbn [inodes_of]. rewrite Hs. eexists. split; [done|]. split; [done|].
    cbn [ofiles ftab pipes]. apply kinv_close_last; try done; [|apply (ki_live _ _ Hk)].
    intros p w. unfold is_end. rewrite Et. simpl. unfold end_open. cbn [pipes]. lia.
Qed.

Lemma free_fd_spec {A} (t : list (option A)) n fd :
  free_fd t n = Some fd -> (n <= fd)%nat /\ t !! (fd - n)%nat = Some None.
Proof.
  revert n. induction t as [|[a|] t IH]; intros n; simpl; [done| |].
  - intros Hn. destruct (IH _ Hn) as [Hle Hl]. split; [lia|].
    by replace (fd - n)%nat with (S (fd - S n)) by lia.
  - intros [= <-]. by rewrite Nat.sub_diag.
Qed.

Lemma fdalloc_run x k me t f :
  kinv x k -> ofiles k !! me = Some t -> (f < NFILE)%nat ->
  exists r k', fdalloc me f k = Ok (r, k') /\ ftab k' = ftab k
    /\ length (ofiles k') = length (ofiles k)
    /\ match r with
       | Some fd => kinv (fun j => x j - delta f j) k' /\ t !! fd = Some None
                    /\ ofiles k' !! me = Some (<[fd := Some f]> t)
       | None => k' = k
       end.
Proof.
  intros Hk Ht Hf. unfold fdalloc, get_ofile, set_ofile. mrun. rewrite Ht.
  destruct (free_fd t 0) as [fd|] eqn:E; [|by exists None, k].
  apply free_fd_spec in E as [_ E]. rewrite Nat.sub_0_r in E.
  eexists (Some fd), _. split; [done|]. cbn [ftab ofiles]. split; [done|].
  split; [by rewrite length_insert|]. split; [|split; [done|]].
  - eapply kinv_ext; [|apply (kinv_set_ofile x k me t fd None (Some f) Hk Ht E); by intros ? [= <-]].
    intros j. cbv beta. rewrite names_delta. simpl. lia.
  - apply list_lookup_insert_eq. by eapply lookup_lt_Some.
Qed.

(** Clear a descriptor. *)
Lemma clear_run x k me t fd f :
  kinv x k -> ofiles k !! me = Some t -> t !! fd = Some (Some f) ->
  kinv (fun j => x j + delta f j)
    (mkKfiles (ftab k) (<[me := <[fd := None]> t]> (ofiles k)) (pipes k) (inodes_of k)).
Proof.
  intros Hk Ht Hfd.
  eapply kinv_ext; [|by apply (kinv_set_ofile x k me t fd (Some f) None Hk Ht Hfd)].
  intros j. cbv beta. rewrite names_delta. simpl. lia.
Qed.

Lemma fref_named k me t fd i f :
  kinv zero k -> ofiles k !! me = Some t -> t !! fd = Some (Some i) -> ftab k !! i = Some f ->
  1 <= fref f.
Proof.
  intros Hk Ht Hfd Hf. rewrite (ki_ref _ _ Hk _ _ Hf). pose proof (refs_pos _ _ _ _ _ Ht Hfd).
  unfold zero. lia.
Qed.

Lemma argfd_run k me t fd :
  kinv zero k -> ofiles k !! me = Some t ->
  exists r, argfd me fd k = Ok (r, k)
    /\ match r with Some (n, i) => t !! n = Some (Some i) | None => True end.
Proof.
  intros Hk Ht. unfold argfd, get_ofile. mrun. rewrite Ht. bcase; [by exists None|].
  pose proof (Forall_lookup_1 _ _ _ _ (ki_ofile _ _ Hk) Ht) as Hlen. simpl in Hlen.
  destruct (lookup_lt_is_Some_2 t (Z.to_nat fd)) as [[i|] Hi]; [lia|..]; rewrite Hi;
    [by exists (Some (Z.to_nat fd, i))|by exists None].
Qed.

(** What a system call keeps: the invariant, and the number of processes. *)
Notation keeps m k := (exists r k', m k = Ok (r, k') /\ kinv zero k'
  /\ length (ofiles k') = length (ofiles k)).

Ltac small := unfold zero, delta; repeat case_bool_decide; simpl; lia.

Lemma sys_dup_keeps k me t fd :
  kinv zero k -> ofiles k !! me = Some t -> keeps (sys_dup me fd) k.
Proof.
  intros Hk Ht. unfold sys_dup.
  destruct (argfd_run k me t fd Hk Ht) as (r & Ha & Hr). rewrite (bind_ok _ _ _ _ _ Ha).
  destruct r as [[n i]|]; [|by exists None, k].
  pose proof (ki_idx _ _ Hk _ _ _ _ Ht Hr) as Hi. destruct (file_lookup _ _ _ Hk Hi) as [f Hf].
  pose proof (fref_named _ _ _ _ _ _ Hk Ht Hr Hf) as Hge.
  destruct (fdalloc_run _ _ _ _ i Hk Ht Hi) as (r' & k1 & Hb & Hft & Hlen & Hm).
  rewrite (bind_ok _ _ _ _ _ Hb). destruct r' as [fd'|]; [|subst; by exists None, k].
  destruct Hm as (Hk1 & _ & _). rewrite <- Hft in Hf.
  destruct (filedup_run _ _ _ _ Hk1 Hf Hge) as (k2 & Hd & Ho & Hk2); [small|].
  rewrite (bind_ok _ _ _ _ _ Hd). exists (Some fd'), k2. split; [done|].
  split; [|congruence]. eapply kinv_ext; [|apply Hk2]. intros j. cbv beta. lia.
Qed.

Lemma sys_close_keeps k me t fd :
  kinv zero k -> ofiles k !! me = Some t -> keeps (sys_close me fd) k.
Proof.
  intros Hk Ht. unfold sys_close.
  destruct (argfd_run k me t fd Hk Ht) as (r & Ha & Hr). rewrite (bind_ok _ _ _ _ _ Ha).
  destruct r as [[n i]|]; [|by exists None, k].
  pose proof (ki_idx _ _ Hk _ _ _ _ Ht Hr) as Hi. destruct (file_lookup _ _ _ Hk Hi) as [f Hf].
  pose proof (fref_named _ _ _ _ _ _ Hk Ht Hr Hf) as Hge.
  rewrite (bind_ok _ _ _ t k) by (unfold get_ofile; by rewrite Ht).
  pose proof (clear_run _ _ _ _ _ _ Hk Ht Hr) as Hk1.
  erewrite bind_ok by done. cbv beta.
  destruct (fileclose_run _ _ i f Hk1 Hf Hge) as (k2 & Hd & Ho & Hk2); [small|].
  rewrite (bind_ok _ _ _ _ _ Hd). exists (Some tt), k2. split; [done|].
  split; [|by rewrite Ho; cbn [ofiles]; rewrite length_insert].
  eapply kinv_ext; [|apply Hk2]. intros j. cbv beta. unfold zero. lia.
Qed.

Lemma open_file_keeps k me t ip omode :
  kinv zero k -> ofiles k !! me = Some t -> il_valid ip -> keeps (open_file me ip omode) k.
Proof.
  intros Hk Ht Hip. unfold open_file.
  destruct (filealloc_run k Hk) as (r & k1 & Ha & Ho & Hm). rewrite (bind_ok _ _ _ _ _ Ha).
  destruct r as [i|]; [|subst; by exists None, k].
  destruct Hm as (Hk1 & Hi & f & Hf & Hty & Hr). rewrite <- Ho in Ht.
  destruct (fdalloc_run _ _ _ _ i Hk1 Ht Hi) as (r' & k2 & Hb & Hft & Hlen & Hm).
  rewrite (bind_ok _ _ _ _ _ Hb). destruct r' as [fd'|].
  - destruct Hm as (Hk2 & _ & _). rewrite <- Hft in Hf.
    unfold get_file, set_ftab. mrun. rewrite Hf. eexists _, _. split; [done|].
    cbn [ofiles]. split; [|congruence].
    eapply kinv_ext; [|apply (kinv_replace (fun j => delta i j - delta i j) 0 k2 i f); try done].
    + intros j. cbv beta. unfold zero. lia.
    + cbn [fref]. lia.
    + cbn [fref]. lia.
    + intros p w. rewrite !is_end_not by (by rewrite ?Hty). unfold end_open. cbn [pipes b2z]. lia.
    + apply (ki_live _ _ Hk2).
    + apply (ki_layer _ _ Hk2).
  - subst k2. destruct (fileclose_run _ _ i f Hk1 Hf) as (k3 & Hd & Ho3 & Hk3); [lia|small|].
    rewrite (bind_ok _ _ _ _ _ Hd). exists None, k3. split; [done|]. split; [|congruence].
    eapply kinv_ext; [|apply Hk3]. intros j. cbv beta. unfold zero. lia.
Qed.

Lemma end_open_app (k : kfiles F) (pp : pipe) p w ft os s :
  end_open (mkKfiles ft os (pipes k ++ [Some pp]) s) p w
  = if decide (p = length (pipes k)) then side w pp else end_open k p w.
Proof.
  unfold end_open. cbn [pipes]. destruct (decide _) as [->|Hne].
  - by rewrite list_lookup_middle.
  - destruct (decide (p < length (pipes k))%nat) as [Hlt|Hge].
    + by rewrite lookup_app_l.
    + rewrite (lookup_ge_None_2 (pipes k)) by lia.
      rewrite lookup_ge_None_2; [done|]. rewrite length_app. simpl. lia.
Qed.

Lemma end_open_new (k : kfiles F) p w :
  (length (pipes k) <= p)%nat -> end_open k p w = false.
Proof. intros Hp. unfold end_open. by rewrite lookup_ge_None_2. Qed.

Lemma filealloc_again k i :
  kinv (delta i) k -> (i < NFILE)%nat ->
  exists r k', filealloc k = Ok (r, k') /\ ofiles k' = ofiles k /\ pipes k' = pipes k
    /\ inodes_of k' = inodes_of k
    /\ match r with
       | Some j => j <> i /\ kinv (fun n => delta i n + delta j n) k' /\ (j < NFILE)%nat
           /\ ftab k' !! i = ftab k !! i
           /\ exists f, ftab k' !! j = Some f /\ ftype f = FD_NONE /\ fref f = 1
       | None => k' = k
       end.
Proof.
  intros Hk Hi. unfold filealloc, get_file, set_ftab. mrun.
  destruct (free_file (ftab k) 0) as [j|] eqn:E; [|by exists None, k].
  destruct (free_file_spec _ _ _ E) as (f & _ & Hf & Hz). rewrite Nat.sub_0_r in Hf. rewrite Hf.
  eexists (Some j), _. split; [done|]. do 3 (split; [done|]).
  pose proof (lookup_lt_Some _ _ _ Hf) as Hlt. rewrite (ki_len _ _ Hk) in Hlt.
  assert (Hji : j <> i).
  { intros ->. pose proof (ki_ref _ _ Hk _ _ Hf) as Hr.
    pose proof (refs_bound i _ _ (ki_ofile _ _ Hk)). unfold delta in Hr.
    rewrite bool_decide_eq_true_2 in Hr by done. simpl in Hr. lia. }
  pose proof (kinv_set_ref (delta i) 1 k j f Hk Hf) as Hn. rewrite Hz in Hn.
  split; [done|]. split; [|split; [done|split]]; cbn [ftab].
  - eapply kinv_ext; [|apply Hn; lia]. intros n. cbv beta. lia.
  - by apply list_lookup_insert_ne.
  - eexists. rewrite list_lookup_insert_eq by (by rewrite (ki_len _ _ Hk)).
    split; [done|]. split; [|done]. simpl. by apply (ki_free _ _ Hk _ _ Hf).
Qed.

(** A new pipe with its two files. *)
Lemma kinv_new_pipe x k i j fi fj page :
  kinv x k -> i <> j -> ftab k !! i = Some fi -> ftab k !! j = Some fj ->
  ftype fi = FD_NONE -> ftype fj = FD_NONE -> fref fi = 1 -> fref fj = 1 ->
  let p := length (pipes k) in
  kinv x (mkKfiles
    (<[j := mkFile FD_PIPE 1 false true p (fip fj) (foff fj)]>
      (<[i := mkFile FD_PIPE 1 true false p (fip fi) (foff fi)]> (ftab k)))
    (ofiles k) (pipes k ++ [Some (pipe_init page)]) (inodes_of k)).
Proof.
  intros Hk Hij Hfi Hfj Hti Htj Hri Hrj p.
  set (half := mkPipe page 0 0 true false).
  assert (Hlive : forall pp, readopen pp || writeopen pp = true ->
    forall q pp', (pipes k ++ [Some pp]) !! q = Some (Some pp') -> readopen pp' || writeopen pp' = true).
  { intros pp Hpp q pp' Hq. apply lookup_app_Some in Hq as [Hq|[_ Hq]].
    - by apply (ki_live _ _ Hk q).
    - by apply list_lookup_singleton_Some in Hq as [_ [= <-]]. }
  assert (H1 : kinv (fun n => x n + 0 * delta i n) (mkKfiles
    (<[i := mkFile FD_PIPE 1 true false p (fip fi) (foff fi)]> (ftab k))
    (ofiles k) (pipes k ++ [Some half]) (inodes_of k))).
  { apply (kinv_replace x 0 k i fi); try done; [cbn [fref]; lia| |by apply Hlive|apply (ki_layer _ _ Hk)].
    intros q w. rewrite end_open_app. unfold is_end. rewrite Hti. cbn [ftype fpipe writable].
    destruct (decide (q = length (pipes k))) as [->|Hne].
    - rewrite end_open_new by done. rewrite (bool_decide_eq_true_2 (p = _)) by done. by destruct w.
    - rewrite (bool_decide_eq_false_2 (p = q)) by done. simpl. lia. }
  set (k1 := mkKfiles _ _ _ _) in H1.
  eapply (kinv_ext (fun n => (x n + 0 * delta i n) + 0 * delta j n)); [intros; cbv beta; lia|].
  apply (kinv_replace _ 0 k1 j fj); try done.
  - subst k1. cbn [ftab]. by rewrite list_lookup_insert_ne.
  - cbn [fref]. lia.
  - intros q w. rewrite end_open_app. subst k1. rewrite end_open_app. unfold is_end.
    rewrite Htj. cbn [ftype fpipe writable].
    destruct (decide (q = length (pipes k))) as [->|Hne].
    + rewrite (bool_decide_eq_true_2 (p = _)) by done. by destruct w.
    + rewrite (bool_decide_eq_false_2 (p = q)) by done. simpl. lia.
  - by apply Hlive.
  - apply (ki_layer _ _ Hk).
Qed.

(** Closing a reference in flight. *)
Lemma fileclose_held x k i :
  kinv x k -> (i < NFILE)%nat -> 1 <= x i <= 1000 ->
  exists k', fileclose i k = Ok (tt, k') /\ ofiles k' = ofiles k
    /\ kinv (fun j => x j - delta i j) k'.
Proof.
  intros Hk Hi Hx. destruct (file_lookup _ _ _ Hk Hi) as [f Hf].
  apply (fileclose_run x k i f); [done|done| |lia]. rewrite (ki_ref _ _ Hk _ _ Hf).
  pose proof (refs_bound i _ _ (ki_ofile _ _ Hk)). lia.
Qed.

Lemma pipealloc_run k page :
  kinv zero k ->
  exists r k', pipealloc page k = Ok (r, k') /\ ofiles k' = ofiles k
    /\ match r with
       | Some (i, j) => i <> j /\ (i < NFILE)%nat /\ (j < NFILE)%nat
                        /\ kinv (fun n => delta i n + delta j n) k'
       | None => kinv zero k'
       end.
Proof.
  intros Hk. unfold pipealloc.
  destruct (filealloc_run k Hk) as (r & k1 & Ha & Ho & Hm). rewrite (bind_ok _ _ _ _ _ Ha).
  destruct r as [i|]; [|subst; by exists None, k].
  destruct Hm as (Hk1 & Hi & fi & Hfi & Hti & Hri).
  destruct (filealloc_again k1 i Hk1 Hi) as (r & k2 & Hb & Ho2 & _ & _ & Hm).
  rewrite (bind_ok _ _ _ _ _ Hb). destruct r as [j|].
  - destruct Hm as (Hji & Hk2 & Hj & Hsame & fj & Hfj & Htj & Hrj).
    unfold get_file, set_ftab. mrun. cbn [ftab]. rewrite Hsame, Hfi.
    cbn [ftab]. rewrite (list_lookup_insert_ne (ftab k2)) by done. rewrite Hfj. eexists (Some (i, j)), _. split; [done|].
    cbn [ofiles pipes inodes_of ftab]. split; [congruence|]. split; [done|]. do 2 (split; [done|]).
    rewrite Hri, Hrj. apply (kinv_new_pipe _ k2 i j fi fj page); try done. by rewrite Hsame.
  - subst k2. destruct (fileclose_held _ _ i Hk1 Hi) as (k3 & Hd & Ho3 & Hk3); [small|].
    rewrite (bind_ok _ _ _ _ _ Hd). exists None, k3. split; [done|]. split; [congruence|].
    eapply kinv_ext; [|apply Hk3]. intros n. cbv beta. unfold zero. lia.
Qed.

Lemma close_both k x i j (v : option (nat * nat)) :
  kinv x k -> i <> j -> (i < NFILE)%nat -> (j < NFILE)%nat ->
  (forall n, x n = delta i n + delta j n) ->
  exists k', (fileclose i ;; fileclose j ;; mret v) k = Ok (v, k') /\ kinv zero k'
    /\ ofiles k' = ofiles k.
Proof.
  intros Hk Hij Hi Hj Hx. apply (kinv_ext _ _ _ Hx) in Hk.
  destruct (fileclose_held _ _ i Hk Hi) as (k1 & H1 & Ho1 & Hk1); [small|].
  rewrite (bind_ok _ _ _ _ _ H1).
  destruct (fileclose_held _ _ j Hk1 Hj) as (k2 & H2 & Ho2 & Hk2); [small|].
  rewrite (bind_ok _ _ _ _ _ H2). exists k2. split; [done|]. split; [|congruence].
  eapply kinv_ext; [|apply Hk2]. intros n. cbv beta. unfold zero. lia.
Qed.

Lemma sys_pipe_keeps k me t page :
  kinv zero k -> ofiles k !! me = Some t -> keeps (sys_pipe me page) k.
Proof.
  intros Hk Ht. unfold sys_pipe. destruct (pipealloc_run k page Hk) as (r & k1 & Ha & Ho & Hm).
  rewrite (bind_ok _ _ _ _ _ Ha). rewrite <- Ho in Ht.
  destruct r as [[i j]|]; [|exists None, k1; split; [done|]; split; [done|congruence]].
  destruct Hm as (Hij & Hi & Hj & Hk1).
  destruct (fdalloc_run _ _ _ _ i Hk1 Ht Hi) as (r & k2 & Hb & _ & Hlen & Hm).
  rewrite (bind_ok _ _ _ _ _ Hb). destruct r as [fd0|].
  2:{ subst k2. destruct (close_both _ _ i j None Hk1) as (k3 & H3 & Hk3 & Ho3); try done.
      exists None, k3. split; [done|]. split; [done|]. congruence. }
  destruct Hm as (Hk2 & Hfd0 & Ht2).
  destruct (fdalloc_run _ _ _ _ j Hk2 Ht2 Hj) as (r & k3 & Hb3 & _ & Hlen3 & Hm).
  rewrite (bind_ok _ _ _ _ _ Hb3). destruct r as [fd1|].
  - destruct Hm as (Hk3 & _ & _). exists (Some (fd0, fd1)), k3. split; [done|].
    split; [|congruence]. eapply kinv_ext; [|apply Hk3]. intros n. cbv beta. unfold zero. lia.
  - subst k3. rewrite (bind_ok _ _ _ _ k2) by (unfold get_ofile; by rewrite Ht2).
    erewrite bind_ok by done. cbv beta.
    pose proof (clear_run _ _ _ _ fd0 i Hk2 Ht2) as Hk3.
    rewrite list_lookup_insert_eq in Hk3 by (by eapply lookup_lt_Some). specialize (Hk3 eq_refl).
    destruct (close_both _ _ i j None Hk3) as (k4 & H4 & Hk4 & Ho4); try done;
      [intros n; cbv beta; lia|].
    exists None, k4. split; [done|]. split; [done|]. rewrite Ho4. cbn [ofiles].
    rewrite length_insert. congruence.
Qed.

Lemma exit_files_keeps k me t fds :
  kinv zero k -> ofiles k !! me = Some t -> Forall (fun fd => fd < NOFILE)%nat fds ->
  keeps (exit_files me fds) k.
Proof.
  intros Hk Ht Hf. revert k t Hk Ht. induction Hf as [|fd fds Hfd _ IH]; intros k t Hk Ht;
    [by exists tt, k|]. cbn [exit_files].
  rewrite (bind_ok _ _ _ t k) by (unfold get_ofile; by rewrite Ht).
  pose proof (Forall_lookup_1 _ _ _ _ (ki_ofile _ _ Hk) Ht) as Hlen. simpl in Hlen.
  destruct (lookup_lt_is_Some_2 t fd) as [[i|] Hi]; [lia|..]; rewrite Hi.
  2:{ rewrite (bind_ok _ _ _ tt k) by done. by apply (IH k t). }
  pose proof (ki_idx _ _ Hk _ _ _ _ Ht Hi) as Hlt. destruct (file_lookup _ _ _ Hk Hlt) as [f Hf].
  pose proof (fref_named _ _ _ _ _ _ Hk Ht Hi Hf) as Hge.
  destruct (fileclose_run _ _ i f Hk Hf Hge) as (k1 & H1 & Ho1 & Hk1); [small|].
  rewrite <- Ho1 in Ht. pose proof (clear_run _ _ _ _ _ _ Hk1 Ht Hi) as Hk2.
  set (k2 := mkKfiles _ _ _ _) in Hk2. rewrite (bind_ok _ _ _ tt k2).
  2:{ rewrite (bind_ok _ _ _ _ _ H1). by rewrite (bind_ok _ _ _ t k1) by (unfold get_ofile; by rewrite Ht). }
  destruct (IH k2 (<[fd := None]> t)) as (r & k3 & H3 & Hk3 & Hl3).
  - eapply kinv_ext; [|apply Hk2]. intros n. cbv beta. unfold zero. lia.
  - subst k2. cbn [ofiles]. apply list_lookup_insert_eq. by eapply lookup_lt_Some.
  - exists r, k3. split; [done|]. split; [done|]. rewrite Hl3. subst k2. cbn [ofiles].
    rewrite length_insert. congruence.
Qed.

Lemma fork_files_keeps k me np t t' fds :
  kinv zero k -> me <> np -> ofiles k !! me = Some t -> ofiles k !! np = Some t' ->
  NoDup fds -> Forall (fun fd => t' !! fd = Some None) fds ->
  Forall (fun fd => fd < NOFILE)%nat fds -> keeps (fork_files me np fds) k.
Proof.
  intros Hk Hne. revert k t' Hk. induction fds as [|fd fds IH]; intros k t' Hk Ht Ht' Hnd Hnone Hlt;
    [by exists tt, k|]. cbn [fork_files].
  apply NoDup_cons in Hnd as [Hnin Hnd]. apply Forall_cons in Hnone as [Hn Hnone].
  apply Forall_cons in Hlt as [Hfd Hlt].
  rewrite (bind_ok _ _ _ t k) by (unfold get_ofile; by rewrite Ht).
  pose proof (Forall_lookup_1 _ _ _ _ (ki_ofile _ _ Hk) Ht) as Hlen. simpl in Hlen.
  destruct (lookup_lt_is_Some_2 t fd) as [[i|] Hi]; [lia|..]; rewrite Hi.
  2:{ rewrite (bind_ok _ _ _ tt k) by done. by apply (IH k t'). }
  pose proof (ki_idx _ _ Hk _ _ _ _ Ht Hi) as Hil. destruct (file_lookup _ _ _ Hk Hil) as [f Hf].
  pose proof (fref_named _ _ _ _ _ _ Hk Ht Hi Hf) as Hge.
  destruct (filedup_run _ _ i f Hk Hf Hge) as (k1 & H1 & Ho1 & Hk1); [small|].
  rewrite <- Ho1 in Ht, Ht'.
  pose proof (kinv_set_ofile _ k1 np t' fd None (Some i) Hk1 Ht' Hn) as Hk2.
  set (k2 := mkKfiles _ _ _ _) in Hk2. rewrite (bind_ok _ _ _ tt k2).
  2:{ rewrite (bind_ok _ _ _ _ _ H1). by rewrite (bind_ok _ _ _ t' k1) by (unfold get_ofile; by rewrite Ht'). }
  destruct (IH k2 (<[fd := Some i]> t')) as (r & k3 & H3 & Hk3 & Hl3).
  - eapply kinv_ext; [|apply Hk2; by intros ? [= <-]]. intros n. cbv beta. rewrite names_delta.
    unfold zero. simpl. lia.
  - subst k2. cbn [ofiles]. by rewrite list_lookup_insert_ne.
  - subst k2. cbn [ofiles]. apply list_lookup_insert_eq. by eapply lookup_lt_Some.
  - done.
  - apply Forall_forall. intros fd' Hin. rewrite Forall_forall in Hnone.
    rewrite list_lookup_insert_ne; [by apply Hnone|]. by intros ->.
  - done.
  - exists r, k3. split; [done|]. split; [done|]. rewrite Hl3. subst k2. cbn [ofiles].
    rewrite length_insert. congruence.
Qed.

(** * Any sequence of operations *)

Inductive fop : Type :=
  | ODup (me : nat) (fd : Z)
  | OClose (me : nat) (fd : Z)
  | OOpen (me ip : nat) (omode : Z)
  | OPipe (me : nat) (page : list Z)
  | OFork (me np : nat)
  | OExit (me : nat).

Definition run_fop (o : fop) : M (kfiles F) unit :=
  match o with
  | ODup me fd => sys_dup me fd ;; mret tt
  | OClose me fd => sys_close me fd ;; mret tt
  | OOpen me ip omode => open_file me ip omode ;; mret tt
  | OPipe me page => sys_pipe me page ;; mret tt
  | OFork me np => fork_files me np (seq 0 NOFILE)
  | OExit me => exit_files me (seq 0 NOFILE)
  end.

(** The caller exists; an opened inode is one of the cache; the new process of
    a fork has no open files. *)
Definition fop_ok (k : kfiles F) (o : fop) : Prop :=
  match o with
  | ODup me _ | OClose me _ | OPipe me _ | OExit me => (me < length (ofiles k))%nat
  | OOpen me ip _ => (me < length (ofiles k))%nat /\ il_valid ip
  | OFork me np => (me < length (ofiles k))%nat /\ me <> np
                   /\ ofiles k !! np = Some (replicate NOFILE None)
  end.

Definition fstep (k k' : kfiles F) : Prop := exists o, fop_ok k o /\ run_fop o k = Ok (tt, k').

Definition boot_files (n : nat) (s : F) : kfiles F :=
  mkKfiles (replicate NFILE (mkFile FD_NONE 0 false false 0 0 0))
    (replicate n (replicate NOFILE None)) [] s.

Lemma seq_fds : Forall (fun fd => fd < NOFILE)%nat (seq 0 NOFILE).
Proof. apply Forall_forall. intros fd Hfd%elem_of_seq. lia. Qed.

Lemma run_fop_keeps k o :
  kinv zero k -> fop_ok k o ->
  exists k', run_fop o k = Ok (tt, k') /\ kinv zero k' /\ length (ofiles k') = length (ofiles k).
Proof.
  intros Hk Ho.
  assert (Hdrop : forall A (m : M (kfiles F) A), keeps m k ->
    exists k', (m ;; mret tt) k = Ok (tt, k') /\ kinv zero k'
      /\ length (ofiles k') = length (ofiles k)).
  { intros A m (r & k' & Hm & Hr). exists k'. by rewrite (bind_ok _ _ _ _ _ Hm). }
  assert (Ht : forall me, (me < length (ofiles k))%nat -> exists t, ofiles k !! me = Some t)
    by (intros; by apply lookup_lt_is_Some_2).
  destruct o as [me fd|me fd|me ip om|me page|me np|me]; cbn [run_fop fop_ok] in *.
  - destruct (Ht me Ho) as [t Hme]. by eapply Hdrop, sys_dup_keeps.
  - destruct (Ht me Ho) as [t Hme]. by eapply Hdrop, sys_close_keeps.
  - destruct Ho as [Ho Hip]. destruct (Ht me Ho) as [t Hme]. by eapply Hdrop, open_file_keeps.
  - destruct (Ht me Ho) as [t Hme]. by eapply Hdrop, sys_pipe_keeps.
  - destruct Ho as (Ho & Hne & Hnp). destruct (Ht me Ho) as [t Hme].
    destruct (fork_files_keeps k me np t _ (seq 0 NOFILE) Hk Hne Hme Hnp) as ([] & k' & ?);
      [apply NoDup_seq| |apply seq_fds|by exists k'].
    apply Forall_forall. intros fd Hfd%elem_of_seq. apply lookup_replicate_2. lia.
  - destruct (Ht me Ho) as [t Hme].
    destruct (exit_files_keeps k me t (seq 0 NOFILE) Hk Hme seq_fds) as ([] & k' & ?). by exists k'.
Qed.

Lemma boot_kinv n s : (n <= 64)%nat -> il_inv s -> kinv zero (boot_files n s).
Proof.
  intros Hn Hs.
  assert (Hz : forall i, refs i (replicate n (replicate NOFILE None)) = 0).
  { intros i. clear Hn. unfold refs. induction n as [|n IH]; [done|]. cbn [replicate foldr].
    by rewrite IH. }
  constructor; cbn [boot_files ftab ofiles pipes inodes_of].
  - apply length_replicate.
  - apply Forall_replicate, length_replicate.
  - by rewrite length_replicate.
  - intros i f Hf. apply lookup_replicate in Hf as [-> _]. by rewrite Hz.
  - intros me t fd i Ht Hi. apply lookup_replicate in Ht as [-> _].
    by apply lookup_replicate in Hi as [? _].
  - intros i f Hf _. by apply lookup_replicate in Hf as [-> _].
  - intros p w. change (end_open (boot_files n s) p w) with false. apply cnt_zero.
    intros f Hf%elem_of_replicate_inv. by subst.
  - intros p pp Hp. by rewrite lookup_nil in Hp.
  - intros i f Hf. apply lookup_replicate in Hf as [-> _]. done.
  - done.
Qed.

Lemma reachable_kinv n s k :
  (n <= 64)%nat -> il_inv s -> rtc fstep (boot_files n s) k ->
  kinv zero k /\ length (ofiles k) = n.
Proof.
  intros Hn Hs Hr.
  assert (H0 : kinv zero (boot_files n s) /\ length (ofiles (boot_files n s)) = n).
  { split; [by apply boot_kinv|apply length_replicate]. }
  revert H0. induction Hr as [|k k1 k2 (o & Ho & Hrun) _ IH]; [done|]. intros [Hk Hl].
  destruct (run_fop_keeps k o Hk Ho) as (k1' & Hrun' & Hk1 & Hl1).
  rewrite Hrun in Hrun'. simplify_eq. apply IH. split; [done|congruence].
Qed.

Lemma refs_exists i ts :
  1 <= refs i ts -> exists me t fd, ts !! me = Some t /\ t !! fd = Some (Some i).
Proof.
  induction ts as [|t ts IH]; simpl; [lia|]. intros Hr.
  destruct (decide (1 <= cnt (names i) t)) as [Hc|Hc].
  - destruct (cnt_exists _ _ Hc) as (fd & o & Ho & Hn). apply bool_decide_eq_true in Hn as ->.
    by exists 0%nat, t, fd.
  - destruct IH as (me & u & fd & ? & ?); [lia|]. by exists (S me), u, fd.
Qed.

(** A descriptor of some process for end [w] of pipe [p]. *)
Definition has_descriptor (k : kfiles F) (p : nat) (w : bool) : Prop :=
  exists me t fd i f, ofiles k !! me = Some t /\ t !! fd = Some (Some i)
    /\ ftab k !! i = Some f /\ is_end p w f = true.

Lemma end_open_iff k p w : kinv zero k -> end_open k p w = true <-> has_descriptor k p w.
Proof.
  intros Hk. pose proof (ki_ends _ _ Hk p w) as He. split.
  - intros Ho. rewrite Ho in He. destruct (cnt_exists (is_end p w) (ftab k)) as (i & f & Hf & Hend);
      [simpl in He; lia|].
    destruct (refs_exists i (ofiles k)) as (me & t & fd & Ht & Hfd); [|by exists me, t, fd, i, f].
    destruct (decide (fref f = 0)) as [Hz|Hz].
    + apply (ki_free _ _ Hk _ _ Hf) in Hz. by rewrite is_end_not in Hend by (by rewrite Hz).
    + rewrite (ki_ref _ _ Hk _ _ Hf) in Hz. unfold zero in Hz.
      pose proof (refs_bound i _ _ (ki_ofile _ _ Hk)). lia.
  - intros (me & t & fd & i & f & _ & _ & Hf & Hend). pose proof (cnt_pos _ _ _ _ Hf Hend).
    destruct (end_open k p w); [done|]. simpl in He. lia.
Qed.

(** C31: open files are counted exactly: after any sequence of opens, pipes,
    dups, closes, forks and exits of up to 64 processes, the count of each open
    file is the number of descriptors that name it, a pipe's end is open
    exactly when some process has a descriptor for it (so a reader sees end of
    file when, and only when, the last write descriptor is gone), the page of a
    pipe with no descriptors is freed, and no further operation panics. *)
Theorem file_refs_exact n s k :
  (n <= 64)%nat -> il_inv s -> rtc fstep (boot_files n s) k ->
  (forall i f, ftab k !! i = Some f -> fref f = refs i (ofiles k))
  /\ (forall p w, end_open k p w = true <-> has_descriptor k p w)
  /\ (forall p pp, pipes k !! p = Some (Some pp) ->
        has_descriptor k p false \/ has_descriptor k p true)
  /\ (forall o, fop_ok k o -> exists k', run_fop o k = Ok (tt, k')).
Proof.
  intros Hn Hs Hr. destruct (reachable_kinv n s k Hn Hs Hr) as [Hk _].
  split; [|split; [|split]].
  - intros i f Hf. rewrite (ki_ref _ _ Hk _ _ Hf). unfold zero. lia.
  - intros p w. by apply end_open_iff.
  - intros p pp Hp. pose proof (ki_live _ _ Hk _ _ Hp) as Hl. rewrite <- !end_open_iff by done.
    unfold end_open. rewrite Hp. by apply orb_true_iff in Hl.
  - intros o Ho. destruct (run_fop_keeps k o Hk Ho) as (k' & ? & _). eauto.
Qed.
End Refs.

(** * The inode layer of fs.c as an instance *)

(** [begin_op(); iput(ip); end_op()] of [fileclose]; a [begin_op] that has to
    sleep waits for another process and is a fault here. *)
Definition close_inode (ip : nat) : M fstate unit :=
  r ← on_log begin_op;
  match r with
  | None => fault
  | Some _ => iput ip ;; on_log end_op
  end.

(** No transaction is open, and no cached inode waits to be freed. *)
Record fs_idle (s : fstate) : Prop := {
  fi_committing : committing (lg (lst s)) = false;
  fi_outstanding : outstanding (lg (lst s)) = 0;
  fi_n : lh_n (lg (lst s)) = 0;
  fi_len : length (inodes s) = NINODE;
  fi_linked : Forall (fun ip => has (iflags ip) I_VALID = true -> nlink ip <> 0) (inodes s) }.

Lemma close_inode_ok ip s :
  fs_idle s -> (ip < NINODE)%nat -> exists s', close_inode ip s = Ok (tt, s') /\ fs_idle s'.
Proof.
  intros [Hc Ho Hn Hl Hf] Hip. destruct (lookup_lt_is_Some_2 (inodes s) ip) as [i Hi]; [lia|].
  pose proof (Forall_lookup_1 _ _ _ _ Hf Hi) as Hlk. simpl in Hlk.
  destruct s as [[c l] sb ino cw]. cbn [lst lg inodes] in *. destruct l as [st sz out com dv n bl].
  cbn [committing outstanding lh_n] in *. subst.
  unfold close_inode, on_log, begin_op, set_log. mrun. cbn [lst lg committing outstanding lh_n].
  change (LOGSIZE <? 0 + (0 + 1) * MAXOPBLOCKS) with false. cbn iota.
  unfold iput, get_ip, set_ip. mrun. cbn [inodes Fs.sb Fs.cwd lst cache start size ldev lh_block].
  rewrite Hi.
  replace ((iref i =? 1) && has (iflags i) I_VALID && (nlink i =? 0)) with false.
  2:{ destruct (has (iflags i) I_VALID); [|by rewrite andb_false_r].
      specialize (Hlk eq_refl). lia. }
  cbn [inodes]. rewrite Hi. cbn [inodes].
  unfold end_op, set_log. mrun. cbn. eexists. split; [done|].
  constructor; cbn [lst lg inodes committing outstanding lh_n]; try done.
  - by rewrite length_insert.
  - apply Forall_insert; [done|]. by destruct i.
Qed.

#[export] Instance fs_layer : InodeLayer fstate := {|
  il_put := close_inode;
  il_inv := fs_idle;
  il_valid := fun ip => (ip < NINODE)%nat;
  il_put_ok := fun ip s Hs Hip => close_inode_ok ip s Hs Hip |}.

(** Two processes share a pipe after a fork; the file system is idle. *)
Definition idle_fs : fstate :=
  mkFs (mkLstate (binit []) (mkLog 2 30 0 false 1 0 [])) (mkSuper 0 0 0 0 0 0 0)
    (replicate NINODE (mkInode 1 1 0 0 0 1 0 0 1 0 [])) 0.

Definition after_pipe : kfiles fstate :=
  match run_fop (OPipe 0 []) (boot_files 2 idle_fs) with
  | Ok (_, k) => k
  | _ => boot_files 2 idle_fs
  end.
Definition after_fork : kfiles fstate :=
  match run_fop (OFork 0 1) after_pipe with Ok (_, k) => k | _ => after_pipe end.

Lemma after_fork_reachable : rtc fstep (boot_files 2 idle_fs) after_fork.
Proof.
  apply (rtc_l _ _ after_pipe).
  - exists (OPipe 0 []). split; [vm_compute; lia|]. vm_compute. reflexivity.
  - apply rtc_once. exists (OFork 0 1). split; [|vm_compute; reflexivity].
    split; [vm_compute; lia|]. by split.
Qed.

Lemma file_refs_exact_witness :
  (fref <$> (ftab after_fork !! 1%nat)) = Some 2 /\ has_descriptor after_fork 0 true.
Proof.
  split; [reflexivity|]. apply (file_refs_exact 2 idle_fs after_fork).
  - lia.
  - constructor; try reflexivity. apply Forall_replicate. done.
  - apply after_fork_reachable.
  - reflexivity.
Defined.
