(* ===== verification/Sysfile.v ===== *)
(** Model of the file system calls of src/sysfile.c that take paths, and of reading,
    writing and opening in src/file.c and src/sysfile.c.

    The path calls run on the file system; a path is the string [argstr] fetched,
    [None] when it failed.  Opening, reading and writing run on the open file
    tables of [File.v] above that file system; the device table [devsw] holds
    function pointers and is an argument. *)
From stdpp Require Import base strings numbers list gmap.
From S2P Require Import Prelude CString Pipe Bio Log Fs FsInode FsTxn FsAlloc FsFile FsContents FsCall FsDir Sh File FileRefs.
Local Open Scope Z_scope.

Definition T_FILE : Z := 2.
Definition T_DEV : Z := 3.

(** [nlink] is a [short]. *)
Definition with_nlink (ip : inode) (n : Z) : inode :=
  mkInode (idev ip) (inum ip) (iref ip) (ilocked ip) (iflags ip) (itype ip) (major ip) (minor ip)
    (s16 n) (isize ip) (addrs ip).
Definition with_node (ip : inode) (maj min links : Z) : inode :=
  mkInode (idev ip) (inum ip) (iref ip) (ilocked ip) (iflags ip) (itype ip) (s16 maj) (s16 min)
    links (isize ip) (addrs ip).

Definition add_links (i : nat) (d : Z) : M fstate unit :=
  ip ← get_ip i;
  set_ip i (with_nlink ip (nlink ip + d)) ;;
  iupdate i.

(** * Directories *)

(** The loop of [isdirempty]; the fuel covers the entries from [off] on. *)
Fixpoint isdirempty_loop (fuel : nat) (dp : nat) (off : Z) : M fstate bool :=
  ip ← get_ip dp;
  if negb (u32 off <? isize ip) then mret true
  else match fuel with
  | O => no_fuel
  | S fuel =>
      de ← read_dirent dp (u32 off) "isdirempty: readi";
      if negb (de_inum de =? 0) then mret false
      else isdirempty_loop fuel dp (s32 (off + sizeof_dirent))
  end.

Definition isdirempty (dp : nat) : M fstate bool :=
  ip ← get_ip dp;
  isdirempty_loop (S (Z.to_nat (isize ip / sizeof_dirent))) dp (2 * sizeof_dirent).

(** * link and unlink *)

(** The label [bad] of [sys_link]. *)
Definition link_bad (ip : nat) : M fstate Z :=
  ilock ip ;;
  add_links ip (-1) ;;
  iunlockput ip ;;
  on_log end_op ;;
  mret (-1).

Definition sys_link (old new : option (list Z)) : M fstate Z :=
  match old, new with
  | Some old, Some new =>
      start_op ;;
      r ← namei old;
      match r with
      | None => on_log end_op ;; mret (-1)
      | Some i =>
          ilock i ;;
          ip ← get_ip i;
          if itype ip =? T_DIR then iunlockput i ;; on_log end_op ;; mret (-1)
          else
            add_links i 1 ;;
            iunlock i ;;
            r ← nameiparent new;
            match r with
            | None => link_bad i
            | Some (d, name) =>
                ilock d ;;
                dp ← get_ip d;
                ip ← get_ip i;
                r ← (if negb (idev dp =? idev ip) then mret (-1)
                     else dirlink d (name_chars name) (inum ip));
                if r <? 0 then iunlockput d ;; link_bad i
                else
                  iunlockput d ;;
                  iput i ;;
                  on_log end_op ;;
                  mret 0
            end
      end
  | _, _ => mret (-1)
  end.

Definition unlink_bad (d : nat) : M fstate Z :=
  iunlockput d ;;
  on_log end_op ;;
  mret (-1).

Definition dot : list Z := [46].
Definition dotdot : list Z := [46; 46].

Definition sys_unlink (path : option (list Z)) : M fstate Z :=
  match path with
  | None => mret (-1)
  | Some path =>
      start_op ;;
      r ← nameiparent path;
      match r with
      | None => on_log end_op ;; mret (-1)
      | Some (d, name) =>
          ilock d ;;
          let name := name_chars name in
          if (namecmp name dot =? 0) || (namecmp name dotdot =? 0) then unlink_bad d
          else
            r ← dirlookup d name;
            match r with
            | None => unlink_bad d
            | Some (i, off) =>
                ilock i ;;
                ip ← get_ip i;
                if nlink ip <? 1 then panic "unlink: nlink < 1"
                else
                  busy ← (if itype ip =? T_DIR then e ← isdirempty i; mret (negb e) else mret false);
                  if (busy : bool) then iunlockput i ;; unlink_bad d
                  else
                    n ← writei d (replicate 16 0) off;
                    if negb (n =? sizeof_dirent) then panic "unlink: writei"
                    else
                      when (itype ip =? T_DIR) (add_links d (-1)) ;;
                      iunlockput d ;;
                      add_links i (-1) ;;
                      iunlockput i ;;
                      on_log end_op ;;
                      mret 0
            end
      end
  end.

(** * create, mkdir, mknod, chdir *)

(** The locked inode, or [None]. *)
Definition create (path : list Z) (type maj min : Z) : M fstate (option nat) :=
  r ← nameiparent path;
  match r with
  | None => mret None
  | Some (d, name) =>
      ilock d ;;
      let name := name_chars name in
      r ← dirlookup d name;
      match r with
      | Some (i, _) =>
          iunlockput d ;;
          ilock i ;;
          ip ← get_ip i;
          if (type =? T_FILE) && (itype ip =? T_FILE) then mret (Some i)
          else iunlockput i ;; mret None
      | None =>
          dp ← get_ip d;
          i ← ialloc (idev dp) type;
          ilock i ;;
          ip ← get_ip i;
          set_ip i (with_node ip maj min 1) ;;
          iupdate i ;;
          when (type =? T_DIR)
            (add_links d 1 ;;
             dp ← get_ip d;
             ip ← get_ip i;
             r ← dirlink i dot (inum ip);
             if r <? 0 then panic "create dots"
             else
               r ← dirlink i dotdot (inum dp);
               if r <? 0 then panic "create dots" else mret tt) ;;
          ip ← get_ip i;
          r ← dirlink d name (inum ip);
          if r <? 0 then panic "create: dirlink"
          else
            iunlockput d ;;
            mret (Some i)
      end
  end.

Definition sys_mkdir (path : option (list Z)) : M fstate Z :=
  start_op ;;
  r ← (match path with Some path => create path T_DIR 0 0 | None => mret None end);
  match r with
  | None => on_log end_op ;; mret (-1)
  | Some i => iunlockput i ;; on_log end_op ;; mret 0
  end.

Definition sys_mknod (path : option (list Z)) (maj min : Z) : M fstate Z :=
  start_op ;;
  r ← (match path with Some path => create path T_DEV maj min | None => mret None end);
  match r with
  | None => on_log end_op ;; mret (-1)
  | Some i => iunlockput i ;; on_log end_op ;; mret 0
  end.

Definition sys_chdir (path : option (list Z)) : M fstate Z :=
  start_op ;;
  r ← (match path with Some path => namei path | None => mret None end);
  match r with
  | None => on_log end_op ;; mret (-1)
  | Some i =>
      ilock i ;;
      ip ← get_ip i;
      if negb (itype ip =? T_DIR) then iunlockput i ;; on_log end_op ;; mret (-1)
      else
        iunlock i ;;
        s ← get;
        iput (cwd s) ;;
        on_log end_op ;;
        modify (fun s => mkFs (lst s) (sb s) (inodes s) i) ;;
        mret 0
  end.

(** * Open files *)

Definition NDEV : Z := 10.
Definition O_RDWR : Z := 2.

Definition on_fs {A} (m : M fstate A) : M (kfiles fstate) A := fun k =>
  match m (inodes_of k) with
  | Ok (a, s) => Ok (a, mkKfiles (ftab k) (ofiles k) (pipes k) s)
  | Panic e => Panic e
  | Fault => Fault
  | NoFuel => NoFuel
  end.

(** [piperead(f->pipe, ..)] and [pipewrite(f->pipe, ..)] on the pipe store. *)
Definition on_pipe {A} (p : nat) (op : pipe -> res (pipe * wake * ending A)) : M (kfiles fstate) (ending A) := fun k =>
  match pipes k !! p with
  | Some (Some pp) =>
      match op pp with
      | Ok (pp, _, e) => Ok (e, mkKfiles (ftab k) (ofiles k) (<[p := Some pp]> (pipes k)) (inodes_of k))
      | Panic m => Panic m
      | Fault => Fault
      | NoFuel => NoFuel
      end
  | _ => Fault
  end.

Definition with_off (f : file) (off : Z) : file :=
  mkFile (ftype f) (fref f) (readable f) (writable f) (fpipe f) (fip f) off.

(** [f->off += r]. *)
Definition advance (fi : nat) (r : Z) : M (kfiles fstate) unit :=
  f ← get_file fi;
  set_ftab fi (with_off f (u32 (foff f + r))).

(** [ilock(f->ip); stati(f->ip, st); iunlock(f->ip)]. *)
Definition filestat (fi : nat) : M (kfiles fstate) (option stat) :=
  f ← get_file fi;
  match ftype f with
  | FD_INODE =>
      on_fs (ilock (fip f)) ;;
      ip ← on_fs (get_ip (fip f));
      on_fs (iunlock (fip f)) ;;
      mret (Some (stati ip))
  | _ => mret None
  end.

(** The limit [max] of one transaction of [filewrite]. *)
Definition write_max : Z := (LOGSIZE - 1 - 1 - 2) / 2 * 512.

(** The loop of [filewrite] on the bytes still to write; the result is whether
    all were written ([i == n]).  Every turn but the last writes at least a byte, so
    as many turns as bytes are enough. *)
Fixpoint filewrite_loop (fuel : nat) (fi : nat) (rest : list Z) : M (kfiles fstate) bool :=
  match rest with
  | [] => mret true
  | _ =>
      match fuel with
      | O => fun _ => NoFuel
      | S fuel =>
          let n1 := if write_max <? Z.of_nat (length rest) then write_max else Z.of_nat (length rest) in
          on_fs start_op ;;
          f ← get_file fi;
          on_fs (ilock (fip f)) ;;
          r ← on_fs (writei (fip f) (take (Z.to_nat n1) rest) (foff f));
          when (0 <? r) (advance fi r) ;;
          on_fs (iunlock (fip f) ;; on_log end_op) ;;
          if r <? 0 then mret false
          else if negb (r =? n1) then panic "short filewrite"
          else filewrite_loop fuel fi (drop (Z.to_nat r) rest)
      end
  end.

Section Devices.
(** [devsw[major].read] and [devsw[major].write], [None] for a null pointer. *)
Context (dev_read : Z -> option (nat -> Z -> M (kfiles fstate) (ending (list Z)))).
Context (dev_write : Z -> option (nat -> list Z -> M (kfiles fstate) (ending Z))).

(** [Error] is the return value -1, [Return] the bytes stored at [addr]. *)
Definition fileread (killed : bool) (fi : nat) (n : Z) : M (kfiles fstate) (ending (list Z)) :=
  f ← get_file fi;
  if negb (readable f) then mret Error
  else match ftype f with
  | FD_PIPE => on_pipe (fpipe f) (piperead killed n)
  | FD_INODE =>
      ip ← on_fs (get_ip (fip f));
      if itype ip =? T_DEV then
        if (major ip <? 0) || (NDEV <=? major ip) then mret Error
        else match dev_read (major ip) with
             | None => mret Error
             | Some read => read fi n
             end
      else
        on_fs (ilock (fip f)) ;;
        r ← on_fs (readi (fip f) (foff f) (u32 n));
        match r with
        | Some cs =>
            when (0 <? Z.of_nat (length cs)) (advance fi (Z.of_nat (length cs))) ;;
            on_fs (iunlock (fip f)) ;;
            mret (Return cs)
        | None => on_fs (iunlock (fip f)) ;; mret Error
        end
  | FD_NONE => panic "fileread"
  end.

(** [addr] holds the [n] bytes to write; a negative [n] writes nothing and returns
    -1, as an empty loop does. *)
Definition filewrite (killed : bool) (fi : nat) (addr : list Z) : M (kfiles fstate) (ending Z) :=
  f ← get_file fi;
  if negb (writable f) then mret Error
  else match ftype f with
  | FD_PIPE =>
      r ← on_pipe (fpipe f) (pipewrite killed addr);
      mret (match r with
            | Return _ => Return (Z.of_nat (length addr))
            | Error => Error
            | Asleep rest => Asleep rest
            end)
  | FD_INODE =>
      ip ← on_fs (get_ip (fip f));
      if itype ip =? T_DEV then
        if (major ip <? 0) || (NDEV <=? major ip) then mret Error
        else match dev_write (major ip) with
             | None => mret Error
             | Some write => write fi addr
             end
      else
        all ← filewrite_loop (length addr) fi addr;
        mret (if (all : bool) then Return (Z.of_nat (length addr)) else Error)
  | FD_NONE => panic "filewrite"
  end.
End Devices.

(** The inode [sys_open] opens, locked; [None] when it cannot. *)
Definition open_inode (path : list Z) (omode : Z) : M fstate (option nat) :=
  if negb (Z.land omode O_CREATE =? 0) then create path T_FILE 0 0
  else
    r ← namei path;
    match r with
    | None => mret None
    | Some i =>
        ilock i ;;
        ip ← get_ip i;
        if (itype ip =? T_DIR) && negb (omode =? O_RDONLY) then iunlockput i ;; mret None
        else mret (Some i)
    end.

Definition sys_open (me : nat) (path : option (list Z)) (omode : Z) : M (kfiles fstate) (option nat) :=
  match path with
  | None => mret None
  | Some path =>
      on_fs start_op ;;
      r ← on_fs (open_inode path omode);
      match r with
      | None => on_fs (on_log end_op) ;; mret None
      | Some i =>
          r ← filealloc;
          match r with
          | None => on_fs (iunlockput i ;; on_log end_op) ;; mret None
          | Some fi =>
              r ← fdalloc me fi;
              match r with
              | None => fileclose fi ;; on_fs (iunlockput i ;; on_log end_op) ;; mret None
              | Some fd =>
                  on_fs (iunlock i ;; on_log end_op) ;;
                  f ← get_file fi;
                  set_ftab fi (mkFile FD_INODE (fref f) (Z.land omode O_WRONLY =? 0)
                    (negb (Z.land omode O_WRONLY =? 0) || negb (Z.land omode O_RDWR =? 0))
                    (fpipe f) i 0) ;;
                  mret (Some fd)
              end
          end
      end
  end.

(** * Writing and reading a regular file *)

Lemma on_fs_ok {A} (m : M fstate A) k a s : m (inodes_of k) = Ok (a, s) ->
  on_fs m k = Ok (a, mkKfiles (ftab k) (ofiles k) (pipes k) s).
Proof. intros E. unfold on_fs. by rewrite E. Qed.

Lemma get_file_ok fi f (k : kfiles fstate) : ftab k !! fi = Some f -> get_file fi k = Ok (f, k).
Proof. intros E. unfold get_file. by rewrite E. Qed.

(** The table with file [fi] at offset [off], the file system [s]. *)
Definition moved (k : kfiles fstate) (fi : nat) (f : file) (off : Z) (s : fstate) : kfiles fstate :=
  mkKfiles (<[fi := with_off f off]> (ftab k)) (ofiles k) (pipes k) s.

Lemma advance_ok k fi f r : ftab k !! fi = Some f ->
  advance fi r k = Ok (tt, moved k fi f (u32 (foff f + r)) (inodes_of k)).
Proof. intros E. unfold advance. by rewrite (bind_ok _ _ _ _ _ (get_file_ok fi f k E)). Qed.

(** Transactions [filewrite] takes for [n] bytes. *)
Definition chunks (n : Z) : nat := Z.to_nat ((n + write_max - 1) / write_max).

Lemma write_max_val : write_max = 6656.
Proof. reflexivity. Qed.

Lemma nblocks_chunk off n : 0 <= off -> n <= 6656 -> (nblocks off n <= 14)%nat.
Proof. intros Ho Hn. unfold nblocks. destruct (Z.leb_spec n 0); [lia|]. Z.div_mod_to_equations; lia. Qed.

(** Two transactions may both log the block where one ends and the other begins. *)
Lemma nblocks_split off a n : 0 <= off -> 0 <= a <= n ->
  (nblocks off a + nblocks (off + a) (n - a) <= S (nblocks off n))%nat.
Proof.
  intros Ho Ha. unfold nblocks. destruct (Z.leb_spec a 0), (Z.leb_spec (n - a) 0), (Z.leb_spec n 0); Z.div_mod_to_equations; lia.
Qed.

Section Regular.
Context (ds : Z) (O : list Z).
Hypothesis Hds : 0 < ds.
Hypothesis HO : (length O <= 8)%nat.

(** The state of the file after [n] bytes [src] at [off]. *)
Record stores (s s' : fstate) (i : nat) (ip ip' : inode) (off : Z) (src : list Z) : Prop := {
  st_idle : idle_file ds O s' i ip';
  st_inodes : inodes s' = <[i := ip']> (inodes s);
  st_bytes : file_bytes s' ip' = take (Z.to_nat off) (file_bytes s ip) ++ src
      ++ drop (Z.to_nat (off + Z.of_nat (length src))) (file_bytes s ip);
  st_ip : ip' = with_size (set_addrs ip (addrs ip')) (isize ip');
  st_others : forall ip2, file_wf s ds ip2 -> apart s ip ip2 -> keeps ds s s' ip2 /\ apart s' ip' ip2 }.

Lemma stores_nil s i ip off : idle_file ds O s i ip -> stores s s i ip ip off [].
Proof.
  intros Hid. split; try done.
  - symmetry. apply list_insert_id, Hid.
  - cbn [length app]. by rewrite Z.add_0_r, take_drop.
  - by destruct ip.
Qed.

Lemma splice_splice (b c1 c2 : list Z) off : 0 <= off <= Z.of_nat (length b) ->
  let b1 := take (Z.to_nat off) b ++ c1 ++ drop (Z.to_nat (off + Z.of_nat (length c1))) b in
  take (Z.to_nat (off + Z.of_nat (length c1))) b1 ++ c2
    ++ drop (Z.to_nat (off + Z.of_nat (length c1) + Z.of_nat (length c2))) b1
  = take (Z.to_nat off) b ++ (c1 ++ c2) ++ drop (Z.to_nat (off + Z.of_nat (length (c1 ++ c2)))) b.
Proof.
  intros Ho b1. unfold b1. rewrite (app_assoc (take (Z.to_nat off) b) c1).
  assert (length (take (Z.to_nat off) b ++ c1) = Z.to_nat (off + Z.of_nat (length c1))) as Hl
    by (rewrite length_app, length_take; lia).
  rewrite take_app_length' by done. rewrite drop_app_ge by (rewrite Hl; lia). rewrite Hl, drop_drop, <- !app_assoc, length_app.
  do 3 f_equal. f_equal. lia.
Qed.

Lemma stores_trans s s1 s2 i ip ip1 ip2 off c1 c2 : 0 <= off <= isize ip -> stores s s1 i ip ip1 off c1 ->
  stores s1 s2 i ip1 ip2 (off + Z.of_nat (length c1)) c2 -> stores s s2 i ip ip2 off (c1 ++ c2).
Proof.
  intros Hoff [D1 I1 B1 P1 K1] [D2 I2 B2 P2 K2]. split; try done.
  - by rewrite I2, I1, list_insert_insert_eq.
  - rewrite B2, B1. apply splice_splice. rewrite length_file_bytes. lia.
  - rewrite P2, P1. by destruct ip.
  - intros ip3 W3 A3. destruct (K1 ip3 W3 A3) as [[W4 B4] A4]. destruct (K2 ip3 W4 A4) as [[W5 B5] A5].
    split; [split; [done|congruence]|done].
Qed.

(** Bytes written inside or at the end leave the end of the file past them. *)
Lemma stores_size s s' i ip ip' off src : 0 <= off <= isize ip -> 0 <= isize ip' -> stores s s' i ip ip' off src ->
  off + Z.of_nat (length src) <= isize ip'.
Proof.
  intros Ho H0 [_ _ B _ _]. pose proof (length_file_bytes s' ip') as Hl. rewrite B, !length_app, length_take, length_drop, length_file_bytes in Hl. lia.
Qed.

Lemma chunks_step n : 0 < n -> chunks n = S (chunks (n - Z.min 6656 n)).
Proof.
  intros Hn. unfold chunks. rewrite write_max_val. destruct (Z.min_spec 6656 n) as [[? ->]|[? ->]]; Z.div_mod_to_equations; lia.
Qed.

Lemma moved_moved k fi f off s off' s' : ftab k !! fi = Some f ->
  moved (moved k fi f off s) fi (with_off f off) off' s' = moved k fi f off' s'.
Proof. intros _. unfold moved. cbn. by rewrite list_insert_insert_eq. Qed.

Lemma filewrite_loop_spec fuel : forall k fi f ip rest,
  ftab k !! fi = Some f -> idle_file ds O (inodes_of k) (fip f) ip ->
  0 <= foff f <= isize ip -> foff f + Z.of_nat (length rest) <= MAXFILE * BSIZE -> (length rest <= fuel)%nat ->
  (nblocks (foff f) (Z.of_nat (length rest)) + chunks (Z.of_nat (length rest)) + noind ip <= nfree (inodes_of k))%nat ->
  exists s' ip', filewrite_loop fuel fi rest k = Ok (true, moved k fi f (foff f + Z.of_nat (length rest)) s')
  /\ stores (inodes_of k) s' (fip f) ip ip' (foff f) rest.
Proof.
  induction fuel as [|fuel IH]; intros k fi f ip rest Hf Hid Hoff Hmax Hfuel Hfree;
    destruct rest as [|x rest]; cbn [filewrite_loop]; [|cbn in Hfuel; lia| |].
  1, 2: exists (inodes_of k), ip; split; [|by apply stores_nil];
    cbn [length]; rewrite Z.add_0_r; unfold moved, with_off; destruct f; cbn; rewrite list_insert_id by done; by destruct k.
  set (l := x :: rest) in *. assert (0 < Z.of_nat (length l)) as Hl by (cbn; lia).
  rewrite write_max_val. set (n1 := if 6656 <? Z.of_nat (length l) then 6656 else Z.of_nat (length l)).
  assert (n1 = Z.min 6656 (Z.of_nat (length l))) as En by (unfold n1; destruct (Z.ltb_spec 6656 (Z.of_nat (length l))); lia).
  clearbody n1. rewrite (chunks_step _ Hl), <- En in Hfree. set (c := take (Z.to_nat n1) l).
  assert (Z.of_nat (length c) = n1) as Hc by (unfold c; rewrite length_take; lia).
  assert (length (drop (Z.to_nat n1) l) = (length l - Z.to_nat n1)%nat) as Hd by apply length_drop.
  change (MAXFILE * BSIZE) with 71680 in *.
  pose proof (nblocks_chunk (foff f) n1 ltac:(lia) ltac:(lia)) as Hnb.
  pose proof (nblocks_split (foff f) n1 (Z.of_nat (length l)) ltac:(lia) ltac:(lia)) as Hsp.
  destruct (write_chunk ds O Hds (inodes_of k) (fip f) ip c (foff f) Hid) as
    (s1 & s2 & s3 & ip1 & E1 & E2 & E3 & E4 & Hid1 & Hi1 & Hb1 & Hip1 & Hfr & Hk1);
    rewrite ?Hc; change (MAXFILE * BSIZE) with 71680; try lia.
  rewrite Hc in *.
  assert (stores (inodes_of k) s3 (fip f) ip ip1 (foff f) c) as St1 by (split; rewrite ?Hc; done).
  pose proof (stores_size _ _ _ _ _ _ _ Hoff (proj1 (fw_size _ _ _ (id_wf _ _ _ _ _ Hid1))) St1) as Hsz. rewrite Hc in Hsz.
  set (k1 := moved k fi f (foff f + n1) s3).
  destruct (IH k1 fi (with_off f (foff f + n1)) ip1 (drop (Z.to_nat n1) l)) as (s' & ip' & E5 & St2).
  { cbn. apply list_lookup_insert_eq. by eapply lookup_lt_Some. }
  { exact Hid1. }
  { cbn. lia. }
  { cbn [foff with_off]. rewrite Hd. lia. }
  { rewrite Hd. lia. }
  { cbn [inodes_of k1 moved]. rewrite Hd. replace (Z.of_nat (length l - Z.to_nat n1)) with (Z.of_nat (length l) - n1) by lia. cbn [foff with_off]. lia. }
  exists s', ip'. split.
  - rewrite (bind_ok _ _ _ _ _ (on_fs_ok _ k _ _ E1)).
    rewrite (bind_ok _ _ _ _ _ (get_file_ok fi f (mkKfiles (ftab k) (ofiles k) (pipes k) (opened (inodes_of k))) Hf)).
    rewrite (bind_ok _ _ _ _ _ (on_fs_ok _ (mkKfiles (ftab k) (ofiles k) (pipes k) (opened (inodes_of k))) _ _ E2)). cbn [ftab ofiles pipes].
    fold c. rewrite (bind_ok _ _ _ _ _ (on_fs_ok _ (mkKfiles (ftab k) (ofiles k) (pipes k) s1) _ _ E3)). cbn [ftab ofiles pipes].
    unfold when. replace (0 <? n1) with true by lia.
    rewrite (bind_ok _ _ _ _ _ (advance_ok (mkKfiles (ftab k) (ofiles k) (pipes k) s2) fi f n1 Hf)).
    replace (u32 (foff f + n1)) with (foff f + n1) by (unfold u32; rewrite Z.mod_small; lia).
    rewrite (bind_ok _ _ _ _ _ (on_fs_ok _ (moved (mkKfiles (ftab k) (ofiles k) (pipes k) s2) fi f (foff f + n1) s2) _ _ E4)).
    replace (n1 <? 0) with false by lia. rewrite Z.eqb_refl. cbn [negb].
    change (mkKfiles _ _ _ s3) with k1. rewrite E5, Hd. unfold k1. rewrite moved_moved by done.
    do 3 f_equal. cbn [foff with_off]. lia.
  - rewrite <- (take_drop (Z.to_nat n1) l). fold c. apply (stores_trans _ s3 _ _ _ ip1); [done|done|]. rewrite Hc. exact St2.
Qed.

Lemma filewrite_spec dev_write killed k fi f ip src :
  ftab k !! fi = Some f -> ftype f = FD_INODE -> writable f = true ->
  idle_file ds O (inodes_of k) (fip f) ip -> itype ip <> T_DEV ->
  0 <= foff f <= isize ip -> foff f + Z.of_nat (length src) <= MAXFILE * BSIZE ->
  (nblocks (foff f) (Z.of_nat (length src)) + chunks (Z.of_nat (length src)) + noind ip <= nfree (inodes_of k))%nat ->
  exists s' ip', filewrite dev_write killed fi src k
    = Ok (Return (Z.of_nat (length src)), moved k fi f (foff f + Z.of_nat (length src)) s')
  /\ stores (inodes_of k) s' (fip f) ip ip' (foff f) src.
Proof.
  intros Hf Ht Hw Hid Hdev Hoff Hmax Hfree.
  destruct (filewrite_loop_spec (length src) k fi f ip src Hf Hid Hoff Hmax (le_n _) Hfree) as (s' & ip' & E & St).
  exists s', ip'. split; [|done]. unfold filewrite.
  rewrite (bind_ok _ _ _ _ _ (get_file_ok fi f k Hf)), Hw, Ht. cbn [negb].
  rewrite (bind_ok _ _ _ _ _ (on_fs_ok _ k _ _ (get_ip_ok (fip f) ip _ (id_ip _ _ _ _ _ Hid)))).
  rewrite (proj2 (Z.eqb_neq _ _) Hdev). destruct k as [ft ofs ps s]. cbn [ftab ofiles pipes inodes_of] in *.
  by rewrite (bind_ok _ _ _ _ _ E).
Qed.

(** A read leaves the file system as it was. *)
Lemma idle_read s s1 i ip : idle_file ds O s i ip -> txn_at 0 s1 [] [] -> same (put_ip s i (with_lock ip 1)) s1 [] ->
  same_view (put_ip s i (with_lock ip 1)) s1 ->
  let s' := put_ip s1 i (with_lock ip 0) in
  idle_file ds O s' i ip /\ file_bytes s' ip = file_bytes s ip
  /\ inodes s' = inodes s /\ iunlock i s1 = Ok (tt, s').
Proof.
  intros [Q Hly HB Hsz Hi Hwf Hok Hib Hst Hl Hv Hr] Ht Hs Hsv s'. pose proof (lookup_lt_Some _ _ _ Hi) as Hlt.
  assert (with_lock ip 0 = ip) as El by (destruct ip; cbn in *; by subst).
  assert (inodes s1 = <[i := with_lock ip 1]> (inodes s)) as Hi1 by apply (sm_inodes _ _ _ Hs).
  assert (inodes s' = inodes s) as Hi'.
  { subst s'. cbn. rewrite Hi1, list_insert_insert_eq, El. by apply list_insert_id. }
  assert (shows s s') as Hsh.
  { split; try apply Hs; [|unfold nblk; f_equal; f_equal; apply (sm_disk _ _ _ Hs)].
    intros n [Hn _]. apply (Hsv n). lia. }
  split; [|split; [exact (shows_bytes ds s s' ip Hsh Hly Hwf)|split; [done|]]].
  - destruct Hib as [I1 I2 I3 I4 I5]. split; try done.
    + split; [by apply put_ip_txn|]. rewrite <- (qf_out _ Q). apply (sm_out _ _ _ Hs).
    + destruct Hly as [L1 L2 L3 L4 L5] eqn:EL. split.
      * by rewrite (sh_sb _ _ Hsh), (sh_nblk _ _ Hsh).
      * by rewrite (sh_start _ _ Hsh), (sh_size _ _ Hsh).
      * intros b. rewrite (sh_sb _ _ Hsh). unfold fhome. rewrite (sh_start _ _ Hsh), (sh_size _ _ Hsh), (sh_nblk _ _ Hsh). apply L3.
      * intros n d Hn. unfold s'. change (fview s1 n = Some d -> length d = 512%nat). rewrite (Hsv n Hn). by apply L4.
      * intros b Hb. rewrite (shows_allocated ds s s') by (done || lia). by apply L5.
    + intros b. rewrite (sh_sb _ _ Hsh). apply HB.
    + by rewrite (sh_sb _ _ Hsh).
    + by rewrite Hi'.
    + by apply (shows_wf ds Hds s s').
    + split; rewrite ?(sh_sb _ _ Hsh); try done. unfold fhome in *. by rewrite (sh_start _ _ Hsh), (sh_size _ _ Hsh), (sh_nblk _ _ Hsh).
    + destruct Hst as (d & Hd & Hg). exists d. split; [|done]. rewrite (sh_sb _ _ Hsh), (sh_view _ _ Hsh); done.
  - rewrite (iunlock_cached s1 i (with_lock ip 1)); [done| |done|done]. rewrite Hi1. by apply list_lookup_insert_eq.
Qed.

Lemma fileread_spec dev_read killed k fi f ip n :
  ftab k !! fi = Some f -> ftype f = FD_INODE -> readable f = true ->
  idle_file ds O (inodes_of k) (fip f) ip -> itype ip <> T_DEV ->
  0 <= foff f <= isize ip -> 0 <= n < 2 ^ 31 ->
  let cs := take (Z.to_nat n) (drop (Z.to_nat (foff f)) (file_bytes (inodes_of k) ip)) in
  exists s', fileread dev_read killed fi n k
    = Ok (Return cs, moved k fi f (foff f + Z.of_nat (length cs)) s')
  /\ idle_file ds O s' (fip f) ip /\ file_bytes s' ip = file_bytes (inodes_of k) ip.
Proof.
  intros Hf Ht Hr Hid Hdev Hoff Hn cs. set (s := inodes_of k) in *. pose proof Hid as [Q Hly HB Hsz Hi Hwf Hok Hib Hst Hl Hv Href].
  pose proof (fw_size _ _ _ Hwf) as Hfs. change (MAXFILE * BSIZE) with 71680 in Hfs.
  set (s1 := put_ip s (fip f) (with_lock ip 1)).
  destruct (readi_spec ds 0 Hds s1 [] (fip f) (with_lock ip 1) (foff f) n) as (s2 & E & Ht2 & Hs2 & Hv2); try (cbn; lia).
  { apply put_ip_txn, Q. }
  { by destruct Hly; split. }
  { cbn. apply list_lookup_insert_eq. by eapply lookup_lt_Some. }
  { apply file_wf_lock. by destruct Hwf; split. }
  destruct (idle_read s s2 (fip f) ip Hid Ht2 Hs2 Hv2) as (Hid' & Hb' & _ & Eu).
  change (isize (with_lock ip 1)) with (isize ip) in E.
  replace ((isize ip <? foff f) || (2 ^ 32 <=? foff f + n)) with false in E by lia.
  change (take (Z.to_nat n) (drop (Z.to_nat (foff f)) (file_bytes s1 (with_lock ip 1)))) with cs in E.
  assert (foff f + Z.of_nat (length cs) <= isize ip) as Hcs.
  { unfold cs. rewrite length_take, length_drop, length_file_bytes. lia. }
  set (s3 := put_ip s2 (fip f) (with_lock ip 0)) in *. exists s3. split; [|done].
  unfold fileread. rewrite (bind_ok _ _ _ _ _ (get_file_ok fi f k Hf)), Hr, Ht. cbn [negb].
  rewrite (bind_ok _ _ _ _ _ (on_fs_ok _ k _ _ (get_ip_ok (fip f) ip _ Hi))).
  rewrite (proj2 (Z.eqb_neq _ _) Hdev). destruct k as [ft ofs ps s0]. cbn [ftab ofiles pipes inodes_of] in *.
  rewrite (bind_ok _ _ _ _ _ (on_fs_ok _ (mkKfiles ft ofs ps s) _ _ (ilock_cached s (fip f) ip Hi Hl Hv Href))). cbn [ftab ofiles pipes].
  replace (u32 n) with n by (unfold u32; rewrite Z.mod_small; lia).
  rewrite (bind_ok _ _ _ _ _ (on_fs_ok _ (mkKfiles ft ofs ps s1) _ _ E)). cbn [ftab ofiles pipes].
  unfold when. destruct (Z.ltb_spec 0 (Z.of_nat (length cs))) as [Hc|Hc].
  - rewrite (bind_ok _ _ _ _ _ (advance_ok (mkKfiles ft ofs ps s2) fi f (Z.of_nat (length cs)) Hf)).
    replace (u32 (foff f + Z.of_nat (length cs))) with (foff f + Z.of_nat (length cs)) by (unfold u32; rewrite Z.mod_small; lia).
    cbn [inodes_of]. by rewrite (bind_ok _ _ _ _ _ (on_fs_ok _ (moved (mkKfiles ft ofs ps s2) fi f (foff f + Z.of_nat (length cs)) s2) _ _ Eu)).
  - rewrite (bind_ok (mret tt) _ (mkKfiles ft ofs ps s2) tt (mkKfiles ft ofs ps s2) eq_refl).
    rewrite (bind_ok _ _ _ _ _ (on_fs_ok _ (mkKfiles ft ofs ps s2) _ _ Eu)). cbn [ftab ofiles pipes].
    replace (Z.of_nat (length cs)) with 0 by lia. rewrite Z.add_0_r. unfold moved. cbn [ftab ofiles pipes].
    rewrite list_insert_id; [done|]. rewrite Hf. by destruct f.
Qed.
End Regular.

(** * The claim *)

(** C21: [write] stores, [read] delivers.  On a quiet file system with room, [filewrite]
    of any number of bytes to an open regular file, split as it is into
    transactions, returns the count, moves the offset past the bytes, and leaves
    the file system quiet again with the file's bytes replaced from the old offset
    on, all of it on the disk and no other file changed; a [fileread] through any
    other open file of the same inode then returns the slice of the new bytes at
    its own offset and moves that. *)
Theorem write_then_read dev_read dev_write killed ds O k fi fj f g ip src n :
  0 < ds -> (length O <= 8)%nat -> fi <> fj -> ftab k !! fi = Some f -> ftab k !! fj = Some g ->
  ftype f = FD_INODE -> writable f = true -> ftype g = FD_INODE -> readable g = true -> fip g = fip f ->
  idle_file ds O (inodes_of k) (fip f) ip -> itype ip <> T_DEV ->
  0 <= foff f <= isize ip -> foff f + Z.of_nat (length src) <= MAXFILE * BSIZE -> 0 <= foff g <= isize ip ->
  0 <= n < 2 ^ 31 ->
  (nblocks (foff f) (Z.of_nat (length src)) + chunks (Z.of_nat (length src)) + noind ip <= nfree (inodes_of k))%nat ->
  exists s' ip' k' s'',
     filewrite dev_write killed fi src k = Ok (Return (Z.of_nat (length src)), k')
  /\ k' = moved k fi f (foff f + Z.of_nat (length src)) s'
  /\ stores ds O (inodes_of k) s' (fip f) ip ip' (foff f) src
  /\ (forall b, fhome s' b -> disk (fcache s') !! Z.to_nat b = fview s' b)
  /\ let cs := take (Z.to_nat n) (drop (Z.to_nat (foff g)) (file_bytes s' ip')) in
     fileread dev_read killed fj n k' = Ok (Return cs, moved k' fj g (foff g + Z.of_nat (length cs)) s'')
  /\ file_bytes s'' ip' = file_bytes s' ip'.
Proof.
  intros Hds HO Hne Hf Hg Htf Hw Htg Hr Hip Hid Hdev Hoff Hmax Hoffg Hn Hfree.
  destruct (filewrite_spec ds O Hds HO dev_write killed k fi f ip src Hf Htf Hw Hid Hdev Hoff Hmax Hfree) as (s' & ip' & E & St).
  pose proof (st_idle _ _ _ _ _ _ _ _ _ St) as Hid'. set (k' := moved k fi f (foff f + Z.of_nat (length src)) s').
  assert (isize ip <= isize ip') as Hgrow.
  { pose proof (fw_size _ _ _ (id_wf _ _ _ _ _ Hid')). pose proof (length_file_bytes s' ip') as Hl. rewrite (st_bytes _ _ _ _ _ _ _ _ _ St), !length_app, length_take, length_drop, length_file_bytes in Hl. lia. }
  destruct (fileread_spec ds O Hds HO dev_read killed k' fj g ip' n) as (s'' & E' & _ & Hb); try done.
  { cbn. by rewrite list_lookup_insert_ne. }
  { by rewrite Hip. }
  { by rewrite (st_ip _ _ _ _ _ _ _ _ _ St). }
  { lia. }
  exists s', ip', k', s''. do 3 (split; [done|]). split; [|by split].
  intros b [Hb1 _]. pose proof (qf_txn _ (id_quiet _ _ _ _ _ Hid')) as Ht. symmetry.
  apply clean_view; [apply Ht|]. intros Hd%(tx_dirty _ _ _ Ht). by apply elem_of_nil in Hd.
Qed.

(** The demonstration disk between calls, opened by two files. *)
Definition demo_idle : inode := with_lock demo_ip 0.
Definition demo_quiet : fstate := put_ip (demo_fs 0) 0 demo_idle.
Definition demo_files : kfiles fstate :=
  mkKfiles [mkFile FD_INODE 1 false true 0 0 4; mkFile FD_INODE 1 true false 0 0 3] [] [] demo_quiet.

Lemma demo_idle_file : idle_file 34 [33; 32] demo_quiet 0 demo_idle.
Proof.
  destruct demo_open as [_ _ HB Hsz _ _ _ Hok Hib Hst].
  split; try done.
  - split; [|done]. apply put_ip_txn, demo_txn.
  - by destruct (demo_layout 0); split.
  - apply file_wf_lock. by destruct (demo_wf 0); split.
  - apply inode_ok_lock, Hok.
  - by destruct Hib; split.
  - apply stored_lock, Hst.
Qed.

Lemma write_then_read_witness :
  exists k' k'', filewrite (fun _ => None) false 0 [1; 2; 3] demo_files = Ok (Return 3, k')
  /\ fileread (fun _ => None) false 1 100 k' = Ok (Return [13; 1; 2; 3], k'').
Proof.
  destruct (write_then_read (fun _ => None) (fun _ => None) false 34 [33; 32] demo_files 0 1
    (mkFile FD_INODE 1 false true 0 0 4) (mkFile FD_INODE 1 true false 0 0 3) demo_idle [1; 2; 3] 100)
    as (s' & ip' & k' & s'' & E & _ & St & _ & E' & _).
  - lia.
  - cbn. lia.
  - discriminate.
  - reflexivity.
  - reflexivity.
  - reflexivity.
  - reflexivity.
  - reflexivity.
  - reflexivity.
  - reflexivity.
  - exact demo_idle_file.
  - discriminate.
  - cbn. lia.
  - vm_compute. discriminate.
  - cbn. lia.
  - lia.
  - vm_compute. lia.
  - exists k', (moved k' 1 (mkFile FD_INODE 1 true false 0 0 3) 7 s''). split; [exact E|].
    rewrite (st_bytes _ _ _ _ _ _ _ _ _ St) in E'.
    change (file_bytes (inodes_of demo_files) demo_idle) with [10; 11; 12; 13; 14] in E'. exact E'.
Defined.
