(* ===== verification/ShRun.v ===== *)
(** Model of the command interpreter of src/sh.c: [runcmd], [getcmd] and
    [main], on the descriptor semantics of the kernel.

    A process is its descriptor table; [open], [dup] and [pipe] take the lowest
    free descriptor, as [fdalloc] does.  A child runs on a copy of the table.
    The outcome of [runcmd] is the list of events of the process and of the
    children it creates: programs executed, waits, failures.  Whether a file
    can be opened is a parameter; [fork] is taken to succeed. *)
From stdpp Require Import base strings numbers list.
From S2P Require Import Prelude CString Sh ShParse ShGrammar File.
Local Open Scope Z_scope.

(** What a descriptor refers to. *)
Inductive desc : Type :=
  | DCons
  | DFile (name : list Z) (mode : Z)
  | DPipe (id : nat) (w : bool).

Notation fdtable := (list (option desc)).

Definition os_close (fd : nat) (t : fdtable) : fdtable := <[fd := None]> t.
Definition os_alloc (d : desc) (t : fdtable) : option (nat * fdtable) :=
  match free_fd t 0 with Some fd => Some (fd, <[fd := Some d]> t) | None => None end.
Definition os_dup (fd : nat) (t : fdtable) : fdtable :=
  match t !! fd with
  | Some (Some d) => match os_alloc d t with Some (_, t) => t | None => t end
  | _ => t
  end.
Definition os_pipe (id : nat) (t : fdtable) : option (nat * nat * fdtable) :=
  '(p0, t1) ← os_alloc (DPipe id false) t;
  '(p1, t2) ← os_alloc (DPipe id true) t1;
  Some (p0, p1, t2).

Inductive event : Type :=
  | EExec (argv : list (list Z)) (t : fdtable)
  | EWait (t : fdtable)
  | ECannotOpen (file : list Z)
  | EPanic (msg : string).

Section Run.
Context (can_open : list Z -> Z -> bool).

Definition os_open (file : list Z) (mode : Z) (t : fdtable) : option (nat * fdtable) :=
  if can_open file mode then os_alloc (DFile file mode) t else None.

(** The command's strings are those of the NUL-terminated buffer; [id] numbers
    the next pipe. *)
Fixpoint runcmd (c : tree) (t : fdtable) (id : nat) : list event * nat :=
  match c with
  | TExec argv =>
      match argv with
      | [] => ([], id)
      | _ => ([EExec argv t], id)
      end
  | TRedir c file mode fd =>
      match os_open file mode (os_close (Z.to_nat fd) t) with
      | None => ([ECannotOpen file], id)
      | Some (_, t) => runcmd c t id
      end
  | TList l r =>
      let '(e1, id) := runcmd l t id in
      let '(e2, id) := runcmd r t id in
      (e1 ++ [EWait t] ++ e2, id)
  | TPipe l r =>
      match os_pipe id t with
      | None => ([EPanic "pipe"], id)
      | Some (p0, p1, t) =>
          let '(e1, id1) :=
            runcmd l (os_close p1 (os_close p0 (os_dup p1 (os_close 1 t)))) (S id) in
          let '(e2, id2) :=
            runcmd r (os_close p1 (os_close p0 (os_dup p0 (os_close 0 t)))) id1 in
          let t := os_close p1 (os_close p0 t) in
          (e1 ++ e2 ++ [EWait t; EWait t], id2)
      end
  | TBack c => runcmd c t id
  end.

(** [main]'s first loop, from the shell's initial table. *)
Fixpoint open_console (fuel : nat) (t : fdtable) : fdtable :=
  match fuel with
  | O => t
  | S fuel =>
      match os_open (cstr "console") 2 t with
      | None => t
      | Some (fd, t) => if (3 <=? fd)%nat then os_close fd t else open_console fuel t
      end
  end.
End Run.

(** [gets(buf, max)] on the characters still to be read: the line with its
    terminator (the buffer up to the NUL it stores) and the rest of the input. *)
Fixpoint gets_loop (n : nat) (input : list Z) : list Z * list Z :=
  match n, input with
  | O, _ | _, [] => ([], input)
  | S n, c :: input =>
      if (c =? 10) || (c =? 13) then ([c], input)
      else let '(l, rest) := gets_loop n input in (c :: l, rest)
  end.
Definition gets (max : Z) (input : list Z) : list Z * list Z :=
  gets_loop (Z.to_nat (max - 1)) input.

(** [getcmd] on a buffer of 100 bytes: [None] at end of input. *)
Definition getcmd (input : list Z) : option (list Z * list Z) :=
  let '(l, rest) := gets 100 input in
  let buf := l ++ replicate (100 - length l) 0 in
  if hd 0 buf =? 0 then None else Some (buf, rest).

(** What [main] does with one line: change directory itself, or let a child run
    the command ([None]: the child reports a syntax error). *)
Inductive action : Type := Chdir (dir : list Z) | Run (c : option tree).

Definition chop (buf : list Z) : list Z := <[(length (c_string buf) - 1)%nat := 0]> buf.

Definition shell_line (buf : list Z) : action :=
  if (nth 0 buf 0 =? 99) && (nth 1 buf 0 =? 100) && (nth 2 buf 0 =? 32)
  then Chdir (c_string (drop 3 (chop buf)))
  else Run (match parsecmd buf with
            | Ok (c, buf) => Some (tree_with (string_at buf) c)
            | _ => None
            end).

(** [main]'s loop.  Every line read takes at least one character. *)
Fixpoint shell_loop (fuel : nat) (input : list Z) : list action :=
  match fuel with
  | O => []
  | S fuel =>
      match getcmd input with
      | None => []
      | Some (buf, rest) => shell_line buf :: shell_loop fuel rest
      end
  end.

(** * Wiring *)

(** The specification: what each program of a command has as standard input and
    output.  [AExec argv i o], and a wait by a process whose own are [i], [o]. *)
Inductive aevent : Type :=
  | AExec (argv : list (list Z)) (i o : desc)
  | AWait (i o : desc)
  | ACannotOpen (file : list Z).

Section Wiring.
Context (can_open : list Z -> Z -> bool).

Fixpoint wire (c : tree) (i o : desc) (id : nat) : list aevent * nat :=
  match c with
  | TExec [] => ([], id)
  | TExec argv => ([AExec argv i o], id)
  | TRedir c file mode fd =>
      if can_open file mode then
        if fd =? 0 then wire c (DFile file mode) o id else wire c i (DFile file mode) id
      else ([ACannotOpen file], id)
  | TList l r =>
      let '(e1, id) := wire l i o id in
      let '(e2, id) := wire r i o id in
      (e1 ++ [AWait i o] ++ e2, id)
  | TPipe l r =>
      let '(e1, id1) := wire l i (DPipe id true) (S id) in
      let '(e2, id2) := wire r (DPipe id false) o id1 in
      (e1 ++ e2 ++ [AWait i o; AWait i o], id2)
  | TBack c => wire c i o id
  end.

(** The table with the three standard descriptors and nothing else. *)
Definition std (err i o : desc) : fdtable :=
  [Some i; Some o; Some err] ++ replicate (NOFILE - 3) None.

Definition concrete (err : desc) (e : aevent) : event :=
  match e with
  | AExec argv i o => EExec argv (std err i o)
  | AWait i o => EWait (std err i o)
  | ACannotOpen file => ECannotOpen file
  end.

(** Redirections are of descriptors 0 and 1, as the parser makes them. *)
Fixpoint std_redirs (c : tree) : bool :=
  match c with
  | TExec _ => true
  | TRedir c _ _ fd => ((fd =? 0) || (fd =? 1)) && std_redirs c
  | TPipe l r | TList l r => std_redirs l && std_redirs r
  | TBack c => std_redirs c
  end.

(** The table after [pipe], and after the calls around each [fork]. *)
Definition piped (err i o : desc) (id : nat) : fdtable :=
  [Some i; Some o; Some err; Some (DPipe id false); Some (DPipe id true)]
  ++ replicate (NOFILE - 5) None.
Lemma pipe_table err i o id : os_pipe id (std err i o) = Some (3%nat, 4%nat, piped err i o id).
Proof. reflexivity. Qed.
Lemma left_table err i o id :
  os_close 4 (os_close 3 (os_dup 4 (os_close 1 (piped err i o id)))) = std err i (DPipe id true).
Proof. reflexivity. Qed.
Lemma right_table err i o id :
  os_close 4 (os_close 3 (os_dup 3 (os_close 0 (piped err i o id)))) = std err (DPipe id false) o.
Proof. reflexivity. Qed.
Lemma parent_table err i o id : os_close 4 (os_close 3 (piped err i o id)) = std err i o.
Proof. reflexivity. Qed.

Lemma runcmd_wire err c i o id :
  std_redirs c = true ->
  runcmd can_open c (std err i o) id
  = (map (concrete err) (fst (wire c i o id)), snd (wire c i o id)).
Proof.
  revert i o id. induction c as [argv|c IH file mode fd|l IHl r IHr|l IHl r IHr|c IH];
    intros i o id Hs; cbn [std_redirs] in Hs.
  - by destruct argv.
  - apply andb_true_iff in Hs as [Hfd Hs]. cbn [runcmd wire]. unfold os_open.
    destruct (can_open file mode); [|done].
    apply orb_true_iff in Hfd as [E|E]; apply Z.eqb_eq in E as ->.
    + apply (IH (DFile file mode) o id Hs).
    + apply (IH i (DFile file mode) id Hs).
  - apply andb_true_iff in Hs as [Hl Hr]. cbn [runcmd wire].
    rewrite pipe_table. cbn iota beta. rewrite left_table, right_table, parent_table.
    rewrite (IHl i (DPipe id true) (S id) Hl). destruct (wire l i (DPipe id true) (S id)) as [e1 id1].
    cbn [fst snd].
    rewrite (IHr (DPipe id false) o id1 Hr). destruct (wire r (DPipe id false) o id1) as [e2 id2].
    cbn [fst snd]. by rewrite !map_app.
  - apply andb_true_iff in Hs as [Hl Hr]. cbn [runcmd wire].
    rewrite (IHl i o id Hl). destruct (wire l i o id) as [e1 id1]. cbn [fst snd].
    rewrite (IHr i o id1 Hr). destruct (wire r i o id1) as [e2 id2]. cbn [fst snd].
    by rewrite !map_app.
  - apply IH, Hs.
Qed.
End Wiring.

Lemma std_redirs_fold rs t : std_redirs t = true -> std_redirs (fold_left tredir rs t) = true.
Proof.
  revert t. induction rs as [|[k f] rs IH]; intros t H; [done|]. cbn [fold_left]. apply IH.
  by destruct k.
Qed.

Lemma std_redirs_den :
  (forall e, std_redirs (den_exec e) = true) /\ (forall p, std_redirs (den_pipe p) = true)
  /\ (forall l, std_redirs (den_line l) = true).
Proof.
  assert (Hback : forall n t, std_redirs (Nat.iter n TBack t) = std_redirs t)
    by (intros n t; by induction n).
  apply grammar_ind; cbn [den_exec den_pipe den_line std_redirs]; intros.
  - by apply std_redirs_fold.
  - by apply std_redirs_fold.
  - done.
  - by apply andb_true_iff.
  - by rewrite Hback.
  - apply andb_true_iff. by rewrite Hback.
Qed.

(** The line is not the built-in command. *)
Definition is_cd (buf : list Z) : bool :=
  (nth 0 buf 0 =? 99) && (nth 1 buf 0 =? 100) && (nth 2 buf 0 =? 32).

(** C32: the shell runs what the line says: for every line of the grammar, in
    whatever blanks it is written, [main]'s child runs a command whose programs
    are executed with exactly three descriptors open: standard error
    unchanged, and standard input and output as the specification [wire] says
    (redirections replace them, a pipeline connects its neighbours through a
    fresh pipe); whoever waits for a pipeline holds no end of its pipes. *)
Theorem shell_wires_line can_open l text junk err i o id :
  renders text (toks_line l) -> Forall (fun c => c <> 0) text -> fits_line l ->
  is_cd (text ++ 0 :: junk) = false ->
  exists c, shell_line (text ++ 0 :: junk) = Run (Some c)
    /\ runcmd can_open c (std err i o) id
       = (map (concrete err) (fst (wire can_open (den_line l) i o id)),
          snd (wire can_open (den_line l) i o id)).
Proof.
  intros Hr Hn Hf Hcd. destruct (parsecmd_renders l text junk Hr Hn Hf) as (c & buf' & Hp & Ht).
  exists (den_line l). unfold shell_line. unfold is_cd in Hcd. rewrite Hcd, Hp, Ht.
  split; [done|]. apply runcmd_wire, std_redirs_den.
Qed.

(** [a|b>f]: the pipe joins [a] and [b], and [b] writes to the file. *)
Definition sample_pipe : pline :=
  PEnd (PPipe (PSimple [] [(cstr "a", [])]) (POne (PSimple [] [(cstr "b", [(ROut, cstr "f")])]))) 0.

Lemma shell_wires_line_witness :
  exists c, shell_line (cstr "a|b>f" ++ [0]) = Run (Some c)
    /\ runcmd (fun _ _ => true) c (std DCons DCons DCons) 0
       = (map (concrete DCons)
            [AExec [cstr "a"] DCons (DPipe 0 true);
             AExec [cstr "b"] (DPipe 0 false) (DFile (cstr "f") 513);
             AWait DCons DCons; AWait DCons DCons], 1%nat).
Proof.
  apply (shell_wires_line (fun _ _ => true) sample_pipe (cstr "a|b>f") [] DCons DCons DCons 0).
  - apply (renders_cons [] (TWord (cstr "a")) (cstr "|b>f")).
    1: apply Forall_nil_2. 1: split; [done|repeat (constructor; [by vm_compute|]); constructor].
    1: done. apply (renders_cons [] (TSym 124) (cstr "b>f")).
    1: apply Forall_nil_2. 1: by vm_compute. 1: done.
    apply (renders_cons [] (TWord (cstr "b")) (cstr ">f")).
    1: apply Forall_nil_2. 1: split; [done|repeat (constructor; [by vm_compute|]); constructor].
    1: done. apply (renders_cons [] (TSym 62) (cstr "f")).
    1: apply Forall_nil_2. 1: by vm_compute. 1: done.
    apply (renders_cons [] (TWord (cstr "f")) []).
    1: apply Forall_nil_2. 1: split; [done|repeat (constructor; [by vm_compute|]); constructor].
    1: done. apply renders_nil, Forall_nil_2.
  - repeat (constructor; [done|]). constructor.
  - by vm_compute.
  - reflexivity.
Defined.

(** * The built-in command *)

(** [cd] on a line without a newline (the last line of the input, or one of 99
    characters or more) loses the last character of the directory. *)
Lemma cd_without_newline dir junk :
  Forall (fun c => 0 < c) dir -> dir <> [] ->
  shell_line (cstr "cd " ++ dir ++ 0 :: junk) = Chdir (removelast dir).
Proof.
  intros Hd Hne. unfold shell_line, chop. cbn [app]. 
  change (cstr "cd ") with [99; 100; 32]. cbn [app nth Z.eqb Pos.eqb andb].
  f_equal.
  replace (c_string (99 :: 100 :: 32 :: dir ++ 0 :: junk)) with (99 :: 100 :: 32 :: dir).
  2:{ symmetry. apply (c_string_app (99 :: 100 :: 32 :: dir)). repeat (constructor; [done|]). done. }
  destruct (exists_last Hne) as (d & x & ->). rewrite removelast_last.
  apply Forall_app in Hd as [Hd _]. cbn [length]. rewrite length_app. cbn [length].
  replace (S (S (S (length d + 1))) - 1)%nat with (S (S (S (length d)))) by lia.
  change (<[S (S (S (length d))) := 0]> (99 :: 100 :: 32 :: (d ++ [x]) ++ 0 :: junk))
    with (99 :: 100 :: 32 :: <[length d := 0]> ((d ++ [x]) ++ 0 :: junk)).
  cbn [drop]. rewrite <- app_assoc. rewrite insert_app_r_alt by lia.
  rewrite Nat.sub_diag. cbn [app]. by apply c_string_app.
Qed.
