(* ===== verification/Init.v ===== *)
(** Model of src/init.c: the first user program.

    The process is its descriptor table, as in [ShRun.v]; [nodes] are the device
    files of the root directory with their numbers.  What [fork] and [wait] return
    is read from lists, and the program's output and the programs it executes are a
    list of events; a child runs on a copy of the table. *)
From stdpp Require Import base strings numbers list.
From S2P Require Import Prelude CString File Sysfile ShRun.
Local Open Scope Z_scope.

Record init_state : Type := mkInit {
  nodes : list (list Z * (Z * Z));
  fds : list (option desc) }.

Definition init_open (path : list Z) (mode : Z) (s : init_state) : Z * init_state :=
  if bool_decide (path ∈ (nodes s).*1) then
    match os_alloc (DFile path mode) (fds s) with
    | Some (fd, t) => (Z.of_nat fd, mkInit (nodes s) t)
    | None => (-1, s)
    end
  else (-1, s).

Definition init_mknod (path : list Z) (major minor : Z) (s : init_state) : init_state :=
  if bool_decide (path ∈ (nodes s).*1) then s
  else mkInit (nodes s ++ [(path, (major, minor))]) (fds s).

Definition init_dup (fd : nat) (s : init_state) : init_state := mkInit (nodes s) (os_dup fd (fds s)).

(** [if(open(path, O_RDWR) < 0){ mknod(path, major, 1); open(path, O_RDWR); }]. *)
Definition open_or_make (path : list Z) (major : Z) (s : init_state) : init_state :=
  let '(fd, s) := init_open path O_RDWR s in
  if fd <? 0 then snd (init_open path O_RDWR (init_mknod path major 1 s)) else s.

Definition init_devices (s : init_state) : init_state :=
  let s := open_or_make (cstr "console") 1 s in
  let s := init_dup 0 s in
  let s := snd (init_open (cstr "console") O_RDWR s) in
  open_or_make (cstr "display") 2 s.

Inductive init_event : Type :=
  | Says (msg : list Z)
  | Shell (argv : list (list Z)) (t : list (option desc)).

Definition shell_argv : list (list Z) := [cstr "sh"].

(** What the child does: [exec] returns only when it fails. *)
Definition init_child (exec_ok : bool) (s : init_state) : list init_event :=
  if exec_ok then [Shell shell_argv (fds s)] else [Says (cstr "init: exec sh failed" ++ [10])].

(** [while((wpid=wait()) >= 0 && wpid != pid) printf(1, "zombie!\n")]; [None] while
    the wait goes on. *)
Fixpoint init_wait (pid : Z) (waits : list Z) : list init_event * option (list Z) :=
  match waits with
  | [] => ([], None)
  | wpid :: waits =>
      if (0 <=? wpid) && negb (wpid =? pid)
      then let '(evs, r) := init_wait pid waits in (Says (cstr "zombie!" ++ [10]) :: evs, r)
      else ([], Some waits)
  end.

(** The loop of the parent: [true] when it has exited. *)
Fixpoint init_loop (forks : list (Z * bool)) (waits : list Z) (s : init_state) : list init_event * bool :=
  match forks with
  | [] => ([], false)
  | (pid, exec_ok) :: forks =>
      let start := Says (cstr "init: starting sh" ++ [10]) in
      if pid <? 0 then ([start; Says (cstr "init: fork failed" ++ [10])], true)
      else
        let '(zs, r) := init_wait pid waits in
        match r with
        | None => (start :: init_child exec_ok s ++ zs, false)
        | Some waits =>
            let '(evs, ended) := init_loop forks waits s in
            (start :: init_child exec_ok s ++ zs ++ evs, ended)
        end
  end.

Definition init_main (forks : list (Z * bool)) (waits : list Z) (s : init_state) : list init_event * bool :=
  init_loop forks waits (init_devices s).

(** * The devices *)

Definition console_file : desc := DFile (cstr "console") O_RDWR.
Definition display_file : desc := DFile (cstr "display") O_RDWR.

Lemma init_open_ok path mode s k : path ∈ (nodes s).*1 -> free_fd (fds s) 0 = Some k ->
  init_open path mode s = (Z.of_nat k, mkInit (nodes s) (<[k := Some (DFile path mode)]> (fds s))).
Proof. intros Hp Hk. unfold init_open, os_alloc. by rewrite bool_decide_true, Hk by done. Qed.

(** A device is open afterwards, and in the directory. *)
Lemma open_or_make_ok path major s k : free_fd (fds s) 0 = Some k ->
  exists ns, open_or_make path major s = mkInit ns (<[k := Some (DFile path O_RDWR)]> (fds s))
  /\ ns = (if bool_decide (path ∈ (nodes s).*1) then nodes s else nodes s ++ [(path, (major, 1))]).
Proof.
  intros Hk. unfold open_or_make. destruct (decide (path ∈ (nodes s).*1)) as [Hp|Hp].
  - rewrite (init_open_ok _ _ _ k) by done. replace (Z.of_nat k <? 0) with false by lia. rewrite bool_decide_true by done. by eexists.
  - unfold init_open at 1, init_mknod. rewrite !bool_decide_false by done. change (-1 <? 0) with true. cbv iota.
    rewrite (init_open_ok _ _ _ k); [by eexists| |done]. cbn [nodes]. rewrite fmap_app. apply elem_of_app. right. by left.
Qed.

(** Whatever device files the disk has, [init] makes the missing ones with the numbers
    of the drivers and runs the shell with the console as descriptors 0, 1 and 2 and
    the display as descriptor 3. *)
Theorem init_opens_devices ns n : (4 <= n)%nat ->
  let s := init_devices (mkInit ns (replicate n None)) in
  fds s = [Some console_file; Some console_file; Some console_file; Some display_file] ++ replicate (n - 4) None
  /\ nodes s = (let ns1 := if bool_decide (cstr "console" ∈ ns.*1) then ns else ns ++ [(cstr "console", (1, 1))] in
                if bool_decide (cstr "display" ∈ ns1.*1) then ns1 else ns1 ++ [(cstr "display", (2, 1))]).
Proof.
  intros Hn. destruct n as [|[|[|[|n]]]]; try lia. cbn [replicate]. unfold init_devices.
  destruct (open_or_make_ok (cstr "console") 1 (mkInit ns (None :: None :: None :: None :: replicate n None)) 0 eq_refl) as (ns1 & -> & E1).
  unfold init_dup. cbn [fds nodes insert list_insert os_dup lookup list_lookup] in *. change (os_dup 0 _) with
    (Some console_file :: Some console_file :: None :: None :: replicate n None).
  assert (cstr "console" ∈ ns1.*1) as Hin.
  { rewrite E1. destruct (decide (cstr "console" ∈ ns.*1)); [by rewrite bool_decide_true|]. rewrite bool_decide_false by done.
    rewrite fmap_app. apply elem_of_app. right. by left. }
  rewrite (init_open_ok _ _ _ 2) by done. cbn [fds nodes insert list_insert snd].
  match goal with |- context [open_or_make _ 2 ?s] => destruct (open_or_make_ok (cstr "display") 2 s 3 eq_refl) as (ns2 & -> & E2) end.
  cbn [fds nodes insert list_insert] in *. rewrite E2, E1. replace (S (S (S (S n))) - 4)%nat with n by lia. done.
Qed.

(** * The shell is always started again *)

Lemma init_wait_reaps pid zs rest : Forall (fun w => 0 <= w /\ w <> pid) zs ->
  init_wait pid (zs ++ pid :: rest) = (replicate (length zs) (Says (cstr "zombie!" ++ [10])), Some rest).
Proof.
  induction 1 as [|w zs [Hw Hne] _ IH]; cbn [app init_wait].
  - by rewrite Z.eqb_refl, andb_false_r.
  - replace ((0 <=? w) && negb (w =? pid)) with true by lia. rewrite IH. done.
Qed.

(** Each time the shell exits, after the orphans that exited before it have been
    reported, [init] starts it again with the same descriptors. *)
Theorem init_restarts_shell rounds s :
  Forall (fun '(pid, zs) => 0 < pid /\ Forall (fun w => 0 <= w /\ w <> pid) zs) rounds ->
  init_loop ((fun '(pid, _) => (pid, true)) <$> rounds) (concat ((fun '(pid, zs) => zs ++ [pid]) <$> rounds)) s
  = (concat ((fun '(pid, zs) => [Says (cstr "init: starting sh" ++ [10]); Shell shell_argv (fds s)]
               ++ replicate (length zs) (Says (cstr "zombie!" ++ [10]))) <$> rounds), false).
Proof.
  induction 1 as [|[pid zs] rounds [Hp Hz] _ IH]; cbn [fmap list_fmap init_loop concat]; [done|].
  replace (pid <? 0) with false by lia. rewrite <- app_assoc. cbn [app]. rewrite init_wait_reaps by done. rewrite IH. done.
Qed.
