(* ===== verification/Proc.v ===== *)
(** Model of src/proc.c: the process table, scheduling, sleep and wakeup, fork,
    exit, wait and kill.

    Every operation here runs with [ptable.lock] held (or touches only the
    caller's own entry), so it is one atomic step; [fork], which gives the lock
    up, is two.  What the lock operations do to the CPU that makes them
    ([kcpu]: whether it holds the lock, and its interrupt bookkeeping, that of
    [Locks.v]) is followed up to [sched], which checks it; waiting for the lock is
    waiting for the step of another CPU to end.  A [struct proc*] is its index in
    [ptable.proc].  Address
    spaces, kernel stacks and open files are modelled elsewhere: of a process's
    page table and stack only their presence is kept.  [kalloc] never returns 0
    (it panics), so neither does the allocation of the kernel stack. *)
From stdpp Require Import base strings numbers list.
From S2P Require Import Prelude Locks.
Local Open Scope Z_scope.

Definition NPROC : nat := 64.

Inductive procstate : Type := UNUSED | EMBRYO | SLEEPING | RUNNABLE | RUNNING | ZOMBIE.
#[export] Instance procstate_eq_dec : EqDecision procstate.
Proof. solve_decision. Defined.

(** Sleep channels: [wait] sleeps on the address of the caller's entry, other
    code on addresses of its own objects. *)
Inductive chan : Type := CProc (i : nat) | CAddr (a : Z).
#[export] Instance chan_eq_dec : EqDecision chan.
Proof. solve_decision. Defined.

(** [forking] is the local variable [np] of a process inside [fork]. *)
Record proc : Type := mkProc {
  state : procstate;
  pid : Z;
  parent : option nat;
  pchan : option chan;
  killed : bool;
  kstack : bool;
  pgdir : bool;
  forking : option nat }.

Record psys : Type := mkPsys {
  tab : nat -> proc;
  nextpid : Z;
  initproc : option nat;
  cpus : nat -> option nat }.

Definition set_state (st : procstate) (p : proc) : proc :=
  mkProc st (pid p) (parent p) (pchan p) (killed p) (kstack p) (pgdir p) (forking p).
Definition set_parent (q : option nat) (p : proc) : proc :=
  mkProc (state p) (pid p) q (pchan p) (killed p) (kstack p) (pgdir p) (forking p).
Definition set_chan (c : option chan) (p : proc) : proc :=
  mkProc (state p) (pid p) (parent p) c (killed p) (kstack p) (pgdir p) (forking p).
Definition set_forking (n : option nat) (p : proc) : proc :=
  mkProc (state p) (pid p) (parent p) (pchan p) (killed p) (kstack p) (pgdir p) n.

Definition upd (t : nat -> proc) (i : nat) (p : proc) : nat -> proc :=
  fun j => if decide (j = i) then p else t j.
Definition set_tab (s : psys) (t : nat -> proc) : psys :=
  mkPsys t (nextpid s) (initproc s) (cpus s).
Definition set_cpu (s : psys) (c : nat) (p : option nat) : psys :=
  mkPsys (tab s) (nextpid s) (initproc s) (fun d => if decide (d = c) then p else cpus s d).

(** The first entry of the table that satisfies a test. *)
Definition first_proc (t : nat -> proc) (test : proc -> bool) : option nat :=
  List.find (fun i => test (t i)) (seq 0 NPROC).

(** [allocproc]: the new entry has its kernel stack; [killed] and [pgdir] keep
    what the last user of the entry left. *)
Definition allocproc (s : psys) : option (nat * psys) :=
  match first_proc (tab s) (fun p => bool_decide (state p = UNUSED)) with
  | None => None
  | Some i =>
      let p := tab s i in
      Some (i, mkPsys
        (upd (tab s) i (mkProc EMBRYO (nextpid s) (parent p) (pchan p) (killed p) true
                          (pgdir p) (forking p)))
        (s32 (nextpid s + 1)) (initproc s) (cpus s))
  end.

Definition userinit (s : psys) : option psys :=
  '(i, s) ← allocproc s;
  let p := tab s i in
  Some (mkPsys
    (upd (tab s) i (mkProc RUNNABLE (pid p) (parent p) (pchan p) (killed p) (kstack p) true
                      (forking p)))
    (nextpid s) (Some i) (cpus s)).

(** [fork] by process [me]: up to the return of [allocproc]; [None] is the
    return of -1. *)
Definition fork_begin (me : nat) (s : psys) : option psys :=
  '(np, s) ← allocproc s;
  Some (set_tab s (upd (tab s) me (set_forking (Some np) (tab s me)))).

(** ... and the rest, with the outcome of [copyuvm]: the pid, or -1. *)
Definition fork_end (me : nat) (copied : bool) (s : psys) : option (Z * psys) :=
  np ← forking (tab s me);
  let t := upd (tab s) me (set_forking None (tab s me)) in
  let p := t np in
  if copied then
    Some (pid p, set_tab s (upd t np
      (mkProc RUNNABLE (pid p) (Some me) (pchan p) (killed p) (kstack p) true (forking p))))
  else
    Some (-1, set_tab s (upd t np
      (mkProc UNUSED (pid p) (parent p) (pchan p) (killed p) false false (forking p)))).

Definition wakeup1 (c : chan) (t : nat -> proc) : nat -> proc := fun i =>
  let p := t i in
  if bool_decide (i < NPROC)%nat && bool_decide (state p = SLEEPING)
     && bool_decide (pchan p = Some c)
  then set_state RUNNABLE p else p.

Definition wakeup (c : chan) (s : psys) : psys := set_tab s (wakeup1 c (tab s)).

(** A CPU as [sched] looks at it: [holding(&ptable.lock)], and [ncli], [intena]
    and the interrupt flag. *)
Record kcpu : Type := mkKcpu { holds : bool; irq : Locks.cpu }.

(** [acquire] and [release] of [ptable.lock], and of another lock. *)
Definition acquire_ptable (k : kcpu) : res kcpu :=
  let i := pushcli (irq k) in
  if holds k then Panic "acquire" else Ok (mkKcpu true i).
Definition release_ptable (k : kcpu) : res kcpu :=
  if negb (holds k) then Panic "release" else i ← popcli (irq k); Ok (mkKcpu false i).
Definition acquire_lk (k : kcpu) : kcpu := mkKcpu (holds k) (pushcli (irq k)).
Definition release_lk (k : kcpu) : res kcpu := i ← popcli (irq k); Ok (mkKcpu (holds k) i).

(** A CPU that holds no lock; [fl] is its interrupt flag. *)
Definition unlocked (fl : bool) : kcpu := mkKcpu false (mkCpu 0 false fl).

(** [sched]: back to the scheduler of this CPU, whose [proc] becomes 0. *)
Definition sched (k : kcpu) (c me : nat) (s : psys) : res psys :=
  if negb (holds k) then Panic "sched ptable.lock"
  else if negb (ncli (irq k) =? 1) then Panic "sched locks"
  else if decide (state (tab s me) = RUNNING) then Panic "sched running"
  else if iflag (irq k) then Panic "sched interruptible"
  else Ok (set_cpu s c None).

(** The scheduler of CPU [c] starts process [i], if it may.  The process comes
    back from [sched] with the lock still held; if it was in [sleep], it clears
    its channel (otherwise the channel is clear already). *)
Definition schedule (c i : nat) (s : psys) : option psys :=
  if decide (state (tab s i) = RUNNABLE) then
    Some (set_tab (set_cpu s c (Some i)) (upd (tab s) i (set_chan None (set_state RUNNING (tab s i)))))
  else None.

Definition yield (k : kcpu) (c me : nat) (s : psys) : res psys :=
  k ← acquire_ptable k;
  sched k c me (set_tab s (upd (tab s) me (set_state RUNNABLE (tab s me)))).

(** [sleep(chan, lk)], up to [sched]; [own] is [lk == &ptable.lock].  Its two panics,
    for no process and no lock, have no counterpart: [me] is the process that runs,
    and every caller passes the address of a lock. *)
Definition sleep (own : bool) (k : kcpu) (c me : nat) (ch : chan) (s : psys) : res psys :=
  k ← (if own then Ok k else k ← acquire_ptable k; release_lk k);
  sched k c me (set_tab s (upd (tab s) me (set_state SLEEPING (set_chan (Some ch) (tab s me))))).

(** The loop of [exit] that passes the children of [me] to init. *)
Fixpoint reparent (me init : nat) (l : list nat) (t : nat -> proc) : nat -> proc :=
  match l with
  | [] => t
  | i :: l =>
      if decide (parent (t i) = Some me) then
        let t := upd t i (set_parent (Some init) (t i)) in
        let t := if decide (state (t i) = ZOMBIE) then wakeup1 (CProc init) t else t in
        reparent me init l t
      else reparent me init l t
  end.

(** [exit].  It closes files and the directory before it takes the lock (the loop is
    [exit_files] of [File.v]); nothing comes after [sched], because a zombie does
    not run again. *)
Definition exit_ (k : kcpu) (c me : nat) (s : psys) : res psys :=
  match initproc s with
  | None => Fault
  | Some init =>
      if decide (me = init) then Panic "init exiting"
      else
        match parent (tab s me) with
        | None => Fault
        | Some q =>
            k ← acquire_ptable k;
            let t := wakeup1 (CProc q) (tab s) in
            let t := reparent me init (seq 0 NPROC) t in
            sched k c me (set_tab s (upd t me (set_state ZOMBIE (t me))))
        end
  end.

(** One round of the loop of [wait]. *)
Inductive waited : Type := WPid (pid : Z) | WNone | WSleep.

Definition reap (p : proc) : proc :=
  mkProc UNUSED 0 None (pchan p) false false false (forking p).

Definition wait (k : kcpu) (c me : nat) (s : psys) : res (waited * psys) :=
  k ← acquire_ptable k;
  match first_proc (tab s) (fun p => bool_decide (parent p = Some me)
                                     && bool_decide (state p = ZOMBIE)) with
  | Some i =>
      _ ← release_ptable k;
      Ok (WPid (pid (tab s i)), set_tab s (upd (tab s) i (reap (tab s i))))
  | None =>
      let havekids := match first_proc (tab s) (fun p => bool_decide (parent p = Some me)) with
                      | Some _ => true | None => false end in
      if negb havekids || killed (tab s me) then _ ← release_ptable k; Ok (WNone, s)
      else s ← sleep true k c me (CProc me) s; Ok (WSleep, s)
  end.

Definition kill (n : Z) (s : psys) : option psys :=
  i ← first_proc (tab s) (fun p => pid p =? n);
  let p := tab s i in
  let p := mkProc (if decide (state p = SLEEPING) then RUNNABLE else state p) (pid p) (parent p)
             (pchan p) true (kstack p) (pgdir p) (forking p) in
  Some (set_tab s (upd (tab s) i p)).

(** * Executions *)

Definition free_proc : proc := mkProc UNUSED 0 None None false false false None.
Definition boot_procs : option psys :=
  userinit (mkPsys (fun _ => free_proc) 1 None (fun _ => None)).

(** What can happen next.  [c] is a CPU; the operations of a process are those
    of the one it runs.  Between two operations a process holds no spin lock; [fl]
    is the interrupt flag.  A process that sleeps has taken the one lock it passes
    to [sleep] (so do all the callers in src/). *)
Inductive pop : Type :=
  | PSched (c i : nat)
  | PYield (c : nat) (fl : bool)
  | PSleep (c : nat) (fl : bool) (a : Z)
  | PWakeup (a : Z)
  | PKill (n : Z)
  | PForkBegin (c : nat)
  | PForkEnd (c : nat) (copied : bool)
  | PExit (c : nat) (fl : bool)
  | PWait (c : nat) (fl : bool).

Definition or_stay (r : option psys) (s : psys) : res psys :=
  Ok (match r with Some s' => s' | None => s end).

(** A process inside [fork] may be preempted but does nothing else. *)
Definition step (o : pop) (s : psys) : res psys :=
  let running c (f : nat -> res psys) :=
    match cpus s c with Some me => f me | None => Ok s end in
  let outside c (f : nat -> res psys) :=
    running c (fun me => match forking (tab s me) with None => f me | Some _ => Ok s end) in
  match o with
  | PSched c i => match cpus s c with None => or_stay (schedule c i s) s | Some _ => Ok s end
  | PYield c fl => running c (fun me => yield (unlocked fl) c me s)
  | PSleep c fl a =>
      running c (fun me => sleep false (acquire_lk (unlocked fl)) c me (CAddr a) s)
  | PWakeup a => Ok (wakeup (CAddr a) s)
  | PKill n => or_stay (kill n s) s
  | PForkBegin c => outside c (fun me => or_stay (fork_begin me s) s)
  | PForkEnd c copied =>
      running c (fun me => or_stay (option_map snd (fork_end me copied s)) s)
  | PExit c fl => outside c (fun me => exit_ (unlocked fl) c me s)
  | PWait c fl => outside c (fun me => '(_, s) ← wait (unlocked fl) c me s; Ok s)
  end.

Fixpoint run (os : list pop) (s : psys) : res psys :=
  match os with
  | [] => Ok s
  | o :: os => s ← step o s; run os s
  end.

(** * Invariants *)

Definition live (st : procstate) : Prop := st = SLEEPING \/ st = RUNNABLE \/ st = RUNNING.
Definition present (st : procstate) : Prop := live st \/ st = ZOMBIE.

(** The structure of the table: distinct positive pids; every process but init
    has a parent that has neither exited nor been freed; an entry being set up
    belongs to exactly one [fork]; stacks and page tables go with the state. *)
Record family (t : nat -> proc) (next : Z) (init : option nat) : Prop := {
  fa_out : forall i, (NPROC <= i)%nat -> state (t i) = UNUSED;
  fa_pid : forall i, state (t i) <> UNUSED -> 1 <= pid (t i) < next;
  fa_uniq : forall i j, state (t i) <> UNUSED -> state (t j) <> UNUSED ->
    pid (t i) = pid (t j) -> i = j;
  fa_init : exists k, init = Some k /\ live (state (t k)) /\ parent (t k) = None;
  fa_parent : forall i q, parent (t i) = Some q ->
    present (state (t i)) /\ live (state (t q)) /\ i <> q;
  fa_orphan : forall i, present (state (t i)) -> init <> Some i -> parent (t i) <> None;
  fa_fork : forall i n, forking (t i) = Some n -> live (state (t i)) /\ state (t n) = EMBRYO;
  fa_forkinj : forall i j n, forking (t i) = Some n -> forking (t j) = Some n -> i = j;
  fa_embryo : forall n, state (t n) = EMBRYO -> exists i, forking (t i) = Some n;
  fa_kstack : forall i, kstack (t i) = true <-> state (t i) <> UNUSED;
  fa_pgdir : forall i, pgdir (t i) = true <-> present (state (t i)) }.

(** A process is RUNNING exactly when one CPU runs it. *)
Record runs_once (s : psys) : Prop := {
  ro_run : forall i, state (tab s i) = RUNNING <-> exists c, cpus s c = Some i;
  ro_one : forall c d i, cpus s c = Some i -> cpus s d = Some i -> c = d }.

(** A process asleep in [wait] sleeps on itself and has no child to reap. *)
Record no_lost_exit (t : nat -> proc) : Prop := {
  nl_self : forall q j, state (t q) = SLEEPING -> pchan (t q) = Some (CProc j) -> j = q;
  nl_kids : forall p q, state (t q) = SLEEPING -> pchan (t q) = Some (CProc q) ->
    parent (t p) = Some q -> state (t p) <> ZOMBIE }.

Record pinv (s : psys) : Prop := {
  pi_family : family (tab s) (nextpid s) (initproc s);
  pi_runs : runs_once s;
  pi_wait : no_lost_exit (tab s) }.

(** A change of the states of live processes, of channels and of [killed]. *)
Record tweak (p p' : proc) : Prop := {
  tw_pid : pid p' = pid p;
  tw_parent : parent p' = parent p;
  tw_kstack : kstack p' = kstack p;
  tw_pgdir : pgdir p' = pgdir p;
  tw_forking : forking p' = forking p;
  tw_state : state p' = state p \/ live (state p) /\ live (state p') }.

Lemma tweak_refl p : tweak p p.
Proof. constructor; auto. Qed.

Lemma tweak_live p p' : tweak p p' -> live (state p') <-> live (state p).
Proof. intros [_ _ _ _ _ [->|[??]]]; tauto. Qed.

Lemma tweak_same p p' st : tweak p p' -> ~ live st -> state p' = st <-> state p = st.
Proof.
  intros [_ _ _ _ _ [->|[H1 H2]]] Hst; [tauto|]. split; intros <-; by destruct Hst.
Qed.

Lemma not_live_unused : ~ live UNUSED. Proof. by intros [?|[?|?]]. Qed.
Lemma not_live_embryo : ~ live EMBRYO. Proof. by intros [?|[?|?]]. Qed.
Lemma not_live_zombie : ~ live ZOMBIE. Proof. by intros [?|[?|?]]. Qed.

Lemma tweak_present p p' : tweak p p' -> present (state p') <-> present (state p).
Proof.
  intros H. unfold present. rewrite (tweak_live _ _ H).
  by rewrite (tweak_same _ _ ZOMBIE H not_live_zombie).
Qed.

Lemma family_tweak t t' next init :
  (forall i, tweak (t i) (t' i)) -> family t next init -> family t' next init.
Proof.
  intros Ht [F1 F2 F3 (k & Hk & Hl & Hp) F5 F6 F7 F8 F9 F10 F11].
  assert (Hu : forall i, state (t' i) = UNUSED <-> state (t i) = UNUSED)
    by (intros i; apply tweak_same; [done|apply not_live_unused]).
  assert (He : forall i, state (t' i) = EMBRYO <-> state (t i) = EMBRYO)
    by (intros i; apply tweak_same; [done|apply not_live_embryo]).
  assert (Hv : forall i, live (state (t' i)) <-> live (state (t i)))
    by (intros i; by apply tweak_live).
  assert (Hs : forall i, present (state (t' i)) <-> present (state (t i)))
    by (intros i; by apply tweak_present).
  constructor.
  - intros i Hi. apply Hu. auto.
  - intros i Hi. rewrite (tw_pid _ _ (Ht i)). apply F2. by rewrite <- Hu.
  - intros i j Hi Hj. rewrite (tw_pid _ _ (Ht i)), (tw_pid _ _ (Ht j)). apply F3; by rewrite <- Hu.
  - exists k. rewrite Hv, (tw_parent _ _ (Ht k)). done.
  - intros i q. rewrite (tw_parent _ _ (Ht i)), Hs, Hv. auto.
  - intros i. rewrite (tw_parent _ _ (Ht i)), Hs. auto.
  - intros i n. rewrite (tw_forking _ _ (Ht i)), He, Hv. auto.
  - intros i j n. rewrite (tw_forking _ _ (Ht i)), (tw_forking _ _ (Ht j)). apply F8.
  - intros n. rewrite He. intros Hn. destruct (F9 n Hn) as [i Hi]. exists i.
    by rewrite (tw_forking _ _ (Ht i)).
  - intros i. rewrite (tw_kstack _ _ (Ht i)), Hu. auto.
  - intros i. rewrite (tw_pgdir _ _ (Ht i)), Hs. auto.
Qed.

(** No new sleeper in [wait], no new child to reap. *)
Lemma no_lost_exit_mono t t' :
  (forall q j, state (t' q) = SLEEPING -> pchan (t' q) = Some (CProc j) ->
     state (t q) = SLEEPING /\ pchan (t q) = Some (CProc j)) ->
  (forall p q, parent (t' p) = Some q -> state (t' p) = ZOMBIE ->
     parent (t p) = Some q /\ state (t p) = ZOMBIE) ->
  no_lost_exit t -> no_lost_exit t'.
Proof.
  intros Hs Hz [H1 H2]. constructor.
  - intros q j Hq Hc. destruct (Hs q j Hq Hc). eauto.
  - intros p q Hq Hc Hp Hzp. destruct (Hs q q Hq Hc), (Hz p q Hp Hzp). by eapply H2.
Qed.

Lemma tab_upd_eq t i p : upd t i p i = p.
Proof. unfold upd. by rewrite decide_True. Qed.
Lemma tab_upd_ne t i j p : j <> i -> upd t i p j = t j.
Proof. intros H. unfold upd. by rewrite decide_False. Qed.

(** Replace the entry of one process by a tweak of it. *)
Lemma upd_tweak t i p : tweak (t i) p -> forall j, tweak (t j) (upd t i p j).
Proof.
  intros H j. destruct (decide (j = i)) as [->|Hne].
  - by rewrite tab_upd_eq.
  - rewrite tab_upd_ne by done. apply tweak_refl.
Qed.

Lemma wakeup1_tweak c t j : tweak (t j) (wakeup1 c t j).
Proof.
  unfold wakeup1. destruct (_ && _) eqn:E; [|apply tweak_refl].
  rewrite !andb_true_iff, !bool_decide_eq_true in E. destruct E as [[_ Hs] _].
  constructor; try done. right. rewrite Hs. unfold live. simpl. tauto.
Qed.

Lemma wakeup1_cases c t j :
  wakeup1 c t j = t j
  \/ state (t j) = SLEEPING /\ pchan (t j) = Some c /\ wakeup1 c t j = set_state RUNNABLE (t j).
Proof.
  unfold wakeup1. destruct (_ && _) eqn:E; [|by left].
  rewrite !andb_true_iff, !bool_decide_eq_true in E. destruct E as [[_ Hs] Hc]. by right.
Qed.

Lemma wakeup1_awake c t j :
  (j < NPROC)%nat -> pchan (t j) = Some c -> state (wakeup1 c t j) <> SLEEPING.
Proof.
  intros Hj Hc. unfold wakeup1. rewrite (bool_decide_eq_true_2 _ Hj), (bool_decide_eq_true_2 _ Hc).
  rewrite andb_true_r. simpl. by case_bool_decide.
Qed.

Lemma runs_same s t' n :
  runs_once s -> (forall i, state (t' i) = RUNNING <-> state (tab s i) = RUNNING) ->
  runs_once (mkPsys t' n (initproc s) (cpus s)).
Proof. intros [H1 H2] Ht. constructor; [|done]. intros i. cbn [tab cpus]. by rewrite Ht. Qed.

Lemma runs_stop s t' n c me :
  runs_once s -> cpus s c = Some me -> state (t' me) <> RUNNING ->
  (forall i, i <> me -> state (t' i) = RUNNING <-> state (tab s i) = RUNNING) ->
  runs_once (set_cpu (mkPsys t' n (initproc s) (cpus s)) c None).
Proof.
  intros [H1 H2] Hc Hme Ht. constructor; cbn [tab cpus set_cpu].
  - intros i. destruct (decide (i = me)) as [->|Hne].
    + split; [done|]. intros [d Hd]. case_decide; [done|]. by destruct (H2 _ _ _ Hc Hd).
    + rewrite Ht, H1 by done. split.
      * intros [d Hd]. exists d. case_decide; [|done]. subst. congruence.
      * intros [d Hd]. case_decide; [done|]. eauto.
  - intros d e i. repeat case_decide; [done..|]. apply H2.
Qed.

Lemma run_live s c me : pinv s -> cpus s c = Some me -> state (tab s me) = RUNNING.
Proof. intros [_ [H _] _] Hc. apply H. eauto. Qed.

Lemma find_none_in {A} (f : A -> bool) l a : List.find f l = None -> a ∈ l -> f a = false.
Proof. intros H Ha. by apply (find_none f l H), list_elem_of_In. Qed.

Lemma first_proc_none t test i :
  first_proc t test = None -> (i < NPROC)%nat -> test (t i) = false.
Proof. intros H Hi. apply (find_none_in _ _ i H), elem_of_seq. lia. Qed.

Lemma first_proc_some t test i :
  first_proc t test = Some i -> (i < NPROC)%nat /\ test (t i) = true.
Proof. intros [H1%in_seq H2]%find_some. split; [lia|done]. Qed.

(** [upds] splits every table lookup on whether it is the updated entry. *)
Ltac upds :=
  unfold upd in *; repeat (case_decide; subst); simpl in *.

Lemma schedule_inv c i s s' :
  pinv s -> cpus s c = None -> schedule c i s = Some s' -> pinv s'.
Proof.
  intros [Hf [R1 R2] Hw] Hc. unfold schedule. case_decide as Hs; [|done]. intros [= <-].
  constructor; cbn [tab nextpid initproc cpus set_tab set_cpu].
  - eapply family_tweak; [|done]. apply upd_tweak. constructor; try done. right.
    rewrite Hs. unfold live. simpl. tauto.
  - constructor; cbn [tab cpus set_tab set_cpu].
    + intros j. destruct (decide (j = i)) as [->|Hne].
      * rewrite tab_upd_eq. split; [|done]. intros _. exists c. by rewrite decide_True.
      * rewrite tab_upd_ne, R1 by done. split; intros [d Hd]; exists d; case_decide; congruence.
    + intros d e j. repeat case_decide; subst; [done|..].
      * intros [= <-] He. assert (state (tab s i) = RUNNING) by (apply R1; eauto). congruence.
      * intros He [= <-]. assert (state (tab s i) = RUNNING) by (apply R1; eauto). congruence.
      * apply R2.
  - eapply no_lost_exit_mono; [| |done]; intros; upds; done.
Qed.

(** What [sched] wants: the table locked, that lock only, and no interrupts. *)
Definition locked_once (k : kcpu) : Prop :=
  holds k = true /\ ncli (irq k) = 1 /\ iflag (irq k) = false.

Lemma sched_ok k c me s : locked_once k -> state (tab s me) <> RUNNING -> sched k c me s = Ok (set_cpu s c None).
Proof. intros (H1 & H2 & H3) Hs. unfold sched. rewrite H1, H2, H3. simpl. by rewrite decide_False. Qed.

Lemma sched_only k c me s s' : sched k c me s = Ok s' -> s' = set_cpu s c None.
Proof.
  unfold sched. destruct (holds k); [|done]. destruct (ncli (irq k) =? 1); [|done]. simpl.
  destruct (decide _); [done|]. destruct (iflag _); [done|]. by intros [= <-].
Qed.

(** Taking the lock, and giving up the one passed to [sleep], leads there. *)
Lemma acquire_once fl : exists k, acquire_ptable (unlocked fl) = Ok k /\ locked_once k.
Proof. eexists. split; [reflexivity|]. done. Qed.

Lemma exchange_once fl : exists k k',
  acquire_ptable (acquire_lk (unlocked fl)) = Ok k /\ release_lk k = Ok k' /\ locked_once k'.
Proof. eexists _, _. split; [reflexivity|]. split; [reflexivity|]. done. Qed.

Lemma release_once k : locked_once k -> exists k', release_ptable k = Ok k'.
Proof. destruct k as [h [n i f]]. intros (H1 & H2 & H3). simpl in *. subst. by eexists. Qed.

(** A process gives up its CPU with an entry [p] in a state other than RUNNING. *)
Lemma stop_inv k c me s p :
  locked_once k -> pinv s -> cpus s c = Some me -> tweak (tab s me) p -> state p <> RUNNING ->
  no_lost_exit (upd (tab s) me p) ->
  exists s', sched k c me (set_tab s (upd (tab s) me p)) = Ok s' /\ pinv s'
    /\ nextpid s' = nextpid s.
Proof.
  intros Hk [Hf Hr Hw] Hc Ht Hp Hn. rewrite sched_ok by (cbn [tab set_tab]; rewrite ?tab_upd_eq; done). eexists. split; [done|]. split; [|done].
  constructor; cbn [tab nextpid initproc set_tab set_cpu].
  - eapply family_tweak; [|done]. by apply upd_tweak.
  - apply (runs_stop s (upd (tab s) me p) (nextpid s) c me); [done|done|by rewrite tab_upd_eq|].
    intros i Hi. by rewrite tab_upd_ne.
  - done.
Qed.

Lemma yield_inv fl c me s :
  pinv s -> cpus s c = Some me ->
  exists s', yield (unlocked fl) c me s = Ok s' /\ pinv s' /\ nextpid s' = nextpid s.
Proof.
  intros Hs Hc. pose proof (run_live _ _ _ Hs Hc) as Hrun. unfold yield.
  destruct (acquire_once fl) as (k & -> & Hk). ok. apply stop_inv; try done.
  - constructor; try done. right. rewrite Hrun. unfold live. simpl. tauto.
  - destruct Hs as [_ _ Hw]. eapply no_lost_exit_mono; [| |done]; intros; upds; done.
Qed.

Lemma sleep_tweak p ch : live (state p) -> tweak p (set_state SLEEPING (set_chan (Some ch) p)).
Proof. intros H. constructor; try done. right. split; [done|]. by left. Qed.

Lemma sleep_inv fl c me a s :
  pinv s -> cpus s c = Some me ->
  exists s', sleep false (acquire_lk (unlocked fl)) c me (CAddr a) s = Ok s' /\ pinv s'
    /\ nextpid s' = nextpid s.
Proof.
  intros Hs Hc. pose proof (run_live _ _ _ Hs Hc) as Hrun. unfold sleep.
  destruct (exchange_once fl) as (k & k' & -> & E & Hk). ok. rewrite E. ok. apply stop_inv; try done.
  - apply sleep_tweak. rewrite Hrun. unfold live. tauto.
  - destruct Hs as [_ _ Hw]. eapply no_lost_exit_mono; [| |done]; intros; upds; done.
Qed.

Lemma wakeup_inv a s : pinv s -> pinv (wakeup (CAddr a) s).
Proof.
  intros [Hf Hr Hw]. constructor; cbn [tab nextpid initproc wakeup set_tab].
  - eapply family_tweak; [|done]. intros j. apply wakeup1_tweak.
  - apply runs_same; [done|]. intros i.
    destruct (wakeup1_cases (CAddr a) (tab s) i) as [->|(H1 & _ & ->)]; [done|].
    rewrite H1. done.
  - eapply no_lost_exit_mono; [| |done].
    + intros q j. by destruct (wakeup1_cases (CAddr a) (tab s) q) as [->|(H1 & _ & ->)].
    + intros p q. by destruct (wakeup1_cases (CAddr a) (tab s) p) as [->|(H1 & _ & ->)].
Qed.

Lemma kill_inv n s s' : pinv s -> kill n s = Some s' -> pinv s' /\ nextpid s' = nextpid s.
Proof.
  intros [Hf Hr Hw]. unfold kill. destruct (first_proc _ _) as [i|]; [|done]. simpl.
  intros [= <-]. split; [|done].
  constructor; cbn [tab nextpid initproc set_tab].
  - eapply family_tweak; [|done]. apply upd_tweak. constructor; try done. simpl.
    case_decide as E; [|by left]. right. rewrite E. unfold live. tauto.
  - apply runs_same; [done|]. intros j. upds; [|done..]. by split; congruence.
  - eapply no_lost_exit_mono; [| |done]; intros; upds; done.
Qed.

Lemma allocproc_inv s i s' :
  allocproc s = Some (i, s') ->
  (i < NPROC)%nat /\ state (tab s i) = UNUSED
  /\ s' = mkPsys (upd (tab s) i (mkProc EMBRYO (nextpid s) (parent (tab s i)) (pchan (tab s i))
                    (killed (tab s i)) true (pgdir (tab s i)) (forking (tab s i))))
            (s32 (nextpid s + 1)) (initproc s) (cpus s).
Proof.
  unfold allocproc. destruct (first_proc _ _) as [j|] eqn:E; [|done]. intros [= <- <-].
  apply first_proc_some in E as [Hj E]. by apply bool_decide_eq_true in E.
Qed.

Lemma unused_blank t next init i :
  family t next init -> state (t i) = UNUSED ->
  parent (t i) = None /\ forking (t i) = None /\ pgdir (t i) = false.
Proof.
  intros Hf Hi. split; [|split].
  - destruct (parent (t i)) as [q|] eqn:E; [|done]. apply (fa_parent _ _ _ Hf) in E as [Hp _].
    rewrite Hi in Hp. by destruct Hp as [[?|[?|?]]|?].
  - destruct (forking (t i)) as [q|] eqn:E; [|done]. apply (fa_fork _ _ _ Hf) in E as [Hp _].
    rewrite Hi in Hp. by destruct Hp as [?|[?|?]].
  - destruct (pgdir (t i)) eqn:E; [|done]. apply (fa_pgdir _ _ _ Hf) in E.
    rewrite Hi in E. by destruct E as [[?|[?|?]]|?].
Qed.

(** An UNUSED entry becomes the EMBRYO that [me] sets up. *)
Lemma family_embryo t next init me i p :
  family t next init -> live (state (t me)) -> forking (t me) = None ->
  state (t i) = UNUSED -> (i < NPROC)%nat -> 1 <= next ->
  state p = EMBRYO -> pid p = next -> parent p = None -> forking p = None -> pgdir p = false ->
  kstack p = true ->
  family (upd (upd t i p) me (set_forking (Some i) (upd t i p me))) (next + 1) init.
Proof.
  intros Hf Hme Hfk Hi Hlt Hnext Hp1 Hp2 Hp3 Hp4 Hp5 Hp6.
  assert (Hne : me <> i) by (intros ->; rewrite Hi in Hme; by apply not_live_unused in Hme).
  destruct (unused_blank _ _ _ i Hf Hi) as (Hi1 & Hi2 & Hi3).
  destruct Hf as [F1 F2 F3 (k & Hk & Hl & Hpk) F5 F6 F7 F8 F9 F10 F11].
  assert (Hki : k <> i) by (intros ->; rewrite Hi in Hl; by apply not_live_unused in Hl).
  rewrite (tab_upd_ne t i me) by done. constructor.
  - intros j Hj. upds; [by apply F1|lia|by apply F1].
  - intros j Hj. upds; [specialize (F2 _ Hj); lia|lia|specialize (F2 _ Hj); lia].
  - intros j l Hj Hlx Hpid. upds; try done; try (by apply F3).
    + exfalso. specialize (F2 me Hj). lia.
    + exfalso. specialize (F2 me Hlx). lia.
    + exfalso. specialize (F2 l Hlx). lia.
    + exfalso. specialize (F2 j Hj). lia.
  - exists k. upds; done.
  - intros j q Hj. assert (Hq : q <> i).
    { intros ->. upds; [|congruence|]; apply F5 in Hj as (_ & Hj & _); rewrite Hi in Hj;
        by apply not_live_unused in Hj. }
    upds; try congruence; by apply F5.
  - intros j Hj Hin. upds; [by apply F6| |by apply F6].
    rewrite Hp1 in Hj. by destruct Hj as [[?|[?|?]]|?].
  - intros j n Hj. destruct (decide (j = me)) as [->|Hjm].
    + rewrite tab_upd_eq in Hj. simpl in Hj. simplify_eq. rewrite tab_upd_eq, tab_upd_ne, tab_upd_eq by done. done.
    + rewrite tab_upd_ne in Hj by done. destruct (decide (j = i)) as [->|Hji];
        [rewrite tab_upd_eq in Hj; congruence|]. rewrite tab_upd_ne in Hj by done.
      apply F7 in Hj as [Hj Hn]. rewrite !(tab_upd_ne _ _ j) by done. split; [done|].
      assert (n <> me) by (intros ->; rewrite Hn in Hme; by apply not_live_embryo in Hme).
      by rewrite !tab_upd_ne by congruence.
  - intros j l n Hj Hlx. upds; simplify_eq; try done.
    + apply F7 in Hj as [_ Hj]. congruence.
    + apply F7 in Hlx as [_ Hlx]. congruence.
    + by eapply F8.
  - intros n Hn. upds.
    + rewrite Hn in Hme. by apply not_live_embryo in Hme.
    + exists me. by rewrite decide_True.
    + destruct (F9 n Hn) as [j Hj]. exists j. rewrite decide_False by congruence.
      rewrite decide_False; [done|]. congruence.
  - intros j. upds; [apply F10| |apply F10]. rewrite Hp1, Hp6. done.
  - intros j. upds; [apply F11| |apply F11]. rewrite Hp1, Hp5. split; [done|].
    by intros [[?|[?|?]]|?].
Qed.

Lemma fork_begin_inv c me s s' :
  pinv s -> cpus s c = Some me -> forking (tab s me) = None -> 1 <= nextpid s < 2 ^ 31 - 1 ->
  fork_begin me s = Some s' -> pinv s' /\ nextpid s' = nextpid s + 1.
Proof.
  intros Hs Hc Hfk Hn. pose proof (run_live _ _ _ Hs Hc) as Hrun. destruct Hs as [Hf Hr Hw].
  unfold fork_begin. destruct (allocproc s) as [[i s1]|] eqn:E; [|done]. simpl.
  intros [= <-]. apply allocproc_inv in E as (Hi & Hui & ->).
  cbn [tab nextpid initproc cpus set_tab]. rewrite s32_id by lia. split; [|done].
  assert (Hne : me <> i) by congruence.
  destruct (unused_blank _ _ _ i Hf Hui) as (Hi1 & Hi2 & Hi3).
  constructor; cbn [tab nextpid initproc set_tab].
  - apply family_embryo; try done; [|lia]. rewrite Hrun. unfold live. tauto.
  - apply (runs_same s); [done|]. intros j. upds; try done. rewrite Hui. by split.
  - eapply no_lost_exit_mono; [| |done]; intros; upds; done.
Qed.

(** The EMBRYO [n] of [me] becomes [p], a process or free again. *)
Lemma family_born t next init me n p :
  family t next init -> forking (t me) = Some n -> pid p = pid (t n) -> forking p = None ->
  (state p = RUNNABLE /\ parent p = Some me /\ kstack p = true /\ pgdir p = true
   \/ state p = UNUSED /\ parent p = None /\ kstack p = false /\ pgdir p = false) ->
  family (upd (upd t me (set_forking None (t me))) n p) next init.
Proof.
  intros Hf Hfk Hpid Hpf Hp.
  destruct (fa_fork _ _ _ Hf _ _ Hfk) as [Hme Hn].
  assert (Hne : me <> n) by (intros ->; rewrite Hn in Hme; by apply not_live_embryo in Hme).
  destruct Hf as [F1 F2 F3 (k & Hk & Hl & Hpk) F5 F6 F7 F8 F9 F10 F11].
  assert (Hlive : forall j, live (state (t j)) -> j <> n)
    by (intros j Hj ->; rewrite Hn in Hj; by apply not_live_embryo in Hj).
  assert (Hout : (n < NPROC)%nat).
  { destruct (decide (n < NPROC)%nat); [done|]. rewrite F1 in Hn by lia. done. }
  assert (Hst : forall j, state (upd (upd t me (set_forking None (t me))) n p j)
                 = if decide (j = n) then state p else state (t j)) by (intros j; upds; done).
  assert (Hpa : forall j, parent (upd (upd t me (set_forking None (t me))) n p j)
                 = if decide (j = n) then parent p else parent (t j)) by (intros j; upds; done).
  assert (Hpd : forall j, pid (upd (upd t me (set_forking None (t me))) n p j) = pid (t j))
    by (intros j; upds; done).
  assert (Hun : forall j, (if decide (j = n) then state p else state (t j)) <> UNUSED ->
                 state (t j) <> UNUSED) by (intros j; case_decide; subst; congruence).
  constructor; try (intros j; rewrite ?Hst, ?Hpa, ?Hpd).
  - intros Hj. rewrite decide_False by lia. auto.
  - intros Hj%Hun. by apply F2.
  - intros l Hj%Hun Hlx Hq. rewrite Hst in Hlx. rewrite Hpd in Hq. apply Hun in Hlx. by apply F3.
  - exists k. rewrite Hst, Hpa, !decide_False by auto. done.
  - intros q Hj. rewrite Hst. case_decide as E; subst.
    + destruct Hp as [(Hs & Hq & _)|(_ & Hq & _)]; [|congruence]. rewrite Hq in Hj. simplify_eq.
      rewrite decide_False by done. rewrite Hs. split; [|done]. left. unfold live. tauto.
    + destruct (F5 _ _ Hj) as (? & ? & ?). by rewrite decide_False by auto.
  - intros Hj Hin. case_decide; [|by apply F6].
    destruct Hp as [(Hs & -> & _)|(Hs & _)]; [done|]. rewrite Hs in Hj. by destruct Hj as [[?|[?|?]]|?].
  - intros m Hj. rewrite Hst.
    assert (Hjt : j <> n /\ j <> me /\ forking (t j) = Some m)
      by (clear -Hj Hpf; upds; [congruence|congruence|done]).
    destruct Hjt as (Hjn & Hjm & Hj'). rewrite decide_False by done.
    destruct (F7 _ _ Hj') as [? ?]. rewrite decide_False; [done|].
    intros ->. by destruct (F8 _ _ _ Hfk Hj').
  - intros l m Hj Hlx. clear -Hj Hlx Hpf F8. upds; try congruence. by eapply F8.
  - intros Hj. case_decide; [destruct Hp as [(Hs & _)|(Hs & _)]; congruence|].
    destruct (F9 _ Hj) as [i Hi]. exists i. assert (i <> me) by congruence.
    assert (i <> n) by (apply Hlive; by apply F7 in Hi as [? _]). by rewrite !tab_upd_ne.
  - clear -Hp F10. upds; [destruct Hp as [(-> & _ & -> & _)|(-> & _ & -> & _)]; by split|apply F10..].
  - clear -Hp F11. upds; [|apply F11..]. unfold present, live.
    destruct Hp as [(-> & _ & _ & ->)|(-> & _ & _ & ->)]; [tauto|]. split; [done|].
    by intros [[?|[?|?]]|?].
Qed.

Lemma fork_end_inv c me copied s r s' :
  pinv s -> cpus s c = Some me -> fork_end me copied s = Some (r, s') ->
  pinv s' /\ nextpid s' = nextpid s.
Proof.
  intros Hs Hc. destruct Hs as [Hf Hr Hw]. unfold fork_end.
  destruct (forking (tab s me)) as [n|] eqn:Hfk; [|done]. simpl.
  destruct (fa_fork _ _ _ Hf _ _ Hfk) as [Hme Hn].
  assert (Hne : n <> me) by (intros ->; rewrite Hn in Hme; by apply not_live_embryo in Hme).
  assert (Hpn : parent (tab s n) = None /\ forking (tab s n) = None).
  { split.
    - destruct (parent (tab s n)) as [q|] eqn:E; [|done]. apply (fa_parent _ _ _ Hf) in E as [Hp _].
      rewrite Hn in Hp. by destruct Hp as [[?|[?|?]]|?].
    - destruct (forking (tab s n)) as [q|] eqn:E; [|done]. apply (fa_fork _ _ _ Hf) in E as [Hp _].
      rewrite Hn in Hp. by apply not_live_embryo in Hp. }
  destruct Hpn as [Hp1 Hp2]. rewrite (tab_upd_ne _ me n) by done.
  assert (Hk : kstack (tab s n) = true) by (apply (fa_kstack _ _ _ Hf); congruence).
  destruct copied; intros [= _ <-]; (split; [|done]);
    (constructor; cbn [tab nextpid initproc set_tab];
     [|apply (runs_same s); [done|]; intros j; upds; try done; rewrite Hn; by split
      |eapply no_lost_exit_mono; [| |done]; intros; upds; done]).
  - apply family_born; try done. left. done.
  - apply family_born; try done. right. done.
Qed.

Lemma present_used st : present st -> st <> UNUSED.
Proof. by intros [[?|[?|?]]|?] ->. Qed.

Lemma family_reap t next init i :
  family t next init -> state (t i) = ZOMBIE -> family (upd t i (reap (t i))) next init.
Proof.
  intros Hf Hi. destruct Hf as [F1 F2 F3 (k & Hk & Hl & Hpk) F5 F6 F7 F8 F9 F10 F11].
  assert (Hlive : forall j, live (state (t j)) -> j <> i)
    by (intros j Hj ->; rewrite Hi in Hj; by apply not_live_zombie in Hj).
  assert (Hfi : forking (t i) = None).
  { destruct (forking (t i)) eqn:E; [|done]. apply F7 in E as [E _]. rewrite Hi in E.
    by apply not_live_zombie in E. }
  constructor.
  - intros j Hj. upds; auto.
  - intros j Hj. upds; [done|]. by apply F2.
  - intros j l Hj Hlx Hp. upds; try done. by apply F3.
  - exists k. rewrite tab_upd_ne by auto. done.
  - intros j q Hj. assert (j <> i) by (intros ->; by rewrite tab_upd_eq in Hj).
    rewrite tab_upd_ne in * by done. destruct (F5 _ _ Hj) as (? & ? & ?). by rewrite tab_upd_ne by auto.
  - intros j Hj Hin. upds; [|by apply F6]. by apply present_used in Hj.
  - intros j n Hj. assert (Hj' : forking (t j) = Some n) by (upds; done).
    destruct (F7 _ _ Hj') as [? ?]. rewrite !tab_upd_ne; [done|congruence|auto].
  - intros j l n Hj Hlx. upds; try congruence. by eapply F8.
  - intros n Hn. upds; [done|]. destruct (F9 _ Hn) as [j Hj]. exists j. case_decide; by subst.
  - intros j. upds; [|apply F10]. by split.
  - intros j. upds; [|apply F11]. split; [done|]. by intros [[?|[?|?]]|?].
Qed.

Lemma wait_inv fl c me s :
  pinv s -> cpus s c = Some me ->
  exists w s', wait (unlocked fl) c me s = Ok (w, s') /\ pinv s' /\ nextpid s' = nextpid s.
Proof.
  intros Hs Hc. pose proof (run_live _ _ _ Hs Hc) as Hrun. unfold wait.
  destruct (acquire_once fl) as (k & -> & Hk). ok. destruct (release_once k Hk) as [k' Erel].
  destruct (first_proc _ _) as [i|] eqn:E.
  - apply first_proc_some in E as [Hi [Hp Hz]%andb_true_iff].
    apply bool_decide_eq_true in Hp, Hz. rewrite Erel. ok. eexists _, _. split; [done|]. split; [|done].
    destruct Hs as [Hf Hr Hw]. constructor; cbn [tab nextpid initproc set_tab].
    + by apply family_reap.
    + apply (runs_same s); [done|]. intros j. upds; [|done]. rewrite Hz. by split.
    + eapply no_lost_exit_mono; [| |done]; intros; upds; done.
  - destruct (negb _ || _); [rewrite Erel; ok; by exists WNone, s|].
    assert (Hsl : exists s', sleep true k c me (CProc me) s = Ok s' /\ pinv s' /\ nextpid s' = nextpid s).
    { unfold sleep. ok. apply stop_inv; try done; [apply sleep_tweak; rewrite Hrun; unfold live; tauto|].
      destruct Hs as [Hf _ [W1 W2]]. constructor.
      - intros q j Hq Hj. upds; [congruence|]. by eapply W1.
      - intros p q Hq Hcq Hp Hz. assert (Hpz : parent (tab s p) = Some q /\ state (tab s p) = ZOMBIE)
          by (clear -Hp Hz; upds; done). destruct Hpz as [Hp' Hz'].
        destruct (decide (q = me)) as [->|Hne].
        + destruct (decide (p < NPROC)%nat) as [Hlt|Hge].
          * pose proof (first_proc_none _ _ _ E Hlt) as Hn. simpl in Hn.
            by rewrite !bool_decide_eq_true_2 in Hn.
          * rewrite (fa_out _ _ _ Hf) in Hz' by lia. done.
        + rewrite tab_upd_ne in Hq, Hcq by done. by eapply W2. }
    destruct Hsl as (s' & -> & ?). ok. by exists WSleep, s'.
Qed.

(** ** [exit] *)

(** What waking up and passing children on can do to an entry. *)
Record passed (me init : nat) (p p' : proc) : Prop := {
  pa_pid : pid p' = pid p;
  pa_chan : pchan p' = pchan p;
  pa_kstack : kstack p' = kstack p;
  pa_pgdir : pgdir p' = pgdir p;
  pa_forking : forking p' = forking p;
  pa_parent : parent p' = parent p \/ parent p = Some me /\ parent p' = Some init;
  pa_state : state p' = state p
    \/ state p = SLEEPING /\ (exists j, pchan p = Some (CProc j)) /\ state p' = RUNNABLE }.

Lemma passed_refl me init p : passed me init p p.
Proof. constructor; auto. Qed.

Lemma passed_trans me init p q r :
  me <> init -> passed me init p q -> passed me init q r -> passed me init p r.
Proof.
  intros Hne [P1 P2 P3 P4 P5 P6 P7] [Q1 Q2 Q3 Q4 Q5 Q6 Q7]. constructor; try congruence.
  - destruct P6 as [P6|[P6 P6']], Q6 as [Q6|[Q6 Q6']]; [left|right|right|]; try split; congruence.
  - destruct P7 as [P7|(P7 & P8 & P9)], Q7 as [Q7|(Q7 & Q8 & Q9)].
    + left. congruence.
    + right. rewrite <- P7, <- P2. done.
    + right. rewrite Q7. done.
    + congruence.
Qed.

Lemma wakeup1_passed me init j t i : passed me init (t i) (wakeup1 (CProc j) t i).
Proof.
  destruct (wakeup1_cases (CProc j) t i) as [->|(H1 & H2 & ->)]; [apply passed_refl|].
  constructor; try done; [by left|]. right. split; [done|]. split; [|done]. by exists j.
Qed.

(** One turn of the loop. *)
Definition pass_one (me init i : nat) (t : nat -> proc) : nat -> proc :=
  if decide (parent (t i) = Some me) then
    let t := upd t i (set_parent (Some init) (t i)) in
    if decide (state (t i) = ZOMBIE) then wakeup1 (CProc init) t else t
  else t.

Lemma reparent_cons me init i l t :
  reparent me init (i :: l) t = reparent me init l (pass_one me init i t).
Proof. unfold pass_one. simpl. by case_decide. Qed.

Lemma pass_one_passed me init i t j : me <> init -> passed me init (t j) (pass_one me init i t j).
Proof.
  intros Hne. unfold pass_one. case_decide as Hp; [|apply passed_refl].
  assert (Hu : passed me init (t j) (upd t i (set_parent (Some init) (t i)) j)).
  { destruct (decide (j = i)) as [->|Hji]; [|rewrite tab_upd_ne by done; apply passed_refl].
    rewrite tab_upd_eq. constructor; try done; [|by left]. by right. }
  case_decide; [|done]. eapply passed_trans; [done|apply Hu|apply wakeup1_passed].
Qed.

Lemma reparent_passed me init l t j :
  me <> init -> passed me init (t j) (reparent me init l t j).
Proof.
  intros Hne. revert t. induction l as [|i l IH]; intros t; [apply passed_refl|].
  rewrite reparent_cons. eapply passed_trans; [done|by apply (pass_one_passed me init i)|apply IH].
Qed.

Lemma reparent_parent me init l t j :
  me <> init -> j ∈ l -> parent (t j) = Some me -> parent (reparent me init l t j) = Some init.
Proof.
  intros Hne. revert t. induction l as [|i l IH]; intros t Hj Hp; [by apply not_elem_of_nil in Hj|].
  rewrite reparent_cons.
  assert (Hone : parent (pass_one me init i t j) = Some init \/ parent (pass_one me init i t j) = Some me).
  { destruct (pa_parent _ _ _ _ (pass_one_passed me init i t j Hne)) as [->|[_ ->]]; auto. }
  destruct Hone as [Hone|Hone].
  - destruct (pa_parent _ _ _ _ (reparent_passed me init l (pass_one me init i t) j Hne)) as [->|[H _]];
      congruence.
  - apply elem_of_cons in Hj as [->|Hj]; [|by apply IH]. exfalso.
    unfold pass_one in Hone. rewrite decide_True in Hone by done. cbv zeta in Hone.
    case_decide; [|rewrite tab_upd_eq in Hone; simpl in Hone; congruence].
    pose proof (wakeup1_tweak (CProc init) (upd t i (set_parent (Some init) (t i))) i) as Hw.
    rewrite (tw_parent _ _ Hw), tab_upd_eq in Hone. simpl in Hone. congruence.
Qed.

(** Passing a zombie on wakes init if it waits. *)
Lemma reparent_wakes me init l t j :
  me <> init -> (init < NPROC)%nat -> j ∈ l -> parent (t j) = Some me -> state (t j) = ZOMBIE ->
  pchan (t init) = Some (CProc init) -> state (reparent me init l t init) <> SLEEPING.
Proof.
  intros Hne Hlt. revert t. induction l as [|i l IH]; intros t Hj Hp Hz Hc;
    [by apply not_elem_of_nil in Hj|]. rewrite reparent_cons.
  pose proof (pass_one_passed me init i t init Hne) as Hpi.
  pose proof (pass_one_passed me init i t j Hne) as Hpj.
  assert (Hawake : state (pass_one me init i t init) <> SLEEPING ->
    state (reparent me init l (pass_one me init i t) init) <> SLEEPING).
  { intros Ha. destruct (pa_state _ _ _ _ (reparent_passed me init l (pass_one me init i t) init Hne))
      as [->|(H & _)]; done. }
  destruct (decide (i = j)) as [->|Hij].
  - apply Hawake. unfold pass_one. rewrite decide_True by done. cbv zeta.
    rewrite tab_upd_eq. rewrite decide_True by done. apply wakeup1_awake; [done|].
    unfold upd. case_decide; subst; done.
  - apply elem_of_cons in Hj as [->|Hj]; [done|].
    destruct (pa_state _ _ _ _ Hpj) as [Hsj|(Hsj & _)]; [|congruence].
    apply IH; [done| |congruence|by rewrite (pa_chan _ _ _ _ Hpi)].
    destruct (pa_parent _ _ _ _ Hpj) as [->|[_ Hpp]]; [done|]. exfalso.
    clear -Hpp Hij Hp Hne. unfold pass_one in Hpp. case_decide; [|congruence].
    cbv zeta in Hpp. revert Hpp. case_decide; rewrite ?(tw_parent _ _ (wakeup1_tweak _ _ _));
      rewrite tab_upd_ne by done; congruence.
Qed.

Lemma passed_live me init p p' : passed me init p p' -> live (state p') <-> live (state p).
Proof.
  intros H. destruct (pa_state _ _ _ _ H) as [->|(-> & _ & ->)]; [done|]. unfold live. tauto.
Qed.

Lemma passed_same me init p p' st : passed me init p p' -> ~ live st -> state p' = st <-> state p = st.
Proof.
  intros H Hst. destruct (pa_state _ _ _ _ H) as [->|(-> & _ & ->)]; [done|].
  split; intros <-; destruct Hst; unfold live; tauto.
Qed.

(** The table after [exit]: [me] is a zombie and its children are init's. *)
Lemma family_exit t t' next init me :
  family t next (Some init) -> me <> init -> live (state (t me)) -> forking (t me) = None ->
  (forall i, passed me init (t i) (t' i)) -> (forall i, parent (t i) = Some me -> parent (t' i) = Some init) ->
  family (upd t' me (set_state ZOMBIE (t' me))) next (Some init).
Proof.
  intros Hf Hne Hme Hfk Hp Hkids.
  destruct Hf as [F1 F2 F3 (k & Hk & Hl & Hpk) F5 F6 F7 F8 F9 F10 F11]. simplify_eq.
  set (t2 := upd t' me (set_state ZOMBIE (t' me))).
  assert (Hst : forall i, i <> me -> state (t2 i) = state (t' i)) by (intros i Hi; unfold t2; by rewrite tab_upd_ne).
  assert (Hz : state (t2 me) = ZOMBIE) by (unfold t2; by rewrite tab_upd_eq).
  assert (Hpar : forall i, parent (t2 i) = parent (t' i)) by (intros i; unfold t2; upds; done).
  assert (Hfo : forall i, forking (t2 i) = forking (t i))
    by (intros i; rewrite <- (pa_forking _ _ _ _ (Hp i)); unfold t2; upds; done).
  assert (Hpi : forall i, pid (t2 i) = pid (t i))
    by (intros i; rewrite <- (pa_pid _ _ _ _ (Hp i)); unfold t2; upds; done).
  assert (Hks : forall i, kstack (t2 i) = kstack (t i))
    by (intros i; rewrite <- (pa_kstack _ _ _ _ (Hp i)); unfold t2; upds; done).
  assert (Hpg : forall i, pgdir (t2 i) = pgdir (t i))
    by (intros i; rewrite <- (pa_pgdir _ _ _ _ (Hp i)); unfold t2; upds; done).
  assert (Hused : state (t me) <> UNUSED) by (intros E; rewrite E in Hme; by apply not_live_unused in Hme).
  assert (Hun : forall i, state (t2 i) = UNUSED <-> state (t i) = UNUSED).
  { intros i. destruct (decide (i = me)) as [->|Hi]; [rewrite Hz; by split|].
    rewrite Hst by done. apply (passed_same me k); [done|apply not_live_unused]. }
  assert (Hem : forall i, state (t2 i) = EMBRYO <-> state (t i) = EMBRYO).
  { intros i. destruct (decide (i = me)) as [->|Hi].
    - rewrite Hz. split; [done|]. intros E. rewrite E in Hme. by apply not_live_embryo in Hme.
    - rewrite Hst by done. apply (passed_same me k); [done|apply not_live_embryo]. }
  assert (Hlv : forall i, i <> me -> live (state (t2 i)) <-> live (state (t i))).
  { intros i Hi. rewrite Hst by done. by apply (passed_live me k). }
  assert (Hpr : forall i, present (state (t2 i)) <-> present (state (t i))).
  { intros i. destruct (decide (i = me)) as [->|Hi].
    - rewrite Hz. split; intros _; [by left|by right].
    - unfold present. rewrite Hlv by done. rewrite Hst by done.
      by rewrite (passed_same me k _ _ ZOMBIE (Hp i) not_live_zombie). }
  constructor.
  - intros i Hi. apply Hun. auto.
  - intros i Hi. rewrite Hpi. apply F2. by rewrite <- Hun.
  - intros i j Hi Hj. rewrite !Hpi. apply F3; by rewrite <- Hun.
  - exists k. split; [done|]. rewrite Hlv, Hpar by done. split; [done|].
    destruct (pa_parent _ _ _ _ (Hp k)) as [->|[? _]]; congruence.
  - intros i q Hi. rewrite Hpar in Hi. rewrite Hpr.
    destruct (pa_parent _ _ _ _ (Hp i)) as [E|[E E']].
    + rewrite E in Hi. destruct (F5 _ _ Hi) as (? & ? & ?).
      assert (q <> me). { intros ->. pose proof (Hkids _ Hi). congruence. }
      by rewrite Hlv.
    + destruct (F5 _ _ E) as (? & _ & _). assert (q = k) as -> by congruence.
      rewrite Hlv by done. split; [done|]. split; [done|]. congruence.
  - intros i. rewrite Hpr, Hpar. intros Hi Hin. specialize (F6 i Hi Hin).
    destruct (pa_parent _ _ _ _ (Hp i)) as [->|[_ ->]]; done.
  - intros i n. rewrite Hfo, Hem. intros Hi. destruct (F7 _ _ Hi) as [? ?].
    rewrite Hlv; [done|]. congruence.
  - intros i j n. rewrite !Hfo. apply F8.
  - intros n. rewrite Hem. intros Hn. destruct (F9 _ Hn) as [i Hi]. exists i. by rewrite Hfo.
  - intros i. rewrite Hks, Hun. auto.
  - intros i. rewrite Hpg, Hpr. auto.
Qed.

(** Whoever waits for the new zombie, or for a zombie passed on, is awake. *)
Lemma no_lost_exit_exit t t2 me init q :
  no_lost_exit t -> parent (t me) = Some q -> me <> q ->
  (forall i, passed me init (t i) (t2 i)) ->
  (forall i, parent (t i) = Some me -> parent (t2 i) = Some init) ->
  (pchan (t q) = Some (CProc q) -> state (t2 q) <> SLEEPING) ->
  (forall p, parent (t p) = Some me -> state (t p) = ZOMBIE ->
     pchan (t init) = Some (CProc init) -> state (t2 init) <> SLEEPING) ->
  no_lost_exit (upd t2 me (set_state ZOMBIE (t2 me))).
Proof.
  intros [W1 W2] Hq Hmq Hp Hkids Hwq Hwi.
  assert (Hback : forall i, state (t2 i) = SLEEPING -> state (t i) = SLEEPING).
  { intros i. destruct (pa_state _ _ _ _ (Hp i)) as [->|(-> & _ & ->)]; done. }
  constructor.
  - intros i j Hi Hj. destruct (decide (i = me)) as [->|Hime]; [by rewrite tab_upd_eq in Hi|].
    rewrite tab_upd_ne in Hi, Hj by done. rewrite (pa_chan _ _ _ _ (Hp i)) in Hj.
    apply W1; [by apply Hback|done].
  - intros p i Hi Hj Hpp Hz. destruct (decide (i = me)) as [->|Hime]; [by rewrite tab_upd_eq in Hi|].
    rewrite tab_upd_ne in Hi, Hj by done. rewrite (pa_chan _ _ _ _ (Hp i)) in Hj.
    destruct (decide (p = me)) as [->|Hpme].
    + rewrite tab_upd_eq in Hpp. cbn [parent set_state] in Hpp.
      destruct (pa_parent _ _ _ _ (Hp me)) as [E|[E _]]; [|congruence].
      assert (i = q) as -> by congruence. by apply Hwq.
    + rewrite tab_upd_ne in Hpp, Hz by done.
      assert (Hz0 : state (t p) = ZOMBIE)
        by (by apply (passed_same _ _ _ _ ZOMBIE (Hp p) not_live_zombie)).
      destruct (decide (parent (t p) = Some me)) as [E|E].
      * rewrite (Hkids _ E) in Hpp. simplify_eq. by apply (Hwi p).
      * destruct (pa_parent _ _ _ _ (Hp p)) as [E'|[E' _]]; [|done]. rewrite E' in Hpp.
        by apply (W2 p i); [apply Hback| | |].
Qed.

(** The facts about the table that [exit] leaves, before [me] becomes a zombie. *)
Lemma exit_table t next k me q :
  family t next (Some k) -> me <> k -> live (state (t me)) -> parent (t me) = Some q ->
  let t2 := reparent me k (seq 0 NPROC) (wakeup1 (CProc q) t) in
  (forall i, passed me k (t i) (t2 i))
  /\ (forall i, parent (t i) = Some me -> parent (t2 i) = Some k)
  /\ (pchan (t q) = Some (CProc q) -> state (t2 q) <> SLEEPING)
  /\ (forall p, parent (t p) = Some me -> state (t p) = ZOMBIE ->
       pchan (t k) = Some (CProc k) -> state (t2 k) <> SLEEPING).
Proof.
  intros Hf Hne Hme Hq. destruct (fa_parent _ _ _ Hf _ _ Hq) as (_ & Hlq & Hmq).
  destruct (fa_init _ _ _ Hf) as (k' & [= <-] & Hlk & Hpk).
  assert (Hseq : forall i, state (t i) <> UNUSED -> i ∈ seq 0 NPROC /\ (i < NPROC)%nat).
  { intros i Hi. rewrite elem_of_seq. destruct (decide (i < NPROC)%nat); [lia|].
    by rewrite (fa_out _ _ _ Hf) in Hi by lia. }
  assert (Hlt : forall i, live (state (t i)) -> (i < NPROC)%nat).
  { intros i Hi. apply Hseq. intros E. rewrite E in Hi. by apply not_live_unused in Hi. }
  assert (Hkid : forall i, parent (t i) = Some me -> i ∈ seq 0 NPROC).
  { intros i Hi. apply Hseq. apply (fa_parent _ _ _ Hf) in Hi as [Hi _]. by apply present_used. }
  revert Hkid. generalize (seq 0 NPROC). intros l Hkid.
  set (t1 := wakeup1 (CProc q) t).
  assert (H1 : forall i, passed me k (t i) (t1 i)) by (intros; apply wakeup1_passed).
  assert (Ht1p : forall i, parent (t1 i) = parent (t i))
    by (intros i; apply (tw_parent _ _ (wakeup1_tweak (CProc q) t i))).
  assert (H2 : forall i, passed me k (t1 i) (reparent me k l t1 i))
    by (intros; by apply reparent_passed).
  split; [|split; [|split]].
  - intros i. eapply passed_trans; eauto.
  - intros i Hi. apply reparent_parent; [done|auto|by rewrite Ht1p].
  - intros Hc. assert (Ha : state (t1 q) <> SLEEPING) by (apply wakeup1_awake; auto).
    destruct (pa_state _ _ _ _ (H2 q)) as [->|(E & _)]; done.
  - intros p Hp Hz Hc. apply (reparent_wakes me k l t1 p); auto.
    + by rewrite Ht1p.
    + by apply (passed_same _ _ _ _ ZOMBIE (H1 p) not_live_zombie).
    + by rewrite (pa_chan _ _ _ _ (H1 k)).
Qed.

Lemma exit_inv fl c me s :
  pinv s -> cpus s c = Some me -> initproc s <> Some me -> forking (tab s me) = None ->
  exists s', exit_ (unlocked fl) c me s = Ok s' /\ pinv s' /\ nextpid s' = nextpid s.
Proof.
  intros Hs Hc Hini Hfk. pose proof (run_live _ _ _ Hs Hc) as Hrun.
  destruct Hs as [Hf Hr Hw]. destruct (fa_init _ _ _ Hf) as (k & Hk & _ & _).
  assert (Hne : me <> k) by congruence. rewrite Hk in Hf.
  assert (Hmel : live (state (tab s me))) by (rewrite Hrun; unfold live; tauto).
  destruct (parent (tab s me)) as [q|] eqn:Hq.
  2:{ destruct (fa_orphan _ _ _ Hf me); [by left|congruence|done]. }
  destruct (fa_parent _ _ _ Hf _ _ Hq) as (_ & _ & Hmq).
  unfold exit_. rewrite Hk, decide_False, Hq by done.
  destruct (acquire_once fl) as (kc & -> & Hkc). ok. cbv zeta.
  pose proof (exit_table _ _ _ _ _ Hf Hne Hmel Hq) as Ht. cbv zeta in Ht. revert Ht.
  generalize (reparent me k (seq 0 NPROC) (wakeup1 (CProc q) (tab s))) as t2.
  intros t2 (Hp & Hkids & Hwq & Hwi).
  rewrite sched_ok by (cbn [tab set_tab]; rewrite ?tab_upd_eq; done). eexists. split; [done|]. split; [|done].
  constructor; cbn [tab nextpid initproc set_tab set_cpu].
  - rewrite Hk. by apply (family_exit (tab s)).
  - apply (runs_stop s _ (nextpid s) c me); [done|done|by rewrite tab_upd_eq|].
    intros i Hi. rewrite tab_upd_ne by done.
    destruct (pa_state _ _ _ _ (Hp i)) as [->|(-> & _ & ->)]; done.
  - by apply (no_lost_exit_exit (tab s) t2 me k q).
Qed.

(** * All executions *)

(** Init calls [exit]. *)
Definition init_exits (o : pop) (s : psys) : Prop :=
  exists c fl me, o = PExit c fl /\ cpus s c = Some me /\ initproc s = Some me
    /\ forking (tab s me) = None.

Lemma step_inv o s :
  pinv s -> 1 <= nextpid s < 2 ^ 31 - 1 ->
  init_exits o s /\ step o s = Panic "init exiting"
  \/ exists s', step o s = Ok s' /\ pinv s' /\ nextpid s <= nextpid s' <= nextpid s + 1.
Proof.
  intros Hs Hn.
  assert (Hstay : exists s', Ok s = Ok s' /\ pinv s' /\ nextpid s <= nextpid s' <= nextpid s + 1)
    by (exists s; split; [done|]; split; [done|lia]).
  assert (Hsame : forall r, (exists s', r = Ok s' /\ pinv s' /\ nextpid s' = nextpid s) ->
    exists s', r = Ok s' /\ pinv s' /\ nextpid s <= nextpid s' <= nextpid s + 1).
  { intros r (s' & -> & ? & ?). exists s'. split; [done|]. split; [done|lia]. }
  destruct o as [c i|c fl|c fl a|a|n|c|c cp|c fl|c fl]; cbn [step];
    try (destruct (cpus s c) as [me|] eqn:Hc; [|by right]).
  - destruct (cpus s c) eqn:Hc; [by right|]. right.
    unfold or_stay. destruct (schedule c i s) as [s'|] eqn:E; [|done]. exists s'. split; [done|].
    split; [by eapply schedule_inv|]. unfold schedule in E. case_decide; simplify_eq. simpl. lia.
  - right. by apply Hsame, yield_inv.
  - right. by apply Hsame, sleep_inv.
  - right. apply Hsame. eexists. split; [done|]. split; [by apply wakeup_inv|done].
  - right. unfold or_stay. destruct (kill n s) as [s'|] eqn:E; [|done]. apply Hsame. exists s'. split; [done|].
    by eapply kill_inv.
  - right. destruct (forking (tab s me)) eqn:Hfk; [done|]. unfold or_stay.
    destruct (fork_begin me s) as [s'|] eqn:E; [|done]. exists s'. split; [done|].
    destruct (fork_begin_inv _ _ _ _ Hs Hc Hfk Hn E). split; [done|lia].
  - right. unfold or_stay. destruct (fork_end me cp s) as [[r s']|] eqn:E; [|done]. apply Hsame. exists s'.
    split; [done|]. by eapply fork_end_inv.
  - destruct (forking (tab s me)) eqn:Hfk; [by right|].
    destruct (decide (initproc s = Some me)) as [Hi|Hi]; [left|right; by apply Hsame, exit_inv].
    split; [by exists c, fl, me|]. unfold exit_. by rewrite Hi, decide_True.
  - right. destruct (forking (tab s me)) eqn:Hfk; [done|].
    destruct (wait_inv fl c me s Hs Hc) as (w & s' & -> & ? & ?). ok. apply Hsame. by exists s'.
Qed.

Lemma run_procs_inv os s :
  pinv s -> 1 <= nextpid s -> nextpid s + Z.of_nat (length os) < 2 ^ 31 - 1 ->
  (exists os1 o os2 s1, os = os1 ++ o :: os2 /\ run os1 s = Ok s1 /\ init_exits o s1
     /\ run os s = Panic "init exiting")
  \/ exists s', run os s = Ok s' /\ pinv s'.
Proof.
  revert s. induction os as [|o os IH]; intros s Hs H1 H2; [right; by exists s|]. cbn [run length] in *.
  destruct (step_inv o s Hs) as [[Hi ->]|(s1 & Es & Hs1 & Hn)]; [lia|left; by exists [], o, os, s|].
  rewrite Es. ok. destruct (IH s1 Hs1) as [(os1 & o1 & os2 & s2 & -> & Er & Hi & E)|Hok]; [lia|lia| |by right].
  left. exists (o :: os1), o1, os2, s2. split; [done|]. split; [|done]. cbn [run]. by rewrite Es.
Qed.

Definition booted_procs : psys :=
  mkPsys (upd (upd (fun _ => free_proc) 0 (mkProc EMBRYO 1 None None false true false None)) 0
            (mkProc RUNNABLE 1 None None false true true None)) 2 (Some 0%nat) (fun _ => None).

Lemma boot_procs_eq : boot_procs = Some booted_procs.
Proof. reflexivity. Qed.

Lemma booted_procs_inv : pinv booted_procs.
Proof.
  assert (Ht : forall i, tab booted_procs i
    = if decide (i = 0%nat) then mkProc RUNNABLE 1 None None false true true None else free_proc).
  { intros i. unfold booted_procs. cbn [tab]. upds; done. }
  constructor; constructor; try (intros i; rewrite ?Ht; cbn [nextpid initproc cpus booted_procs]).
  - intros Hi. rewrite decide_False; [done|]. unfold NPROC in Hi. lia.
  - case_decide; [simpl; lia|done].
  - intros j. rewrite !Ht. repeat case_decide; subst; done.
  - exists 0%nat. rewrite Ht, decide_True by done. simpl. split; [done|]. split; [|done].
    unfold live. tauto.
  - intros q. by case_decide.
  - intros Hi Hn. case_decide; [by subst|]. by apply present_used in Hi.
  - intros n. by case_decide.
  - intros j n. rewrite Ht. by case_decide.
  - by case_decide.
  - case_decide; by split.
  - case_decide; simpl; [split; [|done]; intros _; left; unfold live; tauto|].
    split; [done|]. by intros ?%present_used.
  - case_decide; (split; [done|]); by intros [c ?].
  - done.
  - intros j. by case_decide.
  - intros q. rewrite Ht. by case_decide.
Qed.

(** C29: the process table stays sound in every execution: under any
    interleaving of scheduling, preemption, sleep, wakeup, kill, fork, exit and
    wait on any number of CPUs (fewer than 2^31 - 3 steps, so that pids do not
    wrap) the only panic is that of init calling [exit], "init exiting" (which a
    [kill] of process 1 brings about); the four panics of [sched] and those of the
    lock operations do not happen (a process that sleeps holds one lock, the one it
    passes to [sleep], as all the callers do).  Unless init exits: each process runs on at most
    one CPU, and is RUNNING exactly then; pids in use are distinct; the parent of
    every process but init is alive (it has not exited), so every zombie can be
    reaped; and no process sleeps in [wait] while it has a zombie child. *)
Theorem proc_system_safe os s0 :
  boot_procs = Some s0 -> Z.of_nat (length os) < 2 ^ 31 - 3 ->
  (exists os1 o os2 s1, os = os1 ++ o :: os2 /\ run os1 s0 = Ok s1
    /\ (exists c fl me, o = PExit c fl /\ cpus s1 c = Some me /\ initproc s1 = Some me
          /\ forking (tab s1 me) = None)
    /\ run os s0 = Panic "init exiting")
  \/ exists s, run os s0 = Ok s
    /\ (forall i, state (tab s i) = RUNNING <-> exists c, cpus s c = Some i)
    /\ (forall c d i, cpus s c = Some i -> cpus s d = Some i -> c = d)
    /\ (forall i j, state (tab s i) <> UNUSED -> state (tab s j) <> UNUSED ->
          pid (tab s i) = pid (tab s j) -> i = j)
    /\ (forall i, present (state (tab s i)) -> initproc s <> Some i ->
          exists q, parent (tab s i) = Some q /\ live (state (tab s q)))
    /\ (forall p q, state (tab s q) = SLEEPING -> pchan (tab s q) = Some (CProc q) ->
          parent (tab s p) = Some q -> state (tab s p) <> ZOMBIE).
Proof.
  rewrite boot_procs_eq. intros [= <-] Hlen.
  destruct (run_procs_inv os booted_procs booted_procs_inv) as [Hp|(s & Hrun & [Hf [R1 R2] [_ W2]])];
    [done|simpl; lia|by left|right].
  exists s. split; [done|]. split; [done|]. split; [done|]. split; [apply (fa_uniq _ _ _ Hf)|].
  split; [|done]. intros i Hi Hin. pose proof (fa_orphan _ _ _ Hf i Hi Hin) as Ho.
  destruct (parent (tab s i)) as [q|] eqn:E; [|done]. exists q. split; [done|].
  by apply (fa_parent _ _ _ Hf) in E as (_ & ? & _).
Qed.

(** init forks; the child runs on another CPU and exits while init waits. *)
Definition sample_run : list pop :=
  [PSched 0 0; PForkBegin 0; PForkEnd 0 true; PSched 1 1; PWait 0 true; PExit 1 false; PSched 0 0].

Lemma proc_system_safe_witness :
  exists s, run sample_run booted_procs = Ok s /\ state (tab s 0) = RUNNING.
Proof.
  destruct (proc_system_safe sample_run booted_procs eq_refl)
    as [(os1 & o & os2 & s1 & _ & _ & _ & Hs)|(s & Hs & _)].
  - by vm_compute.
  - revert Hs. vm_compute. discriminate.
  - exists s. split; [exact Hs|]. revert Hs. vm_compute. intros [= <-]. reflexivity.
Defined.

(** * kill of pid 0 *)

Lemma first_proc_ext t t' test :
  (forall j, test (t' j) = test (t j)) -> first_proc t' test = first_proc t test.
Proof.
  intros H. unfold first_proc. induction (seq 0 NPROC) as [|j l IH]; [done|]. simpl. by rewrite H, IH.
Qed.

(** [kill(0)] marks a free entry of the table, because free entries have pid
    0 and [kill] does not look at their state; [allocproc] does not clear the
    mark, so the next child forked is born killed, whoever forks it. *)
Theorem kill_zero_kills_next_child s me i :
  first_proc (tab s) (fun p => pid p =? 0) = Some i ->
  first_proc (tab s) (fun p => bool_decide (state p = UNUSED)) = Some i ->
  me <> i ->
  exists s1 s2 s3, kill 0 s = Some s1 /\ fork_begin me s1 = Some s2
    /\ fork_end me true s2 = Some (nextpid s, s3)
    /\ state (tab s3 i) = RUNNABLE /\ killed (tab s3 i) = true.
Proof.
  intros Hk Hu Hne. pose proof (first_proc_some _ _ _ Hu) as [_ Hst].
  apply bool_decide_eq_true in Hst.
  unfold kill. rewrite Hk. simpl. rewrite Hst. rewrite decide_False by done.
  eexists _, _, _. split; [reflexivity|]. unfold fork_begin, allocproc. cbn [tab set_tab].
  rewrite (first_proc_ext (tab s)), Hu by (intros j; unfold upd; case_decide; subst; cbn [state]; by rewrite ?Hst).
  cbn [mbind option_bind]. split; [reflexivity|].
  unfold fork_end. cbn [tab set_tab]. rewrite !tab_upd_eq. cbn [forking set_forking].
  cbn [mbind option_bind]. rewrite (tab_upd_ne _ me i) by done. rewrite (tab_upd_ne _ me i) by done.
  rewrite !tab_upd_eq. cbn [pid]. split; [reflexivity|]. cbn [tab set_tab]. by rewrite tab_upd_eq.
Qed.

Lemma kill_zero_kills_next_child_witness :
  exists s1 s2 s3, kill 0 booted_procs = Some s1 /\ fork_begin 0 s1 = Some s2
    /\ fork_end 0 true s2 = Some (2, s3)
    /\ state (tab s3 1) = RUNNABLE /\ killed (tab s3 1) = true.
Proof.
  apply (kill_zero_kills_next_child booted_procs 0 1); [reflexivity|reflexivity|done].
Defined.
