(* ===== verification/Trap.v ===== *)
(** Model of src/trap.c: the interrupt descriptor table and the dispatch of traps,
    on the process table of [Proc.v]; and the calls of src/sysproc.c that only look
    at the process or the clock.

    The device handlers are an interface here: a handler changes the state of the
    devices and wakes the processes asleep on some addresses.  [Devices.v] makes the
    functions modelled in [Ide.v], [Kbd.v], [Uart.v] and [Ai.v] its instance, and
    states the theorem for them.  [c] is the CPU that takes the trap.  [trap] gives
    the CPU up in the middle, so it is [trap_begin], what the other processes do
    until this one runs again, and [trap_resume].  What [cprintf] prints is kept as
    the list of its arguments. *)
From stdpp Require Import base strings numbers list.
From S2P Require Import Prelude Proc.
Local Open Scope Z_scope.

Definition T_IRQ0 : Z := 32.
Definition IRQ_TIMER : Z := 0.
Definition IRQ_KBD : Z := 1.
Definition IRQ_COM1 : Z := 4.
Definition IRQ_IDE : Z := 14.
Definition IRQ_SPURIOUS : Z := 31.
Definition DPL_USER : Z := 3.
Definition KERNEL_CS : Z := Z.shiftl 1 3.

(** * The descriptor table *)

(** The four words of a gate. *)
Definition mkgate (kva pl : Z) : list Z :=
  [Z.lor (Z.land kva 0xFFFF) (Z.shiftl KERNEL_CS 16);
   u32 (Z.lor (Z.lor (Z.land kva 0xFFFF0000) 0x8E00) (Z.shiftl (Z.land pl 3) 13));
   u32 (Z.shiftr kva 32);
   0].

(** [tvinit]: one gate for every vector. *)
Definition tvinit (vectors : list Z) : list Z := concat ((fun v => mkgate v 0) <$> take 256 vectors).

(** What the processor reads of gate [n]: the address of the handler, the segment,
    the privilege that may call it and whether it is there. *)
Definition gate_addr (idt : list Z) (n : nat) : Z :=
  nth (4 * n) idt 0 mod 2 ^ 16 + 2 ^ 16 * (nth (4 * n + 1) idt 0 / 2 ^ 16) + 2 ^ 32 * nth (4 * n + 2) idt 0.
Definition gate_seg (idt : list Z) (n : nat) : Z := nth (4 * n) idt 0 / 2 ^ 16.
Definition gate_attr (idt : list Z) (n : nat) : Z := nth (4 * n + 1) idt 0 mod 2 ^ 16.

(** * Traps *)

Record tframe : Type := mkTframe { trapno : Z; tcs : Z; rip : Z; terr : Z }.

(** The address [&ticks], a sleep channel. *)
Definition TICKS : Z := 0.

Inductive tmsg : Type :=
  | Spurious (cpu cs rip : Z)
  | KillProc (pid trapno err cpu rip : Z).

Class Handlers (D : Type) : Type := {
  ideintr : D -> res (D * list Z);
  kbdintr : D -> res (D * list Z);
  uartintr : D -> res (D * list Z);
  ai_tick : D -> res (D * list Z) }.

Record tstate (D : Type) : Type := mkT {
  ticks : Z;
  procs : psys;
  devs : D;
  eois : Z;
  tmsgs : list tmsg }.
Arguments mkT {D} _ _ _ _ _.
Arguments ticks {D} _.
Arguments procs {D} _.
Arguments devs {D} _.
Arguments eois {D} _.
Arguments tmsgs {D} _.

(** How [trap] ends: it returns to the interrupted code, or the process has exited;
    or, up to its [yield], it has given the CPU up and goes on in [trap_resume]. *)
Inductive tend : Type := Returned | Exited | Yielded.

Section Traps.
Context {D : Type} `{Handlers D}.
Implicit Types st : tstate D.

Definition with_procs st (ps : psys) : tstate D := mkT (ticks st) ps (devs st) (eois st) (tmsgs st).
Definition say_trap st (t : tmsg) : tstate D := mkT (ticks st) (procs st) (devs st) (eois st) (tmsgs st ++ [t]).
Definition lapiceoi st : tstate D := mkT (ticks st) (procs st) (devs st) (eois st + 1) (tmsgs st).

(** A handler, with the wakeups it does. *)
Definition run_handler (h : D -> res (D * list Z)) st : res (tstate D) :=
  '(d, chans) ← h (devs st);
  Ok (mkT (ticks st) (fold_left (fun ps a => wakeup (CAddr a) ps) chans (procs st)) d (eois st) (tmsgs st)).

Definition tick st : tstate D :=
  mkT (u32 (ticks st + 1)) (wakeup (CAddr TICKS) (procs st)) (devs st) (eois st) (tmsgs st).

Definition user_mode (tf : tframe) : bool := Z.land (tcs tf) 3 =? DPL_USER.
Definition kernel_mode (tf : tframe) : bool := Z.land (tcs tf) 3 =? 0.

Definition set_killed (p : proc) : proc :=
  mkProc (state p) (pid p) (parent p) (pchan p) true (kstack p) (pgdir p) (forking p).

(** The [default] case. *)
Definition unexpected (c : nat) (tf : tframe) st : res (tstate D) :=
  match cpus (procs st) c with
  | None => Panic "trap"
  | Some me =>
      if kernel_mode tf then Panic "trap"
      else
        let st := say_trap st (KillProc (pid (tab (procs st) me)) (trapno tf) (terr tf) (Z.of_nat c) (rip tf)) in
        Ok (with_procs st (set_tab (procs st) (upd (tab (procs st)) me (set_killed (tab (procs st) me)))))
  end.

Definition trap_switch (c : nat) (tf : tframe) st : res (tstate D) :=
  if trapno tf =? T_IRQ0 + IRQ_TIMER then
    st ← (if (c =? 0)%nat then run_handler ai_tick (tick st) else Ok st);
    Ok (lapiceoi st)
  else if trapno tf =? T_IRQ0 + IRQ_IDE then st ← run_handler ideintr st; Ok (lapiceoi st)
  else if trapno tf =? T_IRQ0 + IRQ_IDE + 1 then Ok st
  else if trapno tf =? T_IRQ0 + IRQ_KBD then st ← run_handler kbdintr st; Ok (lapiceoi st)
  else if trapno tf =? T_IRQ0 + IRQ_COM1 then st ← run_handler uartintr st; Ok (lapiceoi st)
  else if (trapno tf =? T_IRQ0 + 7) || (trapno tf =? T_IRQ0 + IRQ_SPURIOUS) then
    Ok (lapiceoi (say_trap st (Spurious (Z.of_nat c) (tcs tf) (rip tf))))
  else unexpected c tf st.

(** An interrupt gate turns interrupts off, and interrupts are taken only by code
    that holds no lock. *)
Definition gated : kcpu := unlocked false.

(** [if(proc && proc->killed && (tf->cs&3) == DPL_USER) exit()]: [None] when the
    process goes on. *)
Definition exit_if_killed (c : nat) (tf : tframe) st : res (option (tstate D)) :=
  match cpus (procs st) c with
  | Some me =>
      if killed (tab (procs st) me) && user_mode tf
      then ps ← exit_ gated c me (procs st); Ok (Some (with_procs st ps))
      else Ok None
  | None => Ok None
  end.

(** [trap] up to the [swtch] in its [yield]. *)
Definition trap_begin (c : nat) (tf : tframe) st : res (tend * tstate D) :=
  st ← trap_switch c tf st;
  r ← exit_if_killed c tf st;
  match r with
  | Some st => Ok (Exited, st)
  | None =>
      match cpus (procs st) c with
      | Some me =>
          if bool_decide (state (tab (procs st) me) = RUNNING) && (trapno tf =? T_IRQ0 + IRQ_TIMER)
          then ps ← yield gated c me (procs st); Ok (Yielded, with_procs st ps)
          else Ok (Returned, st)
      | None => Ok (Returned, st)
      end
  end.

(** The last lines: the process runs again, or has not yielded. *)
Definition trap_resume (c : nat) (tf : tframe) st : res (tend * tstate D) :=
  r ← exit_if_killed c tf st;
  match r with Some st => Ok (Exited, st) | None => Ok (Returned, st) end.

(** The whole of [trap], with the CPU it ends on.  [others] is what happens while
    the process is off the CPU: the CPU on which a scheduler takes it up again, and
    the state then. *)
Definition trap (c : nat) (tf : tframe) (others : tstate D -> nat * tstate D) st : res (tend * nat * tstate D) :=
  '(e, st) ← trap_begin c tf st;
  match e with
  | Exited => Ok (Exited, c, st)
  | Returned => '(e, st) ← trap_resume c tf st; Ok (e, c, st)
  | Yielded => let '(c, st) := others st in '(e, st) ← trap_resume c tf st; Ok (e, c, st)
  end.

(** * sysproc.c *)

Definition sys_getpid (me : nat) st : Z := pid (tab (procs st) me).
(** [xticks] is unsigned, the result an [int]. *)
Definition sys_uptime st : Z := s32 (ticks st).
Definition sys_kill (arg : option Z) st : Z * tstate D :=
  match arg with
  | None => (-1, st)
  | Some n =>
      match kill n (procs st) with
      | Some ps => (0, with_procs st ps)
      | None => (-1, st)
      end
  end.

End Traps.

(** * Gates *)

Lemma lor_disjoint a b : Z.land a b = 0 -> Z.lor a b = a + b.
Proof. intros H. by rewrite <- Z.lxor_lor, <- Z.add_nocarry_lxor. Qed.

Lemma land_high a b n : 0 <= n -> 0 <= b < 2 ^ n -> Z.land (a * 2 ^ n) b = 0.
Proof.
  intros Hn Hb. rewrite <- Z.shiftl_mul_pow2 by done. apply Z.bits_inj'. intros k Hk. rewrite Z.land_spec, Z.bits_0.
  destruct (Z.ltb_spec k n); [by rewrite Z.shiftl_spec_low|]. rewrite <- (Z.mod_small b (2 ^ n)) by done.
  rewrite Z.mod_pow2_bits_high by lia. apply andb_false_r.
Qed.

(** The words of a gate in arithmetic. *)
Lemma mkgate_words kva : 0 <= kva < 2 ^ 64 ->
  mkgate kva 0 = [kva mod 2 ^ 16 + 2 ^ 19; kva / 2 ^ 16 mod 2 ^ 16 * 2 ^ 16 + 0x8E00; kva / 2 ^ 32; 0].
Proof.
  intros Hk. unfold mkgate. change 0xFFFF with (Z.ones 16). rewrite Z.land_ones by lia.
  change (Z.shiftl KERNEL_CS 16) with (8 * 2 ^ 16). rewrite (Z.lor_comm _ (8 * 2 ^ 16)).
  rewrite lor_disjoint by (apply land_high; [lia|apply Z.mod_pos_bound; lia]).
  assert (Z.land kva 0xFFFF0000 = kva / 2 ^ 16 mod 2 ^ 16 * 2 ^ 16) as ->.
  { change 0xFFFF0000 with (Z.shiftl (Z.ones 16) 16). rewrite <- Z.shiftl_mul_pow2, <- Z.land_ones by lia.
    apply Z.bits_inj'. intros k Hk0. rewrite Z.land_spec. destruct (Z.ltb_spec k 16).
    - rewrite !Z.shiftl_spec_low by lia. apply andb_false_r.
    - rewrite !Z.shiftl_spec by lia. rewrite Z.land_spec. rewrite <- Z.shiftr_div_pow2, Z.shiftr_spec by lia.
      by replace (k - 16 + 16) with k by lia. }
  change (Z.shiftl (Z.land 0 3) 13) with 0. rewrite Z.lor_0_r.
  rewrite lor_disjoint by (apply land_high; lia). rewrite Z.shiftr_div_pow2 by lia.
  assert (0 <= kva / 2 ^ 16 mod 2 ^ 16 < 2 ^ 16) by (apply Z.mod_pos_bound; lia).
  unfold u32. rewrite (Z.mod_small (_ + 0x8E00)), (Z.mod_small (kva / 2 ^ 32)) by (try split; try apply Z.div_pos; try apply Z.div_lt_upper_bound; lia).
  f_equal. rewrite Z.add_comm. reflexivity.
Qed.

Lemma nth_gates (gs : list (list Z)) n k : Forall (fun g => length g = 4%nat) gs -> (k < 4)%nat ->
  nth (4 * n + k) (concat gs) 0 = nth k (nth n gs []) 0.
Proof.
  intros Hg Hk. revert n. induction Hg as [|g gs Hl _ IH]; intros n; cbn [concat].
  - destruct (4 * n + k)%nat, n, k; done.
  - destruct n as [|n]; [by rewrite app_nth1 by lia|]. rewrite app_nth2 by lia. rewrite Hl.
    replace (4 * S n + k - 4)%nat with (4 * n + k)%nat by lia. apply IH.
Qed.

(** Every vector's gate leads to its handler, in the kernel's code segment, present
    and closed to user programs. *)
Lemma idt_vectors vectors n v : Forall (fun v => 0 <= v < 2 ^ 64) vectors -> vectors !! n = Some v -> (n < 256)%nat ->
  gate_addr (tvinit vectors) n = v /\ gate_seg (tvinit vectors) n = KERNEL_CS /\ gate_attr (tvinit vectors) n = 0x8E00.
Proof.
  intros Hv Hn Hlt. pose proof (Forall_lookup_1 _ _ _ _ Hv Hn) as Hr. unfold gate_addr, gate_seg, gate_attr, tvinit.
  set (gs := (fun v => mkgate v 0) <$> take 256 vectors).
  assert (Forall (fun g => length g = 4%nat) gs) as Hg by (apply Forall_fmap, Forall_forall; done).
  assert (nth n gs [] = mkgate v 0) as En.
  { apply nth_lookup_Some. unfold gs. rewrite list_lookup_fmap, lookup_take_lt by done. by rewrite Hn. }
  replace (4 * n)%nat with (4 * n + 0)%nat at 1 4 by lia. rewrite !nth_gates, En, mkgate_words by (done || lia). cbn [nth].
  change (2 ^ 16) with 65536. change (2 ^ 19) with 524288. change (2 ^ 32) with 4294967296. change KERNEL_CS with 8.
  split_and!; Z.div_mod_to_equations; lia.
Qed.

(** * Traps keep the process table sound *)

Definition handled (n : Z) : bool :=
  (n =? T_IRQ0 + IRQ_TIMER) || (n =? T_IRQ0 + IRQ_IDE) || (n =? T_IRQ0 + IRQ_IDE + 1) || (n =? T_IRQ0 + IRQ_KBD)
  || (n =? T_IRQ0 + IRQ_COM1) || (n =? T_IRQ0 + 7) || (n =? T_IRQ0 + IRQ_SPURIOUS).

(** Only wakeups have happened. *)
Record woken (s s' : psys) : Prop := {
  wo_cpus : cpus s' = cpus s;
  wo_init : initproc s' = initproc s;
  wo_next : nextpid s' = nextpid s;
  wo_same : forall i, killed (tab s' i) = killed (tab s i) /\ forking (tab s' i) = forking (tab s i)
    /\ pchan (tab s' i) = pchan (tab s i);
  wo_state : forall i, state (tab s' i) = state (tab s i) \/ state (tab s i) = SLEEPING /\ state (tab s' i) = RUNNABLE }.

Lemma woken_refl s : woken s s.
Proof. split; auto. Qed.

Lemma woken_trans s s1 s2 : woken s s1 -> woken s1 s2 -> woken s s2.
Proof.
  intros [A1 A2 A3 A4 A5] [B1 B2 B3 B4 B5]. split; try congruence.
  - intros i. destruct (A4 i) as (? & ? & ?), (B4 i) as (? & ? & ?). split_and!; congruence.
  - intros i. destruct (A5 i) as [E|[E E']], (B5 i) as [F|[F F']]; [left|right|right|right]; try split; congruence.
Qed.

Lemma wakeup_woken ch s : woken s (wakeup ch s).
Proof.
  split; try done; intros i; cbn [tab wakeup set_tab]; destruct (wakeup1_cases ch (tab s) i) as [->|(E & _ & ->)]; auto.
Qed.

Lemma wakeups_ok chans : forall s, pinv s ->
  let s' := fold_left (fun ps a => wakeup (CAddr a) ps) chans s in pinv s' /\ woken s s'.
Proof.
  induction chans as [|a chans IH]; intros s Hs; cbn [fold_left]; [split; [done|apply woken_refl]|].
  destruct (IH (wakeup (CAddr a) s) (wakeup_inv a s Hs)) as [H1 H2]. split; [done|].
  eapply woken_trans; [apply wakeup_woken|exact H2].
Qed.

Lemma set_killed_inv s me : pinv s -> pinv (set_tab s (upd (tab s) me (set_killed (tab s me)))).
Proof.
  intros [Hf Hr Hw]. constructor; cbn [tab nextpid initproc set_tab].
  - eapply family_tweak; [|done]. apply upd_tweak. constructor; try done. by left.
  - apply runs_same; [done|]. intros i. unfold upd. by destruct (decide (i = me)) as [->|].
  - eapply no_lost_exit_mono; [| |done]; intros; upds; done.
Qed.

Section Sound.
Context {D : Type} `{Handlers D}.
Implicit Types st : tstate D.

(** What [trap] needs of the devices: on states that satisfy [I], a handler returns
    and leaves such a state. *)
Definition keeps (I : D -> Prop) (h : D -> res (D * list Z)) : Prop :=
  forall d, I d -> exists d' chans, h d = Ok (d', chans) /\ I d'.
Definition handlers_keep (I : D -> Prop) : Prop :=
  keeps I ideintr /\ keeps I kbdintr /\ keeps I uartintr /\ keeps I ai_tick.

Context (I : D -> Prop).

Definition timer (tf : tframe) : bool := trapno tf =? T_IRQ0 + IRQ_TIMER.

(** After the [switch], when it returns: [me] is the process that runs here. *)
Record switched (c : nat) (tf : tframe) (me : option nat) st st' : Prop := {
  sw_inv : pinv (procs st');
  sw_devs : I (devs st');
  sw_cpus : cpus (procs st') = cpus (procs st);
  sw_init : initproc (procs st') = initproc (procs st);
  sw_killed : forall i, killed (tab (procs st') i)
    = killed (tab (procs st) i) || (negb (handled (trapno tf)) && bool_decide (me = Some i));
  sw_forking : forall i, forking (tab (procs st') i) = forking (tab (procs st) i);
  sw_ticks : ticks st' = if timer tf && (c =? 0)%nat then u32 (ticks st + 1) else ticks st;
  sw_wakes : timer tf && (c =? 0)%nat = true -> forall i, (i < NPROC)%nat ->
    pchan (tab (procs st) i) = Some (CAddr TICKS) -> state (tab (procs st') i) <> SLEEPING }.

Lemma run_handler_ok h st : keeps I h -> I (devs st) -> pinv (procs st) ->
  exists st', run_handler h st = Ok st' /\ pinv (procs st') /\ I (devs st') /\ woken (procs st) (procs st') /\ ticks st' = ticks st.
Proof.
  intros Hh Hi Hs. destruct (Hh (devs st) Hi) as (d & chans & E & Hd). unfold run_handler. rewrite E. cbn [mbind res_bind].
  destruct (wakeups_ok chans (procs st) Hs) as [H1 H2]. eexists. split; [reflexivity|]. done.
Qed.

(** An interrupt that is not the clock's. *)
Lemma switched_woken c tf me st st' : handled (trapno tf) = true -> timer tf = false ->
  pinv (procs st') -> I (devs st') -> woken (procs st) (procs st') -> ticks st' = ticks st -> switched c tf me st st'.
Proof.
  intros Hh Ht Hi Hd [W1 W2 W3 W4 W5] Hk. split; try done; rewrite ?Ht; try done.
  - intros i. destruct (W4 i) as (-> & _). rewrite Hh. by rewrite orb_false_r.
  - intros i. apply W4.
Qed.

Lemma switched_eoi c tf me st st' : switched c tf me st st' -> switched c tf me st (lapiceoi st').
Proof. by intros [H0 H1 H2 H3 H4 H5 H6 H7]; split. Qed.

Lemma switched_tick tf me st st' : timer tf = true -> handled (trapno tf) = true ->
  pinv (procs st') -> I (devs st') -> woken (procs (tick st)) (procs st') -> ticks st' = ticks (tick st) -> switched 0 tf me st st'.
Proof.
  intros Ht Hh Hi Hd W Hk. pose proof (woken_trans _ _ _ (wakeup_woken (CAddr TICKS) (procs st)) W) as [W1 W2 W3 W4 W5].
  split; try done; rewrite ?Ht; try done.
  - intros i. destruct (W4 i) as (-> & _). rewrite Hh. by rewrite orb_false_r.
  - intros i. apply W4.
  - intros _ i Hlt Hc Hs. pose proof (wakeup1_awake (CAddr TICKS) (tab (procs st)) i Hlt Hc) as Ha.
    destruct W as [_ _ _ _ W]. cbn [procs tick] in W. destruct (W i) as [E|[E E']]; [|congruence].
    apply Ha. change (state (tab (wakeup (CAddr TICKS) (procs st)) i) = SLEEPING). congruence.
Qed.

Lemma trap_switch_ok c tf st : handlers_keep I -> I (devs st) -> pinv (procs st) ->
  if negb (handled (trapno tf)) && (kernel_mode tf || bool_decide (cpus (procs st) c = None))
  then trap_switch c tf st = Panic "trap"
  else exists st', trap_switch c tf st = Ok st' /\ switched c tf (cpus (procs st) c) st st'.
Proof.
  intros (Hide & Hkbd & Hua & Hai) HI Hs. destruct (handled (trapno tf)) eqn:Hh; cbn [negb andb].
  - assert (forall h, keeps I h -> timer tf = false ->
      exists st', (st ← run_handler h st; Ok (lapiceoi st)) = Ok st' /\ switched c tf (cpus (procs st) c) st st') as Hdev.
    { intros h Hr Ht. destruct (run_handler_ok h st Hr HI Hs) as (st1 & -> & I1 & D1 & W1 & T1). eexists. split; [reflexivity|].
      by apply switched_eoi, switched_woken. }
    unfold trap_switch. fold (timer tf). destruct (timer tf) eqn:Et.
    + destruct (Nat.eqb_spec c 0) as [->|Hc].
      * destruct (run_handler_ok ai_tick (tick st) Hai HI (wakeup_inv TICKS _ Hs)) as (st1 & -> & I1 & D1 & W1 & T1).
        eexists. split; [reflexivity|]. by apply switched_eoi, switched_tick.
      * eexists. split; [reflexivity|]. apply switched_eoi. split; try done; rewrite ?(proj2 (Nat.eqb_neq c 0) Hc), ?andb_false_r; try done.
        intros i. rewrite Hh. by rewrite orb_false_r.
    + destruct (_ =? T_IRQ0 + IRQ_IDE) eqn:E1; [by apply Hdev|].
      destruct (_ =? T_IRQ0 + IRQ_IDE + 1) eqn:E2; [exists st; split; [done|]; apply switched_woken; try done; apply woken_refl|].
      destruct (_ =? T_IRQ0 + IRQ_KBD) eqn:E3; [by apply Hdev|]. destruct (_ =? T_IRQ0 + IRQ_COM1) eqn:E4; [by apply Hdev|].
      destruct (_ || _) eqn:E5; [eexists; split; [reflexivity|]; apply switched_eoi, switched_woken; try done; apply woken_refl|].
      unfold handled in Hh. unfold timer in Et. rewrite Et, E1, E2, E3, E4 in Hh. cbn [orb] in Hh. congruence.
  - assert (trap_switch c tf st = unexpected c tf st) as ->.
    { unfold handled in Hh. rewrite !orb_false_iff in Hh. destruct Hh as ((((((E0 & E1) & E2) & E3) & E4) & E5) & E6).
      unfold trap_switch. by rewrite E0, E1, E2, E3, E4, E5, E6. }
    unfold unexpected. destruct (cpus (procs st) c) as [me|] eqn:Ec; [|by rewrite orb_true_r].
    rewrite bool_decide_false, orb_false_r by done. destruct (kernel_mode tf); [done|]. eexists. split; [reflexivity|].
    assert (timer tf = false) as Et by (unfold timer; unfold handled in Hh; rewrite !orb_false_iff in Hh; tauto).
    split; rewrite ?Et; try done.
    + by apply set_killed_inv.
    + intros i. cbn [procs with_procs say_trap tab set_tab]. rewrite Hh. cbn [negb andb]. unfold upd.
      destruct (decide (i = me)) as [->|Hne]; [rewrite bool_decide_true by done; by rewrite orb_true_r|].
      rewrite bool_decide_false by congruence. by rewrite orb_false_r.
    + intros i. cbn [procs with_procs say_trap tab set_tab]. unfold upd. by destruct (decide (i = me)) as [->|].
Qed.

(** The process that runs here dies: it was in user mode and is killed, or has just
    been by the trap itself. *)
Definition dies (tf : tframe) st (me : nat) : bool :=
  user_mode tf && (killed (tab (procs st) me) || negb (handled (trapno tf))).

Lemma exit_zombie k0 c me s s' : exit_ k0 c me s = Ok s' -> state (tab s' me) = ZOMBIE /\ cpus s' c = None
  /\ forall i, state (tab s i) <> SLEEPING -> state (tab s' i) <> SLEEPING.
Proof.
  unfold exit_. destruct (initproc s) as [k|]; [|done]. destruct (decide (me = k)) as [|Hne]; [done|].
  destruct (parent (tab s me)) as [q|]; [|done].
  destruct (acquire_ptable k0) as [k1| | |]; try done. cbn [mbind res_bind]. cbv zeta.
  assert (forall i, passed me k (tab s i) (reparent me k (seq 0 NPROC) (wakeup1 (CProc q) (tab s)) i)) as Hp.
  { intros i. eapply passed_trans; [done|apply wakeup1_passed|by apply reparent_passed]. } revert Hp.
  generalize (reparent me k (seq 0 NPROC) (wakeup1 (CProc q) (tab s))) as t. intros t Hp.
  intros ->%sched_only.
  cbn [tab set_tab set_cpu cpus]. rewrite tab_upd_eq. split; [done|]. rewrite decide_True by done. split; [done|].
  intros i Hi. unfold upd. destruct (decide (i = me)) as [->|_]; [done|].
  destruct (pa_state _ _ _ _ (Hp i)) as [->|(_ & _ & ->)]; done.
Qed.

Lemma yield_runnable k0 c me s s' : yield k0 c me s = Ok s' ->
  state (tab s' me) = RUNNABLE /\ cpus s' c = None /\ forking (tab s' me) = forking (tab s me) /\ forall i, killed (tab s' i) = killed (tab s i)
  /\ (state (tab s i) <> SLEEPING -> state (tab s' i) <> SLEEPING).
Proof.
  unfold yield. destruct (acquire_ptable k0) as [k1| | |]; try done. cbn [mbind res_bind].
  intros ->%sched_only. cbn [tab set_tab set_cpu cpus]. rewrite tab_upd_eq.
  split; [done|]. rewrite decide_True by done. split; [done|]. split; [done|].
  intros i. unfold upd. by destruct (decide (i = me)) as [->|].
Qed.

(** Either check for a killed process, by the process [me] that runs on CPU [c]. *)
Lemma exit_if_killed_ok c tf st me : pinv (procs st) -> cpus (procs st) c = Some me ->
  (user_mode tf = true -> forking (tab (procs st) me) = None) ->
  if killed (tab (procs st) me) && user_mode tf
  then if bool_decide (initproc (procs st) = Some me) then exit_if_killed c tf st = Panic "init exiting"
       else exists ps, exit_if_killed c tf st = Ok (Some (with_procs st ps)) /\ pinv ps
         /\ state (tab ps me) = ZOMBIE /\ cpus ps c = None
         /\ forall i, state (tab (procs st) i) <> SLEEPING -> state (tab ps i) <> SLEEPING
  else exit_if_killed c tf st = Ok None.
Proof.
  intros Hs Hc Hf. unfold exit_if_killed. rewrite Hc. destruct (killed _ && user_mode tf) eqn:Ek; [|done].
  apply andb_prop in Ek as [_ Hu]. case_bool_decide as Hi.
  - unfold exit_. by rewrite Hi, decide_True.
  - destruct (exit_inv false c me (procs st) Hs Hc Hi (Hf Hu)) as (ps & E & Hp & _).
    destruct (exit_zombie _ c me _ _ E) as (Z1 & Z2 & Z3). unfold gated. rewrite E. cbn [mbind res_bind]. by exists ps.
Qed.

Lemma trap_resume_ok c tf st me : pinv (procs st) -> cpus (procs st) c = Some me ->
  (user_mode tf = true -> forking (tab (procs st) me) = None) ->
  if killed (tab (procs st) me) && user_mode tf
  then if bool_decide (initproc (procs st) = Some me) then trap_resume c tf st = Panic "init exiting"
       else exists ps, trap_resume c tf st = Ok (Exited, with_procs st ps) /\ pinv ps
         /\ state (tab ps me) = ZOMBIE /\ cpus ps c = None
  else trap_resume c tf st = Ok (Returned, st).
Proof.
  intros Hs Hc Hf. pose proof (exit_if_killed_ok c tf st me Hs Hc Hf) as Hx. unfold trap_resume.
  destruct (killed _ && user_mode tf); [|by rewrite Hx]. destruct (bool_decide _); [by rewrite Hx|].
  destruct Hx as (ps & -> & ? & ? & ? & _). by exists ps.
Qed.

(** [trap] up to its [yield], if the handlers keep [I]. *)
Lemma trap_begin_ok (c : nat) (tf : tframe) st :
  handlers_keep I -> I (devs st) -> pinv (procs st) ->
  (user_mode tf = true -> exists me, cpus (procs st) c = Some me /\ forking (tab (procs st) me) = None) ->
  if negb (handled (trapno tf)) && (kernel_mode tf || bool_decide (cpus (procs st) c = None))
  then trap_begin c tf st = Panic "trap"
  else if match cpus (procs st) c with Some me => dies tf st me && bool_decide (initproc (procs st) = Some me) | None => false end
  then trap_begin c tf st = Panic "init exiting"
  else exists e st', trap_begin c tf st = Ok (e, st') /\ pinv (procs st') /\ I (devs st')
    /\ ticks st' = (if timer tf && (c =? 0)%nat then u32 (ticks st + 1) else ticks st)
    /\ (timer tf && (c =? 0)%nat = true -> forall i, (i < NPROC)%nat ->
          pchan (tab (procs st) i) = Some (CAddr TICKS) -> state (tab (procs st') i) <> SLEEPING)
    /\ match cpus (procs st) c with
       | None => e = Returned /\ cpus (procs st') c = None
       | Some me =>
           if dies tf st me then e = Exited /\ state (tab (procs st') me) = ZOMBIE /\ cpus (procs st') c = None
           else e = (if timer tf then Yielded else Returned)
             /\ state (tab (procs st') me) = (if timer tf then RUNNABLE else RUNNING)
             /\ cpus (procs st') c = (if timer tf then None else Some me)
             /\ forking (tab (procs st') me) = forking (tab (procs st) me)
             /\ forall i, killed (tab (procs st') i)
                = killed (tab (procs st) i) || (negb (handled (trapno tf)) && bool_decide (i = me))
       end.
Proof.
  intros Hh HI Hs Hu. pose proof (trap_switch_ok c tf st Hh HI Hs) as Hsw. unfold trap_begin.
  destruct (negb (handled (trapno tf)) && _); [by rewrite Hsw|].
  destruct Hsw as (st1 & -> & [S1 S0 S2 S3 S4 S5 S6 S7]). cbn [mbind res_bind].
  destruct (cpus (procs st) c) as [me|] eqn:Ec.
  2:{ assert (exit_if_killed c tf st1 = Ok None) as -> by (unfold exit_if_killed; by rewrite S2, Ec).
      cbn [mbind res_bind]. rewrite S2, Ec. eexists _, _. split; [reflexivity|]. by rewrite S2, Ec. }
  assert (Ec1 : cpus (procs st1) c = Some me) by (by rewrite S2).
  pose proof (exit_if_killed_ok c tf st1 me S1 Ec1) as Hx.
  assert (killed (tab (procs st1) me) && user_mode tf = dies tf st me) as Ek.
  { unfold dies. rewrite S4, bool_decide_true by done. by rewrite andb_true_r, andb_comm. }
  rewrite Ek, S3 in Hx. assert (state (tab (procs st1) me) = RUNNING) as Hrun by (by apply (run_live _ c)).
  destruct (dies tf st me) eqn:Ed; cbn [andb].
  - assert (Hf : user_mode tf = true -> forking (tab (procs st1) me) = None)
      by (intros Hm; destruct (Hu Hm) as (me' & [= <-] & Hf); by rewrite S5).
    specialize (Hx Hf). destruct (bool_decide _); [by rewrite Hx|].
    destruct Hx as (ps & -> & X1 & X2 & X3 & X4). cbn [mbind res_bind].
    eexists _, _. split; [reflexivity|]. cbn [procs devs ticks with_procs]. split; [done|]. split; [done|].
    split; [done|]. split; [|done]. intros Ht i Hi Hc. by apply X4, S7.
  - rewrite Hx by (intros Hm; destruct (Hu Hm) as (me' & [= <-] & Hf); by rewrite S5). cbn [mbind res_bind].
    rewrite Ec1, bool_decide_true by done. cbn [andb]. fold (timer tf).
    assert (forall i, killed (tab (procs st1) i) = killed (tab (procs st) i) || (negb (handled (trapno tf)) && bool_decide (i = me))) as Hk.
    { intros i. rewrite S4. by rewrite (bool_decide_ext (Some me = Some i) (i = me)) by naive_solver. }
    destruct (timer tf) eqn:Et; [|exists Returned, st1; rewrite Ec1; by repeat (split; [done|])].
    destruct (yield_inv false c me (procs st1) S1 Ec1) as (ps & E & J & _). unfold gated. rewrite E. cbn [mbind res_bind].
    destruct (yield_runnable _ c me _ _ E) as (Y1 & Y2 & Y4 & Y3). eexists _, _. split; [reflexivity|].
    cbn [procs devs ticks with_procs]. split; [done|]. split; [done|]. split; [done|].
    split; [intros Ht i Hi Hc; by apply Y3, S7|]. split; [done|]. split; [done|]. split; [done|].
    split; [by rewrite Y4, S5|]. intros i. rewrite (proj1 (Y3 i)). apply Hk.
Qed.

(** What [others] may do: anything that keeps the table and the devices sound, gives
    [me] a CPU again and leaves its own [fork] and init alone.  It may be killed.
    [c0] is the CPU it has given up. *)
Definition reschedules (c0 me : nat) (others : tstate D -> nat * tstate D) : Prop :=
  forall st, pinv (procs st) -> I (devs st) -> state (tab (procs st) me) = RUNNABLE -> cpus (procs st) c0 = None ->
  let '(c, st') := others st in
  pinv (procs st') /\ I (devs st') /\ cpus (procs st') c = Some me
  /\ forking (tab (procs st') me) = forking (tab (procs st) me) /\ initproc (procs st') = initproc (procs st).

End Sound.
