(* ===== verification/Ioapic.v ===== *)
(** Model of src/ioapic.c, with the calls of [ioapicenable] made when the devices
    are initialised: where device interrupts go.

    The I/O APIC is hardware: [IoapicOps] holds the accesses to its two memory-mapped
    words, [Ioapic] what its manual promises of them: one word selects a register,
    the other is the register selected.  The view of a redirection register holds
    its programmable bits.  The vectors it is programmed with are those [trap]
    switches on. *)
From stdpp Require Import base strings numbers list.
From S2P Require Import Prelude Proc Trap.
Local Open Scope Z_scope.

Definition REG_ID : Z := 0x00.
Definition REG_VER : Z := 0x01.
Definition REG_TABLE : Z := 0x10.
Definition INT_DISABLED : Z := 0x00010000.

Class IoapicOps (A : Type) : Type := {
  set_reg : Z -> A -> A;
  get_data : A -> Z * A;
  set_data : Z -> A -> A }.

Section Code.
Context {A : Type} `{IoapicOps A}.

Definition ioapicread (reg : Z) (a : A) : Z * A := get_data (set_reg (u32 reg) a).
Definition ioapicwrite (reg data : Z) (a : A) : A := set_data data (set_reg (u32 reg) a).

(** One turn of the loop. *)
Definition disable (a : A) (i : Z) : A :=
  let a := ioapicwrite (REG_TABLE + 2 * i) (Z.lor INT_DISABLED (T_IRQ0 + i)) a in
  ioapicwrite (REG_TABLE + 2 * i + 1) 0 a.

(** [ioapicinit]; the flag is whether it prints that the identifier is not the one
    of the MP table. *)
Definition ioapicinit (ioapicid : Z) (a : A) : bool * A :=
  let '(ver, a) := ioapicread REG_VER a in
  let maxintr := Z.land (Z.shiftr ver 16) 0xFF in
  let '(idw, a) := ioapicread REG_ID a in
  let id := Z.shiftr idw 24 in
  (negb (id =? ioapicid), fold_left disable (seqZ 0 (maxintr + 1)) a).

Definition ioapicenable (irq cpunum : Z) (a : A) : A :=
  let a := ioapicwrite (REG_TABLE + 2 * irq) (u32 (T_IRQ0 + irq)) a in
  ioapicwrite (REG_TABLE + 2 * irq + 1) (u32 (Z.shiftl cpunum 24)) a.

(** The calls of [consoleinit], [uartinit] (when there is a port) and [ideinit], in
    the order of [main]. *)
Definition enable_devices (uart : bool) (ncpu : Z) (a : A) : A :=
  let a := ioapicenable IRQ_KBD 0 a in
  let a := if uart then ioapicenable IRQ_COM1 0 a else a in
  ioapicenable IRQ_IDE (ncpu - 1) a.

End Code.

(** * The hardware *)

Class Ioapic (A : Type) `{IoapicOps A} : Type := {
  selected : A -> Z;
  register : A -> Z -> Z;
  (** The number of the last input, and the identifier. *)
  last_input : Z;
  chip_id : Z;
  last_input_range : 0 <= last_input < 2 ^ 7;
  select_reg : forall r a, selected (set_reg r a) = r;
  select_keeps : forall r a x, register (set_reg r a) x = register a x;
  read_ver : forall a, selected a = REG_VER -> Z.land (Z.shiftr (fst (get_data a)) 16) 0xFF = last_input;
  read_id : forall a, selected a = REG_ID -> Z.shiftr (fst (get_data a)) 24 = chip_id;
  read_keeps : forall a x, register (snd (get_data a)) x = register a x;
  write_reg : forall a v x, REG_TABLE <= selected a <= REG_TABLE + 2 * last_input + 1 ->
    register (set_data v a) x = if x =? selected a then v else register a x }.

(** Where an input goes: to no processor while it is masked, otherwise its vector
    goes to the processor with the APIC identifier of the destination field. *)
Definition routed (regs : Z -> Z) (irq : Z) : option (Z * Z) :=
  let lo := regs (REG_TABLE + 2 * irq) in
  if Z.testbit lo 16 then None else Some (lo mod 2 ^ 8, regs (REG_TABLE + 2 * irq + 1) / 2 ^ 24).

(** Edge-triggered, active high, and a physical destination. *)
Definition plain (regs : Z -> Z) (irq : Z) : Prop := Z.land (regs (REG_TABLE + 2 * irq)) 0xA800 = 0.

Section Routing.
Context {A : Type} `{Ioapic A}.

Lemma write_ok r v (a : A) x : REG_TABLE <= r <= REG_TABLE + 2 * last_input + 1 ->
  register (ioapicwrite r v a) x = if x =? r then v else register a x.
Proof.
  intros Hr. pose proof last_input_range as Hl. unfold ioapicwrite, REG_TABLE in *.
  rewrite u32_id by lia. rewrite write_reg; rewrite select_reg; [by rewrite select_keeps|done].
Qed.

Lemma pair_ok i lo hi (a : A) x : 0 <= i <= last_input ->
  register (ioapicwrite (REG_TABLE + 2 * i + 1) hi (ioapicwrite (REG_TABLE + 2 * i) lo a)) x
  = if x =? REG_TABLE + 2 * i + 1 then hi else if x =? REG_TABLE + 2 * i then lo else register a x.
Proof. intros Hi. rewrite !write_ok by lia. done. Qed.

(** An input programmed with [lo] and [hi], seen from input [j]. *)
Lemma pair_routed i lo hi (a : A) j : 0 <= i <= last_input ->
  let regs := register (ioapicwrite (REG_TABLE + 2 * i + 1) hi (ioapicwrite (REG_TABLE + 2 * i) lo a)) in
  routed regs j = (if j =? i then if Z.testbit lo 16 then None else Some (lo mod 2 ^ 8, hi / 2 ^ 24) else routed (register a) j)
  /\ (plain (register a) j \/ j = i -> Z.land lo 0xA800 = 0 -> plain regs j).
Proof.
  intros Hi regs. unfold routed, plain, regs. rewrite !pair_ok by done. destruct (Z.eqb_spec j i) as [->|Hne].
  - rewrite Z.eqb_refl. replace (REG_TABLE + 2 * i =? REG_TABLE + 2 * i + 1) with false by lia. rewrite Z.eqb_refl. done.
  - replace (REG_TABLE + 2 * j =? REG_TABLE + 2 * i + 1) with false by lia. replace (REG_TABLE + 2 * j =? REG_TABLE + 2 * i) with false by lia.
    replace (REG_TABLE + 2 * j + 1 =? REG_TABLE + 2 * i + 1) with false by lia. replace (REG_TABLE + 2 * j + 1 =? REG_TABLE + 2 * i) with false by lia.
    split; [done|]. intros [Hp|Hp]; [done|lia].
Qed.

(** The words written: a vector is below the mask bit and the mode bits. *)
Lemma low_vector z : 0 <= z < 2 ^ 8 -> Z.testbit z 16 = false /\ z mod 2 ^ 8 = z /\ Z.land z 0xA800 = 0.
Proof.
  intros Hz. split; [|split; [by apply Z.mod_small|]].
  - rewrite <- (Z.mod_small z (2 ^ 8)) by done. by apply Z.mod_pow2_bits_high.
  - apply Z.bits_inj'. intros k Hk. rewrite Z.land_spec, Z.bits_0. destruct (Z.ltb_spec k 8) as [Hlt|Hge].
    + change 0xA800 with (0x15 * 2 ^ 11). rewrite <- Z.shiftl_mul_pow2 by lia. rewrite Z.shiftl_spec_low by lia. apply andb_false_r.
    + rewrite <- (Z.mod_small z (2 ^ 8)) by done. by rewrite Z.mod_pow2_bits_high by lia.
Qed.

Lemma disable_routed (a : A) i j : 0 <= i <= last_input ->
  routed (register (disable a i)) j = (if j =? i then None else routed (register a) j)
  /\ (plain (register a) j \/ j = i -> plain (register (disable a i)) j).
Proof.
  intros Hi. pose proof last_input_range as Hl. unfold disable.
  destruct (low_vector (T_IRQ0 + i)) as (Hb & _ & Hp); [unfold T_IRQ0; lia|].
  destruct (pair_routed i (Z.lor INT_DISABLED (T_IRQ0 + i)) 0 a j Hi) as [E Hpl].
  rewrite Z.lor_spec in E. change (Z.testbit INT_DISABLED 16) with true in E. split; [exact E|].
  intros Hj. apply Hpl; [done|]. rewrite Z.land_lor_distr_l, Hp. done.
Qed.

Lemma disable_all n : forall lo (a : A) j, 0 <= lo -> lo + Z.of_nat n <= last_input + 1 ->
  routed (register (fold_left disable (seqZ lo (Z.of_nat n)) a)) j
    = (if (lo <=? j) && (j <? lo + Z.of_nat n) then None else routed (register a) j)
  /\ (plain (register a) j \/ lo <= j < lo + Z.of_nat n -> plain (register (fold_left disable (seqZ lo (Z.of_nat n)) a)) j).
Proof.
  induction n as [|n IH]; intros lo a j Hlo Hn.
  { rewrite Z.add_0_r, seqZ_nil by lia. cbn [fold_left]. replace ((lo <=? j) && (j <? lo)) with false by lia. split; [done|]. intros [Hp|Hp]; [done|lia]. }
  rewrite seqZ_cons by lia. replace (Z.pred (Z.of_nat (S n))) with (Z.of_nat n) by lia. cbn [fold_left].
  destruct (IH (Z.succ lo) (disable a lo) j) as [E Hp]; [lia|lia|]. destruct (disable_routed a lo j) as [E0 Hp0]; [lia|].
  rewrite E, E0. split.
  - destruct (Z.eqb_spec j lo) as [->|Hne].
    + replace ((lo <=? lo) && (lo <? lo + Z.of_nat (S n))) with true by lia. by destruct (_ && _).
    + replace ((lo <=? j) && (j <? lo + Z.of_nat (S n))) with ((Z.succ lo <=? j) && (j <? Z.succ lo + Z.of_nat n)) by lia. done.
  - intros Hj. apply Hp. destruct (Z.eq_dec j lo); [left; apply Hp0; by right|]. destruct Hj; [left; apply Hp0; by left|right; lia].
Qed.

Lemma ioapicinit_ok id (a : A) : exists a', ioapicinit id a = (negb (chip_id =? id), a')
  /\ forall j, 0 <= j <= last_input -> routed (register a') j = None /\ plain (register a') j.
Proof.
  unfold ioapicinit, ioapicread. destruct (get_data _) as [ver a1] eqn:E1. destruct (get_data (set_reg (u32 REG_ID) a1)) as [idw a2] eqn:E2.
  assert (Z.land (Z.shiftr ver 16) 0xFF = last_input) as ->.
  { pose proof (read_ver (set_reg (u32 REG_VER) a) (select_reg _ _)) as Hv. by rewrite E1 in Hv. }
  assert (Z.shiftr idw 24 = chip_id) as ->.
  { pose proof (read_id (set_reg (u32 REG_ID) a1) (select_reg _ _)) as Hv. by rewrite E2 in Hv. }
  eexists. split; [reflexivity|]. intros j Hj. pose proof last_input_range as Hl.
  destruct (disable_all (Z.to_nat (last_input + 1)) 0 a2 j) as [E Hp]; [lia|lia|]. rewrite Z2Nat.id in E, Hp by lia.
  rewrite E. replace ((0 <=? j) && (j <? 0 + (last_input + 1))) with true by lia. split; [done|]. apply Hp. right. lia.
Qed.

Lemma ioapicenable_ok irq cpu (a : A) j : 0 <= irq <= last_input -> 0 <= cpu < 2 ^ 8 ->
  routed (register (ioapicenable irq cpu a)) j = (if j =? irq then Some (T_IRQ0 + irq, cpu) else routed (register a) j)
  /\ (plain (register a) j -> plain (register (ioapicenable irq cpu a)) j).
Proof.
  intros Hi Hc. pose proof last_input_range as Hl. unfold ioapicenable. rewrite Z.shiftl_mul_pow2 by lia.
  rewrite !u32_id by (unfold T_IRQ0; lia). destruct (low_vector (T_IRQ0 + irq)) as (Hb & Hm & Hp); [unfold T_IRQ0; lia|].
  destruct (pair_routed irq (T_IRQ0 + irq) (cpu * 2 ^ 24) a j Hi) as [E Hpl].
  rewrite Hb, Hm, Z.div_mul in E by lia. split; [exact E|]. intros Hj. apply Hpl; [by left|done].
Qed.

(** The inputs in use, and the processor each goes to. *)
Definition device_route (uart : bool) (ncpu irq : Z) : option (Z * Z) :=
  if irq =? IRQ_KBD then Some (T_IRQ0 + IRQ_KBD, 0)
  else if (irq =? IRQ_COM1) && uart then Some (T_IRQ0 + IRQ_COM1, 0)
  else if irq =? IRQ_IDE then Some (T_IRQ0 + IRQ_IDE, ncpu - 1)
  else None.

Lemma devices_routed id uart ncpu (a : A) : 14 <= last_input -> 1 <= ncpu <= 8 ->
  let a' := enable_devices uart ncpu (snd (ioapicinit id a)) in
  forall irq, 0 <= irq <= last_input -> routed (register a') irq = device_route uart ncpu irq /\ plain (register a') irq.
Proof.
  intros Hl Hn a' irq Hi. destruct (ioapicinit_ok id a) as (a0 & E0 & Hi0). unfold a'. rewrite E0. cbn [snd]. clear a' E0.
  destruct (Hi0 irq Hi) as [R0 P0]. unfold enable_devices, device_route.
  destruct (ioapicenable_ok IRQ_KBD 0 a0 irq) as [R1 P1]; [unfold IRQ_KBD; lia|lia|]. rewrite R0 in R1. specialize (P1 P0).
  set (a1 := ioapicenable IRQ_KBD 0 a0) in *.
  assert (routed (register (if uart then ioapicenable IRQ_COM1 0 a1 else a1)) irq
          = (if (irq =? IRQ_COM1) && uart then Some (T_IRQ0 + IRQ_COM1, 0) else routed (register a1) irq)
          /\ plain (register (if uart then ioapicenable IRQ_COM1 0 a1 else a1)) irq) as [R2 P2].
  { destruct uart; [|by rewrite andb_false_r]. destruct (ioapicenable_ok IRQ_COM1 0 a1 irq) as [R2 P2]; [unfold IRQ_COM1; lia|lia|].
    rewrite andb_true_r. by split; [|apply P2]. }
  set (a2 := if uart then _ else a1) in *. destruct (ioapicenable_ok IRQ_IDE (ncpu - 1) a2 irq) as [R3 P3]; [unfold IRQ_IDE; lia|lia|].
  split; [|by apply P3]. rewrite R3, R2, R1.
  destruct (Z.eqb_spec irq IRQ_IDE) as [->|]; [done|]. destruct (Z.eqb_spec irq IRQ_KBD) as [->|]; [by destruct uart|done].
Qed.

End Routing.

(** The handler of the device on an input in use. *)
Definition device_handler {D} `{Handlers D} (uart : bool) (irq : Z) : option (D -> res (D * list Z)) :=
  if irq =? IRQ_KBD then Some kbdintr
  else if (irq =? IRQ_COM1) && uart then Some uartintr
  else if irq =? IRQ_IDE then Some ideintr
  else None.

(** Once the interrupt controller and the devices are initialised, every input of
    the I/O APIC is edge-triggered and active high; the keyboard, the serial port (if
    there is one) and the disk are the only ones not masked, the first two go to
    APIC 0 and the disk to the number of the last processor; and the vector each
    raises makes [trap] run the handler of just that device and acknowledge the
    interrupt. *)
Theorem device_interrupts_reach_handlers {A} `{Ioapic A} {D} `{Handlers D} (id : Z) (uart : bool) (ncpu : Z) (a : A) (irq : Z) :
  14 <= last_input -> 1 <= ncpu <= 8 -> 0 <= irq <= last_input ->
  let regs := register (enable_devices uart ncpu (snd (ioapicinit id a))) in
  plain regs irq /\
  match device_handler uart irq with
  | None => routed regs irq = None
  | Some h =>
      routed regs irq = Some (T_IRQ0 + irq, if irq =? IRQ_IDE then ncpu - 1 else 0)
      /\ forall c tf (st : tstate D), trapno tf = T_IRQ0 + irq ->
           trap_switch c tf st = (st ← run_handler h st; Ok (lapiceoi st))
  end.
Proof.
  intros Hl Hn Hi regs. destruct (devices_routed id uart ncpu a Hl Hn irq Hi) as [R P]. fold regs in R, P.
  split; [done|]. rewrite R. unfold device_handler, device_route, trap_switch.
  destruct (Z.eqb_spec irq IRQ_KBD) as [->|_]; [split; [done|]; by intros c tf st ->|].
  destruct (Z.eqb_spec irq IRQ_COM1) as [->|_]; [destruct uart; cbn [andb]; [split; [done|]; by intros c tf st ->|done]|].
  destruct (Z.eqb_spec irq IRQ_IDE) as [->|_]; [split; [done|]; by intros c tf st ->|done].
Qed.

(** A chip of 24 inputs. *)
Record chip : Type := mkChip { csel : Z; cregs : Z -> Z }.
#[export] Instance chip_ops : IoapicOps chip := {
  set_reg r c := mkChip r (cregs c);
  get_data c := (if csel c =? REG_VER then 0x170011 else if csel c =? REG_ID then 0x2000000 else cregs c (csel c), c);
  set_data v c := mkChip (csel c) (fun x => if x =? csel c then v else cregs c x) }.
#[export] Instance chip_ioapic : Ioapic chip.
Proof.
  refine {| selected := csel; register := cregs; last_input := 23; chip_id := 2 |};
    try done; intros a Ha; cbn; by rewrite Ha.
Defined.

#[local] Instance idle_handlers : Handlers Z := {
  ideintr n := Ok (n + 1, [77]); kbdintr n := Ok (n, []); uartintr n := Ok (n, []); ai_tick n := Ok (n, []) }.

Lemma device_interrupts_reach_handlers_witness :
  let regs := register (enable_devices true 2 (snd (ioapicinit 2 (mkChip 0 (fun _ => 0))))) in
  plain regs IRQ_IDE /\ routed regs IRQ_IDE = Some (46, 1)
  /\ forall c tf (st : tstate Z), trapno tf = 46 -> trap_switch c tf st = (st ← run_handler ideintr st; Ok (lapiceoi st)).
Proof.
  destruct (device_interrupts_reach_handlers (D := Z) 2 true 2 (mkChip 0 (fun _ => 0)) IRQ_IDE) as (P & R & T); [cbn; lia|lia|cbn; unfold IRQ_IDE; lia|].
  split; [exact P|]. split; [exact R|exact T].
Defined.
