(* ===== verification/Lapic.v ===== *)
(** Model of src/lapic.c: the local interrupt controller, starting processors and the
    real-time clock.

    The local APIC is hardware: [LapicOps] holds the accesses to its registers (by
    word index, as the array [lapic] is used), [Lapic] what its manual promises of
    them.  A null [lapic] is the argument [None].  The clock is hardware behind two
    ports.  [microdelay] has an empty body. *)
From stdpp Require Import base strings numbers list.
From S2P Require Import Prelude CString Kalloc Trap Mp.
Local Open Scope Z_scope.

Definition IRQ_ERROR : Z := 19.

Definition ID : Z := 0x0020 / 4.
Definition VER : Z := 0x0030 / 4.
Definition TPR : Z := 0x0080 / 4.
Definition EOI : Z := 0x00B0 / 4.
Definition SVR : Z := 0x00F0 / 4.
Definition ENABLE : Z := 0x00000100.
Definition ESR : Z := 0x0280 / 4.
Definition ICRLO : Z := 0x0300 / 4.
Definition INIT : Z := 0x00000500.
Definition STARTUP : Z := 0x00000600.
Definition DELIVS : Z := 0x00001000.
Definition ASSERT : Z := 0x00004000.
Definition LEVEL : Z := 0x00008000.
Definition BCAST : Z := 0x00080000.
Definition ICRHI : Z := 0x0310 / 4.
Definition TIMER : Z := 0x0320 / 4.
Definition X1 : Z := 0x0000000B.
Definition PERIODIC : Z := 0x00020000.
Definition PCINT : Z := 0x0340 / 4.
Definition LINT0 : Z := 0x0350 / 4.
Definition LINT1 : Z := 0x0360 / 4.
Definition ERROR : Z := 0x0370 / 4.
Definition MASKED : Z := 0x00010000.
Definition TICR : Z := 0x0380 / 4.
Definition TDCR : Z := 0x03E0 / 4.

Class LapicOps (L : Type) : Type := {
  lwrite : Z -> Z -> L -> L;
  lread : Z -> L -> Z * L }.

Section Code.
Context {L : Type} `{LapicOps L}.

Definition lapicw (index value : Z) (l : L) : L := snd (lread ID (lwrite index value l)).

(** [while(lapic[ICRLO] & DELIVS)]. *)
Fixpoint await_delivery (fuel : nat) (l : L) : res L :=
  match fuel with
  | O => NoFuel
  | S fuel => let '(v, l) := lread ICRLO l in if Z.land v DELIVS =? 0 then Ok l else await_delivery fuel l
  end.

Definition lapicinit (fuel : nat) (lapic : option L) : res (option L) :=
  match lapic with
  | None => Ok None
  | Some l =>
      let l := lapicw SVR (Z.lor ENABLE (T_IRQ0 + IRQ_SPURIOUS)) l in
      let l := lapicw TDCR X1 l in
      let l := lapicw TIMER (Z.lor PERIODIC (T_IRQ0 + IRQ_TIMER)) l in
      let l := lapicw TICR 10000000 l in
      let l := lapicw LINT0 MASKED l in
      let l := lapicw LINT1 MASKED l in
      let '(v, l) := lread VER l in
      let l := if 4 <=? Z.land (Z.shiftr v 16) 0xFF then lapicw PCINT MASKED l else l in
      let l := lapicw ERROR (T_IRQ0 + IRQ_ERROR) l in
      let l := lapicw ESR 0 l in
      let l := lapicw ESR 0 l in
      let l := lapicw EOI 0 l in
      let l := lapicw ICRHI 0 l in
      let l := lapicw ICRLO (Z.lor (Z.lor BCAST INIT) LEVEL) l in
      l ← await_delivery fuel l;
      Ok (Some (lapicw TPR 0 l))
  end.

(** The loop of [cpunum] over [cpus]. *)
Fixpoint find_cpu (ids : list Z) (i apicid : Z) : option Z :=
  match ids with
  | [] => None
  | id :: ids => if id =? apicid then Some i else find_cpu ids (i + 1) apicid
  end.

(** [cpunum], called with interrupts off. *)
Definition cpunum (s : mpstate) (lapic : option L) : res (Z * option L) :=
  match lapic with
  | None => Ok (0, None)
  | Some l =>
      let '(v, l) := lread ID l in
      match find_cpu (take (Z.to_nat (ncpu s)) (cpus s)) 0 (Z.shiftr v 24) with
      | Some i => Ok (i, Some l)
      | None => Panic "unknown apicid"
      end
  end.

Definition lapiceoi (lapic : option L) : option L :=
  match lapic with Some l => Some (lapicw EOI 0 l) | None => None end.

(** [lapicstartap(apicid, addr)]: [ports] are the bytes sent to the CMOS ports, [m]
    is the memory that holds the warm reset vector. *)
Definition startup (apicid addr : Z) (l : L) : L :=
  let l := lapicw ICRHI (u32 (Z.shiftl apicid 24)) l in
  lapicw ICRLO (Z.lor STARTUP (Z.shiftr addr 12)) l.

Definition lapicstartap (apicid addr : Z) (s : list (Z * Z) * mem * L) : list (Z * Z) * mem * L :=
  let '(ports, m, l) := s in
  let ports := ports ++ [(0x70, 0xF); (0x71, 0x0A)] in
  let wrv := P2V (Z.lor (Z.shiftl 0x40 4) 0x67) in
  let m := store_le 2 m wrv 0 in
  let m := store_le 2 m (wrv + 2) (u16 (Z.shiftr addr 4)) in
  let l := lapicw ICRHI (u32 (Z.shiftl apicid 24)) l in
  let l := lapicw ICRLO (Z.lor (Z.lor INIT LEVEL) ASSERT) l in
  let l := lapicw ICRLO (Z.lor INIT LEVEL) l in
  let l := startup apicid addr l in
  let l := startup apicid addr l in
  (ports, m, l).

End Code.

(** * The real-time clock *)

Record rtcdate : Type := mkRtc {
  second : Z; minute : Z; hour : Z; day : Z; month : Z; year : Z }.
#[export] Instance rtcdate_eq_dec : EqDecision rtcdate.
Proof. solve_decision. Defined.

Class RtcOps (R : Type) : Type := {
  rtc_select : Z -> R -> R;
  rtc_data : R -> Z * R }.

Section Clock.
Context {R : Type} `{RtcOps R}.

Definition cmos_read (reg : Z) (r : R) : Z * R := rtc_data (rtc_select reg r).

Definition fill_rtcdate (r : R) : rtcdate * R :=
  let '(s, r) := cmos_read 0x00 r in
  let '(m, r) := cmos_read 0x02 r in
  let '(h, r) := cmos_read 0x04 r in
  let '(d, r) := cmos_read 0x07 r in
  let '(mo, r) := cmos_read 0x08 r in
  let '(y, r) := cmos_read 0x09 r in
  (mkRtc s m h d mo y, r).

(** The loop: until two readings agree. *)
Fixpoint read_twice (fuel : nat) (r : R) : res (rtcdate * R) :=
  match fuel with
  | O => NoFuel
  | S fuel =>
      let '(t1, r) := fill_rtcdate r in
      let '(sa, r) := cmos_read 0x0a r in
      if negb (Z.land sa (2 ^ 7) =? 0) then read_twice fuel r
      else
        let '(t2, r) := fill_rtcdate r in
        if decide (t1 = t2) then Ok (t1, r) else read_twice fuel r
  end.

Definition CONV (x : Z) : Z := Z.shiftr x 4 * 10 + Z.land x 0xf.

Definition cmostime (fuel : nat) (r : R) : res (rtcdate * R) :=
  let '(sb, r) := cmos_read 0x0b r in
  let bcd := Z.land sb (2 ^ 2) =? 0 in
  '(t1, r) ← read_twice fuel r;
  let t1 := if bcd
            then mkRtc (CONV (second t1)) (CONV (minute t1)) (CONV (hour t1)) (CONV (day t1)) (CONV (month t1)) (CONV (year t1))
            else t1 in
  Ok (mkRtc (second t1) (minute t1) (hour t1) (day t1) (month t1) (year t1 + 2000), r).

End Clock.

(** * What the hardware promises *)

(** The registers that only hold what is written to them. *)
Definition plain_reg (i : Z) : bool :=
  bool_decide (i ∈ [TPR; SVR; ICRHI; TIMER; PCINT; LINT0; LINT1; ERROR; TICR; TDCR]).

(** The values held, the commands sent to other processors (with the destination
    word of each), and the interrupts acknowledged. *)
Record lview : Type := mkLview {
  lv_reg : Z -> Z;
  lv_ipis : list (Z * Z);
  lv_eois : Z }.

Definition write_view (i v : Z) (w : lview) : lview :=
  if plain_reg i then mkLview (fun x => if x =? i then v else lv_reg w x) (lv_ipis w) (lv_eois w)
  else if i =? ICRLO then mkLview (lv_reg w) (lv_ipis w ++ [(lv_reg w ICRHI, v)]) (lv_eois w)
  else if i =? EOI then mkLview (lv_reg w) (lv_ipis w) (lv_eois w + 1)
  else w.

(** Some of the next [n] readings of the command register says delivered. *)
Fixpoint delivered_within {L} `{LapicOps L} (n : nat) (l : L) : bool :=
  match n with
  | O => false
  | S n => let '(v, l) := lread ICRLO l in (Z.land v DELIVS =? 0) || delivered_within n l
  end.

Class Lapic (L : Type) `{LapicOps L} : Type := {
  lapic_view : L -> lview;
  apic_id : Z;
  apic_id_range : 0 <= apic_id < 2 ^ 8;
  lapic_patience : nat;
  lview_write : forall i v l, lapic_view (lwrite i v l) = write_view i v (lapic_view l);
  lview_read : forall i l, lapic_view (snd (lread i l)) = lapic_view l;
  lread_id : forall l, Z.shiftr (fst (lread ID l)) 24 = apic_id;
  delivers : forall l, delivered_within lapic_patience l = true }.

Section Facts.
Context {L : Type} `{Lapic L}.

Lemma lapicw_view i v (l : L) : lapic_view (lapicw i v l) = write_view i v (lapic_view l).
Proof. unfold lapicw. by rewrite lview_read, lview_write. Qed.

Lemma lapicw_hold i v (l : L) : plain_reg i = true ->
  lapic_view (lapicw i v l)
  = mkLview (fun x => if x =? i then v else lv_reg (lapic_view l) x) (lv_ipis (lapic_view l)) (lv_eois (lapic_view l)).
Proof. intros E. rewrite lapicw_view. unfold write_view. by rewrite E. Qed.

Lemma lapicw_command v (l : L) : lapic_view (lapicw ICRLO v l)
  = mkLview (lv_reg (lapic_view l)) (lv_ipis (lapic_view l) ++ [(lv_reg (lapic_view l) ICRHI, v)]) (lv_eois (lapic_view l)).
Proof. by rewrite lapicw_view. Qed.

Lemma lapicw_eoi v (l : L) : lapic_view (lapicw EOI v l)
  = mkLview (lv_reg (lapic_view l)) (lv_ipis (lapic_view l)) (lv_eois (lapic_view l) + 1).
Proof. by rewrite lapicw_view. Qed.

Lemma lapicw_esr v (l : L) : lapic_view (lapicw ESR v l) = lapic_view l.
Proof. by rewrite lapicw_view. Qed.

Lemma await_ok n (l : L) : delivered_within n l = true -> exists l', await_delivery n l = Ok l' /\ lapic_view l' = lapic_view l.
Proof.
  revert l. induction n as [|n IH]; intros l; cbn [delivered_within await_delivery]; [done|].
  pose proof (lview_read ICRLO l) as Hv. destruct (lread ICRLO l) as [v l1]. cbn [snd] in Hv.
  destruct (Z.land v DELIVS =? 0); cbn [orb]; [intros _; by exists l1|]. intros Hd.
  destruct (IH l1 Hd) as (l' & E & Hl'). exists l'. split; [done|]. by rewrite Hl'.
Qed.

(** After [lapicinit] the controller is on, its timer interrupts periodically on the
    timer's vector, the two external lines are masked, errors and spurious
    interrupts have their vectors, no priority holds interrupts back, one
    interrupt is acknowledged and one command has been broadcast. *)
Theorem lapicinit_ok (l : L) : exists l', lapicinit lapic_patience (Some l) = Ok (Some l') /\
  let w := lapic_view l in let w' := lapic_view l' in
  lv_reg w' SVR = 0x13F /\ lv_reg w' TIMER = 0x20020 /\ lv_reg w' TDCR = 0xB /\ lv_reg w' TICR = 10000000
  /\ lv_reg w' LINT0 = 0x10000 /\ lv_reg w' LINT1 = 0x10000 /\ lv_reg w' ERROR = 51 /\ lv_reg w' TPR = 0
  /\ lv_eois w' = lv_eois w + 1 /\ lv_ipis w' = lv_ipis w ++ [(0, 0x88500)].
Proof.
  unfold lapicinit. cbv zeta. match goal with |- context [lread VER ?x] => set (l1 := x) end. pose proof (lview_read VER l1) as Hv.
  destruct (lread VER l1) as [v l2]. cbn [snd] in Hv. match goal with |- context [lapicw ERROR _ ?x] => set (l3 := x) end.
  assert ((forall x, x <> PCINT -> lv_reg (lapic_view l3) x = lv_reg (lapic_view l1) x)
    /\ lv_ipis (lapic_view l3) = lv_ipis (lapic_view l1) /\ lv_eois (lapic_view l3) = lv_eois (lapic_view l1)) as (Hr & Hp & He).
  { unfold l3. destruct (4 <=? _); [|by rewrite Hv]. rewrite lapicw_hold, Hv by reflexivity. cbn [lv_reg lv_ipis lv_eois].
    split; [|done]. intros x Hx. by replace (x =? PCINT) with false by lia. }
  match goal with |- context [await_delivery _ ?x] => set (l4 := x) end.
  destruct (await_ok lapic_patience l4 (delivers l4)) as (l5 & -> & Hl5). cbn [mbind res_bind].
  eexists. split; [reflexivity|]. cbv zeta. rewrite lapicw_hold, Hl5 by reflexivity. unfold l4.
  rewrite lapicw_command, (lapicw_hold ICRHI), lapicw_eoi, !lapicw_esr, (lapicw_hold ERROR) by reflexivity.
  cbn [lv_reg lv_ipis lv_eois]. rewrite Hp, He, !Hr by done. unfold l1. rewrite !lapicw_hold by reflexivity.
  cbn [lv_reg lv_ipis lv_eois]. split_and!; reflexivity.
Qed.

Lemma find_cpu_ok ids i : forall k, NoDup ids -> ids !! i = Some apic_id -> find_cpu ids k apic_id = Some (k + Z.of_nat i).
Proof.
  revert i. induction ids as [|id ids IH]; intros i k Hnd Hi; [done|]. apply NoDup_cons in Hnd as [Hni Hnd]. cbn [find_cpu].
  destruct i as [|i]; cbn in Hi.
  - injection Hi as ->. by rewrite Z.eqb_refl, Z.add_0_r.
  - destruct (Z.eqb_spec id apic_id) as [->|]; [by apply list_elem_of_lookup_2 in Hi|]. rewrite (IH i) by done. f_equal. lia.
Qed.

(** [cpunum] is the place of this processor in the table. *)
Lemma cpunum_ok s (l : L) i : NoDup (take (Z.to_nat (ncpu s)) (cpus s)) ->
  take (Z.to_nat (ncpu s)) (cpus s) !! i = Some apic_id ->
  exists l', cpunum s (Some l) = Ok (Z.of_nat i, Some l') /\ lapic_view l' = lapic_view l.
Proof.
  intros Hnd Hi. unfold cpunum. pose proof (lread_id l) as Hid. pose proof (lview_read ID l) as Hv.
  destruct (lread ID l) as [v l1]. cbn [fst snd] in Hid, Hv. rewrite Hid, (find_cpu_ok _ i) by done. by exists l1.
Qed.

(** The commands that start a processor: reset, end of reset, and twice the page of
    the code to run. *)
Definition start_ipis (apicid addr : Z) : list (Z * Z) :=
  let d := apicid * 2 ^ 24 in [(d, 0xC500); (d, 0x8500); (d, Z.lor 0x600 (addr / 2 ^ 12)); (d, Z.lor 0x600 (addr / 2 ^ 12))].

Lemma lapicstartap_ok apicid addr ports m (l : L) : 0 <= apicid < 2 ^ 8 -> 0 <= addr < 2 ^ 20 ->
  exists l', lapicstartap apicid addr (ports, m, l)
    = (ports ++ [(0x70, 0xF); (0x71, 0x0A)],
       store_le 2 (store_le 2 m (P2V 0x467) 0) (P2V 0x467 + 2) (addr / 2 ^ 4), l')
  /\ lv_ipis (lapic_view l') = lv_ipis (lapic_view l) ++ start_ipis apicid addr.
Proof.
  intros Hi Ha. unfold lapicstartap, startup. cbv zeta. rewrite !Z.shiftl_mul_pow2, !Z.shiftr_div_pow2 by lia.
  assert (u16 (addr / 2 ^ 4) = addr / 2 ^ 4) as ->.
  { unfold u16. apply Z.mod_small. split; [apply Z.div_pos|apply Z.div_lt_upper_bound]; lia. }
  rewrite u32_id by lia. eexists. split; [reflexivity|]. rewrite lapicw_command, (lapicw_hold ICRHI), lapicw_command, (lapicw_hold ICRHI), !lapicw_command, (lapicw_hold ICRHI) by reflexivity.
  cbn [lv_reg lv_ipis lv_eois]. change (ICRHI =? ICRHI) with true. cbv iota. rewrite <- !app_assoc. reflexivity.
Qed.

End Facts.

(** * Reading the clock *)

(** The next [n] registers read hold [F]. *)
Fixpoint steady {R} `{RtcOps R} (n : nat) (F : Z -> Z) (r : R) : Prop :=
  match n with
  | O => True
  | S n => forall reg, fst (cmos_read reg r) = F reg /\ steady n F (snd (cmos_read reg r))
  end.

(** Two decimal digits in a byte. *)
Definition bcd (z : Z) : Z := 16 * (z / 10) + z mod 10.

Lemma CONV_bcd z : 0 <= z < 100 -> CONV (bcd z) = z.
Proof.
  intros Hz. assert (0 <= z mod 10 < 10) by (apply Z.mod_pos_bound; lia). unfold CONV, bcd.
  change 0xf with (Z.ones 4). rewrite Z.land_ones, Z.shiftr_div_pow2 by lia. Z.div_mod_to_equations. lia.
Qed.

Definition date_regs (F : Z -> Z) : rtcdate := mkRtc (F 0x00) (F 0x02) (F 0x04) (F 0x07) (F 0x08) (F 0x09).

Section Clock.
Context {R : Type} `{RtcOps R}.

Lemma steady_step n F (r : R) reg : steady (S n) F r -> exists r', cmos_read reg r = (F reg, r') /\ steady n F r'.
Proof. intros Hs. destruct (Hs reg) as [E Hn]. exists (snd (cmos_read reg r)). by rewrite <- E, <- surjective_pairing. Qed.

Lemma fill_ok n F (r : R) : steady (6 + n) F r -> exists r', fill_rtcdate r = (date_regs F, r') /\ steady n F r'.
Proof.
  intros Hs. unfold fill_rtcdate.
  do 6 (edestruct steady_step as (? & -> & Hs'); [exact Hs|]; clear Hs; rename Hs' into Hs). by eexists.
Qed.

(** A clock that stands still while it is read and is not updating gives its date:
    two-digit fields, in the encoding its mode says, of a year of this century. *)
Theorem cmostime_ok F (r : R) (t : rtcdate) fuel : steady 14 F r -> (0 < fuel)%nat -> Z.land (F 0x0a) (2 ^ 7) = 0 ->
  let enc z := if Z.land (F 0x0b) (2 ^ 2) =? 0 then bcd z else z in
  Forall (fun z => 0 <= z < 100) [second t; minute t; hour t; day t; month t; year t - 2000] ->
  date_regs F = mkRtc (enc (second t)) (enc (minute t)) (enc (hour t)) (enc (day t)) (enc (month t)) (enc (year t - 2000)) ->
  exists r', cmostime fuel r = Ok (t, r').
Proof.
  intros Hs Hf Hu enc Ht Hd. destruct fuel as [|fuel]; [lia|]. unfold cmostime.
  edestruct steady_step as (r0 & -> & Hs0); [exact Hs|]. cbn [read_twice].
  destruct (fill_ok 7 F r0 Hs0) as (r1 & -> & Hs1). edestruct steady_step as (r2 & -> & Hs2); [exact Hs1|]. rewrite Hu.
  destruct (fill_ok 0 F r2 Hs2) as (r3 & -> & _). cbn [Z.eqb negb]. rewrite decide_True by done. cbn [mbind res_bind].
  exists r3. do 2 f_equal. rewrite Hd. unfold enc. rewrite !Forall_cons in Ht. destruct Ht as (? & ? & ? & ? & ? & ? & _).
  destruct (Z.land (F 0x0b) (2 ^ 2) =? 0); cbn [second minute hour day month year]; rewrite ?CONV_bcd by done.
  all: destruct t; cbn [second minute hour day month year] in *; f_equal; lia.
Qed.

End Clock.
