(* ===== verification/Smp.v ===== *)
(** Model of src/main.c: starting the other processors.

    [image] and [size] are where the linker put the code of entryother.S, [entry]
    the address [entry32mp].  The processor waits for the variable [started] of each
    processor; [reads] are the values it finds there, in order.  A processor that
    has been started runs the code at 0x7000, which loads its entry point and stack
    from the words below that address, before it sets [started]: [entered] records
    what each has found. *)
From stdpp Require Import base strings numbers list.
From S2P Require Import Prelude CString Locks Kalloc Vm Mp Lapic.
Local Open Scope Z_scope.

Record smp (L : Type) : Type := mkSmp {
  s_kmem : kmem;
  s_ports : list (Z * Z);
  s_lapic : option L;
  s_reads : list Z;
  s_entered : list (Z * Z * Z) }.
Arguments mkSmp {L} _ _ _ _ _.
Arguments s_kmem {L} _.
Arguments s_ports {L} _.
Arguments s_lapic {L} _.
Arguments s_reads {L} _.
Arguments s_entered {L} _.

Section Code.
Context {L : Type} `{LapicOps L}.

(** [while(c->started == 0)]. *)
Fixpoint wait_started (reads : list Z) : res (list Z) :=
  match reads with
  | [] => NoFuel
  | v :: reads => if v =? 0 then wait_started reads else Ok reads
  end.

(** The body of the loop for the processor [apicid]. *)
Definition start_one (code entry apicid : Z) (s : smp L) : res (smp L) :=
  '(stack, k) ← kalloc (s_kmem s);
  let m := store_le 4 (ram k) (code - 4) 0x8000 in
  let m := store_le 4 m (code - 8) (u32 (V2P entry)) in
  let m := store64 m (code - 16) (u64 (stack + KSTACKSIZE)) in
  match s_lapic s with
  | None => Fault
  | Some l =>
      let '(ports, m, l) := lapicstartap apicid (u32 (V2P code)) (s_ports s, m, l) in
      reads ← wait_started (s_reads s);
      Ok (mkSmp (mkKmem (use_lock k) (freelist k) m) ports (Some l) reads
            (s_entered s ++ [(apicid, load64 m (code - 16), load_le 4 m (code - 8))]))
  end.

Fixpoint start_loop (mp : mpstate) (code entry : Z) (ids : list Z) (i : Z) (s : smp L) : res (smp L) :=
  match ids with
  | [] => Ok s
  | id :: ids =>
      '(me, la) ← cpunum mp (s_lapic s);
      let s := mkSmp (s_kmem s) (s_ports s) la (s_reads s) (s_entered s) in
      s ← (if i =? me then Ok s else start_one code entry id s);
      start_loop mp code entry ids (i + 1) s
  end.

Definition startothers (mp : mpstate) (image size entry : Z) (s : smp L) : res (smp L) :=
  let code := P2V 0x7000 in
  let k := s_kmem s in
  let m := memmove (ram k) code image size in
  start_loop mp code entry (take (Z.to_nat (ncpu mp)) (cpus mp)) 0
    (mkSmp (mkKmem (use_lock k) (freelist k) m) (s_ports s) (s_lapic s) (s_reads s) (s_entered s)).

End Code.

(** * All processors start *)

Definition code_page : Z := KERNBASE + 0x7000.

Lemma wait_started_ok reads n : (S n <= length (filter (fun v => v <> 0%Z) reads))%nat ->
  exists reads', wait_started reads = Ok reads' /\ (n <= length (filter (fun v => v <> 0%Z) reads'))%nat.
Proof.
  induction reads as [|v reads IH]; [cbn; lia|]. rewrite filter_cons. cbn [wait_started].
  destruct (Z.eqb_spec v 0) as [->|Hv]; [by rewrite decide_False by auto|]. rewrite decide_True by done. cbn [length].
  intros Hn. exists reads. split; [done|lia].
Qed.

Section Start.
Context {L : Type} `{Lapic L} (end_ entry : Z) (Hend : KERNBASE + 0x8000 <= end_).

(** Writes below the first page leave the free pages alone. *)
Lemma low_write k l m : kmem_inv end_ k l -> (forall a, end_ <= a -> m a = ram k a) ->
  kmem_inv end_ (mkKmem (use_lock k) (freelist k) m) l.
Proof.
  intros [Hc Hn Hp] Hm. split; cbn [ram freelist]; try done. apply (chain_ext end_ (ram k)); [done| |done].
  intros v a Hv Ha. apply Hm. rewrite Forall_forall in Hp. destruct (Hp v Hv) as (_ & Hlo & _). lia.
Qed.

(** What is stored and loaded again below the code. *)
Lemma params_loaded m stack e a : 0 <= stack < 2 ^ 64 -> 0 <= e < 2 ^ 32 ->
  let m' := store_le 2 (store_le 2 (store64 (store_le 4 (store_le 4 m (code_page - 4) 0x8000) (code_page - 8) e) (code_page - 16) stack)
              (KERNBASE + 0x467) 0) (KERNBASE + 0x467 + 2) a in
  load64 m' (code_page - 16) = stack /\ load_le 4 m' (code_page - 8) = e /\ forall x, end_ <= x -> m' x = m x.
Proof.
  intros Hs He m'. unfold m', load64, store64, code_page in *. split; [|split].
  - rewrite (load_le_ext 8 _ (store_le 8 (store_le 4 (store_le 4 m (KERNBASE + 0x7000 - 4) 0x8000) (KERNBASE + 0x7000 - 8) e) (KERNBASE + 0x7000 - 16) stack)).
    + by apply load_store_le.
    + intros b Hb. by rewrite !(store_le_other 2) by lia.
  - rewrite (load_le_ext 4 _ (store_le 4 (store_le 4 m (KERNBASE + 0x7000 - 4) 0x8000) (KERNBASE + 0x7000 - 8) e)).
    + by apply load_store_le.
    + intros b Hb. rewrite !(store_le_other 2), (store_le_other 8) by lia. done.
  - intros x Hx. by rewrite !store_le_other by lia.
Qed.

(** What a started processor finds: its stack and the entry point. *)
Definition found (id stack : Z) : Z * Z * Z := (id, stack + KSTACKSIZE, u32 (V2P entry)).

(** Where the loop stands: the stacks still free, the processors entered, the
    commands sent and the answers left. *)
Record starting (s : smp L) (free : list Z) (done : list (Z * Z * Z)) (ipis : list (Z * Z)) (todo : nat) : Prop := {
  st_free : kmem_inv end_ (s_kmem s) free;
  st_entered : s_entered s = done;
  st_lapic : exists l, s_lapic s = Some l /\ lv_ipis (lapic_view l) = ipis;
  st_reads : (todo <= length (filter (fun v => v <> 0%Z) (s_reads s)))%nat }.

Lemma start_one_ok s id v free d ipis n : 0 <= id < 2 ^ 8 -> starting s (v :: free) d ipis (S n) ->
  exists s', start_one code_page entry id s = Ok s'
  /\ starting s' free (d ++ [found id v]) (ipis ++ start_ipis id 0x7000) n.
Proof.
  intros Hid [Hk He (l & Hl & Hip) Hr]. unfold start_one. destruct (kalloc_spec end_ _ _ _ Hk) as (k' & -> & Hk' & _ & Hpg & _).
  cbn [mbind res_bind]. rewrite Hl. change (u32 (V2P code_page)) with 0x7000.
  pose proof (page_range _ _ Hpg) as Hv. destruct Hpg as (_ & _ & Hv').
  assert (u64 (v + KSTACKSIZE) = v + KSTACKSIZE) as -> by (apply u64_id; unfold KSTACKSIZE, KERNBASE, PHYSTOP in *; lia).
  match goal with |- context [lapicstartap id _ (_, ?m, l)] => destruct (lapicstartap_ok id 0x7000 (s_ports s) m l Hid) as (l' & -> & Hl'); [lia|] end.
  destruct (wait_started_ok _ _ Hr) as (reads' & -> & Hr'). cbn [mbind res_bind]. change (P2V 0x467) with (KERNBASE + 0x467).
  destruct (params_loaded (ram k') (v + KSTACKSIZE) (u32 (V2P entry)) (0x7000 / 2 ^ 4)) as (E1 & E2 & E3);
    [unfold KSTACKSIZE, KERNBASE, PHYSTOP in *; lia|apply u32_range|].
  rewrite E1, E2. eexists. split; [reflexivity|]. split; cbn [s_kmem s_entered s_lapic s_reads].
  - by apply low_write.
  - by rewrite He.
  - exists l'. split; [done|]. by rewrite Hl', Hip.
  - done.
Qed.

(** The processors of the table but this one, whose place is [me]. *)
Definition others (ids : list Z) : list Z := filter (fun id => id <> apic_id) ids.

Lemma start_loop_ok mp me : NoDup (take (Z.to_nat (ncpu mp)) (cpus mp)) ->
  take (Z.to_nat (ncpu mp)) (cpus mp) !! me = Some apic_id -> forall ids i s stacks free d ipis,
  (forall k id, ids !! k = Some id -> take (Z.to_nat (ncpu mp)) (cpus mp) !! (i + k)%nat = Some id) ->
  Forall (fun id => 0 <= id < 2 ^ 8) ids -> length stacks = length (others ids) -> starting s (stacks ++ free) d ipis (length stacks) ->
  exists s', start_loop mp code_page entry ids (Z.of_nat i) s = Ok s'
  /\ starting s' free (d ++ zip_with found (others ids) stacks) (ipis ++ concat ((fun id => start_ipis id 0x7000) <$> others ids)) 0.
Proof.
  intros Hnd Hme. induction ids as [|id ids IH]; intros i s stacks free d ipis Hids Hb Hlen Hs.
  { destruct stacks; [|done]. cbn in *. exists s. by rewrite !app_nil_r. }
  apply Forall_cons in Hb as [Hid Hb]. cbn [start_loop]. destruct Hs as [Hk He (l & Hl & Hip) Hr]. rewrite Hl.
  destruct (cpunum_ok mp l me Hnd Hme) as (l1 & -> & Hv1). cbn [mbind res_bind].
  set (s1 := mkSmp _ _ (Some l1) _ _). assert (starting s1 (stacks ++ free) d ipis (length stacks)) as Hs1.
  { split; try done. exists l1. split; [done|]. by rewrite Hv1. }
  assert (forall k x, ids !! k = Some x -> take (Z.to_nat (ncpu mp)) (cpus mp) !! (S i + k)%nat = Some x) as Hids'.
  { intros k x Hk'. replace (S i + k)%nat with (i + S k)%nat by lia. by apply Hids. }
  replace (Z.of_nat i + 1) with (Z.of_nat (S i)) by lia. pose proof (Hids 0%nat id eq_refl) as Hi. rewrite Nat.add_0_r in Hi.
  unfold others in Hlen |- *. rewrite filter_cons in Hlen |- *. destruct (Z.eqb_spec (Z.of_nat i) (Z.of_nat me)) as [E|Hne].
  - replace i with me in Hi by lia. rewrite Hme in Hi. injection Hi as <-. rewrite decide_False in Hlen |- * by auto.
    by apply IH.
  - rewrite decide_True in Hlen |- *.
    2, 3: intros ->; apply Hne; f_equal; by apply (NoDup_lookup _ _ _ _ Hnd Hi).
    destruct stacks as [|v stacks]; [done|]. destruct (start_one_ok s1 id v (stacks ++ free) d ipis (length stacks) Hid Hs1) as (s2 & -> & Hs2).
    cbn [mbind res_bind]. destruct (IH (S i) s2 stacks free _ _ Hids' Hb ltac:(by injection Hlen) Hs2) as (s' & -> & Hs').
    exists s'. split; [done|]. cbn [zip_with fmap list_fmap concat]. by rewrite <- !app_assoc in Hs'.
Qed.

End Start.

(** [startothers] starts every other processor exactly once, in the order of the
    table: each is sent the reset and start-up commands for the page of the start
    code, and enters the kernel on a stack of its own, a page no longer free, that
    no later processor's parameters replace before it has been read.  It returns if
    each processor reports in the end. *)
Theorem startothers_starts_all {L} `{Lapic L} end_ (mp : mpstate) image size entry (s : smp L) l me stacks free :
  let ids := take (Z.to_nat (ncpu mp)) (cpus mp) in
  KERNBASE + 0x8000 <= end_ -> 0 <= size <= 0x1000 -> (forall a, is_u8 (ram (s_kmem s) a)) ->
  NoDup ids -> ids !! me = Some apic_id -> Forall is_u8 ids -> s_lapic s = Some l ->
  kmem_inv end_ (s_kmem s) (stacks ++ free) -> length stacks = length (others ids) ->
  (length stacks <= length (filter (fun v => v <> 0%Z) (s_reads s)))%nat ->
  exists s' l', startothers mp image size entry s = Ok s'
  /\ s_entered s' = s_entered s ++ zip_with (found entry) (others ids) stacks
  /\ NoDup stacks /\ kmem_inv end_ (s_kmem s') free
  /\ s_lapic s' = Some l' /\ lv_ipis (lapic_view l') = lv_ipis (lapic_view l) ++ concat ((fun id => start_ipis id 0x7000) <$> others ids).
Proof.
  intros ids Hend Hsz Hu Hnd Hme Hb Hl Hk Hlen Hr. unfold startothers. cbv zeta. change (P2V 0x7000) with code_page.
  match goal with |- context [start_loop _ _ _ _ _ ?x] => set (s0 := x) end.
  destruct (start_loop_ok end_ entry Hend mp me Hnd Hme ids 0 s0 stacks free (s_entered s) (lv_ipis (lapic_view l)))
    as (s' & E & [Hk' He' (l' & Hl' & Hp') _]); [done|done|done| |].
  - split; cbn [s0 s_kmem s_entered s_lapic s_reads]; try done; [|by exists l].
    apply low_write; [done|]. intros a Ha. rewrite memmove_correct by (done || lia).
    replace (_ && _) with false by (unfold code_page; lia). done.
  - exists s', l'. split; [done|]. split; [done|]. split; [|done]. apply ki_nodup in Hk. by apply NoDup_app in Hk as [Hk _].
Qed.

(** A local APIC that delivers at once. *)
Record lsim : Type := mkLsim { sim_view : lview }.
#[export] Instance lsim_ops : LapicOps lsim := {
  lwrite i v l := mkLsim (write_view i v (sim_view l));
  lread i l := (if i =? ID then 3 * 2 ^ 24 else 0, l) }.
#[export] Instance lsim_lapic : Lapic lsim.
Proof. refine {| lapic_view := sim_view; apic_id := 3; lapic_patience := 1%nat |}; try done. Defined.

Definition one_cpu_page : kmem := mkKmem false (KERNBASE + 0x10000) (fun _ => 0).
Lemma one_cpu_page_inv : kmem_inv (KERNBASE + 0x8000) one_cpu_page [KERNBASE + 0x10000].
Proof. split; [done|apply NoDup_singleton|]. apply Forall_singleton. unfold page, KERNBASE, PHYSTOP, PGSIZE. dlia. Qed.

Lemma startothers_starts_all_witness : exists s',
  startothers (mkMp [3; 5; 0; 0; 0; 0; 0; 0] 2 0 0 []) (KERNBASE + 0x100000) 80 (KERNBASE + 0x100050)
    (mkSmp one_cpu_page [] (Some (mkLsim (mkLview (fun _ => 0) [] 0))) [0; 0; 1] []) = Ok s'
  /\ s_entered s' = [(5, KERNBASE + 0x11000, 0x100050)].
Proof.
  destruct (startothers_starts_all (KERNBASE + 0x8000) (mkMp [3; 5; 0; 0; 0; 0; 0; 0] 2 0 0 []) (KERNBASE + 0x100000) 80 (KERNBASE + 0x100050)
    (mkSmp one_cpu_page [] (Some (mkLsim (mkLview (fun _ => 0) [] 0))) [0; 0; 1] [])
    (mkLsim (mkLview (fun _ => 0) [] 0)) 0 [KERNBASE + 0x10000] []) as (s' & l' & E & He & _).
  - lia.
  - lia.
  - intros a. cbn. unfold is_u8. lia.
  - apply (bool_decide_unpack _). vm_compute. exact I.
  - reflexivity.
  - repeat constructor; cbn; lia.
  - reflexivity.
  - apply one_cpu_page_inv.
  - reflexivity.
  - vm_compute. lia.
  - exists s'. split; [exact E|]. rewrite He. reflexivity.
Defined.
