(* ===== verification/Segments.v ===== *)
(** Model of [seginit] and [syscallinit] of src/vm.c with the segments of src/mmu.h:
    the processor's descriptor table, its local storage and its system call
    registers.

    The table is built in a page of the page allocator.  [cpus] is the address of the
    array [cpus], [n] the number of this processor; [locals] holds the fields
    [local].  [msrs] are the model-specific registers written, in order; [gdtr] and
    [tr] are what [lgdt] and [ltr] load.  The variables [cpu] and [proc] live 16 and
    8 bytes below the address in the FS register. *)
From stdpp Require Import base strings numbers list.
From S2P Require Import Prelude CString Locks Kalloc Trap.
Local Open Scope Z_scope.

Definition SEG_KCODE : Z := 1.
Definition SEG_KDATA : Z := 2.
Definition SEG_UCODE32 : Z := 3.
Definition SEG_UDATA : Z := 4.
Definition SEG_UCODE : Z := 5.
Definition SEG_KCPU : Z := 6.
Definition SEG_TSS : Z := 7.
Definition NSEGS : Z := 8.
Definition APP_SEG : Z := 1.
Definition STA_X : Z := 8.
Definition STA_W : Z := 2.
Definition STA_R : Z := 2.
Definition STS_T64A : Z := 9.
Definition USER_CS : Z := Z.lor (Z.shiftl SEG_UCODE 3) DPL_USER.
Definition USER_DS : Z := Z.lor (Z.shiftl SEG_UDATA 3) DPL_USER.
Definition USER32_CS : Z := Z.lor (Z.shiftl SEG_UCODE32 3) DPL_USER.
Definition MSR_STAR : Z := 0xC0000081.
Definition MSR_LSTAR : Z := 0xC0000082.
Definition MSR_CSTAR : Z := 0xC0000083.
Definition MSR_SFMASK : Z := 0xC0000084.
Definition FL_TF : Z := 0x100.
Definition FL_IF : Z := 0x200.
Definition FL_DF : Z := 0x400.
Definition FL_IOPL_3 : Z := 0x3000.
Definition FL_NT : Z := 0x4000.
Definition FL_AC : Z := 0x40000.

Record segdesc : Type := mkSeg {
  lim_15_0 : Z; base_15_0 : Z; base_23_16 : Z; type_ : Z; s_ : Z; dpl : Z; p_ : Z;
  lim_19_16 : Z; avl : Z; rsv1 : Z; db : Z; g_ : Z; base_31_24 : Z }.

(** The eight bytes of a descriptor: the bit fields from the lowest on. *)
Definition seg_word (d : segdesc) : Z :=
  lim_15_0 d mod 2 ^ 16 + 2 ^ 16 * (base_15_0 d mod 2 ^ 16) + 2 ^ 32 * (base_23_16 d mod 2 ^ 8)
  + 2 ^ 40 * (type_ d mod 2 ^ 4) + 2 ^ 44 * (s_ d mod 2) + 2 ^ 45 * (dpl d mod 2 ^ 2) + 2 ^ 47 * (p_ d mod 2)
  + 2 ^ 48 * (lim_19_16 d mod 2 ^ 4) + 2 ^ 52 * (avl d mod 2) + 2 ^ 53 * (rsv1 d mod 2) + 2 ^ 54 * (db d mod 2)
  + 2 ^ 55 * (g_ d mod 2) + 2 ^ 56 * (base_31_24 d mod 2 ^ 8).

Definition SEG (type lim base sys dpl rsv : Z) : segdesc :=
  mkSeg (Z.land lim 0xffff) (Z.land (u32 base) 0xffff) (Z.land (Z.shiftr base 16) 0xff) type sys dpl 1
    (Z.shiftr lim 60) 0 rsv 0 1 (Z.shiftr base 24).

Record seg_state : Type := mkSegs {
  sk : kmem;
  locals : list Z;
  msrs : list (Z * Z);
  gdtr : Z * Z;
  tr : Z }.

Definition put_seg (gdt i word : Z) (m : mem) : mem := store64 m (gdt + 8 * i) word.
Definition sizeof_cpu : Z := 40.

Definition seginit (cpus n : Z) (s : seg_state) : res seg_state :=
  '(local, k) ← kalloc (sk s);
  let m := memset (ram k) local 0 PGSIZE in
  let gdt := local in
  let tss := local + 1024 in
  let m := store_le 4 m (tss + 4 * 16) 0x00680000 in
  let msrs := msrs s ++ [(0xC0000100, u64 (local + 2048))] in
  let locals := <[Z.to_nat n := local]> (locals s) in
  let m := store64 m (local + 2048 - 16) (cpus + sizeof_cpu * n) in
  let m := store64 m (local + 2048 - 8) 0 in
  let addr := tss in
  let m := put_seg gdt 0 0 m in
  let m := put_seg gdt SEG_KCODE (seg_word (SEG (Z.lor STA_X STA_R) 0 0 APP_SEG 0 1)) m in
  let m := put_seg gdt SEG_KDATA (seg_word (SEG STA_W 0 0 APP_SEG 0 0)) m in
  let m := put_seg gdt SEG_UCODE32 0 m in
  let m := put_seg gdt SEG_UDATA (seg_word (SEG STA_W 0 0 APP_SEG DPL_USER 0)) m in
  let m := put_seg gdt SEG_UCODE (seg_word (SEG (Z.lor STA_X STA_R) 0 0 APP_SEG DPL_USER 1)) m in
  let m := put_seg gdt SEG_KCPU 0 m in
  let m := put_seg gdt SEG_TSS (seg_word (SEG STS_T64A 0xb addr 0 DPL_USER 0)) m in
  let m := put_seg gdt (SEG_TSS + 1) (seg_word (SEG 0 (Z.shiftr addr 32) (Z.shiftr addr 48) 0 0 0)) m in
  Ok (mkSegs (mkKmem (use_lock k) (freelist k) m) locals msrs (gdt, (NSEGS + 1) * 8 - 1) (Z.shiftl SEG_TSS 3)).

Definition syscallinit (syscall_entry ignore_sysret : Z) (s : seg_state) : seg_state :=
  mkSegs (sk s) (locals s)
    (msrs s ++ [(MSR_STAR, Z.lor (Z.shiftl USER32_CS 48) (Z.shiftl KERNEL_CS 32));
                (MSR_LSTAR, syscall_entry);
                (MSR_CSTAR, ignore_sysret);
                (MSR_SFMASK, Z.lor (Z.lor (Z.lor (Z.lor (Z.lor FL_TF FL_DF) FL_IF) FL_IOPL_3) FL_AC) FL_NT)])
    (gdtr s) (tr s).

(** * What the processor finds *)

(** The descriptor a selector names. *)
Definition descriptor (m : mem) (gdtr : Z * Z) (sel : Z) : Z := load64 m (fst gdtr + 8 * (sel / 8)).
(** The base address in a 16-byte system descriptor. *)
Definition system_base (lo hi : Z) : Z :=
  lo / 2 ^ 16 mod 2 ^ 24 + 2 ^ 24 * (lo / 2 ^ 56 mod 2 ^ 8) + 2 ^ 32 * (hi mod 2 ^ 32).

Lemma load_le_other n k m a b v : a + Z.of_nat n <= b \/ b + Z.of_nat k <= a -> load_le n (store_le k m b v) a = load_le n m a.
Proof. intros Hd. apply load_le_ext. intros x Hx. apply store_le_other. lia. Qed.

Lemma mod_bound z k : 0 < k -> 0 <= z mod k < k.
Proof. apply Z.mod_pos_bound. Qed.

Lemma seg_word_range d : 0 <= seg_word d < 2 ^ 64.
Proof.
  unfold seg_word. pose proof (mod_bound (lim_15_0 d) (2 ^ 16)). pose proof (mod_bound (base_15_0 d) (2 ^ 16)).
  pose proof (mod_bound (base_23_16 d) (2 ^ 8)). pose proof (mod_bound (type_ d) (2 ^ 4)). pose proof (mod_bound (s_ d) 2).
  pose proof (mod_bound (dpl d) (2 ^ 2)). pose proof (mod_bound (p_ d) 2). pose proof (mod_bound (lim_19_16 d) (2 ^ 4)).
  pose proof (mod_bound (avl d) 2). pose proof (mod_bound (rsv1 d) 2). pose proof (mod_bound (db d) 2).
  pose proof (mod_bound (g_ d) 2). pose proof (mod_bound (base_31_24 d) (2 ^ 8)). lia.
Qed.

Lemma fields n x y z w : 0 <= x < 2 ^ 16 -> 0 <= y < 2 ^ 24 -> 0 <= z < 2 ^ 16 -> 0 <= w < 2 ^ 8 ->
  n = x + 2 ^ 16 * y + 2 ^ 40 * z + 2 ^ 56 * w -> n / 2 ^ 16 mod 2 ^ 24 = y /\ n / 2 ^ 56 mod 2 ^ 8 = w.
Proof.
  intros Hx Hy Hz Hw ->. split.
  - rewrite <- (Z.div_unique _ (2 ^ 16) (y + 2 ^ 24 * (z + 2 ^ 16 * w)) x) by lia. symmetry.
    apply (Z.mod_unique _ _ (z + 2 ^ 16 * w)); lia.
  - rewrite <- (Z.div_unique _ (2 ^ 56) w (x + 2 ^ 16 * y + 2 ^ 40 * z)) by lia. by apply Z.mod_small.
Qed.

(** An address in pieces of its bits. *)
Lemma split_addr a : 0 <= a < 2 ^ 64 ->
  a mod 2 ^ 16 + 2 ^ 16 * (a / 2 ^ 16 mod 2 ^ 8) + 2 ^ 24 * (a / 2 ^ 24 mod 2 ^ 8)
  + 2 ^ 32 * (a / 2 ^ 32 mod 2 ^ 16 + 2 ^ 16 * (a / 2 ^ 48)) = a.
Proof.
  intros Ha. pose proof (Z.rem_mul_r a (2 ^ 16) (2 ^ 8)) as E1. pose proof (Z.rem_mul_r a (2 ^ 24) (2 ^ 8)) as E2.
  pose proof (Z.rem_mul_r a (2 ^ 32) (2 ^ 16)) as E3. pose proof (Z.div_mod a (2 ^ 48)) as E4.
  change (2 ^ 16 * 2 ^ 8) with (2 ^ 24) in E1. change (2 ^ 24 * 2 ^ 8) with (2 ^ 32) in E2. change (2 ^ 32 * 2 ^ 16) with (2 ^ 48) in E3. lia.
Qed.

(** The two halves of the task state descriptor hold the address. *)
Lemma tss_base addr : 0 <= addr < 2 ^ 64 ->
  system_base (seg_word (SEG STS_T64A 0xb addr 0 DPL_USER 0)) (seg_word (SEG 0 (Z.shiftr addr 32) (Z.shiftr addr 48) 0 0 0)) = addr.
Proof.
  intros Ha. unfold seg_word, SEG. cbn [lim_15_0 base_15_0 base_23_16 type_ s_ dpl p_ lim_19_16 avl rsv1 db g_ base_31_24].
  change 0xffff with (Z.ones 16). change 0xff with (Z.ones 8). unfold u32.
  rewrite !Z.land_ones, !Z.shiftr_div_pow2 by lia. change (0xb mod 2 ^ 16) with 0xb.
  change (0xb / 2 ^ 60) with 0. change (0 mod 2 ^ 4) with 0. change (0 mod 2) with 0. change (1 mod 2) with 1. change (0 mod 2 ^ 2) with 0.
  change (STS_T64A mod 2 ^ 4) with 9. change (DPL_USER mod 2 ^ 2) with 3. rewrite !Z.mod_mod by lia.
  rewrite <- !Znumtheory.Zmod_div_mod by (try lia; by exists (2 ^ 16)). rewrite !Z.div_div by lia.
  assert (0 <= addr / 2 ^ 48 < 2 ^ 16) as H48 by (split; [apply Z.div_pos; lia|apply Z.div_lt_upper_bound; lia]).
  change (2 ^ 48 * 2 ^ 16) with (2 ^ 64). change (2 ^ 48 * 2 ^ 24) with (2 ^ 72). change (2 ^ 32 * 2 ^ 60) with (2 ^ 92).
  rewrite (Z.div_small addr (2 ^ 64)), (Z.div_small addr (2 ^ 72)), (Z.div_small addr (2 ^ 92)) by lia.
  change (0 mod 2 ^ 8) with 0. change (0 mod 2 ^ 4) with 0.
  pose proof (mod_bound addr (2 ^ 16)). pose proof (mod_bound (addr / 2 ^ 16) (2 ^ 8)). pose proof (mod_bound (addr / 2 ^ 24) (2 ^ 8)).
  pose proof (mod_bound (addr / 2 ^ 32) (2 ^ 16)). unfold system_base.
  change (11 mod 2 ^ 16) with 11. rewrite (Z.mod_small (addr / 2 ^ 48)) by done.
  match goal with |- context [?lo / 2 ^ 56] =>
    destruct (fields lo 11 (addr mod 2 ^ 16 + 2 ^ 16 * (addr / 2 ^ 16 mod 2 ^ 8)) 0x80E9 (addr / 2 ^ 24 mod 2 ^ 8)) as [-> ->]; [lia|lia|lia|lia|lia|] end.
  match goal with |- context [?hi mod 2 ^ 32] =>
    replace (hi mod 2 ^ 32) with (addr / 2 ^ 32 mod 2 ^ 16 + 2 ^ 16 * (addr / 2 ^ 48)) by (apply (Z.mod_unique _ _ 0x808000); lia) end.
  by apply split_addr.
Qed.

(** Stores in a page that is not free. *)
Lemma page_write end_ k v l m : kmem_inv end_ k l -> page end_ v -> v ∉ l ->
  (forall a, ~ (v <= a < v + PGSIZE) -> m a = ram k a) -> kmem_inv end_ (mkKmem (use_lock k) (freelist k) m) l.
Proof.
  intros [Hc Hn Hp] Hv Hni Hm. split; cbn [ram freelist]; try done. apply (chain_ext end_ (ram k)); [done| |done].
  intros w a Hw Ha. apply Hm. rewrite Forall_forall in Hp. apply (page_disjoint end_ v w); [done|by apply Hp| |done].
  intros ->. done.
Qed.

Ltac seg_stores := unfold put_seg, load64, store64, SEG_KCODE, SEG_KDATA, SEG_UCODE32, SEG_UDATA, SEG_UCODE, SEG_KCPU, SEG_TSS, sizeof_cpu.
Ltac seg_load := rewrite !load_le_other by lia; apply load_store_le.

(** What the processor finds in its descriptor table once [seginit] has run: flat
    64-bit code for the kernel and for the user (privilege 3), data segments for
    both, all present, and a task state segment at the address of the task state; the table is
    as long as the limit says, the variables of the processor are at the FS base,
    and the only page taken is the one that holds all this. *)
Theorem seginit_ok end_ cpus n s v free :
  kmem_inv end_ (sk s) (v :: free) -> 0 <= cpus + 40 * n < 2 ^ 64 ->
  exists s', seginit cpus n s = Ok s'
  /\ let m := ram (sk s') in let gd := descriptor m (gdtr s') in
     gd KERNEL_CS = 0x00A09A0000000000 /\ gd (KERNEL_CS + 8) = 0x0080920000000000
  /\ gd USER_DS = 0x0080F20000000000 /\ gd USER_CS = 0x00A0FA0000000000 /\ gd 0 = 0
  /\ system_base (gd (tr s')) (gd (tr s' + 8)) = v + 1024 /\ tr s' + 16 <= snd (gdtr s') + 1
  /\ msrs s' = msrs s ++ [(0xC0000100, v + 2048)]
  /\ load64 m (v + 2048 - 16) = cpus + 40 * n /\ load64 m (v + 2048 - 8) = 0
  /\ locals s' = <[Z.to_nat n := v]> (locals s) /\ kmem_inv end_ (sk s') free.
Proof.
  intros Hk Hc. unfold seginit. destruct (kalloc_spec end_ _ _ _ Hk) as (k' & -> & Hk' & _ & Hpg & Hni). cbn [mbind res_bind].
  pose proof (page_range _ _ Hpg) as Hr. assert (v + 2048 < 2 ^ 64) as Hv by (unfold page, KERNBASE, PHYSTOP in Hpg; lia).
  eexists. split; [reflexivity|]. cbn [sk gdtr msrs locals tr ram]. unfold descriptor. cbn [fst snd].
  change (KERNEL_CS / 8) with 1. change ((KERNEL_CS + 8) / 8) with 2. change (USER_DS / 8) with 4. change (USER_CS / 8) with 5.
  change (0 / 8) with 0. change (Z.shiftl SEG_TSS 3 / 8) with 7. change ((Z.shiftl SEG_TSS 3 + 8) / 8) with 8.
  seg_stores. rewrite u64_id by lia.
  split; [seg_load; done|]. split; [seg_load; done|]. split; [seg_load; done|]. split; [seg_load; done|]. split; [seg_load; done|].
  split; [|split; [done|split; [done|split; [seg_load; lia|split; [seg_load; lia|split; [done|]]]]]].
  - rewrite load_store_le by apply seg_word_range. rewrite load_le_other by lia. rewrite load_store_le by apply seg_word_range.
    apply tss_base. lia.
  - apply (page_write end_ k' v); try done. intros a Ha. unfold PGSIZE in Ha. rewrite !store_le_other by lia.
    apply memset_other; unfold PGSIZE; lia.
Qed.

(** The selectors [syscall] and [sysret] load from the STAR register are the kernel's
    and the user's segments, and no interrupt comes in before the kernel allows it. *)
Theorem syscallinit_selectors entry ignore s : exists star mask,
  msrs (syscallinit entry ignore s) = msrs s ++ [(MSR_STAR, star); (MSR_LSTAR, entry); (MSR_CSTAR, ignore); (MSR_SFMASK, mask)]
  /\ star / 2 ^ 32 mod 2 ^ 16 = KERNEL_CS /\ star / 2 ^ 48 + 16 = USER_CS /\ star / 2 ^ 48 + 8 = USER_DS /\ Z.testbit mask 9 = true.
Proof. eexists _, _. split; [reflexivity|]. split_and!; reflexivity. Qed.
