(* ===== verification/Display.v ===== *)
(** Model of src/vga.c and src/display.c: switching between text and graphics
    mode, the palette, and the display device.

    The VGA adapter is hardware: the interface [Vga] states what the driver
    relies on of the colour table (ports 0x3C7, 0x3C8, 0x3C9) and of the cursor
    registers (index 14 and 15 behind ports 0x3D4 and 0x3D5).  The memory of the
    machine is [mem], by kernel address; what the adapter itself does to the
    memory behind 0xA0000 and 0xB8000 when modes change is left open: the
    theorems hold whatever text memory contains when text mode comes back. *)
From stdpp Require Import base strings numbers list sets.
From S2P Require Import Prelude CString Locks.
Local Open Scope Z_scope.

(** The standard palette, 0xRRGGBB. *)
Definition vga256_24bit : list Z :=
  [0; 168; 43008; 43176; 11010048; 11010216; 11031552; 11053224;
   5526612; 5526780; 5569620; 5569788; 16536660; 16536828; 16579668; 16579836;
   0; 1315860; 2105376; 2894892; 3684408; 4473924; 5263440; 6316128;
   7368816; 8421504; 9474192; 10526880; 11842740; 13158600; 14737632; 16579836;
   252; 4194556; 8126716; 12321020; 16515324; 16515260; 16515196; 16515136;
   16515072; 16531456; 16546816; 16563200; 16579584; 12385280; 8190976; 4258816;
   64512; 64576; 64636; 64700; 64764; 48380; 31996; 16636;
   8158460; 10255612; 12352764; 14449916; 16547068; 16547036; 16547004; 16546972;
   16546940; 16555132; 16563324; 16571516; 16579708; 14482556; 12385404; 10288252;
   8191100; 8191132; 8191164; 8191196; 8191228; 8183036; 8174844; 8166652;
   11842812; 12891388; 14202108; 15250684; 16561404; 16561384; 16561368; 16561348;
   16561332; 16565428; 16570548; 16574644; 16579764; 15269044; 14220468; 12909748;
   11861172; 11861188; 11861208; 11861224; 11861244; 11856124; 11852028; 11846908;
   112; 1835120; 3670128; 5505136; 7340144; 7340116; 7340088; 7340060;
   7340032; 7347200; 7354368; 7361536; 7368704; 5533696; 3698688; 1863680;
   28672; 28700; 28728; 28756; 28784; 21616; 14448; 7280;
   3684464; 4470896; 5519472; 6305904; 7354480; 7354464; 7354452; 7354436;
   7354424; 7357496; 7361592; 7364664; 7368760; 6320184; 5533752; 4485176;
   3698744; 3698756; 3698772; 3698784; 3698800; 3694704; 3691632; 3687536;
   5263472; 5787760; 6312048; 6836336; 7360624; 7360616; 7360608; 7360600;
   7360592; 7362640; 7364688; 7366736; 7368784; 6844496; 6320208; 5795920;
   5271632; 5271640; 5271648; 5271656; 5271664; 5269616; 5267568; 5265520;
   64; 1048640; 2097216; 3145792; 4194368; 4194352; 4194336; 4194320;
   4194304; 4198400; 4202496; 4206592; 4210688; 3162112; 2113536; 1064960;
   16384; 16400; 16416; 16432; 16448; 12352; 8256; 4160;
   2105408; 2629696; 3153984; 3678272; 4202560; 4202552; 4202544; 4202536;
   4202528; 4204576; 4206624; 4208672; 4210720; 3686432; 3162144; 2637856;
   2113568; 2113576; 2113584; 2113592; 2113600; 2111552; 2109504; 2107456;
   2894912; 3157056; 3419200; 3943488; 4205632; 4205628; 4205620; 4205616;
   4205612; 4206636; 4207660; 4209708; 4210732; 3948588; 3424300; 3162156;
   2900012; 2900016; 2900020; 2900028; 2900032; 2899008; 2896960; 2895936;
   0; 0; 0; 0; 0; 0; 0; 0].

(** The text font. *)
Definition g_8x16_font : list Z :=
  [0; 0; 0; 0; 0; 0; 0; 0; 0; 0; 0; 0; 0; 0; 0; 0;
   0; 0; 126; 129; 165; 129; 129; 189; 153; 129; 129; 126; 0; 0; 0; 0;
   0; 0; 126; 255; 219; 255; 255; 195; 231; 255; 255; 126; 0; 0; 0; 0;
   0; 0; 0; 0; 108; 254; 254; 254; 254; 124; 56; 16; 0; 0; 0; 0;
   0; 0; 0; 0; 16; 56; 124; 254; 124; 56; 16; 0; 0; 0; 0; 0;
   0; 0; 0; 24; 60; 60; 231; 231; 231; 153; 24; 60; 0; 0; 0; 0;
   0; 0; 0; 24; 60; 126; 255; 255; 126; 24; 24; 60; 0; 0; 0; 0;
   0; 0; 0; 0; 0; 0; 24; 60; 60; 24; 0; 0; 0; 0; 0; 0;
   255; 255; 255; 255; 255; 255; 231; 195; 195; 231; 255; 255; 255; 255; 255; 255;
   0; 0; 0; 0; 0; 60; 102; 66; 66; 102; 60; 0; 0; 0; 0; 0;
   255; 255; 255; 255; 255; 195; 153; 189; 189; 153; 195; 255; 255; 255; 255; 255;
   0; 0; 30; 14; 26; 50; 120; 204; 204; 204; 204; 120; 0; 0; 0; 0;
   0; 0; 60; 102; 102; 102; 102; 60; 24; 126; 24; 24; 0; 0; 0; 0;
   0; 0; 63; 51; 63; 48; 48; 48; 48; 112; 240; 224; 0; 0; 0; 0;
   0; 0; 127; 99; 127; 99; 99; 99; 99; 103; 231; 230; 192; 0; 0; 0;
   0; 0; 0; 24; 24; 219; 60; 231; 60; 219; 24; 24; 0; 0; 0; 0;
   0; 128; 192; 224; 240; 248; 254; 248; 240; 224; 192; 128; 0; 0; 0; 0;
   0; 2; 6; 14; 30; 62; 254; 62; 30; 14; 6; 2; 0; 0; 0; 0;
   0; 0; 24; 60; 126; 24; 24; 24; 24; 126; 60; 24; 0; 0; 0; 0;
   0; 0; 102; 102; 102; 102; 102; 102; 102; 0; 102; 102; 0; 0; 0; 0;
   0; 0; 127; 219; 219; 219; 123; 27; 27; 27; 27; 27; 0; 0; 0; 0;
   0; 124; 198; 96; 56; 108; 198; 198; 108; 56; 12; 198; 124; 0; 0; 0;
   0; 0; 0; 0; 0; 0; 0; 0; 254; 254; 254; 254; 0; 0; 0; 0;
   0; 0; 24; 60; 126; 24; 24; 24; 24; 126; 60; 24; 126; 0; 0; 0;
   0; 0; 24; 60; 126; 24; 24; 24; 24; 24; 24; 24; 0; 0; 0; 0;
   0; 0; 24; 24; 24; 24; 24; 24; 24; 126; 60; 24; 0; 0; 0; 0;
   0; 0; 0; 0; 0; 24; 12; 254; 12; 24; 0; 0; 0; 0; 0; 0;
   0; 0; 0; 0; 0; 48; 96; 254; 96; 48; 0; 0; 0; 0; 0; 0;
   0; 0; 0; 0; 0; 192; 192; 192; 192; 254; 0; 0; 0; 0; 0; 0;
   0; 0; 0; 0; 0; 40; 108; 254; 108; 40; 0; 0; 0; 0; 0; 0;
   0; 0; 0; 0; 16; 56; 56; 124; 124; 254; 254; 0; 0; 0; 0; 0;
   0; 0; 0; 0; 254; 254; 124; 124; 56; 56; 16; 0; 0; 0; 0; 0;
   0; 0; 0; 0; 0; 0; 0; 0; 0; 0; 0; 0; 0; 0; 0; 0;
   0; 0; 24; 60; 60; 60; 24; 24; 24; 0; 24; 24; 0; 0; 0; 0;
   0; 102; 102; 102; 36; 0; 0; 0; 0; 0; 0; 0; 0; 0; 0; 0;
   0; 0; 0; 108; 108; 254; 108; 108; 108; 254; 108; 108; 0; 0; 0; 0;
   24; 24; 124; 198; 194; 192; 124; 6; 134; 198; 124; 24; 24; 0; 0; 0;
   0; 0; 0; 0; 194; 198; 12; 24; 48; 96; 198; 134; 0; 0; 0; 0;
   0; 0; 56; 108; 108; 56; 118; 220; 204; 204; 204; 118; 0; 0; 0; 0;
   0; 48; 48; 48; 96; 0; 0; 0; 0; 0; 0; 0; 0; 0; 0; 0;
   0; 0; 12; 24; 48; 48; 48; 48; 48; 48; 24; 12; 0; 0; 0; 0;
   0; 0; 48; 24; 12; 12; 12; 12; 12; 12; 24; 48; 0; 0; 0; 0;
   0; 0; 0; 0; 0; 102; 60; 255; 60; 102; 0; 0; 0; 0; 0; 0;
   0; 0; 0; 0; 0; 24; 24; 126; 24; 24; 0; 0; 0; 0; 0; 0;
   0; 0; 0; 0; 0; 0; 0; 0; 0; 24; 24; 24; 48; 0; 0; 0;
   0; 0; 0; 0; 0; 0; 0; 254; 0; 0; 0; 0; 0; 0; 0; 0;
   0; 0; 0; 0; 0; 0; 0; 0; 0; 0; 24; 24; 0; 0; 0; 0;
   0; 0; 0; 0; 2; 6; 12; 24; 48; 96; 192; 128; 0; 0; 0; 0;
   0; 0; 124; 198; 198; 206; 214; 214; 230; 198; 198; 124; 0; 0; 0; 0;
   0; 0; 24; 56; 120; 24; 24; 24; 24; 24; 24; 126; 0; 0; 0; 0;
   0; 0; 124; 198; 6; 12; 24; 48; 96; 192; 198; 254; 0; 0; 0; 0;
   0; 0; 124; 198; 6; 6; 60; 6; 6; 6; 198; 124; 0; 0; 0; 0;
   0; 0; 12; 28; 60; 108; 204; 254; 12; 12; 12; 30; 0; 0; 0; 0;
   0; 0; 254; 192; 192; 192; 252; 14; 6; 6; 198; 124; 0; 0; 0; 0;
   0; 0; 56; 96; 192; 192; 252; 198; 198; 198; 198; 124; 0; 0; 0; 0;
   0; 0; 254; 198; 6; 6; 12; 24; 48; 48; 48; 48; 0; 0; 0; 0;
   0; 0; 124; 198; 198; 198; 124; 198; 198; 198; 198; 124; 0; 0; 0; 0;
   0; 0; 124; 198; 198; 198; 126; 6; 6; 6; 12; 120; 0; 0; 0; 0;
   0; 0; 0; 0; 24; 24; 0; 0; 0; 24; 24; 0; 0; 0; 0; 0;
   0; 0; 0; 0; 24; 24; 0; 0; 0; 24; 24; 48; 0; 0; 0; 0;
   0; 0; 0; 6; 12; 24; 48; 96; 48; 24; 12; 6; 0; 0; 0; 0;
   0; 0; 0; 0; 0; 0; 254; 0; 0; 254; 0; 0; 0; 0; 0; 0;
   0; 0; 0; 96; 48; 24; 12; 6; 12; 24; 48; 96; 0; 0; 0; 0;
   0; 0; 124; 198; 198; 12; 24; 24; 24; 0; 24; 24; 0; 0; 0; 0;
   0; 0; 0; 124; 198; 198; 222; 222; 222; 220; 192; 124; 0; 0; 0; 0;
   0; 0; 16; 56; 108; 198; 198; 254; 198; 198; 198; 198; 0; 0; 0; 0;
   0; 0; 252; 102; 102; 102; 124; 102; 102; 102; 102; 252; 0; 0; 0; 0;
   0; 0; 60; 102; 194; 192; 192; 192; 192; 194; 102; 60; 0; 0; 0; 0;
   0; 0; 248; 108; 102; 102; 102; 102; 102; 102; 108; 248; 0; 0; 0; 0;
   0; 0; 254; 102; 98; 104; 120; 104; 96; 98; 102; 254; 0; 0; 0; 0;
   0; 0; 254; 102; 98; 104; 120; 104; 96; 96; 96; 240; 0; 0; 0; 0;
   0; 0; 60; 102; 194; 192; 192; 222; 198; 198; 102; 58; 0; 0; 0; 0;
   0; 0; 198; 198; 198; 198; 254; 198; 198; 198; 198; 198; 0; 0; 0; 0;
   0; 0; 60; 24; 24; 24; 24; 24; 24; 24; 24; 60; 0; 0; 0; 0;
   0; 0; 30; 12; 12; 12; 12; 12; 204; 204; 204; 120; 0; 0; 0; 0;
   0; 0; 230; 102; 108; 108; 120; 120; 108; 102; 102; 230; 0; 0; 0; 0;
   0; 0; 240; 96; 96; 96; 96; 96; 96; 98; 102; 254; 0; 0; 0; 0;
   0; 0; 198; 238; 254; 254; 214; 198; 198; 198; 198; 198; 0; 0; 0; 0;
   0; 0; 198; 230; 246; 254; 222; 206; 198; 198; 198; 198; 0; 0; 0; 0;
   0; 0; 56; 108; 198; 198; 198; 198; 198; 198; 108; 56; 0; 0; 0; 0;
   0; 0; 252; 102; 102; 102; 124; 96; 96; 96; 96; 240; 0; 0; 0; 0;
   0; 0; 124; 198; 198; 198; 198; 198; 198; 214; 222; 124; 12; 14; 0; 0;
   0; 0; 252; 102; 102; 102; 124; 108; 102; 102; 102; 230; 0; 0; 0; 0;
   0; 0; 124; 198; 198; 96; 56; 12; 6; 198; 198; 124; 0; 0; 0; 0;
   0; 0; 126; 126; 90; 24; 24; 24; 24; 24; 24; 60; 0; 0; 0; 0;
   0; 0; 198; 198; 198; 198; 198; 198; 198; 198; 198; 124; 0; 0; 0; 0;
   0; 0; 198; 198; 198; 198; 198; 198; 198; 108; 56; 16; 0; 0; 0; 0;
   0; 0; 198; 198; 198; 198; 198; 214; 214; 254; 108; 108; 0; 0; 0; 0;
   0; 0; 198; 198; 108; 108; 56; 56; 108; 108; 198; 198; 0; 0; 0; 0;
   0; 0; 102; 102; 102; 102; 60; 24; 24; 24; 24; 60; 0; 0; 0; 0;
   0; 0; 254; 198; 134; 12; 24; 48; 96; 194; 198; 254; 0; 0; 0; 0;
   0; 0; 60; 48; 48; 48; 48; 48; 48; 48; 48; 60; 0; 0; 0; 0;
   0; 0; 0; 128; 192; 224; 112; 56; 28; 14; 6; 2; 0; 0; 0; 0;
   0; 0; 60; 12; 12; 12; 12; 12; 12; 12; 12; 60; 0; 0; 0; 0;
   16; 56; 108; 198; 0; 0; 0; 0; 0; 0; 0; 0; 0; 0; 0; 0;
   0; 0; 0; 0; 0; 0; 0; 0; 0; 0; 0; 0; 0; 255; 0; 0;
   48; 48; 24; 0; 0; 0; 0; 0; 0; 0; 0; 0; 0; 0; 0; 0;
   0; 0; 0; 0; 0; 120; 12; 124; 204; 204; 204; 118; 0; 0; 0; 0;
   0; 0; 224; 96; 96; 120; 108; 102; 102; 102; 102; 220; 0; 0; 0; 0;
   0; 0; 0; 0; 0; 124; 198; 192; 192; 192; 198; 124; 0; 0; 0; 0;
   0; 0; 28; 12; 12; 60; 108; 204; 204; 204; 204; 118; 0; 0; 0; 0;
   0; 0; 0; 0; 0; 124; 198; 254; 192; 192; 198; 124; 0; 0; 0; 0;
   0; 0; 56; 108; 100; 96; 240; 96; 96; 96; 96; 240; 0; 0; 0; 0;
   0; 0; 0; 0; 0; 118; 204; 204; 204; 204; 204; 124; 12; 204; 120; 0;
   0; 0; 224; 96; 96; 108; 118; 102; 102; 102; 102; 230; 0; 0; 0; 0;
   0; 0; 24; 24; 0; 56; 24; 24; 24; 24; 24; 60; 0; 0; 0; 0;
   0; 0; 6; 6; 0; 14; 6; 6; 6; 6; 6; 6; 102; 102; 60; 0;
   0; 0; 224; 96; 96; 102; 108; 120; 120; 108; 102; 230; 0; 0; 0; 0;
   0; 0; 56; 24; 24; 24; 24; 24; 24; 24; 24; 60; 0; 0; 0; 0;
   0; 0; 0; 0; 0; 236; 254; 214; 214; 214; 214; 214; 0; 0; 0; 0;
   0; 0; 0; 0; 0; 220; 102; 102; 102; 102; 102; 102; 0; 0; 0; 0;
   0; 0; 0; 0; 0; 124; 198; 198; 198; 198; 198; 124; 0; 0; 0; 0;
   0; 0; 0; 0; 0; 220; 102; 102; 102; 102; 102; 124; 96; 96; 240; 0;
   0; 0; 0; 0; 0; 118; 204; 204; 204; 204; 204; 124; 12; 12; 30; 0;
   0; 0; 0; 0; 0; 220; 118; 98; 96; 96; 96; 240; 0; 0; 0; 0;
   0; 0; 0; 0; 0; 124; 198; 96; 56; 12; 198; 124; 0; 0; 0; 0;
   0; 0; 16; 48; 48; 252; 48; 48; 48; 48; 54; 28; 0; 0; 0; 0;
   0; 0; 0; 0; 0; 204; 204; 204; 204; 204; 204; 118; 0; 0; 0; 0;
   0; 0; 0; 0; 0; 102; 102; 102; 102; 102; 60; 24; 0; 0; 0; 0;
   0; 0; 0; 0; 0; 198; 198; 198; 214; 214; 254; 108; 0; 0; 0; 0;
   0; 0; 0; 0; 0; 198; 108; 56; 56; 56; 108; 198; 0; 0; 0; 0;
   0; 0; 0; 0; 0; 198; 198; 198; 198; 198; 198; 126; 6; 12; 248; 0;
   0; 0; 0; 0; 0; 254; 204; 24; 48; 96; 198; 254; 0; 0; 0; 0;
   0; 0; 14; 24; 24; 24; 112; 24; 24; 24; 24; 14; 0; 0; 0; 0;
   0; 0; 24; 24; 24; 24; 0; 24; 24; 24; 24; 24; 0; 0; 0; 0;
   0; 0; 112; 24; 24; 24; 14; 24; 24; 24; 24; 112; 0; 0; 0; 0;
   0; 0; 118; 220; 0; 0; 0; 0; 0; 0; 0; 0; 0; 0; 0; 0;
   0; 0; 0; 0; 16; 56; 108; 198; 198; 198; 254; 0; 0; 0; 0; 0;
   0; 0; 60; 102; 194; 192; 192; 192; 194; 102; 60; 12; 6; 124; 0; 0;
   0; 0; 204; 204; 0; 204; 204; 204; 204; 204; 204; 118; 0; 0; 0; 0;
   0; 12; 24; 48; 0; 124; 198; 254; 192; 192; 198; 124; 0; 0; 0; 0;
   0; 16; 56; 108; 0; 120; 12; 124; 204; 204; 204; 118; 0; 0; 0; 0;
   0; 0; 204; 204; 0; 120; 12; 124; 204; 204; 204; 118; 0; 0; 0; 0;
   0; 96; 48; 24; 0; 120; 12; 124; 204; 204; 204; 118; 0; 0; 0; 0;
   0; 56; 108; 56; 0; 120; 12; 124; 204; 204; 204; 118; 0; 0; 0; 0;
   0; 0; 0; 0; 60; 102; 96; 96; 102; 60; 12; 6; 60; 0; 0; 0;
   0; 16; 56; 108; 0; 124; 198; 254; 192; 192; 198; 124; 0; 0; 0; 0;
   0; 0; 198; 198; 0; 124; 198; 254; 192; 192; 198; 124; 0; 0; 0; 0;
   0; 96; 48; 24; 0; 124; 198; 254; 192; 192; 198; 124; 0; 0; 0; 0;
   0; 0; 102; 102; 0; 56; 24; 24; 24; 24; 24; 60; 0; 0; 0; 0;
   0; 24; 60; 102; 0; 56; 24; 24; 24; 24; 24; 60; 0; 0; 0; 0;
   0; 96; 48; 24; 0; 56; 24; 24; 24; 24; 24; 60; 0; 0; 0; 0;
   0; 198; 198; 16; 56; 108; 198; 198; 254; 198; 198; 198; 0; 0; 0; 0;
   56; 108; 56; 0; 56; 108; 198; 198; 254; 198; 198; 198; 0; 0; 0; 0;
   24; 48; 96; 0; 254; 102; 96; 124; 96; 96; 102; 254; 0; 0; 0; 0;
   0; 0; 0; 0; 0; 204; 118; 54; 126; 216; 216; 110; 0; 0; 0; 0;
   0; 0; 62; 108; 204; 204; 254; 204; 204; 204; 204; 206; 0; 0; 0; 0;
   0; 16; 56; 108; 0; 124; 198; 198; 198; 198; 198; 124; 0; 0; 0; 0;
   0; 0; 198; 198; 0; 124; 198; 198; 198; 198; 198; 124; 0; 0; 0; 0;
   0; 96; 48; 24; 0; 124; 198; 198; 198; 198; 198; 124; 0; 0; 0; 0;
   0; 48; 120; 204; 0; 204; 204; 204; 204; 204; 204; 118; 0; 0; 0; 0;
   0; 96; 48; 24; 0; 204; 204; 204; 204; 204; 204; 118; 0; 0; 0; 0;
   0; 0; 198; 198; 0; 198; 198; 198; 198; 198; 198; 126; 6; 12; 120; 0;
   0; 198; 198; 0; 56; 108; 198; 198; 198; 198; 108; 56; 0; 0; 0; 0;
   0; 198; 198; 0; 198; 198; 198; 198; 198; 198; 198; 124; 0; 0; 0; 0;
   0; 24; 24; 60; 102; 96; 96; 96; 102; 60; 24; 24; 0; 0; 0; 0;
   0; 56; 108; 100; 96; 240; 96; 96; 96; 96; 230; 252; 0; 0; 0; 0;
   0; 0; 102; 102; 60; 24; 126; 24; 126; 24; 24; 24; 0; 0; 0; 0;
   0; 248; 204; 204; 248; 196; 204; 222; 204; 204; 204; 198; 0; 0; 0; 0;
   0; 14; 27; 24; 24; 24; 126; 24; 24; 24; 24; 24; 216; 112; 0; 0;
   0; 24; 48; 96; 0; 120; 12; 124; 204; 204; 204; 118; 0; 0; 0; 0;
   0; 12; 24; 48; 0; 56; 24; 24; 24; 24; 24; 60; 0; 0; 0; 0;
   0; 24; 48; 96; 0; 124; 198; 198; 198; 198; 198; 124; 0; 0; 0; 0;
   0; 24; 48; 96; 0; 204; 204; 204; 204; 204; 204; 118; 0; 0; 0; 0;
   0; 0; 118; 220; 0; 220; 102; 102; 102; 102; 102; 102; 0; 0; 0; 0;
   118; 220; 0; 198; 230; 246; 254; 222; 206; 198; 198; 198; 0; 0; 0; 0;
   0; 60; 108; 108; 62; 0; 126; 0; 0; 0; 0; 0; 0; 0; 0; 0;
   0; 56; 108; 108; 56; 0; 124; 0; 0; 0; 0; 0; 0; 0; 0; 0;
   0; 0; 48; 48; 0; 48; 48; 96; 192; 198; 198; 124; 0; 0; 0; 0;
   0; 0; 0; 0; 0; 0; 254; 192; 192; 192; 192; 0; 0; 0; 0; 0;
   0; 0; 0; 0; 0; 0; 254; 6; 6; 6; 6; 0; 0; 0; 0; 0;
   0; 192; 192; 194; 198; 204; 24; 48; 96; 206; 147; 6; 12; 31; 0; 0;
   0; 192; 192; 194; 198; 204; 24; 48; 102; 206; 154; 63; 6; 15; 0; 0;
   0; 0; 24; 24; 0; 24; 24; 24; 60; 60; 60; 24; 0; 0; 0; 0;
   0; 0; 0; 0; 0; 51; 102; 204; 102; 51; 0; 0; 0; 0; 0; 0;
   0; 0; 0; 0; 0; 204; 102; 51; 102; 204; 0; 0; 0; 0; 0; 0;
   17; 68; 17; 68; 17; 68; 17; 68; 17; 68; 17; 68; 17; 68; 17; 68;
   85; 170; 85; 170; 85; 170; 85; 170; 85; 170; 85; 170; 85; 170; 85; 170;
   221; 119; 221; 119; 221; 119; 221; 119; 221; 119; 221; 119; 221; 119; 221; 119;
   24; 24; 24; 24; 24; 24; 24; 24; 24; 24; 24; 24; 24; 24; 24; 24;
   24; 24; 24; 24; 24; 24; 24; 248; 24; 24; 24; 24; 24; 24; 24; 24;
   24; 24; 24; 24; 24; 248; 24; 248; 24; 24; 24; 24; 24; 24; 24; 24;
   54; 54; 54; 54; 54; 54; 54; 246; 54; 54; 54; 54; 54; 54; 54; 54;
   0; 0; 0; 0; 0; 0; 0; 254; 54; 54; 54; 54; 54; 54; 54; 54;
   0; 0; 0; 0; 0; 248; 24; 248; 24; 24; 24; 24; 24; 24; 24; 24;
   54; 54; 54; 54; 54; 246; 6; 246; 54; 54; 54; 54; 54; 54; 54; 54;
   54; 54; 54; 54; 54; 54; 54; 54; 54; 54; 54; 54; 54; 54; 54; 54;
   0; 0; 0; 0; 0; 254; 6; 246; 54; 54; 54; 54; 54; 54; 54; 54;
   54; 54; 54; 54; 54; 246; 6; 254; 0; 0; 0; 0; 0; 0; 0; 0;
   54; 54; 54; 54; 54; 54; 54; 254; 0; 0; 0; 0; 0; 0; 0; 0;
   24; 24; 24; 24; 24; 248; 24; 248; 0; 0; 0; 0; 0; 0; 0; 0;
   0; 0; 0; 0; 0; 0; 0; 248; 24; 24; 24; 24; 24; 24; 24; 24;
   24; 24; 24; 24; 24; 24; 24; 31; 0; 0; 0; 0; 0; 0; 0; 0;
   24; 24; 24; 24; 24; 24; 24; 255; 0; 0; 0; 0; 0; 0; 0; 0;
   0; 0; 0; 0; 0; 0; 0; 255; 24; 24; 24; 24; 24; 24; 24; 24;
   24; 24; 24; 24; 24; 24; 24; 31; 24; 24; 24; 24; 24; 24; 24; 24;
   0; 0; 0; 0; 0; 0; 0; 255; 0; 0; 0; 0; 0; 0; 0; 0;
   24; 24; 24; 24; 24; 24; 24; 255; 24; 24; 24; 24; 24; 24; 24; 24;
   24; 24; 24; 24; 24; 31; 24; 31; 24; 24; 24; 24; 24; 24; 24; 24;
   54; 54; 54; 54; 54; 54; 54; 55; 54; 54; 54; 54; 54; 54; 54; 54;
   54; 54; 54; 54; 54; 55; 48; 63; 0; 0; 0; 0; 0; 0; 0; 0;
   0; 0; 0; 0; 0; 63; 48; 55; 54; 54; 54; 54; 54; 54; 54; 54;
   54; 54; 54; 54; 54; 247; 0; 255; 0; 0; 0; 0; 0; 0; 0; 0;
   0; 0; 0; 0; 0; 255; 0; 247; 54; 54; 54; 54; 54; 54; 54; 54;
   54; 54; 54; 54; 54; 55; 48; 55; 54; 54; 54; 54; 54; 54; 54; 54;
   0; 0; 0; 0; 0; 255; 0; 255; 0; 0; 0; 0; 0; 0; 0; 0;
   54; 54; 54; 54; 54; 247; 0; 247; 54; 54; 54; 54; 54; 54; 54; 54;
   24; 24; 24; 24; 24; 255; 0; 255; 0; 0; 0; 0; 0; 0; 0; 0;
   54; 54; 54; 54; 54; 54; 54; 255; 0; 0; 0; 0; 0; 0; 0; 0;
   0; 0; 0; 0; 0; 255; 0; 255; 24; 24; 24; 24; 24; 24; 24; 24;
   0; 0; 0; 0; 0; 0; 0; 255; 54; 54; 54; 54; 54; 54; 54; 54;
   54; 54; 54; 54; 54; 54; 54; 63; 0; 0; 0; 0; 0; 0; 0; 0;
   24; 24; 24; 24; 24; 31; 24; 31; 0; 0; 0; 0; 0; 0; 0; 0;
   0; 0; 0; 0; 0; 31; 24; 31; 24; 24; 24; 24; 24; 24; 24; 24;
   0; 0; 0; 0; 0; 0; 0; 63; 54; 54; 54; 54; 54; 54; 54; 54;
   54; 54; 54; 54; 54; 54; 54; 255; 54; 54; 54; 54; 54; 54; 54; 54;
   24; 24; 24; 24; 24; 255; 24; 255; 24; 24; 24; 24; 24; 24; 24; 24;
   24; 24; 24; 24; 24; 24; 24; 248; 0; 0; 0; 0; 0; 0; 0; 0;
   0; 0; 0; 0; 0; 0; 0; 31; 24; 24; 24; 24; 24; 24; 24; 24;
   255; 255; 255; 255; 255; 255; 255; 255; 255; 255; 255; 255; 255; 255; 255; 255;
   0; 0; 0; 0; 0; 0; 0; 255; 255; 255; 255; 255; 255; 255; 255; 255;
   240; 240; 240; 240; 240; 240; 240; 240; 240; 240; 240; 240; 240; 240; 240; 240;
   15; 15; 15; 15; 15; 15; 15; 15; 15; 15; 15; 15; 15; 15; 15; 15;
   255; 255; 255; 255; 255; 255; 255; 0; 0; 0; 0; 0; 0; 0; 0; 0;
   0; 0; 0; 0; 0; 118; 220; 216; 216; 216; 220; 118; 0; 0; 0; 0;
   0; 0; 0; 0; 0; 252; 198; 252; 198; 198; 252; 192; 192; 192; 0; 0;
   0; 0; 254; 198; 198; 192; 192; 192; 192; 192; 192; 192; 0; 0; 0; 0;
   0; 0; 0; 0; 128; 254; 108; 108; 108; 108; 108; 108; 0; 0; 0; 0;
   0; 0; 0; 254; 198; 96; 48; 24; 48; 96; 198; 254; 0; 0; 0; 0;
   0; 0; 0; 0; 0; 126; 216; 216; 216; 216; 216; 112; 0; 0; 0; 0;
   0; 0; 0; 0; 102; 102; 102; 102; 102; 124; 96; 96; 192; 0; 0; 0;
   0; 0; 0; 0; 118; 220; 24; 24; 24; 24; 24; 24; 0; 0; 0; 0;
   0; 0; 0; 126; 24; 60; 102; 102; 102; 60; 24; 126; 0; 0; 0; 0;
   0; 0; 0; 56; 108; 198; 198; 254; 198; 198; 108; 56; 0; 0; 0; 0;
   0; 0; 56; 108; 198; 198; 198; 108; 108; 108; 108; 238; 0; 0; 0; 0;
   0; 0; 30; 48; 24; 12; 62; 102; 102; 102; 102; 60; 0; 0; 0; 0;
   0; 0; 0; 0; 0; 126; 219; 219; 219; 126; 0; 0; 0; 0; 0; 0;
   0; 0; 0; 3; 6; 126; 207; 219; 243; 126; 96; 192; 0; 0; 0; 0;
   0; 0; 28; 48; 96; 96; 124; 96; 96; 96; 48; 28; 0; 0; 0; 0;
   0; 0; 0; 124; 198; 198; 198; 198; 198; 198; 198; 198; 0; 0; 0; 0;
   0; 0; 0; 0; 254; 0; 0; 254; 0; 0; 254; 0; 0; 0; 0; 0;
   0; 0; 0; 0; 24; 24; 126; 24; 24; 0; 0; 255; 0; 0; 0; 0;
   0; 0; 0; 48; 24; 12; 6; 12; 24; 48; 0; 126; 0; 0; 0; 0;
   0; 0; 0; 12; 24; 48; 96; 48; 24; 12; 0; 126; 0; 0; 0; 0;
   0; 0; 14; 27; 27; 24; 24; 24; 24; 24; 24; 24; 24; 24; 24; 24;
   24; 24; 24; 24; 24; 24; 24; 24; 216; 216; 216; 112; 0; 0; 0; 0;
   0; 0; 0; 0; 24; 24; 0; 126; 0; 24; 24; 0; 0; 0; 0; 0;
   0; 0; 0; 0; 0; 118; 220; 0; 118; 220; 0; 0; 0; 0; 0; 0;
   0; 56; 108; 108; 56; 0; 0; 0; 0; 0; 0; 0; 0; 0; 0; 0;
   0; 0; 0; 0; 0; 0; 0; 24; 24; 0; 0; 0; 0; 0; 0; 0;
   0; 0; 0; 0; 0; 0; 0; 0; 24; 0; 0; 0; 0; 0; 0; 0;
   0; 15; 12; 12; 12; 12; 12; 236; 108; 108; 60; 28; 0; 0; 0; 0;
   0; 216; 108; 108; 108; 108; 108; 0; 0; 0; 0; 0; 0; 0; 0; 0;
   0; 112; 152; 48; 96; 200; 248; 0; 0; 0; 0; 0; 0; 0; 0; 0;
   0; 0; 0; 0; 124; 124; 124; 124; 124; 124; 124; 0; 0; 0; 0; 0;
   0; 0; 0; 0; 0; 0; 0; 0; 0; 0; 0; 0; 0; 0; 0; 0].

(** The indexed registers the mode switches write. *)
Inductive regwrite : Type :=
  | W3C2 (value : Z)
  | W3C4 (index value : Z)
  | W3CE (index value : Z)
  | W3D4 (index value : Z)
  | W3C0 (index value : Z)
  | R3DA.

Definition mode13_regs : list regwrite :=
  [W3C2 99; W3C4 0 3; W3C4 1 1; W3C4 2 15; W3C4 3 0;
   W3C4 4 14; W3D4 17 14; W3D4 0 95; W3D4 1 79; W3D4 2 80;
   W3D4 3 130; W3D4 4 84; W3D4 5 128; W3D4 6 191; W3D4 7 31;
   W3D4 8 0; W3D4 9 65; W3D4 16 156; W3D4 18 143; W3D4 19 40;
   W3D4 20 64; W3D4 21 150; W3D4 22 185; W3D4 23 163; W3D4 24 255;
   W3CE 0 0; W3CE 1 0; W3CE 2 0; W3CE 3 0; W3CE 4 0;
   W3CE 5 64; W3CE 6 5; W3CE 7 15; W3CE 8 255; W3C0 0 0;
   W3C0 1 1; W3C0 2 2; W3C0 3 3; W3C0 4 4; W3C0 5 5;
   W3C0 6 6; W3C0 7 7; W3C0 8 8; W3C0 9 9; W3C0 10 10;
   W3C0 11 11; W3C0 12 12; W3C0 13 13; W3C0 14 14; W3C0 15 15;
   W3C0 16 65; W3C0 17 0; W3C0 18 15; W3C0 19 0; W3C0 20 0].

Definition mode3_regs : list regwrite :=
  [W3C2 103; W3C4 0 3; W3C4 1 0; W3C4 2 3; W3C4 3 0;
   W3C4 4 2; W3D4 17 14; W3D4 0 95; W3D4 1 79; W3D4 2 80;
   W3D4 3 130; W3D4 4 85; W3D4 5 129; W3D4 6 191; W3D4 7 31;
   W3D4 8 0; W3D4 9 79; W3D4 10 13; W3D4 11 14; W3D4 12 0;
   W3D4 13 0; W3D4 16 156; W3D4 17 142; W3D4 18 143; W3D4 19 40;
   W3D4 20 31; W3D4 21 150; W3D4 22 185; W3D4 23 163; W3D4 24 255;
   W3CE 0 0; W3CE 1 0; W3CE 2 0; W3CE 3 0; W3CE 4 0;
   W3CE 5 16; W3CE 6 14; W3CE 7 0; W3CE 8 255; R3DA; W3C0 0 0;
   W3C0 1 1; W3C0 2 2; W3C0 3 3; W3C0 4 4; W3C0 5 5;
   W3C0 6 20; W3C0 7 7; W3C0 8 56; W3C0 9 57; W3C0 10 58;
   W3C0 11 59; W3C0 12 60; W3C0 13 61; W3C0 14 62; W3C0 15 63;
   W3C0 16 12; W3C0 17 0; W3C0 18 15; W3C0 19 8; W3C0 20 0;
   W3C4 0 1; W3C4 2 4; W3C4 4 7; W3C4 0 3; W3CE 4 2;
   W3CE 5 0; W3CE 6 0].

Definition mode3_regs_after_font : list regwrite :=
  [W3C4 0 1; W3C4 2 3; W3C4 3 0; W3C4 4 2; W3C4 0 3;
   W3CE 2 0; W3CE 3 0; W3CE 4 0; W3CE 5 16; W3CE 6 14].

(** * The adapter *)

(** The colour table has 256 entries of three 6-bit components; [rd] is the
    position of the read sequence started by a write to 0x3C7, counted in
    components.  Writing three components after an index to 0x3C8 stores an
    entry; no other port changes the table.  The cursor is CRTC registers 14
    (high byte) and 15. *)
Class Vga (V : Type) : Type := {
  outb : Z -> Z -> V -> V;
  inb : Z -> V -> Z * V;
  palette : V -> Z -> Z * Z * Z;
  rd : V -> Z;
  cursor : V -> Z;
  palette_6bit : forall v i, 0 <= i < 256 ->
    let '(r, g, b) := palette v i in 0 <= r < 64 /\ 0 <= g < 64 /\ 0 <= b < 64;
  set_entry : forall v i r g b, 0 <= i < 256 -> 0 <= r < 64 -> 0 <= g < 64 -> 0 <= b < 64 ->
    let v' := outb 0x3C9 b (outb 0x3C9 g (outb 0x3C9 r (outb 0x3C8 i v))) in
    (forall j, 0 <= j < 256 -> palette v' j = if j =? i then (r, g, b) else palette v j)
    /\ cursor v' = cursor v;
  read_start : forall v, let v' := outb 0x3C7 0 v in
    rd v' = 0 /\ cursor v' = cursor v
    /\ forall j, 0 <= j < 256 -> palette v' j = palette v j;
  read_next : forall v i, 0 <= i < 256 -> rd v = 3 * i ->
    let '(r, v1) := inb 0x3C9 v in let '(g, v2) := inb 0x3C9 v1 in
    let '(b, v3) := inb 0x3C9 v2 in
    (r, g, b) = palette v i /\ rd v3 = 3 * (i + 1) /\ cursor v3 = cursor v
    /\ forall j, 0 <= j < 256 -> palette v3 j = palette v j;
  other_out : forall p x v, p <> 0x3C7 -> p <> 0x3C8 -> p <> 0x3C9 ->
    forall j, 0 <= j < 256 -> palette (outb p x v) j = palette v j;
  other_in : forall p v, p <> 0x3C9 ->
    forall j, 0 <= j < 256 -> palette (snd (inb p v)) j = palette v j;
  cursor_range : forall v, 0 <= cursor v < 2 ^ 16;
  cursor_get : forall v,
    let '(hi, v1) := inb 0x3D5 (outb 0x3D4 14 v) in
    let '(lo, v2) := inb 0x3D5 (outb 0x3D4 15 v1) in
    hi = cursor v / 256 /\ lo = cursor v mod 256;
  cursor_set : forall v hi lo, 0 <= hi < 256 -> 0 <= lo < 256 ->
    cursor (outb 0x3D5 lo (outb 0x3D4 15 (outb 0x3D5 hi (outb 0x3D4 14 v)))) = 256 * hi + lo }.

Section Driver.
Context {V : Type} `{Vga V}.

(** ** vga.c *)

Definition run_reg (w : regwrite) (v : V) : V :=
  match w with
  | W3C2 x => outb 0x3C2 x v
  | W3C4 i x => outb 0x3C5 x (outb 0x3C4 i v)
  | W3CE i x => outb 0x3CF x (outb 0x3CE i v)
  | W3D4 i x => outb 0x3D5 x (outb 0x3D4 i v)
  | W3C0 i x => outb 0x3C0 x (outb 0x3C0 i (snd (inb 0x3DA v)))
  | R3DA => snd (inb 0x3DA v)
  end.
Definition run_regs (ws : list regwrite) (v : V) : V := fold_left (fun v w => run_reg w v) ws v.

(** [outb] sends the low byte. *)
Definition vgaSetPalette (index r g b : Z) (v : V) : V :=
  outb 0x3C9 (u8 b) (outb 0x3C9 (u8 g) (outb 0x3C9 (u8 r) (outb 0x3C8 (u8 index) v))).

(** A palette in 24-bit form, stored entry by entry. *)
Fixpoint load_palette (index : Z) (values : list Z) (v : V) : V :=
  match values with
  | [] => v
  | value :: values =>
      load_palette (index + 1) values
        (vgaSetPalette index (Z.land (Z.shiftr value 18) 63) (Z.land (Z.shiftr value 10) 63)
           (Z.land (Z.shiftr value 2) 63) v)
  end.

Definition setdefaultVGApalette (v : V) : V := load_palette 0 vga256_24bit v.
Definition cgaRestorePalette (cga256 : list Z) (v : V) : V := load_palette 0 cga256 v.

Fixpoint save_loop (n : nat) (v : V) : list Z * V :=
  match n with
  | O => ([], v)
  | S n =>
      let '(r, v) := inb 0x3C9 v in
      let '(g, v) := inb 0x3C9 v in
      let '(b, v) := inb 0x3C9 v in
      let '(l, v) := save_loop n v in
      (u32 (Z.lor (Z.lor (Z.shiftl r 18) (Z.shiftl g 10)) (Z.shiftl b 2)) :: l, v)
  end.
Definition cgaSavePalette (v : V) : list Z * V := save_loop 256 (outb 0x3C7 0 v).

(** The new [cga256] and adapter. *)
Definition vgaMode13 (v : V) : list Z * V :=
  let '(cga256, v) := cgaSavePalette v in
  let v := run_regs mode13_regs v in
  let v := outb 0x3C0 0x20 (snd (inb 0x3DA v)) in
  (cga256, setdefaultVGApalette v).

Definition store_bytes (m : mem) (a : Z) (l : list Z) : mem := fun x =>
  if (a <=? x) && (x <? a + Z.of_nat (length l)) then nth (Z.to_nat (x - a)) l 0 else m x.
Definition load_bytes (m : mem) (a : Z) (n : nat) : list Z :=
  map (fun k => m (a + Z.of_nat k)) (seq 0 n).

(** Character [c]'s 16 rows go to offset 32 c. *)
Definition load_font (m : mem) : mem := fun x =>
  let o := x - (KERNBASE + 0xa0000) in
  if (0 <=? o) && (o <? 8192) && (o mod 32 <? 16)
  then nth (Z.to_nat (o / 32 * 16 + o mod 32)) g_8x16_font 0 else m x.

Definition vgaMode3 (cga256 : list Z) (m : mem) (v : V) : mem * V :=
  let v := run_regs mode3_regs v in
  let m := load_font m in
  let v := run_regs mode3_regs_after_font v in
  let v := outb 0x3C0 0x20 (snd (inb 0x3DA v)) in
  (m, cgaRestorePalette cga256 v).

(** ** display.c *)

Definition TEXT_MEM_SIZE : nat := 4000.

Record display : Type := mkDisplay {
  ram : mem;
  vga : V;
  cga256 : list Z;
  saved_text_mem : list Z;
  text_saved : bool;
  saved_cursor_pos : Z }.

Definition get_cursor_pos (v : V) : Z * V :=
  let '(hi, v) := inb 0x3D5 (outb 0x3D4 14 v) in
  let '(lo, v) := inb 0x3D5 (outb 0x3D4 15 v) in
  (Z.lor (Z.shiftl hi 8) lo, v).

Definition set_cursor_pos (pos : Z) (v : V) : V :=
  outb 0x3D5 (u8 pos) (outb 0x3D4 15 (outb 0x3D5 (u8 (Z.shiftr pos 8)) (outb 0x3D4 14 v))).

Definition textmem : Z := KERNBASE + 0xB8000.

Definition displayioctl (param value : Z) (d : display) : Z * display :=
  if param =? 1 then
    if value =? 0x13 then
      let d :=
        if negb (text_saved d) then
          let '(pos, v) := get_cursor_pos (vga d) in
          mkDisplay (ram d) v (cga256 d) (load_bytes (ram d) textmem TEXT_MEM_SIZE) true pos
        else d in
      let '(pal, v) := vgaMode13 (vga d) in
      (0, mkDisplay (ram d) v pal (saved_text_mem d) (text_saved d) (saved_cursor_pos d))
    else if value =? 0x3 then
      let '(m, v) := vgaMode3 (cga256 d) (ram d) (vga d) in
      if text_saved d then
        (0, mkDisplay (store_bytes m textmem (saved_text_mem d))
              (set_cursor_pos (saved_cursor_pos d) v) (cga256 d) (saved_text_mem d) false
              (saved_cursor_pos d))
      else (0, mkDisplay m v (cga256 d) (saved_text_mem d) false (saved_cursor_pos d))
    else (-1, d)
  else if param =? 2 then
    let byte k := Z.land (Z.shiftr value k) 255 in
    (0, mkDisplay (ram d) (vgaSetPalette (byte 24) (byte 16) (byte 8) (byte 0) (vga d))
          (cga256 d) (saved_text_mem d) (text_saved d) (saved_cursor_pos d))
  else (-1, d).

(** [displaywrite] at file offset [off]: the count, the new offset. *)
Definition displaywrite (off : Z) (buf : list Z) (d : display) : Z * Z * display :=
  let n := Z.of_nat (length buf) in
  (n, u32 (off + n),
   mkDisplay (store_bytes (ram d) (KERNBASE + 0xa0000 + off) buf) (vga d) (cga256 d)
     (saved_text_mem d) (text_saved d) (saved_cursor_pos d)).
End Driver.
Arguments display V : clear implicits.

(** * Bytes in memory *)

Lemma store_bytes_in m a l k :
  (k < length l)%nat -> store_bytes m a l (a + Z.of_nat k) = nth k l 0.
Proof.
  intros Hk. unfold store_bytes. replace (_ && _) with true by lia.
  by replace (Z.to_nat (a + Z.of_nat k - a)) with k by lia.
Qed.

Lemma store_bytes_out m a l x :
  x < a \/ a + Z.of_nat (length l) <= x -> store_bytes m a l x = m x.
Proof. intros Hx. unfold store_bytes. by replace (_ && _) with false by lia. Qed.

Lemma load_store_bytes m a l : load_bytes (store_bytes m a l) a (length l) = l.
Proof.
  apply list_eq. intros k. unfold load_bytes.
  destruct (decide (k < length l)%nat) as [Hk|Hk].
  - rewrite list_lookup_fmap, lookup_seq_lt by done. simpl. rewrite store_bytes_in by done.
    destruct (lookup_lt_is_Some_2 l k Hk) as [x Hx]. by rewrite Hx, nth_lookup, Hx.
  - rewrite (lookup_ge_None_2 l) by lia.
    apply lookup_ge_None_2. rewrite length_map, length_seq. lia.
Qed.

Lemma length_load_bytes m a n : length (load_bytes m a n) = n.
Proof. unfold load_bytes. by rewrite length_map, length_seq. Qed.

(** Two stores side by side are one. *)
Lemma store_bytes_app m a l r x :
  store_bytes (store_bytes m a l) (a + Z.of_nat (length l)) r x = store_bytes m a (l ++ r) x.
Proof.
  unfold store_bytes. rewrite length_app.
  destruct (decide (a + Z.of_nat (length l) <= x < a + Z.of_nat (length l) + Z.of_nat (length r))) as [Hr|Hr].
  - replace (_ && _) with true by lia.
    replace ((a <=? x) && (x <? a + Z.of_nat (length l + length r))) with true by lia.
    rewrite app_nth2 by lia. f_equal. lia.
  - replace (_ && _) with false by lia. destruct (decide (a <= x < a + Z.of_nat (length l))) as [Hl|Hl].
    + replace (_ && _) with true by lia.
      replace ((a <=? x) && (x <? a + Z.of_nat (length l + length r))) with true by lia.
      rewrite app_nth1 by lia. done.
    + replace ((a <=? x) && (x <? a + Z.of_nat (length l))) with false by lia.
      by replace ((a <=? x) && (x <? a + Z.of_nat (length l + length r))) with false by lia.
Qed.

(** * Bits *)

(** Bits placed above the [n] low bits of [b]. *)
Lemma lor_shiftl_add a b n : 0 <= n -> 0 <= b < 2 ^ n -> Z.lor (Z.shiftl a n) b = a * 2 ^ n + b.
Proof.
  intros Hn Hb. pose proof (Z.add_lor_land (Z.shiftl a n) b) as E.
  assert (Z.land (Z.shiftl a n) b = 0) as E0.
  { apply Z.bits_inj'. intros k Hk. rewrite Z.land_spec, Z.bits_0.
    destruct (decide (k < n)) as [Hlt|Hge].
    - rewrite Z.shiftl_spec_low by done. done.
    - destruct (decide (b = 0)) as [->|Hb0]; [by rewrite Z.bits_0, andb_false_r|].
      rewrite (Z.bits_above_log2 b k); [apply andb_false_r|lia|].
      pose proof (proj1 (Z.log2_lt_pow2 b n ltac:(lia))). lia. }
  rewrite E0, Z.shiftl_mul_pow2 in E by done. rewrite Z.shiftl_mul_pow2 by done. lia.
Qed.

Lemma load_font_glyph m c r : 0 <= c < 256 -> 0 <= r < 16 ->
  load_font m (KERNBASE + 0xa0000 + 32 * c + r) = nth (Z.to_nat (16 * c + r)) g_8x16_font 0.
Proof.
  intros Hc Hr. unfold load_font.
  replace (KERNBASE + 655360 + 32 * c + r - (KERNBASE + 655360)) with (32 * c + r) by lia.
  assert ((32 * c + r) / 32 = c) as -> by (Z.div_mod_to_equations; lia).
  assert ((32 * c + r) mod 32 = r) as -> by (Z.div_mod_to_equations; lia).
  replace (_ && _) with true by lia. f_equal. lia.
Qed.

(** What the palette entry [value] means to the colour table. *)
Definition entry_of (value : Z) : Z * Z * Z :=
  (Z.land (Z.shiftr value 18) 63, Z.land (Z.shiftr value 10) 63, Z.land (Z.shiftr value 2) 63).

Lemma land_63 x : Z.land x 63 = x mod 64.
Proof. change 63 with (Z.ones 6). by rewrite Z.land_ones by lia. Qed.

(** The packed form of an entry is unpacked to the entry. *)
Lemma entry_roundtrip r g b : 0 <= r < 64 -> 0 <= g < 64 -> 0 <= b < 64 ->
  entry_of (u32 (Z.lor (Z.lor (Z.shiftl r 18) (Z.shiftl g 10)) (Z.shiftl b 2))) = (r, g, b).
Proof.
  intros Hr Hg Hb.
  assert (Z.lor (Z.lor (Z.shiftl r 18) (Z.shiftl g 10)) (Z.shiftl b 2)
          = r * 262144 + g * 1024 + b * 4) as ->.
  { rewrite <- Z.lor_assoc, (Z.shiftl_mul_pow2 b) by lia.
    rewrite (lor_shiftl_add g (b * 2 ^ 2) 10) by lia.
    rewrite (lor_shiftl_add r (g * 2 ^ 10 + b * 2 ^ 2) 18) by lia. lia. }
  unfold entry_of, u32. rewrite !land_63, !Z.shiftr_div_pow2 by lia.
  change (2 ^ 32) with 4294967296. change (2 ^ 18) with 262144. change (2 ^ 10) with 1024.
  change (2 ^ 2) with 4.
  rewrite (Z.mod_small (r * 262144 + g * 1024 + b * 4)) by lia.
  f_equal; [f_equal|]; Z.div_mod_to_equations; lia.
Qed.

(** * The driver against the interface *)

Section Laws.
Context {V : Type} `{Vga V}.
Implicit Types v : V.

Definition same_palette (v w : V) : Prop := forall j, 0 <= j < 256 -> palette v j = palette w j.

#[local] Instance same_palette_equiv : Equivalence same_palette.
Proof.
  split; [by intros v j|intros v w E j Hj; by rewrite E|].
  intros u v w E1 E2 j Hj. by rewrite E1, E2.
Qed.

Lemma run_reg_palette w v : same_palette (run_reg w v) v.
Proof.
  intros j Hj. destruct w; simpl; rewrite ?other_out, ?other_in by (done || lia); done.
Qed.

Lemma run_regs_palette ws v : same_palette (run_regs ws v) v.
Proof.
  revert v. induction ws as [|w ws IH]; intros v; [done|].
  change (run_regs (w :: ws) v) with (run_regs ws (run_reg w v)).
  rewrite IH. apply run_reg_palette.
Qed.

(** Loading a table at [index] sets its entries and leaves the others. *)
Lemma load_palette_spec values index v : 0 <= index -> index + Z.of_nat (length values) <= 256 ->
  forall j, 0 <= j < 256 ->
  palette (load_palette index values v) j
  = if (index <=? j) && (j <? index + Z.of_nat (length values))
    then entry_of (nth (Z.to_nat (j - index)) values 0) else palette v j.
Proof.
  revert index v. induction values as [|x values IH]; intros index v Hi Hl j Hj; cbn [length] in *.
  { by replace (_ && _) with false by lia. }
  cbn [load_palette]. rewrite IH by lia. unfold vgaSetPalette.
  assert (forall k, 0 <= Z.land (Z.shiftr x k) 63 < 64) as Hb.
  { intros k. rewrite land_63. apply Z.mod_pos_bound. lia. }
  rewrite !u8_id by (pose proof (Hb 18); pose proof (Hb 10); pose proof (Hb 2); lia).
  pose proof (set_entry v index _ _ _ ltac:(lia) (Hb 18) (Hb 10) (Hb 2)) as [E _].
  rewrite E by done. destruct (decide (j = index)) as [->|Hne].
  - replace ((_ <=? _) && _) with false by lia. rewrite Z.eqb_refl.
    replace ((_ <=? _) && _) with true by lia. by rewrite Z.sub_diag.
  - rewrite (proj2 (Z.eqb_neq j index)) by done.
    destruct (decide (index < j < index + Z.of_nat (S (length values)))).
    + replace ((_ <=? _) && _) with true by lia. replace ((_ <=? _) && _) with true by lia.
      replace (Z.to_nat (j - index)) with (S (Z.to_nat (j - (index + 1)))) by lia. done.
    + replace ((_ <=? _) && _) with false by lia. by replace ((_ <=? _) && _) with false by lia.
Qed.

(** A saved table restores the palette it was saved from. *)
Lemma save_loop_spec n i v l v' : 0 <= i -> i + Z.of_nat n <= 256 -> rd v = 3 * i ->
  save_loop n v = (l, v') ->
  length l = n /\ same_palette v' v
  /\ forall k, (k < n)%nat -> entry_of (nth k l 0) = palette v (i + Z.of_nat k).
Proof.
  revert i v l v'. induction n as [|n IH]; intros i v l v' Hi Hn Hrd E; cbn [save_loop] in E.
  { simplify_eq. split; [done|]. split; [done|]. lia. }
  pose proof (read_next v i ltac:(lia) Hrd) as Hr.
  destruct (inb 969 v) as [r v1]. destruct (inb 969 v1) as [g v2]. destruct (inb 969 v2) as [b v3].
  destruct Hr as (Hrgb & Hrd3 & _ & Hp3).
  destruct (save_loop n v3) as [l3 v4] eqn:E3. simplify_eq.
  destruct (IH (i + 1) v3 l3 v' ltac:(lia) ltac:(lia) Hrd3 E3) as (Hlen & Hp4 & Hent).
  split; [cbn; congruence|]. split; [intros j Hj; rewrite Hp4, Hp3; done|].
  intros [|k] Hk.
  - pose proof (palette_6bit v i ltac:(lia)) as H6. rewrite Z.add_0_r, <- Hrgb.
    rewrite <- Hrgb in H6. apply entry_roundtrip; tauto.
  - cbn [nth]. rewrite Hent, Hp3 by lia. f_equal. lia.
Qed.

Lemma cgaSavePalette_spec v l v' : cgaSavePalette v = (l, v') ->
  length l = 256%nat /\ forall j, 0 <= j < 256 -> entry_of (nth (Z.to_nat j) l 0) = palette v j.
Proof.
  intros E. destruct (read_start v) as (H0 & _ & Hp).
  destruct (save_loop_spec 256 0 (outb 0x3C7 0 v) l v' ltac:(lia) ltac:(lia) H0 E) as (Hl & _ & He).
  split; [done|]. intros j Hj. rewrite He, Hp by lia. f_equal. lia.
Qed.

Lemma cgaRestorePalette_spec l v : length l = 256%nat ->
  forall j, 0 <= j < 256 -> palette (cgaRestorePalette l v) j = entry_of (nth (Z.to_nat j) l 0).
Proof.
  intros Hl j Hj. unfold cgaRestorePalette. rewrite load_palette_spec by lia.
  replace (_ && _) with true by lia. by rewrite Z.sub_0_r.
Qed.

Lemma cursor_roundtrip v w p v' : get_cursor_pos v = (p, v') -> cursor (set_cursor_pos p w) = cursor v.
Proof.
  unfold get_cursor_pos. pose proof (cursor_get v) as Hg. pose proof (cursor_range v) as Hr.
  destruct (inb 981 (outb 980 14 v)) as [hi v1]. destruct (inb 981 (outb 980 15 v1)) as [lo v2].
  destruct Hg as [-> ->]. intros E. simplify_eq. change (2 ^ 16) with 65536 in Hr.
  assert (0 <= cursor v / 256 < 256) by (Z.div_mod_to_equations; lia).
  assert (0 <= cursor v mod 256 < 256) by (Z.div_mod_to_equations; lia).
  rewrite lor_shiftl_add by lia.
  replace (cursor v / 256 * 2 ^ 8 + cursor v mod 256) with (cursor v)
    by (Z.div_mod_to_equations; lia).
  unfold set_cursor_pos. rewrite Z.shiftr_div_pow2 by lia. change (2 ^ 8) with 256.
  rewrite (u8_id (cursor v / 256)) by lia. unfold u8. change (2 ^ 8) with 256.
  rewrite cursor_set by lia. Z.div_mod_to_equations; lia.
Qed.

Lemma get_cursor_palette v : same_palette (snd (get_cursor_pos v)) v.
Proof.
  intros j Hj. unfold get_cursor_pos.
  pose proof (other_in 981 (outb 980 14 v) ltac:(done) j Hj) as E1.
  destruct (inb 981 (outb 980 14 v)) as [hi v1].
  pose proof (other_in 981 (outb 980 15 v1) ltac:(done) j Hj) as E2.
  destruct (inb 981 (outb 980 15 v1)) as [lo v2]. simpl in *.
  by rewrite E2, other_out, E1, other_out by lia.
Qed.

Lemma set_cursor_palette p v : same_palette (set_cursor_pos p v) v.
Proof. intros j Hj. unfold set_cursor_pos. by rewrite !other_out by lia. Qed.
End Laws.

(** * Leaving graphics mode restores the text screen *)

(** What can happen to the display between two switches: device calls, and any
    change of memory (by the adapter, or by other code). *)
Inductive dev_op : Type :=
  | Ioctl (param value : Z)
  | Write (off : Z) (buf : list Z)
  | Memory (f : mem -> mem).

Definition is_ioctl (param value : Z) (o : dev_op) : bool :=
  match o with Ioctl p x => (p =? param) && (x =? value) | _ => false end.
Notation enter13 := (Ioctl 1 0x13).
Notation leave3 := (Ioctl 1 3).

Section Sessions.
Context {V : Type} `{Vga V}.
Implicit Types d : display V.

Definition dev_step (d : display V) (o : dev_op) : display V :=
  match o with
  | Ioctl p x => snd (displayioctl p x d)
  | Write off buf => snd (displaywrite off buf d)
  | Memory f => mkDisplay (f (ram d)) (vga d) (cga256 d) (saved_text_mem d) (text_saved d)
                  (saved_cursor_pos d)
  end.
Definition dev_run (ops : list dev_op) (d : display V) : display V := fold_left dev_step ops d.

Lemma dev_run_app l r d : dev_run (l ++ r) d = dev_run r (dev_run l d).
Proof. apply fold_left_app. Qed.

(** While graphics mode lasts, the screen [text] and the cursor [c] are kept aside. *)
Definition kept (text : list Z) (c : Z) (d : display V) : Prop :=
  text_saved d = true /\ saved_text_mem d = text
  /\ forall w : V, cursor (set_cursor_pos (saved_cursor_pos d) w) = c.

(** The saved palette is [pal]. *)
Definition kept_palette (pal : Z -> Z * Z * Z) (d : display V) : Prop :=
  length (cga256 d) = 256%nat
  /\ forall j, 0 <= j < 256 -> entry_of (nth (Z.to_nat j) (cga256 d) 0) = pal j.

Lemma vgaMode13_saves v l v' : vgaMode13 v = (l, v') ->
  length l = 256%nat /\ forall j, 0 <= j < 256 -> entry_of (nth (Z.to_nat j) l 0) = palette v j.
Proof.
  unfold vgaMode13. destruct (cgaSavePalette v) as [l0 v0] eqn:E. intros E'. simplify_eq.
  by apply (cgaSavePalette_spec v l v0).
Qed.

Lemma vgaMode13_palette v l v' : vgaMode13 v = (l, v') ->
  forall j, 0 <= j < 256 -> palette v' j = entry_of (nth (Z.to_nat j) vga256_24bit 0).
Proof.
  unfold vgaMode13. destruct (cgaSavePalette v) as [l0 v0]. intros E. simplify_eq.
  intros j Hj. by apply (cgaRestorePalette_spec vga256_24bit).
Qed.

Lemma enter_keeps d : text_saved d = false ->
  kept (load_bytes (ram d) textmem TEXT_MEM_SIZE) (cursor (vga d)) (dev_step d enter13).
Proof.
  intros Hs. unfold dev_step, displayioctl. rewrite Hs. cbn [Z.eqb negb].
  change (1 =? 1) with true. change (19 =? 19) with true. cbn [negb].
  destruct (get_cursor_pos (vga d)) as [pos v] eqn:E. cbn -[vgaMode13 load_bytes].
  destruct (vgaMode13 v) as [pal v']. cbn -[load_bytes]. split; [done|]. split; [done|].
  cbn. intros w. by apply (cursor_roundtrip (vga d) w pos v).
Qed.

Lemma enter_keeps_palette d : kept_palette (palette (vga d)) (dev_step d enter13).
Proof.
  unfold dev_step, displayioctl. change (1 =? 1) with true. change (19 =? 19) with true. cbn iota.
  destruct (text_saved d); cbn [negb].
  - destruct (vgaMode13 (vga d)) as [pal v'] eqn:E. by apply (vgaMode13_saves _ _ _ E).
  - pose proof (get_cursor_palette (vga d)) as Hp. destruct (get_cursor_pos (vga d)) as [pos v].
    cbn -[vgaMode13 load_bytes]. destruct (vgaMode13 v) as [pal v'] eqn:E.
    destruct (vgaMode13_saves _ _ _ E) as [Hl He]. split; [done|]. intros j Hj.
    cbn. rewrite He by done. by apply Hp.
Qed.

Lemma enter_sets_palette d j : 0 <= j < 256 ->
  palette (vga (dev_step d enter13)) j = entry_of (nth (Z.to_nat j) vga256_24bit 0).
Proof.
  intros Hj. unfold dev_step, displayioctl. change (1 =? 1) with true. change (19 =? 19) with true.
  cbn iota. set (d0 := if negb (text_saved d) then _ else _). destruct (vgaMode13 (vga d0)) eqn:E.
  by apply (vgaMode13_palette _ _ _ E).
Qed.

Lemma dev_step_keeps text c o d : is_ioctl 1 3 o = false -> kept text c d -> kept text c (dev_step d o).
Proof.
  intros Ho (Hs & Ht & Hc). destruct o as [p x|off buf|f]; [|done..]. cbn in Ho.
  unfold dev_step, displayioctl. destruct (p =? 1); cbn [andb] in Ho.
  - rewrite Ho. destruct (x =? 19); [|done]. rewrite Hs. cbn [negb].
    by destruct (vgaMode13 (vga d)).
  - by destruct (p =? 2).
Qed.

Lemma dev_step_keeps_palette pal o d :
  is_ioctl 1 3 o = false -> is_ioctl 1 0x13 o = false ->
  kept_palette pal d -> kept_palette pal (dev_step d o).
Proof.
  intros Ho Ho' Hp. destruct o as [p x|off buf|f]; [|done..]. cbn in Ho, Ho'.
  unfold dev_step, displayioctl. destruct (p =? 1); cbn [andb] in Ho, Ho'.
  - by rewrite Ho, Ho'.
  - by destruct (p =? 2).
Qed.

Lemma dev_run_keeps text c ops d : Forall (fun o => is_ioctl 1 3 o = false) ops ->
  kept text c d -> kept text c (dev_run ops d).
Proof.
  intros Ho. revert d. induction Ho as [|o ops Ho _ IH]; intros d Hk; [done|].
  apply IH. by apply dev_step_keeps.
Qed.

Lemma dev_run_keeps_palette pal ops d :
  Forall (fun o => is_ioctl 1 3 o = false) ops -> Forall (fun o => is_ioctl 1 0x13 o = false) ops ->
  kept_palette pal d -> kept_palette pal (dev_run ops d).
Proof.
  intros Ho. revert d. induction Ho as [|o ops Ho _ IH]; intros d Ho' Hk; [done|].
  inversion Ho'. subst. apply IH; [done|]. by apply dev_step_keeps_palette.
Qed.

Lemma leave_restores text c d : length text = TEXT_MEM_SIZE -> kept text c d ->
  let d' := dev_step d leave3 in
  load_bytes (ram d') textmem TEXT_MEM_SIZE = text /\ cursor (vga d') = c /\ text_saved d' = false
  /\ forall x, ~ textmem <= x < textmem + Z.of_nat TEXT_MEM_SIZE -> ram d' x = load_font (ram d) x.
Proof.
  intros Hl (Hs & <- & Hc). unfold dev_step, displayioctl. rewrite Hs.
  cbn -[load_bytes textmem TEXT_MEM_SIZE].
  split; [rewrite <- Hl; apply load_store_bytes|]. split; [apply Hc|]. split; [done|].
  intros x Hx. apply store_bytes_out. rewrite Hl. lia.
Qed.

Lemma leave_restores_palette pal d : kept_palette pal d ->
  forall j, 0 <= j < 256 -> palette (vga (dev_step d leave3)) j = pal j.
Proof.
  intros [Hl He] j Hj. rewrite <- He by done. unfold dev_step, displayioctl.
  cbn -[load_bytes textmem cgaRestorePalette store_bytes].
  destruct (text_saved d); cbn -[cgaRestorePalette]; [rewrite set_cursor_palette by done|];
    by apply cgaRestorePalette_spec.
Qed.
End Sessions.

(** * An adapter *)

(** A colour table with its read and write sequences, and the cursor registers. *)
Record adapter : Type := mkAdapter {
  table : Z -> Z * Z * Z;
  rpos : Z;
  windex : Z;
  pending : list Z;
  crt_index : Z;
  hi : Z;
  lo : Z }.

Definition six (e : Z * Z * Z) : Z * Z * Z := let '(r, g, b) := e in (r mod 64, g mod 64, b mod 64).

Definition adapter_outb (p x : Z) (v : adapter) : adapter :=
  let '(mkAdapter t rp w pe ci h l) := v in
  if p =? 0x3C7 then mkAdapter t (3 * x) w pe ci h l
  else if p =? 0x3C8 then mkAdapter t rp x [] ci h l
  else if p =? 0x3C9 then
    match pe with
    | [r; g] => mkAdapter (fun j => if j =? w then (r, g, x) else t j) rp (w + 1) [] ci h l
    | _ => mkAdapter t rp w (pe ++ [x]) ci h l
    end
  else if p =? 0x3D4 then mkAdapter t rp w pe x h l
  else if p =? 0x3D5 then
    mkAdapter t rp w pe ci (if ci =? 14 then x mod 256 else h) (if ci =? 15 then x mod 256 else l)
  else v.

Definition adapter_inb (p : Z) (v : adapter) : Z * adapter :=
  let '(mkAdapter t rp w pe ci h l) := v in
  if p =? 0x3C9 then
    let '(r, g, b) := six (t (rp / 3)) in
    (if rp mod 3 =? 0 then r else if rp mod 3 =? 1 then g else b, mkAdapter t (rp + 1) w pe ci h l)
  else if p =? 0x3D5 then
    (if ci =? 14 then h mod 256 else if ci =? 15 then l mod 256 else 0, v)
  else (0, v).

#[local] Obligation Tactic := idtac.
#[program]
Instance adapter_vga : Vga adapter := {
  outb := adapter_outb;
  inb := adapter_inb;
  palette v j := six (table v j);
  rd := rpos;
  cursor v := 256 * (hi v mod 256) + lo v mod 256 }.
Next Obligation.
  intros v i _. unfold six. destruct (table v i) as [[r g] b].
  split; [apply Z.mod_pos_bound; lia|]. split; apply Z.mod_pos_bound; lia.
Qed.
Next Obligation.
  intros [t rp w pe ci h l] i r g b Hi Hr Hg Hb. simpl. split; [|done]. intros j Hj.
  destruct (j =? i); [|done]. unfold six. by rewrite !Z.mod_small by lia.
Qed.
Next Obligation. by intros [t rp w pe ci h l]. Qed.
Next Obligation.
  intros [t rp w pe ci h l] i Hi Hrd. simpl in Hrd. subst rp. unfold adapter_inb.
  change (969 =? 969) with true. cbn beta iota.
  replace (3 * i / 3) with i by (Z.div_mod_to_equations; lia).
  replace ((3 * i) mod 3) with 0 by (Z.div_mod_to_equations; lia).
  cbn [table rpos]. destruct (six (t i)) as [[r g] b] eqn:E. cbn beta iota.
  replace ((3 * i + 1) / 3) with i by (Z.div_mod_to_equations; lia).
  replace ((3 * i + 1) mod 3) with 1 by (Z.div_mod_to_equations; lia).
  rewrite E. cbn beta iota.
  replace ((3 * i + 1 + 1) / 3) with i by (Z.div_mod_to_equations; lia).
  replace ((3 * i + 1 + 1) mod 3) with 2 by (Z.div_mod_to_equations; lia).
  rewrite E. simpl. split; [done|]. split; [lia|done].
Qed.
Next Obligation.
  intros p x [t rp w pe ci h l] H1 H2 H3 j _. unfold adapter_outb.
  rewrite !(proj2 (Z.eqb_neq p _)) by done. by destruct (p =? 980); [|destruct (p =? 981)].
Qed.
Next Obligation.
  intros p [t rp w pe ci h l] H1 j _. unfold adapter_inb.
  rewrite (proj2 (Z.eqb_neq p _)) by done. by destruct (p =? 981).
Qed.
Next Obligation. intros v. simpl. Z.div_mod_to_equations; lia. Qed.
Next Obligation.
  intros [t rp w pe ci h l]. simpl. split; Z.div_mod_to_equations; lia.
Qed.
Next Obligation.
  intros [t rp w pe ci h l] hi lo Hh Hl. simpl. rewrite !Z.mod_mod by lia.
  rewrite !Z.mod_small by lia. done.
Qed.

(** A text screen to start from. *)
Definition boot_display : display adapter :=
  mkDisplay (fun a => (7 * a) mod 256) (mkAdapter (fun j => (j mod 64, 2, 3)) 0 0 [] 0 3 200)
    [] [] false 0.

Lemma display_restores {V} `{Vga V} (d : display V) (ops : list dev_op) :
  text_saved d = false -> Forall (fun o => is_ioctl 1 3 o = false) ops ->
  let d' := dev_run (enter13 :: ops ++ [leave3]) d in
  load_bytes (ram d') textmem TEXT_MEM_SIZE = load_bytes (ram d) textmem TEXT_MEM_SIZE
  /\ cursor (vga d') = cursor (vga d) /\ text_saved d' = false
  /\ (forall c r, 0 <= c < 256 -> 0 <= r < 16 ->
        ram d' (KERNBASE + 0xa0000 + 32 * c + r) = nth (Z.to_nat (16 * c + r)) g_8x16_font 0)
  /\ (Forall (fun o => is_ioctl 1 0x13 o = false) ops -> same_palette (vga d') (vga d)).
Proof.
  intros Hs Hops. cbn zeta. change (enter13 :: ops ++ [leave3]) with ([enter13] ++ ops ++ [leave3]).
  rewrite !dev_run_app. set (d1 := dev_run [enter13] d). set (d2 := dev_run ops d1).
  change (dev_run [leave3] d2) with (dev_step d2 leave3).
  assert (kept (load_bytes (ram d) textmem TEXT_MEM_SIZE) (cursor (vga d)) d2) as Hk
    by (apply dev_run_keeps; [done|]; by apply enter_keeps).
  destruct (leave_restores _ _ d2 (length_load_bytes _ _ _) Hk) as (Ht & Hc & Hf & Ho).
  split; [done|]. split; [done|]. split; [done|]. split.
  - intros c r Hcc Hr. rewrite Ho by (unfold textmem, TEXT_MEM_SIZE; lia).
    apply load_font_glyph; lia.
  - intros H13 j Hj. apply leave_restores_palette; [|done]. apply dev_run_keeps_palette; [done..|].
    apply enter_keeps_palette.
Qed.

(** C27: Leaving graphics mode gives the text screen back.  Mode 0x13 is entered
    from text mode; then any device calls follow short of switching back (pixel
    writes, palette changes, further switches to 0x13) and any change of memory;
    when mode 3 is then requested, text memory has the 4000 bytes it had, the
    cursor is where it was, every glyph of the font is in place, and the palette
    is the one before the switch provided 0x13 was entered only once. *)
Theorem display_text_roundtrip {V} `{Vga V} (d : display V) (ops : list dev_op) :
  text_saved d = false -> Forall (fun o => is_ioctl 1 3 o = false) ops ->
  let d' := dev_run (enter13 :: ops ++ [leave3]) d in
  load_bytes (ram d') textmem TEXT_MEM_SIZE = load_bytes (ram d) textmem TEXT_MEM_SIZE
  /\ cursor (vga d') = cursor (vga d) /\ text_saved d' = false
  /\ (forall c r, 0 <= c < 256 -> 0 <= r < 16 ->
        ram d' (KERNBASE + 0xa0000 + 32 * c + r) = nth (Z.to_nat (16 * c + r)) g_8x16_font 0)
  /\ (Forall (fun o => is_ioctl 1 0x13 o = false) ops -> same_palette (vga d') (vga d)).
Proof. apply display_restores. Qed.

Lemma display_text_roundtrip_witness :
  let ops := [Write 0 [1; 2; 3]; Ioctl 2 0x05FFFFFF; Memory (fun _ _ => 0); Write 3 [9]] in
  let d' := dev_run (enter13 :: ops ++ [leave3]) boot_display in
  cursor (vga d') = cursor (vga boot_display) /\ same_palette (vga d') (vga boot_display).
Proof.
  intros ops d'.
  assert (Forall (fun o => is_ioctl 1 3 o = false) ops) as H3
    by (repeat (apply Forall_cons_2; [reflexivity|]); apply Forall_nil_2).
  destruct (display_text_roundtrip boot_display ops eq_refl H3) as (_ & Hc & _ & _ & Hp).
  split; [exact Hc|]. apply Hp. repeat (apply Forall_cons_2; [reflexivity|]). apply Forall_nil_2.
Defined.

(** A second switch to mode 0x13 before the switch back loses the text
    palette: [vgaMode13] saves the palette of mode 0x13 over it, and text mode comes
    back with the colours of the graphics palette. *)
Theorem display_reentry_loses_palette {V} `{Vga V} (d : display V) j :
  0 <= j < 256 ->
  palette (vga (dev_run [enter13; enter13; leave3] d)) j = entry_of (nth (Z.to_nat j) vga256_24bit 0).
Proof.
  intros Hj. set (d1 := dev_step d enter13).
  change (dev_run [enter13; enter13; leave3] d) with (dev_step (dev_step d1 enter13) leave3).
  rewrite (leave_restores_palette (palette (vga d1))); [|apply enter_keeps_palette|done].
  by apply enter_sets_palette.
Qed.

Lemma display_reentry_loses_palette_witness :
  palette (vga boot_display) 1 = (1, 2, 3)
  /\ palette (vga (dev_run [enter13; enter13; leave3] boot_display)) 1 = (0, 0, 42).
Proof.
  split; [reflexivity|]. rewrite (display_reentry_loses_palette boot_display 1) by lia. reflexivity.
Defined.
