(* ===== verification/Console.v ===== *)
(** Model of src/console.c (with [uartputc] of src/uart.c and [procdump] of
    src/proc.c): the text screen, formatted kernel output, and the line
    discipline of console input.

    [console] is the output side: text memory as 16-bit cells, the cursor that
    the CRTC registers 14 and 15 hold, the bytes sent to the serial port.
    [suppress] is what [ai_should_suppress_console] reads.  [input] is the input
    ring with its three indices, unsigned 32-bit counters.  A keyboard or serial
    interrupt hands [consoleintr] the characters [getc] returns until -1.
    [cons.lock] and [input.lock] are taken and given back by every call, [sleep]
    included, so each call here is one step under its lock. *)
From stdpp Require Import base strings numbers list.
From S2P Require Import Prelude CString Printf Proc.
Local Open Scope Z_scope.

Record console : Type := mkConsole {
  crt : list Z;
  cursor : Z;
  tx : list Z;
  uart : bool;
  locking : bool;
  suppress : bool;
  panicked : bool;
  console_global_color : Z }.

Definition with_screen (cells : list Z) (pos : Z) (s : console) : console :=
  mkConsole cells pos (tx s) (uart s) (locking s) (suppress s) (panicked s) (console_global_color s).
Definition with_tx (t : list Z) (s : console) : console :=
  mkConsole (crt s) (cursor s) t (uart s) (locking s) (suppress s) (panicked s)
    (console_global_color s).

Definition BACKSPACE : Z := 0x100.

(** The wait for the transmitter is bounded; the byte is sent in any case. *)
Definition uartputc (c : Z) : M console unit :=
  modify (fun s => if uart s then with_tx (tx s ++ [u8 c]) s else s).

(** [memmove(crt, crt+80, 2*23*80)], then [memset(crt+pos, 0, 2*(24*80-pos))]. *)
Definition scroll (cells : list Z) (pos : Z) : res (list Z * Z) :=
  if Z.of_nat (length cells) <? 24 * 80 then Fault else
  let cells := take 1840 (drop 80 cells) ++ drop 1840 cells in
  let pos := pos - 80 in
  let n := 24 * 80 - pos in
  if n <? 0 then Fault else
  Ok (take (Z.to_nat pos) cells ++ replicate (Z.to_nat n) 0 ++ drop 1920 cells, pos).

(** The cursor moves to [pos], after scrolling when that is past the last line. *)
Definition cgamove (color : Z) (cells : list Z) (pos : Z) (s : console) : res (unit * console) :=
  '(cells, pos) ← (if 24 <=? Z.quot pos 80 then scroll cells pos else Ok (cells, pos));
  cells ← buf_set cells pos (Z.lor 32 (Z.shiftl (Z.land color 255) 8));
  Ok (tt, with_screen cells (u16 pos) s).

Definition cgaputc (c color : Z) (s : console) : res (unit * console) :=
  let pos := cursor s in
  '(cells, pos) ←
    (if c =? 10 then Ok (crt s, pos + (80 - Z.rem pos 80))
     else if c =? BACKSPACE then Ok (crt s, if 0 <? pos then pos - 1 else pos)
     else
       cells ← buf_set (crt s) pos (Z.lor (Z.land c 255) (Z.shiftl (Z.land color 255) 8));
       Ok (cells, pos + 1));
  cgamove color cells pos s.

(** A processor that prints after a panic halts. *)
Definition consputc (c color : Z) : M console unit :=
  s ← get;
  if panicked s then panic "hlt" else
  let suppress_serial := locking s && suppress s in
  _ ← when (negb suppress_serial)
        (if c =? BACKSPACE then _ ← uartputc 8; _ ← uartputc 32; uartputc 8 else uartputc c);
  cgaputc c color.

(** ** Formatted output *)

Fixpoint consputs (cs : list Z) : M console unit :=
  match cs with
  | [] => mret tt
  | c :: cs => color ← gets console_global_color; _ ← consputc c color; consputs cs
  end.

(** The digit loops are those of the user library; here each digit goes to
    [consputc] as it is produced. *)
Definition print_x64 (x : Z) : M console unit := out ← lift (Printf.print_x64 x); consputs out.
Definition print_x32 (x : Z) : M console unit := out ← lift (Printf.print_x32 x); consputs out.
Definition print_d (v : Z) : M console unit := out ← lift (Printf.print_d v); consputs out.

Definition cprint_conv (c : Z) (ap : list arg) : M console (list arg) :=
  if c =? 100 (* 'd' *) then
    '(z, ap) ← lift (va_word ap); _ ← print_d (s32 z); mret ap
  else if c =? 120 (* 'x' *) then
    '(z, ap) ← lift (va_word ap); _ ← print_x32 (u32 z); mret ap
  else if c =? 112 (* 'p' *) then
    '(z, ap) ← lift (va_word ap); _ ← print_x64 (u64 z); mret ap
  else if c =? 115 (* 's' *) then
    '(s, ap) ← lift (va_str ap);
    _ ← consputs (match s with None => cstr "(null)" | Some s => s end); mret ap
  else if c =? 37 (* '%' *) then _ ← consputs [37]; mret ap
  else _ ← consputs [37; c]; mret ap.

Fixpoint cprintf (fmt : list Z) (ap : list arg) : M console unit :=
  match fmt with
  | [] => mret tt
  | c :: fmt =>
      if negb (c =? 37) then _ ← consputs [c]; cprintf fmt ap
      else
        match fmt with
        | [] => mret tt
        | c :: fmt => ap ← cprint_conv c ap; cprintf fmt ap
        end
  end.

(** [panic]: what it prints before the processor halts; [id] is the
    processor's number and [pcs] the return addresses [getcallerpcs] finds. *)
Fixpoint print_pcs (fmt : list Z) (pcs : list Z) : M console unit :=
  match pcs with
  | [] => mret tt
  | pc :: pcs => _ ← cprintf fmt [AInt pc]; print_pcs fmt pcs
  end.

Definition kpanic (id : Z) (msg : list Z) (pcs : list Z) : M console unit :=
  _ ← modify (fun s => mkConsole (crt s) (cursor s) (tx s) (uart s) false (suppress s) (panicked s)
                         (console_global_color s));
  _ ← cprintf (cstr "cpu%d: panic: ") [AInt id];
  _ ← cprintf msg [];
  _ ← cprintf [10] [];
  _ ← print_pcs (cstr " %p" ++ [10]) (take 10 pcs);
  modify (fun s => mkConsole (crt s) (cursor s) (tx s) (uart s) (locking s) (suppress s) true
                     (console_global_color s)).

(** [procdump]: one line per process that is in use; [dump] is what it reads of
    a process: its state, pid and name and, of a sleeping one, what
    [getstackpcs] finds on its stack. *)
Record dump : Type := mkDump {
  d_state : procstate;
  d_pid : Z;
  d_name : list Z;
  d_pcs : list Z }.

Definition states (st : procstate) : list Z :=
  match st with
  | UNUSED => cstr "unused"
  | EMBRYO => cstr "embryo"
  | SLEEPING => cstr "sleep "
  | RUNNABLE => cstr "runble"
  | RUNNING => cstr "run   "
  | ZOMBIE => cstr "zombie"
  end.

Fixpoint nonnull (pcs : list Z) : list Z :=
  match pcs with
  | [] => []
  | pc :: pcs => if pc =? 0 then [] else pc :: nonnull pcs
  end.

Fixpoint procdump (ps : list dump) : M console unit :=
  match ps with
  | [] => mret tt
  | p :: ps =>
      if bool_decide (d_state p = UNUSED) then procdump ps else
      _ ← cprintf (cstr "%d %s %s")
            [AInt (d_pid p); AStr (Some (states (d_state p))); AStr (Some (d_name p))];
      _ ← when (bool_decide (d_state p = SLEEPING))
            (print_pcs (cstr " %p") (nonnull (take 10 (d_pcs p))));
      _ ← cprintf [10] [];
      procdump ps
  end.

(** ** Input *)

Definition INPUT_BUF : Z := 128.
Definition C (x : Z) : Z := x - 64.

Record input : Type := mkInput {
  buf : list Z;
  r : Z;
  w : Z;
  e : Z;
  raw : bool }.

(** What a call works on: input, output, whether [lidt(0, 0)] was run, and
    whether the channel [&input.r] was woken. *)
Record tty : Type := mkTty {
  inp : input;
  out : console;
  rebooting : bool;
  woken : bool }.

Definition on_out {A} (m : M console A) : M tty A := fun t =>
  '(a, s) ← m (out t); Ok (a, mkTty (inp t) s (rebooting t) (woken t)).
Definition set_inp (i : input) : M tty unit :=
  modify (fun t => mkTty i (out t) (rebooting t) (woken t)).
Definition wakeup_r : M tty unit :=
  modify (fun t => mkTty (inp t) (out t) (rebooting t) true).
Definition echo (c : Z) : M tty unit :=
  on_out (color ← gets console_global_color; consputc c color).

Definition at_ (l : list Z) (i : Z) : res Z := buf_get l (u32 i mod INPUT_BUF).

(** The kill-line loop; it runs at most once per character between [w] and [e]. *)
Fixpoint kill_line (fuel : nat) : M tty unit := fun t =>
  let i := inp t in
  if e i =? w i then Ok (tt, t) else
  c ← at_ (buf i) (e i - 1);
  if c =? 10 then Ok (tt, t) else
  match fuel with
  | O => NoFuel
  | S fuel =>
      (_ ← set_inp (mkInput (buf i) (r i) (w i) (u32 (e i - 1)) (raw i));
       _ ← echo BACKSPACE;
       kill_line fuel) t
  end.

(** The body of [consoleintr]'s loop for the character [c] that [getc]
    returned; [char] is signed, so the ring holds [s8] of it. *)
Definition consoleintr1 (ps : list dump) (c : Z) : M tty unit :=
  if c =? C 90 then modify (fun t => mkTty (inp t) (out t) true (woken t))
  else if c =? C 80 then on_out (procdump ps)
  else if c =? C 85 then kill_line (Z.to_nat INPUT_BUF)
  else if (c =? C 72) || (c =? 127) then
    t ← get;
    let i := inp t in
    if negb (e i =? w i) then
      _ ← set_inp (mkInput (buf i) (r i) (w i) (u32 (e i - 1)) (raw i)); echo BACKSPACE
    else mret tt
  else
    t ← get;
    let i := inp t in
    if negb (c =? 0) && (u32 (e i - r i) <? INPUT_BUF) then
      let c := if c =? 13 then 10 else c in
      b ← lift (buf_set (buf i) (e i mod INPUT_BUF) (s8 c));
      let i := mkInput b (r i) (w i) (u32 (e i + 1)) (raw i) in
      _ ← set_inp i;
      _ ← echo c;
      if raw i || (c =? 10) || (c =? C 68) || (e i =? u32 (r i + INPUT_BUF)) then
        _ ← set_inp (mkInput (buf i) (r i) (e i) (e i) (raw i));
        wakeup_r
      else mret tt
    else mret tt.

(** [cs] are the characters [getc] returns before -1. *)
Fixpoint consoleintr (ps : list dump) (cs : list Z) : M tty unit :=
  match cs with
  | [] => mret tt
  | c :: cs => _ ← consoleintr1 ps c; consoleintr ps cs
  end.

(** How a read ends: it returns the bytes; it is killed, and has called
    [ilock(f->ip)]; or it sleeps on [&input.r] with [dst] copied and [n] to go. *)
Inductive ending : Type :=
  | Return (dst : list Z)
  | Killed
  | Asleep (dst : list Z) (n : nat).

(** The loop of [consoleread]; [dst] is what was copied since the call began. *)
Fixpoint consoleread (killed : bool) (n : nat) (dst : list Z) (i : input) : res (ending * input) :=
  match n with
  | O => Ok (Return dst, i)
  | S n' =>
      if r i =? w i then Ok (if killed then Killed else Asleep dst n, i) else
      c ← at_ (buf i) (r i);
      let i' := mkInput (buf i) (u32 (r i + 1)) (w i) (e i) (raw i) in
      if c =? C 68 then
        Ok (Return dst, if bool_decide (dst = []) then i' else i)
      else if c =? 10 then Ok (Return (dst ++ [c]), i')
      else consoleread killed n' (dst ++ [c]) i'
  end.

(** [payload] is [f->dev_payload], the file's colour. *)
Definition consoleioctl (param value : Z) (payload : Z) (t : tty) : Z * Z * tty :=
  if param =? 0 then (0, value, t)
  else if param =? 1 then
    let s := out t in
    (0, payload,
     mkTty (inp t)
       (mkConsole (crt s) (cursor s) (tx s) (uart s) (locking s) (suppress s) (panicked s) value)
       (rebooting t) (woken t))
  else if param =? 2 then
    let i := inp t in
    let b := negb (value =? 0) in
    if b && negb (r i =? e i)
    then (0, payload, mkTty (mkInput (buf i) (r i) (e i) (e i) b) (out t) (rebooting t) true)
    else (0, payload, mkTty (mkInput (buf i) (r i) (w i) (e i) b) (out t) (rebooting t) (woken t))
  else (-1, payload, t).

Fixpoint consolewrite_loop (color : Z) (bs : list Z) : M console unit :=
  match bs with
  | [] => mret tt
  | c :: bs => _ ← consputc (Z.land c 255) color; consolewrite_loop color bs
  end.

Definition consolewrite (payload : Z) (bs : list Z) : M console Z :=
  global ← gets console_global_color;
  let color := if s32 payload =? 0 then global else s32 payload in
  _ ← consolewrite_loop color bs;
  mret (Z.of_nat (length bs)).

(** * The screen as a terminal *)

(** The character a cell shows; a zeroed cell is blank. *)
Definition glyph (cell : Z) : Z := let ch := Z.land cell 255 in if ch =? 0 then 32 else ch.

(** The 24 lines the console uses. *)
Definition view (s : console) : list Z := map glyph (take 1920 (crt s)).

Definition screen_ok (s : console) : Prop :=
  length (crt s) = 2000%nat /\ 0 <= cursor s < 1920 /\ panicked s = false.

(** The terminal's contract: finished lines, oldest first, and the line being
    written. *)
Record terminal : Type := mkTerminal { lines : list (list Z); line : list Z }.

Definition put_char (t : terminal) (c : Z) : terminal :=
  if c =? 10 then mkTerminal (lines t ++ [line t]) []
  else if c =? BACKSPACE then mkTerminal (lines t) (removelast (line t))
  else if (length (line t) =? 79)%nat then mkTerminal (lines t ++ [line t ++ [c]]) []
  else mkTerminal (lines t) (line t ++ [c]).

Definition pad (l : list Z) : list Z := l ++ replicate (80 - length l) 32.
Definition last_lines (n : nat) {A} (l : list A) : list A := drop (length l - n) l.

(** What is visible before the cursor: at most 23 finished lines and the
    current one. *)
Definition shown (t : terminal) : list Z := concat (map pad (last_lines 23 (lines t))) ++ line t.

Definition wf_terminal (t : terminal) : Prop :=
  Forall (fun l => length l <= 80)%nat (lines t) /\ (length (line t) < 80)%nat.

Definition displays (s : console) (t : terminal) : Prop :=
  wf_terminal t /\ length (crt s) = 2000%nat /\ panicked s = false
  /\ cursor s = Z.of_nat (length (shown t))
  /\ view s = shown t ++ replicate (1920 - length (shown t)) 32.

(** Characters the terminal contract covers: bytes other than 0 and, while the
    line has characters, a backspace. *)
Definition putable (t : terminal) (c : Z) : Prop :=
  0 < c < 256 \/ (c = BACKSPACE /\ line t <> []).

Lemma land_byte c color : Z.land (Z.lor (Z.land c 255) (Z.shiftl (Z.land color 255) 8)) 255
  = Z.land c 255.
Proof.
  rewrite Z.land_lor_distr_l, <- Z.land_assoc, Z.land_diag.
  replace (Z.land (Z.shiftl (Z.land color 255) 8) 255) with 0; [apply Z.lor_0_r|].
  symmetry. change 255 with (Z.ones 8) at 2. rewrite Z.land_ones, Z.shiftl_mul_pow2 by lia.
  apply Z.mod_mul. lia.
Qed.

Lemma land_255 c : 0 <= c < 256 -> Z.land c 255 = c.
Proof.
  intros Hc. change 255 with (Z.ones 8). rewrite Z.land_ones by lia. apply Z.mod_small. done.
Qed.

Lemma glyph_char c color : 0 < c < 256 ->
  glyph (Z.lor (Z.land c 255) (Z.shiftl (Z.land color 255) 8)) = c.
Proof.
  intros Hc. unfold glyph. rewrite land_byte, land_255 by lia. cbn zeta.
  by rewrite (proj2 (Z.eqb_neq c 0)) by lia.
Qed.

Lemma glyph_cursor color : glyph (Z.lor 32 (Z.shiftl (Z.land color 255) 8)) = 32.
Proof. apply (glyph_char 32). lia. Qed.

Lemma length_pad l : (length l <= 80)%nat -> length (pad l) = 80%nat.
Proof. intros Hl. unfold pad. rewrite length_app, length_replicate. lia. Qed.

Lemma length_pads ls : Forall (fun l : list Z => length l <= 80)%nat ls ->
  length (concat (map pad ls)) = (80 * length ls)%nat.
Proof.
  induction 1 as [|l ls Hl _ IH]; [done|]. cbn [map concat]. rewrite length_app, length_pad, IH by done.
  cbn [length]. lia.
Qed.

Lemma length_last_lines {A} n (l : list A) : length (last_lines n l) = Nat.min n (length l).
Proof. unfold last_lines. rewrite length_drop. lia. Qed.

Lemma last_lines_ok n ls : Forall (fun l : list Z => length l <= 80)%nat ls ->
  Forall (fun l => length l <= 80)%nat (last_lines n ls).
Proof. intros H. by apply Forall_drop. Qed.

Lemma length_shown t : wf_terminal t ->
  length (shown t) = (80 * Nat.min 23 (length (lines t)) + length (line t))%nat.
Proof.
  intros [Hls _]. unfold shown. rewrite length_app, length_pads by by apply last_lines_ok.
  by rewrite length_last_lines.
Qed.

(** A finished line joins the visible ones; when there are 23 already, the
    oldest goes. *)
Lemma shown_finish t l : wf_terminal t -> (length l <= 80)%nat ->
  shown (mkTerminal (lines t ++ [l]) [])
  = drop (if (length (lines t) <? 23)%nat then 0 else 80)
      (concat (map pad (last_lines 23 (lines t))) ++ pad l).
Proof.
  intros [Hls _] Hl. unfold shown, last_lines. cbn [lines line]. rewrite app_nil_r, length_app.
  cbn [length]. destruct (Nat.ltb_spec (length (lines t)) 23).
  - replace (length (lines t) + 1 - 23)%nat with 0%nat by lia.
    replace (length (lines t) - 23)%nat with 0%nat by lia.
    rewrite !drop_0, map_app, concat_app. cbn. by rewrite app_nil_r.
  - replace (length (lines t) + 1 - 23)%nat with (length (lines t) - 23 + 1)%nat by lia.
    rewrite <- drop_drop, drop_app_le by lia.
    assert (Forall (fun l => length l <= 80)%nat (drop (length (lines t) - 23) (lines t))) as Hf
      by by apply Forall_drop.
    assert (0 < length (drop (length (lines t) - 23) (lines t)))%nat as Hd
      by (rewrite length_drop; lia).
    destruct (drop (length (lines t) - 23) (lines t)) as [|h tl]; [cbn in Hd; lia|].
    inversion Hf as [|? ? Hh _]; subst. cbn [app drop map concat].
    rewrite drop_0, map_app, concat_app, <- !app_assoc.
    rewrite <- (length_pad h Hh), drop_app_length. cbn. by rewrite app_nil_r.
Qed.

(** ** Cells *)

Lemma view_set cells pos x : (pos < 1920)%nat -> length cells = 2000%nat ->
  map glyph (take 1920 (<[pos := x]> cells)) = <[pos := glyph x]> (map glyph (take 1920 cells)).
Proof.
  intros Hp Hl. rewrite take_insert_lt by lia. by rewrite list_fmap_insert.
Qed.

(** Scrolling when the cursor has just left the last line. *)
Lemma scroll_spec cells : length cells = 2000%nat ->
  exists cells', scroll cells 1920 = Ok (cells', 1840) /\ length cells' = 2000%nat
  /\ map glyph (take 1920 cells') = drop 80 (map glyph (take 1920 cells)) ++ replicate 80 32.
Proof.
  intros Hl. unfold scroll. rewrite Hl. cbn -[take drop replicate].
  eexists. split; [reflexivity|].
  change (Pos.to_nat 1840) with 1840%nat. change (Pos.to_nat 80) with 80%nat.
  rewrite take_app_le, take_take by (rewrite length_take, length_drop; lia).
  split.
  - rewrite !length_app, length_take, length_drop, length_replicate, length_drop, length_app,
      length_take, !length_drop. lia.
  - rewrite take_app_ge by (rewrite length_take, length_drop; lia).
    rewrite length_take, length_drop, Hl.
    rewrite take_app_le by (rewrite length_replicate; lia).
    rewrite take_replicate, map_app. f_equal.
    rewrite skipn_map, skipn_firstn_comm. done.
Qed.

(** Moving the cursor: the cells keep what they show, but the one under the
    cursor, which becomes blank; past the last line everything moves up. *)
Lemma cgamove_spec color cells pos s : length cells = 2000%nat -> 0 <= pos <= 1920 ->
  exists cells' pos', cgamove color cells pos s = Ok (tt, with_screen cells' pos' s)
  /\ length cells' = 2000%nat /\ 0 <= pos' < 1920
  /\ if pos =? 1920
     then pos' = 1840
          /\ map glyph (take 1920 cells') = drop 80 (map glyph (take 1920 cells)) ++ replicate 80 32
     else pos' = pos
          /\ map glyph (take 1920 cells') = <[Z.to_nat pos := 32]> (map glyph (take 1920 cells)).
Proof.
  intros Hl Hp. unfold cgamove. destruct (Z.eqb_spec pos 1920) as [->|Hne].
  - change (24 <=? Z.quot 1920 80) with true. cbn iota.
    destruct (scroll_spec cells Hl) as (cells' & -> & Hl' & Hv). ok.
    rewrite buf_set_ok by lia. ok. do 2 eexists. split; [reflexivity|].
    rewrite length_insert, view_set, Hv, glyph_cursor by lia. split; [done|]. split; [done|].
    split; [done|]. apply list_insert_id. rewrite lookup_app_r.
    + rewrite length_drop, length_map, length_take, Hl. done.
    + rewrite length_drop, length_map, length_take, Hl. cbn. lia.
  - replace (24 <=? Z.quot pos 80) with false by (symmetry; apply Z.leb_gt; dlia).
    ok. rewrite buf_set_ok by lia. ok. do 2 eexists. split; [reflexivity|].
    unfold u16. rewrite Z.mod_small by lia.
    rewrite length_insert, view_set, glyph_cursor by lia. split; [done|]. split; [lia|]. done.
Qed.

(** No character makes the console write outside text memory. *)
Lemma cgaputc_safe c color s : screen_ok s ->
  exists cells pos, cgaputc c color s = Ok (tt, with_screen cells pos s)
  /\ screen_ok (with_screen cells pos s).
Proof.
  intros (Hl & Hp & Hk).
  assert (exists cells pos, (if c =? 10 then Ok (crt s, cursor s + (80 - Z.rem (cursor s) 80))
     else if c =? BACKSPACE then Ok (crt s, if 0 <? cursor s then cursor s - 1 else cursor s)
     else
       cells ← buf_set (crt s) (cursor s) (Z.lor (Z.land c 255) (Z.shiftl (Z.land color 255) 8));
       Ok (cells, cursor s + 1)) = Ok (cells, pos) /\ length cells = 2000%nat /\ 0 <= pos <= 1920)
    as (cells & pos & E & Hcl & Hcp).
  { destruct (c =? 10); [do 2 eexists; split; [done|]; split; [done|]; dlia|].
    destruct (c =? BACKSPACE).
    - do 2 eexists. split; [done|]. split; [done|]. destruct (Z.ltb_spec 0 (cursor s)); lia.
    - rewrite buf_set_ok by lia. ok. do 2 eexists. split; [done|]. rewrite length_insert.
      split; [done|]. lia. }
  unfold cgaputc. cbn zeta. rewrite E. ok.
  destruct (cgamove_spec color cells pos s Hcl Hcp) as (cells' & pos' & -> & Hl' & Hp' & _).
  do 2 eexists. split; [reflexivity|]. by split.
Qed.

Lemma blank_insert k n (l : list Z) : (length l <= k)%nat ->
  <[k := 32]> (l ++ replicate n 32) = l ++ replicate n 32.
Proof.
  intros Hk. destruct (decide (k < length l + n)%nat) as [Hlt|Hge].
  - apply list_insert_id. rewrite lookup_app_r by done. apply lookup_replicate_2. lia.
  - apply list_insert_ge. rewrite length_app, length_replicate. lia.
Qed.

Lemma pad_split l n : (length l <= 80)%nat -> (80 - length l <= n)%nat ->
  l ++ replicate n 32 = pad l ++ replicate (n - (80 - length l)) 32.
Proof.
  intros Hl Hn. unfold pad. rewrite <- app_assoc, <- replicate_add. do 2 f_equal. lia.
Qed.

(** The end of a line, by a newline or by its last column. *)
Lemma finish_line color t l cells s rows :
  wf_terminal t -> (length l <= 80)%nat -> length cells = 2000%nat -> panicked s = false ->
  rows = Nat.min 23 (length (lines t)) ->
  map glyph (take 1920 cells)
  = (concat (map pad (last_lines 23 (lines t))) ++ pad l) ++ replicate (1840 - 80 * rows) 32 ->
  exists cells' pos', cgamove color cells (Z.of_nat (80 * (rows + 1))) s
                      = Ok (tt, with_screen cells' pos' s)
  /\ displays (with_screen cells' pos' s) (mkTerminal (lines t ++ [l]) []).
Proof.
  intros Ht Hl Hc Hk Hrows Hv.
  destruct (cgamove_spec color cells (Z.of_nat (80 * (rows + 1))) s Hc ltac:(lia))
    as (cells' & pos' & -> & Hl' & _ & Hview).
  exists cells', pos'. split; [done|].
  assert (wf_terminal (mkTerminal (lines t ++ [l]) [])) as Ht'.
  { split; [|simpl; lia]. apply Forall_app. split; [apply Ht|]. by apply Forall_singleton. }
  split; [done|]. split; [done|]. split; [done|].
  rewrite length_shown by done. unfold view. cbn [crt with_screen cursor lines line length].
  rewrite length_app. cbn [length]. rewrite shown_finish by done.
  rewrite Hv in Hview.
  assert (length (concat (map pad (last_lines 23 (lines t))) ++ pad l) = (80 * (rows + 1))%nat)
    as Hlen.
  { rewrite length_app, length_pads, length_pad, length_last_lines by
      (done || by apply last_lines_ok, Ht). lia. }
  destruct (Nat.ltb_spec (length (lines t)) 23) as [Hlt|Hge].
  - replace (_ =? 1920) with false in Hview by lia. destruct Hview as [-> ->].
    split; [lia|]. rewrite drop_0, blank_insert by lia. do 2 f_equal. lia.
  - assert (rows = 23%nat) as -> by lia. change (_ =? 1920) with true in Hview.
    destruct Hview as [-> ->]. split; [lia|]. replace (1840 - 80 * 23)%nat with 0%nat by lia.
    replace (1920 - _)%nat with 80%nat by lia. cbn [replicate]. by rewrite app_nil_r.
Qed.

Lemma cgaputc_put c color s t : displays s t -> putable t c ->
  exists cells pos, cgaputc c color s = Ok (tt, with_screen cells pos s)
  /\ displays (with_screen cells pos s) (put_char t c).
Proof.
  intros (Ht & Hl & Hk & Hp & Hv) Hc. pose proof (length_shown t Ht) as Hs.
  pose proof (proj2 Ht) as Hline. unfold view in Hv.
  unfold cgaputc, put_char. cbn zeta. destruct (Z.eqb_spec c 10) as [->|Hnl].
  { ok. replace (cursor s + (80 - Z.rem (cursor s) 80))
      with (Z.of_nat (80 * (Nat.min 23 (length (lines t)) + 1))) by dlia.
    apply finish_line; try done; [lia|]. rewrite Hv, Hs. unfold shown. rewrite <- !app_assoc.
    f_equal. rewrite pad_split by lia. do 2 f_equal. lia. }
  destruct (Z.eqb_spec c BACKSPACE) as [->|Hbs].
  { destruct Hc as [?|[_ Hne]]; [unfold BACKSPACE in *; lia|]. ok.
    destruct (exists_last Hne) as (l' & x & Hl').
    rewrite Hl', removelast_last in *. rewrite length_app in Hs, Hline. cbn [length] in Hs, Hline.
    replace (0 <? cursor s) with true by lia.
    destruct (cgamove_spec color (crt s) (cursor s - 1) s Hl ltac:(lia))
      as (cells' & pos' & -> & Hc' & _ & Hview).
    replace (_ =? 1920) with false in Hview by lia. destruct Hview as [-> Hview].
    exists cells', (cursor s - 1). split; [done|].
    assert (wf_terminal (mkTerminal (lines t) l')) as Ht' by (split; [apply Ht|simpl; lia]).
    split; [done|]. split; [done|]. split; [done|]. rewrite (length_shown _ Ht').
    cbn [lines line cursor with_screen]. split; [lia|]. unfold view. cbn [crt with_screen].
    rewrite Hview, Hv, Hs. unfold shown. cbn [lines line]. rewrite Hl'.
    rewrite app_assoc, <- (app_assoc _ [x]).
    assert (length (concat (map pad (last_lines 23 (lines t))) ++ l') = Z.to_nat (cursor s - 1)) as E.
    { rewrite length_app, length_pads, length_last_lines by by apply last_lines_ok, Ht. lia. }
    rewrite insert_app_r_alt, E, Nat.sub_diag by lia. cbn [app insert list_insert]. f_equal.
    change (32 :: replicate (1920 - ?n) 32) with (replicate (S (1920 - n)) 32). f_equal. lia. }
  destruct Hc as [Hc|[? _]]; [|done].
  rewrite buf_set_ok by lia. ok.
  set (cells := <[_ := _]> _).
  assert (length cells = 2000%nat) as Hcl by by (subst cells; rewrite length_insert).
  assert (map glyph (take 1920 cells)
          = (shown t ++ [c]) ++ replicate (1919 - length (shown t)) 32) as Hcv.
  { subst cells. rewrite view_set, glyph_char, Hv, Hp, Nat2Z.id by lia.
    rewrite insert_app_r_alt, Nat.sub_diag, <- app_assoc by lia.
    by replace (1920 - length (shown t))%nat with (S (1919 - length (shown t))) by lia. }
  destruct (Nat.eqb_spec (length (line t)) 79) as [H79|H79].
  - replace (cursor s + 1) with (Z.of_nat (80 * (Nat.min 23 (length (lines t)) + 1))) by lia.
    apply finish_line; try done; [rewrite length_app; cbn; lia|]. rewrite Hcv, Hs.
    unfold shown. rewrite <- !app_assoc. f_equal. unfold pad.
    rewrite length_app, H79. cbn [length Nat.add Nat.sub replicate]. rewrite app_nil_r, <- app_assoc.
    do 3 f_equal. lia.
  - destruct (cgamove_spec color cells (cursor s + 1) s Hcl ltac:(lia))
      as (cells' & pos' & -> & Hc' & _ & Hview).
    replace (_ =? 1920) with false in Hview by lia. destruct Hview as [-> Hview].
    exists cells', (cursor s + 1). split; [done|].
    assert (wf_terminal (mkTerminal (lines t) (line t ++ [c]))) as Ht'
      by (split; [apply Ht|]; simpl; rewrite length_app; simpl; lia).
    split; [done|]. split; [done|]. split; [done|]. rewrite (length_shown _ Ht').
    cbn [lines line cursor with_screen]. rewrite length_app. cbn [length]. split; [lia|].
    unfold view. cbn [crt with_screen]. rewrite Hview, Hcv, blank_insert by
      (rewrite length_app; cbn [length]; lia).
    replace (1919 - length (shown t))%nat
      with (1920 - (80 * Nat.min 23 (length (lines t)) + (length (line t) + 1)))%nat by lia.
    unfold shown. cbn [lines line]. by rewrite <- !app_assoc.
Qed.

(** ** Output calls *)

(** What the serial port is sent for [c]. *)
Definition serial (s : console) (c : Z) : list Z :=
  if uart s && negb (locking s && suppress s)
  then if c =? BACKSPACE then [8; 32; 8] else [u8 c] else [].

(** [s'] is [s] after output: only text memory, the cursor and [tx] may differ. *)
Definition printed (s s' : console) (sent : list Z) : Prop :=
  tx s' = tx s ++ sent /\ uart s' = uart s /\ locking s' = locking s /\ suppress s' = suppress s
  /\ panicked s' = panicked s /\ console_global_color s' = console_global_color s.

Lemma printed_refl s : printed s s [].
Proof. unfold printed. by rewrite app_nil_r. Qed.

Lemma printed_trans s s' s'' l l' :
  printed s s' l -> printed s' s'' l' -> printed s s'' (l ++ l').
Proof.
  intros (H1 & H2 & H3 & H4 & H5 & H6) (K1 & K2 & K3 & K4 & K5 & K6).
  unfold printed. rewrite K1, H1, app_assoc. intuition congruence.
Qed.

Lemma serial_printed s s' l c : printed s s' l -> serial s' c = serial s c.
Proof. intros (_ & Hu & Hl & Hs & _). unfold serial. by rewrite Hu, Hl, Hs. Qed.

(** The serial half of [consputc]. *)
Lemma consputc_unfold c color s : panicked s = false ->
  exists s0, consputc c color s = cgaputc c color s0 /\ printed s s0 (serial s c)
  /\ crt s0 = crt s /\ cursor s0 = cursor s.
Proof.
  intros Hk. unfold consputc, uartputc, serial. mrun. rewrite Hk.
  destruct (locking s && suppress s); cbn [negb]; rewrite ?andb_false_r, ?andb_true_r.
  { exists s. split; [done|]. split; [apply printed_refl|done]. }
  destruct (c =? BACKSPACE); destruct (uart s) eqn:Hu; cbn; rewrite ?Hu; cbn; rewrite ?Hu; cbn;
    rewrite <- ?app_assoc; eexists;
    (split; [reflexivity|]; split; [unfold printed; cbn; rewrite ?Hu, ?app_nil_r; done|done]).
Qed.

Lemma consputc_safe c color s : screen_ok s ->
  exists s', consputc c color s = Ok (tt, s') /\ screen_ok s' /\ printed s s' (serial s c).
Proof.
  intros (Hl & Hp & Hk). destruct (consputc_unfold c color s Hk) as (s0 & -> & Hpr & Hc & Hcur).
  assert (screen_ok s0) as Hok.
  { unfold screen_ok. destruct Hpr as (_ & _ & _ & _ & Hpk & _). by rewrite Hc, Hcur, Hpk. }
  destruct (cgaputc_safe c color s0 Hok) as (cells & pos & -> & Hok').
  eexists. split; [reflexivity|]. by split.
Qed.

Lemma consputc_put c color s t : displays s t -> putable t c ->
  exists s', consputc c color s = Ok (tt, s') /\ displays s' (put_char t c)
  /\ printed s s' (serial s c).
Proof.
  intros (Ht & Hl & Hk & Hp & Hv) Hc.
  destruct (consputc_unfold c color s Hk) as (s0 & -> & Hpr & Hcrt & Hcur).
  assert (displays s0 t) as Hd.
  { unfold displays, view. destruct Hpr as (_ & _ & _ & _ & Hpk & _). by rewrite Hcrt, Hcur, Hpk. }
  destruct (cgaputc_put c color s0 t Hd Hc) as (cells & pos & -> & Hd').
  eexists. split; [reflexivity|]. by split.
Qed.

Lemma displays_screen_ok s t : displays s t -> screen_ok s.
Proof.
  intros (Ht & Hl & Hk & Hp & _). split; [done|]. split; [|done]. rewrite Hp, length_shown by done.
  pose proof (proj2 Ht). lia.
Qed.

(** Byte strings are printed character by character. *)
Definition sends (s : console) (bs : list Z) : list Z := concat (map (serial s) bs).

Lemma sends_printed s s' l bs : printed s s' l -> sends s' bs = sends s bs.
Proof.
  intros Hp. unfold sends. f_equal. apply map_ext. intros c. by apply (serial_printed s s' l).
Qed.

Lemma sends_bytes s bs : Forall (fun c => 0 < c < 256) bs ->
  sends s bs = if uart s && negb (locking s && suppress s) then bs else [].
Proof.
  unfold sends, serial. induction 1 as [|c bs Hc _ IH]; [by destruct (_ && _)|].
  cbn [map concat]. rewrite IH. destruct (_ && _); [|done].
  rewrite (proj2 (Z.eqb_neq c BACKSPACE)) by (unfold BACKSPACE; lia). rewrite u8_id by lia. done.
Qed.

Lemma consolewrite_loop_spec color bs s t : displays s t -> Forall (fun c => 0 < c < 256) bs ->
  exists s', consolewrite_loop color bs s = Ok (tt, s') /\ displays s' (fold_left put_char bs t)
  /\ printed s s' (sends s bs).
Proof.
  intros Hd Hbs. revert s t Hd. induction Hbs as [|c bs Hc _ IH]; intros s t Hd.
  { exists s. split; [done|]. split; [done|]. apply printed_refl. }
  cbn [consolewrite_loop fold_left]. rewrite land_255 by lia.
  destruct (consputc_put c color s t Hd (or_introl Hc)) as (s1 & E1 & Hd1 & Hp1).
  rewrite (bind_ok _ _ _ _ _ E1). destruct (IH s1 _ Hd1) as (s2 & -> & Hd2 & Hp2).
  exists s2. split; [done|]. split; [done|].
  rewrite (sends_printed s s1 _ bs Hp1) in Hp2. by apply (printed_trans s s1 s2).
Qed.

Lemma consputs_spec bs s t : displays s t -> Forall (fun c => 0 < c < 256) bs ->
  exists s', consputs bs s = Ok (tt, s') /\ displays s' (fold_left put_char bs t)
  /\ printed s s' (sends s bs).
Proof.
  intros Hd Hbs. revert s t Hd. induction Hbs as [|c bs Hc _ IH]; intros s t Hd.
  { exists s. split; [done|]. split; [done|]. apply printed_refl. }
  cbn [consputs fold_left]. rewrite (bind_ok (gets console_global_color) _ s _ s eq_refl).
  destruct (consputc_put c (console_global_color s) s t Hd (or_introl Hc)) as (s1 & E1 & Hd1 & Hp1).
  rewrite (bind_ok _ _ _ _ _ E1). destruct (IH s1 _ Hd1) as (s2 & -> & Hd2 & Hp2).
  exists s2. split; [done|]. split; [done|].
  rewrite (sends_printed s s1 _ bs Hp1) in Hp2. by apply (printed_trans s s1 s2).
Qed.

(** ** Formatting *)

Lemma consputs_app l l' s :
  consputs (l ++ l') s = (_ ← consputs l; consputs l') s.
Proof.
  revert s. induction l as [|c l IH]; intros s; [done|]. cbn [app consputs].
  mrun. destruct (consputc c (console_global_color s) s) as [[u s1]|m| |]; [|done..]. apply IH.
Qed.

Fixpoint no_percent_c (fmt : list Z) : bool :=
  match fmt with
  | [] => true
  | c :: fmt =>
      if negb (c =? 37) then no_percent_c fmt
      else match fmt with [] => true | c :: fmt => negb (c =? 99) && no_percent_c fmt end
  end.

Lemma cprint_conv_spec c ap out ap' s : c <> 99 -> print_conv c ap = Ok (out, ap') ->
  cprint_conv c ap s = (_ ← consputs out; mret ap') s.
Proof.
  intros Hc. unfold print_conv, cprint_conv, print_d, print_x32, print_x64.
  rewrite (proj2 (Z.eqb_neq c 99)) by done.
  destruct (c =? 100); [|destruct (c =? 120); [|destruct (c =? 112); [|destruct (c =? 115);
    [|destruct (c =? 37)]]]].
  1-3: destruct (va_word ap) as [[z ap1]|m| |]; try done.
  - ok. destruct (Printf.print_d (s32 z)) eqn:E; ok; intros E'; simplify_eq. mrun. by rewrite E.
  - ok. destruct (Printf.print_x32 (u32 z)) eqn:E; ok; intros E'; simplify_eq. mrun. by rewrite E.
  - ok. destruct (Printf.print_x64 (u64 z)) eqn:E; ok; intros E'; simplify_eq. mrun. by rewrite E.
  - destruct (va_str ap) as [[z ap1]|m| |]; ok; intros E; simplify_eq. by mrun.
  - intros E'. by simplify_eq.
  - intros E'. by simplify_eq.
Qed.

(** The kernel formats as the user library does, [%c] apart. *)
Lemma cprintf_format fmt ap out s : no_percent_c fmt = true -> printf fmt ap = Ok out ->
  cprintf fmt ap s = consputs out s.
Proof.
  remember (length fmt) as n eqn:Hn. assert (length fmt <= n)%nat as Hle by lia. clear Hn.
  revert fmt ap out s Hle. induction n as [|n IH]; intros fmt ap out s Hle Hno.
  { destruct fmt; [|simpl in Hle; lia]. cbn. intros E. by simplify_eq. }
  destruct fmt as [|c fmt]; [cbn; intros E; by simplify_eq|]. cbn [length] in Hle.
  cbn [printf cprintf no_percent_c] in *. destruct (c =? 37); cbn [negb] in *.
  - destruct fmt as [|c' fmt]; [cbn; intros E; by simplify_eq|]. cbn [length] in Hle.
    apply andb_true_iff in Hno as [Hc' Hno]. apply negb_true_iff, Z.eqb_neq in Hc'.
    destruct (print_conv c' ap) as [[o ap1]|m| |] eqn:E1; try done. ok.
    destruct (printf fmt ap1) as [out1|m| |] eqn:E2; try done. ok. intros E. simplify_eq.
    rewrite consputs_app. unfold mbind, M_bind.
    rewrite (cprint_conv_spec c' ap o ap1 s Hc' E1). mrun.
    destruct (consputs o s) as [[u s1]|m| |]; try done. apply IH; [lia|done..].
  - destruct (printf fmt ap) as [out1|m| |] eqn:E2; try done. ok. intros E. simplify_eq.
    change (c :: out1) with ([c] ++ out1). rewrite consputs_app. unfold mbind, M_bind.
    destruct (consputs [c] s) as [[u s1]|m| |]; try done. apply IH; [lia|done..].
Qed.

(** C25: The screen is a terminal.  Whatever bytes (other than 0) a process
    writes to the console, the 24 lines of text memory the console uses then
    show the output so far, wrapped at 80 columns: the last 23 finished lines and
    the current one, blanks after it, the cursor at its end; the write never
    leaves text memory, returns the count, and sends the same bytes to the serial
    port unless output there is suppressed. *)
Theorem console_shows_output payload bs s t :
  displays s t -> Forall (fun c => 0 < c < 256) bs ->
  exists s', consolewrite payload bs s = Ok (Z.of_nat (length bs), s')
  /\ displays s' (fold_left put_char bs t)
  /\ tx s' = tx s ++ (if uart s && negb (locking s && suppress s) then bs else []).
Proof.
  intros Hd Hbs. unfold consolewrite.
  rewrite (bind_ok (gets console_global_color) _ s _ s eq_refl). cbn zeta.
  match goal with |- context [consolewrite_loop ?c bs] =>
    destruct (consolewrite_loop_spec c bs s t Hd Hbs) as (s' & E & Hd' & (Htx & _)) end.
  rewrite (bind_ok _ _ _ _ _ E). exists s'. split; [done|]. split; [done|].
  by rewrite Htx, sends_bytes.
Qed.

Definition blank_console : console := mkConsole (replicate 2000 0) 0 [] true true false false 7.

Lemma console_shows_output_witness :
  exists s', consolewrite 0 (cstr "xv6" ++ [10] ++ cstr "$ ") blank_console = Ok (6, s')
  /\ take 4 (view s') = cstr "xv6 " /\ take 2 (drop 80 (view s')) = cstr "$ " /\ cursor s' = 82.
Proof.
  assert (displays blank_console (mkTerminal [] [])) as Hd
    by (split; [split; [apply Forall_nil_2|cbn; lia]|]; vm_compute; done).
  destruct (console_shows_output 0 (cstr "xv6" ++ [10] ++ cstr "$ ") blank_console (mkTerminal [] []) Hd)
    as (s' & E & (_ & _ & _ & Hc & Hv) & _).
  - change (cstr "xv6" ++ [10] ++ cstr "$ ") with [120; 118; 54; 10; 36; 32].
    repeat (apply Forall_cons_2; [lia|]). apply Forall_nil_2.
  - exists s'. split; [exact E|]. rewrite Hv, Hc. vm_compute. done.
Defined.

(** [cprintf] formats exactly as the user library's [printf] does, for every
    format that does not use [%c] (which the kernel does not know) and whatever is
    on the screen: what appears is what [printf] would have written. *)
Theorem cprintf_as_printf fmt ap out s t :
  displays s t -> no_percent_c fmt = true -> printf fmt ap = Ok out ->
  Forall (fun c => 0 < c < 256) out ->
  exists s', cprintf fmt ap s = Ok (tt, s') /\ displays s' (fold_left put_char out t).
Proof.
  intros Hd Hf Hp Hout. rewrite (cprintf_format fmt ap out s Hf Hp).
  destruct (consputs_spec out s t Hd Hout) as (s' & E & Hd' & _). by exists s'.
Qed.

Lemma cprintf_as_printf_witness :
  exists s', cprintf (cstr "cpu%d: %s") [AInt 1; AStr (Some (cstr "up"))] blank_console = Ok (tt, s')
  /\ displays s' (mkTerminal [] (cstr "cpu1: up")).
Proof.
  apply (cprintf_as_printf (cstr "cpu%d: %s") [AInt 1; AStr (Some (cstr "up"))] (cstr "cpu1: up")
           blank_console (mkTerminal [] [])).
  - split; [split; [apply Forall_nil_2|cbn; lia]|]; vm_compute; done.
  - reflexivity.
  - vm_compute. reflexivity.
  - change (cstr "cpu1: up") with [99; 112; 117; 49; 58; 32; 117; 112].
    repeat (apply Forall_cons_2; [lia|]). apply Forall_nil_2.
Defined.
