(* ===== verification/Tty.v ===== *)
(** The line discipline of console input (src/console.c) against its contract:
    a queue of bytes that readers may take and a line still being edited.

    The ring's counters are 32-bit and wrap; the relation [tty_rel] ties them to
    unbounded positions [R <= W <= E <= R + 128].  The fuel of [kill_line] is the
    size of the ring, which bounds [E - W]. *)
From stdpp Require Import base strings numbers list.
From S2P Require Import Prelude CString Printf Proc Console.
Local Open Scope Z_scope.

(** * The ring *)

Definition slot (b : list Z) (k : Z) : Z := nth (Z.to_nat (k mod INPUT_BUF)) b 0.
Definition ring (b : list Z) (a n : Z) : list Z := slot b <$> seqZ a n.

Lemma length_ring b a n : length (ring b a n) = Z.to_nat n.
Proof. unfold ring. by rewrite length_fmap, length_seqZ. Qed.

Lemma ring_app b a n m : 0 <= n -> 0 <= m -> ring b a (n + m) = ring b a n ++ ring b (a + n) m.
Proof. intros Hn Hm. unfold ring. by rewrite seqZ_app, fmap_app by done. Qed.

Lemma ring_cons b a n : 0 < n -> ring b a n = slot b a :: ring b (a + 1) (n - 1).
Proof.
  intros Hn. unfold ring. rewrite seqZ_cons by done. by replace (Z.pred n) with (n - 1) by lia.
Qed.

Lemma ring_snoc b a n : 0 <= n -> ring b a (n + 1) = ring b a n ++ [slot b (a + n)].
Proof. intros Hn. rewrite ring_app by lia. by rewrite (ring_cons b (a + n) 1) by lia. Qed.

Lemma ring_nil b a n : n <= 0 -> ring b a n = [].
Proof. intros Hn. unfold ring. by rewrite seqZ_nil. Qed.

Lemma slot_range k : (Z.to_nat (k mod INPUT_BUF) < 128)%nat.
Proof. pose proof (Z.mod_pos_bound k INPUT_BUF). unfold INPUT_BUF in *. lia. Qed.

Lemma slot_insert b p x : length b = 128%nat -> slot (<[Z.to_nat (p mod INPUT_BUF) := x]> b) p = x.
Proof.
  intros Hb. unfold slot. apply nth_lookup_Some. apply list_lookup_insert_eq.
  rewrite Hb. apply slot_range.
Qed.

Lemma ring_insert b a n p x : p - 128 < a -> a + n <= p ->
  ring (<[Z.to_nat (p mod INPUT_BUF) := x]> b) a n = ring b a n.
Proof.
  intros Ha Hn. unfold ring. apply list_fmap_ext. intros i k Hk. apply lookup_seqZ in Hk as [-> Hi].
  unfold slot. rewrite !nth_lookup. rewrite list_lookup_insert_ne; [done|].
  unfold INPUT_BUF. intros E. apply Z2Nat.inj in E; [|apply Z.mod_pos_bound; lia..].
  Z.div_mod_to_equations. lia.
Qed.

Lemma u32_slot a : u32 a mod INPUT_BUF = a mod INPUT_BUF.
Proof. unfold u32, INPUT_BUF. Z.div_mod_to_equations. lia. Qed.

Lemma at_slot b a : length b = 128%nat -> at_ b a = Ok (slot b a).
Proof.
  intros Hb. unfold at_. rewrite u32_slot.
  destruct (buf_get_inb b (a mod INPUT_BUF)) as (v & Hv & ->).
  - pose proof (Z.mod_pos_bound a INPUT_BUF). unfold INPUT_BUF in *. lia.
  - f_equal. symmetry. unfold slot. by apply nth_lookup_Some.
Qed.

(** Positions at most 2^31 apart have the same counter only when equal. *)
Lemma u32_eqb a b : 0 <= a - b < 2 ^ 31 -> (u32 a =? u32 b) = (a =? b).
Proof.
  intros H. unfold u32. change (2 ^ 32) with 4294967296. change (2 ^ 31) with 2147483648 in H.
  destruct (Z.eqb_spec a b) as [->|Hne]; [apply Z.eqb_refl|]. apply Z.eqb_neq.
  Z.div_mod_to_equations. lia.
Qed.
Lemma u32_sub a b : 0 <= a - b < 2 ^ 32 -> u32 (u32 a - u32 b) = a - b.
Proof. intros H. unfold u32. rewrite <- Zminus_mod. by apply Z.mod_small. Qed.
Lemma u32_add a b : u32 (u32 a + b) = u32 (a + b).
Proof. unfold u32. by rewrite Zplus_mod_idemp_l. Qed.
Lemma u32_pred a : u32 (u32 a - 1) = u32 (a - 1).
Proof. apply (u32_add a (-1)). Qed.

(** * Printing never fails *)

Lemma hex_digit k : 0 <= k < 16 -> exists c, buf_get digits k = Ok c.
Proof.
  intros Hk. destruct (buf_get_inb digits k) as (v & _ & ->); [change (length digits) with 16%nat; lia|eauto].
Qed.

Lemma print_x64_ok x : 0 <= x < 2 ^ 64 -> exists out, Printf.print_x64 x = Ok out.
Proof.
  intros Hx. unfold Printf.print_x64.
  destruct (while_rule (fun '(i, _, _) => i <? 8 * 2)
    (fun '(i, x, out) =>
       d ← buf_get digits (Z.shiftr x (8 * 8 - 4)); Ok (i + 1, u64 (Z.shiftl x 4), out ++ [d]))
    (fun '(i, x, _) => 0 <= x < 2 ^ 64) (fun '(i, _, _) => 16 - i) 16 (0, x, [])) as ([[i y] o] & -> & _).
  - done.
  - intros [[i y] o] _ Hi. lia.
  - lia.
  - intros [[i y] o] Hy _. destruct (hex_digit (Z.shiftr y (8 * 8 - 4))) as [c ->].
    { rewrite Z.shiftr_div_pow2 by lia. change (2 ^ (8 * 8 - 4)) with 1152921504606846976.
      change (2 ^ 64) with 18446744073709551616 in Hy. Z.div_mod_to_equations. lia. }
    ok. eexists. split; [reflexivity|]. split; [apply u64_range|]. lia.
  - ok. eauto.
Qed.

Lemma consputs_safe bs s : screen_ok s -> exists s', consputs bs s = Ok (tt, s') /\ screen_ok s'.
Proof.
  revert s. induction bs as [|c bs IH]; intros s Hs; [by exists s|]. cbn [consputs].
  rewrite (bind_ok (gets console_global_color) _ s _ s eq_refl).
  destruct (consputc_safe c (console_global_color s) s Hs) as (s1 & E1 & Hs1 & _).
  rewrite (bind_ok _ _ _ _ _ E1). by apply IH.
Qed.

Lemma cprintf_safe fmt ap out s : no_percent_c fmt = true -> printf fmt ap = Ok out ->
  screen_ok s -> exists s', cprintf fmt ap s = Ok (tt, s') /\ screen_ok s'.
Proof. intros Hf Hp Hs. rewrite (cprintf_format fmt ap out s Hf Hp). by apply consputs_safe. Qed.

Lemma print_pcs_safe pcs s : screen_ok s ->
  exists s', print_pcs (cstr " %p") pcs s = Ok (tt, s') /\ screen_ok s'.
Proof.
  revert s. induction pcs as [|pc pcs IH]; intros s Hs; [by exists s|]. cbn [print_pcs].
  destruct (print_x64_ok (u64 pc) (u64_range pc)) as [o Ho].
  destruct (cprintf_safe (cstr " %p") [AInt pc] (32 :: o ++ []) s) as (s1 & E1 & Hs1);
    [done| |done|].
  { change (cstr " %p") with [32; 37; 112]. cbn -[Printf.print_x64 u64]. by rewrite Ho. }
  rewrite (bind_ok _ _ _ _ _ E1). by apply IH.
Qed.

Lemma procdump_safe ps s : screen_ok s -> exists s', procdump ps s = Ok (tt, s') /\ screen_ok s'.
Proof.
  revert s. induction ps as [|p ps IH]; intros s Hs; [by exists s|]. cbn [procdump].
  destruct (bool_decide (d_state p = UNUSED)); [by apply IH|].
  destruct (print_d_spec (s32 (d_pid p)) (s32_range _)) as (ds & Ho & _).
  set (o := _ ++ ds) in Ho.
  destruct (cprintf_safe (cstr "%d %s %s")
      [AInt (d_pid p); AStr (Some (states (d_state p))); AStr (Some (d_name p))]
      (o ++ 32 :: states (d_state p) ++ 32 :: d_name p ++ []) s) as (s1 & E1 & Hs1); [done| |done|].
  { change (cstr "%d %s %s") with [37; 100; 32; 37; 115; 32; 37; 115].
    cbn -[Printf.print_d states s32]. by rewrite Ho. }
  rewrite (bind_ok _ _ _ _ _ E1).
  assert (exists s2, when (bool_decide (d_state p = SLEEPING))
            (print_pcs (cstr " %p") (nonnull (take 10 (d_pcs p)))) s1 = Ok (tt, s2) /\ screen_ok s2)
    as (s2 & E2 & Hs2).
  { unfold when. destruct (bool_decide _); [by apply print_pcs_safe|by exists s1]. }
  rewrite (bind_ok _ _ _ _ _ E2).
  destruct (cprintf_safe [10] [] [10] s2) as (s3 & E3 & Hs3); [done..|].
  rewrite (bind_ok _ _ _ _ _ E3). by apply IH.
Qed.

(** * The contract *)

(** Bytes readers may take, and the line that can still be edited. *)
Record ldisc : Type := mkLdisc { queue : list Z; editing : list Z; raw_mode : bool }.

Definition type_char (c : Z) (d : ldisc) : ldisc :=
  if (c =? C 90) || (c =? C 80) then d
  else if c =? C 85 then mkLdisc (queue d) [] (raw_mode d)
  else if (c =? C 72) || (c =? 127) then mkLdisc (queue d) (removelast (editing d)) (raw_mode d)
  else if negb (c =? 0) && (length (queue d) + length (editing d) <? 128)%nat then
    let c := if c =? 13 then 10 else c in
    let line := editing d ++ [s8 c] in
    if raw_mode d || (c =? 10) || (c =? C 68) || (length (queue d) + length line =? 128)%nat
    then mkLdisc (queue d ++ line) [] (raw_mode d)
    else mkLdisc (queue d) line (raw_mode d)
  else d.

(** A read of [n] bytes takes up to and including a newline; an end-of-file mark
    ends it and is consumed only by a read that has nothing else. *)
Fixpoint take_bytes (killed : bool) (n : nat) (dst q : list Z) : ending * list Z :=
  match n, q with
  | O, _ => (Return dst, q)
  | S _, [] => (if killed then Killed else Asleep dst n, [])
  | S n, c :: q =>
      if c =? C 68 then (Return dst, if bool_decide (dst = []) then q else c :: q)
      else if c =? 10 then (Return (dst ++ [10]), q)
      else take_bytes killed n (dst ++ [c]) q
  end.

Definition set_raw (value : Z) (d : ldisc) : ldisc :=
  if value =? 0 then mkLdisc (queue d) (editing d) false
  else mkLdisc (queue d ++ editing d) [] true.

(** Switching raw mode on wakes readers if there is anything to read after it. *)
Definition raw_wakes (value : Z) (d : ldisc) : bool :=
  negb (value =? 0) && negb (length (queue d ++ editing d) =? 0)%nat.

Record ring_rel (i : input) (d : ldisc) (R W E : Z) : Prop := {
  rr_len : length (buf i) = 128%nat;
  rr_r : r i = u32 R;
  rr_w : w i = u32 W;
  rr_e : e i = u32 E;
  rr_order : R <= W <= E /\ E <= R + 128;
  rr_queue : queue d = ring (buf i) R (W - R);
  rr_editing : editing d = ring (buf i) W (E - W);
  rr_newline : Forall (fun c => c <> 10) (editing d);
  rr_raw : raw_mode d = raw i }.

Definition input_rel (i : input) (d : ldisc) : Prop := exists R W E, ring_rel i d R W E.
Definition tty_rel (t : tty) (d : ldisc) : Prop := input_rel (inp t) d /\ screen_ok (out t).

Lemma echo_safe c t : screen_ok (out t) ->
  exists s, echo c t = Ok (tt, mkTty (inp t) s (rebooting t) (woken t)) /\ screen_ok s.
Proof.
  intros Hs. unfold echo, on_out.
  rewrite (bind_ok (gets console_global_color) _ (out t) _ (out t) eq_refl).
  destruct (consputc_safe c (console_global_color (out t)) (out t) Hs) as (s & -> & Hs' & _).
  by exists s.
Qed.

(** Moving the edit position back drops the last character of the line. *)
Lemma edit_back i d R W E : ring_rel i d R W E -> W < E ->
  ring_rel (mkInput (buf i) (r i) (w i) (u32 (e i - 1)) (raw i))
    (mkLdisc (queue d) (removelast (editing d)) (raw_mode d)) R W (E - 1)
  /\ at_ (buf i) (e i - 1) = Ok (slot (buf i) (E - 1)) /\ slot (buf i) (E - 1) <> 10.
Proof.
  intros [Hl Hr Hw He Ho Hq Hd Hn Hm] HE.
  assert (editing d = ring (buf i) W (E - 1 - W) ++ [slot (buf i) (E - 1)]) as Hd'.
  { rewrite Hd. replace (E - W) with (E - 1 - W + 1) by lia. rewrite ring_snoc by lia.
    do 3 f_equal. lia. }
  rewrite Hd' in Hn. apply Forall_app in Hn as [Hn1 Hn2]. split.
  - split; cbn; try done; [by rewrite He, u32_pred|lia|by rewrite Hd', removelast_last|].
    by rewrite Hd', removelast_last.
  - split; [|exact (proj1 (Forall_singleton _ _) Hn2)]. rewrite He.
    assert (at_ (buf i) (u32 E - 1) = at_ (buf i) (E - 1)) as -> by
      (unfold at_; by rewrite u32_pred). by apply at_slot.
Qed.

(** The kill-line loop ends within the size of the ring and empties the line. *)
Lemma kill_line_spec fuel t d R W E :
  ring_rel (inp t) d R W E -> screen_ok (out t) -> E - W <= Z.of_nat fuel ->
  exists t', kill_line fuel t = Ok (tt, t') /\ tty_rel t' (mkLdisc (queue d) [] (raw_mode d))
  /\ woken t' = woken t.
Proof.
  revert t d E. induction fuel as [|fuel IH]; intros t d E HR Hs Hf;
    pose proof (rr_order _ _ _ _ _ HR) as Ho; cbn [kill_line];
    rewrite (rr_e _ _ _ _ _ HR), (rr_w _ _ _ _ _ HR), u32_eqb by lia.
  all: assert (E = W -> ring_rel (inp t) (mkLdisc (queue d) [] (raw_mode d)) R W E) as Hend
    by (intros ->; destruct HR; split; cbn; try done; by rewrite Z.sub_diag).
  - rewrite (proj2 (Z.eqb_eq E W)) by lia. exists t. split; [done|]. split; [|done].
    split; [|done]. exists R, W, E. apply Hend. lia.
  - destruct (Z.eqb_spec E W) as [HEW|HEW].
    { exists t. split; [done|]. split; [|done]. split; [|done]. exists R, W, E. by apply Hend. }
    destruct (edit_back (inp t) d R W E HR ltac:(lia)) as (HR' & Hat & Hnl).
    rewrite <- (rr_e _ _ _ _ _ HR), Hat. ok. rewrite (proj2 (Z.eqb_neq _ 10)) by done.
    rewrite <- (rr_w _ _ _ _ _ HR).
    match goal with |- context [set_inp ?i] => set (i' := i) end.
    rewrite (bind_ok (set_inp i') _ t tt (mkTty i' (out t) (rebooting t) (woken t)) eq_refl).
    destruct (echo_safe BACKSPACE (mkTty i' (out t) (rebooting t) (woken t)) Hs) as (s & Es & Hs').
    rewrite (bind_ok _ _ _ _ _ Es). cbn [inp rebooting woken].
    destruct (IH (mkTty i' s (rebooting t) (woken t)) _ (E - 1) HR' Hs' ltac:(lia))
      as (t' & -> & Ht' & Hw'). by exists t'.
Qed.

(** A character is stored at the end of the line. *)
Lemma store_char i d R W E c : ring_rel i d R W E -> E < R + 128 ->
  exists b, buf_set (buf i) (e i mod INPUT_BUF) c = Ok b
  /\ length b = 128%nat /\ ring b R (W - R) = queue d
  /\ ring b W (E + 1 - W) = editing d ++ [c] /\ ring b R (E + 1 - R) = queue d ++ editing d ++ [c].
Proof.
  intros [Hl Hr Hw He Ho Hq Hd Hn Hm] HE.
  rewrite He, u32_slot, buf_set_ok
    by (rewrite Hl; pose proof (Z.mod_pos_bound E INPUT_BUF); unfold INPUT_BUF in *; lia).
  eexists. split; [done|]. rewrite length_insert. split; [done|].
  assert (ring (<[Z.to_nat (E mod INPUT_BUF) := c]> (buf i)) R (W - R) = queue d) as Eq
    by (rewrite ring_insert, Hq by lia; done).
  assert (ring (<[Z.to_nat (E mod INPUT_BUF) := c]> (buf i)) W (E + 1 - W) = editing d ++ [c]) as Ee.
  { replace (E + 1 - W) with (E - W + 1) by lia. rewrite ring_snoc, ring_insert, Hd by lia.
    do 2 f_equal. replace (W + (E - W)) with E by lia. by rewrite slot_insert. }
  split; [done|]. split; [done|].
  replace (E + 1 - R) with (W - R + (E + 1 - W)) by lia. rewrite ring_app by lia.
  rewrite Eq. replace (R + (W - R)) with W by lia. by rewrite Ee.
Qed.

Lemma s8_newline c : 0 <= c < 256 -> s8 c = 10 -> c = 10.
Proof. unfold s8. change (2 ^ 7) with 128. change (2 ^ 8) with 256. intros. Z.div_mod_to_equations. lia. Qed.

(** Whether readers were given something. *)
Definition grew (d d' : ldisc) : bool := negb (length (queue d') =? length (queue d))%nat.

Lemma grew_same d d' : queue d' = queue d -> grew d d' = false.
Proof. intros E. unfold grew. by rewrite E, Nat.eqb_refl. Qed.

Lemma length_queue_editing i d R W E : ring_rel i d R W E ->
  Z.of_nat (length (queue d)) = W - R /\ Z.of_nat (length (editing d)) = E - W.
Proof.
  intros [Hl Hr Hw He Ho Hq Hd Hn Hm]. rewrite Hq, Hd, !length_ring. lia.
Qed.

(** The default case: an ordinary character. *)
Lemma intr_default ps t d c : tty_rel t d -> 0 <= c < 256 ->
  (c =? C 90) || (c =? C 80) || (c =? C 85) || (c =? C 72) || (c =? 127) = false ->
  exists t', consoleintr1 ps c t = Ok (tt, t') /\ tty_rel t' (type_char c d)
  /\ woken t' = woken t || grew d (type_char c d).
Proof.
  intros [(R & W & E & HR) Hs] Hc Hctl.
  pose proof (length_queue_editing _ _ _ _ _ HR) as [Lq Le].
  pose proof (rr_order _ _ _ _ _ HR) as Ho.
  apply orb_false_iff in Hctl as [Hctl H127]. apply orb_false_iff in Hctl as [Hctl H72].
  apply orb_false_iff in Hctl as [Hctl H85]. apply orb_false_iff in Hctl as [H90 H80].
  unfold consoleintr1, type_char. rewrite H90, H80, H85, H72, H127. cbn [orb].
  rewrite (bind_ok get _ t t t eq_refl). cbn zeta.
  rewrite (rr_e _ _ _ _ _ HR), (rr_r _ _ _ _ _ HR), u32_sub by lia.
  replace (E - R <? INPUT_BUF) with (length (queue d) + length (editing d) <? 128)%nat
    by (unfold INPUT_BUF; lia).
  destruct (negb (c =? 0) && (length (queue d) + length (editing d) <? 128)%nat) eqn:Hroom.
  2: { exists t. split; [done|]. split; [by split; [exists R, W, E|]|].
       by rewrite grew_same, orb_false_r. }
  apply andb_true_iff in Hroom as [_ Hroom]. apply Nat.ltb_lt in Hroom.
  set (c' := if c =? 13 then 10 else c).
  assert (0 <= c' < 256) as Hc' by (subst c'; destruct (c =? 13); lia).
  destruct (store_char (inp t) d R W E (s8 c') HR ltac:(lia)) as (b & Eb & Lb & Bq & Be & Bqe).
  rewrite (rr_e _ _ _ _ _ HR) in Eb. rewrite Eb.
  rewrite (bind_ok (lift (Ok b)) _ t b t eq_refl).
  rewrite !u32_add, (rr_w _ _ _ _ _ HR).
  set (i1 := mkInput b (u32 R) (u32 W) (u32 (E + 1)) (raw (inp t))).
  rewrite (bind_ok (set_inp i1) _ t tt (mkTty i1 (out t) (rebooting t) (woken t)) eq_refl).
  destruct (echo_safe c' (mkTty i1 (out t) (rebooting t) (woken t)) Hs) as (s & Es & Hs').
  rewrite (bind_ok _ _ _ _ _ Es). cbn [inp out rebooting woken raw e r buf i1].
  rewrite u32_add, (Z.eqb_sym (u32 (E + 1))), u32_eqb by (unfold INPUT_BUF; lia).
  replace (R + INPUT_BUF =? E + 1) with (length (queue d) + length (editing d ++ [s8 c']) =? 128)%nat
    by (rewrite length_app; cbn [length]; unfold INPUT_BUF; lia).
  rewrite (rr_raw _ _ _ _ _ HR). fold c'.
  destruct (raw (inp t) || (c' =? 10) || (c' =? C 68)
            || (length (queue d) + length (editing d ++ [s8 c']) =? 128)%nat) eqn:Hcommit.
  - eexists. split; [reflexivity|]. split.
    + split; [|done]. exists R, (E + 1), (E + 1). split; cbn; try done; try lia;
        by rewrite ?Bqe, ?Z.sub_diag.
    + cbn. unfold grew. cbn [queue]. rewrite !length_app. cbn [length].
      replace (_ =? _)%nat with false by lia. by rewrite orb_true_r.
  - eexists. split; [reflexivity|]. split.
    + split; [|done]. exists R, W, (E + 1). split; cbn; try done; [lia|].
      apply Forall_app. split; [apply HR|]. apply Forall_singleton. intros H10.
      apply s8_newline in H10; [|done]. rewrite H10, orb_true_r in Hcommit. done.
    + by rewrite grew_same, orb_false_r.
Qed.

(** One character of input against the contract. *)
Lemma consoleintr1_spec ps t d c : tty_rel t d -> 0 <= c < 256 ->
  exists t', consoleintr1 ps c t = Ok (tt, t') /\ tty_rel t' (type_char c d)
  /\ woken t' = woken t || grew d (type_char c d).
Proof.
  intros Ht Hc.
  destruct ((c =? C 90) || (c =? C 80) || (c =? C 85) || (c =? C 72) || (c =? 127)) eqn:Hctl;
    [|by apply intr_default].
  destruct Ht as [(R & W & E & HR) Hs]. pose proof (rr_order _ _ _ _ _ HR) as Ho.
  unfold consoleintr1, type_char. destruct (c =? C 90).
  { eexists. split; [done|]. split; [by split; [exists R, W, E|]|]. by rewrite grew_same, orb_false_r. }
  destruct (c =? C 80); cbn [orb].
  { destruct (procdump_safe ps (out t) Hs) as (s & Es & Hs'). unfold on_out. rewrite Es.
    eexists. split; [done|]. split; [by split; [exists R, W, E|]|]. by rewrite grew_same, orb_false_r. }
  destruct (c =? C 85).
  { destruct (kill_line_spec (Z.to_nat INPUT_BUF) t d R W E HR Hs) as (t' & -> & Ht' & Hw');
      [change (Z.of_nat (Z.to_nat INPUT_BUF)) with 128; lia|].
    exists t'. split; [done|]. split; [done|]. by rewrite grew_same, orb_false_r. }
  cbn [orb] in Hctl. rewrite Hctl. rewrite (bind_ok get _ t t t eq_refl).
  rewrite (rr_e _ _ _ _ _ HR), (rr_w _ _ _ _ _ HR), u32_eqb by lia.
  destruct (Z.eqb_spec E W) as [->|HEW]; cbn [negb].
  - exists t. split; [done|]. split; [|by rewrite grew_same, orb_false_r].
    split; [|done]. exists R, W, W.
    replace (removelast (editing d)) with (editing d); [by destruct d|].
    rewrite (rr_editing _ _ _ _ _ HR), Z.sub_diag. done.
  - destruct (edit_back (inp t) d R W E HR ltac:(lia)) as (HR' & _ & _).
    rewrite (rr_e _ _ _ _ _ HR), (rr_w _ _ _ _ _ HR) in HR'. cbn zeta.
    match goal with |- context [set_inp ?i] => set (i' := i) in * end.
    rewrite (bind_ok (set_inp i') _ t tt (mkTty i' (out t) (rebooting t) (woken t)) eq_refl).
    destruct (echo_safe BACKSPACE (mkTty i' (out t) (rebooting t) (woken t)) Hs) as (s & -> & Hs').
    eexists. split; [reflexivity|]. split; [by split; [exists R, W, (E - 1)|]|].
    by rewrite grew_same, orb_false_r.
Qed.

Lemma consoleintr_spec ps cs t d : tty_rel t d -> Forall (fun c => 0 <= c < 256) cs ->
  exists t', consoleintr ps cs t = Ok (tt, t') /\ tty_rel t' (fold_left (fun d c => type_char c d) cs d).
Proof.
  intros Ht Hcs. revert t d Ht. induction Hcs as [|c cs Hc _ IH]; intros t d Ht; [by exists t|].
  cbn [consoleintr fold_left]. destruct (consoleintr1_spec ps t d c Ht Hc) as (t1 & E1 & Ht1 & _).
  rewrite (bind_ok _ _ _ _ _ E1). by apply IH.
Qed.

(** Reading against the contract. *)
Lemma consoleread_spec killed n dst i d : input_rel i d ->
  exists i', consoleread killed n dst i = Ok (fst (take_bytes killed n dst (queue d)), i')
  /\ input_rel i' (mkLdisc (snd (take_bytes killed n dst (queue d))) (editing d) (raw_mode d)).
Proof.
  revert dst i d. induction n as [|n IH]; intros dst i d HR.
  { exists i. split; [done|]. by destruct d. }
  destruct HR as (R & W & E & HR). pose proof (rr_order _ _ _ _ _ HR) as Ho. cbn [consoleread].
  rewrite (rr_r _ _ _ _ _ HR), (rr_w _ _ _ _ _ HR), Z.eqb_sym, u32_eqb by lia.
  pose proof (rr_queue _ _ _ _ _ HR) as Hq. destruct (Z.eqb_spec W R) as [->|HWR].
  { rewrite Z.sub_diag in Hq. change (ring (buf i) R 0) with (@nil Z) in Hq. rewrite Hq.
    exists i. split; [done|]. exists R, R, E. destruct d; cbn in *. by subst. }
  rewrite ring_cons in Hq by lia. rewrite Hq. cbn [take_bytes].
  assert (at_ (buf i) (u32 R) = Ok (slot (buf i) R)) as ->.
  { rewrite <- (at_slot (buf i) R) by apply HR. unfold at_. by rewrite !u32_slot. }
  ok. rewrite u32_add. set (i' := mkInput _ _ _ _ _).
  set (q' := ring (buf i) (R + 1) (W - R - 1)) in *.
  assert (ring_rel i' (mkLdisc q' (editing d) (raw_mode d)) (R + 1) W E) as HR'.
  { subst q'. destruct HR. split; cbn; try done; [lia|]. f_equal. lia. }
  assert (input_rel i (mkLdisc (slot (buf i) R :: q') (editing d) (raw_mode d))) as HRd
    by (exists R, W, E; rewrite <- Hq; by destruct d).
  destruct (slot (buf i) R =? C 68).
  - destruct (bool_decide (dst = [])); eexists; (split; [reflexivity|]); [by exists (R + 1), W, E|done].
  - destruct (Z.eqb_spec (slot (buf i) R) 10) as [->|_].
    + eexists. split; [reflexivity|]. by exists (R + 1), W, E.
    + destruct (IH (dst ++ [slot (buf i) R]) i' (mkLdisc q' (editing d) (raw_mode d))) as (i2 & -> & H2);
        [by exists (R + 1), W, E|]. by exists i2.
Qed.

(** Raw mode hands the unfinished line to the readers. *)
Lemma consoleioctl_raw value payload t d : tty_rel t d ->
  exists t', consoleioctl 2 value payload t = (0, payload, t') /\ tty_rel t' (set_raw value d)
  /\ woken t' = woken t || raw_wakes value d.
Proof.
  intros [(R & W & E & HR) Hs]. pose proof (rr_order _ _ _ _ _ HR) as Ho.
  pose proof (length_queue_editing _ _ _ _ _ HR) as [Lq Le].
  unfold consoleioctl, set_raw, raw_wakes. change (2 =? 0) with false. change (2 =? 1) with false.
  change (2 =? 2) with true. cbn zeta iota. destruct (value =? 0); cbn [negb andb].
  { eexists. split; [done|]. rewrite orb_false_r. split; [|done]. split; [|done]. exists R, W, E. by destruct HR. }
  rewrite (rr_e _ _ _ _ _ HR), (rr_r _ _ _ _ _ HR), Z.eqb_sym, u32_eqb by lia.
  assert (queue d ++ editing d = ring (buf (inp t)) R (E - R)) as Hqe.
  { replace (E - R) with (W - R + (E - W)) by lia. rewrite ring_app by lia.
    rewrite (rr_queue _ _ _ _ _ HR), (rr_editing _ _ _ _ _ HR). f_equal. f_equal. lia. }
  rewrite length_app. destruct (Z.eqb_spec E R) as [->|HER]; cbn [negb]; (eexists; split; [done|]; split; [split; [|done]|]).
  - exists R, R, R. destruct HR. assert (W = R) as -> by lia. split; cbn; try done; try lia;
      by rewrite Z.sub_diag.
  - cbn [woken]. replace (_ =? 0)%nat with true by lia. by rewrite orb_false_r.
  - exists R, E, E. destruct HR. split; cbn; try done; try lia. by rewrite Z.sub_diag.
  - cbn [woken]. replace (_ =? 0)%nat with false by lia. by rewrite orb_true_r.
Qed.

(** * Sequences of interrupts and calls *)

Inductive tty_event : Type :=
  | Key (c : Z)                                        (* an interrupt delivering [c] *)
  | Read (killed : bool) (n : nat) (dst : list Z)      (* a read, or its resumption *)
  | Raw (value : Z).                                   (* ioctl 2 *)

Inductive tty_result : Type :=
  | Woke (b : bool)
  | Got (e : ending).

Definition tty_step (ps : list dump) (ev : tty_event) (t : tty) : res (tty_result * tty) :=
  match ev with
  | Key c =>
      '(_, t) ← consoleintr ps [c] (mkTty (inp t) (out t) (rebooting t) false);
      Ok (Woke (woken t), t)
  | Read killed n dst =>
      '(x, i) ← consoleread killed n dst (inp t);
      Ok (Got x, mkTty i (out t) (rebooting t) (woken t))
  | Raw value =>
      let '(_, _, t) := consoleioctl 2 value 0 (mkTty (inp t) (out t) (rebooting t) false) in
      Ok (Woke (woken t), t)
  end.

Fixpoint tty_run (ps : list dump) (evs : list tty_event) (t : tty) : res (list tty_result * tty) :=
  match evs with
  | [] => Ok ([], t)
  | ev :: evs =>
      '(x, t) ← tty_step ps ev t;
      '(xs, t) ← tty_run ps evs t;
      Ok (x :: xs, t)
  end.

Definition ldisc_step (ev : tty_event) (d : ldisc) : tty_result * ldisc :=
  match ev with
  | Key c => (Woke (grew d (type_char c d)), type_char c d)
  | Read killed n dst =>
      let '(x, q) := take_bytes killed n dst (queue d) in (Got x, mkLdisc q (editing d) (raw_mode d))
  | Raw value => (Woke (raw_wakes value d), set_raw value d)
  end.

Fixpoint ldisc_run (evs : list tty_event) (d : ldisc) : list tty_result * ldisc :=
  match evs with
  | [] => ([], d)
  | ev :: evs =>
      let '(x, d) := ldisc_step ev d in
      let '(xs, d) := ldisc_run evs d in
      (x :: xs, d)
  end.

Definition key_ok (ev : tty_event) : Prop := match ev with Key c => 0 <= c < 256 | _ => True end.

Lemma tty_step_spec ps ev t d : tty_rel t d -> key_ok ev ->
  exists t', tty_step ps ev t = Ok (fst (ldisc_step ev d), t') /\ tty_rel t' (snd (ldisc_step ev d)).
Proof.
  intros [HR Hs] Hev. destruct ev as [c|killed n dst|value]; cbn [tty_step ldisc_step consoleintr].
  - destruct (consoleintr1_spec ps (mkTty (inp t) (out t) (rebooting t) false) d c) as (t' & E & Ht' & Hw);
      [by split|done|].
    rewrite (bind_ok _ _ _ _ _ E). ok. exists t'. by rewrite Hw.
  - destruct (consoleread_spec killed n dst (inp t) d HR) as (i' & -> & HR'). ok.
    destruct (take_bytes killed n dst (queue d)). eexists. split; [done|]. by split.
  - destruct (consoleioctl_raw value 0 (mkTty (inp t) (out t) (rebooting t) false) d) as (t' & -> & Ht' & Hw);
      [by split|]. exists t'. by rewrite Hw.
Qed.

Lemma tty_run_spec ps evs t d : tty_rel t d -> Forall key_ok evs ->
  exists t', tty_run ps evs t = Ok (fst (ldisc_run evs d), t') /\ tty_rel t' (snd (ldisc_run evs d)).
Proof.
  intros Ht Hevs. revert t d Ht. induction Hevs as [|ev evs Hev _ IH]; intros t d Ht; [by exists t|].
  cbn [tty_run ldisc_run]. destruct (tty_step_spec ps ev t d Ht Hev) as (t1 & -> & Ht1). ok.
  destruct (ldisc_step ev d) as [x d1]. cbn [fst snd] in *.
  destruct (IH t1 d1 Ht1) as (t2 & -> & Ht2). ok. exists t2. by destruct (ldisc_run evs d1).
Qed.

(** The console at boot. *)
Definition boot_tty : tty :=
  mkTty (mkInput (replicate 128 0) 0 0 0 false)
    (mkConsole (replicate 2000 0) 0 [] true true false false 7) false false.

Lemma boot_rel : tty_rel boot_tty (mkLdisc [] [] false).
Proof.
  split; [|split; [done|split; [cbn; lia|done]]].
  exists 0, 0, 0. split; cbn; try done; lia.
Qed.

(** C24: Console input implements its contract.  For any sequence of
    keyboard interrupts, reads (new or resumed, of living or killed processes)
    and raw-mode switches, every call ends without running outside the ring or
    text memory (kill-line loops included), reads return the bytes the
    contract's queue gives, a key press wakes readers exactly when it makes bytes
    available, switching raw mode on wakes them exactly when there is then anything
    to read (also an unfinished line, which it makes available), and the ring, whatever its wrapped counters, holds the contract's
    queue and edited line. *)
Theorem console_line_discipline ps evs t d :
  tty_rel t d -> Forall key_ok evs ->
  exists t', tty_run ps evs t = Ok (fst (ldisc_run evs d), t') /\ tty_rel t' (snd (ldisc_run evs d)).
Proof. apply tty_run_spec. Qed.

(** "ls", a mistyped letter, backspace, newline; a read that sleeps before it.
    Then a letter, which raw mode hands to the reader. *)
Definition typing : list tty_event :=
  [Read false 10 []; Key 108; Key 115; Key 120; Key 8; Key 13; Read false 10 [];
   Key 97; Raw 1].

Lemma console_line_discipline_witness :
  exists t', tty_run [] typing boot_tty
    = Ok ([Got (Asleep [] 10); Woke false; Woke false; Woke false; Woke false; Woke true;
           Got (Return [108; 115; 10]); Woke false; Woke true], t').
Proof.
  destruct (console_line_discipline [] typing boot_tty (mkLdisc [] [] false) boot_rel)
    as (t' & E & _).
  - repeat (apply Forall_cons_2; [cbn; lia|]). apply Forall_nil_2.
  - exists t'. exact E.
Defined.

Lemma type_ordinary c l : 32 <= c < 127 -> (length l < 127)%nat ->
  type_char c (mkLdisc [] l false) = mkLdisc [] (l ++ [c]) false.
Proof.
  intros Hc Hl. unfold type_char, C. cbn [queue editing raw_mode length].
  rewrite !(proj2 (Z.eqb_neq c _)) by lia. cbn [orb negb andb].
  rewrite (proj2 (Nat.ltb_lt _ _)) by lia. cbn zeta iota. rewrite ?(proj2 (Z.eqb_neq c _)) by lia. cbn [orb].
  rewrite length_app. cbn [length]. rewrite (proj2 (Nat.eqb_neq _ _)) by lia.
  unfold s8. rewrite Z.mod_small by lia. do 3 f_equal. lia.
Qed.

Lemma ldisc_type text l rest : Forall (fun c => 32 <= c < 127) text ->
  (length l + length text <= 127)%nat ->
  ldisc_run (map Key text ++ rest) (mkLdisc [] l false)
  = (map (fun _ => Woke false) text ++ fst (ldisc_run rest (mkLdisc [] (l ++ text) false)),
     snd (ldisc_run rest (mkLdisc [] (l ++ text) false))).
Proof.
  intros Ht. revert l. induction Ht as [|c text Hc _ IH]; intros l Hl; cbn [length] in Hl.
  { rewrite app_nil_r. cbn [map app]. by destruct (ldisc_run rest (mkLdisc [] l false)). }
  cbn [map app ldisc_run ldisc_step]. rewrite type_ordinary by (done || lia).
  change (grew _ _) with false. rewrite IH by (rewrite length_app; cbn [length]; lia).
  by rewrite <- app_assoc.
Qed.

Lemma take_text n dst text q : Forall (fun c => 32 <= c < 127) text -> (length text < n)%nat ->
  take_bytes false n dst (text ++ 10 :: q) = (Return (dst ++ text ++ [10]), q).
Proof.
  intros Ht. revert n dst. induction Ht as [|c text Hc _ IH]; intros n dst Hn; cbn [length] in Hn;
    (destruct n as [|n]; [lia|]); [done|].
  cbn [app take_bytes]. unfold C. rewrite !(proj2 (Z.eqb_neq c _)) by lia.
  rewrite IH by lia. by rewrite <- app_assoc.
Qed.

Lemma ldisc_enter text n : Forall (fun c => 32 <= c < 127) text ->
  (length text < n)%nat -> (length text <= 127)%nat ->
  ldisc_run [Key 13; Read false n []] (mkLdisc [] text false)
  = ([Woke true; Got (Return (text ++ [10]))], mkLdisc [] [] false).
Proof.
  intros Ht Hn Hl. cbn [ldisc_run ldisc_step].
  assert (type_char 13 (mkLdisc [] text false) = mkLdisc (text ++ [10]) [] false) as ->.
  { unfold type_char. cbn [queue editing raw_mode length]. rewrite (proj2 (Nat.ltb_lt _ _)) by lia. done. }
  unfold grew. cbn [queue editing raw_mode]. rewrite (take_text n [] text []) by done.
  rewrite length_app. cbn [length]. by replace (_ =? _)%nat with false by lia.
Qed.

(** A line typed on an idle console reaches the reader as typed: for
    text of ordinary characters (no control characters, at most 127 of them) and
    Enter, a read of enough bytes returns the text and a newline, and leaves
    nothing behind. *)
Theorem console_typed_line ps text n t :
  tty_rel t (mkLdisc [] [] false) -> Forall (fun c => 32 <= c < 127) text ->
  (length text < n)%nat -> (length text <= 127)%nat ->
  exists t', tty_run ps (map Key text ++ [Key 13; Read false n []]) t
    = Ok (map (fun _ => Woke false) text ++ [Woke true; Got (Return (text ++ [10]))], t')
  /\ tty_rel t' (mkLdisc [] [] false).
Proof.
  intros Ht Htext Hn Hlen.
  destruct (tty_run_spec ps (map Key text ++ [Key 13; Read false n []]) t _ Ht) as (t' & E & Ht').
  { apply Forall_app. split; [|apply Forall_cons_2; [cbn; lia|]; by apply Forall_singleton].
    apply Forall_map. eapply Forall_impl; [exact Htext|]. intros c Hc. cbn in Hc |- *. lia. }
  exists t'. rewrite ldisc_type in E, Ht' by (done || lia). cbn [app] in E, Ht'.
  rewrite ldisc_enter in E, Ht' by done. done.
Qed.

Lemma console_typed_line_witness :
  exists t', tty_run [] (map Key (cstr "aidraw a house") ++ [Key 13; Read false 100 []]) boot_tty
    = Ok (map (fun _ => Woke false) (cstr "aidraw a house")
            ++ [Woke true; Got (Return (cstr "aidraw a house" ++ [10]))], t')
  /\ tty_rel t' (mkLdisc [] [] false).
Proof.
  apply (console_typed_line [] (cstr "aidraw a house") 100 boot_tty boot_rel).
  - change (cstr "aidraw a house") with [97; 105; 100; 114; 97; 119; 32; 97; 32; 104; 111; 117; 115; 101].
    repeat (apply Forall_cons_2; [lia|]). apply Forall_nil_2.
  - vm_compute. lia.
  - vm_compute. lia.
Defined.
