(* ===== verification/Uart.v ===== *)
(** Model of src/uart.c: the serial port, under the console and the agent protocol.

    The port is hardware: [SerialOps] holds the port instructions, [Serial] what the
    8250 promises of them in terms of a view: the line control register, the
    divisor, the interrupt enable register, the bytes put on the line, how many more
    readings of the status say that the transmitter is busy, and the bytes received
    and not yet read (what arrives later raises the next interrupt).

    The models of the console and the agent protocol keep the bytes they hand to
    [uartputc] and take those [uartgetc] returns as lists; here they are tied to the
    device.  [flush] passes what a step of the console has printed to the port. *)
From stdpp Require Import base strings numbers list.
From S2P Require Import Prelude CString Printf Trap Ioapic Ai Console Tty.
Local Open Scope Z_scope.

Definition COM1 : Z := 0x3f8.

Class SerialOps (U : Type) : Type := {
  outb : Z -> Z -> U -> U;
  inb : Z -> U -> Z * U }.

(** The variable [uart] and the port. *)
Record port (U : Type) : Type := mkPort { present : bool; chip : U }.
Arguments mkPort {U} _ _.
Arguments present {U} _.
Arguments chip {U} _.

Section Code.
Context {U : Type} `{SerialOps U}.

(** The wait of [uartputc]: [n] turns are left. *)
Fixpoint tx_wait (n : nat) (u : U) : U :=
  match n with
  | O => u
  | S n => let '(st, u) := inb (COM1 + 5) u in if Z.land st 0x20 =? 0 then tx_wait n u else u
  end.

Definition uartputc (c : Z) (s : port U) : port U :=
  if negb (present s) then s
  else mkPort true (outb (COM1 + 0) (u8 c) (tx_wait 128 (chip s))).

Definition uartgetc (s : port U) : Z * port U :=
  if negb (present s) then (-1, s)
  else
    let '(st, u) := inb (COM1 + 5) (chip s) in
    if Z.land st 0x01 =? 0 then (-1, mkPort true u)
    else let '(c, u) := inb (COM1 + 0) u in (c, mkPort true u).

Definition uartputs (cs : list Z) (s : port U) : port U := fold_left (fun s c => uartputc c s) cs s.

Definition uartearlyinit (s : port U) : port U :=
  let u := outb (COM1 + 2) 0 (chip s) in
  let u := outb (COM1 + 3) 0x80 u in
  let u := outb (COM1 + 0) (115200 / 9600) u in
  let u := outb (COM1 + 1) 0 u in
  let u := outb (COM1 + 3) 0x03 u in
  let u := outb (COM1 + 4) 0 u in
  let u := outb (COM1 + 1) 0x01 u in
  let '(st, u) := inb (COM1 + 5) u in
  if st =? 0xFF then mkPort (present s) u
  else uartputs (cstr "xv6..." ++ [10]) (mkPort true u).

Definition uartinit {A} `{IoapicOps A} (s : port U) (a : A) : port U * A :=
  if negb (present s) then (s, a)
  else
    let u := snd (inb (COM1 + 2) (chip s)) in
    let u := snd (inb (COM1 + 0) u) in
    (mkPort true u, ioapicenable IRQ_COM1 0 a).

(** [while((c = uartgetc()) >= 0) ai_uart_rx(c)]. *)
Fixpoint ai_loop (fuel : nat) (s : port U) (a : ai) : res (port U * ai) :=
  match fuel with
  | O => NoFuel
  | S fuel =>
      let '(c, s) := uartgetc s in
      if c <? 0 then Ok (s, a) else a ← ai_uart_rx c a; ai_loop fuel s a
  end.

(** What the console has printed between two states goes to the port. *)
Definition flush (t t' : tty) (s : port U) : port U :=
  uartputs (drop (length (tx (out t))) (tx (out t'))) s.

(** The loop of [consoleintr(uartgetc)]. *)
Fixpoint console_loop (fuel : nat) (ps : list dump) (s : port U) (t : tty) : res (port U * tty) :=
  match fuel with
  | O => NoFuel
  | S fuel =>
      let '(c, s) := uartgetc s in
      if c <? 0 then Ok (s, t)
      else '(_, t') ← consoleintr1 ps c t; console_loop fuel ps (flush t t' s) t'
  end.

Definition uartintr (fuel : nat) (ps : list dump) (s : port U) (a : ai) (t : tty) : res (port U * ai * tty) :=
  if ai_is_active a then '(s, a) ← ai_loop fuel s a; Ok (s, a, t)
  else '(s, t) ← console_loop fuel ps s t; Ok (s, a, t).

End Code.

(** * The hardware *)

Record sview : Type := mkSview {
  lcr : Z;
  divisor : Z;
  ier : Z;
  sent : list Z;
  busy : nat;
  rx : list Z }.

(** The divisor latch: ports 0 and 1 address the divisor. *)
Definition latched (v : sview) : bool := Z.testbit (lcr v) 7.

Class Serial (U : Type) `{SerialOps U} : Type := {
  serial_view : U -> sview;
  (** How long the transmitter takes for a byte. *)
  drain : nat;
  busy_drain : forall u, (busy (serial_view u) <= drain)%nat;
  rx_bytes : forall u, Forall is_u8 (rx (serial_view u));
  read_status : forall u, let '(st, u') := inb (COM1 + 5) u in let v := serial_view u in
    st <> 0xFF /\ (Z.land st 0x20 =? 0) = negb (busy v =? 0)%nat /\ (Z.land st 0x01 =? 0) = bool_decide (rx v = [])
    /\ serial_view u' = mkSview (lcr v) (divisor v) (ier v) (sent v) (pred (busy v)) (rx v);
  read_data : forall u, latched (serial_view u) = false -> let '(c, u') := inb (COM1 + 0) u in let v := serial_view u in
    match rx v with
    | [] => serial_view u' = v
    | b :: bs => c = b /\ serial_view u' = mkSview (lcr v) (divisor v) (ier v) (sent v) (busy v) bs
    end;
  read_iir : forall u, serial_view (snd (inb (COM1 + 2) u)) = serial_view u;
  (** A byte written goes on the line if the transmitter is free; nothing is said of
      a byte written while it is busy, but for the rest of the port. *)
  write_data : forall u c, latched (serial_view u) = false ->
    let v := serial_view u in
    exists l n, serial_view (outb (COM1 + 0) c u) = mkSview (lcr v) (divisor v) (ier v) l n (rx v)
    /\ (busy v = 0%nat -> l = sent v ++ [c]);
  write_ier : forall u x, latched (serial_view u) = false -> let v := serial_view u in
    serial_view (outb (COM1 + 1) x u) = mkSview (lcr v) (divisor v) x (sent v) (busy v) (rx v);
  write_div_low : forall u x, latched (serial_view u) = true -> let v := serial_view u in
    serial_view (outb (COM1 + 0) x u) = mkSview (lcr v) (256 * (divisor v / 256) + x) (ier v) (sent v) (busy v) (rx v);
  write_div_high : forall u x, latched (serial_view u) = true -> let v := serial_view u in
    serial_view (outb (COM1 + 1) x u) = mkSview (lcr v) (divisor v mod 256 + 256 * x) (ier v) (sent v) (busy v) (rx v);
  write_lcr : forall u x, let v := serial_view u in
    serial_view (outb (COM1 + 3) x u) = mkSview x (divisor v) (ier v) (sent v) (busy v) (rx v);
  write_mcr : forall u x, serial_view (outb (COM1 + 4) x u) = serial_view u;
  (** Switching the queues of the chip off may drop bytes received. *)
  write_fcr : forall u, exists bs, let v := serial_view u in
    serial_view (outb (COM1 + 2) 0 u) = mkSview (lcr v) (divisor v) (ier v) (sent v) (busy v) bs }.

(** * What the console prints *)

(** Output of the console only adds bytes to those sent. *)
Definition grows (s s' : console) : Prop := exists l, tx s' = tx s ++ l /\ Forall is_u8 l.

Lemma output_refl s : grows s s.
Proof. exists []. by rewrite app_nil_r. Qed.
Lemma output_trans s s1 s' : grows s s1 -> grows s1 s' -> grows s s'.
Proof. intros (l & E & Hl) (l' & E' & Hl'). exists (l ++ l'). by rewrite E', E, <- app_assoc, Forall_app. Qed.

Definition talks {A} (m : M console A) : Prop := forall s a s', m s = Ok (a, s') -> grows s s'.

Lemma talks_bind {A B} (m : M console A) (f : A -> M console B) : talks m -> (forall a, talks (f a)) -> talks (m ≫= f).
Proof.
  intros Hm Hf s b s' E. unfold mbind, M_bind in E. destruct (m s) as [[a s1]| | |] eqn:Em; try done.
  apply (output_trans s s1); [by apply (Hm _ a)|by apply (Hf a _ b)].
Qed.
Lemma talks_ret {A} (a : A) : talks (mret a).
Proof. intros s b s' [= <- <-]. apply output_refl. Qed.
Lemma talks_gets {A} (f : console -> A) : talks (gets f).
Proof. intros s b s' [= <- <-]. apply output_refl. Qed.
Lemma talks_lift {A} (x : res A) : talks (lift x).
Proof. intros s b s' E. unfold lift in E. destruct x; try done. injection E as <- <-. apply output_refl. Qed.
Lemma talks_when b m : talks m -> talks (when b m).
Proof. destruct b; [done|]. intros _. apply talks_ret. Qed.

Lemma cgaputc_tx c color s a s' : cgaputc c color s = Ok (a, s') -> tx s' = tx s.
Proof.
  unfold cgaputc, cgamove. intros E.
  destruct (if c =? 10 then _ else _) as [[cells pos]| | |]; try done. cbn [mbind res_bind] in E.
  destruct (if 24 <=? _ then _ else _) as [[cells' pos']| | |]; try done. cbn [mbind res_bind] in E.
  destruct (buf_set _ _ _); try done. cbn [mbind res_bind] in E. by injection E as <- <-.
Qed.

Lemma serial_bytes s c : Forall is_u8 (Console.serial s c).
Proof. unfold Console.serial, is_u8. destruct (_ && _); [destruct (c =? _)|]; repeat constructor; try lia; apply u8_range. Qed.

Lemma talks_consputc c color : talks (consputc c color).
Proof.
  intros s a s' E. destruct (panicked s) eqn:Hp.
  - unfold consputc, mbind, M_bind, get in E. by rewrite Hp in E.
  - destruct (consputc_unfold c color s Hp) as (s0 & E0 & (Ht & _) & _ & _). rewrite E0 in E. apply cgaputc_tx in E.
    exists (Console.serial s c). rewrite E, Ht. split; [done|]. apply serial_bytes.
Qed.

#[local] Hint Resolve talks_bind talks_ret talks_gets talks_lift talks_when talks_consputc : talks.
Ltac talk :=
  repeat match goal with
    | |- talks (mbind _ _) => apply talks_bind; [|intros ?]
    | |- talks (match ?x with _ => _ end) => destruct x
    | |- talks _ => solve [eauto with talks]
    end.

Lemma talks_consputs cs : talks (consputs cs).
Proof. induction cs; cbn [consputs]; talk. Qed.
#[local] Hint Resolve talks_consputs : talks.

Lemma talks_conv c ap : talks (cprint_conv c ap).
Proof. unfold cprint_conv, print_d, print_x32, print_x64. talk. Qed.
#[local] Hint Resolve talks_conv : talks.

Lemma talks_cprintf n : forall fmt ap, (length fmt <= n)%nat -> talks (cprintf fmt ap).
Proof.
  induction n as [|n IH]; intros [|c fmt] ap Hn; cbn [cprintf length] in *; try lia; [talk|talk|].
  destruct (negb (c =? 37)); [apply talks_bind; [talk|intros _; apply IH; lia]|].
  destruct fmt as [|c' fmt]; [talk|]. apply talks_bind; [talk|]. intros ap'. apply IH. cbn in Hn. lia.
Qed.

Lemma talks_pcs fmt pcs : talks (print_pcs fmt pcs).
Proof. induction pcs; cbn [print_pcs]; [talk|]. apply talks_bind; [by apply (talks_cprintf (length fmt))|done]. Qed.

Lemma talks_procdump ps : talks (procdump ps).
Proof.
  induction ps as [|p ps IH]; cbn [procdump]; [talk|]. destruct (bool_decide _); [done|].
  apply talks_bind; [by eapply talks_cprintf|intros _]. apply talks_bind; [apply talks_when, talks_pcs|intros _].
  apply talks_bind; [by eapply talks_cprintf|done].
Qed.

(** The same for the whole of the console. *)
Definition ttalks {A} (m : M tty A) : Prop := forall t a t', m t = Ok (a, t') -> grows (out t) (out t').

Lemma ttalks_bind {A B} (m : M tty A) (f : A -> M tty B) : ttalks m -> (forall a, ttalks (f a)) -> ttalks (m ≫= f).
Proof.
  intros Hm Hf t b t' E. unfold mbind, M_bind in E. destruct (m t) as [[a t1]| | |] eqn:Em; try done.
  apply (output_trans _ (out t1)); [by apply (Hm _ a)|by apply (Hf a _ b)].
Qed.
Lemma ttalks_same {A} (m : M tty A) : (forall t a t', m t = Ok (a, t') -> out t' = out t) -> ttalks m.
Proof. intros Hm t a t' E. rewrite (Hm t a t' E). apply output_refl. Qed.
Lemma ttalks_out {A} (m : M console A) : talks m -> ttalks (on_out m).
Proof.
  intros Hm t a t' E. unfold on_out in E. destruct (m (out t)) as [[b s]| | |] eqn:Em; try done.
  injection E as <- <-. by apply (Hm _ b).
Qed.
Lemma ttalks_echo c : ttalks (echo c).
Proof. apply ttalks_out. talk. Qed.

(** Steps that print nothing. *)
Ltac silent := apply ttalks_same; by intros ? ? ? [= <- <-].

Lemma ttalks_kill fuel : ttalks (kill_line fuel).
Proof.
  induction fuel as [|fuel IH]; intros t a t' E; cbn [kill_line] in E; destruct (e (inp t) =? w (inp t));
    try (injection E as <- <-; apply output_refl); destruct (at_ _ _) as [c| | |]; try done; cbn [mbind res_bind] in E;
    destruct (c =? 10); try (injection E as <- <-; apply output_refl); try done.
  eapply (ttalks_bind (set_inp _) _) in E; [exact E| |].
  - apply ttalks_same. by intros ? ? ? [= <- <-].
  - intros _. apply ttalks_bind; [apply ttalks_echo|done].
Qed.

Lemma ttalks_intr ps c : ttalks (consoleintr1 ps c).
Proof.
  unfold consoleintr1.
  destruct (c =? C 90); [silent|]. destruct (c =? C 80); [apply ttalks_out, talks_procdump|].
  destruct (c =? C 85); [apply ttalks_kill|]. destruct (_ || _).
  - apply ttalks_bind; [silent|intros t]. cbv zeta. destruct (negb _); [|silent].
    apply ttalks_bind; [silent|intros _; apply ttalks_echo].
  - apply ttalks_bind; [silent|intros t]. cbv zeta. destruct (_ && _); [|silent].
    apply ttalks_bind; [apply ttalks_same; intros ? ? ? E; unfold lift in E; by destruct (buf_set _ _ _); [injection E as <- <-|..]|intros b].
    apply ttalks_bind; [silent|intros _]. apply ttalks_bind; [apply ttalks_echo|intros _].
    destruct (_ || _); [|silent].
    apply ttalks_bind; [silent|intros _; silent].
Qed.

(** * The driver on the hardware *)

Section Driver.
Context {U : Type} `{Serial U}.
Implicit Types u : U.

(** [v'] is [v] with [rest] left to read; and after [bs] were sent, if the
    transmitter is always free again within the 128 readings of [uartputc]. *)
Definition moved (v v' : sview) (bs rest : list Z) : Prop :=
  exists l n, v' = mkSview (lcr v) (divisor v) (ier v) l n rest
  /\ ((drain <= 128)%nat -> l = sent v ++ bs).

Lemma moved_trans v v1 v' bs bs' r1 r2 : moved v v1 bs r1 -> moved v1 v' bs' r2 -> moved v v' (bs ++ bs') r2.
Proof.
  intros (l & n & -> & Hl) (l' & n' & -> & Hl'). exists l', n'. cbn in *. split; [done|]. intros Hd.
  by rewrite Hl', Hl, <- app_assoc.
Qed.

Lemma moved_rx v v' bs rest : moved v v' bs rest -> rx v' = rest.
Proof. by intros (l & n & -> & _). Qed.

Lemma tx_wait_ok n u : let v := serial_view u in
  exists k, serial_view (tx_wait n u) = mkSview (lcr v) (divisor v) (ier v) (sent v) k (rx v)
  /\ ((busy v <= n)%nat -> k = 0%nat).
Proof.
  revert u. induction n as [|n IH]; intros u v; cbn [tx_wait].
  { exists (busy v). subst v. destruct (serial_view u). split; [done|]. cbn. lia. }
  pose proof (read_status u) as Hr. destruct (inb (COM1 + 5) u) as [st u1]. destruct Hr as (_ & Hst & _ & Hv). rewrite Hst.
  fold v in Hv |- *. destruct (Nat.eqb_spec (busy v) 0) as [E|E]; cbn [negb].
  - exists 0%nat. by rewrite Hv, E.
  - destruct (IH u1) as (k & -> & Hk). rewrite Hv in Hk |- *. cbn [lcr divisor ier sent busy rx] in *.
    exists k. split; [done|]. intros Hb. apply Hk. lia.
Qed.

(** The driver is ready when the port is there and its latch is closed. *)
Definition ready (s : port U) : Prop := present s = true /\ latched (serial_view (chip s)) = false.
Notation seen s := (serial_view (chip s)).

Lemma moved_ready s s' bs rest : ready s -> present s' = true -> moved (seen s) (seen s') bs rest -> ready s'.
Proof. intros [_ Hl] Hp (l & n & E & _). split; [done|]. unfold latched in *. by rewrite E. Qed.

Lemma uartputc_ok c s : ready s -> present (uartputc c s) = true /\ moved (seen s) (seen (uartputc c s)) [u8 c] (rx (seen s)).
Proof.
  intros [Hp Hl]. unfold uartputc. rewrite Hp. cbn [negb present chip]. split; [done|].
  destruct (tx_wait_ok 128 (chip s)) as (k & Hw & Hk).
  destruct (write_data (tx_wait 128 (chip s)) (u8 c)) as (l & n & -> & Hl'); [unfold latched; by rewrite Hw|].
  rewrite Hw in Hl' |- *. cbn [lcr divisor ier sent busy rx] in *. exists l, n. split; [done|]. intros Hd. apply Hl', Hk.
  pose proof (busy_drain (chip s)). lia.
Qed.

Lemma uartputs_ok cs s : ready s -> ready (uartputs cs s) /\ moved (seen s) (seen (uartputs cs s)) (u8 <$> cs) (rx (seen s)).
Proof.
  revert s. induction cs as [|c cs IH]; intros s Hs; cbn [uartputs fold_left fmap list_fmap].
  { split; [done|]. exists (sent (seen s)), (busy (seen s)). rewrite app_nil_r. by destruct (seen s). }
  destruct (uartputc_ok c s Hs) as [Hp Hm]. pose proof (moved_ready _ _ _ _ Hs Hp Hm) as Hs1.
  destruct (IH _ Hs1) as [Hs2 Hm2]. split; [done|]. rewrite (moved_rx _ _ _ _ Hm) in Hm2.
  by apply (moved_trans _ (seen (uartputc c s)) _ [u8 c] _ (rx (seen s))).
Qed.

Lemma uartgetc_ok s : ready s -> exists s', ready s' /\
  match rx (seen s) with
  | [] => uartgetc s = (-1, s') /\ moved (seen s) (seen s') [] []
  | b :: bs => uartgetc s = (b, s') /\ 0 <= b /\ moved (seen s) (seen s') [] bs
  end.
Proof.
  intros Hs. pose proof Hs as [Hp Hl]. unfold uartgetc. rewrite Hp. cbn [negb]. pose proof (rx_bytes (chip s)) as Hu.
  pose proof (read_status (chip s)) as Hr. destruct (inb (COM1 + 5) (chip s)) as [st u1]. destruct Hr as (_ & _ & -> & Hv).
  destruct (rx (seen s)) as [|b bs] eqn:Erx.
  - exists (mkPort true u1). rewrite bool_decide_true by done.
    assert (moved (seen s) (seen (mkPort true u1)) [] []) as Hm by (exists (sent (seen s)), (pred (busy (seen s))); cbn; by rewrite Hv, app_nil_r).
    split; [by eapply moved_ready|done].
  - rewrite bool_decide_false by done. pose proof (read_data u1) as Hd. destruct (inb (COM1 + 0) u1) as [c u2].
    rewrite Hv in Hd. cbn [rx] in Hd. destruct Hd as [-> Hv2]; [exact Hl|]. exists (mkPort true u2).
    assert (moved (seen s) (seen (mkPort true u2)) [] bs) as Hm by (exists (sent (seen s)), (pred (busy (seen s))); cbn; by rewrite Hv2, app_nil_r).
    split; [by eapply moved_ready|]. split; [done|]. apply Forall_cons in Hu as [Hb _]. split; [apply Hb|done].
Qed.

(** The loop hands the agent protocol all the bytes received. *)
Lemma ai_loop_ok bytes : forall fuel s a a', ready s -> rx (seen s) = bytes -> (length bytes < fuel)%nat -> ai_receive bytes a = Ok a' ->
  exists s', ai_loop fuel s a = Ok (s', a') /\ ready s' /\ moved (seen s) (seen s') [] [].
Proof.
  induction bytes as [|b bs IH]; intros [|fuel] s a a' Hs Hrx Hf Ha; cbn [length] in Hf; try lia; cbn [ai_loop ai_receive] in *;
    destruct (uartgetc_ok s Hs) as (s1 & Hs1 & Hg); rewrite Hrx in Hg.
  - destruct Hg as [-> Hm]. injection Ha as <-. by exists s1.
  - destruct Hg as (-> & Hb & Hm). replace (b <? 0) with false by lia. destruct (ai_uart_rx b a) as [a1| | |]; try done. cbn [mbind res_bind] in *.
    destruct (IH fuel s1 a1 a' Hs1) as (s' & -> & Hs' & Hm'); [exact (moved_rx _ _ _ _ Hm)|lia|done|].
    exists s'. split; [done|]. split; [done|]. by apply (moved_trans _ (seen s1) _ [] [] bs).
Qed.

(** Between two states of the console, with what it has printed sent on. *)
Lemma flush_ok t t' s : ready s -> grows (out t) (out t') ->
  ready (flush t t' s) /\ moved (seen s) (seen (flush t t' s)) (drop (length (tx (out t))) (tx (out t'))) (rx (seen s)).
Proof.
  intros Hs (l & E & Hl). unfold flush. rewrite E, drop_app_length.
  destruct (uartputs_ok l s Hs) as [H1 H2]. split; [done|]. replace (u8 <$> l) with l in H2; [done|].
  clear -Hl. induction Hl as [|c l Hc _ IH]; cbn [fmap list_fmap]; [done|]. rewrite u8_id by exact Hc. by rewrite <- IH.
Qed.

Lemma drops_app (l l1 l2 : list Z) : l1 = l ++ drop (length l) l1 -> drop (length l) l1 ++ drop (length l1) (l1 ++ l2) = drop (length l) (l1 ++ l2).
Proof. intros E. rewrite drop_app_length. rewrite drop_app_le; [done|]. rewrite E, length_app. lia. Qed.

Lemma console_loop_ok ps bytes : forall fuel s t t', ready s -> rx (seen s) = bytes -> (length bytes < fuel)%nat ->
  consoleintr ps bytes t = Ok (tt, t') ->
  exists s', console_loop fuel ps s t = Ok (s', t') /\ ready s' /\ grows (out t) (out t')
  /\ moved (seen s) (seen s') (drop (length (tx (out t))) (tx (out t'))) [].
Proof.
  induction bytes as [|b bs IH]; intros [|fuel] s t t' Hs Hrx Hf Ht; cbn [length] in Hf; try lia; cbn [console_loop consoleintr] in *;
    destruct (uartgetc_ok s Hs) as (s1 & Hs1 & Hg); rewrite Hrx in Hg.
  - destruct Hg as [-> Hm]. injection Ht as <-. exists s1. split; [done|]. split; [done|]. split; [apply output_refl|]. by rewrite drop_all.
  - destruct Hg as (-> & Hb & Hm). replace (b <? 0) with false by lia. unfold mbind, M_bind in Ht.
    destruct (consoleintr1 ps b t) as [[[] t1]| | |] eqn:E1; try done. cbn [mbind res_bind].
    pose proof (ttalks_intr ps b t tt t1 E1) as G1. destruct (flush_ok t t1 s1 Hs1 G1) as [Hs2 Hm2].
    assert (rx (seen s1) = bs) as Erx1 by exact (moved_rx _ _ _ _ Hm). rewrite Erx1 in Hm2.
    destruct (IH fuel (flush t t1 s1) t1 t' Hs2) as (s' & -> & Hs' & G' & Hm'); [exact (moved_rx _ _ _ _ Hm2)|lia|done|].
    exists s'. split; [done|]. split; [done|]. split; [by apply (output_trans _ (out t1))|].
    destruct G1 as (l1 & El1 & _). destruct G' as (l2 & El2 & _). rewrite El2 in Hm' |- *.
    rewrite <- (drops_app (tx (out t))) by (rewrite El1, drop_app_length; done).
    eapply (moved_trans _ (seen s1) _ []); [exact Hm|]. by eapply moved_trans.
Qed.

(** After [uartearlyinit] the port runs at 9600 baud with 8 data bits, interrupts on
    bytes received, and has announced the system (a transmitter that is slower than
    the wait of [uartputc] may lose some of the announcement). *)
Theorem uartearlyinit_ok s : let s' := uartearlyinit s in ready s'
  /\ lcr (seen s') = 3 /\ divisor (seen s') = 12 /\ ier (seen s') = 1
  /\ ((drain <= 128)%nat -> sent (seen s') = sent (seen s) ++ cstr "xv6..." ++ [10]).
Proof.
  unfold uartearlyinit. cbv zeta. match goal with |- context [inb (COM1 + 5) ?x] => set (u := x) end.
  assert (exists bs n, serial_view u = mkSview 3 12 1 (sent (seen s)) n bs) as (bs & n & Hu).
  { destruct (write_fcr (chip s)) as [bs E]. cbv zeta in E. exists bs. eexists. unfold u.
    rewrite write_ier, write_mcr, write_lcr, write_div_high, write_div_low, write_lcr, E.
    - cbn [lcr divisor ier sent busy rx]. change (115200 / 9600) with 12. f_equal. Z.div_mod_to_equations. lia.
    - by rewrite write_lcr.
    - rewrite write_div_low; by rewrite write_lcr.
    - by rewrite write_mcr, write_lcr. }
  pose proof (read_status u) as Hr. destruct (inb (COM1 + 5) u) as [st u1]. destruct Hr as (Hne & _ & _ & Hv).
  replace (st =? 0xFF) with false by lia. rewrite Hu in Hv. cbn [lcr divisor ier sent busy rx] in Hv.
  destruct (uartputs_ok (cstr "xv6..." ++ [10]) (mkPort true u1)) as [Hs' (l & k & E & Hl)]; [split; [done|]; cbn; unfold latched; by rewrite Hv|].
  split; [done|]. rewrite E. cbn [chip] in *. rewrite Hv in *. cbn [lcr divisor ier sent busy rx] in *. split_and!; done.
Qed.

End Driver.

(** Without a port, [uartearlyinit] leaves the driver off and no call touches it. *)
Theorem no_port {U} `{SerialOps U} (u : U) : (forall u, fst (inb (COM1 + 5) u) = 0xFF) ->
  let s := uartearlyinit (mkPort false u) in present s = false /\ uartgetc s = (-1, s) /\ forall c, uartputc c s = s.
Proof.
  intros Hno. cbv zeta. unfold uartearlyinit. cbn [chip present]. match goal with |- context [inb (COM1 + 5) ?x] => set (u1 := x) end.
  pose proof (Hno u1) as E. destruct (inb (COM1 + 5) u1) as [st u2]. cbn [fst] in E. by rewrite E.
Qed.

(** C6: a serial interrupt reads every byte received.  The choice between the agent
    protocol and the console is made once, when the interrupt begins.  If the
    protocol is active then, all the bytes go to it, in order, and the console sees
    none; bytes that follow the end of the response in the same interrupt are dropped.
    Otherwise all the bytes go to the line discipline of the console, in order, and
    the console is as [consoleintr] leaves it on them.  Afterwards nothing is left to
    read and the setting of the port is as before.  If moreover the transmitter is
    free again within 128 readings of the status (the wait of [uartputc], whose delay
    does nothing), what the console printed is on the line, byte for byte. *)
Theorem serial_interrupt_delivers {U} `{Serial U} fuel ps (s : port U) a t d :
  ready s -> ai_inv a -> tty_rel t d ->
  let v := serial_view (chip s) in (length (rx v) < fuel)%nat ->
  exists s' a' t', uartintr fuel ps s a t = Ok (s', a', t') /\ ready s' /\ let v' := serial_view (chip s') in
  rx v' = [] /\ lcr v' = lcr v /\ divisor v' = divisor v /\ ier v' = ier v
  /\ ((drain <= 128)%nat -> sent v' = sent v ++ drop (length (tx (out t))) (tx (out t')))
  /\ if ai_is_active a
     then ai_receive (rx v) a = Ok a' /\ t' = t
          /\ forall bytes after a1, rx v = bytes ++ after -> ai_receive bytes a = Ok a1 -> ai_is_active a1 = false -> a' = a1
     else a' = a /\ consoleintr ps (rx v) t = Ok (tt, t')
          /\ tty_rel t' (fold_left (fun d c => type_char c d) (rx v) d).
Proof.
  intros Hs Ha Ht v Hf. unfold uartintr. destruct (ai_is_active a).
  - destruct (receive_inv (rx v) a Ha) as (a' & E & _).
    destruct (ai_loop_ok (rx v) fuel s a a' Hs eq_refl Hf E) as (s' & -> & Hs' & l & n & Hv & Hl).
    exists s', a', t. split; [done|]. split; [done|]. rewrite Hv. cbv zeta. cbn [rx lcr divisor ier sent].
    split_and!; try done; [by rewrite drop_all|].
    intros bytes after a1 Erx E1 Hn. rewrite Erx, receive_app, E1 in E. cbn [mbind res_bind] in E.
    rewrite receive_finished in E by done. by injection E as <-.
  - assert (Forall (fun c => 0 <= c < 256) (rx v)) as Hu by apply rx_bytes.
    destruct (consoleintr_spec ps (rx v) t d Ht Hu) as (t' & E & Ht').
    destruct (console_loop_ok ps (rx v) fuel s t t' Hs eq_refl Hf E) as (s' & -> & Hs' & _ & l & n & Hv & Hl).
    exists s', a, t'. split; [done|]. split; [done|]. rewrite Hv. cbv zeta. cbn [rx lcr divisor ier sent].
    split_and!; done.
Qed.

(** A port whose transmitter is busy for one reading after every byte. *)
Record usim : Type := mkUsim { u_lcr : Z; u_div : Z; u_ier : Z; u_sent : list Z; u_busy : bool; u_rx : list Z }.
Definition usim_view (u : usim) : sview :=
  mkSview (u_lcr u) (u_div u) (u_ier u) (u_sent u) (if u_busy u then 1 else 0) (u8 <$> u_rx u).
#[export] Instance usim_ops : SerialOps usim := {
  outb p x u :=
    if p =? COM1 + 0 then
      if Z.testbit (u_lcr u) 7 then mkUsim (u_lcr u) (256 * (u_div u / 256) + x) (u_ier u) (u_sent u) (u_busy u) (u_rx u)
      else mkUsim (u_lcr u) (u_div u) (u_ier u) (u_sent u ++ [x]) true (u_rx u)
    else if p =? COM1 + 1 then
      if Z.testbit (u_lcr u) 7 then mkUsim (u_lcr u) (u_div u mod 256 + 256 * x) (u_ier u) (u_sent u) (u_busy u) (u_rx u)
      else mkUsim (u_lcr u) (u_div u) x (u_sent u) (u_busy u) (u_rx u)
    else if p =? COM1 + 3 then mkUsim x (u_div u) (u_ier u) (u_sent u) (u_busy u) (u_rx u)
    else u;
  inb p u :=
    if p =? COM1 + 5 then
      ((if u_busy u then 0 else 0x20) + (match u_rx u with [] => 0 | _ => 1 end),
       mkUsim (u_lcr u) (u_div u) (u_ier u) (u_sent u) false (u_rx u))
    else if p =? COM1 + 0 then
      match u_rx u with
      | [] => (0, u)
      | b :: bs => (u8 b, mkUsim (u_lcr u) (u_div u) (u_ier u) (u_sent u) (u_busy u) bs)
      end
    else (0, u) }.
#[export] Instance usim_serial : Serial usim.
Proof.
  refine {| serial_view := usim_view; drain := 1%nat |}; unfold latched.
  - intros u. cbn. destruct (u_busy u); lia.
  - intros u. apply Forall_forall. intros b Hb. apply list_elem_of_fmap in Hb as (x & -> & _). apply u8_range.
  - intros [l dv i st [] [|b bs]]; cbn; done.
  - intros [l dv i st bz [|b bs]] Hl; cbn; done.
  - done.
  - intros [l dv i st bz r] c Hl. cbn in Hl. exists (st ++ [c]), 1%nat. cbn. by rewrite Hl.
  - intros [l dv i st bz r] x Hl. cbn in Hl. cbn. by rewrite Hl.
  - intros [l dv i st bz r] x Hl. cbn in Hl. cbn. by rewrite Hl.
  - intros [l dv i st bz r] x Hl. cbn in Hl. cbn. by rewrite Hl.
  - done.
  - done.
  - intros [l dv i st bz r]. by eexists.
Defined.

Lemma serial_interrupt_delivers_witness :
  let u := mkUsim 3 12 1 [] false (cstr "ls") in
  exists s' t', uartintr 3 [] (mkPort true u) booted boot_tty = Ok (s', booted, t')
  /\ sent (serial_view (chip s')) = cstr "ls" /\ rx (serial_view (chip s')) = []
  /\ tty_rel t' (mkLdisc [] (cstr "ls") false).
Proof.
  cbv zeta. destruct (serial_interrupt_delivers 3 [] (mkPort true (mkUsim 3 12 1 [] false (cstr "ls"))) booted boot_tty (mkLdisc [] [] false))
    as (s' & a' & t' & E & _ & Hrx & _ & _ & _ & Hsent & Ha & Hc & Ht).
  - split; reflexivity.
  - apply booted_inv.
  - exact boot_rel.
  - cbn. lia.
  - exists s', t'. split; [rewrite E, Ha; reflexivity|]. split; [|split; [exact Hrx|exact Ht]].
    assert (tx (out t') = cstr "ls") as Et.
    { match type of Hc with ?x = _ => assert ((match x with Ok (_, t) => tx (out t) | _ => [] end) = cstr "ls") as Ex by (vm_compute; reflexivity) end.
      rewrite Hc in Ex. exact Ex. }
    rewrite Hsent, Et by (cbn; lia). reflexivity.
Defined.
