(* ===== verification/Kbd.v ===== *)
(** Model of src/kbd.c and src/kbd.h: from scan codes to characters.

    [pending] are the bytes the keyboard controller holds, which the two ports
    deliver one by one; [shift] is the static variable of [kbdgetc].  The theorems
    follow a line from the keys to the process that reads the console. *)
From stdpp Require Import base strings numbers list.
From S2P Require Import Prelude CString Printf Proc Console Tty.
Local Open Scope Z_scope.

(** * kbd.h *)

Definition NO : Z := 0.
Definition SHIFT : Z := Z.shiftl 1 0.
Definition CTL : Z := Z.shiftl 1 1.
Definition ALT : Z := Z.shiftl 1 2.
Definition CAPSLOCK : Z := Z.shiftl 1 3.
Definition NUMLOCK : Z := Z.shiftl 1 4.
Definition SCROLLLOCK : Z := Z.shiftl 1 5.
Definition E0ESC : Z := Z.shiftl 1 6.

Definition KEY_HOME : Z := 0xE0.
Definition KEY_END : Z := 0xE1.
Definition KEY_UP : Z := 0xE2.
Definition KEY_DN : Z := 0xE3.
Definition KEY_LF : Z := 0xE4.
Definition KEY_RT : Z := 0xE5.
Definition KEY_PGUP : Z := 0xE6.
Definition KEY_PGDN : Z := 0xE7.
Definition KEY_INS : Z := 0xE8.
Definition KEY_DEL : Z := 0xE9.

(** An array initialiser of 256 elements: the first ones in order, then
    designated ones; all others are 0. *)
Definition init256 (first : list Z) (designated : list (Z * Z)) : list Z :=
  fold_left (fun t '(i, v) => <[Z.to_nat i := v]> t) designated
    (first ++ replicate (256 - length first) 0).

Definition shiftcode : list Z :=
  init256 [] [(0x1D, CTL); (0x2A, SHIFT); (0x36, SHIFT); (0x38, ALT); (0x9D, CTL); (0xB8, ALT)].

Definition togglecode : list Z :=
  init256 [] [(0x3A, CAPSLOCK); (0x45, NUMLOCK); (0x46, SCROLLLOCK)].

(** The designated part the two character maps share. *)
Definition keypad (enter slash : Z) : list (Z * Z) :=
  [(0x9C, enter); (0xB5, slash); (0xC8, KEY_UP); (0xD0, KEY_DN); (0xC9, KEY_PGUP); (0xD1, KEY_PGDN);
   (0xCB, KEY_LF); (0xCD, KEY_RT); (0x97, KEY_HOME); (0xCF, KEY_END); (0xD2, KEY_INS); (0xD3, KEY_DEL)].

Definition normalmap : list Z :=
  init256
    ([NO; 0x1B] ++ cstr "1234567890-=" ++ [8; 9] ++
     cstr "qwertyuiop[]" ++ [10; NO] ++ cstr "asdfghjkl;'`" ++ [NO; 92] ++ cstr "zxcvbnm,./" ++
     [NO; 42; NO; 32; NO; NO; NO; NO; NO; NO; NO; NO; NO; NO; NO; NO; NO] ++
     cstr "789-456+1230." ++ [NO; NO; NO; NO])
    (keypad 10 47).

Definition shiftmap : list Z :=
  init256
    ([NO; 27] ++ cstr "!@#$%^&*()_+" ++ [8; 9] ++
     cstr "QWERTYUIOP{}" ++ [10; NO] ++ cstr "ASDFGHJKL:" ++ [34] ++ cstr "~" ++ [NO] ++ cstr "|ZXCVBNM<>?" ++
     [NO; 42; NO; 32; NO; NO; NO; NO; NO; NO; NO; NO; NO; NO; NO; NO; NO] ++
     cstr "789-456+1230." ++ [NO; NO; NO; NO])
    (keypad 10 47).

Definition ctlmap : list Z :=
  init256
    (replicate 16 NO ++ map C (cstr "QWERTYUIOP") ++ [NO; NO; 13; NO] ++ map C (cstr "ASDFGHJKL") ++
     [NO; NO; NO; NO] ++ map C (92 :: cstr "ZXCVBNM") ++ [NO; NO; u8 (C 47); NO; NO])
    (keypad 13 (u8 (C 47))).

(** * kbd.c *)

Record kbd : Type := mkKbd { shift : Z; pending : list Z }.

Definition charcode : list (list Z) := [normalmap; shiftmap; ctlmap; ctlmap].

(** What [kbdgetc] does with a byte [data] from the controller: the new shift
    state and the value returned. *)
Definition kbd_data (shift data : Z) : res (Z * Z) :=
  if data =? 0xE0 then Ok (Z.lor shift E0ESC, 0)
  else if negb (Z.land data 0x80 =? 0) then
    let data := if negb (Z.land shift E0ESC =? 0) then data else Z.land data 0x7F in
    sc ← buf_get shiftcode data;
    Ok (Z.land shift (Z.lnot (Z.lor sc E0ESC)), 0)
  else
    let '(data, shift) :=
      if negb (Z.land shift E0ESC =? 0) then (Z.lor data 0x80, Z.land shift (Z.lnot E0ESC))
      else (data, shift) in
    sc ← buf_get shiftcode data;
    let shift := Z.lor shift sc in
    tc ← buf_get togglecode data;
    let shift := Z.lxor shift tc in
    tbl ← buf_get charcode (Z.land shift (Z.lor CTL SHIFT));
    c ← buf_get tbl data;
    let c :=
      if negb (Z.land shift CAPSLOCK =? 0) then
        if (97 <=? c) && (c <=? 122) then c + (65 - 97)
        else if (65 <=? c) && (c <=? 90) then c + (97 - 65)
        else c
      else c in
    Ok (shift, c).

Definition kbdgetc : M kbd Z := fun k =>
  match pending k with
  | [] => Ok (-1, k)
  | data :: rest =>
      '(sh, c) ← kbd_data (shift k) data;
      Ok (c, mkKbd sh rest)
  end.

Definition kbd_nofuel {A} : M kbd A := fun _ => NoFuel.

(** The characters [getc] returns until it returns -1: one per pending byte. *)
Fixpoint kbd_drain (fuel : nat) : M kbd (list Z) :=
  c ← kbdgetc;
  if c <? 0 then mret []
  else
    match fuel with
    | O => kbd_nofuel
    | S fuel => cs ← kbd_drain fuel; mret (c :: cs)
    end.

(** The handler; the loop of [consoleintr] calls [kbdgetc] between characters,
    which touches nothing of the console. *)
Definition kbdintr (ps : list dump) (k : kbd) (t : tty) : res (kbd * tty) :=
  '(cs, k) ← kbd_drain (length (pending k)) k;
  '(_, t) ← consoleintr ps cs t;
  Ok (k, t).

Example kbd_ex : kbd_drain 6 (mkKbd 0 [0x2A; 0x23; 0xA3; 0xAA; 0x17; 0x97]) = Ok ([0; 72; 0; 0; 105; 0], mkKbd 0 []).
Proof. vm_compute. reflexivity. Qed.

(** * Safety *)

(** The state between two bytes: seven bits. *)
Definition shift_ok (s : Z) : Prop := 0 <= s < 128.

Definition all_in (lo hi : Z) (l : list Z) : bool := forallb (fun v => (lo <=? v) && (v <=? hi)) l.

Lemma all_in_get lo hi l i : all_in lo hi l = true -> length l = 256%nat -> 0 <= i < 256 ->
  exists v, buf_get l i = Ok v /\ lo <= v <= hi.
Proof.
  intros Ha Hl Hi. destruct (buf_get_inb l i) as (v & Hv & E); [lia|]. exists v. split; [done|].
  unfold all_in in Ha. rewrite forallb_forall in Ha. specialize (Ha v).
  assert (In v l) as H by (apply list_elem_of_In; by eapply list_elem_of_lookup_2).
  specialize (Ha H). lia.
Qed.

Lemma bits_range n z : 0 <= n -> (forall i, n <= i -> Z.testbit z i = false) -> 0 <= z < 2 ^ n.
Proof.
  intros Hn Hb. replace z with (z mod 2 ^ n); [apply Z.mod_pos_bound; lia|].
  apply Z.bits_inj'. intros i Hi. destruct (decide (i < n)).
  - by rewrite Z.mod_pow2_bits_low by lia.
  - rewrite Z.mod_pow2_bits_high by lia. symmetry. apply Hb. lia.
Qed.

Lemma range_bits n z i : 0 <= n <= i -> 0 <= z < 2 ^ n -> Z.testbit z i = false.
Proof. intros Hi Hz. rewrite <- (Z.mod_small z (2 ^ n)) by lia. apply Z.mod_pow2_bits_high. lia. Qed.

(** [bit_range n] bounds a bitwise combination of numbers below [2 ^ n]. *)
Ltac bit_range n :=
  apply (bits_range n); [lia|]; intros ?i ?Hi;
  repeat first [rewrite Z.lor_spec|rewrite Z.lxor_spec|rewrite Z.land_spec];
  rewrite ?(range_bits n) by lia; reflexivity.

Lemma tables_ok : length shiftcode = 256%nat /\ length togglecode = 256%nat
  /\ Forall (fun t => length t = 256%nat /\ all_in 0 255 t = true) charcode
  /\ all_in 0 127 shiftcode = true /\ all_in 0 127 togglecode = true.
Proof. 
  split_and!; try reflexivity. unfold charcode.
  repeat (apply Forall_cons_2; [split; reflexivity|]). apply Forall_nil_2.
Qed.

Ltac shift_range := unfold shift_ok; change 128 with (2 ^ 7); bit_range 7.

Lemma kbd_data_safe s d : shift_ok s -> is_u8 d ->
  exists s' c, kbd_data s d = Ok (s', c) /\ shift_ok s' /\ 0 <= c < 256.
Proof.
  intros Hs Hd. unfold shift_ok, is_u8 in Hs, Hd. unfold kbd_data.
  destruct tables_ok as (Ls & Lt & Ht & As & At).
  change 128 with (2 ^ 7) in Hs. change (2 ^ 8) with 256 in Hd.
  assert (0 <= E0ESC < 2 ^ 7) as HE by (split; vm_compute; congruence).
  destruct (d =? 0xE0); [eexists _, _; split; [done|]; split; [shift_range|lia]|].
  destruct (negb (Z.land d 128 =? 0)).
  - set (d' := if negb _ then d else _).
    assert (0 <= d' < 256) as Hd'.
    { unfold d'. destruct (negb _); [done|]. change 256 with (2 ^ 8) in *. bit_range 8. }
    destruct (all_in_get _ _ _ _ As Ls Hd') as (sc & -> & Hsc). ok.
    eexists _, _. split; [done|]. split; [shift_range|lia].
  - set (p := if negb _ then _ else (d, s)).
    assert (exists d' s', p = (d', s') /\ 0 <= d' < 256 /\ 0 <= s' < 2 ^ 7) as (d' & s' & -> & Hd' & Hs').
    { unfold p. destruct (negb _); [|by exists d, s].
      eexists _, _. split; [done|]. split; [change 256 with (2 ^ 8) in *; bit_range 8|bit_range 7]. }
    destruct (all_in_get _ _ _ _ As Ls Hd') as (sc & -> & Hsc). ok.
    destruct (all_in_get _ _ _ _ At Lt Hd') as (tc & -> & Htc). ok.
    set (s2 := Z.lxor _ tc). assert (0 <= s2 < 2 ^ 7) as Hs2 by (unfold s2; bit_range 7).
    assert (0 <= Z.land s2 (Z.lor CTL SHIFT) < 2 ^ 2) as Hix.
    { rewrite Z.land_comm. change (Z.lor CTL SHIFT) with 3. bit_range 2. }
    destruct (buf_get_inb charcode (Z.land s2 (Z.lor CTL SHIFT))) as (tbl & Hl & ->); [cbn [length charcode]; lia|]. ok.
    rewrite Forall_lookup in Ht. destruct (Ht _ _ Hl) as [Lb Ab].
    destruct (all_in_get _ _ _ _ Ab Lb Hd') as (c & -> & Hc). ok.
    eexists _, _. split; [done|]. split; [done|]. repeat bcase; lia.
Qed.

(** The characters of a run of bytes, and the state after it. *)
Fixpoint kbd_chars (s : Z) (ds : list Z) : res (list Z * Z) :=
  match ds with
  | [] => Ok ([], s)
  | d :: ds => '(s, c) ← kbd_data s d; '(cs, s) ← kbd_chars s ds; Ok (c :: cs, s)
  end.

Lemma kbd_chars_safe ds s : shift_ok s -> Forall is_u8 ds ->
  exists cs s', kbd_chars s ds = Ok (cs, s') /\ shift_ok s' /\ Forall (fun c => 0 <= c < 256) cs
    /\ kbd_drain (length ds) (mkKbd s ds) = Ok (cs, mkKbd s' []).
Proof.
  intros Hs Hds. revert s Hs. induction Hds as [|d ds Hd _ IH]; intros s Hs; [by exists [], s|].
  destruct (kbd_data_safe s d Hs Hd) as (s1 & c & E & Hs1 & Hc).
  destruct (IH s1 Hs1) as (cs & s' & E' & Hs' & Hcs & Ed).
  exists (c :: cs), s'. cbn [kbd_chars length kbd_drain]. rewrite E. ok. rewrite E'. ok.
  split; [done|]. split; [done|]. split; [by constructor|].
  unfold kbdgetc, mbind, M_bind, res_bind, mret, M_ret. cbn [pending shift]. rewrite E.
  replace (c <? 0) with false by (symmetry; lia). by rewrite Ed.
Qed.

Lemma kbd_chars_app a b s cs s' : kbd_chars s a = Ok (cs, s') ->
  kbd_chars s (a ++ b) = '(cs2, s2) ← kbd_chars s' b; Ok (cs ++ cs2, s2).
Proof.
  revert s cs. induction a as [|d a IH]; intros s cs; cbn [kbd_chars app].
  - intros [= <- <-]. by destruct (kbd_chars s b) as [[]| | |].
  - destruct (kbd_data s d) as [[s1 c]| | |]; ok; try done.
    destruct (kbd_chars s1 a) as [[cs1 s1']| | |] eqn:E; ok; try done. intros [= <- <-].
    rewrite (IH _ _ E). by destruct (kbd_chars s1' b) as [[]| | |].
Qed.

(** * Typing *)

(** The keyboard, apart from the driver: the main block of a US keyboard in scan
    code set 1, row by row.  The keys of a row have consecutive codes; each is given
    with its two engravings, the plain character and the one typed with shift. *)
Fixpoint row (code : Z) (plain shifted : list Z) : list (Z * Z * Z) :=
  match plain, shifted with
  | p :: plain, s :: shifted => (code, p, s) :: row (code + 1) plain shifted
  | _, _ => []
  end.

Definition us_keyboard : list (Z * Z * Z) :=
  row 0x02 (cstr "1234567890-=") (cstr "!@#$%^&*()_+")
  ++ row 0x10 (cstr "qwertyuiop[]") (cstr "QWERTYUIOP{}")
  ++ row 0x1C [10] [10]                                        (* Enter *)
  ++ row 0x1E (cstr "asdfghjkl;'`") (cstr "ASDFGHJKL:" ++ [34] ++ cstr "~")
  ++ row 0x2B (92 :: cstr "zxcvbnm,./") (cstr "|ZXCVBNM<>?")
  ++ row 0x39 [32] [32].                                       (* the space bar *)

Definition left_shift : Z := 0x2A.
Definition right_shift : Z := 0x36.

(** The key with the engraving [c], and whether it needs shift. *)
Definition find_key (c : Z) : option (Z * bool) :=
  match List.find (fun '(_, p, _) => p =? c) us_keyboard with
  | Some (d, _, _) => Some (d, false)
  | None =>
      match List.find (fun '(_, _, s) => s =? c) us_keyboard with
      | Some (d, _, _) => Some (d, true)
      | None => None
      end
  end.

Definition swap_case (c : Z) : Z :=
  if (97 <=? c) && (c <=? 122) then c - 32 else if (65 <=? c) && (c <=? 90) then c + 32 else c.

(** What the keyboard sends when a person types the character [c] with the locks
    [locks] on: the key goes down and up, between the shift key [sk] down and up
    where the character needs it.  Caps lock exchanges the two cases of letters. *)
Definition strokes (sk locks c : Z) : list Z :=
  match find_key (if Z.land locks CAPSLOCK =? 0 then c else swap_case c) with
  | Some (d, false) => [d; d + 0x80]
  | Some (d, true) => [sk; d; d + 0x80; sk + 0x80]
  | None => []
  end.

(** Lock states: any of the three locks, no key held. *)
Definition lock_states : list Z := [0; 8; 16; 24; 32; 40; 48; 56].

Definition nonzero (cs : list Z) : list Z := List.filter (fun c => negb (c =? 0)) cs.

Definition types_as (sk locks c : Z) : bool :=
  match kbd_chars locks (strokes sk locks c) with
  | Ok (cs, s) => bool_decide (s = locks) && bool_decide (nonzero cs = [c])
      && all_in 0 255 (strokes sk locks c)
  | _ => false
  end.

(** The tables of the driver agree with the keyboard, for every lock state. *)
Lemma all_keys : forallb (fun sk => forallb (fun locks => forallb (types_as sk locks) (10 :: seqZ 32 95)) lock_states)
  [left_shift; right_shift] = true.
Proof. vm_compute. reflexivity. Qed.

Definition shift_key (sk : Z) : Prop := sk = left_shift \/ sk = right_shift.

Lemma strokes_char sk locks c : shift_key sk -> In locks lock_states -> c = 10 \/ 32 <= c < 127 ->
  Forall is_u8 (strokes sk locks c) /\
  exists cs, kbd_chars locks (strokes sk locks c) = Ok (cs, locks) /\ nonzero cs = [c].
Proof.
  intros Hk Hl Hc. pose proof all_keys as Ha. rewrite forallb_forall in Ha. specialize (Ha sk).
  rewrite forallb_forall in Ha. specialize (Ha ltac:(destruct Hk as [-> | ->]; cbn; auto) _ Hl).
  rewrite forallb_forall in Ha. specialize (Ha c).
  assert (In c (10 :: seqZ 32 95)) as Hin.
  { destruct Hc as [->|Hc]; [by left|right]. apply list_elem_of_In, elem_of_seqZ. lia. }
  specialize (Ha Hin). unfold types_as in Ha. destruct (kbd_chars _ _) as [[cs s]| | |]; try done.
  rewrite !andb_true_iff, !bool_decide_eq_true in Ha. destruct Ha as [[-> Hcs] Ha]. split; [|by exists cs].
  unfold all_in in Ha. rewrite forallb_forall in Ha. apply Forall_forall. intros x Hx%list_elem_of_In%Ha.
  unfold is_u8. lia.
Qed.

Definition type_text (sk locks : Z) (text : list Z) : list Z := mjoin (strokes sk locks <$> text).

Lemma nonzero_app a b : nonzero (a ++ b) = nonzero a ++ nonzero b.
Proof. apply List.filter_app. Qed.

Lemma type_text_chars sk locks text : shift_key sk -> In locks lock_states -> Forall (fun c => c = 10 \/ 32 <= c < 127) text ->
  Forall is_u8 (type_text sk locks text) /\
  exists cs, kbd_chars locks (type_text sk locks text) = Ok (cs, locks) /\ nonzero cs = text.
Proof.
  intros Hk Hl Ht. induction Ht as [|c text Hc _ [IHu IH]]; [split; [constructor|by exists []]|].
  change (type_text sk locks (c :: text)) with (strokes sk locks c ++ type_text sk locks text). destruct (strokes_char sk locks c Hk Hl Hc) as [Hu (cs1 & E1 & H1)]. destruct IH as (cs2 & E2 & H2).
  split; [by apply Forall_app|]. exists (cs1 ++ cs2). rewrite (kbd_chars_app _ _ _ _ _ E1), E2. ok.
  split; [done|]. by rewrite nonzero_app, H1, H2.
Qed.

(** The interrupts of a run of keys: each finds a part of the bytes waiting. *)
Fixpoint kbd_interrupts (ps : list dump) (parts : list (list Z)) (k : kbd) (t : tty) : res (kbd * tty) :=
  match parts with
  | [] => Ok (k, t)
  | part :: parts =>
      '(k, t) ← kbdintr ps (mkKbd (shift k) (pending k ++ part)) t;
      kbd_interrupts ps parts k t
  end.

Lemma type_zeros cs d :
  fold_left (fun d c => type_char c d) cs d = fold_left (fun d c => type_char c d) (nonzero cs) d.
Proof.
  revert d. induction cs as [|c cs IH]; intros d; [done|]. cbn [fold_left nonzero List.filter].
  destruct (Z.eqb_spec c 0) as [->|Hc]; cbn [negb]; [|apply IH].
  by rewrite <- IH.
Qed.

(** The interrupts hand the console the characters of all the bytes. *)
Lemma kbd_interrupts_spec ps parts s t d :
  shift_ok s -> Forall is_u8 (mjoin parts) -> tty_rel t d ->
  exists cs s' t', kbd_chars s (mjoin parts) = Ok (cs, s') /\ shift_ok s'
  /\ kbd_interrupts ps parts (mkKbd s []) t = Ok (mkKbd s' [], t')
  /\ tty_rel t' (fold_left (fun d c => type_char c d) cs d).
Proof.
  revert s t d. induction parts as [|part parts IH]; intros s t d Hs Hu Ht; [by exists [], s, t|].
  cbn in Hu. apply Forall_app in Hu as [Hu1 Hu2].
  destruct (kbd_chars_safe part s Hs Hu1) as (cs1 & s1 & E1 & Hs1 & Hc1 & D1).
  destruct (consoleintr_spec ps cs1 t d Ht Hc1) as (t1 & T1 & Ht1).
  destruct (IH s1 t1 _ Hs1 Hu2 Ht1) as (cs2 & s2 & t2 & E2 & Hs2 & D2 & Ht2).
  exists (cs1 ++ cs2), s2, t2. change (mjoin (part :: parts)) with (part ++ mjoin parts).
  rewrite (kbd_chars_app _ _ _ _ _ E1), E2. ok. split; [done|]. split; [done|].
  cbn [kbd_interrupts shift pending app]. unfold kbdintr. cbn [pending]. rewrite D1. ok. rewrite T1. ok.
  split; [done|]. by rewrite fold_left_app.
Qed.

Lemma lock_state_ok locks : In locks lock_states -> shift_ok locks.
Proof. intros H. cbn in H. unfold shift_ok. lia. Qed.

(** A line typed on an idle console. *)
Lemma type_line text : Forall (fun c => 32 <= c < 127) text -> (length text <= 127)%nat ->
  fold_left (fun d c => type_char c d) (text ++ [10]) (mkLdisc [] [] false) = mkLdisc (text ++ [10]) [] false.
Proof.
  intros Ht Hl. rewrite fold_left_app.
  enough (forall l, (length l + length text <= 127)%nat ->
    fold_left (fun d c => type_char c d) text (mkLdisc [] l false) = mkLdisc [] (l ++ text) false) as ->.
  - cbn [fold_left app]. unfold type_char. cbn [queue editing raw_mode length].
    by rewrite (proj2 (Nat.ltb_lt _ _)) by lia.
  - cbn. lia.
  - clear Hl. induction Ht as [|c text Hc _ IH]; intros l Hl; cbn [length fold_left] in *; [by rewrite app_nil_r|].
    rewrite type_ordinary, IH, <- app_assoc by (rewrite ?length_app; cbn; done || lia). done.
Qed.

(** C26: a line reaches its reader from the keys of a US keyboard ([us_keyboard],
    given by the positions of its keys and not by the driver's tables): whatever
    locks are on, with either shift key, and however the scan codes are spread over
    interrupts, pressing the keys of a text of printable characters and Enter (shift
    held where a character needs it) makes the next read of the console return
    exactly the text and a newline, and leaves the keyboard state as it was. *)
Theorem keyboard_line_reaches_reader ps sk locks text parts n t :
  shift_key sk -> In locks lock_states -> Forall (fun c => 32 <= c < 127) text -> (length text <= 127)%nat -> (length text < n)%nat ->
  mjoin parts = type_text sk locks (text ++ [10]) -> tty_rel t (mkLdisc [] [] false) ->
  exists t', kbd_interrupts ps parts (mkKbd locks []) t = Ok (mkKbd locks [], t')
  /\ exists i', consoleread false n [] (inp t') = Ok (Return (text ++ [10]), i')
  /\ input_rel i' (mkLdisc [] [] false).
Proof.
  intros Hk Hl Htext Hlen Hn Hp Ht.
  destruct (type_text_chars sk locks (text ++ [10]) Hk Hl) as [Hu (cs & E & Hcs)].
  { apply Forall_app. split; [|by repeat constructor]. eapply Forall_impl; [exact Htext|]. naive_solver. }
  rewrite <- Hp in Hu.
  destruct (kbd_interrupts_spec ps parts locks t _ (lock_state_ok _ Hl) Hu Ht)
    as (cs' & s' & t' & E' & _ & D & Ht').
  rewrite Hp, E in E'. injection E' as <- <-. rewrite type_zeros, Hcs, type_line in Ht' by done.
  exists t'. split; [done|]. destruct Ht' as [Hi _].
  destruct (consoleread_spec false n [] (inp t') _ Hi) as (i' & Er & Hi').
  cbn [queue editing raw_mode] in Er, Hi'. rewrite (take_text n [] text []) in Er, Hi' by done.
  by exists i'.
Qed.

Lemma keyboard_line_reaches_reader_witness :
  exists t', kbd_interrupts [] [type_text right_shift 8 (cstr "Ls -L" ++ [10])] (mkKbd 8 []) boot_tty = Ok (mkKbd 8 [], t')
  /\ exists i', consoleread false 100 [] (inp t') = Ok (Return (cstr "Ls -L" ++ [10]), i')
  /\ input_rel i' (mkLdisc [] [] false).
Proof.
  apply (keyboard_line_reaches_reader [] right_shift 8 (cstr "Ls -L") [type_text right_shift 8 (cstr "Ls -L" ++ [10])] 100 boot_tty).
  - right. reflexivity.
  - right. left. reflexivity.
  - change (cstr "Ls -L") with [76; 115; 32; 45; 76]. repeat (apply Forall_cons_2; [lia|]). apply Forall_nil_2.
  - vm_compute. lia.
  - vm_compute. lia.
  - apply app_nil_r.
  - exact boot_rel.
Defined.
