(* ===== verification/Devices.v ===== *)
(** The device handlers of the kernel behind [trap].

    [devices] is the state of the disk driver, the keyboard driver, the serial port,
    the agent protocol and the console; the instance of [Handlers] runs the handlers
    modelled in [Ide.v], [Kbd.v], [Uart.v] and [Ai.v] on it and names the channels
    they wake.  [dev_ok] collects the invariants under which those files prove that
    a handler returns; every handler keeps it, so the theorem on traps holds for the
    devices themselves. *)
From stdpp Require Import base strings numbers list gmap.
From S2P Require Import Prelude CString Printf Bio Mkfs Ide IdeRefine Proc Trap Ai Console Tty Uart Kbd.
Local Open Scope Z_scope.

Record devices (DD UU : Type) : Type := mkDevices {
  d_ide : ide DD;
  d_kbd : kbd;
  d_port : port UU;
  d_ai : ai;
  d_tty : tty }.
Arguments mkDevices {DD UU} _ _ _ _ _.
Arguments d_ide {DD UU} _.
Arguments d_kbd {DD UU} _.
Arguments d_port {DD UU} _.
Arguments d_ai {DD UU} _.
Arguments d_tty {DD UU} _.

(** The channels [&input.r], [&ai] and the buffers. *)
Definition CH_INPUT : Z := 1.
Definition CH_AI : Z := 2.
Definition ch_buf (i : nat) : Z := 3 + Z.of_nat i.

(** The console before an interrupt: nobody has been woken yet. *)
Definition unwoken (t : tty) : tty := mkTty (inp t) (out t) (rebooting t) false.
Definition input_wakes (t : tty) : list Z := if Console.woken t then [CH_INPUT] else [].

Section Handlers.
Context {DD UU : Type} `{DriveOps DD} `{SerialOps UU} (polls bytes : nat) (ps : list dump).

(** [ideintr] wakes the process that waits for the buffer at the head of the queue. *)
Definition dev_ideintr (d : devices DD UU) : res (devices DD UU * list Z) :=
  '(_, s) ← Ide.ideintr polls (d_ide d);
  Ok (mkDevices s (d_kbd d) (d_port d) (d_ai d) (d_tty d),
      match idequeue (d_ide d) with Some i => [ch_buf i] | None => [] end).

Definition dev_kbdintr (d : devices DD UU) : res (devices DD UU * list Z) :=
  '(k, t) ← Kbd.kbdintr ps (d_kbd d) (unwoken (d_tty d));
  Ok (mkDevices (d_ide d) k (d_port d) (d_ai d) t, input_wakes t).

(** The protocol wakes its process when it finishes. *)
Definition dev_uartintr (d : devices DD UU) : res (devices DD UU * list Z) :=
  '(p, a, t) ← Uart.uartintr bytes ps (d_port d) (d_ai d) (unwoken (d_tty d));
  Ok (mkDevices (d_ide d) (d_kbd d) p a t,
      (if ai_is_active (d_ai d) && negb (ai_is_active a) then [CH_AI] else []) ++ input_wakes t).

Definition dev_ai_tick (d : devices DD UU) : res (devices DD UU * list Z) :=
  Ok (mkDevices (d_ide d) (d_kbd d) (d_port d) (Ai.ai_tick (d_ai d)) (d_tty d),
      if active (d_ai d) then [CH_AI] else []).

Definition device_handlers : Trap.Handlers (devices DD UU) := {|
  Trap.ideintr := dev_ideintr;
  Trap.kbdintr := dev_kbdintr;
  Trap.uartintr := dev_uartintr;
  Trap.ai_tick := dev_ai_tick |}.

End Handlers.

Section Sound.
Context {DD UU : Type} `{HD : Drive DD} `{HU : Serial UU} (polls bytes : nat) (ps : list dump).
Context (Hpolls : (patience <= polls)%nat) (Hgood : forall n, 0 <= n < FSSIZE -> bad 1 n = false).

(** The drivers and devices between two interrupts: the queue of the disk driver
    is that of some calls under way, the scan codes and the bytes received are
    bytes, and the agent protocol and the console keep their invariants. *)
Record dev_ok (d : devices DD UU) : Prop := {
  ok_ide : exists a q, ide_rel (d_ide d) a q;
  ok_shift : shift_ok (shift (d_kbd d));
  ok_codes : Forall is_u8 (Kbd.pending (d_kbd d));
  ok_port : ready (d_port d);
  ok_rx : (length (rx (serial_view (chip (d_port d)))) < bytes)%nat;
  ok_ai : ai_inv (d_ai d);
  ok_tty : exists l, tty_rel (d_tty d) l }.

Lemma unwoken_rel t l : tty_rel t l -> tty_rel (unwoken t) l.
Proof. done. Qed.

Lemma ideintr_keeps : keeps dev_ok (dev_ideintr polls).
Proof.
  intros d [(a & q & R) Hs Hc Hp Hr Ha Ht]. unfold dev_ideintr.
  destruct (intr_ok polls Hpolls Hgood (d_ide d) a q R) as (s & -> & R' & _). ok.
  eexists _, _. split; [reflexivity|]. split; cbn; eauto.
Qed.

Lemma kbdintr_keeps : keeps dev_ok (dev_kbdintr ps).
Proof.
  intros d [Hi Hs Hc Hp Hr Ha [l Ht]]. unfold dev_kbdintr, Kbd.kbdintr.
  destruct (kbd_chars_safe (Kbd.pending (d_kbd d)) (shift (d_kbd d)) Hs Hc) as (cs & s' & _ & Hs' & Hcs & E).
  assert (mkKbd (shift (d_kbd d)) (Kbd.pending (d_kbd d)) = d_kbd d) as Ek by (by destruct (d_kbd d)).
  rewrite Ek in E. rewrite E. ok.
  destruct (consoleintr_spec ps cs (unwoken (d_tty d)) l (unwoken_rel _ _ Ht) Hcs) as (t' & -> & Ht'). ok.
  eexists _, _. split; [reflexivity|]. split; cbn; eauto.
Qed.

Lemma uartintr_keeps : keeps dev_ok (dev_uartintr bytes ps).
Proof.
  intros d [Hi Hs Hc Hp Hr Ha [l Ht]]. unfold dev_uartintr, Uart.uartintr.
  set (v := serial_view (chip (d_port d))) in *. destruct (ai_is_active (d_ai d)) eqn:Eact.
  - destruct (receive_inv (rx v) (d_ai d) Ha) as (a' & E & Ha').
    destruct (ai_loop_ok (rx v) bytes (d_port d) (d_ai d) a' Hp eq_refl Hr E) as (p' & -> & Hp' & Hm). ok.
    eexists _, _. split; [reflexivity|]. split; cbn; eauto. rewrite (moved_rx _ _ _ _ Hm). cbn. lia.
  - assert (Forall (fun c => 0 <= c < 256) (rx v)) as Hu by apply rx_bytes.
    destruct (consoleintr_spec ps (rx v) (unwoken (d_tty d)) l (unwoken_rel _ _ Ht) Hu) as (t' & E & Ht').
    destruct (console_loop_ok ps (rx v) bytes (d_port d) (unwoken (d_tty d)) t' Hp eq_refl Hr E) as (p' & -> & Hp' & _ & Hm). ok.
    eexists _, _. split; [reflexivity|]. split; cbn; eauto. rewrite (moved_rx _ _ _ _ Hm). cbn. lia.
Qed.

Lemma ai_tick_keeps : keeps dev_ok dev_ai_tick.
Proof.
  intros d [Hi Hs Hc Hp Hr Ha Ht]. eexists _, _. split; [reflexivity|]. split; cbn; try done. by apply tick_inv.
Qed.

Lemma devices_keep : @handlers_keep _ (device_handlers polls bytes ps) dev_ok.
Proof. split; [exact ideintr_keeps|]. split; [exact kbdintr_keeps|]. split; [exact uartintr_keeps|exact ai_tick_keeps]. Qed.

End Sound.

(** C30: a trap keeps the process table and the devices sound, with the device
    handlers of the kernel (on a drive that is ready within [polls] status readings
    and has no unreadable sector).  A trap the kernel does not know panics if no process is
    running or the kernel was; it kills the process that was in user mode, and only
    that one.  A process that is killed exits before it gets back to user mode (init
    cannot: that panics), whether it was killed before the trap or while it was off
    the CPU: a clock interrupt takes the CPU from the running process and leaves it
    runnable; the other processes then do what they like ([others]), and when it
    runs again, on any CPU, [trap] looks once more.  Every other trap returns to the
    running process.  So a process that returns to user mode is not marked killed.
    The clock of CPU 0, and no other trap, advances the time by one tick and wakes
    every process asleep on it. *)
Theorem trap_keeps_processes {DD UU : Type} `{Drive DD} `{Serial UU} (polls bytes : nat) (ps : list dump)
    (c : nat) (tf : tframe) (others : tstate (devices DD UU) -> nat * tstate (devices DD UU)) (st : tstate (devices DD UU)) :
  (patience <= polls)%nat -> (forall n, 0 <= n < FSSIZE -> bad 1 n = false) ->
  dev_ok bytes (devs st) -> pinv (procs st) ->
  (user_mode tf = true -> exists me, cpus (procs st) c = Some me /\ forking (tab (procs st) me) = None) ->
  (forall me, cpus (procs st) c = Some me -> reschedules (dev_ok bytes) c me others) ->
  let handlers := device_handlers polls bytes ps in
  let run := trap c tf others st in
  if negb (handled (trapno tf)) && (kernel_mode tf || bool_decide (cpus (procs st) c = None))
  then run = Panic "trap"
  else if match cpus (procs st) c with Some me => dies tf st me && bool_decide (initproc (procs st) = Some me) | None => false end
  then run = Panic "init exiting"
  else exists e st1, trap_begin c tf st = Ok (e, st1) /\ pinv (procs st1) /\ dev_ok bytes (devs st1)
    /\ ticks st1 = (if timer tf && (c =? 0)%nat then u32 (ticks st + 1) else ticks st)
    /\ (timer tf && (c =? 0)%nat = true -> forall i, (i < NPROC)%nat ->
          pchan (tab (procs st) i) = Some (CAddr TICKS) -> state (tab (procs st1) i) <> SLEEPING)
    /\ match cpus (procs st) c with
       | None => run = Ok (Returned, c, st1)
       | Some me =>
           if dies tf st me then run = Ok (Exited, c, st1) /\ state (tab (procs st1) me) = ZOMBIE /\ cpus (procs st1) c = None
           else (forall i, killed (tab (procs st1) i)
                   = killed (tab (procs st) i) || (negb (handled (trapno tf)) && bool_decide (i = me)))
             /\ if timer tf
                then state (tab (procs st1) me) = RUNNABLE /\ cpus (procs st1) c = None
                  /\ let '(c2, st2) := others st1 in
                     if killed (tab (procs st2) me) && user_mode tf
                     then if bool_decide (initproc (procs st2) = Some me) then run = Panic "init exiting"
                          else exists ps2, run = Ok (Exited, c2, with_procs st2 ps2) /\ pinv ps2
                            /\ state (tab ps2 me) = ZOMBIE /\ cpus ps2 c2 = None
                     else run = Ok (Returned, c2, st2)
                else run = Ok (Returned, c, st1) /\ state (tab (procs st1) me) = RUNNING /\ cpus (procs st1) c = Some me
       end
    /\ forall c2 st2, run = Ok (Returned, c2, st2) -> user_mode tf = true ->
         exists me, cpus (procs st2) c2 = Some me /\ killed (tab (procs st2) me) = false.
Proof.
  intros Hpolls Hgood Hd Hs Hu Ho handlers run.
  pose proof (trap_begin_ok (dev_ok bytes) c tf st (devices_keep polls bytes ps Hpolls Hgood) Hd Hs Hu) as Hb.
  fold handlers in Hb. unfold run, trap. destruct (negb (handled _) && _); [by rewrite Hb|].
  destruct (match cpus (procs st) c with Some me => _ | None => false end) eqn:Einit; [by rewrite Hb|].
  destruct Hb as (e & st1 & E & P1 & D1 & T1 & W1 & Hc). exists e, st1. rewrite E. cbn [mbind res_bind].
  do 5 (split; [done|]).
  destruct (cpus (procs st) c) as [me|] eqn:Ec.
  2:{ destruct Hc as [-> Hc]. unfold trap_resume, exit_if_killed. rewrite Hc. cbn [mbind res_bind]. split; [done|].
      intros c2 st2 _ Hm. by destruct (Hu Hm) as (me & ? & _). }
  destruct (dies tf st me) eqn:Ed; [destruct Hc as (-> & ? & ?); split; [done|]; by intros c2 st2 [=]|].
  assert (Hfork : forall st' : tstate (devices DD UU), forking (tab (procs st') me) = forking (tab (procs st) me) ->
    user_mode tf = true -> forking (tab (procs st') me) = None).
  { intros st' -> Hm. destruct (Hu Hm) as (me' & [= <-] & Hf). exact Hf. }
  destruct Hc as (He & Hst & Hc & Hf & Hk). destruct (timer tf).
  - subst e. cbn [mbind res_bind]. pose proof (Ho me eq_refl st1 P1 D1 Hst Hc) as Hr.
    destruct (others st1) as [c2 st2] eqn:Eo. destruct Hr as (P2 & _ & C2 & F2 & _).
    pose proof (trap_resume_ok c2 tf st2 me P2 C2 (Hfork st2 (eq_trans F2 Hf))) as Hx.
    destruct (killed (tab (procs st2) me) && user_mode tf) eqn:Ek.
    + destruct (bool_decide (initproc (procs st2) = Some me)).
      * rewrite Hx. cbn [mbind res_bind]. split; [done|]. done.
      * destruct Hx as (ps2 & -> & ? & ? & ?). cbn [mbind res_bind].
        split; [split; [done|]; split; [done|]; split; [done|]; by exists ps2|]. by intros ? ? [=].
    + rewrite Hx. cbn [mbind res_bind]. split; [done|]. intros c3 st3 [= <- <-] Hm. exists me.
      split; [done|]. by rewrite Hm, andb_true_r in Ek.
  - subst e. cbn [mbind res_bind]. pose proof (trap_resume_ok c tf st1 me P1 Hc (Hfork st1 Hf)) as Hx.
    assert (killed (tab (procs st1) me) && user_mode tf = false) as Ek.
    { rewrite Hk, bool_decide_true by done. unfold dies in Ed. by rewrite andb_true_r, andb_comm. }
    rewrite Ek in Hx. rewrite Hx. cbn [mbind res_bind]. split; [done|]. intros c3 st3 [= <- <-] Hm. exists me.
    split; [done|]. by rewrite Hm, andb_true_r in Ek.
Qed.

(** Init runs in user mode on CPU 0 when the clock ticks; the simulated drive and
    port of the two drivers, with nothing to do.  Init is the next to run. *)
Definition idle_disk : list block := replicate (Z.to_nat 1000) zeroes.
Definition idle_ide : ide sim := mkIde [] [] None true demo_drive ∅.
Definition idle_devices : devices sim usim :=
  mkDevices idle_ide (mkKbd 0 []) (mkPort true (mkUsim 3 12 1 [] false [])) booted boot_tty.

Lemma idle_ide_rel : ide_rel idle_ide (mkBcache [] [] idle_disk []) [].
Proof.
  split; cbn [ib bufs qnext idequeue havedisk1 disk calls idle_ide]; try done.
  - by apply Forall_replicate.
  - by apply NoDup_nil_2.
  - intros n Hn. unfold cont, adisk, idle_disk. cbn [drive disk idle_ide].
    change FSSIZE with 1000 in Hn. by rewrite lookup_replicate_2 by lia.
  - by left.
  - by intros i Hi%elem_of_nil.
  - by intros i [x Hx].
Qed.

Lemma idle_devices_ok : dev_ok 1 idle_devices.
Proof.
  split; cbn.
  - eexists _, _. exact idle_ide_rel.
  - split; done.
  - constructor.
  - split; reflexivity.
  - lia.
  - apply booted_inv.
  - eexists. exact boot_rel.
Qed.

Definition ticking : tstate (devices sim usim) :=
  mkT 41 (match schedule 0 0 booted_procs with Some s => s | None => booted_procs end) idle_devices 0 [].
Definition tick_frame : tframe := mkTframe 32 0x23 0x1000 0.

Lemma ticking_inv : pinv (procs ticking).
Proof.
  destruct (schedule 0 0 booted_procs) as [s|] eqn:E; unfold ticking; rewrite E; cbn [procs]; [|apply booted_procs_inv].
  exact (schedule_inv 0 0 booted_procs s booted_procs_inv eq_refl E).
Qed.

Definition init_next (st : tstate (devices sim usim)) : nat * tstate (devices sim usim) :=
  (0%nat, match schedule 0 0 (procs st) with Some s => with_procs st s | None => st end).

Lemma init_next_ok : reschedules (dev_ok 1) 0 0 init_next.
Proof.
  intros st Hs Hd Hr Hc. unfold init_next. destruct (schedule 0 0 (procs st)) as [s|] eqn:E.
  - pose proof (schedule_inv 0 0 _ _ Hs Hc E) as Hs'. unfold schedule in E. rewrite decide_True in E by done.
    injection E as <-. by repeat (split; [done|]).
  - unfold schedule in E. by rewrite decide_True in E.
Qed.

Lemma trap_keeps_processes_witness : exists st1,
  @trap_begin _ (device_handlers 2 1 []) 0 tick_frame ticking = Ok (Yielded, st1)
  /\ ticks st1 = 42 /\ state (tab (procs st1) 0) = RUNNABLE
  /\ @trap _ (device_handlers 2 1 []) 0 tick_frame init_next ticking = Ok (Returned, 0%nat, snd (init_next st1)).
Proof.
  pose proof (trap_keeps_processes 2 1 [] 0 tick_frame init_next ticking) as Ht.
  assert (cpus (procs ticking) 0 = Some 0%nat) as Ec by reflexivity.
  rewrite Ec in Ht. cbn [negb handled orb] in Ht.
  destruct Ht as (e & st1 & E & _ & _ & T & _ & (Hk & Hst & _ & Hrun) & _).
  - apply le_n.
  - reflexivity.
  - exact idle_devices_ok.
  - exact ticking_inv.
  - intros _. exists 0%nat. split; reflexivity.
  - intros me [= <-]. exact init_next_ok.
  - assert (e = Yielded) as Ee.
    { apply (f_equal (fun r => match r with Ok (x, _) => x | _ => Exited end)) in E.
      cbn in E. rewrite <- E. vm_compute. reflexivity. }
    exists st1. split; [rewrite E, Ee; reflexivity|]. split; [rewrite T; reflexivity|]. split; [exact Hst|].
    assert (killed (tab (procs (snd (init_next st1))) 0) = false) as Hn; [|revert Hrun; cbn [init_next snd] in Hn |- *; rewrite Hn; intros Hrun; exact Hrun].
    unfold init_next. cbn [snd]. unfold schedule. rewrite decide_True by exact Hst.
    cbn [procs with_procs tab set_tab set_cpu]. rewrite tab_upd_eq. cbn [killed set_chan set_state].
    rewrite Hk. reflexivity.
Defined.

(** Any process may kill process 1; the next trap of init in user mode stops the
    kernel. *)
Example kill_init_panics : exists ps, kill 1 (procs ticking) = Some ps
  /\ @trap _ (device_handlers 2 1 []) 0 tick_frame init_next (with_procs ticking ps) = Panic "init exiting".
Proof. eexists. split; [reflexivity|]. vm_compute. reflexivity. Qed.
