(* ===== verification/Screen.v ===== *)
(** [aidraw] on the devices: the device branches of src/file.c, [canvas_blit] of
    src/drawlib.c, and [set_display_mode], [wait_for_keypress] and [main] of
    src/aidraw.c, on top of the models of the display, the console and the
    drawing language.

    [machine] is the two devices.  [open] of a device node can fail for want of a
    descriptor or a file, so each call has a flag that says whether it succeeds.
    The process sleeps in [wait_for_keypress]; [keys] are the interrupts that
    come while it does. *)
From stdpp Require Import base strings numbers list.
From S2P Require Import Prelude CString Printf Drawlib AiDraw DrawSafe Proc Locks Console Tty Display.
Local Open Scope Z_scope.

Definition NDEV : Z := 10.
Definition DISPLAY_CHUNK : Z := 1000.

(** An open device node. *)
Record dfile : Type := mkDfile {
  readable : bool;
  writable : bool;
  idev : Z;
  major : Z;
  minor : Z;
  off : Z;
  dev_payload : Z }.

(** [open(path, O_WRONLY)] and [open(path, O_RDWR)] of the nodes [init] makes. *)
Definition open_display : dfile := mkDfile false true 1 2 1 0 0.
Definition open_console : dfile := mkDfile true true 1 1 1 0 0.

Section Devices.
Context {V : Type} `{Vga V}.

Record machine : Type := mkMachine { dsp : display V; con : tty }.

Definition on_console (s : console) (m : machine) : machine :=
  mkMachine (dsp m) (mkTty (inp (con m)) s (rebooting (con m)) (woken (con m))).

Definition unknown_ioctl : list Z :=
  cstr "Got unknown IOCTL for dev=%d, major=%d, minor=%d, %d=%d" ++ [10].

(** The device's own return value is dropped. *)
Definition fileioctl (f : dfile) (param value : Z) (m : machine) : res (Z * dfile * machine) :=
  if (major f <? 0) || (NDEV <=? major f) then Fault
  else if major f =? 1 then
    let '(_, payload, t) := consoleioctl param value (dev_payload f) (con m) in
    Ok (0, mkDfile (readable f) (writable f) (idev f) (major f) (minor f) (off f) payload,
        mkMachine (dsp m) t)
  else if major f =? 2 then
    let '(_, d) := displayioctl param value (dsp m) in Ok (0, f, mkMachine d (con m))
  else
    '(_, s) ← cprintf unknown_ioctl
                [AInt (idev f); AInt (major f); AInt (minor f); AInt param; AInt value] (out (con m));
    Ok (-1, f, on_console s m).

Definition filewrite_dev (f : dfile) (addr : list Z) (m : machine) : res (Z * dfile * machine) :=
  if negb (writable f) then Ok (-1, f, m)
  else if (major f <? 0) || (NDEV <=? major f) || negb ((major f =? 1) || (major f =? 2))
  then Ok (-1, f, m)
  else if major f =? 1 then
    '(n, s) ← consolewrite (dev_payload f) addr (out (con m));
    Ok (n, f, on_console s m)
  else
    let '(n, off', d) := displaywrite (off f) addr (dsp m) in
    Ok (n, mkDfile (readable f) (writable f) (idev f) (major f) (minor f) off' (dev_payload f),
        mkMachine d (con m)).

(** [inl] is the return value -1 of a file that cannot be read. *)
Definition fileread_dev (f : dfile) (killed : bool) (n : nat) (dst : list Z) (m : machine)
    : res ((Z + ending) * machine) :=
  if negb (readable f) then Ok (inl (-1), m)
  else if (major f <? 0) || (NDEV <=? major f) || negb (major f =? 1) then Ok (inl (-1), m)
  else
    '(x, i) ← consoleread killed n dst (inp (con m));
    Ok (inr x, mkMachine (dsp m) (mkTty i (out (con m)) (rebooting (con m)) (woken (con m)))).

(** ** drawlib.c *)

Definition blit_body (canvas : list Z) (st : Z * dfile * machine)
    : res (Z * dfile * machine + Z * machine) :=
  let '(offset, f, m) := st in
  if CANVAS_SIZE <=? offset then Ok (inr (0, m)) else
  let chunk := CANVAS_SIZE - offset in
  let chunk := if DISPLAY_CHUNK <? chunk then DISPLAY_CHUNK else chunk in
  '(written, f, m) ← filewrite_dev f (take (Z.to_nat chunk) (drop (Z.to_nat offset) canvas)) m;
  if negb (written =? chunk) then Ok (inr (-1, m))
  else Ok (inl (offset + DISPLAY_CHUNK, f, m)).

Definition canvas_blit (opens : bool) (canvas : list Z) (m : machine) : res (Z * machine) :=
  if negb opens then Ok (-1, m) else
  loop_ 65 (blit_body canvas) (0, open_display, m).

(** ** aidraw.c *)

Definition set_display_mode (opens : bool) (mode : Z) (m : machine) : res (Z * machine) :=
  if negb opens then Ok (-1, m) else
  '(rc, _, m) ← fileioctl open_display 1 mode m;
  Ok (rc, m).

(** [f] is file descriptor 0.  [None]: no key has come yet. *)
Definition wait_for_keypress (ps : list dump) (keys : list Z) (f : dfile) (m : machine)
    : res (option Z * machine) :=
  '(rc, f, m) ← fileioctl f 2 1 m;
  if rc <? 0 then Ok (Some (-1), m) else
  '(x, m) ← fileread_dev f false 1 [] m;
  '(x, m) ←
    match x with
    | inr (Asleep dst n) =>
        '(_, t) ← consoleintr ps keys (con m);
        fileread_dev f false n dst (mkMachine (dsp m) t)
    | _ => Ok (x, m)
    end;
  match x with
  | inr (Asleep _ _) => Ok (None, m)
  | inr (Return [_]) =>
      '(rc, _, m) ← fileioctl f 2 0 m;
      Ok (Some (if rc <? 0 then -1 else 0), m)
  | _ => '(_, _, m) ← fileioctl f 2 0 m; Ok (Some (-1), m)
  end.

(** What [main] leaves: the message it printed, or success. *)
Inductive verdict : Type :=
  | Message (text : list Z)
  | Drawn.

(** [main] up to the wait: [inl] when it has already ended.  [argv] is the
    words after the program's name, [canvas] and [response] what the allocator
    returned, [query] the answer of the agent. *)
Definition main_draw {F : Fuel} (argv : list (list Z)) (canvas : option (list Z)) (query : option (list Z))
    (opens13 opens_blit opens3 : bool) (m : machine) : res (verdict * machine + list Z * machine) :=
  if bool_decide (argv = []) then Ok (inl (Message (cstr "usage: aidraw prompt..."), m)) else
  prompt ← join_prompt argv (replicate (Z.to_nat AI_PROMPT_MAX) 0);
  match prompt with
  | None => Ok (inl (Message (cstr "aidraw: prompt too long"), m))
  | Some _ =>
  match canvas with
  | None => Ok (inl (Message (cstr "aidraw: allocation failed"), m))
  | Some canvas =>
  match query with
  | None => Ok (inl (Message (cstr "aidraw: ai query failed"), m))
  | Some response =>
      r ← render canvas response;
      match r with
      | inl line =>
          Ok (inl (Message (cstr "aidraw: invalid drawing command '" ++ line ++ cstr "'"), m))
      | inr (_, false) => Ok (inl (Message (cstr "aidraw: response missing END"), m))
      | inr (canvas, true) =>
          '(rc, m) ← set_display_mode opens13 0x13 m;
          if rc <? 0 then Ok (inl (Message (cstr "aidraw: failed to switch to VGA mode"), m)) else
          '(rc, m) ← canvas_blit opens_blit canvas m;
          if rc <? 0 then
            '(_, m) ← set_display_mode opens3 3 m;
            Ok (inl (Message (cstr "aidraw: failed to blit canvas"), m))
          else Ok (inr (canvas, m))
      end
  end end end.

(** The rest of [main]. *)
Definition main_wait (ps : list dump) (keys : list Z) (f : dfile) (opens3 : bool) (m : machine)
    : res (option verdict * machine) :=
  '(k, m) ← wait_for_keypress ps keys f m;
  match k with
  | None => Ok (None, m)
  | Some rc =>
      if rc <? 0 then
        '(_, m) ← set_display_mode opens3 3 m;
        Ok (Some (Message (cstr "aidraw: failed to read keypress")), m)
      else
        '(rc, m) ← set_display_mode opens3 3 m;
        if rc <? 0 then Ok (Some (Message (cstr "aidraw: failed to restore text mode")), m)
        else Ok (Some Drawn, m)
  end.
End Devices.
Arguments machine V : clear implicits.

(** * Blitting *)

Section Blit.
Context {V : Type} `{Vga V}.
Implicit Types m : machine V.

Definition framebuffer : Z := KERNBASE + 0xa0000.

Lemma store_bytes_ext (m m' : mem) a l x : m x = m' x -> store_bytes m a l x = store_bytes m' a l x.
Proof. intros E. unfold store_bytes. by rewrite E. Qed.

Lemma load_bytes_ext (m m' : mem) a n : (forall x, m x = m' x) -> load_bytes m a n = load_bytes m' a n.
Proof. intros E. unfold load_bytes. apply map_ext. intros k. apply E. Qed.

(** Neither write nor change of memory. *)
Definition quiet (o : dev_op) : Prop := forall p x, is_ioctl p x o = false.

(** After [offset] bytes: they are in the frame buffer, by quiet operations only. *)
Definition blit_inv (canvas : list Z) m0 (st : Z * dfile * machine V) : Prop :=
  let '(offset, f, m) := st in
  0 <= offset <= CANVAS_SIZE /\ offset mod DISPLAY_CHUNK = 0
  /\ f = mkDfile false true 1 2 1 offset 0 /\ con m = con m0
  /\ (exists ops, Forall quiet ops /\ dsp m = dev_run ops (dsp m0))
  /\ forall x, ram (dsp m) x = store_bytes (ram (dsp m0)) framebuffer (take (Z.to_nat offset) canvas) x.

Lemma blit_step canvas m0 offset f m : canvas_len canvas -> blit_inv canvas m0 (offset, f, m) ->
  offset < CANVAS_SIZE ->
  exists st', blit_body canvas (offset, f, m) = Ok (inl st') /\ blit_inv canvas m0 st'
  /\ fst (fst st') = offset + DISPLAY_CHUNK.
Proof.
  intros Hc (Ho & Hmod & -> & Hcon & (ops & Hq & Hd) & Hram) Hlt.
  unfold canvas_len in Hc. change CANVAS_SIZE with 64000 in *. unfold DISPLAY_CHUNK in *.
  assert (offset + 1000 <= 64000) as Hend by (Z.div_mod_to_equations; lia).
  unfold blit_body. change CANVAS_SIZE with 64000. unfold DISPLAY_CHUNK.
  replace (64000 <=? offset) with false by lia.
  replace (if 1000 <? 64000 - offset then 1000 else 64000 - offset) with 1000
    by (destruct (Z.ltb_spec 1000 (64000 - offset)); lia).
  set (bytes := take (Z.to_nat 1000) (drop (Z.to_nat offset) canvas)).
  assert (Z.of_nat (length bytes) = 1000) as Hlen
    by (subst bytes; rewrite length_take, length_drop; lia).
  unfold filewrite_dev. cbn [writable major negb Z.ltb Z.leb Z.eqb orb].
  change ((2 <? 0) || (NDEV <=? 2) || negb ((2 =? 1) || (2 =? 2))) with false. cbn iota.
  change (2 =? 1) with false. unfold displaywrite. cbn [off]. ok. rewrite Hlen.
  change (negb (1000 =? 1000)) with false. cbn iota.
  eexists. split; [reflexivity|]. split; [|done].
  unfold blit_inv. change CANVAS_SIZE with 64000. unfold DISPLAY_CHUNK.
  split; [lia|]. split; [Z.div_mod_to_equations; lia|].
  split; [cbn; by rewrite u32_id by lia|]. split; [done|]. split.
  - exists (ops ++ [Write offset bytes]). split.
    + apply Forall_app. split; [done|]. by apply Forall_singleton.
    + rewrite dev_run_app, <- Hd. unfold dev_run. cbn [fold_left dev_step]. unfold displaywrite. done.
  - intros x. cbn [dsp ram]. rewrite (store_bytes_ext _ _ _ _ _ (Hram x)).
    replace (KERNBASE + 655360 + offset)
      with (framebuffer + Z.of_nat (length (take (Z.to_nat offset) canvas)))
      by (unfold framebuffer; rewrite length_take; lia).
    rewrite store_bytes_app. f_equal. subst bytes.
    rewrite <- (take_drop (Z.to_nat offset) (take (Z.to_nat (offset + 1000)) canvas)).
    rewrite take_take, Nat.min_l, skipn_firstn_comm by lia. do 2 f_equal. lia.
Qed.

Lemma blit_ok canvas m : canvas_len canvas ->
  exists m', canvas_blit true canvas m = Ok (0, m') /\ con m' = con m
  /\ (exists ops, Forall quiet ops /\ dsp m' = dev_run ops (dsp m))
  /\ load_bytes (ram (dsp m')) framebuffer (Z.to_nat CANVAS_SIZE) = canvas.
Proof.
  intros Hc.
  destruct (loop_rule (blit_body canvas) (blit_inv canvas m)
    (fun '(rc, m') => rc = 0 /\ con m' = con m
       /\ (exists ops, Forall quiet ops /\ dsp m' = dev_run ops (dsp m))
       /\ load_bytes (ram (dsp m')) framebuffer (Z.to_nat CANVAS_SIZE) = canvas)
    (fun '(offset, _, _) => 65 - offset / DISPLAY_CHUNK) 65 (0, open_display, m))
    as ([rc m'] & E & -> & Hcon & Hops & Hload).
  - split; [done|]. split; [done|]. split; [done|]. split; [done|]. split; [by exists []|].
    intros x. rewrite store_bytes_out; [done|].
    change (Z.of_nat (length (take (Z.to_nat 0) canvas))) with 0. lia.
  - intros [[offset f] m1] (Ho & _). change CANVAS_SIZE with 64000 in Ho. unfold DISPLAY_CHUNK.
    Z.div_mod_to_equations; lia.
  - change (0 / DISPLAY_CHUNK) with 0. lia.
  - intros [[offset f] m1] HI. destruct (decide (offset < CANVAS_SIZE)) as [Hlt|Hge].
    + left. destruct (blit_step canvas m offset f m1 Hc HI Hlt) as ([[o' f'] m2] & -> & HI' & E').
      cbn [fst] in E'. subst o'. eexists. split; [done|]. split; [done|].
      unfold DISPLAY_CHUNK. Z.div_mod_to_equations; lia.
    + right. destruct HI as (Ho & _ & _ & Hcon & Hops & Hram). unfold blit_body.
      replace (CANVAS_SIZE <=? offset) with true by lia. eexists. split; [reflexivity|].
      split; [done|]. split; [done|]. split; [done|].
      rewrite (load_bytes_ext _ _ _ _ Hram).
      assert (offset = CANVAS_SIZE) as -> by lia. unfold canvas_len in Hc.
      rewrite take_ge by lia. replace (Z.to_nat CANVAS_SIZE) with (length canvas) by lia.
      apply load_store_bytes.
  - exists m'. done.
Qed.
End Blit.

(** * Waiting for a key *)

(** A key that raw mode delivers: not one of the console's control keys. *)
Definition plain_key (k : Z) : Prop :=
  0 < k < 256 /\ k <> C 90 /\ k <> C 80 /\ k <> C 85 /\ k <> C 72 /\ k <> 127 /\ k <> C 68.

Lemma raw_key k : plain_key k ->
  exists c, type_char k (mkLdisc [] [] true) = mkLdisc [c] [] true /\ c <> C 68.
Proof.
  intros (Hk & H1 & H2 & H3 & H4 & H5 & H6). unfold type_char, C in *.
  rewrite !(proj2 (Z.eqb_neq k _)) by lia. cbn [orb negb andb queue editing raw_mode length].
  change (0 + 0 <? 128)%nat with true. cbn iota. eexists. split; [reflexivity|].
  destruct (Z.eqb_spec k 13); [done|]. unfold s8. change (2 ^ 7) with 128. change (2 ^ 8) with 256.
  Z.div_mod_to_equations. lia.
Qed.

Lemma take_key c : c <> C 68 ->
  exists b, take_bytes false 1 [] [c] = (Return [b], []).
Proof.
  intros Hc. cbn [take_bytes]. rewrite (proj2 (Z.eqb_neq c _)) by done.
  destruct (c =? 10); eauto.
Qed.

Section Session.
Context {V : Type} `{Vga V}.
Implicit Types m : machine V.
Notation idle := (mkLdisc [] [] false).

(** The console after each step of the wait. *)
Lemma wait_ok ps k m : tty_rel (con m) idle -> plain_key k ->
  exists t, wait_for_keypress ps [k] open_console m = Ok (Some 0, mkMachine (dsp m) t)
  /\ tty_rel t idle.
Proof.
  intros Ht Hk. unfold wait_for_keypress, fileioctl. cbn [major open_console dev_payload].
  change ((1 <? 0) || (NDEV <=? 1)) with false. change (1 =? 1) with true. cbn iota.
  destruct (consoleioctl_raw 1 0 (con m) idle Ht) as (t1 & -> & Ht1 & _). ok.
  change (set_raw 1 idle) with (mkLdisc [] [] true) in Ht1. change (0 <? 0) with false. cbn iota.
  unfold fileread_dev. cbn [readable major negb dsp con off writable idev minor dev_payload].
  change (negb (readable open_console)) with false. cbn iota.
  change ((1 <? 0) || (NDEV <=? 1) || negb (1 =? 1)) with false. cbn iota.
  destruct Ht1 as [Hi1 Hs1].
  destruct (consoleread_spec false 1 [] (inp t1) (mkLdisc [] [] true) Hi1) as (i2 & -> & Hi2). ok.
  change (take_bytes false 1 [] (queue (mkLdisc [] [] true))) with (Asleep [] 1, @nil Z) in *.
  cbn [fst snd con dsp editing raw_mode] in *.
  set (t2 := mkTty i2 (out t1) (rebooting t1) (woken t1)). ok. cbn [con].
  destruct (consoleintr_spec ps [k] t2 (mkLdisc [] [] true)) as (t3 & -> & [Hi3 Hs3]);
    [by split|apply Forall_singleton; unfold plain_key in Hk; lia|]. ok. cbn [fold_left] in Hi3.
  destruct (raw_key k Hk) as (c & Ec & Hc4). rewrite Ec in Hi3.
  destruct (consoleread_spec false 1 [] (inp t3) (mkLdisc [c] [] true) Hi3) as (i4 & E4 & Hi4).
  cbn [con]. rewrite E4. ok. destruct (take_key c Hc4) as (b & Eb). cbn [queue] in Hi4 |- *.
  rewrite Eb in Hi4 |- *. cbn [fst snd dsp con editing raw_mode] in Hi4 |- *.
  set (t4 := mkTty i4 (out t3) (rebooting t3) (woken t3)).
  destruct (consoleioctl_raw 0 0 t4 (mkLdisc [] [] true)) as (t5 & -> & Ht5 & _); [by split|].
  cbn. exists t5. split; [done|]. exact Ht5.
Qed.

Lemma set_display_mode_ok mode m :
  set_display_mode true mode m = Ok (0, mkMachine (dev_step (dsp m) (Ioctl 1 mode)) (con m)).
Proof.
  unfold set_display_mode, fileioctl. cbn [negb major open_display].
  change ((2 <? 0) || (NDEV <=? 2)) with false. change (2 =? 1) with false. change (2 =? 2) with true.
  cbn iota. cbn [dev_step]. by destruct (displayioctl 1 mode (dsp m)).
Qed.

(** Both halves of [main], when nothing fails. *)
Lemma main_draw_ok {F : Fuel} argv p c cmds m :
  argv <> [] -> join_prompt argv (replicate (Z.to_nat AI_PROMPT_MAX) 0) = Ok (Some p) ->
  canvas_ok c -> Forall wf_command cmds -> Forall drawable cmds ->
  exists c0 pic m', canvas_clear c 0 = Ok c0 /\ exec_all cmds c0 = Ok pic
  /\ main_draw argv (Some c) (Some (show_program cmds)) true true true m = Ok (inr (pic, m'))
  /\ con m' = con m
  /\ (exists ops, Forall quiet ops /\ dsp m' = dev_run (Ioctl 1 0x13 :: ops) (dsp m))
  /\ load_bytes (ram (dsp m')) framebuffer (Z.to_nat CANVAS_SIZE) = pic.
Proof.
  intros Hargv Hp Hc Hwf Hd. destruct (render_shown c cmds Hc Hwf Hd) as (c0 & pic & E0 & E1 & Er & Hpic).
  unfold main_draw. rewrite bool_decide_eq_false_2, Hp by done. ok. rewrite Er. ok.
  rewrite set_display_mode_ok. ok. change (0 <? 0) with false. cbn iota.
  destruct (blit_ok pic (mkMachine (dev_step (dsp m) (Ioctl 1 19)) (con m)) (proj1 Hpic))
    as (m' & -> & Hcon & (ops & Hq & Hops) & Hload). ok.
  exists c0, pic, m'. split; [done|]. split; [done|]. split; [done|]. split; [done|].
  split; [|done]. exists ops. by split.
Qed.

Lemma main_wait_ok ps k m : tty_rel (con m) idle -> plain_key k ->
  exists m', main_wait ps [k] open_console true m = Ok (Some Drawn, m')
  /\ dsp m' = dev_step (dsp m) (Ioctl 1 3) /\ tty_rel (con m') idle.
Proof.
  intros Ht Hk. unfold main_wait. destruct (wait_ok ps k m Ht Hk) as (t & -> & Ht'). ok.
  change (0 <? 0) with false. cbn iota. rewrite set_display_mode_ok. ok. change (0 <? 0) with false.
  cbn iota. eexists. split; [reflexivity|]. by split.
Qed.
End Session.

(** C2: A whole [aidraw] session.  With a prompt that fits, an answer that is the
    text of any program of the drawing language within the coordinate range, and
    the display in text mode, [main] switches to graphics mode and the 64000
    bytes of the frame buffer are the canvas the program draws; whatever then
    happens to memory, a key press ends the session: text memory, the cursor and
    the palette are what they were before, and the console is back in line mode
    with nothing left to read. *)
Theorem aidraw_session {F : Fuel} {V} `{Vga V} (m : machine V) argv p c cmds ps k f :
  argv <> [] -> join_prompt argv (replicate (Z.to_nat AI_PROMPT_MAX) 0) = Ok (Some p) ->
  canvas_ok c -> Forall wf_command cmds -> Forall drawable cmds ->
  text_saved (dsp m) = false -> tty_rel (con m) (mkLdisc [] [] false) -> plain_key k ->
  exists c0 pic m1 m2,
    canvas_clear c 0 = Ok c0 /\ exec_all cmds c0 = Ok pic
    /\ main_draw argv (Some c) (Some (show_program cmds)) true true true m = Ok (inr (pic, m1))
    /\ load_bytes (ram (dsp m1)) framebuffer (Z.to_nat CANVAS_SIZE) = pic
    /\ main_wait ps [k] open_console true (mkMachine (dev_step (dsp m1) (Memory f)) (con m1))
       = Ok (Some Drawn, m2)
    /\ load_bytes (ram (dsp m2)) textmem TEXT_MEM_SIZE = load_bytes (ram (dsp m)) textmem TEXT_MEM_SIZE
    /\ Display.cursor (vga (dsp m2)) = Display.cursor (vga (dsp m))
    /\ same_palette (vga (dsp m2)) (vga (dsp m))
    /\ tty_rel (con m2) (mkLdisc [] [] false).
Proof.
  intros Hargv Hp Hc Hwf Hd Hs Ht Hk.
  destruct (main_draw_ok argv p c cmds m Hargv Hp Hc Hwf Hd)
    as (c0 & pic & m1 & E0 & E1 & Em & Hcon & (ops & Hq & Hops) & Hload).
  destruct (main_wait_ok ps k (mkMachine (dev_step (dsp m1) (Memory f)) (con m1)))
    as (m2 & Ew & Hd2 & Ht2); [by rewrite <- Hcon in Ht|done|].
  exists c0, pic, m1, m2. do 3 (split; [done|]). split; [done|]. split; [done|].
  assert (dsp m2 = dev_run (Ioctl 1 0x13 :: (ops ++ [Memory f]) ++ [Ioctl 1 3]) (dsp m)) as E2.
  { rewrite Hd2. cbn [dsp]. rewrite Hops.
    change (Ioctl 1 0x13 :: (ops ++ [Memory f]) ++ [Ioctl 1 3])
      with ([Ioctl 1 0x13] ++ (ops ++ [Memory f]) ++ [Ioctl 1 3]).
    change (Ioctl 1 0x13 :: ops) with ([Ioctl 1 0x13] ++ ops). by rewrite !dev_run_app. }
  assert (forall q x, Forall (fun o => is_ioctl q x o = false) (ops ++ [Memory f])) as Hno.
  { intros q x. apply Forall_app. split; [|by apply Forall_singleton].
    eapply Forall_impl; [exact Hq|]. intros o Ho. apply Ho. }
  destruct (display_restores (dsp m) (ops ++ [Memory f]) Hs (Hno 1 3)) as (Htext & Hcur & _ & _ & Hpal).
  rewrite E2. split; [done|]. split; [done|]. split; [|done]. by apply Hpal.
Qed.

Lemma aidraw_session_witness :
  exists c0 pic m1 m2,
    canvas_clear blank_canvas 0 = Ok c0 /\ exec_all (F := 0%nat) house c0 = Ok pic
    /\ main_draw (F := 0%nat) [cstr "a"; cstr "house"] (Some blank_canvas) (Some (show_program house)) true true true
         (mkMachine boot_display boot_tty) = Ok (inr (pic, m1))
    /\ load_bytes (ram (dsp m1)) framebuffer (Z.to_nat CANVAS_SIZE) = pic
    /\ main_wait [] [32] open_console true (mkMachine (dev_step (dsp m1) (Memory (fun _ _ => 255))) (con m1))
       = Ok (Some Drawn, m2).
Proof.
  destruct (aidraw_session (F := 0%nat) (mkMachine boot_display boot_tty) [cstr "a"; cstr "house"]
    (cstr "a house" ++ replicate 505 0) blank_canvas house [] 32 (fun _ _ => 255))
    as (c0 & pic & m1 & m2 & E0 & E1 & Em & Hl & Ew & _).
  - discriminate.
  - vm_compute. reflexivity.
  - apply blank_canvas_ok.
  - apply house_drawable.
  - apply house_drawable.
  - reflexivity.
  - apply boot_rel.
  - unfold plain_key, C. lia.
  - exists c0, pic, m1, m2. split; [exact E0|]. split; [exact E1|]. split; [exact Em|]. split; [exact Hl|].
    exact Ew.
Defined.
