(* ===== verification/Demos.v ===== *)
(** Model of the graphics demonstrations src/drawdemo.c and src/imshow.c on the
    machine of [Screen.v].

    [drawdemo] draws a fixed picture with the drawing library and shows it;
    [imshow] copies an image file to the display and plays with its palette.  The
    waiting of [sleep] is left out; what the programs print is the list of
    messages they return. *)
From stdpp Require Import base strings numbers list.
From S2P Require Import Prelude CString Printf User Drawlib DrawLine AiDraw DrawSafe Proc Locks Console Tty Display Screen.
Local Open Scope Z_scope.

(** * drawdemo *)

Definition hill_xs : list Z := [18; 42; 72; 96; 58].
Definition hill_ys : list Z := [150; 112; 120; 152; 170].

(** The drawing calls of [main]. *)
Definition drawdemo_picture {F : Fuel} (c : list Z) : res (list Z) :=
  c ← canvas_clear c 9;
  c ← canvas_fillrect c 0 140 CANVAS_WIDTH 60 2;
  c ← canvas_fillcircle c 250 45 24 14;
  c ← canvas_circle c 250 45 24 15;
  c ← canvas_fillrect c 90 85 95 70 6;
  c ← canvas_rect c 90 85 95 70 15;
  c ← canvas_fillrect c 123 118 26 37 4;
  c ← canvas_rect c 123 118 26 37 15;
  c ← canvas_fillrect c 102 96 18 18 15;
  c ← canvas_fillrect c 154 96 18 18 15;
  c ← canvas_line c 90 85 138 52 4;
  c ← canvas_line c 138 52 185 85 4;
  c ← canvas_line c 91 84 138 53 4;
  c ← canvas_line c 137 53 184 84 4;
  c ← canvas_fillcircle c 47 52 18 10;
  c ← canvas_fillcircle c 68 46 15 15;
  c ← canvas_fillcircle c 86 54 18 7;
  c ← canvas_fillcircle c 58 63 17 15;
  c ← canvas_fillcircle c 77 66 15 7;
  c ← canvas_filltriangle c 18 140 54 86 98 140 8;
  c ← canvas_triangle c 18 140 54 86 98 140 15;
  c ← canvas_fillellipse c 264 112 34 18 1;
  c ← canvas_ellipse c 264 112 34 18 15;
  c ← canvas_fillpolygon c hill_xs hill_ys 5 10;
  c ← canvas_polygon c hill_xs hill_ys 5 15;
  c ← canvas_line c 240 18 265 48 12;
  c ← canvas_line c 228 30 272 52 12;
  canvas_line c 226 45 274 45 12.

Section Demo.
Context {V : Type} `{Vga V}.
Implicit Types m : machine V.

(** Up to the [sleep]: [inl] when the program has already ended. *)
Definition drawdemo_show {F : Fuel} (canvas : option (list Z)) (opens13 opens_blit opens3 : bool) (m : machine V)
    : res (verdict * machine V + list Z * machine V) :=
  match canvas with
  | None => Ok (inl (Message (cstr "drawdemo: failed to allocate canvas"), m))
  | Some c =>
      c ← drawdemo_picture c;
      '(rc, m) ← set_display_mode opens13 0x13 m;
      if rc <? 0 then Ok (inl (Message (cstr "drawdemo: failed to switch to VGA mode"), m))
      else
        '(rc, m) ← canvas_blit opens_blit c m;
        if rc <? 0 then
          '(_, m) ← set_display_mode opens3 3 m;
          Ok (inl (Message (cstr "drawdemo: failed to blit canvas"), m))
        else Ok (inr (c, m))
  end.

Definition drawdemo_end (opens3 : bool) (m : machine V) : res (verdict * machine V) :=
  '(rc, m) ← set_display_mode opens3 3 m;
  Ok (if rc <? 0 then Message (cstr "drawdemo: failed to restore text mode") else Drawn, m).

(** * imshow *)

(** [open] returns a descriptor; a failed one is [None], which the test of the
    program against 0 does not notice, so that the calls on it fail. *)
Definition show_ioctl (fd : option dfile) (param value : Z) (m : machine V) : res (Z * option dfile * machine V) :=
  match fd with
  | None => Ok (-1, fd, m)
  | Some f => '(r, f, m) ← fileioctl f param value m; Ok (r, Some f, m)
  end.

Definition show_write (fd : option dfile) (bs : list Z) (m : machine V) : res (Z * option dfile * machine V) :=
  match fd with
  | None => Ok (-1, fd, m)
  | Some f => '(r, f, m) ← filewrite_dev f bs m; Ok (r, Some f, m)
  end.

Definition show_read (img : option stream) (n : Z) : Z * list Z * option stream :=
  match img with
  | None => (-1, [], img)
  | Some st => let '(r, bs, st) := read st n in (r, bs, Some st)
  end.

(** The copying loop; [buf] is [char buf[1000]]. *)
Fixpoint imshow_copy (k : nat) (fd : option dfile) (img : option stream) (buf : list Z) (m : machine V)
    : res (list (list Z) * option dfile * machine V) :=
  match k with
  | O => Ok ([], fd, m)
  | S k =>
      let '(n, bs, img) := show_read img 1000 in
      let buf := bs ++ drop (length bs) buf in
      t1 ← (if negb (n =? 1000) then t ← printf (cstr "Huh, only read %d bytes from file" ++ [10]) [AInt n]; Ok [t] else Ok []);
      '(w, fd, m) ← show_write fd buf m;
      t2 ← (if negb (w =? 1000) then t ← printf (cstr "Huh, only wrote %d bytes to display" ++ [10]) [AInt w]; Ok [t] else Ok []);
      '(ts, fd, m) ← imshow_copy k fd img buf m;
      Ok (t1 ++ t2 ++ ts, fd, m)
  end.

Definition fade_value (fade : Z) : Z :=
  Z.lor (Z.lor (Z.lor (Z.shiftl 0x0f 24) (Z.shiftl 63 16)) (Z.shiftl fade 8)) fade.

(** [for(fade=63; fade>0; fade-=3)], [for(fade=0; fade<63; fade+=3)], and white. *)
Definition fades : list Z :=
  ((fun k => 63 - 3 * k) <$> seqZ 0 21) ++ ((fun k => 3 * k) <$> seqZ 0 21) ++ [63].

Fixpoint play (vs : list Z) (fd : option dfile) (m : machine V) : res (list (list Z) * option dfile * machine V) :=
  match vs with
  | [] => Ok ([], fd, m)
  | v :: vs =>
      '(r, fd, m) ← show_ioctl fd 2 (fade_value v) m;
      '(ts, fd, m) ← play vs fd m;
      Ok ((if r <? 0 then [cstr "Error setting palette color." ++ [10]] else []) ++ ts, fd, m)
  end.

Definition imshow (fd : option dfile) (img : option stream) (buf : list Z) (m : machine V)
    : res (list (list Z) * machine V) :=
  '(r, fd, m) ← show_ioctl fd 1 0x13 m;
  if r <? 0 then Ok ([cstr "error: ioctl to switch to VGA mode failed." ++ [10]], m)
  else
    '(t1, fd, m) ← imshow_copy 64 fd img buf m;
    '(t2, fd, m) ← play (fades ++ fades ++ fades ++ fades) fd m;
    '(r, _, m) ← show_ioctl fd 1 3 m;
    Ok (t1 ++ t2 ++ (if r <? 0 then [cstr "error: ioctl to restore screen to text failed." ++ [10]] else []), m).

End Demo.

(** * What they do *)

Lemma canvas_clear_total c col : canvas_ok c -> total canvas_ok (canvas_clear c col).
Proof.
  intros Hc. apply total_safe; [|by apply canvas_clear_safe]. destruct Hc as [Hl _]. unfold canvas_len in Hl.
  unfold canvas_clear. rewrite Hl, Z.ltb_irrefl. eauto.
Qed.

(** The side conditions of a drawing call with literal arguments. *)
Ltac literal := first [reflexivity | unfold coord; lia | unfold is_u8; lia
  | unfold coord, hill_xs, hill_ys; repeat (apply Forall_cons_2; [lia|]); apply Forall_nil_2].
Ltac draw H :=
  match goal with
  | |- total _ (canvas_clear _ _) => apply canvas_clear_total
  | |- total _ (canvas_fillrect _ _ _ _ _ _) => apply canvas_fillrect_total
  | |- total _ (canvas_fillcircle _ _ _ _ _) => apply canvas_fillcircle_total
  | |- total _ (canvas_circle _ _ _ _ _) => apply canvas_circle_total
  | |- total _ (canvas_rect _ _ _ _ _ _) => apply canvas_rect_total
  | |- total _ (canvas_line _ _ _ _ _ _) => apply canvas_line_total
  | |- total _ (canvas_filltriangle _ _ _ _ _ _ _ _) => apply canvas_filltriangle_total
  | |- total _ (canvas_triangle _ _ _ _ _ _ _ _) => apply canvas_triangle_total
  | |- total _ (canvas_fillellipse _ _ _ _ _ _) => apply canvas_fillellipse_total
  | |- total _ (canvas_ellipse _ _ _ _ _ _) => apply canvas_ellipse_total
  | |- total _ (canvas_fillpolygon _ _ _ _ _) => apply canvas_fillpolygon_total
  | |- total _ (canvas_polygon _ _ _ _ _) => apply canvas_polygon_total
  end; first [exact H | literal].

(** The picture is drawn inside the canvas. *)
Lemma drawdemo_picture_ok {F : Fuel} c : canvas_ok c -> total canvas_ok (drawdemo_picture c).
Proof.
  intros Hc. unfold drawdemo_picture. change CANVAS_WIDTH with 320.
  repeat (eapply (total_bind canvas_ok); [draw Hc|clear c Hc; intros c Hc]). draw Hc.
Qed.

Section DemoSpec.
Context {V : Type} `{Vga V}.
Implicit Types m : machine V.

(** The operations of a demonstration between its changes of mode. *)
Definition harmless (o : dev_op) : Prop := is_ioctl 1 3 o = false /\ is_ioctl 1 0x13 o = false.

(** What is on the screen before graphics mode is there after it. *)
Definition text_kept m m' : Prop :=
  load_bytes (ram (dsp m')) textmem TEXT_MEM_SIZE = load_bytes (ram (dsp m)) textmem TEXT_MEM_SIZE
  /\ Display.cursor (vga (dsp m')) = Display.cursor (vga (dsp m)) /\ same_palette (vga (dsp m')) (vga (dsp m)).

Lemma text_kept_ops m m' ops : text_saved (dsp m) = false -> Forall harmless ops ->
  dsp m' = dev_run (enter13 :: ops ++ [leave3]) (dsp m) -> text_kept m m'.
Proof.
  intros Hs Ho E. destruct (display_restores (dsp m) ops Hs) as (H1 & H2 & _ & _ & H5).
  { eapply Forall_impl; [exact Ho|]. by intros o []. }
  unfold text_kept. rewrite E. split; [done|]. split; [done|]. apply H5. eapply Forall_impl; [exact Ho|]. by intros o [].
Qed.

Lemma quiet_harmless ops : Forall quiet ops -> Forall harmless ops.
Proof. intros Hq. eapply Forall_impl; [exact Hq|]. intros o Ho. split; apply Ho. Qed.

(** [drawdemo] shows its picture and gives the text screen back, whatever happened
    to memory while it slept. *)
Theorem drawdemo_session {F : Fuel} c m (f : mem -> mem) : canvas_ok c -> text_saved (dsp m) = false ->
  exists pic m1 m2, drawdemo_picture c = Ok pic /\ drawdemo_show (Some c) true true true m = Ok (inr (pic, m1))
  /\ load_bytes (ram (dsp m1)) framebuffer (Z.to_nat CANVAS_SIZE) = pic
  /\ drawdemo_end true (mkMachine (dev_step (dsp m1) (Memory f)) (con m1)) = Ok (Drawn, m2)
  /\ con m2 = con m /\ text_kept m m2.
Proof.
  intros Hc Hs. destruct (drawdemo_picture_ok c Hc) as (pic & Ep & Hpic). unfold drawdemo_show, drawdemo_end. rewrite Ep. ok.
  rewrite set_display_mode_ok. ok. change (0 <? 0) with false. cbn iota.
  destruct (blit_ok pic (mkMachine (dev_step (dsp m) (Ioctl 1 19)) (con m)) (proj1 Hpic))
    as (m1 & -> & Hcon & (ops & Hq & Hops) & Hload). ok. change (0 <? 0) with false. cbn iota.
  exists pic, m1. eexists. do 3 (split; [done|]). rewrite set_display_mode_ok. split; [reflexivity|]. split; [done|].
  eapply (text_kept_ops _ _ (ops ++ [Memory f])); [done| |].
  - apply Forall_app. split; [by apply quiet_harmless|]. by repeat constructor.
  - cbn [dsp]. rewrite Hops. change (enter13 :: (ops ++ [Memory f]) ++ [leave3]) with ([enter13] ++ (ops ++ [Memory f]) ++ [leave3]).
    by rewrite !dev_run_app.
Qed.

(** Every step of [imshow] on the open display is a harmless operation on it. *)
Definition shows m m' : Prop := con m' = con m /\ exists ops, Forall harmless ops /\ dsp m' = dev_run ops (dsp m).
Definition is_display (fd : option dfile) : Prop := exists f, fd = Some f /\ major f = 2 /\ writable f = true.

Lemma shows_trans m m1 m2 : shows m m1 -> shows m1 m2 -> shows m m2.
Proof.
  intros [C1 (o1 & H1 & E1)] [C2 (o2 & H2 & E2)]. split; [congruence|]. exists (o1 ++ o2).
  split; [by apply Forall_app|]. by rewrite E2, E1, dev_run_app.
Qed.

Lemma show_write_ok fd bs m : is_display fd ->
  exists fd' m', show_write fd bs m = Ok (Z.of_nat (length bs), fd', m') /\ is_display fd' /\ shows m m'.
Proof.
  intros (f & -> & Hm & Hw). unfold show_write, filewrite_dev. rewrite Hw, Hm.
  change (negb true) with false. change ((2 <? 0) || (NDEV <=? 2) || negb ((2 =? 1) || (2 =? 2))) with false.
  change (2 =? 1) with false. cbv iota. destruct (displaywrite (off f) bs (dsp m)) as [[n o] d] eqn:E. ok.
  assert (n = Z.of_nat (length bs) /\ d = dev_step (dsp m) (Write (off f) bs)) as [-> ->].
  { cbn [dev_step]. rewrite E. unfold displaywrite in E. by injection E as <- <- <-. }
  eexists _, _. split; [reflexivity|]. split; [by eexists|]. split; [done|].
  exists [Write (off f) bs]. split; [by repeat constructor|done].
Qed.

Lemma show_ioctl_ok fd p x m : is_display fd ->
  exists fd', show_ioctl fd p x m = Ok (0, fd', mkMachine (dev_step (dsp m) (Ioctl p x)) (con m)) /\ is_display fd'.
Proof.
  intros (f & -> & Hm & Hw). unfold show_ioctl, fileioctl. rewrite Hm. change ((2 <? 0) || (NDEV <=? 2)) with false.
  change (2 =? 1) with false. change (2 =? 2) with true. cbv iota. cbn [dev_step].
  destruct (displayioctl p x (dsp m)) as [r d]. ok. eexists. split; [done|]. by exists f.
Qed.

Lemma printf_plain p fmt ap : forallb (fun c => negb (c =? 37)) p = true ->
  printf (p ++ fmt) ap = (out ← printf fmt ap; Ok (p ++ out)).
Proof.
  induction p as [|c p IH]; cbn [forallb app]; [by destruct (printf fmt ap)|]. intros [Hc Hp]%andb_prop.
  cbn [printf]. rewrite Hc, (IH Hp). by destruct (printf fmt ap).
Qed.

Lemma printf_number p q n : forallb (fun c => negb (c =? 37)) p = true -> forallb (fun c => negb (c =? 37)) q = true ->
  exists t, printf (p ++ [37; 100] ++ q) [AInt n] = Ok t.
Proof.
  intros Hp Hq. rewrite (printf_plain _ _ _ Hp). change ([37; 100] ++ q) with (37 :: 100 :: q). cbn [printf Z.eqb Pos.eqb negb].
  unfold print_conv. cbn [Z.eqb Pos.eqb va_word mbind res_bind].
  destruct (print_d_spec (s32 n)) as (ds & -> & _); [apply s32_range|]. cbn [mbind res_bind].
  rewrite <- (app_nil_r q), (printf_plain q [] [] Hq). cbn [printf mbind res_bind]. by eexists.
Qed.

Lemma huh_read n : exists t, printf (cstr "Huh, only read %d bytes from file" ++ [10]) [AInt n] = Ok t.
Proof. exact (printf_number (cstr "Huh, only read ") (cstr " bytes from file" ++ [10]) n eq_refl eq_refl). Qed.
Lemma huh_write n : exists t, printf (cstr "Huh, only wrote %d bytes to display" ++ [10]) [AInt n] = Ok t.
Proof. exact (printf_number (cstr "Huh, only wrote ") (cstr " bytes to display" ++ [10]) n eq_refl eq_refl). Qed.

Lemma imshow_copy_ok k : forall fd img buf m, is_display fd ->
  exists ts fd' m', imshow_copy k fd img buf m = Ok (ts, fd', m') /\ is_display fd' /\ shows m m'.
Proof.
  induction k as [|k IH]; intros fd img buf m Hfd; cbn [imshow_copy].
  { exists [], fd, m. split; [done|]. split; [done|]. split; [done|]. by exists []. }
  destruct (show_read img 1000) as [[n bs] img']. set (buf' := bs ++ _).
  assert (exists t1, (if negb (n =? 1000) then t ← printf (cstr "Huh, only read %d bytes from file" ++ [10]) [AInt n]; Ok [t] else Ok []) = Ok t1) as [t1 ->].
  { destruct (n =? 1000); [by eexists|]. destruct (huh_read n) as [t ->]. by eexists. }
  ok. destruct (show_write_ok fd buf' m Hfd) as (fd1 & m1 & -> & Hfd1 & Hs1). ok. set (w := Z.of_nat _).
  assert (exists t2, (if negb (w =? 1000) then t ← printf (cstr "Huh, only wrote %d bytes to display" ++ [10]) [AInt w]; Ok [t] else Ok []) = Ok t2) as [t2 ->].
  { destruct (w =? 1000); [by eexists|]. destruct (huh_write w) as [t ->]. by eexists. }
  ok. destruct (IH fd1 img' buf' m1 Hfd1) as (ts & fd2 & m2 & -> & Hfd2 & Hs2). ok.
  eexists _, _, _. split; [reflexivity|]. split; [done|]. by eapply shows_trans.
Qed.

Lemma play_ok vs : forall fd m, is_display fd ->
  exists fd' m', play vs fd m = Ok ([], fd', m') /\ is_display fd' /\ shows m m'.
Proof.
  induction vs as [|v vs IH]; intros fd m Hfd; cbn [play].
  { exists fd, m. split; [done|]. split; [done|]. split; [done|]. by exists []. }
  destruct (show_ioctl_ok fd 2 (fade_value v) m Hfd) as (fd1 & -> & Hfd1). ok.
  destruct (IH fd1 (mkMachine (dev_step (dsp m) (Ioctl 2 (fade_value v))) (con m)) Hfd1) as (fd2 & m2 & -> & Hfd2 & Hs2). ok.
  eexists _, _. split; [reflexivity|]. split; [done|]. eapply shows_trans; [|exact Hs2]. split; [done|].
  exists [Ioctl 2 (fade_value v)]. split; [|done]. by repeat constructor.
Qed.

(** [imshow] on the display, whatever the image file delivers, comes to its end and
    gives the text screen back, palette included. *)
Theorem imshow_session fd img buf m : is_display fd -> text_saved (dsp m) = false ->
  exists ts m', imshow fd img buf m = Ok (ts, m') /\ con m' = con m /\ text_kept m m'.
Proof.
  intros Hfd Hs. unfold imshow. destruct (show_ioctl_ok fd 1 0x13 m Hfd) as (fd1 & -> & Hfd1). ok. change (0 <? 0) with false. cbn iota.
  set (m1 := mkMachine _ _). destruct (imshow_copy_ok 64 fd1 img buf m1 Hfd1) as (t1 & fd2 & m2 & -> & Hfd2 & Hs2). ok.
  destruct (play_ok (fades ++ fades ++ fades ++ fades) fd2 m2 Hfd2) as (fd3 & m3 & -> & Hfd3 & Hs3). ok.
  destruct (show_ioctl_ok fd3 1 3 m3 Hfd3) as (fd4 & -> & _). ok.
  destruct (shows_trans _ _ _ Hs2 Hs3) as [Hc (ops & Ho & E)].
  eexists _, _. split; [reflexivity|]. split; [cbn [con]; by rewrite Hc|]. apply (text_kept_ops _ _ ops); [done|done|].
  cbn [dsp]. rewrite E. change (enter13 :: ops ++ [leave3]) with ([enter13] ++ ops ++ [leave3]). by rewrite !dev_run_app.
Qed.

End DemoSpec.
